(* ===== verification/_CoqProject ===== *)
-Q . S2P
Prelude.v
Effects.v
PyVal.v
Utf8.v
Json.v
Sha2.v
Canonical.v
Base64.v
Fermat.v
Prime25519.v
Ed25519.v
IsoTime.v
Regex.v
SchemaBase.v
Lifecycle.v
LinuxShape.v
Schema.v
Campaign.v
Evidence.v
Ipaddr.v
Live.v
LinuxVerify.v
Session.v
ReplayStore.v
Posix.v
JournalFile.v
BackendAuthority.v
Launcher.v
ProxySpecs.v
ProxyDocument.v
MutationAdmission.v
Observation.v
AdmissionLedger.v
Broker.v
Qualification.v
Text.v
Boundary.v
Der.v
Http.v
KernelData.v
Supervisor.v
SupervisorRuns.v
Custody.v
Installed.v
CustodyRuns.v
Late.v
LateRuns.v
Process.v
Channel.v
ChannelRuns.v
ChannelEnds.v
CodeView.v
CodeRuns.v
Files.v
Store.v
PeerLink.v
Observer.v
TlsCodec.v
BrokerData.v
ServerBase.v
BrokerStart.v
BrokerClose.v
BrokerIntent.v
BrokerApi.v
BrokerCreate.v
BrokerSteps.v
Server.v
Client.v
TlsRuns.v
PartKeeps.v
ServerKeeps.v
BrokerRuns.v
ServerRuns.v
ObserverRuns.v
Samples.v
LiveSamples.v
ProxySamples.v
AuthoritySamples.v
KernelSamples.v
NativeSamples.v
