(* ===== verification/Prelude.v ===== *)
(** * Verification of the harness-conformance package

    The package (src/src/harness_conformance/) decides whether a platform conforms to a harness
    and hands out evidence that others rely on.  It has two halves.  The offline half reads
    canonical JSON documents, runs a campaign of controls against an environment and turns the
    report into signed technical evidence and an unsigned acceptance candidate.  The live half
    admits native runs on Linux: three signers authorize an envelope, a session binds a run to
    it, a journal makes the run's nonce usable once, a ledger gives one run at a time the whole
    capacity, a broker executes the probes under a transcript, and the record that results is
    verified against all of it.

    This library models that code as executable functions and proves what the code promises.
    Every definition that stands for code is named after it.

    ** Conventions

    - Python data ([PyVal]): [str] is the list of its code points and [bytes] the list of its
      octets, both [list N]; [u] turns a literal into a [str].  A [value] is what a JSON
      document decodes to: [None], a boolean, an unbounded integer, a text, a list or a dict (an
      association list in insertion order).  [fld v k] is [v[k]], [py_eq] is [==] with Python's
      [True == 1], [in_lits] membership in a set of literals.  A value of another Python type
      (float, tuple, object) cannot be given to a function here; JSON floats are refused by the
      decoder's hooks before anything else sees them.
    - A call returns [res A]: [Ok] or [Raise] with the exception.  [ConformanceError] carries its
      reason code; its message and chained cause are not modelled.  Evaluation order is kept, so
      which exception escapes is a result of the model, and the guards that Python evaluates
      lazily ([and], [or], [any], [all]) are [<&&>], [<||>], [any_m], [all_m].
    - Code with state is a run [io W A] ([Effects]): the state is kept when a call raises, so
      [finally] and [except] clauses act on what was already done.

    ** Parts

    Foundations: [Prelude] (exceptions, the result monad, its inversion lemmas and tactics),
    [Effects], [PyVal], [Utf8], [Json] (the scanner and printer of [json], with their round
    trip), [Sha2] (SHA-256 and SHA-512 from FIPS 180-4), [Base64], [Regex] (the expressions the
    code matches, decided by derivatives and proved to decide their language), [IsoTime]
    ([datetime.fromisoformat] and comparisons), [Ipaddr] ([ipaddress]), [Fermat] and
    [Prime25519] (2^255 - 19 is prime), [Ed25519] (crypto.py).

    Offline half: [Canonical] (canonical.py), [SchemaBase] and [Schema] (schema.py, events.py),
    [Lifecycle] (lifecycle.py, models.py), [Campaign] (campaign.py), [Evidence] (evidence.py and
    acceptance.py), [LinuxShape] (linux_readiness.py: vocabularies, plan, record shape).

    Live half: [Live] (live.py), [LinuxVerify] (linux_readiness.py: the verification of a record),
    [Session] (live_session.py), [ReplayStore] (live_replay_store.py over any storage), [Posix]
    and [JournalFile] (the storage that is a file), [BackendAuthority]
    (live_backend_authority.py), [Launcher] (live_launcher.py), and live_mutation_admission.py
    in [ProxySpecs] (the pinned specifications), [ProxyDocument] (bounded documents and the
    interpreter of the specifications), [MutationAdmission] (profiles and quantities),
    [Observation] (the policy observer, retained releases, cleanup), [AdmissionLedger],
    [Broker] (the transcript) and [Qualification].

    Native side: [Text] (the text and octet methods of Python its parsers use), [Boundary]
    (live_linux_boundary.py: the seccomp program and a classic BPF machine, the credentials a
    socket passes, the identity of a peer), [Custody] and [Installed] (live_linux_boundary.py:
    [_RetainedCustody] as a record of descriptors and octets, with [acquire], [directory],
    [read], [read_kit], [seal], [close], and the installed manifest read through it), [Late]
    (live_linux_boundary.py: [_LateResources], the credential, the socket and the sealed memory
    file of an operation; live_supervisor.py: [_credential_spec], [_begin_fixed_resources]),
    [Channel] (live_supervisor.py: [_NativeChannel]; live_linux_boundary.py: [LinuxSyscalls],
    [CgroupLease], [UnitBoundary]) over the programs of [Process],
    [Supervisor] (live_supervisor.py: [_Lifecycle] with [open_session], [execute_fixed],
    [cancel], [close]), [Der] (live_proxy_client.py: the strict reader of certificates, their
    check against the enrolled identity, credential bundles), [Http] (live_proxy_client.py: the
    messages over a TLS stream), [KernelData] (live_proxy_server.py: auxiliary vector, ELF code
    layout, executable map, status and stat of a process), [CodeView] (live_proxy_server.py:
    [_KernelCodeFiles], its pins and the match of a map, then its state machine of ticks, phases,
    rows and comparisons).

    Proxy client and server: [Files] and [Store] (live_proxy_server.py: [_Files], [_State]),
    [PeerLink] (what [_Observer] and [_Broker] share: the guards, phases and pins of a retained
    connection to an installed service), [Observer] ([_Observer]), [TlsCodec] and [Client]
    (live_proxy_client.py: [_TLS], [_client_inputs], [execute_protected]), [ServerBase] (the state
    of [NativeProxyServer], the authority and the qualification it retains, their check),
    [BrokerData] (what a broker connection keeps of its one creation), [BrokerStart]
    ([_BrokerStart], [_BrokerEvents]), [BrokerClose] (the closing of [_Broker] and the marks of a
    failed step), [BrokerIntent] ([_BrokerIntent]), [BrokerApi] ([_BrokerApi],
    [_BrokerCreateExchange]), [BrokerCreate] ([_BrokerCreated], [_BrokerCreateResult]),
    [BrokerSteps] ([_BrokerCreateRetirement] and the methods of [_Broker]) and
    [Server] ([NativeProxyServer]: construction, accepting, serving, closing, and [main]).  A broker
    connection is a run over its link, the record of its steps and the server that owns it; the
    observer's likewise; the server hands each of its parts over and takes it back.

    [TlsRuns] holds the runs of the TLS codec.  [PartKeeps] and [ServerKeeps] show,
    part by part, which preorders of the state around it a part keeps, so that [BrokerRuns],
    [ObserverRuns] and [ServerRuns] can follow the few fields a property is about through any
    sequence of calls.

    Each of the native parts has a file of its runs, [SupervisorRuns], [CustodyRuns],
    [LateRuns] and [CodeRuns]: the commands a caller may give in any order, the log of effects of
    an outside that answers or raises at will, and the invariant of every such run.  [establish]
    of a channel forks, so [ChannelRuns] runs one program as up to three processes in any
    interleaving, each call answered by an oracle, with the pipe and the messages between them;
    [ChannelEnds] describes the other methods of the channel by the trace of their calls.

    [Samples], [LiveSamples], [ProxySamples], [AuthoritySamples], [KernelSamples] and
    [NativeSamples] hold concrete documents, kernels and runs on which the theorems with
    hypotheses are applied and the state machines are tried.

    ** How the parts meet

    [Canonical] gives every other part its documents: a document that is accepted has one byte
    form, so the digests and signatures over it bind its value.  Signatures are the class
    [SigScheme], which [Ed25519.ed25519] implements; the parts above it are proved against the
    class.  [ReplayStore] is proved against the class [Storage] with the laws [StorageOk], which
    [JournalFile.file_storage_ok] discharges for the POSIX file and over which
    [AdmissionLedger] is proved too.  [Session] takes its bindings from [BackendAuthority];
    [ReplayStore] keys its journal by them; [Observation] and [AdmissionLedger] take the profile
    of [MutationAdmission]; [Broker] works under a binding retained with that profile.
    [Supervisor] opens sessions of [Session] under the authority of [Live] and validates every
    receipt with [Session]'s check; its outside is the class [Outside], whose clock is ordered
    by [Monotonic].  [Custody] works over the class [Custodian] of system calls, which
    [CodeView] shares, adding its clock, roots and native reader as the class [Inspector];
    [Late] shares it too, with the class [Native] for the owner, the sockets and the memory files;
    [CustodyRuns.audited] is the [Custodian] that notes every descriptor opened and closed, over
    any other.  [CodeView] reads with [KernelData].  [Boundary] is proved against the class
    [ClassicBpf], and [Http] against the class [Tls] with the laws [TlsOk] of a stream.

    The parts of the proxy server work against what they need of their owner: [FileSite],
    [StoreSite], [LinkSite], [ObserverSite], [TlsSite], [ClientSite].  [ServerBase] gives the
    first instances from the class [Site] of everything outside the server, and passes the checks
    of the server's authority in as the guards of a link; [TlsCodec] is the [Tls] of [Http];
    [Store] is the [Storage] of [AdmissionLedger].  The classes [FilesKept], [StoreKept],
    [StorageKept], [LinkKept], [TlsKept] and [Aloof] say that a preorder of the owner's state is
    kept by what a part may call; the part then keeps it, whatever it does.

    ** What is shown

    - Documents: decoding and encoding are inverse on canonical documents, exactly the canonical
      ones are accepted, equal digests mean equal values or a collision, malformed input is
      refused with a [ConformanceError] where the code promises it, reading a reference is
      bounded.
    - Cryptography: the field inverse of crypto.py is the inverse by Fermat, verification always
      returns, base64url has one spelling per octet string.  That Ed25519 accepts what it signed
      is not proved here and not assumed anywhere (a nonce that is 0 modulo the order would be
      refused): theorems about signed documents leave the scheme's answer open.
    - Campaigns: the report says what the controls did, a live campaign cannot pass offline, a
      campaign cannot declare authority it has not, a PASS of a Linux record is earned by every
      check of every case.
    - Evidence: verified evidence was signed under a trusted key in force for its tenant; signed
      evidence passes every check of the verification, and the scheme is asked about the very
      octets that were signed; the evidence of a report validates and says what the report says.
    - Authority: an accepted envelope, preflight, backend authority or native record is bound to
      its documents by digest and signed by distinct keys in three roles; the session binding
      stays within every window; endpoints are private addresses.
    - State: a nonce is reserved at most once whatever the order of calls and journals; the
      journal and the ledger only grow, by rows that parse, and a doubtful write closes them;
      the ledger never lets two runs hold the capacity and lets it go only after all ten
      operations were cleaned up; the transcript is one chain of one execution, closes for
      good, and completes only when it is clean; a session runs once; no call keeps
      the lock of the journal, unless unlocking itself fails, and no refusal a descriptor, unless
      closing one fails.
    - The supervisor: every run follows one protocol, with the nonce first, each execution
      between two peer checks, cleanup before the one terminal record, COMPLETED only for ten
      passing receipts of the ten cases that were asked for; an operation that raises ends the session and frees the lock.
    - The custody: whatever the kernel answers, every descriptor is held or closed once, in
      reverse order; a file is read once and pinned; the kit is the enrolled tree; an installed
      launcher hangs on the pinned root key.
    - The late resources: the credential is read once, kept no longer than its session and lent
      as a sealed copy, and no descriptor outlives the operation it was lent for.
    - The channel: whatever the scheduler and the kernel do, a process is confined step by step in
      one order, that of [UnitBoundary] but for two steps the code takes the other way round;
      the supervisor returns only over a process that has taken every step; a forked process
      never returns; an operation is the fixed probe and cleans up after itself; cleaning up
      tries everything; the lease goes back only over an empty cgroup.
    - The retained code: every descriptor is accounted for, a failure is final, and a map that
      matches runs nothing but pinned octets, whole segments at one bias.
    - Foreign data: the seccomp program decides every call as specified; certificates and HTTP
      messages are read exactly as they are written and in no other way; the layout of an ELF
      file is its executable headers and nothing else, and no executable range of a map is left
      out.
    - The proxy server: whatever its owner calls of a broker connection, in any order, and however
      the kernel, the peers and the clocks answer, a creation goes through its milestones in one
      order, each on durable rows of the log, and a failure of the connection is final; the
      observations that are kept are one chain; a receipt is told only of an operation that was
      admitted before its probe and recorded after it; closing asks the kernel to give back every
      connection, socket, descriptor and inspection that is held, whatever failed before.
    - TLS: the socket is used only between two checks of the transport, and a message is taken in
      within its bounds.
    - The proxy's data: the interpreter of the specifications ends, and what it accepts has the
      type they describe; a profile stays within its quota; an observation is fresh, in its
      place and leaves room.

    ** Bounds and fuel

    - The JSON scanner runs with [loads_fuel], twice the length of the text and two more; the
      scanner never needs more ([Json.loads_raise]).  The interpreter's recursion limit, which
      makes CPython raise [RecursionError] on deep documents, is not modelled.
    - [Canonical.read_blocks] runs with the size of the file, since every read that does not end
      the loop returns an octet.
    - [ProxyDocument._shape] descends at most [LEVELS] = 40 levels and raises [RecursionError]
      beyond; [shape_terminates] proves that the specifications of the code never reach that,
      whatever the value, while one that refers to itself always does ([self_reference]).
    - [Custody.read_parts] and [CodeView.pread_parts] run with two more than the size, since
      every part but the last has an octet ([read_parts_enough], [pread_parts_enough]);
      [CodeView.descend] with the length of the path, whose parents are shorter
      ([descend_enough]); [Custody.kit_directory] with 33 minus the depth, beyond which the code
      raises; [Late.late_parts] with two more than the size and [Late.write_all] with the length,
      since every write that does not raise takes an octet; [CodeView.tile] with the
      number of mappings left, one of which each pass takes.
    - The loops of [Channel] wait for time to pass, which nothing bounds: their theorems hold for
      every fuel, so for every number of passes that a run of the code makes.
    - [Der.der_loop] runs with the length of the input, of which each row takes two octets at
      least, [Http.read_head] with 16385, past which the code raises, and the scan for blocks of
      a bundle with one more than its length.
    - [Files.open_within] runs with the length of the path, as [CodeView.descend] does,
      [Files.read_parts] with two more than the size, [Files.walk] with 33 minus the depth; the
      writes of a memory file ([BrokerApi.write_memfd], [Server.write_identity]), of a socket
      ([TlsCodec.send_all]) and of a stream ([TlsCodec.write_within]) with the length of what is
      left, since every write that does not raise takes an octet.  The waiting loops of
      [TlsCodec] and the accepting loop of [Server] wait for time to pass, like those of
      [Channel]; what is proved holds for every fuel.
    - [Ed25519.egcd] has a number of steps that the modulus bounds; exponents and scalars are
      walked by their bits.  Integers are Python's, so unbounded.

    ** Parameters

    NFC normalisation of texts ([Unicode], unicodedata's tables); the texts Python's formatting
    gives ([PyFormat]); what [os.open] and the reads on a descriptor answer, the entries of a
    directory tree, every answer of the kernel to a POSIX call (class [Kernel], at an
    advancing clock, so nothing is assumed about other processes); the fixed files of the
    installed launcher; the answers of the journal, the boundary and the clocks to the supervisor
    ([Outside]), of the kernel to a custody ([Custodian]), of the roots, the native reader and
    the clock to the code files ([Inspector]), of the session, the sockets and the memory files
    to the late resources ([Native]), of every system call of a channel ([Channel.answer]), and
    of TLS ([Tls]); for the proxy server ([Site]) its process, clocks, files, sockets, the TLS
    engine of the library, the native inspections of itself and of the two services; and the
    probe, which the code loads from a module that is not part of the repository.

    ** Not modelled

    - live_supervisor.py beyond the lifecycle, the channel and the late resources: the
      construction of the native supervisor, which retains its context and undoes it.
    - live_linux_boundary.py beyond the filter, the peer checks, the custody, the late resources
      and the system calls: the readers' branches without a custody, and the ambient check of
      every descriptor of the process.
    - live_proxy_server.py: the views of the kernel's files of processes, mounts, namespaces,
      cgroups, programs and policies beyond the code files, and the three inspections that
      combine them, which are parameters of the server; the lookup of the probe's module; the
      places where an object is compared with its own copy by identity, which hold in the model
      because a value has no identity here.
    - cli.py, registry.py, __main__.py: argument parsing and printing around the functions here.
    - build_backend.py, src/ci, src/parity: packaging, the repository's scripts, test adapters.
    - Inside the modelled files: the messages of exceptions, and the type tests that refuse Python
      objects which are not JSON values. *)

From stdpp Require Export base tactics numbers list sorting strings.
From Stdlib Require Export ZArith NArith Lia Ascii.
Export List.ListNotations.

#[global] Open Scope list_scope.

(** ** Exceptions and the result of a call *)

(** The exceptions the package raises or lets through.  [ConformanceError] carries the
    [reason] code of errors.py; messages are not modelled.  It is a subclass of
    [ValueError] there, which [is_value_error] reflects. *)
(* @src src/src/harness_conformance/errors.py:1-10 ConformanceError *)
Inductive exn :=
| ConformanceError (reason : string)
| TypeError
| ValueError
| KeyError
| IndexError
| AttributeError
| OverflowError
| RecursionError
| StopIteration
| OSError.

Inductive res (A : Type) :=
| Ok (a : A)
| Raise (e : exn).
Arguments Ok {A} a.
Arguments Raise {A} e.

#[export] Instance exn_eq_dec : EqDecision exn.
Proof. solve_decision. Defined.

#[export] Instance res_eq_dec {A} `{EqDecision A} : EqDecision (res A).
Proof. solve_decision. Defined.

#[export] Instance res_ret : MRet res := fun A a => Ok a.

#[export] Instance res_bind : MBind res := fun A B f m =>
  match m with Ok a => f a | Raise e => Raise e end.

#[export] Instance res_fmap : FMap res := fun A B f m =>
  match m with Ok a => Ok (f a) | Raise e => Raise e end.

Definition is_ok {A} (m : res A) : bool :=
  match m with Ok _ => true | Raise _ => false end.

(** [raise ConformanceError(code, ...)]. *)
Definition conf {A} (code : string) : res A := Raise (ConformanceError code).

(** [if not cond: raise ConformanceError(code, ...)]: the [require] and [_require]
    helpers of the package's modules. *)
(* @src src/src/harness_conformance/linux_readiness.py:56-58 require *)
Definition require (cond : bool) (code : string) : res unit :=
  if cond then Ok tt else conf code.

(** [if cond: raise ConformanceError(code, ...)]. *)
Definition raise_if (cond : bool) (code : string) : res unit :=
  if cond then conf code else Ok tt.

(** Short-circuit [and] and [or] whose operands may raise. *)
Definition and_m (a b : res bool) : res bool :=
  x ← a; if (x : bool) then b else Ok false.
Definition or_m (a b : res bool) : res bool :=
  x ← a; if (x : bool) then Ok true else b.

Notation "a <&&> b" := (and_m a b) (at level 40, left associativity).
Notation "a <||> b" := (or_m a b) (at level 50, left associativity).

(** [require] with a condition that may raise. *)
Definition require_m (cond : res bool) (code : string) : res unit :=
  b ← cond; require b code.
Definition raise_if_m (cond : res bool) (code : string) : res unit :=
  b ← cond; raise_if b code.

(** [isinstance(exc, ConformanceError)], [isinstance(exc, ValueError)]. *)
Definition is_conformance (e : exn) : bool :=
  match e with ConformanceError _ => true | _ => false end.
Definition is_value_error (e : exn) : bool :=
  match e with ConformanceError _ | ValueError => true | _ => false end.

(** The wrappers [except ConformanceError: raise / except (TypeError, ValueError,
    KeyError, ...) as exc: raise ConformanceError(code)]: every other exception of the
    model is listed by the clause [kinds]. *)
Definition guarded {A} (kinds : exn -> bool) (code : string) (m : res A) : res A :=
  match m with
  | Ok a => Ok a
  | Raise e => if is_conformance e then Raise e
               else if kinds e then conf code else Raise e
  end.

(** [for x in l: body] that carries no state, and one that threads a state. *)
Section loops.
Context {A B S : Type}.
Variable body : A -> res unit.
Variable step : S -> A -> res S.
Variable test : A -> res bool.
Variable elem : A -> res B.

Fixpoint for_each (l : list A) : res unit :=
  match l with
  | [] => Ok tt
  | x :: l' => body x ;; for_each l'
  end.

Fixpoint for_fold (s : S) (l : list A) : res S :=
  match l with
  | [] => Ok s
  | x :: l' => s' ← step s x; for_fold s' l'
  end.

(** [any(...)] and [all(...)] over a generator whose test may raise. *)
Fixpoint any_m (l : list A) : res bool :=
  match l with
  | [] => Ok false
  | x :: l' => b ← test x; if (b : bool) then Ok true else any_m l'
  end.

Fixpoint all_m (l : list A) : res bool :=
  match l with
  | [] => Ok true
  | x :: l' => b ← test x; if (b : bool) then all_m l' else Ok false
  end.

(** A list comprehension whose element expression may raise. *)
Fixpoint map_m (l : list A) : res (list B) :=
  match l with
  | [] => Ok []
  | x :: l' => y ← elem x; ys ← map_m l'; Ok (y :: ys)
  end.
End loops.

(** ** Lengths as unbounded integers *)

Definition zlen {A} (l : list A) : Z := Z.of_nat (length l).

Lemma zlen_nil {A} : zlen (@nil A) = 0%Z.
Proof. done. Qed.

Lemma zlen_cons {A} (x : A) l : zlen (x :: l) = (1 + zlen l)%Z.
Proof. unfold zlen. simpl. lia. Qed.

Lemma zlen_app {A} (l k : list A) : zlen (l ++ k) = (zlen l + zlen k)%Z.
Proof. unfold zlen. rewrite length_app. lia. Qed.

Lemma zlen_nonneg {A} (l : list A) : (0 <= zlen l)%Z.
Proof. unfold zlen. lia. Qed.

(** A property of the numbers below [n], by evaluation. *)
Lemma below_forallb (f : N -> bool) (n : nat) :
  forallb f (map N.of_nat (seq 0 n)) = true -> forall x, (x < N.of_nat n)%N -> f x = true.
Proof.
  rewrite forallb_forall. intros H x Hx. apply H, in_map_iff.
  exists (N.to_nat x). split; [lia | apply in_seq; lia].
Qed.

(** ** Inversion of successful runs *)

Lemma bind_Ok {A B} (m : res A) (f : A -> res B) b :
  m ≫= f = Ok b <-> exists a, m = Ok a /\ f a = Ok b.
Proof. split; [destruct m as [a|e]; [by exists a | done] | by intros (a & -> & ?)]. Qed.

Lemma seq_Ok {B} (m : res unit) (k : res B) b :
  (m ;; k) = Ok b <-> m = Ok tt /\ k = Ok b.
Proof. destruct m as [[]|]; naive_solver. Qed.

Lemma bind_Raise {A B} (m : res A) (f : A -> res B) e :
  m ≫= f = Raise e <-> m = Raise e \/ exists a, m = Ok a /\ f a = Raise e.
Proof.
  split; [destruct m as [a|e']; [right; by exists a | left; by simplify_eq/=] |].
  by intros [-> | (a & -> & ?)].
Qed.

Lemma fmap_Ok {A B} (f : A -> B) (m : res A) b :
  f <$> m = Ok b <-> exists a, m = Ok a /\ b = f a.
Proof. destruct m; simpl; split; intros H; [simplify_eq; eauto | naive_solver..]. Qed.

Lemma require_Ok b c t : require b c = Ok t <-> b = true.
Proof. destruct b, t; naive_solver. Qed.

Lemma raise_if_Ok b c t : raise_if b c = Ok t <-> b = false.
Proof. destruct b, t; naive_solver. Qed.

Lemma require_m_Ok b c t : require_m b c = Ok t <-> b = Ok true.
Proof. destruct b as [[]|], t; naive_solver. Qed.

Lemma raise_if_m_Ok b c t : raise_if_m b c = Ok t <-> b = Ok false.
Proof. destruct b as [[]|], t; naive_solver. Qed.

Lemma and_m_true a b : and_m a b = Ok true <-> a = Ok true /\ b = Ok true.
Proof. destruct a as [[]|]; naive_solver. Qed.

Lemma or_m_false a b : or_m a b = Ok false <-> a = Ok false /\ b = Ok false.
Proof. destruct a as [[]|]; naive_solver. Qed.

Lemma guarded_Ok {A} k c (m : res A) a : guarded k c m = Ok a <-> m = Ok a.
Proof.
  destruct m as [|e]; simpl; [done |].
  destruct (is_conformance e), (k e); split; discriminate.
Qed.

(** A guarded body only ever raises [ConformanceError] when its clause lists every
    other exception. *)
Lemma guarded_conformance {A} k c (m : res A) e :
  (forall e', is_conformance e' = false -> k e' = true) ->
  guarded k c m = Raise e -> is_conformance e = true.
Proof.
  intros Hk. destruct m as [|e']; simpl; [done |].
  destruct (is_conformance e') eqn:E; [by intros [= <-] |].
  rewrite (Hk _ E). by intros [= <-].
Qed.

Lemma guarded_conformance_of {A} k c (m : res A) e :
  (forall e', m = Raise e' -> is_conformance e' = true \/ k e' = true) ->
  guarded k c m = Raise e -> is_conformance e = true.
Proof.
  intros Hk. destruct m as [|e']; simpl; [done |].
  destruct (is_conformance e') eqn:E; [by intros [= <-] |].
  destruct (Hk e' eq_refl) as [? | ->]; [congruence |]. by intros [= <-].
Qed.

Lemma for_each_Ok {A} (f : A -> res unit) l t :
  for_each f l = Ok t <-> Forall (fun x => f x = Ok tt) l.
Proof.
  destruct t. induction l as [|x l IH]; simpl; [naive_solver |].
  rewrite Forall_cons, bind_Ok. split.
  - intros ([] & ? & ?); naive_solver.
  - intros [? ?]; exists tt; naive_solver.
Qed.

Lemma for_fold_Ok_each {A S} (f : S -> A -> res S) s l r x :
  for_fold f s l = Ok r -> In x l -> exists s1 s2, f s1 x = Ok s2.
Proof.
  revert s. induction l as [|y l IH]; intros s; simpl; [done |].
  rewrite bind_Ok. intros (s' & Hy & H) [-> | Hin]; eauto.
Qed.

Lemma for_fold_app {A S} (f : S -> A -> res S) s l k :
  for_fold f s (l ++ k) = (s' ← for_fold f s l; for_fold f s' k).
Proof. revert s. induction l as [|x l IH]; intros s; [done |]. cbn. destruct (f s x); [apply IH | done]. Qed.

(** An invariant of a loop, over the items it has taken. *)
Lemma for_fold_taken {A S} (f : S -> A -> res S) (P : S -> list A -> Prop) s l r :
  P s [] -> (forall t taken x t', P t taken -> f t x = Ok t' -> P t' (taken ++ [x])) ->
  for_fold f s l = Ok r -> P r l.
Proof.
  intros H0 Hstep. change l with ([] ++ l) at 2. revert s H0. generalize (@nil A) as taken.
  induction l as [|x l IH]; intros taken s H0; cbn [for_fold].
  - intros [= <-]. by rewrite app_nil_r.
  - intros (s' & Hs & H)%bind_Ok. change (x :: l) with ([x] ++ l). rewrite app_assoc.
    eapply IH; [by eapply Hstep | done].
Qed.

Lemma Forall_iff_in {A} (P Q : A -> Prop) l :
  Forall (fun x => P x <-> Q x) l -> Forall P l <-> Forall Q l.
Proof. induction 1; rewrite ?Forall_nil, ?Forall_cons; naive_solver. Qed.

Lemma any_m_false {A} (f : A -> res bool) l :
  any_m f l = Ok false <-> Forall (fun x => f x = Ok false) l.
Proof.
  induction l as [|x l IH]; simpl; [naive_solver |].
  rewrite Forall_cons, bind_Ok. split.
  - intros ([] & ? & ?); naive_solver.
  - intros [? ?]; exists false; naive_solver.
Qed.

Lemma all_m_true {A} (f : A -> res bool) l :
  all_m f l = Ok true <-> Forall (fun x => f x = Ok true) l.
Proof.
  induction l as [|x l IH]; simpl; [naive_solver |].
  rewrite Forall_cons, bind_Ok. split.
  - intros ([] & ? & ?); naive_solver.
  - intros [? ?]; exists true; naive_solver.
Qed.

Lemma map_m_Ok {A B} (f : A -> res B) l k :
  map_m f l = Ok k <-> Forall2 (fun x y => f x = Ok y) l k.
Proof.
  revert k. induction l as [|x l IH]; intros k; simpl.
  - split; [by intros [= <-]; constructor | by inversion 1].
  - rewrite bind_Ok. setoid_rewrite bind_Ok. split.
    + intros (y & ? & ys & ? & [= <-]). constructor; [done | by apply IH].
    + inversion 1; subst. eexists; split; [done |]. eexists; split; [by apply IH | done].
Qed.

Lemma bind_go {A B} (m : res A) (f : A -> res B) a r : m = Ok a -> f a = r -> m ≫= f = r.
Proof. by intros -> <-. Qed.

(** Shows that a run returns, one step at a time: [ok_go] takes the next bind, closing the
    step itself by evaluation when it can. *)
Ltac ok_go :=
  lazymatch goal with
  | |- (?m ≫= _) = Ok _ =>
      lazymatch type of m with
      | res unit => apply seq_Ok; split; [try reflexivity |]
      | _ => apply bind_Ok; eexists; split; [try reflexivity |]
      end
  | |- (_ ≫= _) = _ => eapply bind_go; [try reflexivity |]
  end; cbv beta zeta.

(** Turns a hypothesis that a run returned [Ok] into the facts it went through. *)
Ltac ok_step H :=
  lazymatch type of H with
  | Ok _ = Ok _ => injection H as H; subst
  | Raise _ = Ok _ => discriminate H
  | conf _ = Ok _ => discriminate H
  | _ ≫= _ = Ok _ =>
      let x := fresh "x" in let Hx := fresh "Hx" in
      apply bind_Ok in H; destruct H as (x & Hx & H); ok_step Hx; try ok_step H
  | require _ _ = Ok _ => apply require_Ok in H
  | raise_if _ _ = Ok _ => apply raise_if_Ok in H
  | require_m _ _ = Ok _ => apply require_m_Ok in H
  | raise_if_m _ _ = Ok _ => apply raise_if_m_Ok in H
  | guarded _ _ _ = Ok _ => apply guarded_Ok in H; try ok_step H
  | _ => idtac
  end.

Tactic Notation "inv_ok" hyp(H) := ok_step H.

(** Splits boolean conjunctions and negated disjunctions in the context. *)
Ltac split_bools :=
  repeat match goal with
  | H : _ && _ = true |- _ => apply andb_true_iff in H; destruct H
  | H : _ || _ = false |- _ => apply orb_false_iff in H; destruct H
  | H : negb _ = true |- _ => apply negb_true_iff in H
  | H : negb _ = false |- _ => apply negb_false_iff in H
  | H : and_m _ _ = Ok true |- _ => apply and_m_true in H; destruct H
  | H : or_m _ _ = Ok false |- _ => apply or_m_false in H; destruct H
  end.

(** ** What a run may raise *)

(** Every exception that [m] raises satisfies [P]. *)
Definition raises_only {A} (P : exn -> Prop) (m : res A) : Prop := forall e, m = Raise e -> P e.

(** The exceptions of the package, and those plus the encoder's [ValueError]. *)
Definition conformance_only (e : exn) : Prop := is_conformance e = true.
Definition conformance_or_value_error (e : exn) : Prop := is_value_error e = true.

Section raises.
Context {A B : Type} (P : exn -> Prop).
Hypothesis P_conf : forall c, P (ConformanceError c).

Lemma ro_ok (a : A) : raises_only P (Ok a).
Proof. by intros e [=]. Qed.

Lemma ro_raise e : P e -> raises_only P (@Raise A e).
Proof. by intros H e' [= <-]. Qed.

Lemma ro_conf c : raises_only P (@conf A c).
Proof. by apply ro_raise. Qed.

Lemma ro_require b c : raises_only P (require b c).
Proof. destruct b; [by intros e [=] | by intros e [= <-]]. Qed.

Lemma ro_raise_if b c : raises_only P (raise_if b c).
Proof. destruct b; [by intros e [= <-] | by intros e [=]]. Qed.

Lemma ro_bind (m : res A) (f : A -> res B) :
  raises_only P m -> (forall a, m = Ok a -> raises_only P (f a)) -> raises_only P (m ≫= f).
Proof. intros Hm Hf e [H | (a & Ha & H)]%bind_Raise; [by apply Hm | by eapply Hf]. Qed.

Lemma ro_guarded k c (m : res A) :
  raises_only (fun e => is_conformance e = true \/ k e = true \/ P e) m ->
  raises_only P (guarded k c m).
Proof.
  intros Hm e. destruct m as [a|e']; simpl; [done |].
  destruct (is_conformance e') eqn:E; [intros [= <-]; by destruct e' |].
  destruct (k e') eqn:Ek; [by intros [= <-] |].
  intros [= <-]. destruct (Hm e' eq_refl) as [?|[?|?]]; congruence || done.
Qed.
End raises.

Section raises_loops.
Context {A B S : Type} (P : exn -> Prop).

Lemma ro_for_each (f : A -> res unit) l :
  (forall x, In x l -> raises_only P (f x)) -> raises_only P (for_each f l).
Proof.
  induction l as [|x l IH]; simpl; intros H; [apply ro_ok |].
  apply ro_bind; [auto | intros _ _; auto].
Qed.

Lemma ro_for_fold (f : S -> A -> res S) s l :
  (forall s x, In x l -> raises_only P (f s x)) -> raises_only P (for_fold f s l).
Proof.
  revert s. induction l as [|x l IH]; simpl; intros s H; [apply ro_ok |].
  apply ro_bind; [auto | intros s' _; auto].
Qed.

Lemma ro_any_m (f : A -> res bool) l :
  (forall x, In x l -> raises_only P (f x)) -> raises_only P (any_m f l).
Proof.
  induction l as [|x l IH]; simpl; intros H; [apply ro_ok |].
  apply ro_bind; [auto | intros [] _; [apply ro_ok | auto]].
Qed.

Lemma ro_map_m (f : A -> res B) l :
  (forall x, In x l -> raises_only P (f x)) -> raises_only P (map_m f l).
Proof.
  induction l as [|x l IH]; simpl; intros H; [apply ro_ok |].
  apply ro_bind; [auto |]. intros y _. apply ro_bind; [auto | intros; apply ro_ok].
Qed.

Lemma ro_and a b :
  raises_only P a -> (a = Ok true -> raises_only P b) -> raises_only P (a <&&> b).
Proof. intros Ha Hb. apply ro_bind; [done | intros [] E; [auto | apply ro_ok]]. Qed.

Lemma ro_or a b :
  raises_only P a -> (a = Ok false -> raises_only P b) -> raises_only P (a <||> b).
Proof. intros Ha Hb. apply ro_bind; [done | intros [] E; [apply ro_ok | auto]]. Qed.
End raises_loops.

Create HintDb raises discriminated.
#[export] Hint Resolve ro_ok ro_raise : raises.

(** Walks a body: binds, loops, conditionals and the raising helpers; what remains are the
    operations whose success depends on earlier checks. *)
Ltac raises_step :=
  lazymatch goal with
  | |- raises_only _ (Ok _) => apply ro_ok
  | |- raises_only _ (conf _) => apply ro_conf; done
  | |- raises_only _ (require _ _) => apply ro_require; done
  | |- raises_only _ (raise_if _ _) => apply ro_raise_if; done
  | |- raises_only _ (_ ≫= _) => apply ro_bind; [|intros ? ?; repeat match goal with x : unit |- _ => destruct x end]
  | |- raises_only _ (require_m _ _) => unfold require_m
  | |- raises_only _ (raise_if_m _ _) => unfold raise_if_m
  | |- raises_only _ (_ <&&> _) => apply ro_and; [|intros ?]
  | |- raises_only _ (_ <||> _) => apply ro_or; [|intros ?]
  | |- raises_only _ (for_each _ _) => apply ro_for_each; intros ? ?
  | |- raises_only _ (for_fold _ _ _) => apply ro_for_fold; intros ? ? ?
  | |- raises_only _ (any_m _ _) => apply ro_any_m; intros ? ?
  | |- raises_only _ (map_m _ _) => apply ro_map_m; intros ? ?
  | |- raises_only _ (if ?b then _ else _) => destruct b eqn:?
  end.

Create HintDb py discriminated.
Create Rewrite HintDb py.
#[export] Hint Rewrite @zlen_nil @zlen_cons @zlen_app : py.
