(* ===== verification/Effects.v ===== *)
(** Runs that read and change a state: the state is kept when a run raises, so what a failed
    call has already done stays visible, and [finally] and [except] clauses act on it. *)

From S2P Require Import Prelude.

Definition io (W A : Type) := W -> res A * W.

#[export] Instance io_ret {W} : MRet (io W) := fun A a w => (Ok a, w).

#[export] Instance io_bind {W} : MBind (io W) := fun A B f m w =>
  match m w with
  | (Ok a, w') => f a w'
  | (Raise e, w') => (Raise e, w')
  end.

#[export] Instance io_fmap {W} : FMap (io W) := fun A B f m w =>
  match m w with
  | (Ok a, w') => (Ok (f a), w')
  | (Raise e, w') => (Raise e, w')
  end.

(** A computation without effects, reading the state, and replacing it. *)
Definition lift {W A} (m : res A) : io W A := fun w => (m, w).
Definition reads {W A} (f : W -> res A) : io W A := fun w => (f w, w).
Definition update {W} (f : W -> W) : io W unit := fun w => (Ok tt, f w).

(** [raise e]. *)
Definition throw {W A} (e : exn) : io W A := lift (Raise e).

(** [require(cond, code)] between effects. *)
Definition check {W} (cond : bool) (code : string) : io W unit := lift (require cond code).

(** [try: m finally: f].  An exception of the clause replaces the outcome. *)
Definition finally {W A} (m : io W A) (f : io W unit) : io W A := fun w =>
  let (r, w1) := m w in
  match f w1 with
  | (Ok _, w2) => (r, w2)
  | (Raise e, w2) => (Raise e, w2)
  end.

(** [try: m except BaseException: h; raise]. *)
Definition on_error {W A} (m : io W A) (h : io W unit) : io W A := fun w =>
  match m w with
  | (Ok a, w1) => (Ok a, w1)
  | (Raise e, w1) =>
      match h w1 with
      | (Ok _, w2) => (Raise e, w2)
      | (Raise e', w2) => (Raise e', w2)
      end
  end.

(** [try: m except kinds: h e]. *)
Definition catch {W A} (kinds : exn -> bool) (m : io W A) (h : exn -> io W A) : io W A := fun w =>
  match m w with
  | (Ok a, w1) => (Ok a, w1)
  | (Raise e, w1) => if kinds e then h e w1 else (Raise e, w1)
  end.

(** A run on a part of a larger state. *)
Definition zoom {W V A} (get : W -> V) (put : V -> W -> W) (m : io V A) : io W A := fun w =>
  let (r, v) := m (get w) in (r, put v w).

(** [for x in l: body], threading [s]. *)
Fixpoint io_fold {W A S} (body : S -> A -> io W S) (s : S) (l : list A) : io W S :=
  match l with
  | [] => mret s
  | x :: l' => s' ← body s x; io_fold body s' l'
  end.

(** ** Inversion *)

Lemma lift_Ok {W A} (m : res A) (w w' : W) a : lift m w = (Ok a, w') <-> m = Ok a /\ w' = w.
Proof. unfold lift. naive_solver. Qed.

Lemma lift_Raise {W A} (m : res A) (w w' : W) e : lift m w = (Raise e, w') <-> m = Raise e /\ w' = w.
Proof. unfold lift. naive_solver. Qed.

Section inversion.
Context {W A B : Type}.

Lemma io_bind_Ok (m : io W A) (f : A -> io W B) w b w' :
  (m ≫= f) w = (Ok b, w') <-> exists a w1, m w = (Ok a, w1) /\ f a w1 = (Ok b, w').
Proof. unfold mbind, io_bind. destruct (m w) as [[a|e] w1]; naive_solver. Qed.

Lemma io_bind_Raise (m : io W A) (f : A -> io W B) w e w' :
  (m ≫= f) w = (Raise e, w') <->
  m w = (Raise e, w') \/ exists a w1, m w = (Ok a, w1) /\ f a w1 = (Raise e, w').
Proof. unfold mbind, io_bind. destruct (m w) as [[a|e'] w1]; naive_solver. Qed.

Lemma check_Ok b c t (w w' : W) : check b c w = (Ok t, w') <-> b = true /\ w' = w.
Proof. unfold check. by rewrite lift_Ok, require_Ok. Qed.

Lemma finally_Ok (m : io W A) f w a w' :
  finally m f w = (Ok a, w') <-> exists w1, m w = (Ok a, w1) /\ f w1 = (Ok tt, w').
Proof.
  unfold finally. destruct (m w) as [r w1]. destruct (f w1) as [[[]|e] w2] eqn:E; split.
  - intros [= -> ->]. eauto.
  - intros (w3 & [= -> ->] & Hf). rewrite E in Hf. by injection Hf as ->.
  - done.
  - intros (w3 & [= -> ->] & Hf). by rewrite E in Hf.
Qed.

Lemma on_error_Ok (m : io W A) h w a w' : on_error m h w = (Ok a, w') <-> m w = (Ok a, w').
Proof.
  unfold on_error. destruct (m w) as [[a'|e] w1]; [done |]. destruct (h w1) as [[|] ?]; naive_solver.
Qed.

Lemma zoom_Ok {V} (get : W -> V) put (m : io V A) w a w' :
  zoom get put m w = (Ok a, w') <-> exists v, m (get w) = (Ok a, v) /\ w' = put v w.
Proof. unfold zoom. destruct (m (get w)) as [[|] v]; naive_solver. Qed.
End inversion.

(** ** What a run preserves *)

(** Every run of [m] relates the state before to the state after, however it ends. *)
Definition keeps {W A} (R : relation W) (m : io W A) : Prop := forall w, R w (m w).2.

Section keeps.
Context {W A B : Type} (R : relation W) `{!PreOrder R}.

Lemma keeps_ret (a : A) : keeps R (mret a : io W A).
Proof. intros w. reflexivity. Qed.

Lemma keeps_lift (m : res A) : keeps R (lift m : io W A).
Proof. intros w. reflexivity. Qed.

Lemma keeps_reads (f : W -> res A) : keeps R (reads f).
Proof. intros w. reflexivity. Qed.

Lemma keeps_check b c : keeps R (check b c : io W unit).
Proof. intros w. reflexivity. Qed.

Lemma keeps_bind (m : io W A) (f : A -> io W B) :
  keeps R m -> (forall a, keeps R (f a)) -> keeps R (m ≫= f).
Proof.
  intros Hm Hf w. unfold mbind, io_bind. specialize (Hm w). destruct (m w) as [[a|e] w1]; simpl in *; [|done].
  etransitivity; [done | apply Hf].
Qed.

Lemma keeps_finally (m : io W A) f : keeps R m -> keeps R f -> keeps R (finally m f).
Proof.
  intros Hm Hf w. unfold finally. specialize (Hm w). destruct (m w) as [r w1]. simpl in Hm.
  specialize (Hf w1). destruct (f w1) as [[|] w2]; simpl in *; by etransitivity.
Qed.

Lemma keeps_on_error (m : io W A) h : keeps R m -> keeps R h -> keeps R (on_error m h).
Proof.
  intros Hm Hh w. unfold on_error. specialize (Hm w). destruct (m w) as [[a|e] w1]; simpl in *; [done |].
  specialize (Hh w1). destruct (h w1) as [[|] w2]; simpl in *; by etransitivity.
Qed.

Lemma keeps_catch k (m : io W A) h : keeps R m -> (forall e, keeps R (h e)) -> keeps R (catch k m h).
Proof.
  intros Hm Hh w. unfold catch. specialize (Hm w). destruct (m w) as [[a|e] w1]; simpl in *; [done |].
  destruct (k e); simpl; [|done]. etransitivity; [done | apply Hh].
Qed.
End keeps.

Lemma keeps_fold {W A S} (R : relation W) `{!PreOrder R} (body : S -> A -> io W S) l s :
  (forall s x, In x l -> keeps R (body s x)) -> keeps R (io_fold body s l).
Proof.
  revert s. induction l as [|x l IH]; intros s H; cbn [io_fold]; [by apply keeps_ret |].
  apply keeps_bind; [done | apply H; by left | intros s'; apply IH; intros; apply H; by right].
Qed.

Create HintDb keeps discriminated.
#[export] Hint Resolve keeps_ret keeps_lift keeps_reads keeps_check : keeps.

(** Walks a run for a preorder its steps respect. *)
Ltac keeps_step :=
  lazymatch goal with
  | |- keeps _ (_ ≫= _) => apply keeps_bind; [typeclasses eauto | | intros ?]
  | |- keeps _ (mret _) => apply keeps_ret; typeclasses eauto
  | |- keeps _ (lift _) => apply keeps_lift; typeclasses eauto
  | |- keeps _ (reads _) => apply keeps_reads; typeclasses eauto
  | |- keeps _ (check _ _) => apply keeps_check; typeclasses eauto
  | |- keeps _ (throw _) => apply keeps_lift; typeclasses eauto
  | |- keeps _ (finally _ _) => apply keeps_finally; [typeclasses eauto | |]
  | |- keeps _ (on_error _ _) => apply keeps_on_error; [typeclasses eauto | |]
  | |- keeps _ (catch _ _ _) => apply keeps_catch; [typeclasses eauto | | intros ?]
  | |- keeps _ (if ?b then _ else _) => destruct b
  | |- keeps _ (match ?x with _ => _ end) => destruct x
  end.

(** ** Catching every exception *)

(** [try: m except BaseException as exc: r = exc], the outcome as a value. *)
Definition attempt {W A} (m : io W A) : io W (res A) := fun w => let (r, w') := m w in (Ok r, w').

(** [try: m except BaseException: h; raise], where [h] may ask which exception is handled. *)
Definition on_exception {W A} (m : io W A) (h : exn -> io W unit) : io W A := fun w =>
  match m w with
  | (Ok a, w1) => (Ok a, w1)
  | (Raise e, w1) =>
      match h e w1 with
      | (Ok _, w2) => (Raise e, w2)
      | (Raise e', w2) => (Raise e', w2)
      end
  end.

(** What they preserve. *)
Lemma keeps_attempt {W A} (R : relation W) (m : io W A) : keeps R m -> keeps R (attempt m).
Proof. intros H w. specialize (H w). unfold attempt. by destruct (m w). Qed.

Lemma keeps_on_exception {W A} (R : relation W) `{!PreOrder R} (m : io W A) h :
  keeps R m -> (forall e, keeps R (h e)) -> keeps R (on_exception m h).
Proof.
  intros Hm Hh w. unfold on_exception. specialize (Hm w). destruct (m w) as [[a|e] w1]; simpl in *; [done |].
  specialize (Hh e w1). destruct (h e w1) as [[|] w2]; simpl in *; by etransitivity.
Qed.

Lemma keeps_weaken {W A} (R R' : relation W) (m : io W A) : (forall w w', R w w' -> R' w w') -> keeps R m -> keeps R' m.
Proof. intros H Hm w. apply H, Hm. Qed.

(** ** Weakest preconditions *)

(** Run from [w], [m] ends in [Q] when it returns and in [E] when it raises. *)
Definition wp {W A} (m : io W A) (Q : A -> W -> Prop) (E : exn -> W -> Prop) (w : W) : Prop :=
  match m w with (Ok a, w') => Q a w' | (Raise e, w') => E e w' end.

Section wp.
Context {W A B : Type}.

Lemma wp_mono (m : io W A) (Q Q' : A -> W -> Prop) (E E' : exn -> W -> Prop) w :
  wp m Q E w -> (forall a w', Q a w' -> Q' a w') -> (forall e w', E e w' -> E' e w') -> wp m Q' E' w.
Proof. unfold wp. destruct (m w) as [[|] ?]; auto. Qed.

Lemma wp_bind (m : io W A) (f : A -> io W B) Q E w :
  wp m (fun a => wp (f a) Q E) E w -> wp (m ≫= f) Q E w.
Proof. unfold wp, mbind, io_bind. by destruct (m w) as [[|] ?]. Qed.

Lemma wp_ret (a : A) Q (E : exn -> W -> Prop) w : Q a w -> wp (mret a) Q E w.
Proof. done. Qed.

Lemma wp_lift (r : res A) (Q : A -> W -> Prop) (E : exn -> W -> Prop) w :
  (forall a, r = Ok a -> Q a w) -> (forall e, r = Raise e -> E e w) -> wp (lift r) Q E w.
Proof. unfold wp, lift. destruct r; eauto. Qed.

Lemma wp_check b c (Q : unit -> W -> Prop) (E : exn -> W -> Prop) w :
  (b = true -> Q tt w) -> (b = false -> E (ConformanceError c) w) -> wp (check b c) Q E w.
Proof. unfold wp, check, lift. destruct b; cbn; eauto. Qed.

Lemma wp_update f (Q : unit -> W -> Prop) (E : exn -> W -> Prop) w : Q tt (f w) -> wp (update f) Q E w.
Proof. done. Qed.

Lemma wp_reads (f : W -> res A) (Q : A -> W -> Prop) (E : exn -> W -> Prop) w :
  (forall a, f w = Ok a -> Q a w) -> (forall e, f w = Raise e -> E e w) -> wp (reads f) Q E w.
Proof. unfold wp, reads. destruct (f w); eauto. Qed.

Lemma wp_throw e (Q : A -> W -> Prop) (E : exn -> W -> Prop) w : E e w -> wp (throw e) Q E w.
Proof. done. Qed.

Lemma wp_finally (m : io W A) f Q E w :
  wp m (fun a => wp f (fun _ => Q a) E) (fun e => wp f (fun _ => E e) E) w -> wp (finally m f) Q E w.
Proof. unfold wp, finally. destruct (m w) as [[|] w1]; destruct (f w1) as [[|] ?]; auto. Qed.

Lemma wp_on_exception (m : io W A) h Q E w :
  wp m Q (fun e => wp (h e) (fun _ => E e) E) w -> wp (on_exception m h) Q E w.
Proof. unfold wp, on_exception. destruct (m w) as [[|] w1]; [done |]. by destruct (h e w1) as [[|] ?]. Qed.

Lemma wp_attempt (m : io W A) Q (E : exn -> W -> Prop) w :
  wp m (fun a => Q (Ok a)) (fun e => Q (Raise e)) w -> wp (attempt m) Q E w.
Proof. unfold wp, attempt. by destruct (m w) as [[|] ?]. Qed.

Lemma wp_zoom {V} (get : W -> V) put (m : io V A) (Q : A -> W -> Prop) (E : exn -> W -> Prop) w :
  wp m (fun a v => Q a (put v w)) (fun e v => E e (put v w)) (get w) -> wp (zoom get put m) Q E w.
Proof. unfold wp, zoom. by destruct (m (get w)) as [[|] ?]. Qed.
End wp.

(** A preorder that a run keeps, next to its other outcomes. *)
Lemma wp_keeps {W A} (R : relation W) (m : io W A) w : keeps R m -> wp m (fun _ => R w) (fun _ => R w) w.
Proof. intros H. specialize (H w). unfold wp. by destruct (m w) as [[|] ?]. Qed.

Lemma keeps_wp {W A} (R : relation W) (m : io W A) : (forall w, wp m (fun _ => R w) (fun _ => R w) w) -> keeps R m.
Proof. intros H w. specialize (H w). unfold wp in H. by destruct (m w) as [[|] ?]. Qed.

Lemma wp_and {W A} (m : io W A) (Q Q' : A -> W -> Prop) (E E' : exn -> W -> Prop) w :
  wp m Q E w -> wp m Q' E' w -> wp m (fun a w' => Q a w' /\ Q' a w') (fun e w' => E e w' /\ E' e w') w.
Proof. unfold wp. by destruct (m w) as [[|] ?]. Qed.

(** A property of the state a run ends in. *)
Lemma wp_final {W A} (m : io W A) (P : W -> Prop) w : wp m (fun _ => P) (fun _ => P) w -> P (m w).2.
Proof. unfold wp. by destruct (m w) as [[|] w']. Qed.

(** The same run first, then runs that agree wherever it ended. *)
Lemma io_bind_ext {W A B} (m : io W A) (f g : A -> io W B) w :
  (forall a w', m w = (Ok a, w') -> f a w' = g a w') -> (m ≫= f) w = (m ≫= g) w.
Proof. unfold mbind, io_bind. destruct (m w) as [[a|] w']; auto. Qed.
