(* ===== verification/PyVal.v ===== *)
(** The Python data the package handles: [str] as code points, [bytes], and the values a
    JSON document decodes to, with Python's [==], truth value, [len], indexing and
    membership on them. *)

From S2P Require Import Prelude.

(** ** Strings and bytes *)

(** A [str] is its sequence of code points (surrogates included); [bytes] is its
    sequence of octets. *)
Definition str := list N.
Definition bytes := list N.

(** The [str] of an ASCII literal of the source. *)
Definition u (s : string) : str := N_of_ascii <$> Stdlib.Strings.String.list_ascii_of_string s.
Arguments u s%_string_scope.

Fixpoint str_eqb (s t : list N) : bool :=
  match s, t with
  | [], [] => true
  | a :: s', b :: t' => (a =? b)%N && str_eqb s' t'
  | _, _ => false
  end.

(** Python's [<] on [str] and [bytes]: lexicographic by code point or octet. *)
Fixpoint str_ltb (s t : list N) : bool :=
  match s, t with
  | _, [] => false
  | [], _ :: _ => true
  | a :: s', b :: t' => (a <? b)%N || ((a =? b)%N && str_ltb s' t')
  end.

Fixpoint startswith (p s : list N) : bool :=
  match p, s with
  | [], _ => true
  | a :: p', b :: s' => (a =? b)%N && startswith p' s'
  | _, [] => false
  end.

Definition endswith (p s : list N) : bool := startswith (reverse p) (reverse s).

(** [x in l] for a sequence of strings. *)
Definition str_in (s : str) (l : list str) : bool := existsb (str_eqb s) l.

(** [p in s] for two strings. *)
Fixpoint substr_in (p s : list N) : bool :=
  startswith p s || match s with [] => false | _ :: s' => substr_in p s' end.

(** [s.split(c)] at one separator character. *)
Fixpoint split_on (c : N) (s : str) : list str :=
  match s with
  | [] => [[]]
  | a :: s' =>
      if (a =? c)%N then [] :: split_on c s'
      else match split_on c s' with
           | w :: ws => (a :: w) :: ws
           | [] => [[a]]
           end
  end.

(** [s.replace(a, b)] for single characters, and [s.lower()] on ASCII letters. *)
Definition replace_char (a b : N) (s : str) : str := (fun c => if (c =? a)%N then b else c) <$> s.

Definition lower_ascii (c : N) : N := if ((65 <=? c) && (c <=? 90))%N then (c + 32)%N else c.

Definition is_ascii (s : list N) : bool := forallb (fun c => (c <? 128)%N) s.

#[local] Instance N_of_ascii_inj : Inj (=) (=) N_of_ascii.
Proof. intros a b H. by rewrite <- (ascii_N_embedding a), H, ascii_N_embedding. Qed.

Lemma u_inj s t : u s = u t -> s = t.
Proof.
  unfold u. intros H. apply (inj (R := eq) (fmap N_of_ascii)) in H.
  rewrite <- (Stdlib.Strings.String.string_of_list_ascii_of_string s), H.
  apply Stdlib.Strings.String.string_of_list_ascii_of_string.
Qed.

Lemma str_eqb_eq s t : str_eqb s t = true <-> s = t.
Proof.
  revert t. induction s as [|a s IH]; intros [|b t]; simpl; try naive_solver.
  rewrite andb_true_iff, N.eqb_eq, IH. naive_solver.
Qed.

Lemma str_eqb_refl s : str_eqb s s = true.
Proof. by apply str_eqb_eq. Qed.

Lemma str_eqb_spec s t : reflect (s = t) (str_eqb s t).
Proof. apply iff_reflect. symmetry. apply str_eqb_eq. Qed.

Lemma str_eqb_neq s t : str_eqb s t = false <-> s <> t.
Proof. destruct (str_eqb_spec s t); naive_solver. Qed.

Lemma str_eqb_sym s t : str_eqb s t = str_eqb t s.
Proof. destruct (str_eqb_spec s t), (str_eqb_spec t s); naive_solver. Qed.

Lemma str_ltb_irrefl s : str_ltb s s = false.
Proof.
  induction s as [|a s IH]; [done | simpl].
  by rewrite N.ltb_irrefl, N.eqb_refl, IH.
Qed.

Lemma str_ltb_trans s t r : str_ltb s t = true -> str_ltb t r = true -> str_ltb s r = true.
Proof.
  revert t r. induction s as [|a s IH]; intros [|b t] [|c r]; simpl; try done.
  rewrite !orb_true_iff, !andb_true_iff, !N.ltb_lt, !N.eqb_eq.
  intros [?|[-> ?]] [?|[-> ?]]; [left; lia | by left | by left |].
  right. eauto.
Qed.

Lemma str_ltb_total s t : str_ltb s t = false -> str_ltb t s = false -> s = t.
Proof.
  revert t. induction s as [|a s IH]; intros [|b t]; simpl; try done.
  rewrite !orb_false_iff, !andb_false_iff, !N.ltb_ge, !N.eqb_neq.
  intros [? Hs] [? Ht]. assert (a = b) as -> by lia.
  f_equal. apply IH; [by destruct Hs | by destruct Ht].
Qed.

Lemma str_ltb_asym s t : str_ltb s t = true -> str_ltb t s = false.
Proof.
  intros H. destruct (str_ltb t s) eqn:E; [|done].
  pose proof (str_ltb_trans _ _ _ H E) as H'. by rewrite str_ltb_irrefl in H'.
Qed.

Lemma str_ltb_app p s t : str_ltb (p ++ s) (p ++ t) = str_ltb s t.
Proof. induction p as [|a p IH]; [done | simpl]. by rewrite N.ltb_irrefl, N.eqb_refl. Qed.

Lemma startswith_app p s : startswith p s = true <-> exists r, s = p ++ r.
Proof.
  revert s. induction p as [|a p IH]; intros s; simpl; [naive_solver |].
  destruct s as [|b s]; [naive_solver |].
  rewrite andb_true_iff, N.eqb_eq, IH. naive_solver.
Qed.

Lemma endswith_app p s : endswith p s = true <-> exists r, s = r ++ p.
Proof.
  unfold endswith. rewrite startswith_app. split; intros [r Hr].
  - exists (reverse r). by rewrite <- (reverse_involutive s), Hr, reverse_app, reverse_involutive.
  - exists (reverse r). by rewrite Hr, reverse_app.
Qed.

Lemma str_in_In s l : str_in s l = true <-> In s l.
Proof.
  unfold str_in. rewrite existsb_exists. split.
  - intros (t & ? & Ht). apply str_eqb_eq in Ht. by subst.
  - intros ?. exists s. by rewrite str_eqb_refl.
Qed.

(** ** Values *)

(** What strict JSON decoding yields: [None], [bool], [int], [str], [list] and [dict].
    A dict is its items in insertion order.  Floats and other Python types never reach
    the package's functions through its strict parser and have no constructor. *)
Unset Elimination Schemes.
Inductive value :=
| VNone
| VBool (b : bool)
| VInt (z : Z)
| VStr (s : str)
| VList (l : list value)
| VDict (d : list (str * value)).
Set Elimination Schemes.

Definition dict := list (str * value).

(** Induction with the hypothesis on every list item and every dict value. *)
Section value_ind.
Variable P : value -> Prop.
Hypothesis P_none : P VNone.
Hypothesis P_bool : forall b, P (VBool b).
Hypothesis P_int : forall z, P (VInt z).
Hypothesis P_str : forall s, P (VStr s).
Hypothesis P_list : forall l, Forall P l -> P (VList l).
Hypothesis P_dict : forall d, Forall (fun kv => P kv.2) d -> P (VDict d).

Fixpoint value_ind (v : value) : P v :=
  match v with
  | VNone => P_none
  | VBool b => P_bool b
  | VInt z => P_int z
  | VStr s => P_str s
  | VList l =>
      P_list l ((fix go l : Forall P l :=
        match l with
        | [] => Forall_nil_2 P
        | x :: l' => Forall_cons_2 P x l' (value_ind x) (go l')
        end) l)
  | VDict d =>
      P_dict d ((fix go d : Forall (fun kv => P kv.2) d :=
        match d with
        | [] => Forall_nil_2 _
        | kv :: d' => Forall_cons_2 _ kv d' (value_ind kv.2) (go d')
        end) d)
  end.
End value_ind.

(** *** Dict operations *)

Fixpoint dget {A} (k : str) (d : list (str * A)) : option A :=
  match d with
  | [] => None
  | (k', x) :: d' => if str_eqb k k' then Some x else dget k d'
  end.

(** [d[k] = x]: replaces in place or appends. *)
Fixpoint dset {A} (k : str) (x : A) (d : list (str * A)) : list (str * A) :=
  match d with
  | [] => [(k, x)]
  | (k', y) :: d' => if str_eqb k k' then (k', x) :: d' else (k', y) :: dset k x d'
  end.

(** [{key: item for key, item in d.items() if key not in ks}]. *)
Definition dwithout {A} (ks : list str) (d : list (str * A)) : list (str * A) :=
  List.filter (fun kv => negb (str_in kv.1 ks)) d.

Definition dkeys {A} (d : list (str * A)) : list str := map fst d.

Definition dhas {A} (k : str) (d : list (str * A)) : bool :=
  match dget k d with Some _ => true | None => false end.

(** *** Equality, truth value, kinds *)

(** Python [==]: [True == 1], dicts compare without order. *)
Fixpoint py_eq (v w : value) {struct v} : bool :=
  match v, w with
  | VNone, VNone => true
  | VBool a, VBool b => Bool.eqb a b
  | VBool a, VInt z => (Z.b2z a =? z)%Z
  | VInt z, VBool b => (z =? Z.b2z b)%Z
  | VInt z, VInt y => (z =? y)%Z
  | VStr s, VStr t => str_eqb s t
  | VList l, VList k =>
      (fix go l k :=
         match l, k with
         | [], [] => true
         | x :: l', y :: k' => py_eq x y && go l' k'
         | _, _ => false
         end) l k
  | VDict d, VDict e =>
      Nat.eqb (length d) (length e) &&
      forallb (fun kv => match dget kv.1 e with
                         | Some y => py_eq kv.2 y
                         | None => false
                         end) d
  | _, _ => false
  end.

Definition truthy (v : value) : bool :=
  match v with
  | VNone => false
  | VBool b => b
  | VInt z => negb (z =? 0)%Z
  | VStr s => match s with [] => false | _ => true end
  | VList l => match l with [] => false | _ => true end
  | VDict d => match d with [] => false | _ => true end
  end.

Definition is_str (v : value) : bool := match v with VStr _ => true | _ => false end.
Definition is_list (v : value) : bool := match v with VList _ => true | _ => false end.
Definition is_dict (v : value) : bool := match v with VDict _ => true | _ => false end.
Definition is_bool (v : value) : bool := match v with VBool _ => true | _ => false end.
Definition is_none (v : value) : bool := match v with VNone => true | _ => false end.

(** [type(v) is int]: a [bool] is no [int] here. *)
Definition is_int (v : value) : bool := match v with VInt _ => true | _ => false end.

(** [v is True] and [v is False]. *)
Definition is_true_lit (v : value) : bool := match v with VBool b => b | _ => false end.
Definition is_false_lit (v : value) : bool := match v with VBool b => negb b | _ => false end.

(** [v == "literal"] and [v in ("a", "b", ...)]. *)
Definition eq_lit (v : value) (s : string) : bool := py_eq v (VStr (u s)).
Arguments eq_lit v s%_string_scope.
Definition in_lits (v : value) (l : list string) : bool := existsb (eq_lit v) l.

(** [v in l] for a Python list or tuple of values. *)
Definition in_values (v : value) (l : list value) : bool := existsb (fun w => py_eq w v) l.

(** *** Operations that may raise *)

(** [v[k]] with a [str] index. *)
Definition getitem (v : value) (k : str) : res value :=
  match v with
  | VDict d => match dget k d with Some x => Ok x | None => Raise KeyError end
  | _ => Raise TypeError
  end.

Definition fld (v : value) (k : string) : res value := getitem v (u k).
Arguments fld v k%_string_scope.

(** [v.get(k)], [v.items()], [v.values()], [v.keys()]. *)
Definition py_get (v : value) (k : string) : res (option value) :=
  match v with VDict d => Ok (dget (u k) d) | _ => Raise AttributeError end.
Arguments py_get v k%_string_scope.

Definition items (v : value) : res dict :=
  match v with VDict d => Ok d | _ => Raise AttributeError end.

(** [len(v)]. *)
Definition pylen (v : value) : res Z :=
  match v with
  | VStr s => Ok (zlen s)
  | VList l => Ok (zlen l)
  | VDict d => Ok (zlen d)
  | _ => Raise TypeError
  end.

(** [for x in v]: the items of a list, the characters of a string, the keys of a dict. *)
Definition py_iter (v : value) : res (list value) :=
  match v with
  | VStr s => Ok ((fun c => VStr [c]) <$> s)
  | VList l => Ok l
  | VDict d => Ok ((fun kv => VStr kv.1) <$> d)
  | _ => Raise TypeError
  end.

(** [hash(v)] raises [TypeError] on a list or a dict. *)
Definition hashable (v : value) : bool :=
  match v with VList _ | VDict _ => false | _ => true end.

(** [set(l)], as the list of its first occurrences. *)
Fixpoint dedup (l : list value) : list value :=
  match l with
  | [] => []
  | x :: l' => x :: List.filter (fun y => negb (py_eq x y)) (dedup l')
  end.

Definition py_set (l : list value) : res (list value) :=
  if forallb hashable l then Ok (dedup l) else Raise TypeError.

(** Membership in a [dict] or [set] of strings hashes its operand first. *)
Definition in_hashed (v : value) (l : list string) : res bool :=
  if hashable v then Ok (in_lits v l) else Raise TypeError.

(** [v[k]] on a dict whose keys are texts, with any index. *)
Definition index (v k : value) : res value :=
  match v, k with
  | VDict d, VStr s => getitem (VDict d) s
  | VDict _, _ => if hashable k then Raise KeyError else Raise TypeError
  | _, _ => Raise TypeError
  end.

(** [x in v]. *)
Definition py_in (x v : value) : res bool :=
  match v with
  | VList l => Ok (in_values x l)
  | VDict d => if hashable x then Ok (match x with VStr s => dhas s d | _ => false end) else Raise TypeError
  | VStr t => match x with VStr s => Ok (substr_in s t) | _ => Raise TypeError end
  | _ => Raise TypeError
  end.

(** [sorted(set(l))] for texts. *)
Fixpoint insert_str (s : str) (l : list str) : list str :=
  match l with
  | [] => [s]
  | t :: l' => if str_eqb s t then l else if str_ltb s t then s :: l else t :: insert_str s l'
  end.
Definition sorted_set (l : list str) : list str := foldr insert_str [] l.

(** A text operand. *)
Definition as_text (v : value) : res str := match v with VStr s => Ok s | _ => Raise TypeError end.

(** ** Lemmas on dicts *)

Lemma dget_In {A} k (x : A) d : dget k d = Some x -> In (k, x) d.
Proof.
  induction d as [|[k' y] d IH]; simpl; [done |].
  destruct (str_eqb_spec k k') as [->|]; [intros [= ->]; by left | eauto].
Qed.

Lemma dget_None {A} k (d : list (str * A)) : dget k d = None <-> ~ In k (dkeys d).
Proof.
  induction d as [|[k' y] d IH]; simpl; [naive_solver |].
  destruct (str_eqb_spec k k') as [->|]; naive_solver.
Qed.

Lemma dget_Some_key {A} k (x : A) d : dget k d = Some x -> In k (dkeys d).
Proof. intros H%dget_In. by apply (in_map fst) in H. Qed.

Lemma dget_NoDup_In {A} k (x : A) d :
  NoDup (dkeys d) -> In (k, x) d -> dget k d = Some x.
Proof.
  induction d as [|[k' y] d IH]; simpl; [done |].
  rewrite NoDup_cons, list_elem_of_In. intros [Hk Hd] [[= -> ->]|Hin]; [by rewrite str_eqb_refl |].
  destruct (str_eqb_spec k k') as [->|]; [|by apply IH].
  destruct Hk. by apply (in_map fst) in Hin.
Qed.

Lemma dhas_In {A} k (d : list (str * A)) : dhas k d = true <-> In k (dkeys d).
Proof.
  unfold dhas. destruct (dget k d) eqn:E.
  - split; [intros _; by eapply dget_Some_key | done].
  - apply dget_None in E. naive_solver.
Qed.

Lemma dget_dset {A} k k' (x : A) d :
  dget k (dset k' x d) = if str_eqb k k' then Some x else dget k d.
Proof.
  induction d as [|[j y] d IH]; simpl; [done |].
  destruct (str_eqb_spec k' j) as [->|Hj]; simpl.
  - by destruct (str_eqb k j).
  - rewrite IH. destruct (str_eqb_spec k j), (str_eqb_spec k k'); naive_solver.
Qed.

Lemma dget_app {A} k (d e : list (str * A)) :
  dget k (d ++ e) = match dget k d with Some x => Some x | None => dget k e end.
Proof. induction d as [|[j y] d IH]; simpl; [done |]. by destruct (str_eqb k j). Qed.

Lemma dget_dwithout {A} k ks (d : list (str * A)) :
  dget k (dwithout ks d) = if str_in k ks then None else dget k d.
Proof.
  induction d as [|[j y] d IH]; simpl; [by destruct (str_in k ks) |].
  destruct (str_in j ks) eqn:Ej; simpl.
  - rewrite IH. destruct (str_eqb_spec k j) as [->|]; [by rewrite Ej | done].
  - destruct (str_eqb_spec k j) as [->|]; [by rewrite Ej | done].
Qed.

Lemma fld_Ok v k x : fld v k = Ok x <-> exists d, v = VDict d /\ dget (u k) d = Some x.
Proof.
  unfold fld, getitem. destruct v; try (split; [done | naive_solver]).
  destruct (dget (u k) d) eqn:E; naive_solver.
Qed.

Lemma filter_all {A} (f : A -> bool) l : (forall x, In x l -> f x = true) -> List.filter f l = l.
Proof.
  induction l as [|x l IH]; simpl; intros H; [done |].
  rewrite (H x (or_introl eq_refl)). f_equal. apply IH. auto.
Qed.

Lemma fld_app d e k x : fld (VDict d) k = Ok x -> fld (VDict (d ++ e)) k = Ok x.
Proof. rewrite !fld_Ok. intros (? & [= <-] & H). eexists. split; [done |]. by rewrite dget_app, H. Qed.

Lemma dset_absent {A} k (x : A) d : ~ In k (dkeys d) -> dset k x d = d ++ [(k, x)].
Proof.
  induction d as [|[j y] d IH]; simpl; [done |]. intros H.
  destruct (str_eqb_spec k j) as [->|]; [tauto |]. by rewrite IH by tauto.
Qed.

Lemma dwithout_app {A} ks (d e : list (str * A)) : dwithout ks (d ++ e) = dwithout ks d ++ dwithout ks e.
Proof. apply List.filter_app. Qed.

Lemma dwithout_nothing {A} ks (d : list (str * A)) :
  (forall k, In k (dkeys d) -> ~ In k ks) -> dwithout ks d = d.
Proof.
  intros H. apply filter_all. intros kv Hkv. apply negb_true_iff.
  destruct (str_in kv.1 ks) eqn:E; [|done]. apply str_in_In in E. destruct (H kv.1); [|done].
  by apply in_map.
Qed.

(** ** Sets of values *)

Definition distinct (l : list value) : Prop := ForallOrdPairs (fun x y => py_eq x y = false) l.

Lemma ForallOrdPairs_filter {A} (R : A -> A -> Prop) (f : A -> bool) l :
  ForallOrdPairs R l -> ForallOrdPairs R (List.filter f l).
Proof.
  induction 1 as [|x l Hx Hl IH]; simpl; [constructor |].
  destruct (f x); [|done]. constructor; [|done].
  rewrite List.Forall_forall in *. intros y Hy%filter_In. naive_solver.
Qed.

Lemma dedup_distinct l : distinct (dedup l).
Proof.
  induction l as [|x l IH]; simpl; [constructor |]. constructor.
  - rewrite List.Forall_forall. intros y Hy%filter_In. destruct Hy as [_ Hy].
    by apply negb_true_iff in Hy.
  - by apply ForallOrdPairs_filter.
Qed.

Lemma dedup_id l : distinct l -> dedup l = l.
Proof.
  induction 1 as [|x l Hx Hl IH]; simpl; [done |]. rewrite IH. f_equal.
  apply filter_all. intros y Hy. rewrite List.Forall_forall in Hx. by rewrite (Hx y Hy).
Qed.

Lemma dedup_In x l : In x (dedup l) -> In x l.
Proof.
  revert x. induction l as [|y l IH]; intros x; simpl; [done |].
  intros [-> | H%filter_In]; [by left | right; apply IH; naive_solver].
Qed.

Lemma dedup_nil l : dedup l = [] -> l = [].
Proof. by destruct l. Qed.

Lemma py_set_Ok l k : py_set l = Ok k -> k = dedup l /\ forall x, In x l -> hashable x = true.
Proof.
  unfold py_set. destruct (forallb hashable l) eqn:E; [|done]. intros [= <-].
  rewrite forallb_forall in E. done.
Qed.

Lemma dedup_length l : (length (dedup l) <= length l)%nat.
Proof.
  induction l as [|x l IH]; simpl; [done |].
  pose proof (List.filter_length_le (fun y => negb (py_eq x y)) (dedup l)). lia.
Qed.

Lemma filter_length_all {A} (f : A -> bool) l :
  length (List.filter f l) = length l -> List.filter f l = l.
Proof.
  induction l as [|x l IH]; simpl; [done |]. destruct (f x); simpl; intros H.
  - f_equal. apply IH. lia.
  - pose proof (List.filter_length_le f l). lia.
Qed.

(** A set as large as its list has no duplicates. *)
Lemma dedup_full l : length (dedup l) = length l -> distinct l.
Proof.
  intros H. assert (dedup l = l) as <-; [|apply dedup_distinct].
  induction l as [|x l IH]; simpl in *; [done |].
  pose proof (List.filter_length_le (fun y => negb (py_eq x y)) (dedup l)). pose proof (dedup_length l).
  rewrite filter_length_all by lia. f_equal. apply IH. lia.
Qed.
