(* ===== verification/Utf8.v ===== *)
(** UTF-8 as [str.encode("utf-8")] and [bytes.decode("utf-8")] compute it under the
    strict error handler: no surrogates, no overlong forms, nothing above U+10FFFF. *)

From S2P Require Import Prelude PyVal.

#[local] Open Scope N_scope.

#[local] Ltac Zify.zify_post_hook ::= Z.to_euclidean_division_equations.

(** The octets of one code point; a surrogate makes [encode] raise. *)
Definition utf8_char (c : N) : option bytes :=
  if c <? 0x80 then Some [c]
  else if c <? 0x800 then Some [0xC0 + c / 64; 0x80 + c mod 64]
  else if c <? 0x10000 then
    if (0xD800 <=? c) && (c <=? 0xDFFF) then None
    else Some [0xE0 + c / 4096; 0x80 + (c / 64) mod 64; 0x80 + c mod 64]
  else if c <? 0x110000 then
    Some [0xF0 + c / 262144; 0x80 + (c / 4096) mod 64; 0x80 + (c / 64) mod 64; 0x80 + c mod 64]
  else None.

Fixpoint utf8_encode (s : str) : res bytes :=
  match s with
  | [] => Ok []
  | c :: s' =>
      match utf8_char c with
      | Some b => (fun bs => b ++ bs) <$> utf8_encode s'
      | None => Raise ValueError
      end
  end.

Definition cont (b : N) : bool := (0x80 <=? b) && (b <=? 0xBF).
Definition between (lo b hi : N) : bool := (lo <=? b) && (b <=? hi).

(** The second octet of a three-octet form avoids overlong forms and surrogates, that
    of a four-octet form avoids overlong forms and values above U+10FFFF. *)
Definition second3 (b0 b1 : N) : bool :=
  if b0 =? 0xE0 then between 0xA0 b1 0xBF
  else if b0 =? 0xED then between 0x80 b1 0x9F
  else cont b1.

Definition second4 (b0 b1 : N) : bool :=
  if b0 =? 0xF0 then between 0x90 b1 0xBF
  else if b0 =? 0xF4 then between 0x80 b1 0x8F
  else cont b1.

Fixpoint utf8_decode (bs : bytes) : option str :=
  match bs with
  | [] => Some []
  | b0 :: r0 =>
      if b0 <? 0x80 then cons b0 <$> utf8_decode r0
      else if between 0xC2 b0 0xDF then
        match r0 with
        | b1 :: r1 =>
            if cont b1 then cons ((b0 - 0xC0) * 64 + (b1 - 0x80)) <$> utf8_decode r1 else None
        | _ => None
        end
      else if between 0xE0 b0 0xEF then
        match r0 with
        | b1 :: b2 :: r2 =>
            if second3 b0 b1 && cont b2
            then cons ((b0 - 0xE0) * 4096 + (b1 - 0x80) * 64 + (b2 - 0x80)) <$> utf8_decode r2
            else None
        | _ => None
        end
      else if between 0xF0 b0 0xF4 then
        match r0 with
        | b1 :: b2 :: b3 :: r3 =>
            if second4 b0 b1 && cont b2 && cont b3
            then cons ((b0 - 0xF0) * 262144 + (b1 - 0x80) * 4096 + (b2 - 0x80) * 64 + (b3 - 0x80))
                   <$> utf8_decode r3
            else None
        | _ => None
        end
      else None
  end.

(** Scalar values: what UTF-8 can carry. *)
Definition scalar (c : N) : bool := (c <? 0xD800) || between 0xE000 c 0x10FFFF.

(** ** Decoding inverts encoding *)

Ltac bool_lia :=
  try match goal with |- ?b = _ :> bool => is_constructor b; symmetry end;
  unfold second3, second4, between, cont in *;
  repeat match goal with
  | H : context [if ?b then _ else _] |- _ => destruct b eqn:?
  | |- context [if ?b then _ else _] => destruct b eqn:?
  end;
  rewrite ?andb_true_iff, ?andb_false_iff, ?orb_true_iff, ?orb_false_iff,
    ?N.leb_le, ?N.ltb_lt, ?N.leb_gt, ?N.ltb_ge, ?N.eqb_eq, ?N.eqb_neq in *; lia.

Lemma utf8_char_decode c b r :
  utf8_char c = Some b -> utf8_decode (b ++ r) = cons c <$> utf8_decode r.
Proof.
  unfold utf8_char. intros H.
  destruct (c <? 0x80) eqn:E1; [injection H as <-; simpl; by rewrite E1 |].
  apply N.ltb_ge in E1.
  destruct (c <? 0x800) eqn:E2.
  { injection H as <-. apply N.ltb_lt in E2. simpl.
    replace (_ <? 128) with false by bool_lia.
    replace (between _ _ _) with true by bool_lia.
    replace (cont _) with true by bool_lia. do 2 f_equal. lia. }
  apply N.ltb_ge in E2.
  destruct (c <? 0x10000) eqn:E3.
  { apply N.ltb_lt in E3. destruct (_ && _) eqn:E; [done|]. injection H as <-.
    apply andb_false_iff in E. rewrite N.leb_gt, N.leb_gt in E. cbn [app utf8_decode].
    replace (_ <? 128) with false by bool_lia.
    replace (between 0xC2 _ _) with false by bool_lia.
    replace (between 0xE0 _ _) with true by bool_lia.
    replace (second3 _ _) with true by bool_lia.
    replace (cont _) with true by bool_lia. cbn [andb]. do 2 f_equal. lia. }
  apply N.ltb_ge in E3. destruct (c <? 0x110000) eqn:E4; [|done]. injection H as <-.
  apply N.ltb_lt in E4. cbn [app utf8_decode].
  replace (_ <? 128) with false by bool_lia.
  replace (between 0xC2 _ _) with false by bool_lia.
  replace (between 0xE0 _ _) with false by bool_lia.
  replace (between 0xF0 _ _) with true by bool_lia.
  replace (second4 _ _) with true by bool_lia.
  replace (cont (128 + (c / 64) mod 64)) with true by bool_lia.
  replace (cont (128 + c mod 64)) with true by bool_lia. cbn [andb]. do 2 f_equal. lia.
Qed.

Lemma utf8_decode_encode s b : utf8_encode s = Ok b -> utf8_decode b = Some s.
Proof.
  revert b. induction s as [|c s IH]; intros b; simpl; [by intros [= <-] |].
  destruct (utf8_char c) as [bc|] eqn:Ec; [|done].
  rewrite fmap_Ok. intros (bs & Hs & ->).
  by rewrite (utf8_char_decode _ _ _ Ec), (IH _ Hs).
Qed.

Lemma utf8_encode_inj s t b : utf8_encode s = Ok b -> utf8_encode t = Ok b -> s = t.
Proof. intros Hs%utf8_decode_encode Ht%utf8_decode_encode. congruence. Qed.

(** ** What encodes *)

Lemma utf8_char_scalar c : is_Some (utf8_char c) <-> scalar c = true.
Proof.
  unfold utf8_char, scalar, between.
  destruct (c <? 0x80) eqn:?, (c <? 0x800) eqn:?, (c <? 0x10000) eqn:?, (c <? 0x110000) eqn:?,
    (0xD800 <=? c) eqn:?, (c <=? 0xDFFF) eqn:?, (c <? 0xD800) eqn:?, (0xE000 <=? c) eqn:?,
    (c <=? 0x10FFFF) eqn:?; simpl; rewrite ?is_Some_alt;
    rewrite ?N.leb_le, ?N.ltb_lt, ?N.leb_gt, ?N.ltb_ge in *; try lia; naive_solver.
Qed.

Lemma utf8_encode_Ok s : is_ok (utf8_encode s) = forallb scalar s.
Proof.
  induction s as [|c s IH]; [done | simpl]. rewrite <- IH.
  destruct (utf8_char c) eqn:E.
  - replace (scalar c) with true by (symmetry; apply utf8_char_scalar; by rewrite E).
    by destruct (utf8_encode s).
  - destruct (scalar c) eqn:Es; [|done].
    apply utf8_char_scalar in Es. rewrite E in Es. by destruct Es.
Qed.

Lemma utf8_encode_Raise s e : utf8_encode s = Raise e -> e = ValueError.
Proof.
  induction s as [|c s IH]; simpl; [done |].
  destruct (utf8_char c); [|congruence]. destruct (utf8_encode s); naive_solver.
Qed.

Lemma utf8_encode_app s t b c :
  utf8_encode s = Ok b -> utf8_encode t = Ok c -> utf8_encode (s ++ t) = Ok (b ++ c).
Proof.
  revert b. induction s as [|a s IH]; intros b; simpl; [by intros [= <-] |].
  destruct (utf8_char a); [|done]. rewrite fmap_Ok. intros (bs & Hs & ->) Ht.
  by rewrite (IH _ Hs Ht), <- app_assoc.
Qed.

Lemma utf8_encode_ascii s : is_ascii s = true -> utf8_encode s = Ok s.
Proof.
  induction s as [|c s IH]; [done | simpl]. intros [Hc Hs]%andb_true_iff.
  unfold utf8_char. by rewrite Hc, (IH Hs).
Qed.

(** No octet of the encoding is zero unless a code point is. *)
Lemma utf8_char_pos c b : utf8_char c = Some b -> c <> 0 -> Forall (fun x => x <> 0) b.
Proof.
  unfold utf8_char. intros H Hc.
  repeat case_match; simplify_eq; repeat constructor; lia.
Qed.

Lemma utf8_encode_pos s b :
  utf8_encode s = Ok b -> Forall (fun c => c <> 0) s -> Forall (fun x => x <> 0) b.
Proof.
  revert b. induction s as [|c s IH]; intros b; simpl; [by intros [= <-] |].
  destruct (utf8_char c) eqn:E; [|done]. rewrite fmap_Ok. intros (bs & Hs & ->).
  rewrite Forall_cons. intros [? ?]. apply Forall_app. eauto using utf8_char_pos.
Qed.

Lemma utf8_char_last c b : utf8_char c = Some b -> c <> 10 -> exists r x, b = r ++ [x] /\ x <> 10.
Proof.
  unfold utf8_char. intros H Hc. repeat case_match; simplify_eq.
  - by exists [], c.
  - eexists [_], _. split; [done | lia].
  - eexists [_; _], _. split; [done | lia].
  - eexists [_; _; _], _. split; [done | lia].
Qed.

(** An ASCII octet in the encoding is an ASCII character of the text. *)
Lemma utf8_encode_without a s b :
  a < 128 -> utf8_encode s = Ok b -> Forall (fun c => c <> a) s -> Forall (fun x => x <> a) b.
Proof.
  intros Ha. revert b. induction s as [|c s IH]; intros b; simpl; [by intros [= <-] |].
  destruct (utf8_char c) eqn:E; [|done]. rewrite fmap_Ok. intros (bs & Hs & ->).
  rewrite Forall_cons. intros [Hc Hrest]. apply Forall_app. split; [|eauto].
  unfold utf8_char in E. repeat case_match; simplify_eq; repeat constructor; lia.
Qed.
