(* ===== verification/Json.v ===== *)
(** The two directions of Python's [json] module the package uses: [json.loads] with its
    three hooks, as the C scanner of CPython 3.12 runs it, and [json.dumps] with
    [ensure_ascii=False, sort_keys=True, separators=(",", ":")].  The scanner's depth is
    bounded by fuel; [loads_raise] shows the fuel is never the reason of a failure,
    so what is not modelled is only the interpreter's own recursion limit. *)

From S2P Require Import Prelude PyVal.

#[local] Open Scope N_scope.
#[local] Ltac Zify.zify_post_hook ::= Z.to_euclidean_division_equations.

(** ** Decimal integers *)

(** The digits of [n], least significant first. *)
Fixpoint digits_rev (fuel : nat) (n : N) : str :=
  match fuel with
  | O => []
  | S f => if n <? 10 then [48 + n] else (48 + n mod 10) :: digits_rev f (n / 10)
  end.

Definition dec_N (n : N) : str := rev (digits_rev (S (N.size_nat n)) n).

(** [str(z)]. *)
Definition dec_Z (z : Z) : str :=
  if (z <? 0)%Z then 45 :: dec_N (Z.abs_N z) else dec_N (Z.abs_N z).

Definition is_digit (c : N) : bool := (48 <=? c) && (c <=? 57).

(** [int(s)] on a run of ASCII digits. *)
Definition dec_value (s : str) : N := fold_left (fun acc d => acc * 10 + (d - 48)) s 0.

Fixpoint span_digits (s : str) : str * str :=
  match s with
  | c :: s' => if is_digit c then let '(ds, r) := span_digits s' in (c :: ds, r) else ([], s)
  | [] => ([], [])
  end.

(** CPython refuses to convert more digits ([sys.int_info.default_max_str_digits]). *)
Definition MAX_STR_DIGITS : Z := 4300.

(** ** Encoding *)

Definition hex_digit (n : N) : N := if n <? 10 then 48 + n else 87 + n.

(** One code point inside a JSON string literal ([ensure_ascii=False]). *)
Definition esc_char (c : N) : str :=
  if c =? 34 then [92; 34]
  else if c =? 92 then [92; 92]
  else if c =? 10 then [92; 110]
  else if c =? 13 then [92; 114]
  else if c =? 9 then [92; 116]
  else if c =? 12 then [92; 102]
  else if c =? 8 then [92; 98]
  else if c <? 32 then [92; 117; 48; 48; hex_digit (c / 16); hex_digit (c mod 16)]
  else [c].

Definition quote (s : str) : str := 34 :: flat_map esc_char s ++ [34].

Fixpoint join (sep : str) (l : list str) : str :=
  match l with
  | [] => []
  | [x] => x
  | x :: l' => x ++ sep ++ join sep l'
  end.

(** [sorted(d.items())] for distinct keys: ordered by code point. *)
Fixpoint insert_item {A} (kv : str * A) (l : list (str * A)) : list (str * A) :=
  match l with
  | [] => [kv]
  | kv' :: l' => if str_ltb kv'.1 kv.1 then kv' :: insert_item kv l' else kv :: l
  end.

Definition sort_items {A} (l : list (str * A)) : list (str * A) := foldr insert_item [] l.

Definition member (kt : str * str) : str := quote kt.1 ++ [58] ++ kt.2.

Fixpoint dumps (v : value) : str :=
  match v with
  | VNone => u "null"
  | VBool true => u "true"
  | VBool false => u "false"
  | VInt z => dec_Z z
  | VStr s => quote s
  | VList l => [91] ++ join [44] (map dumps l) ++ [93]
  | VDict d =>
      [123] ++ join [44] (map member (sort_items (map (fun kv => (kv.1, dumps kv.2)) d))) ++ [125]
  end.

(** ** Decoding *)

Definition is_ws (c : N) : bool := (c =? 32) || (c =? 9) || (c =? 10) || (c =? 13).

Fixpoint skip_ws (s : str) : str :=
  match s with
  | c :: s' => if is_ws c then skip_ws s' else s
  | [] => []
  end.

Definition expect (c : N) (s : str) : option str :=
  match s with x :: r => if x =? c then Some r else None | [] => None end.

Definition hex_value (c : N) : option N :=
  if is_digit c then Some (c - 48)
  else if (97 <=? c) && (c <=? 102) then Some (c - 87)
  else if (65 <=? c) && (c <=? 70) then Some (c - 55)
  else None.

Definition hex4 (a b c d : N) : option N :=
  match hex_value a, hex_value b, hex_value c, hex_value d with
  | Some a, Some b, Some c, Some d => Some (((a * 16 + b) * 16 + c) * 16 + d)
  | _, _, _, _ => None
  end.

Definition simple_escape (c : N) : option N :=
  if c =? 34 then Some 34 else if c =? 92 then Some 92 else if c =? 47 then Some 47
  else if c =? 98 then Some 8 else if c =? 102 then Some 12 else if c =? 110 then Some 10
  else if c =? 114 then Some 13 else if c =? 116 then Some 9 else None.

Definition is_high (c : N) : bool := (0xD800 <=? c) && (c <=? 0xDBFF).
Definition is_low (c : N) : bool := (0xDC00 <=? c) && (c <=? 0xDFFF).

(** After the opening quote, strict mode: the literal's text and what follows the closing
    quote.  A surrogate pair of escapes joins; a lone surrogate stays. *)
Fixpoint scan_string (s : str) : res (str * str) :=
  match s with
  | [] => Raise ValueError
  | c :: s1 =>
      if c =? 34 then Ok ([], s1)
      else if c =? 92 then
        match s1 with
        | [] => Raise ValueError
        | e :: s2 =>
            if e =? 117 then
              match s2 with
              | h1 :: h2 :: h3 :: h4 :: s3 =>
                  match hex4 h1 h2 h3 h4 with
                  | None => Raise ValueError
                  | Some c1 =>
                      if is_high c1 then
                        match s3 with
                        | b :: v :: k1 :: k2 :: k3 :: k4 :: s4 =>
                            if (b =? 92) && (v =? 117) && negb (Nat.eqb (length s4) 0) then
                              match hex4 k1 k2 k3 k4 with
                              | None => Raise ValueError
                              | Some c2 =>
                                  if is_low c2 then
                                    '(t, r) ← scan_string s4;
                                    Ok (0x10000 + (c1 - 0xD800) * 1024 + (c2 - 0xDC00) :: t, r)
                                  else '(t, r) ← scan_string s3; Ok (c1 :: t, r)
                              end
                            else '(t, r) ← scan_string s3; Ok (c1 :: t, r)
                        | _ => '(t, r) ← scan_string s3; Ok (c1 :: t, r)
                        end
                      else '(t, r) ← scan_string s3; Ok (c1 :: t, r)
                  end
              | _ => Raise ValueError
              end
            else
              match simple_escape e with
              | Some c' => '(t, r) ← scan_string s2; Ok (c' :: t, r)
              | None => Raise ValueError
              end
        end
      else if c <=? 31 then Raise ValueError
      else '(t, r) ← scan_string s1; Ok (c :: t, r)
  end.

(** A fraction or an exponent after the integer part makes the number a float. *)
Definition float_tail (s : str) : bool :=
  match s with
  | 46 :: d :: _ => is_digit d
  | c :: r =>
      ((c =? 101) || (c =? 69)) &&
      match r with
      | x :: r' =>
          if (x =? 43) || (x =? 45)
          then match r' with d :: _ => is_digit d | [] => false end
          else is_digit x
      | [] => false
      end
  | [] => false
  end.

Section loads.
(** [object_pairs_hook], and [parse_float] and [parse_constant], of the call. *)
Variable pairs_hook : list (str * value) -> res value.
Variable float_hook : res value.

(** [_match_number_unicode]. *)
Definition scan_number (s : str) : res (value * str) :=
  let neg := startswith [45] s in
  let s1 := if neg then drop 1 s else s in
  match s1 with
  | [] => Raise ValueError
  | c :: s2 =>
      let '(ds, r) := if c =? 48 then ([c], s2) else span_digits s1 in
      match ds with
      | [] => Raise ValueError
      | _ =>
          if float_tail r then v ← float_hook; Ok (v, r)
          else if (zlen ds >? MAX_STR_DIGITS)%Z then Raise ValueError
          else Ok (VInt (if neg then - Z.of_N (dec_value ds) else Z.of_N (dec_value ds)), r)
      end
  end.

(** [scan_once], and the loops of [_parse_object_unicode] and [_parse_array_unicode]
    from a member or an item on. *)
Fixpoint scan_once (n : nat) (s : str) {struct n} : res (value * str) :=
  match n with
  | O => Raise RecursionError
  | S n =>
      match s with
      | [] => Raise ValueError
      | c :: s1 =>
          if c =? 34 then '(t, r) ← scan_string s1; Ok (VStr t, r)
          else if c =? 123 then
            let s2 := skip_ws s1 in
            match expect 125 s2 with
            | Some r => v ← pairs_hook []; Ok (v, r)
            | None => '(kvs, r) ← scan_members n s2; v ← pairs_hook kvs; Ok (v, r)
            end
          else if c =? 91 then
            let s2 := skip_ws s1 in
            match expect 93 s2 with
            | Some r => Ok (VList [], r)
            | None => '(l, r) ← scan_items n s2; Ok (VList l, r)
            end
          else if startswith (u "null") s then Ok (VNone, drop 4 s)
          else if startswith (u "true") s then Ok (VBool true, drop 4 s)
          else if startswith (u "false") s then Ok (VBool false, drop 5 s)
          else if startswith (u "NaN") s then v ← float_hook; Ok (v, drop 3 s)
          else if startswith (u "Infinity") s then v ← float_hook; Ok (v, drop 8 s)
          else if startswith (u "-Infinity") s then v ← float_hook; Ok (v, drop 9 s)
          else scan_number s
      end
  end
with scan_members (n : nat) (s : str) {struct n} : res (list (str * value) * str) :=
  match n with
  | O => Raise RecursionError
  | S n =>
      match expect 34 s with
      | None => Raise ValueError
      | Some s1 =>
          '(k, r1) ← scan_string s1;
          match expect 58 (skip_ws r1) with
          | None => Raise ValueError
          | Some r2 =>
              '(v, r3) ← scan_once n (skip_ws r2);
              let r4 := skip_ws r3 in
              match expect 125 r4, expect 44 r4 with
              | Some r5, _ => Ok ([(k, v)], r5)
              | None, Some r5 => '(kvs, r6) ← scan_members n (skip_ws r5); Ok ((k, v) :: kvs, r6)
              | None, None => Raise ValueError
              end
          end
      end
  end
with scan_items (n : nat) (s : str) {struct n} : res (list value * str) :=
  match n with
  | O => Raise RecursionError
  | S n =>
      '(v, r3) ← scan_once n s;
      let r4 := skip_ws r3 in
      match expect 93 r4, expect 44 r4 with
      | Some r5, _ => Ok ([v], r5)
      | None, Some r5 => '(l, r6) ← scan_items n (skip_ws r5); Ok (v :: l, r6)
      | None, None => Raise ValueError
      end
  end.

Definition loads_fuel (s : str) : nat := S (S (2 * length s)).

(** [json.loads(text, ...)] *)
Definition loads (s : str) : res value :=
  if startswith [0xFEFF] s then Raise ValueError
  else
    '(v, r) ← scan_once (loads_fuel s) (skip_ws s);
    match skip_ws r with [] => Ok v | _ => Raise ValueError end.
End loads.

(** ** Decimal round trip *)

Lemma digits_rev_value f n :
  n < 2 ^ N.of_nat f -> foldr (fun d acc => acc * 10 + (d - 48)) 0 (digits_rev (S f) n) = n.
Proof.
  revert n. induction f as [|f IH]; intros n Hn.
  - change (2 ^ N.of_nat 0) with 1 in Hn. assert (n = 0) as -> by lia. done.
  - remember (S f) as g. cbn [digits_rev]. destruct (n <? 10) eqn:E.
    + apply N.ltb_lt in E. simpl. lia.
    + apply N.ltb_ge in E. cbn [foldr]. subst g. rewrite IH; [lia |].
      rewrite Nat2N.inj_succ, N.pow_succ_r in Hn by lia. lia.
Qed.

Lemma digits_rev_digit f n : Forall (fun c => is_digit c = true) (digits_rev f n).
Proof.
  revert n. induction f as [|f IH]; intros n; simpl; [constructor |].
  unfold is_digit. destruct (n <? 10) eqn:E; repeat constructor; try apply IH;
    rewrite andb_true_iff, !N.leb_le; rewrite ?N.ltb_lt in E; lia.
Qed.

Lemma digits_rev_last f n :
  n < 2 ^ N.of_nat f -> n <> 0 -> exists ds d, digits_rev (S f) n = ds ++ [d] /\ d <> 48.
Proof.
  revert n. induction f as [|f IH]; intros n Hn H0.
  - change (2 ^ N.of_nat 0) with 1 in Hn. lia.
  - remember (S f) as g. cbn [digits_rev]. destruct (n <? 10) eqn:E.
    + exists [], (48 + n). split; [done | lia].
    + apply N.ltb_ge in E. subst g. rewrite Nat2N.inj_succ, N.pow_succ_r in Hn by lia.
      destruct (IH (n / 10)) as (ds & d & -> & Hd); [lia | lia |].
      by exists (48 + n mod 10 :: ds), d.
Qed.

Lemma digits_rev_length f k n :
  n < 10 ^ N.of_nat k -> (0 < k)%nat -> (length (digits_rev f n) <= k)%nat.
Proof.
  revert k n. induction f as [|f IH]; intros k n Hn Hk; simpl; [lia |].
  destruct (n <? 10) eqn:E; simpl; [lia |]. apply N.ltb_ge in E.
  destruct k as [|[|k]]; [lia | change (10 ^ N.of_nat 1) with 10 in Hn; lia |].
  rewrite Nat2N.inj_succ, N.pow_succ_r in Hn by lia.
  assert (length (digits_rev f (n / 10)) <= S k)%nat; [|lia].
  apply IH; [|lia]. apply N.Div0.div_lt_upper_bound; lia.
Qed.

Lemma size_nat_bound n : n < 2 ^ N.of_nat (N.size_nat n).
Proof.
  destruct n as [|p]; [done |].
  induction p as [p IH|p IH|]; cbn [N.size_nat Pos.size_nat] in *;
    rewrite ?Nat2N.inj_succ, ?N.pow_succ_r in * by lia; [lia | lia | done].
Qed.

Lemma dec_N_value n : dec_value (dec_N n) = n.
Proof.
  unfold dec_value, dec_N. rewrite <- fold_left_rev_right, rev_involutive.
  apply digits_rev_value, size_nat_bound.
Qed.

Lemma dec_N_digits n : Forall (fun c => is_digit c = true) (dec_N n).
Proof. apply Forall_rev, digits_rev_digit. Qed.

(** The decimal form is a single zero or starts with a non-zero digit. *)
Lemma dec_N_shape n :
  dec_N n = [48] \/ exists c ds, dec_N n = c :: ds /\ is_digit c = true /\ c <> 48.
Proof.
  destruct (N.eq_dec n 0) as [->|H0]; [by left | right].
  destruct (digits_rev_last _ n (size_nat_bound n) H0) as (ds & d & E & Hd).
  pose proof (digits_rev_digit (S (N.size_nat n)) n) as Hds. unfold dec_N. rewrite E in *.
  exists d, (rev ds). rewrite rev_app_distr. apply Forall_app in Hds as [_ Hds].
  split; [done |]. split; [by inversion Hds | done].
Qed.

Lemma dec_N_length n k : n < 10 ^ N.of_nat k -> (0 < k)%nat -> (length (dec_N n) <= k)%nat.
Proof. intros. unfold dec_N. rewrite length_rev. by apply digits_rev_length. Qed.

(** ** Scanning what was printed *)

(** What may follow a number without being read as part of it. *)
Definition stops (r : str) : Prop :=
  match r with
  | [] => True
  | c :: _ => is_digit c = false /\ c <> 46 /\ c <> 101 /\ c <> 69
  end.

Lemma span_digits_app ds r :
  Forall (fun c => is_digit c = true) ds -> stops r -> span_digits (ds ++ r) = (ds, r).
Proof.
  intros Hds Hr. induction Hds as [|c ds Hc Hds IH]; simpl.
  - destruct r as [|c r]; [done |]. destruct Hr as [Hc _]. simpl. by rewrite Hc.
  - by rewrite Hc, IH.
Qed.

Lemma float_tail_stops r : stops r -> float_tail r = false.
Proof.
  destruct r as [|c r]; [done |]. intros (_ & H1 & H2 & H3). unfold float_tail.
  rewrite (proj2 (N.eqb_neq c 101) H2), (proj2 (N.eqb_neq c 69) H3).
  destruct (N.eq_dec c 46) as [->|]; [done |].
  repeat (done || case_match); by simplify_eq.
Qed.

Section scan_number_dec.
Variable pairs_hook : list (str * value) -> res value.
Variable float_hook : res value.

Lemma scan_digits_dec n r :
  stops r ->
  (let '(ds, r') := match dec_N n ++ r with
                    | c :: s2 => if c =? 48 then ([c], s2) else span_digits (dec_N n ++ r)
                    | [] => ([], [])
                    end in (ds, r')) = (dec_N n, r).
Proof.
  intros Hr. pose proof (dec_N_digits n) as Hd.
  destruct (dec_N_shape n) as [E|(c & ds & E & Hc & H48)]; rewrite E in *.
  - done.
  - cbn [app]. rewrite (proj2 (N.eqb_neq c 48) H48).
    change (c :: ds ++ r) with ((c :: ds) ++ r). by rewrite span_digits_app.
Qed.

Lemma scan_number_nat n r :
  stops r -> (zlen (dec_N n) <= MAX_STR_DIGITS)%Z ->
  scan_number float_hook (dec_N n ++ r) = Ok (VInt (Z.of_N n), r).
Proof.
  intros Hr Hlen. unfold scan_number.
  pose proof (scan_digits_dec n r Hr) as Hs. pose proof (dec_N_value n) as Hv.
  assert (exists c ds, dec_N n = c :: ds /\ c <> 45) as (c & ds & E & Hc).
  { destruct (dec_N_shape n) as [E|(c & ds & E & Hc & _)]; [by exists 48, [] | exists c, ds].
    split; [done |]. intros ->. done. }
  rewrite E in *. cbn [app startswith drop] in *.
  destruct (N.eqb_spec 45 c) as [|_]; [congruence |]. cbn [andb].
  destruct (if c =? 48 then _ else _) as [ds' r']. injection Hs as -> ->.
  rewrite (float_tail_stops _ Hr).
  destruct (_ >? _)%Z eqn:G; [lia |]. by rewrite Hv.
Qed.

Lemma scan_number_dec z r :
  stops r -> (zlen (dec_N (Z.abs_N z)) <= MAX_STR_DIGITS)%Z ->
  scan_number float_hook (dec_Z z ++ r) = Ok (VInt z, r).
Proof.
  intros Hr Hlen. unfold dec_Z. destruct (z <? 0)%Z eqn:Ez.
  - unfold scan_number. cbn [app startswith]. rewrite N.eqb_refl. cbn [andb drop].
    pose proof (scan_digits_dec (Z.abs_N z) r Hr) as Hs.
    pose proof (dec_N_value (Z.abs_N z)) as Hv.
    assert (exists c ds, dec_N (Z.abs_N z) = c :: ds) as (c & ds & E).
    { destruct (dec_N_shape (Z.abs_N z)) as [E|(c & ds & E & _)]; eauto. }
    rewrite E in *. cbn [app] in *. rewrite drop_0.
    destruct (if c =? 48 then _ else _) as [ds' r']. injection Hs as -> ->.
    rewrite (float_tail_stops _ Hr). destruct (_ >? _)%Z eqn:G; [lia |].
    rewrite Hv. do 3 f_equal. lia.
  - rewrite scan_number_nat by done. do 3 f_equal. lia.
Qed.
End scan_number_dec.

Lemma hex_value_digit n : n < 16 -> hex_value (hex_digit n) = Some n.
Proof.
  unfold hex_value, hex_digit, is_digit. intros Hn.
  destruct (n <? 10) eqn:E; [apply N.ltb_lt in E | apply N.ltb_ge in E].
  - replace (_ && _) with true; [f_equal; lia |].
    symmetry. rewrite andb_true_iff, !N.leb_le. lia.
  - replace ((48 <=? _) && _) with false.
    2: { symmetry. rewrite andb_false_iff, !N.leb_gt. lia. }
    replace (_ && _) with true; [f_equal; lia |].
    symmetry. rewrite andb_true_iff, !N.leb_le. lia.
Qed.

Lemma scan_string_esc s r : scan_string (flat_map esc_char s ++ 34 :: r) = Ok (s, r).
Proof.
  induction s as [|c s IH]; [done |]. cbn [flat_map]. rewrite <- app_assoc.
  remember (flat_map esc_char s ++ 34 :: r) as tl. unfold esc_char.
  destruct (N.eqb_spec c 34) as [->|H1]; [simpl; by rewrite IH |].
  destruct (N.eqb_spec c 92) as [->|H2]; [simpl; by rewrite IH |].
  destruct (N.eqb_spec c 10) as [->|H3]; [simpl; by rewrite IH |].
  destruct (N.eqb_spec c 13) as [->|H4]; [simpl; by rewrite IH |].
  destruct (N.eqb_spec c 9) as [->|H5]; [simpl; by rewrite IH |].
  destruct (N.eqb_spec c 12) as [->|H6]; [simpl; by rewrite IH |].
  destruct (N.eqb_spec c 8) as [->|H7]; [simpl; by rewrite IH |].
  destruct (N.ltb_spec c 32) as [H8|H8].
  - assert (hex4 48 48 (hex_digit (c / 16)) (hex_digit (c mod 16)) = Some c) as Hx.
    { unfold hex4. rewrite !hex_value_digit by lia. simpl. f_equal. lia. }
    assert (is_high c = false) as Hh.
    { unfold is_high. rewrite andb_false_iff, !N.leb_gt. lia. }
    cbn -[hex4 hex_digit N.div N.modulo is_high]. rewrite Hx, Hh, IH. done.
  - cbn [app scan_string]. rewrite (proj2 (N.eqb_neq c 34) H1), (proj2 (N.eqb_neq c 92) H2).
    rewrite (proj2 (N.leb_gt c 31)) by lia. by rewrite IH.
Qed.

(** ** Values a printed document can carry *)

(** Distinct keys in every dict. *)
Fixpoint uniq (v : value) : bool :=
  match v with
  | VList l => forallb uniq l
  | VDict d => bool_decide (NoDup (dkeys d)) && forallb (fun kv => uniq kv.2) d
  | _ => true
  end.

(** Every integer is short enough for [int()] to read back. *)
Fixpoint short_ints (v : value) : bool :=
  match v with
  | VInt z => (Z.abs z <? 10 ^ 20)%Z
  | VList l => forallb short_ints l
  | VDict d => forallb (fun kv => short_ints kv.2) d
  | _ => true
  end.

(** The keys in order, recursively: what [sort_keys=True] prints. *)
Fixpoint norm (v : value) : value :=
  match v with
  | VList l => VList (map norm l)
  | VDict d => VDict (sort_items (map (fun kv => (kv.1, norm kv.2)) d))
  | _ => v
  end.

(** [json.dumps] without [sort_keys]. *)
Fixpoint print (v : value) : str :=
  match v with
  | VNone => u "null"
  | VBool true => u "true"
  | VBool false => u "false"
  | VInt z => dec_Z z
  | VStr s => quote s
  | VList l => [91] ++ join [44] (map print l) ++ [93]
  | VDict d => [123] ++ join [44] (map (fun kv => member (kv.1, print kv.2)) d) ++ [125]
  end.

(** *** Sorting *)

Lemma insert_item_perm {A} (kv : str * A) l : insert_item kv l ≡ₚ kv :: l.
Proof.
  induction l as [|kv' l IH]; simpl; [done |].
  destruct (str_ltb _ _); [|done]. rewrite IH. apply Permutation_swap.
Qed.

Lemma sort_items_perm {A} (l : list (str * A)) : sort_items l ≡ₚ l.
Proof. induction l as [|kv l IH]; simpl; [done |]. by rewrite insert_item_perm, IH. Qed.

Lemma insert_item_map {A B} (f : A -> B) kv l :
  insert_item (kv.1, f kv.2) (map (fun kv => (kv.1, f kv.2)) l)
  = map (fun kv => (kv.1, f kv.2)) (insert_item kv l).
Proof.
  induction l as [|kv' l IH]; simpl; [done |].
  destruct (str_ltb _ _); simpl; [by rewrite IH | done].
Qed.

Lemma sort_items_map {A B} (f : A -> B) l :
  sort_items (map (fun kv => (kv.1, f kv.2)) l) = map (fun kv => (kv.1, f kv.2)) (sort_items l).
Proof. induction l as [|kv l IH]; simpl; [done |]. by rewrite IH, insert_item_map. Qed.

Definition key_le {A} (x y : str * A) : Prop := str_ltb y.1 x.1 = false.

Lemma insert_item_sorted {A} (kv : str * A) l :
  StronglySorted key_le l -> StronglySorted key_le (insert_item kv l).
Proof.
  induction 1 as [|kv' l Hs IH Hall]; simpl; [repeat constructor |].
  destruct (str_ltb kv'.1 kv.1) eqn:E.
  - constructor; [done |]. rewrite insert_item_perm. constructor; [|done].
    unfold key_le. by apply str_ltb_asym.
  - constructor; [by constructor |]. constructor; [done |].
    eapply Forall_impl; [exact Hall |]. unfold key_le. intros y Hy.
    destruct (str_ltb y.1 kv.1) eqn:E2; [|done].
    destruct (str_ltb kv.1 kv'.1) eqn:E3.
    + by rewrite (str_ltb_trans _ _ _ E2 E3) in Hy.
    + rewrite (str_ltb_total _ _ E E3) in Hy. congruence.
Qed.

Lemma sort_items_sorted {A} (l : list (str * A)) : StronglySorted key_le (sort_items l).
Proof. induction l; simpl; [constructor | by apply insert_item_sorted]. Qed.

Lemma insert_item_head {A} (kv : str * A) l :
  Forall (key_le kv) l -> insert_item kv l = kv :: l.
Proof. destruct 1 as [|kv' l H _]; simpl; [done |]. by rewrite H. Qed.

Lemma sort_items_id {A} (l : list (str * A)) : StronglySorted key_le l -> sort_items l = l.
Proof. induction 1 as [|kv l _ IH Hall]; simpl; [done |]. by rewrite IH, insert_item_head. Qed.

(** Sorting forgets the insertion order of distinct keys. *)
Lemma sorted_perm_eq {A} (l k : list (str * A)) :
  NoDup (dkeys l) -> StronglySorted key_le l -> StronglySorted key_le k -> l ≡ₚ k -> l = k.
Proof.
  revert k. induction l as [|x l IH]; intros k Hnd Hl Hk HP.
  - by apply Permutation_nil_l in HP.
  - destruct k as [|y k]; [by apply Permutation_nil_r in HP |].
    inversion Hl as [|? ? Hl' Hxl]; inversion Hk as [|? ? Hk' Hyk]; subst.
    assert (x = y) as <-.
    { assert (In y (x :: l)) as Hy by (rewrite HP; by left).
      assert (In x (y :: k)) as Hx by (rewrite <- HP; by left).
      destruct Hy as [->|Hy]; [done |]. destruct Hx as [->|Hx]; [done |].
      apply list_elem_of_In in Hy, Hx. rewrite Forall_forall in Hxl, Hyk.
      pose proof (str_ltb_total _ _ (Hyk _ Hx) (Hxl _ Hy)) as Heq.
      cbn in Hnd. apply NoDup_cons in Hnd as [Hn _]. destruct Hn.
      rewrite Heq. apply list_elem_of_In, in_map, list_elem_of_In, Hy. }
    f_equal. apply IH; [by apply NoDup_cons in Hnd as [] | done | done |].
    by apply Permutation_cons_inv in HP.
Qed.

Lemma sort_items_perm_eq {A} (l k : list (str * A)) :
  NoDup (dkeys l) -> l ≡ₚ k -> sort_items l = sort_items k.
Proof.
  intros Hnd HP. apply sorted_perm_eq; [|apply sort_items_sorted..|].
  - unfold dkeys. by rewrite sort_items_perm.
  - by rewrite !sort_items_perm.
Qed.

Lemma dget_perm {A} k (l l' : list (str * A)) :
  NoDup (dkeys l) -> l ≡ₚ l' -> dget k l = dget k l'.
Proof.
  intros Hnd HP. assert (NoDup (dkeys l')) as Hnd' by (unfold dkeys in *; by rewrite <- HP).
  destruct (dget k l) as [x|] eqn:E.
  - symmetry. apply dget_NoDup_In; [done |]. rewrite <- HP. by apply dget_In.
  - symmetry. apply dget_None. unfold dkeys. rewrite <- HP. by apply dget_None.
Qed.

(** *** Normal forms *)

Lemma dumps_norm v : dumps v = print (norm v).
Proof.
  induction v as [| | | |l IH|d IH] using value_ind; try done.
  - cbn [dumps norm print]. do 3 f_equal. rewrite map_map. apply map_ext_Forall, IH.
  - cbn [dumps norm print]. do 3 f_equal.
    rewrite <- (map_map (fun kv => (kv.1, print kv.2)) member), <- sort_items_map, map_map.
    do 2 f_equal. apply map_ext_Forall. eapply Forall_impl; [exact IH |].
    intros [k x]; simpl. by intros ->.
Qed.

Lemma dkeys_map {A B} (f : A -> B) d : dkeys (map (fun kv => (kv.1, f kv.2)) d) = dkeys d.
Proof. unfold dkeys. by rewrite map_map. Qed.

Lemma forallb_perm {A} (f : A -> bool) l k : l ≡ₚ k -> forallb f l = forallb f k.
Proof.
  induction 1 as [| |x y l|]; simpl; [done | congruence | | congruence].
  by destruct (f x), (f y).
Qed.

Lemma forallb_map {A B} (g : A -> B) f l : forallb f (map g l) = forallb (fun x => f (g x)) l.
Proof. induction l; simpl; congruence. Qed.

Lemma forallb_ext_Forall {A} (f g : A -> bool) l :
  Forall (fun x => f x = g x) l -> forallb f l = forallb g l.
Proof. induction 1; simpl; congruence. Qed.

Lemma uniq_norm v : uniq (norm v) = uniq v.
Proof.
  induction v as [| | | |l IH|d IH] using value_ind; try done; cbn [norm uniq].
  - rewrite forallb_map. by apply forallb_ext_Forall.
  - rewrite (forallb_perm _ _ _ (sort_items_perm _)), forallb_map. f_equal.
    + apply bool_decide_ext. unfold dkeys. rewrite sort_items_perm, map_map. done.
    + by apply forallb_ext_Forall.
Qed.

Lemma short_ints_norm v : short_ints (norm v) = short_ints v.
Proof.
  induction v as [| | | |l IH|d IH] using value_ind; try done; cbn [norm short_ints].
  - rewrite forallb_map. by apply forallb_ext_Forall.
  - rewrite (forallb_perm _ _ _ (sort_items_perm _)), forallb_map. by apply forallb_ext_Forall.
Qed.

Lemma norm_idem v : norm (norm v) = norm v.
Proof.
  induction v as [| | | |l IH|d IH] using value_ind; try done; cbn [norm].
  - f_equal. rewrite map_map. by apply map_ext_Forall.
  - f_equal. rewrite <- sort_items_map, map_map. simpl.
    rewrite (map_ext_Forall _ (fun kv => (kv.1, norm kv.2))).
    2: { eapply Forall_impl; [exact IH |]. intros [k x]; simpl. by intros ->. }
    apply sort_items_id, sort_items_sorted.
Qed.

Lemma dumps_norm_eq v : dumps (norm v) = dumps v.
Proof. by rewrite !dumps_norm, norm_idem. Qed.

(** *** Scanning a printed value *)

Lemma dec_Z_head z r : exists c t, dec_Z z ++ r = c :: t /\
  (is_digit c = true \/ c = 45 /\ exists d t', t = d :: t' /\ is_digit d = true).
Proof.
  assert (forall n, exists c t, dec_N n = c :: t /\ is_digit c = true) as Hn.
  { intros n. destruct (dec_N_shape n) as [E|(c & ds & E & Hc & _)]; [by exists 48, [] | eauto]. }
  unfold dec_Z. destruct (Hn (Z.abs_N z)) as (c & t & -> & Hc). destruct (z <? 0)%Z; simpl.
  - exists 45, (c :: t ++ r). eauto 10.
  - exists c, (t ++ r). eauto.
Qed.

Lemma print_head v r : exists c t, print v ++ r = c :: t /\
  is_ws c = false /\ c <> 93 /\ c <> 125.
Proof.
  destruct v as [|[]|z|s|l|d]; try (by eexists _, _; split; [reflexivity | done]).
  destruct (dec_Z_head z r) as (c & t & E & Hc). exists c, t. split; [done |].
  assert (c = 45 \/ 48 <= c <= 57) as Hr.
  { destruct Hc as [Hc|[Hc _]]; [right | by left].
    unfold is_digit in Hc. by rewrite andb_true_iff, !N.leb_le in Hc. }
  unfold is_ws. rewrite !orb_false_iff, !N.eqb_neq. lia.
Qed.

Lemma skip_ws_head c t : is_ws c = false -> skip_ws (c :: t) = c :: t.
Proof. intros H. simpl. by rewrite H. Qed.

Lemma expect_ne c x t : x <> c -> expect c (x :: t) = None.
Proof. intros H. simpl. by rewrite (proj2 (N.eqb_neq _ _) H). Qed.

Lemma skip_ws_print v r : skip_ws (print v ++ r) = print v ++ r.
Proof. destruct (print_head v r) as (c & t & -> & ? & _). by apply skip_ws_head. Qed.

Lemma expect_print c v r : c = 93 \/ c = 125 -> expect c (print v ++ r) = None.
Proof.
  destruct (print_head v r) as (x & t & -> & _ & ? & ?). intros [-> | ->]; by apply expect_ne.
Qed.

Section scan_print.
Variable pairs_hook : list (str * value) -> res value.
Variable float_hook : res value.
Hypothesis hook_ok : forall d, NoDup (dkeys d) -> pairs_hook d = Ok (VDict d).

#[local] Abbreviation scan := (scan_once pairs_hook float_hook).

Lemma scan_once_number n c t :
  is_digit c = true \/ c = 45 /\ (exists d t', t = d :: t' /\ is_digit d = true) ->
  scan (S n) (c :: t) = scan_number float_hook (c :: t).
Proof.
  intros Hc. cbn [scan_once].
  assert (c = 45 \/ 48 <= c <= 57) as Hr.
  { destruct Hc as [Hc|[Hc _]]; [right | by left].
    unfold is_digit in Hc. by rewrite andb_true_iff, !N.leb_le in Hc. }
  do 3 (match goal with |- context [c =? ?k] => rewrite (proj2 (N.eqb_neq c k)) by lia end).
  change (u "null") with [110; 117; 108; 108]. change (u "true") with [116; 114; 117; 101].
  change (u "false") with [102; 97; 108; 115; 101]. change (u "NaN") with [78; 97; 78].
  change (u "Infinity") with [73; 110; 102; 105; 110; 105; 116; 121].
  change (u "-Infinity") with [45; 73; 110; 102; 105; 110; 105; 116; 121].
  cbn [startswith].
  do 5 (match goal with |- context [?k =? c] => rewrite (proj2 (N.eqb_neq k c)) by lia end).
  cbn [andb]. destruct (N.eqb_spec 45 c) as [<-|_]; [|done]. cbn [andb].
  destruct Hc as [Hc|[_ (d & t' & -> & Hd)]]; [by exfalso; destruct Hr; lia || done |].
  destruct (N.eqb_spec 73 d) as [<-|_]; [done |]. done.
Qed.

Definition scans (v : value) : Prop := forall n r,
  stops r -> (2 * length (print v ++ r) < n)%nat -> scan n (print v ++ r) = Ok (v, r).

Lemma scan_items_print l n r :
  l <> [] -> Forall scans l ->
  (2 * length (join [44%N] (map print l) ++ 93%N :: r) + 1 < n)%nat ->
  scan_items pairs_hook float_hook n (join [44] (map print l) ++ 93 :: r) = Ok (l, r).
Proof.
  intros Hne Hl. revert n. induction Hl as [|x l Hx Hl IH]; intros n Hn; [done |].
  destruct n as [|n]; [lia |]. cbn [scan_items].
  destruct l as [|y l].
  - cbn [map join] in *. rewrite Hx; [done | done | lia].
  - change (join [44] (map print (x :: y :: l)))
      with (print x ++ [44] ++ join [44] (map print (y :: l))) in *.
    rewrite <- !app_assoc in *. rewrite Hx; [|done | lia]. cbn [mbind res_bind app].
    rewrite (skip_ws_head 44) by done. cbn [expect].
    change (44 =? 93) with false. change (44 =? 44) with true. cbv iota.
    assert (skip_ws (join [44] (map print (y :: l)) ++ 93 :: r)
            = join [44] (map print (y :: l)) ++ 93 :: r) as ->.
    { destruct l; cbn [map join]; rewrite <- ?app_assoc; apply skip_ws_print. }
    rewrite IH; [done | done |]. rewrite length_app in Hn. cbn [app length] in Hn. lia.
Qed.

Lemma scan_members_print d n r :
  d <> [] -> Forall (fun kv => scans kv.2) d ->
  let s := join [44] (map (fun kv => member (kv.1, print kv.2)) d) ++ 125 :: r in
  (2 * length s + 1 < n)%nat -> scan_members pairs_hook float_hook n s = Ok (d, r).
Proof.
  intros Hne Hd. revert n. induction Hd as [|[k x] d Hx Hd IH]; intros n s Hn; [done |].
  destruct n as [|n]; [lia |].
  assert (forall t, stops t -> (2 * length (member (k, print x) ++ t) < S n)%nat ->
    scan_members pairs_hook float_hook (S n) (member (k, print x) ++ t) =
    let r4 := skip_ws t in
    match expect 125 r4, expect 44 r4 with
    | Some r5, _ => Ok ([(k, x)], r5)
    | None, Some r5 => '(kvs, r6) ← scan_members pairs_hook float_hook n (skip_ws r5);
                       Ok ((k, x) :: kvs, r6)
    | None, None => Raise ValueError
    end) as Hone.
  { intros t Ht Hlen. unfold member, quote in *. cbn [fst snd app] in *.
    rewrite <- !app_assoc in *. cbn [scan_members expect app].
    change (34 =? 34) with true. cbv iota. rewrite scan_string_esc.
    cbn [mbind res_bind]. rewrite (skip_ws_head 58) by done. cbn [expect].
    change (58 =? 58) with true. cbv iota. rewrite skip_ws_print.
    rewrite Hx; [done | done |]. simpl in Hlen. rewrite !length_app in *. simpl in Hlen.
    rewrite length_app in Hlen. lia. }
  subst s. destruct d as [|[k' y] d].
  - cbn [map join] in *. rewrite Hone; [done | done |]. cbn [fst snd] in Hn. lia.
  - change (join [44] (map (fun kv => member (kv.1, print kv.2)) ((k, x) :: (k', y) :: d)))
      with (member (k, print x) ++
            [44] ++ join [44] (map (fun kv => member (kv.1, print kv.2)) ((k', y) :: d))) in *.
    rewrite <- !app_assoc in *. rewrite Hone; [|done | lia].
    cbn [app]. rewrite (skip_ws_head 44) by done. cbn [expect].
    change (44 =? 125) with false. change (44 =? 44) with true. cbv iota.
    assert (forall z, skip_ws (join [44] (map (fun kv => member (kv.1, print kv.2)) ((k', y) :: d)) ++ z)
            = join [44] (map (fun kv => member (kv.1, print kv.2)) ((k', y) :: d)) ++ z) as ->.
    { intros z. by destruct d. }
    rewrite IH; [done | done |]. rewrite length_app in Hn. cbn [app length] in Hn. lia.
Qed.

Lemma scan_print v : uniq v = true -> short_ints v = true -> scans v.
Proof.
  induction v as [|b|z|s|l IH|d IH] using value_ind; intros Hu Hs n r Hr Hn;
    (destruct n as [|n]; [lia |]).
  - done.
  - by destruct b.
  - destruct (dec_Z_head z r) as (c & t & E & Hc). cbn [print] in *.
    rewrite E, scan_once_number, <- E by done. apply scan_number_dec; [done |].
    simpl in Hs. apply Z.ltb_lt in Hs. unfold zlen, MAX_STR_DIGITS.
    pose proof (dec_N_length (Z.abs_N z) 20). lia.
  - cbn [print]. unfold quote. cbn [app]. rewrite <- app_assoc. cbn [app].
    cbn [scan_once]. by rewrite scan_string_esc.
  - cbn [print app] in *. rewrite <- app_assoc in *. cbn [app] in *. simpl in Hn.
    assert (Forall scans l) as Hl.
    { simpl in Hu, Hs. rewrite forallb_forall in Hu, Hs. rewrite Forall_forall in *.
      intros x Hx. apply IH; [done | apply Hu | apply Hs]; by apply list_elem_of_In. }
    cbn [scan_once]. change (91 =? 34) with false. change (91 =? 123) with false.
    change (91 =? 91) with true. cbv iota zeta. destruct l as [|x l]; [done |].
    assert (exists k, join [44] (map print (x :: l)) ++ 93 :: r = print x ++ k) as [k E].
    { destruct l; cbn [map join]; rewrite <- ?app_assoc; eauto. }
    rewrite E, skip_ws_print, expect_print, <- E by auto.
    by rewrite scan_items_print by (done || lia).
  - cbn [print app] in *. rewrite <- app_assoc in *. cbn [app] in *. simpl in Hn.
    simpl in Hu. apply andb_true_iff in Hu as [Hnd%bool_decide_eq_true Hu].
    assert (Forall (fun kv => scans kv.2) d) as Hd.
    { simpl in Hs. rewrite forallb_forall in Hu, Hs. rewrite Forall_forall in *.
      intros x Hx. apply IH; [done | apply Hu | apply Hs]; by apply list_elem_of_In. }
    cbn [scan_once]. change (123 =? 34) with false. change (123 =? 123) with true.
    cbv iota zeta. destruct d as [|kv d].
    { cbn [map join app skip_ws]. change (is_ws 125) with false. cbv iota. cbn [expect].
      change (125 =? 125) with true. cbv iota. by rewrite hook_ok by constructor. }
    assert (exists k, join [44] (map (fun kv => member (kv.1, print kv.2)) (kv :: d)) ++ 125 :: r
            = 34 :: k) as [k E].
    { destruct d; cbn [map join]; rewrite <- ?app_assoc; eauto. }
    rewrite E, skip_ws_head, expect_ne, <- E by done.
    rewrite scan_members_print by (done || lia). cbn [mbind res_bind]. by rewrite hook_ok.
Qed.

Lemma loads_print v :
  uniq v = true -> short_ints v = true -> loads pairs_hook float_hook (print v) = Ok v.
Proof.
  intros Hu Hs. unfold loads.
  pose proof (scan_print v Hu Hs (loads_fuel (print v)) []) as H.
  pose proof (skip_ws_print v []) as Hw. pose proof (print_head v []) as (c & t & E & _).
  rewrite app_nil_r in *. rewrite Hw, H; [|done | unfold loads_fuel; lia].
  destruct v as [|[]|z|s|l|d]; try done. cbn [print] in *.
  destruct (dec_Z_head z []) as (c' & t' & E' & Hc). rewrite app_nil_r in *. rewrite E'.
  destruct (startswith _ _) eqn:Hst; [|done]. cbn [startswith] in Hst.
  rewrite andb_true_r, N.eqb_eq in Hst. subst c'.
  destruct Hc as [Hc|[Hc _]]; discriminate Hc.
Qed.

(** Trailing white space is skipped. *)
Lemma loads_print_nl v :
  uniq v = true -> short_ints v = true ->
  loads pairs_hook float_hook (print v ++ [10]) = Ok v.
Proof.
  intros Hu Hs. unfold loads.
  pose proof (scan_print v Hu Hs (loads_fuel (print v ++ [10])) [10]) as H.
  pose proof (skip_ws_print v [10]) as Hw.
  rewrite Hw, H; [|done | unfold loads_fuel; lia].
  destruct v as [|[]|z|s|l|d]; try done. cbn [print] in *.
  destruct (dec_Z_head z [10]) as (c' & t' & E' & Hc). rewrite E'.
  destruct (startswith _ _) eqn:Hst; [|done]. cbn [startswith] in Hst.
  rewrite andb_true_r, N.eqb_eq in Hst. subst c'.
  destruct Hc as [Hc|[Hc _]]; discriminate Hc.
Qed.

Lemma loads_dumps v :
  uniq v = true -> short_ints v = true -> loads pairs_hook float_hook (dumps v) = Ok (norm v).
Proof.
  intros. rewrite dumps_norm. apply loads_print; by rewrite ?uniq_norm, ?short_ints_norm.
Qed.
End scan_print.

(** ** What the scanner returns and raises *)

(** A scanning step from [len] characters: it consumes some, its result satisfies [P],
    and with enough fuel it raises nothing but a [ValueError]. *)
Definition scanned {A} (P : A -> Prop) (enough : Prop) (len : nat) (m : res (A * str)) : Prop :=
  match m with
  | Ok (a, r) => P a /\ (length r < len)%nat
  | Raise e => enough -> is_value_error e = true
  end.

Lemma scanned_bind {A B} (P : A -> Prop) (Q : B -> Prop) (en en' : Prop) len len' m f :
  scanned P en len m -> (en' -> en) ->
  (forall a r, P a -> (length r < len)%nat -> scanned Q en' len' (f (a, r))) ->
  scanned Q en' len' (m ≫= f).
Proof. destruct m as [[a r]|e]; simpl; [intros [? ?]; auto | intros H Hen _ ?; auto]. Qed.

Lemma scanned_weaken {A} (P : A -> Prop) (en : Prop) len len' m :
  scanned P en len m -> (len <= len')%nat -> scanned P en len' m.
Proof. destruct m as [[a r]|e]; simpl; [intros [? ?] ?; split; [done | lia] | done]. Qed.

Lemma skip_ws_length s : (length (skip_ws s) <= length s)%nat.
Proof. induction s as [|c s IH]; simpl; [lia |]. destruct (is_ws c); simpl; lia. Qed.

Lemma expect_length c s r : expect c s = Some r -> length s = S (length r).
Proof. destruct s as [|x s]; simpl; [done |]. destruct (x =? c); [by intros [= ->] | done]. Qed.

Lemma span_digits_length s ds r :
  span_digits s = (ds, r) -> length s = (length ds + length r)%nat.
Proof.
  revert ds r. induction s as [|c s IH]; intros ds r; simpl; [by intros [= <- <-] |].
  destruct (is_digit c); [|by intros [= <- <-]].
  destruct (span_digits s) as [ds' r'] eqn:E. intros [= <- <-]. simpl. f_equal. by apply IH.
Qed.

Lemma scan_string_scanned en s : scanned (fun _ => True) en (length s) (scan_string s).
Proof.
  induction s as [s IH] using (induction_ltof1 _ (@length N)). unfold ltof in IH.
  assert (forall c t, (length t < length s)%nat ->
    scanned (fun _ => True) en (length s) ('(x, r) ← scan_string t; Ok (c :: x, r))) as Hstep.
  { intros c t Ht. eapply scanned_bind; [by apply IH | done |]. simpl. intros; split; [done | lia]. }
  destruct s as [|c s1]; [done |]. cbn [scan_string].
  destruct (c =? 34); [split; [done | simpl; lia] |].
  destruct (c =? 92); [|destruct (c <=? 31); [done | apply Hstep; simpl; lia]].
  destruct s1 as [|e s2]; [done |].
  destruct (e =? 117); [|destruct (simple_escape e); [apply Hstep; simpl; lia | done]].
  destruct s2 as [|h1 [|h2 [|h3 [|h4 s3]]]]; try done.
  destruct (hex4 _ _ _ _) as [c1|]; [|done].
  destruct (is_high c1); [|apply Hstep; simpl; lia].
  destruct s3 as [|b [|v [|k1 [|k2 [|k3 [|k4 s4]]]]]]; try (apply Hstep; simpl; lia).
  destruct (_ && _); [|apply Hstep; simpl; lia].
  destruct (hex4 _ _ _ _) as [c2|]; [|done].
  destruct (is_low c2); apply Hstep; simpl; lia.
Qed.

Section scan_inv.
Variable pairs_hook : list (str * value) -> res value.
Variable float_hook : res value.
Hypothesis hook_inv : forall d v, pairs_hook d = Ok v -> v = VDict d /\ NoDup (dkeys d).
Hypothesis hook_raise : forall d e, pairs_hook d = Raise e -> is_value_error e = true.
Hypothesis float_inv : exists e, float_hook = Raise e /\ is_value_error e = true.

#[local] Abbreviation isuniq := (fun v => uniq v = true).

Lemma float_hook_scanned {A} (P : A -> Prop) en len (f : value -> res (A * str)) :
  scanned P en len (v ← float_hook; f v).
Proof. destruct float_inv as (e & -> & He). simpl. done. Qed.

Lemma scan_number_scanned en s : scanned isuniq en (length s) (scan_number float_hook s).
Proof.
  unfold scan_number.
  set (s1 := if startswith [45] s then drop 1 s else s).
  assert (length s1 <= length s)%nat as Hs1.
  { subst s1. destruct (startswith _ _); [|done]. rewrite length_drop. lia. }
  destruct s1 as [|c s2]; [done |].
  destruct (if c =? 48 then _ else _) as [ds r] eqn:E.
  destruct ds as [|x ds]; [done |].
  assert (length r < length s)%nat.
  { destruct (c =? 48); [injection E as <- <- <-; simpl in Hs1; lia |].
    apply span_digits_length in E. simpl in E, Hs1. lia. }
  destruct (float_tail r); [apply float_hook_scanned |].
  destruct (_ >? _)%Z; [done | by split].
Qed.

Lemma pairs_hook_scanned en len d r :
  forallb (fun kv => uniq kv.2) d = true -> (length r < len)%nat ->
  scanned isuniq en len (v ← pairs_hook d; Ok (v, r)).
Proof.
  intros Hd Hr. destruct (pairs_hook d) as [v|e] eqn:E; simpl.
  - apply hook_inv in E as [-> Hnd]. split; [|done]. cbn [uniq].
    by rewrite Hd, (bool_decide_eq_true_2 _ Hnd).
  - intros _. by apply (hook_raise d).
Qed.

Lemma scan_scanned n :
  (forall s, scanned isuniq (2 * length s < n)%nat (length s)
               (scan_once pairs_hook float_hook n s)) /\
  (forall s, scanned (fun d => forallb (fun kv => uniq kv.2) d = true)
               (2 * length s + 1 < n)%nat (length s) (scan_members pairs_hook float_hook n s)) /\
  (forall s, scanned (fun l => forallb uniq l = true) (2 * length s + 1 < n)%nat (length s)
               (scan_items pairs_hook float_hook n s)).
Proof.
  induction n as [|n (IHo & IHm & IHi)]; [repeat split; intros s; simpl; intros; lia |].
  split; [|split]; intros s.
  - cbn [scan_once]. destruct s as [|c s1]; [done |].
    destruct (c =? 34).
    { eapply scanned_bind; [apply (scan_string_scanned True) | done |].
      intros a r _ Hr. split; [done | simpl; lia]. }
    pose proof (skip_ws_length s1) as Hws.
    destruct (c =? 123).
    { destruct (expect 125 (skip_ws s1)) as [r|] eqn:E.
      - apply expect_length in E. apply pairs_hook_scanned; [done | simpl; lia].
      - eapply scanned_bind; [apply IHm | simpl; lia |].
        intros d r Hd Hr. apply pairs_hook_scanned; [done | simpl; lia]. }
    destruct (c =? 91).
    { destruct (expect 93 (skip_ws s1)) as [r|] eqn:E.
      - apply expect_length in E. split; [done | simpl; lia].
      - eapply scanned_bind; [apply IHi | simpl; lia |].
        intros l r Hl Hr. split; [done | simpl; lia]. }
    do 3 (match goal with |- context [if startswith ?p ?s then _ else _] =>
            destruct (startswith p s);
            [split; [done | rewrite length_drop; simpl; lia] |] end).
    do 3 (match goal with |- context [if startswith ?p ?s then _ else _] =>
            destruct (startswith p s); [apply float_hook_scanned |] end).
    apply scan_number_scanned.
  - cbn [scan_members]. destruct (expect 34 s) as [s1|] eqn:E; [|done].
    apply expect_length in E.
    eapply scanned_bind; [apply (scan_string_scanned True) | done |]. intros k r1 _ Hr1.
    destruct (expect 58 _) as [r2|] eqn:E2; [|done]. apply expect_length in E2.
    pose proof (skip_ws_length r1). pose proof (skip_ws_length r2).
    eapply scanned_bind; [apply IHo | lia |]. intros v r3 Hv Hr3. cbv zeta.
    pose proof (skip_ws_length r3).
    destruct (expect 125 _) as [r5|] eqn:E5.
    { apply expect_length in E5. simpl. rewrite Hv. split; [done | lia]. }
    destruct (expect 44 _) as [r5|] eqn:E6; [|done]. apply expect_length in E6.
    pose proof (skip_ws_length r5).
    eapply scanned_bind; [apply IHm | lia |]. intros d r6 Hd Hr6.
    simpl. rewrite Hv. split; [done | lia].
  - cbn [scan_items]. eapply scanned_bind; [apply IHo | lia |]. intros v r3 Hv Hr3. cbv zeta.
    pose proof (skip_ws_length r3).
    destruct (expect 93 _) as [r5|] eqn:E5.
    { apply expect_length in E5. simpl. rewrite Hv. split; [done | lia]. }
    destruct (expect 44 _) as [r5|] eqn:E6; [|done]. apply expect_length in E6.
    pose proof (skip_ws_length r5).
    eapply scanned_bind; [apply IHi | lia |]. intros l r6 Hl Hr6.
    simpl. rewrite Hv. split; [done | lia].
Qed.

Lemma loads_uniq s v : loads pairs_hook float_hook s = Ok v -> uniq v = true.
Proof.
  unfold loads. destruct (startswith _ _); [done |].
  pose proof (proj1 (scan_scanned (loads_fuel s)) (skip_ws s)) as H.
  destruct (scan_once _ _ _ _) as [[v' r]|]; [|done]. simpl.
  destruct (skip_ws r); [|done]. intros [= <-]. by destruct H.
Qed.

(** The fuel is never what stops [loads]: it raises what a hook raises, or [ValueError]. *)
Lemma loads_raise s e : loads pairs_hook float_hook s = Raise e -> is_value_error e = true.
Proof.
  unfold loads. destruct (startswith _ _); [by intros [= <-] |].
  pose proof (proj1 (scan_scanned (loads_fuel s)) (skip_ws s)) as H.
  destruct (scan_once _ _ _ _) as [[v' r]|e']; simpl in *.
  - destruct (skip_ws r); by intros [= <-].
  - intros [= <-]. apply H. pose proof (skip_ws_length s). unfold loads_fuel. lia.
Qed.
End scan_inv.

(** ** The printed text has no control character *)

Lemma esc_char_printable c : Forall (fun x => 32 <= x) (esc_char c).
Proof.
  unfold esc_char, hex_digit. repeat case_match; repeat constructor; try lia.
  all: rewrite ?N.ltb_ge, ?N.ltb_lt in *; lia.
Qed.

Lemma quote_printable s : Forall (fun x => 32 <= x) (quote s).
Proof.
  unfold quote. constructor; [lia |]. apply Forall_app. split; [|repeat constructor; lia].
  induction s as [|c s IH]; simpl; [constructor |]. apply Forall_app. split; [|done].
  apply esc_char_printable.
Qed.

Lemma dec_Z_printable z : Forall (fun x => 32 <= x) (dec_Z z).
Proof.
  assert (forall n, Forall (fun x => 32 <= x) (dec_N n)) as Hn.
  { intros n. eapply Forall_impl; [apply dec_N_digits |]. unfold is_digit.
    intros c. rewrite andb_true_iff, !N.leb_le. lia. }
  unfold dec_Z. destruct (z <? 0)%Z; [constructor; [lia |] |]; apply Hn.
Qed.

Lemma join_printable sep l :
  Forall (fun x => 32 <= x) sep -> Forall (Forall (fun x => 32 <= x)) l ->
  Forall (fun x => 32 <= x) (join sep l).
Proof.
  intros Hs. induction 1 as [|x l Hx Hl IH]; simpl; [constructor |].
  destruct l; [done |]. apply Forall_app. split; [done |]. apply Forall_app. by split.
Qed.

Lemma print_printable v : Forall (fun x => 32 <= x) (print v).
Proof.
  induction v as [|[]|z|s|l IH|d IH] using value_ind.
  1-3: by apply (bool_decide_unpack _).
  - apply dec_Z_printable.
  - apply quote_printable.
  - cbn [print]. constructor; [lia |]. apply Forall_app. split; [|repeat constructor; lia].
    apply join_printable; [repeat constructor; lia |]. by rewrite Forall_map.
  - cbn [print]. constructor; [lia |]. apply Forall_app. split; [|repeat constructor; lia].
    apply join_printable; [repeat constructor; lia |]. rewrite Forall_map.
    eapply Forall_impl; [exact IH |]. intros [k x] Hx. simpl in *. unfold member.
    apply Forall_app. split; [apply quote_printable |]. constructor; [simpl; lia | done].
Qed.

Lemma dumps_printable v : Forall (fun x => 32 <= x) (dumps v).
Proof. rewrite dumps_norm. apply print_printable. Qed.
