(* ===== verification/Sha2.v ===== *)
(** [hashlib.sha256] and [hashlib.sha512] as FIPS 180-4 defines them: the package's digests
    and its Ed25519 arithmetic rest on these two functions of the standard library. *)

From S2P Require Import Prelude PyVal.

#[local] Open Scope N_scope.

(** ** The SHA-2 construction, over the word size and the constants *)

(** A big-endian number on [k] octets, and the number a run of octets denotes. *)
Fixpoint be_bytes (k : nat) (n : N) : bytes :=
  match k with
  | O => []
  | S k' => n / 2 ^ (8 * N.of_nat k') mod 256 :: be_bytes k' n
  end.

Definition be_value (b : bytes) : N := fold_left (fun acc x => acc * 256 + x) b 0.

(** Consecutive groups of [k] octets; [fuel] bounds the number of groups. *)
Fixpoint groups (fuel k : nat) (b : bytes) : list bytes :=
  match fuel, b with
  | S f, _ :: _ => take k b :: groups f k (drop k b)
  | _, _ => []
  end.

(** The constants are written several words to a numeral and split when defined. *)
Definition words (k per : nat) (l : list N) : list N :=
  l ≫= fun x => be_value <$> groups per k (be_bytes (per * k) x).

Record sha2 := {
  word_bytes : nat;
  word_bits : N;
  mask : N;
  rounds : list N;
  initial : list N;
  big0 : N * N * N; big1 : N * N * N;
  small0 : N * N * N; small1 : N * N * N
}.

Section sha2.
Context (p : sha2).

(** [mask] keeps the low [word_bits] bits. *)
Definition wrap (x : N) : N := N.land x (mask p).
Definition lnot_w (x : N) : N := N.lxor x (mask p).
Definition rotr (k x : N) : N := N.lor (N.shiftr x k) (wrap (N.shiftl x (word_bits p - k))).

(** [Sigma] rotates three times; [sigma] rotates twice and shifts. *)
Definition big_sigma (r : N * N * N) (x : N) : N :=
  let '(a, b, c) := r in N.lxor (rotr a x) (N.lxor (rotr b x) (rotr c x)).
Definition small_sigma (r : N * N * N) (x : N) : N :=
  let '(a, b, c) := r in N.lxor (rotr a x) (N.lxor (rotr b x) (N.shiftr x c)).

(** The message schedule: [w] is the window of the last sixteen words, oldest first. *)
Fixpoint schedule (n : nat) (w : list N) : list N :=
  match n with
  | O => []
  | S n' =>
      let next := wrap (small_sigma (small1 p) (nth 14 w 0) + nth 9 w 0 +
                        small_sigma (small0 p) (nth 1 w 0) + nth 0 w 0) in
      nth 0 w 0 :: schedule n' (tail w ++ [next])
  end.

Definition round (s : list N) (kw : N * N) : list N :=
  match s with
  | [a; b; c; d; e; f; g; h] =>
      let ch := N.lxor (N.land e f) (N.land (lnot_w e) g) in
      let maj := N.lxor (N.land a b) (N.lxor (N.land a c) (N.land b c)) in
      let t1 := h + big_sigma (big1 p) e + ch + kw.1 + kw.2 in
      let t2 := big_sigma (big0 p) a + maj in
      [wrap (t1 + t2); a; b; c; wrap (d + t1); e; f; g]
  | _ => s
  end.

Definition compress (s : list N) (block : bytes) : list N :=
  let ws := be_value <$> groups 16 (word_bytes p) block in
  let s' := fold_left round (combine (rounds p) (schedule (length (rounds p)) ws)) s in
  zip_with (fun a b => wrap (a + b)) s s'.

Definition block_bytes : nat := 16 * word_bytes p.

Definition pad (m : bytes) : bytes :=
  let used := (length m + 1 + 2 * word_bytes p)%nat in
  let zeros := ((block_bytes - used mod block_bytes) mod block_bytes)%nat in
  m ++ [128] ++ replicate zeros 0 ++
  be_bytes (2 * word_bytes p) (8 * N.of_nat (length m)).

Definition sha2_hash (m : bytes) : bytes :=
  let padded := pad m in
  let s := fold_left compress (groups (length padded) block_bytes padded) (initial p) in
  s ≫= be_bytes (word_bytes p).
End sha2.

Definition K256 : list N := Eval vm_compute in words 4 8 [
    0x428a2f9871374491b5c0fbcfe9b5dba53956c25b59f111f1923f82a4ab1c5ed5;
    0xd807aa9812835b01243185be550c7dc372be5d7480deb1fe9bdc06a7c19bf174;
    0xe49b69c1efbe47860fc19dc6240ca1cc2de92c6f4a7484aa5cb0a9dc76f988da;
    0x983e5152a831c66db00327c8bf597fc7c6e00bf3d5a7914706ca635114292967;
    0x27b70a852e1b21384d2c6dfc53380d13650a7354766a0abb81c2c92e92722c85;
    0xa2bfe8a1a81a664bc24b8b70c76c51a3d192e819d6990624f40e3585106aa070;
    0x19a4c1161e376c082748774c34b0bcb5391c0cb34ed8aa4a5b9cca4f682e6ff3;
    0x748f82ee78a5636f84c878148cc7020890befffaa4506cebbef9a3f7c67178f2].

Definition H256 : list N := Eval vm_compute in words 4 8 [
    0x6a09e667bb67ae853c6ef372a54ff53a510e527f9b05688c1f83d9ab5be0cd19].

Definition sha256_spec : sha2 := {|
  word_bytes := 4; word_bits := 32; mask := 0xffffffff;
  rounds := K256;
  initial := H256;
  big0 := (2, 13, 22); big1 := (6, 11, 25); small0 := (7, 18, 3); small1 := (17, 19, 10)
|}.

Definition K512 : list N := Eval vm_compute in words 8 4 [
    0x428a2f98d728ae227137449123ef65cdb5c0fbcfec4d3b2fe9b5dba58189dbbc;
    0x3956c25bf348b53859f111f1b605d019923f82a4af194f9bab1c5ed5da6d8118;
    0xd807aa98a303024212835b0145706fbe243185be4ee4b28c550c7dc3d5ffb4e2;
    0x72be5d74f27b896f80deb1fe3b1696b19bdc06a725c71235c19bf174cf692694;
    0xe49b69c19ef14ad2efbe4786384f25e30fc19dc68b8cd5b5240ca1cc77ac9c65;
    0x2de92c6f592b02754a7484aa6ea6e4835cb0a9dcbd41fbd476f988da831153b5;
    0x983e5152ee66dfaba831c66d2db43210b00327c898fb213fbf597fc7beef0ee4;
    0xc6e00bf33da88fc2d5a79147930aa72506ca6351e003826f142929670a0e6e70;
    0x27b70a8546d22ffc2e1b21385c26c9264d2c6dfc5ac42aed53380d139d95b3df;
    0x650a73548baf63de766a0abb3c77b2a881c2c92e47edaee692722c851482353b;
    0xa2bfe8a14cf10364a81a664bbc423001c24b8b70d0f89791c76c51a30654be30;
    0xd192e819d6ef5218d69906245565a910f40e35855771202a106aa07032bbd1b8;
    0x19a4c116b8d2d0c81e376c085141ab532748774cdf8eeb9934b0bcb5e19b48a8;
    0x391c0cb3c5c95a634ed8aa4ae3418acb5b9cca4f7763e373682e6ff3d6b2b8a3;
    0x748f82ee5defb2fc78a5636f43172f6084c87814a1f0ab728cc702081a6439ec;
    0x90befffa23631e28a4506cebde82bde9bef9a3f7b2c67915c67178f2e372532b;
    0xca273eceea26619cd186b8c721c0c207eada7dd6cde0eb1ef57d4f7fee6ed178;
    0x06f067aa72176fba0a637dc5a2c898a6113f9804bef90dae1b710b35131c471b;
    0x28db77f523047d8432caab7b40c724933c9ebe0a15c9bebc431d67c49c100d4c;
    0x4cc5d4becb3e42b6597f299cfc657e2a5fcb6fab3ad6faec6c44198c4a475817].

Definition H512 : list N := Eval vm_compute in words 8 4 [
    0x6a09e667f3bcc908bb67ae8584caa73b3c6ef372fe94f82ba54ff53a5f1d36f1;
    0x510e527fade682d19b05688c2b3e6c1f1f83d9abfb41bd6b5be0cd19137e2179].

Definition sha512_spec : sha2 := {|
  word_bytes := 8; word_bits := 64; mask := 0xffffffffffffffff;
  rounds := K512;
  initial := H512;
  big0 := (28, 34, 39); big1 := (14, 18, 41); small0 := (1, 8, 7); small1 := (19, 61, 6)
|}.

Definition sha256 (m : bytes) : bytes := sha2_hash sha256_spec m.
Definition sha512 (m : bytes) : bytes := sha2_hash sha512_spec m.

(** ** Length and range of a digest *)

Definition octet (b : N) : Prop := b < 256.

Lemma be_bytes_length k n : length (be_bytes k n) = k.
Proof. induction k as [|k IH]; [done | simpl; by rewrite IH]. Qed.

Lemma be_bytes_octets k n : Forall octet (be_bytes k n).
Proof.
  induction k as [|k IH]; simpl; constructor; [|done].
  apply N.mod_lt. done.
Qed.

Lemma round_length p s kw : length (round p s kw) = length s.
Proof. do 9 (destruct s as [|? s]; [done |]). done. Qed.

Lemma compress_length p s b : length (compress p s b) = length s.
Proof.
  unfold compress. rewrite length_zip_with.
  enough (forall l s, length (fold_left (round p) l s) = length s) as -> by lia.
  induction l as [|kw l IH]; intros; simpl; [done |]. by rewrite IH, round_length.
Qed.

Lemma sha2_length p m : length (sha2_hash p m) = (word_bytes p * length (initial p))%nat.
Proof.
  unfold sha2_hash. generalize (groups (length (pad p m)) (block_bytes p) (pad p m)) as l.
  assert (forall l s, length (fold_left (compress p) l s) = length s) as Hl.
  { induction l as [|b l IH]; intros; simpl; [done |]. by rewrite IH, compress_length. }
  intros l. rewrite <- (Hl l (initial p)). generalize (fold_left (compress p) l (initial p)) as s.
  induction s as [|x s IH]; csimpl; [lia |]. rewrite length_app, be_bytes_length, IH. lia.
Qed.

Lemma sha2_octets p m : Forall octet (sha2_hash p m).
Proof. apply Forall_bind, Forall_true. intros x. apply be_bytes_octets. Qed.

Lemma sha256_length m : length (sha256 m) = 32%nat.
Proof. apply sha2_length. Qed.
Lemma sha256_octets m : Forall octet (sha256 m).
Proof. apply sha2_octets. Qed.
Lemma sha512_length m : length (sha512 m) = 64%nat.
Proof. apply sha2_length. Qed.
Lemma sha512_octets m : Forall octet (sha512 m).
Proof. apply sha2_octets. Qed.

#[global] Opaque sha256 sha512.

(** The FIPS 180-4 test vector. *)
Example sha256_abc :
  be_value (sha256 (u "abc")) =
  0xba7816bf8f01cfea414140de5dae2223b00361a396177a9cb410ff61f20015ad.
Proof. vm_compute. reflexivity. Qed.
