(* ===== verification/Canonical.v ===== *)
(** canonical.py: strict decoding, the value bounds, canonical bytes, domain-separated
    digests, and reading a local reference. *)

From S2P Require Import Prelude PyVal Utf8 Json Sha2.

#[local] Open Scope Z_scope.

(** ** Unicode normalization *)

(** [unicodedata.normalize("NFC", _)] is a table of the Unicode consortium: it enters as a
    function with its documented behaviour as laws. *)
Class Unicode := nfc : str -> str.

Class UnicodeOk (U : Unicode) : Prop := {
  nfc_ascii : forall s, is_ascii s = true -> nfc s = s;
  nfc_idem : forall s, nfc (nfc s) = nfc s
}.

(* @src src/src/harness_conformance/canonical.py:13-13 MAX_FILE_BYTES *)
Definition MAX_FILE_BYTES : Z := 4 * 1024 * 1024.
(* @src src/src/harness_conformance/canonical.py:14-14 MAX_COLLECTION_ITEMS *)
Definition MAX_COLLECTION_ITEMS : Z := 4096.
(* @src src/src/harness_conformance/canonical.py:15-15 MAX_DEPTH *)
Definition MAX_DEPTH : Z := 32.
(* @src src/src/harness_conformance/canonical.py:16-16 MAX_SAFE_INTEGER *)
Definition MAX_SAFE_INTEGER : Z := Z.shiftl 1 53 - 1.

(** ** Strict decoding *)

(** The [object_pairs_hook]: the loop fills [result] and refuses a repeated key. *)
(* @src src/src/harness_conformance/canonical.py:19-25 _pairs *)
Definition _pairs (pairs : list (str * value)) : res value :=
  d ← for_fold (fun (result : dict) '(key, v) =>
        raise_if (dhas key result) "DUPLICATE_JSON_MEMBER" ;; Ok (dset key v result)) [] pairs;
  Ok (VDict d).

(** The [parse_float] and [parse_constant] hook. *)
(* @src src/src/harness_conformance/canonical.py:28-29 _reject_float *)
Definition _reject_float : res value := conf "NON_CANONICAL_NUMBER".

Section canonical.
Context {U : Unicode}.

(** The [str] branch, which the loop over a dict also runs on each key. *)
(* @src src/src/harness_conformance/canonical.py:102-107 _validate_value *)
Definition validate_str (s : str) : res unit :=
  raise_if (negb (str_eqb (nfc s) s)) "NON_NORMALIZED_STRING" ;;
  b ← utf8_encode s;
  raise_if (zlen b >? MAX_FILE_BYTES) "STRING_TOO_LARGE".

(* @src src/src/harness_conformance/canonical.py:92-124 _validate_value *)
Fixpoint _validate_value (v : value) (depth : Z) {struct v} : res unit :=
  raise_if (depth >? MAX_DEPTH) "DOCUMENT_TOO_DEEP" ;;
  match v with
  | VNone | VBool _ => Ok tt
  | VInt z => raise_if (Z.abs z >? MAX_SAFE_INTEGER) "INTEGER_OUT_OF_RANGE"
  | VStr s => validate_str s
  | VList l =>
      raise_if (zlen l >? MAX_COLLECTION_ITEMS) "COLLECTION_TOO_LARGE" ;;
      for_each (fun item => _validate_value item (depth + 1)) l
  | VDict d =>
      raise_if (zlen d >? MAX_COLLECTION_ITEMS) "COLLECTION_TOO_LARGE" ;;
      for_each (fun kv =>
        (* _validate_value(key, depth + 1) *)
        raise_if (depth + 1 >? MAX_DEPTH) "DOCUMENT_TOO_DEEP" ;;
        validate_str kv.1 ;;
        _validate_value kv.2 (depth + 1)) d
  end.

(* @src src/src/harness_conformance/canonical.py:32-51 load_json_bytes *)
Definition load_json_bytes (data : bytes) : res value :=
  raise_if (zlen data >? MAX_FILE_BYTES) "DOCUMENT_TOO_LARGE" ;;
  match utf8_decode data with
  | None => conf "INVALID_UTF8"
  | Some text =>
      value ← guarded (fun e => match e with TypeError | ValueError => true | _ => false end)
        "INVALID_JSON" (loads _pairs _reject_float text);
      _validate_value value 0 ;;
      Ok value
  end.

(* @src src/src/harness_conformance/canonical.py:127-135 canonical_bytes *)
Definition canonical_bytes (v : value) : res bytes :=
  _validate_value v 0 ;; utf8_encode (dumps v).

(** [digest.hex()]. *)
Definition hexdigest (b : bytes) : str := flat_map (fun x => [hex_digit (x / 16); hex_digit (x mod 16)]%N) b.

(* @src src/src/harness_conformance/canonical.py:143-144 byte_digest *)
Definition byte_digest (data : bytes) : str := u "sha256:" ++ hexdigest (sha256 data).

(** What [canonical_digest] hashes. *)
Definition domain_prefix (domain : option string) : bytes :=
  match domain with None => [] | Some d => u d ++ [0%N] end.

(* @src src/src/harness_conformance/canonical.py:138-140 canonical_digest *)
Definition canonical_digest (v : value) (domain : option string) : res str :=
  b ← canonical_bytes v;
  Ok (u "sha256:" ++ hexdigest (sha256 (domain_prefix domain ++ b))).

(* @src src/src/harness_conformance/canonical.py:147-151 require_canonical_document *)
Definition require_canonical_document (data : bytes) : res value :=
  value ← load_json_bytes data;
  b ← canonical_bytes value;
  raise_if (negb (str_eqb (b ++ [10%N]) data) && negb (str_eqb b data)) "NON_CANONICAL_JSON" ;;
  Ok value.

(** ** Reading a local reference *)

(** What the operating system answers to [os.open], [os.fstat] and the successive
    [os.read] calls on the descriptor: the [k]-th call asked for [n] octets. *)
Record opened := {
  regular : bool;
  st_size : Z;
  os_read : nat -> Z -> bytes
}.

(** [Path.is_absolute] and [Path.parts] of a POSIX path. *)
Definition is_absolute (path : str) : bool := startswith (u "/") path.
Definition path_parts (path : str) : list str :=
  List.filter (fun p => negb (str_eqb p [] || str_eqb p (u "."))) (split_on 47 path).

(** [os.fsencode] and the kernel's interface: a NUL, or a surrogate that does not stand for an
    undecodable octet, is a [ValueError] before any file is looked up. *)
Definition path_encodable (path : str) : bool :=
  forallb (fun c => negb (c =? 0)%N &&
    ((c <? 0xD800)%N || (0xDFFF <? c)%N || (0xDC80 <=? c)%N && (c <=? 0xDCFF)%N)) path.

(** The [while remaining] loop; [fuel] bounds the number of reads. *)
(* @src src/src/harness_conformance/canonical.py:75-83 secure_read *)
Fixpoint read_blocks (fuel : nat) (k : nat) (fd : opened) (remaining : Z) : res bytes :=
  if remaining =? 0 then Ok [] else
  match fuel with
  | O => Raise RecursionError
  | S fuel' =>
      match os_read fd k (Z.min remaining (1024 * 1024)) with
      | [] => Ok []
      | block => rest ← read_blocks fuel' (S k) fd (remaining - zlen block); Ok (block ++ rest)
      end
  end.

(* @src src/src/harness_conformance/canonical.py:58-89 secure_read *)
Definition secure_read (os_open : str -> option opened) (path : str) (require_absolute : bool)
    : res bytes :=
  raise_if (require_absolute && negb (is_absolute path)) "PATH_NOT_ABSOLUTE" ;;
  raise_if (str_in (u "..") (path_parts path)) "PATH_TRAVERSAL" ;;
  (if path_encodable path then Ok tt else Raise ValueError) ;;
  match os_open path with
  | None => conf "REFERENCE_UNAVAILABLE"
  | Some fd =>
      raise_if (negb (regular fd)) "REFERENCE_NOT_REGULAR" ;;
      raise_if (st_size fd >? MAX_FILE_BYTES) "DOCUMENT_TOO_LARGE" ;;
      data ← read_blocks (Z.to_nat (st_size fd)) 0 fd (st_size fd);
      raise_if (negb (zlen data =? st_size fd)) "REFERENCE_CHANGED" ;;
      Ok data
  end.

(* @src src/src/harness_conformance/canonical.py:54-55 load_json *)
Definition load_json os_open (path : str) (require_absolute : bool) : res value :=
  data ← secure_read os_open path require_absolute; load_json_bytes data.
End canonical.

(** ** The strict parser's hooks meet the scanner's interface *)

Lemma _pairs_fold d acc :
  NoDup (dkeys acc ++ dkeys d) ->
  for_fold (fun (result : dict) '(key, v) =>
    raise_if (dhas key result) "DUPLICATE_JSON_MEMBER" ;; Ok (dset key v result)) acc d
  = Ok (acc ++ d).
Proof.
  revert acc. induction d as [|[k x] d IH]; intros acc Hd; simpl; [by rewrite app_nil_r |].
  simpl in Hd. apply NoDup_app in Hd as (Ha & Hk & Hd).
  assert (Hkacc : dhas k acc = false).
  { apply not_true_iff_false. rewrite dhas_In, <- list_elem_of_In. intros Hin.
    destruct (Hk _ Hin). by constructor. }
  rewrite Hkacc. simpl. apply NoDup_cons in Hd as [Hkd Hd].
  assert (Hset : dset k x acc = acc ++ [(k, x)]).
  { clear -Hkacc. revert Hkacc. unfold dhas. induction acc as [|[j y] acc IH]; simpl; [done |].
    destruct (str_eqb k j); [done |]. intros H. by rewrite IH. }
  rewrite Hset, IH; [by rewrite <- app_assoc |].
  unfold dkeys in *. rewrite map_app. simpl. rewrite <- app_assoc. simpl.
  apply NoDup_app. split; [done |]. split.
  - intros y Hy. rewrite elem_of_cons. intros [-> | Hy'].
    + destruct (Hk _ Hy). by left.
    + destruct (Hk _ Hy). by right.
  - by constructor.
Qed.

Lemma _pairs_ok d : NoDup (dkeys d) -> _pairs d = Ok (VDict d).
Proof. intros. unfold _pairs. by rewrite _pairs_fold. Qed.

Lemma _pairs_inv_fold d acc r :
  NoDup (dkeys acc) ->
  for_fold (fun (result : dict) '(key, v) =>
    raise_if (dhas key result) "DUPLICATE_JSON_MEMBER" ;; Ok (dset key v result)) acc d = Ok r ->
  r = acc ++ d /\ NoDup (dkeys r).
Proof.
  revert acc. induction d as [|[k x] d IH]; intros acc Ha; simpl.
  { intros [= <-]. by rewrite app_nil_r. }
  destruct (dhas k acc) eqn:Hk; simpl; [done |].
  assert (Hset : dset k x acc = acc ++ [(k, x)]).
  { clear -Hk. revert Hk. unfold dhas. induction acc as [|[j y] acc IH]; simpl; [done |].
    destruct (str_eqb k j); [done |]. intros H. by rewrite IH. }
  rewrite Hset. intros H. apply IH in H as [-> ?].
  - by rewrite <- app_assoc in *.
  - unfold dkeys. rewrite map_app. apply NoDup_app. split; [done |]. split; [|apply NoDup_singleton].
    intros y Hy ->%list_elem_of_singleton. apply not_true_iff_false in Hk. apply Hk, dhas_In.
    by rewrite <- list_elem_of_In.
Qed.

Lemma _pairs_inv d v : _pairs d = Ok v -> v = VDict d /\ NoDup (dkeys d).
Proof.
  unfold _pairs. intros H. apply bind_Ok in H as (r & H & [= <-]).
  apply _pairs_inv_fold in H as [-> ?]; [done | constructor].
Qed.

Lemma _pairs_raise d e : _pairs d = Raise e -> is_conformance e = true.
Proof.
  unfold _pairs. rewrite bind_Raise. intros [H | (? & _ & [=])]. revert H.
  generalize (@nil (str * value)) as acc.
  induction d as [|[k x] d IH]; intros acc; simpl; [done |].
  destruct (dhas k acc); simpl; [by intros [= <-] | apply IH].
Qed.

Lemma _pairs_value_error d e : _pairs d = Raise e -> is_value_error e = true.
Proof. intros H. apply _pairs_raise in H. by destruct e. Qed.

Lemma _reject_float_raises : exists e, _reject_float = Raise e /\ is_value_error e = true.
Proof. by eexists. Qed.

#[export] Hint Resolve _pairs_ok _pairs_inv _pairs_value_error _reject_float_raises : py.

(** ** Bounds *)

Section bounds.
Context {U : Unicode}.

(** The depth of nesting that [_validate_value] counts. *)
Fixpoint depth_of (v : value) : Z :=
  match v with
  | VList l => foldr (fun x n => Z.max (1 + depth_of x) n) 0 l
  | VDict d => foldr (fun kv n => Z.max (1 + depth_of kv.2) n) (match d with [] => 0 | _ => 1 end) d
  | _ => 0
  end.

(** What a validated string satisfies. *)
Definition str_bounds (s : str) : Prop :=
  nfc s = s /\ exists b, utf8_encode s = Ok b /\ zlen b <= MAX_FILE_BYTES.

(** The bounds of a validated value, leaf by leaf and node by node. *)
Inductive bounded : value -> Prop :=
| bounded_none : bounded VNone
| bounded_bool b : bounded (VBool b)
| bounded_int z : Z.abs z <= MAX_SAFE_INTEGER -> bounded (VInt z)
| bounded_str s : str_bounds s -> bounded (VStr s)
| bounded_list l : zlen l <= MAX_COLLECTION_ITEMS -> Forall bounded l -> bounded (VList l)
| bounded_dict d : zlen d <= MAX_COLLECTION_ITEMS -> Forall str_bounds (dkeys d) ->
    Forall bounded (map snd d) -> bounded (VDict d).

Lemma depth_of_nonneg v : 0 <= depth_of v.
Proof.
  destruct v as [| | | |l|d]; simpl; try lia.
  - induction l; simpl; lia.
  - set (z := match d with [] => 0 | _ => 1 end). assert (0 <= z) by (subst z; destruct d; lia).
    clearbody z. induction d; simpl; lia.
Qed.

Lemma depth_list_le l n : 0 <= n ->
  depth_of (VList l) <= n <-> Forall (fun x => depth_of x <= n - 1) l.
Proof.
  intros Hn. simpl. induction l as [|x l IH]; simpl; rewrite ?Forall_nil, ?Forall_cons; [lia |].
  rewrite <- IH. lia.
Qed.

Lemma depth_dict_le d n : 0 <= n ->
  depth_of (VDict d) <= n <->
  (d = [] \/ 1 <= n) /\ Forall (fun kv => depth_of kv.2 <= n - 1) d.
Proof.
  intros Hn. simpl.
  enough (forall z, 0 <= z ->
    foldr (fun kv m => Z.max (1 + depth_of kv.2) m) z d <= n <->
    z <= n /\ Forall (fun kv => depth_of kv.2 <= n - 1) d) as H.
  { destruct d; rewrite H by lia; [split; [intuition | by intros []] |].
    split; intros [? ?]; (split; [|done]); [right; lia | naive_solver lia]. }
  intros z Hz. induction d as [|x d IH]; simpl; rewrite ?Forall_nil, ?Forall_cons; [lia |].
  rewrite Z.max_lub_iff, IH. split; intros; repeat split; naive_solver lia.
Qed.

Lemma validate_str_Ok s : validate_str s = Ok tt <-> str_bounds s.
Proof.
  unfold validate_str, str_bounds. rewrite seq_Ok, raise_if_Ok, negb_false_iff, str_eqb_eq, bind_Ok.
  setoid_rewrite raise_if_Ok. split.
  - intros (? & o & ? & ?). split; [done |]. exists o. split; [done | lia].
  - intros (? & o & ? & ?). split; [done |]. exists o. split; [done | lia].
Qed.

Lemma depth_run {B} n (k : res B) b :
  (raise_if (n >? MAX_DEPTH) "DOCUMENT_TOO_DEEP" ;; k) = Ok b <-> n <= MAX_DEPTH /\ k = Ok b.
Proof. rewrite seq_Ok, raise_if_Ok. intuition lia. Qed.

Lemma size_run {A B} (l : list A) (k : res B) b :
  (raise_if (zlen l >? MAX_COLLECTION_ITEMS) "COLLECTION_TOO_LARGE" ;; k) = Ok b <->
  zlen l <= MAX_COLLECTION_ITEMS /\ k = Ok b.
Proof. rewrite seq_Ok, raise_if_Ok. intuition lia. Qed.

Lemma bounded_members d :
  Forall bounded (map snd d) <-> Forall (fun kv : str * value => bounded kv.2) d.
Proof. by rewrite Forall_map. Qed.

Lemma bounded_keys (d : dict) :
  Forall str_bounds (dkeys d) <-> Forall (fun kv : str * value => str_bounds kv.1) d.
Proof. unfold dkeys. by rewrite Forall_map. Qed.

(** [_validate_value] returns exactly on the bounded values of depth at most 32. *)
Lemma validate_spec v n : 0 <= n ->
  _validate_value v n = Ok tt <-> bounded v /\ depth_of v + n <= MAX_DEPTH.
Proof.
  revert n. induction v as [|b|z|s|l IH|d IH] using value_ind; intros n Hn;
    cbn [_validate_value]; rewrite depth_run.
  - cbn. intuition (constructor || lia).
  - cbn. intuition (constructor || lia).
  - cbn [depth_of]. rewrite raise_if_Ok.
    split; [intros [? ?]; split; [constructor|]; lia | intros [H ?]; inversion H; subst; lia].
  - cbn [depth_of]. rewrite validate_str_Ok.
    split; [intros [? ?]; split; [by constructor | lia] |].
    intros [H ?]; inversion H; subst; split; [lia | done].
  - rewrite size_run, for_each_Ok.
    rewrite (Forall_iff_in _ (fun x => bounded x /\ depth_of x <= MAX_DEPTH - n - 1)).
    2: { eapply Forall_impl; [exact IH |]. intros x Hx. cbv beta in *. rewrite Hx by lia. intuition lia. }
    rewrite Forall_and. pose proof (depth_list_le l (MAX_DEPTH - n)) as Hd.
    pose proof (depth_of_nonneg (VList l)). split.
    + intros (? & ? & ? & ?). split; [by constructor |]. apply Hd in H3; lia.
    + intros [H1 ?]. inversion H1; subst. split; [lia |]. split; [done |]. split; [done |].
      apply Hd; lia.
  - rewrite size_run, for_each_Ok.
    rewrite (Forall_iff_in _ (fun kv => 1 <= MAX_DEPTH - n /\ str_bounds kv.1 /\ bounded kv.2 /\
      depth_of kv.2 <= MAX_DEPTH - n - 1)).
    2: { eapply Forall_impl; [exact IH |]. intros [k x] Hx. cbv beta in *.
         rewrite depth_run, seq_Ok, validate_str_Ok. cbn [fst snd] in *. rewrite Hx by lia. intuition lia. }
    rewrite !Forall_and. pose proof (depth_dict_le d (MAX_DEPTH - n)) as Hd.
    pose proof (depth_of_nonneg (VDict d)). 
    rewrite <- bounded_keys, <- bounded_members. split.
    + intros (? & ? & ? & ? & ? & ?). split; [by constructor |].
      enough (depth_of (VDict d) <= MAX_DEPTH - n) by lia. apply Hd; [lia |]. split; [|done].
      destruct H2; auto.
    + intros [H1 ?]. inversion H1; subst. split; [lia |]. split; [done |].
      destruct (proj1 (Hd ltac:(lia)) ltac:(lia)) as [He ?]. split; [|done].
      destruct He as [-> | ?]; [constructor | by apply Forall_true].
Qed.
(** What it raises: its own codes, or the encoder's error on a lone surrogate. *)
Definition validation_error (e : exn) : Prop := is_conformance e = true \/ e = ValueError.

Lemma raise_if_raise b c e : raise_if b c = Raise e -> is_conformance e = true.
Proof. destruct b; [by intros [= <-] | done]. Qed.

Lemma for_each_raise {A} (f : A -> res unit) (Q : exn -> Prop) l e :
  Forall (fun x => forall e, f x = Raise e -> Q e) l -> for_each f l = Raise e -> Q e.
Proof.
  induction 1 as [|x l Hx _ IH]; simpl; [done |].
  rewrite bind_Raise. intros [H | (_ & _ & H)]; eauto.
Qed.

Lemma validate_str_raise s e : validate_str s = Raise e -> validation_error e.
Proof.
  unfold validate_str. rewrite !bind_Raise. unfold validation_error.
  intros [H | (_ & _ & H)]; [eauto using raise_if_raise |]; apply bind_Raise in H as [H | (b & _ & H)]; eauto using raise_if_raise, utf8_encode_Raise.
Qed.

Lemma validate_raise v n e : _validate_value v n = Raise e -> validation_error e.
Proof.
  revert n e. induction v as [|b|z|s|l IH|d IH] using value_ind; intros n e; cbn [_validate_value];
    intros [H | (_ & _ & H)]%bind_Raise; try done; try (left; by eapply raise_if_raise).
  - by eapply validate_str_raise.
  - apply bind_Raise in H as [H | (_ & _ & H)]; [left; by eapply raise_if_raise |].
    revert H. apply (for_each_raise _ validation_error). eapply Forall_impl; [exact IH | eauto].
  - apply bind_Raise in H as [H | (_ & _ & H)]; [left; by eapply raise_if_raise |].
    revert H. apply (for_each_raise _ validation_error).
    eapply Forall_impl; [exact IH |]. intros x Hx e'. cbv beta in *.
    intros [H | (_ & _ & H)]%bind_Raise; [left; by eapply raise_if_raise |].
    apply bind_Raise in H as [H | (_ & _ & H)]; [by eapply validate_str_raise | by eapply Hx].
Qed.

(** *** The bounds do not depend on the order of members *)

Lemma Forall_sort_items {A B} (P : str * B -> Prop) (f : A -> str * B) d :
  Forall P (sort_items (map f d)) <-> Forall (fun x => P (f x)) d.
Proof. rewrite <- (Forall_map f P d). apply Forall_Permutation; [done | apply sort_items_perm]. Qed.

Lemma length_sort_items {A B} (f : A -> str * B) d : length (sort_items (map f d)) = length d.
Proof. rewrite (Permutation_length (sort_items_perm _)). apply length_map. Qed.

Lemma depth_norm_le v n : 0 <= n -> depth_of (norm v) <= n <-> depth_of v <= n.
Proof.
  revert n. induction v as [| | | |l IH|d IH] using value_ind; intros n Hn; try done.
  - cbn [norm]. rewrite !depth_list_le, Forall_map by done.
    destruct (decide (n = 0)) as [->|].
    + apply Forall_iff_in, Forall_true. intros x. simpl.
      pose proof (depth_of_nonneg x). pose proof (depth_of_nonneg (norm x)). lia.
    + apply Forall_iff_in. eapply Forall_impl; [exact IH |]. intros x Hx. apply Hx. lia.
  - cbn [norm]. rewrite !depth_dict_le, Forall_sort_items by done. cbn [snd].
    assert (Hn' : sort_items (map (fun kv : str * value => (kv.1, norm kv.2)) d) = [] <-> d = []).
    { by rewrite <- !length_zero_iff_nil, length_sort_items. }
    rewrite Hn'. destruct (decide (n = 0)) as [->|].
    + split; intros [[->|?] _]; try lia; split; auto.
    + f_equiv. apply Forall_iff_in. eapply Forall_impl; [exact IH |]. intros x Hx. apply Hx. lia.
Qed.

Lemma depth_norm v : depth_of (norm v) = depth_of v.
Proof.
  pose proof (depth_of_nonneg v). pose proof (depth_of_nonneg (norm v)).
  pose proof (depth_norm_le v (depth_of v)). pose proof (depth_norm_le v (depth_of (norm v))). lia.
Qed.

Lemma bounded_list_iff l :
  bounded (VList l) <-> zlen l <= MAX_COLLECTION_ITEMS /\ Forall bounded l.
Proof. split; [by inversion 1 | intros []; by constructor]. Qed.

Lemma bounded_dict_iff d : bounded (VDict d) <-> zlen d <= MAX_COLLECTION_ITEMS /\
  Forall (fun kv => str_bounds kv.1) d /\ Forall (fun kv => bounded kv.2) d.
Proof.
  rewrite <- bounded_keys, <- bounded_members.
  split; [by inversion 1 | intros (? & ? & ?); by constructor].
Qed.

Lemma bounded_norm v : bounded (norm v) <-> bounded v.
Proof.
  induction v as [| | | |l IH|d IH] using value_ind; try done; cbn [norm].
  - rewrite !bounded_list_iff. unfold zlen. rewrite length_map, Forall_map.
    f_equiv. by apply Forall_iff_in.
  - rewrite !bounded_dict_iff, !Forall_sort_items. unfold zlen. rewrite length_sort_items.
    cbn [fst snd]. do 2 f_equiv. by apply Forall_iff_in.
Qed.

Lemma validate_norm v : _validate_value (norm v) 0 = Ok tt <-> _validate_value v 0 = Ok tt.
Proof. by rewrite !validate_spec, bounded_norm, depth_norm. Qed.

Lemma bounded_short_ints v : bounded v -> short_ints v = true.
Proof.
  induction v as [| |z| |l IH|d IH] using value_ind; try done.
  - inversion 1 as [| |z' Hz| | |]. cbn [short_ints]. apply Z.ltb_lt.
    unfold MAX_SAFE_INTEGER in Hz. change (Z.shiftl 1 53 - 1) with 9007199254740991 in Hz.
    change (10 ^ 20) with 100000000000000000000. lia.
  - rewrite bounded_list_iff. intros [_ Hl]. cbn [short_ints]. apply forallb_forall.
    rewrite Forall_forall in *. intros x Hx%list_elem_of_In. by apply IH, Hl.
  - rewrite bounded_dict_iff. intros (_ & _ & Hd). cbn [short_ints]. apply forallb_forall.
    rewrite Forall_forall in *. intros x Hx%list_elem_of_In. by apply IH, Hd.
Qed.

(** *** Canonical bytes *)

Lemma canonical_bytes_Ok v b :
  canonical_bytes v = Ok b <->
  bounded v /\ depth_of v <= MAX_DEPTH /\ utf8_encode (dumps v) = Ok b.
Proof. unfold canonical_bytes. rewrite seq_Ok, validate_spec by done. intuition lia. Qed.

Lemma canonical_bytes_norm v b : canonical_bytes (norm v) = Ok b <-> canonical_bytes v = Ok b.
Proof. by rewrite !canonical_bytes_Ok, bounded_norm, depth_norm, dumps_norm_eq. Qed.

Lemma canonical_bytes_raise v e : canonical_bytes v = Raise e -> is_value_error e = true.
Proof.
  unfold canonical_bytes. intros [H | (_ & _ & H)]%bind_Raise.
  - apply validate_raise in H as [H | ->]; [by destruct e | done].
  - by apply utf8_encode_Raise in H as ->.
Qed.

Lemma canonical_digest_raise v d e : canonical_digest v d = Raise e -> is_value_error e = true.
Proof.
  unfold canonical_digest. intros [H | (b & _ & [=])]%bind_Raise. by eapply canonical_bytes_raise.
Qed.

(** Decoding the canonical bytes of a value, with or without the final newline. *)
Lemma load_canonical v b nl :
  uniq v = true -> canonical_bytes v = Ok b -> nl = [] \/ nl = [10%N] ->
  zlen (b ++ nl) <= MAX_FILE_BYTES -> load_json_bytes (b ++ nl) = Ok (norm v).
Proof.
  intros Hu Hc Hnl Hsize. pose proof (proj1 (canonical_bytes_Ok _ _) Hc) as (Hb & Hd & He).
  pose proof (bounded_short_ints _ Hb) as Hs.
  assert (Hdec : utf8_decode (b ++ nl) = Some (dumps v ++ nl)).
  { apply utf8_decode_encode. apply utf8_encode_app; [done |]. by destruct Hnl as [-> | ->]. }
  assert (Hload : loads _pairs _reject_float (dumps v ++ nl) = Ok (norm v)).
  { rewrite dumps_norm. destruct Hnl as [-> | ->].
    - rewrite app_nil_r. apply loads_print; rewrite ?uniq_norm, ?short_ints_norm; auto with py.
    - apply loads_print_nl; rewrite ?uniq_norm, ?short_ints_norm; auto with py. }
  unfold load_json_bytes. rewrite (proj2 (raise_if_Ok _ _ tt)) by lia. cbn [mbind res_bind].
  rewrite Hdec, Hload. cbn [guarded mbind res_bind].
  assert (Hv : _validate_value (norm v) 0 = Ok tt)
    by (apply validate_norm, validate_spec; [done | split; [done | lia]]).
  by rewrite Hv.
Qed.

Lemma load_json_bytes_Ok data v :
  load_json_bytes data = Ok v ->
  zlen data <= MAX_FILE_BYTES /\ uniq v = true /\ bounded v /\ depth_of v <= MAX_DEPTH.
Proof.
  unfold load_json_bytes. rewrite seq_Ok, raise_if_Ok. intros [? H].
  destruct (utf8_decode data) as [t|]; [|done].
  apply bind_Ok in H as (w & H & Hw). apply guarded_Ok in H.
  apply loads_uniq in H; eauto with py. apply seq_Ok in Hw as [Hw [= ->]].
  apply validate_spec in Hw; [|done]. naive_solver lia.
Qed.
End bounds.

(** ** Digests *)

Lemma canonical_bytes_no_nul {U : Unicode} v b : canonical_bytes v = Ok b -> Forall (fun x => x <> 0%N) b.
Proof.
  intros (_ & _ & H)%canonical_bytes_Ok. eapply utf8_encode_pos; [exact H |].
  eapply Forall_impl; [apply dumps_printable |]. intros x. simpl. lia.
Qed.

Lemma canonical_bytes_no_newline {U : Unicode} v b x : canonical_bytes v = Ok b -> b <> x ++ [10%N].
Proof.
  intros (_ & _ & H)%canonical_bytes_Ok ->.
  assert (Forall (fun c => c <> 10%N) (x ++ [10%N])) as Hf.
  { eapply utf8_encode_without; [|exact H |]; [done |].
    eapply Forall_impl; [apply dumps_printable |]. intros c. simpl. lia. }
  apply Forall_app in Hf as [_ Hf]. by inversion Hf.
Qed.

Lemma hexdigest_inj b c : Forall octet b -> Forall octet c -> hexdigest b = hexdigest c -> b = c.
Proof.
  unfold hexdigest. intros Hb. revert c. induction Hb as [|x b Hx Hb IH]; intros c Hc.
  - by destruct Hc.
  - destruct Hc as [|y c Hy Hc]; [done | simpl]. intros [= H1 H2 H3].
    f_equal; [|by apply IH]. unfold octet in *.
    apply (f_equal hex_value) in H1, H2.
    rewrite !hex_value_digit in H1 by (apply N.Div0.div_lt_upper_bound; lia).
    rewrite !hex_value_digit in H2 by (apply N.mod_lt; lia).
    rewrite (N.div_mod x 16), (N.div_mod y 16) by lia. congruence.
Qed.

Lemma nul_split (p q b c : bytes) :
  Forall (fun x => x <> 0%N) p -> Forall (fun x => x <> 0%N) q ->
  p ++ [0%N] ++ b = q ++ [0%N] ++ c -> p = q /\ b = c.
Proof.
  intros Hp. revert q. induction Hp as [|x p Hx Hp IH]; intros q Hq H; destruct Hq as [|y q Hy Hq];
    simpl in H; try (by simplify_eq).
  injection H as -> H. destruct (IH _ Hq H). by subst.
Qed.

(** A digest's domain label is an ASCII literal of the source without a NUL. *)
Definition domain_ok (domain : option string) : Prop :=
  match domain with None => True | Some d => Forall (fun x => x <> 0%N) (u d) end.

Lemma domain_prefix_split d1 d2 b c :
  domain_ok d1 -> domain_ok d2 ->
  Forall (fun x => x <> 0%N) b -> Forall (fun x => x <> 0%N) c ->
  domain_prefix d1 ++ b = domain_prefix d2 ++ c -> domain_prefix d1 = domain_prefix d2 /\ b = c.
Proof.
  intros H1 H2 Hb Hc. destruct d1 as [d1|], d2 as [d2|]; simpl in *; try done.
  - rewrite <- !app_assoc. intros [E ->]%nul_split; [|done..]. by rewrite E.
  - rewrite <- app_assoc. intros <-. apply Forall_app in Hc as [_ Hc].
    by inversion Hc.
  - rewrite <- app_assoc. intros ->. apply Forall_app in Hb as [_ Hb].
    by inversion Hb.
Qed.

(** ** Reading *)

(** What POSIX promises of a descriptor: a size is not negative and a read returns at
    most what was asked. *)
Definition descriptor_ok (fd : opened) : Prop :=
  0 <= st_size fd /\ forall k n, 0 < n -> zlen (os_read fd k n) <= n.

Lemma read_blocks_total fd fuel k n :
  descriptor_ok fd -> 0 <= n <= Z.of_nat fuel ->
  exists data, read_blocks fuel k fd n = Ok data /\ zlen data <= n.
Proof.
  intros [_ Hr]. revert k n. induction fuel as [|fuel IH]; intros k n Hn; simpl.
  - exists []. destruct (n =? 0) eqn:E; [split; [done | unfold zlen; simpl; lia] | lia].
  - destruct (n =? 0) eqn:E; [exists []; split; [done | unfold zlen; simpl; lia] |].
    specialize (Hr k (Z.min n (1024 * 1024))).
    destruct (os_read fd k _) as [|x b]; [exists []; split; [done | unfold zlen; simpl; lia] |].
    rewrite zlen_cons in *. pose proof (zlen_nonneg b).
    destruct (IH (S k) (n - (1 + zlen b))) as (d & -> & Hd); [lia |].
    exists (x :: b ++ d). split; [done |]. rewrite zlen_cons, zlen_app. lia.
Qed.

(** ** Properties *)

Section properties.
Context {U : Unicode}.

Lemma canonical_bytes_norm_eq v w b c :
  uniq v = true -> uniq w = true -> canonical_bytes v = Ok b -> canonical_bytes w = Ok c ->
  b = c <-> norm v = norm w.
Proof.
  intros Hv Hw Hb Hc. split.
  - intros <-. apply canonical_bytes_Ok in Hb as (Bv & _ & Hb), Hc as (Bw & _ & Hc).
    pose proof (utf8_encode_inj _ _ _ Hb Hc) as E.
    assert (forall x, uniq x = true -> bounded x ->
      loads _pairs _reject_float (dumps x) = Ok (norm x)) as L.
    { intros x ? Hx. apply loads_dumps; [auto with py | done | by apply bounded_short_ints]. }
    pose proof (L v Hv Bv) as Lv. rewrite E, L in Lv by done. by injection Lv.
  - intros E. apply canonical_bytes_norm in Hb, Hc. congruence.
Qed.

Lemma canonical_digest_eq v w d1 d2 h :
  uniq v = true -> uniq w = true -> domain_ok d1 -> domain_ok d2 ->
  canonical_digest v d1 = Ok h -> canonical_digest w d2 = Ok h ->
  (d1 = d2 /\ norm v = norm w) \/ (exists m m', m <> m' /\ sha256 m = sha256 m').
Proof.
  unfold canonical_digest. intros Hv Hw D1 D2 H1 H2.
  apply bind_Ok in H1 as (b & Hb & H1), H2 as (c & Hc & H2).
  set (m := domain_prefix d1 ++ b) in *. set (m' := domain_prefix d2 ++ c) in *.
  assert (sha256 m = sha256 m') as E.
  { apply hexdigest_inj; [apply sha256_octets.. |]. simplify_eq. congruence. }
  destruct (decide (m = m')) as [Em | Nm]; [left | right; eauto].
  apply domain_prefix_split in Em as [Ed ->]; eauto using canonical_bytes_no_nul.
  split.
  - destruct d1 as [d1|], d2 as [d2|]; simpl in Ed; try done.
    + apply app_inv_tail in Ed. f_equal. by apply u_inj.
    + by destruct (u d1).
    + by destruct (u d2).
  - by apply (canonical_bytes_norm_eq v w c c).
Qed.

Lemma require_canonical_encoded v b nl :
  uniq v = true -> canonical_bytes v = Ok b -> nl = [] \/ nl = [10%N] ->
  zlen (b ++ nl) <= MAX_FILE_BYTES ->
  require_canonical_document (b ++ nl) = Ok (norm v).
Proof.
  intros Hu Hc Hnl Hs. unfold require_canonical_document.
  rewrite (load_canonical _ _ _ Hu Hc Hnl Hs). cbn [mbind res_bind].
  rewrite (proj2 (canonical_bytes_norm v b) Hc). cbn [mbind res_bind].
  destruct Hnl as [-> | ->]; rewrite ?app_nil_r, str_eqb_refl; [|done].
  by rewrite andb_false_r.
Qed.

Lemma require_canonical_Ok data v :
  require_canonical_document data = Ok v <->
  zlen data <= MAX_FILE_BYTES /\ uniq v = true /\ norm v = v /\
  exists b, canonical_bytes v = Ok b /\ (data = b \/ data = b ++ [10%N]).
Proof.
  split.
  - unfold require_canonical_document. intros H.
    apply bind_Ok in H as (w & Hl & H). apply bind_Ok in H as (b & Hb & H).
    apply seq_Ok in H as [H [= ->]]. apply raise_if_Ok in H.
    pose proof (load_json_bytes_Ok _ _ Hl) as (Hs & Hu & _ & _).
    assert (exists nl, (nl = [] \/ nl = [10%N]) /\ data = b ++ nl) as (nl & Hnl & ->).
    { apply andb_false_iff in H as [H | H]; apply negb_false_iff, str_eqb_eq in H.
      - exists [10%N]. auto.
      - exists []. rewrite app_nil_r. auto. }
    rewrite (load_canonical _ _ _ Hu Hb Hnl Hs) in Hl. injection Hl as Hn.
    repeat split; [done..|]. exists b. split; [done |].
    destruct Hnl as [-> | ->]; [left; by rewrite app_nil_r | by right].
  - intros (Hs & Hu & Hn & b & Hb & Hd).
    assert (exists nl, (nl = [] \/ nl = [10%N]) /\ data = b ++ nl) as (nl & Hnl & ->).
    { destruct Hd as [-> | ->]; [exists []; by rewrite app_nil_r; auto | exists [10%N]; auto]. }
    unfold require_canonical_document.
    rewrite (load_canonical _ _ _ Hu Hb Hnl Hs), Hn. cbn [mbind res_bind].
    rewrite Hb. cbn [mbind res_bind].
    destruct Hnl as [-> | ->]; rewrite ?app_nil_r, str_eqb_refl; [|done].
    by rewrite andb_false_r.
Qed.

(** C35: strict decoding inverts canonical encoding.  Whenever [canonical_bytes] accepts a
    value with distinct keys and the bytes fit the size bound, [require_canonical_document]
    accepts them, bare or with one final newline, and returns the value (its keys in
    order). *)
Theorem canonical_roundtrip v b nl :
  uniq v = true -> canonical_bytes v = Ok b -> nl = [] \/ nl = [10%N] ->
  zlen (b ++ nl) <= MAX_FILE_BYTES ->
  require_canonical_document (b ++ nl) = Ok (norm v).
Proof. apply require_canonical_encoded. Qed.

(** [require_canonical_document] accepts exactly the canonical bytes of some value with
    distinct keys, bare or with one final newline, within the size bound; what it returns
    has its keys in order. *)
Theorem require_canonical_document_exact data v :
  require_canonical_document data = Ok v <->
  zlen data <= MAX_FILE_BYTES /\ uniq v = true /\ norm v = v /\
  exists b, canonical_bytes v = Ok b /\ (data = b \/ data = b ++ [10%N]).
Proof. apply require_canonical_Ok. Qed.

(** Canonical bytes identify a value.  Two encodable values with distinct keys have the
    same canonical bytes exactly when they are equal up to the order of members. *)
Theorem canonical_bytes_injective v w b c :
  uniq v = true -> uniq w = true -> canonical_bytes v = Ok b -> canonical_bytes w = Ok c ->
  b = c <-> norm v = norm w.
Proof. apply canonical_bytes_norm_eq. Qed.

(** A digest binds value and domain.  Equal canonical digests mean the same domain label
    and values equal up to the order of members, unless two distinct messages with the same
    SHA-256 hash are at hand. *)
Theorem canonical_digest_binding v w d1 d2 h :
  uniq v = true -> uniq w = true -> domain_ok d1 -> domain_ok d2 ->
  canonical_digest v d1 = Ok h -> canonical_digest w d2 = Ok h ->
  (d1 = d2 /\ norm v = norm w) \/ (exists m m', m <> m' /\ sha256 m = sha256 m').
Proof. apply canonical_digest_eq. Qed.

(** Whatever [load_json_bytes] returns has distinct keys, integers in the safe range,
    normalized strings, at most 4096 items per collection and at most 32 levels; whatever
    it raises is a [ConformanceError] or the [UnicodeEncodeError] of a lone surrogate. *)
Theorem load_json_bytes_bounds data :
  match load_json_bytes data with
  | Ok v => zlen data <= MAX_FILE_BYTES /\ uniq v = true /\ bounded v /\ depth_of v <= MAX_DEPTH
  | Raise e => is_conformance e = true \/ e = ValueError
  end.
Proof.
  destruct (load_json_bytes data) as [v|e] eqn:E; [by apply load_json_bytes_Ok |].
  unfold load_json_bytes in E. destruct (_ >? _); [left; by injection E as <- |].
  cbn [raise_if mbind res_bind] in E. destruct (utf8_decode data); [|left; by injection E as <-].
  apply bind_Raise in E as [E | (v & _ & E)].
  - left. eapply guarded_conformance_of; [|exact E]. intros e' H.
    apply loads_raise in H; [destruct e'; simpl in *; auto | eauto with py..].
  - apply bind_Raise in E as [E | (_ & _ & [=])]. by eapply validate_raise.
Qed.

(** [secure_read] on a conforming descriptor terminates within its size many reads; it
    returns exactly [st_size] octets of a regular file no larger than the bound, from a
    path without a parent component (absolute when asked), and otherwise raises one of its
    [ConformanceError]s, or the [ValueError] of a path the system cannot be given. *)
Theorem secure_read_bounds os_open path absolute :
  (forall fd, os_open path = Some fd -> descriptor_ok fd) ->
  match secure_read os_open path absolute with
  | Ok data => exists fd, os_open path = Some fd /\ regular fd = true /\
      zlen data = st_size fd /\ zlen data <= MAX_FILE_BYTES /\
      ~ In (u "..") (path_parts path) /\ (absolute = true -> is_absolute path = true)
  | Raise e => is_conformance e = true \/ e = ValueError /\ path_encodable path = false
  end.
Proof.
  intros Hfd. unfold secure_read.
  destruct (absolute && negb (is_absolute path)) eqn:Ha; [by left |].
  destruct (str_in (u "..") (path_parts path)) eqn:Hp; [by left |].
  cbn [raise_if mbind res_bind]. destruct (path_encodable path); [|by right].
  destruct (os_open path) as [fd|]; [|by left].
  destruct (regular fd) eqn:Hr; [|by left].
  destruct (st_size fd >? MAX_FILE_BYTES) eqn:Hs; [by left |]. cbn [negb raise_if mbind res_bind].
  pose proof (Hfd fd eq_refl) as Hok.
  destruct (read_blocks_total fd (Z.to_nat (st_size fd)) 0 (st_size fd)) as (data & -> & Hd).
  { done. }
  { destruct Hok. lia. }
  cbn [mbind res_bind]. destruct (zlen data =? st_size fd) eqn:Hz; [|by left].
  cbn [raise_if negb mbind res_bind]. exists fd. split; [done |]. split; [done |]. split; [lia |]. split; [lia |]. split.
  - by rewrite <- str_in_In, Hp.
  - intros ->. by apply negb_false_iff.
Qed.
End properties.

(** ** Concrete instances *)

(** Normalization on the ASCII texts of the examples. *)
Definition ascii_nfc : Unicode := fun s => s.

#[export] Instance ascii_nfc_ok : UnicodeOk ascii_nfc.
Proof. by split. Qed.

Definition sample : value :=
  VDict [(u "b", VInt (-2)); (u "a", VList [VBool true; VNone; VStr (u "x\")])].

(** A JSON text written with single quotes. *)
Definition quoted (s : string) : str := replace_char 39 34 (u s).
Arguments quoted s%_string_scope.

Definition sample_bytes : bytes := quoted "{'a':[true,null,'x\\'],'b':-2}".

Lemma canonical_roundtrip_witness :
  require_canonical_document (U := ascii_nfc) (sample_bytes ++ [10%N]) = Ok (norm sample).
Proof.
  apply (canonical_roundtrip (U := ascii_nfc) sample); [by vm_compute | by vm_compute | by right |].
  by vm_compute.
Defined.

Lemma canonical_bytes_injective_witness :
  sample_bytes = sample_bytes <-> norm sample = norm (norm sample).
Proof.
  apply (canonical_bytes_injective (U := ascii_nfc) sample (norm sample)); by vm_compute.
Defined.

Lemma canonical_digest_binding_witness :
  exists h, canonical_digest (U := ascii_nfc) sample (Some "mas.v1") = Ok h /\
    ((Some "mas.v1"%string = Some "mas.v1"%string /\ norm sample = norm (norm sample)) \/
     (exists m m', m <> m' /\ sha256 m = sha256 m')).
Proof.
  assert (canonical_bytes (U := ascii_nfc) sample = Ok sample_bytes) as E by by vm_compute.
  assert (canonical_bytes (U := ascii_nfc) (norm sample) = Ok sample_bytes) as E' by by vm_compute.
  assert (domain_ok (Some "mas.v1"%string)) as Hd by (repeat constructor; done).
  eexists. split; [unfold canonical_digest; rewrite E; reflexivity |].
  eapply (canonical_digest_binding (U := ascii_nfc) sample (norm sample)); [| |exact Hd|exact Hd| |].
  - by vm_compute.
  - by vm_compute.
  - unfold canonical_digest. rewrite E. reflexivity.
  - unfold canonical_digest. rewrite E'. reflexivity.
Defined.

(** A regular file of four octets that every read returns two octets of. *)
Definition sample_file : opened := {|
  regular := true; st_size := 4; os_read := fun _ n => take (Z.to_nat (Z.min n 2)) (u "{}")
|}.

Lemma secure_read_bounds_witness :
  secure_read (fun _ => Some sample_file) (u "/ref/a.json") true = Ok (u "{}{}") /\
  exists fd, Some sample_file = Some fd /\ regular fd = true /\
      zlen (u "{}{}") = st_size fd /\ zlen (u "{}{}") <= MAX_FILE_BYTES /\
      ~ In (u "..") (path_parts (u "/ref/a.json")) /\
      (true = true -> is_absolute (u "/ref/a.json") = true).
Proof.
  split; [by vm_compute |].
  apply (secure_read_bounds (fun _ => Some sample_file) (u "/ref/a.json") true).
  intros fd [= <-]. split; [done |]. intros k n Hn. simpl. unfold zlen. rewrite length_take.
  simpl. lia.
Defined.

(** A lone surrogate escape leaves [load_json_bytes] with [UnicodeEncodeError], a
    [ValueError] that is no [ConformanceError]. *)
Example lone_surrogate : load_json_bytes (U := ascii_nfc) (quoted "'\ud800'") = Raise ValueError.
Proof. by vm_compute. Qed.
