(* ===== verification/Base64.v ===== *)
(** crypto.py, the unpadded base64url codec over the standard library's [base64]. *)

From S2P Require Import Prelude PyVal Utf8 Json Sha2 Canonical.

#[local] Open Scope N_scope.
#[local] Arguments N.eqb : simpl never.

(** ** The standard library's codec, with [altchars=b"-_"] *)

Definition b64_char (n : N) : N :=
  if n <? 26 then 65 + n
  else if n <? 52 then 71 + n
  else if n <? 62 then n - 4
  else if n =? 62 then 45 else 95.

(** The decoder first maps [-_] to [+/], which it therefore takes as well. *)
Definition b64_value (c : N) : option N :=
  if (65 <=? c) && (c <=? 90) then Some (c - 65)
  else if (97 <=? c) && (c <=? 122) then Some (c - 71)
  else if (48 <=? c) && (c <=? 57) then Some (c + 4)
  else if (c =? 45) || (c =? 43) then Some 62
  else if (c =? 95) || (c =? 47) then Some 63
  else None.

(** [base64.urlsafe_b64encode], padded with [=]. *)
Fixpoint urlsafe_b64encode (b : bytes) : str :=
  match b with
  | [] => []
  | [x] => [b64_char (x / 4); b64_char (x mod 4 * 16); 61; 61]
  | [x; y] =>
      [b64_char (x / 4); b64_char (x mod 4 * 16 + y / 16); b64_char (y mod 16 * 4); 61]
  | x :: y :: z :: r =>
      b64_char (x / 4) :: b64_char (x mod 4 * 16 + y / 16) ::
      b64_char (y mod 16 * 4 + z / 64) :: b64_char (z mod 64) :: urlsafe_b64encode r
  end.

(** [base64.b64decode(_, altchars=b"-_", validate=True)] on a text that carries [=] only as
    the padding to a multiple of four: a trailing group of one character is refused, the low
    bits of a trailing group of two or three are dropped. *)
Fixpoint b64decode (s : str) : res bytes :=
  match s with
  | [] => Ok []
  | [_] => Raise ValueError
  | [a; b] =>
      match b64_value a, b64_value b with
      | Some a, Some b => Ok [a * 4 + b / 16]
      | _, _ => Raise ValueError
      end
  | [a; b; c] =>
      match b64_value a, b64_value b, b64_value c with
      | Some a, Some b, Some c => Ok [a * 4 + b / 16; b mod 16 * 16 + c / 4]
      | _, _, _ => Raise ValueError
      end
  | a :: b :: c :: d :: r =>
      match b64_value a, b64_value b, b64_value c, b64_value d with
      | Some a, Some b, Some c, Some d =>
          t ← b64decode r;
          Ok (a * 4 + b / 16 :: b mod 16 * 16 + c / 4 :: c mod 4 * 64 + d :: t)
      | _, _, _, _ => Raise ValueError
      end
  end.

(** [s.rstrip("=")]. *)
Fixpoint rstrip_eq (s : str) : str :=
  match s with
  | [] => []
  | c :: s' => match rstrip_eq s' with
               | [] => if c =? 61 then [] else [c]
               | t => c :: t
               end
  end.

(** ** The package's two functions *)

(* @src src/src/harness_conformance/crypto.py:125-126 b64url_encode *)
Definition b64url_encode (value : bytes) : str := rstrip_eq (urlsafe_b64encode value).

(* @src src/src/harness_conformance/crypto.py:129-138 b64url_decode *)
Definition b64url_decode (v : value) (expected_length : Z) : res bytes :=
  match v with
  | VStr s =>
      raise_if (existsb (fun c => c =? 61) s) "INVALID_BASE64URL" ;;
      decoded ← guarded (fun e => match e with ValueError | TypeError => true | _ => false end)
                  "INVALID_BASE64URL" (b64decode s);
      raise_if (negb (zlen decoded =? expected_length)%Z ||
                negb (str_eqb (b64url_encode decoded) s)) "INVALID_BASE64URL" ;;
      Ok decoded
  | _ => conf "INVALID_BASE64URL"
  end.

(** ** Lemmas *)

Lemma b64_char_value n : n < 64 -> b64_value (b64_char n) = Some n.
Proof.
  intros H. apply (bool_decide_unpack _).
  assert (bool_decide (b64_value (b64_char n) = Some n) = true) as ->; [|done].
  revert n H. apply (below_forallb (fun n => bool_decide (b64_value (b64_char n) = Some n)) 64).
  by vm_compute.
Qed.

Lemma b64_char_not_eq n : n < 64 -> b64_char n =? 61 = false.
Proof.
  intros H. apply negb_true_iff. revert n H.
  apply (below_forallb (fun n => negb (b64_char n =? 61)) 64). by vm_compute.
Qed.

Lemma rstrip_eq_last s c : c =? 61 = false -> rstrip_eq (s ++ [c]) = s ++ [c].
Proof.
  intros Hc. induction s as [|x s IH]; simpl; [by rewrite Hc |].
  rewrite IH. by destruct s.
Qed.

Lemma rstrip_eq_pad s : rstrip_eq (s ++ [61]) = rstrip_eq s.
Proof. induction s as [|x s IH]; [done | simpl]. by rewrite IH. Qed.

Lemma rstrip_eq_cons x s : rstrip_eq s <> [] -> rstrip_eq (x :: s) = x :: rstrip_eq s.
Proof. simpl. by destruct (rstrip_eq s). Qed.

(** Induction over groups of three octets. *)
Lemma three_ind (P : list N -> Prop) :
  P [] -> (forall x, P [x]) -> (forall x y, P [x; y]) ->
  (forall x y z r, P r -> P (x :: y :: z :: r)) -> forall b : list N, P b.
Proof.
  intros H0 H1 H2 H3 b. induction b as [b IH] using (induction_ltof1 _ (@length N)).
  unfold ltof in IH. destruct b as [|x [|y [|z r]]]; auto. apply H3, IH. simpl. lia.
Qed.

(** The digits of a group are below 64. *)
Lemma digit_bounds x y z : octet x -> octet y -> octet z ->
  x / 4 < 64 /\ x mod 4 * 16 < 64 /\ x mod 4 * 16 + y / 16 < 64 /\
  y mod 16 * 4 < 64 /\ y mod 16 * 4 + z / 64 < 64 /\ z mod 64 < 64.
Proof. unfold octet. intros. zify. Z.to_euclidean_division_equations. lia. Qed.

(** Without padding, group by group. *)
Fixpoint b64_body (b : bytes) : str :=
  match b with
  | [] => []
  | [x] => [b64_char (x / 4); b64_char (x mod 4 * 16)]
  | [x; y] => [b64_char (x / 4); b64_char (x mod 4 * 16 + y / 16); b64_char (y mod 16 * 4)]
  | x :: y :: z :: r =>
      b64_char (x / 4) :: b64_char (x mod 4 * 16 + y / 16) ::
      b64_char (y mod 16 * 4 + z / 64) :: b64_char (z mod 64) :: b64_body r
  end.

Lemma b64_body_plain b : Forall octet b -> existsb (fun c => c =? 61) (b64_body b) = false.
Proof.
  induction b as [|x|x y|x y z r IH] using three_ind; intros Hb; decompose_Forall_hyps; try done.
  - destruct (digit_bounds x x x) as (? & ? & _); [done..|]. cbn [b64_body existsb].
    by rewrite !b64_char_not_eq.
  - destruct (digit_bounds x y y) as (? & _ & ? & ? & _); [done..|]. cbn [b64_body existsb].
    by rewrite !b64_char_not_eq.
  - destruct (digit_bounds x y z) as (? & _ & ? & _ & ? & ?); [done..|]. cbn [b64_body existsb].
    by rewrite !b64_char_not_eq, IH.
Qed.

Lemma rstrip_eq_plain s : existsb (fun c => c =? 61) s = false -> rstrip_eq s = s.
Proof.
  induction s as [|c s IH]; [done |].
  cbn [existsb rstrip_eq]. intros [Hc Hs]%orb_false_iff.
  rewrite IH by done. by destruct s; rewrite ?Hc.
Qed.

Lemma b64url_encode_body b : Forall octet b -> b64url_encode b = b64_body b.
Proof.
  intros Hb. unfold b64url_encode.
  assert (exists k, urlsafe_b64encode b = b64_body b ++ replicate k 61) as [k ->].
  { clear Hb. induction b as [|x|x y|x y z r [k IH]] using three_ind;
      [by exists 0%nat | by exists 2%nat | by exists 1%nat |].
    exists k. simpl. by rewrite IH. }
  rewrite <- (rstrip_eq_plain (b64_body b)) at 2 by by apply b64_body_plain.
  generalize (b64_body b) as s. intros s. induction k as [|k IH]; [by rewrite app_nil_r |].
  by rewrite replicate_S_end, app_assoc, rstrip_eq_pad.
Qed.

Lemma div_of a b c : b < c -> (a * c + b) / c = a.
Proof. intros. rewrite N.div_add_l, N.div_small by lia. lia. Qed.

Lemma mod_of a b c : b < c -> (a * c + b) mod c = b.
Proof. intros. rewrite N.add_comm, N.Div0.mod_add. by apply N.mod_small. Qed.

Lemma regroup1 x y : octet y -> x / 4 * 4 + (x mod 4 * 16 + y / 16) / 16 = x.
Proof.
  unfold octet. intros. rewrite div_of by (apply N.Div0.div_lt_upper_bound; lia).
  pose proof (N.div_mod x 4 ltac:(done)). lia.
Qed.

Lemma regroup2 x y z : octet y -> octet z ->
  (x mod 4 * 16 + y / 16) mod 16 * 16 + (y mod 16 * 4 + z / 64) / 4 = y.
Proof.
  unfold octet. intros. rewrite mod_of, div_of by (apply N.Div0.div_lt_upper_bound; lia).
  pose proof (N.div_mod y 16 ltac:(done)). lia.
Qed.

Lemma regroup3 y z : octet z -> (y mod 16 * 4 + z / 64) mod 4 * 64 + z mod 64 = z.
Proof.
  unfold octet. intros. rewrite mod_of by (apply N.Div0.div_lt_upper_bound; lia).
  pose proof (N.div_mod z 64 ltac:(done)). lia.
Qed.

Lemma b64decode_body b : Forall octet b -> b64decode (b64_body b) = Ok b.
Proof.
  induction b as [|x|x y|x y z r IH] using three_ind; intros Hb; decompose_Forall_hyps; [done|..].
  - destruct (digit_bounds x x x) as (? & ? & _); [done..|].
    cbn [b64_body b64decode]. rewrite !b64_char_value by done.
    pose proof (regroup1 x 0) as E. change (0 / 16) with 0 in E. rewrite N.add_0_r in E.
    by rewrite E by done.
  - destruct (digit_bounds x y y) as (? & _ & ? & ? & _); [done..|].
    cbn [b64_body b64decode]. rewrite !b64_char_value by done.
    pose proof (regroup2 x y 0) as E. change (0 / 64) with 0 in E. rewrite N.add_0_r in E.
    by rewrite regroup1, E by done.
  - destruct (digit_bounds x y z) as (? & _ & ? & _ & ? & ?); [done..|].
    cbn [b64_body b64decode]. rewrite !b64_char_value, IH by done. cbn [mbind res_bind].
    by rewrite regroup1, regroup2, regroup3 by done.
Qed.


Lemma b64decode_raise s e : b64decode s = Raise e -> e = ValueError.
Proof.
  revert e. induction s as [s IH] using (induction_ltof1 _ (@length N)). unfold ltof in IH.
  intros e. destruct s as [|a [|b [|c [|d s]]]]; simpl; try by intros [= <-].
  - do 2 (destruct (b64_value _); [|by intros [= <-]]). done.
  - do 3 (destruct (b64_value _); [|by intros [= <-]]). done.
  - do 4 (destruct (b64_value _); [|by intros [= <-]]).
    intros [H | (t & _ & [=])]%bind_Raise. apply (IH s); [simpl; lia | done].
Qed.

(** What is refused is refused with one code. *)
Lemma b64url_decode_raise v n : raises_only conformance_only (b64url_decode v n).
Proof.
  unfold b64url_decode. destruct v; repeat raises_step.
  apply ro_guarded; [done |]. intros e ->%b64decode_raise. auto.
Qed.

Lemma b64_decode_encode b :
  Forall octet b -> b64url_decode (VStr (b64url_encode b)) (zlen b) = Ok b.
Proof.
  intros Hb. unfold b64url_decode. rewrite b64url_encode_body by done.
  rewrite b64_body_plain, b64decode_body by done. cbn [raise_if guarded mbind res_bind].
  by rewrite b64url_encode_body, str_eqb_refl, Z.eqb_refl by done.
Qed.

Lemma b64_decode_Ok v n b :
  b64url_decode v n = Ok b -> v = VStr (b64url_encode b) /\ zlen b = n.
Proof.
  unfold b64url_decode. destruct v; try done. intros H.
  apply seq_Ok in H as [_ H]. apply bind_Ok in H as (d & _ & H).
  apply seq_Ok in H as [H [= ->]]. apply raise_if_Ok, orb_false_iff in H as [H1 H2].
  apply negb_false_iff in H1, H2. apply str_eqb_eq in H2. subst. split; [done | lia].
Qed.

(** ** Properties *)

(** Unpadded base64url round-trips: decoding what [b64url_encode] wrote, at the right
    length, returns the octets. *)
Theorem b64url_roundtrip b :
  Forall octet b -> b64url_decode (VStr (b64url_encode b)) (zlen b) = Ok b.
Proof. apply b64_decode_encode. Qed.

(** The accepted texts are canonical: a text that [b64url_decode] accepts is the
    encoding of the octets it returns, of the expected length, so no two texts decode to
    the same octets. *)
Theorem b64url_decode_canonical v n b :
  b64url_decode v n = Ok b -> v = VStr (b64url_encode b) /\ zlen b = n.
Proof. apply b64_decode_Ok. Qed.

Lemma b64url_roundtrip_witness :
  b64url_decode (VStr (b64url_encode [251; 255; 0; 7])) 4 = Ok [251; 255; 0; 7].
Proof. apply (b64url_roundtrip [251; 255; 0; 7]). repeat constructor. Defined.

Lemma b64url_decode_canonical_witness :
  VStr (u "-_8") = VStr (b64url_encode [251; 255]) /\ zlen [251; 255] = 2%Z.
Proof. apply b64url_decode_canonical. by vm_compute. Defined.

(** A text in the standard alphabet, and one with stray low bits, are refused. *)
Example b64url_refused :
  b64url_decode (VStr (u "+/8")) 2 = conf "INVALID_BASE64URL" /\
  b64url_decode (VStr (u "-_9")) 2 = conf "INVALID_BASE64URL".
Proof. split; by vm_compute. Qed.
