(* ===== verification/Fermat.v ===== *)
(** Fermat's little theorem on the Standard Library's integers, from MathComp's theorem on
    natural numbers. *)

From Stdlib Require Import ZArith Znumtheory Lia.
From mathcomp Require Import boot.
From mathcomp Require Import binomial.

Set Implicit Arguments.
Unset Strict Implicit.

Local Open Scope Z_scope.

Lemma of_nat_expn (a e : nat) : Z.of_nat (expn a e) = Z.of_nat a ^ Z.of_nat e.
Proof.
elim: e => [|e IH]; first by [].
rewrite expnS (Nat2Z.inj_succ e) (Z.pow_succ_r _ (Z.of_nat e) (Nat2Z.is_nonneg e)) -IH.
exact: Nat2Z.inj_mul.
Qed.

Lemma of_nat_modn (a n : nat) : Z.of_nat (modn a n.+1) = Z.of_nat a mod Z.of_nat n.+1.
Proof.
apply: (Z.mod_unique _ _ (Z.of_nat (divn a n.+1))).
  left; split; first exact: Nat2Z.is_nonneg.
  by apply/Nat2Z.inj_lt/ltP; rewrite ltn_mod.
by rewrite [in LHS](divn_eq a n.+1) Nat2Z.inj_add Nat2Z.inj_mul Z.mul_comm.
Qed.

Lemma prime_of_Z (p : Z) : Znumtheory.prime p -> prime.prime (Z.to_nat p).
Proof.
case=> [p1 Hp]; apply/primeP; split; first by apply/ltP; lia.
move=> d /dvdnP [k Hk].
have Hpk : p = Z.of_nat k * Z.of_nat d by rewrite -Nat2Z.inj_mul -[Nat.mul k d]/(muln k d) -Hk; lia.
have Hd0 : d <> O by move=> E; move: Hpk; rewrite E; lia.
case: (Nat.eq_dec d 1) => [->|Hd1]; first by [].
case: (Nat.eq_dec d (Z.to_nat p)) => [->|Hd]; first by rewrite eqxx orbT.
have Hlt : Z.of_nat d < p.
  have Hk0 : k <> O by move=> E; move: Hpk; rewrite E; lia.
  have : Z.of_nat d <= p by nia.
  lia.
have [_ _ H] := Hp (Z.of_nat d) ltac:(lia).
have /Z.divide_1_r : (Z.of_nat d | 1) by apply: H; [exists 1; lia | exists (Z.of_nat k)].
lia.
Qed.

Lemma fermat_Z (p a : Z) : Znumtheory.prime p -> 0 <= a -> a ^ p mod p = a mod p.
Proof.
move=> Hp Ha; have := fermat_little (Z.to_nat a) (prime_of_Z Hp).
have Hp1 : 1 < p by case: Hp.
case E: (Z.to_nat p) => [|n]; first by lia.
move/(f_equal Z.of_nat); rewrite !of_nat_modn of_nat_expn -E !Z2Nat.id //; lia.
Qed.
