(* ===== verification/Prime25519.v ===== *)
(** The Ed25519 field characteristic [2^255 - 19] is prime: Pocklington's criterion and a
    chain of certificates, each checked by evaluation of modular powers. *)

From Stdlib Require Import Bool List ZArith Znumtheory Zpow_facts Lia.
From S2P Require Import Fermat.

#[local] Open Scope Z_scope.

(** ** Prime divisors *)

Lemma prime_divisor n : 1 < n -> exists p, prime p /\ (p | n).
Proof.
  intros Hn. assert (0 <= n) as H0 by lia. revert Hn. revert n H0.
  apply (Zlt_0_ind (fun n => 1 < n -> exists p, prime p /\ (p | n))). intros n IH _ Hn.
  destruct (prime_dec n) as [Hp | Hp]; [exists n; auto using Z.divide_refl |].
  destruct (not_prime_divide n Hn Hp) as (d & Hd & Hdn).
  destruct (IH d) as (p & ? & ?); [lia | lia |].
  exists p. split; [assumption | now apply Z.divide_trans with d].
Qed.

Lemma small_prime_divisor n :
  1 < n -> ~ prime n -> exists p, prime p /\ (p | n) /\ p * p <= n.
Proof.
  intros Hn Hp. destruct (not_prime_divide n Hn Hp) as (d & Hd & k & Hk).
  assert (1 < k) by nia.
  assert (exists e, 1 < e /\ (e | n) /\ e * e <= n) as (e & He & Hen & Hee).
  { destruct (Z.le_gt_cases d k).
    - exists d. repeat split; [lia | now exists k | nia].
    - exists k. repeat split; [lia | exists d; lia | nia]. }
  destruct (prime_divisor e He) as (p & Hpp & Hpe). exists p.
  pose proof (Z.divide_pos_le p e ltac:(lia) Hpe). pose proof (prime_ge_2 p Hpp).
  split; [assumption |]. split; [now apply Z.divide_trans with e | nia].
Qed.

(** ** Powers modulo a number *)

Lemma pow_mod_1 b k e n : 1 < n -> 0 <= k -> 0 <= e -> b ^ k mod n = 1 -> b ^ (k * e) mod n = 1.
Proof.
  intros Hn Hk He H. rewrite Z.pow_mul_r by lia.
  rewrite Zpower_mod, H, Z.pow_1_l by lia. now apply Z.mod_small.
Qed.

Lemma mod_divides_1 x p n : 1 < p -> 0 < n -> (p | n) -> x mod n = 1 -> x mod p = 1.
Proof.
  intros Hp Hn [k Hk] H. rewrite (Z.div_mod x n) by lia. rewrite H, Hk.
  replace (k * p * (x / (k * p)) + 1) with (1 + (k * (x / (k * p))) * p) by ring.
  rewrite Z_mod_plus_full. now apply Z.mod_small.
Qed.

Lemma mod_1_divide x p : 1 < p -> x mod p = 1 -> (p | x - 1).
Proof. intros Hp H. exists (x / p). pose proof (Z.div_mod x p). lia. Qed.

(** Modulo a prime, two coprime exponents of one leave the base one. *)
Lemma coprime_exponents b q r p :
  1 < p -> 0 <= b -> 0 < q -> 0 < r -> rel_prime q r ->
  b ^ q mod p = 1 -> b ^ r mod p = 1 -> b mod p = 1.
Proof.
  intros Hp Hb Hq Hr Hrel H1 H2. destruct (rel_prime_bezout _ _ Hrel) as [s t Hst].
  (* a non-negative s', t' with q s' = 1 + r t' *)
  set (s' := s mod r). set (t' := (q * s' - 1) / r).
  assert (Hmod : (q * s') mod r = 1 mod r).
  { unfold s'. rewrite Z.mul_mod_idemp_r by lia.
    replace (q * s) with (1 + (- t) * r) by lia. now rewrite Z_mod_plus_full. }
  assert (0 <= s') by (apply Z.mod_pos_bound; lia).
  destruct (Z.eq_dec r 1) as [-> | Hr1]; [now rewrite Z.pow_1_r in H2 |].
  rewrite (Z.mod_small 1 r) in Hmod by lia.
  assert (Ht : q * s' = 1 + r * t').
  { unfold t'. pose proof (Z.div_mod (q * s') r ltac:(lia)) as E. rewrite Hmod in E.
    replace (q * s' - 1) with (q * s' / r * r) by lia. rewrite Z_div_mult by lia. lia. }
  assert (0 <= t') by nia.
  pose proof (pow_mod_1 b q s' p Hp ltac:(lia) ltac:(lia) H1) as E1.
  rewrite Ht, Z.pow_add_r, Z.pow_1_r in E1 by nia.
  rewrite Zmult_mod, (pow_mod_1 b r t' p) in E1 by lia.
  rewrite Z.mul_1_r, Z.mod_mod in E1 by lia. exact E1.
Qed.

(** ** Pocklington *)

(** Two evaluated conditions: under both, [q] divides [p - 1] for every prime divisor [p] of
    [n]. *)
Definition fermat_2 (n : Z) : bool := (1 <? n) && (Zpow_mod 2 (n - 1) n =? 1).

Definition certificate (n q : Z) : bool :=
  let m := (n - 1) / q in
  (0 <? m) && (q * m =? n - 1) && (Z.gcd (Zpow_mod 2 m n - 1) n =? 1).

Lemma certificate_divides n q p :
  fermat_2 n = true -> prime q -> certificate n q = true -> prime p -> (p | n) -> (q | p - 1).
Proof.
  intros Hn Hq Hc Hp Hpn. unfold certificate, fermat_2 in *. set (m := (n - 1) / q) in *.
  rewrite !andb_true_iff, !Z.eqb_eq, !Z.ltb_lt in *.
  destruct Hc as ((Hm & Hqm) & Hg), Hn as [Hn H1].
  rewrite Zpow_mod_correct in H1, Hg by lia.
  pose proof (prime_ge_2 p Hp) as Hp2. pose proof (prime_ge_2 q Hq) as Hq2.
  set (b := 2 ^ m) in *. assert (0 <= b) as Hb by (apply Z.pow_nonneg; lia).
  assert (b ^ q mod p = 1) as Hbq.
  { apply mod_divides_1 with n; [lia | lia | assumption |].
    unfold b. rewrite <- Z.pow_mul_r by lia. now replace (m * q) with (n - 1) by lia. }
  assert (b mod p <> 1) as Hb1.
  { intros E. enough (p | 1) as H by (apply Z.divide_1_r in H; lia). rewrite <- Hg.
    apply Z.gcd_greatest; [|assumption]. apply mod_1_divide in E; [|lia].
    replace (b mod n - 1) with ((b - 1) - (b / n) * n) by (pose proof (Z.div_mod b n); lia).
    apply Z.divide_sub_r; [assumption | now apply Z.divide_mul_r]. }
  assert (b ^ (p - 1) mod p = 1) as Hf.
  { assert (rel_prime p b) as Hrel.
    { apply prime_rel_prime; [assumption |]. intros [k Hk].
      rewrite Hk in Hbq. replace q with (Z.succ (q - 1)) in Hbq by lia.
      rewrite Z.pow_succ_r, <- Z.mul_assoc, (Z.mul_comm p), Z.mul_assoc, Z_mod_mult in Hbq by lia.
      lia. }
    assert (p | b * (b ^ (p - 1) - 1)) as Hd.
    { pose proof (fermat_Z Hp Hb) as E.
      replace (b * (b ^ (p - 1) - 1)) with (b ^ p - b)
        by (replace p with (Z.succ (p - 1)) at 1 by lia; rewrite Z.pow_succ_r by lia; ring).
      exists (b ^ p / p - b / p).
      pose proof (Z.div_mod (b ^ p) p ltac:(lia)). pose proof (Z.div_mod b p ltac:(lia)). lia. }
    apply Gauss in Hd; [|assumption]. destruct Hd as [k Hk].
    replace (b ^ (p - 1)) with (1 + k * p) by lia. rewrite Z_mod_plus_full.
    now apply Z.mod_small; lia. }
  destruct (Zdivide_dec q (p - 1)) as [? | Hnd]; [assumption |]. destruct Hb1.
  apply (coprime_exponents b q (p - 1) p); try lia; try assumption.
  now apply prime_rel_prime.
Qed.

Lemma pocklington1 n q :
  fermat_2 n = true -> prime q -> certificate n q = true -> n < (q + 1) * (q + 1) -> prime n.
Proof.
  intros Hn2 Hq Hc Hs. destruct (prime_dec n) as [? | Hn]; [assumption |]. exfalso.
  assert (1 < n) as H1.
  { unfold fermat_2 in Hn2. rewrite !andb_true_iff, !Z.ltb_lt in Hn2. tauto. }
  destruct (small_prime_divisor n H1 Hn) as (p & Hp & Hpn & Hpp).
  pose proof (prime_ge_2 p Hp).
  pose proof (Z.divide_pos_le q (p - 1) ltac:(lia) (certificate_divides n q p Hn2 Hq Hc Hp Hpn)).
  pose proof (prime_ge_2 q Hq).
  assert ((q + 1) * (q + 1) <= p * p) by (apply Z.mul_le_mono_nonneg; lia). lia.
Qed.

Lemma pocklington2 n q r :
  fermat_2 n = true -> prime q -> prime r -> q <> r -> certificate n q = true -> certificate n r = true ->
  n < (q * r + 1) * (q * r + 1) -> prime n.
Proof.
  intros Hn2 Hq Hr Hqr Hcq Hcr Hs. destruct (prime_dec n) as [? | Hn]; [assumption |]. exfalso.
  assert (1 < n) as H1.
  { unfold fermat_2 in Hn2. rewrite !andb_true_iff, !Z.ltb_lt in Hn2. tauto. }
  destruct (small_prime_divisor n H1 Hn) as (p & Hp & Hpn & Hpp).
  pose proof (prime_ge_2 p Hp). pose proof (prime_ge_2 q Hq). pose proof (prime_ge_2 r Hr).
  pose proof (certificate_divides n q p Hn2 Hq Hcq Hp Hpn) as [k Hk].
  pose proof (certificate_divides n r p Hn2 Hr Hcr Hp Hpn) as Hrp.
  rewrite Hk, Z.mul_comm in Hrp. apply Gauss in Hrp.
  - apply Z.divide_pos_le in Hrp; [|nia].
    assert (q * r <= p - 1) by (rewrite Hk, (Z.mul_comm k); apply Z.mul_le_mono_nonneg_l; lia).
    assert ((q * r + 1) * (q * r + 1) <= p * p) by (apply Z.mul_le_mono_nonneg; nia). lia.
  - apply prime_rel_prime; [assumption |]. intros Hd.
    destruct (prime_divisors q Hq r Hd) as [|[|[|]]]; lia.
Qed.

(** A small number is prime when no number up to its root divides it. *)
Definition no_divisor (n : Z) (bound : nat) : bool :=
  forallb (fun k => negb (n mod (Z.of_nat k) =? 0)) (List.seq 2 bound).

Lemma small_prime n bound :
  1 < n -> n < (Z.of_nat bound + 2) * (Z.of_nat bound + 2) -> no_divisor n bound = true -> prime n.
Proof.
  intros Hn Hb H. destruct (prime_dec n) as [? | Hnp]; [assumption |]. exfalso.
  destruct (small_prime_divisor n Hn Hnp) as (p & Hp & Hpn & Hpp).
  pose proof (prime_ge_2 p Hp). unfold no_divisor in H. rewrite List.forallb_forall in H.
  specialize (H (Z.to_nat p)). rewrite List.in_seq, Z2Nat.id in H by lia.
  destruct Hpn as [k ->]. rewrite Z_mod_mult in H. discriminate H. nia.
Qed.

(** ** The chain of certificates *)

Lemma prime_10 : prime 8574133.
Proof. apply pocklington2 with 991 103; try (vm_compute; reflexivity); [| |lia];
  (apply small_prime with 40%nat; vm_compute; reflexivity). Qed.

Lemma prime_31 : prime 1919519569386763.
Proof.
  apply pocklington2 with 8574133 127; try (vm_compute; reflexivity);
    [exact prime_10 | apply small_prime with 40%nat; vm_compute; reflexivity | lia].
Qed.

Lemma prime_72 : prime 72106336199.
Proof.
  apply pocklington1 with 2773320623; try (vm_compute; reflexivity).
  apply pocklington1 with 569003; try (vm_compute; reflexivity).
  apply small_prime with 800%nat; vm_compute; reflexivity.
Qed.

Lemma prime_75 : prime 75445702479781427272750846543864801.
Proof.
  apply pocklington2 with 1919519569386763 72106336199; try (vm_compute; reflexivity);
    [exact prime_31 | exact prime_72 | lia].
Qed.

Lemma prime_317 : prime 31757755568855353.
Proof.
  apply pocklington2 with 430751 4153; try (vm_compute; reflexivity); [| |lia].
  - apply small_prime with 700%nat; vm_compute; reflexivity.
  - apply small_prime with 70%nat; vm_compute; reflexivity.
Qed.

Lemma prime_740 : prime 74058212732561358302231226437062788676166966415465897661863160754340907.
Proof.
  apply pocklington2 with 75445702479781427272750846543864801 31757755568855353;
    try (vm_compute; reflexivity); [exact prime_75 | exact prime_317 | lia].
Qed.

Lemma prime_25519 : prime (2 ^ 255 - 19).
Proof.
  apply pocklington1 with 74058212732561358302231226437062788676166966415465897661863160754340907;
    try (vm_compute; reflexivity). exact prime_740.
Qed.
