(* ===== verification/Ed25519.v ===== *)
(** crypto.py, Ed25519 on unbounded integers: field and group operations, point codec, key
    derivation, signing and verification, with every early return and every exception. *)

From Stdlib Require Import Znumtheory Zpow_facts.
From S2P Require Import Prelude PyVal Utf8 Json Sha2 Canonical Fermat Prime25519.

#[local] Open Scope Z_scope.

(** ** Python integers *)

(** [pow(b, e, m)] for a non-negative exponent. *)
Definition powmod (b e m : Z) : Z := Zpow_mod b e m.

(** The extended Euclidean loop of [pow(b, -1, m)]: [fuel] bounds its steps. *)
Fixpoint egcd (fuel : nat) (r0 r1 s0 s1 : Z) : option (Z * Z) :=
  if r1 =? 0 then Some (r0, s0) else
  match fuel with
  | O => None
  | S f => egcd f r1 (r0 mod r1) s1 (s0 - r0 / r1 * s1)
  end.

(** [pow(b, -1, m)]: the inverse in [0, m), or [ValueError]. *)
Definition invmod (b m : Z) : res Z :=
  match egcd (Z.to_nat (2 * Z.log2 m + 4)) m (b mod m) 0 1 with
  | Some (g, s) => if g =? 1 then Ok (s mod m) else Raise ValueError
  | None => Raise RecursionError
  end.

(** [int.from_bytes(_, "little")] and [int.to_bytes(_, k, "little")]. *)
Definition from_bytes (b : bytes) : Z := foldr (fun x acc => Z.of_N x + 256 * acc) 0 b.

Fixpoint le_bytes (k : nat) (n : Z) : bytes :=
  match k with
  | O => []
  | S k' => Z.to_N (n mod 256) :: le_bytes k' (n / 256)
  end.

Definition to_bytes (n : Z) (k : nat) : res bytes :=
  if (n <? 0) || (2 ^ (8 * Z.of_nat k) <=? n) then Raise OverflowError else Ok (le_bytes k n).

(** ** Constants *)

(* @src src/src/harness_conformance/crypto.py:10-10 Q *)
Definition Q : Z := 2 ^ 255 - 19.
(* @src src/src/harness_conformance/crypto.py:11-11 L *)
Definition L : Z := 2 ^ 252 + 27742317777372353535851937790883648493.
(* @src src/src/harness_conformance/crypto.py:12-12 D *)
Definition D : Z := (-121665 * powmod 121666 (Q - 2) Q) mod Q.
(* @src src/src/harness_conformance/crypto.py:13-13 I *)
Definition I : Z := powmod 2 ((Q - 1) / 4) Q.

Definition point : Type := Z * Z.

(* @src src/src/harness_conformance/crypto.py:14-14 IDENTITY *)
Definition IDENTITY : point := (0, 1).

(* @src src/src/harness_conformance/crypto.py:17-24 _xrecover *)
Definition _xrecover (y : Z) : Z :=
  let xx := (y * y - 1) * powmod (D * y * y + 1) (Q - 2) Q in
  let x := powmod xx ((Q + 3) / 8) Q in
  let x := if negb ((x * x - xx) mod Q =? 0) then x * I mod Q else x in
  if negb (Z.land x 1 =? 0) then Q - x else x.

(* @src src/src/harness_conformance/crypto.py:27-27 BY *)
Definition BY : Z := 4 * powmod 5 (Q - 2) Q mod Q.
(* @src src/src/harness_conformance/crypto.py:28-28 BX *)
Definition BX : Z := _xrecover BY.
(* @src src/src/harness_conformance/crypto.py:29-29 BASE *)
Definition BASE : point := (BX, BY).

(** ** The group law *)

(* @src src/src/harness_conformance/crypto.py:32-46 _add *)
Definition _add (left right : point) : res point :=
  let '(x1, y1) := left in
  let '(x2, y2) := right in
  let product := D * x1 * x2 * y1 * y2 mod Q in
  let denominator_x := (1 + product) mod Q in
  let denominator_y := (1 - product) mod Q in
  inverse_x ← if denominator_x =? 0 then Ok 0 else invmod denominator_x Q;
  inverse_y ← if denominator_y =? 0 then Ok 0 else invmod denominator_y Q;
  Ok ((x1 * y2 + x2 * y1) * inverse_x mod Q, (y1 * y2 + x1 * x2) * inverse_y mod Q).

(** The [while scalar] loop, bit by bit; the addend is doubled after the last bit too. *)
(* @src src/src/harness_conformance/crypto.py:49-57 _scalar_mult *)
Fixpoint scalar_loop (scalar : positive) (result addend : point) : res point :=
  match scalar with
  | xH =>
      result' ← _add result addend;
      _ ← _add addend addend;
      Ok result'
  | xO s =>
      addend' ← _add addend addend;
      scalar_loop s result addend'
  | xI s =>
      result' ← _add result addend;
      addend' ← _add addend addend;
      scalar_loop s result' addend'
  end.

(** A negative scalar, on which the loop would not end, never reaches it: its callers pass
    a reduced or decoded integer. *)
(* @src src/src/harness_conformance/crypto.py:49-57 _scalar_mult *)
Definition _scalar_mult (scalar : N) (p : point) : res point :=
  match scalar with
  | N0 => Ok IDENTITY
  | Npos s => scalar_loop s IDENTITY p
  end.

(** ** Points as bytes *)

(* @src src/src/harness_conformance/crypto.py:60-62 _encode_point *)
Definition _encode_point (p : point) : res bytes :=
  let '(x, y) := p in
  to_bytes (Z.lor y (Z.shiftl (Z.land x 1) 255)) 32.

Definition point_eqb (p q : point) : bool := (p.1 =? q.1) && (p.2 =? q.2).

(* @src src/src/harness_conformance/crypto.py:65-81 _decode_point *)
Definition _decode_point (data : bytes) : res point :=
  raise_if (negb (zlen data =? 32)) "INVALID_ED25519_POINT" ;;
  let encoded := from_bytes data in
  let y := Z.land encoded (Z.shiftl 1 255 - 1) in
  let sign := Z.shiftr encoded 255 in
  raise_if (Q <=? y) "NON_CANONICAL_ED25519_POINT" ;;
  let x := _xrecover y in
  let x := if negb (Z.land x 1 =? sign) then Q - x else x in
  let p := (x, y) in
  e ← _encode_point p;
  raise_if (negb (str_eqb e data)) "NON_CANONICAL_ED25519_POINT" ;;
  eight ← _scalar_mult 8 p;
  raise_if (point_eqb eight IDENTITY) "SMALL_ORDER_ED25519_POINT" ;;
  Ok p.

(** ** Keys, signatures *)

(** [scalar_bytes[i] = f(scalar_bytes[i])]. *)
Definition alter_byte (i : nat) (f : N -> N) (b : list N) : list N := alter f i b.

(* @src src/src/harness_conformance/crypto.py:84-90 _clamped_scalar *)
Definition _clamped_scalar (seed : bytes) : Z * bytes :=
  let digest := sha512 seed in
  let scalar_bytes := take 32 digest in
  let scalar_bytes := alter_byte 0 (fun b => N.land b 248) scalar_bytes in
  let scalar_bytes := alter_byte 31 (fun b => N.land b 63) scalar_bytes in
  let scalar_bytes := alter_byte 31 (fun b => N.lor b 64) scalar_bytes in
  (from_bytes scalar_bytes, drop 32 digest).

(* @src src/src/harness_conformance/crypto.py:93-97 public_key *)
Definition public_key (seed : bytes) : res bytes :=
  raise_if (negb (zlen seed =? 32)) "INVALID_PRIVATE_KEY" ;;
  let '(scalar, _) := _clamped_scalar seed in
  p ← _scalar_mult (Z.to_N scalar) BASE;
  _encode_point p.

(** [int.from_bytes(hashlib.sha512(m).digest(), "little") % L]. *)
Definition sha512_scalar (m : bytes) : Z := from_bytes (sha512 m) mod L.

(* @src src/src/harness_conformance/crypto.py:100-107 sign *)
Definition sign (seed message : bytes) : res bytes :=
  let '(scalar, prefix) := _clamped_scalar seed in
  encoded_public ← public_key seed;
  let nonce := sha512_scalar (prefix ++ message) in
  r ← _scalar_mult (Z.to_N nonce) BASE;
  encoded_r ← _encode_point r;
  let challenge := sha512_scalar (encoded_r ++ encoded_public ++ message) in
  let s := (nonce + challenge * scalar) mod L in
  tail ← to_bytes s 32;
  Ok (encoded_r ++ tail).

(** The body of the [try] of [verify]. *)
(* @src src/src/harness_conformance/crypto.py:110-122 verify *)
Definition verify_body (public message signature : bytes) : res bool :=
  if negb (zlen public =? 32) || negb (zlen signature =? 64) then Ok false else
  point_a ← _decode_point public;
  point_r ← _decode_point (take 32 signature);
  let scalar_s := from_bytes (drop 32 signature) in
  if L <=? scalar_s then Ok false else
  let challenge := sha512_scalar (take 32 signature ++ public ++ message) in
  lhs ← _scalar_mult (Z.to_N scalar_s) BASE;
  ca ← _scalar_mult (Z.to_N challenge) point_a;
  rhs ← _add point_r ca;
  Ok (point_eqb lhs rhs).

(* @src src/src/harness_conformance/crypto.py:110-122 verify *)
Definition verify (public message signature : bytes) : res bool :=
  match verify_body public message signature with
  | Raise (ConformanceError _) => Ok false
  | r => r
  end.

(* @src src/src/harness_conformance/crypto.py:141-143 signature_payload *)
Definition signature_payload {U : Unicode} (domain : string) (document : value)
    (fields : list string) : res bytes :=
  d ← items document;
  b ← canonical_bytes (VDict (dwithout (u <$> fields) d));
  Ok (u domain ++ [0%N] ++ b).

(** ** Modular inverses *)

Lemma egcd_some f r0 r1 s0 s1 :
  0 <= r1 < r0 -> r0 * r1 < 2 ^ Z.of_nat f -> exists g s, egcd f r0 r1 s0 s1 = Some (g, s).
Proof.
  revert r0 r1 s0 s1. induction f as [|f IH]; intros r0 r1 s0 s1 Hr Hm; simpl.
  - destruct (Z.eqb_spec r1 0); [eauto | simpl in Hm; nia].
  - destruct (Z.eqb_spec r1 0); [eauto |].
    pose proof (Z.mod_pos_bound r0 r1 ltac:(lia)). apply IH; [lia |].
    rewrite Nat2Z.inj_succ, Z.pow_succ_r in Hm by lia.
    pose proof (Z.div_mod r0 r1 ltac:(lia)).
    assert (1 <= r0 / r1) by (apply Z.div_le_lower_bound; lia). nia.
Qed.

Lemma egcd_spec b m f r0 r1 s0 s1 g s :
  (m | s0 * b - r0) -> (m | s1 * b - r1) -> 0 <= r0 -> 0 <= r1 ->
  egcd f r0 r1 s0 s1 = Some (g, s) -> (m | s * b - g) /\ g = Z.gcd r0 r1.
Proof.
  revert r0 r1 s0 s1. induction f as [|f IH]; intros r0 r1 s0 s1 H0 H1 P0 P1; simpl;
    destruct (Z.eqb_spec r1 0) as [->|Hn]; try (intros [= <- <-]); try done.
  - rewrite Z.gcd_0_r_nonneg by lia. done.
  - rewrite Z.gcd_0_r_nonneg by lia. done.
  - intros H. pose proof (Z.mod_pos_bound r0 r1 ltac:(lia)). apply IH in H as [? ->]; [|done| |lia|lia].
    + split; [done |]. by rewrite Z.gcd_comm, Z.gcd_mod, Z.gcd_comm by lia.
    + rewrite Z.mod_eq by lia.
      replace ((s0 - r0 / r1 * s1) * b - (r0 - r1 * (r0 / r1)))
        with ((s0 * b - r0) - (r0 / r1) * (s1 * b - r1)) by ring.
      apply Z.divide_sub_r; [done | by apply Z.divide_mul_r].
Qed.

(** [pow(b, -1, m)] returns the inverse below [m] when there is one, else [ValueError]. *)
Lemma invmod_spec b m : 1 < m ->
  if decide (Z.gcd b m = 1)
  then exists r, invmod b m = Ok r /\ 0 <= r < m /\ r * b mod m = 1
  else invmod b m = Raise ValueError.
Proof.
  intros Hm. unfold invmod. pose proof (Z.mod_pos_bound b m ltac:(lia)) as Hb.
  destruct (egcd_some (Z.to_nat (2 * Z.log2 m + 4)) m (b mod m) 0 1) as (g & s & E); [lia | |].
  { pose proof (Z.log2_spec m ltac:(lia)) as [_ Hl]. pose proof (Z.log2_nonneg m).
    rewrite Z2Nat.id by lia.
    replace (2 * Z.log2 m + 4) with (Z.succ (Z.log2 m) + Z.succ (Z.log2 m) + 2) by lia.
    rewrite !Z.pow_add_r by lia. change (2 ^ 2) with 4. nia. }
  rewrite E. apply (egcd_spec b m) in E as [Hd ->].
  - assert (Z.gcd m (b mod m) = Z.gcd b m) as Eg
      by (by rewrite Z.gcd_comm, Z.gcd_mod, Z.gcd_comm by lia).
    rewrite Eg in *. destruct (decide (Z.gcd b m = 1)) as [E1|Hn].
    + rewrite E1 in *. eexists. split; [done |]. split; [apply Z.mod_pos_bound; lia |].
      rewrite Z.mul_mod_idemp_l by lia. destruct Hd as [k Hk].
      replace (s * b) with (1 + k * m) by lia. rewrite Z_mod_plus_full. by apply Z.mod_small.
    + by destruct (Z.eqb_spec (Z.gcd b m) 1).
  - exists (-1). lia.
  - exists (b / m). rewrite Z.mod_eq by lia. lia.
  - lia.
  - lia.
Qed.

(** ** The field *)

Lemma Q_prime : Znumtheory.prime Q.
Proof. exact prime_25519. Qed.

Lemma Q_big : 2 < Q.
Proof. by vm_compute. Qed.

#[global] Opaque Q.

Lemma powmod_eq b e m : 0 < m -> powmod b e m = b ^ e mod m.
Proof. intros. unfold powmod. by rewrite Zpow_mod_correct by lia. Qed.

(** Fermat's exponent inverts every nonzero residue. *)
Lemma fermat_inverse d : 0 < d < Q -> d * powmod d (Q - 2) Q mod Q = 1.
Proof.
  intros Hd. pose proof Q_big. rewrite powmod_eq, Z.mul_mod_idemp_r by lia.
  pose proof (fermat_Z Q_prime (a := d) ltac:(lia)) as F.
  replace (d * d ^ (Q - 2)) with (d ^ (Q - 1))
    by (replace (Q - 1) with (Z.succ (Q - 2)) by lia; rewrite Z.pow_succ_r by lia; ring).
  assert (Z.divide Q (d * (d ^ (Q - 1) - 1))) as Hdiv.
  { replace (d * (d ^ (Q - 1) - 1)) with (d ^ Q - d)
      by (replace Q with (Z.succ (Q - 1)) at 1 by lia; rewrite Z.pow_succ_r by lia; ring).
    exists (d ^ Q / Q - d / Q). rewrite Z.mul_sub_distr_r.
    pose proof (Z.div_mod (d ^ Q) Q ltac:(lia)). pose proof (Z.div_mod d Q ltac:(lia)). lia. }
  apply Znumtheory.Gauss in Hdiv.
  - destruct Hdiv as [k Hk]. replace (d ^ (Q - 1)) with (1 + k * Q) by lia.
    rewrite Z_mod_plus_full. apply Z.mod_small. lia.
  - apply Znumtheory.prime_rel_prime; [apply Q_prime |].
    intros Hle%Z.divide_pos_le; lia.
Qed.

Lemma inverse_unique d r r' :
  0 <= r < Q -> 0 <= r' < Q -> r * d mod Q = 1 -> d * r' mod Q = 1 -> r = r'.
Proof.
  intros Hr Hr' H H'. pose proof Q_big.
  rewrite <- (Z.mod_small r Q), <- (Z.mod_small r' Q) by lia.
  rewrite <- (Z.mul_1_r r), <- H', Z.mul_mod_idemp_r by lia.
  replace (r * (d * r')) with ((r * d) * r') by ring.
  rewrite <- Z.mul_mod_idemp_l, H, Z.mul_1_l by lia. done.
Qed.

Lemma invmod_fermat d : 0 < d < Q -> invmod d Q = Ok (powmod d (Q - 2) Q).
Proof.
  intros Hd. pose proof Q_big. pose proof (invmod_spec d Q ltac:(lia)) as H0.
  assert (Z.gcd d Q = 1) as E.
  { apply Znumtheory.Zgcd_1_rel_prime, Znumtheory.rel_prime_sym, Znumtheory.prime_rel_prime;
      [apply Q_prime |]. intros Hle%Z.divide_pos_le; lia. }
  rewrite decide_True in H0 by done. destruct H0 as (r & -> & Hr & H1). f_equal.
  apply (inverse_unique d); [done | | done | by apply fermat_inverse].
  rewrite powmod_eq by lia. apply Z.mod_pos_bound. lia.
Qed.

(** The addition law with Fermat exponentiation in place of the two inverses. *)
Definition add_reference (left right : point) : point :=
  let '(x1, y1) := left in
  let '(x2, y2) := right in
  let product := D * x1 * x2 * y1 * y2 in
  ((x1 * y2 + x2 * y1) * powmod (1 + product) (Q - 2) Q mod Q,
   (y1 * y2 + x1 * x2) * powmod (1 - product) (Q - 2) Q mod Q).

Lemma powmod_reduce b e : 0 <= e -> powmod (b mod Q) e Q = powmod b e Q.
Proof. intros. pose proof Q_big. rewrite !powmod_eq by lia. symmetry. by apply Zpower_mod; lia. Qed.

Lemma powmod_0 e : 0 < e -> powmod 0 e Q = 0.
Proof. intros. pose proof Q_big. by rewrite powmod_eq, Z.pow_0_l, Z.mod_0_l by lia. Qed.

Lemma inverse_or_zero d :
  (if d mod Q =? 0 then Ok 0 else invmod (d mod Q) Q) = Ok (powmod d (Q - 2) Q).
Proof.
  pose proof Q_big. pose proof (Z.mod_pos_bound d Q ltac:(lia)).
  rewrite <- (powmod_reduce d) by lia.
  destruct (Z.eqb_spec (d mod Q) 0) as [->|]; [by rewrite powmod_0 by lia |].
  apply invmod_fermat. lia.
Qed.

Lemma add_mod_idemp_1 p : (1 + p mod Q) mod Q = (1 + p) mod Q.
Proof. pose proof Q_big. by rewrite Z.add_mod_idemp_r by lia. Qed.

Lemma sub_mod_idemp_1 p : (1 - p mod Q) mod Q = (1 - p) mod Q.
Proof. by rewrite Zminus_mod_idemp_r. Qed.

(** the optimised addition is the textbook one.  [Q] being prime, on every pair of integer
    pairs [_add] never raises and equals the law with Fermat exponentiation for both
    inverses, singular denominators included. *)
Theorem _add_fermat left right : _add left right = Ok (add_reference left right).
Proof.
  destruct left as [x1 y1], right as [x2 y2]. unfold _add, add_reference.
  set (p := D * x1 * x2 * y1 * y2).
  rewrite add_mod_idemp_1, sub_mod_idemp_1, !inverse_or_zero. done.
Qed.

(** ** Totality and ranges *)

Definition reduced (p : point) : Prop := 0 <= p.1 < Q /\ 0 <= p.2 < Q.

Lemma _add_total p q : exists r, _add p q = Ok r /\ reduced r.
Proof.
  destruct p as [x1 y1], q as [x2 y2]. unfold _add.
  set (d := D * x1 * x2 * y1 * y2).
  rewrite add_mod_idemp_1, sub_mod_idemp_1, !inverse_or_zero. cbn [mbind res_bind].
  eexists. split; [done |]. pose proof Q_big. split; apply Z.mod_pos_bound; lia.
Qed.

Lemma scalar_loop_total s r a : exists p, scalar_loop s r a = Ok p /\ reduced p.
Proof.
  revert r a. induction s as [s IH|s IH|]; intros r a; simpl.
  - destruct (_add_total r a) as (r' & -> & _), (_add_total a a) as (a' & -> & _). apply IH.
  - destruct (_add_total a a) as (a' & -> & _). apply IH.
  - destruct (_add_total r a) as (r' & -> & ?), (_add_total a a) as (a' & -> & _). simpl. eauto.
Qed.

Lemma _scalar_mult_total s p : exists r, _scalar_mult s p = Ok r /\ reduced r.
Proof.
  destruct s as [|s]; [|apply scalar_loop_total]. pose proof Q_big.
  exists IDENTITY. split; [done |]. split; simpl; lia.
Qed.

Lemma Q_lt : Q < 2 ^ 255.
Proof. Transparent Q. by vm_compute. Qed.
#[global] Opaque Q.

Lemma from_bytes_bound b : Forall octet b -> 0 <= from_bytes b < 2 ^ (8 * zlen b).
Proof.
  induction 1 as [|x b Hx _ IH]; [done |]. rewrite zlen_cons. simpl.
  rewrite Z.mul_add_distr_l, Z.pow_add_r by (pose proof (zlen_nonneg b); lia).
  change (2 ^ (8 * 1)) with 256. unfold octet in Hx. lia.
Qed.

Lemma le_bytes_length k n : length (le_bytes k n) = k.
Proof. revert n. induction k as [|k IH]; intros n; [done | simpl; by rewrite IH]. Qed.

Lemma le_bytes_octets k n : Forall octet (le_bytes k n).
Proof.
  revert n. induction k as [|k IH]; intros n; constructor; [|apply IH].
  unfold octet. pose proof (Z.mod_pos_bound n 256). lia.
Qed.

Lemma from_le_bytes k n : 0 <= n < 2 ^ (8 * Z.of_nat k) -> from_bytes (le_bytes k n) = n.
Proof.
  revert n. induction k as [|k IH]; intros n Hn; simpl.
  - simpl in Hn. lia.
  - pose proof (Z.mod_pos_bound n 256 ltac:(lia)). pose proof (Z.div_mod n 256 ltac:(lia)).
    rewrite IH, Z2N.id by (lia || (split; [apply Z.div_pos; lia |]; apply Z.div_lt_upper_bound;
      [lia |]; replace (8 * Z.of_nat (S k)) with (8 + 8 * Z.of_nat k) in Hn by lia;
      rewrite Z.pow_add_r in Hn by lia; change (2 ^ 8) with 256 in Hn; lia)).
    lia.
Qed.

Lemma le_from_bytes b : Forall octet b -> le_bytes (length b) (from_bytes b) = b.
Proof.
  induction 1 as [|x b Hx Hb IH]; [done |]. simpl. unfold octet in Hx.
  pose proof (from_bytes_bound b Hb).
  replace (Z.of_N x + 256 * from_bytes b) with (from_bytes b * 256 + Z.of_N x) by lia.
  rewrite Z.add_comm, Z_mod_plus_full, Z.mod_small, Z.add_comm, Z.div_add_l, Z.div_small by lia.
  rewrite Z.add_0_r, IH. f_equal. lia.
Qed.

Lemma to_bytes_Ok n k b :
  to_bytes n k = Ok b <-> 0 <= n < 2 ^ (8 * Z.of_nat k) /\ b = le_bytes k n.
Proof.
  unfold to_bytes. destruct ((n <? 0) || _) eqn:E.
  - split; [done |]. intros [? ->]. apply orb_true_iff in E. lia.
  - apply orb_false_iff in E. split; [intros [= <-] | intros [_ ->]]; [|done]. split; [lia | done].
Qed.

Lemma encode_value x y : 0 <= y < 2 ^ 255 ->
  Z.lor y (Z.shiftl (Z.land x 1) 255) = y + (x mod 2) * 2 ^ 255 /\
  0 <= y + (x mod 2) * 2 ^ 255 < 2 ^ 256.
Proof.
  intros Hy. pose proof (Z.mod_pos_bound x 2 ltac:(lia)).
  change (Z.land x 1) with (Z.land x (Z.ones 1)). rewrite Z.land_ones by lia.
  change (2 ^ 1) with 2. rewrite Z.shiftl_mul_pow2 by lia.
  replace (2 ^ 256) with (2 * 2 ^ 255) by done.
  split; [|lia]. symmetry. rewrite Z.add_nocarry_lxor; [apply Z.lxor_lor |].
  all: apply Z.bits_inj'; intros i Hi; rewrite Z.land_spec, Z.bits_0;
    rewrite <- (Z.shiftl_mul_pow2 _ 255) by lia; rewrite Z.shiftl_spec by lia;
    destruct (Z.lt_ge_cases i 255) as [Hl | Hl];
    [rewrite (Z.testbit_neg_r _ (i - 255)) by lia; apply andb_false_r |
     rewrite <- (Z.mod_small y (2 ^ 255)), Z.mod_pow2_bits_high by lia; done].
Qed.

Lemma _encode_point_Ok x y : 0 <= y < Q ->
  _encode_point (x, y) = Ok (le_bytes 32 (y + (x mod 2) * 2 ^ 255)).
Proof.
  intros Hy. pose proof Q_lt. destruct (encode_value x y ltac:(lia)) as [E Hb].
  unfold _encode_point. apply to_bytes_Ok. rewrite E. split; [apply Hb | done].
Qed.

Lemma _xrecover_range y : 0 <= _xrecover y <= Q.
Proof.
  unfold _xrecover. pose proof Q_big. cbv zeta.
  set (xx := (y * y - 1) * _). set (x := powmod xx _ _).
  assert (0 <= x < Q) by (unfold x; rewrite powmod_eq by lia; apply Z.mod_pos_bound; lia).
  assert (0 <= x * I mod Q < Q) by (apply Z.mod_pos_bound; lia).
  destruct (negb ((x * x - xx) mod Q =? 0)); [set (x' := x * I mod Q) in * | set (x' := x)];
    destruct (negb (Z.land x' 1 =? 0)); subst x'; lia.
Qed.

(* Nothing below evaluates the arithmetic. *)
#[global] Opaque powmod _xrecover _add _scalar_mult D I BX BY BASE.

Lemma _decode_point_Ok data p :
  _decode_point data = Ok p ->
  length data = 32%nat /\ 0 <= p.1 <= Q /\ 0 <= p.2 < Q /\ _encode_point p = Ok data.
Proof.
  unfold _decode_point. intros H. apply seq_Ok in H as [Hl H]. cbv zeta in H.
  apply seq_Ok in H as [Hy H]. apply bind_Ok in H as (e & He & H).
  apply seq_Ok in H as [Hd H]. apply bind_Ok in H as (o & _ & H). apply seq_Ok in H as [_ [= <-]].
  apply raise_if_Ok in Hl, Hy, Hd. apply negb_false_iff, str_eqb_eq in Hd. subst e.
  apply negb_false_iff in Hl. unfold zlen in Hl. simpl.
  split; [lia |]. split; [|split; [|done]].
  - pose proof (_xrecover_range (Z.land (from_bytes data) (Z.shiftl 1 255 - 1))).
    destruct (negb _); lia.
  - split; [|lia]. change (Z.shiftl 1 255 - 1) with (Z.ones 255). rewrite Z.land_ones by lia.
    apply Z.mod_pos_bound. lia.
Qed.

Lemma _encode_point_ok p : 0 <= p.2 < Q -> is_ok (_encode_point p) = true.
Proof. destruct p as [x y]. intros. by rewrite _encode_point_Ok. Qed.

Lemma _scalar_mult_ok s p : is_ok (_scalar_mult s p) = true.
Proof. destruct (_scalar_mult_total s p) as (r & E & _). by rewrite E. Qed.

Lemma _add_ok p q : is_ok (_add p q) = true.
Proof. destruct (_add_total p q) as (r & E & _). by rewrite E. Qed.

(** Discharges the case that a total operation raised. *)
Ltac not_raised H lemma :=
  let T := fresh "T" in
  pose proof lemma as T; rewrite H in T; discriminate T.

Lemma _decode_point_raise data e :
  _decode_point data = Raise e -> is_conformance e = true.
Proof.
  unfold _decode_point. cbv zeta. intros H.
  apply bind_Raise in H as [H | (_ & _ & H)]; [by eapply raise_if_raise |].
  apply bind_Raise in H as [H | ([] & Hy & H)]; [by eapply raise_if_raise |].
  apply raise_if_Ok in Hy.
  apply bind_Raise in H as [H | (enc & _ & H)].
  { assert (0 <= Z.land (from_bytes data) (Z.shiftl 1 255 - 1)) as Hy0.
    { change (Z.shiftl 1 255 - 1) with (Z.ones 255). rewrite Z.land_ones by lia.
      apply Z.mod_pos_bound. lia. }
    refine (False_ind _ _).
    match type of H with _encode_point (?x, ?y) = _ =>
      not_raised H (_encode_point_ok (x, y) (conj Hy0 (proj1 (Z.leb_gt _ _) Hy))) end. }
  apply bind_Raise in H as [H | (_ & _ & H)]; [by eapply raise_if_raise |].
  apply bind_Raise in H as [H | (o & _ & H)].
  { match type of H with _scalar_mult ?n ?p = _ => not_raised H (_scalar_mult_ok n p) end. }
  apply bind_Raise in H as [H | (_ & _ & H)]; [by eapply raise_if_raise |].
  discriminate H.
Qed.

Lemma L_lt : L < 2 ^ 253.
Proof. by vm_compute. Qed.
Lemma L_pos : 0 < L.
Proof. by vm_compute. Qed.

Lemma sha512_scalar_range m : 0 <= sha512_scalar m < L.
Proof. apply Z.mod_pos_bound, L_pos. Qed.

Lemma verify_body_Ok public message signature b :
  verify_body public message signature = Ok b -> b = true ->
  length public = 32%nat /\ length signature = 64%nat /\ from_bytes (drop 32 signature) < L /\
  (exists a, _decode_point public = Ok a) /\ (exists r, _decode_point (take 32 signature) = Ok r).
Proof.
  unfold verify_body. destruct (negb _ || negb _) eqn:Hlen; [by intros [= <-] |].
  apply orb_false_iff in Hlen as [H1 H2]. apply negb_false_iff in H1, H2. unfold zlen in *.
  intros H ->. apply bind_Ok in H as (a & Ha & H). apply bind_Ok in H as (r & Hr & H).
  cbv zeta in H. destruct (L <=? _) eqn:Hs; [done |]. repeat split; eauto; lia.
Qed.

Lemma verify_returns public message signature :
  exists b, verify public message signature = Ok b /\
    (b = true ->
     length public = 32%nat /\ length signature = 64%nat /\
     from_bytes (drop 32 signature) < L /\
     (exists a, _decode_point public = Ok a) /\
     (exists r, _decode_point (take 32 signature) = Ok r)).
Proof.
  unfold verify. destruct (verify_body public message signature) as [b|e] eqn:E.
  { exists b. split; [done |]. by eapply verify_body_Ok. }
  enough (is_conformance e = true) as He by (destruct e; try done; by exists false).
  revert E. unfold verify_body. destruct (negb _ || negb _); [discriminate |]. intros H.
  apply bind_Raise in H as [H | (a & _ & H)]; [by eapply _decode_point_raise |].
  apply bind_Raise in H as [H | (r & _ & H)]; [by eapply _decode_point_raise |].
  cbv zeta in H. destruct (L <=? _); [discriminate H |].
  apply bind_Raise in H as [H | (p1 & _ & H)].
  { match type of H with _scalar_mult ?n ?p = _ => not_raised H (_scalar_mult_ok n p) end. }
  apply bind_Raise in H as [H | (p2 & _ & H)].
  { match type of H with _scalar_mult ?n ?p = _ => not_raised H (_scalar_mult_ok n p) end. }
  apply bind_Raise in H as [H | (p3 & _ & H)]; [not_raised H (_add_ok r p2) | discriminate H].
Qed.

(** [verify] is total, and what it accepts is canonical.  On any octets it returns a boolean
    and raises nothing; when it returns [True] the key has 32 octets and the signature 64,
    both points decode (reduced coordinates, canonical encoding, not of small order) and the
    scalar half is below the group order, so no signature is accepted in two forms. *)
Theorem verify_total public message signature :
  exists b, verify public message signature = Ok b /\
    (b = true ->
     length public = 32%nat /\ length signature = 64%nat /\
     from_bytes (drop 32 signature) < L /\
     (exists a, _decode_point public = Ok a) /\
     (exists r, _decode_point (take 32 signature) = Ok r)).
Proof. apply verify_returns. Qed.

(** A decoded point is canonical.  [_decode_point] raises nothing but [ConformanceError];
    a point it returns has reduced coordinates, encodes back to the very octets it was read
    from, and is not annihilated by the cofactor. *)
Theorem _decode_point_canonical data :
  match _decode_point data with
  | Ok p => 0 <= p.1 <= Q /\ 0 <= p.2 < Q /\ _encode_point p = Ok data /\
            exists o, _scalar_mult 8 p = Ok o /\ o <> IDENTITY
  | Raise e => is_conformance e = true
  end.
Proof.
  destruct (_decode_point data) as [p|e] eqn:E; [|by eapply _decode_point_raise].
  pose proof (_decode_point_Ok _ _ E) as (_ & Hx & Hy & He). split; [exact Hx |]. split; [exact Hy |]. split; [exact He |].
  revert E. unfold _decode_point. cbv zeta. intros H. apply seq_Ok in H as [_ H].
  apply seq_Ok in H as [_ H]. apply bind_Ok in H as (? & _ & H). apply seq_Ok in H as [_ H].
  apply bind_Ok in H as (o & Ho & H). apply seq_Ok in H as [Hn [= <-]].
  exists o. split; [done |]. intros ->. apply raise_if_Ok in Hn. discriminate Hn.
Qed.

(** *** Keys and signatures *)

Lemma take_sha512 m : length (take 32 (sha512 m)) = 32%nat.
Proof. rewrite length_take, sha512_length. done. Qed.

Lemma from_bytes_app b c : from_bytes (b ++ c) = from_bytes b + 2 ^ (8 * zlen b) * from_bytes c.
Proof.
  induction b as [|x b IH].
  { change (2 ^ (8 * zlen (@nil N))) with 1. simpl app. change (from_bytes []) with 0. ring. }
  change (from_bytes ((x :: b) ++ c)) with (Z.of_N x + 256 * from_bytes (b ++ c)).
  change (from_bytes (x :: b)) with (Z.of_N x + 256 * from_bytes b).
  pose proof (zlen_nonneg b). rewrite zlen_cons, IH, (Z.mul_add_distr_l 8), Z.pow_add_r by lia.
  change (2 ^ (8 * 1)) with 256. ring.
Qed.

Lemma clamp_shape (b : list N) : length b = 32%nat ->
  exists x m y, b = x :: m ++ [y] /\ zlen m = 30 /\
  alter (fun b => N.lor b 64) 31%nat
    (alter (fun b => N.land b 63) 31%nat (alter (fun b => N.land b 248) 0%nat b))
  = N.land x 248 :: m ++ [N.lor (N.land y 63) 64].
Proof.
  intros H. destruct b as [|x b]; [done |]. destruct (rev b) as [|y m'] eqn:E.
  { apply (f_equal (@length N)) in E. rewrite length_rev in E. simpl in *. lia. }
  apply (f_equal (@rev N)) in E. rewrite rev_involutive in E. simpl in E. subst b.
  set (m := rev m') in *. simpl in H. rewrite length_app in H. simpl in H.
  exists x, m, y. split; [done |]. split; [unfold zlen; lia |].
  change (x :: m ++ [y]) with ([x] ++ m ++ [y]). rewrite alter_app_l by (simpl; lia).
  change (alter _ 0%nat [x]) with [N.land x 248].
  rewrite !alter_app_r_alt by (simpl; lia).
  by replace (31 - length [N.land x 248] - length m)%nat with 0%nat by (simpl; lia).
Qed.

Lemma land_248 x : octet x -> (N.land x 248 <= 248)%N /\ Z.of_N (N.land x 248) mod 8 = 0.
Proof.
  intros H. assert ((N.land x 248 <=? 248)%N && (Z.of_N (N.land x 248) mod 8 =? 0) = true) as E.
  { revert x H. apply (below_forallb
      (fun x => (N.land x 248 <=? 248)%N && (Z.of_N (N.land x 248) mod 8 =? 0)) 256).
    by vm_compute. }
  apply andb_true_iff in E as [?%N.leb_le ?%Z.eqb_eq]. done.
Qed.

Lemma top_octet y : octet y -> (64 <= N.lor (N.land y 63) 64 < 128)%N.
Proof.
  intros H. assert ((64 <=? N.lor (N.land y 63) 64)%N && (N.lor (N.land y 63) 64 <? 128)%N = true) as E.
  { revert y H. apply (below_forallb (fun y => (64 <=? N.lor (N.land y 63) 64)%N &&
      (N.lor (N.land y 63) 64 <? 128)%N) 256). by vm_compute. }
  apply andb_true_iff in E as [?%N.leb_le ?%N.ltb_lt]. done.
Qed.

(** The clamped scalar of RFC 8032: a multiple of eight with bit 254 set and nothing
    above it; the prefix is the other half of the hash. *)
Theorem clamped_scalar_bits seed :
  let '(scalar, prefix) := _clamped_scalar seed in
  2 ^ 254 <= scalar < 2 ^ 255 /\ scalar mod 8 = 0 /\ length prefix = 32%nat.
Proof.
  unfold _clamped_scalar, alter_byte.
  destruct (clamp_shape _ (take_sha512 seed)) as (x & m & y & Hb & Hm & ->).
  assert (Forall octet (take 32 (sha512 seed))) as Ho by apply Forall_take, sha512_octets.
  rewrite Hb in Ho.
  apply Forall_cons in Ho as [Hx Ho]. apply Forall_app in Ho as [Hmo Ho].
  apply Forall_cons in Ho as [Hy _].
  pose proof (from_bytes_bound m Hmo) as Hmb. rewrite Hm in Hmb.
  cbn [from_bytes foldr]. fold (from_bytes (m ++ [N.lor (N.land y 63) 64])).
  rewrite from_bytes_app, Hm. cbn [from_bytes foldr].
  pose proof (land_248 x Hx) as [H1 H2]. pose proof (top_octet y Hy) as H3.
  change (2 ^ (8 * 30)) with (2 ^ 240) in *.
  replace (2 ^ 254) with (256 * (2 ^ 240 * 64)) by done.
  replace (2 ^ 255) with (256 * (2 ^ 240 * 128)) by done.
  set (e := 2 ^ 240) in *. split; [nia |]. split.
  - rewrite <- Z.add_mod_idemp_l by lia.
    replace (Z.of_N (N.land x 248) mod 8) with 0 by lia.
    set (t := from_bytes m + _). replace (0 + 256 * t) with (32 * t * 8) by lia.
    apply Z_mod_mult.
  - rewrite length_drop, sha512_length. done.
Qed.

Lemma _encode_point_length p b : _encode_point p = Ok b -> length b = 32%nat /\ Forall octet b.
Proof.
  destruct p as [x y]. unfold _encode_point. intros [_ ->]%to_bytes_Ok.
  by rewrite le_bytes_length; auto using le_bytes_octets.
Qed.

Lemma base_mult_encodes s : exists b,
  (p ← _scalar_mult s BASE; _encode_point p) = Ok b /\ length b = 32%nat /\ Forall octet b.
Proof.
  destruct (_scalar_mult_total s BASE) as ([x y] & E & [_ Hy]). rewrite E.
  exists (le_bytes 32 (y + (x mod 2) * 2 ^ 255)). cbn [mbind res_bind].
  rewrite _encode_point_Ok by done. rewrite le_bytes_length. auto using le_bytes_octets.
Qed.

Lemma sign_returns seed message :
  if decide (length seed = 32%nat)
  then exists pk sig, public_key seed = Ok pk /\ sign seed message = Ok sig /\
    length pk = 32%nat /\ Forall octet pk /\ length sig = 64%nat /\ Forall octet sig /\
    from_bytes (drop 32 sig) < L
  else public_key seed = conf "INVALID_PRIVATE_KEY" /\
       sign seed message = conf "INVALID_PRIVATE_KEY".
Proof.
  unfold sign, public_key. destruct (_clamped_scalar seed) as [scalar prefix].
  destruct (decide (length seed = 32%nat)) as [Hl | Hl].
  2: { assert (zlen seed =? 32 = false) as -> by (unfold zlen; lia). done. }
  assert (raise_if (negb (zlen seed =? 32)) "INVALID_PRIVATE_KEY" = Ok tt) as El
    by (apply raise_if_Ok; unfold zlen; lia).
  destruct (base_mult_encodes (Z.to_N scalar)) as (pk & Epk & ? & ?).
  set (nonce := sha512_scalar (prefix ++ message)).
  destruct (_scalar_mult_total (Z.to_N nonce) BASE) as (p & Ep & [_ Hp]).
  pose proof (_encode_point_ok p Hp) as Hr.
  destruct (_encode_point p) as [r|] eqn:Er; [clear Hr | done].
  destruct (_encode_point_length _ _ Er) as [Hrl Hro].
  set (s := (nonce + sha512_scalar (r ++ pk ++ message) * scalar) mod L).
  assert (0 <= s < L) as Hs by apply Z.mod_pos_bound, L_pos.
  assert (to_bytes s 32 = Ok (le_bytes 32 s)) as Et.
  { apply to_bytes_Ok. split; [|done]. pose proof L_lt.
    change (2 ^ (8 * Z.of_nat 32)) with (2 ^ 253 * 8). lia. }
  exists pk, (r ++ le_bytes 32 s). split; [by apply seq_Ok |]. split.
  { apply bind_Ok. exists pk. split; [by apply seq_Ok |]. cbv zeta. apply bind_Ok. exists p.
    split; [done |]. apply bind_Ok. exists r. split; [done |]. apply bind_Ok. by eexists. }
  rewrite length_app, le_bytes_length, <- Hrl, drop_app_length, Hrl.
  split; [done |]. split; [done |]. split; [done |]. split.
  - apply Forall_app. auto using le_bytes_octets.
  - rewrite from_le_bytes; [lia |]. pose proof L_lt.
    change (2 ^ (8 * Z.of_nat 32)) with (2 ^ 253 * 8). lia.
Qed.

(** Signing is total on 32-octet seeds and on nothing else.  The key has 32 octets, the
    signature 64, and its scalar half is below the group order, as [verify] demands; a seed
    of any other length is refused by both functions. *)
Theorem sign_shape seed message :
  if decide (length seed = 32%nat)
  then exists pk sig, public_key seed = Ok pk /\ sign seed message = Ok sig /\
    length pk = 32%nat /\ Forall octet pk /\ length sig = 64%nat /\ Forall octet sig /\
    from_bytes (drop 32 sig) < L
  else public_key seed = conf "INVALID_PRIVATE_KEY" /\
       sign seed message = conf "INVALID_PRIVATE_KEY".
Proof. apply sign_returns. Qed.

(** ** The interface of the signature scheme *)

(** What crypto.py promises to its callers: the three functions, and their laws. *)
Class SigScheme := {
  sig_public_key : bytes -> res bytes;
  sig_sign : bytes -> bytes -> res bytes;
  sig_verify : bytes -> bytes -> bytes -> res bool
}.

Class SigSchemeOk (S : SigScheme) : Prop := {
  sig_key_length : forall seed pk,
    sig_public_key seed = Ok pk -> length pk = 32%nat /\ Forall octet pk;
  sig_sign_length : forall seed m sg,
    sig_sign seed m = Ok sg -> length sg = 64%nat /\ Forall octet sg;
  sig_sign_total : forall seed m, length seed = 32%nat -> is_ok (sig_sign seed m) = true;
  sig_key_total : forall seed, length seed = 32%nat -> is_ok (sig_public_key seed) = true;
  sig_verify_total : forall pk m sg, is_ok (sig_verify pk m sg) = true
}.

Definition ed25519 : SigScheme :=
  {| sig_public_key := public_key; sig_sign := sign; sig_verify := verify |}.

#[export] Instance ed25519_ok : SigSchemeOk ed25519.
Proof.
  split; simpl.
  - intros seed pk H. pose proof (sign_returns seed []) as R. destruct (decide _) in R.
    + destruct R as (pk' & sg & E & _ & ? & ? & _). rewrite E in H. by injection H as <-.
    + destruct R as [E _]. by rewrite E in H.
  - intros seed m sg H. pose proof (sign_returns seed m) as R. destruct (decide _) in R.
    + destruct R as (pk & sg' & _ & E & _ & _ & ? & ? & _). rewrite E in H. by injection H as <-.
    + destruct R as [_ E]. by rewrite E in H.
  - intros seed m Hl. pose proof (sign_returns seed m) as R. rewrite decide_True in R by done.
    destruct R as (? & ? & _ & E & _). by rewrite E.
  - intros seed Hl. pose proof (sign_returns seed []) as R. rewrite decide_True in R by done.
    destruct R as (? & ? & E & _). by rewrite E.
  - intros pk m sg. destruct (verify_returns pk m sg) as (b & E & _). by rewrite E.
Qed.
