(* ===== verification/IsoTime.v ===== *)
(** [datetime.fromisoformat] as CPython's C parser runs it on the UTF-8 bytes of a string,
    with the latitude it has (any separator, week dates, compact and truncated times, ignored
    text after six fraction digits), and the comparisons the package makes of its results.
    The package's only call appends [+00:00], so an aware result is always UTC. *)

From S2P Require Import Prelude PyVal Utf8 Json.

#[local] Open Scope Z_scope.

(** ** Calendar *)

Definition is_leap (y : Z) : bool :=
  (y mod 4 =? 0) && (negb (y mod 100 =? 0) || (y mod 400 =? 0)).

Definition days_before_year (y : Z) : Z :=
  let z := y - 1 in z * 365 + z / 4 - z / 100 + z / 400.

Definition month_days (y m : Z) : Z :=
  if (m =? 2) then (if is_leap y then 29 else 28)
  else if existsb (Z.eqb m) [4; 6; 9; 11] then 30 else 31.

Definition days_before_month (y m : Z) : Z :=
  foldr Z.add 0 (map (fun k => month_days y (Z.of_nat k)) (seq 1 (Z.to_nat (m - 1)))).

(** The proleptic Gregorian ordinal; day 1 is 0001-01-01, a Monday. *)
Definition ymd_to_ord (y m d : Z) : Z := days_before_year y + days_before_month y m + d.

Definition MAX_ORDINAL : Z := 3652059.

Definition weekday (y m d : Z) : Z := (ymd_to_ord y m d + 6) mod 7.

Definition iso_week1_monday (y : Z) : Z :=
  let first_day := ymd_to_ord y 1 1 in
  let first_weekday := (first_day + 6) mod 7 in
  let week1_monday := first_day - first_weekday in
  if first_weekday >? 3 then week1_monday + 7 else week1_monday.

(** A [datetime]: microseconds since the calendar's origin, and whether a zone is attached
    (UTC when there is one). *)
Record datetime := { instant : Z; aware : bool }.

#[export] Instance datetime_eq_dec : EqDecision datetime.
Proof. solve_decision. Defined.

(** ** Scanning bytes; reading past the end yields the terminating NUL *)

Definition at_ (b : bytes) (i : nat) : N := nth i b 0%N.

Fixpoint parse_digits (k : nat) (b : bytes) (p : nat) (acc : Z) : option (Z * nat) :=
  match k with
  | O => Some (acc, p)
  | S k' => let c := at_ b p in
            if is_digit c then parse_digits k' b (S p) (acc * 10 + Z.of_N (c - 48)) else None
  end.

(** The position of the first byte from [p] on that is no digit. *)
Definition digits_end (b : bytes) (p : nat) : nat := (p + length (span_digits (drop p b)).1)%nat.

Definition find_separator (b : bytes) : option nat :=
  let len := length b in
  if Nat.eqb len 7 then Some 7%nat
  else if (at_ b 4 =? 45)%N then
    if (at_ b 5 =? 87)%N then
      if Nat.ltb len 8 then None
      else if Nat.ltb 8 len && (at_ b 8 =? 45)%N then
        if Nat.eqb len 9 then None
        else if Nat.ltb 10 len && is_digit (at_ b 10) then Some 8%nat
        else Some 10%nat
      else Some 8%nat
    else Some 10%nat
  else if (at_ b 4 =? 87)%N then
    let pos := digits_end b 7 in
    if Nat.ltb pos 9 then Some pos
    else if Nat.even pos then Some 7%nat else Some 8%nat
  else Some 8%nat.

(** The ordinal of the date in the first [len] bytes. *)
Definition parse_date (b : bytes) (len : nat) : option Z :=
  '(year, p) ← parse_digits 4 b 0 0;
  let uses_separator := (at_ b p =? 45)%N in
  let p := if uses_separator then S p else p in
  if (at_ b p =? 87)%N then
    '(week, p) ← parse_digits 2 b (S p) 0;
    day ← (if Nat.ltb p len then
             (if uses_separator && negb (at_ b p =? 45)%N then None else
              let p := if uses_separator then S p else p in
              '(day, _) ← parse_digits 1 b p 0; Some day)
           else Some 1);
    let w1 := weekday year 1 1 in
    let week_ok := ((1 <=? week) && (week <=? 52)) ||
                   ((week =? 53) && ((w1 =? 3) || ((w1 =? 2) && is_leap year))) in
    let ordinal := iso_week1_monday year + (week - 1) * 7 + day - 1 in
    if (1 <=? year) && week_ok && (1 <=? day) && (day <=? 7) &&
       (1 <=? ordinal) && (ordinal <=? MAX_ORDINAL)
    then Some ordinal else None
  else
    '(month, p) ← parse_digits 2 b p 0;
    if uses_separator && negb (at_ b p =? 45)%N then None else
    let p := if uses_separator then S p else p in
    '(day, p) ← parse_digits 2 b p 0;
    if Nat.eqb p len && (1 <=? year) && (1 <=? month) && (month <=? 12) &&
       (1 <=? day) && (day <=? month_days year month)
    then Some (ymd_to_ord year month day) else None.

(** [parse_hh_mm_ss_ff] between [p] and [fin]: the fields read, and whether text remains. *)
Inductive hms_step := HmsDone (leftover : bool) | HmsFraction (p : nat) | HmsNext (p : nat) | HmsBad.

Definition hms_field (b : bytes) (fin : nat) (has_separator : bool) (p : nat) : hms_step :=
  let c := at_ b p in
  let p' := S p in
  if Nat.leb fin p' then HmsDone (negb (c =? 0)%N)
  else if has_separator && (c =? 58)%N then HmsNext p'
  else if (c =? 46)%N || (c =? 44)%N then HmsFraction p'
  else if negb has_separator then HmsNext p
  else HmsBad.

(** The fraction: six digits kept, further digits skipped. *)
Definition parse_fraction (b : bytes) (fin p : nat) : option (Z * bool) :=
  let to_parse := Nat.min 6 (fin - p) in
  '(n, q) ← parse_digits to_parse b p 0;
  Some (n * 10 ^ (6 - Z.of_nat to_parse), negb (at_ b (digits_end b q) =? 0)%N).

Definition parse_hms (b : bytes) (p fin : nat) : option ((Z * Z * Z * Z) * bool) :=
  '(h, p) ← parse_digits 2 b p 0;
  let sep := (at_ b p =? 58)%N in
  let fraction h m s p :=
    '(us, rest) ← parse_fraction b fin p; Some ((h, m, s, us), rest) in
  match hms_field b fin sep p with
  | HmsBad => None
  | HmsDone rest => Some ((h, 0, 0, 0), rest)
  | HmsFraction p => fraction h 0 0 p
  | HmsNext p =>
      '(m, p) ← parse_digits 2 b p 0;
      match hms_field b fin sep p with
      | HmsBad => None
      | HmsDone rest => Some ((h, m, 0, 0), rest)
      | HmsFraction p => fraction h m 0 p
      | HmsNext p =>
          '(s, p) ← parse_digits 2 b p 0;
          match hms_field b fin sep p with
          | HmsBad => None
          | HmsDone rest => Some ((h, m, s, 0), rest)
          | HmsFraction p | HmsNext p => fraction h m s p
          end
      end
  end.

(** The offset in front of which the zone starts: the first [+], [-] or [Z]. *)
Fixpoint zone_start (b : bytes) : nat :=
  match b with
  | [] => 0
  | c :: b' => if (c =? 43)%N || (c =? 45)%N || (c =? 90)%N then 0 else S (zone_start b')
  end.

(** The time of day in microseconds and the zone's offset in seconds, if any. *)
Definition parse_time (b : bytes) : option ((Z * Z * Z * Z) * option Z) :=
  let fin := length b in
  let tz := zone_start b in
  '(t, rest) ← parse_hms b 0 tz;
  if Nat.eqb tz fin then (if rest : bool then None else Some (t, None))
  else if (at_ b tz =? 90)%N then (if (at_ b (S tz) =? 0)%N then Some (t, Some 0) else None)
  else
    '((h, m, s, _), rest) ← parse_hms b (S tz) fin;
    if rest : bool then None
    else Some (t, Some ((if (at_ b tz =? 45)%N then -1 else 1) * (h * 3600 + m * 60 + s))).

(** A separator that is a surrogate is replaced before encoding. *)
Definition is_surrogate (c : N) : bool := is_high c || is_low c.

Definition sanitize (s : str) : str :=
  match List.find (fun i => is_surrogate (nth i s 0%N)) [7; 8; 10]%nat with
  | Some i => take i s ++ [84%N] ++ drop (S i) s
  | None => s
  end.

Definition separator_bytes (c : N) : nat :=
  if (c <? 128)%N then 1
  else if (N.land c 240 =? 224)%N then 3
  else if (N.land c 240 =? 240)%N then 4 else 2.

Definition day_microseconds : Z := 86400000000.

Definition fromisoformat (s : str) : res datetime :=
  let parsed :=
    if Nat.ltb (length s) 7 then None else
    b ← (match utf8_encode (sanitize s) with Ok b => Some b | Raise _ => None end);
    sep ← find_separator b;
    ordinal ← parse_date b sep;
    if Nat.ltb 1 (length b - sep) then
      let p := (sep + separator_bytes (at_ b sep))%nat in
      '((h, m, sec, us), zone) ← parse_time (drop p b);
      if (h <? 24) && (m <? 60) && (sec <? 60) &&
         match zone with Some z => Z.abs z <? 86400 | None => true end
      then Some ({| instant := ordinal * day_microseconds +
                      ((h * 60 + m) * 60 + sec) * 1000000 + us -
                      match zone with Some z => z * 1000000 | None => 0 end;
                    aware := match zone with Some _ => true | None => false end |})
      else None
    else Some {| instant := ordinal * day_microseconds; aware := false |}
  in match parsed with Some d => Ok d | None => Raise ValueError end.

(** ** Comparisons *)

(** [a < b], [a <= b]: [TypeError] between a naive and an aware value. *)
Definition time_ltb (a b : datetime) : res bool :=
  if Bool.eqb (aware a) (aware b) then Ok (instant a <? instant b) else Raise TypeError.
Definition time_leb (a b : datetime) : res bool :=
  if Bool.eqb (aware a) (aware b) then Ok (instant a <=? instant b) else Raise TypeError.

(** [a == b] never raises. *)
Definition time_eqb (a b : datetime) : bool := Bool.eqb (aware a) (aware b) && (instant a =? instant b).

(** [a - b] in microseconds. *)
Definition time_sub (a b : datetime) : res Z :=
  if Bool.eqb (aware a) (aware b) then Ok (instant a - instant b) else Raise TypeError.
