(* ===== verification/Regex.v ===== *)
(** The regular expressions the package matches with [re.fullmatch]: classes, sequence,
    alternation, bounded and unbounded repetition.  [fullmatch] runs by derivatives;
    [fullmatch_spec] shows it decides the language of the expression. *)

From S2P Require Import Prelude PyVal.

#[local] Open Scope N_scope.

(** ** Expressions and their language *)

Inductive regex :=
| RNone
| REmpty
| RClass (ranges : list (N * N))
| RSeq (r s : regex)
| RAlt (r s : regex)
| RStar (r : regex).

Definition in_class (ranges : list (N * N)) (c : N) : bool :=
  existsb (fun '(lo, hi) => (lo <=? c) && (c <=? hi)) ranges.

Inductive lang : regex -> str -> Prop :=
| lang_empty : lang REmpty []
| lang_class cs c : in_class cs c = true -> lang (RClass cs) [c]
| lang_seq r s x y : lang r x -> lang s y -> lang (RSeq r s) (x ++ y)
| lang_alt_l r s x : lang r x -> lang (RAlt r s) x
| lang_alt_r r s x : lang s x -> lang (RAlt r s) x
| lang_star_nil r : lang (RStar r) []
| lang_star_cons r x y : lang r x -> lang (RStar r) y -> lang (RStar r) (x ++ y).

(** ** Matching by derivatives *)

Fixpoint nullable (r : regex) : bool :=
  match r with
  | RNone | RClass _ => false
  | REmpty | RStar _ => true
  | RSeq r s => nullable r && nullable s
  | RAlt r s => nullable r || nullable s
  end.

(** Constructors that absorb the trivial expressions. *)
Definition seq_ (r s : regex) : regex :=
  match r with RNone => RNone | REmpty => s | _ => RSeq r s end.
Definition alt_ (r s : regex) : regex :=
  match r, s with RNone, _ => s | _, RNone => r | _, _ => RAlt r s end.

Fixpoint deriv (c : N) (r : regex) : regex :=
  match r with
  | RNone | REmpty => RNone
  | RClass cs => if in_class cs c then REmpty else RNone
  | RSeq r s => let d := seq_ (deriv c r) s in if nullable r then alt_ d (deriv c s) else d
  | RAlt r s => alt_ (deriv c r) (deriv c s)
  | RStar r => seq_ (deriv c r) (RStar r)
  end.

Definition fullmatch (r : regex) (s : str) : bool := nullable (fold_left (fun r c => deriv c r) s r).

(** ** Correctness *)

Lemma lang_seq_inv r s x : lang (RSeq r s) x <-> exists y z, x = y ++ z /\ lang r y /\ lang s z.
Proof. split; [inversion 1; subst; eauto | intros (y & z & -> & ? & ?); by constructor]. Qed.

Lemma lang_alt_inv r s x : lang (RAlt r s) x <-> lang r x \/ lang s x.
Proof. split; [inversion 1; subst; auto | intros []; [by apply lang_alt_l | by apply lang_alt_r]]. Qed.

Lemma seq_lang r s x : lang (seq_ r s) x <-> lang (RSeq r s) x.
Proof.
  destruct r; simpl; try done; rewrite lang_seq_inv.
  - split; [inversion 1 | intros (y & z & _ & H & _); inversion H].
  - split; [intros; exists [], x; repeat split; [constructor | done] |].
    intros (y & z & -> & H & ?). by inversion H.
Qed.

Lemma alt_lang r s x : lang (alt_ r s) x <-> lang (RAlt r s) x.
Proof.
  assert (lang RNone x <-> False) as Hn by (split; [inversion 1 | done]).
  destruct r, s; simpl; rewrite ?lang_alt_inv, ?Hn; try tauto; reflexivity.
Qed.

Lemma nullable_lang r : nullable r = true <-> lang r [].
Proof.
  induction r as [| |cs|r IHr s IHs|r IHr s IHs|r IHr]; simpl.
  - split; [done | inversion 1].
  - split; [constructor | done].
  - split; [done | inversion 1].
  - rewrite andb_true_iff, IHr, IHs, lang_seq_inv. split.
    + intros [? ?]. by exists [], [].
    + intros (y & z & E & ? & ?). symmetry in E. apply app_eq_nil in E as [-> ->]. done.
  - by rewrite orb_true_iff, IHr, IHs, lang_alt_inv.
  - split; [constructor | done].
Qed.

Lemma lang_star_cons_inv r c x :
  lang (RStar r) (c :: x) -> exists y z, x = y ++ z /\ lang r (c :: y) /\ lang (RStar r) z.
Proof.
  remember (RStar r) as q eqn:Eq. remember (c :: x) as w eqn:Ew. intros H. revert c x Ew.
  induction H as [| | | | | |r' y z Hy _ Hz IH]; intros c0 x0 Ew; try done.
  injection Eq as ->. destruct y as [|c' y]; [by apply IH |]. simplify_eq/=. eauto 10.
Qed.

Lemma deriv_lang r c x : lang (deriv c r) x <-> lang r (c :: x).
Proof.
  revert x. induction r as [| |cs|r IHr s IHs|r IHr s IHs|r IHr]; intros x; simpl.
  - split; inversion 1.
  - split; inversion 1.
  - destruct (in_class cs c) eqn:E; split; inversion 1; subst; try congruence; by constructor.
  - transitivity ((exists y z, x = y ++ z /\ lang r (c :: y) /\ lang s z) \/
                  (nullable r = true /\ lang s (c :: x))).
    + destruct (nullable r); rewrite ?alt_lang, ?lang_alt_inv, seq_lang, lang_seq_inv, ?IHs;
        setoid_rewrite IHr; naive_solver.
    + rewrite lang_seq_inv, nullable_lang. split.
      * intros [(y & z & -> & ? & ?) | [? ?]]; [by exists (c :: y), z | by exists [], (c :: x)].
      * intros (y & z & E & Hy & Hz). destruct y as [|c' y]; simplify_eq/=; [by right | left; eauto].
  - by rewrite alt_lang, !lang_alt_inv, IHr, IHs.
  - rewrite seq_lang, lang_seq_inv. split.
    + intros (y & z & -> & Hy & Hz). apply IHr in Hy.
      by apply (lang_star_cons r (c :: y) z).
    + intros H. apply lang_star_cons_inv in H as (y & z & -> & Hy & Hz).
      exists y, z. by rewrite IHr.
Qed.

Lemma fullmatch_spec r s : fullmatch r s = true <-> lang r s.
Proof.
  unfold fullmatch. revert r. induction s as [|c s IH]; intros r; simpl; [apply nullable_lang |].
  by rewrite IH, deriv_lang.
Qed.

(** ** Building blocks *)

(** A literal, a class written as in the source ("a-z0-9._:-"), and repetition. *)
Definition lit (s : string) : regex := foldr (fun c r => seq_ (RClass [(c, c)]) r) REmpty (u s).
Arguments lit s%_string_scope.

Fixpoint class_ranges (s : str) : list (N * N) :=
  match s with
  | a :: ((b :: c :: s') as t) =>
      if b =? 45 then (a, c) :: class_ranges s' else (a, a) :: class_ranges t
  | a :: t => (a, a) :: class_ranges t
  | [] => []
  end.

Definition cls (s : string) : regex := RClass (class_ranges (u s)).
Arguments cls s%_string_scope.

Fixpoint rep (n : nat) (r : regex) : regex :=
  match n with O => REmpty | S n' => seq_ r (rep n' r) end.

Definition opt (r : regex) : regex := RAlt REmpty r.

Fixpoint upto (n : nat) (r : regex) : regex :=
  match n with O => REmpty | S n' => opt (seq_ r (upto n' r)) end.

(** [r{n,m}], [r+]. *)
Definition between_ (n m : nat) (r : regex) : regex := seq_ (rep n r) (upto (m - n) r).
Definition plus (r : regex) : regex := RSeq r (RStar r).

(** *** Their languages *)

Lemma lang_class_inv cs x : lang (RClass cs) x <-> exists c, x = [c] /\ in_class cs c = true.
Proof. split; [inversion 1; eauto | intros (c & -> & ?); by constructor]. Qed.

Lemma lang_empty_inv x : lang REmpty x <-> x = [].
Proof. split; [by inversion 1 | intros ->; constructor]. Qed.

Lemma lang_lit s x : lang (lit s) x <-> x = u s.
Proof.
  unfold lit. generalize (u s) as w. intros w. revert x. induction w as [|c w IH]; intros x; simpl.
  - apply lang_empty_inv.
  - rewrite lang_seq_inv. setoid_rewrite IH. setoid_rewrite lang_class_inv. split.
    + intros (y & z & -> & (c' & -> & Hc) & ->). simpl in Hc.
      rewrite orb_false_r, andb_true_iff, !N.leb_le in Hc. f_equal/=. f_equal. lia.
    + intros ->. exists [c], w. repeat split. exists c. split; [done |]. simpl.
      rewrite orb_false_r, andb_true_iff, !N.leb_le. lia.
Qed.

Lemma lang_rep_class n cs x :
  lang (rep n (RClass cs)) x <-> length x = n /\ Forall (fun c => in_class cs c = true) x.
Proof.
  revert x. induction n as [|n IH]; intros x; simpl.
  - rewrite lang_empty_inv. split; [by intros -> | by destruct x as [|]; intros []].
  - rewrite lang_seq_inv. setoid_rewrite IH. setoid_rewrite lang_class_inv. split.
    + intros (y & z & -> & (c & -> & ?) & <- & ?). split; [done | by constructor].
    + intros [Hl Hx]. destruct x as [|c x]; [done |]. apply Forall_cons in Hx as [? ?].
      exists [c], x. simpl in Hl. repeat split; eauto with lia.
Qed.

Lemma lang_upto_class n cs x :
  lang (upto n (RClass cs)) x <-> (length x <= n)%nat /\ Forall (fun c => in_class cs c = true) x.
Proof.
  revert x. induction n as [|n IH]; intros x; simpl.
  - rewrite lang_empty_inv. split; [by intros -> | destruct x; simpl; [done | intros []; lia]].
  - unfold opt. rewrite lang_alt_inv, lang_empty_inv, lang_seq_inv. setoid_rewrite IH.
    setoid_rewrite lang_class_inv. split.
    + intros [-> | (y & z & -> & (c & -> & ?) & ? & ?)]; simpl; [split; [lia | done] |].
      split; [lia | by constructor].
    + intros [Hl Hx]. destruct x as [|c x]; [by left | right].
      apply Forall_cons in Hx as [? ?]. exists [c], x. simpl in Hl. repeat split; eauto with lia.
Qed.

Lemma lang_star_class cs x :
  lang (RStar (RClass cs)) x <-> Forall (fun c => in_class cs c = true) x.
Proof.
  induction x as [|c x IH]; [split; constructor |].
  rewrite Forall_cons, <- IH. split.
  - intros (y & z & -> & H & Hz)%lang_star_cons_inv. inversion H; subst. done.
  - intros [? ?]. by apply (lang_star_cons _ [c] x); [constructor |].
Qed.
