(* ===== verification/SchemaBase.v ===== *)
(** schema.py, the field-level checks every validator is built from. *)

From S2P Require Import Prelude PyVal Utf8 Json Sha2 Canonical IsoTime Regex.

#[local] Open Scope Z_scope.

(* @src src/src/harness_conformance/schema.py:10-10 ID *)
Definition ID : regex :=
  RSeq (cls "a-z") (RSeq (RStar (cls "a-z0-9")) (RStar (RSeq (cls ".-") (plus (cls "a-z0-9"))))).
(* @src src/src/harness_conformance/schema.py:11-11 KEY_ID *)
Definition KEY_ID : regex := RSeq (cls "A-Za-z0-9") (upto 127 (cls "A-Za-z0-9._:-")).
(* @src src/src/harness_conformance/schema.py:12-12 DIGEST *)
Definition DIGEST : regex := RSeq (lit "sha256:") (rep 64 (cls "0-9a-f")).
(* @src src/src/harness_conformance/schema.py:13-13 PORTING_FIELDS *)
Definition PORTING_FIELDS : list string := ["schemaVersion"; "destinationRepository"; "records"].
(* @src src/src/harness_conformance/schema.py:14-14 SECRET_TERMS *)
Definition SECRET_TERMS : list string :=
  ["password"; "apiKey"; "api_key"; "accessToken"; "privateKey"; "secret"].

(** ** Texts *)

(** [s.lower()]: the letters A-Z and the two other characters whose lower case has an ASCII
    letter.  Every other lower-case form is not ASCII, and the package compares the result
    with ASCII text only. *)
Definition lower_char (c : N) : str :=
  if ((65 <=? c) && (c <=? 90))%N then [(c + 32)%N]
  else if (c =? 0x130)%N then [105; 775]%N
  else if (c =? 0x212A)%N then [107]%N
  else [c].
Definition lower (s : str) : str := flat_map lower_char s.

(** ** Checks *)

(* @src src/src/harness_conformance/schema.py:17-20 require_object *)
Definition require_object (v : value) : res unit :=
  raise_if (negb (is_dict v)) "TYPE_MISMATCH".

(** The two set differences, in the order they are reported. *)
(* @src src/src/harness_conformance/schema.py:23-31 closed *)
Definition closed (v : value) (required optional : list string) : res unit :=
  d ← items v;
  let allowed := (u <$> required) ++ (u <$> optional) in
  let missing := List.filter (fun k => negb (dhas k d)) (u <$> required) in
  let extra := List.filter (fun k => negb (str_in k allowed)) (dkeys d) in
  raise_if (match missing with [] => false | _ => true end) "MISSING_FIELD" ;;
  raise_if (match extra with [] => false | _ => true end) "UNKNOWN_FIELD".

(* @src src/src/harness_conformance/schema.py:34-37 require_id *)
Definition require_id (v : value) : res unit :=
  raise_if (match v with VStr s => (zlen s >? 128) || negb (fullmatch ID s) | _ => true end)
    "INVALID_IDENTIFIER".

(* @src src/src/harness_conformance/schema.py:40-43 require_key_id *)
Definition require_key_id (v : value) : res unit :=
  raise_if (match v with VStr s => negb (fullmatch KEY_ID s) | _ => true end) "INVALID_KEY_ID".

(* @src src/src/harness_conformance/schema.py:46-49 require_digest *)
Definition require_digest (v : value) : res unit :=
  raise_if (match v with VStr s => negb (fullmatch DIGEST s) | _ => true end) "INVALID_DIGEST".

(** [value[:-1]]. *)
Definition drop_last (s : str) : str := removelast s.

(* @src src/src/harness_conformance/schema.py:52-58 require_time *)
Definition require_time (v : value) : res datetime :=
  match v with
  | VStr s =>
      raise_if ((zlen s >? 40) || negb (endswith (u "Z") s)) "INVALID_TIME" ;;
      match fromisoformat (drop_last s ++ u "+00:00") with
      | Raise ValueError => conf "INVALID_TIME"
      | r => r
      end
  | _ => conf "INVALID_TIME"
  end.

(** [any(term.lower() in key.lower() for term in SECRET_TERMS)]. *)
Definition secret_key (key : str) : bool :=
  existsb (fun term => substr_in (lower (u term)) (lower key)) SECRET_TERMS.

(* @src src/src/harness_conformance/schema.py:61-69 reject_secret_shape *)
Fixpoint reject_secret_shape (v : value) : res unit :=
  match v with
  | VDict d =>
      for_each (fun kv =>
        raise_if (secret_key kv.1) "SECRET_SHAPED_FIELD" ;;
        reject_secret_shape kv.2) d
  | VList l => for_each reject_secret_shape l
  | _ => Ok tt
  end.

(** [d[name]] checked by [check], for each of a few names. *)
Definition each_field (v : value) (names : list string) (check : value -> res unit) : res unit :=
  for_each (fun name => x ← fld v name; check x) names.

(** [item.get("keyId") == key_id] for an object [item]. *)
Definition key_matches (key_id item : value) : bool :=
  match item with VDict d => py_eq (default VNone (dget (u "keyId") d)) key_id | _ => false end.

(** [d[k] == w] and [a[k] == b[j]]. *)
Definition fld_eq (v : value) (k : string) (w : value) : res bool := x ← fld v k; Ok (py_eq x w).
Definition fld_lit (v : value) (k : string) (s : string) : res bool := x ← fld v k; Ok (eq_lit x s).
Definition fld2_eq (a : value) (k : string) (b : value) (j : string) : res bool :=
  x ← fld a k; y ← fld b j; Ok (py_eq x y).

(** [require_time(d[k])]. *)
Definition fld_time (v : value) (k : string) : res datetime := x ← fld v k; require_time x.

(** [set(a) == set(b)] for the elements of two sets. *)
Definition set_eq (a b : list value) : bool :=
  Nat.eqb (length a) (length b) && forallb (fun x => in_values x b) a.

(** ** What the checks decide *)

Lemma require_object_Ok v : require_object v = Ok tt <-> exists d, v = VDict d.
Proof. unfold require_object. rewrite raise_if_Ok. destruct v; naive_solver. Qed.

Lemma filter_nil {A} (f : A -> bool) l :
  List.filter f l = [] <-> Forall (fun x => f x = false) l.
Proof.
  induction l as [|x l IH]; simpl; [split; [constructor | done] |].
  rewrite Forall_cons. destruct (f x); [split; [done | by intros []] | rewrite IH; naive_solver].
Qed.

(** [closed] returns exactly on the objects whose keys are the required ones, possibly with
    some of the optional ones. *)
Lemma closed_Ok v required optional :
  closed v required optional = Ok tt <->
  exists d, v = VDict d /\ (forall k, In k required -> is_Some (dget (u k) d)) /\
    (forall k, In k (dkeys d) -> In k (u <$> required) \/ In k (u <$> optional)).
Proof.
  unfold closed. rewrite bind_Ok. setoid_rewrite seq_Ok. setoid_rewrite raise_if_Ok.
  assert (forall A (l : list A), match l with [] => false | _ => true end = false <-> l = []) as E
    by (by intros ? []).
  setoid_rewrite E. setoid_rewrite filter_nil. split.
  - intros (d & Hd & H1 & H2). exists d. split; [destruct v; naive_solver |]. split.
    + intros k Hk. rewrite Forall_fmap, List.Forall_forall in H1. specialize (H1 k Hk).
      cbn in H1. unfold dhas in H1. destruct (dget (u k) d); done.
    + intros k Hk. rewrite List.Forall_forall in H2. specialize (H2 k Hk).
      apply negb_false_iff, str_in_In, in_app_iff in H2. done.
  - intros (d & -> & H1 & H2). exists d. split; [done |]. split.
    + rewrite Forall_fmap, List.Forall_forall. intros k Hk. unfold compose, dhas.
      by destruct (H1 k Hk) as [x ->].
    + rewrite List.Forall_forall. intros k Hk. apply negb_false_iff, str_in_In, in_app_iff. auto.
Qed.

Lemma require_id_Ok v :
  require_id v = Ok tt <-> exists s, v = VStr s /\ zlen s <= 128 /\ lang ID s.
Proof.
  unfold require_id. rewrite raise_if_Ok. setoid_rewrite <- fullmatch_spec.
  destruct v; try (split; [done | naive_solver]).
  rewrite orb_false_iff, negb_false_iff. split; [intros []; eexists; split; [done | split; [lia | done]] |].
  intros (? & [= <-] & ? & ?). split; [lia | done].
Qed.

Lemma require_digest_Ok v : require_digest v = Ok tt <-> exists s, v = VStr s /\ lang DIGEST s.
Proof.
  unfold require_digest. rewrite raise_if_Ok. setoid_rewrite <- fullmatch_spec.
  destruct v; try (split; [done | naive_solver]).
  rewrite negb_false_iff. naive_solver.
Qed.

Lemma require_time_raise v e :
  require_time v = Raise e -> e = ConformanceError "INVALID_TIME".
Proof.
  unfold require_time. destruct v; try by intros [= <-].
  destruct (_ || _); [by intros [= <-] |]. cbn [raise_if mbind res_bind].
  unfold fromisoformat. cbv zeta.
  match goal with |- context [match ?o with Some d => Ok d | None => _ end] => destruct o end;
    [done | by intros [= <-]].
Qed.

Lemma each_field_Ok v names check k :
  each_field v names check = Ok tt -> In k names -> exists x, fld v k = Ok x /\ check x = Ok tt.
Proof.
  unfold each_field. rewrite for_each_Ok, List.Forall_forall. intros H Hk.
  specialize (H k Hk). by apply bind_Ok in H.
Qed.


Lemma fld_eq_true v k w : fld_eq v k w = Ok true <-> exists x, fld v k = Ok x /\ py_eq x w = true.
Proof.
  unfold fld_eq. rewrite bind_Ok. split; intros (x & Hx & H); exists x; (split; [done | congruence]).
Qed.

Lemma fld2_eq_true a k b j :
  fld2_eq a k b j = Ok true <-> exists x y, fld a k = Ok x /\ fld b j = Ok y /\ py_eq x y = true.
Proof.
  unfold fld2_eq. rewrite bind_Ok. setoid_rewrite bind_Ok. split.
  - intros (x & Hx & y & Hy & [= E]). eauto.
  - intros (x & y & Hx & Hy & E). exists x. split; [done |]. exists y. by rewrite E.
Qed.

(** ** What the checks raise *)

Lemma require_object_closed v required optional :
  closed v required optional = Ok tt -> exists d, v = VDict d.
Proof. intros (d & -> & _)%closed_Ok. eauto. Qed.

Definition has_name (k : string) (l : list string) : bool := existsb (String.eqb k) l.

Lemma has_name_In k l : has_name k l = true <-> In k l.
Proof.
  unfold has_name. rewrite existsb_exists. split; [intros (x & ? & <-%String.eqb_eq); done |].
  intros. exists k. by rewrite String.eqb_refl.
Qed.

(** A required field of a closed object can be read. *)
Lemma fld_closed v required optional k :
  closed v required optional = Ok tt -> has_name k required = true -> exists x, fld v k = Ok x.
Proof.
  intros (d & -> & Hreq & _)%closed_Ok Hk%has_name_In.
  destruct (Hreq k Hk) as [x Hx]. exists x. apply fld_Ok. eauto.
Qed.

Section raises.
Context (P : exn -> Prop).
Hypothesis P_conf : forall c, P (ConformanceError c).

Lemma ro_fld v required optional k :
  closed v required optional = Ok tt -> has_name k required = true -> raises_only P (fld v k).
Proof. intros Hc Hk e H. destruct (fld_closed v _ _ k Hc Hk) as [x E]. congruence. Qed.

Lemma ro_each_field v required optional names check :
  closed v required optional = Ok tt -> forallb (fun k => has_name k required) names = true ->
  (forall x, raises_only P (check x)) -> raises_only P (each_field v names check).
Proof.
  intros Hc Hn Hx. apply ro_for_each. intros k Hk. rewrite forallb_forall in Hn.
  apply ro_bind; [by eapply ro_fld; [|apply Hn] | auto].
Qed.

Lemma ro_closed d required optional : raises_only P (closed (VDict d) required optional).
Proof. unfold closed. simpl. apply ro_bind; [|intros _ _]; by apply ro_raise_if. Qed.

Lemma ro_items d : raises_only P (items (VDict d)).
Proof. apply ro_ok. Qed.

Lemma ro_require_object v : raises_only P (require_object v).
Proof. by apply ro_raise_if. Qed.

Lemma ro_require_id v : raises_only P (require_id v).
Proof. by apply ro_raise_if. Qed.

Lemma ro_require_key_id v : raises_only P (require_key_id v).
Proof. by apply ro_raise_if. Qed.

Lemma ro_require_digest v : raises_only P (require_digest v).
Proof. by apply ro_raise_if. Qed.

Lemma ro_require_time v : raises_only P (require_time v).
Proof. intros e ->%require_time_raise. done. Qed.

Lemma ro_reject_secret_shape v : raises_only P (reject_secret_shape v).
Proof.
  induction v as [| | | |l IH|d IH] using value_ind; simpl; try apply ro_ok.
  - apply ro_for_each. by rewrite List.Forall_forall in IH.
  - apply ro_for_each. intros kv Hkv. rewrite List.Forall_forall in IH.
    apply ro_bind; [by apply ro_raise_if | intros _ _; auto].
Qed.
End raises.

(** Reads the object out of a hypothesis that it was checked. *)
Ltac object_of v :=
  lazymatch goal with
  | H : require_object v = Ok _ |- _ =>
      let d := fresh "d" in
      destruct (proj1 (require_object_Ok v) H) as [d ->]
  end.

(** One step of the walk over a validator's body, field checks included. *)
Ltac field_step :=
  lazymatch goal with
  | |- raises_only _ (require_object _) => apply ro_require_object; done
  | |- raises_only _ (require_id _) => apply ro_require_id; done
  | |- raises_only _ (require_key_id _) => apply ro_require_key_id; done
  | |- raises_only _ (require_digest _) => apply ro_require_digest; done
  | |- raises_only _ (require_time _) => apply ro_require_time; done
  | |- raises_only _ (reject_secret_shape _) => apply ro_reject_secret_shape; done
  | |- raises_only _ (items (VDict _)) => apply ro_items
  | |- raises_only _ (closed (VDict _) _ _) => apply ro_closed; done
  | H : closed ?v _ _ = Ok _ |- raises_only _ (fld ?v _) => eapply ro_fld; [exact H | reflexivity]
  | H : closed ?v _ _ = Ok _ |- raises_only _ (each_field ?v _ _) =>
      eapply ro_each_field; [exact H | reflexivity | intros ?]
  | |- raises_only _ (closed ?v _ _) => object_of v
  | |- raises_only _ (items ?v) => object_of v
  | _ => raises_step
  end.

(** ** Digests have the digest's shape *)

Lemma hex_digit_class n : (n < 16)%N -> in_class (class_ranges (u "0-9a-f")) (hex_digit n) = true.
Proof.
  revert n. apply (below_forallb (fun n => in_class (class_ranges (u "0-9a-f")) (hex_digit n)) 16).
  by vm_compute.
Qed.

Lemma hexdigest_shape b : Forall octet b ->
  length (hexdigest b) = (2 * length b)%nat /\
  Forall (fun c => in_class (class_ranges (u "0-9a-f")) c = true) (hexdigest b).
Proof.
  induction 1 as [|x b Hx Hb [IH1 IH2]]; simpl; [done |]. split; [lia |].
  repeat constructor; [| |done]; apply hex_digit_class; unfold octet in *.
  - apply N.Div0.div_lt_upper_bound. lia.
  - by apply N.mod_lt.
Qed.

Lemma digest_shape m : require_digest (VStr (u "sha256:" ++ hexdigest (sha256 m))) = Ok tt.
Proof.
  apply require_digest_Ok. eexists. split; [done |]. unfold DIGEST.
  destruct (hexdigest_shape _ (sha256_octets m)) as [H1 H2]. rewrite sha256_length in H1.
  constructor; [by apply lang_lit | by apply lang_rep_class].
Qed.

Lemma canonical_digest_shape {U : Unicode} v d h :
  canonical_digest v d = Ok h -> require_digest (VStr h) = Ok tt.
Proof. unfold canonical_digest. intros (b & _ & [= <-])%bind_Ok. apply digest_shape. Qed.

(** A part of an object, for stating what it holds. *)
Definition part (f : value) (k : string) : value := match fld f k with Ok x => x | Raise _ => VNone end.
Arguments part f k%_string_scope.

Lemma part_fld f k x : fld f k = Ok x -> part f k = x.
Proof. unfold part. by intros ->. Qed.
