(* ===== verification/Lifecycle.v ===== *)
(** models.py and lifecycle.py: the vocabularies, the control result, and the lifecycle
    state machines as a step relation with its reachable states. *)

From S2P Require Import Prelude PyVal Canonical SchemaBase.

(** ** models.py *)

(* @src src/src/harness_conformance/models.py:8-13 ResultStatus *)
Inductive ResultStatus :=
| PASS | FAIL | WARN | NOT_APPLICABLE | NOT_RUN_ENV_UNAVAILABLE.

#[export] Instance ResultStatus_eq_dec : EqDecision ResultStatus.
Proof. solve_decision. Defined.

(** [status.value]. *)
Definition status_value (s : ResultStatus) : string :=
  match s with
  | PASS => "PASS" | FAIL => "FAIL" | WARN => "WARN"
  | NOT_APPLICABLE => "NOT_APPLICABLE" | NOT_RUN_ENV_UNAVAILABLE => "NOT_RUN_ENV_UNAVAILABLE"
  end.

(* @src src/src/harness_conformance/models.py:16-16 RESULT_STATES *)
Definition RESULT_STATES : list string :=
  map status_value [PASS; FAIL; WARN; NOT_APPLICABLE; NOT_RUN_ENV_UNAVAILABLE].
(* @src src/src/harness_conformance/models.py:17-30 EVIDENCE_AXES *)
Definition EVIDENCE_AXES : list string :=
  ["SOURCE"; "UNIT"; "CI"; "MERGE"; "ARTIFACT"; "SIGNATURE"; "DEPLOYMENT"; "RUNTIME";
   "SECURITY"; "ASSURANCE"; "TENANT_ACCEPTANCE_CANDIDATE"; "TENANT_ACCEPTANCE"].
(* @src src/src/harness_conformance/models.py:31-37 LIVE_EVIDENCE_AXES *)
Definition LIVE_EVIDENCE_AXES : list string :=
  ["DEPLOYMENT"; "RUNTIME"; "SECURITY"; "ASSURANCE"; "TENANT_ACCEPTANCE_CANDIDATE"].
(* @src src/src/harness_conformance/models.py:38-45 HANDLERS *)
Definition HANDLERS : list string :=
  ["STATIC_ASSERTION"; "SCHEMA_ASSERTION"; "LIFECYCLE_ASSERTION"; "EVENT_ASSERTION";
   "ENVIRONMENT_CAPABILITY"; "LINUX_READINESS"].

(** The fields copied from the control stay the values they were; [reason_code] and
    [observation_digest] are strings the runner made. *)
(* @src src/src/harness_conformance/models.py:48-67 ControlResult *)
Record ControlResult := {
  control_id : value;
  handler : value;
  required : value;
  axis : value;
  status : ResultStatus;
  reason_code : string;
  observation_digest : str
}.

(* @src src/src/harness_conformance/models.py:58-67 ControlResult.as_dict *)
Definition as_dict (r : ControlResult) : value :=
  VDict [(u "axis", axis r); (u "controlId", control_id r); (u "handler", handler r);
         (u "observationDigest", VStr (observation_digest r));
         (u "reasonCode", VStr (u (reason_code r))); (u "required", required r);
         (u "status", VStr (u (status_value (status r))))].

(** ** lifecycle.py *)

(* @src src/src/harness_conformance/lifecycle.py:5-30 TRANSITIONS *)
Definition TRANSITIONS : list (string * list (string * list string)) :=
  [("Operation",
    [("PENDING", ["RUNNING"; "CANCELLED"]);
     ("RUNNING", ["SUCCEEDED"; "FAILED"; "CANCELLED"]);
     ("SUCCEEDED", []);
     ("FAILED", []);
     ("CANCELLED", [])]);
   ("ApprovalRequest",
    [("PENDING", ["APPROVED"; "REJECTED"; "CANCELLED"; "EXPIRED"]);
     ("APPROVED", []);
     ("REJECTED", []);
     ("CANCELLED", []);
     ("EXPIRED", [])]);
   ("HarnessInstallation",
    [("NOT_SELECTED", ["SELECTED"]);
     ("SELECTED", ["INSTALLING"; "NOT_SELECTED"]);
     ("INSTALLING", ["READY"; "DEGRADED"; "FAILED"]);
     ("READY", ["UPDATING"; "DEGRADED"; "UNINSTALLING"]);
     ("DEGRADED", ["UPDATING"; "READY"; "FAILED"; "UNINSTALLING"]);
     ("FAILED", ["INSTALLING"; "UNINSTALLING"]);
     ("UPDATING", ["READY"; "DEGRADED"; "FAILED"]);
     ("UNINSTALLING", ["NOT_SELECTED"; "FAILED"])])]%string.

(** [table[k]] on a dict with string keys: [TypeError] on an unhashable key, [KeyError] on
    a missing one. *)
Definition table_get {A} (table : list (string * A)) (k : value) : res A :=
  if hashable k then
    match List.find (fun e => eq_lit k e.1) table with
    | Some e => Ok e.2
    | None => Raise KeyError
    end
  else Raise TypeError.

(** Only [KeyError] is caught: an unhashable operand escapes as [TypeError]. *)
(* @src src/src/harness_conformance/lifecycle.py:33-39 assert_transition *)
Definition assert_transition (entity before after : value) : res unit :=
  targets ← match (states ← table_get TRANSITIONS entity; table_get states before) with
            | Raise KeyError => conf "UNKNOWN_LIFECYCLE_STATE"
            | r => r
            end;
  legal ← in_hashed after targets;
  raise_if (negb legal) "ILLEGAL_LIFECYCLE_TRANSITION".

(** ** The step relation *)

(** The table read as edges. *)
Definition edges : list (string * string * string) :=
  flat_map (fun '(entity, states) =>
    flat_map (fun '(before, targets) => map (fun after => (entity, before, after)) targets) states)
  TRANSITIONS.

Lemma eq_lit_true v s : eq_lit v s = true <-> v = VStr (u s).
Proof.
  unfold eq_lit. destruct v; try (split; [done | by intros [=]]).
  simpl. rewrite str_eqb_eq. naive_solver.
Qed.

Lemma in_lits_true v l : in_lits v l = true <-> exists s, v = VStr (u s) /\ In s l.
Proof.
  unfold in_lits. rewrite existsb_exists. setoid_rewrite eq_lit_true. naive_solver.
Qed.

Lemma table_get_Ok {A} (t : list (string * A)) k x :
  table_get t k = Ok x -> exists s, k = VStr (u s) /\ In (s, x) t.
Proof.
  unfold table_get. destruct (hashable k); [|done].
  destruct (List.find _ t) as [[s y]|] eqn:E; [|done]. intros [= <-].
  apply find_some in E as [Hin He%eq_lit_true]. eauto.
Qed.

Lemma assert_transition_edges entity before after :
  assert_transition entity before after = Ok tt ->
  exists e b a, entity = VStr (u e) /\ before = VStr (u b) /\ after = VStr (u a) /\ In (e, b, a) edges.
Proof.
  unfold assert_transition. intros H. apply bind_Ok in H as (targets & Ht & H).
  apply bind_Ok in H as (legal & Hl & H). apply raise_if_Ok, negb_false_iff in H. subst legal.
  assert ((states ← table_get TRANSITIONS entity; table_get states before) = Ok targets) as E.
  { destruct (mbind _ _) as [|[]]; done. }
  apply bind_Ok in E as (states & E1 & E2).
  apply table_get_Ok in E1 as (e & -> & H1), E2 as (b & -> & H2).
  unfold in_hashed in Hl. destruct (hashable after); [|done].
  injection Hl as (a & -> & H3)%in_lits_true.
  exists e, b, a. repeat (split; [done |]). unfold edges.
  apply in_flat_map. exists (e, states). split; [done |].
  apply in_flat_map. exists (b, targets). split; [done |]. apply in_map_iff. eauto.
Qed.

(** One accepted transition between named states, and the states it leads through. *)
Definition step (entity before after : string) : Prop :=
  assert_transition (VStr (u entity)) (VStr (u before)) (VStr (u after)) = Ok tt.

Inductive run (entity : string) : string -> list string -> string -> Prop :=
| run_stop s : run entity s [] s
| run_step s t r l : step entity s t -> run entity t l r -> run entity s (t :: l) r.

Lemma step_edges entity before after : step entity before after <-> In (entity, before, after) edges.
Proof.
  split.
  - intros (e & b & a & ?%(f_equal (fun v => match v with VStr s => s | _ => [] end))
      & ?%(f_equal (fun v => match v with VStr s => s | _ => [] end))
      & ?%(f_equal (fun v => match v with VStr s => s | _ => [] end)) & Hin)%assert_transition_edges.
    simpl in *. repeat match goal with H : u _ = u _ |- _ => apply u_inj in H; subst end. done.
  - assert (forallb (fun '(e, b, a) =>
      is_ok (assert_transition (VStr (u e)) (VStr (u b)) (VStr (u a)))) edges = true) as H by by vm_compute.
    rewrite forallb_forall in H. intros Hin%H. unfold step.
    by destruct (assert_transition _ _ _) as [[]|].
Qed.

Ltac edge_cases H :=
  apply step_edges in H; cbn in H;
  repeat match type of H with _ \/ _ => destruct H as [H | H] | False => destruct H end;
  simplify_eq.

(** ** Properties *)

(** The acceptance of [assert_transition] is exactly the transition table, for operands of
    any type: it returns only on three strings that form one of the table's edges. *)
Theorem assert_transition_exact entity before after :
  assert_transition entity before after = Ok tt <->
  exists e b a, entity = VStr (u e) /\ before = VStr (u b) /\ after = VStr (u a) /\ In (e, b, a) edges.
Proof.
  split; [apply assert_transition_edges |].
  intros (e & b & a & -> & -> & -> & H). by apply step_edges.
Qed.

(** An operation or an approval ends.  From any state at most two transitions can be
    accepted, and the last state of the longest runs has no successor; a success is only
    ever reached through RUNNING. *)
Theorem operation_ends entity s l t :
  entity = "Operation"%string \/ entity = "ApprovalRequest"%string ->
  run entity s l t ->
  (length l <= 2)%nat /\
  (length l = 2%nat -> forall t', ~ step entity t t') /\
  (In "SUCCEEDED"%string l -> s = "PENDING"%string -> l = ["RUNNING"; "SUCCEEDED"]%string).
Proof.
  intros He Hr. assert (forall a b, step entity a b ->
    a = "PENDING"%string \/ a = "RUNNING"%string /\ forall c, ~ step entity b c) as Hstep.
  { intros a b Hab. destruct He as [-> | ->]; edge_cases Hab; auto;
      right; (split; [done |]); intros c Hc; edge_cases Hc. }
  assert (forall a b, step entity a b -> b <> "PENDING"%string) as Hnp.
  { intros a b Hab ->. destruct He as [-> | ->]; edge_cases Hab. }
  assert (forall a, step entity a "SUCCEEDED" -> a = "RUNNING"%string) as Hsucc.
  { intros a Ha. destruct He as [-> | ->]; edge_cases Ha; done. }
  inversion Hr as [r|r t1 t'' l'' H1 Hr']; subst; simpl;
    [|inversion Hr' as [r|r t2 t'' l' H2 Hr'']; subst; simpl].
  - split; [lia |]. split; [done | naive_solver].
  - split; [lia |]. split; [done |]. intros [-> | []] ->. by apply Hsucc in H1.
  - destruct (Hstep _ _ H2) as [-> | [-> Hend]]; [by apply Hnp in H1 |].
    inversion Hr'' as [r'|r' t3 t'' l'' H3 Hr3]; subst; [|by destruct (Hend _ H3)]. simpl.
    split; [lia |]. split; [intros _; apply Hend |].
    intros [? | [-> | []]] ->; done.
Qed.

(** An installation is never used before it was installed: every run from NOT_SELECTED
    into READY, DEGRADED or UPDATING passes through SELECTED and INSTALLING. *)
Theorem installation_installs_first l t :
  run "HarnessInstallation" "NOT_SELECTED" l t ->
  In t ["READY"; "DEGRADED"; "UPDATING"]%string ->
  In "SELECTED"%string l /\ In "INSTALLING"%string l.
Proof.
  intros Hr Ht.
  enough (forall s l t, run "HarnessInstallation" s l t ->
    (s = "NOT_SELECTED"%string -> t <> "NOT_SELECTED"%string -> In "SELECTED"%string l) /\
    (In s ["NOT_SELECTED"; "SELECTED"]%string ->
     In t ["READY"; "DEGRADED"; "UPDATING"]%string -> In "INSTALLING"%string l)) as H.
  { destruct (H _ _ _ Hr) as [H1 H2]. split; [apply H1; [done | intros ->] | apply H2; simpl; auto].
    simpl in Ht. naive_solver. }
  clear. induction 1 as [s|s t r l Hs Hr [IH1 IH2]].
  - split; [done |]. simpl. naive_solver.
  - edge_cases Hs; split; simpl in *; naive_solver.
Qed.

(** An installation is never stuck: every state of the table has an accepted transition
    and can return to NOT_SELECTED. *)
Theorem installation_live s :
  (exists t, step "HarnessInstallation" s t \/ step "HarnessInstallation" t s) ->
  exists l, l <> [] /\ run "HarnessInstallation" s l "NOT_SELECTED".
Proof.
  intros (t & H).
  assert (In s ["NOT_SELECTED"; "SELECTED"; "INSTALLING"; "READY"; "DEGRADED"; "FAILED"; "UPDATING";
    "UNINSTALLING"]%string) as Hs by (destruct H as [H | H]; edge_cases H; simpl; auto 10).
  assert (step "HarnessInstallation" "UNINSTALLING" "NOT_SELECTED") as HU by by vm_compute.
  assert (run "HarnessInstallation" "UNINSTALLING" ["NOT_SELECTED"%string] "NOT_SELECTED") as RU
    by (eapply run_step; [done | constructor]).
  assert (forall x, step "HarnessInstallation" x "UNINSTALLING" ->
    exists l, l <> [] /\ run "HarnessInstallation" x l "NOT_SELECTED") as R1.
  { intros x Hx. eexists. split; [|by eapply run_step; [exact Hx | exact RU]]. done. }
  assert (forall x, step "HarnessInstallation" x "FAILED" ->
    exists l, l <> [] /\ run "HarnessInstallation" x l "NOT_SELECTED") as R2.
  { intros x Hx. eexists. split; [|eapply run_step; [exact Hx |];
      eapply run_step; [|exact RU]; by vm_compute]. done. }
  simpl in Hs. destruct Hs as [<-|[<-|[<-|[<-|[<-|[<-|[<-|[<-|[]]]]]]]]];
    try (apply R1; by vm_compute); try (apply R2; by vm_compute);
    [exists ["SELECTED"; "NOT_SELECTED"]%string | exists ["NOT_SELECTED"]%string];
    (split; [done |]); repeat (eapply run_step; [by vm_compute |]); constructor.
Qed.

(** *** Concrete runs *)

Lemma operation_ends_witness :
  run "Operation" "PENDING" ["RUNNING"; "SUCCEEDED"]%string "SUCCEEDED" /\
  (length ["RUNNING"; "SUCCEEDED"]%string <= 2)%nat /\
  (length ["RUNNING"; "SUCCEEDED"]%string = 2%nat -> forall t', ~ step "Operation" "SUCCEEDED" t') /\
  (In "SUCCEEDED"%string ["RUNNING"; "SUCCEEDED"]%string -> "PENDING"%string = "PENDING"%string ->
   ["RUNNING"; "SUCCEEDED"]%string = ["RUNNING"; "SUCCEEDED"]%string).
Proof.
  assert (run "Operation" "PENDING" ["RUNNING"; "SUCCEEDED"]%string "SUCCEEDED") as R
    by (repeat (eapply run_step; [by vm_compute |]); constructor).
  split; [exact R |]. apply (operation_ends "Operation"); [by left | exact R].
Defined.

Lemma installation_installs_first_witness :
  let l := ["SELECTED"; "INSTALLING"; "READY"]%string in
  In "SELECTED"%string l /\ In "INSTALLING"%string l.
Proof.
  apply (installation_installs_first _ "READY"); [|by left].
  repeat (eapply run_step; [by vm_compute |]); constructor.
Defined.

Lemma installation_live_witness :
  exists l, l <> [] /\ run "HarnessInstallation" "FAILED" l "NOT_SELECTED".
Proof. apply installation_live. exists "INSTALLING"%string. left. by vm_compute. Defined.
