(* ===== verification/LinuxShape.v ===== *)
(** linux_readiness.py, the shape half: the closed vocabularies, the plan, the campaign
    inventory and the evidence record's structural validation. *)

From S2P Require Import Prelude PyVal Utf8 Json Sha2 Canonical Base64 IsoTime Regex SchemaBase Lifecycle.

#[local] Open Scope string_scope.
#[local] Open Scope list_scope.
#[local] Open Scope Z_scope.

(* @src src/src/harness_conformance/linux_readiness.py:20-20 SCHEMA *)
Definition SCHEMA : string := "harness.planeon.ai/linux-readiness-evidence/v1alpha1".
(* @src src/src/harness_conformance/linux_readiness.py:21-21 PLAN_SCHEMA *)
Definition PLAN_SCHEMA : string := "harness.planeon.ai/linux-readiness-plan/v1alpha1".
(* @src src/src/harness_conformance/linux_readiness.py:22-22 DOMAIN *)
Definition DOMAIN : string := "planeon.harness-linux-readiness-evidence/v1alpha1".
(* @src src/src/harness_conformance/linux_readiness.py:23-23 PACKET_DIGEST *)
Definition PACKET_DIGEST : string :=
  "sha256:22f00544680f90a90b03420632bebf192a8c687549b519770fca5f98dd5fd6c9".
(* @src src/src/harness_conformance/linux_readiness.py:24-24 AXES *)
Definition AXES : list string := ["DEPLOYMENT"; "RUNTIME"; "SECURITY"; "ASSURANCE"].
(* @src src/src/harness_conformance/linux_readiness.py:25-25 ARCHITECTURES *)
Definition ARCHITECTURES : list string := ["amd64"; "arm64"].
(* @src src/src/harness_conformance/linux_readiness.py:26-37 CASE_CHECKS *)
Definition CASE_CHECKS : list (string * list string) :=
  [("HOST_ISOLATION_NEGATIVES", ["ipv4-denied"; "ipv6-denied"; "dns-denied"; "loopback-denied"; "descendants-denied"; "warm-roots-hidden"; "credentials-hidden"; "sockets-denied"; "packet-immutable"]);
   ("LINUX_TARGET_BUILD", ["target-local-build"; "native-dependencies"; "linux-executable"; "cache-pinned"; "sbom-pinned"; "no-downloads"]);
   ("FULL_PREDECESSOR_REGRESSION", ["full-inventory"; "all-suites-executed"; "no-deselection"; "no-skip-or-xfail"]);
   ("CONTROL_CONTAINER_STARTUP", ["standalone-started"; "health-ready"; "no-downloads"; "telemetry-disabled"]);
   ("POSTGRES_MIGRATION_AND_RLS", ["forward-migration"; "idempotent-migration"; "cross-tenant-denied"; "fixture-only"]);
   ("DURABLE_RESTART", ["restart-completed"; "records-persisted"; "tenant-boundaries-preserved"]);
   ("ARBITRARY_NON_ROOT_UID", ["arbitrary-nonroot-uid"; "capabilities-dropped"; "seccomp-enforced"; "no-fixed-home"]);
   ("READ_ONLY_ROOT_FILESYSTEM", ["root-read-only"; "declared-volumes-only"; "no-privilege-escalation"]);
   ("KUBERNETES_SMOKE", ["namespace-pinned"; "quota-pinned"; "admission-enforced"; "readiness-passed"; "run-labelled-cleanup"]);
   ("DEFAULT_DENY_NETWORK", ["undeclared-egress-denied"; "metadata-denied"; "proxy-only"; "policy-not-bypassable"])].
(* @src src/src/harness_conformance/linux_readiness.py:38-38 CASES *)
Definition CASES : list string := map fst CASE_CHECKS.
(* @src src/src/harness_conformance/linux_readiness.py:39-39 CASE_AXES *)
Definition CASE_AXES : list string :=
  ["SECURITY"; "DEPLOYMENT"; "ASSURANCE"; "RUNTIME"; "RUNTIME"; "RUNTIME"; "SECURITY"; "SECURITY"; "DEPLOYMENT"; "SECURITY"].
(* @src src/src/harness_conformance/linux_readiness.py:40-40 REPOSITORIES *)
Definition REPOSITORIES : list string := ["contracts"; "control"; "conformance"].
(* @src src/src/harness_conformance/linux_readiness.py:41-41 IMAGES *)
Definition IMAGES : list string := ["control"; "postgres"; "kubernetes"].
(* @src src/src/harness_conformance/linux_readiness.py:42-42 BUILD_FIELDS *)
Definition BUILD_FIELDS : list string :=
  ["recipeDigest"; "toolchainDigest"; "cacheDigest"; "sbomDigest"; "logDigest"].
(* @src src/src/harness_conformance/linux_readiness.py:43-43 SIGNATURES *)
Definition SIGNATURES : list string := ["platformSignature"; "tenantSignature"; "capacitySignature"].
(* @src src/src/harness_conformance/linux_readiness.py:44-44 AUTHORITY_FIELDS *)
Definition AUTHORITY_FIELDS : list string :=
  ["packetDigest"; "envelopeDigest"; "capacityDigest"; "releaseDigest"; "planDigest"; "tenantId"; "environmentId"; "runNonce"; "endpointId"; "endpointDigest"; "namespace"; "serviceAccountSubject"; "admissionPolicyDigest"; "resourceQuotaDigest"].
(* @src src/src/harness_conformance/linux_readiness.py:45-45 RECORD_FIELDS *)
Definition RECORD_FIELDS : list string :=
  (["schemaVersion"; "authority"; "target"; "sources"; "images"; "build"; "preflightDigest"; "observedAt"; "validUntil"; "cases"; "platformSignerKeyId"; "tenantSignerKeyId"; "capacitySignerKeyId"] ++ SIGNATURES)%list.
(* @src src/src/harness_conformance/linux_readiness.py:47-47 SCHEMA_V2 *)
Definition SCHEMA_V2 : string := "harness.planeon.ai/linux-readiness-evidence/v1alpha2".
(* @src src/src/harness_conformance/linux_readiness.py:48-48 DOMAIN_V2 *)
Definition DOMAIN_V2 : string := "planeon.harness-linux-readiness-evidence/v1alpha2".
(* @src src/src/harness_conformance/linux_readiness.py:49-49 RECORD_FIELDS_V2 *)
Definition RECORD_FIELDS_V2 : list string := (RECORD_FIELDS ++ ["signers"])%list.
(* @src src/src/harness_conformance/linux_readiness.py:50-50 STATUSES *)
Definition STATUSES : list string := ["PASS"; "FAIL"; "NOT_RUN_ENV_UNAVAILABLE"].

(* @src src/src/harness_conformance/linux_readiness.py:51-53 COMMANDS *)
Definition COMMANDS : list (list string) :=
  map (fun root => ["python3"; "-m"; "unittest"; "discover"; "-s"; root; "-p"; "test_*.py"])
    ["tests/meta"; "tests/parity"; "tests/alpha1"; "tests/fixes/runner_boundary"; "tests/platform/linux_baseline"] ++
  [["make"; "campaign"; "CAMPAIGN=linux-baseline"]; ["make"; "evidence-verify"; "CAMPAIGN=linux-baseline"]].

(** A list of texts, and a list of argvs, as values. *)
Definition str_list (l : list string) : value := VList (map (fun s => VStr (u s)) l).
Definition argv_list (l : list (list string)) : value := VList (map str_list l).

(** ** Field checks *)

(** The exceptions the decorator turns into LINUX_INPUT_MALFORMED. *)
Definition malformed_kinds (e : exn) : bool :=
  match e with
  | TypeError | ValueError | KeyError | AttributeError | OverflowError | RecursionError => true
  | _ => false
  end.

(* @src src/src/harness_conformance/linux_readiness.py:61-70 malformed_boundary *)
Definition malformed_boundary {A} (m : res A) : res A :=
  guarded malformed_kinds "LINUX_INPUT_MALFORMED" m.

(* @src src/src/harness_conformance/linux_readiness.py:73-76 obj *)
Definition obj (v : value) (fields : list string) : res unit :=
  require_object v ;; closed v fields [].

(** The time, the text and the commit patterns. *)
Definition TIME : regex :=
  let d n := rep n (cls "0-9") in
  foldr RSeq (lit "Z")
    [d 4%nat; lit "-"; d 2%nat; lit "-"; d 2%nat; lit "T"; d 2%nat; lit ":"; d 2%nat; lit ":";
     d 2%nat; opt (RSeq (lit ".") (between_ 1 6 (cls "0-9")))].
Definition TEXT : regex := plus (cls "A-Za-z0-9._:/-").
Definition COMMIT : regex := rep 40 (cls "0-9a-f").

(* @src src/src/harness_conformance/linux_readiness.py:79-82 require_time *)
Definition require_time (v : value) : res datetime :=
  require (match v with VStr s => fullmatch TIME s | _ => false end) "LINUX_TIME_INVALID" ;;
  SchemaBase.require_time v.

(* @src src/src/harness_conformance/linux_readiness.py:85-88 text *)
Definition text (v : value) (maximum : Z) : res unit :=
  require (match v with
           | VStr s => (0 <? zlen s) && (zlen s <=? maximum) && fullmatch TEXT s
           | _ => false
           end) "LINUX_TEXT_INVALID".

(* @src src/src/harness_conformance/linux_readiness.py:91-92 integer *)
Definition integer (v : value) (minimum : Z) : res unit :=
  require (match v with VInt z => (minimum <=? z) && (z <=? 10000000) | _ => false end)
    "LINUX_COUNT_INVALID".

(* @src src/src/harness_conformance/linux_readiness.py:95-97 digest_map *)
Definition digest_map (v : value) (fields : list string) : res unit :=
  obj v fields ;;
  d ← items v;
  for_each (fun kv => require_digest kv.2) d.

(* @src src/src/harness_conformance/linux_readiness.py:100-104 sources *)
Definition sources (v : value) : res unit :=
  obj v REPOSITORIES ;;
  d ← items v;
  for_each (fun kv =>
    let source := kv.2 in
    obj source ["commit"; "treeDigest"] ;;
    commit ← fld source "commit";
    require (match commit with VStr s => fullmatch COMMIT s | _ => false end) "LINUX_SOURCE_INVALID" ;;
    tree ← fld source "treeDigest";
    require_digest tree) d.

(* @src src/src/harness_conformance/linux_readiness.py:107-112 target *)
Definition target (v : value) : res unit :=
  obj v ["os"; "kernel"; "architecture"; "hostArchitecture"; "execution"; "libc"] ;;
  os ← fld v "os";
  architecture ← fld v "architecture";
  hostArchitecture ← fld v "hostArchitecture";
  execution ← fld v "execution";
  require (eq_lit os "linux" && in_lits architecture ARCHITECTURES &&
           py_eq hostArchitecture architecture && eq_lit execution "NATIVE")
    "LINUX_NATIVE_TARGET_REQUIRED" ;;
  kernel ← fld v "kernel"; text kernel 128 ;;
  libc ← fld v "libc"; text libc 128.

(** ** The plan, the control input, the campaign inventory *)

Section linux.
Context {U : Unicode}.

Definition validate_plan_body (v : value) : res value :=
  _ ← canonical_bytes v;
  obj v ["schemaVersion"; "target"; "sources"; "images"; "build"; "preflightDigest"; "endpointId"; "namespace"; "serviceAccountSubject"; "regressions"; "probes"] ;;
  schema ← fld v "schemaVersion";
  require (eq_lit schema PLAN_SCHEMA) "LINUX_PLAN_SCHEMA_INVALID" ;;
  each_field v ["target"] target ;;
  each_field v ["sources"] sources ;;
  each_field v ["images"] (fun x => digest_map x IMAGES) ;;
  each_field v ["build"] (fun x => digest_map x BUILD_FIELDS) ;;
  each_field v ["preflightDigest"] require_digest ;;
  each_field v ["endpointId"; "namespace"] require_id ;;
  each_field v ["serviceAccountSubject"] (fun x => text x 256) ;;
  regressions ← fld v "regressions";
  obj regressions REPOSITORIES ;;
  rs ← items regressions;
  for_each (fun kv =>
    obj kv.2 ["inventoryDigest"; "testCount"] ;;
    each_field kv.2 ["inventoryDigest"] require_digest ;;
    each_field kv.2 ["testCount"]
      (fun x => integer x (if str_eqb kv.1 (u "conformance") then 83 else 1))) rs ;;
  probes ← fld v "probes";
  obj probes CASES ;;
  ps ← items probes;
  for_each (fun kv => digest_map kv.2 ["probeDigest"; "commandDigest"]) ps ;;
  Ok v.

(* @src src/src/harness_conformance/linux_readiness.py:115-134 validate_plan *)
Definition validate_plan (v : value) : res value := malformed_boundary (validate_plan_body v).

(* @src src/src/harness_conformance/linux_readiness.py:137-140 validate_control_input *)
Definition validate_control_input (v : value) : res value :=
  obj v ["architecture"; "caseId"] ;;
  architecture ← fld v "architecture";
  caseId ← fld v "caseId";
  require (in_lits architecture ARCHITECTURES && in_lits caseId CASES) "LINUX_CONTROL_INVALID" ;;
  Ok v.

(** [case.lower().replace("_", "-")]. *)
Definition kebab (s : string) : str := replace_char 95 45 (lower (u s)).

(* @src src/src/harness_conformance/linux_readiness.py:144-147 validate_linux_campaign *)
Definition expected_controls : value :=
  VList (flat_map (fun architecture =>
    map (fun '(case, axis) =>
      VDict [(u "controlId", VStr (u architecture ++ u "." ++ kebab case)%list);
             (u "handler", VStr (u "LINUX_READINESS")); (u "required", VBool true);
             (u "axis", VStr (u axis));
             (u "input", VDict [(u "architecture", VStr (u architecture));
                                (u "caseId", VStr (u case))])])
      (combine CASES CASE_AXES)) ARCHITECTURES).

(* @src src/src/harness_conformance/linux_readiness.py:143-149 validate_linux_campaign *)
Definition validate_linux_campaign (v : value) : res unit :=
  require_m ((x ← fld v "campaignId"; Ok (eq_lit x "linux-baseline")) <&&>
             (x ← fld v "executionClass"; Ok (eq_lit x "LIVE_CAMPAIGN")) <&&>
             (controls ← fld v "controls";
              a ← canonical_bytes controls;
              b ← canonical_bytes expected_controls;
              Ok (str_eqb a b))) "LINUX_CAMPAIGN_INVENTORY_INVALID".

(** ** The evidence record *)

(** [FAIL] dominates, then [NOT_RUN_ENV_UNAVAILABLE]. *)
(* @src src/src/harness_conformance/linux_readiness.py:152-157 _overall *)
Definition _overall (statuses : list value) : string :=
  if existsb (fun s => eq_lit s "FAIL") statuses then "FAIL"
  else if existsb (fun s => eq_lit s "NOT_RUN_ENV_UNAVAILABLE") statuses
  then "NOT_RUN_ENV_UNAVAILABLE"
  else "PASS".

(* @src src/src/harness_conformance/linux_readiness.py:166-173 validate_linux_evidence *)
Definition validate_authority (authority : value) : res unit :=
  obj authority AUTHORITY_FIELDS ;;
  d ← items authority;
  for_each (fun kv =>
    if endswith (u "Digest") kv.1 then require_digest kv.2
    else if str_eqb kv.1 (u "serviceAccountSubject") then text kv.2 256
    else require_id kv.2) d.

(** [item["skipped"] or item["failed"] or item["collected"] != item["executed"]]. *)
(* @src src/src/harness_conformance/linux_readiness.py:205-206 validate_linux_evidence *)
Definition regression_failed (item : value) : res bool :=
  (x ← fld item "skipped"; Ok (truthy x)) <||>
  (x ← fld item "failed"; Ok (truthy x)) <||>
  (x ← fld item "collected"; y ← fld item "executed"; Ok (negb (py_eq x y))).

(** One case of the inventory, in the loop of [validate_linux_evidence]. *)
(* @src src/src/harness_conformance/linux_readiness.py:187-207 validate_linux_evidence *)
Definition validate_case (expected : string) (checks_expected : list string) (case : value)
    : res unit :=
  obj case ["caseId"; "status"; "observedAt"; "runNonce"; "probeDigest"; "commandDigest"; "outputDigest"; "output"] ;;
  caseId ← fld case "caseId";
  status ← fld case "status";
  require (eq_lit caseId expected && in_lits status STATUSES) "LINUX_CASE_INVENTORY_INVALID" ;;
  (x ← fld case "observedAt"; _ ← require_time x; Ok tt) ;;
  each_field case ["runNonce"] require_id ;;
  each_field case ["probeDigest"; "commandDigest"; "outputDigest"] require_digest ;;
  output ← fld case "output";
  obj output ["checks"; "regressions"] ;;
  checks ← fld output "checks";
  obj checks checks_expected ;;
  cs ← items checks;
  require (forallb (fun kv => in_lits kv.2 STATUSES) cs) "LINUX_CHECK_STATUS_INVALID" ;;
  regressions ← fld output "regressions";
  obj regressions (if String.eqb expected "FULL_PREDECESSOR_REGRESSION" then REPOSITORIES else []) ;;
  rs ← items regressions;
  for_each (fun kv =>
    obj kv.2 ["inventoryDigest"; "collected"; "executed"; "skipped"; "failed"] ;;
    each_field kv.2 ["inventoryDigest"] require_digest ;;
    each_field kv.2 ["collected"; "executed"; "skipped"; "failed"] (fun x => integer x 0)) rs ;;
  outputDigest ← fld case "outputDigest";
  digest ← canonical_digest output (Some "planeon.linux-probe-output/v1alpha1");
  require (py_eq outputDigest (VStr digest)) "LINUX_OUTPUT_DIGEST_MISMATCH" ;;
  failed ← any_m (fun kv => regression_failed kv.2) rs;
  let statuses := (map snd cs ++ if (failed : bool) then [VStr (u "FAIL")] else [])%list in
  require (eq_lit status (_overall statuses)) "LINUX_FALSE_CASE_STATUS".

Definition validate_linux_evidence_body (v : value) : res value :=
  _ ← canonical_bytes v;
  obj v RECORD_FIELDS ;;
  schema ← fld v "schemaVersion";
  require (eq_lit schema SCHEMA) "LINUX_EVIDENCE_SCHEMA_INVALID" ;;
  authority ← fld v "authority";
  validate_authority authority ;;
  each_field v ["target"] target ;;
  each_field v ["sources"] sources ;;
  each_field v ["images"] (fun x => digest_map x IMAGES) ;;
  each_field v ["build"] (fun x => digest_map x BUILD_FIELDS) ;;
  each_field v ["preflightDigest"] require_digest ;;
  each_field v ["observedAt"; "validUntil"] (fun x => _ ← require_time x; Ok tt) ;;
  for_each (fun role =>
    each_field v [(role ++ "SignerKeyId")%string] require_key_id ;;
    each_field v [(role ++ "Signature")%string] (fun x => _ ← b64url_decode x 64; Ok tt))
    ["platform"; "tenant"; "capacity"] ;;
  cases ← fld v "cases";
  require (match cases with VList l => zlen l =? zlen CASES | _ => false end)
    "LINUX_CASE_INVENTORY_INVALID" ;;
  cl ← py_iter cases;
  for_each (fun '(e, case) => validate_case e.1 e.2 case) (combine CASE_CHECKS cl) ;;
  Ok v.

(* @src src/src/harness_conformance/linux_readiness.py:160-208 validate_linux_evidence *)
Definition validate_linux_evidence (v : value) : res value :=
  malformed_boundary (validate_linux_evidence_body v).

(** The v1alpha2 record: [signers] on top, the rest through the v1alpha1 shape on a copy. *)
(* @src src/src/harness_conformance/linux_readiness.py:211-227 _validate_linux_evidence_v2 *)
Definition _validate_linux_evidence_v2 (SIGNERS : list string) (v : value) : res value :=
  obj v RECORD_FIELDS_V2 ;;
  schema ← fld v "schemaVersion";
  require (eq_lit schema SCHEMA_V2) "LINUX_EVIDENCE_SCHEMA_INVALID" ;;
  signers ← fld v "signers";
  require (in_lits signers SIGNERS) "LINUX_SIGNERS_INVALID" ;;
  d ← items v;
  let legacy := dset (u "schemaVersion") (VStr (u SCHEMA)) (dwithout [u "signers"] d) in
  _ ← validate_linux_evidence (VDict legacy);
  Ok v.
End linux.

(** ** What the checks raise *)

Lemma obj_closed v fields : obj v fields = Ok tt -> closed v fields [] = Ok tt.
Proof. unfold obj. by intros [_ H]%seq_Ok. Qed.

Lemma obj_dict v fields : obj v fields = Ok tt -> exists d, v = VDict d.
Proof. unfold obj. by intros [H%require_object_Ok _]%seq_Ok. Qed.

Lemma ro_obj (P : exn -> Prop) v fields :
  (forall c, P (ConformanceError c)) -> raises_only P (obj v fields).
Proof. intros HP. unfold obj. repeat field_step. Qed.

Ltac obj_step :=
  lazymatch goal with
  | |- raises_only _ (obj _ _) => apply ro_obj; done
  | H : obj ?v _ = Ok _ |- raises_only _ (fld ?v _) =>
      eapply ro_fld; [exact (obj_closed _ _ H) | reflexivity]
  | H : obj ?v _ = Ok _ |- raises_only _ (each_field ?v _ _) =>
      eapply ro_each_field; [exact (obj_closed _ _ H) | reflexivity | intros ?]
  | H : obj ?v _ = Ok _ |- raises_only _ (items ?v) =>
      let d := fresh "d" in destruct (obj_dict _ _ H) as [d ->]
  | _ => field_step
  end.

(** ** What accepted evidence says *)

Section linux_theorems.
Context {U : Unicode}.

Lemma ro_malformed {A} (m : res A) :
  raises_only (fun e => is_conformance e = true \/ malformed_kinds e = true) m ->
  raises_only conformance_only (malformed_boundary m).
Proof.
  intros H. apply ro_guarded; [done |]. intros e He. apply H in He. tauto.
Qed.

Lemma _overall_pass l :
  (forall x, In x l -> in_lits x STATUSES = true) ->
  _overall l = "PASS" -> forall x, In x l -> x = VStr (u "PASS").
Proof.
  unfold _overall. intros Hl. destruct (existsb _ l) eqn:E1; [done |].
  destruct (existsb (fun s => eq_lit s "NOT_RUN_ENV_UNAVAILABLE") l) eqn:E2; [done |]. intros _ x Hx.
  destruct (proj1 (in_lits_true _ _) (Hl x Hx)) as (s & -> & Hs).
  assert (forall t, existsb (fun s => eq_lit s t) l = false -> s <> t) as Hn.
  { intros t Ht ->. assert (existsb (fun s => eq_lit s t) l = true); [|congruence].
    apply existsb_exists. exists (VStr (u t)). split; [done |]. by apply eq_lit_true. }
  destruct Hs as [<- | [<- | [<- | []]]]; [done | |].
  - by destruct (Hn "FAIL" E1).
  - by destruct (Hn "NOT_RUN_ENV_UNAVAILABLE" E2).
Qed.

Lemma integer_Ok v m : integer v m = Ok tt -> exists z, v = VInt z /\ m <= z.
Proof. unfold integer. rewrite require_Ok. destruct v; try done. intros. eexists. split; [done | lia]. Qed.

(** A regression that is not failed ran everything it collected. *)
Lemma regression_clean item :
  each_field item ["collected"; "executed"; "skipped"; "failed"] (fun x => integer x 0) = Ok tt ->
  regression_failed item = Ok false ->
  fld item "skipped" = Ok (VInt 0) /\ fld item "failed" = Ok (VInt 0) /\
  exists n, fld item "collected" = Ok (VInt n) /\ fld item "executed" = Ok (VInt n).
Proof.
  intros H. unfold regression_failed.
  destruct (each_field_Ok _ _ _ "collected" H) as (c & Hc & (zc & -> & _)%integer_Ok); [simpl; auto |].
  destruct (each_field_Ok _ _ _ "executed" H) as (e & He & (ze & -> & _)%integer_Ok); [simpl; auto |].
  destruct (each_field_Ok _ _ _ "skipped" H) as (s & Hs & (zs & -> & _)%integer_Ok); [simpl; auto |].
  destruct (each_field_Ok _ _ _ "failed" H) as (f & Hf & (zf & -> & _)%integer_Ok); [simpl; auto 10 |].
  rewrite Hc, He, Hs, Hf. cbn [mbind res_bind]. rewrite !or_m_false.
  intros [[E1 E2] E3]. injection E1 as E1. injection E2 as E2. injection E3 as E3.
  apply negb_false_iff, Z.eqb_eq in E1, E2, E3. subst. eauto.
Qed.

(** What a PASS of one case stands for: its checks and no others, all passed; the suites of the
    repositories, each run in full, for the case that asks for them, and none for any other. *)
Definition case_earned (name : string) (checks : list string) (case : value) : Prop :=
  exists output cs rs,
    fld case "output" = Ok output /\ fld output "checks" = Ok (VDict cs) /\
    fld output "regressions" = Ok (VDict rs) /\
    (forall k, In k checks -> dget (u k) cs = Some (VStr (u "PASS"))) /\
    (forall k, In k (dkeys cs) -> In k (u <$> checks)) /\
    (forall k, In k (dkeys rs) <-> name = "FULL_PREDECESSOR_REGRESSION" /\ In k (u <$> REPOSITORIES)) /\
    (forall kv, In kv rs -> fld kv.2 "skipped" = Ok (VInt 0) /\ fld kv.2 "failed" = Ok (VInt 0) /\
       exists n, fld kv.2 "collected" = Ok (VInt n) /\ fld kv.2 "executed" = Ok (VInt n)).

(** The suites of a case are those of the repositories, or none. *)
Lemma suites_of_case expected rs :
  obj (VDict rs) (if String.eqb expected "FULL_PREDECESSOR_REGRESSION" then REPOSITORIES else []) = Ok tt ->
  forall k, In k (dkeys rs) <-> expected = "FULL_PREDECESSOR_REGRESSION" /\ In k (u <$> REPOSITORIES).
Proof.
  intros (? & [= <-] & H1 & H2)%obj_closed%closed_Ok k. destruct (String.eqb_spec expected "FULL_PREDECESSOR_REGRESSION") as [E | E].
  - split; [intros [Hk | []]%H2; done |]. intros [_ Hk]. apply in_map_iff in Hk as (r & <- & Hr). apply dhas_In. unfold dhas. by destruct (H1 r Hr) as [x ->].
  - split; [by intros [[] | []]%H2 | by intros [? _]].
Qed.

Lemma validate_case_Ok expected checks case :
  validate_case expected checks case = Ok tt ->
  fld case "caseId" = Ok (VStr (u expected)) /\
  (exists output h, fld case "output" = Ok output /\ fld case "outputDigest" = Ok (VStr h) /\
     canonical_digest output (Some "planeon.linux-probe-output/v1alpha1") = Ok h) /\
  (fld case "status" = Ok (VStr (u "PASS")) -> case_earned expected checks case).
Proof.
  unfold validate_case. intros H. apply seq_Ok in H as [_ H].
  apply bind_Ok in H as (cid & Hcid & H). apply bind_Ok in H as (st & Hst & H).
  apply seq_Ok in H as [Hreq H]. apply require_Ok, andb_true_iff in Hreq as [->%eq_lit_true _].
  do 3 apply seq_Ok in H as [_ H].
  apply bind_Ok in H as (output & Hout & H). apply seq_Ok in H as [_ H].
  apply bind_Ok in H as (ch & Hch & H). apply seq_Ok in H as [Hobj H].
  destruct (obj_dict _ _ Hobj) as [cs ->]. apply obj_closed, closed_Ok in Hobj as (? & [= <-] & Hreq & Honly).
  apply bind_Ok in H as (cs' & [= <-] & H). apply seq_Ok in H as [Hall H]. apply require_Ok in Hall.
  apply bind_Ok in H as (rg & Hrg & H). apply seq_Ok in H as [Hobj H].
  destruct (obj_dict _ _ Hobj) as [rs ->]. pose proof (suites_of_case _ _ Hobj) as Hsuites.
  apply bind_Ok in H as (rs' & [= <-] & H). apply seq_Ok in H as [Hrs H].
  apply bind_Ok in H as (od & Hod & H). apply bind_Ok in H as (h & Hh & H).
  apply seq_Ok in H as [Hd H]. apply require_Ok in Hd.
  apply bind_Ok in H as (failed & Hfail & H). cbv zeta in H. apply require_Ok, eq_lit_true in H. subst st.
  split; [done |]. split.
  - exists output, h. split; [done |]. split; [|done]. rewrite Hod. f_equal.
    destruct od; try done. simpl in Hd. by apply str_eqb_eq in Hd as ->.
  - rewrite Hst. intros [= E%u_inj]. exists output, cs, rs. repeat (split; [done |]).
    destruct failed.
    { exfalso. revert E. unfold _overall. rewrite existsb_app. cbn [existsb].
      change (eq_lit (VStr (u "FAIL")) "FAIL") with true. by rewrite orb_true_r. }
    rewrite app_nil_r in E. split; [|split; [|split; [exact Hsuites |]]].
    + intros k Hk. destruct (Hreq k Hk) as [x Hx]. rewrite Hx. f_equal.
      apply (_overall_pass (map snd cs)); [|done |].
      * intros y Hy. apply in_map_iff in Hy as ([k' y'] & <- & Hin).
        rewrite forallb_forall in Hall. exact (Hall _ Hin).
      * apply dget_In in Hx. by apply (in_map snd) in Hx.
    + intros k [Hk | []]%Honly. exact Hk.
    + intros kv Hkv. rewrite for_each_Ok, List.Forall_forall in Hrs. specialize (Hrs kv Hkv).
      rewrite any_m_false, List.Forall_forall in Hfail. specialize (Hfail kv Hkv).
      do 2 apply seq_Ok in Hrs as [_ Hrs]. by apply regression_clean.
Qed.

Lemma validate_linux_evidence_Ok v w :
  validate_linux_evidence v = Ok w ->
  w = v /\ exists cl, fld v "cases" = Ok (VList cl) /\ length cl = length CASE_CHECKS /\
    Forall (fun '(e, case) => validate_case e.1 e.2 case = Ok tt) (combine CASE_CHECKS cl).
Proof.
  unfold validate_linux_evidence, malformed_boundary. intros H. apply guarded_Ok in H.
  unfold validate_linux_evidence_body in H.
  apply bind_Ok in H as (_ & _ & H). apply seq_Ok in H as [_ H].
  apply bind_Ok in H as (? & _ & H). apply seq_Ok in H as [_ H].
  apply bind_Ok in H as (? & _ & H). do 8 apply seq_Ok in H as [_ H].
  apply bind_Ok in H as (cases & Hc & H). apply seq_Ok in H as [Hl H]. apply require_Ok in Hl.
  destruct cases as [| | | |cl|]; try done. cbn [py_iter mbind res_bind] in H.
  apply seq_Ok in H as [Hf [= <-]]. split; [done |]. exists cl. split; [done |]. split.
  - unfold zlen in Hl. change (length CASES) with (length CASE_CHECKS) in Hl. lia.
  - rewrite for_each_Ok in Hf. eapply Forall_impl; [exact Hf |]. by intros [].
Qed.

(** C5: no PASS is claimed without its checks.  An accepted Linux record lists the ten cases
    in order; each case's output is bound by its digest; and a case marked PASS has every
    check its name requires marked PASS and no other check, and, if it is the regression case, the
    suites of all the repositories and no others, each run in full without a skip or a failure. *)
Theorem linux_pass_is_earned v w i name checks :
  validate_linux_evidence v = Ok w -> CASE_CHECKS !! i = Some (name, checks) ->
  w = v /\ exists cl case, fld v "cases" = Ok (VList cl) /\ cl !! i = Some case /\
    fld case "caseId" = Ok (VStr (u name)) /\
    (exists output h, fld case "output" = Ok output /\ fld case "outputDigest" = Ok (VStr h) /\
       canonical_digest output (Some "planeon.linux-probe-output/v1alpha1") = Ok h) /\
    (fld case "status" = Ok (VStr (u "PASS")) -> case_earned name checks case).
Proof.
  intros H Hi. apply validate_linux_evidence_Ok in H as (-> & cl & Hc & Hl & Hf).
  split; [done |].
  destruct (lookup_lt_is_Some_2 cl i) as [case Hcase].
  { rewrite Hl. by eapply lookup_lt_Some. }
  exists cl, case. split; [done |]. split; [done |].
  assert (combine CASE_CHECKS cl !! i = Some ((name, checks), case)) as Hcomb.
  { clear -Hi Hcase. revert cl i Hi Hcase. induction CASE_CHECKS as [|e es IH]; intros [|c cl] [|i];
      simpl; try done; [by intros [= ->] [= ->] | apply IH]. }
  rewrite Forall_lookup in Hf. by apply Hf, validate_case_Ok in Hcomb.
Qed.

(** *** What it raises *)

Notation malformed_ok := (fun e => is_conformance e = true \/ malformed_kinds e = true).

Lemma ro_value_error {A} (m : res A) :
  raises_only conformance_or_value_error m -> raises_only malformed_ok m.
Proof. intros H e He. apply H in He. destruct e; simpl in *; auto. Qed.

Lemma canonical_bytes_malformed v : raises_only malformed_ok (canonical_bytes v).
Proof. apply ro_value_error. intros e. apply canonical_bytes_raise. Qed.

Lemma canonical_digest_malformed v d : raises_only malformed_ok (canonical_digest v d).
Proof. apply ro_value_error. intros e. apply canonical_digest_raise. Qed.

(** Reading a field raises [KeyError] or [TypeError] at most. *)
Lemma fld_malformed v k : raises_only malformed_ok (fld v k).
Proof. intros e. unfold fld, getitem. destruct v; try destruct (dget _ _); naive_solver. Qed.

Lemma items_malformed v : raises_only malformed_ok (items v).
Proof. intros e. destruct v; naive_solver. Qed.

Lemma py_iter_malformed v : raises_only malformed_ok (py_iter v).
Proof. intros e. destruct v; naive_solver. Qed.

Lemma closed_malformed v r o : raises_only malformed_ok (closed v r o).
Proof.
  unfold closed. apply ro_bind; [apply items_malformed | intros d _].
  apply ro_bind; [|intros _ _]; apply ro_raise_if; auto.
Qed.

Lemma require_time_malformed v : raises_only malformed_ok (require_time v).
Proof.
  unfold require_time. apply ro_bind; [apply ro_require; auto | intros _ _].
  apply ro_require_time. auto.
Qed.

Lemma b64url_decode_malformed v n : raises_only malformed_ok (b64url_decode v n).
Proof. intros e He%b64url_decode_raise. by left. Qed.

Lemma each_field_malformed v names check :
  (forall x, raises_only malformed_ok (check x)) -> raises_only malformed_ok (each_field v names check).
Proof. intros H. apply ro_for_each. intros k _. apply ro_bind; [apply fld_malformed | auto]. Qed.

Ltac malformed_step :=
  lazymatch goal with
  | |- raises_only _ (canonical_bytes _) => apply canonical_bytes_malformed
  | |- raises_only _ (canonical_digest _ _) => apply canonical_digest_malformed
  | |- raises_only _ (fld _ _) => apply fld_malformed
  | |- raises_only _ (items _) => apply items_malformed
  | |- raises_only _ (py_iter _) => apply py_iter_malformed
  | |- raises_only _ (closed _ _ _) => apply closed_malformed
  | |- raises_only _ (require_time _) => apply require_time_malformed
  | |- raises_only _ (b64url_decode _ _) => apply b64url_decode_malformed
  | |- raises_only _ (each_field _ _ _) => apply each_field_malformed; intros ?
  | |- raises_only _ (obj _ _) => unfold obj
  | |- raises_only _ (require _ _) => apply ro_require; by left
  | |- raises_only _ (raise_if _ _) => apply ro_raise_if; by left
  | |- raises_only _ (require_object _) => apply ro_require_object; by left
  | |- raises_only _ (require_id _) => apply ro_require_id; by left
  | |- raises_only _ (require_key_id _) => apply ro_require_key_id; by left
  | |- raises_only _ (require_digest _) => apply ro_require_digest; by left
  | |- raises_only _ (text _ _) => unfold text
  | |- raises_only _ (integer _ _) => unfold integer
  | |- raises_only _ (digest_map _ _) => unfold digest_map
  | |- raises_only _ (let '(_, _) := ?p in _) => destruct p
  | _ => raises_step
  end.

Lemma target_malformed v : raises_only malformed_ok (target v).
Proof. unfold target. repeat malformed_step. Qed.

Lemma sources_malformed v : raises_only malformed_ok (sources v).
Proof. unfold sources. repeat malformed_step. Qed.

Lemma authority_malformed v : raises_only malformed_ok (validate_authority v).
Proof. unfold validate_authority. repeat malformed_step. Qed.

Lemma case_malformed n cs v : raises_only malformed_ok (validate_case n cs v).
Proof. unfold validate_case, regression_failed. repeat malformed_step. Qed.

(** The Linux validators fail closed: on any value, [validate_plan] and
    [validate_linux_evidence] return or raise a [ConformanceError], and nothing else. *)
Theorem linux_fail_closed v :
  raises_only conformance_only (validate_plan v) /\
  raises_only conformance_only (validate_linux_evidence v).
Proof.
  split; apply ro_malformed.
  - unfold validate_plan_body. repeat malformed_step;
      first [apply target_malformed | apply sources_malformed].
  - unfold validate_linux_evidence_body. repeat malformed_step;
      first [apply target_malformed | apply sources_malformed | apply authority_malformed
            | apply case_malformed].
Qed.
End linux_theorems.
