(* ===== verification/Schema.v ===== *)
(** schema.py and events.py: the document validators and their dispatch by kind. *)

From S2P Require Import Prelude PyVal Utf8 Json Canonical IsoTime Regex SchemaBase Lifecycle LinuxShape.

#[local] Open Scope string_scope.
#[local] Open Scope list_scope.
#[local] Open Scope Z_scope.

Section schema.
Context {U : Unicode}.

(* @src src/src/harness_conformance/schema.py:72-88 validate_environment *)
Definition validate_environment (v : value) : res value :=
  require_object v ;;
  closed v ["schemaVersion"; "environmentId"; "tenantId"; "capturedAt"; "capabilities"] [] ;;
  schema ← fld v "schemaVersion";
  raise_if (negb (eq_lit schema "harness.planeon.ai/environment-intake/v1alpha1")) "UNSUPPORTED_SCHEMA" ;;
  each_field v ["environmentId"; "tenantId"] require_id ;;
  each_field v ["capturedAt"] (fun x => _ ← SchemaBase.require_time x; Ok tt) ;;
  capabilities ← fld v "capabilities";
  require_object capabilities ;;
  d ← items capabilities;
  raise_if (zlen d >? 128) "COLLECTION_TOO_LARGE" ;;
  for_each (fun kv =>
    require_id (VStr kv.1) ;;
    raise_if (negb (in_values kv.2 [VBool true; VBool false; VNone])) "INVALID_CAPABILITY") d ;;
  reject_secret_shape v ;;
  Ok v.

(** [[0-9]+\.[0-9]+\.[0-9]+]. *)
Definition VERSION : regex :=
  let n := plus (cls "0-9") in RSeq n (RSeq (lit ".") (RSeq n (RSeq (lit ".") n))).

(** The checks on one control, up to its handler-specific part. *)
(* @src src/src/harness_conformance/schema.py:110-129 validate_campaign *)
Definition validate_control (executionClass : value) (seen : list str) (control : value)
    : res (list str) :=
  require_object control ;;
  closed control ["controlId"; "handler"; "required"; "axis"; "input"] [] ;;
  controlId ← fld control "controlId";
  require_id controlId ;;
  let id := match controlId with VStr s => s | _ => [] end in
  raise_if (str_in id seen) "DUPLICATE_CONTROL" ;;
  handler ← fld control "handler";
  raise_if (negb (in_lits handler HANDLERS)) "INVALID_HANDLER" ;;
  required ← fld control "required";
  raise_if (negb (is_bool required)) "INVALID_REQUIRED" ;;
  axis ← fld control "axis";
  raise_if (negb (in_lits axis EVIDENCE_AXES)) "INVALID_AXIS" ;;
  input ← fld control "input";
  require_object input ;;
  (if eq_lit handler "LINUX_READINESS" then
     _ ← validate_control_input input;
     raise_if (negb (eq_lit executionClass "LIVE_CAMPAIGN") || negb (in_lits axis AXES) ||
               negb (is_true_lit required)) "LINUX_CONTROL_SCOPE_INVALID"
   else Ok tt) ;;
  Ok (id :: seen).

(** [item[k]] for an item of the validated [controls]. *)
Definition control_axis_not_in (axes : list string) (control : value) : res bool :=
  axis ← fld control "axis"; Ok (negb (in_lits axis axes)).
Definition control_is_linux (control : value) : res bool :=
  handler ← fld control "handler"; Ok (eq_lit handler "LINUX_READINESS").

(* @src src/src/harness_conformance/schema.py:91-139 validate_campaign *)
Definition validate_campaign (v : value) : res value :=
  require_object v ;;
  closed v ["schemaVersion"; "campaignId"; "version"; "description"; "executionClass"; "environmentFixture"; "controls"] [] ;;
  schema ← fld v "schemaVersion";
  raise_if (negb (eq_lit schema "harness.planeon.ai/conformance-campaign/v1alpha1")) "UNSUPPORTED_SCHEMA" ;;
  campaignId ← fld v "campaignId";
  require_id campaignId ;;
  version ← fld v "version";
  raise_if (match version with VStr s => negb (fullmatch VERSION s) | _ => true end) "INVALID_VERSION" ;;
  description ← fld v "description";
  raise_if (match description with
            | VStr s => negb ((1 <=? zlen s) && (zlen s <=? 512))
            | _ => true
            end) "INVALID_DESCRIPTION" ;;
  executionClass ← fld v "executionClass";
  raise_if (negb (in_lits executionClass ["OFFLINE_TEST"; "LIVE_CAMPAIGN"])) "INVALID_EXECUTION_CLASS" ;;
  fixture ← fld v "environmentFixture";
  raise_if (match fixture with
            | VStr s => startswith (u "/") s || str_in (u "..") (split_on 47 s) ||
                        negb (endswith (u ".json") s)
            | _ => true
            end) "INVALID_FIXTURE_REFERENCE" ;;
  controls ← fld v "controls";
  raise_if (match controls with VList [] => true | VList l => zlen l >? 512 | _ => true end)
    "INVALID_CONTROLS" ;;
  cs ← py_iter controls;
  _ ← for_fold (validate_control executionClass) [] cs;
  raise_if_m (if eq_lit executionClass "OFFLINE_TEST"
              then any_m (control_axis_not_in ["UNIT"]) cs else Ok false) "OFFLINE_AXIS_ESCALATION" ;;
  raise_if_m (if eq_lit executionClass "LIVE_CAMPAIGN"
              then any_m (control_axis_not_in LIVE_EVIDENCE_AXES) cs else Ok false)
    "LIVE_AXIS_ESCALATION" ;;
  linux ← (Ok (eq_lit campaignId "linux-baseline") <||> any_m control_is_linux cs);
  (if linux : bool then validate_linux_campaign v else Ok tt) ;;
  reject_secret_shape v ;;
  Ok v.

(* @src src/src/harness_conformance/schema.py:142-156 validate_result *)
Definition validate_result (v : value) : res value :=
  require_object v ;;
  closed v ["axis"; "controlId"; "handler"; "observationDigest"; "reasonCode"; "required"; "status"] [] ;;
  each_field v ["controlId"] require_id ;;
  handler ← fld v "handler";
  raise_if (negb (in_lits handler HANDLERS)) "INVALID_HANDLER" ;;
  axis ← fld v "axis";
  raise_if (negb (in_lits axis EVIDENCE_AXES)) "INVALID_AXIS" ;;
  each_field v ["observationDigest"] require_digest ;;
  reasonCode ← fld v "reasonCode";
  (match reasonCode with
   | VStr s => require_id (VStr (replace_char 95 45 (lower s)))
   | _ => Raise AttributeError
   end) ;;
  required ← fld v "required";
  raise_if (negb (is_bool required)) "INVALID_REQUIRED" ;;
  status ← fld v "status";
  raise_if (negb (in_lits status RESULT_STATES)) "INVALID_RESULT" ;;
  Ok v.

(* @src src/src/harness_conformance/schema.py:159-175 validate_porting *)
Definition validate_porting (v : value) : res value :=
  require_object v ;;
  closed v PORTING_FIELDS [] ;;
  schema ← fld v "schemaVersion";
  raise_if (negb (eq_lit schema "harness.planeon.ai/porting-ledger/v1alpha1")) "UNSUPPORTED_SCHEMA" ;;
  destination ← fld v "destinationRepository";
  raise_if (negb (eq_lit destination "mas-harness-conformance-labs")) "WRONG_DESTINATION" ;;
  records ← fld v "records";
  match records with
  | VList [record] =>
      require_object record ;;
      closed record ["disposition"; "reason"] [] ;;
      disposition ← fld record "disposition";
      raise_if (negb (eq_lit disposition "NO_AUTHORIZATION")) "COPY_NOT_AUTHORIZED" ;;
      reason ← fld record "reason";
      raise_if (negb (is_str reason) || negb (truthy reason)) "INVALID_REASON" ;;
      Ok v
  | _ => conf "PORTING_NOT_INERT"
  end.

(* @src src/src/harness_conformance/schema.py:178-183 VALIDATORS *)
Definition VALIDATORS : list (string * (value -> res value)) :=
  [("campaign", validate_campaign); ("environment-intake", validate_environment);
   ("control-result", validate_result); ("porting-ledger", validate_porting)].

(* @src src/src/harness_conformance/schema.py:186-195 validate *)
Definition validate (kind : value) (document : value) : res value :=
  if eq_lit kind "linux-readiness-evidence" then validate_linux_evidence document else
  validator ← match table_get VALIDATORS kind with
              | Raise KeyError => conf "UNKNOWN_KIND"
              | r => r
              end;
  validator document.

(** ** events.py *)

(* @src src/src/harness_conformance/events.py:8-13 ALLOWED_EVENT_TYPES *)
Definition ALLOWED_EVENT_TYPES : list string :=
  ["harness.operation.state.changed.v1"; "harness.approval.state.changed.v1";
   "harness.installation.state.changed.v1"; "harness.evidence.recorded.v1"].

(* @src src/src/harness_conformance/events.py:16-43 validate_event *)
Definition validate_event (v : value) : res value :=
  require_object v ;;
  closed v ["specversion"; "id"; "source"; "type"; "time"; "subject"; "datacontenttype"; "tenantid"; "data"] [] ;;
  specversion ← fld v "specversion";
  raise_if (negb (eq_lit specversion "1.0")) "UNSUPPORTED_CLOUDEVENTS_VERSION" ;;
  each_field v ["id"; "tenantid"] require_id ;;
  each_field v ["time"] (fun x => _ ← SchemaBase.require_time x; Ok tt) ;;
  type ← fld v "type";
  raise_if (negb (in_lits type ALLOWED_EVENT_TYPES)) "UNKNOWN_EVENT_TYPE" ;;
  datacontenttype ← fld v "datacontenttype";
  raise_if (negb (eq_lit datacontenttype "application/json")) "INVALID_CONTENT_TYPE" ;;
  source ← fld v "source";
  raise_if (match source with VStr s => negb (startswith (u "urn:planeon:") s) | _ => true end)
    "INVALID_EVENT_SOURCE" ;;
  subject ← fld v "subject";
  raise_if (match subject with VStr s => zlen s >? 256 | _ => true end) "INVALID_EVENT_SUBJECT" ;;
  data ← fld v "data";
  require_object data ;;
  closed data ["entityId"; "fromState"; "toState"; "version"; "evidenceDigest"] [] ;;
  each_field data ["entityId"] require_id ;;
  fromState ← fld data "fromState";
  toState ← fld data "toState";
  raise_if (negb (is_str fromState) || negb (is_str toState)) "INVALID_EVENT_STATE" ;;
  version ← fld data "version";
  raise_if (match version with VInt z => z <? 1 | _ => true end) "INVALID_EVENT_VERSION" ;;
  each_field data ["evidenceDigest"] require_digest ;;
  reject_secret_shape v ;;
  Ok v.
End schema.

Section schema_theorems.
Context {U : Unicode}.

Lemma environment_raises v : raises_only conformance_only (validate_environment v).
Proof. unfold validate_environment. repeat field_step. Qed.

Lemma event_raises v : raises_only conformance_only (validate_event v).
Proof. unfold validate_event. repeat field_step. Qed.

Lemma porting_raises v : raises_only conformance_only (validate_porting v).
Proof.
  unfold validate_porting. repeat field_step.
  destruct a1 as [| | | |[|record [|]]|]; repeat field_step.
Qed.

Lemma control_input_raises v : raises_only conformance_only (validate_control_input v).
Proof. unfold validate_control_input. repeat obj_step. Qed.

Lemma ro_weaken {A} (P Q : exn -> Prop) (m : res A) :
  (forall e, P e -> Q e) -> raises_only P m -> raises_only Q m.
Proof. intros H Hm e He. auto. Qed.

Lemma conformance_value_error e : conformance_only e -> conformance_or_value_error e.
Proof. by destruct e. Qed.

Lemma validate_control_closed ec seen control seen' :
  validate_control ec seen control = Ok seen' ->
  closed control ["controlId"; "handler"; "required"; "axis"; "input"] [] = Ok tt.
Proof. unfold validate_control. intros H. apply seq_Ok in H as [_ H]. by apply seq_Ok in H as [H _]. Qed.

Lemma validate_control_raises ec seen control :
  raises_only conformance_only (validate_control ec seen control).
Proof.
  unfold validate_control. repeat field_step. apply control_input_raises.
Qed.

Lemma controls_list controls b :
  raise_if (match controls with VList [] => true | VList l => zlen l >? 512 | _ => true end) b = Ok tt ->
  exists cs, controls = VList cs /\ cs <> [] /\ zlen cs <= 512.
Proof.
  rewrite raise_if_Ok. destruct controls as [| | | |[|c cs]|]; try done.
  intros. eexists. split; [done |]. split; [done | lia].
Qed.

(** A control of a list that the loop accepted has the five fields. *)
Lemma control_fld_raises (P : exn -> Prop) ec cs seen x k :
  for_fold (validate_control ec) [] cs = Ok seen -> In x cs ->
  has_name k ["controlId"; "handler"; "required"; "axis"; "input"] = true ->
  raises_only P (fld x k).
Proof.
  intros H Hin Hk. destruct (for_fold_Ok_each _ _ _ _ _ H Hin) as (s1 & s2 & Hx).
  by eapply ro_fld; [eapply validate_control_closed |].
Qed.

Lemma canonical_bytes_raises v : raises_only conformance_or_value_error (canonical_bytes v).
Proof. intros e. apply canonical_bytes_raise. Qed.

Lemma linux_campaign_raises v required optional :
  closed v required optional = Ok tt ->
  forallb (fun k => has_name k required) ["campaignId"; "executionClass"; "controls"] = true ->
  raises_only conformance_or_value_error (validate_linux_campaign v).
Proof.
  intros Hc Hk. unfold validate_linux_campaign. cbn in Hk. split_bools.
  repeat field_step; try apply canonical_bytes_raises; by eapply ro_fld.
Qed.

Lemma campaign_raises v : raises_only conformance_or_value_error (validate_campaign v).
Proof.
  unfold validate_campaign. repeat field_step.
  all: try (eapply ro_weaken; [apply conformance_value_error | apply validate_control_raises]).
  all: try match goal with H : raise_if _ "INVALID_CONTROLS" = Ok tt |- _ =>
         apply controls_list in H as (? & -> & _) end; try apply ro_ok.
  all: try (unfold control_axis_not_in, control_is_linux; repeat field_step;
            by eapply control_fld_raises).
  by eapply linux_campaign_raises.
Qed.

(** *** What an accepted campaign is *)

(** A control's identifier and axis, as read from it. *)
Definition control_id_of (c : value) : str :=
  match fld c "controlId" with Ok (VStr s) => s | _ => [] end.

Lemma validate_control_Ok ec seen c seen' :
  validate_control ec seen c = Ok seen' ->
  seen' = control_id_of c :: seen /\ ~ In (control_id_of c) seen /\
  exists axis, fld c "axis" = Ok (VStr (u axis)) /\ In axis EVIDENCE_AXES.
Proof.
  unfold validate_control. intros H.
  apply seq_Ok in H as [_ H]. apply seq_Ok in H as [_ H].
  apply bind_Ok in H as (i & Hi & H). apply seq_Ok in H as [Hid H].
  apply require_id_Ok in Hid as (s & -> & _). apply seq_Ok in H as [Hseen H].
  apply bind_Ok in H as (h & _ & H). apply seq_Ok in H as [_ H].
  apply bind_Ok in H as (r & _ & H). apply seq_Ok in H as [_ H].
  apply bind_Ok in H as (a & Ha & H). apply seq_Ok in H as [Hax H].
  apply bind_Ok in H as (inp & _ & H). apply seq_Ok in H as [_ H]. apply seq_Ok in H as [_ [= <-]].
  apply raise_if_Ok in Hseen, Hax. apply negb_false_iff, in_lits_true in Hax as (axis & -> & Hin).
  unfold control_id_of. rewrite Hi. split; [done |]. split; [|eauto].
  rewrite <- str_in_In. congruence.
Qed.

Lemma validate_control_linux ec seen c seen' :
  validate_control ec seen c = Ok seen' ->
  fld c "handler" = Ok (VStr (u "LINUX_READINESS")) -> fld c "required" = Ok (VBool true).
Proof.
  unfold validate_control. intros H Hh.
  apply seq_Ok in H as [_ H]. apply seq_Ok in H as [_ H].
  apply bind_Ok in H as (? & _ & H). apply seq_Ok in H as [_ H]. apply seq_Ok in H as [_ H].
  rewrite Hh in H. cbn [mbind res_bind] in H. apply seq_Ok in H as [_ H].
  apply bind_Ok in H as (r & Hr & H). apply seq_Ok in H as [_ H].
  apply bind_Ok in H as (a & _ & H). apply seq_Ok in H as [_ H].
  apply bind_Ok in H as (inp & _ & H). apply seq_Ok in H as [_ H]. apply seq_Ok in H as [H _].
  change (eq_lit (VStr (u "LINUX_READINESS")) "LINUX_READINESS") with true in H. cbv iota in H.
  apply bind_Ok in H as (? & _ & H). apply raise_if_Ok, orb_false_iff in H as [_ H].
  apply negb_false_iff in H. rewrite Hr. by destruct r as [|[]| | | |].
Qed.

Lemma validate_controls_ids ec cs seen seen' :
  NoDup seen -> for_fold (validate_control ec) seen cs = Ok seen' ->
  NoDup seen' /\ seen' = rev (map control_id_of cs) ++ seen.
Proof.
  revert seen. induction cs as [|c cs IH]; intros seen Hn; simpl; [by intros [= ->] |].
  rewrite bind_Ok. intros (s1 & (-> & Hc & _)%validate_control_Ok & H).
  apply IH in H as [? ->]; [|constructor; [by rewrite list_elem_of_In | done]].
  split; [done |]. by rewrite <- app_assoc.
Qed.

Lemma any_axis_false axes cs c axis :
  any_m (control_axis_not_in axes) cs = Ok false -> In c cs -> fld c "axis" = Ok (VStr (u axis)) ->
  In axis axes.
Proof.
  rewrite any_m_false, List.Forall_forall. intros H Hin Ha. specialize (H c Hin).
  unfold control_axis_not_in in H. rewrite Ha in H. injection H as H.
  apply negb_false_iff, in_lits_true in H as (a & [= E%u_inj] & ?). by subst.
Qed.

Lemma validate_campaign_controls v w cs c :
  validate_campaign v = Ok w -> fld v "controls" = Ok (VList cs) -> In c cs ->
  exists ec s1 s2, validate_control ec s1 c = Ok s2.
Proof.
  unfold validate_campaign. intros H Hc Hin.
  do 2 apply seq_Ok in H as [_ H].
  do 4 (apply bind_Ok in H as (? & _ & H); apply seq_Ok in H as [_ H]).
  apply bind_Ok in H as (ec & _ & H). apply seq_Ok in H as [_ H].
  apply bind_Ok in H as (? & _ & H). apply seq_Ok in H as [_ H].
  rewrite Hc in H. cbn [mbind res_bind] in H. apply seq_Ok in H as [_ H].
  cbn [py_iter mbind res_bind] in H. apply bind_Ok in H as (seen & Hfold & _).
  exists ec. by eapply for_fold_Ok_each.
Qed.

Lemma validate_campaign_Ok v w :
  validate_campaign v = Ok w ->
  w = v /\ exists cs ec, fld v "controls" = Ok (VList cs) /\ 1 <= zlen cs <= 512 /\
    NoDup (map control_id_of cs) /\ fld v "executionClass" = Ok (VStr (u ec)) /\
    forall c, In c cs -> exists axis, fld c "axis" = Ok (VStr (u axis)) /\
      axis <> "TENANT_ACCEPTANCE" /\
      ((ec = "OFFLINE_TEST" /\ axis = "UNIT") \/ (ec = "LIVE_CAMPAIGN" /\ In axis LIVE_EVIDENCE_AXES)).
Proof.
  unfold validate_campaign. intros H.
  do 2 apply seq_Ok in H as [_ H].
  apply bind_Ok in H as (? & _ & H). apply seq_Ok in H as [_ H].
  apply bind_Ok in H as (cid & _ & H). apply seq_Ok in H as [_ H].
  apply bind_Ok in H as (? & _ & H). apply seq_Ok in H as [_ H].
  apply bind_Ok in H as (? & _ & H). apply seq_Ok in H as [_ H].
  apply bind_Ok in H as (e & He & H). apply seq_Ok in H as [Hec H].
  apply bind_Ok in H as (? & _ & H). apply seq_Ok in H as [_ H].
  apply bind_Ok in H as (controls & Hc & H). apply seq_Ok in H as [Hl H].
  apply controls_list in Hl as (cs & -> & Hne & Hlen).
  cbn [py_iter mbind res_bind] in H. apply bind_Ok in H as (seen & Hfold & H).
  apply seq_Ok in H as [Hoff H]. apply seq_Ok in H as [Hlive H].
  apply bind_Ok in H as (lin & _ & H). do 2 apply seq_Ok in H as [_ H]. injection H as <-.
  split; [done |].
  apply raise_if_Ok, negb_false_iff, in_lits_true in Hec as (ec & -> & Hin).
  apply raise_if_m_Ok in Hoff, Hlive.
  exists cs, ec. split; [done |]. split; [destruct cs; [done |]; rewrite zlen_cons in *;
    pose proof (zlen_nonneg cs); lia |].
  destruct (validate_controls_ids _ _ _ _ (NoDup_nil_2) Hfold) as [Hnd ->].
  rewrite app_nil_r in Hnd. split; [by apply NoDup_ListNoDup, NoDup_rev, NoDup_ListNoDup in Hnd;
    rewrite ?rev_involutive in Hnd |].
  split; [done |]. intros c Hcin.
  destruct (for_fold_Ok_each _ _ _ _ _ Hfold Hcin) as (s1 & s2 & Hv).
  apply validate_control_Ok in Hv as (_ & _ & axis & Ha & _).
  exists axis. split; [done |].
  assert ((ec = "OFFLINE_TEST" /\ axis = "UNIT") \/
          (ec = "LIVE_CAMPAIGN" /\ In axis LIVE_EVIDENCE_AXES)) as Hcase.
  { destruct Hin as [<- | [<- | []]]; [left | right]; (split; [done |]).
    - destruct (any_axis_false _ _ _ _ Hoff Hcin Ha) as [<- | []]. done.
    - exact (any_axis_false _ _ _ _ Hlive Hcin Ha). }
  split; [|done]. intros ->. by destruct Hcase as [[_ ?] | [_ ?]]; simpl in *; naive_solver.
Qed.

Lemma validate_environment_Ok v w :
  validate_environment v = Ok w ->
  w = v /\ (exists s, fld v "environmentId" = Ok (VStr s) /\ zlen s <= 128 /\ lang ID s) /\
  (exists s, fld v "tenantId" = Ok (VStr s) /\ zlen s <= 128 /\ lang ID s) /\
  (exists x t, fld v "capturedAt" = Ok x /\ SchemaBase.require_time x = Ok t).
Proof.
  unfold validate_environment. intros H.
  do 2 apply seq_Ok in H as [_ H].
  apply bind_Ok in H as (? & _ & H). apply seq_Ok in H as [_ H].
  apply seq_Ok in H as [Hid H]. apply seq_Ok in H as [Ht H].
  apply bind_Ok in H as (? & _ & H). apply seq_Ok in H as [_ H].
  apply bind_Ok in H as (? & _ & H). do 3 apply seq_Ok in H as [_ H]. injection H as <-.
  split; [done |].
  destruct (each_field_Ok _ _ _ "environmentId" Hid) as (e & He & (s & -> & ?)%require_id_Ok); [by left |].
  destruct (each_field_Ok _ _ _ "tenantId" Hid) as (t & Htn & (s' & -> & ?)%require_id_Ok);
    [by right; left |].
  destruct (each_field_Ok _ _ _ "capturedAt" Ht) as (c & Hc & Hct); [by left |].
  apply bind_Ok in Hct as (d & Hd & _). eauto 10.
Qed.

(** An accepted campaign cannot claim more than its class allows.  [validate_campaign]
    returns its argument; its controls are between 1 and 512 with distinct identifiers; an
    offline campaign originates the UNIT axis only, a live one the live axes only, and no
    campaign the TENANT_ACCEPTANCE axis. *)
Theorem campaign_no_escalation v w :
  validate_campaign v = Ok w ->
  w = v /\ exists cs ec, fld v "controls" = Ok (VList cs) /\ 1 <= zlen cs <= 512 /\
    NoDup (map control_id_of cs) /\ fld v "executionClass" = Ok (VStr (u ec)) /\
    forall c, In c cs -> exists axis, fld c "axis" = Ok (VStr (u axis)) /\
      axis <> "TENANT_ACCEPTANCE" /\
      ((ec = "OFFLINE_TEST" /\ axis = "UNIT") \/ (ec = "LIVE_CAMPAIGN" /\ In axis LIVE_EVIDENCE_AXES)).
Proof. apply validate_campaign_Ok. Qed.

(** The validators fail closed.  On any decoded value, [validate_environment],
    [validate_event] and [validate_porting] return or raise a [ConformanceError], never
    another exception; [validate_campaign] may besides let out only the encoder's error on a
    lone surrogate. *)
Theorem validators_fail_closed v :
  raises_only conformance_only (validate_environment v) /\
  raises_only conformance_only (validate_event v) /\
  raises_only conformance_only (validate_porting v) /\
  raises_only conformance_or_value_error (validate_campaign v).
Proof.
  auto using environment_raises, event_raises, porting_raises, campaign_raises.
Qed.
End schema_theorems.
