(* ===== verification/Campaign.v ===== *)
(** campaign.py: the control handlers, the verdict over control results, and the runner. *)

From S2P Require Import Prelude PyVal Utf8 Json Sha2 Canonical IsoTime SchemaBase Lifecycle LinuxShape Schema.

#[local] Open Scope string_scope.
#[local] Open Scope list_scope.
#[local] Open Scope Z_scope.

(** ** Handlers *)

(** What a handler returns: status, reason code and detail. *)
Definition outcome : Type := ResultStatus * string * value.

Definition detail (fields : list (string * value)) : value := VDict (map (fun kv => (u kv.1, kv.2)) fields).

(** [except ConformanceError as exc: return FAIL, exc.reason, detail]. *)
Definition on_failure (m : res value) (passed : outcome) (failed : string -> outcome) : res outcome :=
  match m with
  | Ok _ => Ok passed
  | Raise (ConformanceError reason) => Ok (failed reason)
  | Raise e => Raise e
  end.

(** live_launcher.linux_runtime_availability, and linux_readiness.evaluate_control. *)
(* @src src/src/harness_conformance/live_launcher.py:23-31 linux_runtime_availability *)
Definition linux_runtime_availability : string * string :=
  ("NOT_RUN_ENV_UNAVAILABLE", "LINUX_LIVE_BACKEND_UNAVAILABLE").

(* @src src/src/harness_conformance/linux_readiness.py:432-441 evaluate_control *)
Definition evaluate_control (control : value) (_ : value) : res outcome :=
  input ← fld control "input";
  selected ← validate_control_input input;
  architecture ← fld selected "architecture";
  caseId ← fld selected "caseId";
  Ok (NOT_RUN_ENV_UNAVAILABLE, linux_runtime_availability.2,
      detail [("architecture", architecture); ("caseId", caseId); ("nativeAcceptance", VBool false);
              ("availability", VStr (u linux_runtime_availability.1))]).

Section campaign.
Context {U : Unicode}.

(* @src src/src/harness_conformance/campaign.py:15-19 _observation *)
Definition _observation (control_id : value) (status : ResultStatus) (reason : string) (d : value)
    : res str :=
  canonical_digest
    (detail [("controlId", control_id); ("detail", d); ("reasonCode", VStr (u reason));
             ("status", VStr (u (status_value status)))])
    (Some "planeon.harness-conformance-observation/v1alpha1").

(** [data.get(k, default)]. *)
Definition get_or (d : dict) (k : string) (dflt : value) : value := default dflt (dget (u k) d).

(* @src src/src/harness_conformance/campaign.py:22-31 _static *)
Definition _static (control _ : value) : res outcome :=
  data ← fld control "input";
  require_object data ;;
  closed data ["actual"; "expected"] ["applicable"; "severity"] ;;
  d ← items data;
  if is_false_lit (get_or d "applicable" (VBool true)) then
    Ok (NOT_APPLICABLE, "CONTROL_NOT_APPLICABLE", detail [("applicable", VBool false)])
  else
    actual ← fld data "actual";
    expected ← fld data "expected";
    if py_eq actual expected then
      Ok (PASS, "ASSERTION_MATCHED", detail [("matched", VBool true)])
    else if eq_lit (get_or d "severity" (VStr (u "REQUIRED"))) "ADVISORY" then
      Ok (WARN, "ADVISORY_ASSERTION_MISMATCH", detail [("matched", VBool false)])
    else Ok (FAIL, "ASSERTION_MISMATCH", detail [("matched", VBool false)]).

(* @src src/src/harness_conformance/campaign.py:34-41 _schema *)
Definition _schema (control _ : value) : res outcome :=
  data ← fld control "input";
  require_object data ;;
  closed data ["kind"; "document"] [] ;;
  on_failure (kind ← fld data "kind"; document ← fld data "document"; validate kind document)
    (PASS, "SCHEMA_VALID", detail [("valid", VBool true)])
    (fun reason => (FAIL, reason, detail [("valid", VBool false); ("reason", VStr (u reason))])).

(* @src src/src/harness_conformance/campaign.py:44-51 _lifecycle *)
Definition _lifecycle (control _ : value) : res outcome :=
  data ← fld control "input";
  require_object data ;;
  closed data ["entity"; "fromState"; "toState"] [] ;;
  on_failure (entity ← fld data "entity"; before ← fld data "fromState"; after ← fld data "toState";
              assert_transition entity before after ;; Ok VNone)
    (PASS, "TRANSITION_LEGAL", detail [("legal", VBool true)])
    (fun reason => (FAIL, reason, detail [("legal", VBool false)])).

(* @src src/src/harness_conformance/campaign.py:54-61 _event *)
Definition _event (control _ : value) : res outcome :=
  data ← fld control "input";
  require_object data ;;
  closed data ["event"] [] ;;
  on_failure (event ← fld data "event"; validate_event event)
    (PASS, "EVENT_VALID", detail [("valid", VBool true)])
    (fun reason => (FAIL, reason, detail [("valid", VBool false); ("reason", VStr (u reason))])).

(* @src src/src/harness_conformance/campaign.py:64-76 _capability *)
Definition _capability (control environment : value) : res outcome :=
  data ← fld control "input";
  require_object data ;;
  closed data ["capability"; "expected"] [] ;;
  name ← fld data "capability";
  expected ← fld data "expected";
  raise_if (negb (is_str name) || negb (in_values expected [VBool true; VBool false]))
    "INVALID_CAPABILITY_ASSERTION" ;;
  capabilities ← fld environment "capabilities";
  d ← items capabilities;
  let actual := match name with VStr s => default VNone (dget s d) | _ => VNone end in
  if is_none actual then
    Ok (NOT_RUN_ENV_UNAVAILABLE, "ENVIRONMENT_CAPABILITY_UNAVAILABLE", detail [("available", VBool false)])
  else if py_eq actual expected then
    Ok (PASS, "ENVIRONMENT_CAPABILITY_MATCHED", detail [("available", VBool true); ("matched", VBool true)])
  else
    Ok (FAIL, "ENVIRONMENT_CAPABILITY_MISMATCH", detail [("available", VBool true); ("matched", VBool false)]).

(* @src src/src/harness_conformance/campaign.py:79-86 HANDLERS *)
Definition HANDLERS : list (string * (value -> value -> res outcome)) :=
  [("STATIC_ASSERTION", _static); ("SCHEMA_ASSERTION", _schema);
   ("LIFECYCLE_ASSERTION", _lifecycle); ("EVENT_ASSERTION", _event);
   ("ENVIRONMENT_CAPABILITY", _capability); ("LINUX_READINESS", evaluate_control)].

(** ** The verdict *)

Definition is_required (r : ControlResult) : bool := truthy (required r).
Definition has_status (s : ResultStatus) (r : ControlResult) : bool := bool_decide (status r = s).

(* @src src/src/harness_conformance/campaign.py:89-101 _overall *)
Definition _overall (results : list ControlResult) : ResultStatus :=
  let required := List.filter is_required results in
  if existsb (has_status FAIL) results then FAIL
  else if existsb (has_status NOT_RUN_ENV_UNAVAILABLE) required then NOT_RUN_ENV_UNAVAILABLE
  else if existsb (fun r => negb (has_status PASS r)) required then WARN
  else if existsb (fun r => has_status WARN r || has_status NOT_RUN_ENV_UNAVAILABLE r) results then WARN
  else if negb (Nat.eqb (length results) 0) && forallb (has_status NOT_APPLICABLE) results
  then NOT_APPLICABLE
  else PASS.

(** ** The runner *)

(** One iteration of the loop over [campaign["controls"]]. *)
(* @src src/src/harness_conformance/campaign.py:114-129 run_campaign *)
Definition run_control (environment control : value) : res ControlResult :=
  handler ← fld control "handler";
  let attempt := f ← table_get HANDLERS handler; f control environment in
  '(status, reason, d) ←
    match attempt with
    | Raise (ConformanceError reason) =>
        Ok (FAIL, reason, detail [("valid", VBool false); ("reason", VStr (u reason))])
    | r => r
    end;
  control_id ← fld control "controlId";
  required ← fld control "required";
  axis ← fld control "axis";
  digest ← _observation control_id status reason d;
  Ok {| control_id := control_id; handler := handler; required := required; axis := axis;
        status := status; reason_code := reason; observation_digest := digest |}.

(* @src src/src/harness_conformance/campaign.py:104-143 run_campaign *)
Definition run_campaign (campaign environment : value) (run_id observed_at : str) : res value :=
  campaign ← validate_campaign campaign;
  environment ← validate_environment environment;
  controls ← fld campaign "controls";
  cs ← py_iter controls;
  results ← map_m (run_control environment) cs;
  campaignId ← fld campaign "campaignId";
  version ← fld campaign "version";
  environmentId ← fld environment "environmentId";
  executionClass ← fld campaign "executionClass";
  tenantId ← fld environment "tenantId";
  let report :=
    [(u "schemaVersion", VStr (u "harness.planeon.ai/campaign-report/v1alpha1"));
     (u "campaignId", campaignId); (u "campaignVersion", version);
     (u "environmentId", environmentId); (u "executionClass", executionClass);
     (u "observedAt", VStr observed_at); (u "results", VList (map as_dict results));
     (u "runId", VStr run_id); (u "status", VStr (u (status_value (_overall results))));
     (u "tenantId", tenantId)] in
  digest ← canonical_digest (VDict report) (Some "planeon.harness-conformance-report/v1alpha1");
  Ok (VDict (report ++ [(u "reportDigest", VStr digest)])).

(** [run_campaign_files]: the repository's files answer through the operating system.
    [resolve] is [Path.resolve] on a path as text, [is_symlink] the test on it. *)
Record filesystem := {
  fs_open : str -> option opened;
  resolve : str -> str;
  is_symlink : str -> bool
}.

(** [a / b], and [p in q.parents] on the components of two absolute paths. *)
Definition path_join (a b : str) : str := if is_absolute b then b else a ++ u "/" ++ b.
Fixpoint strict_prefix (p q : list str) : bool :=
  match p, q with
  | [], _ :: _ => true
  | a :: p', b :: q' => str_eqb a b && strict_prefix p' q'
  | _, _ => false
  end.
Definition in_parents (p q : str) : bool := strict_prefix (path_parts p) (path_parts q).

(* @src src/src/harness_conformance/campaign.py:146-154 run_campaign_files *)
Definition run_campaign_files (fs : filesystem) (campaign_path repository : str) : res (value * value) :=
  document ← load_json (fs_open fs) campaign_path false;
  campaign ← validate_campaign document;
  fixture ← fld campaign "environmentFixture";
  let environment_path :=
    resolve fs (path_join repository (match fixture with VStr s => s | _ => [] end)) in
  raise_if (negb (in_parents (resolve fs repository) environment_path) || is_symlink fs environment_path)
    "FIXTURE_OUTSIDE_REPOSITORY" ;;
  environment_document ← load_json (fs_open fs) environment_path false;
  environment ← validate_environment environment_document;
  campaignId ← fld campaign "campaignId";
  capturedAt ← fld environment "capturedAt";
  let run_id := (match campaignId with VStr s => s | _ => [] end) ++ u ".deterministic" in
  report ← run_campaign campaign environment run_id (match capturedAt with VStr s => s | _ => [] end);
  Ok (report, environment).
End campaign.

(** ** The verdict, outcome by outcome *)

Lemma has_status_true s r : has_status s r = true <-> status r = s.
Proof. apply bool_decide_eq_true. Qed.

Lemma existsb_status s rs : existsb (has_status s) rs = true <-> exists r, In r rs /\ status r = s.
Proof. rewrite existsb_exists. by setoid_rewrite has_status_true. Qed.

Lemma existsb_required (f : ControlResult -> bool) rs :
  existsb f (List.filter is_required rs) = true <->
  exists r, In r rs /\ is_required r = true /\ f r = true.
Proof. rewrite existsb_exists. setoid_rewrite filter_In. naive_solver. Qed.

(** The verdict is exact.  Over any control results, [_overall] is FAIL when some control
    failed; else NOT_RUN_ENV_UNAVAILABLE when a required one could not run; else PASS exactly
    when every required control passed and every other one passed or did not apply, and
    something passed unless nothing ran; NOT_APPLICABLE when nothing was required and
    nothing applied; WARN in every other case. *)
Theorem overall_exact rs :
  let some P := exists r, In r rs /\ P r in
  let every P := forall r, In r rs -> P r in
  match _overall rs with
  | FAIL => some (fun r => status r = FAIL)
  | NOT_RUN_ENV_UNAVAILABLE =>
      every (fun r => status r <> FAIL) /\
      some (fun r => is_required r = true /\ status r = NOT_RUN_ENV_UNAVAILABLE)
  | PASS =>
      every (fun r => status r = PASS \/ (status r = NOT_APPLICABLE /\ is_required r = false)) /\
      (rs = [] \/ some (fun r => status r = PASS))
  | NOT_APPLICABLE =>
      rs <> [] /\ every (fun r => status r = NOT_APPLICABLE /\ is_required r = false)
  | WARN =>
      every (fun r => status r <> FAIL /\ (is_required r = true -> status r <> NOT_RUN_ENV_UNAVAILABLE)) /\
      some (fun r => status r = WARN \/ (is_required r = true /\ status r = NOT_APPLICABLE) \/
                     (is_required r = false /\ status r = NOT_RUN_ENV_UNAVAILABLE))
  end.
Proof.
  unfold _overall. cbv beta zeta.
  destruct (existsb (has_status FAIL) rs) eqn:HF; [by apply existsb_status |].
  assert (forall r, In r rs -> status r <> FAIL) as NF.
  { intros r Hr E. apply not_true_iff_false in HF. apply HF, existsb_status. eauto. }
  destruct (existsb (has_status NOT_RUN_ENV_UNAVAILABLE) _) eqn:HN.
  { split; [done |]. apply existsb_required in HN as (r & ? & ? & ?%has_status_true). eauto. }
  assert (forall r, In r rs -> is_required r = true -> status r <> NOT_RUN_ENV_UNAVAILABLE) as NN.
  { intros r Hr Hq E. apply not_true_iff_false in HN. apply HN, existsb_required.
    exists r. by rewrite has_status_true. }
  destruct (existsb (fun r => negb (has_status PASS r)) _) eqn:HP.
  { split; [auto |]. apply existsb_required in HP as (r & Hr & Hq & Hp).
    apply negb_true_iff, bool_decide_eq_false in Hp. exists r. split; [done |].
    specialize (NF r Hr). specialize (NN r Hr Hq). destruct (status r) eqn:E; try done; auto. }
  assert (forall r, In r rs -> is_required r = true -> status r = PASS) as RP.
  { intros r Hr Hq. destruct (decide (status r = PASS)); [done |]. apply not_true_iff_false in HP.
    destruct HP. apply existsb_required. exists r. split; [done |]. split; [done |].
    by apply negb_true_iff, bool_decide_eq_false. }
  destruct (existsb (fun r => has_status WARN r || has_status NOT_RUN_ENV_UNAVAILABLE r) rs) eqn:HW.
  { split; [auto |]. apply existsb_exists in HW as (r & Hr & Hw). exists r. split; [done |].
    apply orb_true_iff in Hw as [Hw | Hw]; apply has_status_true in Hw; [auto |].
    destruct (is_required r) eqn:Hq; [by destruct (NN r Hr Hq) | auto]. }
  assert (forall r, In r rs -> status r = PASS \/ (status r = NOT_APPLICABLE /\ is_required r = false)) as EV.
  { intros r Hr. apply not_true_iff_false in HW. rewrite existsb_exists in HW.
    destruct (is_required r) eqn:Hq; [left; auto |]. specialize (NF r Hr).
    destruct (status r) eqn:E; auto; try done; destruct HW; exists r; (split; [done |]);
      apply orb_true_iff; rewrite !has_status_true; auto. }
  destruct (negb _ && _) eqn:HA.
  - apply andb_true_iff in HA as [Hne HA]. split; [by intros -> |].
    rewrite forallb_forall in HA. intros r Hr. specialize (HA r Hr). apply has_status_true in HA.
    destruct (EV r Hr) as [? | []]; [congruence | done].
  - split; [done |]. destruct rs as [|r rs]; [by left | right].
    apply andb_false_iff in HA as [? | HA]; [done |].
    destruct (existsb (has_status PASS) (r :: rs)) eqn:HE; [by apply existsb_status |].
    exfalso. apply not_true_iff_false in HA. apply HA, forallb_forall. intros x Hx.
    apply has_status_true. destruct (EV x Hx) as [? | []]; [|done].
    apply not_true_iff_false in HE. destruct HE. apply existsb_status. eauto.
Qed.

(** ** The runner *)

Section campaign_theorems.
Context {U : Unicode}.

(** A result carries its control's fields over. *)
Lemma run_control_Ok environment c r :
  run_control environment c = Ok r ->
  fld c "controlId" = Ok (control_id r) /\ fld c "handler" = Ok (handler r) /\
  fld c "required" = Ok (required r) /\ fld c "axis" = Ok (axis r) /\
  (handler r = VStr (u "LINUX_READINESS") -> status r = FAIL \/ status r = NOT_RUN_ENV_UNAVAILABLE).
Proof.
  unfold run_control. intros H. apply bind_Ok in H as (h & Hh & H). cbv zeta in H.
  apply bind_Ok in H as ([[st rs] d] & Hatt & H).
  apply bind_Ok in H as (i & Hi & H). apply bind_Ok in H as (q & Hq & H).
  apply bind_Ok in H as (a & Ha & H). apply bind_Ok in H as (g & _ & [= <-]). simpl.
  repeat (split; [done |]). intros ->.
  change (table_get HANDLERS (VStr (u "LINUX_READINESS"))) with (Ok evaluate_control) in Hatt.
  cbn [mbind res_bind] in Hatt. destruct (evaluate_control c environment) as [o|e] eqn:E.
  - injection Hatt as ->. right. unfold evaluate_control in E.
    apply bind_Ok in E as (? & _ & E). apply bind_Ok in E as (? & _ & E).
    apply bind_Ok in E as (? & _ & E). apply bind_Ok in E as (? & _ & E). by injection E as <- _ _.
  - destruct e; try done. injection Hatt as <- _ _. by left.
Qed.

(** What a returned report consists of. *)
Lemma run_campaign_Ok campaign environment run_id observed_at report :
  run_campaign campaign environment run_id observed_at = Ok report ->
  validate_campaign campaign = Ok campaign /\ validate_environment environment = Ok environment /\
  exists cs results cid version eid ec tid digest fields,
    fld campaign "controls" = Ok (VList cs) /\
    Forall2 (fun c r => run_control environment c = Ok r) cs results /\
    fld campaign "campaignId" = Ok cid /\ fld campaign "executionClass" = Ok ec /\
    fld environment "environmentId" = Ok eid /\ fld environment "tenantId" = Ok tid /\
    fields = [(u "schemaVersion", VStr (u "harness.planeon.ai/campaign-report/v1alpha1"));
      (u "campaignId", cid); (u "campaignVersion", version); (u "environmentId", eid);
      (u "executionClass", ec); (u "observedAt", VStr observed_at);
      (u "results", VList (map as_dict results)); (u "runId", VStr run_id);
      (u "status", VStr (u (status_value (_overall results)))); (u "tenantId", tid)] /\
    canonical_digest (VDict fields) (Some "planeon.harness-conformance-report/v1alpha1") = Ok digest /\
    report = VDict (fields ++ [(u "reportDigest", VStr digest)]).
Proof.
  unfold run_campaign. intros H. apply bind_Ok in H as (c & Hc & H).
  apply bind_Ok in H as (e & He & H).
  pose proof (validate_campaign_Ok _ _ Hc) as (-> & cs & ec & Hcs & _).
  pose proof (validate_environment_Ok _ _ He) as (-> & _).
  split; [done |]. split; [done |].
  rewrite Hcs in H. cbn [mbind res_bind py_iter] in H.
  apply bind_Ok in H as (results & Hr & H). apply map_m_Ok in Hr.
  apply bind_Ok in H as (cid & ? & H). apply bind_Ok in H as (version & ? & H).
  apply bind_Ok in H as (eid & ? & H). apply bind_Ok in H as (ec' & ? & H).
  apply bind_Ok in H as (tid & ? & H). cbv zeta in H.
  apply bind_Ok in H as (digest & ? & [= <-]).
  exists cs, results, cid, version, eid, ec', tid, digest. eexists. repeat (split; [done |]). done.
Qed.

Lemma _overall_not_pass rs r :
  In r rs -> is_required r = true -> status r = FAIL \/ status r = NOT_RUN_ENV_UNAVAILABLE ->
  _overall rs = FAIL \/ _overall rs = NOT_RUN_ENV_UNAVAILABLE.
Proof.
  intros Hr Hq Hs. unfold _overall. destruct (existsb (has_status FAIL) rs) eqn:E; [by left | right].
  destruct Hs as [Hs | Hs].
  - apply not_true_iff_false in E. destruct E. apply existsb_status. eauto.
  - rewrite (proj2 (existsb_required _ _)); [done |]. exists r. by rewrite has_status_true.
Qed.

(** A report is faithful to its campaign.  A returned report has one result per control, in
    order, with the control's identifier, requirement and axis; its verdict is [_overall]
    of those results; the tenant is the environment's; and the report digest binds every
    other field. *)
Theorem report_faithful campaign environment run_id observed_at report :
  run_campaign campaign environment run_id observed_at = Ok report ->
  exists cs results fields h, fld campaign "controls" = Ok (VList cs) /\
    report = VDict (fields ++ [(u "reportDigest", VStr h)]) /\
    canonical_digest (VDict fields) (Some "planeon.harness-conformance-report/v1alpha1") = Ok h /\
    fld report "results" = Ok (VList (map as_dict results)) /\
    Forall2 (fun c r => fld c "controlId" = Ok (control_id r) /\ fld c "handler" = Ok (handler r) /\
      fld c "required" = Ok (required r) /\ fld c "axis" = Ok (axis r)) cs results /\
    fld report "status" = Ok (VStr (u (status_value (_overall results)))) /\
    fld report "tenantId" = fld environment "tenantId".
Proof.
  intros (_ & _ & cs & results & cid & version & eid & ec & tid & h & fields & Hcs & Hr & _ & _ & _ &
    Ht & -> & Hd & ->)%run_campaign_Ok.
  eexists cs, results, _, h. split; [done |]. split; [reflexivity |]. split; [exact Hd |].
  split; [done |]. split; [|rewrite Ht; done].
  eapply Forall2_impl; [exact Hr |]. intros c r Hc%run_control_Ok. naive_solver.
Qed.

(** C4: this kit cannot make a native Linux claim: the report of a campaign with any Linux
    readiness control is FAIL or NOT_RUN_ENV_UNAVAILABLE, whatever else it contains. *)
Theorem linux_campaign_never_passes campaign environment run_id observed_at report cs c :
  run_campaign campaign environment run_id observed_at = Ok report ->
  fld campaign "controls" = Ok (VList cs) -> In c cs ->
  fld c "handler" = Ok (VStr (u "LINUX_READINESS")) ->
  fld report "status" = Ok (VStr (u "FAIL")) \/
  fld report "status" = Ok (VStr (u "NOT_RUN_ENV_UNAVAILABLE")).
Proof.
  intros (Hv & _ & cs' & results & cid & version & eid & ec & tid & h & fields & Hcs & Hr & _ & _ & _ &
    _ & -> & _ & ->)%run_campaign_Ok Hcs' Hin Hh.
  rewrite Hcs in Hcs'. injection Hcs' as ->.
  destruct (validate_campaign_controls _ _ _ _ Hv Hcs Hin) as (ec' & s1 & s2 & Hc).
  pose proof (validate_control_linux _ _ _ _ Hc Hh) as Hq.
  apply list_elem_of_In, list_elem_of_lookup in Hin as [i Hi].
  destruct (Forall2_lookup_l _ _ _ _ _ Hr Hi) as (r & Hri & Hrun).
  destruct (run_control_Ok _ _ _ Hrun) as (_ & Hh' & Hq' & _ & Hst).
  rewrite Hh in Hh'. rewrite Hq in Hq'. injection Hh' as Hh'. injection Hq' as Hq'.
  apply list_elem_of_lookup_2, list_elem_of_In in Hri.
  destruct (_overall_not_pass results r Hri) as [E | E]; [unfold is_required; by rewrite <- Hq' | auto | |];
    rewrite E; auto.
Qed.
End campaign_theorems.
