(* ===== verification/Evidence.v ===== *)
(** evidence.py and acceptance.py: technical evidence bundles, their signatures, and the
    unsigned acceptance candidate. *)

From S2P Require Import Prelude PyVal Utf8 Json Sha2 Canonical Base64 Ed25519 IsoTime Regex.
From S2P Require Import SchemaBase Lifecycle LinuxShape Schema Campaign.

#[local] Open Scope string_scope.
#[local] Open Scope list_scope.
#[local] Open Scope Z_scope.

(* @src src/src/harness_conformance/evidence.py:11-11 EVIDENCE_DOMAIN *)
Definition EVIDENCE_DOMAIN : string := "planeon.harness-technical-evidence/v1alpha1".

(** [str(v)], as an f-string inserts it; on a [str] it is the text itself. *)
Class PyFormat := py_str : value -> str.
Class PyFormatOk (F : PyFormat) : Prop := py_str_str : forall s, py_str (VStr s) = s.

(** [list(dict.fromkeys(l))]. *)
Definition dict_fromkeys (l : list value) : res (list value) := py_set l.

(** [x in l] for a value [l]: a list or a dict's keys; a substring test on a [str]. *)
Definition lit_in (s : string) (v : value) : res bool :=
  match v with
  | VList l => Ok (existsb (fun x => eq_lit x s) l)
  | VDict d => Ok (dhas (u s) d)
  | VStr t => Ok (substr_in (u s) t)
  | _ => Raise TypeError
  end.

Section evidence.
Context {U : Unicode} {F : PyFormat} {S : SigScheme}.

(* @src src/src/harness_conformance/evidence.py:14-35 build_evidence *)
Definition build_evidence (report : value) : res value :=
  ec ← py_get report "executionClass";
  originated_axes ←
    (if match ec with Some x => eq_lit x "OFFLINE_TEST" | None => false end
     then Ok [VStr (u "UNIT")]
     else results ← fld report "results";
          rs ← py_iter results;
          axes ← map_m (fun r => fld r "axis") rs;
          dict_fromkeys axes);
  raise_if (existsb (fun x => eq_lit x "TENANT_ACCEPTANCE") originated_axes) "TENANT_ACCEPTANCE_FORBIDDEN" ;;
  runId ← fld report "runId";
  campaignId ← fld report "campaignId";
  environmentId ← fld report "environmentId";
  observedAt ← fld report "observedAt";
  reportDigest ← fld report "reportDigest";
  status ← fld report "status";
  tenantId ← fld report "tenantId";
  let evidence :=
    [(u "schemaVersion", VStr (u "harness.planeon.ai/technical-evidence-bundle/v1alpha1"));
     (u "bundleId", VStr (py_str runId ++ u ".evidence")); (u "campaignId", campaignId);
     (u "environmentId", environmentId); (u "issuedAt", observedAt);
     (u "originatedAxes", VList originated_axes);
     (u "producer", VStr (u "planeon.harness-conformance/0.1.0"));
     (u "reportDigest", reportDigest); (u "resultStatus", status);
     (u "subjectDigests", VList [reportDigest]); (u "tenantId", tenantId)] in
  digest ← canonical_digest (VDict evidence) (Some EVIDENCE_DOMAIN);
  Ok (VDict (evidence ++ [(u "bundleDigest", VStr digest)])).

(* @src src/src/harness_conformance/evidence.py:40-53 validate_evidence *)
Definition base : list string :=
  ["schemaVersion"; "bundleId"; "campaignId"; "environmentId"; "issuedAt"; "originatedAxes"; "producer";
   "reportDigest"; "resultStatus"; "subjectDigests"; "tenantId"; "bundleDigest"].
(* @src src/src/harness_conformance/evidence.py:54-54 validate_evidence *)
Definition signature_fields : list string := ["signerKeyId"; "signaturePurpose"; "signature"].

(* @src src/src/harness_conformance/evidence.py:38-90 validate_evidence *)
Definition validate_evidence (v : value) (signed : option bool) : res value :=
  require_object v ;;
  d ← items v;
  let present := List.filter (fun k => dhas (u k) d) signature_fields in
  (match signed with
   | Some true => closed v (base ++ signature_fields) []
   | Some false => closed v base []
   | None =>
       closed v base signature_fields ;;
       raise_if (negb (Nat.eqb (length present) 0) && negb (Nat.eqb (length present) 3))
         "INCOMPLETE_SIGNATURE"
   end) ;;
  schema ← fld v "schemaVersion";
  raise_if (negb (eq_lit schema "harness.planeon.ai/technical-evidence-bundle/v1alpha1")) "UNSUPPORTED_SCHEMA" ;;
  each_field v ["issuedAt"] (fun x => _ ← SchemaBase.require_time x; Ok tt) ;;
  each_field v ["reportDigest"; "bundleDigest"] require_digest ;;
  resultStatus ← fld v "resultStatus";
  raise_if (negb (in_lits resultStatus RESULT_STATES)) "INVALID_RESULT" ;;
  originatedAxes ← fld v "originatedAxes";
  raise_if (negb (is_list originatedAxes) || negb (truthy originatedAxes)) "INVALID_AXIS" ;;
  axes ← py_iter originatedAxes;
  axis_set ← py_set axes;
  raise_if (negb (zlen axes =? zlen axis_set)) "DUPLICATE_AXIS" ;;
  raise_if (existsb (fun axis => negb (in_lits axis EVIDENCE_AXES) || eq_lit axis "TENANT_ACCEPTANCE") axes)
    "INVALID_AXIS" ;;
  subjectDigests ← fld v "subjectDigests";
  raise_if (negb (is_list subjectDigests) || negb (truthy subjectDigests)) "INVALID_SUBJECT" ;;
  digests ← py_iter subjectDigests;
  for_each require_digest digests ;;
  let unsigned := dwithout (u <$> (signature_fields ++ ["bundleDigest"])) d in
  expected ← canonical_digest (VDict unsigned) (Some EVIDENCE_DOMAIN);
  bundleDigest ← fld v "bundleDigest";
  raise_if (negb (py_eq bundleDigest (VStr expected))) "EVIDENCE_DIGEST_MISMATCH" ;;
  (if forallb (fun k => dhas (u k) d) signature_fields then
     each_field v ["signerKeyId"] require_key_id ;;
     purpose ← fld v "signaturePurpose";
     raise_if (negb (eq_lit purpose "TECHNICAL_EVIDENCE")) "INVALID_SIGNATURE_PURPOSE" ;;
     each_field v ["signature"] (fun x => _ ← b64url_decode x 64; Ok tt)
   else Ok tt) ;;
  Ok v.

(* @src src/src/harness_conformance/evidence.py:93-108 sign_evidence *)
Definition sign_evidence (evidence key : value) : res value :=
  _ ← validate_evidence evidence (Some false);
  require_object key ;;
  closed key ["schemaVersion"; "keyId"; "purpose"; "seed"] [] ;;
  schema ← fld key "schemaVersion";
  raise_if (negb (eq_lit schema "harness.planeon.ai/test-signing-key/v1alpha1")) "UNSUPPORTED_KEY_SCHEMA" ;;
  keyId ← fld key "keyId";
  require_key_id keyId ;;
  purpose ← fld key "purpose";
  raise_if (negb (eq_lit purpose "TECHNICAL_EVIDENCE")) "SIGNING_PURPOSE_FORBIDDEN" ;;
  seed_text ← fld key "seed";
  seed ← b64url_decode seed_text 32;
  d ← items evidence;
  let signed := dset (u "signaturePurpose") (VStr (u "TECHNICAL_EVIDENCE"))
                  (dset (u "signerKeyId") keyId d) in
  payload ← signature_payload EVIDENCE_DOMAIN (VDict signed) ["signature"];
  signature ← sig_sign seed payload;
  Ok (VDict (dset (u "signature") (VStr (b64url_encode signature)) signed)).

(* @src src/src/harness_conformance/evidence.py:111-137 verify_evidence *)
Definition verify_evidence (evidence trust_bundle : value) (now : value) : res value :=
  evidence ← validate_evidence evidence (Some true);
  require_object trust_bundle ;;
  closed trust_bundle ["schemaVersion"; "keys"] [] ;;
  schema ← fld trust_bundle "schemaVersion";
  raise_if (negb (eq_lit schema "harness.planeon.ai/conformance-trust-bundle/v1alpha1")) "UNSUPPORTED_TRUST_SCHEMA" ;;
  keys ← fld trust_bundle "keys";
  raise_if (negb (is_list keys)) "INVALID_TRUST_BUNDLE" ;;
  ks ← py_iter keys;
  signerKeyId ← (match ks with [] => Ok VNone | _ => fld evidence "signerKeyId" end);
  match List.filter (key_matches signerKeyId) ks with
  | [entry] =>
      closed entry ["keyId"; "purpose"; "publicKey"; "tenantId"; "validFrom"; "validUntil"; "revoked"] [] ;;
      purpose ← fld entry "purpose";
      scope ← (Ok (negb (eq_lit purpose "TECHNICAL_EVIDENCE")) <||>
               (a ← fld entry "tenantId"; b ← fld evidence "tenantId"; Ok (negb (py_eq a b))));
      raise_if scope "TRUST_SCOPE_MISMATCH" ;;
      revoked ← fld entry "revoked";
      raise_if (negb (is_false_lit revoked)) "TRUST_KEY_REVOKED" ;;
      instant ← SchemaBase.require_time now;
      current ← ((x ← fld entry "validFrom"; from ← SchemaBase.require_time x; time_leb from instant) <&&>
                 (x ← fld entry "validUntil"; until ← SchemaBase.require_time x; time_leb instant until));
      raise_if (negb current) "TRUST_KEY_NOT_CURRENT" ;;
      pk ← fld entry "publicKey";
      public ← b64url_decode pk 32;
      sg ← fld evidence "signature";
      signature ← b64url_decode sg 64;
      payload ← signature_payload EVIDENCE_DOMAIN evidence ["signature"];
      valid ← sig_verify public payload signature;
      raise_if (negb valid) "SIGNATURE_INVALID" ;;
      keyId ← fld entry "keyId";
      Ok (VDict [(u "keyId", keyId); (u "publicKey", VStr (b64url_encode public)); (u "verified", VBool true)])
  | _ => conf "AMBIGUOUS_TRUST_KEY"
  end.

(* @src src/src/harness_conformance/evidence.py:140-150 public_entry *)
Definition public_entry (key tenant_id valid_from valid_until : value) : res value :=
  seed_text ← fld key "seed";
  seed ← b64url_decode seed_text 32;
  keyId ← fld key "keyId";
  public ← sig_public_key seed;
  Ok (VDict [(u "keyId", keyId); (u "purpose", VStr (u "TECHNICAL_EVIDENCE"));
             (u "publicKey", VStr (b64url_encode public)); (u "revoked", VBool false);
             (u "tenantId", tenant_id); (u "validFrom", valid_from); (u "validUntil", valid_until)]).

(** ** acceptance.py *)

(* @src src/src/harness_conformance/acceptance.py:10-28 build_candidate *)
Definition build_candidate (report evidence : value) : res value :=
  evidence ← validate_evidence evidence None;
  mismatch ← ((a ← fld evidence "tenantId"; b ← fld report "tenantId"; Ok (negb (py_eq a b))) <||>
              (a ← fld evidence "reportDigest"; b ← fld report "reportDigest"; Ok (negb (py_eq a b))));
  raise_if mismatch "CANDIDATE_BINDING_MISMATCH" ;;
  axes ← fld evidence "originatedAxes";
  forbidden ← lit_in "TENANT_ACCEPTANCE" axes;
  raise_if forbidden "TENANT_ACCEPTANCE_FORBIDDEN" ;;
  runId ← fld report "runId";
  campaignId ← fld report "campaignId";
  observedAt ← fld report "observedAt";
  bundleDigest ← fld evidence "bundleDigest";
  results ← fld report "results";
  rs ← py_iter results;
  statuses ← map_m (fun r => s ← fld r "status";
                 if eq_lit s "PASS" then Ok [] else c ← fld r "reasonCode"; Ok [c]) rs;
  tenantId ← fld report "tenantId";
  let candidate :=
    [(u "schemaVersion", VStr (u "harness.planeon.ai/tenant-acceptance-candidate/v1alpha1"));
     (u "candidateId", VStr (py_str runId ++ u ".candidate")); (u "campaignId", campaignId);
     (u "createdAt", observedAt); (u "evidenceDigests", VList [bundleDigest]);
     (u "findings", VList (concat statuses)); (u "status", VStr (u "PENDING"));
     (u "tenantId", tenantId); (u "unsigned", VBool true)] in
  digest ← canonical_digest (VDict candidate) (Some "planeon.harness-acceptance-candidate/v1alpha1");
  Ok (VDict (candidate ++ [(u "candidateDigest", VStr digest)])).

(* @src src/src/harness_conformance/acceptance.py:34-45 validate_candidate *)
Definition candidate_fields : list string :=
  ["schemaVersion"; "candidateId"; "campaignId"; "createdAt"; "evidenceDigests"; "findings"; "status";
   "tenantId"; "unsigned"; "candidateDigest"].

(* @src src/src/harness_conformance/acceptance.py:31-55 validate_candidate *)
Definition validate_candidate (candidate : value) : res value :=
  raise_if (negb (is_dict candidate)) "TYPE_MISMATCH" ;;
  d ← items candidate;
  raise_if (negb (forallb (fun k => str_in k (u <$> candidate_fields)) (dkeys d) &&
                  forallb (fun k => dhas (u k) d) candidate_fields)) "CANDIDATE_NOT_UNSIGNED" ;;
  status ← fld candidate "status";
  unsigned ← fld candidate "unsigned";
  raise_if (negb (eq_lit status "PENDING") || negb (is_true_lit unsigned)) "CANDIDATE_STATE_INVALID" ;;
  raise_if (existsb (fun k => substr_in (u "signature") (lower k) || str_eqb k (u "tenantAcceptance")) (dkeys d))
    "TENANT_ACCEPTANCE_FORBIDDEN" ;;
  candidateDigest ← fld candidate "candidateDigest";
  expected ← canonical_digest (VDict (dwithout [u "candidateDigest"] d))
               (Some "planeon.harness-acceptance-candidate/v1alpha1");
  raise_if (negb (py_eq candidateDigest (VStr expected))) "CANDIDATE_DIGEST_MISMATCH" ;;
  Ok candidate.
End evidence.

(** ** What the runner's reports become *)

Section evidence_theorems.
Context {U : Unicode} {F : PyFormat} {S : SigScheme}.

(** A list of axes that evidence may originate. *)
Definition evidence_axes (l : list value) : Prop :=
  l <> [] /\ distinct l /\
  forall x, In x l -> exists a, x = VStr (u a) /\ In a EVIDENCE_AXES /\ a <> "TENANT_ACCEPTANCE".

Lemma evidence_axes_accepted l :
  evidence_axes l ->
  py_set l = Ok l /\ truthy (VList l) = true /\
  existsb (fun axis => negb (in_lits axis EVIDENCE_AXES) || eq_lit axis "TENANT_ACCEPTANCE") l = false.
Proof.
  intros (Hne & Hd & Hl). split; [|split].
  - unfold py_set. assert (forallb hashable l = true) as ->; [|by rewrite dedup_id].
    apply forallb_forall. intros x Hx. by destruct (Hl x Hx) as (a & -> & _).
  - by destruct l.
  - apply not_true_iff_false. intros (x & Hx & H)%existsb_exists.
    destruct (Hl x Hx) as (a & -> & Ha & Hn). apply orb_true_iff in H as [H | H].
    + apply negb_true_iff, not_true_iff_false in H. apply H, in_lits_true. eauto.
    + apply eq_lit_true in H. injection H as H. by apply u_inj in H.
Qed.

(** The bundle [build_evidence] makes from given fields. *)
Definition bundle (runId campaignId environmentId observedAt : value) (axes : list value)
    (reportDigest status tenantId : value) : dict :=
  [(u "schemaVersion", VStr (u "harness.planeon.ai/technical-evidence-bundle/v1alpha1"));
   (u "bundleId", VStr (py_str runId ++ u ".evidence")); (u "campaignId", campaignId);
   (u "environmentId", environmentId); (u "issuedAt", observedAt);
   (u "originatedAxes", VList axes);
   (u "producer", VStr (u "planeon.harness-conformance/0.1.0"));
   (u "reportDigest", reportDigest); (u "resultStatus", status);
   (u "subjectDigests", VList [reportDigest]); (u "tenantId", tenantId)].

Lemma validate_bundle runId cid eid at_ axes rd status tid h :
  evidence_axes axes -> (exists t, SchemaBase.require_time at_ = Ok t) ->
  require_digest rd = Ok tt -> in_lits status RESULT_STATES = true ->
  canonical_digest (VDict (bundle runId cid eid at_ axes rd status tid)) (Some EVIDENCE_DOMAIN) = Ok h ->
  let e := VDict (bundle runId cid eid at_ axes rd status tid ++ [(u "bundleDigest", VStr h)]) in
  validate_evidence e (Some false) = Ok e.
Proof.
  intros Hax [t Ht] Hrd Hst Hh e. destruct (evidence_axes_accepted _ Hax) as (Hset & Htr & Hex).
  unfold validate_evidence.
  do 5 ok_go. ok_go.
  { apply seq_Ok. split; [|done]. apply bind_Ok. exists at_. split; [done |].
    apply bind_Ok. by exists t. }
  ok_go.
  { apply seq_Ok. split; [apply bind_Ok; by exists rd |]. apply seq_Ok. split; [|done].
    apply bind_Ok. exists (VStr h). split; [done | by eapply canonical_digest_shape]. }
  ok_go. ok_go; [by rewrite Hst |].
  ok_go. ok_go; [by rewrite Htr |]. ok_go. ok_go; [exact Hset |]. ok_go; [by rewrite Z.eqb_refl |].
  ok_go; [by rewrite Hex |]. do 3 ok_go.
  ok_go; [by apply seq_Ok |]. ok_go; [exact Hh |]. ok_go.
  ok_go; [|done]. apply raise_if_Ok. simpl. by rewrite str_eqb_refl.
Qed.

Lemma dedup_axes_ok results (cs : list value) :
  cs <> [] -> length cs = length results -> 
  (forall r, In r results -> exists a, axis r = VStr (u a) /\ In a EVIDENCE_AXES /\ a <> "TENANT_ACCEPTANCE") ->
  evidence_axes (dedup (map axis results)).
Proof.
  intros Hne Hl H. split; [|split].
  - intros E%dedup_nil. by destruct results, cs.
  - apply dedup_distinct.
  - intros x (r & <- & Hr)%dedup_In%in_map_iff. by apply H.
Qed.

Lemma axes_of_results results :
  map_m (fun r => fld r "axis") (map as_dict results) = Ok (map axis results).
Proof. induction results as [|r rs IH]; [done |]. simpl map. cbn [map_m]. by rewrite IH. Qed.

Lemma status_value_state s : in_lits (VStr (u (status_value s))) RESULT_STATES = true.
Proof. destruct s; by vm_compute. Qed.

(** What the runner reports becomes valid evidence.  For a report of an accepted campaign
    observed at a valid time, the bundle [build_evidence] returns passes [validate_evidence]
    unsigned; it binds the report's digest as its only subject and carries its tenant and
    verdict; an offline campaign originates UNIT alone, and no bundle originates
    TENANT_ACCEPTANCE. *)
Theorem evidence_of_report_valid campaign environment run_id observed_at report evidence t :
  run_campaign campaign environment run_id observed_at = Ok report ->
  SchemaBase.require_time (VStr observed_at) = Ok t ->
  build_evidence report = Ok evidence ->
  validate_evidence evidence (Some false) = Ok evidence /\
  fld evidence "reportDigest" = fld report "reportDigest" /\
  fld evidence "tenantId" = fld environment "tenantId" /\
  fld evidence "resultStatus" = fld report "status" /\
  exists axes, fld evidence "originatedAxes" = Ok (VList axes) /\ evidence_axes axes /\
    (fld campaign "executionClass" = Ok (VStr (u "OFFLINE_TEST")) -> axes = [VStr (u "UNIT")]).
Proof.
  intros (Hv & _ & cs & results & cid & version & eid & ec & tid & rd & fields & Hcs & Hr & _ & Hec & _ &
    Ht & -> & Hd & ->)%run_campaign_Ok Htime Hb.
  destruct (validate_campaign_Ok _ _ Hv) as (_ & cs' & ecs & Hcs' & Hlen & _ & Hec' & Hax).
  rewrite Hcs in Hcs'. injection Hcs' as <-. rewrite Hec in Hec'. injection Hec' as ->.
  assert (exists axes, evidence_axes axes /\ (ecs = "OFFLINE_TEST" -> axes = [VStr (u "UNIT")]) /\
    exists h, canonical_digest (VDict (bundle (VStr run_id) cid eid (VStr observed_at) axes (VStr rd)
       (VStr (u (status_value (_overall results)))) tid)) (Some EVIDENCE_DOMAIN) = Ok h /\
    evidence = VDict (bundle (VStr run_id) cid eid (VStr observed_at) axes (VStr rd)
       (VStr (u (status_value (_overall results)))) tid ++ [(u "bundleDigest", VStr h)]))
    as (axes & Haxes & Hoff & h & Hh & ->).
  { unfold build_evidence in Hb. apply bind_Ok in Hb as (x & Hx & Hb). injection Hx as <-.
    apply bind_Ok in Hb as (axes & Ha & Hb). apply seq_Ok in Hb as [Hta Hb].
    do 7 apply bind_Ok in Hb as (? & [= <-] & Hb). cbv zeta in Hb.
    apply bind_Ok in Hb as (h & Hh & [= <-]).
    exists axes. split; [|split; [|exists h; split; [exact Hh | done]]].
    - destruct (eq_lit (VStr (u ecs)) "OFFLINE_TEST") eqn:E.
      + injection Ha as <-. split; [done |]. split; [by repeat constructor |].
        intros x [<- | []]. exists "UNIT". by simpl; auto.
      + apply bind_Ok in Ha as (? & [= <-] & Ha). cbn [py_iter mbind res_bind] in Ha.
        rewrite axes_of_results in Ha. cbn [mbind res_bind] in Ha.
        apply py_set_Ok in Ha as [-> _].
        apply (dedup_axes_ok results cs); [intros ->; by destruct Hlen | by eapply Forall2_length |].
        intros r Hrin. apply list_elem_of_In, list_elem_of_lookup in Hrin as [i Hi].
        destruct (Forall2_lookup_r _ _ _ _ _ Hr Hi) as (c & Hc & (_ & _ & _ & Hra & _)%run_control_Ok).
        destruct (Hax c) as (a & Ha & Hn & Hcase); [by eapply list_elem_of_In, list_elem_of_lookup_2 |].
        rewrite Ha in Hra. injection Hra as <-. exists a. split; [done |]. split; [|done].
        destruct Hcase as [[_ ->] | [_ Hin]]; [by simpl; auto |].
        simpl in *. tauto.
    - intros ->. change (eq_lit (VStr (u "OFFLINE_TEST")) "OFFLINE_TEST") with true in Ha.
      by injection Ha as <-. }
  split; [|split; [done | split; [by rewrite Ht | split; [done |]]]].
  - apply validate_bundle; eauto using canonical_digest_shape, status_value_state.
  - exists axes. split; [done |]. split; [done |]. rewrite Hec. intros [= E%u_inj]. auto.
Qed.

(** ** Signing and verification *)

(** The members a signature adds. *)
Definition sig_fields (key_id signature : value) : dict :=
  [(u "signerKeyId", key_id); (u "signaturePurpose", VStr (u "TECHNICAL_EVIDENCE"));
   (u "signature", signature)].

Lemma unsigned_no_signature d :
  closed (VDict d) base [] = Ok tt -> forall k, In k (dkeys d) -> ~ In k (u <$> signature_fields).
Proof.
  intros (? & [= <-] & _ & H)%closed_Ok k [Hk | []]%H Hs.
  apply list_elem_of_In, list_elem_of_fmap in Hk as (n & -> & Hn), Hs as (m & E & Hm).
  apply u_inj in E as <-. apply list_elem_of_In in Hn, Hm.
  simpl in Hn, Hm. repeat destruct Hm as [<- | Hm]; [..| done];
    repeat destruct Hn as [[=] | Hn]; done.
Qed.

Lemma each_field_app d e names check :
  each_field (VDict d) names check = Ok tt -> each_field (VDict (d ++ e)) names check = Ok tt.
Proof.
  unfold each_field. rewrite !for_each_Ok, !List.Forall_forall. intros H k Hk. specialize (H k Hk).
  revert H. rewrite !bind_Ok. intros (x & Hx & ?). exists x. split; [by apply fld_app | done].
Qed.

Lemma closed_signed d kid sg :
  closed (VDict d) base [] = Ok tt ->
  closed (VDict (d ++ sig_fields kid sg)) (base ++ signature_fields) [] = Ok tt.
Proof.
  intros Hc. pose proof (unsigned_no_signature _ Hc) as Hno.
  apply closed_Ok in Hc as (? & [= <-] & H1 & H2). apply closed_Ok. eexists. split; [done |]. split.
  - intros k [Hb | Hb]%in_app_iff; rewrite dget_app.
    + by destruct (H1 k Hb) as [x ->].
    + assert (dget (u k) d = None) as ->.
      { apply dget_None. intros Hd. apply (Hno _ Hd). by apply in_map. }
      simpl in Hb. destruct Hb as [<- | [<- | [<- | []]]]; by eexists.
  - intros k. unfold dkeys. rewrite map_app, in_app_iff, fmap_app, in_app_iff.
    intros [Hd | Hd]; left; [left | right; exact Hd]. by destruct (H2 k Hd) as [? | []].
Qed.

Lemma sig_field d kid sg k x :
  closed (VDict d) base [] = Ok tt -> dget (u k) (sig_fields kid sg) = Some x ->
  In k signature_fields -> fld (VDict (d ++ sig_fields kid sg)) k = Ok x.
Proof.
  intros Hc Hx Hk. apply fld_Ok. eexists. split; [done |]. rewrite dget_app.
  assert (dget (u k) d = None) as ->; [|done].
  apply dget_None. intros Hd. apply (unsigned_no_signature _ Hc _ Hd). by apply in_map.
Qed.

Lemma unsigned_closed d w :
  validate_evidence (VDict d) (Some false) = Ok w -> closed (VDict d) base [] = Ok tt.
Proof.
  unfold validate_evidence. intros [_ H]%seq_Ok. apply bind_Ok in H as (? & _ & H).
  by apply seq_Ok in H as [H _].
Qed.

(** Takes a step that a run on [d] made in the run on a dict that extends [d]. *)
Ltac carry H :=
  lazymatch type of H with
  | (fld _ _ ≫= _) = Ok _ =>
      let x := fresh "x" in let Hx := fresh "Hx" in
      apply bind_Ok in H as (x & Hx & H); apply bind_Ok; exists x; split; [by apply fld_app |]
  | (each_field _ _ _ ≫= _) = Ok _ =>
      let Hx := fresh "Hx" in
      apply seq_Ok in H as [Hx H]; apply seq_Ok; split; [by apply each_field_app |]
  | (?m ≫= _) = Ok _ =>
      lazymatch type of m with
      | res unit => let Hx := fresh "Hx" in
          apply seq_Ok in H as [Hx H]; apply seq_Ok; split; [exact Hx |]
      | _ => let x := fresh "x" in let Hx := fresh "Hx" in
          apply bind_Ok in H as (x & Hx & H); apply bind_Ok; exists x; split; [exact Hx |]
      end
  end.

(** Adding a well-formed signature keeps a bundle valid: its digest leaves the signature's
    members out. *)
Lemma validate_signed d kid sg b :
  validate_evidence (VDict d) (Some false) = Ok (VDict d) ->
  require_key_id kid = Ok tt -> b64url_decode sg 64 = Ok b ->
  let e := VDict (d ++ sig_fields kid sg) in validate_evidence e (Some true) = Ok e.
Proof.
  intros H Hk Hs e. unfold validate_evidence in H |- *.
  apply seq_Ok in H as [_ H]. apply bind_Ok in H as (? & [= <-] & H). cbv zeta in H.
  apply seq_Ok in H as [Hc H].
  pose proof (fun k x => sig_field d kid sg k x Hc) as Hsig.
  assert (dwithout (u <$> (signature_fields ++ ["bundleDigest"])) (d ++ sig_fields kid sg) =
          dwithout (u <$> (signature_fields ++ ["bundleDigest"])) d) as Ed.
  { rewrite dwithout_app. by rewrite app_nil_r. }
  ok_go. ok_go.
  ok_go; [by apply closed_signed |].
  cbv zeta; repeat carry H. rewrite Ed. repeat carry H.
  assert (forallb (fun k => dhas (u k) (d ++ sig_fields kid sg)) signature_fields = true) as ->.
  { apply forallb_forall. intros k Hk'. apply dhas_In. unfold dkeys. rewrite map_app.
    apply in_app_iff. right. exact (in_map u _ _ Hk'). }
  ok_go; [|done]. ok_go.
  { apply seq_Ok. split; [|done]. apply bind_Ok. exists kid. split; [by apply Hsig; simpl; auto | done]. }
  apply bind_Ok. eexists. split; [apply Hsig; simpl; eauto |]. ok_go.
  apply seq_Ok. split; [|done]. apply bind_Ok. exists sg. split; [by apply Hsig; simpl; auto |].
  apply bind_Ok. eauto.
Qed.

Lemma validate_evidence_Ok v sd w :
  validate_evidence v sd = Ok w -> w = v /\ exists d, v = VDict d.
Proof.
  unfold validate_evidence. intros H. apply seq_Ok in H as [Hd%require_object_Ok H].
  split; [|done]. cbv zeta in H.
  repeat (apply bind_Ok in H as (? & _ & H); cbv beta zeta in H). by injection H.
Qed.

(** The conditions under which a trust entry admits a piece of evidence at an instant. *)
Record entry_admits (entry evidence : value) (now : datetime) : Prop := {
  admits_purpose : fld entry "purpose" = Ok (VStr (u "TECHNICAL_EVIDENCE"));
  admits_tenant : exists t t', fld entry "tenantId" = Ok t /\ fld evidence "tenantId" = Ok t' /\ py_eq t t' = true;
  admits_revoked : fld entry "revoked" = Ok (VBool false);
  admits_from : exists x from, fld entry "validFrom" = Ok x /\ SchemaBase.require_time x = Ok from /\
                  time_leb from now = Ok true;
  admits_until : exists x until, fld entry "validUntil" = Ok x /\ SchemaBase.require_time x = Ok until /\
                  time_leb now until = Ok true
}.

(** C1: verification of technical evidence is sound.  [verify_evidence] returns only when the
    bundle is valid and signed, its signer's key id names exactly one object of the trust
    bundle, that entry is for technical evidence, of the bundle's tenant, not revoked and
    within its validity window at [now], and the signature verifies under the entry's key over
    the domain, a NUL and the canonical bytes of everything but the signature; the receipt
    names that key. *)
Theorem verified_evidence_trusted evidence trust now receipt :
  verify_evidence evidence trust now = Ok receipt ->
  validate_evidence evidence (Some true) = Ok evidence /\
  exists ks signer entry instant pk sg payload key_id,
    fld trust "keys" = Ok (VList ks) /\ fld evidence "signerKeyId" = Ok signer /\
    List.filter (key_matches signer) ks = [entry] /\
    SchemaBase.require_time now = Ok instant /\ entry_admits entry evidence instant /\
    fld entry "publicKey" = Ok (VStr (b64url_encode pk)) /\ zlen pk = 32 /\
    fld evidence "signature" = Ok (VStr (b64url_encode sg)) /\ zlen sg = 64 /\
    signature_payload EVIDENCE_DOMAIN evidence ["signature"] = Ok payload /\
    sig_verify pk payload sg = Ok true /\ fld entry "keyId" = Ok key_id /\
    receipt = VDict [(u "keyId", key_id); (u "publicKey", VStr (b64url_encode pk)); (u "verified", VBool true)].
Proof.
  unfold verify_evidence. intros H. apply bind_Ok in H as (ev & Hv & H).
  pose proof (validate_evidence_Ok _ _ _ Hv) as [-> _]. split; [done |].
  do 2 apply seq_Ok in H as [_ H]. apply bind_Ok in H as (? & _ & H). apply seq_Ok in H as [_ H].
  apply bind_Ok in H as (keys & Hk & H). apply seq_Ok in H as [Hl H].
  destruct keys; try done. cbn [py_iter mbind res_bind] in H. fold (@mbind res _) in H.
  apply bind_Ok in H as (signer & Hs & H).
  destruct (List.filter _ l) as [|entry [|? ?]] eqn:Hf; try done.
  destruct l as [|k ks]; [done |].
  apply seq_Ok in H as [_ H]. apply bind_Ok in H as (purpose & Hp & H).
  apply bind_Ok in H as (scope & Hsc & H). apply seq_Ok in H as [->%raise_if_Ok H].
  apply or_m_false in Hsc as [[= Hpt%negb_false_iff%eq_lit_true] Hsc].
  apply bind_Ok in Hsc as (t & Ht & Hsc). apply bind_Ok in Hsc as (t' & Ht' & [= Heq%negb_false_iff]).
  apply bind_Ok in H as (rv & Hr & H). apply seq_Ok in H as [Hrv%raise_if_Ok%negb_false_iff H].
  apply bind_Ok in H as (instant & Hn & H). apply bind_Ok in H as (cur & Hc & H).
  apply seq_Ok in H as [->%raise_if_Ok%negb_false_iff H].
  apply and_m_true in Hc as [Hc1 Hc2].
  apply bind_Ok in Hc1 as (x1 & Hx1 & Hc1), Hc2 as (x2 & Hx2 & Hc2).
  apply bind_Ok in Hc1 as (a1 & Ha1 & Hc1), Hc2 as (a2 & Ha2 & Hc2).
  apply bind_Ok in H as (pkv & Hpk & H). apply bind_Ok in H as (pk & [-> Hpl]%b64_decode_Ok & H).
  apply bind_Ok in H as (sgv & Hsg & H). apply bind_Ok in H as (sg & [-> Hsl]%b64_decode_Ok & H).
  apply bind_Ok in H as (payload & Hpay & H). apply bind_Ok in H as (valid & Hval & H).
  apply seq_Ok in H as [->%raise_if_Ok%negb_false_iff H]. apply bind_Ok in H as (kid & Hkid & [= <-]).
  exists (k :: ks), signer, entry, instant, pk, sg, payload, kid.
  repeat (split; [done |]). split; [|done].
  split; [by rewrite Hp, Hpt | eauto | by destruct rv as [|[]| | | |] | eauto..].
Qed.

Lemma sign_evidence_Ok evidence key signed :
  sign_evidence evidence key = Ok signed ->
  exists d kid seed payload sg,
    evidence = VDict d /\ validate_evidence (VDict d) (Some false) = Ok (VDict d) /\
    fld key "keyId" = Ok kid /\ require_key_id kid = Ok tt /\
    (exists st, fld key "seed" = Ok st /\ b64url_decode st 32 = Ok seed) /\
    signature_payload EVIDENCE_DOMAIN signed ["signature"] = Ok payload /\
    sig_sign seed payload = Ok sg /\ signed = VDict (d ++ sig_fields kid (VStr (b64url_encode sg))).
Proof.
  unfold sign_evidence. intros H. apply bind_Ok in H as (w & Hv & H).
  pose proof (validate_evidence_Ok _ _ _ Hv) as (-> & d & ->).
  do 2 apply seq_Ok in H as [_ H]. apply bind_Ok in H as (? & _ & H). apply seq_Ok in H as [_ H].
  apply bind_Ok in H as (kid & Hk & H). apply seq_Ok in H as [Hkid H].
  apply bind_Ok in H as (? & _ & H). apply seq_Ok in H as [_ H].
  apply bind_Ok in H as (st & Hst & H). apply bind_Ok in H as (seed & Hseed & H).
  apply bind_Ok in H as (? & [= <-] & H). cbv zeta in H.
  apply bind_Ok in H as (payload & Hp & H). apply bind_Ok in H as (sg & Hsg & [= <-]).
  assert (Hno : forall k, In k (dkeys d) -> ~ In k (u <$> signature_fields)).
  { by eapply unsigned_no_signature, unsigned_closed. }
  assert (Hab : forall k e, In k signature_fields -> ~ In (u k) (dkeys e) -> ~ In (u k) (dkeys (d ++ e))).
  { intros k e Hk' He. unfold dkeys. rewrite map_app, in_app_iff. intros [Hd | Hd]; [|done].
    apply (Hno _ Hd). by apply in_map. }
  assert (dset (u "signaturePurpose") (VStr (u "TECHNICAL_EVIDENCE")) (dset (u "signerKeyId") kid d) =
    d ++ [(u "signerKeyId", kid); (u "signaturePurpose", VStr (u "TECHNICAL_EVIDENCE"))]) as E.
  { rewrite (dset_absent (u "signerKeyId")), dset_absent; [by rewrite <- app_assoc | |].
    - apply Hab; [by simpl; auto |]. by intros [[=] | []].
    - intros Hd. apply (Hno _ Hd). by left. }
  rewrite E in *.
  assert (dset (u "signature") (VStr (b64url_encode sg))
     (d ++ [(u "signerKeyId", kid); (u "signaturePurpose", VStr (u "TECHNICAL_EVIDENCE"))]) =
     d ++ sig_fields kid (VStr (b64url_encode sg))) as E'.
  { rewrite dset_absent; [by rewrite <- app_assoc |].
    apply Hab; [by simpl; auto |]. by intros [[=] | [[=] | []]]. }
  rewrite E'. exists d, kid, seed, payload, sg. repeat (split; [done |]). split; [by eauto |]. split; [|done].
  assert (dwithout (u <$> ["signature"]) (d ++ sig_fields kid (VStr (b64url_encode sg))) =
    dwithout (u <$> ["signature"])
      (d ++ [(u "signerKeyId", kid); (u "signaturePurpose", VStr (u "TECHNICAL_EVIDENCE"))])) as E2.
  { by rewrite !dwithout_app. }
  revert Hp. unfold signature_payload. cbn [items mbind res_bind]. by rewrite E2.
Qed.

(** C2: what is signed is verified over the very octets that were signed.  Signing a bundle with a
    local key yields a bundle that is valid as a signed one.  A trust bundle that holds the key's
    public entry for the bundle's tenant, valid around [now], passes it through every check up to
    the signature's: the scheme is then asked about the seed's own public key, the signature it
    made with that seed, and the same payload, and its answer alone decides, the receipt naming the
    key or [SIGNATURE_INVALID]. *)
Theorem signed_evidence_verifies evidence key signed tenant from until now entry n a b :
  SigSchemeOk S ->
  sign_evidence evidence key = Ok signed ->
  fld evidence "tenantId" = Ok (VStr tenant) ->
  public_entry key (VStr tenant) from until = Ok entry ->
  SchemaBase.require_time now = Ok n -> SchemaBase.require_time from = Ok a ->
  SchemaBase.require_time until = Ok b -> time_leb a n = Ok true -> time_leb n b = Ok true ->
  validate_evidence signed (Some true) = Ok signed /\
  exists kid text seed pk payload sg valid,
    fld key "keyId" = Ok kid /\ fld key "seed" = Ok text /\ b64url_decode text 32 = Ok seed /\
    signature_payload EVIDENCE_DOMAIN signed ["signature"] = Ok payload /\
    sig_public_key seed = Ok pk /\ sig_sign seed payload = Ok sg /\ sig_verify pk payload sg = Ok valid /\
    verify_evidence signed
      (VDict [(u "schemaVersion", VStr (u "harness.planeon.ai/conformance-trust-bundle/v1alpha1"));
              (u "keys", VList [entry])]) now =
    if (valid : bool) then Ok (VDict [(u "keyId", kid); (u "publicKey", VStr (b64url_encode pk)); (u "verified", VBool true)])
    else conf "SIGNATURE_INVALID".
Proof.
  intros Sok (d & kid & seed & payload & sg & -> & Hv & Hk & Hkid & (st & Hst & Hseed) & Hp & Hsg & ->)
    %sign_evidence_Ok Ht He Hn Ha Hb Han Hnb.
  destruct (sig_sign_length _ _ _ Hsg) as [Hsl Hso].
  assert (Hdec : b64url_decode (VStr (b64url_encode sg)) 64 = Ok sg).
  { rewrite <- b64_decode_encode by done. unfold zlen. by rewrite Hsl. }
  pose proof (validate_signed _ _ _ _ Hv Hkid Hdec) as Hs. cbv zeta in Hs.
  split; [done |].
  unfold public_entry in He. rewrite Hst in He. cbn [mbind res_bind] in He.
  rewrite Hseed in He. cbn [mbind res_bind] in He. rewrite Hk in He. cbn [mbind res_bind] in He.
  apply bind_Ok in He as (pk & Hpk & [= <-]). destruct (sig_key_length _ _ Hpk) as [Hpl Hpo].
  assert (Hdpk : b64url_decode (VStr (b64url_encode pk)) 32 = Ok pk).
  { rewrite <- b64_decode_encode by done. unfold zlen. by rewrite Hpl. }
  pose proof (sig_verify_total pk payload sg) as Htotal. destruct (sig_verify pk payload sg) as [valid|] eqn:Hvalid; [clear Htotal | done].
  exists kid, st, seed, pk, payload, sg, valid. repeat (split; [done |]). unfold verify_evidence. rewrite Hs. cbn [mbind res_bind].
  pose proof (unsigned_closed _ _ Hv) as Hc.
  pose proof (fun k x => sig_field d kid (VStr (b64url_encode sg)) k x Hc) as Hsig.
  destruct kid as [| | |ks| |]; try done.
  do 7 ok_go. ok_go; [apply Hsig; simpl; eauto |].
  set (entry := VDict _).
  assert (List.filter (key_matches (VStr ks)) [entry] = [entry]) as ->.
  { simpl. by rewrite str_eqb_refl. }
  ok_go. ok_go. ok_go.
  { apply or_m_false. split; [done |]. ok_go. ok_go; [by apply fld_app |]. simpl. by rewrite str_eqb_refl. }
  do 3 ok_go. ok_go; [exact Hn |]. ok_go.
  { apply and_m_true. split; ok_go; ok_go; eauto. }
  ok_go. ok_go. ok_go; [exact Hdpk |]. ok_go; [apply Hsig; simpl; eauto |]. ok_go; [exact Hdec |].
  ok_go; [exact Hp |]. ok_go; [exact Hvalid |]. destruct valid; [|done]. ok_go. by ok_go.
Qed.

(** ** The acceptance candidate *)

(** The text of a value that is one, and the finding a result contributes. *)
Definition finding_of (r f : value) : Prop :=
  exists s, fld r "status" = Ok s /\ s <> VStr (u "PASS") /\ fld r "reasonCode" = Ok f.

Lemma validate_candidate_Ok v w :
  validate_candidate v = Ok w <->
  w = v /\ exists d digest, v = VDict d /\
    (forall k, In k (dkeys d) <-> In k (u <$> candidate_fields)) /\
    dget (u "status") d = Some (VStr (u "PENDING")) /\ dget (u "unsigned") d = Some (VBool true) /\
    dget (u "candidateDigest") d = Some (VStr digest) /\
    canonical_digest (VDict (dwithout [u "candidateDigest"] d))
      (Some "planeon.harness-acceptance-candidate/v1alpha1") = Ok digest.
Proof.
  unfold validate_candidate. split.
  - intros H. apply seq_Ok in H as [_ H]. apply bind_Ok in H as (d & Hd & H).
    destruct v; try done. injection Hd as ->.
    apply seq_Ok in H as [Hk%raise_if_Ok%negb_false_iff%andb_true_iff H].
    apply bind_Ok in H as (st & [(? & [= <-] & Hst)%fld_Ok H]).
    apply bind_Ok in H as (un & [(? & [= <-] & Hun)%fld_Ok H]).
    apply seq_Ok in H as [[Hs Hu]%raise_if_Ok%orb_false_iff H]. apply seq_Ok in H as [_ H].
    apply bind_Ok in H as (cd & [(? & [= <-] & Hcd)%fld_Ok H]).
    apply bind_Ok in H as (h & Hh & H). apply seq_Ok in H as [Heq%raise_if_Ok%negb_false_iff [= <-]].
    split; [done |]. exists d, h. apply negb_false_iff in Hs, Hu. apply eq_lit_true in Hs as ->.
    destruct un as [|[]| | | |]; try done. destruct cd as [| | |t| |]; try done. apply str_eqb_eq in Heq as ->.
    repeat (split; [done |]). split; [|done].
    destruct Hk as [H1 H2]. rewrite forallb_forall in H1, H2. intros k. split.
    + intros Hk. by apply str_in_In, H1.
    + intros (n & <- & Hn)%in_map_iff. by apply dhas_In, H2.
  - intros (-> & d & h & -> & Hk & Hst & Hun & Hcd & Hh).
    ok_go. ok_go.
    ok_go.
    { apply raise_if_Ok, negb_false_iff, andb_true_iff. rewrite !forallb_forall. split.
      - intros k Hin. by apply str_in_In, Hk.
      - intros n Hn. apply dhas_In, Hk. by apply in_map. }
    ok_go; [apply fld_Ok; eauto |]. ok_go; [apply fld_Ok; eauto |]. ok_go.
    ok_go.
    { apply raise_if_Ok, not_true_iff_false. intros (k & Hin%Hk & Hbad)%existsb_exists.
      revert Hbad. apply not_true_iff_false.
      assert (forallb (fun k => negb (substr_in (u "signature") (lower k) || str_eqb k (u "tenantAcceptance")))
        (u <$> candidate_fields) = true) as E by by vm_compute.
      rewrite forallb_forall in E. by apply negb_true_iff, E. }
    ok_go; [apply fld_Ok; eauto |]. ok_go; [exact Hh |]. ok_go; [|done].
    apply raise_if_Ok. simpl. by rewrite str_eqb_refl.
Qed.

(** A candidate never carries acceptance.  [validate_candidate] returns exactly the
    objects with the ten candidate members and no other, PENDING, marked unsigned and bound by
    their digest; so the later check for signature-like members cannot be the one that
    refuses, and a candidate with a signature or an acceptance is refused whatever else it
    holds. *)
Theorem candidate_accepted_exact v w :
  validate_candidate v = Ok w <->
  w = v /\ exists d digest, v = VDict d /\
    (forall k, In k (dkeys d) <-> In k (u <$> candidate_fields)) /\
    dget (u "status") d = Some (VStr (u "PENDING")) /\ dget (u "unsigned") d = Some (VBool true) /\
    dget (u "candidateDigest") d = Some (VStr digest) /\
    canonical_digest (VDict (dwithout [u "candidateDigest"] d))
      (Some "planeon.harness-acceptance-candidate/v1alpha1") = Ok digest.
Proof. apply validate_candidate_Ok. Qed.

Lemma findings_Ok rs ll :
  map_m (fun r => s ← fld r "status";
           if eq_lit s "PASS" then Ok [] else c ← fld r "reasonCode"; Ok [c]) rs = Ok ll ->
  exists fs, concat ll = concat fs /\
    Forall2 (fun r f => (fld r "status" = Ok (VStr (u "PASS")) /\ f = []) \/
                        exists x, finding_of r x /\ f = [x]) rs fs.
Proof.
  intros H%map_m_Ok. exists ll. split; [done |]. eapply Forall2_impl; [exact H |].
  cbv beta. intros r f Hr. apply bind_Ok in Hr as (s & Hs & Hr).
  destruct (eq_lit s "PASS") eqn:E.
  - injection Hr as <-. apply eq_lit_true in E as ->. by left.
  - apply bind_Ok in Hr as (c & Hc & [= <-]). right. exists c. split; [|done].
    exists s. split; [done |]. split; [|done]. intros ->.
    apply not_true_iff_false in E. apply E. by apply eq_lit_true.
Qed.

(** [build_candidate] yields a candidate that [validate_candidate] accepts, only from
    valid evidence that binds the report's tenant and digest; it names that evidence, keeps
    the report's tenant, and its findings are the reason codes of exactly the results that do
    not pass, in order. *)
Theorem candidate_from_evidence report evidence c :
  build_candidate report evidence = Ok c ->
  validate_candidate c = Ok c /\ validate_evidence evidence None = Ok evidence /\
  (exists t t', fld evidence "tenantId" = Ok t /\ fld report "tenantId" = Ok t' /\ py_eq t t' = true) /\
  (exists g g', fld evidence "reportDigest" = Ok g /\ fld report "reportDigest" = Ok g' /\ py_eq g g' = true) /\
  (exists b, fld evidence "bundleDigest" = Ok b /\ fld c "evidenceDigests" = Ok (VList [b])) /\
  fld c "tenantId" = fld report "tenantId" /\
  exists results rs fs, fld report "results" = Ok results /\ py_iter results = Ok rs /\
    fld c "findings" = Ok (VList (concat fs)) /\
    Forall2 (fun r f => (fld r "status" = Ok (VStr (u "PASS")) /\ f = []) \/
                        exists x, finding_of r x /\ f = [x]) rs fs.
Proof.
  unfold build_candidate. intros H. apply bind_Ok in H as (e & He & H).
  pose proof (validate_evidence_Ok _ _ _ He) as [-> _].
  apply bind_Ok in H as (mm & Hm & H). apply seq_Ok in H as [->%raise_if_Ok H].
  apply or_m_false in Hm as [H1 H2].
  apply bind_Ok in H1 as (t & Ht & H1), H2 as (g & Hg & H2).
  apply bind_Ok in H1 as (t' & Ht' & [= H1%negb_false_iff]), H2 as (g' & Hg' & [= H2%negb_false_iff]).
  apply bind_Ok in H as (axes & _ & H). apply bind_Ok in H as (fb & _ & H). apply seq_Ok in H as [_ H].
  do 3 apply bind_Ok in H as (? & _ & H).
  apply bind_Ok in H as (b & Hb & H). apply bind_Ok in H as (results & Hr & H).
  apply bind_Ok in H as (rs & Hrs & H). apply bind_Ok in H as (ll & Hll & H).
  apply findings_Ok in Hll as (fs & Efs & Hfs).
  apply bind_Ok in H as (tid & Htid & H). cbv zeta in H. apply bind_Ok in H as (h & Hh & [= <-]).
  split; [|split; [done |]; split; [eauto 6 |]; split; [eauto 6 |]; split; [eauto |];
           split; [done | exists results, rs, fs; by rewrite <- Efs]].
  apply validate_candidate_Ok. split; [done |]. eexists _, h. split; [done |].
  split; [|by repeat split]. intros k. simpl. tauto.
Qed.

Lemma uniq_without ks d : uniq (VDict d) = true -> uniq (VDict (dwithout ks d)) = true.
Proof.
  simpl. rewrite !andb_true_iff, !bool_decide_eq_true, !forallb_forall. unfold dwithout.
  intros [Hn Hu]. split; [|intros kv [Hkv _]%filter_In; by apply Hu].
  induction d as [|[k x] d IH]; simpl in *; [done |]. apply NoDup_cons in Hn as [Hk Hn].
  specialize (IH Hn (fun y H => Hu y (or_intror H))).
  destruct (negb _); simpl; [|done]. apply NoDup_cons. split; [|done].
  intros ([k' y] & -> & Hy%list_elem_of_In%filter_In)%list_elem_of_fmap. apply Hk.
  apply list_elem_of_fmap. exists (k', y). split; [done | by apply list_elem_of_In, Hy].
Qed.

Lemma validated_digest d sd w :
  validate_evidence (VDict d) sd = Ok w ->
  exists h, dget (u "bundleDigest") d = Some (VStr h) /\
    canonical_digest (VDict (dwithout (u <$> (signature_fields ++ ["bundleDigest"])) d))
      (Some EVIDENCE_DOMAIN) = Ok h.
Proof.
  unfold validate_evidence. intros H. apply seq_Ok in H as [_ H].
  apply bind_Ok in H as (? & [= <-] & H). cbv zeta in H. apply seq_Ok in H as [_ H].
  do 12 (apply bind_Ok in H as (? & _ & H)). cbv zeta in H.
  repeat lazymatch type of H with
  | (canonical_digest _ _ ≫= _) = _ => fail
  | _ => apply bind_Ok in H as (? & _ & H)
  end.
  apply bind_Ok in H as (h & Hh & H). apply bind_Ok in H as (b & (? & [= <-] & Hb)%fld_Ok & H).
  apply seq_Ok in H as [E%raise_if_Ok%negb_false_iff _]. exists h. split; [|done].
  destruct b; try done. by apply str_eqb_eq in E as ->.
Qed.

(** A bundle digest names one bundle.  Two valid bundles with distinct keys and the same
    bundle digest agree, up to the order of members, on everything but their signatures,
    unless two distinct messages with one SHA-256 hash are at hand. *)
Theorem evidence_digest_binds d e sd se h :
  uniq (VDict d) = true -> uniq (VDict e) = true ->
  validate_evidence (VDict d) sd = Ok (VDict d) -> validate_evidence (VDict e) se = Ok (VDict e) ->
  dget (u "bundleDigest") d = Some h -> dget (u "bundleDigest") e = Some h ->
  let unsigned x := VDict (dwithout (u <$> (signature_fields ++ ["bundleDigest"])) x) in
  norm (unsigned d) = norm (unsigned e) \/ exists m m', m <> m' /\ sha256 m = sha256 m'.
Proof.
  intros Ud Ue (a & Ha & Hda)%validated_digest (b & Hb & Hdb)%validated_digest Hgd Hge unsigned.
  assert (a = b) as -> by congruence.
  destruct (canonical_digest_eq (unsigned d) (unsigned e) (Some EVIDENCE_DOMAIN) (Some EVIDENCE_DOMAIN) b)
    as [[_ E] | C]; auto;
    [by apply uniq_without.. | by repeat constructor | by repeat constructor].
Qed.
End evidence_theorems.
