(* ===== verification/Ipaddr.v ===== *)
(** The part of the standard library's ipaddress module (Python 3.12) that live.py uses:
    reading an address literal and its classification. *)

From S2P Require Import Prelude PyVal.

#[local] Open Scope N_scope.

Inductive address :=
| V4 (ip : N)
| V6 (ip : N).

(** ** Literals *)

Definition is_digit (c : N) : bool := (48 <=? c) && (c <=? 57).
Definition decimal (s : str) : N := fold_left (fun a c => a * 10 + (c - 48)) s 0.

Definition parse_octet (s : str) : option N :=
  if (match s with [] => true | _ => false end) || negb (forallb is_digit s) || Nat.ltb 3 (length s) then None
  else if negb (str_eqb s [48]) && startswith [48] s then None
  else if 255 <? decimal s then None else Some (decimal s).

Definition ipv4_of_str (s : str) : option N :=
  match map parse_octet (split_on 46 s) with
  | [Some a; Some b; Some c; Some d] => Some (((a * 256 + b) * 256 + c) * 256 + d)
  | _ => None
  end.

Definition hex_value (c : N) : option N :=
  if is_digit c then Some (c - 48)
  else if (97 <=? c) && (c <=? 102) then Some (c - 87)
  else if (65 <=? c) && (c <=? 70) then Some (c - 55)
  else None.

Definition parse_hextet (s : str) : option N :=
  if (match s with [] => true | _ => false end) || Nat.ltb 4 (length s) then None
  else fold_left (fun a c => a ← a; h ← hex_value c; Some (a * 16 + h)) s (Some 0).

(** ['%x' % n] below 2^16. *)
Definition hex_char (n : N) : N := if n <? 10 then n + 48 else n + 87.
Fixpoint strip_zeros (s : str) : str :=
  match s with [48] => s | 48 :: s' => strip_zeros s' | _ => s end.
Definition hex_of (n : N) : str :=
  strip_zeros [hex_char (n / 4096 mod 16); hex_char (n / 256 mod 16); hex_char (n / 16 mod 16); hex_char (n mod 16)].

(** The hextets [parts] appended to [acc]. *)
Definition append_hextets (acc : N) (parts : list str) : option N :=
  fold_left (fun a p => a ← a; h ← parse_hextet p; Some (N.lor (N.shiftl a 16) h)) parts (Some acc).

Definition is_empty (s : str) : bool := match s with [] => true | _ => false end.

Definition ipv6_of_str (s : str) : option N :=
  if is_empty s then None else
  let parts := split_on 58 s in
  if Nat.ltb (length parts) 3 then None else
  let tail := List.last parts [] in
  parts ←
    (if existsb (N.eqb 46) tail then
       v ← ipv4_of_str tail;
       Some (removelast parts ++ [hex_of (N.shiftr v 16); hex_of (N.land v 65535)])
     else Some parts);
  let len := length parts in
  if Nat.ltb 9 len then None else
  let first_empty := is_empty (List.hd [] parts) in
  let last_empty := is_empty (List.last parts []) in
  match List.filter (fun i => is_empty (List.nth i parts [])) (seq 1 (len - 2)) with
  | [] =>
      if negb (Nat.eqb len 8) || first_empty || last_empty then None else append_hextets 0 parts
  | [skip] =>
      let hi := if first_empty then (skip - 1)%nat else skip in
      let lo := if last_empty then (len - skip - 2)%nat else (len - skip - 1)%nat in
      if (first_empty && negb (Nat.eqb hi 0)) || (last_empty && negb (Nat.eqb lo 0)) ||
         Nat.ltb 7 (hi + lo) then None
      else
        high ← append_hextets 0 (take hi parts);
        append_hextets (N.shiftl high (16 * N.of_nat (8 - (hi + lo)))) (drop (len - lo) parts)
  | _ => None
  end.

(** [ip_str.partition('%')], with the scope's own checks. *)
Definition split_scope_id (s : str) : option str :=
  match split_on 37 s with
  | [a] => Some a
  | [a; scope] => if is_empty scope then None else Some a
  | _ => None
  end.

(** [ipaddress.ip_address]: an [int] (or a [bool]) is the address's number; any other object
    goes through its text, which for no JSON value but a string is an address. *)
Definition ip_address (v : value) : res address :=
  let number z :=
    if (z <? 0)%Z then Raise ValueError
    else if (z <? 2 ^ 32)%Z then Ok (V4 (Z.to_N z))
    else if (z <? 2 ^ 128)%Z then Ok (V6 (Z.to_N z)) else Raise ValueError in
  match v with
  | VInt z => number z
  | VBool b => number (Z.b2z b)
  | VStr s =>
      if existsb (N.eqb 47) s then Raise ValueError else
      match ipv4_of_str s with
      | Some n => Ok (V4 n)
      | None =>
          match a ← split_scope_id s; ipv6_of_str a with
          | Some n => Ok (V6 n)
          | None => Raise ValueError
          end
      end
  | _ => Raise ValueError
  end.

(** ** Text of an address *)

(** [str(n)] below 1000 without leading zeros, and the dotted form. *)
Definition octet_text (n : N) : str := strip_zeros [48 + n / 100 mod 10; 48 + n / 10 mod 10; 48 + n mod 10].
Definition text4 (n : N) : str :=
  octet_text (n / 2 ^ 24 mod 256) ++ 46 :: octet_text (n / 2 ^ 16 mod 256) ++ 46 ::
  octet_text (n / 2 ^ 8 mod 256) ++ 46 :: octet_text (n mod 256).

Definition hextets (n : N) : list N := map (fun i => n / 2 ^ (16 * i) mod 65536) [7; 6; 5; 4; 3; 2; 1; 0].

(** The first longest run of zeros: where it starts and how long it is. *)
Fixpoint zero_run (l : list N) : nat :=
  match l with 0 :: l' => Datatypes.S (zero_run l') | _ => O end.
Fixpoint best_run (l : list N) (i : nat) (best : nat * nat) : nat * nat :=
  match l with
  | [] => best
  | _ :: l' => best_run l' (Datatypes.S i) (if Nat.ltb best.2 (zero_run l) then (i, zero_run l) else best)
  end.

Fixpoint join_with (c : N) (l : list str) : str :=
  match l with [] => [] | [s] => s | s :: l' => s ++ c :: join_with c l' end.

(** [_compress_hextets]: a longest run of two or more zeros becomes [::]. *)
Definition text6 (n : N) : str :=
  let hs := hextets n in
  let '(start, len) := best_run hs 0 (O, O) in
  let texts l := map hex_of l in
  if Nat.ltb 1 len then
    let stop := (start + len)%nat in
    join_with 58 ((if Nat.eqb start 0 then [[]] else []) ++ texts (take start hs) ++ [[]] ++
                  texts (drop stop hs) ++ (if Nat.eqb stop 8 then [[]] else []))
  else join_with 58 (texts hs).

(** [str(ipaddress.ip_address(s))]: an IPv6 scope is kept. *)
Definition canonical_address (s : str) : res str :=
  a ← ip_address (VStr s);
  Ok (match a with
      | V4 n => text4 n
      | V6 n => text6 n ++ match split_on 37 s with [_; scope] => 37 :: scope | _ => [] end
      end).

(** ** Classification *)

(** [address in network], a network being its first address and its prefix length. *)
Definition in_net (bits : N) (n : N) (net : N * N) : bool :=
  N.shiftr n (bits - net.2) =? N.shiftr net.1 (bits - net.2).

Definition v4 (a b c d : N) : N := ((a * 256 + b) * 256 + c) * 256 + d.

Definition private4 : list (N * N) :=
  [(v4 0 0 0 0, 8); (v4 10 0 0 0, 8); (v4 127 0 0 0, 8); (v4 169 254 0 0, 16); (v4 172 16 0 0, 12);
   (v4 192 0 0 0, 24); (v4 192 0 0 170, 31); (v4 192 0 2 0, 24); (v4 192 168 0 0, 16);
   (v4 198 18 0 0, 15); (v4 198 51 100 0, 24); (v4 203 0 113 0, 24); (v4 240 0 0 0, 4);
   (v4 255 255 255 255, 32)].
Definition private4_exceptions : list (N * N) := [(v4 192 0 0 9, 32); (v4 192 0 0 10, 32)].

(** The IPv6 address with the four leading hextets, the rest zero but for the last one. *)
Definition v6 (a b c d last : N) : N :=
  (((a * 65536 + b) * 65536 + c) * 65536 + d) * 2 ^ 64 + last.

Definition private6 : list (N * N) :=
  [(1, 128); (0, 128); (2 ^ 32 * 65535, 96); (v6 0x64 0xff9b 1 0 0, 48); (v6 0x100 0 0 0 0, 64);
   (v6 0x2001 0 0 0 0, 23); (v6 0x2001 0xdb8 0 0 0, 32); (v6 0x2002 0 0 0 0, 16);
   (v6 0xfc00 0 0 0 0, 7); (v6 0xfe80 0 0 0 0, 10)].
Definition private6_exceptions : list (N * N) :=
  [(v6 0x2001 1 0 0 1, 128); (v6 0x2001 1 0 0 2, 128); (v6 0x2001 3 0 0 0, 32);
   (v6 0x2001 4 0x112 0 0, 48); (v6 0x2001 0x20 0 0 0, 28); (v6 0x2001 0x30 0 0 0, 28)].
Definition reserved6 : list (N * N) :=
  [(0, 8); (v6 0x100 0 0 0 0, 8); (v6 0x200 0 0 0 0, 7); (v6 0x400 0 0 0 0, 6); (v6 0x800 0 0 0 0, 5);
   (v6 0x1000 0 0 0 0, 4); (v6 0x4000 0 0 0 0, 3); (v6 0x6000 0 0 0 0, 3); (v6 0x8000 0 0 0 0, 3);
   (v6 0xA000 0 0 0 0, 3); (v6 0xC000 0 0 0 0, 3); (v6 0xE000 0 0 0 0, 4); (v6 0xF000 0 0 0 0, 5);
   (v6 0xF800 0 0 0 0, 6); (v6 0xFE00 0 0 0 0, 9)].

Definition is_private4 (n : N) : bool :=
  existsb (in_net 32 n) private4 && negb (existsb (in_net 32 n) private4_exceptions).

Definition is_private (a : address) : bool :=
  match a with
  | V4 n => is_private4 n
  | V6 n =>
      if N.shiftr n 32 =? 65535 then is_private4 (N.land n (2 ^ 32 - 1))
      else existsb (in_net 128 n) private6 && negb (existsb (in_net 128 n) private6_exceptions)
  end.

Definition is_reserved (a : address) : bool :=
  match a with V4 n => in_net 32 n (v4 240 0 0 0, 4) | V6 n => existsb (in_net 128 n) reserved6 end.
Definition is_loopback (a : address) : bool :=
  match a with V4 n => in_net 32 n (v4 127 0 0 0, 8) | V6 n => n =? 1 end.
Definition is_link_local (a : address) : bool :=
  match a with V4 n => in_net 32 n (v4 169 254 0 0, 16) | V6 n => in_net 128 n (v6 0xfe80 0 0 0 0, 10) end.
Definition is_multicast (a : address) : bool :=
  match a with V4 n => in_net 32 n (v4 224 0 0 0, 4) | V6 n => in_net 128 n (v6 0xff00 0 0 0 0, 8) end.
Definition is_unspecified (a : address) : bool := match a with V4 n | V6 n => n =? 0 end.

(** ** Ranges *)

(** [lo <= n < lo + 2^k] for a network whose first address has [k] zero bits. *)
Lemma in_net_range bits n lo len :
  lo mod 2 ^ (bits - len) = 0 ->
  in_net bits n (lo, len) = (lo <=? n) && (n <? lo + 2 ^ (bits - len)).
Proof.
  intros Hlo. unfold in_net. cbn [fst snd]. rewrite !N.shiftr_div_pow2.
  set (p := 2 ^ (bits - len)) in *. assert (p <> 0) by (by apply N.pow_nonzero).
  pose proof (N.div_mod n p ltac:(done)) as Hn. pose proof (N.mod_lt n p ltac:(done)) as Hr.
  pose proof (N.div_mod lo p ltac:(done)) as Hl. rewrite Hlo in Hl.
  apply eq_true_iff_eq. rewrite N.eqb_eq, andb_true_iff, N.leb_le, N.ltb_lt. split.
  - intros E. rewrite E in Hn. revert Hn Hr Hl. generalize (n mod p) (lo / p). clearbody p. clear. intros. nia.
  - intros [? ?]. assert (n / p < lo / p + 1) by (apply N.Div0.div_lt_upper_bound; lia).
    assert (lo / p <= n / p) by (apply N.Div0.div_le_mono; lia). lia.
Qed.

(** ** The addresses live.py accepts *)

(** live.py's test on an endpoint's address. *)
(* @src src/src/harness_conformance/live.py:96-97 validate_endpoint *)
Definition public_endpoint (a : address) : bool :=
  is_unspecified a || is_multicast a || is_link_local a || is_reserved a ||
  negb (is_loopback a || is_private a).

Definition within (n : N) (r : N * N) : bool := (r.1 <=? n) && (n <=? r.2).

(** *** Step functions

    A test built from comparisons with constants is constant between them, so two such tests
    agree everywhere when they agree at every constant. *)

Definition same_side (bounds : list N) (n m : N) : Prop := Forall (fun b => (b <=? n) = (b <=? m)) bounds.

Lemma last_bound bounds n : exists m, In m (0 :: bounds) /\ m <= n /\ same_side bounds n m.
Proof.
  induction bounds as [|b bs (m & Hm & Hle & Hs)].
  { exists 0. split; [by left |]. split; [lia | constructor]. }
  assert (Hm' : In m (0 :: b :: bs)) by (simpl in *; tauto).
  destruct (N.leb_spec b n) as [Hb | Hb], (N.leb_spec b m) as [Hbm | Hbm];
    [exists m | exists b | lia | exists m]; (split; [simpl in *; tauto |]); (split; [lia |]);
    (constructor; [destruct (N.leb_spec b n), (N.leb_spec b m), (N.leb_spec b b); done || lia |]); try done.
  unfold same_side in *. rewrite List.Forall_forall in Hs |- *. intros x Hx. specialize (Hs x Hx).
  destruct (N.leb_spec x n), (N.leb_spec x m), (N.leb_spec x b); done || lia.
Qed.

Lemma step_eq bounds (f g : N -> bool) n :
  (forall n m, same_side bounds n m -> f n = f m) ->
  (forall n m, same_side bounds n m -> g n = g m) ->
  forallb (fun b => Bool.eqb (f b) (g b)) (0 :: bounds) = true -> f n = g n.
Proof.
  intros Hf Hg H. destruct (last_bound bounds n) as (m & Hm & _ & Hs).
  rewrite forallb_forall in H. rewrite (Hf _ _ Hs), (Hg _ _ Hs). by apply eqb_prop, H.
Qed.

Lemma in_net_step bits n m lo len :
  lo mod 2 ^ (bits - len) = 0 -> same_side [lo; lo + 2 ^ (bits - len)] n m ->
  in_net bits n (lo, len) = in_net bits m (lo, len).
Proof.
  intros Hlo H. rewrite !in_net_range by done. unfold same_side in *; decompose_Forall_hyps. rewrite !N.ltb_antisym. congruence.
Qed.

Lemma within_step r n m : same_side [r.1; r.2 + 1] n m -> within n r = within m r.
Proof.
  intros H. unfold within. unfold same_side in *; decompose_Forall_hyps. f_equal; [done |].
  assert (forall k, (k <=? r.2) = negb (r.2 + 1 <=? k)) as E by (intros k; destruct (N.leb_spec k r.2), (N.leb_spec (r.2 + 1) k); done || lia).
  rewrite !E. congruence.
Qed.

Lemma eqb_step c n m : same_side [c; c + 1] n m -> (n =? c) = (m =? c).
Proof.
  intros H. unfold same_side in *; decompose_Forall_hyps.
  assert (forall k, (k =? c) = (c <=? k) && negb (c + 1 <=? k)) as E
    by (intros k; destruct (N.eqb_spec k c), (N.leb_spec c k), (N.leb_spec (c + 1) k); done || lia).
  rewrite !E. congruence.
Qed.

Lemma existsb_step {A} (f : N -> A -> bool) (bs : A -> list N) (ok : A -> bool) l n m :
  (forall x, ok x = true -> same_side (bs x) n m -> f n x = f m x) -> forallb ok l = true ->
  same_side (flat_map bs l) n m -> existsb (f n) l = existsb (f m) l.
Proof.
  intros Hf. induction l as [|x l IH]; simpl; [done |]. intros [Hx Hl]%andb_true_iff [H1 H2]%Forall_app.
  rewrite IH by done. by rewrite (Hf x Hx H1).
Qed.

(** The constants of a network and of an interval, and the alignment of a network. *)
Definition net_bounds (bits : N) (net : N * N) : list N := [net.1; net.1 + 2 ^ (bits - net.2)].
Definition aligned (bits : N) (net : N * N) : bool := net.1 mod 2 ^ (bits - net.2) =? 0.

Lemma in_nets_step bits nets n m :
  forallb (aligned bits) nets = true -> same_side (flat_map (net_bounds bits) nets) n m ->
  existsb (in_net bits n) nets = existsb (in_net bits m) nets.
Proof.
  apply existsb_step. intros [lo len] ?%N.eqb_eq ?. by apply in_net_step.
Qed.

Lemma within_steps rs n m :
  same_side (flat_map (fun r => [r.1; r.2 + 1]) rs) n m ->
  existsb (within n) rs = existsb (within m) rs.
Proof.
  apply (existsb_step within (fun r => [r.1; r.2 + 1]) (fun _ => true)); [|by apply forallb_forall].
  intros r _. apply within_step.
Qed.

(** *** The accepted addresses as intervals *)

Definition endpoint4 : list (N * N) :=
  [(v4 0 0 0 1, v4 0 255 255 255); (v4 10 0 0 0, v4 10 255 255 255); (v4 127 0 0 0, v4 127 255 255 255);
   (v4 172 16 0 0, v4 172 31 255 255); (v4 192 0 0 0, v4 192 0 0 8); (v4 192 0 0 11, v4 192 0 0 255);
   (v4 192 0 2 0, v4 192 0 2 255); (v4 192 168 0 0, v4 192 168 255 255); (v4 198 18 0 0, v4 198 19 255 255);
   (v4 198 51 100 0, v4 198 51 100 255); (v4 203 0 113 0, v4 203 0 113 255)].

(** 2001::/23 but for its exceptions, 2001:db8::/32, 2002::/16 and fc00::/7. *)
Definition endpoint6 : list (N * N) :=
  [(v6 0x2001 0 0 0 0, v6 0x2001 1 0 0 0); (v6 0x2001 1 0 0 3, v6 0x2001 3 0 0 0 - 1);
   (v6 0x2001 4 0 0 0, v6 0x2001 4 0x112 0 0 - 1); (v6 0x2001 4 0x113 0 0, v6 0x2001 0x20 0 0 0 - 1);
   (v6 0x2001 0x40 0 0 0, v6 0x2001 0x200 0 0 0 - 1); (v6 0x2001 0xdb8 0 0 0, v6 0x2001 0xdb9 0 0 0 - 1);
   (v6 0x2002 0 0 0 0, v6 0x2003 0 0 0 0 - 1); (v6 0xfc00 0 0 0 0, v6 0xfe00 0 0 0 0 - 1)].

Definition bounds4 : list N :=
  flat_map (net_bounds 32) (private4 ++ private4_exceptions ++
    [(v4 240 0 0 0, 4); (v4 127 0 0 0, 8); (v4 169 254 0 0, 16); (v4 224 0 0 0, 4)]) ++ [0; 1] ++
  flat_map (fun r => [r.1; r.2 + 1]) endpoint4.

Lemma same_side_app l k n m : same_side (l ++ k) n m <-> same_side l n m /\ same_side k n m.
Proof. apply Forall_app. Qed.

Lemma same_side_flat {A} (f : A -> list N) l x n m :
  same_side (flat_map f l) n m -> In x l -> same_side (f x) n m.
Proof.
  induction l as [|y l IH]; simpl; [done |]. intros [H1 H2]%Forall_app [-> | Hx]; auto.
Qed.

Lemma in_net_of bits nets net n m :
  same_side (flat_map (net_bounds bits) nets) n m -> In net nets -> aligned bits net = true ->
  in_net bits n net = in_net bits m net.
Proof.
  destruct net as [lo len]. intros H Hin Ha%N.eqb_eq.
  apply in_net_step; [done | exact (same_side_flat _ _ _ _ _ H Hin)].
Qed.

Lemma endpoint_v4 n : public_endpoint (V4 n) = negb (existsb (within n) endpoint4).
Proof.
  apply (step_eq bounds4 (fun n => public_endpoint (V4 n)) (fun n => negb (existsb (within n) endpoint4)));
    [| |by vm_compute]; clear n; intros n m [Hn [He Hw]%same_side_app]%same_side_app; [|by rewrite (within_steps _ _ _ Hw)].
  unfold public_endpoint, is_unspecified, is_multicast, is_link_local, is_reserved, is_loopback, is_private, is_private4.
  rewrite (eqb_step 0 n m) by done. rewrite flat_map_app in Hn. rewrite flat_map_app in Hn.
  apply same_side_app in Hn as [Hp [Hx Hr]%same_side_app].
  rewrite (in_nets_step 32 private4 n m), (in_nets_step 32 private4_exceptions n m) by done.
  rewrite !(in_net_of 32 _ _ n m Hr) by (by simpl; auto 10). done.
Qed.

Definition bounds6 : list N :=
  flat_map (net_bounds 128) (private6 ++ private6_exceptions ++ reserved6 ++
    [(v6 0xfe80 0 0 0 0, 10); (v6 0xff00 0 0 0 0, 8)]) ++ [0; 1; 2] ++
  flat_map (fun r => [r.1; r.2 + 1]) endpoint6.

(** An IPv4-mapped address is reserved, so its classification as an IPv4 one never matters. *)
Definition plain6 (n : N) : bool :=
  (n =? 0) || in_net 128 n (v6 0xff00 0 0 0 0, 8) || in_net 128 n (v6 0xfe80 0 0 0 0, 10) ||
  existsb (in_net 128 n) reserved6 ||
  negb ((n =? 1) || (existsb (in_net 128 n) private6 && negb (existsb (in_net 128 n) private6_exceptions))).

Lemma mapped_reserved n : N.shiftr n 32 = 65535 -> existsb (in_net 128 n) reserved6 = true.
Proof.
  rewrite N.shiftr_div_pow2. intros H. apply existsb_exists. exists (0, 8). split; [by left |].
  rewrite in_net_range by by vm_compute. pose proof (N.div_mod n (2 ^ 32) ltac:(done)) as Hn.
  pose proof (N.mod_lt n (2 ^ 32) ltac:(done)). rewrite H in Hn.
  apply andb_true_iff. rewrite N.leb_le, N.ltb_lt. split; [lia |].
  apply (N.lt_le_trans _ (2 ^ 48)); [lia | by vm_compute].
Qed.

Lemma public_plain6 n : public_endpoint (V6 n) = plain6 n.
Proof.
  unfold public_endpoint, plain6, is_unspecified, is_multicast, is_link_local, is_reserved, is_loopback, is_private.
  destruct (N.eqb_spec (N.shiftr n 32) 65535) as [E|]; [|done].
  by rewrite (mapped_reserved _ E), !orb_true_r.
Qed.

Lemma endpoint_v6 n : public_endpoint (V6 n) = negb (existsb (within n) endpoint6).
Proof.
  rewrite public_plain6.
  apply (step_eq bounds6 plain6 (fun n => negb (existsb (within n) endpoint6)));
    [| |by vm_compute]; clear n; intros n m [Hn [He Hw]%same_side_app]%same_side_app; [|by rewrite (within_steps _ _ _ Hw)].
  unfold plain6. rewrite !flat_map_app in Hn.
  apply same_side_app in Hn as [Hp [Hx [Hv Hr]%same_side_app]%same_side_app].
  rewrite (in_nets_step 128 private6 n m), (in_nets_step 128 private6_exceptions n m),
    (in_nets_step 128 reserved6 n m) by done.
  rewrite !(in_net_of 128 _ _ n m Hr) by (by simpl; auto 10).
  apply (same_side_app [0; 1] [2]) in He as [H0 H2]. 
  rewrite (eqb_step 0 n m), (eqb_step 1 n m); [done | | done].
  apply (same_side_app [0] [1]) in H0 as [_ H1]. by apply (same_side_app [1] [2]).
Qed.

Example literals :
  ip_address (VStr (u "10.0.0.1")) = Ok (V4 167772161) /\
  ip_address (VStr (u "::1")) = Ok (V6 1) /\
  ip_address (VStr (u "::ffff:1.2.3.4")) = Ok (V6 (65535 * 2 ^ 32 + 16909060)) /\
  ip_address (VStr (u "fd00:1:2:3:4:5:6:7%eth0")) = Ok (V6 0xfd000001000200030004000500060007) /\
  ip_address (VStr (u "1:2:3:4:5:6:7::")) = Ok (V6 0x00010002000300040005000600070000) /\
  ip_address (VStr (u "010.0.0.1")) = Raise ValueError /\ ip_address (VStr (u "1::2::3")) = Raise ValueError /\
  ip_address (VStr (u ":1:2:3:4:5:6:7")) = Raise ValueError.
Proof. repeat split; by vm_compute. Qed.

Example canonical_texts :
  canonical_address (u "10.200.0.31") = Ok (u "10.200.0.31") /\
  canonical_address (u "FD00:0:0:1:0:0:0:5") = Ok (u "fd00:0:0:1::5") /\
  canonical_address (u "::") = Ok (u "::") /\ canonical_address (u "0:0:0:0:0:0:0:1") = Ok (u "::1") /\
  canonical_address (u "1:0:0:2:0:0:3:4") = Ok (u "1::2:0:0:3:4") /\
  canonical_address (u "fd00:1:0:3:4:5:6:0%e") = Ok (u "fd00:1:0:3:4:5:6:0%e") /\
  canonical_address (u "2001:db8:0:0::") = Ok (u "2001:db8::").
Proof. repeat split; by vm_compute. Qed.
