(* ===== verification/Live.v ===== *)
(** live.py: the live execution envelope, the capacity authorization, the trust keys, the kit
    tree's digest and the preflight that binds them together. *)

From S2P Require Import Prelude PyVal Utf8 Json Sha2 Canonical Base64 Ed25519 IsoTime Regex Ipaddr.
From S2P Require Import SchemaBase Lifecycle LinuxShape.

#[local] Open Scope string_scope.
#[local] Open Scope list_scope.
#[local] Open Scope Z_scope.

(* @src src/src/harness_conformance/live.py:15-15 ENVELOPE_SCHEMA *)
Definition ENVELOPE_SCHEMA : string := "harness.planeon.ai/live-campaign-execution-envelope/v1alpha1".
(* @src src/src/harness_conformance/live.py:16-16 CAPACITY_SCHEMA *)
Definition CAPACITY_SCHEMA : string := "harness.planeon.ai/live-capacity-authorization/v1alpha1".
(* @src src/src/harness_conformance/live.py:17-17 ENVELOPE_DOMAIN *)
Definition ENVELOPE_DOMAIN : string := "planeon.harness-live-execution-envelope/v1alpha1".
(* @src src/src/harness_conformance/live.py:18-18 CAPACITY_DOMAIN *)
Definition CAPACITY_DOMAIN : string := "planeon.harness-live-capacity-authorization/v1alpha1".
(* @src src/src/harness_conformance/live.py:19-19 TREE_DOMAIN *)
Definition TREE_DOMAIN : string := "planeon.harness-live-tree/v1alpha1".
(* @src src/src/harness_conformance/live.py:20-20 COMMAND_DOMAIN *)
Definition COMMAND_DOMAIN : string := "planeon.harness-live-command-set/v1alpha1".
(* @src src/src/harness_conformance/live.py:22-22 FIXED_RELEASE_TRUST *)
Definition FIXED_RELEASE_TRUST : string := "/etc/planeon/trust/release-trust-bundle.json".
Definition FIXED_TENANT_TRUST : string := "/etc/planeon/trust/tenant-trust-bundle.json".

(* @src src/src/harness_conformance/live.py:29-39 ENVELOPE_FIELDS *)
Definition ENVELOPE_FIELDS : list string :=
  ["schemaVersion"; "packetId"; "packetFileReference"; "packetDigest"; "commands"; "commandSetDigest";
   "conformanceKitRoot"; "conformanceKitDigest"; "campaignId"; "campaignDefinitionFileReference";
   "campaignDefinitionDigest"; "campaignReleaseFileReference"; "campaignReleaseDigest"; "launcherDigest";
   "bundleFileReference"; "bundleDigest"; "allowedEvidenceAxes"; "tenantId"; "environmentId";
   "capacityAuthorizationId"; "capacityAuthorizationFileReference"; "capacityAuthorizationDigest";
   "mutationProfile"; "admissionPolicyDigest"; "resourceQuotaDigest"; "endpoints"; "issuedAt"; "expiresAt";
   "nonce"; "releaseTrustStoreDigest"; "tenantTrustStoreDigest"; "platformSignerKeyId"; "platformSignature";
   "tenantSignerKeyId"; "tenantSignature"].
(* @src src/src/harness_conformance/live.py:40-46 CAPACITY_FIELDS *)
Definition CAPACITY_FIELDS : list string :=
  ["schemaVersion"; "authorizationId"; "operatorId"; "tenantId"; "environmentId"; "namespace";
   "serviceAccountSubject"; "permittedEndpointIds"; "kubernetesApiRules"; "campaignProxyRules";
   "permittedGvksAndVerbs"; "preexistingResourceRefs"; "resourceQuotaDigest"; "limitRangeDigest";
   "preallocatedStorageRefs"; "preallocatedAcceleratorRefs"; "credentialIdentities"; "mutationProfile";
   "admissionPolicyDigest"; "validFrom"; "expiresAt"; "nonce"; "signerKeyId"; "signature"].
(* @src src/src/harness_conformance/live.py:47-50 ENDPOINT_FIELDS *)
Definition ENDPOINT_FIELDS : list string :=
  ["endpointId"; "kind"; "ipAddress"; "port"; "tls"; "credentialFileReference"; "authorizationPolicyDigest";
   "costDisposition"; "accessMode"; "discovery"].
(* @src src/src/harness_conformance/live.py:51-51 SHELLS *)
Definition SHELLS : list string := ["sh"; "bash"; "zsh"; "fish"; "dash"; "cmd"; "powershell"; "pwsh"].
(* @src src/src/harness_conformance/live.py:52-52 LIVE_AXES *)
Definition LIVE_AXES : list string :=
  ["DEPLOYMENT"; "RUNTIME"; "SECURITY"; "ASSURANCE"; "TENANT_ACCEPTANCE_CANDIDATE"].

(** ** References and commands *)

(* @src src/src/harness_conformance/live.py:55-61 _require_absolute_reference *)
Definition _require_absolute_reference (v : value) : res unit :=
  raise_if (match v with
            | VStr s => (zlen s >? 4096) || negb (is_absolute s) || str_in (u "..") (path_parts s)
            | _ => true
            end) "INVALID_REFERENCE".

(** [Path(s).name]. *)
Definition path_name (s : str) : str := List.last (path_parts s) [].

(** One argv: a non-empty bounded list of non-empty bounded strings, no shell and no shell
    character in its first. *)
(* @src src/src/harness_conformance/live.py:73-80 validate_commands *)
Definition validate_command (command : value) : res unit :=
  raise_if (match command with VList [] => true | VList l => zlen l >? 32 | _ => true end) "INVALID_COMMAND" ;;
  argv ← py_iter command;
  raise_if (existsb (fun a => match a with VStr [] => true | VStr s => zlen s >? 4096 | _ => true end) argv)
    "INVALID_COMMAND" ;;
  let head := match argv with VStr s :: _ => s | _ => [] end in
  raise_if (str_in (lower (path_name head)) (u <$> SHELLS) ||
            existsb (fun c => existsb (N.eqb c) (u "|;&`$<>")) head) "SHELL_TRANSPORT_FORBIDDEN".

(* @src src/src/harness_conformance/live.py:68-81 validate_commands *)
Definition validate_commands (v : value) : res value :=
  raise_if (match v with VList [] => true | VList l => zlen l >? 32 | _ => true end) "INVALID_COMMAND_SET" ;;
  commands ← py_iter v;
  for_each validate_command commands ;;
  Ok v.

(** ** Endpoints *)

(* @src src/src/harness_conformance/live.py:84-110 validate_endpoint *)
Definition validate_endpoint (v : value) : res value :=
  require_object v ;;
  closed v ENDPOINT_FIELDS [] ;;
  kind ← fld v "kind";
  raise_if (negb (in_lits kind ["KUBERNETES_API_PROXY"; "CAMPAIGN_PROXY"; "LOCAL_REGISTRY"; "LOCAL_EVIDENCE_SINK"]))
    "ENDPOINT_KIND_FORBIDDEN" ;;
  let proxy := match kind with VStr s => endswith (u "PROXY") s | _ => false end in
  accessMode ← fld v "accessMode";
  discovery ← fld v "discovery";
  raise_if (negb (eq_lit accessMode (if proxy then "PREAUTHORIZED_PROXY" else "LOCAL_PREEXISTING")) ||
            negb (is_false_lit discovery)) "ENDPOINT_AUTHORITY_INVALID" ;;
  ip ← fld v "ipAddress";
  address ← (match ip_address ip with Raise ValueError => conf "ENDPOINT_IP_INVALID" | r => r end);
  raise_if (public_endpoint address) "PUBLIC_ENDPOINT_FORBIDDEN" ;;
  port ← fld v "port";
  raise_if (match port with VInt p => negb ((1 <=? p) && (p <=? 65535)) | _ => true end) "ENDPOINT_PORT_INVALID" ;;
  tls ← fld v "tls";
  require_object tls ;;
  closed tls ["serverName"; "serverSpkiDigest"; "caCertificateFileReference"] [] ;;
  serverName ← fld tls "serverName";
  raise_if (match serverName with VStr [] => true | VStr s => substr_in (u "*") s | _ => true end)
    "TLS_IDENTITY_INVALID" ;;
  each_field tls ["serverSpkiDigest"] require_digest ;;
  each_field tls ["caCertificateFileReference"] _require_absolute_reference ;;
  each_field v ["credentialFileReference"] _require_absolute_reference ;;
  each_field v ["authorizationPolicyDigest"] require_digest ;;
  cost ← fld v "costDisposition";
  raise_if (negb (in_lits cost ["SELF_HOSTED_OPEN_SOURCE_NON_METERED"; "TENANT_SUPPLIED_OPEN_SOURCE_NON_METERED"]))
    "COST_DISPOSITION_FORBIDDEN" ;;
  Ok v.

Section live.
Context {U : Unicode} {S : SigScheme}.

(* @src src/src/harness_conformance/live.py:64-65 command_set_digest *)
Definition command_set_digest (commands : value) : res str := canonical_digest commands (Some COMMAND_DOMAIN).

(** ** The envelope *)

Definition envelope_digests : list string :=
  ["packetDigest"; "commandSetDigest"; "conformanceKitDigest"; "campaignDefinitionDigest";
   "campaignReleaseDigest"; "launcherDigest"; "bundleDigest"; "capacityAuthorizationDigest";
   "admissionPolicyDigest"; "resourceQuotaDigest"; "releaseTrustStoreDigest"; "tenantTrustStoreDigest"].
Definition envelope_references : list string :=
  ["packetFileReference"; "conformanceKitRoot"; "campaignDefinitionFileReference";
   "campaignReleaseFileReference"; "bundleFileReference"; "capacityAuthorizationFileReference"].

(* @src src/src/harness_conformance/live.py:113-152 validate_envelope *)
Definition validate_envelope (v : value) (now : datetime) : res value :=
  require_object v ;;
  closed v ENVELOPE_FIELDS [] ;;
  schema ← fld v "schemaVersion";
  raise_if (negb (eq_lit schema ENVELOPE_SCHEMA)) "UNSUPPORTED_ENVELOPE" ;;
  packetId ← fld v "packetId";
  raise_if (match packetId with VStr s => negb (startswith (u "CONF-") s) | _ => true end) "PACKET_ID_INVALID" ;;
  each_field v envelope_digests require_digest ;;
  commands ← fld v "commands";
  commands ← validate_commands commands;
  commandSetDigest ← fld v "commandSetDigest";
  digest ← command_set_digest commands;
  raise_if (negb (py_eq commandSetDigest (VStr digest))) "COMMAND_DIGEST_MISMATCH" ;;
  each_field v envelope_references _require_absolute_reference ;;
  axes ← fld v "allowedEvidenceAxes";
  raise_if (negb (is_list axes) || negb (truthy axes)) "EVIDENCE_AXES_INVALID" ;;
  axs ← py_iter axes;
  axis_set ← py_set axs;
  raise_if (negb (zlen axs =? zlen axis_set) || existsb (fun a => negb (in_lits a LIVE_AXES)) axs)
    "EVIDENCE_AXES_INVALID" ;;
  profile ← fld v "mutationProfile";
  raise_if (negb (eq_lit profile "ZERO_INCREMENTAL_COST_KUBERNETES_V1")) "MUTATION_PROFILE_FORBIDDEN" ;;
  endpoints ← fld v "endpoints";
  raise_if (match endpoints with VList [] => true | VList l => zlen l >? 32 | _ => true end) "ENDPOINT_SET_INVALID" ;;
  es ← py_iter endpoints;
  validated ← map_m validate_endpoint es;
  ids ← map_m (fun e => fld e "endpointId") validated;
  id_set ← py_set ids;
  raise_if (negb (zlen ids =? zlen id_set)) "DUPLICATE_ENDPOINT" ;;
  issued ← fld_time v "issuedAt";
  expires ← fld_time v "expiresAt";
  ordered ← time_leb expires issued;
  raise_if ordered "INVALID_VALIDITY_WINDOW" ;;
  current ← (time_leb issued now <&&> time_leb now expires);
  raise_if (negb current) "ENVELOPE_NOT_CURRENT" ;;
  each_field v ["platformSignerKeyId"; "tenantSignerKeyId"] require_key_id ;;
  same ← fld2_eq v "platformSignerKeyId" v "tenantSignerKeyId";
  raise_if same "SIGNER_ROLES_NOT_INDEPENDENT" ;;
  each_field v ["platformSignature"; "tenantSignature"] (fun x => _ ← b64url_decode x 64; Ok tt) ;;
  Ok v.

(** ** The capacity authorization *)

(* @src src/src/harness_conformance/live.py:160-167 validate_capacity *)
Definition equal_fields : list (string * string) :=
  [("authorizationId", "capacityAuthorizationId"); ("tenantId", "tenantId"); ("environmentId", "environmentId");
   ("resourceQuotaDigest", "resourceQuotaDigest"); ("mutationProfile", "mutationProfile");
   ("admissionPolicyDigest", "admissionPolicyDigest")].

(* @src src/src/harness_conformance/live.py:155-184 validate_capacity *)
Definition validate_capacity (v envelope : value) (now : datetime) : res value :=
  require_object v ;;
  closed v CAPACITY_FIELDS [] ;;
  schema ← fld v "schemaVersion";
  raise_if (negb (eq_lit schema CAPACITY_SCHEMA)) "UNSUPPORTED_CAPACITY" ;;
  for_each (fun '(c, e) => same ← fld2_eq v c envelope e; raise_if (negb same) "CAPACITY_BINDING_MISMATCH")
    equal_fields ;;
  each_field v ["limitRangeDigest"] require_digest ;;
  each_field v ["kubernetesApiRules"; "campaignProxyRules"; "permittedGvksAndVerbs"; "preexistingResourceRefs";
                "preallocatedStorageRefs"; "preallocatedAcceleratorRefs"; "credentialIdentities"]
    (fun x => raise_if (match x with VList l => zlen l >? 256 | _ => true end) "CAPACITY_RULES_INVALID") ;;
  endpoints ← fld envelope "endpoints";
  es ← py_iter endpoints;
  ids ← map_m (fun e => fld e "endpointId") es;
  endpoint_ids ← py_set ids;
  permitted ← fld v "permittedEndpointIds";
  raise_if (negb (is_list permitted)) "CAPACITY_ENDPOINT_MISMATCH" ;;
  ps ← py_iter permitted;
  permitted_ids ← py_set ps;
  raise_if (negb (set_eq permitted_ids endpoint_ids)) "CAPACITY_ENDPOINT_MISMATCH" ;;
  valid_from ← fld_time v "validFrom";
  expires ← fld_time v "expiresAt";
  issued ← fld_time envelope "issuedAt";
  current ← (time_leb issued valid_from <&&> time_leb valid_from now <&&> time_leb now expires <&&>
             (envelope_expires ← fld_time envelope "expiresAt"; time_leb expires envelope_expires));
  raise_if (negb current) "CAPACITY_NOT_CURRENT" ;;
  each_field v ["signerKeyId"] require_key_id ;;
  each_field v ["signature"] (fun x => _ ← b64url_decode x 64; Ok tt) ;;
  Ok v.

(** ** Trust *)

Definition trust_key_fields : list string :=
  ["keyId"; "purpose"; "publicKey"; "owner"; "tenantId"; "environmentId"; "validFrom"; "validUntil"; "revoked"].

(* @src src/src/harness_conformance/live.py:187-204 _trust_key *)
Definition _trust_key (bundle key_id : value) (purpose : string) (tenant_id environment_id : value)
    (now : datetime) : res bytes :=
  require_object bundle ;;
  closed bundle ["schemaVersion"; "keys"; "revocationsDigest"] [] ;;
  schema ← fld bundle "schemaVersion";
  raise_if (negb (eq_lit schema "harness.planeon.ai/live-trust-bundle/v1alpha1")) "UNSUPPORTED_TRUST_BUNDLE" ;;
  each_field bundle ["revocationsDigest"] require_digest ;;
  keys ← fld bundle "keys";
  ks ← py_iter keys;
  match List.filter (key_matches key_id) ks with
  | [key] =>
      closed key trust_key_fields [] ;;
      scope ← ((x ← fld_lit key "purpose" purpose; Ok (negb x)) <||>
               (x ← fld_eq key "tenantId" tenant_id; Ok (negb x)) <||>
               (x ← fld_eq key "environmentId" environment_id; Ok (negb x)));
      raise_if scope "TRUST_SCOPE_MISMATCH" ;;
      revoked ← fld key "revoked";
      raise_if (negb (is_false_lit revoked)) "TRUST_KEY_REVOKED" ;;
      from ← fld_time key "validFrom";
      current ← (time_leb from now <&&> (until ← fld_time key "validUntil"; time_leb now until));
      raise_if (negb current) "TRUST_KEY_NOT_CURRENT" ;;
      publicKey ← fld key "publicKey";
      b64url_decode publicKey 32
  | _ => conf "AMBIGUOUS_TRUST_KEY"
  end.

(** [verify(key, payload, b64url_decode(document[field], expected_length=64))]. *)
Definition signed_by (key payload : bytes) (document : value) (field code : string) : res unit :=
  x ← fld document field;
  signature ← b64url_decode x 64;
  valid ← sig_verify key payload signature;
  raise_if (negb valid) code.

(** [verify_live_signatures] under given domains. *)
(* @src src/src/harness_conformance/live.py:207-220 verify_live_signatures *)
Definition verify_signatures (envelope_domain capacity_domain : string)
    (envelope capacity release_trust tenant_trust : value) (now : datetime) : res unit :=
  platform_id ← fld envelope "platformSignerKeyId";
  platform_key ← _trust_key release_trust platform_id "PLATFORM_RELEASE" VNone VNone now;
  tenant_key_id ← fld envelope "tenantSignerKeyId";
  tenant ← fld envelope "tenantId";
  environment ← fld envelope "environmentId";
  tenant_key ← _trust_key tenant_trust tenant_key_id "TENANT_LIVE_EXECUTION" tenant environment now;
  capacity_key_id ← fld capacity "signerKeyId";
  capacity_key ← _trust_key tenant_trust capacity_key_id "CAPACITY_OPERATOR" tenant environment now;
  raise_if (str_eqb platform_key tenant_key || str_eqb platform_key capacity_key || str_eqb tenant_key capacity_key)
    "SIGNER_ROLES_NOT_INDEPENDENT" ;;
  envelope_payload ← signature_payload envelope_domain envelope ["platformSignature"; "tenantSignature"];
  signed_by platform_key envelope_payload envelope "platformSignature" "PLATFORM_SIGNATURE_INVALID" ;;
  signed_by tenant_key envelope_payload envelope "tenantSignature" "TENANT_SIGNATURE_INVALID" ;;
  capacity_payload ← signature_payload capacity_domain capacity ["signature"];
  signed_by capacity_key capacity_payload capacity "signature" "CAPACITY_SIGNATURE_INVALID".

(* @src src/src/harness_conformance/live.py:207-220 verify_live_signatures *)
Definition verify_live_signatures := verify_signatures ENVELOPE_DOMAIN CAPACITY_DOMAIN.

(** ** The v1alpha2 documents *)

(* @src src/src/harness_conformance/live.py:349-349 ENVELOPE_SCHEMA_V2 *)
Definition ENVELOPE_SCHEMA_V2 : string := "harness.planeon.ai/live-campaign-execution-envelope/v1alpha2".
(* @src src/src/harness_conformance/live.py:350-350 CAPACITY_SCHEMA_V2 *)
Definition CAPACITY_SCHEMA_V2 : string := "harness.planeon.ai/live-capacity-authorization/v1alpha2".
(* @src src/src/harness_conformance/live.py:351-351 ENVELOPE_DOMAIN_V2 *)
Definition ENVELOPE_DOMAIN_V2 : string := "planeon.harness-live-execution-envelope/v1alpha2".
(* @src src/src/harness_conformance/live.py:352-352 CAPACITY_DOMAIN_V2 *)
Definition CAPACITY_DOMAIN_V2 : string := "planeon.harness-live-capacity-authorization/v1alpha2".
(* @src src/src/harness_conformance/live.py:353-353 SIGNERS *)
Definition SIGNERS : list string := ["INDEPENDENT_PRINCIPALS"; "SINGLE_PRINCIPAL_SEPARATED_KEYS"].
(* @src src/src/harness_conformance/live.py:354-354 SINGLE_PRINCIPAL_OWNER *)
Definition SINGLE_PRINCIPAL_OWNER : string := "single-principal".

(** The v1alpha1 copy of a v1alpha2 document: without [signers], under the old schema. *)
Definition legacy_copy (schema : string) (d : dict) : value :=
  VDict (dset (u "schemaVersion") (VStr (u schema)) (dwithout [u "signers"] d)).

(* @src src/src/harness_conformance/live.py:357-368 validate_envelope_v2 *)
Definition validate_envelope_v2 (v : value) (now : datetime) : res value :=
  require_object v ;;
  closed v (ENVELOPE_FIELDS ++ ["signers"]) [] ;;
  schema ← fld v "schemaVersion";
  raise_if (negb (eq_lit schema ENVELOPE_SCHEMA_V2)) "UNSUPPORTED_ENVELOPE" ;;
  signers ← fld v "signers";
  raise_if (negb (in_lits signers SIGNERS)) "LINUX_SIGNERS_INVALID" ;;
  d ← items v;
  _ ← validate_envelope (legacy_copy ENVELOPE_SCHEMA d) now;
  Ok v.

(* @src src/src/harness_conformance/live.py:371-384 validate_capacity_v2 *)
Definition validate_capacity_v2 (v envelope_v2 : value) (now : datetime) : res value :=
  require_object v ;;
  closed v (CAPACITY_FIELDS ++ ["signers"]) [] ;;
  schema ← fld v "schemaVersion";
  raise_if (negb (eq_lit schema CAPACITY_SCHEMA_V2)) "UNSUPPORTED_CAPACITY" ;;
  signers ← fld v "signers";
  raise_if (negb (in_lits signers SIGNERS)) "LINUX_SIGNERS_INVALID" ;;
  d ← items v;
  e ← items envelope_v2;
  _ ← validate_capacity (legacy_copy CAPACITY_SCHEMA d) (legacy_copy ENVELOPE_SCHEMA e) now;
  Ok v.

(* @src src/src/harness_conformance/live.py:387-402 verify_live_signatures_v2 *)
Definition verify_live_signatures_v2 := verify_signatures ENVELOPE_DOMAIN_V2 CAPACITY_DOMAIN_V2.

(** ** The Linux authority *)

(** One key of a trust bundle, against the key ids seen so far. *)
(* @src src/src/harness_conformance/live.py:326-333 verify_linux_authority *)
Definition check_trust_key (seen : list value) (key : value) : res (list value) :=
  require_object key ;;
  closed key trust_key_fields [] ;;
  keyId ← fld key "keyId";
  require_key_id keyId ;;
  revoked ← fld key "revoked";
  require (negb (in_values keyId seen) && is_bool revoked) "LINUX_TRUST_INVALID" ;;
  each_field key ["owner"] require_id ;;
  each_field key ["validFrom"; "validUntil"] (fun x => _ ← LinuxShape.require_time x; Ok tt) ;;
  each_field key ["publicKey"] (fun x => _ ← b64url_decode x 32; Ok tt) ;;
  Ok (keyId :: seen).

(* @src src/src/harness_conformance/live.py:322-333 verify_linux_authority *)
Definition check_trust (trust : value) : res unit :=
  require_object trust ;;
  closed trust ["schemaVersion"; "keys"; "revocationsDigest"] [] ;;
  keys ← fld trust "keys";
  require (match keys with VList l => (0 <? zlen l) && (zlen l <=? 128) | _ => false end) "LINUX_TRUST_INVALID" ;;
  ks ← py_iter keys;
  _ ← for_fold check_trust_key [] ks;
  Ok tt.

(** The first owner of a key id: [next(item["owner"] for ... if ...)]. *)
Fixpoint owner_of (key_id : value) (ks : list value) : res value :=
  match ks with
  | [] => Raise StopIteration
  | item :: ks' => same ← fld_eq item "keyId" key_id; if (same : bool) then fld item "owner" else owner_of key_id ks'
  end.

(* @src src/src/harness_conformance/live.py:335-337 verify_linux_authority *)
Definition signer_owners (envelope capacity release_trust tenant_trust : value) : res (list value) :=
  map_m (fun '(trust, document, field) =>
           keys ← fld trust "keys"; ks ← py_iter keys; key_id ← fld document field; owner_of key_id ks)
    [(release_trust, envelope, "platformSignerKeyId"); (tenant_trust, envelope, "tenantSignerKeyId");
     (tenant_trust, capacity, "signerKeyId")].

(** [byte_digest(raw) == envelope[field]]. *)
Definition digest_bound (raw : bytes) (envelope : value) (field code : string) : res unit :=
  require_m (fld_eq envelope field (VStr (byte_digest raw))) code.

Definition _linux_authority_kinds (e : exn) : bool :=
  match e with TypeError | ValueError | KeyError | OverflowError | RecursionError => true | _ => false end.

(** The steps that the two versions share, over their validators. *)
(* @src src/src/harness_conformance/live.py:301-334 verify_linux_authority *)
Definition linux_authority_steps (envelope_ok : value -> datetime -> res value)
    (capacity_ok : value -> value -> datetime -> res value)
    (signatures_ok : value -> value -> value -> value -> datetime -> res unit)
    (envelope_bytes capacity_bytes release_trust_bytes tenant_trust_bytes : bytes) (now : datetime)
    : res (value * value * value * value) :=
  document ← require_canonical_document envelope_bytes;
  envelope ← envelope_ok document now;
  each_field envelope ["issuedAt"] (fun x => _ ← LinuxShape.require_time x; Ok tt) ;;
  require_m (fld_lit envelope "packetId" "CONF-LINUX-001" <&&> fld_lit envelope "packetDigest" PACKET_DIGEST <&&>
             fld_lit envelope "campaignId" "linux-baseline" <&&>
             fld_eq envelope "commands" (argv_list COMMANDS) <&&>
             fld_eq envelope "allowedEvidenceAxes" (str_list AXES)) "LINUX_ENVELOPE_SCOPE_MISMATCH" ;;
  require_m (x ← fld envelope "expiresAt"; t ← LinuxShape.require_time x; time_ltb now t) "LINUX_ENVELOPE_EXPIRED" ;;
  each_field envelope ["tenantId"; "environmentId"; "nonce"; "capacityAuthorizationId"] require_id ;;
  digest_bound capacity_bytes envelope "capacityAuthorizationDigest" "LINUX_AUTHORITY_DIGEST_MISMATCH" ;;
  digest_bound release_trust_bytes envelope "releaseTrustStoreDigest" "LINUX_AUTHORITY_DIGEST_MISMATCH" ;;
  digest_bound tenant_trust_bytes envelope "tenantTrustStoreDigest" "LINUX_AUTHORITY_DIGEST_MISMATCH" ;;
  document ← require_canonical_document capacity_bytes;
  capacity ← capacity_ok document envelope now;
  each_field capacity ["validFrom"] (fun x => _ ← LinuxShape.require_time x; Ok tt) ;;
  require_m (x ← fld capacity "expiresAt"; t ← LinuxShape.require_time x; time_ltb now t) "LINUX_CAPACITY_EXPIRED" ;;
  each_field capacity ["nonce"; "namespace"; "operatorId"] require_id ;;
  permitted ← fld capacity "permittedEndpointIds";
  ps ← py_iter permitted;
  permitted_ids ← py_set ps;
  require (zlen ps =? zlen permitted_ids) "LINUX_DUPLICATE_ENDPOINT" ;;
  release_trust ← require_canonical_document release_trust_bytes;
  tenant_trust ← require_canonical_document tenant_trust_bytes;
  for_each check_trust [release_trust; tenant_trust] ;;
  signatures_ok envelope capacity release_trust tenant_trust now ;;
  Ok (envelope, capacity, release_trust, tenant_trust).

(* @src src/src/harness_conformance/live.py:292-343 verify_linux_authority *)
Definition verify_linux_authority (envelope_bytes capacity_bytes release_trust_bytes tenant_trust_bytes : bytes)
    (now : datetime) : res (value * value * value * value) :=
  guarded _linux_authority_kinds "LINUX_AUTHORITY_MALFORMED"
    ('(envelope, capacity, release_trust, tenant_trust) ←
       linux_authority_steps validate_envelope validate_capacity verify_live_signatures
         envelope_bytes capacity_bytes release_trust_bytes tenant_trust_bytes now;
     owners ← signer_owners envelope capacity release_trust tenant_trust;
     owner_set ← py_set owners;
     require (zlen owner_set =? 3) "LINUX_SIGNER_OWNERS_NOT_INDEPENDENT" ;;
     Ok (envelope, capacity, release_trust, tenant_trust)).

(* @src src/src/harness_conformance/live.py:405-464 verify_linux_authority_v2 *)
Definition verify_linux_authority_v2 (envelope_bytes capacity_bytes release_trust_bytes tenant_trust_bytes : bytes)
    (now : datetime) : res (value * value * value * value * value) :=
  guarded _linux_authority_kinds "LINUX_AUTHORITY_MALFORMED"
    ('(envelope, capacity, release_trust, tenant_trust) ←
       linux_authority_steps validate_envelope_v2 validate_capacity_v2 verify_live_signatures_v2
         envelope_bytes capacity_bytes release_trust_bytes tenant_trust_bytes now;
     require_m (fld2_eq envelope "signers" capacity "signers") "LINUX_SIGNERS_DISCLOSURE_MISMATCH" ;;
     owners ← signer_owners envelope capacity release_trust tenant_trust;
     signers ← fld envelope "signers";
     (if eq_lit signers "INDEPENDENT_PRINCIPALS" then
        owner_set ← py_set owners;
        require (zlen owner_set =? 3) "LINUX_SIGNER_OWNERS_NOT_INDEPENDENT" ;;
        require (negb (in_values (VStr (u SINGLE_PRINCIPAL_OWNER)) owners)) "LINUX_RESERVED_OWNER_LABEL"
      else require (forallb (fun o => eq_lit o SINGLE_PRINCIPAL_OWNER) owners)
             "LINUX_SIGNER_OWNERS_NOT_SINGLE_PRINCIPAL") ;;
     Ok (envelope, capacity, release_trust, tenant_trust, signers)).

(** ** The kit tree and the preflight *)

(** What the directory walk meets: a regular file with its mode, device and inode, a symbolic
    link (to a directory or not), another kind of file, or a directory. *)
Unset Elimination Schemes.
Inductive node :=
| Reg (st_mode st_dev st_ino : Z)
| Link (to_directory : bool)
| Special
| Dir (entries : list (str * node)).
Set Elimination Schemes.

Definition walked_as_directory (n : node) : bool := match n with Dir _ | Link true => true | _ => false end.
Definition is_symlink (n : node) : bool := match n with Link _ => true | _ => false end.

(** [names.sort(key=lambda item: item.encode("utf-8"))], on names with their payload. *)
Definition sort_utf8 {A} (l : list (str * A)) : res (list (str * A)) :=
  keyed ← map_m (fun kv => b ← utf8_encode kv.1; Ok (b, kv)) l;
  Ok (map snd (sort_items keyed)).

(** [f"{mode:04o}"]. *)
Definition octal4 (mode : Z) : str :=
  map (fun k => Z.to_N (48 + Z.land (Z.shiftr mode k) 7)) [9; 6; 3; 0].

(** What the digest records of a file. *)
Definition file_entry (relative : str) (mode : Z) (data : bytes) : value :=
  VDict [(u "mode", VStr (octal4 mode)); (u "path", VStr relative);
         (u "sha256", VStr (byte_digest data)); (u "size", VInt (zlen data))].

(** The entries found so far and the inodes seen. *)
Definition walk_state : Type := list (str * value) * list (Z * Z).

(* @src src/src/harness_conformance/live.py:235-246 tree_digest *)
Definition visit_file (os_open : str -> option opened) (root : str) (relative : str) (n : node) (s : walk_state)
    : res walk_state :=
  let '(entries, seen) := s in
  match n with
  | Reg st_mode st_dev st_ino =>
      let mode := Z.land st_mode 4095 in
      raise_if (negb (Z.land mode 18 =? 0)) "KIT_FILE_INVALID" ;;
      raise_if (existsb (fun '(d, i) => (d =? st_dev) && (i =? st_ino)) seen) "KIT_HARDLINK_FORBIDDEN" ;;
      data ← secure_read os_open (root ++ u "/" ++ relative) false;
      Ok (entries ++ [(relative, file_entry relative mode data)],
          (st_dev, st_ino) :: seen)
  | _ => conf "KIT_FILE_INVALID"
  end.

(** The relative path of an entry of the directory [prefix], the root being the empty one. *)
Definition under (prefix name : str) : str := match prefix with [] => name | _ => prefix ++ u "/" ++ name end.

(** One directory of [os.walk(root, topdown=True, followlinks=False)]: its names sorted, its
    links refused, its files visited, then its directories in order. *)
(* @src src/src/harness_conformance/live.py:228-246 tree_digest *)
Fixpoint walk (os_open : str -> option opened) (root : str) (n : node) (prefix : str) (s : walk_state)
    : res walk_state :=
  match n with
  | Dir entries =>
      let kids := map (fun kv => (kv.1, (kv.2, walk os_open root kv.2))) entries in
      directories ← sort_utf8 (List.filter (fun kv => walked_as_directory kv.2.1) kids);
      files ← sort_utf8 (List.filter (fun kv => negb (walked_as_directory kv.2.1)) kids);
      for_each (fun kv => raise_if (is_symlink kv.2.1) "KIT_LINK_FORBIDDEN") directories ;;
      s ← for_fold (fun s kv => visit_file os_open root (under prefix kv.1) kv.2.1 s) s files;
      for_fold (fun s kv => kv.2.2 (under prefix kv.1) s) s directories
  | _ => Ok s
  end.

(* @src src/src/harness_conformance/live.py:223-248 tree_digest *)
Definition tree_digest (os_open : str -> option opened) (lookup : str -> option node) (root : str) : res str :=
  raise_if (negb (is_absolute root) || match lookup root with Some (Dir _) => false | _ => true end)
    "KIT_ROOT_INVALID" ;;
  '(entries, _) ← (match lookup root with Some n => walk os_open root n [] ([], []) | None => Ok ([], []) end);
  sorted ← sort_utf8 entries;
  canonical_digest (VList (map snd sorted)) (Some TREE_DOMAIN).

(** [Path(v)] of a checked reference. *)
Definition as_path (v : value) : str := match v with VStr s => s | _ => [] end.

(* @src src/src/harness_conformance/live.py:251-255 _verify_reference *)
Definition _verify_reference (os_open : str -> option opened) (path_value expected_digest : value) : res bytes :=
  data ← secure_read os_open (as_path path_value) true;
  raise_if (negb (py_eq (VStr (byte_digest data)) expected_digest)) "REFERENCE_DIGEST_MISMATCH" ;;
  Ok data.

(** [_verify_reference(envelope[reference], envelope[digest])]. *)
Definition verify_member (os_open : str -> option opened) (envelope : value) (reference digest : string) : res bytes :=
  r ← fld envelope reference; d ← fld envelope digest; _verify_reference os_open r d.

(* @src src/src/harness_conformance/live.py:258-289 preflight *)
Definition preflight (os_open : str -> option opened) (lookup : str -> option node)
    (envelope_path launcher_path release_trust_path tenant_trust_path : str) (now : datetime) : res value :=
  document ← load_json os_open envelope_path true;
  envelope ← validate_envelope document now;
  launcher ← secure_read os_open launcher_path true;
  same ← fld_eq envelope "launcherDigest" (VStr (byte_digest launcher));
  raise_if (negb same) "LAUNCHER_DIGEST_MISMATCH" ;;
  _ ← verify_member os_open envelope "packetFileReference" "packetDigest";
  _ ← verify_member os_open envelope "campaignDefinitionFileReference" "campaignDefinitionDigest";
  _ ← verify_member os_open envelope "campaignReleaseFileReference" "campaignReleaseDigest";
  _ ← verify_member os_open envelope "bundleFileReference" "bundleDigest";
  capacity_bytes ← verify_member os_open envelope "capacityAuthorizationFileReference" "capacityAuthorizationDigest";
  root ← fld envelope "conformanceKitRoot";
  tree ← tree_digest os_open lookup (as_path root);
  same ← fld_eq envelope "conformanceKitDigest" (VStr tree);
  raise_if (negb same) "KIT_DIGEST_MISMATCH" ;;
  release_bytes ← secure_read os_open release_trust_path true;
  tenant_bytes ← secure_read os_open tenant_trust_path true;
  same ← (fld_eq envelope "releaseTrustStoreDigest" (VStr (byte_digest release_bytes)) <&&>
          fld_eq envelope "tenantTrustStoreDigest" (VStr (byte_digest tenant_bytes)));
  raise_if (negb same) "TRUST_STORE_DIGEST_MISMATCH" ;;
  capacity_document ← load_json_bytes capacity_bytes;
  capacity ← validate_capacity capacity_document envelope now;
  release_trust ← load_json_bytes release_bytes;
  tenant_trust ← load_json_bytes tenant_bytes;
  verify_live_signatures envelope capacity release_trust tenant_trust now ;;
  campaignId ← fld envelope "campaignId";
  authorization ← fld envelope "capacityAuthorizationId";
  environmentId ← fld envelope "environmentId";
  tenantId ← fld envelope "tenantId";
  Ok (VDict [(u "authorityStatus", VStr (u "PASS")); (u "campaignId", campaignId);
             (u "capacityAuthorizationId", authorization); (u "environmentId", environmentId);
             (u "tenantId", tenantId)]).
End live.

(** ** What the checks decide *)

Section live_theorems.
Context {U : Unicode} {S : SigScheme}.

Lemma fld_lit_true v k s : fld_lit v k s = Ok true <-> fld v k = Ok (VStr (u s)).
Proof.
  unfold fld_lit. rewrite bind_Ok. split.
  - intros (x & Hx & [= ->%eq_lit_true]). done.
  - intros ->. eexists. split; [done |]. by rewrite (proj2 (eq_lit_true _ _) eq_refl).
Qed.

Lemma negb_m_false (m : res bool) : (x ← m; Ok (negb x)) = Ok false <-> m = Ok true.
Proof. destruct m as [[]|]; naive_solver. Qed.

(** The key that a trust bundle holds under a key id for a purpose and a scope at an instant. *)
Record trusted_key (bundle key_id : value) (purpose : string) (tenant environment : value) (now : datetime)
    (pk : bytes) (key : value) : Prop := {
  key_unique : exists keys ks, fld bundle "keys" = Ok keys /\ py_iter keys = Ok ks /\
                 List.filter (key_matches key_id) ks = [key];
  key_purpose : fld key "purpose" = Ok (VStr (u purpose));
  key_tenant : exists t, fld key "tenantId" = Ok t /\ py_eq t tenant = true;
  key_environment : exists e, fld key "environmentId" = Ok e /\ py_eq e environment = true;
  key_revoked : fld key "revoked" = Ok (VBool false);
  key_from : exists from, fld_time key "validFrom" = Ok from /\ time_leb from now = Ok true;
  key_until : exists until, fld_time key "validUntil" = Ok until /\ time_leb now until = Ok true;
  key_public : fld key "publicKey" = Ok (VStr (b64url_encode pk)) /\ zlen pk = 32
}.

Lemma trust_key_Ok bundle key_id purpose tenant environment now pk :
  _trust_key bundle key_id purpose tenant environment now = Ok pk ->
  exists key, trusted_key bundle key_id purpose tenant environment now pk key.
Proof.
  unfold _trust_key. intros H. do 2 apply seq_Ok in H as [_ H].
  apply bind_Ok in H as (? & _ & H). do 2 apply seq_Ok in H as [_ H].
  apply bind_Ok in H as (keys & Hk & H). apply bind_Ok in H as (ks & Hks & H).
  destruct (List.filter _ ks) as [|key [|? ?]] eqn:Hf; try done.
  apply seq_Ok in H as [_ H]. apply bind_Ok in H as (scope & Hs & H).
  apply seq_Ok in H as [->%raise_if_Ok H]. apply or_m_false in Hs as [[Hp Ht]%or_m_false He].
  apply negb_m_false in Hp, Ht, He. apply bind_Ok in H as (rv & Hrv & H).
  apply seq_Ok in H as [Hf'%raise_if_Ok%negb_false_iff H]. apply bind_Ok in H as (from & Hfrom & H).
  apply bind_Ok in H as (cur & Hcur & H). apply seq_Ok in H as [->%raise_if_Ok%negb_false_iff H].
  apply and_m_true in Hcur as [Hle Hun]. apply bind_Ok in Hun as (until & Huntil & Hun).
  apply bind_Ok in H as (pkv & Hpk & [-> Hl]%b64_decode_Ok).
  exists key. split; eauto.
  - by apply fld_lit_true.
  - by apply fld_eq_true.
  - by apply fld_eq_true.
  - by destruct rv as [|[]| | | |].
Qed.

(** The three roles of a live authority: a platform release key, a tenant execution key and a
    capacity operator key, pairwise distinct and current, the first two having signed the
    envelope without its signatures, the third the capacity without its own. *)
Definition signed_field (pk payload : bytes) (document : value) (field : string) : Prop :=
  exists sg, fld document field = Ok (VStr (b64url_encode sg)) /\ zlen sg = 64 /\
    sig_verify pk payload sg = Ok true.

Definition signed_authority (envelope_domain capacity_domain : string)
    (envelope capacity release_trust tenant_trust : value) (now : datetime) : Prop :=
  exists pid tid cid tenant environment pk tk ck k1 k2 k3 ep cp,
    fld envelope "platformSignerKeyId" = Ok pid /\ fld envelope "tenantSignerKeyId" = Ok tid /\
    fld capacity "signerKeyId" = Ok cid /\
    fld envelope "tenantId" = Ok tenant /\ fld envelope "environmentId" = Ok environment /\
    trusted_key release_trust pid "PLATFORM_RELEASE" VNone VNone now pk k1 /\
    trusted_key tenant_trust tid "TENANT_LIVE_EXECUTION" tenant environment now tk k2 /\
    trusted_key tenant_trust cid "CAPACITY_OPERATOR" tenant environment now ck k3 /\
    NoDup [pk; tk; ck] /\
    signature_payload envelope_domain envelope ["platformSignature"; "tenantSignature"] = Ok ep /\
    signature_payload capacity_domain capacity ["signature"] = Ok cp /\
    signed_field pk ep envelope "platformSignature" /\ signed_field tk ep envelope "tenantSignature" /\
    signed_field ck cp capacity "signature".

Lemma signed_by_Ok pk payload document field code :
  signed_by pk payload document field code = Ok tt -> signed_field pk payload document field.
Proof.
  unfold signed_by. intros H. apply bind_Ok in H as (x & Hx & H).
  apply bind_Ok in H as (sg & [-> Hl]%b64_decode_Ok & H). apply bind_Ok in H as (valid & Hv & H).
  apply raise_if_Ok, negb_false_iff in H as ->. by exists sg.
Qed.

Lemma verify_signatures_Ok ed cd envelope capacity rt tt_ now :
  verify_signatures ed cd envelope capacity rt tt_ now = Ok tt ->
  signed_authority ed cd envelope capacity rt tt_ now.
Proof.
  unfold verify_signatures. intros H.
  apply bind_Ok in H as (pid & Hpid & H). apply bind_Ok in H as (pk & [k1 Hpk]%trust_key_Ok & H).
  apply bind_Ok in H as (tid & Htid & H). apply bind_Ok in H as (tenant & Ht & H).
  apply bind_Ok in H as (env & He & H). apply bind_Ok in H as (tk & [k2 Htk]%trust_key_Ok & H).
  apply bind_Ok in H as (cid & Hcid & H). apply bind_Ok in H as (ck & [k3 Hck]%trust_key_Ok & H).
  apply seq_Ok in H as [Hd%raise_if_Ok H]. apply bind_Ok in H as (ep & Hep & H).
  apply seq_Ok in H as [H1%signed_by_Ok H]. apply seq_Ok in H as [H2%signed_by_Ok H].
  apply bind_Ok in H as (cp & Hcp & H3%signed_by_Ok).
  exists pid, tid, cid, tenant, env, pk, tk, ck, k1, k2, k3, ep, cp.
  repeat (split; [done |]). split; [|done].
  apply orb_false_iff in Hd as [[H12 H13]%orb_false_iff H23]. apply str_eqb_neq in H12, H13, H23.
  repeat constructor; rewrite ?list_elem_of_In; simpl; naive_solver.
Qed.

(** *** Endpoints and the envelope *)

Definition in_endpoint_ranges (a : address) : Prop :=
  match a with
  | V4 n => exists r, In r endpoint4 /\ (r.1 <= n <= r.2)%N
  | V6 n => exists r, In r endpoint6 /\ (r.1 <= n <= r.2)%N
  end.

Lemma public_endpoint_ranges a : public_endpoint a = false <-> in_endpoint_ranges a.
Proof.
  destruct a as [n | n]; simpl; rewrite ?endpoint_v4, ?endpoint_v6, negb_false_iff, existsb_exists;
    unfold within; setoid_rewrite andb_true_iff; setoid_rewrite N.leb_le; naive_solver.
Qed.

Record endpoint_ok (v : value) : Prop := {
  ep_address : exists ip a, fld v "ipAddress" = Ok ip /\ ip_address ip = Ok a /\ in_endpoint_ranges a;
  ep_port : exists p, fld v "port" = Ok (VInt p) /\ 1 <= p <= 65535;
  ep_discovery : fld v "discovery" = Ok (VBool false);
  ep_access : exists kind, fld v "kind" = Ok (VStr (u kind)) /\
    fld v "accessMode" = Ok (VStr (u (if endswith (u "PROXY") (u kind) then "PREAUTHORIZED_PROXY" else "LOCAL_PREEXISTING")));
  ep_tls : exists tls name, fld v "tls" = Ok tls /\ fld tls "serverName" = Ok (VStr name) /\
    name <> [] /\ substr_in (u "*") name = false
}.

Lemma validate_endpoint_Ok v w : validate_endpoint v = Ok w -> w = v /\ endpoint_ok v.
Proof.
  unfold validate_endpoint. intros H. do 2 apply seq_Ok in H as [_ H].
  apply bind_Ok in H as (kind & Hk & H).
  apply seq_Ok in H as [(k & -> & _)%raise_if_Ok%negb_false_iff%in_lits_true H]. cbv zeta in H.
  apply bind_Ok in H as (am & Ham & H). apply bind_Ok in H as (dc & Hdc & H).
  apply seq_Ok in H as [[Ha Hd]%raise_if_Ok%orb_false_iff H]. apply negb_false_iff in Ha, Hd.
  apply eq_lit_true in Ha as ->.
  apply bind_Ok in H as (ip & Hip & H). apply bind_Ok in H as (a & Ha & H).
  apply seq_Ok in H as [Hpub%raise_if_Ok%public_endpoint_ranges H].
  apply bind_Ok in H as (port & Hport & H). apply seq_Ok in H as [Hp%raise_if_Ok H].
  apply bind_Ok in H as (tls & Htls & H). do 2 apply seq_Ok in H as [_ H].
  apply bind_Ok in H as (sn & Hsn & H). apply seq_Ok in H as [Hs%raise_if_Ok H].
  do 4 apply seq_Ok in H as [_ H]. apply bind_Ok in H as (? & _ & H). apply seq_Ok in H as [_ [= <-]].
  split; [done |]. split; eauto.
  - exists ip, a. split; [done |]. split; [|done].
    destruct (ip_address ip) as [? | []]; congruence || done.
  - destruct port; try done. apply negb_false_iff, andb_true_iff in Hp as [?%Z.leb_le ?%Z.leb_le]. eauto.
  - by destruct dc as [|[]| | | |].
  - destruct sn as [| | |s| |]; try done. exists tls, s. destruct s; [done |]. naive_solver.
Qed.

Lemma validate_envelope_Ok v now w :
  validate_envelope v now = Ok w ->
  w = v /\
  (exists es, fld v "endpoints" = Ok (VList es) /\ (1 <= length es <= 32)%nat /\ Forall endpoint_ok es) /\
  (exists h commands, fld v "commands" = Ok commands /\ command_set_digest commands = Ok h /\
     fld v "commandSetDigest" = Ok (VStr h)) /\
  (exists a b, fld_time v "issuedAt" = Ok a /\ fld_time v "expiresAt" = Ok b /\
     time_leb a now = Ok true /\ time_leb now b = Ok true).
Proof.
  unfold validate_envelope. intros H. do 2 apply seq_Ok in H as [_ H].
  do 2 (apply bind_Ok in H as (? & _ & H); apply seq_Ok in H as [_ H]). apply seq_Ok in H as [_ H].
  apply bind_Ok in H as (cmds & Hc & H). apply bind_Ok in H as (cmds' & Hc' & H).
  assert (cmds' = cmds) as ->.
  { unfold validate_commands in Hc'. apply seq_Ok in Hc' as [_ Hc']. apply bind_Ok in Hc' as (? & _ & Hc').
    by apply seq_Ok in Hc' as [_ [= <-]]. }
  apply bind_Ok in H as (csd & Hcsd & H). apply bind_Ok in H as (h & Hh & H).
  apply seq_Ok in H as [Hd%raise_if_Ok%negb_false_iff H]. apply seq_Ok in H as [_ H].
  apply bind_Ok in H as (? & _ & H). apply seq_Ok in H as [_ H].
  do 2 apply bind_Ok in H as (? & _ & H). apply seq_Ok in H as [_ H].
  apply bind_Ok in H as (? & _ & H). apply seq_Ok in H as [_ H].
  apply bind_Ok in H as (eps & He & H). apply seq_Ok in H as [Hl%raise_if_Ok H].
  apply bind_Ok in H as (es & Hes & H). apply bind_Ok in H as (val & Hval & H).
  do 2 apply bind_Ok in H as (? & _ & H). apply seq_Ok in H as [_ H].
  apply bind_Ok in H as (a & Ha & H). apply bind_Ok in H as (b & Hb & H).
  apply bind_Ok in H as (? & _ & H). apply seq_Ok in H as [_ H].
  apply bind_Ok in H as (cur & Hcur & H). apply seq_Ok in H as [->%raise_if_Ok%negb_false_iff H].
  apply and_m_true in Hcur as [Hia Hib].
  apply seq_Ok in H as [_ H]. apply bind_Ok in H as (? & _ & H). do 2 apply seq_Ok in H as [_ H].
  injection H as <-. split; [done |]. split; [|split].
  - destruct eps as [| | | |l|]; try done. injection Hes as ->. exists es. split; [done |]. split.
    + destruct es; [done |]. cbn iota in Hl. rewrite Z.gtb_ltb, Z.ltb_ge in Hl. unfold zlen in Hl. simpl in *. lia.
    + apply map_m_Ok in Hval. clear -Hval. induction Hval; constructor; [|done].
      by apply validate_endpoint_Ok in H as [_ ?].
  - exists h, cmds. split; [done |]. split; [done |]. rewrite Hcsd.
    destruct csd; try done. by apply str_eqb_eq in Hd as ->.
  - eauto 10.
Qed.

Lemma validate_capacity_Ok v envelope now w :
  validate_capacity v envelope now = Ok w ->
  w = v /\
  (forall c e, In (c, e) equal_fields -> exists x y, fld v c = Ok x /\ fld envelope e = Ok y /\ py_eq x y = true) /\
  (exists i a b e, fld_time envelope "issuedAt" = Ok i /\ fld_time v "validFrom" = Ok a /\
     fld_time v "expiresAt" = Ok b /\ fld_time envelope "expiresAt" = Ok e /\
     time_leb i a = Ok true /\ time_leb a now = Ok true /\ time_leb now b = Ok true /\ time_leb b e = Ok true).
Proof.
  unfold validate_capacity. intros H. do 2 apply seq_Ok in H as [_ H].
  apply bind_Ok in H as (? & _ & H). apply seq_Ok in H as [_ H].
  apply seq_Ok in H as [Heq H]. do 2 apply seq_Ok in H as [_ H].
  do 5 apply bind_Ok in H as (? & _ & H). apply seq_Ok in H as [_ H].
  do 2 apply bind_Ok in H as (? & _ & H). apply seq_Ok in H as [_ H].
  apply bind_Ok in H as (a & Ha & H). apply bind_Ok in H as (b & Hb & H).
  apply bind_Ok in H as (i & Hi & H). apply bind_Ok in H as (cur & Hcur & H).
  apply seq_Ok in H as [->%raise_if_Ok%negb_false_iff H]. do 2 apply seq_Ok in H as [_ H]. injection H as <-.
  apply and_m_true in Hcur as [Hcur He]. apply and_m_true in Hcur as [Hcur H3]. apply and_m_true in Hcur as [H1 H2].
  apply bind_Ok in He as (e & He & H4).
  split; [done |]. split; [|exists i, a, b, e; auto 10].
  intros c e' Hin. rewrite for_each_Ok, List.Forall_forall in Heq. specialize (Heq _ Hin). cbv beta iota in Heq.
  apply bind_Ok in Heq as (same & Hs & Hsame%raise_if_Ok%negb_false_iff). subst same. unfold fld2_eq in Hs.
  apply bind_Ok in Hs as (cx & Hx & Hs). apply bind_Ok in Hs as (cy & Hy & [= E]). eauto.
Qed.

(** *** The Linux authority *)

(** A document bound to the envelope by its digest, and what it decodes to. *)
Definition bound_document (raw : bytes) (envelope : value) (field : string) (document : value) : Prop :=
  require_canonical_document raw = Ok document /\
  exists x, fld envelope field = Ok x /\ py_eq x (VStr (byte_digest raw)) = true.

Lemma digest_bound_Ok raw envelope field code :
  digest_bound raw envelope field code = Ok tt ->
  exists x, fld envelope field = Ok x /\ py_eq x (VStr (byte_digest raw)) = true.
Proof. intros H%require_m_Ok. by apply fld_eq_true. Qed.

Lemma linux_authority_steps_Ok E C V eb cb rb tb now e c rt tt_ :
  linux_authority_steps E C V eb cb rb tb now = Ok (e, c, rt, tt_) ->
  (exists doc, require_canonical_document eb = Ok doc /\ E doc now = Ok e) /\
  (exists doc, bound_document cb e "capacityAuthorizationDigest" doc /\ C doc e now = Ok c) /\
  bound_document rb e "releaseTrustStoreDigest" rt /\ bound_document tb e "tenantTrustStoreDigest" tt_ /\
  fld e "packetDigest" = Ok (VStr (u PACKET_DIGEST)) /\ V e c rt tt_ now = Ok tt.
Proof.
  unfold linux_authority_steps. intros H.
  apply bind_Ok in H as (doc & Hdoc & H). apply bind_Ok in H as (e' & He & H).
  apply seq_Ok in H as [_ H]. apply seq_Ok in H as [Hscope%require_m_Ok H].
  apply seq_Ok in H as [_ H]. apply seq_Ok in H as [_ H].
  apply seq_Ok in H as [H1%digest_bound_Ok H]. apply seq_Ok in H as [H2%digest_bound_Ok H].
  apply seq_Ok in H as [H3%digest_bound_Ok H].
  apply bind_Ok in H as (cdoc & Hcdoc & H). apply bind_Ok in H as (c' & Hc & H).
  do 3 apply seq_Ok in H as [_ H]. do 3 apply bind_Ok in H as (? & _ & H). apply seq_Ok in H as [_ H].
  apply bind_Ok in H as (rt' & Hrt & H). apply bind_Ok in H as (tt' & Htt & H).
  apply seq_Ok in H as [_ H]. apply seq_Ok in H as [HV H]. injection H as -> -> -> ->.
  do 3 (apply and_m_true in Hscope as [Hscope _]). apply and_m_true in Hscope as [_ Hp%fld_lit_true].
  unfold bound_document. naive_solver.
Qed.

Lemma signer_owners_length e c rt tt_ owners : signer_owners e c rt tt_ = Ok owners -> length owners = 3%nat.
Proof. intros H%map_m_Ok%Forall2_length. done. Qed.

Lemma owners_independent owners s :
  py_set owners = Ok s -> length owners = 3%nat -> zlen s = 3 -> distinct owners.
Proof. intros [-> _]%py_set_Ok Hl H. apply dedup_full. unfold zlen in H. lia. Qed.

(** The Linux authority is independent.  When [verify_linux_authority] returns, the envelope
    and the capacity are the canonical documents it was given, the envelope names by digest the
    capacity and both trust stores and the pinned packet, three pairwise distinct current keys
    of the three roles signed them over the v1alpha1 domains, and the three signers have three
    different owners. *)
Theorem linux_authority_independent eb cb rb tb now e c rt tt_ :
  verify_linux_authority eb cb rb tb now = Ok (e, c, rt, tt_) ->
  require_canonical_document eb = Ok e /\
  bound_document cb e "capacityAuthorizationDigest" c /\
  bound_document rb e "releaseTrustStoreDigest" rt /\ bound_document tb e "tenantTrustStoreDigest" tt_ /\
  fld e "packetDigest" = Ok (VStr (u PACKET_DIGEST)) /\
  signed_authority ENVELOPE_DOMAIN CAPACITY_DOMAIN e c rt tt_ now /\
  exists owners, signer_owners e c rt tt_ = Ok owners /\ length owners = 3%nat /\ distinct owners.
Proof.
  unfold verify_linux_authority. intros H%guarded_Ok.
  apply bind_Ok in H as ([[[e' c'] rt'] tt'] & Hs & H). cbv beta iota in H.
  apply bind_Ok in H as (owners & Ho & H). apply bind_Ok in H as (s & Hset & H).
  apply seq_Ok in H as [H3%require_Ok%Z.eqb_eq [= -> -> -> ->]].
  apply linux_authority_steps_Ok in Hs as ((doc & Hdoc & He) & (cdoc & Hc & Hcap) & Hr & Ht & Hp & HV).
  apply validate_envelope_Ok in He as [-> _]. apply validate_capacity_Ok in Hcap as [-> _].
  pose proof (signer_owners_length _ _ _ _ _ Ho) as Hl.
  apply verify_signatures_Ok in HV. eauto 20 using owners_independent.
Qed.

Lemma envelope_v2_Ok v now w :
  validate_envelope_v2 v now = Ok w ->
  w = v /\ exists d s, v = VDict d /\ fld v "signers" = Ok (VStr (u s)) /\ In s SIGNERS /\
    validate_envelope (legacy_copy ENVELOPE_SCHEMA d) now = Ok (legacy_copy ENVELOPE_SCHEMA d).
Proof.
  unfold validate_envelope_v2. intros H. do 2 apply seq_Ok in H as [_ H].
  apply bind_Ok in H as (? & _ & H). apply seq_Ok in H as [_ H]. apply bind_Ok in H as (s & Hs & H).
  apply seq_Ok in H as [(sv & -> & Hx)%raise_if_Ok%negb_false_iff%in_lits_true H].
  apply bind_Ok in H as (d & Hd & H). apply bind_Ok in H as (w' & Hw & [= <-]).
  pose proof (validate_envelope_Ok _ _ _ Hw) as [-> _].
  split; [done |]. exists d, sv. destruct v; try done. by injection Hd as ->.
Qed.

Lemma capacity_v2_Ok v e now w : validate_capacity_v2 v e now = Ok w -> w = v.
Proof.
  unfold validate_capacity_v2. intros H. do 2 apply seq_Ok in H as [_ H].
  do 2 (apply bind_Ok in H as (? & _ & H); apply seq_Ok in H as [_ H]).
  do 3 apply bind_Ok in H as (? & _ & H). by injection H.
Qed.

(** The v1alpha2 disclosure is honest and signed.  When [verify_linux_authority_v2] returns,
    the returned disclosure is the envelope's and the capacity's [signers], covered by all three
    signatures under the v2 domains; with independent principals the three signers have three
    different owners, none under the reserved label; with a single principal every owner is
    that label. *)
Theorem linux_authority_disclosed eb cb rb tb now e c rt tt_ s :
  verify_linux_authority_v2 eb cb rb tb now = Ok (e, c, rt, tt_, s) ->
  require_canonical_document eb = Ok e /\
  bound_document cb e "capacityAuthorizationDigest" c /\
  bound_document rb e "releaseTrustStoreDigest" rt /\ bound_document tb e "tenantTrustStoreDigest" tt_ /\
  signed_authority ENVELOPE_DOMAIN_V2 CAPACITY_DOMAIN_V2 e c rt tt_ now /\
  fld e "signers" = Ok s /\ (exists s', fld c "signers" = Ok s' /\ py_eq s s' = true) /\
  exists owners, signer_owners e c rt tt_ = Ok owners /\
    (s = VStr (u "INDEPENDENT_PRINCIPALS") /\ distinct owners /\
       in_values (VStr (u SINGLE_PRINCIPAL_OWNER)) owners = false \/
     s = VStr (u "SINGLE_PRINCIPAL_SEPARATED_KEYS") /\
       forall o, In o owners -> o = VStr (u SINGLE_PRINCIPAL_OWNER)).
Proof.
  unfold verify_linux_authority_v2. intros H%guarded_Ok.
  apply bind_Ok in H as ([[[e' c'] rt'] tt'] & Hs & H). cbv beta iota in H.
  apply seq_Ok in H as [Hsame%require_m_Ok H]. apply bind_Ok in H as (owners & Ho & H).
  apply bind_Ok in H as (s' & Hs' & H). apply seq_Ok in H as [Hcase [= -> -> -> -> ->]].
  apply linux_authority_steps_Ok in Hs as ((doc & Hdoc & He) & (cdoc & Hc & Hcap) & Hr & Ht & Hp & HV).
  apply envelope_v2_Ok in He as (-> & d & sg & -> & Hsg & Hin & _). apply capacity_v2_Ok in Hcap as ->.
  apply verify_signatures_Ok in HV. repeat (split; [done |]). split.
  { unfold fld2_eq in Hsame. apply bind_Ok in Hsame as (s1 & Hs1 & Hsame).
    rewrite Hs' in Hs1. injection Hs1 as <-. apply bind_Ok in Hsame as (s2 & Hs2 & [= E]). eauto. }
  exists owners. split; [done |]. rewrite Hsg in Hs'. injection Hs' as <-.
  destruct Hin as [<- | [<- | []]].
  - left. split; [done |]. change (eq_lit (VStr (u "INDEPENDENT_PRINCIPALS")) "INDEPENDENT_PRINCIPALS") with true in Hcase.
    apply bind_Ok in Hcase as (os & Hos & Hcase). apply seq_Ok in Hcase as [H3%require_Ok%Z.eqb_eq Hl%require_Ok%negb_true_iff].
    split; [|done]. eapply owners_independent; eauto using signer_owners_length.
  - right. split; [done |].
    change (eq_lit (VStr (u "SINGLE_PRINCIPAL_SEPARATED_KEYS")) "INDEPENDENT_PRINCIPALS") with false in Hcase.
    apply require_Ok in Hcase. rewrite forallb_forall in Hcase. intros o Ho'. by apply eq_lit_true, Hcase.
Qed.

(** *** The preflight *)

(** The octets of a file, and that a field of the envelope names their digest. *)
Definition bound_file (os_open : str -> option opened) (path : str) (envelope : value) (digest : string) (data : bytes) : Prop :=
  secure_read os_open path true = Ok data /\
  exists h, fld envelope digest = Ok h /\ py_eq h (VStr (byte_digest data)) = true.

Lemma verify_member_Ok os_open envelope reference digest data :
  verify_member os_open envelope reference digest = Ok data ->
  exists path, fld envelope reference = Ok path /\ bound_file os_open (as_path path) envelope digest data.
Proof.
  unfold verify_member, _verify_reference. intros H. apply bind_Ok in H as (path & Hp & H).
  apply bind_Ok in H as (h & Hh & H). apply bind_Ok in H as (d & Hd & H).
  apply seq_Ok in H as [E%raise_if_Ok%negb_false_iff [= <-]]. exists path. split; [done |]. split; [done |].
  exists h. split; [done |]. destruct h as [| | |s| |]; try done. apply str_eqb_eq in E as <-. apply str_eqb_refl.
Qed.


(** *** Endpoints are private *)

(** An accepted endpoint is private.  [validate_endpoint] returns its argument only when its
    address literal lies in one of the listed private ranges, its port is between 1 and 65535,
    discovery is off, its access mode is the one of its kind and its TLS name is a concrete
    one. *)
Theorem endpoint_private v w : validate_endpoint v = Ok w -> w = v /\ endpoint_ok v.
Proof. apply validate_endpoint_Ok. Qed.

(** *** The kit tree's digest *)

Section node_ind.
Variable P : node -> Prop.
Hypothesis P_reg : forall m d i, P (Reg m d i).
Hypothesis P_link : forall b, P (Link b).
Hypothesis P_special : P Special.
Hypothesis P_dir : forall entries, Forall (fun kv => P kv.2) entries -> P (Dir entries).

Fixpoint node_ind (n : node) : P n :=
  match n with
  | Reg m d i => P_reg m d i
  | Link b => P_link b
  | Special => P_special
  | Dir entries =>
      P_dir entries ((fix go l : Forall (fun kv => P kv.2) l :=
        match l with
        | [] => Forall_nil_2 _
        | kv :: l' => Forall_cons_2 _ kv l' (node_ind kv.2) (go l')
        end) entries)
  end.
End node_ind.

Definition is_file_entry (kv : str * value) : Prop := exists mode data, kv.2 = file_entry kv.1 mode data.

Lemma sort_utf8_In {A} (l : list (str * A)) r x : sort_utf8 l = Ok r -> In x r -> In x l.
Proof.
  unfold sort_utf8. intros H Hx. apply bind_Ok in H as (keyed & Hk & [= <-]).
  apply in_map_iff in Hx as ([b kv] & <- & Hin).
  apply (Permutation_in _ (sort_items_perm keyed)) in Hin.
  apply map_m_Ok in Hk. apply list_elem_of_In, list_elem_of_lookup in Hin as [i Hi].
  destruct (Forall2_lookup_r _ _ _ _ _ Hk Hi) as (y & Hy & E). apply bind_Ok in E as (? & _ & [= -> ->]).
  apply list_elem_of_In. by eapply list_elem_of_lookup_2.
Qed.

Lemma for_fold_inv {A St} (I : St -> Prop) (f : St -> A -> res St) l s s' :
  (forall s s' x, In x l -> I s -> f s x = Ok s' -> I s') -> I s -> for_fold f s l = Ok s' -> I s'.
Proof.
  revert s. induction l as [|x l IH]; intros s Hf Hs; simpl; [by intros [= <-] |].
  rewrite bind_Ok. intros (s1 & H1 & H). eapply (IH s1); [|eapply Hf; [by left | |]; eauto | done].
  intros. eapply Hf; eauto. by right.
Qed.

Lemma visit_file_entries os_open root relative n s s' :
  visit_file os_open root relative n s = Ok s' -> Forall is_file_entry s.1 -> Forall is_file_entry s'.1.
Proof.
  destruct s as [entries seen]. unfold visit_file. destruct n; try done. intros H.
  do 2 apply seq_Ok in H as [_ H]. apply bind_Ok in H as (data & _ & [= <-]). intros Hs.
  apply Forall_app. split; [done |]. constructor; [by eexists _, _ | constructor].
Qed.

Lemma walk_entries os_open root n : forall prefix s s',
  walk os_open root n prefix s = Ok s' -> Forall is_file_entry s.1 -> Forall is_file_entry s'.1.
Proof.
  induction n as [| | |entries IH] using node_ind; intros prefix s s' H Hs; simpl in H; try by injection H as <-.
  apply bind_Ok in H as (ds & Hds & H). apply bind_Ok in H as (fs & Hfs & H).
  apply seq_Ok in H as [_ H]. apply bind_Ok in H as (s1 & H1 & H).
  eapply (for_fold_inv (fun s => Forall is_file_entry s.1)); [| |exact H].
  - intros t t' kv Hin Ht E. apply (sort_utf8_In _ _ _ Hds), filter_In in Hin as [Hin _].
    apply in_map_iff in Hin as (kv' & <- & Hin). rewrite List.Forall_forall in IH. eapply (IH kv'); [exact Hin | exact E | exact Ht].
  - eapply (for_fold_inv (fun s => Forall is_file_entry s.1)); [|exact Hs |exact H1].
    intros t t' kv _ Ht E. eapply visit_file_entries; [exact E | exact Ht].
Qed.

(** The listing whose digest [tree_digest] returns. *)
Definition tree_listing (os_open : str -> option opened) (n : node) (root : str) : res (list (str * value)) :=
  '(entries, _) ← walk os_open root n [] ([], []); sort_utf8 entries.

Lemma tree_digest_Ok os_open lookup root h :
  tree_digest os_open lookup root = Ok h ->
  exists entries listing, lookup root = Some (Dir entries) /\
    tree_listing os_open (Dir entries) root = Ok listing /\ Forall is_file_entry listing /\
    canonical_digest (VList (map snd listing)) (Some TREE_DOMAIN) = Ok h.
Proof.
  unfold tree_digest. intros H. apply seq_Ok in H as [[_ Hr]%raise_if_Ok%orb_false_iff H].
  destruct (lookup root) as [[| | |entries]|]; try done.
  apply bind_Ok in H as ([es seen] & Hw & H). apply bind_Ok in H as (listing & Hl & H).
  exists entries, listing. split; [done |]. unfold tree_listing. rewrite Hw. cbn [mbind res_bind].
  split; [done |]. split; [|done]. apply walk_entries in Hw; [|constructor].
  apply List.Forall_forall. intros x Hx%(sort_utf8_In _ _ _ Hl). rewrite List.Forall_forall in Hw. auto.
Qed.

Lemma file_entry_norm kv : is_file_entry kv -> norm kv.2 = kv.2 /\ uniq kv.2 = true.
Proof. intros (mode & data & ->). split; reflexivity. Qed.

Lemma listing_norm l : Forall is_file_entry l ->
  norm (VList (map snd l)) = VList (map snd l) /\ uniq (VList (map snd l)) = true.
Proof.
  induction 1 as [|kv l [H1 H2]%file_entry_norm _ [IH1 IH2]]; [done |].
  simpl in *. injection IH1 as IH1. by rewrite H1, H2, IH1, IH2.
Qed.

(** A kit digest names one tree.  Two kit trees with the same digest have the same listing:
    the same relative paths with the same modes, sizes and content digests, unless two distinct
    messages with one SHA-256 hash are at hand. *)
Theorem tree_digest_binds open1 open2 look1 look2 root1 root2 h :
  tree_digest open1 look1 root1 = Ok h -> tree_digest open2 look2 root2 = Ok h ->
  (exists n1 n2 l1 l2, look1 root1 = Some n1 /\ look2 root2 = Some n2 /\
     tree_listing open1 n1 root1 = Ok l1 /\ tree_listing open2 n2 root2 = Ok l2 /\ map snd l1 = map snd l2) \/
  exists m m', m <> m' /\ sha256 m = sha256 m'.
Proof.
  intros (e1 & l1 & H1 & L1 & F1 & D1)%tree_digest_Ok (e2 & l2 & H2 & L2 & F2 & D2)%tree_digest_Ok.
  destruct (listing_norm _ F1) as [N1 U1], (listing_norm _ F2) as [N2 U2].
  destruct (canonical_digest_eq _ _ (Some TREE_DOMAIN) (Some TREE_DOMAIN) h U1 U2) as [[_ E] | C];
    [by repeat constructor | by repeat constructor | done | done | | by right].
  left. exists (Dir e1), (Dir e2), l1, l2. rewrite N1, N2 in E. by injection E.
Qed.
End live_theorems.
