(* ===== verification/LinuxVerify.v ===== *)
(** linux_readiness.py, the verification half: the plan bound to its release, the record bound
    to its authority, plan and signatures, and the closed probe request. *)

From S2P Require Import Prelude PyVal Utf8 Json Sha2 Canonical Base64 Ed25519 IsoTime Regex Ipaddr.
From S2P Require Import SchemaBase Lifecycle LinuxShape Live.

#[local] Open Scope string_scope.
#[local] Open Scope list_scope.
#[local] Open Scope Z_scope.

(** [max(a, b)] and [min(a, b)]. *)
Definition time_max (a b : datetime) : res datetime := x ← time_ltb a b; Ok (if x : bool then b else a).
Definition time_min (a b : datetime) : res datetime := x ← time_ltb b a; Ok (if x : bool then b else a).

(** [linux_readiness.require_time(d[k])]. *)
Definition linux_time (v : value) (k : string) : res datetime := x ← fld v k; LinuxShape.require_time x.

Section linux_verify.
Context {U : Unicode} {S : SigScheme}.

(** ** The release and its plan *)

(** One entry of the release tree. *)
(* @src src/src/harness_conformance/linux_readiness.py:239-245 _release_plan *)
Definition release_entry (entry : value) : res str :=
  obj entry ["path"; "mode"; "size"; "sha256"] ;;
  path ← fld entry "path";
  text path 1024 ;;
  let p := as_path path in
  require (negb (startswith (u "/") p) && negb (existsb (fun part => in_lits (VStr part) [""; "."; ".."]) (split_on 47 p)))
    "LINUX_RELEASE_PATH_INVALID" ;;
  mode ← fld entry "mode";
  require (in_lits mode ["0444"; "0555"]) "LINUX_RELEASE_MODE_INVALID" ;;
  each_field entry ["size"] (fun x => integer x 0) ;;
  each_field entry ["sha256"] require_digest ;;
  Ok p.

(* @src src/src/harness_conformance/linux_readiness.py:230-252 _release_plan *)
Definition _release_plan (release : value) (plan_bytes : bytes) (envelope architecture : value) : res value :=
  obj release ["schemaVersion"; "campaignId"; "campaignDefinitionDigest"; "kitDigest"; "bundleDigest";
               "endpointPolicyDigests"; "tree"] ;;
  schema ← fld release "schemaVersion";
  require (eq_lit schema "harness.planeon.ai/campaign-release/v1alpha1") "LINUX_RELEASE_INVALID" ;;
  for_each (fun '(key, other) => require_m (fld2_eq release key envelope other) "LINUX_RELEASE_BINDING_MISMATCH")
    [("campaignId", "campaignId"); ("campaignDefinitionDigest", "campaignDefinitionDigest");
     ("kitDigest", "conformanceKitDigest"); ("bundleDigest", "bundleDigest")] ;;
  tree ← fld release "tree";
  require (match tree with VList l => (0 <? zlen l) && (zlen l <=? 4096) | _ => false end)
    "LINUX_RELEASE_TREE_INVALID" ;;
  entries ← py_iter tree;
  names ← map_m release_entry entries;
  require (bool_decide (names = sorted_set names)) "LINUX_RELEASE_TREE_INVALID" ;;
  digest ← canonical_digest tree (Some "planeon.harness-live-tree/v1alpha1");
  kitDigest ← fld release "kitDigest";
  require (py_eq (VStr digest) kitDigest) "LINUX_RELEASE_TREE_DIGEST_MISMATCH" ;;
  let path := u "campaigns/platform/linux-baseline/inputs/" ++ as_path architecture ++ u ".json" in
  flags ← map_m (fun e => fld_eq e "path" (VStr path)) entries;
  require_m (match map snd (List.filter fst (combine flags entries)) with
             | [m] => fld_eq m "sha256" (VStr (byte_digest plan_bytes)) <&&> fld_eq m "size" (VInt (zlen plan_bytes))
             | _ => Ok false
             end) "LINUX_PLAN_NOT_RELEASE_BOUND" ;;
  document ← require_canonical_document plan_bytes;
  validate_plan document.

(** ** The probe request *)

(** [[item for item in envelope["endpoints"] if item["endpointId"] == endpoint_id]]. *)
Definition endpoints_of (envelope endpoint_id : value) : res (list value) :=
  endpoints ← fld envelope "endpoints";
  es ← py_iter endpoints;
  flags ← map_m (fun e => fld_eq e "endpointId" endpoint_id) es;
  Ok (map snd (List.filter fst (combine flags es))).

(** ["/v1/linux-baseline/" + case_id.lower().replace("_", "-")]. *)
Definition probe_path (case : str) : str := u "/v1/linux-baseline/" ++ replace_char 95 45 (lower case).

(* @src src/src/harness_conformance/linux_readiness.py:416-420 build_probe_request *)
Definition expected_rule (endpoint_id namespace port : value) : value :=
  VDict [(u "endpointId", endpoint_id); (u "namespace", namespace); (u "service", VStr (u "linux-baseline-probes"));
         (u "port", port); (u "protocol", VStr (u "HTTPS")); (u "methods", str_list ["POST"]);
         (u "paths", VList (map (fun c => VStr (probe_path (u c))) CASES));
         (u "requestMediaType", VStr (u "application/json")); (u "responseMediaType", VStr (u "application/json"));
         (u "requestMaxBytes", VInt 16384); (u "responseMaxBytes", VInt 4194304); (u "timeoutSeconds", VInt 900)].

(* @src src/src/harness_conformance/linux_readiness.py:401-429 build_probe_request *)
Definition build_probe_request (envelope capacity plan case_id : value) : res value :=
  malformed_boundary (
    require (in_lits case_id CASES) "LINUX_OPERATION_FORBIDDEN" ;;
    let path := probe_path (as_path case_id) in
    endpoint_id ← fld plan "endpointId";
    endpoints ← endpoints_of envelope endpoint_id;
    match endpoints with
    | [endpoint] =>
        require_m (fld_lit endpoint "kind" "CAMPAIGN_PROXY") "LINUX_PROXY_BACKEND_UNAVAILABLE" ;;
        require_m ((permitted ← fld capacity "permittedEndpointIds"; py_in endpoint_id permitted) <&&>
                   fld2_eq plan "namespace" capacity "namespace") "LINUX_PROXY_SCOPE_MISMATCH" ;;
        namespace ← fld plan "namespace";
        port ← fld endpoint "port";
        let expected := expected_rule endpoint_id namespace port in
        rules ← fld capacity "campaignProxyRules";
        match rules with
        | VList [rule] =>
            obj rule ["endpointId"; "namespace"; "service"; "port"; "protocol"; "methods"; "paths"; "requestMediaType";
                      "responseMediaType"; "requestMaxBytes"; "responseMaxBytes"; "timeoutSeconds"] ;;
            a ← canonical_bytes rule;
            b ← canonical_bytes expected;
            require (str_eqb a b) "LINUX_PROXY_RULES_INVALID" ;;
            policy ← fld endpoint "authorizationPolicyDigest";
            digest ← canonical_digest expected (Some "planeon.linux-proxy-policy/v1alpha1");
            require (py_eq policy (VStr digest)) "LINUX_PROXY_POLICY_DIGEST_MISMATCH" ;;
            nonce ← fld envelope "nonce";
            target ← fld plan "target";
            architecture ← fld target "architecture";
            probes ← fld plan "probes";
            probe ← index probes case_id;
            probeDigest ← fld probe "probeDigest";
            commandDigest ← fld probe "commandDigest";
            Ok (VDict [(u "schemaVersion", VStr (u "harness.planeon.ai/linux-probe-request/v1alpha1"));
                       (u "operation", case_id); (u "endpointId", endpoint_id); (u "namespace", namespace);
                       (u "method", VStr (u "POST")); (u "path", VStr path); (u "runNonce", nonce);
                       (u "architecture", architecture); (u "probeDigest", probeDigest);
                       (u "commandDigest", commandDigest)])
        | _ => conf "LINUX_PROXY_RULES_INVALID"
        end
    | _ => conf "LINUX_PROXY_BACKEND_UNAVAILABLE"
    end).

(** ** The verification of a record *)

(** The arguments that come from the operator's custody. *)
Record expectation := {
  envelope_bytes : bytes; capacity_bytes : bytes; release_bytes : bytes; plan_bytes : bytes;
  release_trust_bytes : bytes; tenant_trust_bytes : bytes;
  now : value; expected_nonce : value; expected_tenant : value; expected_environment : value;
  expected_release : value; replayed_nonces : list str
}.

(* @src src/src/harness_conformance/linux_readiness.py:358-365 verify_linux_evidence *)
Definition expected_authority (x : expectation) (envelope capacity endpoint : value) (endpoint_digest : str)
    : res value :=
  endpointId ← fld endpoint "endpointId";
  namespace ← fld capacity "namespace";
  subject ← fld capacity "serviceAccountSubject";
  admission ← fld envelope "admissionPolicyDigest";
  quota ← fld envelope "resourceQuotaDigest";
  Ok (VDict [(u "packetDigest", VStr (u PACKET_DIGEST)); (u "envelopeDigest", VStr (byte_digest (envelope_bytes x)));
             (u "capacityDigest", VStr (byte_digest (capacity_bytes x))); (u "releaseDigest", expected_release x);
             (u "planDigest", VStr (byte_digest (plan_bytes x))); (u "tenantId", expected_tenant x);
             (u "environmentId", expected_environment x); (u "runNonce", expected_nonce x);
             (u "endpointId", endpointId); (u "endpointDigest", VStr endpoint_digest); (u "namespace", namespace);
             (u "serviceAccountSubject", subject); (u "admissionPolicyDigest", admission);
             (u "resourceQuotaDigest", quota)]).

(** The validity window of the record. *)
(* @src src/src/harness_conformance/linux_readiness.py:368-372 verify_linux_evidence *)
Definition evidence_current (record envelope capacity : value) (instant : datetime) : res (datetime * datetime * bool) :=
  observed ← linux_time record "observedAt";
  until ← linux_time record "validUntil";
  from ← linux_time capacity "validFrom";
  issued ← linux_time envelope "issuedAt";
  start ← time_max from issued;
  ok ← (time_leb start observed <&&> time_leb observed instant <&&> time_ltb instant until <&&>
        (e1 ← linux_time capacity "expiresAt"; e2 ← linux_time envelope "expiresAt"; e ← time_min e1 e2; time_leb until e) <&&>
        (d ← time_sub until observed; Ok (d <=? 168 * 3600 * 1000000)));
  Ok (observed, until, ok).

(** One role's signature over the record, under a key current at the three instants. *)
(* @src src/src/harness_conformance/linux_readiness.py:374-384 verify_linux_evidence *)
Definition verify_role (domain : string) (record : value) (instants : list datetime)
    (r : string * value * string * value * value * value) : res bytes :=
  let '(role, trust, purpose, tenant, environment, expected_key) := r in
  require_m (fld_eq record (role ++ "SignerKeyId") expected_key) "LINUX_SIGNER_BINDING_MISMATCH" ;;
  keys ← map_m (_trust_key trust expected_key purpose tenant environment) instants;
  let key := List.hd [] keys in
  payload ← signature_payload domain record SIGNATURES;
  signed_by key payload record (role ++ "Signature") "LINUX_EVIDENCE_SIGNATURE_INVALID" ;;
  Ok key.

(** One case of a record, against the run, the plan and the probe request. *)
(* @src src/src/harness_conformance/linux_readiness.py:387-394 verify_linux_evidence *)
Definition verify_case (x : expectation) (envelope capacity plan : value) (observed instant : datetime) (case : value)
    : res unit :=
  require_m ((t ← linux_time case "observedAt"; time_leb observed t <&&> time_leb t instant) <&&>
             fld_eq case "runNonce" (expected_nonce x)) "LINUX_CASE_REPLAYED_OR_STALE" ;;
  for_each (fun key =>
    require_m (a ← fld case key; probes ← fld plan "probes"; caseId ← fld case "caseId"; p ← index probes caseId;
               b ← fld p key; Ok (py_eq a b)) "LINUX_PROBE_DIGEST_MISMATCH") ["probeDigest"; "commandDigest"] ;;
  output ← fld case "output";
  regressions ← fld output "regressions";
  rs ← items regressions;
  for_each (fun kv =>
    baselines ← fld plan "regressions";
    baseline ← getitem baselines kv.1;
    require_m (fld2_eq kv.2 "inventoryDigest" baseline "inventoryDigest" <&&>
               fld2_eq kv.2 "collected" baseline "testCount") "LINUX_REGRESSION_INVENTORY_MISMATCH") rs ;;
  caseId ← fld case "caseId";
  _ ← build_probe_request envelope capacity plan caseId;
  Ok tt.

(** The steps that the two versions of the record share: the record [record] validated, the
    authority by [authority_ok], the signature domain, and what is checked of the disclosure. *)
(* @src src/src/harness_conformance/linux_readiness.py:339-398 verify_linux_evidence *)
Definition verify_record {A} (domain : string)
    (authority_ok : datetime -> res (value * value * value * value * A)) (disclosed : A -> res unit)
    (record_bytes : bytes) (record : value) (x : expectation) : res value :=
  require_id (expected_nonce x) ;;
  require (negb (existsb (fun n => py_eq (expected_nonce x) (VStr n)) (replayed_nonces x))) "LINUX_NONCE_REPLAYED" ;;
  instant ← LinuxShape.require_time (now x);
  '(envelope, capacity, release_trust, tenant_trust, extra) ← authority_ok instant;
  require_m (fld_eq envelope "nonce" (expected_nonce x) <&&> fld_eq envelope "tenantId" (expected_tenant x) <&&>
             fld_eq envelope "environmentId" (expected_environment x) <&&>
             fld_eq envelope "campaignReleaseDigest" (expected_release x)) "LINUX_EXPECTED_SUBJECT_MISMATCH" ;;
  require (py_eq (VStr (byte_digest (release_bytes x))) (expected_release x)) "LINUX_RELEASE_DIGEST_MISMATCH" ;;
  release ← require_canonical_document (release_bytes x);
  target ← fld record "target";
  architecture ← fld target "architecture";
  plan ← _release_plan release (plan_bytes x) envelope architecture;
  for_each (fun name =>
    a ← fld record name; a ← canonical_bytes a; b ← fld plan name; b ← canonical_bytes b;
    require (str_eqb a b) "LINUX_BASELINE_CHANGED") ["target"; "sources"; "images"; "build"; "preflightDigest"] ;;
  endpoint_id ← fld plan "endpointId";
  endpoints ← endpoints_of envelope endpoint_id;
  match endpoints with
  | [endpoint] =>
      require_m (fld_lit endpoint "kind" "CAMPAIGN_PROXY") "LINUX_PROXY_BACKEND_UNAVAILABLE" ;;
      policies ← fld release "endpointPolicyDigests";
      all_endpoints ← fld envelope "endpoints";
      es ← py_iter all_endpoints;
      require_m (if is_list policies then
                   digests ← map_m (fun e => d ← fld e "authorizationPolicyDigest"; as_text d) es;
                   Ok (py_eq policies (VList (map VStr (sorted_set digests))))
                 else Ok false) "LINUX_ENDPOINT_POLICY_MISMATCH" ;;
      endpoint_digest ← canonical_digest endpoint None;
      authority ← expected_authority x envelope capacity endpoint endpoint_digest;
      require_m (fld_eq record "authority" authority <&&> fld2_eq plan "namespace" capacity "namespace" <&&>
                 fld2_eq plan "serviceAccountSubject" capacity "serviceAccountSubject") "LINUX_AUTHORITY_BINDING_MISMATCH" ;;
      '(observed, until, current) ← evidence_current record envelope capacity instant;
      require current "LINUX_EVIDENCE_NOT_CURRENT" ;;
      platform_key ← fld envelope "platformSignerKeyId";
      tenant_key ← fld envelope "tenantSignerKeyId";
      capacity_key ← fld capacity "signerKeyId";
      keys ← map_m (verify_role domain record [instant; observed; until])
        [("platform", release_trust, "PLATFORM_RELEASE", VNone, VNone, platform_key);
         ("tenant", tenant_trust, "TENANT_LIVE_EXECUTION", expected_tenant x, expected_environment x, tenant_key);
         ("capacity", tenant_trust, "CAPACITY_OPERATOR", expected_tenant x, expected_environment x, capacity_key)];
      require (bool_decide (NoDup keys)) "LINUX_SIGNERS_NOT_INDEPENDENT" ;;
      disclosed extra ;;
      cases ← fld record "cases";
      cl ← py_iter cases;
      for_each (verify_case x envelope capacity plan observed instant) cl ;;
      statuses ← map_m (fun c => fld c "status") cl;
      names ← map_m (fun c => n ← fld c "caseId"; as_text n) cl;
      ptarget ← fld plan "target";
      parch ← fld ptarget "architecture";
      Ok (VDict [(u "verificationStatus", VStr (u (LinuxShape._overall statuses)));
                 (u "evidenceDigest", VStr (byte_digest record_bytes)); (u "architecture", parch);
                 (u "caseResults", VDict (fold_left (fun d kv => dset kv.1 kv.2 d) (combine names statuses) []));
                 (u "evidenceClass", VStr (u "UNIT_VERIFICATION_ONLY")); (u "nativeAcceptance", VBool false)])
  | _ => conf "LINUX_ENDPOINT_UNAVAILABLE"
  end.

(** [type(doc) is dict and doc.get("schemaVersion") == SCHEMA_V2]. *)
Definition is_v2 (doc : value) : bool :=
  match doc with VDict d => match dget (u "schemaVersion") d with Some s => eq_lit s SCHEMA_V2 | None => false end | _ => false end.

(* @src src/src/harness_conformance/linux_readiness.py:255-398 verify_linux_evidence *)
Definition verify_linux_evidence (record_bytes : bytes) (x : expectation) : res value :=
  malformed_boundary (
    doc ← require_canonical_document record_bytes;
    if is_v2 doc then
      record ← _validate_linux_evidence_v2 SIGNERS doc;
      verify_record DOMAIN_V2
        (verify_linux_authority_v2 (envelope_bytes x) (capacity_bytes x) (release_trust_bytes x) (tenant_trust_bytes x))
        (fun signers => require_m (fld_eq record "signers" signers) "LINUX_SIGNERS_DISCLOSURE_MISMATCH")
        record_bytes record x
    else
      record ← validate_linux_evidence doc;
      verify_record DOMAIN
        (fun instant =>
           a ← verify_linux_authority (envelope_bytes x) (capacity_bytes x) (release_trust_bytes x) (tenant_trust_bytes x) instant;
           Ok (a, tt))
        (fun _ => Ok tt) record_bytes record x).
End linux_verify.

(** ** What a verified record is *)

Section linux_verify_theorems.
Context {U : Unicode} {S : SigScheme}.

Lemma verify_role_Ok domain record instants role trust purpose tenant environment key_id pk :
  instants <> [] ->
  verify_role domain record instants (role, trust, purpose, tenant, environment, key_id) = Ok pk ->
  (exists x, fld record (role ++ "SignerKeyId") = Ok x /\ py_eq x key_id = true) /\
  (exists k i, In i instants /\ trusted_key trust key_id purpose tenant environment i pk k) /\
  (forall i, In i instants -> exists pk' k, trusted_key trust key_id purpose tenant environment i pk' k) /\
  exists payload, signature_payload domain record SIGNATURES = Ok payload /\
    signed_field pk payload record (role ++ "Signature").
Proof.
  intros Hne. unfold verify_role. intros H. apply seq_Ok in H as [H1%require_m_Ok%fld_eq_true H].
  apply bind_Ok in H as (keys & Hk%map_m_Ok & H). cbv zeta in H.
  apply bind_Ok in H as (payload & Hp & H). apply seq_Ok in H as [Hs%signed_by_Ok [= <-]].
  split; [done |]. split; [|split; [|by eauto]].
  - destruct instants as [|i rest]; [done |]. inversion Hk as [|? ? ? ? Hi]; subst.
    apply trust_key_Ok in Hi as [k Hi]. exists k, i. split; [by left | done].
  - intros i Hi. apply list_elem_of_In, list_elem_of_lookup in Hi as [n Hn].
    destruct (Forall2_lookup_l _ _ _ _ _ Hk Hn) as (pk' & _ & [k Hpk']%trust_key_Ok). eauto.
Qed.

(** The record's window against the two documents and the verification's instant. *)
Definition window_ok (record envelope capacity : value) (instant observed until : datetime) : Prop :=
  linux_time record "observedAt" = Ok observed /\ linux_time record "validUntil" = Ok until /\
  time_leb observed instant = Ok true /\ time_ltb instant until = Ok true /\
  (exists d, time_sub until observed = Ok d /\ d <= 168 * 3600 * 1000000) /\
  exists from issued start e1 e2 e,
    linux_time capacity "validFrom" = Ok from /\ linux_time envelope "issuedAt" = Ok issued /\
    time_max from issued = Ok start /\ time_leb start observed = Ok true /\
    linux_time capacity "expiresAt" = Ok e1 /\ linux_time envelope "expiresAt" = Ok e2 /\
    time_min e1 e2 = Ok e /\ time_leb until e = Ok true.

Lemma evidence_current_Ok record envelope capacity instant observed until :
  evidence_current record envelope capacity instant = Ok (observed, until, true) ->
  window_ok record envelope capacity instant observed until.
Proof.
  unfold evidence_current. intros H.
  apply bind_Ok in H as (o & Ho & H). apply bind_Ok in H as (un & Hu & H).
  apply bind_Ok in H as (from & Hf & H). apply bind_Ok in H as (issued & Hi & H).
  apply bind_Ok in H as (start & Hs & H). apply bind_Ok in H as (ok & Hok & [= -> -> ->]).
  apply and_m_true in Hok as [Hok Hd]. apply and_m_true in Hok as [Hok He].
  apply and_m_true in Hok as [Hok H3]. apply and_m_true in Hok as [H1 H2].
  apply bind_Ok in He as (e1 & He1 & He). apply bind_Ok in He as (e2 & He2 & He).
  apply bind_Ok in He as (e & Hmin & He). apply bind_Ok in Hd as (d & Hd & [= Hle%Z.leb_le]).
  unfold window_ok. eauto 25.
Qed.

(** A case of this run: within the record's observation and the instant, with the run's nonce
    and the probe and command digests of the plan. *)
Definition case_of_run (x : expectation) (plan : value) (observed instant : datetime) (case : value) : Prop :=
  (exists t, linux_time case "observedAt" = Ok t /\ time_leb observed t = Ok true /\ time_leb t instant = Ok true) /\
  (exists n, fld case "runNonce" = Ok n /\ py_eq n (expected_nonce x) = true) /\
  forall key, In key ["probeDigest"; "commandDigest"] ->
    exists a probes caseId p b, fld case key = Ok a /\ fld plan "probes" = Ok probes /\
      fld case "caseId" = Ok caseId /\ index probes caseId = Ok p /\ fld p key = Ok b /\ py_eq a b = true.

Lemma verify_case_Ok x envelope capacity plan observed instant case :
  verify_case x envelope capacity plan observed instant case = Ok tt -> case_of_run x plan observed instant case.
Proof.
  unfold verify_case. intros H. apply seq_Ok in H as [[Ht Hn]%require_m_Ok%and_m_true H].
  apply bind_Ok in Ht as (t & Ht & [H1 H2]%and_m_true). apply seq_Ok in H as [Hk _].
  split; [eauto |]. split; [by apply fld_eq_true |]. intros key Hin.
  rewrite for_each_Ok, List.Forall_forall in Hk. specialize (Hk key Hin). apply require_m_Ok in Hk.
  apply bind_Ok in Hk as (a & Ha & Hk). apply bind_Ok in Hk as (ps & Hps & Hk).
  apply bind_Ok in Hk as (cid & Hcid & Hk). apply bind_Ok in Hk as (p & Hp & Hk).
  apply bind_Ok in Hk as (b & Hb & [= E]). eauto 12.
Qed.

(** The three roles of a record's signers. *)
Definition role_signed (domain : string) (record trust key_id tenant environment : value) (role purpose : string)
    (instant observed until : datetime) (pk : bytes) : Prop :=
  (exists k, fld record (role ++ "SignerKeyId") = Ok k /\ py_eq k key_id = true) /\
  (exists k i, In i [instant; observed; until] /\ trusted_key trust key_id purpose tenant environment i pk k) /\
  (forall i, In i [instant; observed; until] ->
     exists pk' k, trusted_key trust key_id purpose tenant environment i pk' k) /\
  exists payload, signature_payload domain record SIGNATURES = Ok payload /\
    signed_field pk payload record (role ++ "Signature").

(** What the verification of a record under an authority establishes. *)
Record record_verified (domain : string) (x : expectation) (record_bytes : bytes)
    (record envelope capacity release_trust tenant_trust : value) (instant : datetime) (result : value) : Prop := {
  rv_nonce_fresh : forall n, In n (replayed_nonces x) -> py_eq (expected_nonce x) (VStr n) = false;
  rv_subject : forall field expected, In (field, expected)
      [("nonce", expected_nonce x); ("tenantId", expected_tenant x); ("environmentId", expected_environment x);
       ("campaignReleaseDigest", expected_release x)] ->
    exists v, fld envelope field = Ok v /\ py_eq v expected = true;
  rv_release : py_eq (VStr (byte_digest (release_bytes x))) (expected_release x) = true;
  rv_rest : exists plan observed until pk tk ck p t c cases,
    window_ok record envelope capacity instant observed until /\
    fld envelope "platformSignerKeyId" = Ok p /\ fld envelope "tenantSignerKeyId" = Ok t /\
    fld capacity "signerKeyId" = Ok c /\
    role_signed domain record release_trust p VNone VNone "platform" "PLATFORM_RELEASE" instant observed until pk /\
    role_signed domain record tenant_trust t (expected_tenant x) (expected_environment x) "tenant"
      "TENANT_LIVE_EXECUTION" instant observed until tk /\
    role_signed domain record tenant_trust c (expected_tenant x) (expected_environment x) "capacity"
      "CAPACITY_OPERATOR" instant observed until ck /\
    NoDup [pk; tk; ck] /\
    fld record "cases" = Ok (VList cases) /\ Forall (case_of_run x plan observed instant) cases /\
    (exists statuses, Forall2 (fun c s => fld c "status" = Ok s) cases statuses /\
       fld result "verificationStatus" = Ok (VStr (u (LinuxShape._overall statuses)))) /\
    fld result "nativeAcceptance" = Ok (VBool false)
}.

Lemma verify_record_Ok {A} domain authority_ok (disclosed : A -> res unit) rb record x result :
  (exists cs, fld record "cases" = Ok (VList cs)) ->
  verify_record domain authority_ok disclosed rb record x = Ok result ->
  exists instant e c rt tt_ a, LinuxShape.require_time (now x) = Ok instant /\
    authority_ok instant = Ok (e, c, rt, tt_, a) /\ disclosed a = Ok tt /\
    record_verified domain x rb record e c rt tt_ instant result.
Proof.
  intros [cs Hcs] H. unfold verify_record in H. apply seq_Ok in H as [_ H].
  apply seq_Ok in H as [Hfresh%require_Ok%negb_true_iff H]. apply bind_Ok in H as (instant & Hnow & H).
  apply bind_Ok in H as ([[[[e c] rt] tt_] a] & Hauth & H). cbv beta iota in H.
  apply seq_Ok in H as [Hsub%require_m_Ok H]. apply seq_Ok in H as [Hrel%require_Ok H].
  apply bind_Ok in H as (release & _ & H). apply bind_Ok in H as (target & _ & H).
  apply bind_Ok in H as (arch & _ & H). apply bind_Ok in H as (plan & _ & H).
  apply seq_Ok in H as [_ H]. apply bind_Ok in H as (eid & _ & H). apply bind_Ok in H as (eps & _ & H).
  destruct eps as [|ep [|? ?]]; try done.
  apply seq_Ok in H as [_ H]. do 3 apply bind_Ok in H as (? & _ & H). apply seq_Ok in H as [_ H].
  do 2 apply bind_Ok in H as (? & _ & H). apply seq_Ok in H as [_ H].
  apply bind_Ok in H as ([[observed until] cur] & Hcur & H). cbv beta iota in H.
  apply seq_Ok in H as [Hc%require_Ok H]. subst cur. apply evidence_current_Ok in Hcur.
  apply bind_Ok in H as (p & Hp & H). apply bind_Ok in H as (t & Ht & H). apply bind_Ok in H as (k & Hk & H).
  apply bind_Ok in H as (keys & Hkeys & H). apply seq_Ok in H as [Hnd%require_Ok%bool_decide_eq_true H].
  apply seq_Ok in H as [Hdis H]. rewrite Hcs in H. cbn [mbind res_bind py_iter] in H.
  apply seq_Ok in H as [Hcases H]. apply bind_Ok in H as (statuses & Hst%map_m_Ok & H).
  do 3 apply bind_Ok in H as (? & _ & H). injection H as <-.
  apply map_m_Ok in Hkeys. inversion Hkeys as [|? pk ? ks Hpk Hkeys']; subst.
  inversion Hkeys' as [|? tk ? ks' Htk Hkeys2]; subst. inversion Hkeys2 as [|? ck ? ks3 Hck Hkeys3]; subst.
  inversion Hkeys3; subst.
  apply verify_role_Ok in Hpk; [|done]. apply verify_role_Ok in Htk; [|done]. apply verify_role_Ok in Hck; [|done].
  exists instant, e, c, rt, tt_, a. repeat (split; [done |]). split.
  - intros n Hn. apply not_true_iff_false. intros E. apply not_true_iff_false in Hfresh. apply Hfresh.
    apply existsb_exists. by exists n.
  - apply and_m_true in Hsub as [Hsub H4%fld_eq_true]. apply and_m_true in Hsub as [Hsub H3%fld_eq_true].
    apply and_m_true in Hsub as [H1%fld_eq_true H2%fld_eq_true]. 
    intros field expected [E | [E | [E | [E | []]]]]; injection E as <- <-; assumption.
  - done.
  - exists plan, observed, until, pk, tk, ck, p, t, k, cs. do 4 (split; [done |]). split; [exact Hpk |]. split; [exact Htk |]. split; [exact Hck |].
    split; [done |]. split; [done |]. split; [|split; [by exists statuses | done]].
    rewrite for_each_Ok in Hcases. rewrite List.Forall_forall in Hcases |- *. intros y Hy. eapply verify_case_Ok. eauto.
Qed.

Lemma linux_evidence_v2_Ok v w :
  _validate_linux_evidence_v2 SIGNERS v = Ok w -> w = v /\ exists cs, fld v "cases" = Ok (VList cs).
Proof.
  unfold _validate_linux_evidence_v2. intros H. apply seq_Ok in H as [_ H].
  do 2 (apply bind_Ok in H as (? & _ & H); apply seq_Ok in H as [_ H]).
  apply bind_Ok in H as (d & Hd & H). apply bind_Ok in H as (w' & Hw & [= <-]).
  split; [done |]. apply validate_linux_evidence_Ok in Hw as (_ & cl & Hc & _). exists cl.
  destruct v; try done. injection Hd as ->. apply fld_Ok in Hc as (? & [= <-] & Hc). apply fld_Ok.
  exists d. split; [done |]. by rewrite dget_dset, dget_dwithout in Hc.
Qed.

(** C3: a Linux verdict rests on a full authority.  When [verify_linux_evidence] returns, the
    record is the canonical document it was given; the nonce was not replayed and the signed
    envelope names this nonce, tenant, environment and release; the envelope and capacity
    carry the authority of their version; the record's three role signatures verify over its
    own version's domain, by three distinct keys trusted at the instant and at both ends of
    the record's window; that window is current, lies inside both documents' windows and is at
    most 168 hours long; every case is of this run; the verdict is the cases' combined status
    and native acceptance is denied. *)
Theorem linux_evidence_verified rb x result :
  verify_linux_evidence rb x = Ok result ->
  exists record instant e c rt tt_,
    require_canonical_document rb = Ok record /\ LinuxShape.require_time (now x) = Ok instant /\
    ((validate_linux_evidence record = Ok record /\
      verify_linux_authority (envelope_bytes x) (capacity_bytes x) (release_trust_bytes x) (tenant_trust_bytes x) instant
        = Ok (e, c, rt, tt_) /\
      record_verified DOMAIN x rb record e c rt tt_ instant result) \/
     (exists signers, _validate_linux_evidence_v2 SIGNERS record = Ok record /\
      verify_linux_authority_v2 (envelope_bytes x) (capacity_bytes x) (release_trust_bytes x) (tenant_trust_bytes x)
        instant = Ok (e, c, rt, tt_, signers) /\
      (exists s, fld record "signers" = Ok s /\ py_eq s signers = true) /\
      record_verified DOMAIN_V2 x rb record e c rt tt_ instant result)).
Proof.
  unfold verify_linux_evidence, malformed_boundary. intros H%guarded_Ok.
  apply bind_Ok in H as (doc & Hdoc & H). destruct (is_v2 doc).
  - apply bind_Ok in H as (record & Hr & H). pose proof (linux_evidence_v2_Ok _ _ Hr) as [-> Hcs].
    apply verify_record_Ok in H as (instant & e & c & rt & tt_ & s & Hn & Ha & Hd & Hv); [|done].
    exists doc, instant, e, c, rt, tt_. do 2 (split; [done |]). right. exists s.
    apply require_m_Ok, fld_eq_true in Hd. auto.
  - apply bind_Ok in H as (record & Hr & H). pose proof (validate_linux_evidence_Ok _ _ Hr) as (-> & cl & Hc & _).
    apply verify_record_Ok in H as (instant & e & c & rt & tt_ & s & Hn & Ha & Hd & Hv); [|eauto].
    apply bind_Ok in Ha as ([[[e' c'] rt'] tt'] & Ha & [= -> -> -> -> _]).
    exists doc, instant, e, c, rt, tt_. do 2 (split; [done |]). by left.
Qed.
End linux_verify_theorems.
