(* ===== verification/Session.v ===== *)
(** live_session.py: the closed session, request and receipt contracts of the live backend. *)

From S2P Require Import Prelude PyVal Utf8 Json Sha2 Canonical IsoTime Regex.
From S2P Require Import SchemaBase Lifecycle LinuxShape LinuxVerify.

#[local] Open Scope string_scope.
#[local] Open Scope list_scope.
#[local] Open Scope Z_scope.

(* @src src/src/harness_conformance/live_session.py:16-16 SCHEMA *)
Definition SCHEMA : string := "harness.planeon.ai/live-backend-session/v1alpha1".
(* @src src/src/harness_conformance/live_session.py:17-17 MAX_SESSION_BYTES *)
Definition MAX_SESSION_BYTES : Z := 16384.
(* @src src/src/harness_conformance/live_session.py:18-18 MAX_RESPONSE_BYTES *)
Definition MAX_RESPONSE_BYTES : Z := 4194304.
(* @src src/src/harness_conformance/live_session.py:19-19 MAX_DEPTH *)
Definition MAX_DEPTH : Z := 8.
(* @src src/src/harness_conformance/live_session.py:20-20 ID_FIELDS *)
Definition ID_FIELDS : list string := ["nonce"; "tenantId"; "environmentId"; "endpointId"; "namespace"].
(* @src src/src/harness_conformance/live_session.py:21-21 DIGEST_FIELDS *)
Definition DIGEST_FIELDS : list string := ["packetDigest"; "commandSetDigest"; "releaseDigest"; "capacityDigest"].
(* @src src/src/harness_conformance/live_session.py:22-22 BINDING_FIELDS *)
Definition BINDING_FIELDS : list string := ID_FIELDS ++ DIGEST_FIELDS ++ ["notBefore"; "notAfter"].
(* @src src/src/harness_conformance/live_session.py:23-23 SESSION_FIELDS *)
Definition SESSION_FIELDS : list string :=
  ["schemaVersion"] ++ ID_FIELDS ++ DIGEST_FIELDS ++ ["issuedAt"; "expiresAt"; "state"].
(* @src src/src/harness_conformance/live_session.py:24-25 STATES *)
Definition STATES : list string :=
  ["UNAVAILABLE"; "VALIDATED_DATA"; "RESERVED"; "RUNNING"; "COMPLETED"; "FAILED"; "CANCELLED"; "EXPIRED"].
(* @src src/src/harness_conformance/live_session.py:26-32 TRANSITIONS *)
Definition TRANSITIONS : list (string * string) :=
  [("VALIDATED_DATA", "RESERVED"); ("RESERVED", "RUNNING"); ("RESERVED", "FAILED"); ("RESERVED", "CANCELLED");
   ("RESERVED", "EXPIRED"); ("RUNNING", "COMPLETED"); ("RUNNING", "FAILED"); ("RUNNING", "CANCELLED");
   ("RUNNING", "EXPIRED")].
(* @src src/src/harness_conformance/live_session.py:33-34 REQUEST_FIELDS *)
Definition REQUEST_FIELDS : list string :=
  ["schemaVersion"; "operation"; "endpointId"; "namespace"; "method"; "path"; "runNonce"; "architecture";
   "probeDigest"; "commandDigest"].
(* @src src/src/harness_conformance/live_session.py:35-36 RECEIPT_FIELDS *)
Definition RECEIPT_FIELDS : list string :=
  ["caseId"; "status"; "observedAt"; "runNonce"; "probeDigest"; "commandDigest"; "outputDigest"; "output"].

(** ** Bounded data *)

(** A document as bytes, or as a value of the exact builtin types. *)
Inductive data :=
| Raw (b : bytes)
| Value (v : value).

(** The charge of one node before its members. *)
Definition node_charge (v : value) : Z :=
  match v with
  | VStr s => zlen s + 2
  | VList l => 2 + Z.max 0 (zlen l - 1)
  | VDict d => 2 + Z.max 0 (zlen d - 1) + zlen d
  | _ => 1
  end.

(* @src src/src/harness_conformance/live_session.py:44-74 _bounded *)
Fixpoint _bounded (v : value) (maximum depth remaining : Z) : res Z :=
  require (depth <=? MAX_DEPTH) "SESSION_DEPTH_EXCEEDED" ;;
  remaining ←
    match v with
    | VStr s =>
        require (zlen s <=? maximum) "SESSION_SIZE_EXCEEDED" ;;
        Ok (remaining - node_charge v)
    | VDict d =>
        require (zlen d <=? 4096) "SESSION_COLLECTION_EXCEEDED" ;;
        let remaining := remaining - node_charge v in
        require (0 <=? remaining) "SESSION_SIZE_EXCEEDED" ;;
        for_fold (fun r kv =>
          require (depth + 1 <=? MAX_DEPTH) "SESSION_DEPTH_EXCEEDED" ;;
          require (zlen kv.1 <=? maximum) "SESSION_SIZE_EXCEEDED" ;;
          let r := r - (zlen kv.1 + 2) in
          require (0 <=? r) "SESSION_SIZE_EXCEEDED" ;;
          _bounded kv.2 maximum (depth + 1) r) remaining d
    | VList l =>
        require (zlen l <=? 4096) "SESSION_COLLECTION_EXCEEDED" ;;
        let remaining := remaining - node_charge v in
        require (0 <=? remaining) "SESSION_SIZE_EXCEEDED" ;;
        for_fold (fun r x => _bounded x maximum (depth + 1) r) remaining l
    | VInt z =>
        require ((- (2 ^ 53 - 1) <=? z) && (z <=? 2 ^ 53 - 1)) "SESSION_TYPE_INVALID" ;;
        Ok (remaining - node_charge v)
    | _ => Ok (remaining - node_charge v)
    end;
  require (0 <=? remaining) "SESSION_SIZE_EXCEEDED" ;;
  Ok remaining.

Definition data_kinds (e : exn) : bool :=
  match e with ValueError | TypeError | OverflowError | RecursionError => true | _ => false end.

Section session.
Context {U : Unicode}.

(* @src src/src/harness_conformance/live_session.py:77-93 data_document *)
Definition data_document (x : data) (maximum : Z) : res value :=
  require ((maximum =? MAX_SESSION_BYTES) || (maximum =? MAX_RESPONSE_BYTES)) "SESSION_SIZE_LIMIT_INVALID" ;;
  guarded data_kinds "SESSION_DATA_MALFORMED" (
    v ← (match x with
         | Raw b => require (zlen b <=? maximum) "SESSION_SIZE_EXCEEDED" ;; require_canonical_document b
         | Value v => Ok v
         end);
    _ ← _bounded v maximum 0 maximum;
    require (is_dict v) "SESSION_TYPE_INVALID" ;;
    encoded ← canonical_bytes v;
    require (zlen encoded <=? maximum) "SESSION_SIZE_EXCEEDED" ;;
    require_canonical_document encoded).

(** ** Bindings and sessions *)

(* @src src/src/harness_conformance/live_session.py:96-105 validate_binding *)
Definition validate_binding (x : data) : res value :=
  binding ← data_document x MAX_SESSION_BYTES;
  closed binding BINDING_FIELDS [] ;;
  each_field binding ID_FIELDS require_id ;;
  each_field binding DIGEST_FIELDS require_digest ;;
  require_m (a ← linux_time binding "notBefore"; b ← linux_time binding "notAfter"; time_ltb a b)
    "SESSION_WINDOW_INVALID" ;;
  Ok binding.

(** [type(a[k]) is str and a[k] == b[k]]. *)
Definition text_equal (a b : value) (k : string) : res bool :=
  x ← fld a k; if is_str x then fld2_eq a k b k else Ok false.

(* @src src/src/harness_conformance/live_session.py:108-120 _session *)
Definition _session (x expected_binding : data) : res value :=
  session ← data_document x MAX_SESSION_BYTES;
  closed session SESSION_FIELDS [] ;;
  require_m (fld_lit session "schemaVersion" SCHEMA) "SESSION_SCHEMA_INVALID" ;;
  require_m (s ← fld session "state"; Ok (in_lits s STATES)) "SESSION_STATE_INVALID" ;;
  binding ← validate_binding expected_binding;
  for_each (fun name => require_m (text_equal session binding name) "SESSION_BINDING_MISMATCH")
    (ID_FIELDS ++ DIGEST_FIELDS) ;;
  issued ← linux_time session "issuedAt";
  expires ← linux_time session "expiresAt";
  require_m ((a ← linux_time binding "notBefore"; time_leb a issued) <&&> time_ltb issued expires <&&>
             (b ← linux_time binding "notAfter"; time_leb expires b)) "SESSION_WINDOW_INVALID" ;;
  Ok session.

(* @src src/src/harness_conformance/live_session.py:123-130 validate_session *)
Definition validate_session (x expected_binding : data) (now : value) : res value :=
  session ← _session x expected_binding;
  instant ← LinuxShape.require_time now;
  require_m ((a ← linux_time session "issuedAt"; time_leb a instant) <&&>
             (b ← linux_time session "expiresAt"; time_ltb instant b)) "SESSION_NOT_CURRENT" ;;
  require_m (s ← fld_lit session "state" "EXPIRED"; Ok (negb s)) "SESSION_NOT_CURRENT" ;;
  Ok session.

(** [(session["state"], next_state) in TRANSITIONS]. *)
Definition is_transition (before after : value) : bool :=
  existsb (fun '(a, b) => eq_lit before a && eq_lit after b) TRANSITIONS.

(* @src src/src/harness_conformance/live_session.py:133-151 transition_candidate *)
Definition transition_candidate (x : data) (next_state : value) (expected_binding : data) (now : value) : res value :=
  session ← _session x expected_binding;
  require_m (state ← fld session "state"; Ok (is_str next_state && is_transition state next_state))
    "SESSION_TRANSITION_INVALID" ;;
  instant ← LinuxShape.require_time now;
  require_m (a ← linux_time session "issuedAt"; time_leb a instant) "SESSION_NOT_CURRENT" ;;
  expired ← (b ← linux_time session "expiresAt"; time_leb b instant);
  require (Bool.eqb (eq_lit next_state "EXPIRED") expired) "SESSION_TRANSITION_TIME_INVALID" ;;
  state ← fld session "state";
  digest ← canonical_digest session None;
  nonce ← fld session "nonce";
  Ok (VDict [(u "fromState", state); (u "toState", next_state); (u "sessionDigest", VStr digest); (u "nonce", nonce);
             (u "requiresProtectedSupervisor", VBool true); (u "evidenceClass", VStr (u "UNIT_VERIFICATION_ONLY"));
             (u "nativeAcceptance", VBool false)]).

(** ** Requests *)

(* @src src/src/harness_conformance/live_session.py:154-168 _request *)
Definition _request (x : data) : res value :=
  request ← data_document x MAX_SESSION_BYTES;
  closed request REQUEST_FIELDS [] ;;
  case ← fld request "operation";
  require (in_lits case CASES) "SESSION_OPERATION_INVALID" ;;
  require_m (fld_lit request "schemaVersion" "harness.planeon.ai/linux-probe-request/v1alpha1" <&&>
             fld_lit request "method" "POST" <&&>
             fld_eq request "path" (VStr (probe_path (match case with VStr s => s | _ => [] end))) <&&>
             (a ← fld request "architecture"; Ok (in_lits a ARCHITECTURES))) "SESSION_REQUEST_INVALID" ;;
  each_field request ["endpointId"; "namespace"; "runNonce"] require_id ;;
  each_field request ["probeDigest"; "commandDigest"] require_digest ;;
  Ok request.

(* @src src/src/harness_conformance/live_session.py:171-180 validate_request *)
Definition validate_request (x session expected_binding expected_request : data) (now : value) : res value :=
  current ← validate_session session expected_binding now;
  require_m (fld_lit current "state" "RUNNING") "SESSION_NOT_RUNNING" ;;
  request ← _request x;
  expected ← _request expected_request;
  require (py_eq request expected) "SESSION_REQUEST_MISMATCH" ;;
  for_each (fun '(name, field) => require_m (fld2_eq request name current field) "SESSION_REQUEST_SCOPE_MISMATCH")
    [("runNonce", "nonce"); ("endpointId", "endpointId"); ("namespace", "namespace")] ;;
  Ok request.

(** ** Receipts *)

(** [isinstance] of an integer that [integer] has checked. *)
Definition count (v : value) (k : string) : res Z :=
  x ← fld v k; match x with VInt z => Ok z | _ => Raise TypeError end.

(** One repository's regression in the loop; whether it failed. *)
(* @src src/src/harness_conformance/live_session.py:216-228 validate_receipt *)
Definition check_regression (regressions expected : value) (failed : bool) (name : string) : res bool :=
  result ← fld regressions name;
  baseline ← fld expected name;
  require (is_dict result && is_dict baseline) "SESSION_TYPE_INVALID" ;;
  closed result ["inventoryDigest"; "collected"; "executed"; "skipped"; "failed"] [] ;;
  closed baseline ["inventoryDigest"; "testCount"] [] ;;
  each_field baseline ["inventoryDigest"] require_digest ;;
  each_field baseline ["testCount"] (fun x => integer x (if String.eqb name "conformance" then 120 else 1)) ;;
  each_field result ["collected"; "executed"; "skipped"; "failed"] (fun x => integer x 0) ;;
  collected ← count result "collected";
  executed ← count result "executed";
  skipped ← count result "skipped";
  failures ← count result "failed";
  require ((failures <=? executed) && (executed <=? collected) && (skipped <=? collected))
    "SESSION_REGRESSION_COUNTS_INVALID" ;;
  require_m (fld2_eq result "inventoryDigest" baseline "inventoryDigest" <&&>
             fld2_eq result "collected" baseline "testCount") "SESSION_REGRESSION_MISMATCH" ;;
  Ok (failed || negb (skipped =? 0) || negb (failures =? 0) || negb (collected =? executed)).

(** The status a receipt must claim. *)
(* @src src/src/harness_conformance/live_session.py:229-231 validate_receipt *)
Definition receipt_status (failed : bool) (statuses : list value) : string :=
  if failed || existsb (fun s => eq_lit s "FAIL") statuses then "FAIL"
  else if existsb (fun s => eq_lit s "NOT_RUN_ENV_UNAVAILABLE") statuses then "NOT_RUN_ENV_UNAVAILABLE"
  else "PASS".

(** [CASE_CHECKS[case]]. *)
Definition checks_of (case : value) : list string :=
  match List.find (fun e => eq_lit case e.1) CASE_CHECKS with Some e => e.2 | None => [] end.

(* @src src/src/harness_conformance/live_session.py:183-235 validate_receipt *)
Definition validate_receipt (x session expected_binding expected_request expected_regressions : data) (now : value)
    : res value :=
  current ← validate_session session expected_binding now;
  request ← validate_request expected_request (Value current) expected_binding expected_request now;
  receipt ← data_document x MAX_RESPONSE_BYTES;
  closed receipt RECEIPT_FIELDS [] ;;
  for_each (fun '(name, field) => require_m (fld2_eq receipt name request field) "SESSION_RECEIPT_MISMATCH")
    [("caseId", "operation"); ("runNonce", "runNonce"); ("probeDigest", "probeDigest");
     ("commandDigest", "commandDigest")] ;;
  require_m ((a ← linux_time current "issuedAt"; o ← linux_time receipt "observedAt"; time_leb a o) <&&>
             (o ← linux_time receipt "observedAt"; i ← LinuxShape.require_time now; time_leb o i))
    "SESSION_RECEIPT_TIME_INVALID" ;;
  output ← fld receipt "output";
  require (is_dict output) "SESSION_TYPE_INVALID" ;;
  closed output ["checks"; "regressions"] [] ;;
  checks ← fld output "checks";
  regressions ← fld output "regressions";
  require (is_dict checks && is_dict regressions) "SESSION_TYPE_INVALID" ;;
  case ← fld request "operation";
  closed checks (checks_of case) [] ;;
  cs ← items checks;
  let statuses := map snd cs in
  require (forallb (fun s => in_lits s STATUSES) statuses) "SESSION_RECEIPT_STATUS_INVALID" ;;
  expected ← data_document expected_regressions MAX_SESSION_BYTES;
  let repositories := if eq_lit case "FULL_PREDECESSOR_REGRESSION" then REPOSITORIES else [] in
  closed regressions repositories [] ;;
  closed expected repositories [] ;;
  failed ← for_fold (check_regression regressions expected) false repositories;
  require_m (fld_lit receipt "status" (receipt_status failed statuses)) "SESSION_FALSE_RECEIPT_STATUS" ;;
  digest ← canonical_digest output (Some "planeon.linux-probe-output/v1alpha1");
  require_m (fld_eq receipt "outputDigest" (VStr digest)) "SESSION_OUTPUT_DIGEST_MISMATCH" ;;
  Ok receipt.
End session.

(** ** The traversal budget *)

Definition total {A} (w : A -> Z) (l : list A) : Z := foldr (fun x n => w x + n) 0 l.
Definition every {A} (P : A -> Prop) (l : list A) : Prop := foldr (fun x Q => P x /\ Q) True l.

Lemma total_nonneg {A} (w : A -> Z) l : (forall x, In x l -> 0 <= w x) -> 0 <= total w l.
Proof.
  induction l as [|x l IH]; intros H; [done |]. cbn. pose proof (H x (or_introl eq_refl)).
  assert (0 <= total w l) by (apply IH; intros; apply H; by right). unfold total in *. lia.
Qed.

(** What the traversal charges a value, every occurrence and every key included. *)
Fixpoint weight (v : value) : Z :=
  node_charge v +
  match v with
  | VList l => total weight l
  | VDict d => total (fun kv => zlen kv.1 + 2 + weight kv.2) d
  | _ => 0
  end.

(** What it admits at a depth. *)
Fixpoint fits (maximum depth : Z) (v : value) : Prop :=
  depth <= MAX_DEPTH /\
  match v with
  | VStr s => zlen s <= maximum
  | VInt z => - (2 ^ 53 - 1) <= z <= 2 ^ 53 - 1
  | VList l => zlen l <= 4096 /\ every (fits maximum (depth + 1)) l
  | VDict d => zlen d <= 4096 /\
      every (fun kv => depth + 1 <= MAX_DEPTH /\ zlen kv.1 <= maximum /\ fits maximum (depth + 1) kv.2) d
  | _ => True
  end.

Lemma weight_pos v : 0 < weight v.
Proof.
  induction v as [| | |s|l IH|d IH] using value_ind; simpl; try lia.
  - unfold zlen. lia.
  - rewrite List.Forall_forall in IH. assert (0 <= total weight l); [|lia].
    apply total_nonneg. intros x Hx. specialize (IH x Hx). cbv beta in IH. lia.
  - rewrite List.Forall_forall in IH. pose proof (zlen_nonneg d).
    assert (0 <= total (fun kv => zlen kv.1 + 2 + weight kv.2) d); [|lia].
    apply total_nonneg. intros [k x] Hkv. specialize (IH (k, x) Hkv). simpl in *. pose proof (zlen_nonneg k). lia.
Qed.

(** The loop over members, whose body charges [w x] when [P x] holds. *)
Definition charges {A} (f : Z -> A -> res Z) (w : A -> Z) (P : A -> Prop) (x : A) : Prop :=
  0 <= w x /\ forall r r', f r x = Ok r' <-> P x /\ r' = r - w x /\ 0 <= r'.

Lemma budget_fold {A} (f : Z -> A -> res Z) (w : A -> Z) (P : A -> Prop) l r r' :
  (forall x, In x l -> charges f w P x) -> 0 <= r ->
  for_fold f r l = Ok r' <-> every P l /\ r' = r - total w l /\ 0 <= r'.
Proof.
  revert r. induction l as [|x l IH]; intros r Hl Hr; cbn.
  - split; [intros [= <-]; split; [done | lia] | intros (_ & -> & _); f_equal; lia].
  - assert (0 <= total w l) as Hw by (apply total_nonneg; intros y Hy; apply (Hl y); by right).
    assert (forall y, In y l -> charges f w P y) as Hl' by (intros; apply Hl; by right).
    destruct (Hl x (or_introl eq_refl)) as [Hx Hf]. fold (total w l). fold (every P l). rewrite bind_Ok. split.
    + intros (r1 & (HP & -> & Hr1)%Hf & H). apply (IH _ Hl' Hr1) in H as (HQ & -> & ?).
      split; [done |]. lia.
    + intros ([HP HQ] & -> & Hr'). exists (r - w x). split; [apply Hf; repeat split; [done | lia]|].
      apply IH; [done | lia |]. repeat split; [done | lia..].
Qed.

(** A container: its own charge, then the loop, then the final check. *)
Lemma budget_members {A} (f : Z -> A -> res Z) (w : A -> Z) (P : A -> Prop) l r r' :
  (forall x, In x l -> charges f w P x) ->
  (0 <= r /\ for_fold f r l = Ok r') /\ 0 <= r' <-> every P l /\ r' = r - total w l /\ 0 <= r'.
Proof.
  intros Hl. assert (0 <= total w l) by (apply total_nonneg; intros y Hy; by apply Hl). split.
  - intros [[Hr Hf] _]. by apply (budget_fold _ _ _ _ _ _ Hl Hr) in Hf.
  - intros (HP & -> & Hr'). assert (0 <= r) as Hr by lia. split; [|done]. split; [done |]. by apply (budget_fold _ _ _ _ _ _ Hl Hr).
Qed.

Lemma require_bind {B} b c (k : res B) x : (require b c ;; k) = Ok x <-> b = true /\ k = Ok x.
Proof. by rewrite seq_Ok, require_Ok. Qed.

Lemma budget_end (m : res Z) x :
  (r ← m; require (0 <=? r) "SESSION_SIZE_EXCEEDED" ;; Ok r) = Ok x <-> m = Ok x /\ 0 <= x.
Proof.
  rewrite bind_Ok. setoid_rewrite require_bind. setoid_rewrite Z.leb_le.
  split; [intros (? & ? & ? & [= ->]); auto | intros []; eauto].
Qed.

Lemma leaf_charge (c r r' : Z) : Ok (r - c) = Ok r' /\ 0 <= r' <-> r' = r - (c + 0) /\ 0 <= r'.
Proof. rewrite Z.add_0_r. split; [intros ([= <-] & ?) | intros (-> & ?)]; auto. Qed.

Lemma bounded_reference v maximum depth r r' :
  _bounded v maximum depth r = Ok r' <-> fits maximum depth v /\ r' = r - weight v /\ 0 <= r'.
Proof.
  revert depth r r'. induction v as [|b|z|s|l IH|d IH] using value_ind; intros depth r r';
    cbn [_bounded]; rewrite require_bind, budget_end, Z.leb_le; cbn [fits weight node_charge];
    cbv zeta; rewrite ?require_bind, ?andb_true_iff, ?Z.leb_le.
  - rewrite leaf_charge. tauto.
  - rewrite leaf_charge. tauto.
  - pose proof (leaf_charge 1 r r'). tauto.
  - pose proof (leaf_charge (zlen s + 2) r r'). tauto.
  - rewrite List.Forall_forall in IH.
    assert (forall x, In x l -> charges (fun r x => _bounded x maximum (depth + 1) r) weight (fits maximum (depth + 1)) x) as Hl.
    { intros x Hx. split; [pose proof (weight_pos x); lia | intros; by apply IH]. }
    pose proof (budget_members _ _ _ l (r - (2 + Z.max 0 (zlen l - 1))) r' Hl) as H.
    rewrite (Z.sub_add_distr r (2 + Z.max 0 (zlen l - 1))). tauto.
  - rewrite List.Forall_forall in IH.
    match goal with |- context [for_fold ?f _ d] => match goal with |- context [every ?P d] =>
      match goal with |- context [total ?w d] => assert (forall kv, In kv d -> charges f w P kv) as Hl end end end.
    { intros [k x] Hkv. cbn [fst snd]. pose proof (weight_pos x). pose proof (zlen_nonneg k). split; cbn [fst snd]; [lia |].
      intros q q'. cbv zeta. rewrite !require_bind, !Z.leb_le, (IH (k, x) Hkv). cbn [fst snd] in *. split.
      - intros (? & ? & ? & ? & -> & ?). repeat split; auto; lia.
      - intros ((? & ? & ?) & -> & ?). repeat split; auto; lia. }
    pose proof (budget_members _ _ _ d (r - (2 + Z.max 0 (zlen d - 1) + zlen d)) r' Hl) as H.
    rewrite (Z.sub_add_distr r (2 + Z.max 0 (zlen d - 1) + zlen d)). tauto.
Qed.

(** ** What the operations establish *)

Section session_theorems.
Context {U : Unicode}.

(** Python dicts have distinct keys. *)
Definition data_ok (x : data) : Prop := match x with Raw _ => True | Value v => uniq v = true end.

Lemma data_document_Ok x maximum w :
  data_ok x -> data_document x maximum = Ok w ->
  is_dict w = true /\ uniq w = true /\ norm w = w /\
  exists b v, canonical_bytes w = Ok b /\ zlen b <= maximum /\
    w = norm v /\ fits maximum 0 v /\ weight v <= maximum /\
    match x with Raw data => data = b \/ data = b ++ [10%N] | Value v' => v' = v end.
Proof.
  unfold data_document. rewrite require_bind. intros Hx [Hm H]. apply guarded_Ok, bind_Ok in H as (v & Hv & H).
  apply bind_Ok in H as (r & (Hf & -> & Hr)%bounded_reference & H). rewrite require_bind in H. destruct H as [Hd H].
  apply bind_Ok in H as (b & Hb & H). rewrite require_bind, Z.leb_le in H. destruct H as [Hlen H].
  pose proof (proj1 (require_canonical_Ok _ _) H) as (Hs & Hu & Hn & b' & Hb' & Hbb).
  assert (b = b') as <-.
  { destruct Hbb as [? | ->]; [done |]. by apply canonical_bytes_no_newline with (x := b') in Hb. }
  assert (uniq v = true /\ match x with Raw data => data = b \/ data = b ++ [10%N] | Value v' => v' = v end)
    as [Huv Hmatch].
  { destruct x as [data | v']; [apply seq_Ok in Hv as [_ Hv] | by injection Hv as ->].
    apply require_canonical_Ok in Hv as (_ & Hu' & Hn' & c & Hc & Hcb). split; [done |].
    by assert (c = b) as -> by congruence. }
  assert (norm v = norm w) as Hvw by (by apply (canonical_bytes_norm_eq v w b b)).
  assert (w = norm v) as -> by congruence. split; [by destruct v |]. do 2 (split; [done |]).
  exists b, v. repeat (split; [done || lia |]). done.
Qed.

(** What [data_document] hands on is detached and bounded.  The value it returns is an object
    in canonical form, the input's value with its keys in order; its canonical bytes are
    within the limit and are the input's bytes, up to one final newline; and the input fitted
    the traversal's budgets of depth, width, integers and total charge. *)
Theorem data_document_bounded x maximum w :
  data_ok x -> data_document x maximum = Ok w ->
  is_dict w = true /\ uniq w = true /\ norm w = w /\
  exists b v, canonical_bytes w = Ok b /\ zlen b <= maximum /\
    w = norm v /\ fits maximum 0 v /\ weight v <= maximum /\
    match x with Raw data => data = b \/ data = b ++ [10%N] | Value v' => v' = v end.
Proof. apply data_document_Ok. Qed.

(** The traversal is its reference reading.  [_bounded] returns exactly on the values whose
    every occurrence is within depth, width and integer range and whose total charge the
    budget covers; what it returns is the budget less that charge. *)
Theorem bounded_exact v maximum depth r r' :
  _bounded v maximum depth r = Ok r' <-> fits maximum depth v /\ r' = r - weight v /\ 0 <= r'.
Proof. apply bounded_reference. Qed.

Lemma is_transition_In before after :
  is_transition before after = true <-> exists a b, before = VStr (u a) /\ after = VStr (u b) /\ In (a, b) TRANSITIONS.
Proof.
  unfold is_transition. rewrite existsb_exists. split.
  - intros ([a b] & Hin & [->%eq_lit_true ->%eq_lit_true]%andb_true_iff). eauto.
  - intros (a & b & -> & -> & Hin). exists (a, b). split; [done |]. apply andb_true_iff. by rewrite !eq_lit_true.
Qed.

(** A candidate's transition: along an edge of the table, at an instant not before the session's
    issue, into EXPIRED exactly when the session has expired. *)
Definition candidate_of (session : value) (now : value) (before after : string) : Prop :=
  fld session "state" = Ok (VStr (u before)) /\ In (before, after) TRANSITIONS /\
  exists instant issued expires, LinuxShape.require_time now = Ok instant /\
    linux_time session "issuedAt" = Ok issued /\ linux_time session "expiresAt" = Ok expires /\
    time_leb issued instant = Ok true /\ time_leb expires instant = Ok (String.eqb after "EXPIRED").

Lemma eq_lit_u s t : eq_lit (VStr (u s)) t = String.eqb s t.
Proof.
  destruct (String.eqb_spec s t) as [-> | Hn]; [by apply eq_lit_true |].
  apply not_true_iff_false. intros [= E%u_inj]%eq_lit_true. done.
Qed.

Lemma transition_candidate_Ok x next_state binding now c :
  transition_candidate x next_state binding now = Ok c ->
  exists session before after digest nonce,
    _session x binding = Ok session /\ next_state = VStr (u after) /\ candidate_of session now before after /\
    canonical_digest session None = Ok digest /\ fld session "nonce" = Ok nonce /\
    c = VDict [(u "fromState", VStr (u before)); (u "toState", VStr (u after)); (u "sessionDigest", VStr digest);
      (u "nonce", nonce); (u "requiresProtectedSupervisor", VBool true);
      (u "evidenceClass", VStr (u "UNIT_VERIFICATION_ONLY")); (u "nativeAcceptance", VBool false)].
Proof.
  unfold transition_candidate. intros H. apply bind_Ok in H as (session & Hs & H).
  apply seq_Ok in H as [Ht%require_m_Ok H]. apply bind_Ok in Ht as (state & Hst & [= [_ Ht]%andb_true_iff]).
  apply is_transition_In in Ht as (before & after & -> & -> & Hin).
  apply bind_Ok in H as (instant & Hi & H). apply seq_Ok in H as [Hcur%require_m_Ok H].
  apply bind_Ok in Hcur as (issued & Hiss & Hle).
  apply bind_Ok in H as (expired & Hexp & H). apply bind_Ok in Hexp as (expires & He & Hex).
  apply seq_Ok in H as [Hb%require_Ok H]. apply eqb_prop in Hb. rewrite eq_lit_u in Hb. subst expired.
  rewrite Hst in H. cbn [mbind res_bind] in H. apply bind_Ok in H as (digest & Hd & H).
  apply bind_Ok in H as (nonce & Hn & [= <-]).
  exists session, before, after, digest, nonce. unfold candidate_of. eauto 20.
Qed.

(** A transition candidate is data, never execution.  What [transition_candidate] returns
    names an edge of the table from the session's own state, the digest and nonce of that
    session, and denies native acceptance; the instant is not before the session's issue, and
    the target is EXPIRED exactly when the session has expired. *)
Theorem transition_candidate_bound x next_state binding now c :
  transition_candidate x next_state binding now = Ok c ->
  exists session before after digest nonce,
    _session x binding = Ok session /\ next_state = VStr (u after) /\ candidate_of session now before after /\
    canonical_digest session None = Ok digest /\ fld session "nonce" = Ok nonce /\
    c = VDict [(u "fromState", VStr (u before)); (u "toState", VStr (u after)); (u "sessionDigest", VStr digest);
      (u "nonce", nonce); (u "requiresProtectedSupervisor", VBool true);
      (u "evidenceClass", VStr (u "UNIT_VERIFICATION_ONLY")); (u "nativeAcceptance", VBool false)].
Proof. apply transition_candidate_Ok. Qed.

(** Candidates read as steps between states. *)
Definition moves (before after : string) : Prop :=
  exists x binding now c, transition_candidate x (VStr (u after)) binding now = Ok c /\
    fld c "fromState" = Ok (VStr (u before)).

Inductive course : string -> list string -> string -> Prop :=
| course_stop s : course s [] s
| course_step s t l r : moves s t -> course t l r -> course s (t :: l) r.

Lemma moves_edge a b : moves a b -> In (a, b) TRANSITIONS.
Proof.
  intros (x & binding & now & c & H & Hf). apply transition_candidate_Ok in H
    as (session & before & after & digest & nonce & _ & [= ->%u_inj] & (_ & Hin & _) & _ & _ & ->).
  apply fld_Ok in Hf as (d & [= <-] & Hf). injection Hf as <-%u_inj. done.
Qed.

(** How many transitions may follow a state. *)
Definition rank (s : string) : nat :=
  if String.eqb s "VALIDATED_DATA" then 3 else if String.eqb s "RESERVED" then 2
  else if String.eqb s "RUNNING" then 1 else 0.

Lemma edge_rank a b : In (a, b) TRANSITIONS -> (rank b < rank a)%nat.
Proof.
  assert (forallb (fun '(a, b) => Nat.ltb (rank b) (rank a)) TRANSITIONS = true) as H by done.
  rewrite forallb_forall in H. intros Hin%H. by apply Nat.ltb_lt in Hin.
Qed.

(** C18: a session is one-shot.  From any state at most [rank] transitions can follow one
    another, so at most three in all; none enters a session anew, and COMPLETED is reached
    only out of RUNNING, RUNNING only out of RESERVED. *)
Theorem session_one_shot s l t :
  course s l t ->
  (length l + rank t <= rank s)%nat /\ ~ In "VALIDATED_DATA" l /\
  (forall a b, moves a b -> (b = "COMPLETED" -> a = "RUNNING") /\ (b = "RUNNING" -> a = "RESERVED")).
Proof.
  intros Hc. split; [|split].
  - induction Hc as [|s t l r Hm%moves_edge%edge_rank _ IH]; simpl; lia.
  - induction Hc as [|s t l r Hm%moves_edge _ IH]; simpl; [tauto |].
    intros [-> | ?]; [|done]. simpl in Hm. by repeat destruct Hm as [[= <-] | Hm].
  - intros a b Hm%moves_edge. simpl in Hm.
    split; intros ->; repeat (destruct Hm as [Hm | Hm]; [simplify_eq; try done|]); done.
Qed.

(** ** Receipts *)

(** A regression suite that ran in full: the expected inventory, everything collected was
    executed, nothing skipped and nothing failed. *)
Definition ran_in_full (regressions expected : value) (name : string) : Prop :=
  exists result baseline d e n, fld regressions name = Ok result /\ fld expected name = Ok baseline /\
    fld result "inventoryDigest" = Ok d /\ fld baseline "inventoryDigest" = Ok e /\ py_eq d e = true /\
    fld baseline "testCount" = Ok (VInt n) /\ (if String.eqb name "conformance" then 120 else 1) <= n /\
    fld result "collected" = Ok (VInt n) /\ fld result "executed" = Ok (VInt n) /\
    fld result "skipped" = Ok (VInt 0) /\ fld result "failed" = Ok (VInt 0).

Lemma count_Ok v k z : count v k = Ok z <-> fld v k = Ok (VInt z).
Proof.
  unfold count. rewrite bind_Ok. split; [intros (x & Hx & H); destruct x; naive_solver | intros ->; eauto].
Qed.

Lemma check_regression_Ok regressions expected failed name b :
  check_regression regressions expected failed name = Ok b ->
  (failed = true -> b = true) /\ (b = false -> ran_in_full regressions expected name).
Proof.
  unfold check_regression. intros H. apply bind_Ok in H as (result & Hr & H). apply bind_Ok in H as (baseline & Hb & H).
  do 4 apply seq_Ok in H as [_ H]. apply seq_Ok in H as [Htc H]. apply seq_Ok in H as [_ H].
  apply bind_Ok in H as (c & Hc & H). apply bind_Ok in H as (e & He & H). apply bind_Ok in H as (s & Hs & H).
  apply bind_Ok in H as (f & Hf & H). apply seq_Ok in H as [_ H].
  apply seq_Ok in H as [[(x & y & Hx & Hy & Hxy)%fld2_eq_true (x' & y' & Hx' & Hy' & Hxy')%fld2_eq_true]%require_m_Ok%and_m_true [= <-]].
  split; [by intros -> |]. rewrite !orb_false_iff, !negb_false_iff, !Z.eqb_eq. intros (((-> & ->) & ->) & ->).
  rewrite !count_Ok in Hc, He, Hs, Hf. rewrite Hx' in Hc. injection Hc as ->.
  destruct (each_field_Ok _ _ _ "testCount" Htc) as (n & Hn & (z & -> & Hz)%integer_Ok); [by left |].
  assert (y' = VInt z) as -> by congruence. simpl in Hxy'. apply Z.eqb_eq in Hxy' as ->.
  exists result, baseline, x, y, z. repeat (split; [done |]). done.
Qed.

Lemma regressions_clean regressions expected names failed :
  for_fold (check_regression regressions expected) failed names = Ok false ->
  failed = false /\ Forall (ran_in_full regressions expected) names.
Proof.
  revert failed. induction names as [|name names IH]; intros failed; cbn; [by intros [= ->] |].
  intros (b & Hb & [-> Hr]%IH)%bind_Ok. apply check_regression_Ok in Hb as [Hf Hb].
  split; [|constructor; auto]. destruct failed; [by discriminate Hf | done].
Qed.

Lemma receipt_status_pass failed statuses :
  (forall x, In x statuses -> in_lits x STATUSES = true) ->
  receipt_status failed statuses = "PASS" -> failed = false /\ forall x, In x statuses -> x = VStr (u "PASS").
Proof.
  intros Hl H. assert (failed = false) as ->; [by destruct failed |]. split; [done |].
  by apply _overall_pass.
Qed.

(** A session returned by the validator is its own canonical value: validated again, it comes
    back unchanged. *)
Lemma session_Ok x binding session :
  _session x binding = Ok session -> data_document x MAX_SESSION_BYTES = Ok session.
Proof.
  unfold _session. intros H. apply bind_Ok in H as (s & Hs & H). do 3 apply seq_Ok in H as [_ H].
  apply bind_Ok in H as (b & _ & H). apply seq_Ok in H as [_ H]. do 2 apply bind_Ok in H as (? & _ & H).
  apply seq_Ok in H as [_ [= <-]]. done.
Qed.

Lemma validate_session_document x binding now session :
  validate_session x binding now = Ok session -> data_document x MAX_SESSION_BYTES = Ok session.
Proof.
  unfold validate_session. intros H. apply bind_Ok in H as (s & Hs%session_Ok & H).
  apply bind_Ok in H as (i & _ & H). do 2 apply seq_Ok in H as [_ H]. by injection H as <-.
Qed.

Lemma validate_session_again x binding now binding' now' current current' :
  data_ok x -> validate_session x binding now = Ok current ->
  validate_session (Value current) binding' now' = Ok current' -> current' = current.
Proof.
  intros Hx H1%validate_session_document H2%validate_session_document.
  apply data_document_Ok in H1 as (_ & Hu & Hn & _); [|done].
  apply data_document_Ok in H2 as (_ & _ & _ & b & v & _ & _ & -> & _ & _ & ->); [|done]. done.
Qed.

(** C17: a receipt's PASS is earned in the running session.  An accepted receipt belongs to a
    current session in state RUNNING and to the one request that was expected, carries that
    request's nonce and digests, was observed between the session's issue and now, and its
    output is bound by its digest and holds no check but those of its case; when it says PASS, every check its case requires is PASS
    and, for the regression case, all three repositories ran in full. *)
Theorem receipt_earned x session binding expected_request expected_regressions now receipt :
  data_ok session ->
  validate_receipt x session binding expected_request expected_regressions now = Ok receipt ->
  exists current request output cs rs case expected h,
    validate_session session binding now = Ok current /\ fld current "state" = Ok (VStr (u "RUNNING")) /\
    validate_request expected_request (Value current) binding expected_request now = Ok request /\
    data_document x MAX_RESPONSE_BYTES = Ok receipt /\
    (exists issued observed instant, linux_time current "issuedAt" = Ok issued /\
       linux_time receipt "observedAt" = Ok observed /\ LinuxShape.require_time now = Ok instant /\
       time_leb issued observed = Ok true /\ time_leb observed instant = Ok true) /\
    (forall name field, In (name, field) [("caseId", "operation"); ("runNonce", "runNonce"); ("probeDigest", "probeDigest");
       ("commandDigest", "commandDigest")] ->
       exists a b, fld receipt name = Ok a /\ fld request field = Ok b /\ py_eq a b = true) /\
    fld request "operation" = Ok case /\ fld receipt "output" = Ok output /\ fld output "checks" = Ok (VDict cs) /\
    fld output "regressions" = Ok rs /\ data_document expected_regressions MAX_SESSION_BYTES = Ok expected /\
    canonical_digest output (Some "planeon.linux-probe-output/v1alpha1") = Ok h /\
    fld_eq receipt "outputDigest" (VStr h) = Ok true /\
    (forall k, In k (dkeys cs) -> In k (u <$> checks_of case)) /\
    (fld receipt "status" = Ok (VStr (u "PASS")) ->
       (forall k, In k (checks_of case) -> dget (u k) cs = Some (VStr (u "PASS"))) /\
       (case = VStr (u "FULL_PREDECESSOR_REGRESSION") -> Forall (ran_in_full rs expected) REPOSITORIES)).
Proof.
  unfold validate_receipt. intros Hok H. apply bind_Ok in H as (current & Hcur & H).
  apply bind_Ok in H as (request & Hreq & H). apply bind_Ok in H as (doc & Hdoc & H).
  apply seq_Ok in H as [_ H]. apply seq_Ok in H as [Hmatch H]. apply seq_Ok in H as [Htime%require_m_Ok H].
  apply bind_Ok in H as (output & Hout & H). do 2 apply seq_Ok in H as [_ H].
  apply bind_Ok in H as (checks & Hch & H). apply bind_Ok in H as (rs & Hrs & H). apply seq_Ok in H as [_ H].
  apply bind_Ok in H as (case & Hcase & H). apply seq_Ok in H as [Hclosed H].
  apply bind_Ok in H as (cs & Hcs & H). destruct checks as [| | | | |cs']; try done. injection Hcs as ->.
  cbv zeta in H. apply seq_Ok in H as [Hst%require_Ok H]. apply bind_Ok in H as (expected & Hexp & H).
  do 2 apply seq_Ok in H as [_ H]. apply bind_Ok in H as (failed & Hfold & H).
  apply seq_Ok in H as [Hstatus%require_m_Ok H]. apply bind_Ok in H as (h & Hh & H).
  apply seq_Ok in H as [Hdig%require_m_Ok [= <-]].
  exists current, request, output, cs, rs, case, expected, h. split; [done |]. split; [|split; [done |]].
  { unfold validate_request in Hreq. apply bind_Ok in Hreq as (current' & Hcur' & Hreq).
    apply seq_Ok in Hreq as [Hrun%require_m_Ok _]. unfold fld_lit in Hrun. apply bind_Ok in Hrun as (s & Hs & [= ->%eq_lit_true]).
    assert (current' = current) as -> by (by eapply validate_session_again). done. }
  split; [done |]. split.
  { apply and_m_true in Htime as [H1 H2]. apply bind_Ok in H1 as (issued & Hi & H1), H2 as (observed & Ho & H2).
    apply bind_Ok in H1 as (observed' & Ho' & H1), H2 as (instant & Hn & H2). rewrite Ho in Ho'. injection Ho' as <-.
    by exists issued, observed, instant. }
  split.
  { intros name field Hin. rewrite for_each_Ok, List.Forall_forall in Hmatch.
    specialize (Hmatch _ Hin). by apply require_m_Ok, fld2_eq_true in Hmatch. }
  do 7 (split; [done |]). split.
  { apply closed_Ok in Hclosed as (? & [= <-] & _ & Honly). intros k [Hk | []]%Honly. exact Hk. }
  rewrite forallb_forall in Hst. intros Hpass. unfold fld_lit in Hstatus. rewrite Hpass in Hstatus. injection Hstatus as Hp.
  rewrite eq_lit_u in Hp. apply String.eqb_eq in Hp. symmetry in Hp. apply receipt_status_pass in Hp as [-> Hall]; [|done].
  apply regressions_clean in Hfold as [_ Hclean]. split.
  - apply closed_Ok in Hclosed as (? & [= <-] & Hreqd & _). intros k Hk. destruct (Hreqd k Hk) as [y Hy].
    rewrite Hy. f_equal. apply Hall. apply dget_In in Hy. by apply (in_map snd) in Hy.
  - intros ->. exact Hclean.
Qed.
End session_theorems.
