(* ===== verification/ReplayStore.v ===== *)
(** live_replay_store.py: the append-only journal that makes a nonce usable once.

    [parse_journal], [plan_row] and [_record] are the transaction algorithm over any storage
    with the operations of class [Storage]; [open_directory] and the [file_*] operations are
    the production storage over a POSIX interface whose answers are arbitrary. *)

From S2P Require Import Prelude Effects PyVal Utf8 Json Sha2 Canonical IsoTime Regex.
From S2P Require Import SchemaBase Lifecycle LinuxShape LinuxVerify Session.

#[local] Open Scope string_scope.
#[local] Open Scope list_scope.
#[local] Open Scope Z_scope.

(* @src src/src/harness_conformance/live_replay_store.py:21-21 JOURNAL *)
Definition JOURNAL : string := "/var/lib/planeon/live-backend/replay.jsonl".
(* @src src/src/harness_conformance/live_replay_store.py:22-22 MAX_JOURNAL *)
Definition MAX_JOURNAL : Z := 4194304.
(* @src src/src/harness_conformance/live_replay_store.py:23-23 MAX_RECORD *)
Definition MAX_RECORD : Z := 2048.
(* @src src/src/harness_conformance/live_replay_store.py:24-24 MAX_RECORDS *)
Definition MAX_RECORDS : Z := 4096.
(* @src src/src/harness_conformance/live_replay_store.py:25-25 TERMINAL *)
Definition TERMINAL : list string := ["COMPLETED"; "FAILED"; "CANCELLED"; "EXPIRED"].
(* @src src/src/harness_conformance/live_replay_store.py:26-27 EDGES *)
Definition EDGES : list (string * list string) :=
  ("RESERVED", ["RUNNING"; "FAILED"; "CANCELLED"; "EXPIRED"]) :: ("RUNNING", TERMINAL) ::
  map (fun state => (state, [])) TERMINAL.
(* @src src/src/harness_conformance/live_replay_store.py:28-28 FIELDS *)
Definition FIELDS : list string :=
  ["sequence"; "previousDigest"; "replayKey"; "bindingDigest"; "state"; "observedAt"; "receiptDigest"].
(* @src src/src/harness_conformance/live_replay_store.py:29-29 ZERO *)
Definition ZERO : str := u "sha256:" ++ repeat 48%N 64.

(** [b.splitlines(keepends=True)] on octets: a line ends with LF, CR or CR LF. *)
Fixpoint splitlines (b : bytes) : list bytes :=
  match b with
  | [] => []
  | c :: b' =>
      if (c =? 10)%N then [c] :: splitlines b'
      else if (c =? 13)%N then
        match b' with
        | 10%N :: b'' => [13; 10]%N :: splitlines b''
        | _ => [c] :: splitlines b'
        end
      else match splitlines b' with
           | [] => [[c]]
           | line :: lines => (c :: line) :: lines
           end
  end.

(** [v in EDGES] and [EDGES[v]], the latter a [KeyError] outside. *)
Definition is_state (v : value) : bool := is_str v && in_lits v (map fst EDGES).
Definition edges_of (v : value) : res (list string) := table_get EDGES v.

(** The storage a journal is given: [transaction] up to its [yield] and after it, [read],
    [append] and [sync]. *)
Class Storage (W : Type) := {
  enter : io W unit;
  leave : io W unit;
  read_all : io W bytes;
  append : bytes -> io W unit;
  sync : io W unit
}.

(** A [_Journal]: its storage and the [_poisoned] flag. *)
(* @src src/src/harness_conformance/live_replay_store.py:161-167 _Journal *)
Record journal (W : Type) := Journal { storage : W; poisoned : bool }.
Arguments Journal {W} storage poisoned.
Arguments storage {W} j.
Arguments poisoned {W} j.

Section replay.
Context {U : Unicode}.

(* @src src/src/harness_conformance/live_replay_store.py:37-41 replay_key *)
Definition replay_key (binding : data) : res str :=
  value ← validate_binding binding;
  tenant ← fld value "tenantId";
  nonce ← fld value "nonce";
  canonical_digest (VDict [(u "tenantId", tenant); (u "nonce", nonce)]) (Some "planeon.live-replay-key/v1alpha1").

(** ** Parsing the journal *)

(** The rows by replay key, the digest of the last row, and the number of rows. *)
Definition parsed : Type := dict * str * Z.

(** The body of the loop over lines. *)
(* @src src/src/harness_conformance/live_replay_store.py:136-157 parse_journal *)
Definition parse_row (s : parsed) (line : bytes) : res parsed :=
  let '(latest, previous, count) := s in
  require ((0 <? zlen line) && (zlen line <=? MAX_RECORD)) "REPLAY_JOURNAL_CORRUPT" ;;
  row ← require_canonical_document line;
  closed row FIELDS [] ;;
  require_m ((x ← fld row "sequence"; Ok (is_int x && py_eq x (VInt (count + 1)))) <&&>
             fld_eq row "previousDigest" (VStr previous)) "REPLAY_JOURNAL_CORRUPT" ;;
  each_field row ["replayKey"; "bindingDigest"] require_digest ;;
  _ ← linux_time row "observedAt";
  key ← (x ← fld row "replayKey"; as_text x);
  let prior := dget key latest in
  state ← fld row "state";
  require (is_state state) "REPLAY_JOURNAL_CORRUPT" ;;
  match prior with
  | None => require (eq_lit state "RESERVED") "REPLAY_JOURNAL_CORRUPT"
  | Some prior =>
      require_m ((p ← fld prior "state"; es ← edges_of p; Ok (in_lits state es)) <&&>
                 fld2_eq row "bindingDigest" prior "bindingDigest" <&&>
                 (a ← linux_time row "observedAt"; b ← linux_time prior "observedAt"; time_leb b a))
        "REPLAY_JOURNAL_CORRUPT"
  end ;;
  (if in_lits state TERMINAL then each_field row ["receiptDigest"] require_digest
   else require_m (x ← fld row "receiptDigest"; Ok (is_none x)) "REPLAY_JOURNAL_CORRUPT") ;;
  digest ← canonical_digest row None;
  Ok (dset key row latest, digest, count + 1).

(* @src src/src/harness_conformance/live_replay_store.py:129-158 parse_journal *)
Definition parse_journal (raw : bytes) : res parsed :=
  require (zlen raw <=? MAX_JOURNAL) "REPLAY_JOURNAL_FULL" ;;
  require (match raw with [] => true | _ => endswith [10%N] raw end) "REPLAY_JOURNAL_CORRUPT" ;;
  let lines := splitlines raw in
  require (zlen lines <=? MAX_RECORDS) "REPLAY_JOURNAL_FULL" ;;
  for_fold parse_row ([], ZERO, 0) lines.

(** ** Recording a transition *)

(** Between the read and the write of a transaction: the row to append and its octets. *)
(* @src src/src/harness_conformance/live_replay_store.py:176-199 _Journal._record *)
Definition plan_row (value state now receipt_digest : value) (instant : datetime) (raw : bytes)
    : res (PyVal.value * bytes) :=
  '(latest, previous, count) ← parse_journal raw;
  key ← replay_key (Value value);
  binding_digest ← canonical_digest value None;
  let prior := dget key latest in
  (if eq_lit state "RESERVED" then
     require (match prior with None => true | Some _ => false end) "REPLAY_DETECTED" ;;
     require_m ((a ← linux_time value "notBefore"; time_leb a instant) <&&>
                (b ← linux_time value "notAfter"; time_ltb instant b)) "REPLAY_EXPIRED"
   else
     prior ← match prior with Some p => Ok p | None => conf "REPLAY_TRANSITION_INVALID" end;
     require_m (fld_eq prior "bindingDigest" (VStr binding_digest) <&&>
                (p ← fld prior "state"; es ← edges_of p; Ok (in_lits state es))) "REPLAY_TRANSITION_INVALID" ;;
     require_m (a ← linux_time prior "observedAt"; time_leb a instant) "REPLAY_CLOCK_ROLLBACK" ;;
     if eq_lit state "EXPIRED" then
       require_m (b ← linux_time value "notAfter"; time_leb b instant) "REPLAY_EARLY_EXPIRY"
     else if in_lits state ["RUNNING"; "COMPLETED"] then
       require_m (b ← linux_time value "notAfter"; time_ltb instant b) "REPLAY_EXPIRED"
     else Ok tt) ;;
  (if in_lits state TERMINAL then require_digest receipt_digest
   else require (is_none receipt_digest) "REPLAY_RECEIPT_INVALID") ;;
  let row := VDict [(u "sequence", VInt (count + 1)); (u "previousDigest", VStr previous); (u "replayKey", VStr key);
                    (u "bindingDigest", VStr binding_digest); (u "state", state); (u "observedAt", now);
                    (u "receiptDigest", receipt_digest)] in
  canonical ← canonical_bytes row;
  let encoded := canonical ++ [10%N] in
  require ((count <? MAX_RECORDS) && (zlen encoded <=? MAX_RECORD) && (zlen raw + zlen encoded <=? MAX_JOURNAL))
    "REPLAY_JOURNAL_FULL" ;;
  Ok (row, encoded).

Section journal.
Context {W : Type} {St : Storage W}.

Definition on_storage {A} (m : io W A) : io (journal W) A :=
  zoom storage (fun s j => Journal s (poisoned j)) m.

(** [self._poisoned = True]. *)
Definition poison : io (journal W) unit := update (fun j => Journal (storage j) true).

(** [with self._storage.transaction() as io: m]. *)
Definition in_transaction {A} (m : io (journal W) A) : io (journal W) A :=
  on_storage enter ;; finally m (on_storage leave).

(** Append, sync, read back. *)
Definition append_checked (code : string) (raw encoded : bytes) : io (journal W) unit :=
  on_storage (append encoded) ;;
  on_storage sync ;;
  again ← on_storage read_all;
  check (str_eqb again (raw ++ encoded)) code.

(** The guarded write. *)
(* @src src/src/harness_conformance/live_replay_store.py:200-206 _Journal._record *)
Definition write_row (raw encoded : bytes) : io (journal W) unit :=
  on_error (append_checked "REPLAY_CUSTODY_CHANGED" raw encoded) poison.

(* @src src/src/harness_conformance/live_replay_store.py:169-207 _Journal._record *)
Definition _record (binding : data) (state now receipt_digest : value) : io (journal W) str :=
  value ← lift (validate_binding binding);
  instant ← lift (LinuxShape.require_time now);
  ambiguous ← reads (fun j => Ok (poisoned j));
  check (negb ambiguous) "REPLAY_STORAGE_AMBIGUOUS" ;;
  check (is_state state) "REPLAY_TRANSITION_INVALID" ;;
  in_transaction (
    raw ← on_storage read_all;
    planned ← lift (plan_row value state now receipt_digest instant raw);
    write_row raw planned.2 ;;
    lift (canonical_digest planned.1 None)).

(* @src src/src/harness_conformance/live_replay_store.py:209-210 reserve_nonce *)
Definition reserve_nonce (binding : data) (now : value) : io (journal W) str :=
  _record binding (VStr (u "RESERVED")) now VNone.
(* @src src/src/harness_conformance/live_replay_store.py:212-213 running *)
Definition running (binding : data) (now : value) : io (journal W) str :=
  _record binding (VStr (u "RUNNING")) now VNone.
(* @src src/src/harness_conformance/live_replay_store.py:215-217 terminal *)
Definition terminal (binding : data) (state now receipt_digest : value) : io (journal W) str :=
  check (in_lits state TERMINAL) "REPLAY_TRANSITION_INVALID" ;;
  _record binding state now receipt_digest.
End journal.
End replay.

(** ** Lines *)

Lemma splitlines_newline p s :
  (forall x, In x p -> x <> 10%N /\ x <> 13%N) -> splitlines (p ++ 10%N :: s) = (p ++ [10%N]) :: splitlines s.
Proof.
  induction p as [|c p IH]; intros H; [done |]. cbn [app splitlines].
  destruct (H c (or_introl eq_refl)) as [H1%N.eqb_neq H2%N.eqb_neq]. rewrite H1, H2, IH; [done |].
  intros; apply H; by right.
Qed.

Lemma splitlines_app_aux n raw s :
  (length raw <= n)%nat -> splitlines (raw ++ 10%N :: s) = splitlines (raw ++ [10%N]) ++ splitlines s.
Proof.
  revert raw. induction n as [|n IH]; intros raw Hn; [destruct raw; [done | simpl in Hn; lia] |].
  destruct raw as [|c raw]; [done |]. simpl in Hn. cbn [app splitlines].
  destruct (c =? 10)%N eqn:E1; [cbn [app]; f_equal; apply IH; lia |].
  destruct (c =? 13)%N eqn:E2.
  - destruct raw as [|d raw]; [done |]. cbn [app]. destruct (decide (d = 10%N)) as [->|Hd].
    + cbn [app]. f_equal. destruct raw as [|e raw]; [done |]. apply (IH (e :: raw)). simpl in Hn |- *. lia.
    + assert (forall t, match d :: t with 10%N :: b'' => [13; 10]%N :: splitlines b'' | _ => [c] :: splitlines (d :: t) end
                        = [c] :: splitlines (d :: t)) as Hm.
      { intros t. destruct d as [|p]; [done |]. do 4 (destruct p as [p|p|]; try done). }
      rewrite !Hm. cbn [app]. f_equal. apply (IH (d :: raw)). simpl in Hn |- *. lia.
  - rewrite (IH raw) by lia.
    destruct (splitlines (raw ++ [10%N])) as [|line lines] eqn:E; [|done].
    exfalso. revert E. clear. destruct raw as [|c raw]; cbn [app splitlines]; [done |].
    repeat case_match; done.
Qed.

(** Lines of a text that ends with a newline, and of what follows. *)
Lemma splitlines_app raw s :
  raw = [] \/ endswith [10%N] raw = true -> splitlines (raw ++ s) = splitlines raw ++ splitlines s.
Proof.
  intros [-> | (r & ->)%endswith_app]; [done |]. rewrite <- app_assoc. cbn [app]. by eapply splitlines_app_aux.
Qed.

(** ** What a journal that parses says *)

Definition edge (before after : string) : Prop := exists targets, In (before, targets) EDGES /\ In after targets.

(** A row may follow the last row of its key. *)
Definition follows (prior : option value) (row : value) (state : string) : Prop :=
  match prior with
  | None => state = "RESERVED"
  | Some p => exists before, fld p "state" = Ok (VStr (u before)) /\ edge before state /\
      fld2_eq row "bindingDigest" p "bindingDigest" = Ok true /\
      exists a b, linux_time row "observedAt" = Ok a /\ linux_time p "observedAt" = Ok b /\ time_leb b a = Ok true
  end.

(** What one accepted line adds. *)
Record row_adds {U : Unicode} (latest : dict) (previous : str) (count : Z) (line : bytes) (row : value) (key : str)
    (state : string) (digest : str) : Prop := {
  ra_line : require_canonical_document line = Ok row;
  ra_sequence : fld row "sequence" = Ok (VInt (count + 1));
  ra_previous : fld row "previousDigest" = Ok (VStr previous);
  ra_key : fld row "replayKey" = Ok (VStr key);
  ra_state : fld row "state" = Ok (VStr (u state));
  ra_follows : follows (dget key latest) row state;
  ra_digest : canonical_digest row None = Ok digest;
  ra_receipt : In state TERMINAL -> exists h, fld row "receiptDigest" = Ok h /\ require_digest h = Ok tt
}.

Section parsing.
Context {U : Unicode}.

Lemma edges_of_edge p es state :
  edges_of p = Ok es -> in_lits (VStr (u state)) es = true -> exists before, p = VStr (u before) /\ edge before state.
Proof.
  intros (before & -> & Hin)%table_get_Ok (s & [= E%u_inj] & Hs)%in_lits_true. subst s.
  exists before. split; [done |]. by exists es.
Qed.

Lemma parse_row_Ok latest previous count line s :
  parse_row (latest, previous, count) line = Ok s ->
  exists row key state digest, row_adds latest previous count line row key state digest /\
    s = (dset key row latest, digest, count + 1).
Proof.
  unfold parse_row. cbv beta iota. intros H. apply seq_Ok in H as [_ H]. apply bind_Ok in H as (row & Hrow & H).
  apply seq_Ok in H as [_ H]. apply seq_Ok in H as [[Hseq Hprev%fld_eq_true]%require_m_Ok%and_m_true H].
  apply seq_Ok in H as [_ H]. apply bind_Ok in H as (t & Ht & H). apply bind_Ok in H as (key & Hkey & H).
  cbv zeta in H. apply bind_Ok in H as (st & Hst & H). apply seq_Ok in H as [His%require_Ok H].
  apply seq_Ok in H as [Hfol H]. apply seq_Ok in H as [Hrec H]. apply bind_Ok in H as (digest & Hd & [= <-]).
  apply bind_Ok in Hseq as (sq & Hsq & [= Hseq]). apply andb_true_iff in Hseq as [Hint Heq].
  destruct sq as [| |z| | |]; try done. simpl in Heq. apply Z.eqb_eq in Heq as ->.
  destruct Hprev as (pv & Hpv & Heq). destruct pv as [| | |p| |]; try done. simpl in Heq. apply str_eqb_eq in Heq as ->.
  apply bind_Ok in Hkey as (kv & Hkv & Hkey). destruct kv as [| | |k| |]; try done. injection Hkey as ->.
  apply andb_true_iff in His as [_ (state & -> & _)%in_lits_true].
  exists row, key, state, digest. split; [|done]. constructor; try done.
  - unfold follows. destruct (dget key latest) as [p|].
    + apply require_m_Ok, and_m_true in Hfol as [Hfol (a & Ha & (b & Hb & Hab)%bind_Ok)%bind_Ok].
      apply and_m_true in Hfol as [Hed Hbd]. apply bind_Ok in Hed as (pst & Hpst & (es & Hes & [= Hin])%bind_Ok).
      destruct (edges_of_edge _ _ _ Hes Hin) as (before & -> & He). exists before. eauto 10.
    + apply require_Ok in Hfol. rewrite eq_lit_u in Hfol. by apply String.eqb_eq in Hfol.
  - intros Hin. assert (in_lits (VStr (u state)) TERMINAL = true) as E by (apply in_lits_true; eauto).
    rewrite E in Hrec. apply (each_field_Ok _ _ _ "receiptDigest") in Hrec; [done | by left].
Qed.
End parsing.

(** The rows of a key, the states they went through, and what those may be. *)
Definition key_of (row : value) : str := match fld row "replayKey" with Ok (VStr s) => s | _ => [] end.
Definition state_of (row : value) : str := match fld row "state" with Ok (VStr s) => s | _ => [] end.
Definition rows_of (key : str) (rows : list value) : list value :=
  List.filter (fun r => str_eqb (key_of r) key) rows.
Definition history (key : str) (rows : list value) : list str := map state_of (rows_of key rows).

(** Nothing; reserved; running after reserved; and one end: out of either, COMPLETED out of
    running only. *)
Definition lawful (h : list str) : Prop :=
  h = [] \/ h = [u "RESERVED"] \/ h = [u "RESERVED"; u "RUNNING"] \/
  exists t, In t TERMINAL /\ (t <> "COMPLETED" /\ h = [u "RESERVED"; u t] \/ h = [u "RESERVED"; u "RUNNING"; u t]).

(** Each row names its position and the digest of the row before. *)
Fixpoint chained {U : Unicode} (previous : str) (count : Z) (rows : list value) (last : str) : Prop :=
  match rows with
  | [] => last = previous
  | r :: rest => fld r "sequence" = Ok (VInt (count + 1)) /\ fld r "previousDigest" = Ok (VStr previous) /\
      exists d, canonical_digest r None = Ok d /\ chained d (count + 1) rest last
  end.

(** [latest] holds the last row of every key, and every key's history is lawful. *)
Definition latest_of (rows : list value) (latest : dict) : Prop :=
  forall key, dget key latest = last (rows_of key rows) /\ lawful (history key rows).

Lemma rows_of_snoc key rows row :
  rows_of key (rows ++ [row]) = rows_of key rows ++ if str_eqb (key_of row) key then [row] else [].
Proof. unfold rows_of. rewrite List.filter_app. simpl. by destruct (str_eqb _ _). Qed.

Lemma edge_cases before after : edge before after ->
  before = "RESERVED" /\ (after = "RUNNING" \/ In after TERMINAL /\ after <> "COMPLETED") \/ before = "RUNNING" /\ In after TERMINAL.
Proof.
  intros (targets & H & Ha). simpl in H.
  repeat (destruct H as [H | H]; [injection H as <- <-; simpl in Ha |- *; intuition congruence |]). destruct H.
Qed.

(** A lawful history grows by an edge out of its last state. *)
Lemma lawful_snoc h before after :
  lawful h -> last h = Some (u before) -> edge before after -> lawful (h ++ [u after]).
Proof.
  intros Hh Hl He%edge_cases.
  assert (forall t, In t TERMINAL -> u t <> u "RESERVED" /\ u t <> u "RUNNING") as Ht
    by (intros t Ht; split; intros ->%u_inj; simpl in Ht; intuition congruence).
  unfold lawful.
  destruct Hh as [-> | [-> | [-> | (t & Hin & [[_ ->] | ->])]]]; simpl in Hl; simplify_eq;
    destruct He as [[-> Ha] | [-> Ha]]; try (apply u_inj in Hl; discriminate);
    try (destruct (Ht t Hin); congruence).
  - destruct Ha as [-> | [Ha Hn]]; [right; right; by left | do 3 right; exists after; auto].
  - do 3 right. exists after. auto.
Qed.

Section histories.
Context {U : Unicode}.

Lemma row_adds_key latest previous count line row key state digest :
  row_adds latest previous count line row key state digest -> key_of row = key /\ state_of row = u state.
Proof. intros H. unfold key_of, state_of. by rewrite (ra_key _ _ _ _ _ _ _ _ H), (ra_state _ _ _ _ _ _ _ _ H). Qed.

Lemma latest_snoc rows latest previous count line row key state digest :
  latest_of rows latest -> row_adds latest previous count line row key state digest ->
  latest_of (rows ++ [row]) (dset key row latest).
Proof.
  intros Hl Hr. destruct (row_adds_key _ _ _ _ _ _ _ _ Hr) as [Hk Hs]. intros k.
  destruct (Hl k) as [Hg Hw]. unfold history. rewrite dget_dset, rows_of_snoc, Hk, (str_eqb_sym k key).
  destruct (str_eqb_spec key k) as [<- | Hne].
  - split; [by rewrite last_snoc |]. rewrite map_app. simpl. rewrite Hs.
    pose proof (ra_follows _ _ _ _ _ _ _ _ Hr) as Hf. rewrite Hg in Hf. fold (history key rows).
    destruct (last (rows_of key rows)) as [p|] eqn:El.
    + destruct Hf as (before & Hp & He & _). eapply lawful_snoc; [done | | exact He].
      unfold history. replace (map state_of (rows_of key rows)) with (state_of <$> rows_of key rows) by done. rewrite fmap_last, El. simpl. unfold state_of. by rewrite Hp.
    + apply last_None in El. unfold history. rewrite El. simpl in Hf |- *. subst state. right. by left.
  - by rewrite app_nil_r.
Qed.

Lemma parse_rows_Ok lines seen latest previous count latest' previous' count' :
  latest_of seen latest ->
  for_fold parse_row (latest, previous, count) lines = Ok (latest', previous', count') ->
  exists rows, Forall2 (fun line row => require_canonical_document line = Ok row) lines rows /\
    chained previous count rows previous' /\ count' = count + zlen rows /\ latest_of (seen ++ rows) latest'.
Proof.
  revert seen latest previous count. induction lines as [|line lines IH]; intros seen latest previous count Hl; cbn [for_fold].
  - intros [= <- <- <-]. exists []. rewrite zlen_nil, app_nil_r. repeat split; [constructor | lia | apply Hl | apply Hl].
  - intros (s & Hs & H)%bind_Ok. apply parse_row_Ok in Hs as (row & key & state & digest & Hr & ->).
    apply (IH (seen ++ [row])) in H as (rows & Hrows & Hc & -> & Hl'); [|by eapply latest_snoc].
    exists (row :: rows). rewrite zlen_cons, <- app_assoc in *. destruct Hr. repeat split; [by constructor | done | done | | lia | apply Hl' | apply Hl'].
    eauto.
Qed.

Lemma parse_journal_Ok raw latest previous count :
  parse_journal raw = Ok (latest, previous, count) ->
  zlen raw <= MAX_JOURNAL /\ (raw = [] \/ endswith [10%N] raw = true) /\ count <= MAX_RECORDS /\
  exists rows, Forall2 (fun line row => require_canonical_document line = Ok row) (splitlines raw) rows /\
    chained ZERO 0 rows previous /\ count = zlen rows /\ latest_of rows latest.
Proof.
  unfold parse_journal. intros H. apply seq_Ok in H as [Hs%require_Ok H]. apply seq_Ok in H as [Hn%require_Ok H].
  apply seq_Ok in H as [Hm%require_Ok H].
  apply (parse_rows_Ok _ []) in H as (rows & Hrows & Hc & -> & Hl); [|intros k; split; [done | by left]].
  split; [lia |]. split; [destruct raw; auto |]. rewrite Z.add_0_l.
  split; [apply Forall2_length in Hrows; unfold zlen in *; lia |]. by exists rows.
Qed.

(** A journal that parses is a lawful history.  Its lines are canonical rows numbered from
    one, each naming the digest of the row before (the first the zero digest); the map
    returned holds the last row of every replay key; and the states of every key are
    RESERVED, then possibly RUNNING, then possibly one terminal state, COMPLETED only out of
    RUNNING. *)
Theorem journal_history raw latest previous count :
  parse_journal raw = Ok (latest, previous, count) ->
  zlen raw <= MAX_JOURNAL /\ (raw = [] \/ endswith [10%N] raw = true) /\ count <= MAX_RECORDS /\
  exists rows, Forall2 (fun line row => require_canonical_document line = Ok row) (splitlines raw) rows /\
    chained ZERO 0 rows previous /\ count = zlen rows /\ latest_of rows latest.
Proof. apply parse_journal_Ok. Qed.
End histories.

(** ** A planned row extends the journal *)

Definition row_of (count : Z) (previous key binding_digest state now : str) (receipt : value) : value :=
  VDict [(u "sequence", VInt count); (u "previousDigest", VStr previous); (u "replayKey", VStr key);
         (u "bindingDigest", VStr binding_digest); (u "state", VStr state); (u "observedAt", VStr now);
         (u "receiptDigest", receipt)].

Definition sorted_row (count : Z) (previous key binding_digest state now : str) (receipt : value) : value :=
  VDict [(u "bindingDigest", VStr binding_digest); (u "observedAt", VStr now); (u "previousDigest", VStr previous);
         (u "receiptDigest", receipt); (u "replayKey", VStr key); (u "sequence", VInt count); (u "state", VStr state)].

Definition receipt_ok (state : string) (receipt : value) : Prop :=
  if in_lits (VStr (u state)) TERMINAL then require_digest receipt = Ok tt else receipt = VNone.

(** The guard of a transition, on the last row of the binding's key. *)
Definition may_record (value : value) (binding_digest : str) (prior : option PyVal.value) (state : string) (instant : datetime) : Prop :=
  match prior with
  | None => state = "RESERVED" /\
      exists a b, linux_time value "notBefore" = Ok a /\ linux_time value "notAfter" = Ok b /\
        time_leb a instant = Ok true /\ time_ltb instant b = Ok true
  | Some p => exists before t, fld p "state" = Ok (VStr (u before)) /\ edge before state /\
      fld p "bindingDigest" = Ok (VStr binding_digest) /\
      linux_time p "observedAt" = Ok t /\ time_leb t instant = Ok true /\
      (state = "EXPIRED" -> exists b, linux_time value "notAfter" = Ok b /\ time_leb b instant = Ok true) /\
      (In state ["RUNNING"; "COMPLETED"] -> exists b, linux_time value "notAfter" = Ok b /\ time_ltb instant b = Ok true)
  end.

Section extension.
Context {U : Unicode}.

Lemma norm_row_of n p k b s t r : norm r = r -> norm (row_of n p k b s t r) = sorted_row n p k b s t r.
Proof. intros Hr. unfold row_of, sorted_row. cbn [norm map fst snd]. rewrite Hr. reflexivity. Qed.

Lemma receipt_plain state r : receipt_ok state r -> norm r = r /\ uniq r = true.
Proof.
  unfold receipt_ok. destruct (in_lits _ _); [intros (s & -> & _)%require_digest_Ok; done | by intros ->].
Qed.

Lemma edge_not_reserved before : ~ edge before "RESERVED".
Proof. intros He%edge_cases. simpl in He. intuition discriminate. Qed.

Lemma plan_row_Ok value state now receipt instant raw row encoded :
  is_state state = true -> LinuxShape.require_time now = Ok instant ->
  plan_row value state now receipt instant raw = Ok (row, encoded) ->
  exists latest previous count key bd st text canonical,
    parse_journal raw = Ok (latest, previous, count) /\ replay_key (Value value) = Ok key /\
    canonical_digest value None = Ok bd /\ state = VStr (u st) /\ now = VStr text /\
    may_record value bd (dget key latest) st instant /\ receipt_ok st receipt /\
    row = row_of (count + 1) previous key bd (u st) text receipt /\
    canonical_bytes row = Ok canonical /\ encoded = canonical ++ [10%N] /\
    count < MAX_RECORDS /\ zlen encoded <= MAX_RECORD /\ zlen raw + zlen encoded <= MAX_JOURNAL.
Proof.
  intros [_ (st & -> & _)%in_lits_true]%andb_true_iff Hnow H. unfold plan_row in H.
  apply bind_Ok in H as ([[latest previous] count] & Hp & H). cbv beta iota in H.
  apply bind_Ok in H as (key & Hkey & H). apply bind_Ok in H as (bd & Hbd & H). cbv zeta in H.
  apply seq_Ok in H as [Hmay H]. apply seq_Ok in H as [Hrec H].
  apply bind_Ok in H as (canonical & Hc & H). apply seq_Ok in H as [Hsz%require_Ok [= <- <-]].
  assert (exists text, now = VStr text) as [text ->].
  { unfold LinuxShape.require_time in Hnow. apply seq_Ok in Hnow as [Hs%require_Ok _]. destruct now; try done. eauto. }
  exists latest, previous, count, key, bd, st, text, canonical. repeat (split; [done |]).
  assert (receipt_ok st receipt) as Hreceipt.
  { unfold receipt_ok. destruct (in_lits (VStr (u st)) TERMINAL); [done |]. apply require_Ok in Hrec. by destruct receipt. }
  split; [|repeat (split; [done |]); split_bools; lia].
  unfold may_record. rewrite eq_lit_u in Hmay. destruct (String.eqb_spec st "RESERVED") as [-> | Hne].
  - apply seq_Ok in Hmay as [Hn%require_Ok Hw%require_m_Ok%and_m_true]. destruct (dget key latest); [done |].
    destruct Hw as [(a & Ha & Hab)%bind_Ok (b & Hb & Hbb)%bind_Ok]. eauto 10.
  - apply bind_Ok in Hmay as (p & Hpr & Hmay). destruct (dget key latest) as [p'|]; [|done]. injection Hpr as ->.
    apply seq_Ok in Hmay as [[(x & Hx & Hxe)%fld_eq_true (ps & Hps & (es & Hes & [= Hin])%bind_Ok)%bind_Ok]%require_m_Ok%and_m_true Hmay].
    destruct (edges_of_edge _ _ _ Hes Hin) as (before & -> & He).
    apply seq_Ok in Hmay as [(t & Ht & Hti)%require_m_Ok%bind_Ok Hmay].
    exists before, t. split; [done |]. split; [done |]. split; [destruct x; try done; simpl in Hxe; by apply str_eqb_eq in Hxe as ->|].
    do 2 (split; [done |]). rewrite eq_lit_u in Hmay. destruct (String.eqb_spec st "EXPIRED") as [-> | Hne'].
    + apply require_m_Ok, bind_Ok in Hmay as (b & Hb & Hle). split; [eauto |]. intros Hr. simpl in Hr. intuition discriminate.
    + split; [done |]. intros Hin'. rewrite (proj2 (in_lits_true _ _)) in Hmay by eauto.
      apply require_m_Ok, bind_Ok in Hmay as (b & Hb & Hle). eauto.
Qed.

(** A single canonical line. *)
Lemma canonical_line v b : canonical_bytes v = Ok b -> splitlines (b ++ [10%N]) = [b ++ [10%N]].
Proof.
  intros (_ & _ & H)%canonical_bytes_Ok. rewrite splitlines_newline; [done |].
  assert (forall a, (a < 32)%N -> Forall (fun x => x <> a) b) as Hf.
  { intros a Ha. eapply utf8_encode_without; [|exact H |]; [lia |].
    eapply Forall_impl; [apply dumps_printable |]. intros c. simpl. lia. }
  pose proof (Hf 10%N ltac:(lia)) as H1. pose proof (Hf 13%N ltac:(lia)) as H2. rewrite List.Forall_forall in H1, H2. auto.
Qed.

Lemma canonical_digest_norm v d h : canonical_digest v d = Ok h -> canonical_digest (norm v) d = Ok h.
Proof. unfold canonical_digest. intros (b & Hb%canonical_bytes_norm & [= <-])%bind_Ok. by rewrite Hb. Qed.

Lemma edges_of_In before state : edge before state -> exists es, edges_of (VStr (u before)) = Ok es /\ in_lits (VStr (u state)) es = true.
Proof.
  intros He%edge_cases.
  destruct He as [[-> Ha] | [-> Ha]].
  - exists ["RUNNING"; "FAILED"; "CANCELLED"; "EXPIRED"]. split; [reflexivity |].
    apply in_lits_true. exists state. split; [done |]. simpl in Ha |- *. intuition congruence.
  - exists TERMINAL. split; [reflexivity |]. apply in_lits_true. eauto.
Qed.

(** The planned row is accepted as the next line. *)
Lemma planned_row_parses latest previous count key bd st text receipt canonical instant value :
  replay_key (Value value) = Ok key -> canonical_digest value None = Ok bd ->
  is_state (VStr (u st)) = true -> LinuxShape.require_time (VStr text) = Ok instant ->
  may_record value bd (dget key latest) st instant -> receipt_ok st receipt ->
  let row := row_of (count + 1) previous key bd (u st) text receipt in
  canonical_bytes row = Ok canonical -> zlen (canonical ++ [10%N]) <= MAX_RECORD ->
  exists digest, canonical_digest row None = Ok digest /\
    parse_row (latest, previous, count) (canonical ++ [10%N]) = Ok (dset key (norm row) latest, digest, count + 1).
Proof.
  intros Hkey Hbd Hst Hnow Hmay Hrec row Hc Hsz.
  destruct (receipt_plain _ _ Hrec) as [Hnr Hur].
  assert (exists digest, canonical_digest row None = Ok digest) as [digest Hd]
    by (unfold canonical_digest; rewrite Hc; by eexists).
  exists digest. split; [done |].
  pose proof (canonical_digest_shape _ _ _ Hbd) as Sbd.
  assert (require_digest (VStr key) = Ok tt) as Skey.
  { unfold replay_key in Hkey. apply bind_Ok in Hkey as (? & _ & Hkey). do 2 apply bind_Ok in Hkey as (? & _ & Hkey).
    by apply canonical_digest_shape in Hkey. }
  assert (require_canonical_document (canonical ++ [10%N]) = Ok (norm row)) as Hdoc.
  { apply require_canonical_encoded; [| done | by right | unfold MAX_RECORD, MAX_FILE_BYTES in *; lia].
    unfold row, row_of. cbn [uniq dkeys map forallb fst snd]. rewrite Hur. by vm_compute. }
  unfold parse_row. rewrite Hdoc. unfold row. rewrite norm_row_of by done.
  assert (canonical_digest (sorted_row (count + 1) previous key bd (u st) text receipt) None = Ok digest) as Hd'
    by (rewrite <- norm_row_of by done; by apply canonical_digest_norm).
  pose proof (zlen_nonneg canonical). rewrite zlen_app in *.
  repeat ok_go; try (apply require_Ok).
  - change (zlen [10%N]) with 1 in *. apply andb_true_iff. split; lia.
  - apply require_m_Ok, and_m_true. split; [|apply fld_eq_true; eexists; split; [reflexivity | apply str_eqb_refl]].
    change (Ok (true && (count + 1 =? count + 1)) = Ok true). by rewrite Z.eqb_refl.
  - apply for_each_Ok. repeat constructor; done.
  - exact Hnow.
  - exact Hst.
  - unfold may_record in Hmay. destruct (dget key latest) as [p|].
    + destruct Hmay as (before & t & Hp & He & Hb & Ht & Hle & _).
      destruct (edges_of_In _ _ He) as (es & Hes & Hin).
      apply require_m_Ok. rewrite !and_m_true, fld2_eq_true. split; [split|].
      * rewrite Hp. cbn [mbind res_bind]. rewrite Hes. cbn [mbind res_bind]. by rewrite Hin.
      * exists (VStr bd), (VStr bd). repeat (split; [done |]). apply str_eqb_refl.
      * change (linux_time (sorted_row (count + 1) previous key bd (u st) text receipt) "observedAt")
          with (LinuxShape.require_time (VStr text)). rewrite Hnow. cbn [mbind res_bind]. by rewrite Ht.
    + destruct Hmay as [-> _]. done.
  - unfold receipt_ok in Hrec. destruct (in_lits (VStr (u st)) TERMINAL).
    + apply for_each_Ok. by repeat constructor.
    + by rewrite Hrec.
  - exact Hd'.
  - done.
Qed.

Lemma planned_journal_parses latest previous count raw key bd st text receipt canonical instant value :
  parse_journal raw = Ok (latest, previous, count) ->
  replay_key (Value value) = Ok key -> canonical_digest value None = Ok bd ->
  is_state (VStr (u st)) = true -> LinuxShape.require_time (VStr text) = Ok instant ->
  may_record value bd (dget key latest) st instant -> receipt_ok st receipt ->
  let row := row_of (count + 1) previous key bd (u st) text receipt in
  canonical_bytes row = Ok canonical -> zlen (canonical ++ [10%N]) <= MAX_RECORD ->
  zlen raw + zlen (canonical ++ [10%N]) <= MAX_JOURNAL -> count < MAX_RECORDS ->
  exists digest, canonical_digest row None = Ok digest /\
    parse_journal (raw ++ canonical ++ [10%N]) = Ok (dset key (norm row) latest, digest, count + 1).
Proof.
  intros Hp Hkey Hbd Hst Hnow Hmay Hrec row Hc Hsz Hfull Hcount.
  destruct (planned_row_parses latest previous count _ _ _ _ _ _ _ _ Hkey Hbd Hst Hnow Hmay Hrec Hc Hsz) as (digest & Hd & Hr).
  exists digest. split; [done |].
  destruct (parse_journal_Ok _ _ _ _ Hp) as (_ & Hnl & _ & rows & Hrows & _ & Hn & _).
  apply Forall2_length in Hrows. unfold parse_journal in Hp |- *. cbv zeta in Hp |- *.
  apply seq_Ok in Hp as [_ Hp]. apply seq_Ok in Hp as [_ Hp]. apply seq_Ok in Hp as [_ Hp].
  rewrite splitlines_app, (canonical_line _ _ Hc) by done.
  ok_go; [apply require_Ok; rewrite zlen_app; lia |].
  ok_go; [apply require_Ok | ].
  { destruct (raw ++ canonical ++ [10%N]) eqn:E; [done |]. rewrite <- E. apply endswith_app.
    exists (raw ++ canonical). by rewrite app_assoc. }
  ok_go; [apply require_Ok, Z.leb_le; rewrite zlen_app; unfold zlen in *; cbn [length]; lia |].
  rewrite for_fold_app, Hp. cbn [mbind res_bind for_fold]. apply bind_Ok. eexists. by split; [exact Hr |].
Qed.
End extension.

(** ** What a storage promises *)

(** The octets a storage holds: locking, syncing and reading leave them, a read that returns is
    of them, and an append adds a part of what it is given, all of it when it returns. *)
Class StorageOk (W : Type) {St : Storage W} := {
  contents : W -> bytes;
  enter_contents w : contents (enter w).2 = contents w;
  leave_contents w : contents (leave w).2 = contents w;
  sync_contents w : contents (sync w).2 = contents w;
  read_contents w : contents (read_all w).2 = contents w;
  read_exact w raw w' : read_all w = (Ok raw, w') -> raw = contents w;
  append_part b w : exists p r, b = p ++ r /\ contents (append b w).2 = contents w ++ p;
  append_whole b w w' : append b w = (Ok tt, w') -> contents w' = contents w ++ b
}.

Section recording.
Context {U : Unicode} {W : Type} {St : Storage W} {L : StorageOk W}.

(** What one call may record: the row planned on the journal as it was. *)
Record planned (binding : data) (state now receipt : value) (raw : bytes) (encoded : bytes) (key : str)
    (latest' : dict) (digest : str) (count : Z) : Prop := {
  pl_step : exists value latest previous bd st text instant canonical,
    validate_binding binding = Ok value /\ parse_journal raw = Ok (latest, previous, count) /\
    replay_key (Value value) = Ok key /\ canonical_digest value None = Ok bd /\
    state = VStr (u st) /\ now = VStr text /\ LinuxShape.require_time now = Ok instant /\
    may_record value bd (dget key latest) st instant /\ receipt_ok st receipt /\
    (let row := row_of (count + 1) previous key bd (u st) text receipt in
     canonical_bytes row = Ok canonical /\ encoded = canonical ++ [10%N] /\
     canonical_digest row None = Ok digest /\ latest' = dset key (norm row) latest);
  pl_parses : parse_journal (raw ++ encoded) = Ok (latest', digest, count + 1)
}.

(** The write either appends the whole row and reads it back, or raises having appended a part. *)
Lemma append_checked_run code raw encoded (j j' : journal W) r :
  raw = contents (storage j) -> append_checked code raw encoded j = (r, j') ->
  poisoned j' = poisoned j /\
  match r with
  | Ok _ => contents (storage j') = raw ++ encoded
  | Raise _ => exists p q, encoded = p ++ q /\ contents (storage j') = raw ++ p
  end.
Proof.
  intros Hraw. unfold append_checked, mbind, io_bind, on_storage, zoom, check, lift.
  destruct (append_part encoded (storage j)) as (p & q & Hpq & Hp).
  destruct (append encoded (storage j)) as [[[]|e] w1] eqn:E1; simpl in *.
  2: { intros [= <- <-]. simpl. split; [done |]. exists p, q. by rewrite Hp, Hraw. }
  pose proof (append_whole _ _ _ E1) as Hw. pose proof (sync_contents w1) as Hs.
  destruct (sync w1) as [[[]|e] w2] eqn:E2; simpl in *.
  2: { intros [= <- <-]. simpl. split; [done |]. exists encoded, []. rewrite app_nil_r. by rewrite Hs, Hw, Hraw. }
  pose proof (read_contents w2) as Hr.
  destruct (read_all w2) as [[again|e] w3] eqn:E3; simpl in *.
  2: { intros [= <- <-]. simpl. split; [done |]. exists encoded, []. rewrite app_nil_r. by rewrite Hr, Hs, Hw, Hraw. }
  destruct (str_eqb again (raw ++ encoded)) eqn:E4; simpl; intros [= <- <-]; simpl.
  - split; [done |]. by rewrite Hr, Hs, Hw, Hraw.
  - split; [done |]. exists encoded, []. rewrite app_nil_r. by rewrite Hr, Hs, Hw, Hraw.
Qed.

Lemma on_poison_run {A} (m : io (journal W) A) (j j' : journal W) r :
  on_error m poison j = (r, j') ->
  exists j1, m j = (r, j1) /\ storage j' = storage j1 /\ poisoned j' = match r with Ok _ => poisoned j1 | Raise _ => true end.
Proof.
  unfold on_error, poison, update. destruct (m j) as [[a|e] j1]; intros [= <- <-]; by exists j1.
Qed.

Lemma write_row_run raw encoded (j j' : journal W) r :
  raw = contents (storage j) -> write_row raw encoded j = (r, j') ->
  match r with
  | Ok _ => contents (storage j') = raw ++ encoded /\ poisoned j' = poisoned j
  | Raise _ => poisoned j' = true /\ exists p q, encoded = p ++ q /\ contents (storage j') = raw ++ p
  end.
Proof.
  intros Hraw (j1 & [Hp H]%append_checked_run & Hs & Hf)%on_poison_run; [|done]. rewrite Hs, Hf.
  by destruct r.
Qed.

(** Every outcome of a call: nothing written and the flag as it was; the planned row written
    and the journal parsing with it; or a part of the planned row written and the flag set. *)
Definition outcome (binding : data) (state now receipt : value) (raw : bytes) (flag : bool)
    (raw' : bytes) (flag' : bool) (r : res str) : Prop :=
  (raw' = raw /\ flag' = flag /\ is_ok r = false) \/
  (exists encoded key latest' digest count,
     planned binding state now receipt raw encoded key latest' digest count /\
     (flag' = flag /\ raw' = raw ++ encoded /\ (r = Ok digest \/ is_ok r = false) \/
      flag' = true /\ is_ok r = false /\ exists p q, encoded = p ++ q /\ raw' = raw ++ p)).

Lemma transaction_run binding state now receipt value instant (j j' : journal W) r :
  validate_binding binding = Ok value -> LinuxShape.require_time now = Ok instant -> is_state state = true ->
  (raw ← on_storage read_all;
   planned ← lift (plan_row value state now receipt instant raw);
   write_row raw planned.2 ;;
   lift (canonical_digest planned.1 None)) j = (r, j') ->
  outcome binding state now receipt (contents (storage j)) (poisoned j) (contents (storage j')) (poisoned j') r.
Proof.
  intros Hb Hnow Hst. unfold mbind at 1, io_bind at 1, on_storage at 1, zoom at 1.
  pose proof (read_contents (storage j)) as Hr. destruct (read_all (storage j)) as [[raw|e] w] eqn:E; simpl in Hr.
  2: { intros [= <- <-]. by left. }
  apply read_exact in E as ->. unfold mbind at 1, io_bind at 1, lift at 1.
  destruct (plan_row _ _ _ _ _ _) as [[row encoded]|e] eqn:Hp; [|intros [= <- <-]; by left].
  destruct (plan_row_Ok _ _ _ _ _ _ _ _ Hst Hnow Hp)
    as (latest & previous & count & key & bd & st & text & canonical & Hj & Hkey & Hbd & -> & -> & Hmay & Hrec & -> & Hc & -> & Hn & Hsz & Hfull).
  destruct (planned_journal_parses _ _ _ _ _ _ _ _ _ _ _ _ Hj Hkey Hbd Hst Hnow Hmay Hrec Hc Hsz Hfull Hn) as (digest & Hd & Hparse).
  assert (planned binding (VStr (u st)) (VStr text) receipt (contents (storage j)) (canonical ++ [10%N]) key
    (dset key (norm (row_of (count + 1) previous key bd (u st) text receipt)) latest) digest count) as Hplan.
  { split; [|done]. exists value, latest, previous, bd, st, text, instant, canonical. repeat (split; [done |]). done. }
  unfold mbind at 1, io_bind at 1. cbn [fst snd].
  destruct (write_row _ _ _) as [r1 j1] eqn:E. apply write_row_run in E; [|by rewrite <- Hr].
  intros H. right. exists (canonical ++ [10%N]), key, (dset key (norm (row_of (count + 1) previous key bd (u st) text receipt)) latest), digest, count.
  split; [done |]. destruct r1 as [[]|e].
  - unfold lift in H. rewrite Hd in H. injection H as <- <-. destruct E as [-> ->]. left. auto.
  - injection H as <- <-. destruct E as [-> (p & q & -> & ->)]. right. eauto 10.
Qed.

Lemma record_run binding state now receipt (j j' : journal W) r :
  _record binding state now receipt j = (r, j') ->
  (storage j' = storage j /\ poisoned j' = poisoned j /\ is_ok r = false) \/
  poisoned j = false /\
  outcome binding state now receipt (contents (storage j)) false (contents (storage j')) (poisoned j') r.
Proof.
  unfold _record. unfold mbind at 1, io_bind at 1, lift at 1.
  destruct (validate_binding binding) as [value|e] eqn:Hb; [|intros [= <- <-]; by left].
  unfold mbind at 1, io_bind at 1, lift at 1.
  destruct (LinuxShape.require_time now) as [instant|e] eqn:Hnow; [|intros [= <- <-]; by left].
  unfold mbind at 1, io_bind at 1, reads at 1.
  unfold mbind at 1, io_bind at 1, check at 1, lift at 1.
  destruct (poisoned j) eqn:Hpois; [intros [= <- <-]; by left | cbn [negb require]].
  unfold mbind at 1, io_bind at 1, check at 1, lift at 1.
  destruct (is_state state) eqn:Hst; [cbn [require] | intros [= <- <-]; by left].
  unfold in_transaction, mbind at 1, io_bind at 1, on_storage at 1, zoom at 1.
  pose proof (enter_contents (storage j)) as He. destruct (enter (storage j)) as [[[]|e] w1] eqn:E1; simpl in He.
  2: { intros [= <- <-]. right. split; [done |]. by left. }
  rewrite <- He, Hpois. set (j1 := Journal w1 false).
  unfold finally. match goal with |- (let (_, _) := ?m in _) = _ -> _ => destruct m as [r1 j2] eqn:Em end.
  apply (transaction_run _ _ _ _ _ _ _ _ _ Hb Hnow Hst) in Em. simpl in Em.
  intros H. right. split; [done |]. unfold on_storage, zoom in H. pose proof (leave_contents (storage j2)) as Hl.
  destruct (leave (storage j2)) as [[[]|e] w3]; injection H as <- <-; simpl in *; rewrite Hl; [done |].
  destruct Em as [(-> & -> & _) | (enc & key & l' & d & n & Hp & [(-> & -> & _) | (-> & _ & Hpq)])].
  - by left.
  - right. exists enc, key, l', d, n. split; [done |]. left. auto.
  - right. exists enc, key, l', d, n. split; [done |]. right. auto.
Qed.

Lemma outcome_extends binding state now receipt raw flag raw' flag' r :
  outcome binding state now receipt raw flag raw' flag' r -> exists ext, raw' = raw ++ ext.
Proof.
  intros [(-> & _) | (enc & key & l & d & n & _ & [(_ & -> & _) | (_ & _ & p & q & _ & ->)])]; [|eauto..].
  exists []. by rewrite app_nil_r.
Qed.

(** C7: a recorded transition is the abstract step.  When a call returns, the flag was and stays
    clear, the storage holds what it held plus one canonical line, and the journal, whose map
    from keys to last rows allowed the transition at that instant, now parses to that map with
    the key's entry replaced by the new row; the result is the row's digest. *)
Theorem record_refines binding state now receipt (j j' : journal W) digest :
  _record binding state now receipt j = (Ok digest, j') ->
  poisoned j = false /\ poisoned j' = false /\
  exists encoded key latest' count,
    planned binding state now receipt (contents (storage j)) encoded key latest' digest count /\
    contents (storage j') = contents (storage j) ++ encoded.
Proof.
  intros [(_ & _ & [=]) | (Hp & Ho)]%record_run. split; [done |].
  destruct Ho as [(_ & _ & [=]) | (enc & key & l & d & n & Hpl & [(Hf & Hc & [[= ->] | [=]]) | (_ & [=] & _)])].
  split; [done |]. by exists enc, key, l, n.
Qed.

(** The journal is append-only and a doubtful write ends it.  Whatever happens in a call,
    the old octets stay a prefix of the new; a set flag stays set and the storage is then
    left alone; and while the flag is clear what was added is nothing or one whole row with
    which the journal still parses. *)
Theorem record_append_only binding state now receipt (j j' : journal W) r :
  _record binding state now receipt j = (r, j') ->
  exists ext, contents (storage j') = contents (storage j) ++ ext /\
    (poisoned j = true -> poisoned j' = true /\ storage j' = storage j /\ is_ok r = false) /\
    (poisoned j' = false -> ext = [] \/ is_ok (parse_journal (contents (storage j'))) = true).
Proof.
  intros [(-> & -> & Hr) | (Hp & Ho)]%record_run.
  - exists []. rewrite app_nil_r. repeat split; auto.
  - rewrite Hp. destruct Ho as [(-> & -> & Hr) | (enc & key & l & d & n & Hpl & [(-> & -> & _) | (-> & _ & p & q & _ & ->)])].
    + exists []. rewrite app_nil_r. split; [done |]. split; [done | by left].
    + exists enc. split; [done |]. split; [done |]. intros _. right. by rewrite (pl_parses _ _ _ _ _ _ _ _ _ _ Hpl).
    + exists p. done.
Qed.

(** Calls of any number of journals over one storage, one transaction at a time: each finds the
    storage as the one before left it, with a flag of its own. *)
Record call := { c_binding : data; c_state : value; c_now : value; c_receipt : value }.

Inductive calls : W -> list (call * res str) -> W -> Prop :=
| calls_nil w : calls w [] w
| calls_cons w flag c r j l w' :
    _record (c_binding c) (c_state c) (c_now c) (c_receipt c) (Journal w flag) = (r, j) ->
    calls (storage j) l w' -> calls w ((c, r) :: l) w'.

Lemma calls_app w l1 l2 w' : calls w (l1 ++ l2) w' -> exists w1, calls w l1 w1 /\ calls w1 l2 w'.
Proof.
  revert w. induction l1 as [|x l1 IH]; intros w H; [exists w; split; [constructor | done]|].
  inversion H as [|? flag c r j l ? Hr Hrest]; subst. destruct (IH _ Hrest) as (w1 & H1 & H2).
  exists w1. split; [by econstructor | done].
Qed.

Lemma calls_extend w l w' : calls w l w' -> exists ext, contents w' = contents w ++ ext.
Proof.
  induction 1 as [w | w flag c r j l w' Hr _ (ext & IH)]; [exists []; by rewrite app_nil_r |].
  rewrite IH. apply record_run in Hr as [(-> & _) | (_ & (e & ->)%outcome_extends)]; simpl; [eauto |].
  exists (e ++ ext). by rewrite app_assoc.
Qed.

(** A key once recorded is recorded in every extension that parses. *)
Lemma parse_rows_keep lines s latest key :
  for_fold parse_row s lines = Ok latest -> is_Some (dget key s.1.1) -> is_Some (dget key latest.1.1).
Proof.
  revert s. induction lines as [|line lines IH]; intros s; cbn [for_fold]; [by intros [= <-] |].
  destruct s as [[l p] n]. intros (s & Hs & H)%bind_Ok Hk. apply parse_row_Ok in Hs as (row & k & st & d & _ & ->).
  apply (IH _ H). simpl in Hk |- *. rewrite dget_dset. destruct (str_eqb key k); [by eexists | done].
Qed.

Lemma parse_extend raw ext s s' key :
  parse_journal raw = Ok s -> parse_journal (raw ++ ext) = Ok s' ->
  is_Some (dget key s.1.1) -> is_Some (dget key s'.1.1).
Proof.
  intros H1 H2. destruct s as [[l p] n]. pose proof (parse_journal_Ok _ _ _ _ H1) as (_ & Hnl & _).
  unfold parse_journal in H1, H2. cbv zeta in H1, H2.
  do 3 (apply seq_Ok in H1 as [_ H1]; apply seq_Ok in H2 as [_ H2]).
  rewrite splitlines_app, for_fold_app, H1 in H2 by done. cbn [mbind res_bind] in H2. by eapply parse_rows_keep.
Qed.

Lemma binding_document binding value :
  data_ok binding -> validate_binding binding = Ok value -> uniq value = true /\ norm value = value /\
  forall value', validate_binding (Value value) = Ok value' -> value' = value.
Proof.
  assert (forall b v, validate_binding b = Ok v -> data_document b MAX_SESSION_BYTES = Ok v) as Hd.
  { intros b v H. unfold validate_binding in H. apply bind_Ok in H as (d & Hd & H).
    do 4 apply seq_Ok in H as [_ H]. by injection H as <-. }
  intros Hok H%Hd. apply data_document_Ok in H as (_ & Hu & Hn & _); [|done]. split; [done |]. split; [done |].
  intros value' H'%Hd. apply data_document_Ok in H' as (_ & _ & _ & b & v & _ & _ & -> & _ & _ & ->); [done | done].
Qed.

Lemma replay_key_of binding value key :
  data_ok binding -> validate_binding binding = Ok value -> replay_key (Value value) = Ok key ->
  exists tenant nonce, fld value "tenantId" = Ok tenant /\ fld value "nonce" = Ok nonce /\
    canonical_digest (VDict [(u "tenantId", tenant); (u "nonce", nonce)]) (Some "planeon.live-replay-key/v1alpha1") = Ok key.
Proof.
  intros Hok Hb Hk. destruct (binding_document _ _ Hok Hb) as (_ & _ & Hagain). unfold replay_key in Hk.
  apply bind_Ok in Hk as (v & ->%Hagain & Hk). apply bind_Ok in Hk as (t & Ht & Hk).
  apply bind_Ok in Hk as (n & Hn & Hk). eauto.
Qed.

(** C6: no replay.  In any sequence of calls by any number of journals over one storage, a
    tenant's nonce is reserved at most once: two calls that reserve the same nonce for the
    same tenant never both return, whatever the bindings' windows and digests, whatever
    happened in between. *)
Theorem no_replay w l1 c1 d1 l2 c2 d2 l3 w' b1 b2 :
  calls w (l1 ++ (c1, Ok d1) :: l2 ++ (c2, Ok d2) :: l3) w' ->
  c_state c1 = VStr (u "RESERVED") -> c_state c2 = VStr (u "RESERVED") ->
  data_ok (c_binding c1) -> data_ok (c_binding c2) ->
  validate_binding (c_binding c1) = Ok b1 -> validate_binding (c_binding c2) = Ok b2 ->
  fld b1 "tenantId" = fld b2 "tenantId" -> ~ fld b1 "nonce" = fld b2 "nonce".
Proof.
  intros H Hs1 Hs2 Hok1 Hok2 Hb1 Hb2 Ht Hn.
  apply calls_app in H as (w1 & _ & H). inversion H as [|? f1 ? ? j1 ? ? Hr1 Hrest]; subst.
  apply calls_app in Hrest as (w2 & Hl2 & Hrest). inversion Hrest as [|? f2 ? ? j2 ? ? Hr2 _]; subst.
  apply record_run in Hr1 as [(_ & _ & [=]) | (_ & [(_ & _ & [=]) | (e1 & k1 & l1' & g1 & n1 & Hp1 & Ho1)])].
  apply record_run in Hr2 as [(_ & _ & [=]) | (_ & [(_ & _ & [=]) | (e2 & k2 & l2' & g2 & n2 & Hp2 & _)])].
  destruct Ho1 as [(_ & Hc1 & _) | (_ & [=] & _)]. destruct (calls_extend _ _ _ Hl2) as [ext Hext]. simpl in Hc1, Hp1, Hp2.
  destruct Hp1 as [(v1 & la1 & p1 & bd1 & st1 & t1 & i1 & q1 & Hv1 & _ & Hk1 & _ & _ & _ & _ & _ & _ & _ & _ & _ & ->) Hparse1].
  destruct Hp2 as [(v2 & la2 & p2 & bd2 & st2 & t2 & i2 & q2 & Hv2 & Hj2 & Hk2 & _ & Hst2 & _ & _ & Hmay2 & _) _].
  assert (v1 = b1) as -> by congruence. assert (v2 = b2) as -> by congruence.
  apply (replay_key_of _ _ _ Hok1 Hb1) in Hk1 as (t & n & Ht1 & Hn1 & Hk1).
  apply (replay_key_of _ _ _ Hok2 Hb2) in Hk2 as (t' & n' & Ht2 & Hn2 & Hk2).
  assert (k1 = k2) as -> by congruence.
  rewrite Hext, Hc1 in Hj2. pose proof (parse_extend _ _ _ _ k2 Hparse1 Hj2) as Hkeep. simpl in Hkeep.
  rewrite dget_dset, str_eqb_refl in Hkeep. destruct (Hkeep ltac:(by eexists)) as [prior Hprior].
  rewrite Hs2 in Hst2. injection Hst2 as <-%u_inj. unfold may_record in Hmay2. rewrite Hprior in Hmay2.
  destruct Hmay2 as (before & _ & _ & He & _). by apply edge_not_reserved in He.
Qed.
End recording.
