(* ===== verification/Posix.v ===== *)
(** The POSIX interface the live backend stands on, and the custody checks of
    live_replay_store.py over it: descriptors are a table from numbers to inodes, every system
    call reads its answer from an arbitrary kernel at an advancing clock. *)

From S2P Require Import Prelude Effects PyVal.

#[local] Open Scope string_scope.
#[local] Open Scope list_scope.
#[local] Open Scope Z_scope.

(** [os.stat_result]. *)
Record stat_info := {
  st_mode : Z;
  st_uid : Z;
  st_gid : Z;
  st_nlink : Z;
  st_dev : Z;
  st_ino : Z
}.

(** [stat.S_IMODE], [stat.S_ISDIR] and [stat.S_ISREG]. *)
Definition S_IMODE (m : Z) : Z := Z.land m 4095.
Definition S_ISDIR (m : Z) : bool := Z.land m 61440 =? 16384.
Definition S_ISREG (m : Z) : bool := Z.land m 61440 =? 32768.

(** What the kernel answers at a time: the inode behind a name (of the root directory for
    [None]), an inode's status or that of a name, locking, and how much a read or a write
    takes.  [None], [Failed] and [false] are an [OSError]; closing and unlocking may fail too. *)
Inductive lock_answer := Granted | Busy | Failed.

Class Kernel := {
  dir_entry : nat -> option Z -> str -> option Z;
  file_entry : nat -> Z -> str -> option Z;
  status : nat -> Z -> option stat_info;
  status_of_name : nat -> Z -> str -> option stat_info;
  lock_answers : nat -> Z -> lock_answer;
  read_limit : nat -> Z -> option nat;
  write_limit : nat -> Z -> option nat;
  sync_answers : nat -> Z -> bool;
  close_answers : nat -> Z -> bool;
  unlock_answers : nat -> Z -> bool;
  getgid : Z
}.

(** Open descriptors, file contents by inode, and the inodes this process holds locked. *)
Record os := {
  clock : nat;
  table : list (Z * Z);
  files : Z -> bytes;
  locks : list Z
}.

Definition with_table (t : list (Z * Z)) (w : os) : os :=
  {| clock := clock w; table := t; files := files w; locks := locks w |}.
Definition with_files (f : Z -> bytes) (w : os) : os :=
  {| clock := clock w; table := table w; files := f; locks := locks w |}.
Definition with_locks (l : list Z) (w : os) : os :=
  {| clock := clock w; table := table w; files := files w; locks := l |}.

(** A system call: its answer is the kernel's at the current time. *)
Definition syscall {A} (f : nat -> os -> res A * os) : io os A := fun w =>
  f (clock w) {| clock := S (clock w); table := table w; files := files w; locks := locks w |}.

Definition descriptors (w : os) : list Z := map fst (table w).

(** Any number that is not in use. *)
Definition fresh (t : list (Z * Z)) : Z := 1 + foldr Z.max 2 (map fst t).

Fixpoint inode_in (fd : Z) (t : list (Z * Z)) : option Z :=
  match t with
  | [] => None
  | (fd', i) :: t' => if fd =? fd' then Some i else inode_in fd t'
  end.

Definition answer {A} (o : option A) : res A := match o with Some a => Ok a | None => Raise OSError end.

Definition inode_of (fd : Z) (w : os) : res Z := answer (inode_in fd (table w)).

(** A new descriptor for an inode. *)
Definition allocate (o : option Z) (w : os) : res Z * os :=
  match o with
  | None => (Raise OSError, w)
  | Some i => (Ok (fresh (table w)), with_table ((fresh (table w), i) :: table w) w)
  end.

Section custody.
Context {K : Kernel}.

(** [os.close]: the number is given up even when the call fails, unless it is not open. *)
Definition close (fd : Z) : io os unit :=
  syscall (fun t w => match inode_of fd w with
                      | Raise e => (Raise e, w)
                      | Ok i => (if close_answers t i then Ok tt else Raise OSError,
                                 with_table (List.filter (fun e => negb (e.1 =? fd)) (table w)) w)
                      end).

(** [os.open("/", O_RDONLY|O_DIRECTORY|O_NOFOLLOW)] and the same of a name in a directory. *)
Definition open_root : io os Z := syscall (fun t w => allocate (dir_entry t None (u "/")) w).
Definition open_dir_at (fd : Z) (name : str) : io os Z :=
  syscall (fun t w => match inode_of fd w with
                      | Ok i => allocate (dir_entry t (Some i) name) w
                      | Raise e => (Raise e, w)
                      end).

(** [os.open(name, O_RDWR|O_APPEND|O_NOFOLLOW, dir_fd=fd)]. *)
Definition open_file_at (fd : Z) (name : str) : io os Z :=
  syscall (fun t w => match inode_of fd w with
                      | Ok i => allocate (file_entry t i name) w
                      | Raise e => (Raise e, w)
                      end).

(** A call on an open descriptor that reads an answer about its inode. *)
Definition ask {A} (f : nat -> Z -> option A) (fd : Z) : io os A :=
  syscall (fun t w => ((i ← inode_of fd w; answer (f t i)), w)).

Definition fstat (fd : Z) : io os stat_info := ask status fd.
Definition stat_at (fd : Z) (name : str) : io os stat_info := ask (fun t i => status_of_name t i name) fd.

(* @src src/src/harness_conformance/live_replay_store.py:44-51 check_stat *)
Definition check_stat (info : stat_info) (directory private : bool) (uid : Z) : res unit :=
  let kind := if directory then S_ISDIR else S_ISREG in
  let mode := S_IMODE (st_mode info) in
  require (kind (st_mode info) && (st_uid info =? uid) && (st_gid info =? (if uid =? 0 then 0 else getgid)))
    "REPLAY_CUSTODY_INVALID" ;;
  require ((Z.land mode 18 =? 0) && (directory || (st_nlink info =? 1))) "REPLAY_CUSTODY_INVALID" ;;
  if private then require (mode =? (if directory then 448 else 384)) "REPLAY_CUSTODY_INVALID" else Ok tt.

(** [path[1:].split("/")]. *)
Definition parts_of (path : str) : list str := split_on 47 (tail path).

Definition path_ok (path : value) : bool :=
  match path with
  | VStr p => startswith (u "/") p && negb (existsb (N.eqb 92) p) &&
              forallb (fun q => negb (str_in q [[]; u "."; u ".."])) (parts_of p)
  | _ => false
  end.

(** One directory of the walk: the child is opened and checked; a refused child is closed. *)
(* @src src/src/harness_conformance/live_replay_store.py:63-71 open_directory *)
Definition descend (private : bool) (uid : Z) (fd : Z) (name : str) (last : bool) : io os Z :=
  child ← open_dir_at fd name;
  on_error
    (info ← fstat child;
     lift (check_stat info true (private && last) (if last then uid else 0)))
    (close child) ;;
  close fd ;;
  mret child.

(** The loop.  The outer [except] closes the directory that is open when a step fails. *)
Fixpoint walk (private : bool) (uid : Z) (fd : Z) (parts : list str) : io os Z :=
  match parts with
  | [] => mret fd
  | name :: rest =>
      child ← on_error (descend private uid fd name (match rest with [] => true | _ => false end)) (close fd);
      walk private uid child rest
  end.

(* @src src/src/harness_conformance/live_replay_store.py:54-75 open_directory *)
Definition open_directory (path : value) (private : bool) (uid : Z) : io os Z :=
  check (path_ok path) "REPLAY_PATH_INVALID" ;;
  fd ← open_root;
  on_error (info ← fstat fd; lift (check_stat info true false 0)) (close fd) ;;
  walk private uid fd (match path with VStr p => parts_of p | _ => [] end).

(** ** What a walk establishes *)

(** A directory below the root whose every component, opened by name in the one before, passed
    the custody check. *)
Inductive walked (private : bool) (uid : Z) : Z -> list str -> Z -> Prop :=
| walked_end i : walked private uid i [] i
| walked_step i name rest j k t t' info :
    dir_entry t (Some i) name = Some j -> status t' j = Some info ->
    check_stat info true (private && match rest with [] => true | _ => false end)
      (match rest with [] => uid | _ => 0 end) = Ok tt ->
    walked private uid j rest k -> walked private uid i (name :: rest) k.

Lemma foldr_max_le x l : In x l -> x <= foldr Z.max 2 l.
Proof. induction l as [|y l IH]; simpl; [done |]. intros [-> | H%IH]; lia. Qed.

Lemma fresh_not_in t : ~ In (fresh t) (map fst t).
Proof. intros H%foldr_max_le. unfold fresh in H. lia. Qed.

(** Closing what was opened last leaves the other descriptors. *)
Lemma filter_fresh (fd i : Z) t :
  ~ In fd (map fst t) -> List.filter (fun e => negb (e.1 =? fd)) ((fd, i) :: t) = t.
Proof.
  intros H. simpl. rewrite Z.eqb_refl. simpl. apply filter_all. intros [fd' j] Hin. simpl.
  apply negb_true_iff, Z.eqb_neq. intros ->. apply H. by apply (in_map fst) in Hin.
Qed.

(** The parts of the state a custody walk does not touch. *)
Definition same_files (w w' : os) : Prop := files w' = files w /\ locks w' = locks w.

#[export] Instance same_files_preorder : PreOrder same_files.
Proof. split; [done | intros a b c [? ?] [? ?]; split; congruence]. Qed.

Lemma close_keeps fd : keeps same_files (close fd).
Proof. intros w. unfold close, syscall. by destruct (inode_of _ _). Qed.

Lemma ask_keeps {A} (f : nat -> Z -> option A) fd : keeps same_files (ask f fd).
Proof. done. Qed.

Lemma open_dir_keeps fd name : keeps same_files (open_dir_at fd name).
Proof. intros w. unfold open_dir_at, syscall. simpl. destruct (inode_of _ _); [destruct (dir_entry _ _ _) |]; done. Qed.

Lemma open_file_keeps fd name : keeps same_files (open_file_at fd name).
Proof. intros w. unfold open_file_at, syscall. simpl. destruct (inode_of _ _); [destruct (file_entry _ _ _) |]; done. Qed.

Lemma open_root_keeps : keeps same_files open_root.
Proof. intros w. unfold open_root, syscall. simpl. destruct (dir_entry _ _ _); done. Qed.

Lemma walk_keeps private uid parts fd : keeps same_files (walk private uid fd parts).
Proof.
  revert fd. induction parts as [|name parts IH]; intros fd; cbn [walk]; [apply keeps_ret; typeclasses eauto |].
  keeps_step; [|apply IH]. keeps_step; [|apply close_keeps]. unfold descend.
  repeat keeps_step; try apply open_dir_keeps; try apply ask_keeps; apply close_keeps.
Qed.

Lemma open_directory_keeps path private uid : keeps same_files (open_directory path private uid).
Proof.
  unfold open_directory. keeps_step; [keeps_step|]. keeps_step; [apply open_root_keeps|].
  repeat keeps_step; try apply ask_keeps; try apply close_keeps; apply walk_keeps.
Qed.

Lemma inode_in_head fd i t : inode_in fd ((fd, i) :: t) = Some i.
Proof. simpl. by rewrite Z.eqb_refl. Qed.

(** Closing the descriptor opened last, and a number that is not open. *)
Lemma close_last fd i t w :
  table w = (fd, i) :: t -> ~ In fd (map fst t) ->
  (close fd w).1 = (if close_answers (clock w) i then Ok tt else Raise OSError) /\ table (close fd w).2 = t.
Proof.
  intros Ht Hn. unfold close, syscall, inode_of. cbn [table]. rewrite Ht, inode_in_head. cbn [answer fst snd table with_table].
  split; [done |]. by apply filter_fresh.
Qed.

Lemma inode_in_none fd t : ~ In fd (map fst t) -> inode_in fd t = None.
Proof.
  induction t as [|[fd' i] t IH]; simpl; [done |]. intros H. destruct (Z.eqb_spec fd fd') as [->|]; [tauto |].
  apply IH. tauto.
Qed.

Lemma close_absent fd w : ~ In fd (descriptors w) -> table (close fd w).2 = table w.
Proof. intros H%inode_in_none. unfold close, syscall, inode_of. cbn [table]. by rewrite H. Qed.

(** [try: ... except BaseException: h; raise] ends in an exception when its body does, with the
    state its handler leaves. *)
Lemma on_error_raise {A} (m : io os A) h w e w1 :
  m w = (Raise e, w1) -> exists e', on_error m h w = (Raise e', (h w1).2).
Proof. unfold on_error. intros ->. destruct (h w1) as [[|] ?]; eauto. Qed.

(** The one way a descriptor outlives a refusal: the call that closes another one failed. *)
Definition nothing_left (t t' : list (Z * Z)) : Prop :=
  t' = t \/ exists fd j now i, t' = (fd, j) :: t /\ close_answers now i = false.

Lemma check_run fd i t directory private uid w :
  table w = (fd, i) :: t ->
  exists r w', (info ← fstat fd; lift (check_stat info directory private uid)) w = (r, w') /\ table w' = (fd, i) :: t /\
    (r = Ok tt -> exists now info, status now i = Some info /\ check_stat info directory private uid = Ok tt).
Proof.
  intros Ht. unfold mbind, io_bind, fstat, ask, syscall, lift, inode_of. cbn [table].
  rewrite Ht, inode_in_head. cbn [answer mbind res_bind].
  destruct (status (clock w) i) as [info|] eqn:Es; cbn [answer]; do 2 eexists; (split; [done |]); (split; [done |]); [|done]. eauto.
Qed.

(** A status check of the descriptor opened last: it passes, or the descriptor is closed. *)
Lemma checked_or_closed fd i t directory private uid w r w' :
  table w = (fd, i) :: t -> ~ In fd (map fst t) ->
  on_error (info ← fstat fd; lift (check_stat info directory private uid)) (close fd) w = (r, w') ->
  match r with
  | Ok _ => table w' = (fd, i) :: t /\
      exists now info, status now i = Some info /\ check_stat info directory private uid = Ok tt
  | Raise _ => table w' = t
  end.
Proof.
  intros Ht Hn. destruct (check_run fd i t directory private uid w Ht) as (r1 & w1 & E & Ht1 & Hok). destruct r1 as [[]|e].
  - unfold on_error. rewrite E. intros [= <- <-]. auto.
  - destruct (on_error_raise _ (close fd) w e w1 E) as [e' ->]. intros [= <- <-]. by apply (close_last fd i).
Qed.

Lemma descend_run private uid fd i name last t w r w' :
  table w = (fd, i) :: t -> ~ In fd (map fst t) -> descend private uid fd name last w = (r, w') ->
  match r with
  | Ok child => exists j now now' info, table w' = (child, j) :: t /\ ~ In child (map fst t) /\
      dir_entry now (Some i) name = Some j /\ status now' j = Some info /\
      check_stat info true (private && last) (if last then uid else 0) = Ok tt
  | Raise _ => table w' = table w \/
      exists child j now, table w' = (child, j) :: t /\ ~ In child (fd :: map fst t) /\ close_answers now i = false
  end.
Proof.
  intros Ht Hn. unfold descend. unfold mbind at 1, io_bind at 1, open_dir_at, syscall, inode_of. cbn [table].
  rewrite Ht, inode_in_head. cbn [answer]. destruct (dir_entry (clock w) (Some i) name) as [j|] eqn:Ed; cbn [allocate].
  2: { intros [= <- <-]. by left. }
  cbn [table with_table]. pose proof (fresh_not_in ((fd, i) :: t)) as Hf. set (child := fresh ((fd, i) :: t)) in *.
  unfold mbind at 1, io_bind at 1. destruct (on_error _ _ _) as [r1 w1] eqn:E.
  apply (checked_or_closed _ j ((fd, i) :: t)) in E; [|done..]. destruct r1 as [[]|e]; [|intros [= <- <-]; by left].
  destruct E as (Ht1 & now & info & Hs & Hc). simpl in Hf.
  assert (List.filter (fun e => negb (e.1 =? fd)) ((child, j) :: (fd, i) :: t) = (child, j) :: t) as Hfil.
  { change ((child, j) :: (fd, i) :: t) with ([(child, j)] ++ (fd, i) :: t).
    rewrite List.filter_app, filter_fresh by done. simpl. destruct (Z.eqb_spec child fd); [|done]. intuition congruence. }
  assert (inode_in fd ((child, j) :: (fd, i) :: t) = Some i) as Hin.
  { simpl. rewrite Z.eqb_refl. destruct (Z.eqb_spec fd child); [|done]. intuition congruence. }
  unfold mbind, io_bind, close, syscall, inode_of, mret, io_ret. cbn [table]. rewrite Ht1, Hin. cbn [answer].
  rewrite Hfil. destruct (close_answers (clock w1) i) eqn:Ea; intros [= <- <-]; cbn [table with_table].
  - exists j, (clock w), now, info. split; [done | split; [tauto | done]].
  - right. exists child, j, (clock w1). split; [done | split; [simpl; tauto | done]].
Qed.

Lemma walk_run private uid parts fd i t w r w' :
  table w = (fd, i) :: t -> ~ In fd (map fst t) -> walk private uid fd parts w = (r, w') ->
  match r with
  | Ok d => exists j, table w' = (d, j) :: t /\ ~ In d (map fst t) /\ walked private uid i parts j
  | Raise _ => nothing_left t (table w')
  end.
Proof.
  revert fd i w r w'. induction parts as [|name parts IH]; intros fd i w r w' Ht Hn; cbn [walk].
  - intros [= <- <-]. exists i. repeat split; [done.. | constructor].
  - unfold mbind, io_bind. set (last := match parts with [] => true | _ => false end).
    destruct (descend private uid fd name last w) as [[child|e] w1] eqn:E; pose proof E as Hd0;
      apply (descend_run _ _ _ i _ _ t) in E; try done.
    + unfold on_error at 1. rewrite Hd0. destruct E as (j & now & now' & info & Ht1 & Hn1 & Hd & Hs & Hc). intros H.
      apply (IH _ j _ _ _ Ht1 Hn1) in H. destruct r as [d|e]; [|done].
      destruct H as (k & Htk & Hnk & Hw). exists k. split; [done |]. split; [done |].
      econstructor; [exact Hd | exact Hs | | exact Hw]. by destruct parts.
    + destruct (on_error_raise _ (close fd) w e w1 Hd0) as [e' ->]. intros [= <- <-].
      destruct E as [E | (child & j & now & E & Hc & Ha)].
      * left. apply (close_last fd i); [by rewrite E | done].
      * right. exists child, j, now, i. rewrite close_absent; [done |]. unfold descriptors. rewrite E. simpl in *. intros [->|]; tauto.
Qed.

Lemma open_directory_run path private uid w r w' :
  open_directory path private uid w = (r, w') ->
  match r with
  | Ok fd => exists p root i now now' info, path = VStr p /\ table w' = (fd, i) :: table w /\ ~ In fd (descriptors w) /\
      dir_entry now None (u "/") = Some root /\ status now' root = Some info /\
      check_stat info true false 0 = Ok tt /\ walked private uid root (parts_of p) i
  | Raise _ => nothing_left (table w) (table w')
  end.
Proof.
  unfold open_directory. unfold mbind at 1, io_bind at 1, check, lift.
  destruct (path_ok path) eqn:Hp; [cbn [require] | intros [= <- <-]; by left].
  destruct path as [| | |p| |]; try done.
  unfold mbind at 1, io_bind at 1, open_root, syscall. destruct (dir_entry (clock w) None (u "/")) as [root|] eqn:Er;
    [cbn [allocate table] | intros [= <- <-]; by left].
  pose proof (fresh_not_in (table w)) as Hf. set (fd := fresh (table w)) in *. cbn [with_table].
  unfold mbind at 1, io_bind at 1. destruct (on_error _ _ _) as [r1 w1] eqn:E.
  apply (checked_or_closed _ root (table w)) in E; [|done..]. destruct r1 as [[]|e]; [|intros [= <- <-]; by left].
  destruct E as (Ht1 & now' & info & Hs & Hc). intros H. apply (walk_run _ _ _ _ root (table w)) in H; [|done..].
  destruct r as [d|e]; [|done]. destruct H as (j & Htj & Hnj & Hw). exists p, root, j, (clock w), now', info. repeat (split; [done |]). done.
Qed.

(** Directory custody.  [open_directory] either fails and leaves the descriptor table as it was
    (but for the directory just opened when the call that closes its parent fails: the [except]
    clause then closes the parent's number again and not the child), or leaves exactly one new descriptor: of the directory reached
    by opening, from the root and without following links, each component of the path by name
    in the one before, where the root and every component passed the ownership and mode check
    and the last one the private check. *)
Theorem open_directory_custody path private uid w r w' :
  open_directory path private uid w = (r, w') ->
  match r with
  | Ok fd => exists p root i now now' info, path = VStr p /\ table w' = (fd, i) :: table w /\ ~ In fd (descriptors w) /\
      dir_entry now None (u "/") = Some root /\ status now' root = Some info /\
      check_stat info true false 0 = Ok tt /\ walked private uid root (parts_of p) i
  | Raise _ => nothing_left (table w) (table w')
  end.
Proof. apply open_directory_run. Qed.
End custody.
