(* ===== verification/JournalFile.v ===== *)
(** live_replay_store.py, [_FileIO] and [ReplayStore]: the journal over an existing root-owned
    file, and the proof that it is a storage in the sense of [StorageOk]. *)

From S2P Require Import Prelude Effects PyVal Utf8 Json Sha2 Canonical IsoTime Regex.
From S2P Require Import SchemaBase Lifecycle LinuxShape LinuxVerify Session ReplayStore Posix.

#[local] Open Scope string_scope.
#[local] Open Scope list_scope.
#[local] Open Scope Z_scope.

(** A [_FileIO] object: its two descriptors. *)
(* @src src/src/harness_conformance/live_replay_store.py:78-79 _FileIO *)
Record file_io := { directory : Z; journal_fd : Z }.

(** [str(Path(JOURNAL).parent)] and [Path(JOURNAL).name]. *)
Definition JOURNAL_PARENT : string := "/var/lib/planeon/live-backend".
Definition JOURNAL_NAME : string := "replay.jsonl".

Section file_io.
Context {K : Kernel}.

(* @src src/src/harness_conformance/live_replay_store.py:80-90 _FileIO.__init__ *)
Definition open_journal : io os file_io :=
  directory ← open_directory (VStr (u JOURNAL_PARENT)) true 0;
  fd ← on_error (open_file_at directory (u JOURNAL_NAME)) (close directory);
  on_error (info ← fstat fd; lift (check_stat info false true 0)) (close fd ;; close directory) ;;
  mret {| directory := directory; journal_fd := fd |}.

Context (h : file_io).

(** [fcntl.flock(fd, LOCK_EX | LOCK_NB)] and [fcntl.flock(fd, LOCK_UN)]. *)
Definition lock : io os unit :=
  syscall (fun t w => match inode_of (journal_fd h) w with
    | Raise e => (Raise e, w)
    | Ok i => match lock_answers t i with
              | Granted => (Ok tt, with_locks (i :: locks w) w)
              | Busy => (conf "REPLAY_BUSY", w)
              | Failed => (Raise OSError, w)
              end
    end).
Definition unlock : io os unit :=
  syscall (fun t w => match inode_of (journal_fd h) w with
    | Raise e => (Raise e, w)
    | Ok i => if unlock_answers t i then (Ok tt, with_locks (List.filter (fun j => negb (j =? i)) (locks w)) w)
              else (Raise OSError, w)
    end).

(** [transaction] up to its [yield]; its [finally] clause runs when a check fails. *)
(* @src src/src/harness_conformance/live_replay_store.py:92-106 _FileIO.transaction *)
Definition file_enter : io os unit :=
  lock ;;
  on_error
    (opened ← fstat (journal_fd h);
     lift (check_stat opened false true 0) ;;
     parent ← fstat (directory h);
     lift (check_stat parent true true 0) ;;
     named ← stat_at (directory h) (u JOURNAL_NAME);
     check ((st_dev opened =? st_dev named) && (st_ino opened =? st_ino named)) "REPLAY_CUSTODY_CHANGED")
    unlock.

(** [os.fstat(fd).st_size] and [os.pread(fd, size + 1, 0)], which may return less. *)
Definition file_size : io os Z :=
  syscall (fun _ w => ((i ← inode_of (journal_fd h) w; Ok (zlen (files w i))), w)).
Definition pread (count : Z) : io os bytes :=
  syscall (fun t w =>
    ((i ← inode_of (journal_fd h) w; limit ← answer (read_limit t i);
      Ok (take (Nat.min limit (Z.to_nat count)) (files w i))), w)).

(* @src src/src/harness_conformance/live_replay_store.py:108-113 _FileIO.read *)
Definition file_read : io os bytes :=
  size ← file_size;
  check ((0 <=? size) && (size <=? MAX_JOURNAL)) "REPLAY_JOURNAL_FULL" ;;
  raw ← pread (size + 1);
  check (zlen raw =? size) "REPLAY_CUSTODY_CHANGED" ;;
  mret raw.

(** [os.write] on a descriptor opened with [O_APPEND]: as many octets as the kernel takes. *)
Definition os_write (raw : bytes) : io os Z :=
  syscall (fun t w =>
    match inode_of (journal_fd h) w with
    | Raise e => (Raise e, w)
    | Ok i =>
        match write_limit t i with
        | None => (Raise OSError, w)
        | Some n => (Ok (zlen (take n raw)),
                     with_files (fun j => if j =? i then files w i ++ take n raw else files w j) w)
        end
    end).

(* @src src/src/harness_conformance/live_replay_store.py:115-118 _FileIO.append *)
Definition file_append (raw : bytes) : io os unit :=
  n ← os_write raw; check (n =? zlen raw) "REPLAY_SHORT_WRITE".

Definition fsync (fd : Z) : io os unit := ask (fun t i => if sync_answers t i then Some tt else None) fd.

(* @src src/src/harness_conformance/live_replay_store.py:120-122 _FileIO.sync *)
Definition file_sync : io os unit := fsync (journal_fd h) ;; fsync (directory h).

(* @src src/src/harness_conformance/live_replay_store.py:124-126 _FileIO.close *)
Definition file_close : io os unit := close (journal_fd h) ;; close (directory h).

#[export] Instance file_storage : Storage os := {
  enter := file_enter;
  leave := unlock;
  read_all := file_read;
  append := file_append;
  sync := file_sync
}.

(** ** The file is a storage *)

Definition file_contents (w : os) : bytes :=
  match inode_in (journal_fd h) (table w) with Some i => files w i | None => [] end.

Definition same_contents (w w' : os) : Prop := files w' = files w /\ table w' = table w.

#[local] Instance same_contents_preorder : PreOrder same_contents.
Proof. split; [done | intros a b c [? ?] [? ?]; split; congruence]. Qed.

Lemma same_contents_file w w' : same_contents w w' -> file_contents w' = file_contents w.
Proof. intros [Hf Ht]. unfold file_contents. by rewrite Hf, Ht. Qed.

Lemma ask_same {A} (f : nat -> Z -> option A) fd : keeps same_contents (ask f fd).
Proof. done. Qed.

Lemma lock_same : keeps same_contents lock.
Proof.
  intros w. unfold lock, syscall. destruct (inode_of _ _); [|done]. by destruct (lock_answers _ _).
Qed.

Lemma unlock_same : keeps same_contents unlock.
Proof. intros w. unfold unlock, syscall. destruct (inode_of _ _); [by destruct (unlock_answers _ _) | done]. Qed.

Lemma enter_same : keeps same_contents file_enter.
Proof. unfold file_enter. repeat keeps_step; first [apply lock_same | apply unlock_same | apply ask_same]. Qed.

Lemma sync_same : keeps same_contents file_sync.
Proof. unfold file_sync, fsync. repeat keeps_step; apply ask_same. Qed.

Lemma read_same : keeps same_contents file_read.
Proof. unfold file_read. repeat keeps_step; done. Qed.

(** A read that returns is of the whole file. *)
Lemma file_read_exact w raw w' : file_read w = (Ok raw, w') -> raw = file_contents w.
Proof.
  unfold file_read, file_size, pread, syscall. intros (size & w1 & H1 & H)%io_bind_Ok.
  injection H1 as H1 <-. apply io_bind_Ok in H as (t & w2 & [_ ->]%check_Ok & H).
  apply io_bind_Ok in H as (got & w3 & H2 & H). injection H2 as H2 <-.
  apply io_bind_Ok in H as (t' & w4 & [Hlen%Z.eqb_eq ->]%check_Ok & [= <- _]).
  unfold inode_of in *. cbn [table files] in *. unfold file_contents.
  destruct (inode_in (journal_fd h) (table w)) as [i|]; [|done]. cbn [answer mbind res_bind] in *.
  injection H1 as <-. apply bind_Ok in H2 as (limit & _ & [= <-]).
  unfold zlen in *. rewrite length_take in Hlen. apply take_ge. lia.
Qed.

Lemma file_append_part b w : exists p r, b = p ++ r /\ file_contents (file_append b w).2 = file_contents w ++ p.
Proof.
  unfold file_append, mbind, io_bind, os_write, syscall, inode_of, file_contents. cbn [table].
  destruct (inode_in (journal_fd h) (table w)) as [i|] eqn:Ei; cbn [answer].
  - destruct (write_limit (clock w) i) as [n|].
    + exists (take n b), (drop n b). rewrite take_drop. split; [done |].
      unfold check, lift. cbn [snd table files with_files]. by rewrite Ei, Z.eqb_refl.
    + exists [], b. cbn [snd table files]. by rewrite Ei, app_nil_r.
  - exists [], b. cbn [snd table]. by rewrite Ei.
Qed.

Lemma file_append_whole b w w' : file_append b w = (Ok tt, w') -> file_contents w' = file_contents w ++ b.
Proof.
  unfold file_append, os_write, syscall, inode_of, file_contents. intros (n & w1 & H1 & [Hn%Z.eqb_eq ->]%check_Ok)%io_bind_Ok.
  cbn [table] in H1. destruct (inode_in (journal_fd h) (table w)) as [i|] eqn:Ei; [|done]. cbn [answer] in H1.
  destruct (write_limit (clock w) i) as [limit|]; [|done]. injection H1 as <- <-.
  cbn [table files with_files]. rewrite Ei, Z.eqb_refl. f_equal. unfold zlen in Hn. rewrite length_take in Hn.
  apply take_ge. lia.
Qed.

#[export] Instance file_storage_ok : StorageOk os := {
  contents := file_contents;
  enter_contents w := same_contents_file _ _ (enter_same w);
  leave_contents w := same_contents_file _ _ (unlock_same w);
  sync_contents w := same_contents_file _ _ (sync_same w);
  read_contents w := same_contents_file _ _ (read_same w);
  read_exact := file_read_exact;
  append_part := file_append_part;
  append_whole := file_append_whole
}.
End file_io.

(** ** The production store *)

Section replay_store.
Context {U : Unicode} {K : Kernel} (geteuid getegid : Z).

(** The handle and the clear [_poisoned] flag of a new store. *)
(* @src src/src/harness_conformance/live_replay_store.py:220-226 ReplayStore *)
Definition replay_store : io os (file_io * bool) :=
  check ((geteuid =? 0) && (getegid =? 0)) "REPLAY_ROOT_REQUIRED" ;;
  h ← open_journal; mret (h, false).

Lemma open_file_run (fd i : Z) t name w r w' :
  table w = (fd, i) :: t -> ~ In fd (map fst t) -> open_file_at fd name w = (r, w') ->
  match r with
  | Ok file => exists j now, file_entry now i name = Some j /\ table w' = (file, j) :: table w /\ ~ In file (map fst (table w))
  | Raise _ => table w' = table w
  end.
Proof.
  intros Ht Hn. unfold open_file_at, syscall, inode_of. cbn [table]. rewrite Ht, inode_in_head. cbn [answer].
  destruct (file_entry (clock w) i name) as [j|] eqn:Ef; cbn [allocate]; intros [= <- <-]; [|done].
  exists j, (clock w). split; [done |]. split; [done |]. apply fresh_not_in.
Qed.

(** The check of the journal: when it fails, the file is closed and then its directory, unless
    closing the file fails. *)
Lemma checked_or_given_up fd j d i t directory private uid w r w' :
  table w = (fd, j) :: (d, i) :: t -> ~ In fd (map fst ((d, i) :: t)) -> ~ In d (map fst t) ->
  on_error (info ← fstat fd; lift (check_stat info directory private uid)) (close fd ;; close d) w = (r, w') ->
  match r with
  | Ok _ => table w' = table w /\ exists now info, status now j = Some info /\ check_stat info directory private uid = Ok tt
  | Raise _ => nothing_left t (table w')
  end.
Proof.
  intros Ht Hn Hd. destruct (check_run fd j ((d, i) :: t) directory private uid w Ht) as (r1 & w1 & E & Ht1 & Hok).
  destruct r1 as [[]|e]; [unfold on_error; rewrite E; intros [= <- <-]; split; [congruence | auto] |].
  destruct (on_error_raise _ (close fd ;; close d) w e w1 E) as [e' ->]. intros [= <- <-].
  destruct (close_last fd j _ w1 Ht1 Hn) as [Ha Hc]. unfold mbind, io_bind.
  destruct (close fd w1) as [r2 w2]. cbn [fst snd] in Ha, Hc. subst r2.
  destruct (close_answers (clock w1) j) eqn:Ea; [left; by apply (close_last d i) |].
  right. exists d, i, (clock w1), j. done.
Qed.

(** Opening the journal takes custody of it or of nothing.  The store opens as root only;
    when it opens, exactly two descriptors are new, of the checked private directory and of a
    regular private file found in it by name with a single link, and the flag is clear; when it
    refuses, no descriptor is left but one, where a call that closes one fails. *)
Theorem replay_store_custody w r w' :
  replay_store w = (r, w') ->
  match r with
  | Ok (h, flag) => flag = false /\ geteuid = 0 /\ getegid = 0 /\
      exists i j root now now' now2 info info', table w' = (journal_fd h, j) :: (directory h, i) :: table w /\
        ~ In (directory h) (descriptors w) /\ ~ In (journal_fd h) (directory h :: descriptors w) /\
        check_stat info true false 0 = Ok tt /\ status now root = Some info /\
        walked true 0 root (parts_of (u JOURNAL_PARENT)) i /\ file_entry now2 i (u JOURNAL_NAME) = Some j /\
        status now' j = Some info' /\ check_stat info' false true 0 = Ok tt
  | Raise _ => nothing_left (table w) (table w')
  end.
Proof.
  unfold replay_store. unfold mbind at 1, io_bind at 1, check, lift.
  destruct ((geteuid =? 0) && (getegid =? 0)) eqn:Hid; [cbn [require] | intros [= <- <-]; by left].
  apply andb_true_iff in Hid as [He%Z.eqb_eq Hg%Z.eqb_eq].
  unfold mbind at 1, io_bind at 1, open_journal. unfold mbind at 1, io_bind at 1.
  destruct (open_directory _ _ _ w) as [[d|e] w1] eqn:E; apply open_directory_run in E; [|intros [= <- <-]; done].
  destruct E as (p & root & i & now & now' & info & [= <-] & Ht1 & Hn1 & Hr & Hs & Hc & Hw).
  unfold mbind at 1, io_bind at 1.
  destruct (open_file_at d (u JOURNAL_NAME) w1) as [[fd|e] w2] eqn:Eo; pose proof Eo as E; apply (open_file_run d i (table w)) in E; try done.
  2: { destruct (on_error_raise _ (close d) w1 e w2 Eo) as [e' ->]. intros [= <- <-]. left.
       apply (close_last d i); [by rewrite E | done]. }
  unfold on_error at 1. rewrite Eo. destruct E as (j & now2 & Hf & Ht2 & Hn2). rewrite Ht1 in Ht2, Hn2.
  unfold mbind at 1, io_bind at 1. destruct (on_error _ _ w2) as [[[]|e] w3] eqn:E;
    apply (checked_or_given_up fd j d i (table w)) in E; try done; [|by intros [= <- <-]].
  destruct E as (Ht3 & now3 & info' & Hs' & Hc'). unfold mret, io_ret. intros [= <- <-]. cbn [directory journal_fd].
  do 3 (split; [done |]). exists i, j, root, now', now3, now2, info, info'. split; [congruence |]. repeat (split; [done |]). done.
Qed.
End replay_store.

(** ** The lock *)

Section locking.
Context {U : Unicode} {K : Kernel} (h : file_io).

Definition same_locks (j j' : journal os) : Prop :=
  locks (storage j') = locks (storage j) /\ table (storage j') = table (storage j).

#[local] Instance same_locks_preorder : PreOrder same_locks.
Proof. split; [done | intros a b c [? ?] [? ?]; split; congruence]. Qed.

Lemma on_storage_locks {A} (m : io os A) :
  (forall w, locks (m w).2 = locks w /\ table (m w).2 = table w) -> keeps same_locks (on_storage m).
Proof.
  intros H j. unfold on_storage, zoom, same_locks. specialize (H (storage j)).
  by destruct (m (storage j)) as [r w].
Qed.

Lemma ask_locks {A} (f : nat -> Z -> option A) fd w : locks (ask f fd w).2 = locks w /\ table (ask f fd w).2 = table w.
Proof. done. Qed.

Lemma file_read_locks w : locks (file_read h w).2 = locks w /\ table (file_read h w).2 = table w.
Proof.
  unfold file_read, mbind, io_bind, file_size, pread, syscall, check, lift. cbn [fst snd].
  repeat case_match; simplify_eq; done.
Qed.

Lemma file_append_locks b w : locks (file_append h b w).2 = locks w /\ table (file_append h b w).2 = table w.
Proof.
  unfold file_append, mbind, io_bind, os_write, syscall, check, lift, inode_of. cbn [table].
  destruct (answer _); [destruct (write_limit _ _) |]; done.
Qed.

Lemma file_sync_locks w : locks (file_sync h w).2 = locks w /\ table (file_sync h w).2 = table w.
Proof.
  unfold file_sync, fsync, mbind, io_bind. destruct (ask _ _ w) as [[[]|e] w1] eqn:E;
    pose proof (ask_locks (fun t i => if sync_answers t i then Some () else None) (journal_fd h) w) as H; rewrite E in H; [|done].
  destruct H as [<- <-]. apply ask_locks.
Qed.

Lemma filter_absent (i : Z) l : ~ In i l -> List.filter (fun j => negb (j =? i)) (i :: l) = l.
Proof.
  intros H. simpl. rewrite Z.eqb_refl. simpl. apply filter_all. intros j Hj.
  apply negb_true_iff, Z.eqb_neq. intros ->. contradiction.
Qed.

(** What a call leaves of the locks [l]: all of them and no other; or the journal's as well, and
    the call ends in the [OSError] of a failed [LOCK_UN]. *)
Definition unlocked {A} (i : Z) (l : list Z) (r : res A) (w : os) : Prop :=
  locks w = l \/ (r = Raise OSError /\ locks w = i :: l /\ exists now, unlock_answers now i = false).

(** Unlocking gives up the journal's lock, or fails. *)
Lemma unlock_run i l w :
  inode_in (journal_fd h) (table w) = Some i -> ~ In i l -> locks w = i :: l ->
  table (unlock h w).2 = table w /\
  ((unlock h w).1 = Ok tt /\ locks (unlock h w).2 = l \/ (unlock h w).1 = Raise OSError /\ unlocked i l (unlock h w).1 (unlock h w).2).
Proof.
  intros Hi Hn Hl. unfold unlock, syscall, inode_of. cbn [table]. rewrite Hi. cbn [answer].
  destruct (unlock_answers (clock w) i) eqn:Ea; cbn [fst snd table locks with_locks]; (split; [done |]).
  - left. split; [done |]. rewrite Hl. by rewrite filter_absent.
  - right. split; [done |]. right. eauto.
Qed.

(** Entering a transaction locks the journal, or leaves the locks as they were. *)
Lemma file_enter_run i w r w' :
  inode_in (journal_fd h) (table w) = Some i -> ~ In i (locks w) -> file_enter h w = (r, w') ->
  table w' = table w /\ if is_ok r then locks w' = i :: locks w else unlocked i (locks w) r w'.
Proof.
  intros Hi Hn. unfold file_enter. unfold mbind at 1, io_bind at 1. unfold lock, syscall, inode_of. cbn [table].
  rewrite Hi. cbn [answer]. destruct (lock_answers (clock w) i); [|by intros [= <- <-]; split; [|left]..].
  match goal with |- on_error ?m _ ?x = _ -> _ => destruct (m x) as [r1 w1] eqn:E end.
  assert (locks w1 = i :: locks w /\ table w1 = table w) as [Hl Ht].
  { unfold fstat, stat_at, ask, syscall, mbind, io_bind, check, lift, inode_of in E. cbn [table locks with_locks] in E.
    repeat case_match; simplify_eq; done. }
  unfold on_error. rewrite E. destruct r1 as [[]|e]; [intros [= <- <-]; done |].
  assert (inode_in (journal_fd h) (table w1) = Some i) as Hi1 by by rewrite Ht.
  destruct (unlock_run i (locks w) w1 Hi1 Hn Hl) as (Ht2 & Hl2). destruct (unlock h w1) as [r2 w2]. cbn [fst snd] in *.
  destruct Hl2 as [[-> Hl2] | [-> Hl2]]; intros [= <- <-]; (split; [congruence |]); [by left | done].
Qed.

(** C38: no call keeps the lock.  However a call of the journal ends, with a result, a refusal, a
    short write or any failure of the system, the locks held afterwards are those held before; the
    one exception is a [flock(fd, LOCK_UN)] that itself fails, and then the call raises that
    [OSError] and nothing else is held. *)
Theorem record_unlocks binding state now receipt i (j j' : journal os) r :
  inode_in (journal_fd h) (table (storage j)) = Some i -> ~ In i (locks (storage j)) ->
  _record (St := file_storage h) binding state now receipt j = (r, j') ->
  unlocked i (locks (storage j)) r (storage j') /\ table (storage j') = table (storage j).
Proof.
  intros Hi Hn. unfold _record. unfold mbind at 1, io_bind at 1, lift at 1.
  destruct (validate_binding binding) as [value|e]; [|by intros [= <- <-]; split; [left|]].
  unfold mbind at 1, io_bind at 1, lift at 1. destruct (LinuxShape.require_time now) as [instant|e]; [|by intros [= <- <-]; split; [left|]].
  unfold mbind at 1, io_bind at 1, reads at 1. unfold mbind at 1, io_bind at 1, check at 1, lift at 1.
  destruct (negb (poisoned j)); [cbn [require] | by intros [= <- <-]; split; [left|]].
  unfold mbind at 1, io_bind at 1, check at 1, lift at 1. destruct (is_state state); [cbn [require] | by intros [= <- <-]; split; [left|]].
  unfold in_transaction, mbind at 1, io_bind at 1, on_storage at 1, zoom at 1. cbn [enter file_storage].
  destruct (file_enter h (storage j)) as [r1 w1] eqn:E. apply (file_enter_run i) in E as [Ht1 Hl1]; [|done..].
  destruct r1 as [[]|e]; cbn [is_ok] in Hl1; [|intros [= <- <-]; split; [|done]; destruct Hl1 as [? | ([= ->] & ? & ?)]; [by left | by right]].
  unfold finally. match goal with |- (let (_, _) := ?m ?x in _) = _ -> _ => assert (keeps same_locks m) as Hk; [|destruct (m x) as [r2 j2] eqn:E] end.
  { repeat keeps_step; try (apply on_storage_locks; apply file_read_locks).
    unfold write_row, append_checked. repeat keeps_step; [apply on_storage_locks; apply file_append_locks | apply on_storage_locks; apply file_sync_locks |
      apply on_storage_locks; apply file_read_locks | done]. }
  specialize (Hk (Journal w1 (poisoned j))). rewrite E in Hk. destruct Hk as [Hl2 Ht2]. cbn [snd storage] in Hl2, Ht2.
  unfold on_storage at 1, zoom at 1. cbn [leave file_storage].
  assert (inode_in (journal_fd h) (table (storage j2)) = Some i) as Hi2 by by rewrite Ht2, Ht1.
  destruct (unlock_run i (locks (storage j)) (storage j2) Hi2 Hn) as (Ht3 & Hl3); [congruence |].
  destruct (unlock h (storage j2)) as [r3 w3]. cbn [fst snd] in *.
  destruct Hl3 as [[-> Hl3] | [-> [Hl3 | (_ & Hl3 & Ha)]]]; intros [= <- <-]; (split; [|cbn [storage]; congruence]);
    [by left | by left | by right].
Qed.
End locking.
