(* ===== verification/BackendAuthority.v ===== *)
(** live_backend_authority.py: the authority of the live backend and the session binding that is
    derived from it. *)

From S2P Require Import Prelude PyVal Utf8 Json Sha2 Canonical Base64 Ed25519 IsoTime Regex.
From S2P Require Import SchemaBase Lifecycle LinuxShape Evidence Ipaddr Live LinuxVerify Session.

#[local] Open Scope string_scope.
#[local] Open Scope list_scope.
#[local] Open Scope Z_scope.

(* @src src/src/harness_conformance/live_backend_authority.py:21-21 PACKET_ID *)
Definition PACKET_ID : string := "CONF-LIVE-006".
(* @src src/src/harness_conformance/live_backend_authority.py:23-23 PACKET_DIGEST *)
Definition PACKET_DIGEST : string := "sha256:f95c277cffdfb622f45a1b4b91a5292d9d9a5bfabc8f9388b3899cbb20c5213d".
(* @src src/src/harness_conformance/live_backend_authority.py:24-25 SUITE_ROOTS *)
Definition SUITE_ROOTS : list string :=
  ["tests/meta"; "tests/parity"; "tests/alpha1"; "tests/fixes/runner_boundary"; "tests/platform/linux_baseline";
   "tests/live_backend"].
(* @src src/src/harness_conformance/live_backend_authority.py:26-30 COMMANDS *)
Definition COMMANDS : list (list string) :=
  map (fun root => ["python3"; "-m"; "unittest"; "discover"; "-s"; root; "-p"; "test_*.py"]) SUITE_ROOTS ++
  [["make"; "campaign"; "CAMPAIGN=linux-baseline"]; ["make"; "evidence-verify"; "CAMPAIGN=linux-baseline"]].

Definition backend_kinds (e : exn) : bool :=
  match e with
  | TypeError | ValueError | KeyError | AttributeError | OverflowError | RecursionError => true
  | _ => false
  end.

Section backend_authority.
Context {U : Unicode} {S : SigScheme}.

(** One key of a trust bundle. *)
(* @src src/src/harness_conformance/live_backend_authority.py:79-87 verify_backend_authority *)
Definition check_backend_key (seen : list value) (key : value) : res (list value) :=
  require_object key ;;
  closed key trust_key_fields [] ;;
  keyId ← fld key "keyId";
  require_key_id keyId ;;
  revoked ← fld key "revoked";
  require (negb (in_values keyId seen) && is_bool revoked) "BACKEND_TRUST_INVALID" ;;
  each_field key ["owner"] require_id ;;
  require_m (a ← linux_time key "validFrom"; b ← linux_time key "validUntil"; time_ltb a b)
    "BACKEND_TRUST_WINDOW_INVALID" ;;
  each_field key ["publicKey"] (fun x => _ ← b64url_decode x 32; Ok tt) ;;
  Ok (keyId :: seen).

(* @src src/src/harness_conformance/live_backend_authority.py:74-87 verify_backend_authority *)
Definition check_backend_trust (trust : value) : res unit :=
  require_object trust ;;
  closed trust ["schemaVersion"; "keys"; "revocationsDigest"] [] ;;
  keys ← fld trust "keys";
  require (match keys with VList l => (0 <? zlen l) && (zlen l <=? 128) | _ => false end) "BACKEND_TRUST_INVALID" ;;
  ks ← py_iter keys;
  _ ← for_fold check_backend_key [] ks;
  Ok tt.

(** [next(item for item in trust["keys"] if item["keyId"] == key_id)]. *)
Fixpoint next_key (key_id : value) (ks : list value) : res value :=
  match ks with
  | [] => Raise StopIteration
  | item :: ks' => same ← fld_eq item "keyId" key_id; if (same : bool) then Ok item else next_key key_id ks'
  end.

(** The signers' roles: trust store, document and field that names the key. *)
Definition roles (envelope capacity release_trust tenant_trust : value) : list (value * value * string) :=
  [(release_trust, envelope, "platformSignerKeyId"); (tenant_trust, envelope, "tenantSignerKeyId");
   (tenant_trust, capacity, "signerKeyId")].

(* @src src/src/harness_conformance/live_backend_authority.py:89-91 verify_backend_authority *)
Definition selected_key (role : value * value * string) : res value :=
  let '(trust, document, field) := role in
  keys ← fld trust "keys"; ks ← py_iter keys; key_id ← fld document field; next_key key_id ks.

(* @src src/src/harness_conformance/live_backend_authority.py:38-100 verify_backend_authority *)
Definition verify_backend_authority (envelope_bytes capacity_bytes release_trust_bytes tenant_trust_bytes : bytes)
    (now : datetime) : res (value * value * value * value) :=
  guarded backend_kinds "BACKEND_AUTHORITY_MALFORMED"
    (require (aware now) "BACKEND_TIME_INVALID" ;;
     document ← require_canonical_document envelope_bytes;
     envelope ← validate_envelope document now;
     _ ← linux_time envelope "issuedAt";
     require_m (fld_lit envelope "packetId" PACKET_ID <&&> fld_lit envelope "packetDigest" PACKET_DIGEST <&&>
                fld_lit envelope "campaignId" "linux-baseline" <&&>
                fld_eq envelope "commands" (argv_list COMMANDS) <&&>
                fld_eq envelope "allowedEvidenceAxes" (str_list AXES)) "BACKEND_ENVELOPE_SCOPE_MISMATCH" ;;
     require_m (t ← linux_time envelope "expiresAt"; time_ltb now t) "BACKEND_ENVELOPE_EXPIRED" ;;
     each_field envelope ["tenantId"; "environmentId"; "nonce"; "capacityAuthorizationId"] require_id ;;
     digest_bound capacity_bytes envelope "capacityAuthorizationDigest" "BACKEND_AUTHORITY_DIGEST_MISMATCH" ;;
     digest_bound release_trust_bytes envelope "releaseTrustStoreDigest" "BACKEND_AUTHORITY_DIGEST_MISMATCH" ;;
     digest_bound tenant_trust_bytes envelope "tenantTrustStoreDigest" "BACKEND_AUTHORITY_DIGEST_MISMATCH" ;;
     document ← require_canonical_document capacity_bytes;
     capacity ← validate_capacity document envelope now;
     _ ← linux_time capacity "validFrom";
     require_m (t ← linux_time capacity "expiresAt"; time_ltb now t) "BACKEND_CAPACITY_EXPIRED" ;;
     each_field capacity ["nonce"; "namespace"; "operatorId"] require_id ;;
     permitted ← fld capacity "permittedEndpointIds";
     ps ← py_iter permitted;
     permitted_ids ← py_set ps;
     require (zlen ps =? zlen permitted_ids) "BACKEND_DUPLICATE_ENDPOINT" ;;
     endpoints ← fld envelope "endpoints";
     es ← py_iter endpoints;
     for_each (fun e => each_field e ["endpointId"] require_id) es ;;
     release_trust ← require_canonical_document release_trust_bytes;
     tenant_trust ← require_canonical_document tenant_trust_bytes;
     for_each check_backend_trust [release_trust; tenant_trust] ;;
     verify_live_signatures envelope capacity release_trust tenant_trust now ;;
     selected ← map_m selected_key (roles envelope capacity release_trust tenant_trust);
     require_m (all_m (fun key => t ← linux_time key "validUntil"; time_ltb now t) selected) "BACKEND_TRUST_EXPIRED" ;;
     owners ← map_m (fun key => fld key "owner") selected;
     owner_set ← py_set owners;
     require (zlen owner_set =? 3) "BACKEND_SIGNER_OWNERS_NOT_INDEPENDENT" ;;
     Ok (envelope, capacity, release_trust, tenant_trust)).

(** ** The binding *)

(** [max(l, key=require_time)] and [min(l, key=require_time)]: the first of the extreme ones. *)
Definition later (a b : datetime) : res bool := time_ltb a b.
Definition earlier (a b : datetime) : res bool := time_ltb b a.

Definition extreme (replaces : datetime -> datetime -> res bool) (l : list value) : res value :=
  match l with
  | [] => Raise ValueError
  | x :: rest =>
      k ← LinuxShape.require_time x;
      best ← for_fold (fun (s : value * datetime) y =>
               ky ← LinuxShape.require_time y; r ← replaces s.2 ky; Ok (if r : bool then (y, ky) else s)) (x, k) rest;
      Ok best.1
  end.

(* @src src/src/harness_conformance/live_backend_authority.py:130-131 binding_from_authority *)
Definition policies_match (release envelope : value) : res bool :=
  policies ← fld release "endpointPolicyDigests";
  endpoints ← fld envelope "endpoints";
  es ← py_iter endpoints;
  digests ← map_m (fun e => d ← fld e "authorizationPolicyDigest"; as_text d) es;
  Ok (py_eq policies (VList (map VStr (sorted_set digests)))).

(* @src src/src/harness_conformance/live_backend_authority.py:134-144 binding_from_authority *)
Definition window (envelope capacity release_trust tenant_trust : value) (instant : datetime) : res (value * value) :=
  issued ← fld envelope "issuedAt";
  from ← fld capacity "validFrom";
  expires ← fld envelope "expiresAt";
  until ← fld capacity "expiresAt";
  keys ← map_m (fun role => key ← selected_key role; a ← fld key "validFrom"; b ← fld key "validUntil"; Ok (a, b))
    (roles envelope capacity release_trust tenant_trust);
  start ← extreme later (issued :: from :: map fst keys);
  end_ ← extreme earlier (expires :: until :: map snd keys);
  require_m ((a ← LinuxShape.require_time start; time_leb a instant) <&&>
             (b ← LinuxShape.require_time end_; time_ltb instant b)) "BACKEND_WINDOW_EXPIRED" ;;
  Ok (start, end_).

(* @src src/src/harness_conformance/live_backend_authority.py:103-153 binding_from_authority *)
Definition binding_from_authority (envelope_bytes capacity_bytes release_trust_bytes tenant_trust_bytes
    release_bytes plan_bytes : bytes) (architecture expected_nonce expected_tenant expected_environment
    expected_release now : value) : res value :=
  guarded backend_kinds "BACKEND_AUTHORITY_MALFORMED"
    (require (is_str architecture && in_lits architecture ARCHITECTURES) "BACKEND_ARCHITECTURE_INVALID" ;;
     instant ← LinuxShape.require_time now;
     '(envelope, capacity, release_trust, tenant_trust) ←
       verify_backend_authority envelope_bytes capacity_bytes release_trust_bytes tenant_trust_bytes instant;
     require_m (fld_eq envelope "nonce" expected_nonce <&&> fld_eq envelope "tenantId" expected_tenant <&&>
                fld_eq envelope "environmentId" expected_environment <&&>
                fld_eq envelope "campaignReleaseDigest" expected_release) "BACKEND_EXPECTED_SUBJECT_MISMATCH" ;;
     require (py_eq (VStr (byte_digest release_bytes)) expected_release) "BACKEND_RELEASE_DIGEST_MISMATCH" ;;
     release ← require_canonical_document release_bytes;
     plan ← _release_plan release plan_bytes envelope architecture;
     require_m (target ← fld plan "target"; fld_eq target "architecture" architecture) "BACKEND_ARCHITECTURE_MISMATCH" ;;
     require_m (fld2_eq plan "namespace" capacity "namespace" <&&>
                fld2_eq plan "serviceAccountSubject" capacity "serviceAccountSubject") "BACKEND_PLAN_SCOPE_MISMATCH" ;;
     require_m (policies_match release envelope) "BACKEND_ENDPOINT_POLICY_MISMATCH" ;;
     for_each (fun case => _ ← build_probe_request envelope capacity plan (VStr (u case)); Ok tt) CASES ;;
     '(start, end_) ← window envelope capacity release_trust tenant_trust instant;
     nonce ← fld envelope "nonce";
     tenant ← fld envelope "tenantId";
     environment ← fld envelope "environmentId";
     command_set ← fld envelope "commandSetDigest";
     capacity_digest ← fld envelope "capacityAuthorizationDigest";
     endpoint ← fld plan "endpointId";
     namespace ← fld capacity "namespace";
     validate_binding (Value (VDict
       [(u "nonce", nonce); (u "tenantId", tenant); (u "environmentId", environment);
        (u "packetDigest", VStr (u PACKET_DIGEST)); (u "commandSetDigest", command_set);
        (u "releaseDigest", expected_release); (u "capacityDigest", capacity_digest); (u "endpointId", endpoint);
        (u "namespace", namespace); (u "notBefore", start); (u "notAfter", end_)]))).
End backend_authority.

(** ** What the authority and the binding establish *)

Section backend_theorems.
Context {U : Unicode} {S : SigScheme}.

Lemma next_key_Ok key_id ks key :
  next_key key_id ks = Ok key -> In key ks /\ fld_eq key "keyId" key_id = Ok true.
Proof.
  induction ks as [|item ks IH]; cbn; [done |]. intros ([] & Hs & H)%bind_Ok.
  - injection H as <-. auto.
  - apply IH in H as [? ?]. auto.
Qed.

Lemma backend_authority_Ok eb cb rb tb now e c rt tt_ :
  verify_backend_authority eb cb rb tb now = Ok (e, c, rt, tt_) ->
  require_canonical_document eb = Ok e /\
  bound_document cb e "capacityAuthorizationDigest" c /\
  bound_document rb e "releaseTrustStoreDigest" rt /\ bound_document tb e "tenantTrustStoreDigest" tt_ /\
  fld e "packetId" = Ok (VStr (u PACKET_ID)) /\ fld e "packetDigest" = Ok (VStr (u PACKET_DIGEST)) /\
  signed_authority ENVELOPE_DOMAIN CAPACITY_DOMAIN e c rt tt_ now /\
  exists selected owners, map_m selected_key (roles e c rt tt_) = Ok selected /\
    Forall (fun key => exists until, linux_time key "validUntil" = Ok until /\ time_ltb now until = Ok true) selected /\
    map_m (fun key => fld key "owner") selected = Ok owners /\ length owners = 3%nat /\ distinct owners.
Proof.
  unfold verify_backend_authority. intros H%guarded_Ok. apply seq_Ok in H as [_ H].
  apply bind_Ok in H as (doc & Hdoc & H). apply bind_Ok in H as (e' & He & H).
  apply bind_Ok in H as (? & _ & H). apply seq_Ok in H as [Hscope%require_m_Ok H]. do 2 apply seq_Ok in H as [_ H].
  apply seq_Ok in H as [H1%digest_bound_Ok H]. apply seq_Ok in H as [H2%digest_bound_Ok H].
  apply seq_Ok in H as [H3%digest_bound_Ok H]. apply bind_Ok in H as (cdoc & Hcdoc & H).
  apply bind_Ok in H as (c' & Hc & H). apply bind_Ok in H as (? & _ & H). do 2 apply seq_Ok in H as [_ H].
  do 3 apply bind_Ok in H as (? & _ & H). apply seq_Ok in H as [_ H]. do 2 apply bind_Ok in H as (? & _ & H).
  apply seq_Ok in H as [_ H]. apply bind_Ok in H as (rt' & Hrt & H). apply bind_Ok in H as (tt' & Htt & H).
  apply seq_Ok in H as [_ H]. apply seq_Ok in H as [Hsig%verify_signatures_Ok H].
  apply bind_Ok in H as (selected & Hsel & H). apply seq_Ok in H as [Hcur%require_m_Ok%all_m_true H].
  apply bind_Ok in H as (owners & Ho & H). apply bind_Ok in H as (s & Hset & H).
  apply seq_Ok in H as [H4%require_Ok%Z.eqb_eq [= -> -> -> ->]].
  apply validate_envelope_Ok in He as [-> _]. apply validate_capacity_Ok in Hc as [-> _].
  do 3 (apply and_m_true in Hscope as [Hscope _]). apply and_m_true in Hscope as [Hid%fld_lit_true Hp%fld_lit_true].
  assert (length owners = 3%nat) as Hl.
  { pose proof (proj1 (map_m_Ok _ _ _) Ho) as L1%Forall2_length. pose proof (proj1 (map_m_Ok _ _ _) Hsel) as L2%Forall2_length.
    by rewrite <- L1, <- L2. }
  unfold bound_document. repeat (split; [by eauto |]). exists selected, owners. split; [done |].
  split; [eapply Forall_impl; [exact Hcur |]; intros key; by rewrite bind_Ok|].
  split; [done |]. split; [done |]. by eapply owners_independent.
Qed.

(** The backend authority is independent and current.  When [verify_backend_authority]
    returns, the envelope and capacity are the canonical documents it was given, bound to each
    other and to both trust stores by digest and pinned to the packet; three pairwise distinct
    keys of the three roles, each valid past the instant, signed them over the live domains; and
    their three owners are different. *)
Theorem backend_authority_independent eb cb rb tb now e c rt tt_ :
  verify_backend_authority eb cb rb tb now = Ok (e, c, rt, tt_) ->
  require_canonical_document eb = Ok e /\
  bound_document cb e "capacityAuthorizationDigest" c /\
  bound_document rb e "releaseTrustStoreDigest" rt /\ bound_document tb e "tenantTrustStoreDigest" tt_ /\
  fld e "packetId" = Ok (VStr (u PACKET_ID)) /\ fld e "packetDigest" = Ok (VStr (u PACKET_DIGEST)) /\
  signed_authority ENVELOPE_DOMAIN CAPACITY_DOMAIN e c rt tt_ now /\
  exists selected owners, map_m selected_key (roles e c rt tt_) = Ok selected /\
    Forall (fun key => exists until, linux_time key "validUntil" = Ok until /\ time_ltb now until = Ok true) selected /\
    map_m (fun key => fld key "owner") selected = Ok owners /\ length owners = 3%nat /\ distinct owners.
Proof. apply backend_authority_Ok. Qed.

(** *** Extremes *)

Definition not_after (a b : datetime) : Prop := time_leb a b = Ok true.

Lemma time_ltb_cases a b r : time_ltb a b = Ok r -> if r then not_after a b else not_after b a.
Proof.
  unfold time_ltb, not_after, time_leb. destruct (Bool.eqb (aware a) (aware b)) eqn:E; [|done].
  apply eqb_prop in E. rewrite E, eqb_reflx. intros [= <-]. destruct (Z.ltb_spec (instant a) (instant b)); f_equal; lia.
Qed.

#[local] Instance not_after_trans : Transitive not_after.
Proof.
  intros a b c. unfold not_after, time_leb. destruct (Bool.eqb (aware a) (aware b)) eqn:E1; [|done].
  destruct (Bool.eqb (aware b) (aware c)) eqn:E2; [|done]. apply eqb_prop in E1, E2. rewrite E1, E2, eqb_reflx.
  intros [= H1] [= H2]. f_equal. lia.
Qed.

Lemma not_after_refl a : not_after a a.
Proof. unfold not_after, time_leb. rewrite eqb_reflx. f_equal. lia. Qed.

(** The extreme of a list is one of it, and no other is past it. *)
Lemma extreme_fold (replaces : datetime -> datetime -> res bool) (R : datetime -> datetime -> Prop) rest x k best :
  (forall a b r, replaces a b = Ok r -> if r then R a b else R b a) ->
  (forall a, R a a) -> (forall a b c, R a b -> R b c -> R a c) ->
  LinuxShape.require_time x = Ok k ->
  for_fold (fun (s : value * datetime) y =>
    ky ← LinuxShape.require_time y; r ← replaces s.2 ky; Ok (if r : bool then (y, ky) else s)) (x, k) rest = Ok best ->
  In best.1 (x :: rest) /\ LinuxShape.require_time best.1 = Ok best.2 /\ R k best.2 /\
  forall y, In y rest -> exists ky, LinuxShape.require_time y = Ok ky /\ R ky best.2.
Proof.
  intros Hr Hrefl Htrans. revert x k. induction rest as [|y rest IH]; intros x k Hx; cbn [for_fold].
  - intros [= <-]. simpl. repeat split; auto. done.
  - intros (s & Hs & H)%bind_Ok. apply bind_Ok in Hs as (ky & Hy & Hs). apply bind_Ok in Hs as (r & Hrep & [= <-]).
    apply Hr in Hrep. simpl in Hrep. destruct r; apply IH in H as (Hin & Hb & Hle & Hall); try done.
    + split; [simpl in Hin |- *; tauto |]. split; [done |]. split; [by eapply Htrans |].
      intros z [<- | Hz]; [by exists ky | auto].
    + split; [simpl in Hin |- *; tauto |]. split; [done |]. split; [done |].
      intros z [<- | Hz]; [exists ky; split; [done | by eapply Htrans] | auto].
Qed.

Lemma extreme_Ok (replaces : datetime -> datetime -> res bool) (R : datetime -> datetime -> Prop) l x :
  (forall a b r, replaces a b = Ok r -> if r then R a b else R b a) ->
  (forall a, R a a) -> (forall a b c, R a b -> R b c -> R a c) ->
  extreme replaces l = Ok x ->
  exists k, LinuxShape.require_time x = Ok k /\ In x l /\
    forall y, In y l -> exists ky, LinuxShape.require_time y = Ok ky /\ R ky k.
Proof.
  intros Hr Hrefl Htrans. destruct l as [|x0 rest]; [done |]. cbn [extreme].
  intros (k & Hk & (best & Hb & [= <-])%bind_Ok)%bind_Ok.
  destruct (extreme_fold _ R _ _ _ _ Hr Hrefl Htrans Hk Hb) as (Hin & Hbt & Hle & Hall).
  exists best.2. split; [done |]. split; [done |]. intros y [<- | Hy]; [by exists k | auto].
Qed.

(** *** The window *)

(** A signed window of the authority: of the envelope, the capacity or a selected key. *)
Inductive signed_window (e c rt tt_ : value) : value -> value -> Prop :=
| window_envelope a b : fld e "issuedAt" = Ok a -> fld e "expiresAt" = Ok b -> signed_window e c rt tt_ a b
| window_capacity a b : fld c "validFrom" = Ok a -> fld c "expiresAt" = Ok b -> signed_window e c rt tt_ a b
| window_key role key a b : In role (roles e c rt tt_) -> selected_key role = Ok key ->
    fld key "validFrom" = Ok a -> fld key "validUntil" = Ok b -> signed_window e c rt tt_ a b.

(** [start] and [end_] lie within a signed window. *)
Definition inside (start end_ : datetime) (a b : value) : Prop :=
  exists ta tb, LinuxShape.require_time a = Ok ta /\ LinuxShape.require_time b = Ok tb /\
    not_after ta start /\ not_after end_ tb.

Lemma window_Ok e c rt tt_ instant start end_ :
  window e c rt tt_ instant = Ok (start, end_) ->
  exists s t, LinuxShape.require_time start = Ok s /\ LinuxShape.require_time end_ = Ok t /\
    not_after s instant /\ time_ltb instant t = Ok true /\
    forall a b, signed_window e c rt tt_ a b -> inside s t a b.
Proof.
  unfold window. intros H. apply bind_Ok in H as (issued & Hi & H). apply bind_Ok in H as (from & Hf & H).
  apply bind_Ok in H as (expires & He & H). apply bind_Ok in H as (until & Hu & H).
  apply bind_Ok in H as (keys & Hkeys%map_m_Ok & H). apply bind_Ok in H as (s & Hs & H). apply bind_Ok in H as (t & Ht & H).
  apply seq_Ok in H as [[Hsi Hti]%require_m_Ok%and_m_true [= -> ->]].
  apply (extreme_Ok _ not_after) in Hs as (ks & Hks & _ & Hsall);
    [|exact time_ltb_cases | exact not_after_refl | intros a b d H1 H2; by transitivity b].
  apply (extreme_Ok _ (fun a b => not_after b a)) in Ht as (kt & Hkt & _ & Htall);
    [|intros a b r Hr%time_ltb_cases; by destruct r | exact not_after_refl | intros a b d H1 H2; by transitivity b].
  exists ks, kt. split; [done |]. split; [done |]. rewrite Hks in Hsi. rewrite Hkt in Hti. split; [done |]. split; [done |].
  intros a b Hw. assert (In a (issued :: from :: map fst keys) /\ In b (expires :: until :: map snd keys)) as [Ha Hb].
  { destruct Hw as [a b Ha Hb | a b Ha Hb | role key a b Hin Hsel Ha Hb].
    - split; left; congruence.
    - split; right; left; congruence.
    - apply list_elem_of_In, list_elem_of_lookup in Hin as [i Hin].
      destruct (Forall2_lookup_l _ _ _ _ _ Hkeys Hin) as ([a' b'] & Hk & Hab).
      apply bind_Ok in Hab as (key' & Hsel' & Hab). apply bind_Ok in Hab as (a2 & Ha2 & Hab).
      apply bind_Ok in Hab as (b2 & Hb2 & [= -> ->]). assert (key' = key) as -> by congruence.
      assert (a' = a) as -> by congruence. assert (b' = b) as -> by congruence.
      apply list_elem_of_lookup_2, list_elem_of_In in Hk.
      split; right; right; [by apply (in_map fst) in Hk | by apply (in_map snd) in Hk]. }
  destruct (Hsall a Ha) as (ta & Hta & Hle). destruct (Htall b Hb) as (tb & Htb & Hle'). by exists ta, tb.
Qed.

(** C32: a session's binding stays inside what was signed.  When [binding_from_authority] returns,
    the authority of the four documents verified at the given instant, the signed envelope names
    the expected nonce, tenant, environment and release, whose bytes have that digest; the
    binding is of exactly these subjects and of the release-bound plan; and its window holds the
    instant and lies within the signed windows of the envelope, the capacity and all three
    signers' keys. *)
Theorem binding_within_authority eb cb rb tb relb planb architecture en et ee er now b :
  binding_from_authority eb cb rb tb relb planb architecture en et ee er now = Ok b ->
  exists instant e c rt tt_ release plan start end_ s t,
    LinuxShape.require_time now = Ok instant /\ verify_backend_authority eb cb rb tb instant = Ok (e, c, rt, tt_) /\
    (forall k x, In (k, x) [("nonce", en); ("tenantId", et); ("environmentId", ee); ("campaignReleaseDigest", er)] ->
       fld_eq e k x = Ok true) /\
    py_eq (VStr (byte_digest relb)) er = true /\
    require_canonical_document relb = Ok release /\ _release_plan release planb e architecture = Ok plan /\
    (exists nonce tenant environment commands capacity endpoint namespace,
       fld e "nonce" = Ok nonce /\ fld e "tenantId" = Ok tenant /\ fld e "environmentId" = Ok environment /\
       fld e "commandSetDigest" = Ok commands /\ fld e "capacityAuthorizationDigest" = Ok capacity /\
       fld plan "endpointId" = Ok endpoint /\ fld c "namespace" = Ok namespace /\
       validate_binding (Value (VDict
         [(u "nonce", nonce); (u "tenantId", tenant); (u "environmentId", environment);
          (u "packetDigest", VStr (u PACKET_DIGEST)); (u "commandSetDigest", commands);
          (u "releaseDigest", er); (u "capacityDigest", capacity); (u "endpointId", endpoint);
          (u "namespace", namespace); (u "notBefore", start); (u "notAfter", end_)])) = Ok b) /\
    LinuxShape.require_time start = Ok s /\ LinuxShape.require_time end_ = Ok t /\
    not_after s instant /\ time_ltb instant t = Ok true /\
    forall x y, signed_window e c rt tt_ x y -> inside s t x y.
Proof.
  unfold binding_from_authority. intros H%guarded_Ok. apply seq_Ok in H as [_ H].
  apply bind_Ok in H as (instant & Hi & H). apply bind_Ok in H as ([[[e c] rt] tt_] & Ha & H). cbv beta iota in H.
  apply seq_Ok in H as [Hsub%require_m_Ok H]. apply seq_Ok in H as [Hrel%require_Ok H].
  apply bind_Ok in H as (release & Hr & H). apply bind_Ok in H as (plan & Hp & H). do 4 apply seq_Ok in H as [_ H].
  apply bind_Ok in H as ([start end_] & Hw & H). cbv beta iota in H.
  apply window_Ok in Hw as (s & t & Hs & Ht & Hsi & Hti & Hall).
  apply bind_Ok in H as (nonce & Hn & H). apply bind_Ok in H as (tenant & Hte & H).
  apply bind_Ok in H as (env & He & H). apply bind_Ok in H as (cs & Hcs & H). apply bind_Ok in H as (cd & Hcd & H).
  apply bind_Ok in H as (ep & Hep & H). apply bind_Ok in H as (ns & Hns & H).
  apply and_m_true in Hsub as [Hsub H4]. apply and_m_true in Hsub as [Hsub H3]. apply and_m_true in Hsub as [H1 H2].
  exists instant, e, c, rt, tt_, release, plan, start, end_, s, t. split; [done |]. split; [done |]. split.
  { intros k x [E | [E | [E | [E | []]]]]; injection E as <- <-; assumption. }
  split; [done |]. split; [done |]. split; [done |]. split; [by exists nonce, tenant, env, cs, cd, ep, ns |].
  repeat (split; [done |]). done.
Qed.
End backend_theorems.
