(* ===== verification/Launcher.v ===== *)
(** live_launcher.py: the installed launcher, which verifies its root manifest and the
    envelope's preflight and then stops. *)

From S2P Require Import Prelude PyVal Utf8 Json Sha2 Canonical Base64 Ed25519 IsoTime Regex.
From S2P Require Import SchemaBase Ipaddr Lifecycle LinuxShape Live Posix.

#[local] Open Scope string_scope.
#[local] Open Scope list_scope.
#[local] Open Scope Z_scope.

(* @src src/src/harness_conformance/live.py:21-21 PINNED_ROOT_PUBLIC_KEY_SHA256 *)
Definition PINNED_ROOT_PUBLIC_KEY_SHA256 : string :=
  "sha256:6b22a99cab70c60b7cc345962ae220e32b2dbc89c72b419c79a9c92ec5f6c012".
(* @src src/src/harness_conformance/live.py:24-24 FIXED_MANIFEST *)
Definition FIXED_MANIFEST : string := "/etc/planeon/harness-live-runner-manifest.json".
(* @src src/src/harness_conformance/live.py:25-25 FIXED_MANIFEST_SIGNATURE *)
Definition FIXED_MANIFEST_SIGNATURE : string := "/etc/planeon/harness-live-runner-manifest.json.sig".
(* @src src/src/harness_conformance/live.py:26-26 FIXED_MANIFEST_PUBLIC *)
Definition FIXED_MANIFEST_PUBLIC : string := "/etc/planeon/harness-live-runner-manifest.pub".
(* @src src/src/harness_conformance/live.py:27-27 EXPECTED_LAUNCHER *)
Definition EXPECTED_LAUNCHER : string := "/opt/planeon/bin/harness-live-campaign-launch".

(* @src src/src/harness_conformance/live_launcher.py:23-31 linux_runtime_availability *)
Definition linux_runtime_availability : value :=
  VDict [(u "status", VStr (u "NOT_RUN_ENV_UNAVAILABLE")); (u "reasonCode", VStr (u "LINUX_LIVE_BACKEND_UNAVAILABLE"))].

(** [b.decode("ascii")], and [s.strip()] on ASCII text. *)
Definition decode_ascii (b : bytes) : res str := if is_ascii b then Ok b else Raise ValueError.
Definition is_space (c : N) : bool := ((9 <=? c) && (c <=? 13) || (28 <=? c) && (c <=? 32))%N.
Fixpoint lstrip (s : str) : str :=
  match s with c :: s' => if is_space c then lstrip s' else s | [] => [] end.
Definition strip (s : str) : str := reverse (lstrip (reverse (lstrip s))).

(** What the launcher finds around it: files, the status of the installed launcher, the
    environment, the resolved path it was started by, and the time. *)
Record surroundings := {
  os_open : str -> option opened;
  launcher_stat : option stat_info;
  lookup : str -> option node;
  environ : list (str * str);
  argv0 : str;
  clock_now : datetime
}.

Section launcher.
Context {U : Unicode} {S : SigScheme} (w : surroundings).

Definition read_fixed (path : string) : res bytes := secure_read (os_open w) (u path) true.

Definition expected_launcher (digest : str) : value :=
  VDict [(u "path", VStr (u EXPECTED_LAUNCHER)); (u "version", VStr (u "0.1.0")); (u "sha256", VStr digest);
         (u "ownerUid", VInt 0); (u "ownerGid", VInt 0); (u "mode", VStr (u "0555"))].

Definition expected_isolation : value :=
  VDict [(u "backend", VStr (u "PREINSTALLED_OS_ENDPOINT_ALLOWLIST_V1"));
         (u "networkPolicy", VStr (u "DENY_ALL_EXCEPT_DUAL_SIGNED_ENDPOINTS"));
         (u "credentialSocketsDenied", VBool true); (u "ciDenied", VBool true)].

(* @src src/src/harness_conformance/live_launcher.py:34-75 _verify_root_manifest *)
Definition _verify_root_manifest : res unit :=
  public_bytes ← read_fixed FIXED_MANIFEST_PUBLIC;
  raise_if (negb (str_eqb (byte_digest public_bytes) (u PINNED_ROOT_PUBLIC_KEY_SHA256))) "ROOT_KEY_DIGEST_MISMATCH" ;;
  public_record ← load_json_bytes public_bytes;
  closed public_record ["algorithm"; "publicKey"] [] ;;
  algorithm ← fld public_record "algorithm";
  raise_if (negb (eq_lit algorithm "ED25519")) "ROOT_KEY_ALGORITHM" ;;
  manifest_bytes ← read_fixed FIXED_MANIFEST;
  signature_bytes ← read_fixed FIXED_MANIFEST_SIGNATURE;
  signature_text ← decode_ascii signature_bytes;
  signature ← b64url_decode (VStr (strip signature_text)) 64;
  publicKey ← fld public_record "publicKey";
  public ← b64url_decode publicKey 32;
  valid ← sig_verify public manifest_bytes signature;
  raise_if (negb valid) "ROOT_MANIFEST_SIGNATURE_INVALID" ;;
  manifest ← load_json_bytes manifest_bytes;
  closed manifest ["schemaVersion"; "launcher"; "fixedTrustMounts"; "isolation"; "preflightEvidenceDigest"] [] ;;
  schema ← fld manifest "schemaVersion";
  raise_if (negb (eq_lit schema "harness.planeon.ai/live-runner-manifest/v1alpha1")) "ROOT_MANIFEST_SCHEMA" ;;
  launcher ← fld manifest "launcher";
  closed launcher ["path"; "version"; "sha256"; "ownerUid"; "ownerGid"; "mode"] [] ;;
  info ← answer (launcher_stat w);
  installed ← read_fixed EXPECTED_LAUNCHER;
  raise_if (negb (py_eq launcher (expected_launcher (byte_digest installed))) || negb (st_uid info =? 0) ||
            negb (st_gid info =? 0) || negb (S_IMODE (st_mode info) =? 365)) "LAUNCHER_CUSTODY_INVALID" ;;
  mounts ← fld manifest "fixedTrustMounts";
  raise_if (negb (py_eq mounts (str_list [FIXED_RELEASE_TRUST; FIXED_TENANT_TRUST]))) "TRUST_MOUNTS_INVALID" ;;
  isolation ← fld manifest "isolation";
  closed isolation ["backend"; "networkPolicy"; "credentialSocketsDenied"; "ciDenied"] [] ;;
  raise_if (negb (py_eq isolation expected_isolation)) "ISOLATION_MANIFEST_INVALID".

(** [os.environ.get(name)] read as a truth value. *)
Definition env_set (name : string) : bool :=
  match dget (u name) (environ w) with Some (_ :: _) => true | _ => false end.

(** The body of the [try], which always raises. *)
(* @src src/src/harness_conformance/live_launcher.py:80-92 main *)
Definition launch : res unit :=
  raise_if (existsb env_set ["CI"; "GITHUB_ACTIONS"; "GITHUB_EVENT_NAME"; "BUILDKITE"; "JENKINS_URL"])
    "CI_EXECUTION_FORBIDDEN" ;;
  raise_if (existsb (fun name => startswith (u "HARNESS_LIVE_") name &&
                                 negb (str_eqb name (u "HARNESS_LIVE_EXECUTION_ENVELOPE"))) (dkeys (environ w)))
    "LIVE_ENVIRONMENT_FORBIDDEN" ;;
  raise_if (negb (env_set "HARNESS_LIVE_EXECUTION_ENVELOPE")) "LIVE_AUTHORITY_UNAVAILABLE" ;;
  let envelope := default [] (dget (u "HARNESS_LIVE_EXECUTION_ENVELOPE") (environ w)) in
  raise_if (negb (str_eqb (argv0 w) (u EXPECTED_LAUNCHER))) "DIRECT_LAUNCH_FORBIDDEN" ;;
  _verify_root_manifest ;;
  _ ← preflight (os_open w) (lookup w) envelope (u EXPECTED_LAUNCHER) (u FIXED_RELEASE_TRUST) (u FIXED_TENANT_TRUST)
        (clock_now w);
  conf "ISOLATION_BACKEND_UNAVAILABLE".

Definition unavailable (reason : string) : bool :=
  existsb (String.eqb reason) ["LIVE_AUTHORITY_UNAVAILABLE"; "ISOLATION_BACKEND_UNAVAILABLE"; "REFERENCE_UNAVAILABLE"].

(** The exit code and the line written to the error stream; other exceptions leave [main]. *)
(* @src src/src/harness_conformance/live_launcher.py:78-100 main *)
Definition main : res (Z * str) :=
  match launch with
  | Raise (ConformanceError reason) =>
      let status := if unavailable reason then "NOT_RUN_ENV_UNAVAILABLE" else "FAIL" in
      Ok (if unavailable reason then 3 else 2,
          print (VDict [(u "reasonCode", VStr (u reason)); (u "status", VStr (u status))]) ++ [10%N])
  | Raise e => Raise e
  | Ok _ => Ok (0, [])
  end.

(** ** What the launcher can say *)

Lemma root_manifest_Ok :
  _verify_root_manifest = Ok tt ->
  exists public_bytes manifest_bytes pk sg installed info record manifest launcher,
    read_fixed FIXED_MANIFEST_PUBLIC = Ok public_bytes /\
    byte_digest public_bytes = u PINNED_ROOT_PUBLIC_KEY_SHA256 /\
    load_json_bytes public_bytes = Ok record /\ fld record "publicKey" = Ok (VStr (b64url_encode pk)) /\ zlen pk = 32 /\
    read_fixed FIXED_MANIFEST = Ok manifest_bytes /\ sig_verify pk manifest_bytes sg = Ok true /\
    load_json_bytes manifest_bytes = Ok manifest /\ fld manifest "launcher" = Ok launcher /\
    read_fixed EXPECTED_LAUNCHER = Ok installed /\ py_eq launcher (expected_launcher (byte_digest installed)) = true /\
    launcher_stat w = Some info /\ st_uid info = 0 /\ st_gid info = 0 /\ S_IMODE (st_mode info) = 365.
Proof.
  unfold _verify_root_manifest. intros H. apply bind_Ok in H as (pub & Hpub & H).
  apply seq_Ok in H as [Hdig%raise_if_Ok%negb_false_iff%str_eqb_eq H]. apply bind_Ok in H as (record & Hrec & H).
  apply seq_Ok in H as [_ H]. apply bind_Ok in H as (? & _ & H). apply seq_Ok in H as [_ H].
  apply bind_Ok in H as (mb & Hmb & H). apply bind_Ok in H as (? & _ & H). apply bind_Ok in H as (? & _ & H).
  apply bind_Ok in H as (sg & _ & H). apply bind_Ok in H as (pkv & Hpk & H).
  apply bind_Ok in H as (pk & [-> Hl]%b64_decode_Ok & H). apply bind_Ok in H as (valid & Hv & H).
  apply seq_Ok in H as [->%raise_if_Ok%negb_false_iff H]. apply bind_Ok in H as (manifest & Hm & H).
  apply seq_Ok in H as [_ H]. apply bind_Ok in H as (? & _ & H). apply seq_Ok in H as [_ H].
  apply bind_Ok in H as (launcher & Hla & H). apply seq_Ok in H as [_ H].
  apply bind_Ok in H as (info & Hinfo & H). apply bind_Ok in H as (inst & Hinst & H).
  apply seq_Ok in H as [Hcust%raise_if_Ok _]. rewrite !orb_false_iff, !negb_false_iff, !Z.eqb_eq in Hcust.
  destruct Hcust as (((He & Hu) & Hg) & Hmode). unfold answer in Hinfo. destruct (launcher_stat w) as [i|]; [|done].
  injection Hinfo as ->. exists pub, mb, pk, sg, inst, info, record, manifest, launcher. repeat (split; [done |]). done.
Qed.

(** The launcher's manifest is rooted in the pinned key.  When [_verify_root_manifest] returns,
    the public record hashes to the pinned digest, its 32-octet key verifies the manifest's
    signature, and the manifest's launcher entry is exactly the installed launcher: its path,
    the digest of its octets, root ownership and mode 0555, which are also the file's. *)
Theorem root_manifest_pinned :
  _verify_root_manifest = Ok tt ->
  exists public_bytes manifest_bytes pk sg installed info record manifest launcher,
    read_fixed FIXED_MANIFEST_PUBLIC = Ok public_bytes /\
    byte_digest public_bytes = u PINNED_ROOT_PUBLIC_KEY_SHA256 /\
    load_json_bytes public_bytes = Ok record /\ fld record "publicKey" = Ok (VStr (b64url_encode pk)) /\ zlen pk = 32 /\
    read_fixed FIXED_MANIFEST = Ok manifest_bytes /\ sig_verify pk manifest_bytes sg = Ok true /\
    load_json_bytes manifest_bytes = Ok manifest /\ fld manifest "launcher" = Ok launcher /\
    read_fixed EXPECTED_LAUNCHER = Ok installed /\ py_eq launcher (expected_launcher (byte_digest installed)) = true /\
    launcher_stat w = Some info /\ st_uid info = 0 /\ st_gid info = 0 /\ S_IMODE (st_mode info) = 365.
Proof. apply root_manifest_Ok. Qed.

Lemma launch_raises : is_ok launch = false.
Proof.
  destruct launch eqn:E; [|done]. unfold launch in E. do 3 apply seq_Ok in E as [_ E].
  apply seq_Ok in E as [_ E]. apply seq_Ok in E as [_ E]. by apply bind_Ok in E as (? & _ & E).
Qed.

(** The launcher never grants a session.  Whatever its surroundings, [main] does not return
    0: it returns 2 with status FAIL, or 3 with status NOT_RUN_ENV_UNAVAILABLE for one of three
    reasons, the line written naming the reason of the exception that ended the launch; a CI
    environment is always refused with 2. *)
Theorem launcher_never_runs :
  match main with
  | Ok (code, line) => exists reason,
      launch = conf reason /\ code = (if unavailable reason then 3 else 2) /\
      line = print (VDict [(u "reasonCode", VStr (u reason));
               (u "status", VStr (u (if unavailable reason then "NOT_RUN_ENV_UNAVAILABLE" else "FAIL")))]) ++ [10%N] /\
      (env_set "CI" = true -> code = 2)
  | Raise e => is_conformance e = false
  end.
Proof.
  pose proof launch_raises as Hl. unfold main. destruct launch as [|e] eqn:E; [done |].
  destruct e as [reason| | | | | | | | |]; try done.
  exists reason. repeat (split; [done |]). intros Hci. unfold launch in E. cbn [existsb] in E. rewrite Hci in E.
  injection E as <-. done.
Qed.
End launcher.
