(* ===== verification/ProxySpecs.v ===== *)
(** live_mutation_admission.py: the four pinned message specifications, transcribed as values.
    A long literal of the source is one line of it. *)

From S2P Require Import Prelude PyVal.

#[local] Open Scope string_scope.
#[local] Open Scope list_scope.
#[local] Open Scope Z_scope.

(** Objects, arrays, texts, numbers and booleans of a literal. *)
Module Literal.
Definition o (members : list (string * value)) : value := VDict (map (fun m => (u m.1, m.2)) members).
Definition a (items : list value) : value := VList items.
Definition s (text : string) : value := VStr (u text).
Definition n (z : Z) : value := VInt z.
Definition b (x : bool) : value := VBool x.
Arguments o members%_list_scope.
Arguments s text%_string_scope.
End Literal.
Import Literal.

(* @src src/src/harness_conformance/live_mutation_admission.py:27-27 _PROFILE_SPEC *)
Definition _PROFILE_SPEC : value :=
  o [("$schema", s "https://json-schema.org/draft/2020-12/schema"); ("$id", s
  "https://schemas.planeon.ai/internal/proxy-execution-profile/v1.json"); ("type", s "object");
  ("additionalProperties", b false); ("required", a [s "profileId"; s "binding"; s "capacityEntries"; s "policy"; s
  "quota"; s "resources"; s "localImages"]); ("properties", o [("profileId", o [("const", s
  "CAMPAIGN_PROXY_MTLS_ZERO_COST_V1")]); ("binding", o [("$ref", s "#/$defs/binding")]); ("capacityEntries", o
  [("type", s "object"); ("additionalProperties", b false); ("required", a [s "kubernetesApiRules"; s
  "campaignProxyRules"; s "permittedGvksAndVerbs"; s "preexistingResourceRefs"; s "preallocatedStorageRefs"; s
  "preallocatedAcceleratorRefs"; s "credentialIdentities"]); ("properties", o [("kubernetesApiRules", o [("type", s
  "array"); ("minItems", n 0); ("maxItems", n 256); ("uniqueItems", b true); ("items", o [("$ref", s
  "#/$defs/apiRule")])]); ("campaignProxyRules", o [("type", s "array"); ("minItems", n 1); ("maxItems", n 1);
  ("uniqueItems", b true); ("items", o [("$ref", s "#/$defs/proxyRule")])]); ("permittedGvksAndVerbs", o [("type", s
  "array"); ("minItems", n 0); ("maxItems", n 3); ("uniqueItems", b true); ("items", o [("$ref", s
  "#/$defs/gvkRule")])]); ("preexistingResourceRefs", o [("type", s "array"); ("minItems", n 0); ("maxItems", n 256);
  ("uniqueItems", b true); ("items", o [("$ref", s "#/$defs/resourceRef")])]); ("preallocatedStorageRefs", o [("type",
  s "array"); ("maxItems", n 0)]); ("preallocatedAcceleratorRefs", o [("type", s "array"); ("maxItems", n 0)]);
  ("credentialIdentities", o [("type", s "array"); ("minItems", n 1); ("maxItems", n 2); ("uniqueItems", b true);
  ("items", o [("$ref", s "#/$defs/credentialIdentity")])])])]); ("policy", o [("$ref", s "#/$defs/policy")]);
  ("quota", o [("$ref", s "#/$defs/units")]); ("resources", o [("type", s "array"); ("minItems", n 0); ("maxItems", n
  32); ("uniqueItems", b true); ("items", o [("$ref", s "#/$defs/resource")])]); ("localImages", o [("type", s
  "array"); ("minItems", n 0); ("maxItems", n 16); ("uniqueItems", b true); ("items", o [("type", s "string");
  ("minLength", n 1); ("maxLength", n 1024); ("pattern", s "^[a-z0-9][a-z0-9.:/-]*@sha256:[0-9a-f]{64}$")])])]);
  ("$defs", o [("binding", o [("type", s "object"); ("additionalProperties", b false); ("required", a [s "tenantId"; s
  "environmentId"; s "runNonce"; s "capacityNonce"; s "endpointId"; s "namespace"; s "serviceAccountSubject"; s
  "validFrom"; s "expiresAt"; s "apiEndpointId"]); ("properties", o [("tenantId", o [("type", s "string");
  ("minLength", n 1); ("maxLength", n 128); ("pattern", s "^[a-z0-9](?:[a-z0-9.-]{0,62})$")]); ("environmentId", o
  [("type", s "string"); ("minLength", n 1); ("maxLength", n 128); ("pattern", s "^[a-z0-9](?:[a-z0-9.-]{0,62})$")]);
  ("runNonce", o [("type", s "string"); ("minLength", n 1); ("maxLength", n 128); ("pattern", s
  "^[a-z0-9](?:[a-z0-9.-]{0,62})$")]); ("capacityNonce", o [("type", s "string"); ("minLength", n 1); ("maxLength", n
  128); ("pattern", s "^[a-z0-9](?:[a-z0-9.-]{0,62})$")]); ("endpointId", o [("type", s "string"); ("minLength", n 1);
  ("maxLength", n 128); ("pattern", s "^[a-z0-9](?:[a-z0-9.-]{0,62})$")]); ("namespace", o [("type", s "string");
  ("minLength", n 1); ("maxLength", n 128); ("pattern", s "^[a-z0-9](?:[a-z0-9.-]{0,62})$")]);
  ("serviceAccountSubject", o [("type", s "string"); ("minLength", n 1); ("maxLength", n 256); ("pattern", s
  "^system:serviceaccount:[a-z0-9.-]+:[a-z0-9.-]+$")]); ("validFrom", o [("type", s "string"); ("minLength", n 1);
  ("maxLength", n 20); ("pattern", s "^\d{4}-\d{2}-\d{2}T\d{2}:\d{2}:\d{2}Z$")]); ("expiresAt", o [("type", s
  "string"); ("minLength", n 1); ("maxLength", n 20); ("pattern", s "^\d{4}-\d{2}-\d{2}T\d{2}:\d{2}:\d{2}Z$")]);
  ("apiEndpointId", o [("oneOf", a [o [("type", s "string"); ("minLength", n 1); ("maxLength", n 128); ("pattern", s
  "^[a-z0-9](?:[a-z0-9.-]{0,62})$")]; o [("type", s "null")]])])])]); ("credentialIdentity", o [("type", s "object");
  ("additionalProperties", b false); ("required", a [s "endpointId"; s "purpose"; s "subject"; s "expiresAt"; s
  "certificateDigest"; s "clientSpkiDigest"]); ("properties", o [("endpointId", o [("type", s "string"); ("minLength",
  n 1); ("maxLength", n 128); ("pattern", s "^[a-z0-9](?:[a-z0-9.-]{0,62})$")]); ("purpose", o [("enum", a [s
  "CAMPAIGN_PROXY_CLIENT_MTLS"; s "KUBERNETES_PROXY_SERVER_MTLS"])]); ("subject", o [("type", s "string");
  ("minLength", n 1); ("maxLength", n 256); ("pattern", s "^system:serviceaccount:[a-z0-9.-]+:[a-z0-9.-]+$")]);
  ("expiresAt", o [("type", s "string"); ("minLength", n 1); ("maxLength", n 20); ("pattern", s
  "^\d{4}-\d{2}-\d{2}T\d{2}:\d{2}:\d{2}Z$")]); ("certificateDigest", o [("type", s "string"); ("minLength", n 1);
  ("maxLength", n 71); ("pattern", s "^sha256:[0-9a-f]{64}$")]); ("clientSpkiDigest", o [("type", s "string");
  ("minLength", n 1); ("maxLength", n 71); ("pattern", s "^sha256:[0-9a-f]{64}$")])])]); ("apiRule", o [("type", s
  "object"); ("additionalProperties", b false); ("required", a [s "endpointId"; s "verb"; s "apiGroup"; s
  "apiVersion"; s "resource"; s "namespace"; s "name"; s "subresource"; s "requestMediaType"; s "responseMediaType"; s
  "requestMaxBytes"; s "responseMaxBytes"]); ("properties", o [("endpointId", o [("type", s "string"); ("minLength", n
  1); ("maxLength", n 128); ("pattern", s "^[a-z0-9](?:[a-z0-9.-]{0,62})$")]); ("verb", o [("enum", a [s "get"; s
  "create"; s "delete"])]); ("apiGroup", o [("const", s "")]); ("apiVersion", o [("const", s "v1")]); ("resource", o
  [("enum", a [s "pods"; s "configmaps"; s "services"])]); ("namespace", o [("type", s "string"); ("minLength", n 1);
  ("maxLength", n 128); ("pattern", s "^[a-z0-9](?:[a-z0-9.-]{0,62})$")]); ("name", o [("type", s "string");
  ("minLength", n 1); ("maxLength", n 128); ("pattern", s "^[a-z0-9](?:[a-z0-9.-]{0,62})$")]); ("subresource", o
  [("const", s "")]); ("requestMediaType", o [("const", s "application/json")]); ("responseMediaType", o [("const", s
  "application/json")]); ("requestMaxBytes", o [("const", n 16384)]); ("responseMaxBytes", o [("const", n
  4194304)])])]); ("proxyRule", o [("type", s "object"); ("additionalProperties", b false); ("required", a [s
  "endpointId"; s "namespace"; s "service"; s "port"; s "protocol"; s "methods"; s "paths"; s "requestMediaType"; s
  "responseMediaType"; s "requestMaxBytes"; s "responseMaxBytes"; s "timeoutSeconds"]); ("properties", o
  [("endpointId", o [("type", s "string"); ("minLength", n 1); ("maxLength", n 128); ("pattern", s
  "^[a-z0-9](?:[a-z0-9.-]{0,62})$")]); ("namespace", o [("type", s "string"); ("minLength", n 1); ("maxLength", n
  128); ("pattern", s "^[a-z0-9](?:[a-z0-9.-]{0,62})$")]); ("service", o [("const", s "linux-baseline-probes")]);
  ("port", o [("type", s "integer"); ("minimum", n 1); ("maximum", n 65535)]); ("protocol", o [("const", s "HTTPS")]);
  ("methods", o [("const", a [s "POST"])]); ("paths", o [("type", s "array"); ("minItems", n 10); ("maxItems", n 10);
  ("uniqueItems", b true); ("items", o [("type", s "string"); ("minLength", n 1); ("maxLength", n 128); ("pattern", s
  "^/v1/linux-baseline/[a-z-]+$")])]); ("requestMediaType", o [("const", s "application/json")]);
  ("responseMediaType", o [("const", s "application/json")]); ("requestMaxBytes", o [("const", n 16384)]);
  ("responseMaxBytes", o [("const", n 4194304)]); ("timeoutSeconds", o [("const", n 900)])])]); ("gvkRule", o
  [("type", s "object"); ("additionalProperties", b false); ("required", a [s "apiGroup"; s "apiVersion"; s "kind"; s
  "verbs"; s "names"]); ("properties", o [("apiGroup", o [("const", s "")]); ("apiVersion", o [("const", s "v1")]);
  ("kind", o [("enum", a [s "Pod"; s "ConfigMap"; s "Service"])]); ("verbs", o [("const", a [s "create"; s "get"; s
  "delete"])]); ("names", o [("type", s "array"); ("minItems", n 1); ("maxItems", n 32); ("uniqueItems", b true);
  ("items", o [("type", s "string"); ("minLength", n 1); ("maxLength", n 128); ("pattern", s
  "^[a-z0-9](?:[a-z0-9.-]{0,62})$")])])])]); ("resourceRef", o [("type", s "object"); ("additionalProperties", b
  false); ("required", a [s "apiVersion"; s "kind"; s "namespace"; s "name"; s "uid"; s "observedDigest"]);
  ("properties", o [("apiVersion", o [("const", s "v1")]); ("kind", o [("enum", a [s "ResourceQuota"; s "LimitRange";
  s "ServiceAccount"; s "Service"; s "ConfigMap"])]); ("namespace", o [("type", s "string"); ("minLength", n 1);
  ("maxLength", n 128); ("pattern", s "^[a-z0-9](?:[a-z0-9.-]{0,62})$")]); ("name", o [("type", s "string");
  ("minLength", n 1); ("maxLength", n 128); ("pattern", s "^[a-z0-9](?:[a-z0-9.-]{0,62})$")]); ("uid", o [("type", s
  "string"); ("minLength", n 1); ("maxLength", n 128); ("pattern", s "^[a-zA-Z0-9-]{1,128}$")]); ("observedDigest", o
  [("type", s "string"); ("minLength", n 1); ("maxLength", n 71); ("pattern", s "^sha256:[0-9a-f]{64}$")])])]);
  ("units", o [("type", s "object"); ("additionalProperties", b false); ("required", a [s "pods"; s "configMaps"; s
  "services"; s "cpuMillis"; s "memoryBytes"; s "ephemeralStorageBytes"]); ("properties", o [("pods", o [("type", s
  "integer"); ("minimum", n 0); ("maximum", n 9007199254740991)]); ("configMaps", o [("type", s "integer");
  ("minimum", n 0); ("maximum", n 9007199254740991)]); ("services", o [("type", s "integer"); ("minimum", n 0);
  ("maximum", n 9007199254740991)]); ("cpuMillis", o [("type", s "integer"); ("minimum", n 0); ("maximum", n
  9007199254740991)]); ("memoryBytes", o [("type", s "integer"); ("minimum", n 0); ("maximum", n 9007199254740991)]);
  ("ephemeralStorageBytes", o [("type", s "integer"); ("minimum", n 0); ("maximum", n 9007199254740991)])])]);
  ("manifest", o [("oneOf", a [o [("type", s "object"); ("additionalProperties", b false); ("required", a [s
  "apiVersion"; s "kind"; s "metadata"; s "spec"]); ("properties", o [("apiVersion", o [("const", s "v1")]); ("kind",
  o [("const", s "Pod")]); ("metadata", o [("type", s "object"); ("additionalProperties", b false); ("required", a [s
  "name"; s "namespace"; s "labels"]); ("properties", o [("name", o [("type", s "string"); ("minLength", n 1);
  ("maxLength", n 128); ("pattern", s "^[a-z0-9](?:[a-z0-9.-]{0,62})$")]); ("namespace", o [("type", s "string");
  ("minLength", n 1); ("maxLength", n 128); ("pattern", s "^[a-z0-9](?:[a-z0-9.-]{0,62})$")]); ("labels", o [("type",
  s "object"); ("additionalProperties", b false); ("required", a [s "planeon.ai/run-nonce"; s
  "planeon.ai/tenant-id"]); ("properties", o [("planeon.ai/run-nonce", o [("type", s "string"); ("minLength", n 1);
  ("maxLength", n 128); ("pattern", s "^[a-z0-9](?:[a-z0-9.-]{0,62})$")]); ("planeon.ai/tenant-id", o [("type", s
  "string"); ("minLength", n 1); ("maxLength", n 128); ("pattern", s "^[a-z0-9](?:[a-z0-9.-]{0,62})$")])])])])]);
  ("spec", o [("type", s "object"); ("additionalProperties", b false); ("required", a [s "restartPolicy"; s
  "serviceAccountName"; s "automountServiceAccountToken"; s "enableServiceLinks"; s "hostNetwork"; s "hostPID"; s
  "hostIPC"; s "containers"]); ("properties", o [("restartPolicy", o [("const", s "Never")]); ("serviceAccountName", o
  [("type", s "string"); ("minLength", n 1); ("maxLength", n 128); ("pattern", s "^[a-z0-9](?:[a-z0-9.-]{0,62})$")]);
  ("automountServiceAccountToken", o [("const", b false)]); ("enableServiceLinks", o [("const", b false)]);
  ("hostNetwork", o [("const", b false)]); ("hostPID", o [("const", b false)]); ("hostIPC", o [("const", b false)]);
  ("containers", o [("type", s "array"); ("minItems", n 1); ("maxItems", n 1); ("items", o [("type", s "object");
  ("additionalProperties", b false); ("required", a [s "name"; s "image"; s "imagePullPolicy"; s "resources"; s
  "securityContext"]); ("properties", o [("name", o [("const", s "probe")]); ("image", o [("type", s "string");
  ("minLength", n 1); ("maxLength", n 1024); ("pattern", s "^[a-z0-9][a-z0-9.:/-]*@sha256:[0-9a-f]{64}$")]);
  ("imagePullPolicy", o [("const", s "Never")]); ("resources", o [("type", s "object"); ("additionalProperties", b
  false); ("required", a [s "requests"; s "limits"]); ("properties", o [("requests", o [("type", s "object");
  ("additionalProperties", b false); ("required", a [s "cpu"; s "memory"; s "ephemeral-storage"]); ("properties", o
  [("cpu", o [("type", s "string"); ("minLength", n 1); ("maxLength", n 128); ("pattern", s "^[1-9][0-9]{0,6}m$")]);
  ("memory", o [("type", s "string"); ("minLength", n 1); ("maxLength", n 128); ("pattern", s "^[1-9][0-9]{0,14}$")]);
  ("ephemeral-storage", o [("type", s "string"); ("minLength", n 1); ("maxLength", n 128); ("pattern", s
  "^[1-9][0-9]{0,14}$")])])]); ("limits", o [("type", s "object"); ("additionalProperties", b false); ("required", a
  [s "cpu"; s "memory"; s "ephemeral-storage"]); ("properties", o [("cpu", o [("type", s "string"); ("minLength", n
  1); ("maxLength", n 128); ("pattern", s "^[1-9][0-9]{0,6}m$")]); ("memory", o [("type", s "string"); ("minLength", n
  1); ("maxLength", n 128); ("pattern", s "^[1-9][0-9]{0,14}$")]); ("ephemeral-storage", o [("type", s "string");
  ("minLength", n 1); ("maxLength", n 128); ("pattern", s "^[1-9][0-9]{0,14}$")])])])])]); ("securityContext", o
  [("type", s "object"); ("additionalProperties", b false); ("required", a [s "allowPrivilegeEscalation"; s
  "readOnlyRootFilesystem"; s "runAsNonRoot"; s "runAsUser"; s "seccompProfile"; s "capabilities"]); ("properties", o
  [("allowPrivilegeEscalation", o [("const", b false)]); ("readOnlyRootFilesystem", o [("const", b true)]);
  ("runAsNonRoot", o [("const", b true)]); ("runAsUser", o [("type", s "integer"); ("minimum", n 10000); ("maximum", n
  2147483647)]); ("seccompProfile", o [("type", s "object"); ("additionalProperties", b false); ("required", a [s
  "type"]); ("properties", o [("type", o [("const", s "RuntimeDefault")])])]); ("capabilities", o [("type", s
  "object"); ("additionalProperties", b false); ("required", a [s "drop"]); ("properties", o [("drop", o [("const", a
  [s "ALL"])])])])])])])])])])])])]; o [("type", s "object"); ("additionalProperties", b false); ("required", a [s
  "apiVersion"; s "kind"; s "metadata"; s "immutable"; s "data"]); ("properties", o [("apiVersion", o [("const", s
  "v1")]); ("kind", o [("const", s "ConfigMap")]); ("metadata", o [("type", s "object"); ("additionalProperties", b
  false); ("required", a [s "name"; s "namespace"; s "labels"]); ("properties", o [("name", o [("type", s "string");
  ("minLength", n 1); ("maxLength", n 128); ("pattern", s "^[a-z0-9](?:[a-z0-9.-]{0,62})$")]); ("namespace", o
  [("type", s "string"); ("minLength", n 1); ("maxLength", n 128); ("pattern", s "^[a-z0-9](?:[a-z0-9.-]{0,62})$")]);
  ("labels", o [("type", s "object"); ("additionalProperties", b false); ("required", a [s "planeon.ai/run-nonce"; s
  "planeon.ai/tenant-id"]); ("properties", o [("planeon.ai/run-nonce", o [("type", s "string"); ("minLength", n 1);
  ("maxLength", n 128); ("pattern", s "^[a-z0-9](?:[a-z0-9.-]{0,62})$")]); ("planeon.ai/tenant-id", o [("type", s
  "string"); ("minLength", n 1); ("maxLength", n 128); ("pattern", s "^[a-z0-9](?:[a-z0-9.-]{0,62})$")])])])])]);
  ("immutable", o [("const", b true)]); ("data", o [("type", s "object"); ("additionalProperties", b false);
  ("required", a [s "fixture.json"]); ("properties", o [("fixture.json", o [("type", s "string"); ("maxLength", n
  8192)])])])])]; o [("type", s "object"); ("additionalProperties", b false); ("required", a [s "apiVersion"; s
  "kind"; s "metadata"; s "spec"]); ("properties", o [("apiVersion", o [("const", s "v1")]); ("kind", o [("const", s
  "Service")]); ("metadata", o [("type", s "object"); ("additionalProperties", b false); ("required", a [s "name"; s
  "namespace"; s "labels"]); ("properties", o [("name", o [("type", s "string"); ("minLength", n 1); ("maxLength", n
  128); ("pattern", s "^[a-z0-9](?:[a-z0-9.-]{0,62})$")]); ("namespace", o [("type", s "string"); ("minLength", n 1);
  ("maxLength", n 128); ("pattern", s "^[a-z0-9](?:[a-z0-9.-]{0,62})$")]); ("labels", o [("type", s "object");
  ("additionalProperties", b false); ("required", a [s "planeon.ai/run-nonce"; s "planeon.ai/tenant-id"]);
  ("properties", o [("planeon.ai/run-nonce", o [("type", s "string"); ("minLength", n 1); ("maxLength", n 128);
  ("pattern", s "^[a-z0-9](?:[a-z0-9.-]{0,62})$")]); ("planeon.ai/tenant-id", o [("type", s "string"); ("minLength", n
  1); ("maxLength", n 128); ("pattern", s "^[a-z0-9](?:[a-z0-9.-]{0,62})$")])])])])]); ("spec", o [("type", s
  "object"); ("additionalProperties", b false); ("required", a [s "type"; s "selector"; s "ports"]); ("properties", o
  [("type", o [("const", s "ClusterIP")]); ("selector", o [("type", s "object"); ("additionalProperties", b false);
  ("required", a [s "planeon.ai/run-nonce"; s "planeon.ai/tenant-id"]); ("properties", o [("planeon.ai/run-nonce", o
  [("type", s "string"); ("minLength", n 1); ("maxLength", n 128); ("pattern", s "^[a-z0-9](?:[a-z0-9.-]{0,62})$")]);
  ("planeon.ai/tenant-id", o [("type", s "string"); ("minLength", n 1); ("maxLength", n 128); ("pattern", s
  "^[a-z0-9](?:[a-z0-9.-]{0,62})$")])])]); ("ports", o [("type", s "array"); ("minItems", n 1); ("maxItems", n 1);
  ("items", o [("type", s "object"); ("additionalProperties", b false); ("required", a [s "name"; s "protocol"; s
  "port"; s "targetPort"]); ("properties", o [("name", o [("const", s "probe")]); ("protocol", o [("const", s
  "TCP")]); ("port", o [("type", s "integer"); ("minimum", n 1); ("maximum", n 65535)]); ("targetPort", o [("type", s
  "integer"); ("minimum", n 1); ("maximum", n 65535)])])])])])])])]])]); ("resource", o [("type", s "object");
  ("additionalProperties", b false); ("required", a [s "manifest"; s "manifestDigest"]); ("properties", o
  [("manifest", o [("$ref", s "#/$defs/manifest")]); ("manifestDigest", o [("type", s "string"); ("minLength", n 1);
  ("maxLength", n 71); ("pattern", s "^sha256:[0-9a-f]{64}$")])])]); ("policy", o [("type", s "object");
  ("additionalProperties", b false); ("required", a [s "admissionPolicyDigest"; s "resourceQuotaDigest"; s
  "limitRangeDigest"; s "namespaceUid"; s "resourceQuotaUid"; s "limitRangeUid"; s "serviceAccountUid"; s
  "rbacDigest"; s "networkPolicyDigest"; s "mutationBrokerDigest"; s "maxConcurrentOperations"; s
  "serviceAccountDigest"]); ("properties", o [("admissionPolicyDigest", o [("type", s "string"); ("minLength", n 1);
  ("maxLength", n 71); ("pattern", s "^sha256:[0-9a-f]{64}$")]); ("resourceQuotaDigest", o [("type", s "string");
  ("minLength", n 1); ("maxLength", n 71); ("pattern", s "^sha256:[0-9a-f]{64}$")]); ("limitRangeDigest", o [("type",
  s "string"); ("minLength", n 1); ("maxLength", n 71); ("pattern", s "^sha256:[0-9a-f]{64}$")]); ("namespaceUid", o
  [("type", s "string"); ("minLength", n 1); ("maxLength", n 128); ("pattern", s "^[a-zA-Z0-9-]{1,128}$")]);
  ("resourceQuotaUid", o [("type", s "string"); ("minLength", n 1); ("maxLength", n 128); ("pattern", s
  "^[a-zA-Z0-9-]{1,128}$")]); ("limitRangeUid", o [("type", s "string"); ("minLength", n 1); ("maxLength", n 128);
  ("pattern", s "^[a-zA-Z0-9-]{1,128}$")]); ("serviceAccountUid", o [("type", s "string"); ("minLength", n 1);
  ("maxLength", n 128); ("pattern", s "^[a-zA-Z0-9-]{1,128}$")]); ("rbacDigest", o [("type", s "string");
  ("minLength", n 1); ("maxLength", n 71); ("pattern", s "^sha256:[0-9a-f]{64}$")]); ("networkPolicyDigest", o
  [("type", s "string"); ("minLength", n 1); ("maxLength", n 71); ("pattern", s "^sha256:[0-9a-f]{64}$")]);
  ("mutationBrokerDigest", o [("type", s "string"); ("minLength", n 1); ("maxLength", n 71); ("pattern", s
  "^sha256:[0-9a-f]{64}$")]); ("maxConcurrentOperations", o [("const", n 1)]); ("serviceAccountDigest", o [("type", s
  "string"); ("minLength", n 1); ("maxLength", n 71); ("pattern", s "^sha256:[0-9a-f]{64}$")])])])])].

(* @src src/src/harness_conformance/live_mutation_admission.py:28-28 _OBSERVATION_SPEC *)
Definition _OBSERVATION_SPEC : value :=
  o [("$schema", s "https://json-schema.org/draft/2020-12/schema"); ("$id", s
  "https://schemas.planeon.ai/internal/policy-observation/v1.json"); ("oneOf", a [o [("$ref", s "#/$defs/binding")]; o
  [("$ref", s "#/$defs/request")]; o [("$ref", s "#/$defs/observation")]]); ("$defs", o [("binding", o [("type", s
  "object"); ("additionalProperties", b false); ("required", a [s "schemaVersion"; s "profileDigest"; s "scope"; s
  "observer"; s "namespace"; s "projections"; s "enforcementPins"]); ("properties", o [("schemaVersion", o [("const",
  s "planeon.internal.policy-observation-binding/v1")]); ("profileDigest", o [("type", s "string"); ("minLength", n
  1); ("maxLength", n 71); ("pattern", s "^sha256:[0-9a-f]{64}$")]); ("scope", o [("type", s "object");
  ("additionalProperties", b false); ("required", a [s "tenantId"; s "environmentId"; s "runNonce"; s "capacityNonce";
  s "endpointId"; s "namespace"; s "serviceAccountSubject"; s "validFrom"; s "expiresAt"]); ("properties", o
  [("tenantId", o [("type", s "string"); ("minLength", n 1); ("maxLength", n 63); ("pattern", s
  "^[a-z0-9][a-z0-9.-]{0,62}$")]); ("environmentId", o [("type", s "string"); ("minLength", n 1); ("maxLength", n 63);
  ("pattern", s "^[a-z0-9][a-z0-9.-]{0,62}$")]); ("runNonce", o [("type", s "string"); ("minLength", n 1);
  ("maxLength", n 63); ("pattern", s "^[a-z0-9][a-z0-9.-]{0,62}$")]); ("capacityNonce", o [("type", s "string");
  ("minLength", n 1); ("maxLength", n 63); ("pattern", s "^[a-z0-9][a-z0-9.-]{0,62}$")]); ("endpointId", o [("type", s
  "string"); ("minLength", n 1); ("maxLength", n 63); ("pattern", s "^[a-z0-9][a-z0-9.-]{0,62}$")]); ("namespace", o
  [("type", s "string"); ("minLength", n 1); ("maxLength", n 63); ("pattern", s "^[a-z0-9][a-z0-9.-]{0,62}$")]);
  ("serviceAccountSubject", o [("type", s "string"); ("minLength", n 1); ("maxLength", n 256); ("pattern", s
  "^system:serviceaccount:[a-z0-9.-]+:[a-z0-9.-]+$")]); ("validFrom", o [("type", s "string"); ("minLength", n 1);
  ("maxLength", n 20); ("pattern", s "^[0-9]{4}-[0-9]{2}-[0-9]{2}T[0-9]{2}:[0-9]{2}:[0-9]{2}Z$")]); ("expiresAt", o
  [("type", s "string"); ("minLength", n 1); ("maxLength", n 20); ("pattern", s
  "^[0-9]{4}-[0-9]{2}-[0-9]{2}T[0-9]{2}:[0-9]{2}:[0-9]{2}Z$")])])]); ("observer", o [("type", s "object");
  ("additionalProperties", b false); ("required", a [s "executableDigest"; s "manifestDigest"]); ("properties", o
  [("executableDigest", o [("type", s "string"); ("minLength", n 1); ("maxLength", n 71); ("pattern", s
  "^sha256:[0-9a-f]{64}$")]); ("manifestDigest", o [("type", s "string"); ("minLength", n 1); ("maxLength", n 71);
  ("pattern", s "^sha256:[0-9a-f]{64}$")])])]); ("namespace", o [("type", s "object"); ("additionalProperties", b
  false); ("required", a [s "name"; s "uid"]); ("properties", o [("name", o [("type", s "string"); ("minLength", n 1);
  ("maxLength", n 63); ("pattern", s "^[a-z0-9][a-z0-9.-]{0,62}$")]); ("uid", o [("type", s "string"); ("minLength", n
  1); ("maxLength", n 128); ("pattern", s "^[A-Za-z0-9-]{1,128}$")])])]); ("projections", o [("type", s "object");
  ("additionalProperties", b false); ("required", a [s "admissionPolicy"; s "resourceQuota"; s "limitRange"; s
  "serviceAccount"; s "rbac"; s "networkPolicy"; s "mutationBroker"]); ("properties", o [("admissionPolicy", o
  [("type", s "object"); ("additionalProperties", b false); ("required", a [s "apiVersion"; s "kind"; s "name"; s
  "namespace"; s "uid"; s "projectionDigest"]); ("properties", o [("apiVersion", o [("type", s "string");
  ("minLength", n 1); ("maxLength", n 128); ("pattern", s "^[A-Za-z0-9./-]+$")]); ("kind", o [("type", s "string");
  ("minLength", n 1); ("maxLength", n 128); ("pattern", s "^[A-Za-z][A-Za-z0-9]+$")]); ("name", o [("type", s
  "string"); ("minLength", n 1); ("maxLength", n 63); ("pattern", s "^[a-z0-9][a-z0-9.-]{0,62}$")]); ("namespace", o
  [("oneOf", a [o [("type", s "string"); ("minLength", n 1); ("maxLength", n 63); ("pattern", s
  "^[a-z0-9][a-z0-9.-]{0,62}$")]; o [("type", s "null")]])]); ("uid", o [("type", s "string"); ("minLength", n 1);
  ("maxLength", n 128); ("pattern", s "^[A-Za-z0-9-]{1,128}$")]); ("projectionDigest", o [("type", s "string");
  ("minLength", n 1); ("maxLength", n 71); ("pattern", s "^sha256:[0-9a-f]{64}$")])])]); ("resourceQuota", o [("type",
  s "object"); ("additionalProperties", b false); ("required", a [s "apiVersion"; s "kind"; s "name"; s "namespace"; s
  "uid"; s "projectionDigest"]); ("properties", o [("apiVersion", o [("type", s "string"); ("minLength", n 1);
  ("maxLength", n 128); ("pattern", s "^[A-Za-z0-9./-]+$")]); ("kind", o [("type", s "string"); ("minLength", n 1);
  ("maxLength", n 128); ("pattern", s "^[A-Za-z][A-Za-z0-9]+$")]); ("name", o [("type", s "string"); ("minLength", n
  1); ("maxLength", n 63); ("pattern", s "^[a-z0-9][a-z0-9.-]{0,62}$")]); ("namespace", o [("oneOf", a [o [("type", s
  "string"); ("minLength", n 1); ("maxLength", n 63); ("pattern", s "^[a-z0-9][a-z0-9.-]{0,62}$")]; o [("type", s
  "null")]])]); ("uid", o [("type", s "string"); ("minLength", n 1); ("maxLength", n 128); ("pattern", s
  "^[A-Za-z0-9-]{1,128}$")]); ("projectionDigest", o [("type", s "string"); ("minLength", n 1); ("maxLength", n 71);
  ("pattern", s "^sha256:[0-9a-f]{64}$")])])]); ("limitRange", o [("type", s "object"); ("additionalProperties", b
  false); ("required", a [s "apiVersion"; s "kind"; s "name"; s "namespace"; s "uid"; s "projectionDigest"]);
  ("properties", o [("apiVersion", o [("type", s "string"); ("minLength", n 1); ("maxLength", n 128); ("pattern", s
  "^[A-Za-z0-9./-]+$")]); ("kind", o [("type", s "string"); ("minLength", n 1); ("maxLength", n 128); ("pattern", s
  "^[A-Za-z][A-Za-z0-9]+$")]); ("name", o [("type", s "string"); ("minLength", n 1); ("maxLength", n 63); ("pattern",
  s "^[a-z0-9][a-z0-9.-]{0,62}$")]); ("namespace", o [("oneOf", a [o [("type", s "string"); ("minLength", n 1);
  ("maxLength", n 63); ("pattern", s "^[a-z0-9][a-z0-9.-]{0,62}$")]; o [("type", s "null")]])]); ("uid", o [("type", s
  "string"); ("minLength", n 1); ("maxLength", n 128); ("pattern", s "^[A-Za-z0-9-]{1,128}$")]); ("projectionDigest",
  o [("type", s "string"); ("minLength", n 1); ("maxLength", n 71); ("pattern", s "^sha256:[0-9a-f]{64}$")])])]);
  ("serviceAccount", o [("type", s "object"); ("additionalProperties", b false); ("required", a [s "apiVersion"; s
  "kind"; s "name"; s "namespace"; s "uid"; s "projectionDigest"]); ("properties", o [("apiVersion", o [("type", s
  "string"); ("minLength", n 1); ("maxLength", n 128); ("pattern", s "^[A-Za-z0-9./-]+$")]); ("kind", o [("type", s
  "string"); ("minLength", n 1); ("maxLength", n 128); ("pattern", s "^[A-Za-z][A-Za-z0-9]+$")]); ("name", o [("type",
  s "string"); ("minLength", n 1); ("maxLength", n 63); ("pattern", s "^[a-z0-9][a-z0-9.-]{0,62}$")]); ("namespace", o
  [("oneOf", a [o [("type", s "string"); ("minLength", n 1); ("maxLength", n 63); ("pattern", s
  "^[a-z0-9][a-z0-9.-]{0,62}$")]; o [("type", s "null")]])]); ("uid", o [("type", s "string"); ("minLength", n 1);
  ("maxLength", n 128); ("pattern", s "^[A-Za-z0-9-]{1,128}$")]); ("projectionDigest", o [("type", s "string");
  ("minLength", n 1); ("maxLength", n 71); ("pattern", s "^sha256:[0-9a-f]{64}$")])])]); ("rbac", o [("type", s
  "object"); ("additionalProperties", b false); ("required", a [s "apiVersion"; s "kind"; s "name"; s "namespace"; s
  "uid"; s "projectionDigest"]); ("properties", o [("apiVersion", o [("type", s "string"); ("minLength", n 1);
  ("maxLength", n 128); ("pattern", s "^[A-Za-z0-9./-]+$")]); ("kind", o [("type", s "string"); ("minLength", n 1);
  ("maxLength", n 128); ("pattern", s "^[A-Za-z][A-Za-z0-9]+$")]); ("name", o [("type", s "string"); ("minLength", n
  1); ("maxLength", n 63); ("pattern", s "^[a-z0-9][a-z0-9.-]{0,62}$")]); ("namespace", o [("oneOf", a [o [("type", s
  "string"); ("minLength", n 1); ("maxLength", n 63); ("pattern", s "^[a-z0-9][a-z0-9.-]{0,62}$")]; o [("type", s
  "null")]])]); ("uid", o [("type", s "string"); ("minLength", n 1); ("maxLength", n 128); ("pattern", s
  "^[A-Za-z0-9-]{1,128}$")]); ("projectionDigest", o [("type", s "string"); ("minLength", n 1); ("maxLength", n 71);
  ("pattern", s "^sha256:[0-9a-f]{64}$")])])]); ("networkPolicy", o [("type", s "object"); ("additionalProperties", b
  false); ("required", a [s "apiVersion"; s "kind"; s "name"; s "namespace"; s "uid"; s "projectionDigest"]);
  ("properties", o [("apiVersion", o [("type", s "string"); ("minLength", n 1); ("maxLength", n 128); ("pattern", s
  "^[A-Za-z0-9./-]+$")]); ("kind", o [("type", s "string"); ("minLength", n 1); ("maxLength", n 128); ("pattern", s
  "^[A-Za-z][A-Za-z0-9]+$")]); ("name", o [("type", s "string"); ("minLength", n 1); ("maxLength", n 63); ("pattern",
  s "^[a-z0-9][a-z0-9.-]{0,62}$")]); ("namespace", o [("oneOf", a [o [("type", s "string"); ("minLength", n 1);
  ("maxLength", n 63); ("pattern", s "^[a-z0-9][a-z0-9.-]{0,62}$")]; o [("type", s "null")]])]); ("uid", o [("type", s
  "string"); ("minLength", n 1); ("maxLength", n 128); ("pattern", s "^[A-Za-z0-9-]{1,128}$")]); ("projectionDigest",
  o [("type", s "string"); ("minLength", n 1); ("maxLength", n 71); ("pattern", s "^sha256:[0-9a-f]{64}$")])])]);
  ("mutationBroker", o [("type", s "object"); ("additionalProperties", b false); ("required", a [s "apiVersion"; s
  "kind"; s "name"; s "namespace"; s "uid"; s "projectionDigest"]); ("properties", o [("apiVersion", o [("type", s
  "string"); ("minLength", n 1); ("maxLength", n 128); ("pattern", s "^[A-Za-z0-9./-]+$")]); ("kind", o [("type", s
  "string"); ("minLength", n 1); ("maxLength", n 128); ("pattern", s "^[A-Za-z][A-Za-z0-9]+$")]); ("name", o [("type",
  s "string"); ("minLength", n 1); ("maxLength", n 63); ("pattern", s "^[a-z0-9][a-z0-9.-]{0,62}$")]); ("namespace", o
  [("oneOf", a [o [("type", s "string"); ("minLength", n 1); ("maxLength", n 63); ("pattern", s
  "^[a-z0-9][a-z0-9.-]{0,62}$")]; o [("type", s "null")]])]); ("uid", o [("type", s "string"); ("minLength", n 1);
  ("maxLength", n 128); ("pattern", s "^[A-Za-z0-9-]{1,128}$")]); ("projectionDigest", o [("type", s "string");
  ("minLength", n 1); ("maxLength", n 71); ("pattern", s "^sha256:[0-9a-f]{64}$")])])])])]); ("enforcementPins", o
  [("type", s "object"); ("additionalProperties", b false); ("required", a [s "admissionFenceDigest"; s
  "rbacClosureDigest"; s "networkEnforcementDigest"; s "hostPreflightDigest"]); ("properties", o
  [("admissionFenceDigest", o [("type", s "string"); ("minLength", n 1); ("maxLength", n 71); ("pattern", s
  "^sha256:[0-9a-f]{64}$")]); ("rbacClosureDigest", o [("type", s "string"); ("minLength", n 1); ("maxLength", n 71);
  ("pattern", s "^sha256:[0-9a-f]{64}$")]); ("networkEnforcementDigest", o [("type", s "string"); ("minLength", n 1);
  ("maxLength", n 71); ("pattern", s "^sha256:[0-9a-f]{64}$")]); ("hostPreflightDigest", o [("type", s "string");
  ("minLength", n 1); ("maxLength", n 71); ("pattern", s "^sha256:[0-9a-f]{64}$")])])])])]); ("request", o [("type", s
  "object"); ("additionalProperties", b false); ("required", a [s "schemaVersion"; s "operation"; s "bindingDigest"; s
  "runNonce"; s "challenge"; s "sequence"; s "previousObservationDigest"]); ("properties", o [("schemaVersion", o
  [("const", s "planeon.internal.policy-observation-request/v1")]); ("operation", o [("const", s "OBSERVE_POLICY")]);
  ("bindingDigest", o [("type", s "string"); ("minLength", n 1); ("maxLength", n 71); ("pattern", s
  "^sha256:[0-9a-f]{64}$")]); ("runNonce", o [("type", s "string"); ("minLength", n 1); ("maxLength", n 63);
  ("pattern", s "^[a-z0-9][a-z0-9.-]{0,62}$")]); ("challenge", o [("type", s "string"); ("minLength", n 1);
  ("maxLength", n 64); ("pattern", s "^[0-9a-f]{64}$")]); ("sequence", o [("type", s "integer"); ("minimum", n 1);
  ("maximum", n 9007199254740991)]); ("previousObservationDigest", o [("type", s "string"); ("minLength", n 1);
  ("maxLength", n 71); ("pattern", s "^sha256:[0-9a-f]{64}$")])])]); ("observation", o [("type", s "object");
  ("additionalProperties", b false); ("required", a [s "schemaVersion"; s "bindingDigest"; s "runNonce"; s
  "challenge"; s "sequence"; s "previousObservationDigest"; s "observerBootId"; s "generation"; s "observedAt"; s
  "expiresAt"; s "namespace"; s "projections"; s "quota"; s "enforcement"]); ("properties", o [("schemaVersion", o
  [("const", s "planeon.internal.policy-observation/v1")]); ("bindingDigest", o [("type", s "string"); ("minLength", n
  1); ("maxLength", n 71); ("pattern", s "^sha256:[0-9a-f]{64}$")]); ("runNonce", o [("type", s "string");
  ("minLength", n 1); ("maxLength", n 63); ("pattern", s "^[a-z0-9][a-z0-9.-]{0,62}$")]); ("challenge", o [("type", s
  "string"); ("minLength", n 1); ("maxLength", n 64); ("pattern", s "^[0-9a-f]{64}$")]); ("sequence", o [("type", s
  "integer"); ("minimum", n 1); ("maximum", n 9007199254740991)]); ("previousObservationDigest", o [("type", s
  "string"); ("minLength", n 1); ("maxLength", n 71); ("pattern", s "^sha256:[0-9a-f]{64}$")]); ("observerBootId", o
  [("type", s "string"); ("minLength", n 1); ("maxLength", n 36); ("pattern", s
  "^[0-9a-f]{8}(-[0-9a-f]{4}){3}-[0-9a-f]{12}$")]); ("generation", o [("type", s "string"); ("minLength", n 1);
  ("maxLength", n 64); ("pattern", s "^[0-9a-f]{64}$")]); ("observedAt", o [("type", s "string"); ("minLength", n 1);
  ("maxLength", n 20); ("pattern", s "^[0-9]{4}-[0-9]{2}-[0-9]{2}T[0-9]{2}:[0-9]{2}:[0-9]{2}Z$")]); ("expiresAt", o
  [("type", s "string"); ("minLength", n 1); ("maxLength", n 20); ("pattern", s
  "^[0-9]{4}-[0-9]{2}-[0-9]{2}T[0-9]{2}:[0-9]{2}:[0-9]{2}Z$")]); ("namespace", o [("type", s "object");
  ("additionalProperties", b false); ("required", a [s "name"; s "uid"; s "resourceVersion"]); ("properties", o
  [("name", o [("type", s "string"); ("minLength", n 1); ("maxLength", n 63); ("pattern", s
  "^[a-z0-9][a-z0-9.-]{0,62}$")]); ("uid", o [("type", s "string"); ("minLength", n 1); ("maxLength", n 128);
  ("pattern", s "^[A-Za-z0-9-]{1,128}$")]); ("resourceVersion", o [("type", s "string"); ("minLength", n 1);
  ("maxLength", n 128); ("pattern", s "^[A-Za-z0-9._:-]+$")])])]); ("projections", o [("type", s "object");
  ("additionalProperties", b false); ("required", a [s "admissionPolicy"; s "resourceQuota"; s "limitRange"; s
  "serviceAccount"; s "rbac"; s "networkPolicy"; s "mutationBroker"]); ("properties", o [("admissionPolicy", o
  [("type", s "object"); ("additionalProperties", b false); ("required", a [s "apiVersion"; s "kind"; s "name"; s
  "namespace"; s "uid"; s "projectionDigest"; s "resourceVersion"]); ("properties", o [("apiVersion", o [("type", s
  "string"); ("minLength", n 1); ("maxLength", n 128); ("pattern", s "^[A-Za-z0-9./-]+$")]); ("kind", o [("type", s
  "string"); ("minLength", n 1); ("maxLength", n 128); ("pattern", s "^[A-Za-z][A-Za-z0-9]+$")]); ("name", o [("type",
  s "string"); ("minLength", n 1); ("maxLength", n 63); ("pattern", s "^[a-z0-9][a-z0-9.-]{0,62}$")]); ("namespace", o
  [("oneOf", a [o [("type", s "string"); ("minLength", n 1); ("maxLength", n 63); ("pattern", s
  "^[a-z0-9][a-z0-9.-]{0,62}$")]; o [("type", s "null")]])]); ("uid", o [("type", s "string"); ("minLength", n 1);
  ("maxLength", n 128); ("pattern", s "^[A-Za-z0-9-]{1,128}$")]); ("projectionDigest", o [("type", s "string");
  ("minLength", n 1); ("maxLength", n 71); ("pattern", s "^sha256:[0-9a-f]{64}$")]); ("resourceVersion", o [("type", s
  "string"); ("minLength", n 1); ("maxLength", n 128); ("pattern", s "^[A-Za-z0-9._:-]+$")])])]); ("resourceQuota", o
  [("type", s "object"); ("additionalProperties", b false); ("required", a [s "apiVersion"; s "kind"; s "name"; s
  "namespace"; s "uid"; s "projectionDigest"; s "resourceVersion"]); ("properties", o [("apiVersion", o [("type", s
  "string"); ("minLength", n 1); ("maxLength", n 128); ("pattern", s "^[A-Za-z0-9./-]+$")]); ("kind", o [("type", s
  "string"); ("minLength", n 1); ("maxLength", n 128); ("pattern", s "^[A-Za-z][A-Za-z0-9]+$")]); ("name", o [("type",
  s "string"); ("minLength", n 1); ("maxLength", n 63); ("pattern", s "^[a-z0-9][a-z0-9.-]{0,62}$")]); ("namespace", o
  [("oneOf", a [o [("type", s "string"); ("minLength", n 1); ("maxLength", n 63); ("pattern", s
  "^[a-z0-9][a-z0-9.-]{0,62}$")]; o [("type", s "null")]])]); ("uid", o [("type", s "string"); ("minLength", n 1);
  ("maxLength", n 128); ("pattern", s "^[A-Za-z0-9-]{1,128}$")]); ("projectionDigest", o [("type", s "string");
  ("minLength", n 1); ("maxLength", n 71); ("pattern", s "^sha256:[0-9a-f]{64}$")]); ("resourceVersion", o [("type", s
  "string"); ("minLength", n 1); ("maxLength", n 128); ("pattern", s "^[A-Za-z0-9._:-]+$")])])]); ("limitRange", o
  [("type", s "object"); ("additionalProperties", b false); ("required", a [s "apiVersion"; s "kind"; s "name"; s
  "namespace"; s "uid"; s "projectionDigest"; s "resourceVersion"]); ("properties", o [("apiVersion", o [("type", s
  "string"); ("minLength", n 1); ("maxLength", n 128); ("pattern", s "^[A-Za-z0-9./-]+$")]); ("kind", o [("type", s
  "string"); ("minLength", n 1); ("maxLength", n 128); ("pattern", s "^[A-Za-z][A-Za-z0-9]+$")]); ("name", o [("type",
  s "string"); ("minLength", n 1); ("maxLength", n 63); ("pattern", s "^[a-z0-9][a-z0-9.-]{0,62}$")]); ("namespace", o
  [("oneOf", a [o [("type", s "string"); ("minLength", n 1); ("maxLength", n 63); ("pattern", s
  "^[a-z0-9][a-z0-9.-]{0,62}$")]; o [("type", s "null")]])]); ("uid", o [("type", s "string"); ("minLength", n 1);
  ("maxLength", n 128); ("pattern", s "^[A-Za-z0-9-]{1,128}$")]); ("projectionDigest", o [("type", s "string");
  ("minLength", n 1); ("maxLength", n 71); ("pattern", s "^sha256:[0-9a-f]{64}$")]); ("resourceVersion", o [("type", s
  "string"); ("minLength", n 1); ("maxLength", n 128); ("pattern", s "^[A-Za-z0-9._:-]+$")])])]); ("serviceAccount", o
  [("type", s "object"); ("additionalProperties", b false); ("required", a [s "apiVersion"; s "kind"; s "name"; s
  "namespace"; s "uid"; s "projectionDigest"; s "resourceVersion"]); ("properties", o [("apiVersion", o [("type", s
  "string"); ("minLength", n 1); ("maxLength", n 128); ("pattern", s "^[A-Za-z0-9./-]+$")]); ("kind", o [("type", s
  "string"); ("minLength", n 1); ("maxLength", n 128); ("pattern", s "^[A-Za-z][A-Za-z0-9]+$")]); ("name", o [("type",
  s "string"); ("minLength", n 1); ("maxLength", n 63); ("pattern", s "^[a-z0-9][a-z0-9.-]{0,62}$")]); ("namespace", o
  [("oneOf", a [o [("type", s "string"); ("minLength", n 1); ("maxLength", n 63); ("pattern", s
  "^[a-z0-9][a-z0-9.-]{0,62}$")]; o [("type", s "null")]])]); ("uid", o [("type", s "string"); ("minLength", n 1);
  ("maxLength", n 128); ("pattern", s "^[A-Za-z0-9-]{1,128}$")]); ("projectionDigest", o [("type", s "string");
  ("minLength", n 1); ("maxLength", n 71); ("pattern", s "^sha256:[0-9a-f]{64}$")]); ("resourceVersion", o [("type", s
  "string"); ("minLength", n 1); ("maxLength", n 128); ("pattern", s "^[A-Za-z0-9._:-]+$")])])]); ("rbac", o [("type",
  s "object"); ("additionalProperties", b false); ("required", a [s "apiVersion"; s "kind"; s "name"; s "namespace"; s
  "uid"; s "projectionDigest"; s "resourceVersion"]); ("properties", o [("apiVersion", o [("type", s "string");
  ("minLength", n 1); ("maxLength", n 128); ("pattern", s "^[A-Za-z0-9./-]+$")]); ("kind", o [("type", s "string");
  ("minLength", n 1); ("maxLength", n 128); ("pattern", s "^[A-Za-z][A-Za-z0-9]+$")]); ("name", o [("type", s
  "string"); ("minLength", n 1); ("maxLength", n 63); ("pattern", s "^[a-z0-9][a-z0-9.-]{0,62}$")]); ("namespace", o
  [("oneOf", a [o [("type", s "string"); ("minLength", n 1); ("maxLength", n 63); ("pattern", s
  "^[a-z0-9][a-z0-9.-]{0,62}$")]; o [("type", s "null")]])]); ("uid", o [("type", s "string"); ("minLength", n 1);
  ("maxLength", n 128); ("pattern", s "^[A-Za-z0-9-]{1,128}$")]); ("projectionDigest", o [("type", s "string");
  ("minLength", n 1); ("maxLength", n 71); ("pattern", s "^sha256:[0-9a-f]{64}$")]); ("resourceVersion", o [("type", s
  "string"); ("minLength", n 1); ("maxLength", n 128); ("pattern", s "^[A-Za-z0-9._:-]+$")])])]); ("networkPolicy", o
  [("type", s "object"); ("additionalProperties", b false); ("required", a [s "apiVersion"; s "kind"; s "name"; s
  "namespace"; s "uid"; s "projectionDigest"; s "resourceVersion"]); ("properties", o [("apiVersion", o [("type", s
  "string"); ("minLength", n 1); ("maxLength", n 128); ("pattern", s "^[A-Za-z0-9./-]+$")]); ("kind", o [("type", s
  "string"); ("minLength", n 1); ("maxLength", n 128); ("pattern", s "^[A-Za-z][A-Za-z0-9]+$")]); ("name", o [("type",
  s "string"); ("minLength", n 1); ("maxLength", n 63); ("pattern", s "^[a-z0-9][a-z0-9.-]{0,62}$")]); ("namespace", o
  [("oneOf", a [o [("type", s "string"); ("minLength", n 1); ("maxLength", n 63); ("pattern", s
  "^[a-z0-9][a-z0-9.-]{0,62}$")]; o [("type", s "null")]])]); ("uid", o [("type", s "string"); ("minLength", n 1);
  ("maxLength", n 128); ("pattern", s "^[A-Za-z0-9-]{1,128}$")]); ("projectionDigest", o [("type", s "string");
  ("minLength", n 1); ("maxLength", n 71); ("pattern", s "^sha256:[0-9a-f]{64}$")]); ("resourceVersion", o [("type", s
  "string"); ("minLength", n 1); ("maxLength", n 128); ("pattern", s "^[A-Za-z0-9._:-]+$")])])]); ("mutationBroker", o
  [("type", s "object"); ("additionalProperties", b false); ("required", a [s "apiVersion"; s "kind"; s "name"; s
  "namespace"; s "uid"; s "projectionDigest"; s "resourceVersion"]); ("properties", o [("apiVersion", o [("type", s
  "string"); ("minLength", n 1); ("maxLength", n 128); ("pattern", s "^[A-Za-z0-9./-]+$")]); ("kind", o [("type", s
  "string"); ("minLength", n 1); ("maxLength", n 128); ("pattern", s "^[A-Za-z][A-Za-z0-9]+$")]); ("name", o [("type",
  s "string"); ("minLength", n 1); ("maxLength", n 63); ("pattern", s "^[a-z0-9][a-z0-9.-]{0,62}$")]); ("namespace", o
  [("oneOf", a [o [("type", s "string"); ("minLength", n 1); ("maxLength", n 63); ("pattern", s
  "^[a-z0-9][a-z0-9.-]{0,62}$")]; o [("type", s "null")]])]); ("uid", o [("type", s "string"); ("minLength", n 1);
  ("maxLength", n 128); ("pattern", s "^[A-Za-z0-9-]{1,128}$")]); ("projectionDigest", o [("type", s "string");
  ("minLength", n 1); ("maxLength", n 71); ("pattern", s "^sha256:[0-9a-f]{64}$")]); ("resourceVersion", o [("type", s
  "string"); ("minLength", n 1); ("maxLength", n 128); ("pattern", s "^[A-Za-z0-9._:-]+$")])])])])]); ("quota", o
  [("type", s "object"); ("additionalProperties", b false); ("required", a [s "hard"; s "used"]); ("properties", o
  [("hard", o [("type", s "object"); ("additionalProperties", b false); ("required", a [s "pods"; s "configMaps"; s
  "services"; s "cpuMillis"; s "memoryBytes"; s "ephemeralStorageBytes"]); ("properties", o [("pods", o [("type", s
  "integer"); ("minimum", n 0); ("maximum", n 9007199254740991)]); ("configMaps", o [("type", s "integer");
  ("minimum", n 0); ("maximum", n 9007199254740991)]); ("services", o [("type", s "integer"); ("minimum", n 0);
  ("maximum", n 9007199254740991)]); ("cpuMillis", o [("type", s "integer"); ("minimum", n 0); ("maximum", n
  9007199254740991)]); ("memoryBytes", o [("type", s "integer"); ("minimum", n 0); ("maximum", n 9007199254740991)]);
  ("ephemeralStorageBytes", o [("type", s "integer"); ("minimum", n 0); ("maximum", n 9007199254740991)])])]);
  ("used", o [("type", s "object"); ("additionalProperties", b false); ("required", a [s "pods"; s "configMaps"; s
  "services"; s "cpuMillis"; s "memoryBytes"; s "ephemeralStorageBytes"]); ("properties", o [("pods", o [("type", s
  "integer"); ("minimum", n 0); ("maximum", n 9007199254740991)]); ("configMaps", o [("type", s "integer");
  ("minimum", n 0); ("maximum", n 9007199254740991)]); ("services", o [("type", s "integer"); ("minimum", n 0);
  ("maximum", n 9007199254740991)]); ("cpuMillis", o [("type", s "integer"); ("minimum", n 0); ("maximum", n
  9007199254740991)]); ("memoryBytes", o [("type", s "integer"); ("minimum", n 0); ("maximum", n 9007199254740991)]);
  ("ephemeralStorageBytes", o [("type", s "integer"); ("minimum", n 0); ("maximum", n 9007199254740991)])])])])]);
  ("enforcement", o [("type", s "object"); ("additionalProperties", b false); ("required", a [s "policyGeneration"; s
  "admissionFenceDigest"; s "rbacClosureDigest"; s "networkEnforcementDigest"; s "hostPreflightDigest"]);
  ("properties", o [("policyGeneration", o [("type", s "string"); ("minLength", n 1); ("maxLength", n 64); ("pattern",
  s "^[0-9a-f]{64}$")]); ("admissionFenceDigest", o [("type", s "string"); ("minLength", n 1); ("maxLength", n 71);
  ("pattern", s "^sha256:[0-9a-f]{64}$")]); ("rbacClosureDigest", o [("type", s "string"); ("minLength", n 1);
  ("maxLength", n 71); ("pattern", s "^sha256:[0-9a-f]{64}$")]); ("networkEnforcementDigest", o [("type", s "string");
  ("minLength", n 1); ("maxLength", n 71); ("pattern", s "^sha256:[0-9a-f]{64}$")]); ("hostPreflightDigest", o
  [("type", s "string"); ("minLength", n 1); ("maxLength", n 71); ("pattern", s "^sha256:[0-9a-f]{64}$")])])])])])])].

(* @src src/src/harness_conformance/live_mutation_admission.py:614-614 _BROKER_SPEC *)
Definition _BROKER_SPEC : value :=
  o [("$schema", s "https://json-schema.org/draft/2020-12/schema"); ("oneOf", a [o [("$ref", s "#/$defs/binding")]; o
  [("$ref", s "#/$defs/dispatch")]; o [("$ref", s "#/$defs/frame")]; o [("$ref", s "#/$defs/workerStart")]]);
  ("$defs", o [("binding", o [("type", s "object"); ("additionalProperties", b false); ("required", a [s
  "schemaVersion"; s "profileDigest"; s "observationBindingDigest"; s "brokerManifestDigest"; s
  "brokerExecutableDigest"; s "workerManifestDigest"; s "workerArtifactDigest"; s "caseResourceDigests"]);
  ("properties", o [("schemaVersion", o [("const", s "planeon.internal.broker-binding/v1")]); ("profileDigest", o
  [("type", s "string"); ("minLength", n 1); ("maxLength", n 71); ("pattern", s "^sha256:[0-9a-f]{64}$")]);
  ("observationBindingDigest", o [("type", s "string"); ("minLength", n 1); ("maxLength", n 71); ("pattern", s
  "^sha256:[0-9a-f]{64}$")]); ("brokerManifestDigest", o [("type", s "string"); ("minLength", n 1); ("maxLength", n
  71); ("pattern", s "^sha256:[0-9a-f]{64}$")]); ("brokerExecutableDigest", o [("type", s "string"); ("minLength", n
  1); ("maxLength", n 71); ("pattern", s "^sha256:[0-9a-f]{64}$")]); ("workerManifestDigest", o [("type", s "string");
  ("minLength", n 1); ("maxLength", n 71); ("pattern", s "^sha256:[0-9a-f]{64}$")]); ("workerArtifactDigest", o
  [("type", s "string"); ("minLength", n 1); ("maxLength", n 71); ("pattern", s "^sha256:[0-9a-f]{64}$")]);
  ("caseResourceDigests", o [("type", s "object"); ("additionalProperties", b false); ("required", a [s
  "HOST_ISOLATION_NEGATIVES"; s "LINUX_TARGET_BUILD"; s "FULL_PREDECESSOR_REGRESSION"; s "CONTROL_CONTAINER_STARTUP";
  s "POSTGRES_MIGRATION_AND_RLS"; s "DURABLE_RESTART"; s "ARBITRARY_NON_ROOT_UID"; s "READ_ONLY_ROOT_FILESYSTEM"; s
  "KUBERNETES_SMOKE"; s "DEFAULT_DENY_NETWORK"]); ("properties", o [("HOST_ISOLATION_NEGATIVES", o [("type", s
  "array"); ("items", o [("type", s "string"); ("minLength", n 1); ("maxLength", n 71); ("pattern", s
  "^sha256:[0-9a-f]{64}$")]); ("maxItems", n 32); ("minItems", n 0); ("uniqueItems", b true)]); ("LINUX_TARGET_BUILD",
  o [("type", s "array"); ("items", o [("type", s "string"); ("minLength", n 1); ("maxLength", n 71); ("pattern", s
  "^sha256:[0-9a-f]{64}$")]); ("maxItems", n 32); ("minItems", n 0); ("uniqueItems", b true)]);
  ("FULL_PREDECESSOR_REGRESSION", o [("type", s "array"); ("items", o [("type", s "string"); ("minLength", n 1);
  ("maxLength", n 71); ("pattern", s "^sha256:[0-9a-f]{64}$")]); ("maxItems", n 32); ("minItems", n 0);
  ("uniqueItems", b true)]); ("CONTROL_CONTAINER_STARTUP", o [("type", s "array"); ("items", o [("type", s "string");
  ("minLength", n 1); ("maxLength", n 71); ("pattern", s "^sha256:[0-9a-f]{64}$")]); ("maxItems", n 32); ("minItems",
  n 0); ("uniqueItems", b true)]); ("POSTGRES_MIGRATION_AND_RLS", o [("type", s "array"); ("items", o [("type", s
  "string"); ("minLength", n 1); ("maxLength", n 71); ("pattern", s "^sha256:[0-9a-f]{64}$")]); ("maxItems", n 32);
  ("minItems", n 0); ("uniqueItems", b true)]); ("DURABLE_RESTART", o [("type", s "array"); ("items", o [("type", s
  "string"); ("minLength", n 1); ("maxLength", n 71); ("pattern", s "^sha256:[0-9a-f]{64}$")]); ("maxItems", n 32);
  ("minItems", n 0); ("uniqueItems", b true)]); ("ARBITRARY_NON_ROOT_UID", o [("type", s "array"); ("items", o
  [("type", s "string"); ("minLength", n 1); ("maxLength", n 71); ("pattern", s "^sha256:[0-9a-f]{64}$")]);
  ("maxItems", n 32); ("minItems", n 0); ("uniqueItems", b true)]); ("READ_ONLY_ROOT_FILESYSTEM", o [("type", s
  "array"); ("items", o [("type", s "string"); ("minLength", n 1); ("maxLength", n 71); ("pattern", s
  "^sha256:[0-9a-f]{64}$")]); ("maxItems", n 32); ("minItems", n 0); ("uniqueItems", b true)]); ("KUBERNETES_SMOKE", o
  [("type", s "array"); ("items", o [("type", s "string"); ("minLength", n 1); ("maxLength", n 71); ("pattern", s
  "^sha256:[0-9a-f]{64}$")]); ("maxItems", n 32); ("minItems", n 0); ("uniqueItems", b true)]);
  ("DEFAULT_DENY_NETWORK", o [("type", s "array"); ("items", o [("type", s "string"); ("minLength", n 1);
  ("maxLength", n 71); ("pattern", s "^sha256:[0-9a-f]{64}$")]); ("maxItems", n 32); ("minItems", n 0);
  ("uniqueItems", b true)])])])])]); ("dispatch", o [("type", s "object"); ("additionalProperties", b false);
  ("required", a [s "schemaVersion"; s "operation"; s "bindingDigest"; s "reservationDigest"; s "runNonce"; s
  "caseId"; s "requestDigest"; s "observationDigest"; s "generation"; s "challenge"]); ("properties", o
  [("schemaVersion", o [("const", s "planeon.internal.broker-dispatch/v1")]); ("operation", o [("const", s
  "EXECUTE_FIXED_PROBE")]); ("bindingDigest", o [("type", s "string"); ("minLength", n 1); ("maxLength", n 71);
  ("pattern", s "^sha256:[0-9a-f]{64}$")]); ("reservationDigest", o [("type", s "string"); ("minLength", n 1);
  ("maxLength", n 71); ("pattern", s "^sha256:[0-9a-f]{64}$")]); ("runNonce", o [("type", s "string"); ("minLength", n
  1); ("maxLength", n 63); ("pattern", s "^[a-z0-9][a-z0-9.-]{0,62}$")]); ("caseId", o [("enum", a [s
  "HOST_ISOLATION_NEGATIVES"; s "LINUX_TARGET_BUILD"; s "FULL_PREDECESSOR_REGRESSION"; s "CONTROL_CONTAINER_STARTUP";
  s "POSTGRES_MIGRATION_AND_RLS"; s "DURABLE_RESTART"; s "ARBITRARY_NON_ROOT_UID"; s "READ_ONLY_ROOT_FILESYSTEM"; s
  "KUBERNETES_SMOKE"; s "DEFAULT_DENY_NETWORK"])]); ("requestDigest", o [("type", s "string"); ("minLength", n 1);
  ("maxLength", n 71); ("pattern", s "^sha256:[0-9a-f]{64}$")]); ("observationDigest", o [("type", s "string");
  ("minLength", n 1); ("maxLength", n 71); ("pattern", s "^sha256:[0-9a-f]{64}$")]); ("generation", o [("type", s
  "string"); ("minLength", n 1); ("maxLength", n 64); ("pattern", s "^[0-9a-f]{64}$")]); ("challenge", o [("type", s
  "string"); ("minLength", n 1); ("maxLength", n 64); ("pattern", s "^[0-9a-f]{64}$")])])]); ("frame", o [("oneOf", a
  [o [("type", s "object"); ("additionalProperties", b false); ("required", a [s "schemaVersion"; s "bindingDigest"; s
  "reservationDigest"; s "runNonce"; s "caseId"; s "requestDigest"; s "observationDigest"; s "generation"; s
  "challenge"; s "executionId"; s "sequence"; s "previousDigest"; s "kind"; s "payload"]); ("properties", o
  [("schemaVersion", o [("const", s "planeon.internal.broker-frame/v1")]); ("bindingDigest", o [("type", s "string");
  ("minLength", n 1); ("maxLength", n 71); ("pattern", s "^sha256:[0-9a-f]{64}$")]); ("reservationDigest", o [("type",
  s "string"); ("minLength", n 1); ("maxLength", n 71); ("pattern", s "^sha256:[0-9a-f]{64}$")]); ("runNonce", o
  [("type", s "string"); ("minLength", n 1); ("maxLength", n 63); ("pattern", s "^[a-z0-9][a-z0-9.-]{0,62}$")]);
  ("caseId", o [("enum", a [s "HOST_ISOLATION_NEGATIVES"; s "LINUX_TARGET_BUILD"; s "FULL_PREDECESSOR_REGRESSION"; s
  "CONTROL_CONTAINER_STARTUP"; s "POSTGRES_MIGRATION_AND_RLS"; s "DURABLE_RESTART"; s "ARBITRARY_NON_ROOT_UID"; s
  "READ_ONLY_ROOT_FILESYSTEM"; s "KUBERNETES_SMOKE"; s "DEFAULT_DENY_NETWORK"])]); ("requestDigest", o [("type", s
  "string"); ("minLength", n 1); ("maxLength", n 71); ("pattern", s "^sha256:[0-9a-f]{64}$")]); ("observationDigest",
  o [("type", s "string"); ("minLength", n 1); ("maxLength", n 71); ("pattern", s "^sha256:[0-9a-f]{64}$")]);
  ("generation", o [("type", s "string"); ("minLength", n 1); ("maxLength", n 64); ("pattern", s "^[0-9a-f]{64}$")]);
  ("challenge", o [("type", s "string"); ("minLength", n 1); ("maxLength", n 64); ("pattern", s "^[0-9a-f]{64}$")]);
  ("executionId", o [("type", s "string"); ("minLength", n 1); ("maxLength", n 64); ("pattern", s "^[0-9a-f]{64}$")]);
  ("sequence", o [("type", s "integer"); ("minimum", n 1); ("maximum", n 2048)]); ("previousDigest", o [("type", s
  "string"); ("minLength", n 1); ("maxLength", n 71); ("pattern", s "^sha256:[0-9a-f]{64}$")]); ("kind", o [("const",
  s "STARTED")]); ("payload", o [("type", s "object"); ("additionalProperties", b false); ("required", a [s
  "workerPid"; s "workerStartTicks"]); ("properties", o [("workerPid", o [("type", s "integer"); ("minimum", n 2);
  ("maximum", n 2147483647)]); ("workerStartTicks", o [("type", s "integer"); ("minimum", n 1); ("maximum", n
  9007199254740991)])])])])]; o [("type", s "object"); ("additionalProperties", b false); ("required", a [s
  "schemaVersion"; s "bindingDigest"; s "reservationDigest"; s "runNonce"; s "caseId"; s "requestDigest"; s
  "observationDigest"; s "generation"; s "challenge"; s "executionId"; s "sequence"; s "previousDigest"; s "kind"; s
  "payload"]); ("properties", o [("schemaVersion", o [("const", s "planeon.internal.broker-frame/v1")]);
  ("bindingDigest", o [("type", s "string"); ("minLength", n 1); ("maxLength", n 71); ("pattern", s
  "^sha256:[0-9a-f]{64}$")]); ("reservationDigest", o [("type", s "string"); ("minLength", n 1); ("maxLength", n 71);
  ("pattern", s "^sha256:[0-9a-f]{64}$")]); ("runNonce", o [("type", s "string"); ("minLength", n 1); ("maxLength", n
  63); ("pattern", s "^[a-z0-9][a-z0-9.-]{0,62}$")]); ("caseId", o [("enum", a [s "HOST_ISOLATION_NEGATIVES"; s
  "LINUX_TARGET_BUILD"; s "FULL_PREDECESSOR_REGRESSION"; s "CONTROL_CONTAINER_STARTUP"; s
  "POSTGRES_MIGRATION_AND_RLS"; s "DURABLE_RESTART"; s "ARBITRARY_NON_ROOT_UID"; s "READ_ONLY_ROOT_FILESYSTEM"; s
  "KUBERNETES_SMOKE"; s "DEFAULT_DENY_NETWORK"])]); ("requestDigest", o [("type", s "string"); ("minLength", n 1);
  ("maxLength", n 71); ("pattern", s "^sha256:[0-9a-f]{64}$")]); ("observationDigest", o [("type", s "string");
  ("minLength", n 1); ("maxLength", n 71); ("pattern", s "^sha256:[0-9a-f]{64}$")]); ("generation", o [("type", s
  "string"); ("minLength", n 1); ("maxLength", n 64); ("pattern", s "^[0-9a-f]{64}$")]); ("challenge", o [("type", s
  "string"); ("minLength", n 1); ("maxLength", n 64); ("pattern", s "^[0-9a-f]{64}$")]); ("executionId", o [("type", s
  "string"); ("minLength", n 1); ("maxLength", n 64); ("pattern", s "^[0-9a-f]{64}$")]); ("sequence", o [("type", s
  "integer"); ("minimum", n 1); ("maximum", n 2048)]); ("previousDigest", o [("type", s "string"); ("minLength", n 1);
  ("maxLength", n 71); ("pattern", s "^sha256:[0-9a-f]{64}$")]); ("kind", o [("const", s "RESOURCE_ACTION")]);
  ("payload", o [("type", s "object"); ("additionalProperties", b false); ("required", a [s "actionId"; s "verb"; s
  "manifestDigest"]); ("properties", o [("actionId", o [("type", s "integer"); ("minimum", n 1); ("maximum", n 256)]);
  ("verb", o [("enum", a [s "CREATE"; s "GET"; s "DELETE"])]); ("manifestDigest", o [("type", s "string");
  ("minLength", n 1); ("maxLength", n 71); ("pattern", s "^sha256:[0-9a-f]{64}$")])])])])]; o [("type", s "object");
  ("additionalProperties", b false); ("required", a [s "schemaVersion"; s "bindingDigest"; s "reservationDigest"; s
  "runNonce"; s "caseId"; s "requestDigest"; s "observationDigest"; s "generation"; s "challenge"; s "executionId"; s
  "sequence"; s "previousDigest"; s "kind"; s "payload"]); ("properties", o [("schemaVersion", o [("const", s
  "planeon.internal.broker-frame/v1")]); ("bindingDigest", o [("type", s "string"); ("minLength", n 1); ("maxLength",
  n 71); ("pattern", s "^sha256:[0-9a-f]{64}$")]); ("reservationDigest", o [("type", s "string"); ("minLength", n 1);
  ("maxLength", n 71); ("pattern", s "^sha256:[0-9a-f]{64}$")]); ("runNonce", o [("type", s "string"); ("minLength", n
  1); ("maxLength", n 63); ("pattern", s "^[a-z0-9][a-z0-9.-]{0,62}$")]); ("caseId", o [("enum", a [s
  "HOST_ISOLATION_NEGATIVES"; s "LINUX_TARGET_BUILD"; s "FULL_PREDECESSOR_REGRESSION"; s "CONTROL_CONTAINER_STARTUP";
  s "POSTGRES_MIGRATION_AND_RLS"; s "DURABLE_RESTART"; s "ARBITRARY_NON_ROOT_UID"; s "READ_ONLY_ROOT_FILESYSTEM"; s
  "KUBERNETES_SMOKE"; s "DEFAULT_DENY_NETWORK"])]); ("requestDigest", o [("type", s "string"); ("minLength", n 1);
  ("maxLength", n 71); ("pattern", s "^sha256:[0-9a-f]{64}$")]); ("observationDigest", o [("type", s "string");
  ("minLength", n 1); ("maxLength", n 71); ("pattern", s "^sha256:[0-9a-f]{64}$")]); ("generation", o [("type", s
  "string"); ("minLength", n 1); ("maxLength", n 64); ("pattern", s "^[0-9a-f]{64}$")]); ("challenge", o [("type", s
  "string"); ("minLength", n 1); ("maxLength", n 64); ("pattern", s "^[0-9a-f]{64}$")]); ("executionId", o [("type", s
  "string"); ("minLength", n 1); ("maxLength", n 64); ("pattern", s "^[0-9a-f]{64}$")]); ("sequence", o [("type", s
  "integer"); ("minimum", n 1); ("maximum", n 2048)]); ("previousDigest", o [("type", s "string"); ("minLength", n 1);
  ("maxLength", n 71); ("pattern", s "^sha256:[0-9a-f]{64}$")]); ("kind", o [("const", s "RESOURCE_RESULT")]);
  ("payload", o [("type", s "object"); ("additionalProperties", b false); ("required", a [s "actionId"; s "outcome"; s
  "objectBase64"]); ("properties", o [("actionId", o [("type", s "integer"); ("minimum", n 1); ("maximum", n 256)]);
  ("outcome", o [("enum", a [s "ABSENT"; s "CREATED"; s "PRESENT"; s "DELETED"; s "DENIED"; s "AMBIGUOUS"])]);
  ("objectBase64", o [("oneOf", a [o [("type", s "null")]; o [("type", s "string"); ("minLength", n 4); ("maxLength",
  n 21848); ("pattern", s "^[A-Za-z0-9+/]+={0,2}$")]])])])])])]; o [("type", s "object"); ("additionalProperties", b
  false); ("required", a [s "schemaVersion"; s "bindingDigest"; s "reservationDigest"; s "runNonce"; s "caseId"; s
  "requestDigest"; s "observationDigest"; s "generation"; s "challenge"; s "executionId"; s "sequence"; s
  "previousDigest"; s "kind"; s "payload"]); ("properties", o [("schemaVersion", o [("const", s
  "planeon.internal.broker-frame/v1")]); ("bindingDigest", o [("type", s "string"); ("minLength", n 1); ("maxLength",
  n 71); ("pattern", s "^sha256:[0-9a-f]{64}$")]); ("reservationDigest", o [("type", s "string"); ("minLength", n 1);
  ("maxLength", n 71); ("pattern", s "^sha256:[0-9a-f]{64}$")]); ("runNonce", o [("type", s "string"); ("minLength", n
  1); ("maxLength", n 63); ("pattern", s "^[a-z0-9][a-z0-9.-]{0,62}$")]); ("caseId", o [("enum", a [s
  "HOST_ISOLATION_NEGATIVES"; s "LINUX_TARGET_BUILD"; s "FULL_PREDECESSOR_REGRESSION"; s "CONTROL_CONTAINER_STARTUP";
  s "POSTGRES_MIGRATION_AND_RLS"; s "DURABLE_RESTART"; s "ARBITRARY_NON_ROOT_UID"; s "READ_ONLY_ROOT_FILESYSTEM"; s
  "KUBERNETES_SMOKE"; s "DEFAULT_DENY_NETWORK"])]); ("requestDigest", o [("type", s "string"); ("minLength", n 1);
  ("maxLength", n 71); ("pattern", s "^sha256:[0-9a-f]{64}$")]); ("observationDigest", o [("type", s "string");
  ("minLength", n 1); ("maxLength", n 71); ("pattern", s "^sha256:[0-9a-f]{64}$")]); ("generation", o [("type", s
  "string"); ("minLength", n 1); ("maxLength", n 64); ("pattern", s "^[0-9a-f]{64}$")]); ("challenge", o [("type", s
  "string"); ("minLength", n 1); ("maxLength", n 64); ("pattern", s "^[0-9a-f]{64}$")]); ("executionId", o [("type", s
  "string"); ("minLength", n 1); ("maxLength", n 64); ("pattern", s "^[0-9a-f]{64}$")]); ("sequence", o [("type", s
  "integer"); ("minimum", n 1); ("maximum", n 2048)]); ("previousDigest", o [("type", s "string"); ("minLength", n 1);
  ("maxLength", n 71); ("pattern", s "^sha256:[0-9a-f]{64}$")]); ("kind", o [("const", s "RECEIPT_CHUNK")]);
  ("payload", o [("type", s "object"); ("additionalProperties", b false); ("required", a [s "index"; s "dataBase64"]);
  ("properties", o [("index", o [("type", s "integer"); ("minimum", n 0); ("maximum", n 170)]); ("dataBase64", o
  [("type", s "string"); ("minLength", n 4); ("maxLength", n 32768); ("pattern", s "^[A-Za-z0-9+/]+={0,2}$")])])])])];
  o [("type", s "object"); ("additionalProperties", b false); ("required", a [s "schemaVersion"; s "bindingDigest"; s
  "reservationDigest"; s "runNonce"; s "caseId"; s "requestDigest"; s "observationDigest"; s "generation"; s
  "challenge"; s "executionId"; s "sequence"; s "previousDigest"; s "kind"; s "payload"]); ("properties", o
  [("schemaVersion", o [("const", s "planeon.internal.broker-frame/v1")]); ("bindingDigest", o [("type", s "string");
  ("minLength", n 1); ("maxLength", n 71); ("pattern", s "^sha256:[0-9a-f]{64}$")]); ("reservationDigest", o [("type",
  s "string"); ("minLength", n 1); ("maxLength", n 71); ("pattern", s "^sha256:[0-9a-f]{64}$")]); ("runNonce", o
  [("type", s "string"); ("minLength", n 1); ("maxLength", n 63); ("pattern", s "^[a-z0-9][a-z0-9.-]{0,62}$")]);
  ("caseId", o [("enum", a [s "HOST_ISOLATION_NEGATIVES"; s "LINUX_TARGET_BUILD"; s "FULL_PREDECESSOR_REGRESSION"; s
  "CONTROL_CONTAINER_STARTUP"; s "POSTGRES_MIGRATION_AND_RLS"; s "DURABLE_RESTART"; s "ARBITRARY_NON_ROOT_UID"; s
  "READ_ONLY_ROOT_FILESYSTEM"; s "KUBERNETES_SMOKE"; s "DEFAULT_DENY_NETWORK"])]); ("requestDigest", o [("type", s
  "string"); ("minLength", n 1); ("maxLength", n 71); ("pattern", s "^sha256:[0-9a-f]{64}$")]); ("observationDigest",
  o [("type", s "string"); ("minLength", n 1); ("maxLength", n 71); ("pattern", s "^sha256:[0-9a-f]{64}$")]);
  ("generation", o [("type", s "string"); ("minLength", n 1); ("maxLength", n 64); ("pattern", s "^[0-9a-f]{64}$")]);
  ("challenge", o [("type", s "string"); ("minLength", n 1); ("maxLength", n 64); ("pattern", s "^[0-9a-f]{64}$")]);
  ("executionId", o [("type", s "string"); ("minLength", n 1); ("maxLength", n 64); ("pattern", s "^[0-9a-f]{64}$")]);
  ("sequence", o [("type", s "integer"); ("minimum", n 1); ("maximum", n 2048)]); ("previousDigest", o [("type", s
  "string"); ("minLength", n 1); ("maxLength", n 71); ("pattern", s "^sha256:[0-9a-f]{64}$")]); ("kind", o [("const",
  s "CLEANUP_RECORDED")]); ("payload", o [("type", s "object"); ("additionalProperties", b false); ("required", a [s
  "cleanupDigest"; s "state"; s "remainingResources"]); ("properties", o [("cleanupDigest", o [("type", s "string");
  ("minLength", n 1); ("maxLength", n 71); ("pattern", s "^sha256:[0-9a-f]{64}$")]); ("state", o [("enum", a [s
  "CLEAN"; s "CLEANUP_PENDING"])]); ("remainingResources", o [("type", s "array"); ("items", o [("type", s "object");
  ("additionalProperties", b false); ("required", a [s "apiVersion"; s "kind"; s "namespace"; s "name"; s "uid"; s
  "manifestDigest"; s "reasonCode"]); ("properties", o [("apiVersion", o [("const", s "v1")]); ("kind", o [("enum", a
  [s "Pod"; s "ConfigMap"; s "Service"])]); ("namespace", o [("type", s "string"); ("minLength", n 1); ("maxLength", n
  63); ("pattern", s "^[a-z0-9][a-z0-9.-]{0,62}$")]); ("name", o [("type", s "string"); ("minLength", n 1);
  ("maxLength", n 63); ("pattern", s "^[a-z0-9][a-z0-9.-]{0,62}$")]); ("uid", o [("oneOf", a [o [("type", s "null")];
  o [("type", s "string"); ("minLength", n 1); ("maxLength", n 128); ("pattern", s "^[A-Za-z0-9-]{1,128}$")]])]);
  ("manifestDigest", o [("type", s "string"); ("minLength", n 1); ("maxLength", n 71); ("pattern", s
  "^sha256:[0-9a-f]{64}$")]); ("reasonCode", o [("enum", a [s "DELETE_DENIED"; s "UID_CHANGED"; s "DEADLINE"; s
  "IO_AMBIGUOUS"; s "OBSERVATION_UNAVAILABLE"])])])]); ("maxItems", n 32); ("minItems", n 0); ("uniqueItems", b
  true)])])])])]; o [("type", s "object"); ("additionalProperties", b false); ("required", a [s "schemaVersion"; s
  "bindingDigest"; s "reservationDigest"; s "runNonce"; s "caseId"; s "requestDigest"; s "observationDigest"; s
  "generation"; s "challenge"; s "executionId"; s "sequence"; s "previousDigest"; s "kind"; s "payload"]);
  ("properties", o [("schemaVersion", o [("const", s "planeon.internal.broker-frame/v1")]); ("bindingDigest", o
  [("type", s "string"); ("minLength", n 1); ("maxLength", n 71); ("pattern", s "^sha256:[0-9a-f]{64}$")]);
  ("reservationDigest", o [("type", s "string"); ("minLength", n 1); ("maxLength", n 71); ("pattern", s
  "^sha256:[0-9a-f]{64}$")]); ("runNonce", o [("type", s "string"); ("minLength", n 1); ("maxLength", n 63);
  ("pattern", s "^[a-z0-9][a-z0-9.-]{0,62}$")]); ("caseId", o [("enum", a [s "HOST_ISOLATION_NEGATIVES"; s
  "LINUX_TARGET_BUILD"; s "FULL_PREDECESSOR_REGRESSION"; s "CONTROL_CONTAINER_STARTUP"; s
  "POSTGRES_MIGRATION_AND_RLS"; s "DURABLE_RESTART"; s "ARBITRARY_NON_ROOT_UID"; s "READ_ONLY_ROOT_FILESYSTEM"; s
  "KUBERNETES_SMOKE"; s "DEFAULT_DENY_NETWORK"])]); ("requestDigest", o [("type", s "string"); ("minLength", n 1);
  ("maxLength", n 71); ("pattern", s "^sha256:[0-9a-f]{64}$")]); ("observationDigest", o [("type", s "string");
  ("minLength", n 1); ("maxLength", n 71); ("pattern", s "^sha256:[0-9a-f]{64}$")]); ("generation", o [("type", s
  "string"); ("minLength", n 1); ("maxLength", n 64); ("pattern", s "^[0-9a-f]{64}$")]); ("challenge", o [("type", s
  "string"); ("minLength", n 1); ("maxLength", n 64); ("pattern", s "^[0-9a-f]{64}$")]); ("executionId", o [("type", s
  "string"); ("minLength", n 1); ("maxLength", n 64); ("pattern", s "^[0-9a-f]{64}$")]); ("sequence", o [("type", s
  "integer"); ("minimum", n 1); ("maximum", n 2048)]); ("previousDigest", o [("type", s "string"); ("minLength", n 1);
  ("maxLength", n 71); ("pattern", s "^sha256:[0-9a-f]{64}$")]); ("kind", o [("const", s "TERMINAL")]); ("payload", o
  [("type", s "object"); ("additionalProperties", b false); ("required", a [s "status"; s "receiptSize"; s
  "receiptDigest"; s "cleanupDigest"; s "workerReaped"]); ("properties", o [("status", o [("enum", a [s "COMPLETED"; s
  "FAILED"; s "UNAVAILABLE"])]); ("receiptSize", o [("type", s "integer"); ("minimum", n 1); ("maximum", n 4194304)]);
  ("receiptDigest", o [("type", s "string"); ("minLength", n 1); ("maxLength", n 71); ("pattern", s
  "^sha256:[0-9a-f]{64}$")]); ("cleanupDigest", o [("type", s "string"); ("minLength", n 1); ("maxLength", n 71);
  ("pattern", s "^sha256:[0-9a-f]{64}$")]); ("workerReaped", o [("const", b true)])])])])]; o [("type", s "object");
  ("additionalProperties", b false); ("required", a [s "schemaVersion"; s "bindingDigest"; s "reservationDigest"; s
  "runNonce"; s "caseId"; s "requestDigest"; s "observationDigest"; s "generation"; s "challenge"; s "executionId"; s
  "sequence"; s "previousDigest"; s "kind"; s "payload"]); ("properties", o [("schemaVersion", o [("const", s
  "planeon.internal.broker-frame/v1")]); ("bindingDigest", o [("type", s "string"); ("minLength", n 1); ("maxLength",
  n 71); ("pattern", s "^sha256:[0-9a-f]{64}$")]); ("reservationDigest", o [("type", s "string"); ("minLength", n 1);
  ("maxLength", n 71); ("pattern", s "^sha256:[0-9a-f]{64}$")]); ("runNonce", o [("type", s "string"); ("minLength", n
  1); ("maxLength", n 63); ("pattern", s "^[a-z0-9][a-z0-9.-]{0,62}$")]); ("caseId", o [("enum", a [s
  "HOST_ISOLATION_NEGATIVES"; s "LINUX_TARGET_BUILD"; s "FULL_PREDECESSOR_REGRESSION"; s "CONTROL_CONTAINER_STARTUP";
  s "POSTGRES_MIGRATION_AND_RLS"; s "DURABLE_RESTART"; s "ARBITRARY_NON_ROOT_UID"; s "READ_ONLY_ROOT_FILESYSTEM"; s
  "KUBERNETES_SMOKE"; s "DEFAULT_DENY_NETWORK"])]); ("requestDigest", o [("type", s "string"); ("minLength", n 1);
  ("maxLength", n 71); ("pattern", s "^sha256:[0-9a-f]{64}$")]); ("observationDigest", o [("type", s "string");
  ("minLength", n 1); ("maxLength", n 71); ("pattern", s "^sha256:[0-9a-f]{64}$")]); ("generation", o [("type", s
  "string"); ("minLength", n 1); ("maxLength", n 64); ("pattern", s "^[0-9a-f]{64}$")]); ("challenge", o [("type", s
  "string"); ("minLength", n 1); ("maxLength", n 64); ("pattern", s "^[0-9a-f]{64}$")]); ("executionId", o [("type", s
  "string"); ("minLength", n 1); ("maxLength", n 64); ("pattern", s "^[0-9a-f]{64}$")]); ("sequence", o [("type", s
  "integer"); ("minimum", n 1); ("maximum", n 2048)]); ("previousDigest", o [("type", s "string"); ("minLength", n 1);
  ("maxLength", n 71); ("pattern", s "^sha256:[0-9a-f]{64}$")]); ("kind", o [("const", s "ABORT")]); ("payload", o
  [("type", s "object"); ("additionalProperties", b false); ("required", a [s "reason"]); ("properties", o [("reason",
  o [("enum", a [s "DEADLINE"; s "REVOKED"; s "POLICY_LOST"; s "PEER_CHANGED"; s "IO_AMBIGUOUS"; s
  "INVALID_FRAME"])])])])])]; o [("type", s "object"); ("additionalProperties", b false); ("required", a [s
  "schemaVersion"; s "bindingDigest"; s "reservationDigest"; s "runNonce"; s "caseId"; s "requestDigest"; s
  "observationDigest"; s "generation"; s "challenge"; s "executionId"; s "sequence"; s "previousDigest"; s "kind"; s
  "payload"]); ("properties", o [("schemaVersion", o [("const", s "planeon.internal.broker-frame/v1")]);
  ("bindingDigest", o [("type", s "string"); ("minLength", n 1); ("maxLength", n 71); ("pattern", s
  "^sha256:[0-9a-f]{64}$")]); ("reservationDigest", o [("type", s "string"); ("minLength", n 1); ("maxLength", n 71);
  ("pattern", s "^sha256:[0-9a-f]{64}$")]); ("runNonce", o [("type", s "string"); ("minLength", n 1); ("maxLength", n
  63); ("pattern", s "^[a-z0-9][a-z0-9.-]{0,62}$")]); ("caseId", o [("enum", a [s "HOST_ISOLATION_NEGATIVES"; s
  "LINUX_TARGET_BUILD"; s "FULL_PREDECESSOR_REGRESSION"; s "CONTROL_CONTAINER_STARTUP"; s
  "POSTGRES_MIGRATION_AND_RLS"; s "DURABLE_RESTART"; s "ARBITRARY_NON_ROOT_UID"; s "READ_ONLY_ROOT_FILESYSTEM"; s
  "KUBERNETES_SMOKE"; s "DEFAULT_DENY_NETWORK"])]); ("requestDigest", o [("type", s "string"); ("minLength", n 1);
  ("maxLength", n 71); ("pattern", s "^sha256:[0-9a-f]{64}$")]); ("observationDigest", o [("type", s "string");
  ("minLength", n 1); ("maxLength", n 71); ("pattern", s "^sha256:[0-9a-f]{64}$")]); ("generation", o [("type", s
  "string"); ("minLength", n 1); ("maxLength", n 64); ("pattern", s "^[0-9a-f]{64}$")]); ("challenge", o [("type", s
  "string"); ("minLength", n 1); ("maxLength", n 64); ("pattern", s "^[0-9a-f]{64}$")]); ("executionId", o [("type", s
  "string"); ("minLength", n 1); ("maxLength", n 64); ("pattern", s "^[0-9a-f]{64}$")]); ("sequence", o [("type", s
  "integer"); ("minimum", n 1); ("maximum", n 2048)]); ("previousDigest", o [("type", s "string"); ("minLength", n 1);
  ("maxLength", n 71); ("pattern", s "^sha256:[0-9a-f]{64}$")]); ("kind", o [("const", s "REFUSED")]); ("payload", o
  [("type", s "object"); ("additionalProperties", b false); ("required", a [s "reason"]); ("properties", o [("reason",
  o [("enum", a [s "UNAVAILABLE"; s "REPLAY"; s "GENERATION_MISMATCH"; s "CAPACITY_HELD"; s
  "INVALID_AUTHORITY"])])])])])]])]); ("workerStart", o [("type", s "object"); ("additionalProperties", b false);
  ("required", a [s "schemaVersion"; s "operation"; s "executionId"; s "bindingDigest"; s "caseId"; s "requestDigest";
  s "generation"]); ("properties", o [("schemaVersion", o [("const", s "planeon.internal.broker-worker/v1")]);
  ("operation", o [("const", s "START")]); ("executionId", o [("type", s "string"); ("minLength", n 1); ("maxLength",
  n 64); ("pattern", s "^[0-9a-f]{64}$")]); ("bindingDigest", o [("type", s "string"); ("minLength", n 1);
  ("maxLength", n 71); ("pattern", s "^sha256:[0-9a-f]{64}$")]); ("caseId", o [("enum", a [s
  "HOST_ISOLATION_NEGATIVES"; s "LINUX_TARGET_BUILD"; s "FULL_PREDECESSOR_REGRESSION"; s "CONTROL_CONTAINER_STARTUP";
  s "POSTGRES_MIGRATION_AND_RLS"; s "DURABLE_RESTART"; s "ARBITRARY_NON_ROOT_UID"; s "READ_ONLY_ROOT_FILESYSTEM"; s
  "KUBERNETES_SMOKE"; s "DEFAULT_DENY_NETWORK"])]); ("requestDigest", o [("type", s "string"); ("minLength", n 1);
  ("maxLength", n 71); ("pattern", s "^sha256:[0-9a-f]{64}$")]); ("generation", o [("type", s "string"); ("minLength",
  n 1); ("maxLength", n 64); ("pattern", s "^[0-9a-f]{64}$")])])])])].

(* @src src/src/harness_conformance/live_mutation_admission.py:763-763 _QUALIFICATION_SPEC *)
Definition _QUALIFICATION_SPEC : value :=
  o [("$schema", s "https://json-schema.org/draft/2020-12/schema"); ("$id", s
  "urn:planeon:internal:native-qualification:v1"); ("oneOf", a [o [("$ref", s "#/$defs/record")]; o [("$ref", s
  "#/$defs/capture")]]); ("$defs", o [("digest", o [("type", s "string"); ("pattern", s "^sha256:[0-9a-f]{64}$")]);
  ("path", o [("type", s "string"); ("minLength", n 1); ("maxLength", n 4096); ("pattern", s
  "^/[A-Za-z0-9_./+-]+$")]); ("time", o [("type", s "string"); ("minLength", n 1); ("maxLength", n 20); ("pattern", s
  "^[0-9]{4}-[0-9]{2}-[0-9]{2}T[0-9]{2}:[0-9]{2}:[0-9]{2}Z$")]); ("scope", o [("type", s "object");
  ("additionalProperties", b false); ("required", a [s "tenantId"; s "environmentId"; s "runNonce"; s "capacityNonce";
  s "namespace"; s "validFrom"; s "expiresAt"]); ("properties", o [("tenantId", o [("type", s "string"); ("minLength",
  n 1); ("maxLength", n 128); ("pattern", s "^[ -~]+$")]); ("environmentId", o [("type", s "string"); ("minLength", n
  1); ("maxLength", n 128); ("pattern", s "^[ -~]+$")]); ("runNonce", o [("type", s "string"); ("minLength", n 1);
  ("maxLength", n 128); ("pattern", s "^[ -~]+$")]); ("capacityNonce", o [("type", s "string"); ("minLength", n 1);
  ("maxLength", n 128); ("pattern", s "^[ -~]+$")]); ("namespace", o [("type", s "string"); ("minLength", n 1);
  ("maxLength", n 253); ("pattern", s "^[ -~]+$")]); ("validFrom", o [("$ref", s "#/$defs/time")]); ("expiresAt", o
  [("$ref", s "#/$defs/time")])])]); ("host", o [("type", s "object"); ("additionalProperties", b false); ("required",
  a [s "machine"; s "kernelRelease"; s "kernelNotesDigest"; s "bootId"]); ("properties", o [("machine", o [("enum", a
  [s "x86_64"; s "aarch64"])]); ("kernelRelease", o [("type", s "string"); ("minLength", n 1); ("maxLength", n 128);
  ("pattern", s "^[ -~]+$")]); ("kernelNotesDigest", o [("type", s "string"); ("pattern", s
  "^sha256:[0-9a-f]{64}$")]); ("bootId", o [("type", s "string"); ("minLength", n 1); ("maxLength", n 36); ("pattern",
  s "^[0-9a-f]{8}-[0-9a-f]{4}-[0-9a-f]{4}-[0-9a-f]{4}-[0-9a-f]{12}$")])])]); ("status", o [("type", s "object");
  ("additionalProperties", b false); ("required", a [s "version"; s "sequence"; s "policyload"; s "enforcing"; s
  "denyUnknown"]); ("properties", o [("version", o [("const", n 1)]); ("sequence", o [("type", s "integer");
  ("minimum", n 0); ("maximum", n 4294967294)]); ("policyload", o [("type", s "integer"); ("minimum", n 1);
  ("maximum", n 4294967295)]); ("enforcing", o [("const", n 1)]); ("denyUnknown", o [("const", n 1)])])]);
  ("namespaces", o [("type", s "object"); ("additionalProperties", b false); ("required", a [s "user"; s "mnt"; s
  "pid"; s "net"]); ("properties", o [("user", o [("type", s "integer"); ("minimum", n 1); ("maximum", n
  9007199254740991)]); ("mnt", o [("type", s "integer"); ("minimum", n 1); ("maximum", n 9007199254740991)]); ("pid",
  o [("type", s "integer"); ("minimum", n 1); ("maximum", n 9007199254740991)]); ("net", o [("type", s "integer");
  ("minimum", n 1); ("maximum", n 9007199254740991)])])]); ("segment", o [("type", s "object");
  ("additionalProperties", b false); ("required", a [s "offset"; s "length"; s "permissions"]); ("properties", o
  [("offset", o [("type", s "integer"); ("minimum", n 0); ("maximum", n 9007199254740991)]); ("length", o [("type", s
  "integer"); ("minimum", n 1); ("maximum", n 67108864)]); ("permissions", o [("enum", a [s "r-xp"; s "r-xs"; s
  "--xp"; s "--xs"])])])]); ("file", o [("type", s "object"); ("additionalProperties", b false); ("required", a [s
  "path"; s "mode"; s "size"; s "sha256"; s "verityDigest"; s "selinuxLabel"; s "executableSegments"]); ("properties",
  o [("path", o [("$ref", s "#/$defs/path")]); ("mode", o [("enum", a [s "0444"; s "0555"])]); ("size", o [("type", s
  "integer"); ("minimum", n 1); ("maximum", n 67108864)]); ("sha256", o [("type", s "string"); ("pattern", s
  "^sha256:[0-9a-f]{64}$")]); ("verityDigest", o [("type", s "string"); ("pattern", s "^sha256:[0-9a-f]{64}$")]);
  ("selinuxLabel", o [("type", s "string"); ("minLength", n 1); ("maxLength", n 256); ("pattern", s "^[ -~]+$")]);
  ("executableSegments", o [("type", s "array"); ("items", o [("$ref", s "#/$defs/segment")]); ("minItems", n 0);
  ("maxItems", n 16)])])]); ("program", o [("type", s "object"); ("additionalProperties", b false); ("required", a [s
  "programId"; s "programType"; s "translatedSha256"; s "instructionBytes"; s "mapIds"; s "ifindex"]); ("properties",
  o [("programId", o [("type", s "integer"); ("minimum", n 1); ("maximum", n 4294967295)]); ("programType", o
  [("enum", a [n 9; n 18])]); ("translatedSha256", o [("type", s "string"); ("pattern", s "^sha256:[0-9a-f]{64}$")]);
  ("instructionBytes", o [("type", s "integer"); ("minimum", n 8); ("maximum", n 65536)]); ("mapIds", o [("type", s
  "array"); ("items", o [("type", s "integer"); ("minimum", n 0); ("maximum", n 9007199254740991)]); ("minItems", n
  0); ("maxItems", n 0)]); ("ifindex", o [("const", n 0)])])]); ("cgroup", o [("type", s "object");
  ("additionalProperties", b false); ("required", a [s "path"; s "inode"; s "memoryMaxBytes"; s "pidsMax"; s
  "cpuQuotaMicros"; s "cpuPeriodMicros"]); ("properties", o [("path", o [("$ref", s "#/$defs/path")]); ("inode", o
  [("type", s "integer"); ("minimum", n 1); ("maximum", n 9007199254740991)]); ("memoryMaxBytes", o [("type", s
  "integer"); ("minimum", n 1048576); ("maximum", n 1099511627776)]); ("pidsMax", o [("type", s "integer");
  ("minimum", n 1); ("maximum", n 4096)]); ("cpuQuotaMicros", o [("type", s "integer"); ("minimum", n 1000);
  ("maximum", n 1000000)]); ("cpuPeriodMicros", o [("type", s "integer"); ("minimum", n 1000); ("maximum", n
  1000000)])])]); ("fileObservation", o [("type", s "object"); ("additionalProperties", b false); ("required", a [s
  "entry"; s "device"; s "inode"; s "uid"; s "gid"; s "nlink"; s "contentDigest"; s "measuredVerity"]); ("properties",
  o [("entry", o [("$ref", s "#/$defs/file")]); ("device", o [("type", s "integer"); ("minimum", n 1); ("maximum", n
  9007199254740991)]); ("inode", o [("type", s "integer"); ("minimum", n 1); ("maximum", n 9007199254740991)]);
  ("uid", o [("const", n 0)]); ("gid", o [("const", n 0)]); ("nlink", o [("const", n 1)]); ("contentDigest", o
  [("type", s "string"); ("pattern", s "^sha256:[0-9a-f]{64}$")]); ("measuredVerity", o [("type", s "string");
  ("pattern", s "^sha256:[0-9a-f]{64}$")])])]); ("mapping", o [("type", s "object"); ("additionalProperties", b
  false); ("required", a [s "path"; s "offset"; s "length"; s "permissions"; s "device"; s "inode"]); ("properties", o
  [("path", o [("$ref", s "#/$defs/path")]); ("offset", o [("type", s "integer"); ("minimum", n 0); ("maximum", n
  9007199254740991)]); ("length", o [("type", s "integer"); ("minimum", n 1); ("maximum", n 67108864)]);
  ("permissions", o [("enum", a [s "r-xp"; s "r-xs"; s "--xp"; s "--xs"])]); ("device", o [("type", s "integer");
  ("minimum", n 1); ("maximum", n 9007199254740991)]); ("inode", o [("type", s "integer"); ("minimum", n 1);
  ("maximum", n 9007199254740991)])])]); ("observedProgram", o [("type", s "object"); ("additionalProperties", b
  false); ("required", a [s "program"; s "localIds"; s "effectiveIds"]); ("properties", o [("program", o [("$ref", s
  "#/$defs/program")]); ("localIds", o [("type", s "array"); ("items", o [("type", s "integer"); ("minimum", n 1);
  ("maximum", n 9007199254740991)]); ("minItems", n 1); ("maxItems", n 16); ("uniqueItems", b true)]);
  ("effectiveIds", o [("type", s "array"); ("items", o [("type", s "integer"); ("minimum", n 1); ("maximum", n
  9007199254740991)]); ("minItems", n 1); ("maxItems", n 16); ("uniqueItems", b true)])])]); ("record", o [("type", s
  "object"); ("additionalProperties", b false); ("required", a [s "schemaVersion"; s "qualificationProfile"; s
  "profileDigest"; s "scope"; s "host"; s "selinux"; s "roles"; s "files"; s "endpointTuples"]); ("properties", o
  [("schemaVersion", o [("const", s "planeon.internal.native-qualification/v1")]); ("qualificationProfile", o
  [("const", s "SELINUX_FSVERITY_CGROUP_BPF_V1")]); ("profileDigest", o [("type", s "string"); ("pattern", s
  "^sha256:[0-9a-f]{64}$")]); ("scope", o [("$ref", s "#/$defs/scope")]); ("host", o [("$ref", s "#/$defs/host")]);
  ("selinux", o [("type", s "object"); ("additionalProperties", b false); ("required", a [s "policyDigest"; s
  "status"]); ("properties", o [("policyDigest", o [("type", s "string"); ("pattern", s "^sha256:[0-9a-f]{64}$")]);
  ("status", o [("$ref", s "#/$defs/status")])])]); ("roles", o [("type", s "object"); ("additionalProperties", b
  false); ("required", a [s "SERVER"; s "OBSERVER"; s "BROKER"; s "WORKER"]); ("properties", o [("SERVER", o [("type",
  s "object"); ("additionalProperties", b false); ("required", a [s "executable"; s "artifactDigest"; s
  "interpreterPath"; s "uid"; s "gid"; s "processLabel"; s "namespaceInodes"; s "cgroup"; s "seccompMode"; s
  "filePaths"; s "bpfPrograms"; s "outboundEndpointIds"]); ("properties", o [("executable", o [("const", s
  "/opt/planeon/bin/harness-live-proxy-serve")]); ("artifactDigest", o [("type", s "string"); ("pattern", s
  "^sha256:[0-9a-f]{64}$")]); ("interpreterPath", o [("const", s "/opt/planeon/python/3.12.14/bin/python3.12")]);
  ("uid", o [("const", n 0)]); ("gid", o [("const", n 0)]); ("processLabel", o [("type", s "string"); ("minLength", n
  1); ("maxLength", n 256); ("pattern", s "^[ -~]+$")]); ("namespaceInodes", o [("$ref", s "#/$defs/namespaces")]);
  ("cgroup", o [("type", s "object"); ("additionalProperties", b false); ("required", a [s "path"; s "inode"; s
  "memoryMaxBytes"; s "pidsMax"; s "cpuQuotaMicros"; s "cpuPeriodMicros"]); ("properties", o [("path", o [("const", s
  "/sys/fs/cgroup/planeon-live/proxy-server")]); ("inode", o [("type", s "integer"); ("minimum", n 1); ("maximum", n
  9007199254740991)]); ("memoryMaxBytes", o [("type", s "integer"); ("minimum", n 1048576); ("maximum", n
  1099511627776)]); ("pidsMax", o [("type", s "integer"); ("minimum", n 1); ("maximum", n 4096)]); ("cpuQuotaMicros",
  o [("type", s "integer"); ("minimum", n 1000); ("maximum", n 1000000)]); ("cpuPeriodMicros", o [("type", s
  "integer"); ("minimum", n 1000); ("maximum", n 1000000)])])]); ("seccompMode", o [("const", n 2)]); ("filePaths", o
  [("type", s "array"); ("items", o [("$ref", s "#/$defs/path")]); ("minItems", n 1); ("maxItems", n 128);
  ("uniqueItems", b true)]); ("bpfPrograms", o [("type", s "object"); ("additionalProperties", b false); ("required",
  a [s "INET_SOCK_CREATE"; s "INET4_BIND"; s "INET6_BIND"; s "INET4_CONNECT"; s "INET6_CONNECT"; s "UDP4_SENDMSG"; s
  "UDP6_SENDMSG"]); ("properties", o [("INET_SOCK_CREATE", o [("$ref", s "#/$defs/program")]); ("INET4_BIND", o
  [("$ref", s "#/$defs/program")]); ("INET6_BIND", o [("$ref", s "#/$defs/program")]); ("INET4_CONNECT", o [("$ref", s
  "#/$defs/program")]); ("INET6_CONNECT", o [("$ref", s "#/$defs/program")]); ("UDP4_SENDMSG", o [("$ref", s
  "#/$defs/program")]); ("UDP6_SENDMSG", o [("$ref", s "#/$defs/program")])])]); ("outboundEndpointIds", o [("type", s
  "array"); ("items", o [("type", s "string"); ("minLength", n 1); ("maxLength", n 128); ("pattern", s "^[ -~]+$")]);
  ("minItems", n 0); ("maxItems", n 16); ("uniqueItems", b true)])])]); ("OBSERVER", o [("type", s "object");
  ("additionalProperties", b false); ("required", a [s "executable"; s "artifactDigest"; s "interpreterPath"; s "uid";
  s "gid"; s "processLabel"; s "namespaceInodes"; s "cgroup"; s "seccompMode"; s "filePaths"; s "bpfPrograms"; s
  "outboundEndpointIds"]); ("properties", o [("executable", o [("const", s
  "/opt/planeon/bin/harness-policy-observer")]); ("artifactDigest", o [("type", s "string"); ("pattern", s
  "^sha256:[0-9a-f]{64}$")]); ("interpreterPath", o [("const", VNone)]); ("uid", o [("const", n 0)]); ("gid", o
  [("const", n 0)]); ("processLabel", o [("type", s "string"); ("minLength", n 1); ("maxLength", n 256); ("pattern", s
  "^[ -~]+$")]); ("namespaceInodes", o [("$ref", s "#/$defs/namespaces")]); ("cgroup", o [("type", s "object");
  ("additionalProperties", b false); ("required", a [s "path"; s "inode"; s "memoryMaxBytes"; s "pidsMax"; s
  "cpuQuotaMicros"; s "cpuPeriodMicros"]); ("properties", o [("path", o [("const", s
  "/sys/fs/cgroup/planeon-live/policy-observer")]); ("inode", o [("type", s "integer"); ("minimum", n 1); ("maximum",
  n 9007199254740991)]); ("memoryMaxBytes", o [("type", s "integer"); ("minimum", n 1048576); ("maximum", n
  1099511627776)]); ("pidsMax", o [("type", s "integer"); ("minimum", n 1); ("maximum", n 4096)]); ("cpuQuotaMicros",
  o [("type", s "integer"); ("minimum", n 1000); ("maximum", n 1000000)]); ("cpuPeriodMicros", o [("type", s
  "integer"); ("minimum", n 1000); ("maximum", n 1000000)])])]); ("seccompMode", o [("const", n 2)]); ("filePaths", o
  [("type", s "array"); ("items", o [("$ref", s "#/$defs/path")]); ("minItems", n 1); ("maxItems", n 128);
  ("uniqueItems", b true)]); ("bpfPrograms", o [("type", s "object"); ("additionalProperties", b false); ("required",
  a [s "INET_SOCK_CREATE"; s "INET4_BIND"; s "INET6_BIND"; s "INET4_CONNECT"; s "INET6_CONNECT"; s "UDP4_SENDMSG"; s
  "UDP6_SENDMSG"]); ("properties", o [("INET_SOCK_CREATE", o [("$ref", s "#/$defs/program")]); ("INET4_BIND", o
  [("$ref", s "#/$defs/program")]); ("INET6_BIND", o [("$ref", s "#/$defs/program")]); ("INET4_CONNECT", o [("$ref", s
  "#/$defs/program")]); ("INET6_CONNECT", o [("$ref", s "#/$defs/program")]); ("UDP4_SENDMSG", o [("$ref", s
  "#/$defs/program")]); ("UDP6_SENDMSG", o [("$ref", s "#/$defs/program")])])]); ("outboundEndpointIds", o [("type", s
  "array"); ("items", o [("type", s "string"); ("minLength", n 1); ("maxLength", n 128); ("pattern", s "^[ -~]+$")]);
  ("minItems", n 0); ("maxItems", n 16); ("uniqueItems", b true)])])]); ("BROKER", o [("type", s "object");
  ("additionalProperties", b false); ("required", a [s "executable"; s "artifactDigest"; s "interpreterPath"; s "uid";
  s "gid"; s "processLabel"; s "namespaceInodes"; s "cgroup"; s "seccompMode"; s "filePaths"; s "bpfPrograms"; s
  "outboundEndpointIds"]); ("properties", o [("executable", o [("const", s
  "/opt/planeon/bin/harness-capacity-broker")]); ("artifactDigest", o [("type", s "string"); ("pattern", s
  "^sha256:[0-9a-f]{64}$")]); ("interpreterPath", o [("const", VNone)]); ("uid", o [("const", n 0)]); ("gid", o
  [("const", n 0)]); ("processLabel", o [("type", s "string"); ("minLength", n 1); ("maxLength", n 256); ("pattern", s
  "^[ -~]+$")]); ("namespaceInodes", o [("$ref", s "#/$defs/namespaces")]); ("cgroup", o [("type", s "object");
  ("additionalProperties", b false); ("required", a [s "path"; s "inode"; s "memoryMaxBytes"; s "pidsMax"; s
  "cpuQuotaMicros"; s "cpuPeriodMicros"]); ("properties", o [("path", o [("const", s
  "/sys/fs/cgroup/planeon-live/capacity-broker")]); ("inode", o [("type", s "integer"); ("minimum", n 1); ("maximum",
  n 9007199254740991)]); ("memoryMaxBytes", o [("type", s "integer"); ("minimum", n 1048576); ("maximum", n
  1099511627776)]); ("pidsMax", o [("type", s "integer"); ("minimum", n 1); ("maximum", n 4096)]); ("cpuQuotaMicros",
  o [("type", s "integer"); ("minimum", n 1000); ("maximum", n 1000000)]); ("cpuPeriodMicros", o [("type", s
  "integer"); ("minimum", n 1000); ("maximum", n 1000000)])])]); ("seccompMode", o [("const", n 2)]); ("filePaths", o
  [("type", s "array"); ("items", o [("$ref", s "#/$defs/path")]); ("minItems", n 1); ("maxItems", n 128);
  ("uniqueItems", b true)]); ("bpfPrograms", o [("type", s "object"); ("additionalProperties", b false); ("required",
  a [s "INET_SOCK_CREATE"; s "INET4_BIND"; s "INET6_BIND"; s "INET4_CONNECT"; s "INET6_CONNECT"; s "UDP4_SENDMSG"; s
  "UDP6_SENDMSG"]); ("properties", o [("INET_SOCK_CREATE", o [("$ref", s "#/$defs/program")]); ("INET4_BIND", o
  [("$ref", s "#/$defs/program")]); ("INET6_BIND", o [("$ref", s "#/$defs/program")]); ("INET4_CONNECT", o [("$ref", s
  "#/$defs/program")]); ("INET6_CONNECT", o [("$ref", s "#/$defs/program")]); ("UDP4_SENDMSG", o [("$ref", s
  "#/$defs/program")]); ("UDP6_SENDMSG", o [("$ref", s "#/$defs/program")])])]); ("outboundEndpointIds", o [("type", s
  "array"); ("items", o [("type", s "string"); ("minLength", n 1); ("maxLength", n 128); ("pattern", s "^[ -~]+$")]);
  ("minItems", n 0); ("maxItems", n 16); ("uniqueItems", b true)])])]); ("WORKER", o [("type", s "object");
  ("additionalProperties", b false); ("required", a [s "executable"; s "artifactDigest"; s "interpreterPath"; s "uid";
  s "gid"; s "processLabel"; s "namespaceInodes"; s "cgroup"; s "seccompMode"; s "filePaths"; s "bpfPrograms"; s
  "outboundEndpointIds"]); ("properties", o [("executable", o [("const", s
  "/opt/planeon/bin/harness-live-probe-exec")]); ("artifactDigest", o [("type", s "string"); ("pattern", s
  "^sha256:[0-9a-f]{64}$")]); ("interpreterPath", o [("const", s "/opt/planeon/python/3.12.14/bin/python3.12")]);
  ("uid", o [("type", s "integer"); ("minimum", n 10000); ("maximum", n 2147483647)]); ("gid", o [("type", s
  "integer"); ("minimum", n 10000); ("maximum", n 2147483647)]); ("processLabel", o [("type", s "string");
  ("minLength", n 1); ("maxLength", n 256); ("pattern", s "^[ -~]+$")]); ("namespaceInodes", o [("$ref", s
  "#/$defs/namespaces")]); ("cgroup", o [("type", s "object"); ("additionalProperties", b false); ("required", a [s
  "path"; s "inode"; s "memoryMaxBytes"; s "pidsMax"; s "cpuQuotaMicros"; s "cpuPeriodMicros"]); ("properties", o
  [("path", o [("const", s "/sys/fs/cgroup/planeon-live/probe-worker")]); ("inode", o [("type", s "integer");
  ("minimum", n 1); ("maximum", n 9007199254740991)]); ("memoryMaxBytes", o [("type", s "integer"); ("minimum", n
  1048576); ("maximum", n 1099511627776)]); ("pidsMax", o [("type", s "integer"); ("minimum", n 1); ("maximum", n
  4096)]); ("cpuQuotaMicros", o [("type", s "integer"); ("minimum", n 1000); ("maximum", n 1000000)]);
  ("cpuPeriodMicros", o [("type", s "integer"); ("minimum", n 1000); ("maximum", n 1000000)])])]); ("seccompMode", o
  [("const", n 2)]); ("filePaths", o [("type", s "array"); ("items", o [("$ref", s "#/$defs/path")]); ("minItems", n
  1); ("maxItems", n 128); ("uniqueItems", b true)]); ("bpfPrograms", o [("type", s "object");
  ("additionalProperties", b false); ("required", a [s "INET_SOCK_CREATE"; s "INET4_BIND"; s "INET6_BIND"; s
  "INET4_CONNECT"; s "INET6_CONNECT"; s "UDP4_SENDMSG"; s "UDP6_SENDMSG"]); ("properties", o [("INET_SOCK_CREATE", o
  [("$ref", s "#/$defs/program")]); ("INET4_BIND", o [("$ref", s "#/$defs/program")]); ("INET6_BIND", o [("$ref", s
  "#/$defs/program")]); ("INET4_CONNECT", o [("$ref", s "#/$defs/program")]); ("INET6_CONNECT", o [("$ref", s
  "#/$defs/program")]); ("UDP4_SENDMSG", o [("$ref", s "#/$defs/program")]); ("UDP6_SENDMSG", o [("$ref", s
  "#/$defs/program")])])]); ("outboundEndpointIds", o [("type", s "array"); ("items", o [("type", s "string");
  ("minLength", n 1); ("maxLength", n 128); ("pattern", s "^[ -~]+$")]); ("minItems", n 0); ("maxItems", n 16);
  ("uniqueItems", b true)])])])])]); ("files", o [("type", s "array"); ("items", o [("$ref", s "#/$defs/file")]);
  ("minItems", n 4); ("maxItems", n 128)]); ("endpointTuples", o [("type", s "array"); ("minItems", n 1); ("maxItems",
  n 16); ("items", o [("$ref", s "#/$defs/endpoint")])])])]); ("capture", o [("type", s "object");
  ("additionalProperties", b false); ("required", a [s "evidenceClass"; s "qualificationDigest"; s "role"; s "host"; s
  "selinuxBefore"; s "selinuxAfter"; s "kernelPolicyDigest"; s "observedAt"; s "inspectionStartedMs"; s
  "inspectionFinishedMs"; s "deadlineMs"; s "process"; s "files"; s "executableMaps"; s "bpfPrograms"]);
  ("properties", o [("evidenceClass", o [("const", s "DATA_CHECK_ONLY")]); ("qualificationDigest", o [("type", s
  "string"); ("pattern", s "^sha256:[0-9a-f]{64}$")]); ("role", o [("enum", a [s "SERVER"; s "OBSERVER"; s "BROKER"; s
  "WORKER"])]); ("host", o [("$ref", s "#/$defs/host")]); ("selinuxBefore", o [("$ref", s "#/$defs/status")]);
  ("selinuxAfter", o [("$ref", s "#/$defs/status")]); ("kernelPolicyDigest", o [("type", s "string"); ("pattern", s
  "^sha256:[0-9a-f]{64}$")]); ("observedAt", o [("$ref", s "#/$defs/time")]); ("inspectionStartedMs", o [("type", s
  "integer"); ("minimum", n 0); ("maximum", n 9007199254740991)]); ("inspectionFinishedMs", o [("type", s "integer");
  ("minimum", n 0); ("maximum", n 9007199254740991)]); ("deadlineMs", o [("type", s "integer"); ("minimum", n 0);
  ("maximum", n 9007199254740991)]); ("process", o [("type", s "object"); ("additionalProperties", b false);
  ("required", a [s "pid"; s "startTicks"; s "uid"; s "gid"; s "processLabel"; s "namespaceInodes"; s "cgroup"; s
  "seccompMode"]); ("properties", o [("pid", o [("type", s "integer"); ("minimum", n 2); ("maximum", n 2147483647)]);
  ("startTicks", o [("type", s "integer"); ("minimum", n 1); ("maximum", n 9007199254740991)]); ("uid", o [("type", s
  "integer"); ("minimum", n 0); ("maximum", n 2147483647)]); ("gid", o [("type", s "integer"); ("minimum", n 0);
  ("maximum", n 2147483647)]); ("processLabel", o [("type", s "string"); ("minLength", n 1); ("maxLength", n 256);
  ("pattern", s "^[ -~]+$")]); ("namespaceInodes", o [("$ref", s "#/$defs/namespaces")]); ("cgroup", o [("$ref", s
  "#/$defs/cgroup")]); ("seccompMode", o [("const", n 2)])])]); ("files", o [("type", s "array"); ("items", o
  [("$ref", s "#/$defs/fileObservation")]); ("minItems", n 1); ("maxItems", n 128)]); ("executableMaps", o [("type", s
  "array"); ("items", o [("$ref", s "#/$defs/mapping")]); ("minItems", n 1); ("maxItems", n 256)]); ("bpfPrograms", o
  [("type", s "object"); ("additionalProperties", b false); ("required", a [s "INET_SOCK_CREATE"; s "INET4_BIND"; s
  "INET6_BIND"; s "INET4_CONNECT"; s "INET6_CONNECT"; s "UDP4_SENDMSG"; s "UDP6_SENDMSG"]); ("properties", o
  [("INET_SOCK_CREATE", o [("$ref", s "#/$defs/observedProgram")]); ("INET4_BIND", o [("$ref", s
  "#/$defs/observedProgram")]); ("INET6_BIND", o [("$ref", s "#/$defs/observedProgram")]); ("INET4_CONNECT", o
  [("$ref", s "#/$defs/observedProgram")]); ("INET6_CONNECT", o [("$ref", s "#/$defs/observedProgram")]);
  ("UDP4_SENDMSG", o [("$ref", s "#/$defs/observedProgram")]); ("UDP6_SENDMSG", o [("$ref", s
  "#/$defs/observedProgram")])])])])]); ("endpoint", o [("type", s "object"); ("additionalProperties", b false);
  ("required", a [s "endpointId"; s "kind"; s "addressFamily"; s "ipAddress"; s "port"]); ("properties", o
  [("endpointId", o [("type", s "string"); ("minLength", n 1); ("maxLength", n 128); ("pattern", s "^[ -~]+$")]);
  ("kind", o [("enum", a [s "CAMPAIGN_PROXY"; s "KUBERNETES_API_PROXY"])]); ("addressFamily", o [("enum", a [s "IPV4";
  s "IPV6"])]); ("ipAddress", o [("type", s "string"); ("minLength", n 1); ("maxLength", n 45)]); ("port", o [("type",
  s "integer"); ("minimum", n 1); ("maximum", n 65535)])])])])].
