(* ===== verification/ProxyDocument.v ===== *)
(** live_mutation_admission.py, the closed data of the proxy: bounded documents, the interpreter
    of the pinned specifications, and its times. *)

From S2P Require Import Prelude PyVal Utf8 Json Sha2 Canonical IsoTime Regex.
From S2P Require Import SchemaBase Lifecycle LinuxShape LinuxVerify Session ProxySpecs.

#[local] Open Scope string_scope.
#[local] Open Scope list_scope.
#[local] Open Scope Z_scope.

(* @src src/src/harness_conformance/live_mutation_admission.py:20-20 PROFILE_PATH *)
Definition PROFILE_PATH : string := "campaigns/platform/linux-baseline/proxy-profile.json".
(* @src src/src/harness_conformance/live_mutation_admission.py:21-21 OBSERVATION_PATH *)
Definition OBSERVATION_PATH : string := "campaigns/platform/linux-baseline/policy-observation-binding.json".
(* @src src/src/harness_conformance/live_mutation_admission.py:22-22 POLICIES *)
Definition POLICIES : list string :=
  ["admissionPolicy"; "resourceQuota"; "limitRange"; "serviceAccount"; "rbac"; "networkPolicy"; "mutationBroker"].
(* @src src/src/harness_conformance/live_mutation_admission.py:23-23 PATHS *)
Definition PATHS : value := VList (map (fun c => VStr (probe_path (u c))) CASES).
(* @src src/src/harness_conformance/live_mutation_admission.py:24-24 ZERO *)
Definition ZERO : str := u "sha256:" ++ repeat 48%N 64.
(* @src src/src/harness_conformance/live_mutation_admission.py:25-25 UNITS *)
Definition UNITS : list string :=
  ["pods"; "configMaps"; "services"; "cpuMillis"; "memoryBytes"; "ephemeralStorageBytes"].

Definition SAFE_INTEGER : Z := 9007199254740991.

(** ** Bounded documents *)

(** The charge of one node, and the traversal; the budget is threaded. *)
Definition unit_charge (v : value) : Z :=
  match v with
  | VStr s => zlen s + 1
  | VList l => zlen l + 1
  | VDict d => zlen d + 1
  | _ => 1
  end.

(* @src src/src/harness_conformance/live_mutation_admission.py:36-52 _bounded *)
Fixpoint _bounded (v : value) (depth budget : Z) : res Z :=
  require (depth <=? 16) "PROXY_DATA_TYPE" ;;
  let budget := budget - unit_charge v in
  require (0 <=? budget) "PROXY_DATA_SIZE" ;;
  match v with
  | VInt z => require (Z.abs z <=? SAFE_INTEGER) "PROXY_INTEGER_RANGE" ;; Ok budget
  | VDict d =>
      for_fold (fun budget kv =>
        (* _bounded(key, maximum, depth + 1, budget) *)
        require (depth + 1 <=? 16) "PROXY_DATA_TYPE" ;;
        let budget := budget - (zlen kv.1 + 1) in
        require (0 <=? budget) "PROXY_DATA_SIZE" ;;
        _bounded kv.2 (depth + 1) budget) budget d
  | VList l => for_fold (fun budget x => _bounded x (depth + 1) budget) budget l
  | _ => Ok budget
  end.

(** [spec.get(k)] and [k in spec]. *)
Definition kw (spec : value) (k : string) : option value := match spec with VDict d => dget (u k) d | _ => None end.
Arguments kw spec k%_string_scope.

(** [spec.get(k, default)] read as an integer bound. *)
Definition int_kw (spec : value) (k : string) (default : Z) : res Z :=
  match kw spec k with
  | None => Ok default
  | Some (VInt z) => Ok z
  | Some (VBool x) => Ok (Z.b2z x)
  | Some _ => Raise TypeError
  end.

(** The patterns of the pinned specifications, as expressions of [re] with [re.ASCII]. *)
Definition digest_re : regex := RSeq (lit "sha256:") (rep 64 (cls "0-9a-f")).
Definition name_re : regex := RSeq (cls "a-z0-9") (upto 62 (cls "a-z0-9.-")).
Definition uid_re : regex := RSeq (cls "A-Za-z0-9-") (upto 127 (cls "A-Za-z0-9-")).
Definition second_re : regex :=
  let d n := rep n (cls "0-9") in
  foldr RSeq (lit "Z")
    [d 4%nat; lit "-"; d 2%nat; lit "-"; d 2%nat; lit "T"; d 2%nat; lit ":"; d 2%nat; lit ":"; d 2%nat].
Definition uuid_re : regex :=
  let x n := rep n (cls "0-9a-f") in
  foldr RSeq (x 12%nat) [x 8%nat; lit "-"; x 4%nat; lit "-"; x 4%nat; lit "-"; x 4%nat; lit "-"].

Definition patterns : list (string * regex) :=
  [("^sha256:[0-9a-f]{64}$", digest_re);
   ("^[a-z0-9](?:[a-z0-9.-]{0,62})$", name_re);
   ("^[a-z0-9][a-z0-9.-]{0,62}$", name_re);
   ("^[a-zA-Z0-9-]{1,128}$", uid_re);
   ("^[A-Za-z0-9-]{1,128}$", uid_re);
   ("^\d{4}-\d{2}-\d{2}T\d{2}:\d{2}:\d{2}Z$", second_re);
   ("^[0-9]{4}-[0-9]{2}-[0-9]{2}T[0-9]{2}:[0-9]{2}:[0-9]{2}Z$", second_re);
   ("^[0-9a-f]{8}(-[0-9a-f]{4}){3}-[0-9a-f]{12}$", uuid_re);
   ("^[0-9a-f]{8}-[0-9a-f]{4}-[0-9a-f]{4}-[0-9a-f]{4}-[0-9a-f]{12}$", uuid_re);
   ("^[0-9a-f]{64}$", rep 64 (cls "0-9a-f"));
   ("^[1-9][0-9]{0,14}$", RSeq (cls "1-9") (upto 14 (cls "0-9")));
   ("^[1-9][0-9]{0,6}m$", RSeq (cls "1-9") (RSeq (upto 6 (cls "0-9")) (lit "m")));
   ("^/[A-Za-z0-9_./+-]+$", RSeq (lit "/") (plus (cls "A-Za-z0-9_./+-")));
   ("^/v1/linux-baseline/[a-z-]+$", RSeq (lit "/v1/linux-baseline/") (plus (cls "a-z-")));
   ("^[ -~]+$", plus (cls " -~"));
   ("^[A-Za-z0-9+/]+={0,2}$", RSeq (plus (cls "A-Za-z0-9+/")) (upto 2 (cls "=")));
   ("^[A-Za-z0-9./-]+$", plus (cls "A-Za-z0-9./-"));
   ("^[A-Za-z0-9._:-]+$", plus (cls "A-Za-z0-9._:-"));
   ("^[A-Za-z][A-Za-z0-9]+$", RSeq (cls "A-Za-z") (plus (cls "A-Za-z0-9")));
   ("^[a-z0-9][a-z0-9.:/-]*@sha256:[0-9a-f]{64}$",
     RSeq (cls "a-z0-9") (RSeq (RStar (cls "a-z0-9.:/-")) (RSeq (lit "@") digest_re)));
   ("^system:serviceaccount:[a-z0-9.-]+:[a-z0-9.-]+$",
     RSeq (lit "system:serviceaccount:") (RSeq (plus (cls "a-z0-9.-")) (RSeq (lit ":") (plus (cls "a-z0-9.-")))))].

(** [re.fullmatch(pattern, text, re.ASCII) is not None] for the listed patterns. *)
Definition pattern_matches (pattern : value) (text : str) : res bool :=
  match List.find (fun e => eq_lit pattern e.1) patterns with
  | Some e => Ok (fullmatch e.2 text)
  | None => Raise ValueError
  end.

(** The type names of a specification. *)
Definition type_matches (expected v : value) : res bool :=
  match List.find (fun e => eq_lit expected e.1)
          [("object", is_dict v); ("array", is_list v); ("string", is_str v); ("integer", is_int v);
           ("boolean", is_bool v); ("null", is_none v)] with
  | Some e => Ok e.2
  | None => if hashable expected then Raise KeyError else Raise TypeError
  end.

Definition keywords : list string :=
  ["$schema"; "$id"; "$defs"; "$ref"; "oneOf"; "type"; "additionalProperties"; "required"; "properties"; "const";
   "enum"; "items"; "minItems"; "maxItems"; "uniqueItems"; "minLength"; "maxLength"; "pattern"; "minimum"; "maximum"].

(** [len({canonical_bytes(v) for v in l}) == len(l)]. *)
Fixpoint all_distinct (l : list str) : bool :=
  match l with [] => true | x :: l' => negb (str_in x l') && all_distinct l' end.

(** [texts(spec.get("required", ()))]. *)
Definition text_items (v : value) : res (list str) :=
  l ← py_iter v; map_m as_text l.

Definition subset_str (a b : list str) : bool := forallb (fun x => str_in x b) a.

Section documents.
Context {U : Unicode}.

(* @src src/src/harness_conformance/live_mutation_admission.py:55-71 document *)
Definition document (x : data) (maximum : Z) : res value :=
  match x with
  | Raw raw =>
      require ((0 <? zlen raw) && (zlen raw <=? maximum)) "PROXY_DATA_SIZE" ;;
      v ← require_canonical_document raw;
      encoded ← canonical_bytes v;
      require (str_eqb encoded raw) "PROXY_NONCANONICAL_BYTES" ;;
      _ ← _bounded v 0 maximum;
      require (zlen encoded <=? maximum) "PROXY_DATA_SIZE" ;;
      Ok v
  | Value v =>
      _ ← _bounded v 0 maximum;
      raw ← canonical_bytes v;
      require (zlen raw <=? maximum) "PROXY_DATA_SIZE" ;;
      require_canonical_document raw
  end.

Definition same_canonical (v w : value) : res bool :=
  x ← canonical_bytes v; y ← canonical_bytes w; Ok (str_eqb x y).

(** [name[8:]] of a [$ref] into the definitions. *)
Definition ref_name (name : value) (definitions : dict) : res str :=
  match name with
  | VStr t => require (startswith (u "#/$defs/") t && dhas (drop 8 t) definitions) "PROXY_SPEC_INVALID" ;; Ok (drop 8 t)
  | _ => conf "PROXY_SPEC_INVALID"
  end.

(** A keyword's clause. *)
Definition when_kw (spec : value) (k : string) (clause : value -> res unit) : res unit :=
  match kw spec k with Some x => clause x | None => Ok tt end.

(** [try: m; count += 1 except ConformanceError: pass]. *)
Definition accepted (m : res unit) : res bool :=
  match m with
  | Ok _ => Ok true
  | Raise e => if is_conformance e then Ok false else Raise e
  end.

(** The interpreter; [fuel] bounds the descent into the specification, references included. *)
(* @src src/src/harness_conformance/live_mutation_admission.py:74-121 _shape *)
Fixpoint _shape (fuel : nat) (v spec : value) (definitions : dict) : res unit :=
  match fuel with
  | O => Raise RecursionError
  | Datatypes.S fuel =>
  require (match spec with VDict d => subset_str (dkeys d) (u <$> keywords) | _ => false end) "PROXY_SPEC_INVALID" ;;
  when_kw spec "$ref" (fun name =>
    target ← ref_name name definitions;
    _shape fuel v (default VNone (dget target definitions)) definitions) ;;
  when_kw spec "oneOf" (fun options =>
    l ← py_iter options;
    flags ← map_m (fun option => accepted (_shape fuel v option definitions)) l;
    require (zlen (List.filter id flags) =? 1) "PROXY_SHAPE_INVALID") ;;
  when_kw spec "type" (fun expected => require_m (type_matches expected v) "PROXY_SHAPE_INVALID") ;;
  when_kw spec "const" (fun x => require_m (same_canonical v x) "PROXY_CONSTANT_INVALID") ;;
  when_kw spec "enum" (fun l =>
    require_m (xs ← py_iter l; any_m (same_canonical v) xs) "PROXY_ENUM_INVALID") ;;
  match v with
  | VDict d =>
      when_kw spec "properties" (fun properties =>
        required ← text_items (default (VList []) (kw spec "required"));
        require (subset_str required (dkeys d)) "PROXY_FIELD_MISSING" ;;
        ps ← items properties;
        require (match kw spec "additionalProperties" with Some x => is_false_lit x | None => false end &&
                 subset_str (dkeys d) (dkeys ps)) "PROXY_FIELD_UNKNOWN" ;;
        for_each (fun kv => p ← getitem properties kv.1; _shape fuel kv.2 p definitions) d)
  | VList l =>
      lo ← int_kw spec "minItems" 0;
      hi ← int_kw spec "maxItems" 4096;
      require ((lo <=? zlen l) && (zlen l <=? hi)) "PROXY_COLLECTION_SIZE" ;;
      (if match kw spec "uniqueItems" with Some x => truthy x | None => false end then
         require_m (bs ← map_m canonical_bytes l; Ok (all_distinct bs)) "PROXY_DUPLICATE" else Ok tt) ;;
      for_each (fun item => when_kw spec "items" (fun p => _shape fuel item p definitions)) l
  | VStr t =>
      lo ← int_kw spec "minLength" 0;
      hi ← int_kw spec "maxLength" 262144;
      require ((lo <=? zlen t) && (zlen t <=? hi)) "PROXY_STRING_SIZE" ;;
      when_kw spec "pattern" (fun p => require_m (pattern_matches p t) "PROXY_STRING_INVALID")
  | VInt z =>
      lo ← int_kw spec "minimum" (- SAFE_INTEGER);
      hi ← int_kw spec "maximum" SAFE_INTEGER;
      require ((lo <=? z) && (z <=? hi)) "PROXY_INTEGER_RANGE"
  | _ => Ok tt
  end
  end.

(** [_shape(value, SPEC["$defs"][variant], SPEC["$defs"])], and with the whole [SPEC]; forty
    levels are more than any of the four specifications has (see [shape_levels]). *)
Definition LEVELS : nat := 40.

Definition shape_def (SPEC : value) (variant : string) (v : value) : res unit :=
  defs ← fld SPEC "$defs"; spec ← fld defs variant; ds ← items defs; _shape LEVELS v spec ds.

Definition shape_root (SPEC v : value) : res unit :=
  defs ← fld SPEC "$defs"; ds ← items defs; _shape LEVELS v SPEC ds.

(** ** Times *)

(** The decimal value of the digits of [s] at [i]. *)
Definition digits_at (s : str) (i k : nat) : Z :=
  fold_left (fun acc c => acc * 10 + (Z.of_N c - 48)) (take k (drop i s)) 0.

(** [datetime.strptime(s, "%Y-%m-%dT%H:%M:%SZ")] at UTC, on a text of that shape. *)
Definition strptime_utc (s : str) : res datetime :=
  let y := digits_at s 0 4 in let mo := digits_at s 5 2 in let d := digits_at s 8 2 in
  let h := digits_at s 11 2 in let mi := digits_at s 14 2 in let se := digits_at s 17 2 in
  if (1 <=? y) && (1 <=? mo) && (mo <=? 12) && (1 <=? d) && (d <=? month_days y mo) &&
     (h <? 24) && (mi <? 60) && (se <? 60)
  then Ok {| instant := ymd_to_ord y mo d * day_microseconds + ((h * 60 + mi) * 60 + se) * 1000000; aware := true |}
  else Raise ValueError.

(* @src src/src/harness_conformance/live_mutation_admission.py:124-127 _time *)
Definition _time (v : value) : res datetime :=
  require (match v with VStr s => fullmatch second_re s | _ => false end) "PROXY_TIME_INVALID" ;;
  match v with VStr s => strptime_utc s | _ => Raise TypeError end.

Definition proxy_time (v : value) (k : string) : res datetime := x ← fld v k; _time x.
End documents.

(** ** The budget *)

(** What the traversal charges, and what it admits at a depth. *)
Fixpoint weight (v : value) : Z :=
  unit_charge v +
  match v with
  | VList l => total weight l
  | VDict d => total (fun kv => zlen kv.1 + 1 + weight kv.2) d
  | _ => 0
  end.

Fixpoint fits (depth : Z) (v : value) : Prop :=
  depth <= 16 /\
  match v with
  | VInt z => Z.abs z <= SAFE_INTEGER
  | VList l => every (fits (depth + 1)) l
  | VDict d => every (fun kv => depth + 1 <= 16 /\ fits (depth + 1) kv.2) d
  | _ => True
  end.

Lemma proxy_weight_pos v : 0 < weight v.
Proof.
  induction v as [| | |s|l IH|d IH] using value_ind; simpl; try lia.
  - unfold zlen. lia.
  - rewrite List.Forall_forall in IH. assert (0 <= total weight l); [|pose proof (zlen_nonneg l); lia].
    apply total_nonneg. intros x Hx. specialize (IH x Hx). cbv beta in IH. lia.
  - rewrite List.Forall_forall in IH. pose proof (zlen_nonneg d).
    assert (0 <= total (fun kv => zlen kv.1 + 1 + weight kv.2) d); [|lia].
    apply total_nonneg. intros [k x] Hkv. specialize (IH (k, x) Hkv). simpl in *. pose proof (zlen_nonneg k). lia.
Qed.

(** The loop over the members of a container, from a budget that is checked first. *)
Lemma members_budget {A} (f : Z -> A -> res Z) (w : A -> Z) (P : A -> Prop) l r r' :
  (forall x, In x l -> charges f w P x) ->
  0 <= r /\ for_fold f r l = Ok r' <-> every P l /\ r' = r - total w l /\ 0 <= r'.
Proof.
  intros Hl. rewrite <- (budget_members f w P l r r' Hl). split; [|tauto].
  intros [Hr Hf]. split; [done |]. by apply (budget_fold _ _ _ _ _ _ Hl Hr) in Hf as (_ & _ & ?).
Qed.

Lemma proxy_bounded_reference v depth r r' :
  _bounded v depth r = Ok r' <-> fits depth v /\ r' = r - weight v /\ 0 <= r'.
Proof.
  revert depth r r'. induction v as [|b|z|s|l IH|d IH] using value_ind; intros depth r r';
    cbn [_bounded]; cbv zeta; rewrite !require_bind, !Z.leb_le; cbn [fits weight unit_charge];
    rewrite ?require_bind, ?Z.leb_le.
  1, 2, 4: rewrite Z.add_0_r; split; [intros (? & ? & [= <-]); auto | intros ([? _] & -> & ?); auto].
  - split; [intros (? & ? & ? & [= <-]); repeat split; auto; lia | intros ([? ?] & -> & ?)].
    rewrite Z.add_0_r in *. auto.
  - rewrite List.Forall_forall in IH.
    rewrite (members_budget _ weight (fits (depth + 1))).
    + rewrite (Z.sub_add_distr r (zlen l + 1)). tauto.
    + intros x Hx. split; [pose proof (proxy_weight_pos x); lia | intros; by apply IH].
  - rewrite List.Forall_forall in IH.
    rewrite (members_budget _ (fun kv => zlen kv.1 + 1 + weight kv.2) (fun kv => depth + 1 <= 16 /\ fits (depth + 1) kv.2)).
    + rewrite (Z.sub_add_distr r (zlen d + 1)). tauto.
    + intros [k x] Hkv. cbn [fst snd]. pose proof (proxy_weight_pos x). pose proof (zlen_nonneg k). split; cbn [fst snd]; [lia |].
      intros q q'. cbv zeta. rewrite !require_bind, !Z.leb_le, (IH (k, x) Hkv). cbn [fst snd] in *. split.
      * intros (? & ? & ? & -> & ?). repeat split; auto; lia.
      * intros ((? & ?) & -> & ?). repeat split; auto; lia.
Qed.

(** ** Documents *)

Lemma fld_uniq v k x : uniq v = true -> fld v k = Ok x -> uniq x = true.
Proof.
  intros Hu (d & -> & Hx%dget_In)%fld_Ok. cbn [uniq] in Hu. apply andb_true_iff in Hu as [_ Hu].
  rewrite forallb_forall in Hu. exact (Hu _ Hx).
Qed.

(** The values inside one in canonical form are in canonical form. *)
Lemma norm_fld v k x : uniq v = true -> norm v = v -> fld v k = Ok x -> uniq x = true /\ norm x = x.
Proof.
  intros Hu Hn Hf. split; [by apply (fld_uniq v k) |]. apply fld_Ok in Hf as (d & -> & Hx%dget_In).
  - cbn [norm] in Hn. injection Hn as Hn. rewrite <- Hn in Hx.
    eapply Permutation_in in Hx; [|apply sort_items_perm]. apply in_map_iff in Hx as ([j y] & [= _ <-] & _).
    apply norm_idem.
Qed.

Lemma fld_norm v k x : uniq v = true -> fld v k = Ok x -> fld (norm v) k = Ok (norm x).
Proof.
  intros Hu (d & -> & Hx)%fld_Ok. cbn [uniq] in Hu. apply andb_true_iff in Hu as [Hn%bool_decide_eq_true _].
  apply fld_Ok. cbn [norm]. eexists. split; [done |]. assert (dkeys (map (fun kv => (kv.1, norm kv.2)) d) = dkeys d) as Hk by apply dkeys_map.
  rewrite <- (dget_perm (u k) (map (fun kv => (kv.1, norm kv.2)) d)); [|by rewrite Hk | by rewrite sort_items_perm].
  apply dget_NoDup_In; [by rewrite Hk |]. apply dget_In in Hx. by apply (in_map (fun kv => (kv.1, norm kv.2))) in Hx.
Qed.

(** A value whose dicts have distinct keys equals itself. *)
Lemma py_eq_refl v : uniq v = true -> py_eq v v = true.
Proof.
  induction v as [|b|z|s|l IH|d IH] using value_ind; intros Hu; cbn [py_eq].
  - done.
  - by destruct b.
  - apply Z.eqb_refl.
  - apply str_eqb_refl.
  - cbn [uniq] in Hu. induction IH as [|x l Hx _ IHl]; [done |]. cbn [forallb] in Hu.
    apply andb_true_iff in Hu as [Hu Hl]. rewrite Hx by done. by apply IHl.
  - cbn [uniq] in Hu. apply andb_true_iff in Hu as [Hn%bool_decide_eq_true Hu]. rewrite Nat.eqb_refl. cbn [andb].
    rewrite List.Forall_forall in IH. rewrite forallb_forall in Hu |- *. intros [k x] Hin. cbn [fst snd].
    rewrite (dget_NoDup_In k x) by done. apply (IH (k, x) Hin), (Hu (k, x) Hin).
Qed.

Section document_facts.
Context {U : Unicode}.

Lemma document_Ok x maximum w :
  document x maximum = Ok w ->
  uniq w = true /\ norm w = w /\
  exists b, canonical_bytes w = Ok b /\ zlen b <= maximum /\
    match x with
    | Raw raw => raw = b /\ fits 0 w /\ weight w <= maximum
    | Value v => fits 0 v /\ weight v <= maximum /\ canonical_bytes v = Ok b /\ (uniq v = true -> w = norm v)
    end.
Proof.
  unfold document. destruct x as [raw | v].
  - rewrite require_bind. intros [_ H]. apply bind_Ok in H as (v & Hv & H). apply bind_Ok in H as (b & Hb & H).
    rewrite require_bind, str_eqb_eq in H. destruct H as [-> H]. apply bind_Ok in H as (r & Hf & H).
    rewrite require_bind, Z.leb_le in H. destruct H as [Hlen [= ->]].
    apply proxy_bounded_reference in Hf as (Hf & -> & Hw). apply require_canonical_Ok in Hv as (_ & Hu & Hn & _).
    do 2 (split; [done |]). exists raw. do 3 (split; [done |]). split; [done | lia].
  - intros H. apply bind_Ok in H as (r & (Hf & -> & Hw)%proxy_bounded_reference & H). apply bind_Ok in H as (b & Hb & H).
    rewrite require_bind, Z.leb_le in H. destruct H as [Hlen H].
    apply require_canonical_Ok in H as (_ & Hu & Hn & b' & Hb' & Hbb).
    assert (b = b') as <- by (destruct Hbb as [? | ->]; [done | by apply canonical_bytes_no_newline with (x := b') in Hb]).
    do 2 (split; [done |]). exists b. do 4 (split; [done || lia |]). split; [done |]. intros Huv.
    rewrite <- Hn. symmetry. by apply (canonical_bytes_norm_eq v w b b).
Qed.

(** Detaching a value that is already canonical keeps it. *)
Lemma document_canonical v maximum w :
  uniq v = true -> norm v = v -> document (Value v) maximum = Ok w -> w = v.
Proof. intros Hu Hn (_ & _ & b & _ & _ & _ & _ & _ & H)%document_Ok. rewrite H by done. done. Qed.

(** ** Levels of a specification *)

(** Whether every descent into the specification ends within [n] levels. *)
Fixpoint levels (n : nat) (spec : value) (definitions : dict) : bool :=
  match n with
  | O => false
  | Datatypes.S n =>
      (match kw spec "$ref" with
       | Some (VStr t) => levels n (default VNone (dget (drop 8 t) definitions)) definitions
       | _ => true
       end) &&
      (match kw spec "oneOf" with
       | Some (VList l) => forallb (fun o => levels n o definitions) l
       | Some _ => false
       | None => true
       end) &&
      (match kw spec "properties" with
       | Some (VDict ps) => forallb (fun kv => levels n kv.2 definitions) ps
       | Some _ => false
       | None => true
       end) &&
      (match kw spec "items" with Some p => levels n p definitions | None => true end)
  end.

Lemma when_kw_ext spec k f g : (forall x, kw spec k = Some x -> f x = g x) -> when_kw spec k f = when_kw spec k g.
Proof. unfold when_kw. destruct (kw spec k); auto. Qed.

Lemma for_each_ext {A} (f g : A -> res unit) l : (forall x, In x l -> f x = g x) -> for_each f l = for_each g l.
Proof.
  induction l as [|x l IH]; intros H; [done |]. cbn. rewrite (H x) by (by left). destruct (g x); [|done]. apply IH. auto with datatypes.
Qed.

Lemma map_m_ext {A B} (f g : A -> res B) l : (forall x, In x l -> f x = g x) -> map_m f l = map_m g l.
Proof.
  induction l as [|x l IH]; intros H; [done |]. cbn. rewrite (H x) by (by left). destruct (g x); [|done]. cbn.
  rewrite IH; [done |]. intros; apply H; by right.
Qed.

Lemma seq_ext {B} (m m' : res unit) (k k' : res B) : m = m' -> k = k' -> (m ;; k) = (m' ;; k').
Proof. by intros -> ->. Qed.

Lemma bind_ext {A B} (m : res A) (f g : A -> res B) : (forall a, m = Ok a -> f a = g a) -> m ≫= f = m ≫= g.
Proof. destruct m; [intros H; by apply H | done]. Qed.

Lemma levels_fuel n m v spec definitions :
  levels n spec definitions = true -> (n <= m)%nat -> _shape m v spec definitions = _shape n v spec definitions.
Proof.
  revert m v spec. induction n as [|n IH]; intros m v spec; [done |]. destruct m as [|m]; [lia |]. intros H Hm.
  cbn [levels] in H. apply andb_true_iff in H as [H Hitems]. apply andb_true_iff in H as [H Hprops].
  apply andb_true_iff in H as [Href Hone]. cbn [_shape].
  apply seq_ext; [done |]. apply seq_ext; [|apply seq_ext; [|apply seq_ext; [done |]; apply seq_ext; [done |]; apply seq_ext; [done |]]].
  - apply when_kw_ext. intros x Hx. rewrite Hx in Href. apply bind_ext. intros t Ht.
    destruct x as [| | |name| |]; try done. unfold ref_name in Ht. rewrite require_bind in Ht. destruct Ht as [_ [= <-]].
    apply IH; [done | lia].
  - apply when_kw_ext. intros x Hx. rewrite Hx in Hone. destruct x as [| | | |l|]; try done. cbn [py_iter mbind res_bind].
    rewrite forallb_forall in Hone. f_equal. apply map_m_ext. intros o Ho. f_equal. apply IH; [by apply Hone | lia].
  - destruct v as [| | | |l|d]; try done.
    + apply bind_ext. intros lo _. apply bind_ext. intros hi _. apply seq_ext; [done |]. apply seq_ext; [done |].
      apply for_each_ext. intros item _. apply when_kw_ext. intros p Hp. rewrite Hp in Hitems. apply IH; [done | lia].
    + apply when_kw_ext. intros ps Hps. rewrite Hps in Hprops. apply bind_ext. intros required _. apply seq_ext; [done |].
      apply bind_ext. intros items_ _. apply seq_ext; [done |]. apply for_each_ext. intros [k x] _.
      apply bind_ext. cbn [fst snd]. intros p Hp. destruct ps as [| | | | |ps]; try done. rewrite forallb_forall in Hprops.
      cbn [getitem] in Hp. destruct (dget k ps) as [q|] eqn:E; [|done]. injection Hp as ->.
      apply dget_In in E. apply IH; [exact (Hprops _ E) | lia].
Qed.
(** Nothing but the descent raises [RecursionError]. *)
Definition shallow (e : exn) : Prop := e <> RecursionError.

Lemma canonical_bytes_shallow v : raises_only shallow (canonical_bytes v).
Proof. by intros e He%canonical_bytes_raise ->. Qed.

Lemma raise_shallow {A} (m : res A) : match m with Raise RecursionError => False | _ => True end -> raises_only shallow m.
Proof. by intros H e -> ->. Qed.

Lemma when_kw_shallow spec k f : (forall x, kw spec k = Some x -> raises_only shallow (f x)) -> raises_only shallow (when_kw spec k f).
Proof. unfold when_kw. intros H. destruct (kw spec k); [by apply H | apply ro_ok]. Qed.

Lemma int_kw_shallow spec k z : raises_only shallow (int_kw spec k z).
Proof. apply raise_shallow. unfold int_kw. by destruct (kw spec k) as [[]|]. Qed.

Lemma type_matches_shallow x v : raises_only shallow (type_matches x v).
Proof. apply raise_shallow. unfold type_matches. destruct (List.find _ _); [done |]. by destruct (hashable x). Qed.

Lemma pattern_matches_shallow x t : raises_only shallow (pattern_matches x t).
Proof. apply raise_shallow. unfold pattern_matches. by destruct (List.find _ _). Qed.

Lemma py_iter_shallow v : raises_only shallow (py_iter v).
Proof. apply raise_shallow. by destruct v. Qed.

Lemma accepted_shallow m : raises_only shallow m -> raises_only shallow (accepted m).
Proof. destruct m as [|e]; [intros _; apply ro_ok |]. cbn. destruct (is_conformance e); [intros _; apply ro_ok | intros H x [= <-]; by apply H]. Qed.

Ltac shallow_step :=
  lazymatch goal with
  | |- raises_only _ (canonical_bytes _) => apply canonical_bytes_shallow
  | |- raises_only _ (same_canonical _ _) => unfold same_canonical
  | |- raises_only _ (when_kw _ _ _) => apply when_kw_shallow; intros ? ?
  | |- raises_only _ (int_kw _ _ _) => apply int_kw_shallow
  | |- raises_only _ (type_matches _ _) => apply type_matches_shallow
  | |- raises_only _ (pattern_matches _ _) => apply pattern_matches_shallow
  | |- raises_only _ (py_iter _) => apply py_iter_shallow
  | |- raises_only _ (accepted _) => apply accepted_shallow
  | |- raises_only _ (text_items _) => unfold text_items
  | |- raises_only _ (as_text ?v) => apply raise_shallow; by destruct v
  | |- raises_only _ (items ?v) => apply raise_shallow; by destruct v
  | |- raises_only _ _ => raises_step
  end.

Lemma levels_shallow n v spec definitions : levels n spec definitions = true -> raises_only shallow (_shape n v spec definitions).
Proof.
  revert v spec. induction n as [|n IH]; intros v spec; [done |]. intros H.
  cbn [levels] in H. apply andb_true_iff in H as [H Hitems]. apply andb_true_iff in H as [H Hprops].
  apply andb_true_iff in H as [Href Hone]. cbn [_shape]. repeat shallow_step.
  - apply raise_shallow. destruct x; try done. cbn. by destruct (_ && _).
  - match goal with E : kw _ _ = Some _ |- _ => rewrite E in Href end. destruct x; try done. unfold ref_name in *.
    match goal with E : _ = Ok _ |- _ => rewrite require_bind in E; destruct E as [_ [= <-]] end. by apply IH.
  - match goal with E : kw _ _ = Some _ |- _ => rewrite E in Hone end. destruct x; try done. match goal with E : py_iter _ = Ok _ |- _ => injection E as <- end.
    rewrite forallb_forall in Hone. by apply IH, Hone.
  - destruct v; repeat shallow_step.
    + match goal with E : kw _ _ = Some _ |- _ => rewrite E in Hitems end. by apply IH.
    + apply raise_shallow. destruct x; try done. cbn. by destruct (dget _ _).
    + match goal with E : kw _ _ = Some _ |- _ => rewrite E in Hprops end. destruct x as [| | | | |ps]; try done.
      match goal with E : getitem _ ?k = Ok _ |- _ => cbn [getitem] in E; destruct (dget k ps) eqn:Eg; [injection E as -> | done] end.
      apply dget_In in Eg. rewrite forallb_forall in Hprops. apply IH. exact (Hprops _ Eg).
Qed.

(** A specification that refers to itself has no such number of levels: it is never done with. *)
Lemma self_reference n v :
  let own := VDict [(u "$ref", VStr (u "#/$defs/own"))] in
  _shape n v own [(u "own", own)] = Raise RecursionError.
Proof.
  cbv zeta. set (own := VDict _). induction n as [|n IH]; [done |]. cbn [_shape].
  assert (require (match own with VDict d => subset_str (dkeys d) (u <$> keywords) | _ => false end) "PROXY_SPEC_INVALID" = Ok tt) as -> by done.
  assert (forall f, when_kw own "$ref" f = f (VStr (u "#/$defs/own"))) as Hk by done. cbn [mbind res_bind]. rewrite Hk.
  assert (ref_name (VStr (u "#/$defs/own")) [(u "own", own)] = Ok (u "own")) as -> by done. cbn [mbind res_bind].
  assert (dget (u "own") [(u "own", own)] = Some own) as -> by done. change (default VNone (Some own)) with own. by rewrite IH.
Qed.
End document_facts.

(** The definitions of a specification, and the roots the code checks values against. *)
Definition definitions_of (SPEC : value) : dict :=
  match fld SPEC "$defs" with Ok (VDict d) => d | _ => [] end.

Definition roots : list (value * value) :=
  (_PROFILE_SPEC, _PROFILE_SPEC) ::
  map (fun k => (_OBSERVATION_SPEC, default VNone (dget (u k) (definitions_of _OBSERVATION_SPEC)))) ["binding"; "request"; "observation"] ++
  map (fun k => (_BROKER_SPEC, default VNone (dget (u k) (definitions_of _BROKER_SPEC)))) ["binding"; "dispatch"; "frame"; "workerStart"] ++
  map (fun k => (_QUALIFICATION_SPEC, default VNone (dget (u k) (definitions_of _QUALIFICATION_SPEC)))) ["record"; "capture"; "endpoint"].

(** C37: checking a value against a pinned specification ends.  For each of the eleven
    specifications the code uses, whatever the value, forty levels of descent are enough: the
    interpreter never runs out of them, with forty or with more, and any larger number gives the
    same answer; references, alternatives, properties and items never lead it deeper.  A
    specification that refers to itself runs out of any number (see [self_reference]). *)
Theorem shape_terminates {U : Unicode} SPEC spec v n :
  In (SPEC, spec) roots -> (LEVELS <= n)%nat ->
  _shape n v spec (definitions_of SPEC) <> Raise RecursionError /\
  _shape n v spec (definitions_of SPEC) = _shape LEVELS v spec (definitions_of SPEC).
Proof.
  intros Hin Hn. assert (levels LEVELS spec (definitions_of SPEC) = true) as H.
  { revert Hin. apply (proj1 (forallb_forall (fun r => levels LEVELS r.2 (definitions_of r.1)) roots)) with (x := (SPEC, spec)). by vm_compute. }
  rewrite (levels_fuel LEVELS n) by done. split; [|done]. intros E. by apply (levels_shallow _ v _ _ H) in E.
Qed.

(** ** Conformance *)

(** [v] is at least and at most the bounds that [spec] gives, with the code's defaults. *)
Definition within_kw (spec : value) (lo hi : string) (low high z : Z) : Prop :=
  exists a b, int_kw spec lo low = Ok a /\ int_kw spec hi high = Ok b /\ a <= z <= b.

(** The values of a specification: a typing judgement, one premise per keyword. *)
Inductive conforms {U : Unicode} (definitions : dict) (v spec : value) : Prop :=
| conforms_intro
    (of_ref : forall t, kw spec "$ref" = Some (VStr t) ->
       exists target, dget (drop 8 t) definitions = Some target /\ conforms definitions v target)
    (of_alternatives : forall l, kw spec "oneOf" = Some (VList l) -> exists option, In option l /\ conforms definitions v option)
    (of_type : forall t, kw spec "type" = Some t -> type_matches t v = Ok true)
    (of_const : forall x, kw spec "const" = Some x -> same_canonical v x = Ok true)
    (of_enum : forall l, kw spec "enum" = Some (VList l) -> exists x, In x l /\ same_canonical v x = Ok true)
    (of_object : forall d ps, v = VDict d -> kw spec "properties" = Some (VDict ps) ->
       (forall names k, kw spec "required" = Some (VList names) -> In (VStr k) names -> In k (dkeys d)) /\
       forall k x, In (k, x) d -> exists p, dget k ps = Some p /\ conforms definitions x p)
    (of_array : forall l, v = VList l -> within_kw spec "minItems" "maxItems" 0 4096 (zlen l) /\
       forall p x, kw spec "items" = Some p -> In x l -> conforms definitions x p)
    (of_string : forall s, v = VStr s -> within_kw spec "minLength" "maxLength" 0 262144 (zlen s) /\
       forall p, kw spec "pattern" = Some p -> pattern_matches p s = Ok true)
    (of_integer : forall z, v = VInt z -> within_kw spec "minimum" "maximum" (- SAFE_INTEGER) SAFE_INTEGER z).

Section conformance.
Context {U : Unicode}.

Lemma when_kw_Ok spec k f x : when_kw spec k f = Ok tt -> kw spec k = Some x -> f x = Ok tt.
Proof. unfold when_kw. intros H Hx. by rewrite Hx in H. Qed.

Lemma any_m_Ok {A} (f : A -> res bool) l : any_m f l = Ok true -> exists x, In x l /\ f x = Ok true.
Proof.
  induction l as [|x l IH]; cbn; [done |]. destruct (f x) as [[]|e] eqn:E; cbn; [|intros (y & ? & ?)%IH; eauto | done].
  intros _. exists x. auto.
Qed.

Lemma bounded_kw spec lo hi low high z code (k : res unit) :
  (a ← int_kw spec lo low; b ← int_kw spec hi high; require ((a <=? z) && (z <=? b)) code ;; k) = Ok tt ->
  within_kw spec lo hi low high z /\ k = Ok tt.
Proof.
  intros (a & Ha & H)%bind_Ok. apply bind_Ok in H as (b & Hb & H). rewrite require_bind in H. destruct H as [H Hk].
  split; [|done]. exists a, b. do 2 (split; [done |]). lia.
Qed.

Lemma text_items_In l ss k : text_items (VList l) = Ok ss -> In (VStr k) l -> In k ss.
Proof.
  unfold text_items. cbn. intros H%map_m_Ok Hin. apply list_elem_of_In, list_elem_of_lookup in Hin as [i Hi].
  destruct (Forall2_lookup_l _ _ _ _ _ H Hi) as (y & Hy & [= ->]). by apply list_elem_of_In, list_elem_of_lookup_2 with i.
Qed.

Lemma accepts_one {A} (f : A -> res unit) l flags :
  map_m (fun x => accepted (f x)) l = Ok flags -> zlen (List.filter id flags) = 1 -> exists x, In x l /\ f x = Ok tt.
Proof.
  revert flags. induction l as [|x l IH]; intros flags; cbn [map_m]; [intros [= <-]; done |].
  intros (b & Hb & H)%bind_Ok. apply bind_Ok in H as (bs & Hbs & [= <-]). cbn [List.filter]. destruct b; cbn [id].
  - intros _. exists x. split; [by left |]. unfold accepted in Hb. by destruct (f x) as [[]|e]; [|destruct (is_conformance e)].
  - intros Hn. destruct (IH _ Hbs Hn) as (y & Hy & Hf). exists y. split; [by right | done].
Qed.

Lemma shape_conforms n v spec definitions : _shape n v spec definitions = Ok tt -> conforms definitions v spec.
Proof.
  revert v spec. induction n as [|n IH]; intros v spec H; [done |]. cbn [_shape] in H.
  apply seq_Ok in H as [_ H]. apply seq_Ok in H as [Href H]. apply seq_Ok in H as [Hone H].
  apply seq_Ok in H as [Htype H]. apply seq_Ok in H as [Hconst H]. apply seq_Ok in H as [Henum H].
  constructor.
  - intros t Ht. apply (when_kw_Ok _ _ _ _ Href), bind_Ok in Ht as (name & Hname & Ht). unfold ref_name in Hname. rewrite require_bind in Hname.
    destruct Hname as [[_ Hd]%andb_true_iff [= <-]]. apply dhas_In in Hd.
    destruct (dget (drop 8 t) definitions) as [target|] eqn:E; [eauto | by apply dget_None in E].
  - intros l Hl. apply (when_kw_Ok _ _ _ _ Hone) in Hl. cbn [py_iter mbind res_bind] in Hl. apply bind_Ok in Hl as (flags & Hflags & Hn%require_Ok%Z.eqb_eq).
    destruct (accepts_one _ _ _ Hflags Hn) as (o & Ho & Hs). eauto.
  - intros t Ht. by apply (when_kw_Ok _ _ _ _ Htype), require_m_Ok in Ht.
  - intros x Hx. by apply (when_kw_Ok _ _ _ _ Hconst), require_m_Ok in Hx.
  - intros l Hl. apply (when_kw_Ok _ _ _ _ Henum), require_m_Ok in Hl. cbn [py_iter mbind res_bind] in Hl. by apply any_m_Ok in Hl.
  - intros d ps -> Hps. apply (when_kw_Ok _ _ _ _ H) in Hps. apply bind_Ok in Hps as (required & Hreq & Hps).
    rewrite require_bind in Hps. destruct Hps as [Hsub Hps]. apply bind_Ok in Hps as (ps' & [= <-] & Hps).
    rewrite require_bind in Hps. destruct Hps as [_ Hps]. split.
    + intros names k Hn Hk. rewrite Hn in Hreq. apply (text_items_In _ _ _ Hreq) in Hk.
      unfold subset_str in Hsub. rewrite forallb_forall in Hsub. by apply str_in_In, Hsub.
    + intros k x Hin. rewrite for_each_Ok, List.Forall_forall in Hps. specialize (Hps _ Hin). cbn [fst snd] in Hps.
      apply bind_Ok in Hps as (p & Hp & Hs). cbn [getitem] in Hp. destruct (dget k ps) as [q|]; [|done]. injection Hp as ->. eauto.
  - intros l ->. apply bounded_kw in H as [Hb H]. split; [done |]. apply seq_Ok in H as [_ H]. intros p x Hp Hx.
    rewrite for_each_Ok, List.Forall_forall in H. specialize (H _ Hx). pose proof (when_kw_Ok _ _ _ _ H Hp). eauto.
  - intros s ->. apply bounded_kw in H as [Hb H]. split; [done |]. intros p Hp. by apply (when_kw_Ok _ _ _ _ H), require_m_Ok in Hp.
  - intros z ->. apply bind_Ok in H as (a & Ha & H). apply bind_Ok in H as (b & Hb & H%require_Ok).
    exists a, b. do 2 (split; [done |]). lia.
Qed.

(** C36: what the interpreter accepts has the type the specification describes.  A value it accepts
    conforms: it has the stated type, constant or enumerated value and one of the
    alternatives; an object has the required members and no member without a property to which
    its value conforms; arrays, texts and integers are within their bounds, texts match their
    pattern and items conform to their specification. *)
Theorem shape_typed n v spec definitions : _shape n v spec definitions = Ok tt -> conforms definitions v spec.
Proof. apply shape_conforms. Qed.
End conformance.
