(* ===== verification/MutationAdmission.v ===== *)
(** live_mutation_admission.py: the proxy's execution profile, the policy observations and
    messages checked against it, and what the release retains of both. *)

From S2P Require Import Prelude PyVal Utf8 Json Sha2 Canonical IsoTime Regex Ipaddr.
From S2P Require Import SchemaBase Lifecycle LinuxShape LinuxVerify Session ProxySpecs ProxyDocument.

#[local] Open Scope string_scope.
#[local] Open Scope list_scope.
#[local] Open Scope Z_scope.

(** ** Python on checked documents *)

(** [a == b] of tuples, as lists; [v[0]]; [s.rsplit(":", 1)[1]]; [int(s)] of decimal digits,
    which the shape's patterns leave. *)
Definition tuple (l : list value) : value := VList l.

Definition first (v : value) : res value :=
  match v with VList (x :: _) => Ok x | VList [] => Raise IndexError | _ => Raise TypeError end.

Fixpoint after_last (c : N) (s : str) : option str :=
  match s with
  | [] => None
  | x :: s' => match after_last c s' with Some t => Some t | None => if (x =? c)%N then Some s' else None end
  end.
Definition rsplit_last (s : str) : res str :=
  match after_last 58 s with Some t => Ok t | None => Raise IndexError end.

Definition int_text (s : str) : res Z :=
  if match s with [] => false | _ => forallb (fun c => (48 <=? c) && (c <=? 57))%N s end
  then Ok (digits_at s 0 (length s)) else Raise ValueError.

(** [len({...}) == len(l)], and sets of values in any order. *)
Definition no_duplicates (l : list value) : res bool := s ← py_set l; Ok (zlen s =? zlen l).
Definition add_to_set (x : value) (s : list value) : list value := if in_values x s then s else s ++ [x].
Definition same_set (a b : list value) : bool :=
  forallb (fun x => in_values x b) a && forallb (fun x => in_values x a) b.

Definition elements (v : value) (k : string) : res (list value) := x ← fld v k; py_iter x.
Definition text_of (v : value) (k : string) : res str := x ← fld v k; as_text x.

(** [{k: v for k, v in d.items() if k != name}]. *)
Definition without (v : value) (names : list string) : res value := d ← items v; Ok (VDict (dwithout (u <$> names) d)).

(** [{k: v[k] for k in names}]. *)
Definition project (v : value) (names : list string) : res value :=
  l ← map_m (fun k => x ← fld v k; Ok (u k, x)) names; Ok (VDict l).

Section profile.
Context {U : Unicode}.

(** ** The profile *)

(** The resources seen so far: identities, use of the quota, names granted per kind, interface
    calls and images. *)
Record tally := {
  names : list value;
  units : list (str * Z);
  required_gvk : list (str * list value);
  required_api : list value;
  images : list value
}.

Definition add_units (k : string) (z : Z) (units : list (str * Z)) : res (list (str * Z)) :=
  match dget (u k) units with Some n => Ok (dset (u k) (n + z) units) | None => Raise KeyError end.

Definition kinds : list (string * (string * string)) :=
  [("Pod", ("pods", "pods")); ("ConfigMap", ("configmaps", "configMaps")); ("Service", ("services", "services"))].

(** What a pod adds: its container's limits, which equal its requests, and its image. *)
(* @src src/src/harness_conformance/live_mutation_admission.py:188-196 validate_profile *)
Definition tally_pod (account : str) (manifest : value) (t : tally) : res tally :=
  spec ← fld manifest "spec";
  require_m (fld_eq spec "serviceAccountName" (VStr account)) "pod service account mismatch" ;;
  container ← (x ← fld spec "containers"; first x);
  quantities ← fld container "resources";
  require_m (fld2_eq quantities "requests" quantities "limits") "unequal requests and limits" ;;
  limits ← fld quantities "limits";
  cpu ← text_of limits "cpu"; cpu ← int_text (removelast cpu);
  units1 ← add_units "cpuMillis" cpu (units t);
  memory ← text_of limits "memory"; memory ← int_text memory;
  units2 ← add_units "memoryBytes" memory units1;
  storage ← text_of limits "ephemeral-storage"; storage ← int_text storage;
  units3 ← add_units "ephemeralStorageBytes" storage units2;
  image ← fld container "image";
  Ok {| names := names t; units := units3; required_gvk := required_gvk t; required_api := required_api t;
        images := add_to_set image (images t) |}.

(** One resource of the profile. *)
(* @src src/src/harness_conformance/live_mutation_admission.py:174-198 validate_profile *)
Definition tally_resource (binding expected_labels : value) (account : str) (reference_ids : list value)
    (t : tally) (row : value) : res tally :=
  manifest ← fld row "manifest";
  raw ← canonical_bytes manifest;
  require_m (if zlen raw <=? 16384 then fld_eq row "manifestDigest" (VStr (byte_digest raw)) else Ok false)
    "manifest digest or size mismatch" ;;
  meta ← fld manifest "metadata";
  kind ← fld manifest "kind";
  name ← fld meta "name";
  let key := tuple [kind; name] in
  require_m ((if in_values key (names t) then Ok false else Ok true) <&&> fld2_eq meta "namespace" binding "namespace" <&&>
             fld_eq meta "labels" expected_labels) "resource scope or logical identity mismatch" ;;
  namespace ← fld meta "namespace";
  require (negb (in_values (tuple [VStr (u "v1"); kind; namespace; name]) reference_ids)) "existing resource takeover" ;;
  kind_text ← as_text kind;
  '(api_resource, unit) ← table_get kinds kind;
  units ← add_units unit 1 (units t);
  api ← fld binding "apiEndpointId";
  let t := {| names := names t ++ [key]; units := units;
              required_gvk := dset kind_text (add_to_set name (default [] (dget kind_text (required_gvk t)))) (required_gvk t);
              required_api := fold_left (fun acc verb => add_to_set (tuple [api; VStr (u verb); VStr (u api_resource); name]) acc)
                                ["create"; "get"; "delete"] (required_api t);
              images := images t |} in
  if eq_lit kind "Pod" then tally_pod account manifest t
  else if eq_lit kind "Service" then
    spec ← fld manifest "spec"; require_m (fld_eq spec "selector" expected_labels) "foreign selector" ;; Ok t
  else Ok t.

(** The granted kinds and names. *)
(* @src src/src/harness_conformance/live_mutation_admission.py:199-202 validate_profile *)
Definition observed_gvk (rules : list value) : res (list (str * list value)) :=
  for_fold (fun (seen : list (str * list value)) rule =>
    kind ← text_of rule "kind";
    require (negb (dhas kind seen)) "duplicate GVK rule" ;;
    names ← elements rule "names";
    names ← py_set names;
    Ok (dset kind names seen)) [] rules.

Definition same_grants (a b : list (str * list value)) : bool :=
  Nat.eqb (length a) (length b) &&
  forallb (fun kv => match dget kv.1 b with Some names => same_set kv.2 names | None => false end) a.

(** The interface rules, all of the binding's namespace and without duplicates. *)
(* @src src/src/harness_conformance/live_mutation_admission.py:204-208 validate_profile *)
Definition observed_api (binding : value) (rules : list value) : res (list value) :=
  for_fold (fun api rule =>
    endpoint ← fld rule "endpointId"; verb ← fld rule "verb"; resource ← fld rule "resource"; name ← fld rule "name";
    let key := tuple [endpoint; verb; resource; name] in
    require_m (fld2_eq rule "namespace" binding "namespace" <&&> Ok (negb (in_values key api)))
      "API scope or duplicate rule" ;;
    Ok (api ++ [key])) [] rules.

(** The credentials: the expected endpoints and purposes, the subject, and no reuse. *)
(* @src src/src/harness_conformance/live_mutation_admission.py:139-151 validate_profile *)
Definition check_credentials (profile binding entries subject : value) : res unit :=
  credentials ← elements entries "credentialIdentities";
  endpoint ← fld binding "endpointId";
  api ← fld binding "apiEndpointId";
  resources ← fld profile "resources";
  expected ←
    (if truthy resources then
       require (negb (is_none api) && negb (py_eq api endpoint)) "separate API endpoint required" ;;
       Ok [tuple [endpoint; VStr (u "CAMPAIGN_PROXY_CLIENT_MTLS")]; tuple [api; VStr (u "KUBERNETES_PROXY_SERVER_MTLS")]]
     else
       require (is_none api) "unused API endpoint forbidden" ;;
       Ok [tuple [endpoint; VStr (u "CAMPAIGN_PROXY_CLIENT_MTLS")]]);
  inventory ← map_m (fun c => e ← fld c "endpointId"; p ← fld c "purpose"; Ok (tuple [e; p])) credentials;
  require (py_eq (VList inventory) (VList expected)) "credential inventory mismatch" ;;
  for_each (fun item => require_m (fld_eq item "subject" subject <&&> fld2_eq item "expiresAt" binding "expiresAt")
                          "credential binding mismatch") credentials ;;
  for_each (fun field => require_m (xs ← map_m (fun c => fld c field) credentials; no_duplicates xs)
                           "client/server credential reuse") ["certificateDigest"; "clientSpkiDigest"].

(** The references to what exists: of the namespace, without duplicates, the three required
    ones as the policy names them.  Returns their identities. *)
(* @src src/src/harness_conformance/live_mutation_admission.py:155-168 validate_profile *)
Definition check_references (binding entries policy : value) (account : str) : res (list value) :=
  references ← elements entries "preexistingResourceRefs";
  ids ← for_fold (fun ids item =>
    apiVersion ← fld item "apiVersion"; kind ← fld item "kind"; namespace ← fld item "namespace"; name ← fld item "name";
    let key := tuple [apiVersion; kind; namespace; name] in
    require_m (fld2_eq item "namespace" binding "namespace" <&&> Ok (negb (in_values key ids)))
      "duplicate or foreign reference" ;;
    Ok (ids ++ [key])) [] references;
  for_each (fun '(kind, uid_key, digest_key) =>
    flags ← map_m (fun r => fld_lit r "kind" kind) references;
    match map snd (List.filter fst (combine flags references)) with
    | [m] => require_m (fld2_eq m "uid" policy uid_key <&&> fld2_eq m "observedDigest" policy digest_key)
               "required policy reference mismatch" ;;
             (if String.eqb kind "ServiceAccount" then
                require_m (fld_eq m "name" (VStr account)) "service account name mismatch" else Ok tt)
    | _ => conf "required policy reference mismatch"
    end)
    [("ResourceQuota", "resourceQuotaUid", "resourceQuotaDigest"); ("LimitRange", "limitRangeUid", "limitRangeDigest");
     ("ServiceAccount", "serviceAccountUid", "serviceAccountDigest")] ;;
  require_m (xs ← map_m (fun r => fld r "uid") references; no_duplicates xs) "duplicate resource UID" ;;
  Ok ids.

(* @src src/src/harness_conformance/live_mutation_admission.py:130-213 validate_profile *)
Definition validate_profile (x : data) : res value :=
  profile ← document x 262144;
  shape_root _PROFILE_SPEC profile ;;
  binding ← fld profile "binding";
  entries ← fld profile "capacityEntries";
  policy ← fld profile "policy";
  start ← proxy_time binding "validFrom";
  end_ ← proxy_time binding "expiresAt";
  require_m (d ← time_sub end_ start; Ok ((0 <? d) && (d <=? 900 * 1000000))) "profile validity exceeded" ;;
  subject ← text_of binding "serviceAccountSubject";
  namespace ← text_of binding "namespace";
  require (startswith (u "system:serviceaccount:" ++ namespace ++ u ":") subject) "subject namespace mismatch" ;;
  check_credentials profile binding entries (VStr subject) ;;
  rule ← (rules ← fld entries "campaignProxyRules"; first rules);
  require_m (fld2_eq rule "endpointId" binding "endpointId" <&&> fld2_eq rule "namespace" binding "namespace" <&&>
             fld_eq rule "paths" PATHS) "fixed proxy rule mismatch" ;;
  account ← rsplit_last subject;
  reference_ids ← check_references binding entries policy account;
  run ← fld binding "runNonce";
  tenant ← fld binding "tenantId";
  let labels := VDict [(u "planeon.ai/run-nonce", run); (u "planeon.ai/tenant-id", tenant)] in
  quota ← fld profile "quota";
  qs ← items quota;
  resources ← elements profile "resources";
  t ← for_fold (tally_resource binding labels account reference_ids)
        {| names := []; units := map (fun kv => (kv.1, 0)) qs; required_gvk := []; required_api := []; images := [] |} resources;
  gvk ← (rules ← elements entries "permittedGvksAndVerbs"; observed_gvk rules);
  require (same_grants gvk (required_gvk t)) "exact GVK/name grants required" ;;
  api ← (rules ← elements entries "kubernetesApiRules"; observed_api binding rules);
  require (same_set api (required_api t)) "exact server API rules required" ;;
  local ← (l ← elements profile "localImages"; py_set l);
  require (same_set (images t) local) "image substitution or unused image" ;;
  require_m (all_m (fun kv => q ← getitem quota kv.1;
                              match q with VInt z => Ok (kv.2 <=? z) | _ => Raise TypeError end) (units t))
    "quota exceeded" ;;
  Ok profile.

(** One resource. *)
(* @src src/src/harness_conformance/live_mutation_admission.py:351-358 resource_units *)
Definition add_resource (units : list (str * Z)) (row : value) : res (list (str * Z)) :=
  manifest ← fld row "manifest";
  kind ← fld manifest "kind";
  '(_, unit) ← table_get kinds kind;
  units ← add_units unit 1 units;
  if eq_lit kind "Pod" then
    spec ← fld manifest "spec"; container ← (x ← fld spec "containers"; first x);
    resources ← fld container "resources"; limits ← fld resources "limits";
    cpu ← text_of limits "cpu"; cpu ← int_text (removelast cpu);
    memory ← text_of limits "memory"; memory ← int_text memory;
    storage ← text_of limits "ephemeral-storage"; storage ← int_text storage;
    units ← add_units "cpuMillis" cpu units;
    units ← add_units "memoryBytes" memory units;
    add_units "ephemeralStorageBytes" storage units
  else Ok units.

(* @src src/src/harness_conformance/live_mutation_admission.py:348-360 resource_units *)
Definition resource_units (profile : value) : res (list (str * Z)) :=
  resources ← elements profile "resources";
  units ← for_fold add_resource (map (fun k => (u k, 0)) UNITS) resources;
  require (forallb (fun kv => (0 <=? kv.2) && (kv.2 <=? SAFE_INTEGER)) units) "ADMISSION_QUOTA_OVERFLOW" ;;
  Ok units.
End profile.

(** ** Quantities *)

(** What a row adds to the quantities, as both functions read it. *)
Definition row_units (row : value) : res (list (string * Z)) :=
  manifest ← fld row "manifest";
  kind ← fld manifest "kind";
  '(_, unit) ← table_get kinds kind;
  if eq_lit kind "Pod" then
    spec ← fld manifest "spec"; container ← (x ← fld spec "containers"; first x);
    resources ← fld container "resources"; limits ← fld resources "limits";
    cpu ← text_of limits "cpu"; cpu ← int_text (removelast cpu);
    memory ← text_of limits "memory"; memory ← int_text memory;
    storage ← text_of limits "ephemeral-storage"; storage ← int_text storage;
    Ok [(unit, 1); ("cpuMillis", cpu); ("memoryBytes", memory); ("ephemeralStorageBytes", storage)]
  else Ok [(unit, 1)].

Definition add_all (incs : list (string * Z)) (us : list (str * Z)) : res (list (str * Z)) :=
  for_fold (fun us kz => add_units kz.1 kz.2 us) us incs.

Lemma int_text_nonneg s z : int_text s = Ok z -> 0 <= z.
Proof.
  unfold int_text. destruct (match s with [] => false | _ => _ end) eqn:E; [|done]. intros [= <-]. unfold digits_at.
  assert (forallb (fun c => (48 <=? c) && (c <=? 57))%N (take (length s) (drop 0 s)) = true) as Hd.
  { rewrite drop_0, take_ge by done. by destruct s. }
  revert Hd. generalize (take (length s) (drop 0 s)). assert (0 <= 0) as H by lia. revert H. generalize 0 at 2 4. intros a Ha l.
  revert a Ha. induction l as [|c l IH]; intros a Ha; [done |]. cbn [forallb fold_left].
  intros [[Hc _]%andb_true_iff Hl]%andb_true_iff. apply N.leb_le in Hc. apply IH; [lia | done].
Qed.

Lemma row_units_known row incs : row_units row = Ok incs -> Forall (fun kz => In kz.1 UNITS /\ 0 <= kz.2) incs.
Proof.
  unfold row_units. intros H. apply bind_Ok in H as (m & _ & H). apply bind_Ok in H as (kind & _ & H).
  apply bind_Ok in H as ([api unit] & (k & -> & Hk)%table_get_Ok & H).
  assert (In unit UNITS) as Hu. { simpl in Hk |- *. intuition congruence. }
  destruct (eq_lit _ "Pod"); [|injection H as <-; by constructor].
  do 4 apply bind_Ok in H as (? & _ & H). apply bind_Ok in H as (c & _ & H). apply bind_Ok in H as (cpu & Hc%int_text_nonneg & H).
  apply bind_Ok in H as (? & _ & H). apply bind_Ok in H as (mem & Hm%int_text_nonneg & H).
  apply bind_Ok in H as (? & _ & H). apply bind_Ok in H as (st & Hs%int_text_nonneg & [= <-]).
  repeat (apply Forall_cons; split; [split; [first [done | simpl; tauto] | done]|]). done.
Qed.

(** Two tallies that agree on the known units, the first missing some that the second has at zero. *)
Definition agree (a b : list (str * Z)) : Prop :=
  dkeys b = map u UNITS /\
  forall k, In k UNITS -> exists z, dget (u k) b = Some z /\ 0 <= z /\
    match dget (u k) a with Some z' => z' = z | None => z = 0 end.

Lemma dkeys_dset {A} k (x : A) d : In k (dkeys d) -> dkeys (dset k x d) = dkeys d.
Proof.
  induction d as [|[j y] d IH]; simpl; [done |]. destruct (str_eqb_spec k j) as [->|]; simpl; [done |].
  intros [? | H]; [congruence |]. by rewrite IH.
Qed.

Lemma add_units_agree a b k z a' :
  agree a b -> In k UNITS -> 0 <= z -> add_units k z a = Ok a' -> exists b', add_units k z b = Ok b' /\ agree a' b'.
Proof.
  intros [Hk Ha] Hin Hz H. unfold add_units in H |- *. destruct (dget (u k) a) as [n|] eqn:E; [|done]. injection H as <-.
  destruct (Ha k Hin) as (m & Hm & Hm0 & Heq). rewrite E in Heq. subst n. rewrite Hm. eexists. split; [done |]. split.
  - rewrite dkeys_dset, Hk; [done |]. rewrite Hk. by apply in_map.
  - intros j Hj. rewrite !dget_dset. destruct (str_eqb (u j) (u k)); [exists (m + z); repeat split; lia |]. by apply Ha.
Qed.

Lemma add_all_agree incs a b a' :
  agree a b -> Forall (fun kz => In kz.1 UNITS /\ 0 <= kz.2) incs -> add_all incs a = Ok a' ->
  exists b', add_all incs b = Ok b' /\ agree a' b'.
Proof.
  intros Hab Hf. revert a b Hab. induction Hf as [|[k z] incs [Hk Hz] _ IH]; intros a b Hab; cbn [add_all for_fold].
  - intros [= <-]. by exists b.
  - intros (a1 & H1 & H)%bind_Ok. destruct (add_units_agree _ _ _ _ _ Hab Hk Hz H1) as (b1 & Hb1 & Hab1).
    destruct (IH _ _ Hab1 H) as (b' & Hb' & Hab'). exists b'. split; [|done]. apply bind_Ok. eauto.
Qed.

Section quantities.
Context {U : Unicode}.

(** The step of [resource_units]. *)
Definition units_step (us : list (str * Z)) (row : value) : res (list (str * Z)) :=
  incs ← row_units row; add_all incs us.

Lemma tally_units binding labels account ids t row t' :
  tally_resource binding labels account ids t row = Ok t' -> units_step (units t) row = Ok (units t').
Proof.
  unfold tally_resource, units_step, row_units. intros H. apply bind_Ok in H as (m & -> & H). cbn [mbind res_bind].
  apply bind_Ok in H as (raw & _ & H). apply seq_Ok in H as [_ H]. apply bind_Ok in H as (meta & _ & H).
  apply bind_Ok in H as (kind & -> & H). cbn [mbind res_bind]. apply bind_Ok in H as (name & _ & H). cbv zeta in H.
  apply seq_Ok in H as [_ H]. apply bind_Ok in H as (ns & _ & H). apply seq_Ok in H as [_ H].
  apply bind_Ok in H as (kt & _ & H). apply bind_Ok in H as ([api unit] & -> & H). cbn [mbind res_bind].
  apply bind_Ok in H as (us & Hus & H). apply bind_Ok in H as (ep & _ & H).
  destruct (eq_lit kind "Pod").
  - unfold tally_pod in H. apply bind_Ok in H as (spec & -> & H). cbn [mbind res_bind]. apply seq_Ok in H as [_ H].
    apply bind_Ok in H as (c & -> & H). cbn [mbind res_bind]. apply bind_Ok in H as (q & -> & H). cbn [mbind res_bind].
    apply seq_Ok in H as [_ H]. apply bind_Ok in H as (l & -> & H). cbn [mbind res_bind].
    apply bind_Ok in H as (? & -> & H). cbn [mbind res_bind]. apply bind_Ok in H as (cpu & -> & H). cbn [mbind res_bind].
    apply bind_Ok in H as (u1 & H1 & H). apply bind_Ok in H as (? & -> & H). cbn [mbind res_bind].
    apply bind_Ok in H as (mem & -> & H). cbn [mbind res_bind]. apply bind_Ok in H as (u2 & H2 & H).
    apply bind_Ok in H as (? & -> & H). cbn [mbind res_bind]. apply bind_Ok in H as (st & -> & H). cbn [mbind res_bind].
    apply bind_Ok in H as (u3 & H3 & H). apply bind_Ok in H as (image & _ & [= <-]). cbn [units] in *.
    cbn [add_all for_fold fst snd]. rewrite Hus. cbn [mbind res_bind]. rewrite H1. cbn [mbind res_bind]. rewrite H2.
    cbn [mbind res_bind]. by rewrite H3.
  - cbn [add_all for_fold fst snd mbind res_bind]. rewrite Hus. cbn [mbind res_bind].
    destruct (eq_lit kind "Service"); [apply bind_Ok in H as (? & _ & H); apply seq_Ok in H as [_ H]|]; by injection H as <-.
Qed.

Lemma units_step_keys us row us' : units_step us row = Ok us' -> dkeys us' = dkeys us.
Proof.
  unfold units_step. intros (incs & _ & H)%bind_Ok. revert us H. induction incs as [|[k z] incs IH]; intros us; cbn [add_all for_fold].
  - by intros [= <-].
  - intros (u1 & H1 & H)%bind_Ok. rewrite (IH _ H). unfold add_units in H1. cbn [fst snd] in H1.
    destruct (dget (u k) us) eqn:E; [|done]. injection H1 as <-. apply dkeys_dset. by apply dget_Some_key in E.
Qed.

Lemma tally_fold_keys binding labels account ids rows t t' :
  for_fold (tally_resource binding labels account ids) t rows = Ok t' -> dkeys (units t') = dkeys (units t).
Proof.
  revert t. induction rows as [|row rows IH]; intros t; cbn [for_fold]; [by intros [= <-] |].
  intros (t1 & H1%tally_units%units_step_keys & H)%bind_Ok. by rewrite (IH _ H).
Qed.

Lemma tally_fold_units binding labels account ids rows t t' b :
  for_fold (tally_resource binding labels account ids) t rows = Ok t' -> agree (units t) b ->
  exists b', for_fold units_step b rows = Ok b' /\ agree (units t') b'.
Proof.
  revert t b. induction rows as [|row rows IH]; intros t b; cbn [for_fold]; [intros [= <-]; eauto |].
  intros (t1 & H1%tally_units & H)%bind_Ok Hab. unfold units_step in H1. apply bind_Ok in H1 as (incs & Hi & H1).
  destruct (add_all_agree _ _ b _ Hab (row_units_known _ _ Hi) H1) as (b1 & Hb1 & Hab1).
  destruct (IH _ _ H Hab1) as (b' & Hb' & Hab'). exists b'. split; [|done]. apply bind_Ok. exists b1. split; [|done].
  unfold units_step. by rewrite Hi.
Qed.

Lemma add_resource_step us row us' : units_step us row = Ok us' -> add_resource us row = Ok us'.
Proof.
  unfold units_step, row_units, add_resource. intros H. apply bind_Ok in H as (incs & H & Hadd).
  apply bind_Ok in H as (m & -> & H). cbn [mbind res_bind]. apply bind_Ok in H as (kind & -> & H). cbn [mbind res_bind].
  apply bind_Ok in H as ([api unit] & -> & H). cbn [mbind res_bind]. destruct (eq_lit kind "Pod").
  - repeat (apply bind_Ok in H as (? & E & H); rewrite E; clear E; cbn [mbind res_bind]).
    injection H as <-. cbn [add_all for_fold fst snd] in Hadd.
    apply bind_Ok in Hadd as (u1 & -> & Hadd). cbn [mbind res_bind]. apply bind_Ok in Hadd as (u2 & E2 & Hadd).
    apply bind_Ok in Hadd as (u3 & E3 & Hadd). apply bind_Ok in Hadd as (u4 & E4 & [= <-]).
    repeat match goal with E : ?m = Ok _ |- context [?m ≫= _] => rewrite E; cbn [mbind res_bind] end. done.
  - injection H as <-. cbn [add_all for_fold fst snd] in Hadd. apply bind_Ok in Hadd as (u1 & -> & [= <-]). done.
Qed.

Lemma for_fold_imp {A S} (f g : S -> A -> res S) s l r :
  (forall s x r, f s x = Ok r -> g s x = Ok r) -> for_fold f s l = Ok r -> for_fold g s l = Ok r.
Proof.
  intros Hfg. revert s. induction l as [|x l IH]; intros s; cbn [for_fold]; [done |].
  intros (s' & Hs & H)%bind_Ok. apply bind_Ok. eauto.
Qed.

(** Integers of a document are safe. *)
Lemma document_integers x maximum v k j d z :
  document x maximum = Ok v -> fld v k = Ok (VDict d) -> dget j d = Some (VInt z) -> Z.abs z <= SAFE_INTEGER.
Proof.
  intros (_ & _ & b & Hb & _)%document_Ok (dv & -> & Hd%dget_In)%fld_Ok Hz%dget_In.
  apply canonical_bytes_Ok in Hb as (Hb & _ & _). inversion Hb as [| | | | |? _ _ Hv]; subst.
  rewrite List.Forall_forall in Hv. specialize (Hv _ (in_map snd _ _ Hd)). cbn [snd] in Hv.
  inversion Hv as [| | | | |? _ _ Hv']; subst. rewrite List.Forall_forall in Hv'. specialize (Hv' _ (in_map snd _ _ Hz)).
  cbn [snd] in Hv'. by inversion Hv'.
Qed.

Lemma zero_units_agree (qs : dict) : agree (map (fun kv => (kv.1, 0)) qs) (map (fun k => (u k, 0)) UNITS).
Proof.
  split; [by rewrite dkeys_map || by vm_compute |]. intros k Hk. exists 0. split; [|split; [lia |]].
  - simpl in Hk. repeat (destruct Hk as [<- | Hk]; [by vm_compute |]). done.
  - induction qs as [|[j x] qs IH]; [done |]. cbn [map dget fst]. by destruct (str_eqb (u k) j).
Qed.

Lemma validate_profile_quota x profile :
  validate_profile x = Ok profile ->
  exists quota us, fld profile "quota" = Ok (VDict quota) /\ resource_units profile = Ok us /\ dkeys us = map u UNITS /\
    forall k n, In k UNITS -> dget (u k) us = Some n -> 0 <= n <= SAFE_INTEGER /\
      match dget (u k) quota with Some q => exists z, q = VInt z /\ n <= z | None => n = 0 end.
Proof.
  unfold validate_profile. intros H. apply bind_Ok in H as (p & Hdoc & H). apply seq_Ok in H as [_ H].
  do 5 apply bind_Ok in H as (? & _ & H). apply seq_Ok in H as [_ H]. do 2 apply bind_Ok in H as (? & _ & H).
  apply seq_Ok in H as [_ H]. apply seq_Ok in H as [_ H]. apply bind_Ok in H as (? & _ & H). apply seq_Ok in H as [_ H].
  do 4 apply bind_Ok in H as (? & _ & H). cbv zeta in H. apply bind_Ok in H as (quota & Hq & H).
  apply bind_Ok in H as (qs & Hqs & H). apply bind_Ok in H as (resources & Hres & H). apply bind_Ok in H as (t & Ht & H).
  apply bind_Ok in H as (? & _ & H). apply seq_Ok in H as [_ H]. apply bind_Ok in H as (? & _ & H). apply seq_Ok in H as [_ H].
  apply bind_Ok in H as (? & _ & H). apply seq_Ok in H as [_ H]. apply seq_Ok in H as [Hall%require_m_Ok%all_m_true [= <-]].
  destruct quota as [| | | | |d]; try done. cbn in Hqs. injection Hqs as ->. exists qs.
  destruct (tally_fold_units _ _ _ _ _ _ _ _ Ht (zero_units_agree qs)) as (us & Hus & Hkeys & Hag). cbn [units] in *.
  assert (forall k n, In k UNITS -> dget (u k) us = Some n -> 0 <= n <= SAFE_INTEGER /\
      match dget (u k) qs with Some q => exists z, q = VInt z /\ n <= z | None => n = 0 end) as Hbound.
  { intros k n Hk Hn. destruct (Hag k Hk) as (z & Hz & Hz0 & Hm). rewrite Hn in Hz. injection Hz as <-.
    destruct (dget (u k) (units t)) as [z'|] eqn:E.
    - subst z'. rewrite List.Forall_forall in Hall. apply dget_In in E. specialize (Hall _ E). cbv beta in Hall. cbn [fst snd getitem] in Hall.
      destruct (dget (u k) qs) as [q|] eqn:Eq; [|done]. cbn [mbind res_bind] in Hall. destruct q as [| |q| | |]; try done.
      injection Hall as Hle%Z.leb_le. pose proof (document_integers _ _ _ _ _ _ _ Hdoc Hq Eq). split; [lia | eauto].
    - subst n. assert (dget (u k) qs = None) as ->; [|split; [unfold SAFE_INTEGER; lia | done]].
      apply dget_None in E. apply dget_None. rewrite (tally_fold_keys _ _ _ _ _ _ _ Ht) in E. cbn [units] in E.
      by rewrite (dkeys_map (fun _ => 0)) in E. }
  exists us. split; [done |]. split; [|split; [done | done]].
  unfold resource_units. rewrite Hres. cbn [mbind res_bind]. rewrite (for_fold_imp _ _ _ _ _ add_resource_step Hus). cbn [mbind res_bind].
  apply seq_Ok. split; [|done]. apply require_Ok, forallb_forall. intros [k n] Hin. cbn [snd].
  assert (In k (map u UNITS)) as (j & <- & Hj)%in_map_iff by (rewrite <- Hkeys; by apply (in_map fst) in Hin).
  assert (NoDup (dkeys us)) as Hnd by (rewrite Hkeys; apply (bool_decide_eq_true (NoDup (map u UNITS))); by vm_compute).
  destruct (Hbound j n Hj (dget_NoDup_In _ _ _ Hnd Hin)). apply andb_true_iff. lia.
Qed.

(** C16: an accepted profile fits its quota.  When [validate_profile] returns a profile,
    [resource_units] returns its resources' demand for the six units, without overflow; no
    demand is negative, each is at most the profile's quota for its unit, and a unit the quota
    does not name is not demanded. *)
Theorem profile_within_quota x profile :
  validate_profile x = Ok profile ->
  exists quota us, fld profile "quota" = Ok (VDict quota) /\ resource_units profile = Ok us /\ dkeys us = map u UNITS /\
    forall k n, In k UNITS -> dget (u k) us = Some n -> 0 <= n <= SAFE_INTEGER /\
      match dget (u k) quota with Some q => exists z, q = VInt z /\ n <= z | None => n = 0 end.
Proof. apply validate_profile_quota. Qed.
End quantities.
