(* ===== verification/Observation.v ===== *)
(** live_mutation_admission.py: the policy observer's messages checked against the profile, and
    the profile, binding, endpoint and certificate that a release retains. *)

From S2P Require Import Prelude PyVal Utf8 Json Sha2 Canonical IsoTime Regex Ipaddr.
From S2P Require Import SchemaBase Lifecycle LinuxShape LinuxVerify Session ProxySpecs ProxyDocument MutationAdmission.

#[local] Open Scope string_scope.
#[local] Open Scope list_scope.
#[local] Open Scope Z_scope.

(** Subscripting [bytes] with a text raises. *)
Definition data_value (x : data) : res value := match x with Value v => Ok v | Raw _ => Raise TypeError end.

(** [v] as an integer operand of [<=] and [-]; the shapes leave integers there. *)
Definition as_int (v : value) : res Z :=
  match v with VInt z => Ok z | VBool b => Ok (Z.b2z b) | _ => Raise TypeError end.
Definition int_of (v : value) (k : string) : res Z := x ← fld v k; as_int x.

Lemma py_eq_int x z : py_eq x (VInt z) = true -> as_int x = Ok z.
Proof. destruct x; simpl; try done; intros H%Z.eqb_eq; by subst. Qed.

Lemma py_eq_str x s : py_eq x (VStr s) = true -> x = VStr s.
Proof. destruct x; simpl; try done. by intros ->%str_eqb_eq. Qed.

Lemma fld_eq_int v k z : fld_eq v k (VInt z) = Ok true -> int_of v k = Ok z.
Proof. intros (x & Hx & [= H%py_eq_int])%bind_Ok. unfold int_of. by rewrite Hx. Qed.

Lemma fld_eq_text v k s : fld_eq v k (VStr s) = Ok true -> fld v k = Ok (VStr s).
Proof. intros (x & Hx & [= H%py_eq_str])%bind_Ok. by rewrite Hx, H. Qed.

(** [{**d, **e}]. *)
Definition merge (d e : dict) : dict := fold_left (fun acc kv => dset kv.1 kv.2 acc) e d.

(** [[r for r in l if r[k] == v]]. *)
Definition select (k : string) (v : value) (l : list value) : res (list value) :=
  flags ← map_m (fun r => fld_eq r k v) l; Ok (map snd (List.filter fst (combine flags l))).

Definition printable (s : str) : bool := forallb (fun c => (32 <=? c) && (c <=? 126))%N s.

Fixpoint ascii_fields (v : value) : bool :=
  match v with
  | VStr s => printable s
  | VDict d => forallb (fun kv => printable kv.1 && ascii_fields kv.2) d
  | VList l => forallb ascii_fields l
  | _ => true
  end.

(** What the caller retains of a release: its files by path. *)
Definition kit_files := list (str * bytes).

Section observation.
Context {U : Unicode}.

(* @src src/src/harness_conformance/live_mutation_admission.py:216-230 _observation_shape *)
Definition _observation_shape (x : data) (variant : string) (maximum : Z) : res value :=
  v ← document x maximum;
  require (ascii_fields v) "OBSERVATION_ASCII_REQUIRED" ;;
  shape_def _OBSERVATION_SPEC variant v ;;
  Ok v.

(** ** Messages *)

(** One policy of the binding: the profile's digest and namespace, for the three namespaced
    policies the one retained reference, and the observer's projection. *)
(* @src src/src/harness_conformance/live_mutation_admission.py:246-257 validate_messages *)
Definition check_policy (scope policy binding observation : value) (refs : list value) (key : string) : res unit :=
  expected ← (ps ← fld binding "projections"; fld ps key);
  require_m (fld2_eq expected "projectionDigest" policy (key ++ "Digest")%string) "policy digest" ;;
  require_m (n ← fld expected "namespace"; if is_none n then Ok true else fld2_eq expected "namespace" scope "namespace")
    "foreign policy" ;;
  match List.find (fun kv => String.eqb key kv.1)
          [("resourceQuota", "ResourceQuota"); ("limitRange", "LimitRange"); ("serviceAccount", "ServiceAccount")] with
  | Some (_, kind) =>
      matches ← select "kind" (VStr (u kind)) refs;
      match matches with
      | [ref] =>
          require_m (d ← (v ← project ref ["apiVersion"; "kind"; "namespace"; "name"; "uid"]; items v);
                     digest ← fld ref "observedDigest";
                     Ok (py_eq expected (VDict (merge d [(u "projectionDigest", digest)])))) "policy identity"
      | _ => conf "required reference"
      end
  | None => Ok tt
  end ;;
  actual ← (ps ← fld observation "projections"; p ← fld ps key; without p ["resourceVersion"]);
  require (py_eq actual expected) "observed identity or digest".

(** The place of the message in the chain of observations. *)
(* @src src/src/harness_conformance/live_mutation_admission.py:263-274 validate_messages *)
Definition check_chain (request observation : value) (previous : data) : res unit :=
  match previous with
  | Value VNone =>
      require_m (fld_eq request "sequence" (VInt 1) <&&> fld_eq request "previousObservationDigest" (VStr ZERO)) "initial chain"
  | _ =>
      _ ← _observation_shape previous "observation" 65536;
      prior ← data_value previous;
      require_m (fld2_eq prior "bindingDigest" request "bindingDigest" <&&>
                 fld2_eq prior "runNonce" request "runNonce" <&&>
                 (s ← fld request "sequence"; p ← int_of prior "sequence"; Ok (py_eq s (VInt (p + 1)))) <&&>
                 (d ← fld request "previousObservationDigest"; digest ← canonical_digest prior None;
                  Ok (py_eq d (VStr digest)))) "chain gap" ;;
      require_m (fld2_eq observation "observerBootId" prior "observerBootId" <&&>
                 fld2_eq observation "generation" prior "generation" <&&>
                 (same ← fld2_eq request "challenge" prior "challenge"; Ok (negb same)))
        "restart, drift or reused challenge" ;;
      require_m (a ← proxy_time observation "observedAt"; b ← proxy_time prior "observedAt"; time_leb b a) "clock rollback"
  end.

(** The room the observed quota leaves. *)
(* @src src/src/harness_conformance/live_mutation_admission.py:281-283 validate_messages *)
Definition check_headroom (observation : value) (row : str * value) : res unit :=
  let '(unit, requested) := row in
  hard ← (q ← fld observation "quota"; h ← fld q "hard"; getitem h unit);
  used ← (q ← fld observation "quota"; h ← fld q "used"; getitem h unit);
  require_m (match requested with
             | VInt n =>
                 if (0 <=? n) && (n <=? SAFE_INTEGER) then
                   h ← as_int hard; us ← as_int used; Ok ((us <=? h) && (n <=? h - us))
                 else Ok false
             | _ => Ok false
             end) "actual quota headroom".

(* @src src/src/harness_conformance/live_mutation_admission.py:233-285 validate_messages *)
Definition validate_messages (binding request observation profile : data) (now : value) (previous : data) : res value :=
  binding ← _observation_shape binding "binding" 65536;
  request ← _observation_shape request "request" 16384;
  observation ← _observation_shape observation "observation" 65536;
  profile ← validate_profile profile;
  digest ← canonical_digest profile None;
  require_m (fld_eq binding "profileDigest" (VStr digest)) "profile digest" ;;
  scope ← (b ← fld profile "binding"; without b ["apiEndpointId"]);
  require_m (fld_eq binding "scope" scope) "independent profile scope" ;;
  policy ← fld profile "policy";
  namespace ← fld scope "namespace";
  namespace_uid ← fld policy "namespaceUid";
  require_m (fld_eq binding "namespace" (VDict [(u "name", namespace); (u "uid", namespace_uid)])) "namespace binding" ;;
  refs ← (e ← fld profile "capacityEntries"; elements e "preexistingResourceRefs");
  for_each (check_policy scope policy binding observation refs) POLICIES ;;
  require_m (n ← fld observation "namespace"; n ← project n ["name"; "uid"]; m ← fld binding "namespace"; Ok (py_eq n m))
    "observed namespace" ;;
  require_m ((digest ← canonical_digest binding None; fld_eq request "bindingDigest" (VStr digest)) <&&>
             fld2_eq request "runNonce" scope "runNonce") "request binding" ;;
  for_each (fun field => require_m (fld2_eq observation field request field) "response substitution")
    ["bindingDigest"; "runNonce"; "challenge"; "sequence"; "previousObservationDigest"] ;;
  check_chain request observation previous ;;
  start ← proxy_time observation "observedAt";
  end_ ← proxy_time observation "expiresAt";
  instant ← _time now;
  require_m ((a ← proxy_time scope "validFrom"; time_leb a start) <&&> time_leb start instant <&&> time_ltb instant end_ <&&>
             (b ← proxy_time scope "expiresAt"; time_leb end_ b)) "stale or future" ;;
  require_m (d ← time_sub end_ start; Ok ((0 <? d) && (d <=? 5 * 1000000))) "freshness window" ;;
  require_m (e ← fld observation "enforcement"; g ← fld observation "generation";
             pins ← (p ← fld binding "enforcementPins"; items p);
             Ok (py_eq e (VDict (merge [(u "policyGeneration", g)] pins)))) "enforcement proof mismatch" ;;
  quota ← (q ← fld profile "quota"; items q);
  for_each (check_headroom observation) quota ;;
  Ok observation.

(** ** What a release retains *)

(** The row of the release's tree for a read-only file with this content. *)
Definition file_row (path : str) (raw : bytes) : value :=
  VDict [(u "path", VStr path); (u "mode", VStr (u "0444")); (u "size", VInt (zlen raw));
         (u "sha256", VStr (byte_digest raw))].

(** A file of the kit: listed once in the release, with this size and digest. *)
(* @src src/src/harness_conformance/live_mutation_admission.py:291-298 retained_profile *)
Definition member (release : value) (kit : kit_files) (path : str) (maximum : Z) : res bytes :=
  tree ← elements release "tree";
  rows ← select "path" (VStr path) tree;
  match rows, dget path kit with
  | [row], Some raw =>
      require ((0 <? zlen raw) && (zlen raw <=? maximum)) "PROFILE_MEMBER_MISSING" ;;
      require (py_eq row (file_row path raw)) "PROFILE_MEMBER_CHANGED" ;;
      Ok raw
  | _, _ => conf "PROFILE_MEMBER_MISSING"
  end.

(** The scope of the profile against the envelope, the capacity and the plan. *)
(* @src src/src/harness_conformance/live_mutation_admission.py:301-313 retained_profile *)
Definition check_scope (envelope capacity plan profile scope policy : value) : res unit :=
  expected ← map_m (fun '(k, source, field) => v ← fld source field; Ok (k, v))
    [("tenantId", envelope, "tenantId"); ("environmentId", envelope, "environmentId"); ("runNonce", envelope, "nonce");
     ("capacityNonce", capacity, "nonce"); ("endpointId", plan, "endpointId"); ("namespace", plan, "namespace");
     ("serviceAccountSubject", capacity, "serviceAccountSubject")];
  require_m (all_m (fun kv : string * value => fld_eq scope kv.1 kv.2) expected) "PROFILE_SCOPE_MISMATCH" ;;
  require_m (entries ← (e ← fld profile "capacityEntries"; items e);
             all_m (fun kv : str * value => c ← getitem capacity kv.1; Ok (py_eq c kv.2)) entries) "PROFILE_CAPACITY_MISMATCH" ;;
  for_each (fun field => require_m (fld2_eq policy field capacity field <&&> fld2_eq capacity field envelope field)
                           "PROFILE_POLICY_MISMATCH") ["admissionPolicyDigest"; "resourceQuotaDigest"] ;;
  require_m (fld2_eq policy "limitRangeDigest" capacity "limitRangeDigest") "PROFILE_POLICY_MISMATCH" ;;
  require_m (first ← (a ← linux_time envelope "issuedAt"; b ← linux_time capacity "validFrom"; time_max a b);
             from ← proxy_time scope "validFrom";
             time_leb first from <&&>
             (until ← proxy_time scope "expiresAt";
              time_ltb from until <&&>
              (last ← (a ← linux_time envelope "expiresAt"; b ← linux_time capacity "expiresAt"; time_min a b);
               time_leb until last))) "PROFILE_WINDOW_MISMATCH".

(** [{e["endpointId"]: e for e in l}.get(id)] when the identifiers are distinct. *)
Definition by_id (id : value) (l : list value) : res (option value) :=
  rows ← select "endpointId" id l; Ok (last rows).

(** The campaign proxy's endpoint. *)
(* @src src/src/harness_conformance/live_mutation_admission.py:314-322 retained_profile *)
Definition retained_endpoint (envelope profile scope : value) : res value :=
  endpoints ← elements envelope "endpoints";
  require_m (ids ← map_m (fun e => fld e "endpointId") endpoints; no_duplicates ids) "PROFILE_ENDPOINT_DUPLICATE" ;;
  id ← fld scope "endpointId";
  found ← by_id id endpoints;
  endpoint ← match found with Some e => Ok e | None => conf "PROFILE_ENDPOINT_MISMATCH" end;
  require_m (fld_lit endpoint "kind" "CAMPAIGN_PROXY" <&&>
             (rule ← (e ← fld profile "capacityEntries"; rs ← fld e "campaignProxyRules"; first rs);
              fld2_eq rule "port" endpoint "port")) "PROFILE_ENDPOINT_MISMATCH" ;;
  resources ← fld profile "resources";
  (if truthy resources then
     api ← fld scope "apiEndpointId";
     found ← by_id api endpoints;
     match found with
     | Some e => require_m (fld_lit e "kind" "KUBERNETES_API_PROXY") "PROFILE_API_ENDPOINT_MISSING"
     | None => conf "PROFILE_API_ENDPOINT_MISSING"
     end
   else Ok tt) ;;
  Ok endpoint.

(** One retained policy: its file is the profile's digest and the binding's projection. *)
(* @src src/src/harness_conformance/live_mutation_admission.py:331-338 retained_profile *)
Definition check_projection (release policy binding : value) (kit : kit_files) (key : string) : res unit :=
  raw ← member release kit (u ("campaigns/platform/linux-baseline/proxy-policy/" ++ key ++ ".json")%string) 65536;
  projection ← document (Raw raw) 65536;
  closed projection ["apiVersion"; "kind"; "metadata"; "spec"] [] ;;
  metadata ← fld projection "metadata";
  closed metadata ["name"; "namespace"; "uid"] [] ;;
  head ← (v ← project projection ["apiVersion"; "kind"]; items v);
  meta ← items metadata;
  let expected := VDict (merge head (merge meta [(u "projectionDigest", VStr (byte_digest raw))])) in
  require_m (fld_eq policy (key ++ "Digest")%string (VStr (byte_digest raw)) <&&>
             (ps ← fld binding "projections"; fld_eq ps key expected)) "PROFILE_PROJECTION_MISMATCH".

(** The path of the certificate inside the kit. *)
(* @src src/src/harness_conformance/live_mutation_admission.py:339-342 retained_profile *)
Definition certificate_path (envelope endpoint : value) : res str :=
  path ← (t ← fld endpoint "tls"; text_of t "caCertificateFileReference");
  root ← text_of envelope "conformanceKitRoot";
  let prefix := root ++ u "/" in
  let rest := drop (length prefix) path in
  require (startswith prefix path && negb (str_eqb rest []) && negb (str_in (u "..") (split_on 47 rest)))
    "PROFILE_CA_NOT_RELEASED" ;;
  Ok rest.

(* @src src/src/harness_conformance/live_mutation_admission.py:288-345 retained_profile *)
Definition retained_profile (envelope capacity plan release : value) (kit : kit_files)
    : res (value * value * value * bytes) :=
  profile ← (raw ← member release kit (u PROFILE_PATH) 262144; validate_profile (Raw raw));
  scope ← fld profile "binding";
  policy ← fld profile "policy";
  check_scope envelope capacity plan profile scope policy ;;
  endpoint ← retained_endpoint envelope profile scope;
  image_digests ← (images ← fld plan "images"; d ← items images; py_set (map snd d));
  images ← elements profile "localImages";
  require_m (all_m (fun image => t ← as_text image;
                                 match after_last 64 t with
                                 | Some digest => Ok (in_values (VStr digest) image_digests)
                                 | None => Raise IndexError
                                 end) images) "PROFILE_IMAGE_NOT_RELEASED" ;;
  binding ← (raw ← member release kit (u OBSERVATION_PATH) 65536; _observation_shape (Raw raw) "binding" 65536);
  require_m ((digest ← canonical_digest profile None; fld_eq binding "profileDigest" (VStr digest)) <&&>
             (expected ← without scope ["apiEndpointId"]; fld_eq binding "scope" expected) <&&>
             (name ← fld scope "namespace"; uid ← fld policy "namespaceUid";
              fld_eq binding "namespace" (VDict [(u "name", name); (u "uid", uid)]))) "PROFILE_OBSERVATION_MISMATCH" ;;
  for_each (check_projection release policy binding kit) POLICIES ;;
  rest ← certificate_path envelope endpoint;
  ca ← member release kit rest 262144;
  require (startswith (u "-----BEGIN CERTIFICATE-----") ca) "PROFILE_CA_INVALID" ;;
  Ok (profile, binding, endpoint, ca).

(** ** Observed objects and cleanup *)

Definition version_re : regex := RSeq (cls "A-Za-z0-9._:-") (upto 127 (cls "A-Za-z0-9._:-")).
Definition matches (r : regex) (v : value) : bool := match v with VStr s => fullmatch r s | _ => false end.

(** [d.get(k, {})] on what must be an object. *)
Definition get_object (v : value) (k : string) : res dict :=
  x ← py_get v k; match x with None => Ok [] | Some (VDict d) => Ok d | Some _ => Raise AttributeError end.

(** The object without what the server assigns: its identity and, for a service, a canonical
    address.  Returns the identity, the version and the rest. *)
(* @src src/src/harness_conformance/live_mutation_admission.py:367-376 validate_observed_manifest *)
Definition strip_assigned (actual : value) (uid : value) : res (value * value * value) :=
  meta ← get_object actual "metadata";
  let assigned := default VNone (dget (u "uid") meta) in
  let version := default VNone (dget (u "resourceVersion") meta) in
  require (matches uid_re assigned && matches version_re version) "ADMISSION_IDENTITY_MISSING" ;;
  require (is_none uid || py_eq assigned uid) "ADMISSION_UID_CHANGED" ;;
  d ← items actual;
  let d := dset (u "metadata") (VDict (dwithout [u "uid"; u "resourceVersion"; u "creationTimestamp"] meta)) d in
  kind ← py_get actual "kind";
  if eq_lit (default VNone kind) "Service" then
    spec ← get_object actual "spec";
    match dget (u "clusterIP") spec with
    | Some (VStr address) =>
        text ← canonical_address address;
        require (str_eqb text address) "ADMISSION_SERVICE_ADDRESS" ;;
        Ok (assigned, version, VDict (dset (u "spec") (VDict (dwithout [u "clusterIP"] spec)) d))
    | _ => conf "ADMISSION_SERVICE_ADDRESS"
    end
  else Ok (assigned, version, VDict d).

(* @src src/src/harness_conformance/live_mutation_admission.py:363-378 validate_observed_manifest *)
Definition validate_observed_manifest (observed expected : data) (uid : value) : res (value * value) :=
  actual ← document observed 16384;
  signed ← document expected 16384;
  '(assigned, version, rest) ← strip_assigned actual uid;
  require (py_eq rest signed) "ADMISSION_POST_MUTATION_MISMATCH" ;;
  Ok (assigned, version).

Definition cleanup_reasons : list string :=
  ["DELETE_DENIED"; "UID_CHANGED"; "DEADLINE"; "IO_AMBIGUOUS"; "OBSERVATION_UNAVAILABLE"].

(** One object that cleanup left behind. *)
(* @src src/src/harness_conformance/live_mutation_admission.py:389-399 cleanup_receipt *)
Definition remaining_row (identities : list value) (row : value) : res (list value) :=
  closed row ["apiVersion"; "kind"; "namespace"; "name"; "uid"; "manifestDigest"; "reasonCode"] [] ;;
  kind ← fld row "kind";
  reason ← fld row "reasonCode";
  require_m (fld_lit row "apiVersion" "v1" <&&> Ok (in_lits kind ["Pod"; "ConfigMap"; "Service"]) <&&>
             Ok (in_lits reason cleanup_reasons)) "CLEANUP_SCOPE" ;;
  each_field row ["namespace"; "name"] (fun x => require (matches name_re x) "CLEANUP_SCOPE") ;;
  uid ← fld row "uid";
  require ((is_none uid && eq_lit reason "IO_AMBIGUOUS") || matches uid_re uid) "CLEANUP_UID" ;;
  each_field row ["manifestDigest"] require_digest ;;
  namespace ← fld row "namespace";
  name ← fld row "name";
  let key := tuple [kind; namespace; name] in
  require (negb (in_values key identities)) "CLEANUP_DUPLICATE" ;;
  Ok (identities ++ [key]).

(* @src src/src/harness_conformance/live_mutation_admission.py:381-403 cleanup_receipt *)
Definition cleanup_receipt (binding_digest operation now remaining previous : value) : res value :=
  require_digest binding_digest ;;
  require_digest previous ;;
  require (in_lits operation CASES && match remaining with VList l => zlen l <=? 32 | _ => false end) "CLEANUP_SCOPE" ;;
  _ ← LinuxShape.require_time now;
  rows ← py_iter remaining;
  _ ← for_fold remaining_row [] rows;
  document (Value (VDict [(u "schemaVersion", VStr (u "planeon.internal.proxy-cleanup/v1")); (u "bindingDigest", binding_digest);
    (u "operation", operation); (u "observedAt", now);
    (u "state", VStr (u (if truthy remaining then "CLEANUP_PENDING" else "CLEAN")));
    (u "remainingResources", remaining); (u "previousReceiptDigest", previous)])) 16384.
End observation.

(** ** What an accepted observation says *)

Section observations.
Context {U : Unicode}.

(** The room for [n] more of a unit. *)
Definition has_room (observation : value) (k : str) (n : Z) : Prop :=
  exists quota hard used h us, fld observation "quota" = Ok quota /\ fld quota "hard" = Ok hard /\ fld quota "used" = Ok used /\
    (x ← getitem hard k; as_int x) = Ok h /\ (x ← getitem used k; as_int x) = Ok us /\ us + n <= h.

Lemma check_headroom_Ok observation k requested :
  check_headroom observation (k, requested) = Ok tt ->
  exists n, requested = VInt n /\ 0 <= n <= SAFE_INTEGER /\ has_room observation k n.
Proof.
  unfold check_headroom. intros H. apply bind_Ok in H as (hard & Hh & H). apply bind_Ok in H as (used & Hu & H).
  apply require_m_Ok in H. destruct requested as [| |n| | |]; try done. exists n. split; [done |].
  destruct ((0 <=? n) && (n <=? SAFE_INTEGER)) eqn:E; [|done]. split; [lia |].
  apply bind_Ok in H as (h & Hhi & H). apply bind_Ok in H as (us & Hui & [= H]).
  apply bind_Ok in Hh as (q & Hq & Hh). apply bind_Ok in Hh as (hd & Hhd & Hh).
  apply bind_Ok in Hu as (q' & Hq' & Hu). apply bind_Ok in Hu as (ud & Hud & Hu). rewrite Hq in Hq'. injection Hq' as <-.
  exists q, hd, ud, h, us. rewrite Hh, Hu. cbn [mbind res_bind]. repeat (split; [done |]). lia.
Qed.

(** The message follows the previous observation. *)
Definition follows (previous observation : value) : Prop :=
  exists digest n, canonical_digest previous None = Ok digest /\ int_of previous "sequence" = Ok n /\
    int_of observation "sequence" = Ok (n + 1) /\ fld observation "previousObservationDigest" = Ok (VStr digest) /\
    fld2_eq observation "generation" previous "generation" = Ok true /\
    fld2_eq observation "observerBootId" previous "observerBootId" = Ok true /\
    exists a b, proxy_time observation "observedAt" = Ok a /\ proxy_time previous "observedAt" = Ok b /\ time_leb b a = Ok true.

Lemma py_eq_int_sym x z : py_eq x (VInt z) = true -> forall y, py_eq y x = true -> as_int y = Ok z.
Proof.
  destruct x as [|b|w| | |]; try done; intros H%Z.eqb_eq y Hy; subst.
  - destruct y as [|b'|w'| | |]; try done; cbn in *; [apply Bool.eqb_prop in Hy as ->; done | apply Z.eqb_eq in Hy as ->; done].
  - by apply py_eq_int.
Qed.

Lemma check_chain_Ok request observation previous :
  check_chain request observation previous = Ok tt ->
  Forall (fun field => fld2_eq observation field request field = Ok true) ["sequence"; "previousObservationDigest"] ->
  previous = Value VNone /\ int_of observation "sequence" = Ok 1 /\ fld observation "previousObservationDigest" = Ok (VStr ZERO) \/
  exists prior, previous = Value prior /\ follows prior observation.
Proof.
  intros H [Hs [Hp _]%Forall_cons]%Forall_cons.
  apply bind_Ok in Hs as (os & Hos & Hs). apply bind_Ok in Hs as (rs & Hrs & [= Hs]).
  apply bind_Ok in Hp as (op & Hop & Hp). apply bind_Ok in Hp as (rp & Hrp & [= Hp]).
  assert ((exists prior, previous = Value prior /\ prior = VNone) \/ forall A (a b : A), match previous with Value VNone => a | _ => b end = b) as [(prior & -> & ->) | Hm].
  { destruct previous as [raw|[]]; eauto. }
  - left. split; [done |]. unfold check_chain in H. apply require_m_Ok, and_m_true in H as [H1 H2%fld_eq_text].
    apply bind_Ok in H1 as (x & Hx & [= H1]). rewrite Hrs in Hx. injection Hx as <-. rewrite Hrp in H2. injection H2 as ->.
    split; [unfold int_of; rewrite Hos; by apply (py_eq_int_sym rs) | rewrite Hop; by rewrite (py_eq_str _ _ Hp)].
  - right. unfold check_chain in H. rewrite Hm in H. apply bind_Ok in H as (? & _ & H). apply bind_Ok in H as (prior & Hprior & H).
    destruct previous as [raw|v]; [done |]. injection Hprior as ->. exists prior. split; [done |].
    apply seq_Ok in H as [Hg%require_m_Ok H]. apply seq_Ok in H as [Hd%require_m_Ok H]. apply require_m_Ok in H.
    apply and_m_true in Hg as [Hg Hdig]. apply and_m_true in Hg as [_ Hseq]. apply and_m_true in Hd as [Hd _]. apply and_m_true in Hd as [Hboot Hgen].
    apply bind_Ok in Hseq as (s & Hsq & Hseq). apply bind_Ok in Hseq as (n & Hn & [= Hseq]). rewrite Hrs in Hsq. injection Hsq as <-.
    apply bind_Ok in Hdig as (d & Hd & Hdig). apply bind_Ok in Hdig as (digest & Hdg & [= ->%py_eq_str]). rewrite Hrp in Hd. injection Hd as ->.
    apply bind_Ok in H as (a & Ha & H). apply bind_Ok in H as (b & Hb & H).
    exists digest, n. split; [done |]. split; [done |]. split; [unfold int_of; rewrite Hos; by apply (py_eq_int_sym rs) |].
    split; [rewrite Hop; by rewrite (py_eq_str _ _ Hp) |]. split; [done |]. split; [done |]. by exists a, b.
Qed.

(** An accepted observation is the first of its chain or follows the one before. *)
Definition in_place (previous : data) (obs : value) : Prop :=
  previous = Value VNone /\ int_of obs "sequence" = Ok 1 /\ fld obs "previousObservationDigest" = Ok (VStr ZERO) \/
  exists prior, previous = Value prior /\ follows prior obs.

Lemma validated_in_place binding request observation profile now previous obs :
  validate_messages binding request observation profile now previous = Ok obs -> in_place previous obs.
Proof.
  unfold validate_messages. intros H. do 5 apply bind_Ok in H as (? & _ & H). apply seq_Ok in H as [_ H]. apply bind_Ok in H as (scope & _ & H).
  apply seq_Ok in H as [_ H]. do 3 apply bind_Ok in H as (? & _ & H). apply seq_Ok in H as [_ H]. apply bind_Ok in H as (refs & _ & H).
  do 3 apply seq_Ok in H as [_ H]. apply seq_Ok in H as [Hsub%for_each_Ok H]. apply seq_Ok in H as [Hchain H].
  do 3 apply bind_Ok in H as (? & _ & H). do 3 apply seq_Ok in H as [_ H]. apply bind_Ok in H as (quota & _ & H). apply seq_Ok in H as [_ [= <-]].
  eapply check_chain_Ok; [exact Hchain |]. do 3 apply Forall_cons in Hsub as [_ Hsub].
  eapply Forall_impl; [exact Hsub |]. intros field. cbv beta. by intros ?%require_m_Ok.
Qed.

(** C14: an accepted observation is fresh, in its place and leaves room for the profile.  When
    [validate_messages] returns, the observation was made at most five seconds before it
    expires and the given instant lies between; it is the first of its chain or continues the
    previous one by number and digest with the same generation and boot; and every unit that
    the profile's resources demand and its quota names fits under the observed hard limit on top
    of what is used. *)
Theorem observation_admissible binding request observation profile now previous obs :
  validate_messages binding request observation profile now previous = Ok obs ->
  (exists start until instant d, proxy_time obs "observedAt" = Ok start /\ proxy_time obs "expiresAt" = Ok until /\
     _time now = Ok instant /\ time_leb start instant = Ok true /\ time_ltb instant until = Ok true /\
     time_sub until start = Ok d /\ 0 < d <= 5 * 1000000) /\
  (previous = Value VNone /\ int_of obs "sequence" = Ok 1 /\ fld obs "previousObservationDigest" = Ok (VStr ZERO) \/
   exists prior, previous = Value prior /\ follows prior obs) /\
  exists p quota us, validate_profile profile = Ok p /\ fld p "quota" = Ok (VDict quota) /\ resource_units p = Ok us /\
    forall k n, In k UNITS -> dget (u k) us = Some n -> dhas (u k) quota = true -> has_room obs (u k) n.
Proof.
  intros H. pose proof (validated_in_place _ _ _ _ _ _ _ H) as Hplace. revert H.
  unfold validate_messages. intros H. apply bind_Ok in H as (bd & _ & H). apply bind_Ok in H as (rq & _ & H).
  apply bind_Ok in H as (ob & _ & H). apply bind_Ok in H as (p & Hp & H). apply bind_Ok in H as (dg & _ & H).
  apply seq_Ok in H as [_ H]. apply bind_Ok in H as (scope & _ & H). apply seq_Ok in H as [_ H].
  do 3 apply bind_Ok in H as (? & _ & H). apply seq_Ok in H as [_ H]. apply bind_Ok in H as (refs & _ & H).
  apply seq_Ok in H as [_ H]. apply seq_Ok in H as [_ H]. apply seq_Ok in H as [_ H].
  apply seq_Ok in H as [_ H]. apply seq_Ok in H as [_ H].
  apply bind_Ok in H as (start & Hstart & H). apply bind_Ok in H as (until & Huntil & H). apply bind_Ok in H as (instant & Hnow & H).
  apply seq_Ok in H as [Hw%require_m_Ok H]. apply seq_Ok in H as [Hf%require_m_Ok H]. apply seq_Ok in H as [_ H].
  apply bind_Ok in H as (quota & Hq & H). apply seq_Ok in H as [Hroom%for_each_Ok [= <-]].
  split; [|split].
  - apply and_m_true in Hw as [Hw _]. apply and_m_true in Hw as [Hw Hlt]. apply and_m_true in Hw as [_ Hle].
    apply bind_Ok in Hf as (d & Hd & [= Hf]). exists start, until, instant, d. do 6 (split; [done |]). lia.
  - exact Hplace.
  - destruct (validate_profile_quota _ _ Hp) as (qs & us & Hqs & Hus & _ & Hbound). exists p, qs, us.
    do 3 (split; [done |]). intros k n Hk Hn Hy. unfold dhas in Hy. destruct (dget (u k) qs) as [y|] eqn:E; [clear Hy; rename E into Hy | done].
    destruct (Hbound k n Hk Hn) as [Hn0 Hle]. rewrite Hy in Hle.
    destruct Hle as (z & -> & Hz). rewrite Hqs in Hq. cbn in Hq. injection Hq as ->.
    rewrite List.Forall_forall in Hroom. apply dget_In in Hy. specialize (Hroom _ Hy). apply check_headroom_Ok in Hroom as (m & [= <-] & _ & Hr).
    destruct Hr as (q & hd & ud & h & used & ? & ? & ? & ? & ? & ?). exists q, hd, ud, h, used. repeat (split; [done |]). lia.
Qed.
End observations.
