(* ===== verification/AdmissionLedger.v ===== *)
(** live_mutation_admission.py: the durable ledger of admissions.  One run at a time holds the
    whole capacity; its operations, created objects and cleanup receipts are rows of a chained
    journal kept on the storage of the replay store. *)

From S2P Require Import Prelude Effects PyVal Utf8 Json Sha2 Canonical IsoTime Regex.
From S2P Require Import SchemaBase Lifecycle LinuxShape LinuxVerify Session ReplayStore.
From S2P Require Import ProxySpecs ProxyDocument MutationAdmission Observation.

#[local] Open Scope string_scope.
#[local] Open Scope list_scope.
#[local] Open Scope Z_scope.

(* @src src/src/harness_conformance/live_mutation_admission.py:406-406 LEDGER_FIELDS *)
Definition LEDGER_FIELDS : list string :=
  ["sequence"; "previousDigest"; "binding"; "state"; "operation"; "observedAt"; "cleanup"].
(* @src src/src/harness_conformance/live_mutation_admission.py:407-408 BINDING_FIELDS *)
Definition BINDING_FIELDS : list string :=
  ["tenantId"; "environmentId"; "runNonce"; "capacityNonce"; "endpointId";
   "releaseDigest"; "packetDigest"; "commandSetDigest"; "profileDigest"].

(** [field.endswith("Digest")]. *)
Definition digest_field (field : string) : bool := endswith (u "Digest") (u field).
Definition identity_fields : list string := List.filter (fun k => negb (digest_field k)) BINDING_FIELDS.

(** The fields of a created object. *)
Definition RESOURCE_FIELDS : list string :=
  ["actionId"; "apiVersion"; "kind"; "namespace"; "name"; "manifestDigest"; "uid"; "resourceVersion"].

(** What the ledger holds of one run: the dict [prior].  [resources] maps the identity of an
    object to its last row. *)
Record reservation := Reservation {
  r_binding : value;
  done : list value;
  current : value;
  held : bool;
  cleanupDigest : str;
  last_instant : datetime;
  resources : list (value * value)
}.

(** [d.get(key)] and [d[key] = x] for keys that are tuples. *)
Fixpoint vget {A} (k : value) (d : list (value * A)) : option A :=
  match d with [] => None | (k', x) :: d' => if py_eq k' k then Some x else vget k d' end.
Fixpoint vset {A} (k : value) (x : A) (d : list (value * A)) : list (value * A) :=
  match d with
  | [] => [(k, x)]
  | (k', y) :: d' => if py_eq k' k then (k', x) :: d' else (k', y) :: vset k x d'
  end.

(** The line of a text without its end. *)
Definition strip_eol (line : bytes) : bytes :=
  match rev line with
  | 10%N :: 13%N :: l | 10%N :: l | 13%N :: l => rev l
  | _ => line
  end.

Definition tuple_of (v : value) (names : list string) : res value := l ← map_m (fld v) names; Ok (tuple l).

Section ledger.
Context {U : Unicode}.

(* @src src/src/harness_conformance/live_mutation_admission.py:411-416 admission_binding *)
Definition admission_binding (envelope capacity profile : value) : res value :=
  tenant ← fld envelope "tenantId";
  environment ← fld envelope "environmentId";
  nonce ← fld envelope "nonce";
  capacity_nonce ← fld capacity "nonce";
  endpoint ← (b ← fld profile "binding"; fld b "endpointId");
  release ← fld envelope "campaignReleaseDigest";
  packet ← fld envelope "packetDigest";
  commands ← fld envelope "commandSetDigest";
  digest ← canonical_digest profile None;
  Ok (VDict [(u "tenantId", tenant); (u "environmentId", environment); (u "runNonce", nonce);
             (u "capacityNonce", capacity_nonce); (u "endpointId", endpoint); (u "releaseDigest", release);
             (u "packetDigest", packet); (u "commandSetDigest", commands); (u "profileDigest", VStr digest)]).

(* @src src/src/harness_conformance/live_mutation_admission.py:620-624 broker_document *)
Definition broker_document (x : data) (variant : string) : res value :=
  require (bool_decide (variant ∈ ["binding"; "dispatch"; "frame"; "workerStart"])) "BROKER_VARIANT_INVALID" ;;
  v ← document x (if bool_decide (variant ∈ ["dispatch"; "workerStart"]) then 16384 else 65536);
  shape_def _BROKER_SPEC variant v ;;
  Ok v.

(** The digests a broker binding assigns to the cases, each to one case and all of them those of
    the profile's resources. *)
(* @src src/src/harness_conformance/live_mutation_admission.py:434-434 _create_record *)
Definition assigned_digests (broker_binding : value) : res (list value) :=
  cases ← fld broker_binding "caseResourceDigests";
  ls ← map_m (fun case => elements cases case) CASES;
  Ok (concat ls).

Definition digests_owned (assigned : list value) (profile : value) : res bool :=
  unique ← no_duplicates assigned;
  if (unique : bool) then
    resources ← elements profile "resources";
    digests ← map_m (fun r => fld r "manifestDigest") resources;
    digests ← py_set digests;
    Ok (same_set assigned digests)
  else Ok false.

(* @src src/src/harness_conformance/live_mutation_admission.py:419-444 _create_record *)
Definition _create_record (binding : data) (operation : value) (profile broker_binding action observed : data) : res value :=
  binding ← document binding 16384;
  closed binding BINDING_FIELDS [] ;;
  profile ← validate_profile profile;
  broker_binding ← broker_document broker_binding "binding";
  action ← document action 16384;
  closed action ["actionId"; "verb"; "manifestDigest"] [] ;;
  id ← fld action "actionId";
  require_m (if is_str operation && in_lits operation CASES &&
                match id with VInt z => (1 <=? z) && (z <=? 256) | _ => false end
             then fld_lit action "verb" "CREATE" else Ok false) "ADMISSION_CREATE_ACTION" ;;
  digest ← fld action "manifestDigest";
  require_digest digest ;;
  require_m ((d ← canonical_digest profile None;
              fld_eq binding "profileDigest" (VStr d) <&&> fld_eq broker_binding "profileDigest" (VStr d)) <&&>
             (scope ← fld profile "binding"; all_m (fun k => fld2_eq binding k scope k) identity_fields))
    "ADMISSION_CREATE_BINDING" ;;
  assigned ← assigned_digests broker_binding;
  require_m (digests_owned assigned profile <&&>
             (op ← as_text operation; cases ← fld broker_binding "caseResourceDigests"; l ← getitem cases op; py_in digest l))
    "ADMISSION_CREATE_OWNERSHIP" ;;
  resources ← elements profile "resources";
  rows ← select "manifestDigest" digest resources;
  manifest ← match rows with row :: _ => fld row "manifest" | [] => Raise StopIteration end;
  '(uid, version) ← match observed with
                    | Value VNone => Ok (VNone, VNone)
                    | _ => validate_observed_manifest observed (Value manifest) VNone
                    end;
  api ← fld manifest "apiVersion";
  kind ← fld manifest "kind";
  meta ← fld manifest "metadata";
  namespace ← fld meta "namespace";
  name ← fld meta "name";
  Ok (VDict [(u "actionId", id); (u "apiVersion", api); (u "kind", kind); (u "namespace", namespace); (u "name", name);
             (u "manifestDigest", digest); (u "uid", uid); (u "resourceVersion", version)]).

(** ** Created objects *)

(** An intent: no identity yet, and nothing like it before. *)
(* @src src/src/harness_conformance/live_mutation_admission.py:462-468 _resource_transition *)
Definition check_intent (row resource key : value) (objects : list (value * value)) : res unit :=
  require_m ((x ← fld resource "uid"; Ok (is_none x)) <&&> (x ← fld resource "resourceVersion"; Ok (is_none x)))
    "ADMISSION_INTENT_IDENTITY" ;;
  require_m (if (zlen objects <? 32) && match vget key objects with None => true | Some _ => false end then
               all_m (fun r => s ← fld r "state"; Ok (negb (eq_lit s "CREATE_INTENT"))) (map snd objects) <&&>
               all_m (fun r => same ← fld2_eq r "manifestDigest" resource "manifestDigest"; Ok (negb same)) (map snd objects) <&&>
               all_m (fun r => same ← fld2_eq r "operation" row "operation";
                               if (same : bool) then a ← int_of r "actionId"; b ← int_of resource "actionId"; Ok (a <? b)
                               else Ok true) (map snd objects)
             else Ok false) "ADMISSION_CREATE_REPLAY".

(** A creation: of the recorded intent, with an identity no other object has. *)
(* @src src/src/harness_conformance/live_mutation_admission.py:470-478 _resource_transition *)
Definition check_created (row resource key : value) (objects : list (value * value)) : res unit :=
  original ← match vget key objects with Some r => Ok r | None => conf "ADMISSION_CREATED_WITHOUT_INTENT" end;
  require_m (fld_lit original "state" "CREATE_INTENT" <&&> fld2_eq original "operation" row "operation" <&&>
             (kept ← without resource ["uid"; "resourceVersion"]; d ← items kept;
              all_m (fun kv : str * value => x ← getitem original kv.1; Ok (py_eq x kv.2)) d)) "ADMISSION_CREATED_WITHOUT_INTENT" ;;
  uid ← fld resource "uid";
  version ← fld resource "resourceVersion";
  require_m (if matches uid_re uid && matches version_re version then
               all_m (fun r => same ← fld_eq r "uid" uid; Ok (negb same)) (map snd objects)
             else Ok false) "ADMISSION_CREATED_IDENTITY".

(* @src src/src/harness_conformance/live_mutation_admission.py:447-479 _resource_transition *)
Definition _resource_transition (prior : reservation) (row : value) : res reservation :=
  resource ← fld row "resource";
  closed resource RESOURCE_FIELDS [] ;;
  operation ← fld row "operation";
  id ← fld resource "actionId";
  kind ← fld resource "kind";
  require_m ((x ← fld row "cleanup"; Ok (is_none x)) <&&>
             Ok (py_eq (current prior) operation && match id with VInt z => (1 <=? z) && (z <=? 256) | _ => false end) <&&>
             fld_lit resource "apiVersion" "v1" <&&> Ok (in_lits kind ["Pod"; "ConfigMap"; "Service"]))
    "ADMISSION_RESOURCE_SCOPE" ;;
  each_field resource ["namespace"; "name"] (fun x => require (matches name_re x) "ADMISSION_RESOURCE_SCOPE") ;;
  each_field resource ["manifestDigest"] require_digest ;;
  key ← tuple_of resource ["apiVersion"; "kind"; "namespace"; "name"];
  state ← fld row "state";
  (if eq_lit state "CREATE_INTENT" then check_intent row resource key (resources prior)
   else check_created row resource key (resources prior)) ;;
  d ← items resource;
  let entry := VDict (merge d [(u "operation", operation); (u "state", state)]) in
  Ok {| r_binding := r_binding prior; done := done prior; current := current prior; held := held prior;
        cleanupDigest := cleanupDigest prior; last_instant := last_instant prior;
        resources := vset key entry (resources prior) |}.

(** ** Parsing the ledger *)

(** The key of a run, and what a prefix of the ledger amounts to: the digest of its last row,
    the runs, the pairs of a run and an operation whose cleanup is recorded, its length. *)
Definition run_key : Type := str * str.
Definition run_key_eqb (a b : run_key) : bool := str_eqb a.1 b.1 && str_eqb a.2 b.2.

Record ledger := Ledger {
  previous : str;
  runs : list (run_key * reservation);
  recorded : list (run_key * value);
  count : Z
}.

Fixpoint run_get (k : run_key) (l : list (run_key * reservation)) : option reservation :=
  match l with [] => None | (k', r) :: l' => if run_key_eqb k k' then Some r else run_get k l' end.
Fixpoint run_set (k : run_key) (r : reservation) (l : list (run_key * reservation)) : list (run_key * reservation) :=
  match l with
  | [] => [(k, r)]
  | (k', r') :: l' => if run_key_eqb k k' then (k', r) :: l' else (k', r') :: run_set k r l'
  end.

Definition is_recorded (k : run_key) (operation : value) (l : list (run_key * value)) : bool :=
  existsb (fun e => run_key_eqb e.1 k && py_eq e.2 operation) l.

(** A new run, when no run holds the capacity. *)
(* @src src/src/harness_conformance/live_mutation_admission.py:506-511 parse_reservations *)
Definition start_run (row binding : value) (instant : datetime) (l : list (run_key * reservation)) : res reservation :=
  require_m (fld_lit row "state" "RESERVED" <&&> (x ← fld row "operation"; Ok (is_none x)) <&&>
             (x ← fld row "cleanup"; Ok (is_none x))) "ADMISSION_HISTORY_INITIAL" ;;
  require (negb (existsb (fun e => held e.2) l)) "ADMISSION_CAPACITY_HELD" ;;
  Ok {| r_binding := binding; done := []; current := VNone; held := true; cleanupDigest := ZERO;
        last_instant := instant; resources := [] |}.

(** An operation starts: none is running and it was not run before. *)
(* @src src/src/harness_conformance/live_mutation_admission.py:522-525 parse_reservations *)
Definition start_operation (row operation : value) (prior : reservation) : res reservation :=
  require_m (if is_none (current prior) && negb (in_values operation (done prior)) then
               x ← fld row "cleanup"; Ok (is_none x) else Ok false) "ADMISSION_OPERATION_REPLAY" ;;
  Ok {| r_binding := r_binding prior; done := done prior ++ [operation]; current := operation; held := held prior;
        cleanupDigest := cleanupDigest prior; last_instant := last_instant prior; resources := resources prior |}.

(** Every object of the operation is still accounted for in its receipt. *)
(* @src src/src/harness_conformance/live_mutation_admission.py:532-540 parse_reservations *)
Definition check_remaining (receipt operation : value) (objects : list (value * value)) : res unit :=
  rows ← select "operation" operation (map snd objects);
  match rows with
  | [] => Ok tt
  | _ =>
      let fields := ["apiVersion"; "kind"; "namespace"; "name"; "uid"; "manifestDigest"] in
      remaining ← elements receipt "remainingResources";
      require_m (if zlen remaining =? zlen rows then
                   a ← map_m (fun r => tuple_of r fields) remaining;
                   b ← map_m (fun r => tuple_of r fields) rows;
                   Ok (same_set a b)
                 else Ok false) "ADMISSION_RESOURCE_NOT_CLEAN"
  end.

(** An operation's cleanup: exactly the receipt that this module builds. *)
(* @src src/src/harness_conformance/live_mutation_admission.py:527-546 parse_reservations *)
Definition record_cleanup (row binding operation : value) (prior : reservation) : res reservation :=
  receipt ← fld row "cleanup";
  require (py_eq (current prior) operation && is_dict receipt) "ADMISSION_HISTORY_TRANSITION" ;;
  digest ← canonical_digest binding None;
  now ← fld row "observedAt";
  remaining ← py_get receipt "remainingResources";
  expected ← cleanup_receipt (VStr digest) operation now (default VNone remaining) (VStr (cleanupDigest prior));
  require (py_eq receipt expected) "ADMISSION_CLEANUP_INVALID" ;;
  check_remaining receipt operation (resources prior) ;;
  digest ← canonical_digest receipt None;
  clean ← fld_lit receipt "state" "CLEAN";
  Ok {| r_binding := r_binding prior; done := done prior; current := if clean : bool then VNone else operation;
        held := (zlen (done prior) <? zlen CASES) || negb clean;
        cleanupDigest := digest; last_instant := last_instant prior; resources := resources prior |}.

(** A further row of a known run, and whether it records a cleanup. *)
(* @src src/src/harness_conformance/live_mutation_admission.py:514-548 parse_reservations *)
Definition advance_run (row binding : value) (resource_row : bool) (key : run_key) (instant : datetime)
    (recorded : list (run_key * value)) (prior : reservation) : res (reservation * list (run_key * value)) :=
  require_m (if py_eq binding (r_binding prior) then
               later ← time_leb (last_instant prior) instant; Ok (later && held prior)
             else Ok false) "ADMISSION_HISTORY_TRANSITION" ;;
  operation ← fld row "operation";
  require (is_str operation && in_lits operation CASES) "ADMISSION_OPERATION_INVALID" ;;
  state ← fld row "state";
  if resource_row then
    require (negb (is_recorded key operation recorded)) "ADMISSION_RESOURCE_AFTER_CLEANUP" ;;
    r ← _resource_transition prior row; Ok (r, recorded)
  else if eq_lit state "RUNNING" then r ← start_operation row operation prior; Ok (r, recorded)
  else if eq_lit state "RECORDED" then
    r ← record_cleanup row binding operation prior; Ok (r, recorded ++ [(key, operation)])
  else conf "ADMISSION_HISTORY_TRANSITION".

(** The binding of a row. *)
(* @src src/src/harness_conformance/live_mutation_admission.py:493-499 parse_reservations *)
Definition check_binding (binding : value) : res unit :=
  closed binding BINDING_FIELDS [] ;;
  for_each (fun field =>
    x ← fld binding field;
    if digest_field field then require_digest x else require (matches name_re x) "ADMISSION_BINDING_INVALID") BINDING_FIELDS.

(** [prior["last"] = instant]. *)
Definition touch (instant : datetime) (r : reservation) : reservation :=
  {| r_binding := r_binding r; done := done r; current := current r; held := held r;
     cleanupDigest := cleanupDigest r; last_instant := instant; resources := resources r |}.

(** The body of the loop. *)
(* @src src/src/harness_conformance/live_mutation_admission.py:488-550 parse_reservations *)
Definition parse_row (s : ledger) (line : bytes) : res ledger :=
  row ← document (Raw line) 32768;
  require (is_dict row) "ADMISSION_HISTORY_INVALID" ;;
  state ← py_get row "state";
  let resource_row := in_lits (default VNone state) ["CREATE_INTENT"; "CREATED"] in
  closed row (if resource_row then LEDGER_FIELDS ++ ["resource"] else LEDGER_FIELDS) [] ;;
  binding ← fld row "binding";
  check_binding binding ;;
  require_m ((x ← fld row "sequence"; Ok (is_int x && py_eq x (VInt (count s + 1)))) <&&>
             fld_eq row "previousDigest" (VStr (previous s))) "ADMISSION_HISTORY_CHAIN" ;;
  instant ← linux_time row "observedAt";
  tenant ← text_of binding "tenantId";
  nonce ← text_of binding "runNonce";
  let key := (tenant, nonce) in
  '(r, recorded) ← match run_get key (runs s) with
                   | None => r ← start_run row binding instant (runs s); Ok (r, recorded s)
                   | Some prior => advance_run row binding resource_row key instant (recorded s) prior
                   end;
  digest ← canonical_digest row None;
  Ok {| previous := digest; runs := run_set key (touch instant r) (runs s); recorded := recorded; count := count s + 1 |}.

(* @src src/src/harness_conformance/live_mutation_admission.py:482-551 parse_reservations *)
Definition parse_reservations (raw : bytes) : res ledger :=
  require ((zlen raw <=? 4194304) && match raw with [] => true | _ => endswith [10%N] raw end)
    "ADMISSION_HISTORY_INVALID" ;;
  let lines := map strip_eol (splitlines raw) in
  require (zlen lines <=? 4096) "ADMISSION_HISTORY_FULL" ;;
  for_fold parse_row {| previous := ZERO; runs := []; recorded := []; count := 0 |} lines.

(** ** Recording *)

(** The row, and the journal after it. *)
Definition plan_row (fields : dict) (before : bytes) : res (value * bytes) :=
  s ← parse_reservations before;
  let row := VDict ([(u "sequence", VInt (count s + 1)); (u "previousDigest", VStr (previous s))] ++ fields) in
  canonical ← canonical_bytes row;
  let after := before ++ canonical ++ [10%N] in
  _ ← parse_reservations after;
  Ok (row, after).

Section log.
Context {W : Type} {St : Storage W}.

(** Append [after[len(before):]], sync, read back. *)
Definition extend (before after : bytes) : io (journal W) unit :=
  append_checked "ADMISSION_READBACK_FAILED" before (drop (length before) after).

(* @src src/src/harness_conformance/live_mutation_admission.py:559-575 _AdmissionLog.record *)
Definition record (binding state operation now cleanup : value) : io (journal W) str :=
  ambiguous ← reads (fun j => Ok (poisoned j));
  check (negb ambiguous) "ADMISSION_STORAGE_AMBIGUOUS" ;;
  in_transaction (
    before ← on_storage read_all;
    planned ← lift (plan_row [(u "binding", binding); (u "state", state); (u "operation", operation);
                              (u "observedAt", now); (u "cleanup", cleanup)] before);
    on_error (extend before planned.2) poison ;;
    lift (canonical_digest planned.1 None)).

(** [m] with a local flag next to the journal; the handler of an exception reads it. *)
Definition zoom_journal {A} (m : io (journal W) A) : io (journal W * bool) A := zoom fst (fun j w => (j, w.2)) m.
Definition poison_if_writing : io (journal W * bool) unit :=
  update (fun w : journal W * bool => if w.2 then (Journal (storage w.1) true, w.2) else w).
Definition with_flag {A} (m : io (journal W * bool) A) : io (journal W) A := fun j => let (r, w) := m (j, false) in (r, w.1).

(* @src src/src/harness_conformance/live_mutation_admission.py:577-610 _AdmissionLog.record_resource *)
Definition record_resource (binding : data) (state operation now : value) (profile broker_binding action : data)
    (expected_history : bytes) (observed : data) : io (journal W) str :=
  ambiguous ← reads (fun j => Ok (poisoned j));
  check (negb ambiguous) "ADMISSION_STORAGE_AMBIGUOUS" ;;
  check (in_lits state ["CREATE_INTENT"; "CREATED"] &&
         Bool.eqb (match observed with Value VNone => true | _ => false end) (eq_lit state "CREATE_INTENT"))
    "ADMISSION_RESOURCE_STATE" ;;
  check (zlen expected_history <=? 4194304) "ADMISSION_HISTORY_INVALID" ;;
  binding ← lift (document binding 16384);
  resource ← lift (_create_record (Value binding) operation profile broker_binding action observed);
  with_flag (on_error (
    row ← (zoom_journal (on_storage enter) ;;
           finally (
             before ← zoom_journal (on_storage read_all);
             check (str_eqb before expected_history) "ADMISSION_RESOURCE_HISTORY_CHANGED" ;;
             planned ← lift (plan_row [(u "binding", binding); (u "state", state); (u "operation", operation);
                                       (u "observedAt", now); (u "cleanup", VNone); (u "resource", resource)] before);
             update (fun w : journal W * bool => (w.1, true)) ;;
             zoom_journal (extend before planned.2) ;;
             mret planned.1) (zoom_journal (on_storage leave)));
    lift (canonical_digest row None)) poison_if_writing).
End log.
End ledger.

(** ** Finite maps with tuples for keys *)

Lemma vset_cases {A} k (x : A) l :
  (vget k l = None /\ vset k x l = l ++ [(k, x)]) \/
  (exists l1 k' y l2, l = l1 ++ (k', y) :: l2 /\ vget k l = Some y /\ vset k x l = l1 ++ (k', x) :: l2).
Proof.
  induction l as [|[k' y] l IH]; [by left |]. cbn [vget vset]. destruct (py_eq k' k).
  - right. by exists [], k', y, l.
  - destruct IH as [[-> ->] | (l1 & k1 & y1 & l2 & -> & -> & ->)]; [by left |].
    right. by exists ((k', y) :: l1), k1, y1, l2.
Qed.

Lemma run_key_eqb_eq a b : run_key_eqb a b = true <-> a = b.
Proof.
  destruct a as [a1 a2], b as [b1 b2]. unfold run_key_eqb. cbn [fst snd]. rewrite andb_true_iff, !str_eqb_eq. naive_solver.
Qed.

Lemma run_set_cases k r l :
  (run_get k l = None /\ run_set k r l = l ++ [(k, r)]) \/
  (exists l1 r' l2, l = l1 ++ (k, r') :: l2 /\ run_get k l = Some r' /\ run_set k r l = l1 ++ (k, r) :: l2).
Proof.
  induction l as [|[k' r'] l IH]; [by left |]. cbn [run_get run_set]. destruct (run_key_eqb k k') eqn:E.
  - apply run_key_eqb_eq in E as <-. right. by exists [], r', l.
  - destruct IH as [[-> ->] | (l1 & r1 & l2 & -> & -> & ->)]; [by left |].
    right. by exists ((k', r') :: l1), r1, l2.
Qed.

(** ** What a run of the ledger may be *)

(** An object whose creation was intended and is not confirmed. *)
Definition is_intent (r : value) : bool := eq_lit (part r "state") "CREATE_INTENT".

(** The objects of a run: few, of distinct manifests, and at most one unconfirmed. *)
Record objects_ok (l : list value) : Prop := {
  ob_few : zlen l <= 32;
  ob_digests : Forall (fun r => exists s, fld r "manifestDigest" = Ok (VStr s)) l;
  ob_distinct : NoDup (map (fun r => part r "manifestDigest") l);
  ob_intents : (length (List.filter is_intent l) <= 1)%nat
}.

(** A run: its operations are known ones, each at most once; the one in progress is the last;
    and it lets the capacity go only when all ten were run and none is in progress. *)
Record run_ok (r : reservation) : Prop := {
  ro_done : exists ops, done r = map (fun c => VStr (u c)) ops /\ NoDup ops /\ incl ops CASES;
  ro_current : current r = VNone \/ last (done r) = Some (current r);
  ro_held : held r = false -> current r = VNone /\ zlen (done r) = zlen CASES;
  ro_objects : objects_ok (map snd (resources r))
}.

(** The runs of a ledger: distinct keys, at most one holding the capacity. *)
Definition runs_ok (l : list (run_key * reservation)) : Prop :=
  NoDup (map fst l) /\ (length (List.filter (fun e => held e.2) l) <= 1)%nat /\ Forall (fun e => run_ok e.2) l.

Lemma in_lits_CASES o : in_lits o CASES = true -> exists c, o = VStr (u c) /\ In c CASES.
Proof. intros (c & -> & Hc)%in_lits_true. eauto. Qed.

Lemma all_cases ops : NoDup ops -> incl ops CASES -> zlen ops = zlen CASES -> Permutation ops CASES.
Proof.
  intros Hn Hi Hl. apply NoDup_Permutation_bis; [by apply NoDup_ListNoDup | unfold zlen in Hl; lia | done].
Qed.

(** No two of the values are equal to one operation already run. *)
Lemma fresh_operation c ops : in_values (VStr (u c)) (map (fun c => VStr (u c)) ops) = false -> ~ In c ops.
Proof.
  intros Hn Hc. apply not_true_iff_false in Hn. apply Hn. apply existsb_exists. exists (VStr (u c)).
  split; [by apply (in_map (fun c => VStr (u c))) | cbn; by apply str_eqb_refl].
Qed.

(** The entry of an object keeps the fields of the row and takes its state. *)
Definition entry_of (d : dict) (operation state : value) : value := VDict (merge d [(u "operation", operation); (u "state", state)]).

Lemma entry_fields d operation state :
  fld (entry_of d operation state) "manifestDigest" = fld (VDict d) "manifestDigest" /\
  fld (entry_of d operation state) "state" = Ok state.
Proof. unfold entry_of, merge, fld. cbn [fold_left getitem fst snd]. by rewrite !dget_dset. Qed.

Lemma intents_app l k : length (List.filter is_intent (l ++ k)) = (length (List.filter is_intent l) + length (List.filter is_intent k))%nat.
Proof. by rewrite List.filter_app, length_app. Qed.

Section runs_facts.
Context {U : Unicode}.

Lemma start_operation_ok row operation r r' :
  in_lits operation CASES = true -> run_ok r -> held r = true -> start_operation row operation r = Ok r' -> run_ok r'.
Proof.
  intros (c & -> & Hc)%in_lits_CASES Hr Hh H. unfold start_operation in H. apply seq_Ok in H as [Hg%require_m_Ok [= <-]].
  destruct (is_none (current r) && negb (in_values (VStr (u c)) (done r))) eqn:E; [|done].
  apply andb_true_iff in E as [_ Hn%negb_true_iff]. destruct Hr as [(ops & Hd & Hnd & Hin) _ _ Ho].
  constructor; cbn [done current held resources]; [| | congruence | done].
  - exists (ops ++ [c]). rewrite Hd, map_app. split; [done |]. split.
    + apply NoDup_app. split; [done |]. split; [|by apply NoDup_singleton].
      intros x Hx ->%list_elem_of_singleton. rewrite Hd in Hn. apply fresh_operation in Hn. by apply list_elem_of_In in Hx.
    + intros x [Hx | [<- | []]]%in_app_iff; auto.
  - right. by rewrite last_snoc.
Qed.

Lemma record_cleanup_ok row b operation r r' :
  in_lits operation CASES = true -> run_ok r -> record_cleanup row b operation r = Ok r' -> run_ok r'.
Proof.
  intros (c & -> & Hc)%in_lits_CASES Hr H. unfold record_cleanup in H.
  apply bind_Ok in H as (receipt & _ & H). apply seq_Ok in H as [Hg%require_Ok H].
  do 3 apply bind_Ok in H as (? & _ & H). apply bind_Ok in H as (expected & _ & H). apply seq_Ok in H as [_ H].
  apply seq_Ok in H as [_ H]. apply bind_Ok in H as (digest & _ & H). apply bind_Ok in H as (clean & _ & [= <-]).
  apply andb_true_iff in Hg as [Hcur%eq_lit_true _]. destruct Hr as [(ops & Hd & Hnd & Hin) Hl Hh Ho].
  constructor; cbn [done current held resources]; [eauto | | | done].
  - destruct clean; [by left | right]. rewrite <- Hcur. destruct Hl; [congruence | done].
  - intros [Hn%Z.ltb_ge ->%negb_false_iff]%orb_false_iff. split; [done |].
    assert (length ops <= length CASES)%nat by (apply NoDup_incl_length; [by apply NoDup_ListNoDup | done]).
    rewrite Hd in *. unfold zlen in *. rewrite length_map in *. lia.
Qed.

Lemma check_intent_objects row d key objects state operation :
  objects_ok (map snd objects) -> check_intent row (VDict d) key objects = Ok tt ->
  (exists s, fld (VDict d) "manifestDigest" = Ok (VStr s)) ->
  objects_ok (map snd (vset key (entry_of d operation state) objects)).
Proof.
  intros [Hf Hd Hn Hi] H [s Hs]. unfold check_intent in H. apply seq_Ok in H as [_ H%require_m_Ok].
  destruct ((zlen objects <? 32) && match vget key objects with None => true | Some _ => false end) eqn:E; [|done].
  apply andb_true_iff in E as [Hlt%Z.ltb_lt Hnone]. apply and_m_true in H as [H _]. apply and_m_true in H as [Hst%all_m_true Hfresh%all_m_true].
  destruct (vset_cases key (entry_of d operation state) objects) as [[_ ->] | (? & ? & ? & ? & _ & E & _)]; [|by rewrite E in Hnone].
  rewrite map_app. cbn [map snd]. destruct (entry_fields d operation state) as [Ed Es]. rewrite Hs in Ed. constructor.
  - rewrite zlen_app, zlen_cons, zlen_nil. unfold zlen in *. rewrite length_map in *. lia.
  - apply Forall_app. split; [done |]. constructor; [eauto | constructor].
  - rewrite map_app. apply NoDup_app. split; [done |]. split; [|by apply NoDup_singleton].
    intros x Hx ->%list_elem_of_singleton. cbn [map] in Hx. apply list_elem_of_In, in_map_iff in Hx as (r & Hr & Hin).
    rewrite (part_fld _ _ _ Ed) in Hr. rewrite List.Forall_forall in Hd, Hfresh.
    destruct (Hd _ Hin) as [s' Hs']. rewrite (part_fld _ _ _ Hs') in Hr. injection Hr as ->.
    specialize (Hfresh _ Hin). cbv beta in Hfresh. unfold fld2_eq in Hfresh. rewrite Hs', Hs in Hfresh. cbn in Hfresh.
    by rewrite str_eqb_refl in Hfresh.
  - rewrite intents_app. assert (List.filter is_intent (map snd objects) = []) as ->.
    { apply filter_nil. rewrite List.Forall_forall in Hst |- *. intros r Hr. specialize (Hst r Hr). cbv beta in Hst.
      apply bind_Ok in Hst as (st & Hst & [= H%negb_true_iff]). unfold is_intent. by rewrite (part_fld _ _ _ Hst). }
    cbn. by destruct (is_intent _); cbn; lia.
Qed.

Lemma check_created_objects row d key objects state operation :
  objects_ok (map snd objects) -> check_created row (VDict d) key objects = Ok tt ->
  NoDup (dkeys d) -> (exists s, fld (VDict d) "manifestDigest" = Ok (VStr s)) -> eq_lit state "CREATE_INTENT" = false ->
  objects_ok (map snd (vset key (entry_of d operation state) objects)).
Proof.
  intros [Hf Hd Hn Hi] H Hu [s Hs] Hst. unfold check_created in H. apply bind_Ok in H as (original & Horig & H).
  apply seq_Ok in H as [Hsame%require_m_Ok _]. apply and_m_true in Hsame as [Hsame Hkept]. apply and_m_true in Hsame as [Hint _].
  apply bind_Ok in Hkept as (kept & Hkept & H). apply bind_Ok in H as (dk & Hdk & H%all_m_true).
  unfold without in Hkept. cbn in Hkept. injection Hkept as <-. cbn in Hdk. injection Hdk as <-.
  destruct (vset_cases key (entry_of d operation state) objects) as [[E _] | (l1 & k' & y & l2 & -> & E & ->)]; rewrite E in Horig; [done |].
  injection Horig as ->. destruct (entry_fields d operation state) as [Ed Es]. rewrite Hs in Ed.
  rewrite !map_app in *. cbn [map snd] in *. apply Forall_app in Hd as [Hd1 [(s' & Hs') Hd2]%Forall_cons].
  assert (s' = s) as ->.
  { rewrite List.Forall_forall in H. apply fld_Ok in Hs as (d' & [= <-] & Hs).
    specialize (H (u "manifestDigest", VStr s)). cbn [fst snd] in H. apply bind_Ok in H as (x & Hx & [= Hxe]).
    - change (getitem original (u "manifestDigest")) with (fld original "manifestDigest") in Hx. rewrite Hs' in Hx. injection Hx as <-.
      cbn in Hxe. by apply str_eqb_eq in Hxe.
    - apply dget_In. rewrite dget_dwithout. rewrite Hs. by vm_compute. }
  constructor.
  - unfold zlen in *. rewrite length_app in *. done.
  - apply Forall_app. split; [done |]. constructor; eauto.
  - rewrite map_app in *. cbn [map] in *. by rewrite (part_fld _ _ _ Ed), <- (part_fld _ _ _ Hs').
  - rewrite intents_app in *. cbn [List.filter] in *. unfold is_intent at 2. rewrite (part_fld _ _ _ Es), Hst.
    destruct (is_intent original); cbn [length] in *; lia.
Qed.

Lemma resource_transition_ok row r r' :
  uniq row = true -> run_ok r -> _resource_transition r row = Ok r' ->
  run_ok r' /\ held r' = held r.
Proof.
  intros Hu [Hd Hc Hh Ho] H. unfold _resource_transition in H. apply bind_Ok in H as (resource & Hres & H).
  apply seq_Ok in H as [_ H]. apply bind_Ok in H as (op & _ & H). apply bind_Ok in H as (id & _ & H).
  apply bind_Ok in H as (kind & _ & H). apply seq_Ok in H as [_ H]. apply seq_Ok in H as [_ H].
  apply seq_Ok in H as [Hdig H]. apply bind_Ok in H as (key & _ & H). apply bind_Ok in H as (state & _ & H).
  apply seq_Ok in H as [Hstep H]. apply bind_Ok in H as (d & Hitems & [= <-]).
  destruct resource as [| | | | |d']; try done. cbn in Hitems. injection Hitems as ->.
  apply (each_field_Ok _ _ _ "manifestDigest") in Hdig as (x & Hx & Hxd); [|by left].
  apply require_digest_Ok in Hxd as (s & -> & _).
  apply fld_uniq in Hres; [|done]. cbn [uniq] in Hres. apply andb_true_iff in Hres as [Hnd%bool_decide_eq_true _].
  split; [|done]. constructor; cbn [done current held resources]; try done.
  destruct (eq_lit state "CREATE_INTENT") eqn:Es.
  - apply (check_intent_objects row d key _ state op); [done | done | eauto].
  - apply (check_created_objects row d key _ state op); [done | done | done | eauto | done].
Qed.
End runs_facts.

Section histories.
Context {U : Unicode}.

Lemma touch_ok instant r : run_ok r -> run_ok (touch instant r).
Proof. by intros []. Qed.

Lemma start_run_ok row binding instant l r :
  start_run row binding instant l = Ok r -> run_ok r /\ held r = true /\ List.filter (fun e => held e.2) l = [].
Proof.
  unfold start_run. intros H. apply seq_Ok in H as [_ H]. apply seq_Ok in H as [Hn%require_Ok%negb_true_iff [= <-]].
  split; [|split; [done |]].
  - constructor; cbn [done current held resources]; [| by left | done |].
    + exists []. repeat split; [by apply NoDup_nil | intros x []].
    + constructor; cbn; [done | constructor | constructor | lia].
  - apply filter_nil. rewrite List.Forall_forall. intros e He. destruct (held e.2) eqn:E; [|done].
    rewrite <- Hn. symmetry. apply existsb_exists. by exists e.
Qed.

Lemma advance_run_ok row binding resource_row key instant rec r r' rec' :
  uniq row = true -> run_ok r -> advance_run row binding resource_row key instant rec r = Ok (r', rec') ->
  run_ok r' /\ held r = true.
Proof.
  intros Hu Hr H. unfold advance_run in H. apply seq_Ok in H as [Hg%require_m_Ok H].
  assert (held r = true) as Hh.
  { destruct (py_eq binding (r_binding r)); [|done]. apply bind_Ok in Hg as (later & _ & [= Hg]). by apply andb_true_iff in Hg as [_ ?]. }
  split; [|done]. apply bind_Ok in H as (op & _ & H). apply seq_Ok in H as [[_ Hop]%require_Ok%andb_true_iff H].
  apply bind_Ok in H as (state & _ & H). destruct resource_row; [|destruct (eq_lit state "RUNNING"); [|destruct (eq_lit state "RECORDED"); [|done]]].
  - apply seq_Ok in H as [_ H]. apply bind_Ok in H as (r1 & H1 & [= <- _]). by apply resource_transition_ok in H1 as [? _].
  - apply bind_Ok in H as (r1 & H1 & [= <- _]). by eapply start_operation_ok.
  - apply bind_Ok in H as (r1 & H1 & [= <- _]). by eapply record_cleanup_ok.
Qed.

(** One row of a ledger. *)
Record row_adds (s : ledger) (line : bytes) (row : value) (s' : ledger) : Prop := {
  ra_document : document (Raw line) 32768 = Ok row;
  ra_sequence : fld row "sequence" = Ok (VInt (count s + 1));
  ra_previous : fld row "previousDigest" = Ok (VStr (previous s));
  ra_digest : canonical_digest row None = Ok (previous s');
  ra_count : count s' = count s + 1;
  ra_runs : runs_ok (runs s) -> runs_ok (runs s')
}.

Lemma runs_replace key r r' l1 l2 :
  runs_ok (l1 ++ (key, r) :: l2) -> run_ok r' -> held r = true -> runs_ok (l1 ++ (key, r') :: l2).
Proof.
  intros (Hk & Hh & Hf) Hr Hheld. unfold runs_ok in *. rewrite !map_app in *. cbn [map fst] in *.
  rewrite !List.filter_app, !length_app in *. cbn [List.filter snd] in *. rewrite Hheld in Hh.
  split; [done |]. split; [destruct (held r'); cbn [length] in *; lia |].
  apply Forall_app in Hf as [Hf1 [_ Hf2]%Forall_cons]. apply Forall_app. split; [done |]. by constructor.
Qed.

Lemma runs_add key r l :
  runs_ok l -> run_get key l = None -> run_ok r -> List.filter (fun e => held e.2) l = [] -> runs_ok (l ++ [(key, r)]).
Proof.
  intros (Hk & _ & Hf) Hn Hr He. unfold runs_ok. rewrite map_app, List.filter_app, He. split; [|split].
  - apply NoDup_app. split; [done |]. split; [|by apply NoDup_singleton]. intros x Hx ->%list_elem_of_singleton.
    cbn [map fst] in Hx. apply list_elem_of_In in Hx. clear -Hn Hx. induction l as [|[k' r'] l IH]; [done |].
    cbn [run_get map fst] in *. destruct (run_key_eqb key k') eqn:E; [done |]. destruct Hx as [<- | Hx]; [|by apply IH].
    apply not_true_iff_false in E. by apply E, run_key_eqb_eq.
  - cbn. destruct (held r); cbn; lia.
  - apply Forall_app. split; [done |]. constructor; [done | constructor].
Qed.

Lemma ledger_row_Ok s line s' : parse_row s line = Ok s' -> exists row, row_adds s line row s'.
Proof.
  unfold parse_row. intros H. apply bind_Ok in H as (row & Hdoc & H). exists row. apply seq_Ok in H as [_ H].
  apply bind_Ok in H as (st & _ & H). cbv zeta in H. apply seq_Ok in H as [_ H]. apply bind_Ok in H as (b & _ & H).
  apply seq_Ok in H as [_ H]. apply seq_Ok in H as [[Hsq Hprev%fld_eq_text]%require_m_Ok%and_m_true H].
  apply bind_Ok in H as (instant & _ & H). apply bind_Ok in H as (tenant & _ & H). apply bind_Ok in H as (nonce & _ & H).
  apply bind_Ok in H as ([r rec] & Hr & H). apply bind_Ok in H as (digest & Hd & [= <-]).
  apply bind_Ok in Hsq as (sq & Hsq & [= [Hint Heq]%andb_true_iff]). destruct sq as [| |z| | |]; try done.
  cbn in Heq. apply Z.eqb_eq in Heq as ->.
  constructor; cbn [previous runs count]; try done. intros Hruns.
  assert (uniq row = true) as Hu by by apply document_Ok in Hdoc as (? & _).
  destruct (run_set_cases (tenant, nonce) (touch instant r) (runs s)) as [[E ->] | (l1 & r1 & l2 & El & E & ->)]; rewrite E in Hr.
  - apply bind_Ok in Hr as (r0 & (Hok & _ & Hnone)%start_run_ok & [= <- _]). apply runs_add; auto using touch_ok.
  - rewrite El in Hruns. destruct Hruns as (Hk & Hh & Hf). pose proof Hf as [_ [Hr1 _]%Forall_cons]%Forall_app.
    apply advance_run_ok in Hr as [Hok Hheld]; [|done | exact Hr1].
    apply (runs_replace _ r1); [done | by apply touch_ok | done].
Qed.

Lemma ledger_rows_Ok lines s s' :
  for_fold parse_row s lines = Ok s' ->
  exists rows, Forall2 (fun line row => document (Raw line) 32768 = Ok row) lines rows /\
    chained (previous s) (count s) rows (previous s') /\ count s' = count s + zlen rows /\
    (runs_ok (runs s) -> runs_ok (runs s')).
Proof.
  revert s. induction lines as [|line lines IH]; intros s; cbn [for_fold].
  - intros [= <-]. exists []. rewrite zlen_nil. split; [constructor |]. split; [done |]. split; [lia | done].
  - intros (s1 & (row & [Hdoc Hsq Hp Hd Hc Hr])%ledger_row_Ok & H)%bind_Ok.
    apply IH in H as (rows & Hrows & Hch & Hn & Hok). exists (row :: rows).
    rewrite zlen_cons. split; [by constructor |]. split; [|split; [lia | auto]].
    cbn [chained]. rewrite Hc in Hch. eauto.
Qed.

Lemma parse_reservations_Ok raw s :
  parse_reservations raw = Ok s ->
  zlen raw <= 4194304 /\ (raw = [] \/ endswith [10%N] raw = true) /\ runs_ok (runs s) /\ count s <= 4096 /\
  exists rows, Forall2 (fun line row => document (Raw line) 32768 = Ok row) (map strip_eol (splitlines raw)) rows /\
    chained ZERO 0 rows (previous s) /\ count s = zlen rows.
Proof.
  unfold parse_reservations. intros H. apply seq_Ok in H as [[Hs Hn]%require_Ok%andb_true_iff H]. cbv zeta in H.
  apply seq_Ok in H as [Hm%require_Ok H]. apply ledger_rows_Ok in H as (rows & Hrows & Hch & Hc & Hok).
  cbn [previous runs count] in *. rewrite Z.add_0_l in Hc. split; [lia |]. split; [destruct raw; auto |].
  split; [apply Hok; repeat split; [by apply NoDup_nil | cbn; lia | constructor] |].
  split; [apply Forall2_length in Hrows; unfold zlen in *; lia | eauto].
Qed.

(** C8: a ledger that parses never shares the capacity.  Its lines are canonical rows numbered from
    one, each naming the digest of the row before; its runs have distinct tenants and nonces
    and at most one of them holds the capacity; in each run the operations are among the ten
    and none was started twice, the one in progress is the last started, no more than 32
    objects were intended, of pairwise distinct manifests and at most one still unconfirmed;
    and a run that let the capacity go has run every one of the ten operations and has none
    in progress. *)
Theorem ledger_exclusive raw s :
  parse_reservations raw = Ok s ->
  (exists rows, Forall2 (fun line row => document (Raw line) 32768 = Ok row) (map strip_eol (splitlines raw)) rows /\
     chained ZERO 0 rows (previous s) /\ count s = zlen rows) /\
  NoDup (map fst (runs s)) /\ (length (List.filter (fun e => held e.2) (runs s)) <= 1)%nat /\
  forall key r, In (key, r) (runs s) ->
    exists ops, done r = map (fun c => VStr (u c)) ops /\ NoDup ops /\ incl ops CASES /\
      (current r = VNone \/ last (done r) = Some (current r)) /\ objects_ok (map snd (resources r)) /\
      (held r = false -> Permutation ops CASES /\ current r = VNone).
Proof.
  intros (_ & _ & (Hk & Hh & Hf) & _ & Hrows)%parse_reservations_Ok. do 3 (split; [done |]). intros key r Hin.
  rewrite List.Forall_forall in Hf. destruct (Hf _ Hin) as [(ops & Hd & Hn & Hi) Hc Hheld Ho]. cbn [snd] in *.
  exists ops. do 5 (split; [done |]). intros [Hcur Hlen]%Hheld. split; [|done]. apply all_cases; [done.. |].
  rewrite Hd in Hlen. unfold zlen in *. by rewrite length_map in Hlen.
Qed.
End histories.

(** ** Recording *)

Section recording.
Context {U : Unicode}.

Lemma strip_eol_newline b : last b <> Some 13%N -> strip_eol (b ++ [10%N]) = b.
Proof.
  intros H. unfold strip_eol. rewrite rev_app_distr. cbn [rev app].
  destruct (rev b) as [|c l] eqn:E; [by apply (f_equal (@rev N)) in E; rewrite rev_involutive in E |].
  apply (f_equal (@rev N)) in E. rewrite rev_involutive in E. cbn [rev] in E. rewrite E in H |- *. rewrite last_snoc in H.
  assert (c <> 13%N) as Hc by congruence. clear -Hc.
  destruct c as [|p]; [done |]. repeat (destruct p as [p|p|]; try done).
Qed.

Lemma canonical_ends v b : canonical_bytes v = Ok b -> last b <> Some 13%N.
Proof.
  intros (_ & _ & H)%canonical_bytes_Ok E.
  assert (Forall (fun x => x <> 13%N) b) as Hf.
  { eapply utf8_encode_without; [|exact H |]; [lia |].
    eapply Forall_impl; [apply dumps_printable |]. intros c. simpl. lia. }
  apply last_Some in E as [l ->]. apply Forall_app in Hf as [_ [? _]%Forall_cons]. done.
Qed.

(** A planned row is the next row of the ledger. *)
Lemma ledger_plan_Ok fields before row after :
  plan_row fields before = Ok (row, after) ->
  exists s s' line canonical row', parse_reservations before = Ok s /\ parse_reservations after = Ok s' /\
    after = before ++ line /\ line = canonical ++ [10%N] /\
    row = VDict ([(u "sequence", VInt (count s + 1)); (u "previousDigest", VStr (previous s))] ++ fields) /\
    canonical_bytes row = Ok canonical /\ document (Raw canonical) 32768 = Ok row' /\
    canonical_bytes row' = Ok canonical /\ parse_row s canonical = Ok s' /\
    canonical_digest row None = Ok (previous s').
Proof.
  unfold plan_row. intros H. apply bind_Ok in H as (s & Hs & H). cbv zeta in H. apply bind_Ok in H as (c & Hc & H).
  apply bind_Ok in H as (s' & Hs' & [= <- <-]). pose proof (parse_reservations_Ok _ _ Hs) as (_ & Hnl & _).
  assert (parse_row s c = Ok s') as Hrow.
  { unfold parse_reservations in Hs, Hs'. cbv zeta in Hs, Hs'. apply seq_Ok in Hs as [_ Hs]. apply seq_Ok in Hs as [_ Hs].
    apply seq_Ok in Hs' as [_ Hs']. apply seq_Ok in Hs' as [_ Hs'].
    rewrite splitlines_app, (canonical_line _ _ Hc), map_app in Hs' by done. cbn [map] in Hs'.
    rewrite strip_eol_newline in Hs' by (by eapply canonical_ends).
    rewrite for_fold_app, Hs in Hs'. cbn [mbind res_bind for_fold] in Hs'. by apply bind_Ok in Hs' as (s1 & H1 & [= <-]). }
  destruct (ledger_row_Ok _ _ _ Hrow) as (row' & Hr). pose proof (document_Ok _ _ _ (ra_document _ _ _ _ Hr)) as (_ & _ & b & Hb & _ & <- & _).
  exists s, s', (c ++ [10%N]), c, row'. do 6 (split; [done |]).
  split; [by destruct Hr |]. do 2 (split; [done |]).
  pose proof (ra_digest _ _ _ _ Hr) as Hd. unfold canonical_digest in Hd |- *. rewrite Hb in Hd.
  change (VDict (_ :: _)) with (VDict ([(u "sequence", VInt (count s + 1)); (u "previousDigest", VStr (previous s))] ++ fields)).
  by rewrite Hc.
Qed.

Context {W : Type} {St : Storage W} {L : StorageOk W}.

(** Nothing written; the planned row written, the journal parsing with it; or a part of it
    written and the log closed. *)
Definition log_outcome (fields_ok : value -> Prop) (before : bytes) (flag : bool) (after : bytes) (flag' : bool) (r : res str) : Prop :=
  (after = before /\ flag' = flag /\ is_ok r = false) \/
  (exists fields row text s', plan_row fields before = Ok (row, before ++ text) /\ fields_ok (VDict fields) /\
     parse_reservations (before ++ text) = Ok s' /\
     ((flag' = flag \/ flag' = true /\ is_ok r = false) /\ after = before ++ text /\ (r = Ok (previous s') \/ is_ok r = false) \/
      flag' = true /\ is_ok r = false /\ exists p q, text = p ++ q /\ after = before ++ p)).

Lemma extend_run before text (j j' : journal W) r :
  before = contents (storage j) -> extend before (before ++ text) j = (r, j') ->
  poisoned j' = poisoned j /\
  match r with
  | Ok _ => contents (storage j') = before ++ text
  | Raise _ => exists p q, text = p ++ q /\ contents (storage j') = before ++ p
  end.
Proof. unfold extend. rewrite drop_app_length. apply append_checked_run. Qed.

(** Between entering and leaving the transaction of [record]. *)
Lemma record_body_run fields (j j' : journal W) r :
  (before ← on_storage read_all;
   planned ← lift (plan_row fields before);
   on_error (extend before planned.2) poison ;;
   lift (canonical_digest planned.1 None)) j = (r, j') ->
  log_outcome (fun v => v = VDict fields) (contents (storage j)) (poisoned j) (contents (storage j')) (poisoned j') r.
Proof.
  unfold mbind at 1, io_bind at 1, on_storage at 1, zoom at 1. pose proof (read_contents (storage j)) as Hr.
  destruct (read_all (storage j)) as [[raw|e] w] eqn:E; simpl in Hr.
  2: { intros [= <- <-]. by left. }
  apply read_exact in E as ->. unfold mbind at 1, io_bind at 1, lift at 1.
  destruct (plan_row fields _) as [[row after]|e] eqn:Hp; [|intros [= <- <-]; by left].
  destruct (ledger_plan_Ok _ _ _ _ Hp) as (s & s' & text & c & row' & Hs & Hs' & -> & _ & _ & _ & _ & _ & _ & Hd).
  unfold mbind at 1, io_bind at 1. cbn [fst snd].
  destruct (on_error _ _ _) as [r1 j1] eqn:E. apply on_poison_run in E as (j2 & [Hf E]%extend_run & Hst & Hpois); [|by rewrite <- Hr].
  intros H. right. exists fields, row, text, s'. do 3 (split; [done |]). destruct r1 as [[]|e].
  - unfold lift in H. rewrite Hd in H. injection H as <- <-. left. rewrite Hst, Hpois, Hf. simpl. auto.
  - injection H as <- <-. right. rewrite Hst, Hpois. auto.
Qed.

(** The transaction around a body that starts and ends with the contents it is given. *)
Lemma in_transaction_run {A} (P : bytes -> bool -> bytes -> bool -> res A -> Prop) (m : io (journal W) A) (j j' : journal W) r :
  (forall b f e, P b f b f (Raise e)) ->
  (forall b f a g x e, P b f a g (Ok x) -> P b f a g (Raise e)) -> (forall b f a g x e, P b f a g (Raise x) -> P b f a g (Raise e)) ->
  (forall j1 j2 r', m j1 = (r', j2) -> P (contents (storage j1)) (poisoned j1) (contents (storage j2)) (poisoned j2) r') ->
  in_transaction m j = (r, j') -> P (contents (storage j)) (poisoned j) (contents (storage j')) (poisoned j') r.
Proof.
  intros Hnone Hok Hraise Hm. unfold in_transaction, mbind at 1, io_bind at 1, on_storage at 1, zoom at 1.
  pose proof (enter_contents (storage j)) as He. destruct (enter (storage j)) as [[[]|e] w1]; simpl in He.
  2: { intros [= <- <-]. simpl. rewrite He. apply Hnone. }
  rewrite <- He. unfold finally. destruct (m (Journal w1 (poisoned j))) as [r1 j1] eqn:Em. apply Hm in Em. simpl in Em.
  unfold on_storage, zoom. pose proof (leave_contents (storage j1)) as Hl.
  destruct (leave (storage j1)) as [[[]|e] w3]; intros [= <- <-]; simpl in *; rewrite Hl; [done |].
  destruct r1; [by eapply Hok | by eapply Hraise].
Qed.

Lemma log_outcome_raise P b f a g (r : res str) e : log_outcome P b f a g r -> log_outcome P b f a g (Raise e).
Proof.
  intros [(? & ? & _) | (fs & row & t & s' & Hp & Hf & Hs & [(Hg & Ha & _) | (Hg & _ & Hpq)])].
  - by left.
  - right. exists fs, row, t, s'. do 3 (split; [done |]). left. split; [|auto]. destruct Hg as [? | [? _]]; auto.
  - right. exists fs, row, t, s'. do 3 (split; [done |]). right. auto.
Qed.

(** The fields that [record] writes. *)
Definition record_fields (binding state operation now cleanup : value) : dict :=
  [(u "binding", binding); (u "state", state); (u "operation", operation); (u "observedAt", now); (u "cleanup", cleanup)].

Lemma ledger_record_run binding state operation now cleanup (j j' : journal W) r :
  record binding state operation now cleanup j = (r, j') ->
  (j' = j /\ is_ok r = false) \/
  poisoned j = false /\
  log_outcome (fun v => v = VDict (record_fields binding state operation now cleanup))
    (contents (storage j)) false (contents (storage j')) (poisoned j') r.
Proof.
  unfold record. unfold mbind at 1, io_bind at 1, reads at 1. unfold mbind at 1, io_bind at 1, check at 1, lift at 1.
  destruct (poisoned j) eqn:Hp; [intros [= <- <-]; by left | cbn [negb require]].
  intros H. right. split; [done |].
  apply (in_transaction_run (log_outcome (fun v => v = VDict (record_fields binding state operation now cleanup)))) in H; [by rewrite Hp in H | | | |].
  - intros. by left.
  - intros. by eapply log_outcome_raise.
  - intros. by eapply log_outcome_raise.
  - intros j1 j2 r'. apply record_body_run.
Qed.

(** The fields that [record_resource] writes. *)
Definition resource_fields (state operation now : value) (v : value) : Prop :=
  exists binding resource, v = VDict (record_fields binding state operation now VNone ++ [(u "resource", resource)]).

(** What the body of [record_resource] leaves: before [writing] nothing has changed. *)
Definition writing_outcome (ok : value -> Prop) (before : bytes) (flag : bool) (w : journal W * bool) (r : res value) : Prop :=
  let '(j, writing) := w in
  poisoned j = flag /\
  if writing then
    exists fields row text s', plan_row fields before = Ok (row, before ++ text) /\ ok (VDict fields) /\
      parse_reservations (before ++ text) = Ok s' /\ canonical_digest row None = Ok (previous s') /\
      (contents (storage j) = before ++ text /\ (r = Ok row \/ is_ok r = false) \/
       is_ok r = false /\ exists p q, text = p ++ q /\ contents (storage j) = before ++ p)
  else contents (storage j) = before /\ is_ok r = false.

Lemma resource_body_run fields history (j : journal W) w r :
  (before ← zoom_journal (on_storage read_all);
   check (str_eqb before history) "ADMISSION_RESOURCE_HISTORY_CHANGED" ;;
   planned ← lift (plan_row fields before);
   update (fun w : journal W * bool => (w.1, true)) ;;
   zoom_journal (extend before planned.2) ;;
   mret planned.1) (j, false) = (r, w) ->
  writing_outcome (fun v => v = VDict fields) (contents (storage j)) (poisoned j) w r.
Proof.
  unfold mbind at 1, io_bind at 1, zoom_journal at 1, on_storage at 1, zoom at 1. cbn [fst snd].
  unfold zoom at 1. pose proof (read_contents (storage j)) as Hr.
  destruct (read_all (storage j)) as [[raw|e] w1] eqn:E; simpl in Hr.
  2: { intros [= <- <-]. cbn. by rewrite Hr. }
  apply read_exact in E as ->. unfold mbind at 1, io_bind at 1, check at 1, lift at 1.
  destruct (str_eqb _ history); [cbn [require] | intros [= <- <-]; cbn; by rewrite Hr].
  unfold mbind at 1, io_bind at 1, lift at 1.
  destruct (plan_row fields _) as [[row after]|e] eqn:Hp; [|intros [= <- <-]; cbn; by rewrite Hr].
  destruct (ledger_plan_Ok _ _ _ _ Hp) as (s & s' & text & c & row' & Hs & Hs' & -> & _ & _ & _ & _ & _ & _ & Hd).
  unfold mbind at 1, io_bind at 1, update at 1. unfold mbind at 1, io_bind at 1, zoom_journal at 1, zoom at 1. cbn [fst snd].
  destruct (extend _ _ _) as [r1 j1] eqn:E. apply extend_run in E as [Hf E]; [|by rewrite <- Hr]. cbn [poisoned] in Hf.
  intros H. assert (w = (j1, true)) as -> by (destruct r1; by injection H as _ <-). cbn. split; [done |].
  exists fields, row, text, s'. do 4 (split; [done |]). destruct r1 as [[]|e]; injection H as <-; auto.
Qed.

Lemma record_resource_run binding state operation now profile broker_binding action history observed (j j' : journal W) r :
  record_resource binding state operation now profile broker_binding action history observed j = (r, j') ->
  (j' = j /\ is_ok r = false) \/
  poisoned j = false /\
  log_outcome (resource_fields state operation now) (contents (storage j)) false (contents (storage j')) (poisoned j') r.
Proof.
  unfold record_resource. unfold mbind at 1, io_bind at 1, reads at 1. unfold mbind at 1, io_bind at 1, check at 1, lift at 1.
  destruct (poisoned j) eqn:Hp; [intros [= <- <-]; by left | cbn [negb require]].
  do 2 (unfold mbind at 1, io_bind at 1, check at 1, lift at 1;
        match goal with |- context [require ?b _] => destruct b; [cbn [require] | intros [= <- <-]; by left] end).
  unfold mbind at 1, io_bind at 1, lift at 1. destruct (document binding 16384) as [b|e]; [|intros [= <- <-]; by left].
  unfold mbind at 1, io_bind at 1, lift at 1. destruct (_create_record _ _ _ _ _ _) as [resource|e]; [|intros [= <- <-]; by left].
  intros H. right. split; [done |]. revert H. unfold with_flag.
  set (fields := [(u "binding", b); (u "state", state); (u "operation", operation); (u "observedAt", now); (u "cleanup", VNone); (u "resource", resource)]).
  assert (resource_fields state operation now (VDict fields)) as Hfields by by exists b, resource.
  unfold on_error, mbind at 1, io_bind at 1. unfold mbind at 1, io_bind at 1. unfold zoom_journal at 1, zoom at 1. cbn [fst snd].
  unfold on_storage at 1, zoom at 1. pose proof (enter_contents (storage j)) as He.
  destruct (enter (storage j)) as [[[]|e] w1]; simpl in He; cbn [fst snd].
  2: { cbn. intros [= <- <-]. left. cbn. by rewrite He, Hp. }
  unfold finally. match goal with |- context [let (_, _) := ?m ?x in _] => destruct (m x) as [r1 [j1 writing]] eqn:Em end.
  apply resource_body_run in Em. cbn [storage poisoned] in Em. rewrite He, Hp in Em. destruct Em as [Hflag Em].
  unfold zoom_journal at 1, zoom at 1. cbn [fst snd]. unfold on_storage, zoom. pose proof (leave_contents (storage j1)) as Hl.
  destruct (leave (storage j1)) as [r2 w3]. simpl in Hl. cbn [fst snd].
  destruct writing.
  - destruct Em as (fs & row & text & s' & Hplan & [= ->] & Hs' & Hd & Em).
    intros H. right. exists fields, row, text, s'. do 3 (split; [done |]).
    destruct r2 as [[]|e]; [destruct r1 as [x|e]|]; unfold lift, poison_if_writing, update in H; cbn [fst snd] in H.
    + destruct Em as [[Hc [[= ->] | [=]]] | [[=] _]]. rewrite Hd in H. injection H as <- <-. cbn [storage poisoned]. left. rewrite Hl. auto.
    + injection H as <- <-. cbn [storage poisoned]. rewrite Hl. destruct Em as [[Hc _] | [_ Hpq]]; [left | right]; auto.
    + injection H as <- <-. cbn [storage poisoned]. rewrite Hl. destruct Em as [[Hc _] | [_ Hpq]]; [left | right]; auto.
  - destruct Em as [Hc Hr]. intros H. left.
    destruct r2 as [[]|e]; [destruct r1 as [x|e]; [done |]|]; unfold poison_if_writing, update in H; cbn [fst snd] in H;
      injection H as <- <-; cbn [storage poisoned]; by rewrite Hl.
Qed.

(** A call of either method. *)
Inductive logged (j : journal W) : res str -> journal W -> Prop :=
| logged_record binding state operation now cleanup r j' :
    record binding state operation now cleanup j = (r, j') -> logged j r j'
| logged_resource binding state operation now profile broker_binding action history observed r j' :
    record_resource binding state operation now profile broker_binding action history observed j = (r, j') -> logged j r j'.

Lemma logged_run (j j' : journal W) r :
  logged j r j' ->
  (j' = j /\ is_ok r = false) \/
  poisoned j = false /\ log_outcome (fun _ => True) (contents (storage j)) false (contents (storage j')) (poisoned j') r.
Proof.
  assert (forall (P Q : value -> Prop) b f a g (r : res str), (forall v, P v -> Q v) -> log_outcome P b f a g r -> log_outcome Q b f a g r) as Hw.
  { intros P Q b f a g r0 HPQ [? | (fs & row & t & s' & Hp & Hf & H)]; [by left | right]. exists fs, row, t, s'. eauto. }
  destruct 1 as [? ? ? ? ? ? ? H%ledger_record_run | ? ? ? ? ? ? ? ? ? ? ? H%record_resource_run];
    (destruct H as [? | [Hp H]]; [by left | right]; split; [done |]; revert H; by apply Hw).
Qed.

(** The ledger is append-only, grows by valid rows and a doubtful write closes the log.
    Whatever happens in a call of [record] or [record_resource], the old octets stay a prefix of
    the new; a log that was closed stays closed and touches nothing; while the log is open
    the octets are those before or parse as a ledger one row longer; and a call that returns
    has written such a row, whose digest it returns. *)
Theorem ledger_append_only (j j' : journal W) r :
  logged j r j' ->
  (exists ext, contents (storage j') = contents (storage j) ++ ext) /\
  (poisoned j = true -> j' = j /\ is_ok r = false) /\
  (poisoned j' = false -> contents (storage j') = contents (storage j) \/ is_ok (parse_reservations (contents (storage j'))) = true) /\
  (forall d, r = Ok d -> poisoned j' = false /\
     exists s s', parse_reservations (contents (storage j)) = Ok s /\ parse_reservations (contents (storage j')) = Ok s' /\
       count s' = count s + 1 /\ previous s' = d).
Proof.
  intros [[-> Hr] | [Hp H]]%logged_run.
  { split; [exists []; by rewrite app_nil_r |]. split; [done |]. split; [by left |]. intros d ->. done. }
  rewrite Hp. destruct H as [(-> & -> & Hr) | (fs & row & text & s' & Hplan & _ & Hs' & H)].
  { split; [exists []; by rewrite app_nil_r |]. split; [done |]. split; [by left |]. intros d ->. done. }
  destruct H as [(Hf & -> & Hr) | (-> & Hr & p & q & -> & ->)].
  - split; [eauto |]. split; [done |]. split; [intros _; right; by rewrite Hs' |]. intros d ->.
    destruct Hf as [-> | [_ [=]]]. split; [done |]. destruct Hr as [[= ->] | [=]].
    destruct (ledger_plan_Ok _ _ _ _ Hplan) as (s & s2 & line & c & row' & Hs & Hs2 & _ & _ & _ & _ & _ & _ & Hrow & _).
    exists s, s'. do 2 (split; [done |]). split; [|done]. assert (s2 = s') as <- by congruence.
    by destruct (ledger_row_Ok _ _ _ Hrow) as (? & []).
  - split; [eauto |]. split; [done |]. split; [done |]. intros d ->. done.
Qed.

Lemma reserved_row s line s' row :
  parse_row s line = Ok s' -> document (Raw line) 32768 = Ok row -> fld row "state" = Ok (VStr (u "RESERVED")) ->
  exists key r, runs s' = runs s ++ [(key, r)] /\ run_get key (runs s) = None /\ held r = true /\
    List.filter (fun e => held e.2) (runs s) = [].
Proof.
  unfold parse_row. intros H Hdoc Hst. apply bind_Ok in H as (row' & Hdoc' & H). rewrite Hdoc in Hdoc'. injection Hdoc' as <-.
  apply seq_Ok in H as [_ H]. apply bind_Ok in H as (st & Hget & H). cbv zeta in H. apply seq_Ok in H as [_ H].
  apply bind_Ok in H as (b & _ & H). apply seq_Ok in H as [_ H]. apply seq_Ok in H as [_ H].
  apply bind_Ok in H as (instant & _ & H). apply bind_Ok in H as (tenant & _ & H). apply bind_Ok in H as (nonce & _ & H).
  apply bind_Ok in H as ([r rec] & Hr & H). apply bind_Ok in H as (digest & _ & [= <-]). cbn [runs].
  destruct (run_set_cases (tenant, nonce) (touch instant r) (runs s)) as [[E ->] | (l1 & r1 & l2 & El & E & _)]; rewrite E in Hr.
  - apply bind_Ok in Hr as (r0 & (_ & Hh & Hnone)%start_run_ok & [= <- _]). exists (tenant, nonce), (touch instant r0). done.
  - exfalso. unfold advance_run in Hr. apply seq_Ok in Hr as [_ Hr]. apply bind_Ok in Hr as (op & _ & Hr).
    apply seq_Ok in Hr as [_ Hr]. rewrite Hst in Hr. cbn [mbind res_bind] in Hr.
    apply fld_Ok in Hst as (d & -> & Hst). unfold py_get in Hget. injection Hget as <-. rewrite Hst in Hr. cbn [default from_option id] in Hr. unfold id in Hr.
    assert (in_lits (VStr (u "RESERVED")) ["CREATE_INTENT"; "CREATED"] = false) as Hno by done.
    rewrite Hno in Hr. by rewrite !eq_lit_u in Hr.
Qed.

(** Capacity is reserved only when it is free.  A call of [record] that returns for the state
    RESERVED adds a run of a new tenant and nonce that holds the capacity, to a ledger all of
    whose runs had let it go: each of them had run all ten operations. *)
Theorem reservation_exclusive binding operation now cleanup (j j' : journal W) d :
  uniq (VList [binding; operation; now; cleanup]) = true ->
  record binding (VStr (u "RESERVED")) operation now cleanup j = (Ok d, j') ->
  exists s s' key r, parse_reservations (contents (storage j)) = Ok s /\
    parse_reservations (contents (storage j')) = Ok s' /\ runs s' = runs s ++ [(key, r)] /\ held r = true /\
    forall key' r', In (key', r') (runs s) -> key' <> key /\ held r' = false /\
      exists ops, done r' = map (fun c => VStr (u c)) ops /\ Permutation ops CASES.
Proof.
  intros Hu [[_ [=]] | [_ [(_ & _ & [=]) | (fs & row & text & s2 & Hplan & [= ->] & Hs2 & H)]]]%ledger_record_run.
  destruct H as [(_ & -> & _) | (_ & [=] & _)].
  destruct (ledger_plan_Ok _ _ _ _ Hplan) as (s & s' & line & c & row' & Hs & Hs' & Ht & _ & -> & Hc & Hdoc & Hc' & Hrow & _).
  assert (uniq (VDict ([(u "sequence", VInt (count s + 1)); (u "previousDigest", VStr (previous s))] ++
                       record_fields binding (VStr (u "RESERVED")) operation now cleanup)) = true) as Hur.
  { cbn [uniq forallb] in Hu. cbn [uniq record_fields app dkeys map forallb fst snd]. split_bools.
    apply andb_true_iff. split; [by vm_compute |]. rewrite !andb_true_iff. auto 10. }
  pose proof (document_Ok _ _ _ Hdoc) as (Hu' & Hn' & _).
  assert (fld row' "state" = Ok (VStr (u "RESERVED"))) as Hst.
  { rewrite <- Hn', <- (proj1 (canonical_bytes_norm_eq _ _ _ _ Hur Hu' Hc Hc') eq_refl).
    by rewrite (fld_norm _ "state" (VStr (u "RESERVED"))). }
  destruct (reserved_row _ _ _ _ Hrow Hdoc Hst) as (key & r & Hruns & Hnew & Hh & Hnone).
  exists s, s', key, r. do 4 (split; [done |]). intros key' r' Hin.
  assert (held r' = false) as Hr'.
  { destruct (held r') eqn:E; [|done]. assert (In (key', r') (List.filter (fun e => held e.2) (runs s))) as Hf by by apply filter_In.
    by rewrite Hnone in Hf. }
  split; [|split; [done |]].
  - intros ->. clear -Hnew Hin. induction (runs s) as [|[k x] l IH]; [done |]. cbn [run_get] in Hnew.
    destruct (run_key_eqb key k) eqn:E; [done |]. destruct Hin as [[= -> _] | Hin]; [|by apply IH].
    apply not_true_iff_false in E. by apply E, run_key_eqb_eq.
  - apply parse_reservations_Ok in Hs as (_ & _ & (_ & _ & Hf) & _). rewrite List.Forall_forall in Hf.
    destruct (Hf _ Hin) as [(ops & Hd & Hnd & Hi) _ Hheld _]. cbn [snd] in *. exists ops. split; [done |].
    destruct (Hheld Hr') as [_ Hlen]. apply all_cases; [done.. |]. rewrite Hd in Hlen. unfold zlen in *. by rewrite length_map in Hlen.
Qed.
End recording.
