(* ===== verification/Broker.v ===== *)
(** live_mutation_admission.py: the broker's transcript.  One side sends frames, the other
    answers; the transcript accepts a frame only in its place and is closed for good by the
    first refusal or by its terminal frame. *)

From S2P Require Import Prelude Effects PyVal Utf8 Json Sha2 Canonical Base64 IsoTime Regex.
From S2P Require Import SchemaBase Lifecycle LinuxShape LinuxVerify Session.
From S2P Require Import ProxySpecs ProxyDocument MutationAdmission Observation AdmissionLedger.

#[local] Open Scope string_scope.
#[local] Open Scope list_scope.
#[local] Open Scope Z_scope.

(* @src src/src/harness_conformance/live_mutation_admission.py:615-615 BROKER_BINDING_PATH *)
Definition BROKER_BINDING_PATH : string := "campaigns/platform/linux-baseline/broker-execution-binding.json".
(* @src src/src/harness_conformance/live_mutation_admission.py:616-617 BROKER_COMMON *)
Definition BROKER_COMMON : list string :=
  ["bindingDigest"; "reservationDigest"; "runNonce"; "caseId"; "requestDigest"; "observationDigest"; "generation"; "challenge"].

(** [base64.b64encode]: the alphabet of the url-safe codec with [+] and [/]. *)
Definition b64_std (c : N) : N := if (c =? 45)%N then 43%N else if (c =? 95)%N then 47%N else c.
Definition b64encode (b : bytes) : str := map b64_std (urlsafe_b64encode b).

(** [base64.b64decode(value, validate=True)] and the comparison with the encoding of its result,
    which leaves only texts the encoder produces; other paddings and alphabets fail either way. *)
(* @src src/src/harness_conformance/live_mutation_admission.py:644-653 _base64_bytes *)
Definition _base64_bytes (v : value) (maximum : Z) : res bytes :=
  match v with
  | VStr s =>
      raw ← guarded (fun e => match e with ValueError | TypeError => true | _ => false end) "BROKER_BASE64_INVALID"
              (b64decode (rstrip_eq s));
      require ((0 <? zlen raw) && (zlen raw <=? maximum) && str_eqb (b64encode raw) s) "BROKER_BASE64_INVALID" ;;
      Ok raw
  | _ => conf "BROKER_BASE64_INVALID"
  end.

(** Where the transcript is: the number and the digest of its last frame, and its execution. *)
Record place := Place {
  sequence : Z;
  previous : str;
  execution : option value
}.

(** What the execution has done: the action without an answer, the recorded cleanup, the
    terminal frame, the identifiers of the actions, the chunks of the receipt and their
    size, and whether an action failed. *)
Record progress := Progress {
  pending : option value;
  cleanup : option value;
  terminal : option value;
  actions : list value;
  chunks : list bytes;
  receipt_size : Z;
  failed_action : bool
}.

(** A transcript.  The fields that a refused frame has already set are never read again, since
    the transcript is then poisoned; they keep their values here. *)
(* @src src/src/harness_conformance/live_mutation_admission.py:663-670 BrokerTranscript *)
Record transcript := Transcript {
  binding : value;
  dispatch : value;
  at_place : place;
  done_so_far : progress;
  poisoned : bool
}.

Section broker.
Context {U : Unicode}.

(* @src src/src/harness_conformance/live_mutation_admission.py:627-641 retained_broker_binding *)
Definition retained_broker_binding (profile observation_binding release : value) (kit : kit_files) : res value :=
  raw ← match dget (u BROKER_BINDING_PATH) kit with Some raw => Ok raw | None => conf "BROKER_BINDING_MISSING" end;
  require ((0 <? zlen raw) && (zlen raw <=? 65536)) "BROKER_BINDING_MISSING" ;;
  tree ← elements release "tree";
  rows ← select "path" (VStr (u BROKER_BINDING_PATH)) tree;
  require (py_eq (VList rows) (VList [file_row (u BROKER_BINDING_PATH) raw])) "BROKER_BINDING_CUSTODY" ;;
  binding ← broker_document (Raw raw) "binding";
  require_m ((d ← canonical_digest profile None; fld_eq binding "profileDigest" (VStr d)) <&&>
             (d ← canonical_digest observation_binding None; fld_eq binding "observationBindingDigest" (VStr d)))
    "BROKER_INPUT_SUBSTITUTION" ;;
  assigned ← assigned_digests binding;
  require_m (digests_owned assigned profile) "BROKER_RESOURCE_OWNERSHIP" ;;
  Ok binding.

(* @src src/src/harness_conformance/live_mutation_admission.py:663-670 BrokerTranscript.__init__ *)
Definition open_transcript (binding dispatch : data) : res transcript :=
  binding ← broker_document binding "binding";
  dispatch ← broker_document dispatch "dispatch";
  digest ← canonical_digest binding None;
  require_m (fld_eq dispatch "bindingDigest" (VStr digest)) "BROKER_BINDING_MISMATCH" ;;
  Ok {| binding := binding; dispatch := dispatch;
        at_place := {| sequence := 0; previous := ZERO; execution := None |};
        done_so_far := {| pending := None; cleanup := None; terminal := None; actions := []; chunks := [];
                          receipt_size := 0; failed_action := false |};
        poisoned := false |}.

(** ** A frame *)

Definition SERVER_KINDS : list string := ["RESOURCE_RESULT"; "CLEANUP_RECORDED"; "ABORT"].

(** Its sender and its place: the common fields of the dispatch, the next number and the digest
    of the frame before. *)
(* @src src/src/harness_conformance/live_mutation_admission.py:676-682 BrokerTranscript.accept *)
Definition check_place (s : transcript) (frame : value) (sender : string) : res unit :=
  require (bool_decide (sender ∈ ["BROKER"; "SERVER"])) "BROKER_DIRECTION_INVALID" ;;
  kind ← fld frame "kind";
  _ ← fld frame "payload";
  require (Bool.eqb (String.eqb sender "SERVER") (in_lits kind SERVER_KINDS)) "BROKER_DIRECTION_INVALID" ;;
  require_m (all_m (fun k => fld2_eq frame k (dispatch s) k) BROKER_COMMON <&&>
             fld_eq frame "sequence" (VInt (sequence (at_place s) + 1)) <&&>
             fld_eq frame "previousDigest" (VStr (previous (at_place s)))) "BROKER_TRANSCRIPT_BINDING".

(** The execution: the first frame starts it, no other does. *)
(* @src src/src/harness_conformance/live_mutation_admission.py:683-688 BrokerTranscript.accept *)
Definition check_execution (s : transcript) (frame : value) : res value :=
  kind ← fld frame "kind";
  id ← fld frame "executionId";
  match execution (at_place s) with
  | None => require (eq_lit kind "STARTED") "BROKER_CONTROLLED_START_REQUIRED" ;; Ok id
  | Some e => require (py_eq id e && negb (eq_lit kind "STARTED")) "BROKER_EXECUTION_REPLAY" ;; Ok e
  end.

(** What a case may touch. *)
Definition case_digests (s : transcript) : res value :=
  cases ← fld (binding s) "caseResourceDigests"; case ← text_of (dispatch s) "caseId"; getitem cases case.

(* @src src/src/harness_conformance/live_mutation_admission.py:690-695 BrokerTranscript.accept *)
Definition on_action (case_digests : res value) (payload : value) (s : progress) : res progress :=
  id ← fld payload "actionId";
  require_m (match pending s, chunks s, cleanup s with
             | None, [], None =>
                 if in_values id (actions s) then Ok false
                 else digest ← fld payload "manifestDigest"; allowed ← case_digests; py_in digest allowed
             | _, _, _ => Ok false
             end) "BROKER_RESOURCE_ACTION_INVALID" ;;
  action ← document (Value payload) 16384;
  Ok {| pending := Some action; cleanup := cleanup s; terminal := terminal s; actions := actions s ++ [id];
        chunks := chunks s; receipt_size := receipt_size s; failed_action := failed_action s |}.

Definition permitted : list (string * list string) :=
  [("CREATE", ["CREATED"]); ("GET", ["PRESENT"; "ABSENT"]); ("DELETE", ["DELETED"])].
Definition FAILURES : list string := ["DENIED"; "AMBIGUOUS"].

(* @src src/src/harness_conformance/live_mutation_admission.py:697-708 BrokerTranscript.accept *)
Definition on_result (payload : value) (s : progress) : res progress :=
  action ← match pending s with Some a => Ok a | None => conf "BROKER_RESULT_WITHOUT_ACTION" end;
  require_m (fld2_eq payload "actionId" action "actionId") "BROKER_RESULT_WITHOUT_ACTION" ;;
  outcome ← fld payload "outcome";
  allowed ← (verb ← fld action "verb"; table_get permitted verb);
  require (in_lits outcome (allowed ++ FAILURES)) "BROKER_RESOURCE_OUTCOME_INVALID" ;;
  let has_object := in_lits outcome ["CREATED"; "PRESENT"] in
  object ← fld payload "objectBase64";
  require (Bool.eqb has_object (negb (is_none object))) "BROKER_RESOURCE_OBJECT_INVALID" ;;
  (if has_object then
     raw ← _base64_bytes object 16384;
     v ← document (Raw raw) 16384;
     require (is_dict v) "BROKER_RESOURCE_OBJECT_INVALID"
   else Ok tt) ;;
  Ok {| pending := None; cleanup := cleanup s; terminal := terminal s; actions := actions s; chunks := chunks s;
        receipt_size := receipt_size s; failed_action := failed_action s || in_lits outcome FAILURES |}.

(* @src src/src/harness_conformance/live_mutation_admission.py:710-715 BrokerTranscript.accept *)
Definition on_chunk (payload : value) (s : progress) : res progress :=
  require_m (match pending s, cleanup s with
             | None, None => fld_eq payload "index" (VInt (zlen (chunks s)))
             | _, _ => Ok false
             end) "BROKER_CHUNK_ORDER" ;;
  chunk ← (x ← fld payload "dataBase64"; _base64_bytes x 24576);
  require (receipt_size s + zlen chunk <=? 4194304) "BROKER_RECEIPT_SIZE" ;;
  Ok {| pending := pending s; cleanup := cleanup s; terminal := terminal s; actions := actions s;
        chunks := chunks s ++ [chunk]; receipt_size := receipt_size s + zlen chunk; failed_action := failed_action s |}.

(** An object that cleanup left behind, of this case. *)
(* @src src/src/harness_conformance/live_mutation_admission.py:722-727 BrokerTranscript.accept *)
Definition remaining_object (case_digests : res value) (seen : list value) (row : value) : res (list value) :=
  key ← tuple_of row ["kind"; "namespace"; "name"];
  require_m (if in_values key seen then Ok false
             else (digest ← fld row "manifestDigest"; allowed ← case_digests; py_in digest allowed) <&&>
                  (uid ← fld row "uid"; if is_none uid then fld_lit row "reasonCode" "IO_AMBIGUOUS" else Ok true))
    "BROKER_CLEANUP_SCOPE" ;;
  Ok (seen ++ [key]).

(* @src src/src/harness_conformance/live_mutation_admission.py:717-728 BrokerTranscript.accept *)
Definition on_cleanup (case_digests : res value) (payload : value) (s : progress) : res progress :=
  require_m (match pending s, chunks s, cleanup s with
             | None, _ :: _, None =>
                 clean ← fld_lit payload "state" "CLEAN";
                 rest ← fld payload "remainingResources";
                 Ok (Bool.eqb clean (negb (truthy rest)))
             | _, _, _ => Ok false
             end) "BROKER_CLEANUP_ORDER" ;;
  rows ← elements payload "remainingResources";
  _ ← for_fold (remaining_object case_digests) [] rows;
  cleanup ← document (Value payload) 16384;
  Ok {| pending := pending s; cleanup := Some cleanup; terminal := terminal s; actions := actions s; chunks := chunks s;
        receipt_size := receipt_size s; failed_action := failed_action s |}.

(* @src src/src/harness_conformance/live_mutation_admission.py:730-738 BrokerTranscript.accept *)
Definition on_terminal (payload : value) (s : progress) : res progress :=
  clean ← match pending s, cleanup s with None, Some c => Ok c | _, _ => conf "BROKER_TERMINAL_MISMATCH" end;
  require_m (fld_eq payload "receiptSize" (VInt (receipt_size s)) <&&>
             fld_eq payload "receiptDigest" (VStr (byte_digest (concat (chunks s)))) <&&>
             fld2_eq payload "cleanupDigest" clean "cleanupDigest") "BROKER_TERMINAL_MISMATCH" ;;
  require_m (completed ← fld_lit payload "status" "COMPLETED";
             if (completed : bool) then
               c ← fld_lit clean "state" "CLEAN"; Ok (c && negb (failed_action s))
             else Ok true) "BROKER_FALSE_COMPLETION" ;;
  terminal ← document (Value payload) 16384;
  Ok {| pending := pending s; cleanup := cleanup s; terminal := Some terminal; actions := actions s; chunks := chunks s;
        receipt_size := receipt_size s; failed_action := failed_action s |}.

(** The effect of a frame by its kind. *)
(* @src src/src/harness_conformance/live_mutation_admission.py:689-740 BrokerTranscript.accept *)
Definition on_kind (case_digests : res value) (kind payload : value) (s : progress) : res progress :=
  if eq_lit kind "RESOURCE_ACTION" then on_action case_digests payload s
  else if eq_lit kind "RESOURCE_RESULT" then on_result payload s
  else if eq_lit kind "RECEIPT_CHUNK" then on_chunk payload s
  else if eq_lit kind "CLEANUP_RECORDED" then on_cleanup case_digests payload s
  else if eq_lit kind "TERMINAL" then on_terminal payload s
  else if eq_lit kind "STARTED" then Ok s
  else conf "BROKER_ABORTED".

(** The body of the [try]: the frame and the transcript after it. *)
(* @src src/src/harness_conformance/live_mutation_admission.py:674-742 BrokerTranscript.accept *)
Definition accept_frame (raw : data) (sender : string) (s : transcript) : res (value * transcript) :=
  frame ← broker_document raw "frame";
  check_place s frame sender ;;
  execution ← check_execution s frame;
  kind ← fld frame "kind";
  payload ← fld frame "payload";
  progress ← on_kind (case_digests s) kind payload (done_so_far s);
  sequence ← int_of frame "sequence";
  digest ← canonical_digest frame None;
  Ok (frame, {| binding := binding s; dispatch := dispatch s;
                at_place := {| sequence := sequence; previous := digest; execution := Some execution |};
                done_so_far := progress; poisoned := poisoned s |}).

(** [self.poisoned = True]. *)
Definition poison : io transcript unit :=
  update (fun s => {| binding := binding s; dispatch := dispatch s; at_place := at_place s; done_so_far := done_so_far s; poisoned := true |}).

Definition is_closed (s : transcript) : bool :=
  poisoned s || match terminal (done_so_far s) with Some _ => true | None => false end.

(* @src src/src/harness_conformance/live_mutation_admission.py:672-745 BrokerTranscript.accept *)
Definition accept (raw : data) (sender : string) : io transcript value :=
  closed ← reads (fun s => Ok (is_closed s));
  check (negb closed) "BROKER_TRANSCRIPT_CLOSED" ;;
  on_error (fun s => match accept_frame raw sender s with
                     | Ok (frame, s') => (Ok frame, s')
                     | Raise e => (Raise e, s)
                     end) poison.

(* @src src/src/harness_conformance/live_mutation_admission.py:747-754 BrokerTranscript.server_frame *)
Definition server_frame (kind : string) (payload : value) : io transcript bytes :=
  frame ← reads (fun s =>
    match execution (at_place s) with
    | None => conf "BROKER_CONTROLLED_START_REQUIRED"
    | Some e =>
        common ← (d ← project (dispatch s) BROKER_COMMON; items d);
        Ok (VDict ([(u "schemaVersion", VStr (u "planeon.internal.broker-frame/v1"))] ++ common ++
                   [(u "executionId", e); (u "sequence", VInt (sequence (at_place s) + 1));
                    (u "previousDigest", VStr (previous (at_place s))); (u "kind", VStr (u kind)); (u "payload", payload)]))
    end);
  _ ← accept (Value frame) "SERVER";
  lift (canonical_bytes frame).

(* @src src/src/harness_conformance/live_mutation_admission.py:756-758 BrokerTranscript.receipt *)
Definition receipt (s : transcript) : res bytes :=
  require (negb (poisoned s) && match terminal (done_so_far s) with Some _ => true | None => false end)
    "BROKER_TERMINAL_REQUIRED" ;;
  Ok (concat (chunks (done_so_far s))).
End broker.

(** ** What the handlers do *)

(** Tests on a frame. *)
Definition has_kind (k : string) (f : value) : bool := eq_lit (part f "kind") k.
Arguments has_kind k%_string_scope f.
Definition failed_result (f : value) : bool :=
  has_kind "RESOURCE_RESULT" f && in_lits (part (part f "payload") "outcome") FAILURES.
Definition of_kind (k : string) (fs : list value) : list value := List.filter (has_kind k) fs.
Arguments of_kind k%_string_scope fs.

(** The octets a chunk frame carries. *)
Definition chunk_of (f : value) : res bytes := x ← (p ← fld f "payload"; fld p "dataBase64"); _base64_bytes x 24576.

(** What a progress says of the frames that led to it. *)
Record summary {U : Unicode} (p : progress) (fs : list value) : Prop := {
  su_answered : zlen (of_kind "RESOURCE_ACTION" fs) =
                zlen (of_kind "RESOURCE_RESULT" fs) + match pending p with Some _ => 1 | None => 0 end;
  su_failed : failed_action p = existsb failed_result fs;
  su_chunks : map_m chunk_of (of_kind "RECEIPT_CHUNK" fs) = Ok (chunks p);
  su_size : receipt_size p = zlen (concat (chunks p)) /\ receipt_size p <= 4194304;
  su_clean : forall c, cleanup p = Some c -> exists rest, fld c "remainingResources" = Ok rest /\
               fld_lit c "state" "CLEAN" = Ok (negb (truthy rest));
  su_terminal : forall t, terminal p = Some t -> pending p = None /\ exists c, cleanup p = Some c /\
      int_of t "receiptSize" = Ok (receipt_size p) /\
      fld t "receiptDigest" = Ok (VStr (byte_digest (concat (chunks p)))) /\
      fld2_eq t "cleanupDigest" c "cleanupDigest" = Ok true /\
      (fld_lit t "status" "COMPLETED" = Ok true -> fld_lit c "state" "CLEAN" = Ok true /\ failed_action p = false)
}.

Lemma of_kind_snoc k fs f : of_kind k (fs ++ [f]) = of_kind k fs ++ if has_kind k f then [f] else [].
Proof. unfold of_kind. rewrite List.filter_app. cbn. by destruct (has_kind k f). Qed.

Lemma map_m_snoc {A B} (f : A -> res B) l x ys y : map_m f l = Ok ys -> f x = Ok y -> map_m f (l ++ [x]) = Ok (ys ++ [y]).
Proof.
  rewrite !map_m_Ok. intros H Hx. apply Forall2_app; [done |]. by constructor.
Qed.

(** The kind of a frame decides the tests on it. *)
Lemma has_kind_lit f k j : fld f "kind" = Ok (VStr (u j)) -> has_kind k f = String.eqb j k.
Proof. intros H. unfold has_kind. by rewrite (part_fld _ _ _ H), eq_lit_u. Qed.

Lemma failed_result_kind f j : fld f "kind" = Ok (VStr (u j)) ->
  failed_result f = String.eqb j "RESOURCE_RESULT" && in_lits (part (part f "payload") "outcome") FAILURES.
Proof. intros H. unfold failed_result. by rewrite (has_kind_lit _ _ _ H). Qed.

Section handlers.
Context {U : Unicode}.

(** A frame of a given kind, after what it left unchanged. *)
Ltac frame_kind Hk :=
  rewrite ?of_kind_snoc, ?existsb_app; cbn [existsb];
  rewrite ?(has_kind_lit _ _ _ Hk), ?(failed_result_kind _ _ Hk); cbn [String.eqb Ascii.eqb Bool.eqb andb];
  rewrite ?app_nil_r, ?orb_false_r, ?zlen_app, ?zlen_cons, ?zlen_nil.

Section one_frame.
Context (p p' : progress) (fs : list value) (f payload : value) (cd : res value).
Hypothesis Hs : summary p fs.
Hypothesis Hopen : terminal p = None.
Hypothesis Hpay : fld f "payload" = Ok payload.
Hypothesis Hcanon : uniq payload = true /\ norm payload = payload.

Lemma stored maximum w : document (Value payload) maximum = Ok w -> w = payload.
Proof. destruct Hcanon. by apply document_canonical. Qed.

Lemma on_started_summary : fld f "kind" = Ok (VStr (u "STARTED")) -> summary p (fs ++ [f]).
Proof. intros Hk. destruct Hs. constructor; frame_kind Hk; done. Qed.

Lemma on_action_summary :
  fld f "kind" = Ok (VStr (u "RESOURCE_ACTION")) -> on_action cd payload p = Ok p' -> summary p' (fs ++ [f]).
Proof.
  intros Hk H. unfold on_action in H. apply bind_Ok in H as (id & Hid & H).
  apply seq_Ok in H as [Hc%require_m_Ok H]. apply bind_Ok in H as (a & Ha & [= <-]).
  destruct (pending p) eqn:Ep; [done |]. destruct (chunks p) eqn:Ec; [|done]. destruct (cleanup p) eqn:El; [done |].
  destruct Hs. rewrite Ep, Ec in *. constructor; cbn [pending cleanup terminal actions chunks receipt_size failed_action]; frame_kind Hk; rewrite ?Hopen; try done.
  lia.
Qed.

Lemma on_result_summary :
  fld f "kind" = Ok (VStr (u "RESOURCE_RESULT")) -> on_result payload p = Ok p' -> summary p' (fs ++ [f]).
Proof.
  intros Hk H. unfold on_result in H. apply bind_Ok in H as (a & Ha & H). apply seq_Ok in H as [_ H].
  apply bind_Ok in H as (o & Ho & H). apply bind_Ok in H as (l & _ & H). apply seq_Ok in H as [_ H].
  cbv zeta in H. apply bind_Ok in H as (ob & _ & H). apply seq_Ok in H as [_ H]. apply seq_Ok in H as [_ [= <-]].
  destruct (pending p) eqn:Ep; [|done].
  destruct Hs. rewrite Ep in *. constructor; cbn [pending cleanup terminal actions chunks receipt_size failed_action]; frame_kind Hk; rewrite ?Hopen; try done.
  - lia.
  - rewrite (part_fld _ _ _ Hpay), (part_fld _ _ _ Ho). rewrite su_failed0. unfold in_lits, FAILURES. cbn [existsb]. by rewrite ?orb_false_r.
Qed.

Lemma on_chunk_summary :
  fld f "kind" = Ok (VStr (u "RECEIPT_CHUNK")) -> on_chunk payload p = Ok p' -> summary p' (fs ++ [f]).
Proof.
  intros Hk H. unfold on_chunk in H. apply seq_Ok in H as [Hc%require_m_Ok H]. apply bind_Ok in H as (c & Hch & H).
  apply seq_Ok in H as [Hn%require_Ok%Z.leb_le [= <-]].
  destruct Hs. constructor; cbn [pending cleanup terminal actions chunks receipt_size failed_action]; frame_kind Hk; rewrite ?Hopen; try done.
  - apply map_m_snoc; [done |]. unfold chunk_of. rewrite Hpay. exact Hch.
  - rewrite concat_app, zlen_app. cbn [concat]. rewrite app_nil_r. lia.
Qed.

Lemma on_cleanup_summary :
  fld f "kind" = Ok (VStr (u "CLEANUP_RECORDED")) -> on_cleanup cd payload p = Ok p' -> summary p' (fs ++ [f]).
Proof.
  intros Hk H. unfold on_cleanup in H. apply seq_Ok in H as [Hc%require_m_Ok H]. apply bind_Ok in H as (rows & _ & H).
  apply bind_Ok in H as (ids & _ & H). apply bind_Ok in H as (c & ->%stored & [= <-]).
  destruct Hs. constructor; cbn [pending cleanup terminal actions chunks receipt_size failed_action]; frame_kind Hk; rewrite ?Hopen; try done.
  intros c [= <-]. destruct (pending p); [done |]. destruct (chunks p); [done |]. destruct (cleanup p); [done |].
  apply bind_Ok in Hc as (clean & Hcl & Hc). apply bind_Ok in Hc as (rest & Hr & [= ->%eqb_prop]). by exists rest.
Qed.

Lemma on_terminal_summary :
  fld f "kind" = Ok (VStr (u "TERMINAL")) -> on_terminal payload p = Ok p' -> summary p' (fs ++ [f]).
Proof.
  intros Hk H. unfold on_terminal in H. apply bind_Ok in H as (c & Hc & H). apply seq_Ok in H as [Hm%require_m_Ok H].
  apply seq_Ok in H as [Hf%require_m_Ok H]. apply bind_Ok in H as (t & ->%stored & [= <-]).
  destruct (pending p) eqn:Ep; [done |]. destruct (cleanup p) as [c'|] eqn:El; [|done]. injection Hc as ->.
  apply and_m_true in Hm as [Hm Hd]. apply and_m_true in Hm as [Hsz%fld_eq_int Hdg%fld_eq_text].
  destruct Hs. constructor; cbn [pending cleanup terminal actions chunks receipt_size failed_action]; rewrite ?Ep, ?El; frame_kind Hk; try done.
  - by rewrite Ep in su_answered0.
  - by rewrite <- El.
  - intros t [= <-]. split; [done |]. exists c. do 4 (split; [done |]). intros Hst. rewrite Hst in Hf.
    apply bind_Ok in Hf as (? & [= <-] & Hf).
    apply bind_Ok in Hf as (b & Hb & [= Hf]). by apply andb_true_iff in Hf as [-> ->%negb_true_iff].
Qed.

Lemma on_kind_summary kind :
  fld f "kind" = Ok kind -> on_kind cd kind payload p = Ok p' -> summary p' (fs ++ [f]).
Proof.
  intros Hk H. unfold on_kind in H.
  repeat match type of H with
         | (if eq_lit kind ?s then _ else _) = _ =>
             let E := fresh "E" in
             destruct (eq_lit kind s) eqn:E; [pose proof (proj1 (eq_lit_true _ _) E) as ->; clear E |]
         end; [exact (on_action_summary Hk H) | exact (on_result_summary Hk H) | exact (on_chunk_summary Hk H) |
               exact (on_cleanup_summary Hk H) | exact (on_terminal_summary Hk H) | | done].
  injection H as <-. by apply on_started_summary.
Qed.
End one_frame.
End handlers.

(** ** Transcripts *)

Section transcripts.
Context {U : Unicode}.

(** The transcripts of a binding and a dispatch: what any sequence of calls of [accept] leads to,
    with the frames that were accepted. *)
Inductive transcript_of (b d : data) : transcript -> list value -> Prop :=
| opened s : open_transcript b d = Ok s -> transcript_of b d s []
| accepted s fs raw sender f s' :
    transcript_of b d s fs -> accept raw sender s = (Ok f, s') -> transcript_of b d s' (fs ++ [f])
| refused s fs raw sender e s' :
    transcript_of b d s fs -> accept raw sender s = (Raise e, s') -> transcript_of b d s' fs.

(** The frames number themselves and name the digest of the frame before. *)
Fixpoint linked (previous : str) (n : Z) (fs : list value) (last : str) : Prop :=
  match fs with
  | [] => last = previous
  | f :: rest => int_of f "sequence" = Ok (n + 1) /\ fld f "previousDigest" = Ok (VStr previous) /\
      exists d, canonical_digest f None = Ok d /\ linked d (n + 1) rest last
  end.

Lemma linked_snoc fs f previous n last d :
  linked previous n fs last -> int_of f "sequence" = Ok (n + zlen fs + 1) -> fld f "previousDigest" = Ok (VStr last) ->
  canonical_digest f None = Ok d -> linked previous n (fs ++ [f]) d.
Proof.
  revert previous n. induction fs as [|x fs IH]; intros previous n; cbn [app linked].
  - intros -> Hs Hp Hd. rewrite zlen_nil, Z.add_0_r in Hs. eauto 10.
  - intros (Hs & Hp & e & He & Hl) Hs' Hp' Hd. do 2 (split; [done |]). exists e. split; [done |].
    apply IH; try done. rewrite Hs', zlen_cons. f_equal. lia.
Qed.

(** A frame belongs to the dispatch and to an execution, which it starts when it is the first. *)
Definition belongs (d : value) (execution : option value) (f : value) : Prop :=
  Forall (fun k => fld2_eq f k d k = Ok true) BROKER_COMMON /\
  exists id, execution = Some id /\ fld_eq f "executionId" id = Ok true.

(** What holds of a transcript that is not poisoned. *)
Record coherent (s : transcript) (fs : list value) : Prop := {
  co_linked : linked ZERO 0 fs (previous (at_place s));
  co_sequence : sequence (at_place s) = zlen fs;
  co_started : execution (at_place s) = None <-> fs = [];
  co_frames : Forall (belongs (dispatch s) (execution (at_place s))) fs;
  co_start : forall i f, nth_error fs i = Some f -> has_kind "STARTED" f = Nat.eqb i 0;
  co_summary : summary (done_so_far s) fs
}.

Lemma accept_Ok raw sender s f s' :
  accept raw sender s = (Ok f, s') <-> is_closed s = false /\ accept_frame raw sender s = Ok (f, s').
Proof.
  unfold accept. rewrite io_bind_Ok. setoid_rewrite io_bind_Ok. setoid_rewrite check_Ok. setoid_rewrite on_error_Ok. split.
  - intros (c & s1 & [= <- <-] & [] & s2 & [Hc%negb_true_iff ->] & H). split; [done |].
    destruct (accept_frame raw sender s) as [[g s3] | e]; [by injection H as -> -> | done].
  - intros [Hc H]. exists (is_closed s), s. split; [done |]. exists tt, s. rewrite Hc, H. done.
Qed.

Lemma accept_Raise raw sender s e s' :
  accept raw sender s = (Raise e, s') ->
  is_closed s = true /\ e = ConformanceError "BROKER_TRANSCRIPT_CLOSED" /\ s' = s \/
  is_closed s = false /\ s' = {| binding := binding s; dispatch := dispatch s; at_place := at_place s;
                                 done_so_far := done_so_far s; poisoned := true |}.
Proof.
  unfold accept, reads, check, lift, on_error, mbind, io_bind. destruct (is_closed s); cbn.
  - intros [= <- <-]. by left.
  - destruct (accept_frame raw sender s) as [[g s3] | e']; [done |]. cbn. intros [= _ <-]. by right.
Qed.

Lemma accept_frame_parts raw sender s f s' :
  accept_frame raw sender s = Ok (f, s') ->
  broker_document raw "frame" = Ok f /\ check_place s f sender = Ok tt /\
  exists e kind payload p n d, check_execution s f = Ok e /\ fld f "kind" = Ok kind /\ fld f "payload" = Ok payload /\
    on_kind (case_digests s) kind payload (done_so_far s) = Ok p /\ int_of f "sequence" = Ok n /\
    canonical_digest f None = Ok d /\
    s' = {| binding := binding s; dispatch := dispatch s; at_place := {| sequence := n; previous := d; execution := Some e |};
            done_so_far := p; poisoned := poisoned s |}.
Proof.
  unfold accept_frame. intros H. apply bind_Ok in H as (g & Hg & H). apply seq_Ok in H as [Hp H].
  apply bind_Ok in H as (e & He & H). apply bind_Ok in H as (kind & Hk & H). apply bind_Ok in H as (payload & Hpay & H).
  apply bind_Ok in H as (p & Hkind & H). apply bind_Ok in H as (n & Hn & H). apply bind_Ok in H as (d & Hd & [= <- <-]).
  split; [done |]. split; [done |]. exists e, kind, payload, p, n, d. auto 10.
Qed.

Lemma check_place_Ok s f sender :
  check_place s f sender = Ok tt ->
  Forall (fun k => fld2_eq f k (dispatch s) k = Ok true) BROKER_COMMON /\
  int_of f "sequence" = Ok (sequence (at_place s) + 1) /\ fld f "previousDigest" = Ok (VStr (previous (at_place s))).
Proof.
  unfold check_place. intros H. apply seq_Ok in H as [_ H]. apply bind_Ok in H as (k & _ & H). apply bind_Ok in H as (? & _ & H).
  apply seq_Ok in H as [_ H]. apply require_m_Ok, and_m_true in H as [H Hp%fld_eq_text]. apply and_m_true in H as [Ha Hs%fld_eq_int].
  by apply all_m_true in Ha.
Qed.

Lemma check_execution_Ok s f e :
  uniq f = true -> check_execution s f = Ok e ->
  (execution (at_place s) = None \/ execution (at_place s) = Some e) /\ fld_eq f "executionId" e = Ok true /\
  has_kind "STARTED" f = match execution (at_place s) with None => true | Some _ => false end.
Proof.
  unfold check_execution. intros Hu H. apply bind_Ok in H as (k & Hk & H). apply bind_Ok in H as (id & Hid & H).
  unfold has_kind. rewrite (part_fld _ _ _ Hk). unfold fld_eq. rewrite Hid. cbn.
  destruct (execution (at_place s)) as [e'|]; apply seq_Ok in H as [Hr%require_Ok [= <-]].
  - apply andb_true_iff in Hr as [-> Hn%negb_true_iff]. auto.
  - split; [by left |]. split; [|done]. rewrite py_eq_refl; [done |]. by apply (fld_uniq f "executionId").
Qed.

Lemma broker_document_canonical x variant f :
  broker_document x variant = Ok f -> uniq f = true /\ norm f = f.
Proof.
  unfold broker_document. intros H. apply seq_Ok in H as [_ H]. apply bind_Ok in H as (v & Hv & H).
  apply seq_Ok in H as [_ [= <-]]. by apply document_Ok in Hv as (? & ? & _).
Qed.

Lemma accept_coherent raw sender s fs f s' :
  coherent s fs -> accept raw sender s = (Ok f, s') -> coherent s' (fs ++ [f]).
Proof.
  intros Hc [Hopen H]%accept_Ok. apply accept_frame_parts in H as (Hdoc & Hplace & e & kind & payload & p & n & d & He & Hk & Hpay & Hkind & Hn & Hd & ->).
  apply broker_document_canonical in Hdoc as [Hu Hnorm].
  apply check_place_Ok in Hplace as (Hcommon & Hseq & Hprev). apply check_execution_Ok in He as (Hex & Hid & Hst); [|done].
  apply orb_false_iff in Hopen as [_ Hterm]. destruct Hc.
  assert (n = zlen fs + 1) as -> by (rewrite co_sequence0 in Hseq; congruence).
  constructor; cbn [at_place sequence previous execution dispatch done_so_far].
  - rewrite co_sequence0 in Hseq. eapply linked_snoc; [exact co_linked0 | by rewrite Z.add_0_l | done..].
  - by rewrite zlen_app, zlen_cons, zlen_nil.
  - split; [done | by destruct fs].
  - apply Forall_app. split.
    + eapply Forall_impl; [exact co_frames0 |]. intros g (Hg & i & Hi & Hgi). split; [done |]. exists i. split; [|done].
      destruct Hex; congruence.
    + constructor; [|constructor]. split; [done |]. by exists e.
  - intros i g Hi. destruct (Nat.lt_ge_cases i (length fs)) as [Hlt | Hge].
    + rewrite nth_error_app1 in Hi by done. by apply co_start0.
    + rewrite nth_error_app2 in Hi by done. destruct (i - length fs)%nat as [|j] eqn:E; [|by destruct j].
      cbn in Hi. injection Hi as <-. rewrite Hst. destruct fs as [|x fs]; simpl in *.
      * rewrite (proj2 co_started0) by done. symmetry. apply Nat.eqb_eq. lia.
      * destruct (execution (at_place s)); [|by destruct co_started0 as [H' _]; specialize (H' eq_refl)].
        symmetry. apply Nat.eqb_neq. lia.
  - apply (on_kind_summary (done_so_far s) p fs f payload (case_digests s) co_summary0) with (kind := kind); try done.
    + by destruct (terminal (done_so_far s)).
    + by apply (norm_fld f "payload").
Qed.

Lemma transcript_coherent b d s fs : transcript_of b d s fs -> coherent s fs.
Proof.
  induction 1 as [s H | s fs raw sender f s' _ IH H | s fs raw sender e s' _ IH H].
  - unfold open_transcript in H. apply bind_Ok in H as (b' & _ & H). apply bind_Ok in H as (d' & _ & H).
    apply bind_Ok in H as (h & _ & H). apply seq_Ok in H as [_ [= <-]]. constructor; cbn; try done.
    by intros [].
  - by eapply accept_coherent.
  - apply accept_Raise in H as [(_ & _ & ->) | [_ ->]]; [done |]. by destruct IH.
Qed.

(** C11: the frames of a transcript form one chain of one execution.  However calls of [accept]
    are ordered and whatever they are given, the accepted frames are numbered from one without
    gaps, each names the canonical digest of the frame before (the first the zero digest),
    all carry the fields of the dispatch and one execution identifier, and the frame that
    starts the execution is the first and no other. *)
Theorem transcript_chain b d s fs :
  transcript_of b d s fs ->
  linked ZERO 0 fs (previous (at_place s)) /\ sequence (at_place s) = zlen fs /\
  Forall (belongs (dispatch s) (execution (at_place s))) fs /\
  forall i f, nth_error fs i = Some f -> has_kind "STARTED" f = Nat.eqb i 0.
Proof. intros H%transcript_coherent. by destruct H. Qed.

(** C10: a completed execution is a clean one.  When the terminal frame of a transcript says
    COMPLETED, every action was answered and no answer was a denial or ambiguous, the cleanup
    recorded is CLEAN and leaves no resource, the terminal frame names its digest, and the
    receipt handed out is the octets of the chunk frames in order, of the size and the
    digest the terminal frame states. *)
Theorem completed_is_clean b d s fs t :
  transcript_of b d s fs -> terminal (done_so_far s) = Some t -> fld_lit t "status" "COMPLETED" = Ok true ->
  poisoned s = false ->
  zlen (of_kind "RESOURCE_ACTION" fs) = zlen (of_kind "RESOURCE_RESULT" fs) /\
  existsb failed_result fs = false /\
  (exists c rest, cleanup (done_so_far s) = Some c /\ fld_lit c "state" "CLEAN" = Ok true /\
  fld c "remainingResources" = Ok rest /\ truthy rest = false /\ fld2_eq t "cleanupDigest" c "cleanupDigest" = Ok true) /\
  exists parts bytes, map_m chunk_of (of_kind "RECEIPT_CHUNK" fs) = Ok parts /\ bytes = concat parts /\
  receipt s = Ok bytes /\ zlen bytes <= 4194304 /\ int_of t "receiptSize" = Ok (zlen bytes) /\
  fld t "receiptDigest" = Ok (VStr (byte_digest bytes)).
Proof.
  intros H%transcript_coherent Ht Hst Hp. destruct (co_summary _ _ H) as [Ha Hf Hc [Hsz Hmax] Hcl Hterm].
  destruct (Hterm _ Ht) as (Hpend & c & Ec & Hts & Htd & Htc & Hfin). destruct (Hfin Hst) as [Hclean Hnf].
  destruct (Hcl _ Ec) as (rest & Hrest & Hrc). rewrite Hpend in Ha. split; [lia |]. split; [congruence |]. split.
  - exists c, rest. do 3 (split; [done |]). split; [|done]. rewrite Hclean in Hrc. injection Hrc as Hrc.
    by destruct (truthy rest).
  - exists (chunks (done_so_far s)), (concat (chunks (done_so_far s))). do 2 (split; [done |]).
    split; [unfold receipt; by rewrite Hp, Ht |]. split; [lia |]. split; [congruence | done].
Qed.

(** A transcript closes for good.  A call that is refused leaves a transcript that refuses
    every later call with the same transcript, and, unless it had already ended, one whose
    receipt is never handed out; so does the terminal frame, after which nothing changes. *)
Theorem transcript_closes raw sender s r s' :
  accept raw sender s = (r, s') ->
  match r with Raise _ => True | Ok f => has_kind "TERMINAL" f = true end ->
  (forall raw' sender', accept raw' sender' s' = (conf "BROKER_TRANSCRIPT_CLOSED", s')) /\
  (is_closed s = false -> match r with Raise _ => receipt s' = conf "BROKER_TERMINAL_REQUIRED" | Ok _ => exists b, receipt s' = Ok b end).
Proof.
  intros H Hr.
  assert (is_closed s' = true) as Hclosed.
  { destruct r as [f | e]; [|apply accept_Raise in H as [(? & _ & ->) | [_ ->]]; done].
    apply accept_Ok in H as [_ H]. apply accept_frame_parts in H as (_ & _ & e & kind & payload & p & n & d & _ & Hk & _ & Hkind & _ & _ & ->).
    unfold has_kind in Hr. rewrite (part_fld _ _ _ Hk) in Hr. apply eq_lit_true in Hr as ->.
    unfold is_closed. cbn [poisoned done_so_far]. apply orb_true_iff. right.
    unfold on_kind in Hkind. rewrite !eq_lit_u in Hkind. cbn in Hkind. unfold on_terminal in Hkind.
    apply bind_Ok in Hkind as (c & _ & Hkind). apply seq_Ok in Hkind as [_ Hkind]. apply seq_Ok in Hkind as [_ Hkind].
    by apply bind_Ok in Hkind as (w & _ & [= <-]). }
  split.
  - intros raw' sender'. unfold accept, reads, check, lift, mbind, io_bind. by rewrite Hclosed.
  - intros Hopen. destruct r as [f | e].
    + apply accept_Ok in H as [_ H]. unfold is_closed in Hclosed, Hopen. apply orb_false_iff in Hopen as [Hp _].
      apply accept_frame_parts in H as (_ & _ & e & kind & payload & p & n & d & _ & _ & _ & _ & _ & _ & ->).
      cbn [poisoned done_so_far] in *. unfold receipt. cbn [poisoned done_so_far]. rewrite Hp in *. cbn in Hclosed |- *. rewrite Hclosed. eauto.
    + apply accept_Raise in H as [(E & _) | [_ ->]]; [congruence | done].
Qed.
End transcripts.
