(* ===== verification/Qualification.v ===== *)
(** live_mutation_admission.py: the native qualification, the closed record of what a host's
    processes must be and the check of a capture against it. *)

From S2P Require Import Prelude PyVal Utf8 Json Sha2 Canonical IsoTime Regex Ipaddr.
From S2P Require Import SchemaBase Lifecycle LinuxShape LinuxVerify Session.
From S2P Require Import ProxySpecs ProxyDocument MutationAdmission Observation AdmissionLedger.

#[local] Open Scope string_scope.
#[local] Open Scope list_scope.
#[local] Open Scope Z_scope.

(* @src src/src/harness_conformance/live_mutation_admission.py:764-764 QUALIFICATION_PATH *)
Definition QUALIFICATION_PATH : string := "campaigns/platform/linux-baseline/native-qualification.json".

(** [{row[k]: row for row in l}] for texts. *)
Definition keyed (k : string) (l : list value) : res dict :=
  for_fold (fun acc row => key ← text_of row k; Ok (dset key row acc)) [] l.

(** [sorted(l)] for octets, duplicates kept. *)
Fixpoint insert_bytes (s : bytes) (l : list bytes) : list bytes :=
  match l with
  | [] => [s]
  | t :: l' => if str_ltb t s then t :: insert_bytes s l' else s :: l
  end.
Definition sort_bytes (l : list bytes) : list bytes := foldr insert_bytes [] l.

Definition ENDPOINT_FIELDS : list string := ["endpointId"; "kind"; "addressFamily"; "ipAddress"; "port"].

Definition same_keys (a b : dict) : bool := subset_str (dkeys a) (dkeys b) && subset_str (dkeys b) (dkeys a).

(** [set(a) <= set(b)] for values. *)
Definition subset_values (a b : list value) : bool := forallb (fun x => in_values x b) a.

(* @src src/src/harness_conformance/live_mutation_admission.py:785-789 _canonical_qualification_path *)
Definition _canonical_qualification_path (v : value) : res unit :=
  require (match v with
           | VStr s =>
               startswith (u "/") s && negb (existsb (N.eqb 92) s) && (zlen (split_on 47 s) <=? 65) &&
               forallb (fun part => negb (in_lits (VStr part) [""; "."; ".."])) (split_on 47 (drop 1 s))
           | _ => false
           end) "QUALIFICATION_PATH_INVALID".

(** The address of an endpoint: a numeric text in its one spelling, of the stated family. *)
(* @src src/src/harness_conformance/live_mutation_admission.py:813-820 validate_qualification_record *)
Definition check_address (row : value) : res unit :=
  ip ← fld row "ipAddress";
  address ← guarded (fun e => match e with ValueError => true | _ => false end) "QUALIFICATION_ENDPOINTS" (ip_address ip);
  require_m (match ip with VStr s => text ← canonical_address s; Ok (str_eqb text s) | _ => Ok false end <&&>
             Ok (negb (is_unspecified address) && negb (is_multicast address) &&
                 match address, ip with
                 | V6 n, VStr s => negb ((N.shiftr n 32 =? 65535)%N || existsb (N.eqb 37) s)
                 | _, _ => true
                 end) <&&>
             fld_lit row "addressFamily" (match address with V4 _ => "IPV4" | V6 _ => "IPV6" end)) "QUALIFICATION_ENDPOINTS".

(** One executable segment of a file, within the file's pages. *)
(* @src src/src/harness_conformance/live_mutation_admission.py:838-844 validate_qualification_record *)
Definition check_segment (size : Z) (seen : list value) (segment : value) : res (list value) :=
  identity ← tuple_of segment ["offset"; "length"; "permissions"];
  require_m (if in_values identity seen then Ok false
             else (offset ← int_of segment "offset"; Ok (offset <? size)) <&&>
                  (offset ← int_of segment "offset"; len ← int_of segment "length";
                   Ok (offset + len <=? (size + 4095) / 4096 * 4096))) "QUALIFICATION_SEGMENT_INVALID" ;;
  Ok (seen ++ [identity]).

(* @src src/src/harness_conformance/live_mutation_admission.py:833-844 validate_qualification_record *)
Definition check_file (row : value) : res unit :=
  path ← fld row "path";
  _canonical_qualification_path path ;;
  require_m (same ← fld2_eq row "sha256" row "verityDigest"; Ok (negb same)) "QUALIFICATION_CONFLATED_DIGEST" ;;
  segments ← elements row "executableSegments";
  _ ← (match segments with [] => Ok [] | _ => size ← int_of row "size"; for_fold (check_segment size) [] segments end);
  Ok tt.

(** A role: its files, its executable and interpreter, its network and its programs.  Returns
    the files it uses. *)
(* @src src/src/harness_conformance/live_mutation_admission.py:847-870 validate_qualification_record *)
Definition check_role (profile scope : value) (files : dict) (tuples : list value) (used : list str) (entry : str * value)
    : res (list str) :=
  let '(name, role) := entry in
  path ← (c ← fld role "cgroup"; fld c "path");
  _canonical_qualification_path path ;;
  selected ← (l ← elements role "filePaths"; map_m as_text l);
  executable ← text_of role "executable";
  require (subset_str selected (dkeys files) && str_in executable selected) "QUALIFICATION_ROLE_FILES" ;;
  artifact ← getitem (VDict files) executable;
  require_m (fld2_eq artifact "sha256" role "artifactDigest" <&&> fld_lit artifact "mode" "0555")
    "QUALIFICATION_ARTIFACT_MISMATCH" ;;
  interpreter ← fld role "interpreterPath";
  (if negb (is_none interpreter) then
     interpreter ← as_text interpreter;
     require_m (if str_in interpreter selected then
                  file ← getitem (VDict files) interpreter;
                  fld_lit file "mode" "0555" <&&> (s ← fld file "executableSegments"; Ok (truthy s))
                else Ok false) "QUALIFICATION_INTERPRETER"
   else require_m (s ← fld artifact "executableSegments"; Ok (truthy s)) "QUALIFICATION_NATIVE_ELF_REQUIRED") ;;
  outbound ← fld role "outboundEndpointIds";
  require_m (o ← py_iter outbound; ids ← map_m (fun row => fld row "endpointId") tuples; Ok (subset_values o ids))
    "QUALIFICATION_OUTBOUND_SCOPE" ;;
  (if str_eqb name (u "WORKER") then require (negb (truthy outbound)) "QUALIFICATION_WORKER_NETWORK" else Ok tt) ;;
  (if str_eqb name (u "SERVER") then
     resources ← fld profile "resources";
     expected ← (if truthy resources then api ← fld scope "apiEndpointId"; Ok [api] else Ok []);
     require (py_eq outbound (VList expected)) "QUALIFICATION_OUTBOUND_SCOPE"
   else Ok tt) ;;
  programs ← (p ← fld role "bpfPrograms"; items p);
  for_each (fun '(hook, program) =>
    require_m (fld_eq program "programType" (VInt (if str_eqb hook (u "INET_SOCK_CREATE") then 9 else 18)) <&&>
               (n ← int_of program "instructionBytes"; Ok (n mod 8 =? 0))) "QUALIFICATION_PROGRAM_INVALID") programs ;;
  Ok (used ++ selected).

Section qualification.
Context {U : Unicode}.

(* @src src/src/harness_conformance/live_mutation_admission.py:767-782 _qualification_document *)
Definition _qualification_document (x : data) (variant : string) : res value :=
  require (bool_decide (variant ∈ ["record"; "capture"])) "QUALIFICATION_VARIANT_INVALID" ;;
  v ← document x 262144;
  require (ascii_fields v) "QUALIFICATION_ASCII_REQUIRED" ;;
  shape_def _QUALIFICATION_SPEC variant v ;;
  Ok v.

(** One endpoint: exactly the five fields, of the closed shape. *)
(* @src src/src/harness_conformance/live_mutation_admission.py:810-821 validate_qualification_record *)
Definition check_endpoint (endpoint : value) : res value :=
  require (match endpoint with
           | VDict d => subset_str (dkeys d) (u <$> ENDPOINT_FIELDS) && subset_str (u <$> ENDPOINT_FIELDS) (dkeys d)
           | _ => false
           end) "QUALIFICATION_ENDPOINTS" ;;
  row ← project endpoint ENDPOINT_FIELDS;
  shape_def _QUALIFICATION_SPEC "endpoint" row ;;
  check_address row ;;
  Ok row.

(** The endpoints the profile needs are among the tuples. *)
(* @src src/src/harness_conformance/live_mutation_admission.py:824-828 validate_qualification_record *)
Definition check_expected_endpoints (profile scope : value) (tuples : list value) : res unit :=
  id ← fld scope "endpointId";
  resources ← fld profile "resources";
  expected ← (if truthy resources then
                api ← fld scope "apiEndpointId";
                Ok (vset api "KUBERNETES_API_PROXY" [(id, "CAMPAIGN_PROXY")])
              else Ok [(id, "CAMPAIGN_PROXY")]);
  require_m (all_m (fun kv : value * string =>
    rows ← select "endpointId" kv.1 tuples;
    match last rows with Some row => fld_lit row "kind" kv.2 | None => Ok false end) expected) "QUALIFICATION_ENDPOINT_SCOPE".

(* @src src/src/harness_conformance/live_mutation_admission.py:792-872 validate_qualification_record *)
Definition validate_qualification_record (x profile : data) (endpoints : value) : res value :=
  record ← _qualification_document x "record";
  profile ← validate_profile profile;
  scope ← fld profile "binding";
  require_m ((d ← canonical_digest profile None; fld_eq record "profileDigest" (VStr d)) <&&>
             (s ← fld record "scope"; d ← items s; all_m (fun kv : str * value => x ← getitem scope kv.1; Ok (py_eq kv.2 x)) d))
    "QUALIFICATION_PROFILE_SCOPE" ;;
  require_m (s ← fld record "selinux"; s ← fld s "status"; n ← int_of s "sequence"; Ok (n mod 2 =? 0))
    "QUALIFICATION_POLICY_EPOCH" ;;
  require (match endpoints with VList l => (1 <=? zlen l) && (zlen l <=? 16) | _ => false end) "QUALIFICATION_ENDPOINTS" ;;
  rows ← py_iter endpoints;
  tuples ← map_m check_endpoint rows;
  require_m ((ids ← map_m (fun row => fld row "endpointId") tuples; no_duplicates ids) <&&>
             fld_eq record "endpointTuples" (VList tuples)) "QUALIFICATION_ENDPOINTS" ;;
  check_expected_endpoints profile scope tuples ;;
  rows ← elements record "files";
  files ← keyed "path" rows;
  require_m (if zlen files =? zlen rows then
               sizes ← map_m (fun kv : str * value => int_of kv.2 "size") files; Ok (fold_left Z.add sizes 0 <=? 536870912)
             else Ok false) "QUALIFICATION_FILE_INVENTORY" ;;
  for_each (fun kv : str * value => check_file kv.2) files ;;
  roles ← (r ← fld record "roles"; items r);
  used ← for_fold (check_role profile scope files tuples) [] roles;
  require (subset_str used (dkeys files) && subset_str (dkeys files) used) "QUALIFICATION_UNUSED_FILE" ;;
  Ok record.

(* @src src/src/harness_conformance/live_mutation_admission.py:875-884 retained_qualification_record *)
Definition retained_qualification_record (profile : data) (endpoints observation_binding release : value) (kit : kit_files)
    : res value :=
  raw ← match dget (u QUALIFICATION_PATH) kit with Some raw => Ok raw | None => conf "QUALIFICATION_RECORD_MISSING" end;
  require ((0 <? zlen raw) && (zlen raw <=? 262144)) "QUALIFICATION_RECORD_MISSING" ;;
  tree ← elements release "tree";
  rows ← select "path" (VStr (u QUALIFICATION_PATH)) tree;
  require (py_eq (VList rows) (VList [file_row (u QUALIFICATION_PATH) raw])) "QUALIFICATION_RECORD_CUSTODY" ;;
  require_m (pins ← fld observation_binding "enforcementPins"; fld_eq pins "hostPreflightDigest" (VStr (byte_digest raw)))
    "QUALIFICATION_PREFLIGHT_PIN" ;;
  validate_qualification_record (Raw raw) profile endpoints.

(** ** A capture *)

(** One captured file: a new inode, the recorded entry and digests.  Adds the inode and the
    mappings of its segments. *)
(* @src src/src/harness_conformance/live_mutation_admission.py:915-921 validate_qualification_capture *)
Definition check_captured_file (expected : dict) (s : list value * list value) (kv : str * value) : res (list value * list value) :=
  let '(path, row) := kv in
  let '(inodes, mappings) := s in
  identity ← tuple_of row ["device"; "inode"];
  entry ← getitem (VDict expected) path;
  require_m (if in_values identity inodes then Ok false
             else fld_eq row "entry" entry <&&> fld2_eq row "contentDigest" entry "sha256" <&&>
                  fld2_eq row "measuredVerity" entry "verityDigest") "QUALIFICATION_FILE_CHANGED" ;;
  segments ← elements entry "executableSegments";
  maps ← map_m (fun segment =>
    d ← items segment; device ← fld row "device"; inode ← fld row "inode";
    Ok (VDict (merge [(u "path", VStr path)] (merge d [(u "device", device); (u "inode", inode)])))) segments;
  Ok (inodes ++ [identity], mappings ++ maps).

(** Everything but the comparison with an earlier capture. *)
(* @src src/src/harness_conformance/live_mutation_admission.py:893-927 validate_qualification_capture *)
Definition check_capture (record capture profile : data) (endpoints role_name : value) : res (value * value) :=
  record ← validate_qualification_record record profile endpoints;
  capture ← _qualification_document capture "capture";
  roles ← fld record "roles";
  require_m ((if is_str role_name then py_in role_name roles else Ok false) <&&> fld_eq capture "role" role_name <&&>
             (raw ← canonical_bytes record; fld_eq capture "qualificationDigest" (VStr (byte_digest raw))) <&&>
             fld2_eq capture "host" record "host") "QUALIFICATION_CAPTURE_BINDING" ;;
  selinux ← fld record "selinux";
  require_m (fld2_eq capture "selinuxBefore" capture "selinuxAfter" <&&> fld2_eq capture "selinuxAfter" selinux "status" <&&>
             fld2_eq capture "kernelPolicyDigest" selinux "policyDigest") "QUALIFICATION_POLICY_CHANGED" ;;
  begin ← int_of capture "inspectionStartedMs";
  finish ← int_of capture "inspectionFinishedMs";
  deadline ← int_of capture "deadlineMs";
  require ((begin <=? finish) && (finish <? deadline) && (finish - begin <=? 2000) && (deadline - begin <=? 900000))
    "QUALIFICATION_INSPECTION_EXPIRED" ;;
  now ← proxy_time capture "observedAt";
  scope ← fld record "scope";
  require_m ((a ← proxy_time scope "validFrom"; time_leb a now) <&&> (b ← proxy_time scope "expiresAt"; time_ltb now b))
    "QUALIFICATION_INSPECTION_EXPIRED" ;;
  role ← index roles role_name;
  process ← fld capture "process";
  require_m (all_m (fun k => fld2_eq process k role k) ["uid"; "gid"; "processLabel"; "namespaceInodes"; "cgroup"; "seccompMode"])
    "QUALIFICATION_PROCESS_CHANGED" ;;
  paths ← fld role "filePaths";
  rows ← elements record "files";
  flags ← map_m (fun row => p ← fld row "path"; py_in p paths) rows;
  expected ← keyed "path" (map snd (List.filter fst (combine flags rows)));
  captured ← elements capture "files";
  actual ← for_fold (fun acc row => key ← (e ← fld row "entry"; text_of e "path"); Ok (dset key row acc)) [] captured;
  require ((zlen actual =? zlen captured) && same_keys actual expected) "QUALIFICATION_FILE_INVENTORY" ;;
  '(_, mappings) ← for_fold (check_captured_file expected) ([], []) actual;
  require_m (a ← map_m canonical_bytes mappings; maps ← elements capture "executableMaps"; b ← map_m canonical_bytes maps;
             Ok (bool_decide (sort_bytes a = sort_bytes b))) "QUALIFICATION_MAPPING_CHANGED" ;;
  programs ← (p ← fld capture "bpfPrograms"; items p);
  for_each (fun '(hook, observed) =>
    program ← (p ← fld role "bpfPrograms"; getitem p hook);
    require_m (fld_eq observed "program" program <&&> fld2_eq observed "localIds" observed "effectiveIds" <&&>
               (id ← fld program "programId"; fld_eq observed "effectiveIds" (VList [id]))) "QUALIFICATION_PROGRAM_CHANGED") programs ;;
  Ok (record, capture).

(** The same processes, files and programs as an earlier capture, later and under one deadline. *)
(* @src src/src/harness_conformance/live_mutation_admission.py:930-935 validate_qualification_capture *)
Definition check_retained (capture : value) (previous : data) : res unit :=
  previous ← data_value previous;
  for_each (fun key => require_m (fld2_eq capture key previous key) "QUALIFICATION_RETAINED_IDENTITY_CHANGED")
    ["host"; "process"; "files"; "executableMaps"; "bpfPrograms"; "selinuxBefore"; "selinuxAfter"; "kernelPolicyDigest"] ;;
  require_m ((a ← int_of capture "inspectionStartedMs"; b ← int_of previous "inspectionFinishedMs"; Ok (b <=? a)) <&&>
             (a ← text_of capture "observedAt"; b ← text_of previous "observedAt"; Ok (negb (str_ltb a b))) <&&>
             fld2_eq capture "deadlineMs" previous "deadlineMs") "QUALIFICATION_LIFETIME_CHANGED".

(* @src src/src/harness_conformance/live_mutation_admission.py:887-935 validate_qualification_capture *)
Definition validate_qualification_capture (record capture profile : data) (endpoints role : value) (previous : data) : res unit :=
  '(record, capture) ← check_capture record capture profile endpoints role;
  match previous with
  | Value VNone => Ok tt
  | _ =>
      _ ← check_capture (Value record) previous profile endpoints role;
      check_retained capture previous
  end.
End qualification.
