(* ===== verification/Text.v ===== *)
(** Python's text functions on lines, words and numerals: [splitlines], [split], [partition],
    [find], [rfind], [strip] and [int], on [str] and on [bytes]. *)

From S2P Require Import Prelude PyVal Json.

#[local] Open Scope string_scope.
#[local] Open Scope list_scope.
#[local] Open Scope N_scope.

(** ** Characters *)

(** [c.isspace()] of a [str], and the octets [bytes.split()] separates at. *)
Definition is_space (c : N) : bool :=
  ((9 <=? c) && (c <=? 13)) || ((28 <=? c) && (c <=? 32)) || (c =? 0x85) || (c =? 0xA0) || (c =? 0x1680) ||
  ((0x2000 <=? c) && (c <=? 0x200A)) || (c =? 0x2028) || (c =? 0x2029) || (c =? 0x202F) || (c =? 0x205F) ||
  (c =? 0x3000).
Definition octet_space (c : N) : bool := ((9 <=? c) && (c <=? 13)) || (c =? 32).

(** The line boundaries of [str.splitlines]; those of [bytes.splitlines] are LF and CR. *)
Definition line_end (c : N) : bool :=
  ((10 <=? c) && (c <=? 13)) || ((28 <=? c) && (c <=? 30)) || (c =? 0x85) || (c =? 0x2028) || (c =? 0x2029).
Definition octet_line_end (c : N) : bool := (c =? 10) || (c =? 13).

(** The zeros of the decimal digit blocks ([unicodedata.decimal]). *)
Definition decimal_zeros : list N :=
  [0x30; 0x660; 0x6f0; 0x7c0; 0x966; 0x9e6; 0xa66; 0xae6; 0xb66; 0xbe6; 0xc66; 0xce6; 0xd66; 0xde6; 0xe50; 0xed0;
   0xf20; 0x1040; 0x1090; 0x17e0; 0x1810; 0x1946; 0x19d0; 0x1a80; 0x1a90; 0x1b50; 0x1bb0; 0x1c40; 0x1c50; 0xa620;
   0xa8d0; 0xa900; 0xa9d0; 0xa9f0; 0xaa50; 0xabf0; 0xff10; 0x104a0; 0x10d30; 0x11066; 0x110f0; 0x11136; 0x111d0;
   0x112f0; 0x11450; 0x114d0; 0x11650; 0x116c0; 0x11730; 0x118e0; 0x11950; 0x11c50; 0x11d50; 0x11da0; 0x16a60;
   0x16ac0; 0x16b50; 0x1d7ce; 0x1d7d8; 0x1d7e2; 0x1d7ec; 0x1d7f6; 0x1e140; 0x1e2f0; 0x1e950; 0x1fbf0].

(** ** Searching *)

(** The first place of [p] in [s], and the last. *)
Fixpoint find (p s : list N) : option nat :=
  if startswith p s then Some O
  else match s with [] => None | _ :: s' => S <$> find p s' end.

Fixpoint rfind (p s : list N) : option nat :=
  match s with
  | [] => if startswith p s then Some O else None
  | _ :: s' => match rfind p s' with
               | Some n => Some (S n)
               | None => if startswith p s then Some O else None
               end
  end.

(** [s.find(p)] as Python answers it. *)
Definition place (o : option nat) : Z := match o with Some n => Z.of_nat n | None => (-1)%Z end.

(** [s.partition(p)]: what is before and after the first [p], when there is one. *)
Definition partition (p s : list N) : option (list N * list N) :=
  n ← find p s; Some (take n s, drop (n + length p) s).

(** ** Words and lines *)

(** [s.split()]: the runs of characters that are not [space]. *)
Section words.
Variable space : N -> bool.

Fixpoint words (s : list N) : list (list N) :=
  match s with
  | [] => []
  | c :: s' =>
      if space c then words s'
      else match s' with
           | [] => [[c]]
           | d :: _ => if space d then [c] :: words s'
                       else match words s' with w :: ws => (c :: w) :: ws | [] => [[c]] end
           end
  end.

Fixpoint lstrip (s : list N) : list N :=
  match s with [] => [] | c :: s' => if space c then lstrip s' else s end.
Definition rstrip (s : list N) : list N := reverse (lstrip (reverse s)).
Definition strip (s : list N) : list N := rstrip (lstrip s).
End words.

(** [s.splitlines()]: CR LF is one boundary. *)
Section lines.
Variable ends : N -> bool.

Fixpoint splitlines (s : list N) : list (list N) :=
  match s with
  | [] => []
  | c :: s' =>
      if ends c then
        match s' with
        | 10 :: s'' => [] :: (if c =? 13 then splitlines s'' else splitlines s')
        | _ => [] :: splitlines s'
        end
      else match splitlines s' with
           | [] => [[c]]
           | line :: rest => (c :: line) :: rest
           end
  end.
End lines.

(** ** [int(s, base)] for base 10 and 16 *)

(** The text [int] reads: on other than ASCII texts blanks become spaces and decimal digits
    of every script become ASCII ones. *)
Definition to_ascii (c : N) : N :=
  if c <? 128 then c else if is_space c then 32
  else match List.find (fun z => (z <=? c) && (c <=? z + 9)) decimal_zeros with
       | Some z => 48 + (c - z)
       | None => 63
       end.

Definition digit_value (base : N) (c : N) : option N :=
  v ← (if is_digit c then Some (c - 48)
       else if (97 <=? c) && (c <=? 122) then Some (c - 87)
       else if (65 <=? c) && (c <=? 90) then Some (c - 55) else None);
  if v <? base then Some v else None.

(** Digits, where a single underscore may stand between two. *)
Fixpoint numeral (base acc : N) (after_digit : bool) (s : list N) : option N :=
  match s with
  | [] => if after_digit then Some acc else None
  | c :: s' =>
      if (c =? 95) && after_digit then
        match s' with [] => None | d :: _ => if d =? 95 then None else numeral base acc false s' end
      else v ← digit_value base c; numeral base (acc * base + v) true s'
  end.

Definition too_long (base : N) (s : list N) : bool :=
  (base =? 10) && (MAX_STR_DIGITS <? zlen (List.filter is_digit s))%Z.

Definition unsigned (base : N) (s : list N) : option N :=
  let body := match s with
              | 48 :: x :: s' =>
                  if (base =? 16) && ((x =? 120) || (x =? 88)) then
                    match s' with 95 :: s'' => s'' | _ => s' end
                  else s
              | _ => s
              end in
  if too_long base body then None else numeral base 0 false body.

Definition int_text (base : N) (s : list N) : res Z :=
  let t := if is_ascii s then s else map to_ascii s in
  let o := match strip octet_space t with
           | 43 :: r => Z.of_N <$> unsigned base r
           | 45 :: r => Z.opp ∘ Z.of_N <$> unsigned base r
           | r => Z.of_N <$> unsigned base r
           end in
  match o with Some z => Ok z | None => Raise ValueError end.

(** ** Lemmas *)

Lemma find_take p s n : find p s = Some n -> s = take n s ++ p ++ drop (n + length p) s.
Proof.
  revert n. induction s as [|c s IH]; intros n; cbn [find].
  - destruct (startswith p []) eqn:E; [|done]. intros [= <-]. apply startswith_app in E as [r E].
    rewrite E. destruct p; [|done]. simpl in E. by subst.
  - destruct (startswith p (c :: s)) eqn:E.
    + intros [= <-]. apply startswith_app in E as [r ->]. cbn [take app Nat.add]. by rewrite drop_app_length.
    + destruct (find p s) as [m|]; [|done]. intros [= <-]. cbn. f_equal. by apply IH.
Qed.

Lemma find_bound p s n : find p s = Some n -> (n + length p <= length s)%nat.
Proof.
  revert n. induction s as [|c s IH]; intros n; cbn [find].
  - destruct (startswith p []) eqn:E; [|done]. intros [= <-]. by destruct p.
  - destruct (startswith p (c :: s)) eqn:E.
    + intros [= <-]. apply startswith_app in E as [r ->]. rewrite length_app. lia.
    + destruct (find p s) as [m|]; [|done]. intros [= <-]. specialize (IH m eq_refl). cbn [length]. lia.
Qed.

Lemma partition_app p s a b : partition p s = Some (a, b) -> s = a ++ p ++ b.
Proof.
  unfold partition. destruct (find p s) as [n|] eqn:E; [|done]. intros [= <- <-]. by apply find_take.
Qed.

Lemma rfind_take p s n : rfind p s = Some n -> s = take n s ++ p ++ drop (n + length p) s.
Proof.
  revert n. induction s as [|c s IH]; intros n; cbn [rfind].
  - destruct (startswith p []) eqn:E; [|done]. intros [= <-]. apply startswith_app in E as [r E].
    rewrite E. destruct p; [|done]. simpl in E. by subst.
  - destruct (rfind p s) as [m|].
    + intros [= <-]. cbn. f_equal. by apply IH.
    + destruct (startswith p (c :: s)) eqn:E; [|done]. intros [= <-]. apply startswith_app in E as [r ->].
      cbn [take app Nat.add]. by rewrite drop_app_length.
Qed.

(** A word has characters, and none of them separates. *)
Lemma words_solid space s : Forall (fun w => w <> [] /\ Forall (fun c => space c = false) w) (words space s).
Proof.
  induction s as [|c s IH]; cbn [words]; [constructor |]. destruct (space c) eqn:E; [done |].
  assert ([c] <> [] /\ Forall (fun c => space c = false) [c]) as H by (split; [done | by repeat constructor]).
  destruct s as [|d s]; [by repeat constructor |]. destruct (space d); [by constructor |].
  destruct (words space (d :: s)) as [|w ws]; [by repeat constructor |].
  apply Forall_cons in IH as [[_ Hw] IH]. constructor; [|done]. split; [done | by constructor].
Qed.

(** No line contains a boundary. *)
Lemma splitlines_clean ends s :
  Forall (Forall (fun c => ends c = false)) (splitlines ends s).
Proof.
  remember (length s) as n eqn:Hn. assert (length s <= n)%nat as H by lia. clear Hn.
  revert s H. induction n as [|n IH]; intros [|c s] H; simpl in H; try lia; try constructor.
  cbn [splitlines]. destruct (ends c) eqn:E.
  - destruct s as [|d s]; [by repeat constructor |]. simpl in H.
    assert (Forall (Forall (fun c => ends c = false)) ([] :: splitlines ends (d :: s))) as H1
      by (constructor; [constructor | apply IH; simpl; lia]).
    assert (Forall (Forall (fun c => ends c = false)) ([] :: splitlines ends s)) as H2
      by (constructor; [constructor | apply IH; lia]).
    repeat case_match; subst; done.
  - assert (Forall (Forall (fun c => ends c = false)) (splitlines ends s)) as H1 by (apply IH; lia).
    destruct (splitlines ends s) as [|l ls]; [by repeat constructor |].
    apply Forall_cons in H1 as [? ?]. by repeat constructor.
Qed.

(** *** Numerals *)

Definition digits_value (base : N) (s : list N) : option N :=
  foldl (fun acc c => a ← acc; v ← digit_value base c; Some (a * base + v)) (Some 0) s.

Lemma numeral_digits base s acc after :
  Forall (fun c => is_Some (digit_value base c)) s -> s <> [] \/ after = true ->
  numeral base acc after s =
  foldl (fun acc c => a ← acc; v ← digit_value base c; Some (a * base + v)) (Some acc) s.
Proof.
  revert acc after. induction s as [|c s IH]; intros acc after H Hs; cbn [numeral foldl].
  - by destruct Hs as [? | ->].
  - apply Forall_cons in H as [[v Hv] H]. rewrite Hv. cbn [mbind option_bind].
    destruct ((c =? 95) && after) eqn:E.
    + apply andb_true_iff in E as [->%N.eqb_eq _]. unfold digit_value in Hv. simpl in Hv. done.
    + apply IH; [done | by right].
Qed.

Lemma numeral_bound base s acc after v n :
  0 < base -> numeral base acc after s = Some v -> acc < base ^ n -> v < base ^ (n + N.of_nat (length s)).
Proof.
  intros Hb. revert acc after n. induction s as [|c s IH]; intros acc after n; cbn [numeral].
  - destruct after; [|done]. intros [= <-] H. simpl. by rewrite N.add_0_r.
  - destruct ((c =? 95) && after).
    + destruct s as [|d s]; [done |]. destruct (d =? 95); [done |]. intros H Ha.
      apply (IH _ _ _ H) in Ha. eapply N.lt_le_trans; [exact Ha |]. apply N.pow_le_mono_r; simpl; lia.
    + destruct (digit_value base c) as [d|] eqn:Ed; [|done]. cbn [mbind option_bind]. intros H Ha.
      assert (d < base) as Hd.
      { unfold digit_value in Ed. destruct (if is_digit c then _ else _) as [x|]; [|done]. cbn [mbind option_bind] in Ed.
        destruct (x <? base) eqn:Ex; [|done]. injection Ed as <-. by apply N.ltb_lt. }
      apply (IH _ _ (n + 1)) in H.
      * simpl length. by replace (n + N.of_nat (S (length s))) with (n + 1 + N.of_nat (length s)) by lia.
      * rewrite N.add_1_r, N.pow_succ_r'. nia.
Qed.

Example int_text_samples :
  int_text 10 (u " -1_024 ") = Ok (-1024)%Z /\ int_text 16 (u "0x_fF") = Ok 255%Z /\
  int_text 10 (u "1__2") = Raise ValueError /\ int_text 10 [0x661; 0x662] = Ok 12%Z /\ int_text 16 (u "0x") = Raise ValueError.
Proof. repeat split; vm_compute; reflexivity. Qed.

Example line_samples :
  splitlines line_end (u "a" ++ [13; 10] ++ u "b" ++ [10; 10] ++ u "c") = [u "a"; u "b"; []; u "c"] /\
  words is_space (u "  ab c ") = [u "ab"; u "c"] /\ partition (u ": ") (u "k: v: w") = Some (u "k", u "v: w") /\
  rfind (u ")") (u "1 (a)b) S") = Some 6%nat.
Proof. repeat split; vm_compute; reflexivity. Qed.
