(* ===== verification/Boundary.v ===== *)
(** live_linux_boundary.py: the seccomp filter of the probe child, the identity of its peer and
    the credentials it passes.  The kernel's classic BPF machine is an interface; the filter is
    the list of instructions the code hands it. *)

From S2P Require Import Prelude Effects PyVal Json Text.

#[local] Open Scope string_scope.
#[local] Open Scope list_scope.
#[local] Open Scope Z_scope.

(* @src src/src/harness_conformance/live_linux_boundary.py:28-28 CHILD_UID *)
Definition CHILD_UID : Z := 65532.
(* @src src/src/harness_conformance/live_linux_boundary.py:28-28 CHILD_GID *)
Definition CHILD_GID : Z := 65532.
(* @src src/src/harness_conformance/live_linux_boundary.py:30-30 CLONE_NEWUSER *)
Definition CLONE_NEWUSER : Z := 0x10000000.
Definition CLONE_NEWNS : Z := 0x20000.
Definition CLONE_NEWPID : Z := 0x20000000.
Definition CLONE_NEWNET : Z := 0x40000000.

(* @src src/src/harness_conformance/live_linux_boundary.py:36-37 ARCHES *)
Definition ARCHES : list (str * (Z * Z * list Z)) :=
  [(u "x86_64", (0xC000003E, 56, [41; 42; 49; 50; 101; 165; 166; 272; 308; 321; 323; 425; 426; 427; 435; 438]));
   (u "aarch64", (0xC00000B7, 220, [198; 203; 200; 201; 117; 40; 39; 97; 268; 280; 282; 425; 426; 427; 435; 438]))].

(* @src src/src/harness_conformance/live_linux_boundary.py:38-38 NAMESPACE_MASK *)
Definition NAMESPACE_MASK : Z :=
  foldl Z.lor CLONE_NEWUSER [CLONE_NEWNS; CLONE_NEWPID; CLONE_NEWNET; 0x04000000; 0x08000000; 0x02000000].

(** [errno.EPERM] and [errno.ENOSYS] on Linux. *)
Definition EPERM : Z := 1.
Definition ENOSYS : Z := 38.

(** ** The filter *)

Record insn := { code : Z; jt : Z; jf : Z; k : Z }.

Definition op (c t f v : Z) : insn := {| code := c; jt := t; jf := f; k := v |}.

Definition load : Z := 0x20.
Definition equal : Z := 0x15.
Definition bits : Z := 0x45.
Definition ret : Z := 0x06.
Definition kill : Z := 0x80000000.
Definition allow : Z := 0x7FFF0000.
Definition refuse : Z := Z.lor 0x00050000 EPERM.

(** The action on a listed call: [ENOSYS] for clone3, so that libc falls back to clone. *)
Definition action (number : Z) : Z := if number =? 435 then Z.lor 0x00050000 ENOSYS else refuse.

(* @src src/src/harness_conformance/live_linux_boundary.py:238-259 seccomp_program *)
Definition seccomp_program (machine : str) : res (list insn) :=
  match dget machine ARCHES with
  | None => conf "LINUX_ARCHITECTURE_UNAVAILABLE"
  | Some (arch, clone, denied) =>
      let code := [op load 0 0 4; op equal 1 0 arch; op ret 0 0 kill; op load 0 0 0] in
      let code := if str_eqb machine (u "x86_64")
                  then code ++ [op bits 0 1 0x40000000; op ret 0 0 kill] else code in
      let code := foldl (fun code number => code ++ [op equal 0 1 number; op ret 0 0 (action number)]) code denied in
      Ok (code ++ [op equal 0 3 clone; op load 0 0 16; op bits 0 1 NAMESPACE_MASK;
                   op ret 0 0 refuse; op ret 0 0 allow])
  end.

(** What the kernel shows a filter: the call number, the audit architecture and the low half
    of the first argument, each an unsigned 32-bit word of [struct seccomp_data]. *)
Record call_data := { nr : Z; arch : Z; arg0 : Z }.

Definition word_at (d : call_data) (offset : Z) : Z :=
  if offset =? 0 then nr d else if offset =? 4 then arch d else if offset =? 16 then arg0 d else 0.

(** The kernel's classic BPF machine: the verdict of the instructions that remain, on the words
    of a call, with an accumulator.  Jumps skip instructions forward. *)
Class ClassicBpf := run_filter : list insn -> (Z -> Z) -> Z -> option Z.

Class ClassicBpfOk (B : ClassicBpf) : Prop := {
  bpf_load : forall v rest data a, run_filter (op load 0 0 v :: rest) data a = run_filter rest data (data v);
  bpf_equal : forall t f v rest data a,
    run_filter (op equal t f v :: rest) data a =
    run_filter (drop (Z.to_nat (if a =? v then t else f)) rest) data a;
  bpf_bits : forall t f v rest data a,
    run_filter (op bits t f v :: rest) data a =
    run_filter (drop (Z.to_nat (if Z.land a v =? 0 then f else t)) rest) data a;
  bpf_ret : forall v rest data a, run_filter (op ret 0 0 v :: rest) data a = Some v
}.

(** *** What the filter is to decide *)

Definition verdict (machine : str) (d : call_data) : option Z :=
  '(audit, clone, denied) ← dget machine ARCHES;
  Some (if negb (arch d =? audit) then kill
        else if str_eqb machine (u "x86_64") && negb (Z.land (nr d) 0x40000000 =? 0) then kill
        else if existsb (Z.eqb (nr d)) denied then action (nr d)
        else if (nr d =? clone) && negb (Z.land (arg0 d) NAMESPACE_MASK =? 0) then refuse
        else allow).

Section filter.
Context {B : ClassicBpf} {BOk : ClassicBpfOk B}.

Definition deny (number : Z) : list insn := [op equal 0 1 number; op ret 0 0 (action number)].

Lemma foldl_deny code denied :
  foldl (fun code number => code ++ deny number) code denied = code ++ flat_map deny denied.
Proof.
  revert code. induction denied as [|n l IH]; intros code; simpl; [by rewrite app_nil_r |].
  by rewrite IH, <- app_assoc.
Qed.

Lemma deny_step data a n rest :
  run_filter (deny n ++ rest) data a = if a =? n then Some (action n) else run_filter rest data a.
Proof.
  cbn [deny app]. rewrite bpf_equal. destruct (a =? n).
  - change (drop (Z.to_nat 0) ?l) with l. by rewrite bpf_ret.
  - by change (drop (Z.to_nat 1) (op ret 0 0 (action n) :: rest)) with rest.
Qed.

Lemma denied_run data a denied rest :
  run_filter (flat_map deny denied ++ rest) data a =
  if existsb (Z.eqb a) denied then Some (action a) else run_filter rest data a.
Proof.
  induction denied as [|n l IH]; [done |]. cbn [flat_map existsb]. rewrite <- app_assoc, deny_step.
  destruct (Z.eqb_spec a n) as [->|]; [done | apply IH].
Qed.

Lemma tail_run data a clone :
  run_filter [op equal 0 3 clone; op load 0 0 16; op bits 0 1 NAMESPACE_MASK; op ret 0 0 refuse; op ret 0 0 allow]
    data a =
  Some (if (a =? clone) && negb (Z.land (data 16) NAMESPACE_MASK =? 0) then refuse else allow).
Proof.
  rewrite bpf_equal. destruct (a =? clone); cbn [andb].
  - change (drop (Z.to_nat 0) ?l) with l. rewrite bpf_load, bpf_bits. destruct (Z.land _ _ =? 0); apply bpf_ret.
  - apply bpf_ret.
Qed.

Lemma head_run data a audit rest :
  run_filter ([op load 0 0 4; op equal 1 0 audit; op ret 0 0 kill; op load 0 0 0] ++ rest) data a =
  if data 4 =? audit then run_filter rest data (data 0) else Some kill.
Proof.
  cbn [app]. rewrite bpf_load, bpf_equal. destruct (data 4 =? audit).
  - change (drop (Z.to_nat 1) (op ret 0 0 kill :: op load 0 0 0 :: rest)) with (op load 0 0 0 :: rest).
    apply bpf_load.
  - apply bpf_ret.
Qed.

Lemma x32_run data a rest :
  run_filter ([op bits 0 1 0x40000000; op ret 0 0 kill] ++ rest) data a =
  if Z.land a 0x40000000 =? 0 then run_filter rest data a else Some kill.
Proof. cbn [app]. rewrite bpf_bits. destruct (Z.land _ _ =? 0); [done | apply bpf_ret]. Qed.

Lemma seccomp_run machine p d a :
  seccomp_program machine = Ok p -> run_filter p (word_at d) a = verdict machine d.
Proof.
  unfold seccomp_program, verdict. destruct (dget machine ARCHES) as [[[audit clone] denied]|]; [|done].
  cbn [mbind option_bind]. intros [= <-]. change (fun code number => _) with (fun code n => code ++ deny n).
  rewrite foldl_deny. destruct (str_eqb machine (u "x86_64")); rewrite <- app_assoc.
  - change [?x; ?y; ?z; ?w; ?v; ?t] with ([x; y; z; w] ++ [v; t]). rewrite <- app_assoc, head_run, x32_run, denied_run, tail_run.
    change (word_at d 4) with (arch d). change (word_at d 0) with (nr d).
    destruct (arch d =? audit), (Z.land (nr d) 0x40000000 =? 0), (existsb _ _); reflexivity.
  - rewrite head_run, denied_run, tail_run. change (word_at d 4) with (arch d). change (word_at d 0) with (nr d).
    destruct (arch d =? audit), (existsb _ _); reflexivity.
Qed.
End filter.

(** A classic BPF machine. *)
Fixpoint bpf_steps (fuel : nat) (p : list insn) (data : Z -> Z) (a : Z) : option Z :=
  match fuel, p with
  | S fuel, i :: rest =>
      if code i =? load then bpf_steps fuel rest data (data (k i))
      else if code i =? equal then bpf_steps fuel (drop (Z.to_nat (if a =? k i then jt i else jf i)) rest) data a
      else if code i =? bits then
        bpf_steps fuel (drop (Z.to_nat (if Z.land a (k i) =? 0 then jf i else jt i)) rest) data a
      else if code i =? ret then Some (k i) else None
  | _, _ => None
  end.

Definition bpf_machine : ClassicBpf := fun p data a => bpf_steps (length p) p data a.

Lemma bpf_steps_fuel p data a fuel :
  (length p <= fuel)%nat -> bpf_steps fuel p data a = bpf_steps (length p) p data a.
Proof.
  revert p a. induction fuel as [fuel IH] using lt_wf_ind. intros p a H.
  destruct p as [|i rest]; [by destruct fuel |]. destruct fuel as [|fuel]; simpl in H; [lia |].
  cbn [bpf_steps length]. pose proof (length_drop rest) as Hd.
  assert (forall q a', (length q <= length rest)%nat ->
    bpf_steps fuel q data a' = bpf_steps (length rest) q data a') as E.
  { intros q a' Hq. destruct (decide (length rest = fuel)) as [->|]; [done |].
    rewrite (IH fuel), (IH (length rest)) by lia. done. }
  repeat case_match; try done; apply E; rewrite ?Hd; lia.
Qed.

#[export] Instance bpf_machine_ok : ClassicBpfOk bpf_machine.
Proof.
  split; intros; unfold run_filter, bpf_machine; cbn [length bpf_steps op code k jt jf];
    try reflexivity; cbv [Z.eqb load equal bits ret Pos.eqb];
    apply bpf_steps_fuel; rewrite length_drop; lia.
Qed.

(** ** The identity of a process *)

(** What /proc shows of a process: the texts of its files and the inodes of its namespaces. *)
Class Procfs := {
  read_text : Z -> string -> res str;
  namespace_inode : Z -> string -> res Z
}.

Record identity := {
  pid : Z;
  start : Z;
  parent : Z;
  uid : list Z;
  gid : list Z;
  capabilities : list Z;
  seccomp : Z;
  noNewPrivs : Z;
  cgroup : str;
  namespaces : list (str * Z)
}.

(** [dict(line.split(":", 1) for line in text.splitlines() if ":" in line)]. *)
Definition status_rows (text : str) : list (str * str) :=
  foldl (fun d line => match partition (u ":") line with Some (a, b) => dset a b d | None => d end) []
    (splitlines line_end text).

Definition row_of (rows : list (str * str)) (name : string) : res str :=
  match dget (u name) rows with Some x => Ok x | None => Raise KeyError end.

(** [fields[i]]. *)
Definition item_at {A} (l : list A) (i : nat) : res A :=
  match nth_error l i with Some x => Ok x | None => Raise IndexError end.

Definition integers_of (rows : list (str * str)) (name : string) : res (list Z) :=
  text ← row_of rows name; map_m (int_text 10) (words is_space text).

(* @src src/src/harness_conformance/live_linux_boundary.py:358-374 process_identity *)
Definition process_identity {P : Procfs} (v : value) : res identity :=
  match v with
  | VInt pid =>
      require (1 <? pid) "PEER_PID_INVALID" ;;
      raw ← read_text pid "stat";
      let end_ := place (rfind (u ")") raw) in
      let first := match find (u " ") raw with Some n => take n raw | None => removelast raw end in
      require ((0 <? end_) && str_eqb first (dec_Z pid)) "PEER_STAT_INVALID" ;;
      let fields := words is_space (drop (Z.to_nat (end_ + 2)) raw) in
      require (20 <=? zlen fields) "PEER_STAT_INVALID" ;;
      text ← read_text pid "status";
      let rows := status_rows text in
      cgroup ← read_text pid "cgroup";
      start ← (x ← item_at fields 19; int_text 10 x);
      parent ← (x ← item_at fields 1; int_text 10 x);
      uid ← integers_of rows "Uid";
      gid ← integers_of rows "Gid";
      capabilities ← map_m (fun name => x ← row_of rows name; int_text 16 (strip is_space x))
        ["CapInh"; "CapPrm"; "CapEff"; "CapBnd"; "CapAmb"];
      seccomp ← (x ← row_of rows "Seccomp"; int_text 10 x);
      noNewPrivs ← (x ← row_of rows "NoNewPrivs"; int_text 10 x);
      namespaces ← map_m (fun name => i ← namespace_inode pid name; Ok (u name, i)) ["user"; "mnt"; "pid"; "net"];
      Ok {| pid := pid; start := start; parent := parent; uid := uid; gid := gid; capabilities := capabilities;
            seccomp := seccomp; noNewPrivs := noNewPrivs; cgroup := cgroup; namespaces := namespaces |}
  | _ => conf "PEER_PID_INVALID"
  end.

Fixpoint ints_eqb (a b : list Z) : bool :=
  match a, b with
  | [], [] => true
  | x :: a', y :: b' => (x =? y) && ints_eqb a' b'
  | _, _ => false
  end.

(** [==] on two dicts of inodes. *)
Definition inodes_eqb (a b : list (str * Z)) : bool :=
  Nat.eqb (length a) (length b) &&
  forallb (fun kv => match dget kv.1 b with Some i => kv.2 =? i | None => false end) a.

Definition identity_eqb (a b : identity) : bool :=
  (pid a =? pid b) && (start a =? start b) && (parent a =? parent b) && ints_eqb (uid a) (uid b) &&
  ints_eqb (gid a) (gid b) && ints_eqb (capabilities a) (capabilities b) && (seccomp a =? seccomp b) &&
  (noNewPrivs a =? noNewPrivs b) && str_eqb (cgroup a) (cgroup b) && inodes_eqb (namespaces a) (namespaces b).

Definition NAMESPACES : list str := [u "user"; u "mnt"; u "pid"; u "net"].

(** [set(d) == {...}]. *)
Definition keys_are (d : list (str * Z)) (names : list str) : bool :=
  forallb (fun n => dhas n d) names && forallb (fun k => str_in k names) (dkeys d).

(* @src src/src/harness_conformance/live_linux_boundary.py:377-386 validate_peer *)
Definition validate_peer (observed expected : identity) (parent_namespaces : list (str * Z)) : res unit :=
  require (identity_eqb observed expected && (1 <? pid observed) && (0 <? start observed)) "PEER_IDENTITY_CHANGED" ;;
  require (ints_eqb (uid observed) (repeat CHILD_UID 4) && ints_eqb (gid observed) (repeat CHILD_GID 4) &&
           ints_eqb (capabilities observed) (repeat 0 5) && (seccomp observed =? 2) && (noNewPrivs observed =? 1))
    "PEER_PRIVILEGE_INVALID" ;;
  require (str_eqb (cgroup observed) (u "0::/planeon-live/session" ++ [10%N])) "PEER_CGROUP_MISMATCH" ;;
  require_m (Ok (keys_are (namespaces observed) NAMESPACES) <&&>
             all_m (fun '(name, i) => match dget name (namespaces observed) with
                                      | Some j => Ok (negb (j =? i))
                                      | None => Raise KeyError
                                      end) parent_namespaces) "PEER_NAMESPACE_MISMATCH".

(** ** Passed credentials *)

Definition SOL_SOCKET : Z := 1.
Definition SCM_RIGHTS : Z := 1.
Definition MSG_CTRUNC : Z := 8.
Definition MSG_TRUNC : Z := 32.

(** The signed 32-bit words of a little-endian machine, without a partial last one. *)
Fixpoint int32s (b : bytes) : list Z :=
  match b with
  | a :: b1 :: c :: d :: rest =>
      let v := Z.of_N (a + 256 * (b1 + 256 * (c + 256 * d)))%N in
      (if v <? 2 ^ 31 then v else v - 2 ^ 32) :: int32s rest
  | _ => []
  end.

Record message := { level : Z; kind : Z; content : bytes }.

Definition passes_descriptors (m : message) : bool := (level m =? SOL_SOCKET) && (kind m =? SCM_RIGHTS).
Definition passes_credentials (m : message) : bool :=
  (level m =? SOL_SOCKET) && (kind m =? 2) && (zlen (content m) =? 12).

(** The loop: the state of the run is the descriptors it has closed, whether or not
    [os.close] raised. *)
Fixpoint receive (values : list (list Z)) (unexpected : bool) (ancillary : list message)
  : io (list Z) (list (list Z) * bool) :=
  match ancillary with
  | [] => mret (values, unexpected)
  | m :: rest =>
      if passes_descriptors m then
        update (fun closed => closed ++ int32s (content m)) ;; receive values true rest
      else if passes_credentials m then receive (values ++ [int32s (content m)]) unexpected rest
      else receive values true rest
  end.

(* @src src/src/harness_conformance/live_linux_boundary.py:389-409 credentials *)
Definition credentials (ancillary : list message) (flags : Z) : io (list Z) (list Z) :=
  '(values, unexpected) ← receive [] false ancillary;
  check ((Z.land flags (Z.lor MSG_TRUNC MSG_CTRUNC) =? 0) && negb unexpected && (zlen values =? 1))
    "PEER_CHANNEL_INVALID" ;;
  lift (item_at values 0).

(** ** Properties *)

(** C31: The filter the child installs decides every call as specified.  On both machines and for
    every call number, audit architecture and first argument, a classic BPF machine runs
    [seccomp_program] to the verdict: kill for a foreign architecture and for x32 numbers, an
    error for each listed call ([ENOSYS] for clone3, [EPERM] otherwise), [EPERM] for a clone
    that asks for a namespace, and allow in every other case. *)
Theorem seccomp_verdict {B : ClassicBpf} {BOk : ClassicBpfOk B} machine p d a :
  seccomp_program machine = Ok p -> run_filter p (word_at d) a = verdict machine d.
Proof. apply seccomp_run. Qed.

Lemma ints_eqb_eq a b : ints_eqb a b = true <-> a = b.
Proof.
  revert b. induction a as [|x a IH]; intros [|y b]; simpl; try naive_solver.
  rewrite andb_true_iff, Z.eqb_eq, IH. naive_solver.
Qed.

Lemma receive_run values unexpected l closed :
  receive values unexpected l closed =
  (Ok (values ++ map (fun m => int32s (content m)) (List.filter (fun m => negb (passes_descriptors m) && passes_credentials m) l),
       unexpected || negb (forallb (fun m => negb (passes_descriptors m) && passes_credentials m) l)),
   closed ++ flat_map (fun m => int32s (content m)) (List.filter passes_descriptors l)).
Proof.
  revert values unexpected closed. induction l as [|m l IH]; intros values unexpected closed; cbn [receive].
  - cbn. by rewrite !app_nil_r, orb_false_r.
  - cbn [List.filter forallb]. destruct (passes_descriptors m); cbn [negb andb].
    + unfold mbind, io_bind, update. rewrite IH. cbn [flat_map]. by rewrite app_assoc, orb_true_r.
    + destruct (passes_credentials m); rewrite IH; cbn [map negb andb]; [by rewrite <- app_assoc |].
      by rewrite orb_true_r.
Qed.

(** No descriptor a peer passes stays open, and passing one is refused.  Whatever the ancillary
    messages are and however the call ends, every descriptor of every rights message has been
    closed; the call succeeds only on exactly one message, which is the twelve octets of the
    kernel's credentials, untruncated, and its three words are the answer. *)
Theorem credentials_close_all ancillary flags closed r closed' :
  credentials ancillary flags closed = (r, closed') ->
  closed' = closed ++ flat_map (fun m => int32s (content m)) (List.filter passes_descriptors ancillary) /\
  forall v, r = Ok v -> exists m, ancillary = [m] /\ passes_descriptors m = false /\ passes_credentials m = true /\
    v = int32s (content m) /\ length v = 3%nat /\ Z.land flags (Z.lor MSG_TRUNC MSG_CTRUNC) = 0.
Proof.
  unfold credentials. unfold mbind at 1, io_bind at 1. rewrite receive_run. cbn [app orb negb].
  unfold mbind, io_bind, check, lift, require. destruct (_ && _) eqn:E; intros [= <- <-]; (split; [done |]); [|done].
  intros v Hv. rewrite !andb_true_iff, negb_involutive, Z.eqb_eq in E. destruct E as [[Hf Hall] Hn].
  rewrite filter_all in * by (intros m Hm; rewrite forallb_forall in Hall; by apply Hall).
  destruct ancillary as [|m [|]]; try done. 2: { apply Z.eqb_eq in Hn. unfold zlen in Hn. simpl in Hn. lia. }
  cbn in Hall. rewrite andb_true_r, andb_true_iff, negb_true_iff in Hall. destruct Hall as [Hd Hc].
  injection Hv as <-. exists m. repeat split; try done.
  unfold passes_credentials in Hc. rewrite !andb_true_iff, !Z.eqb_eq in Hc. destruct Hc as [_ Hl].
  destruct (content m) as [|? [|? [|? [|? [|? [|? [|? [|? [|? [|? [|? [|? [|]]]]]]]]]]]]]; unfold zlen in Hl; simpl in Hl; try lia.
  reflexivity.
Qed.

(** An accepted peer is confined: it runs with the child's user and group in all four slots, no
    capability, a filter and no new privileges, in the leased cgroup, and shares none of the
    namespaces recorded for the parent; and it is the process recorded before. *)
Theorem peer_confined observed expected parents :
  validate_peer observed expected parents = Ok tt ->
  (pid observed = pid expected /\ start observed = start expected /\ parent observed = parent expected) /\
  uid observed = [65532; 65532; 65532; 65532] /\ gid observed = [65532; 65532; 65532; 65532] /\
  capabilities observed = [0; 0; 0; 0; 0] /\ seccomp observed = 2 /\ noNewPrivs observed = 1 /\
  cgroup observed = u "0::/planeon-live/session" ++ [10%N] /\
  forall name i, In (name, i) parents -> exists j, dget name (namespaces observed) = Some j /\ j <> i.
Proof.
  unfold validate_peer. rewrite !seq_Ok, !require_Ok, require_m_Ok, and_m_true, all_m_true, List.Forall_forall.
  unfold identity_eqb. rewrite !andb_true_iff, !Z.eqb_eq, !ints_eqb_eq, str_eqb_eq.
  intros (H1 & H2 & H3 & _ & H4). apply str_eqb_eq in H3. repeat split; try tauto; try apply H1; try apply H2.
  intros name i Hin. specialize (H4 _ Hin). cbn in H4. destruct (dget name (namespaces observed)) as [j|]; [|done].
  exists j. split; [done |]. injection H4 as H4. by apply negb_true_iff, Z.eqb_neq in H4.
Qed.
