(* ===== verification/Der.v ===== *)
(** live_proxy_client.py: the bounded DER reader, the certificate identity it extracts, its
    enrolment checks, and the PEM bundle of the client credential. *)

From S2P Require Import Prelude PyVal Utf8 Json Sha2 Canonical IsoTime Regex Text.
From S2P Require Import SchemaBase ProxyDocument.

#[local] Open Scope string_scope.
#[local] Open Scope list_scope.
#[local] Open Scope N_scope.

(** ** DER items *)

(** A row of the reader: the identifier octet, the content, and the octets of the whole item. *)
Record row := { tag : N; content : bytes; whole : bytes }.

(** The length octets: the length and the octets that follow them. *)
Definition der_length (first : N) (r : bytes) : res (N * bytes) :=
  if N.land first 128 =? 0 then Ok (first, r)
  else
    let count := N.land first 127 in
    require ((1 <=? count) && (count <=? 3) && (Z.of_N count <=? zlen r)%Z &&
             match r with d :: _ => negb (d =? 0) | [] => false end) "TLS_DER_LENGTH" ;;
    let length := be_value (take (N.to_nat count) r) in
    require (128 <=? length) "TLS_DER_LENGTH" ;;
    Ok (length, drop (N.to_nat count) r).

(** One pass of the loop on what is left: the item and what follows it. *)
Definition der_item (rows : list row) (rest : bytes) : res (row * bytes) :=
  require ((zlen rows <? 256)%Z && (2 <=? zlen rest)%Z) "TLS_DER_INVALID" ;;
  match rest with
  | tag :: first :: r =>
      require (negb (N.land tag 31 =? 31)) "TLS_DER_TAG" ;;
      '(length, r) ← der_length first r;
      require (Z.of_N length <=? zlen r)%Z "TLS_DER_TRUNCATED" ;;
      let tail := drop (N.to_nat length) r in
      Ok ({| tag := tag; content := take (N.to_nat length) r;
             whole := take (List.length rest - List.length tail) rest |}, tail)
  | _ => conf "TLS_DER_INVALID"
  end.

Fixpoint der_loop (fuel : nat) (rows : list row) (rest : bytes) : res (list row) :=
  match fuel, rest with
  | _, [] => Ok rows
  | O, _ => conf "TLS_DER_INVALID"
  | S fuel, _ => '(r, tail) ← der_item rows rest; der_loop fuel (rows ++ [r]) tail
  end.

(** Every item takes two octets at least, so the length of the input bounds the passes. *)
(* @src src/src/harness_conformance/live_proxy_client.py:59-77 _der_items *)
Definition _der_items (raw : bytes) : res (list row) :=
  require (zlen raw <=? 262144)%Z "TLS_DER_SIZE" ;;
  der_loop (List.length raw) [] raw.

(* @src src/src/harness_conformance/live_proxy_client.py:80-83 _der_one *)
Definition _der_one (raw : bytes) (t : N) : res bytes :=
  rows ← _der_items raw;
  match rows with
  | [r] => require (tag r =? t) "TLS_DER_STRUCTURE" ;; Ok (content r)
  | _ => conf "TLS_DER_STRUCTURE"
  end.

(** *** The encoding it accepts *)

Definition length_octets (n : N) : bytes :=
  if n <? 128 then [n]
  else if n <? 256 then [129; n]
  else if n <? 65536 then 130 :: be_bytes 2 n
  else 131 :: be_bytes 3 n.

Definition der_encode (t : N) (c : bytes) : bytes := t :: length_octets (N.of_nat (length c)) ++ c.

(** A row as the reader makes them. *)
Definition row_ok (r : row) : Prop :=
  octet (tag r) /\ N.land (tag r) 31 <> 31 /\ Forall octet (content r) /\ whole r = der_encode (tag r) (content r).

#[local] Arguments be_value : simpl never.
#[local] Arguments be_bytes : simpl never.

Lemma be_value_3 a b c : be_value [a; b; c] = (a * 256 + b) * 256 + c.
Proof. unfold be_value. cbn [fold_left]. by rewrite N.mul_0_l, N.add_0_l. Qed.
Lemma be_value_2 a b : be_value [a; b] = a * 256 + b.
Proof. unfold be_value. cbn [fold_left]. by rewrite N.mul_0_l, N.add_0_l. Qed.
Lemma be_value_1 a : be_value [a] = a.
Proof. unfold be_value. cbn [fold_left]. by rewrite N.mul_0_l, N.add_0_l. Qed.

Lemma digit_mod a b : b < 256 -> (a * 256 + b) mod 256 = b.
Proof. intros H. symmetry. by apply (N.mod_unique _ _ a); [|lia]. Qed.

Lemma be_bytes_3 a b c : octet a -> octet b -> octet c -> be_bytes 3 ((a * 256 + b) * 256 + c) = [a; b; c].
Proof.
  unfold octet, be_bytes. intros Ha Hb Hc. change (2 ^ (8 * N.of_nat 2)) with 65536.
  change (2 ^ (8 * N.of_nat 1)) with 256. change (2 ^ (8 * N.of_nat 0)) with 1.
  rewrite N.div_1_r, <- (N.div_unique _ 65536 a (b * 256 + c)), <- (N.div_unique _ 256 (a * 256 + b) c) by lia.
  by rewrite N.mod_small, (digit_mod a b), (digit_mod (a * 256 + b) c) by lia.
Qed.
Lemma be_bytes_2 a b : octet a -> octet b -> be_bytes 2 (a * 256 + b) = [a; b].
Proof.
  unfold octet, be_bytes. intros Ha Hb. change (2 ^ (8 * N.of_nat 1)) with 256. change (2 ^ (8 * N.of_nat 0)) with 1.
  by rewrite N.div_1_r, <- (N.div_unique _ 256 a b), N.mod_small, (digit_mod a b) by lia.
Qed.

Lemma land_low n k : N.land n (N.ones k) = n mod 2 ^ k.
Proof. apply N.land_ones. Qed.

(** The first length octet below 128 is the length; otherwise its low bits count octets. *)
Lemma first_octet first : octet first ->
  (N.land first 128 = 0 <-> first < 128) /\ N.land first 127 = first mod 128.
Proof.
  unfold octet. intros H. split; [|apply (land_low first 7)].
  apply (bool_decide_unpack _).
  assert (bool_decide (N.land first 128 = 0 <-> first < 128) = true) as ->; [|done].
  revert first H. apply (below_forallb (fun n => bool_decide (N.land n 128 = 0 <-> n < 128)) 256). by vm_compute.
Qed.

(** The length octets the reader takes are the shortest ones. *)
Lemma der_length_inv first r n r' :
  octet first -> Forall octet r -> der_length first r = Ok (n, r') -> first :: r = length_octets n ++ r' /\ n < 2 ^ 24.
Proof.
  intros Hf Hr. destruct (first_octet first Hf) as [H0 H7]. unfold der_length.
  destruct (N.land first 128 =? 0) eqn:E.
  - apply N.eqb_eq, H0 in E. intros [= <- <-]. unfold length_octets. rewrite (proj2 (N.ltb_lt _ _) E). split; [done | lia].
  - apply N.eqb_neq in E. rewrite H0 in E. rewrite H7. rewrite seq_Ok, require_Ok, seq_Ok, require_Ok.
    rewrite !andb_true_iff, !N.leb_le. unfold octet in Hf.
    assert (first mod 128 = first - 128) as -> by (symmetry; apply (N.mod_unique _ _ 1); lia).
    intros ((((H1 & H3) & Hl) & Hz) & Hv & [= <- <-]). revert Hv.
    assert (first = 129 \/ first = 130 \/ first = 131) as [-> | [-> | ->]] by lia;
      [destruct r as [|a r] | destruct r as [|a [|b r]] | destruct r as [|a [|b [|c r]]]]; try done;
      apply negb_true_iff, N.eqb_neq in Hz; repeat (apply Forall_cons in Hr as [? Hr]); unfold octet in *;
      (match goal with |- context [N.to_nat ?x] => let y := eval vm_compute in (N.to_nat x) in change (N.to_nat x) with y end);
      cbn [take drop]; rewrite ?be_value_1, ?be_value_2, ?be_value_3; unfold length_octets; intros Hv.
    + rewrite (proj2 (N.ltb_ge _ _)), (proj2 (N.ltb_lt _ _)) by lia. split; [done | lia].
    + rewrite !(proj2 (N.ltb_ge _ _)), (proj2 (N.ltb_lt _ _)) by lia. split; [by rewrite be_bytes_2 | lia].
    + rewrite !(proj2 (N.ltb_ge _ _)) by lia. split; [by rewrite be_bytes_3 | lia].
Qed.

#[local] Ltac Zify.zify_post_hook ::= Z.to_euclidean_division_equations.

Lemma length_octets_read n r' : n < 2 ^ 24 -> exists first r,
  length_octets n ++ r' = first :: r /\ der_length first r = Ok (n, r') /\ octet first /\ (length r' <= length r)%nat.
Proof.
  intros Hn. unfold length_octets.
  destruct (N.ltb_spec n 128); [|destruct (N.ltb_spec n 256); [|destruct (N.ltb_spec n 65536)]];
    eexists _, _; (split; [reflexivity |]); unfold der_length.
  - assert (N.land n 128 = 0) as -> by (apply first_octet; unfold octet; lia). repeat split; unfold octet; lia.
  - split; [|split; [unfold octet; lia | simpl; lia]]. change (N.land 129 128 =? 0) with false. cbv iota.
    change (N.land 129 127) with 1. change (N.to_nat 1) with 1%nat. cbn [app take drop]. rewrite be_value_1.
    rewrite (proj2 (N.leb_le 128 n)) by lia. rewrite (proj2 (Z.leb_le _ _)) by (rewrite zlen_cons; pose proof (zlen_nonneg r'); lia).
    by rewrite (proj2 (N.eqb_neq n 0)) by lia.
  - assert (exists a b, n = a * 256 + b /\ a < 256 /\ b < 256 /\ 0 < a) as (a & b & -> & Ha & Hb & Hp).
    { exists (n / 256), (n mod 256). lia. }
    rewrite be_bytes_2 by done. split; [|split; [unfold octet; lia | simpl; lia]].
    change (N.land 130 128 =? 0) with false. cbv iota.
    change (N.land 130 127) with 2. change (N.to_nat 2) with 2%nat. cbn [app take drop]. rewrite be_value_2.
    rewrite (proj2 (N.leb_le 128 _)) by lia. rewrite (proj2 (Z.leb_le _ _)) by (rewrite !zlen_cons; pose proof (zlen_nonneg r'); lia).
    by rewrite (proj2 (N.eqb_neq a 0)) by lia.
  - assert (exists a b c, n = (a * 256 + b) * 256 + c /\ a < 256 /\ b < 256 /\ c < 256 /\ 0 < a)
      as (a & b & c & -> & Ha & Hb & Hc & Hp).
    { exists (n / 256 / 256), (n / 256 mod 256), (n mod 256). change (2 ^ 24) with 16777216 in Hn. lia. }
    rewrite be_bytes_3 by done. split; [|split; [unfold octet; lia | simpl; lia]].
    change (N.land 131 128 =? 0) with false. cbv iota.
    change (N.land 131 127) with 3. change (N.to_nat 3) with 3%nat. cbn [app take drop]. rewrite be_value_3.
    rewrite (proj2 (N.leb_le 128 _)) by lia. rewrite (proj2 (Z.leb_le _ _)) by (rewrite !zlen_cons; pose proof (zlen_nonneg r'); lia).
    by rewrite (proj2 (N.eqb_neq a 0)) by lia.
Qed.

Lemma der_item_inv rows rest r tail :
  Forall octet rest -> der_item rows rest = Ok (r, tail) ->
  rest = whole r ++ tail /\ row_ok r /\ (length rows < 256)%nat /\ (length tail < length rest)%nat.
Proof.
  intros Ho. unfold der_item. rewrite seq_Ok, require_Ok, andb_true_iff, !Z.ltb_lt, !Z.leb_le.
  intros [[Hn _] H]. destruct rest as [|t [|first r0]]; try done.
  apply Forall_cons in Ho as [Ht Ho]. apply Forall_cons in Ho as [Hf Ho].
  apply seq_Ok in H as [Htag H]. apply bind_Ok in H as ([n r1] & Hl & H).
  apply seq_Ok in H as [Hlen H]. apply require_Ok in Htag, Hlen. apply negb_true_iff, N.eqb_neq in Htag.
  injection H as <- <-. apply Z.leb_le in Hlen. apply der_length_inv in Hl as [Hl Hb]; [|done..].
  assert (Forall octet r1) as Ho1.
  { assert (Forall octet (first :: r0)) as Hfo by (by constructor). rewrite Hl in Hfo. by apply Forall_app in Hfo as [_ ?]. }
  assert (S (length r0) = length (length_octets n ++ r1)) as HS by (by rewrite <- Hl).
  cbn [length]. rewrite HS, Hl. unfold zlen in Hlen, Hn. cbn [whole tag content].
  set (c := take (N.to_nat n) r1). set (tl := drop (N.to_nat n) r1).
  assert (r1 = c ++ tl) as Hr1 by (symmetry; apply take_drop).
  assert (length c = N.to_nat n) as Hc by (unfold c; rewrite length_take; lia).
  assert (take (S (length (length_octets n ++ r1)) - length tl) (t :: length_octets n ++ r1) = der_encode t c) as E.
  { unfold der_encode. change (S (length ?l)) with (length (t :: l)).
    rewrite Hc, N2Nat.id, Hr1, app_assoc, app_comm_cons, length_app, Nat.add_sub. apply take_app_length. }
  rewrite E. repeat split; try done.
  - unfold der_encode. rewrite Hc, N2Nat.id. by rewrite Hr1, app_assoc, app_comm_cons.
  - cbn [content]. by apply Forall_take.
  - lia.
  - cbn [length]. rewrite length_app, Hr1, length_app. lia.
Qed.

Lemma der_item_read rows t c tail :
  N.land t 31 <> 31 -> N.of_nat (length c) < 2 ^ 24 -> (length rows < 256)%nat ->
  der_item rows (der_encode t c ++ tail) = Ok ({| tag := t; content := c; whole := der_encode t c |}, tail).
Proof.
  intros Ht Hc Hn. unfold der_encode. cbn [app]. rewrite <- app_assoc.
  destruct (length_octets_read (N.of_nat (length c)) (c ++ tail) Hc) as (first & r & E & Hl & _ & _).
  rewrite E. unfold der_item. rewrite seq_Ok, require_Ok, andb_true_iff, Z.ltb_lt, Z.leb_le, seq_Ok, require_Ok, bind_Ok.
  rewrite negb_true_iff, N.eqb_neq, !zlen_cons. split; [unfold zlen; lia |]. split; [done |].
  exists (N.of_nat (length c), c ++ tail). split; [done |]. rewrite Nat2N.id, take_app_length, drop_app_length.
  rewrite seq_Ok, require_Ok, zlen_app, Z.leb_le. split; [unfold zlen; lia |]. do 3 f_equal.
  rewrite <- E, app_assoc, app_comm_cons, length_app, Nat.add_sub. apply take_app_length.
Qed.

Lemma der_encode_length t c : (2 <= length (der_encode t c))%nat.
Proof.
  unfold der_encode, length_octets. cbn [length]. rewrite length_app.
  destruct (_ <? 128); [|destruct (_ <? 256); [|destruct (_ <? 65536)]]; cbn [length]; lia.
Qed.

Lemma der_loop_inv fuel rows rest l :
  Forall octet rest -> der_loop fuel rows rest = Ok l ->
  exists new, l = rows ++ new /\ rest = concat (map whole new) /\ Forall row_ok new /\
    (new = [] \/ (length l <= 256)%nat).
Proof.
  revert rows rest. induction fuel as [|fuel IH]; intros rows rest Ho; cbn [der_loop].
  - destruct rest; [|done]. intros [= <-]. exists []. rewrite app_nil_r. auto.
  - destruct rest as [|x rest]; [intros [= <-]; exists []; rewrite app_nil_r; auto |].
    intros ([r tail] & Hi & H)%bind_Ok. apply der_item_inv in Hi as (E & Hr & Hn & _); [|done].
    rewrite E in Ho. apply Forall_app in Ho as [_ Ho]. apply IH in H as (new & -> & -> & Hnew & Hlen); [|done].
    exists (r :: new). rewrite <- app_assoc. split; [done |]. split; [by rewrite E |]. split; [by constructor |].
    right. rewrite length_app. cbn [length app]. destruct Hlen as [-> | Hlen]; [cbn; lia |].
    revert Hlen. rewrite !length_app. cbn [length]. lia.
Qed.

Lemma der_loop_read fuel rows new :
  Forall row_ok new -> Forall (fun r => N.of_nat (length (content r)) < 2 ^ 24) new ->
  (length rows + length new <= 256)%nat -> (length (concat (map whole new)) <= fuel)%nat ->
  der_loop fuel rows (concat (map whole new)) = Ok (rows ++ new).
Proof.
  intros H. revert fuel rows. induction H as [|[t c w] new (Ht & Htag & Hc & Hw) H IH]; intros fuel rows Hl Hn Hf.
  - cbn. rewrite app_nil_r. by destruct fuel.
  - cbn [map concat whole tag content] in *. subst w. apply Forall_cons in Hl as [Hl1 Hl]. cbn [content length] in *.
    pose proof (der_encode_length t c). rewrite length_app in Hf. destruct fuel as [|fuel]; [lia |].
    cbn [der_loop]. destruct (der_encode t c ++ concat (map whole new)) as [|x rest] eqn:E.
    { apply app_eq_nil in E as [E _]. by rewrite E in H0. }
    rewrite <- E, der_item_read by (done || lia). cbn [mbind res_bind].
    rewrite IH, <- app_assoc; [done | done | rewrite length_app; cbn; lia | lia].
Qed.

Lemma concat_whole_bound (l : list row) r :
  In r l -> row_ok r -> (length (content r) <= length (concat (map whole l)))%nat.
Proof.
  intros Hin (_ & _ & _ & Hw). induction l as [|x l IH]; [done |]. cbn [map concat]. rewrite length_app.
  destruct Hin as [-> | Hin]; [|apply IH in Hin; lia]. rewrite Hw. unfold der_encode. cbn [length].
  rewrite length_app. lia.
Qed.

Lemma der_items_iff raw rows :
  Forall octet raw ->
  _der_items raw = Ok rows <->
  raw = concat (map whole rows) /\ Forall row_ok rows /\ (length rows <= 256)%nat /\ (zlen raw <= 262144)%Z.
Proof.
  intros Ho. unfold _der_items. rewrite seq_Ok, require_Ok, Z.leb_le. split.
  - intros [Hs H]. apply der_loop_inv in H as (new & -> & E & Hok & Hn); [|done].
    repeat split; try done. destruct Hn as [-> | ?]; [simpl; lia | done].
  - intros (-> & Hok & Hn & Hs). split; [done |]. apply (der_loop_read _ []); try done.
    rewrite List.Forall_forall in Hok. apply List.Forall_forall. intros r Hr.
    pose proof (concat_whole_bound _ _ Hr (Hok r Hr)). unfold zlen in Hs. change (2 ^ 24) with 16777216. lia.
Qed.

(** ** The identity of a certificate *)

Record certificate := {
  leaf : str;
  spki : str;
  notBefore : datetime;
  notAfter : datetime;
  eku : list bytes;
  sans : list (N * bytes)
}.

Definition utc_digits : regex := seq_ (rep 12 (cls "0-9")) (lit "Z").
Definition generalized_digits : regex := seq_ (rep 14 (cls "0-9")) (lit "Z").

(** [datetime.strptime(text, "%Y%m%d%H%M%SZ")] at UTC, on fourteen digits and a Z. *)
Definition strptime_digits (s : str) : res datetime :=
  let y := digits_at s 0 4 in let mo := digits_at s 4 2 in let d := digits_at s 6 2 in
  let h := digits_at s 8 2 in let mi := digits_at s 10 2 in let se := digits_at s 12 2 in
  if ((1 <=? y) && (1 <=? mo) && (mo <=? 12) && (1 <=? d) && (d <=? month_days y mo) &&
      (h <? 24) && (mi <? 60) && (se <? 60))%Z
  then Ok {| instant := (ymd_to_ord y mo d * day_microseconds + ((h * 60 + mi) * 60 + se) * 1000000)%Z; aware := true |}
  else Raise ValueError.

(* @src src/src/harness_conformance/live_proxy_client.py:100-107 certificate_identity *)
Definition validity_instant (r : row) : res datetime :=
  let utc := tag r =? 0x17 in
  require ((utc || (tag r =? 0x18)) && fullmatch (if utc then utc_digits else generalized_digits) (content r))
    "TLS_CERT_VALIDITY" ;;
  strptime_digits (if utc then (if (50 <=? digits_at (content r) 0 2)%Z then u "19" else u "20") ++ content r
                   else content r).

Definition oid_basic : bytes := [0x55; 0x1d; 0x13].
Definition oid_eku : bytes := [0x55; 0x1d; 0x25].
Definition oid_san : bytes := [0x55; 0x1d; 0x11].

(** [extensions[oid]]. *)
Definition extension_of (extensions : list (bytes * bytes)) (oid : bytes) : res bytes :=
  match dget oid extensions with Some x => Ok x | None => Raise KeyError end.

(** One extension of the loop, added to those before it. *)
(* @src src/src/harness_conformance/live_proxy_client.py:110-116 certificate_identity *)
Definition add_extension (extensions : list (bytes * bytes)) (entry : row) : res (list (bytes * bytes)) :=
  require (tag entry =? 0x30) "TLS_CERT_EXTENSION" ;;
  parts ← _der_items (content entry);
  '(oid, value) ←
    match parts with
    | [p; q] => require ((tag p =? 6) && (tag q =? 4)) "TLS_CERT_EXTENSION" ;; Ok (content p, content q)
    | [p; critical; q] =>
        require ((tag p =? 6) && (tag q =? 4) && str_eqb (whole critical) [1; 1; 0xff]) "TLS_CERT_EXTENSION" ;;
        Ok (content p, content q)
    | _ => conf "TLS_CERT_EXTENSION"
    end;
  require (negb (dhas oid extensions)) "TLS_CERT_DUPLICATE_EXTENSION" ;;
  Ok (extensions ++ [(oid, value)]).

Fixpoint distinct_strs (l : list bytes) : bool :=
  match l with [] => true | x :: l' => negb (str_in x l') && distinct_strs l' end.

Definition tags_are (rows : list row) (tags : list N) : bool := str_eqb (map tag rows) tags.

(* @src src/src/harness_conformance/live_proxy_client.py:86-126 certificate_identity *)
Definition certificate_identity (der : bytes) : res certificate :=
  outer ← _der_one der 0x30;
  cert ← _der_items outer;
  require (tags_are cert [0x30; 0x30; 3]) "TLS_CERT_STRUCTURE" ;;
  match cert with
  | [tbs_row; algorithm; _] =>
      tbs ← _der_items (content tbs_row);
      match tbs with
      | [version; serial; signature; issuer; validity; subject; key; wrapped] =>
          require (str_eqb (whole version) [0xa0; 3; 2; 1; 2] &&
                   tags_are [serial; signature; issuer; validity; subject; key] [2; 0x30; 0x30; 0x30; 0x30; 0x30] &&
                   (tag wrapped =? 0xa3) && str_eqb (whole signature) (whole algorithm)) "TLS_CERT_STRUCTURE" ;;
          window ← _der_items (content validity);
          require (zlen window =? 2)%Z "TLS_CERT_VALIDITY" ;;
          entries ← (x ← _der_one (content wrapped) 0x30; _der_items x);
          extensions ← for_fold add_extension [] entries;
          require (forallb (fun oid => dhas oid extensions) [oid_basic; oid_eku; oid_san])
            "TLS_CERT_EXTENSION_MISSING" ;;
          basic ← (x ← extension_of extensions oid_basic; _der_one x 0x30);
          require (str_eqb basic []) "TLS_LEAF_CA_FORBIDDEN" ;;
          eku ← (x ← extension_of extensions oid_eku; y ← _der_one x 0x30; _der_items y);
          require (negb (zlen eku =? 0)%Z && forallb (fun r => tag r =? 6) eku && distinct_strs (map content eku))
            "TLS_CERT_EKU" ;;
          sans ← (x ← extension_of extensions oid_san; y ← _der_one x 0x30; _der_items y);
          require (negb (zlen sans =? 0)%Z && (zlen sans <=? 32)%Z &&
                   forallb (fun r => existsb (N.eqb (tag r)) [0x82; 0x86; 0x87]) sans) "TLS_CERT_SAN" ;;
          match window with
          | [first; last] =>
              before ← validity_instant first;
              after ← validity_instant last;
              Ok {| leaf := byte_digest der; spki := byte_digest (whole key); notBefore := before; notAfter := after;
                    eku := map content eku; sans := map (fun r => (tag r, content r)) sans |}
          | _ => conf "TLS_CERT_VALIDITY"
          end
      | _ => conf "TLS_CERT_STRUCTURE"
      end
  | _ => conf "TLS_CERT_STRUCTURE"
  end.

(** ** The enrolment of a certificate *)

(** [v.encode("ascii")]. *)
Definition encode_ascii (v : value) : res bytes :=
  match v with VStr s => if is_ascii s then Ok s else Raise ValueError | _ => Raise AttributeError end.

Definition client_auth : bytes := [0x2b; 6; 1; 5; 5; 7; 3; 2].
Definition server_auth : bytes := [0x2b; 6; 1; 5; 5; 7; 3; 1].

Fixpoint sans_eqb (a b : list (N * bytes)) : bool :=
  match a, b with
  | [], [] => true
  | (t, x) :: a', (r, y) :: b' => (t =? r) && str_eqb x y && sans_eqb a' b'
  | _, _ => false
  end.

(** The name a client certificate carries. *)
Definition client_urn (purpose : value) (scope endpoint : value) : res str :=
  names ← map_m (fld scope) ["tenantId"; "environmentId"; "runNonce"];
  names ← map_m as_text names;
  id ← (x ← fld endpoint "endpointId"; as_text x);
  let prefix := if eq_lit purpose "CAMPAIGN_PROXY_CLIENT_MTLS" then u "campaign-proxy" else u "capacity-proxy" in
  Ok (u "urn:planeon:" ++ prefix ++ u ":" ++ join (u ":") names ++ u ":" ++ id).

(** [[r for r in rows if r["endpointId"] == endpoint["endpointId"]]]. *)
Definition enrolled (profile endpoint : value) : res (list value) :=
  entries ← fld profile "capacityEntries";
  rows ← (x ← fld entries "credentialIdentities"; py_iter x);
  flags ← map_m (fun r => fld2_eq r "endpointId" endpoint "endpointId") rows;
  Ok (map fst (List.filter snd (combine rows flags))).

(* @src src/src/harness_conformance/live_proxy_client.py:129-149 _check_certificate *)
Definition _check_certificate (der : bytes) (profile endpoint : value) (client : bool) : res certificate :=
  identity ← certificate_identity der;
  binding ← fld profile "binding";
  start ← proxy_time binding "validFrom";
  stop ← proxy_time binding "expiresAt";
  require_m (time_leb (notBefore identity) start <&&> time_ltb start stop <&&> time_leb stop (notAfter identity))
    "TLS_CERT_WINDOW" ;;
  require (match eku identity with [x] => str_eqb x (if client then client_auth else server_auth) | _ => false end)
    "TLS_CERT_EKU" ;;
  if client then
    rows ← enrolled profile endpoint;
    match rows with
    | [row] =>
        purpose ← fld row "purpose";
        san ← (x ← client_urn purpose binding endpoint; encode_ascii (VStr x));
        require_m (fld_eq row "certificateDigest" (VStr (leaf identity)) <&&>
                   fld_eq row "clientSpkiDigest" (VStr (spki identity)) <&&>
                   Ok (sans_eqb (sans identity) [(0x86, san)])) "TLS_CLIENT_IDENTITY" ;;
        Ok identity
    | _ => conf "TLS_CREDENTIAL_ENROLLMENT"
    end
  else
    tls ← fld endpoint "tls";
    name ← (x ← fld tls "serverName"; encode_ascii x);
    require_m (fld_eq tls "serverSpkiDigest" (VStr (spki identity)) <&&>
               Ok (existsb (fun s => (s.1 =? 0x82) && str_eqb s.2 name) (sans identity) &&
                   forallb (fun s => negb (existsb (N.eqb 42) s.2)) (sans identity))) "TLS_SERVER_IDENTITY" ;;
    Ok identity.

(** ** The credential bundle *)

Definition standard_value (c : N) : option N :=
  if (65 <=? c) && (c <=? 90) then Some (c - 65)
  else if (97 <=? c) && (c <=? 122) then Some (c - 71)
  else if (48 <=? c) && (c <=? 57) then Some (c + 4)
  else if c =? 43 then Some 62
  else if c =? 47 then Some 63
  else None.

(** [base64.b64decode(s, validate=True)]: the place in a group of four, the bits left over, the
    pads of the group, and whether padding has begun. *)
Fixpoint a2b (quad left pads : N) (padding : bool) (s : bytes) : res bytes :=
  match s with
  | [] => if quad =? 0 then Ok [] else Raise ValueError
  | c :: s' =>
      if c =? 61 then
        if 2 <=? quad then
          if 4 <=? quad + pads + 1 then match s' with [] => Ok [] | _ => Raise ValueError end
          else a2b quad left (pads + 1) true s'
        else a2b quad left pads true s'
      else
        match standard_value c with
        | None => Raise ValueError
        | Some v =>
            if padding then Raise ValueError
            else if quad =? 0 then a2b 1 v 0 false s'
            else if quad =? 1 then t ← a2b 2 (N.land v 15) 0 false s'; Ok (left * 4 + v / 16 :: t)
            else if quad =? 2 then t ← a2b 3 (N.land v 3) 0 false s'; Ok (left * 16 + v / 4 :: t)
            else t ← a2b 0 0 0 false s'; Ok (left * 64 + v :: t)
        end
  end.

Definition b64decode_strict (s : bytes) : res bytes :=
  match s with 61 :: _ => Raise ValueError | _ => a2b 0 0 0 false s end.

(** One match of the pattern: what precedes it, its label, its body. *)
Record block := { gap : bytes; label : bytes; body : bytes }.

Definition PEM_LABELS : list bytes := [u "CERTIFICATE"; u "PRIVATE KEY"; u "RSA PRIVATE KEY"; u "EC PRIVATE KEY"].

Definition body_class (c : N) : bool :=
  ((65 <=? c) && (c <=? 90)) || ((97 <=? c) && (c <=? 122)) || ((48 <=? c) && (c <=? 57)) ||
  existsb (N.eqb c) [43; 47; 61; 13; 10].

Definition after_prefix (p s : bytes) : option bytes :=
  if startswith p s then Some (drop (length p) s) else None.

Fixpoint span_body (s : bytes) : bytes * bytes :=
  match s with
  | c :: s' => if body_class c then let '(b, r) := span_body s' in (c :: b, r) else ([], s)
  | [] => ([], [])
  end.

(** [\r?\n] *)
Definition after_newline (s : bytes) : option bytes :=
  match s with
  | 13 :: 10 :: r => Some r
  | 10 :: r => Some r
  | _ => None
  end.

(** The pattern at the start of a text: the body holds no dash, so the match is unique. *)
Definition pem_with (l : bytes) (s : bytes) : option (bytes * bytes) :=
  r ← after_prefix (u "-----BEGIN " ++ l ++ u "-----") s;
  r ← after_newline r;
  let '(b, r) := span_body r in
  match b with
  | [] => None
  | _ => r ← after_prefix (u "-----END " ++ l ++ u "-----") r; Some (b, r)
  end.

Fixpoint pem_any (labels : list bytes) (s : bytes) : option (bytes * bytes * bytes) :=
  match labels with
  | [] => None
  | l :: rest => match pem_with l s with Some (b, r) => Some (l, b, r) | None => pem_any rest s end
  end.

(** [re.finditer]: the next match at or after a place, and all of them with what is left. *)
Fixpoint pem_next (s : bytes) : option (block * bytes) :=
  match pem_any PEM_LABELS s with
  | Some (l, b, r) => Some ({| gap := []; label := l; body := b |}, r)
  | None =>
      match s with
      | [] => None
      | c :: s' => '(m, r) ← pem_next s'; Some ({| gap := c :: gap m; label := label m; body := body m |}, r)
      end
  end.

Fixpoint pem_matches (fuel : nat) (s : bytes) : list block * bytes :=
  match fuel with
  | O => ([], s)
  | S fuel => match pem_next s with
              | Some (m, r) => let '(ms, rest) := pem_matches fuel r in (m :: ms, rest)
              | None => ([], s)
              end
  end.

(** [not b.strip()] *)
Definition blank (b : bytes) : bool := forallb octet_space b.

Definition without_newlines (b : bytes) : bytes := List.filter (fun c => negb ((c =? 13) || (c =? 10))) b.

Definition is_certificate (m : block) : bool := str_eqb (label m) (u "CERTIFICATE").

(* @src src/src/harness_conformance/live_proxy_client.py:157-164 credential_leaf *)
Definition pem_step (s : list bytes * Z) (m : block) : res (list bytes * Z) :=
  let '(certs, keys) := s in
  require (blank (gap m)) "TLS_PEM_INVALID" ;;
  payload ← b64decode_strict (without_newlines (body m));
  require (negb (str_eqb payload [])) "TLS_PEM_INVALID" ;;
  if is_certificate m then Ok (certs ++ [payload], keys)
  else _ ← _der_one payload 0x30; Ok (certs, (keys + 1)%Z).

(* @src src/src/harness_conformance/live_proxy_client.py:152-167 credential_leaf *)
Definition credential_leaf (raw : bytes) : res bytes :=
  require ((0 <? zlen raw)%Z && (zlen raw <=? 262144)%Z) "TLS_PEM_SIZE" ;;
  let '(matches, rest) := pem_matches (S (length raw)) raw in
  '(certs, keys) ← for_fold pem_step ([], 0%Z) matches;
  require (blank rest && (1 <=? zlen certs)%Z && (zlen certs <=? 8)%Z && (keys =? 1)%Z) "TLS_PEM_INVALID" ;;
  match certs with c :: _ => Ok c | [] => Raise IndexError end.

Example a2b_samples :
  map (fun s => b64decode_strict (u s)) ["abcd="; "ab=="; "ab=c"; "ab==="; "abc"; "a"; "=abcd"; "YQ=="] =
  [Ok [105; 183; 29]; Ok [105]; Raise ValueError; Raise ValueError; Raise ValueError; Raise ValueError;
   Raise ValueError; Ok [97]].
Proof. vm_compute. reflexivity. Qed.

(** ** Properties *)

(** The reader takes exactly the strict encodings.  An input is read as a list of rows if and
    only if it is, octet for octet, the concatenation of their encodings with a single
    identifier octet and the shortest definite length, at most 256 of them within 262144
    octets: nothing is skipped, dropped or read two ways, and every such encoding is read. *)
Theorem der_items_exact raw rows :
  Forall octet raw ->
  _der_items raw = Ok rows <->
  raw = concat (map whole rows) /\ Forall row_ok rows /\ (length rows <= 256)%nat /\ (zlen raw <= 262144)%Z.
Proof. apply der_items_iff. Qed.

Lemma der_items_ok raw rows : Forall octet raw -> _der_items raw = Ok rows -> raw = concat (map whole rows) /\ Forall row_ok rows.
Proof. intros Ho H. apply der_items_iff in H; [|done]. tauto. Qed.

Lemma der_one_inv raw t c :
  Forall octet raw -> _der_one raw t = Ok c -> raw = der_encode t c /\ Forall octet c.
Proof.
  intros Ho (rows & Hr & H)%bind_Ok. apply der_items_ok in Hr as [-> Hok]; [|done].
  destruct rows as [|r [|]]; try done. apply seq_Ok in H as [Ht%require_Ok [= <-]]. apply N.eqb_eq in Ht as <-.
  apply Forall_cons in Hok as [(_ & _ & Hc & Hw) _]. cbn. rewrite app_nil_r. done.
Qed.

Lemma strptime_aware s t : strptime_digits s = Ok t -> aware t = true.
Proof. unfold strptime_digits. cbv zeta. case_match; [by intros [= <-] | done]. Qed.

Lemma tags_are_eq rows tags : tags_are rows tags = true <-> map tag rows = tags.
Proof. apply str_eqb_eq. Qed.

(** *** The certificate, octet for octet *)

(** What a version 3 certificate with extensions holds: the contents of its items; the two times
    of its validity with their tags; an extension with its identifier, whether it is critical, and
    its value. *)
Record x509 := {
  x_serial : bytes; x_algorithm : bytes; x_issuer : bytes; x_first : N * bytes; x_last : N * bytes; x_subject : bytes;
  x_key : bytes; x_extensions : list (bytes * bool * bytes); x_signature : bytes
}.

Definition extension_octets (e : bytes * bool * bytes) : bytes :=
  let '(oid, critical, v) := e in
  der_encode 0x30 (der_encode 6 oid ++ (if critical then [1; 1; 0xff] else []) ++ der_encode 4 v).

(** The signed part and the whole, as X.509 lays them out. *)
Definition tbs_octets (c : x509) : bytes :=
  [0xa0; 3; 2; 1; 2] ++ der_encode 2 (x_serial c) ++ der_encode 0x30 (x_algorithm c) ++ der_encode 0x30 (x_issuer c) ++
  der_encode 0x30 (der_encode (x_first c).1 (x_first c).2 ++ der_encode (x_last c).1 (x_last c).2) ++
  der_encode 0x30 (x_subject c) ++ der_encode 0x30 (x_key c) ++
  der_encode 0xa3 (der_encode 0x30 (concat (map extension_octets (x_extensions c)))).
Definition x509_octets (c : x509) : bytes :=
  der_encode 0x30 (der_encode 0x30 (tbs_octets c) ++ der_encode 0x30 (x_algorithm c) ++ der_encode 3 (x_signature c)).

Definition has_extension (c : x509) (oid v : bytes) : Prop := exists critical, In (oid, critical, v) (x_extensions c).

Lemma row_of r t : row_ok r -> tag r = t -> whole r = der_encode t (content r).
Proof. by intros (_ & _ & _ & Hw) <-. Qed.

Lemma add_extension_inv l entry l' : row_ok entry -> add_extension l entry = Ok l' ->
  exists oid critical v, whole entry = extension_octets (oid, critical, v) /\ l' = l ++ [(oid, v)] /\ ~ In oid (dkeys l) /\ Forall octet v.
Proof.
  intros He [Ht%require_Ok%N.eqb_eq H]%seq_Ok. apply bind_Ok in H as (parts & Hp & H).
  pose proof He as (_ & _ & Ho & _). apply der_items_ok in Hp as [Ec Hok]; [|done]. apply bind_Ok in H as ([oid v] & Hv & H).
  apply seq_Ok in H as [Hd%require_Ok%negb_true_iff [= <-]].
  assert (~ In oid (dkeys l)) as Hn by (rewrite <- dhas_In; by rewrite Hd). exists oid.
  assert (forall r, row_ok r -> Forall octet (content r)) as Hoct by (by intros r (_ & _ & ? & _)).
  destruct parts as [|p [|q [|r [|]]]]; try done; apply seq_Ok in Hv as [Hv%require_Ok [= <- <-]];
    rewrite !andb_true_iff, !N.eqb_eq, ?str_eqb_eq in Hv; repeat (apply Forall_cons in Hok as [? Hok]).
  - exists false, (content q). split; [|auto]. rewrite (row_of _ _ He Ht), Ec. cbn [map concat extension_octets app].
    rewrite (row_of p 6), (row_of q 4), app_nil_r by tauto. done.
  - exists true, (content r). split; [|auto]. rewrite (row_of _ _ He Ht), Ec. cbn [map concat extension_octets].
    destruct Hv as [Hv ->]. rewrite (row_of p 6), (row_of r 4), app_nil_r by tauto. done.
Qed.

Lemma extensions_inv entries l : Forall row_ok entries -> for_fold add_extension [] entries = Ok l ->
  exists es, map whole entries = map extension_octets es /\ l = map (fun e => (e.1.1, e.2)) es /\ NoDup (map (fun e => e.1.1) es) /\
    Forall (fun e => Forall octet e.2) es.
Proof.
  intros Hok H. revert Hok. revert H.
  apply (for_fold_taken _ (fun l entries => Forall row_ok entries -> exists es, map whole entries = map extension_octets es /\
    l = map (fun e => (e.1.1, e.2)) es /\ NoDup (map (fun e => e.1.1) es) /\ Forall (fun e => Forall octet e.2) es)).
  - intros _. exists []. repeat split; constructor.
  - intros t taken x t' IH Hx [Ht Hr]%Forall_app. apply Forall_cons in Hr as [Hr _]. destruct (IH Ht) as (es & E & -> & Hn & Hes).
    destruct (add_extension_inv _ _ _ Hr Hx) as (oid & critical & v & Ew & -> & Hin & Hv). exists (es ++ [(oid, critical, v)]).
    rewrite !map_app, E. cbn [map]. rewrite Ew. split; [done |]. split; [done |]. cbn [fst]. split.
    + apply NoDup_app. split; [done |]. split; [|by apply NoDup_singleton]. intros o Ho ->%list_elem_of_singleton. apply Hin.
      unfold dkeys. rewrite map_map. by apply list_elem_of_In.
    + apply Forall_app. split; [done |]. by constructor.
Qed.

Lemma extension_of_inv c oid v : Forall (fun e => Forall octet e.2) (x_extensions c) ->
  extension_of (map (fun e => (e.1.1, e.2)) (x_extensions c)) oid = Ok v -> has_extension c oid v /\ Forall octet v.
Proof.
  intros Ho. unfold extension_of. destruct (dget _ _) as [x|] eqn:E; [|done]. intros [= <-]. apply dget_In in E.
  apply in_map_iff in E as ([[o critical] y] & [= -> ->] & Hin). split; [by exists critical |].
  rewrite List.Forall_forall in Ho. exact (Ho _ Hin).
Qed.

(** An extension that is a sequence of items. *)
Lemma extension_items c oid items : Forall (fun e => Forall octet e.2) (x_extensions c) ->
  (x ← extension_of (map (fun e => (e.1.1, e.2)) (x_extensions c)) oid; y ← _der_one x 0x30; _der_items y) = Ok items ->
  has_extension c oid (der_encode 0x30 (concat (map (fun r => der_encode (tag r) (content r)) items))).
Proof.
  intros Ho (x & Hx & H)%bind_Ok. apply extension_of_inv in Hx as [Hx Hxo]; [|done]. apply bind_Ok in H as (y & Hy & H).
  apply der_one_inv in Hy as [-> Hyo]; [|done]. apply der_items_ok in H as [-> Hok]; [|done].
  erewrite (map_ext_in _ whole); [done |]. intros r Hr. rewrite List.Forall_forall in Hok. by destruct (Hok r Hr) as (_ & _ & _ & ->).
Qed.

(** What an accepted certificate is, and what the identity takes from it. *)
Definition identity_of (c : x509) (id : certificate) : Prop :=
  leaf id = byte_digest (x509_octets c) /\ spki id = byte_digest (der_encode 0x30 (x_key c)) /\
  NoDup (map (fun e => e.1.1) (x_extensions c)) /\ has_extension c [0x55; 0x1d; 0x13] (der_encode 0x30 []) /\
  (exists items, eku id = map content items /\ Forall (fun r => tag r = 6) items /\
     has_extension c [0x55; 0x1d; 0x25] (der_encode 0x30 (concat (map (fun r => der_encode (tag r) (content r)) items)))) /\
  has_extension c [0x55; 0x1d; 0x11] (der_encode 0x30 (concat (map (fun s => der_encode s.1 s.2) (sans id)))) /\
  validity_instant {| tag := (x_first c).1; content := (x_first c).2; whole := der_encode (x_first c).1 (x_first c).2 |} = Ok (notBefore id) /\
  validity_instant {| tag := (x_last c).1; content := (x_last c).2; whole := der_encode (x_last c).1 (x_last c).2 |} = Ok (notAfter id).
Lemma certificate_identity_inv der id : Forall octet der -> certificate_identity der = Ok id -> exists c, der = x509_octets c /\ identity_of c id.
Proof.
  intros Ho (outer & Hout & H)%bind_Ok. apply der_one_inv in Hout as [Hder Hoo]; [|done].
  apply bind_Ok in H as (cert & Hc & H). apply der_items_ok in Hc as [Eo Hok]; [|done].
  apply seq_Ok in H as [Ht%require_Ok%tags_are_eq H]. destruct cert as [|r1 [|r2 [|r3 [|]]]]; try done.
  injection Ht as T1 T2 T3. repeat (apply Forall_cons in Hok as [? Hok]). clear Hok.
  apply bind_Ok in H as (tbs & Htbs & H). apply der_items_ok in Htbs as [Et Htok]; [|by destruct H0 as (_ & _ & ? & _)].
  destruct tbs as [|v [|n [|s [|i [|w [|j [|k [|x [|]]]]]]]]]; try done.
  apply seq_Ok in H as [Hs%require_Ok H]. rewrite !andb_true_iff, tags_are_eq, N.eqb_eq, !str_eqb_eq in Hs.
  destruct Hs as [[[Hv Hts] Tx] Hsa]. injection Hts as Tn Ts Ti Tw Tj Tk. repeat (apply Forall_cons in Htok as [? Htok]). clear Htok.
  apply bind_Ok in H as (window & Hw & H). apply seq_Ok in H as [_ H].
  apply der_items_ok in Hw as [Ew Hwok]; [|by destruct H7 as (_ & _ & ? & _)].
  apply bind_Ok in H as (entries & Hent & H). apply bind_Ok in Hent as (inner & Hin & Hent).
  apply der_one_inv in Hin as [Ein Hino]; [|by destruct H10 as (_ & _ & ? & _)]. apply der_items_ok in Hent as [Een Heok]; [|done].
  apply bind_Ok in H as (extensions & Hes & H). apply (extensions_inv _ _ Heok) in Hes as (es & Eex & -> & Hnd & Heso).
  apply seq_Ok in H as [_ H]. apply bind_Ok in H as (basic & Hb & H). apply seq_Ok in H as [Hb0%require_Ok%str_eqb_eq H]. subst basic.
  apply bind_Ok in H as (ekus & Hek & H). apply seq_Ok in H as [He%require_Ok H].
  apply bind_Ok in H as (names & Hsn & H). apply seq_Ok in H as [_ H].
  destruct window as [|a [|b [|]]]; try done. repeat (apply Forall_cons in Hwok as [? Hwok]).
  apply bind_Ok in H as (t1 & Ha & H). apply bind_Ok in H as (t2 & Hbt & [= <-]).
  set (c := {| x_serial := content n; x_algorithm := content r2; x_issuer := content i; x_first := (tag a, content a);
    x_last := (tag b, content b); x_subject := content j; x_key := content k; x_extensions := es; x_signature := content r3 |}).
  assert (der = x509_octets c) as E.
  { rewrite Hder, Eo. unfold x509_octets. cbn [map concat]. rewrite (row_of r1 0x30), (row_of r2 0x30), (row_of r3 3), app_nil_r by done.
    do 3 f_equal. rewrite Et. unfold tbs_octets. cbn [map concat c x_serial x_algorithm x_issuer x_first x_last x_subject x_key x_extensions fst snd].
    rewrite Hv, Hsa. rewrite (row_of n 2), (row_of r2 0x30), (row_of i 0x30), (row_of w 0x30), (row_of j 0x30), (row_of k 0x30), (row_of x 0xa3) by done.
    rewrite Ew, Ein, Een, Eex. cbn [map concat]. rewrite !app_nil_r, (row_of a (tag a)), (row_of b (tag b)) by done. done. }
  exists c. split; [done |]. unfold identity_of. cbn [leaf spki eku sans notBefore notAfter]. rewrite <- E.
  split; [done |]. split; [by rewrite (row_of k 0x30) |]. split; [done |]. split; [|split; [|split; [|split]]].
  - apply bind_Ok in Hb as (y & Hy & Hb). apply (extension_of_inv c) in Hy as [Hy Hyo]; [|done].
    apply der_one_inv in Hb as [-> _]; done.
  - exists ekus. split; [done |]. split; [|by apply (extension_items c)]. rewrite !andb_true_iff, forallb_forall in He.
    apply List.Forall_forall. intros r Hr. apply N.eqb_eq. by apply He.
  - rewrite map_map. by apply (extension_items c).
  - cbn [c x_first fst snd]. by rewrite <- (row_of a (tag a)) by done; destruct a.
  - cbn [c x_last fst snd]. by rewrite <- (row_of b (tag b)) by done; destruct b.
Qed.

(** *** The bundle *)

(** The text of a block, with the line break after its first line. *)
Definition block_text (m : block) (newline : bytes) : bytes :=
  gap m ++ u "-----BEGIN " ++ label m ++ u "-----" ++ newline ++ body m ++ u "-----END " ++ label m ++ u "-----".

Definition newline_ok (b : bytes) : Prop := b = [10] \/ b = [13; 10].

Lemma after_prefix_Some p s r : after_prefix p s = Some r -> s = p ++ r.
Proof.
  unfold after_prefix. destruct (startswith p s) eqn:E; [|done]. intros [= <-].
  apply startswith_app in E as [t ->]. by rewrite drop_app_length.
Qed.

Lemma span_body_app s b r : span_body s = (b, r) -> s = b ++ r /\ Forall (fun c => body_class c = true) b.
Proof.
  revert b r. induction s as [|c s IH]; intros b r; cbn [span_body]; [intros [= <- <-]; auto |].
  destruct (body_class c) eqn:E; [|intros [= <- <-]; auto].
  destruct (span_body s) as [b' r'] eqn:Es. intros [= <- <-]. destruct (IH _ _ eq_refl) as [-> ?]. auto.
Qed.

Lemma after_newline_Some s r : after_newline s = Some r -> exists nl, newline_ok nl /\ s = nl ++ r.
Proof.
  unfold after_newline, newline_ok. intros H. repeat case_match; simplify_eq; eauto.
Qed.

Lemma pem_with_Some l s b r :
  pem_with l s = Some (b, r) ->
  exists nl, newline_ok nl /\ b <> [] /\ s = block_text {| gap := []; label := l; body := b |} nl ++ r.
Proof.
  unfold pem_with. intros (r1 & H1 & H)%bind_Some. apply after_prefix_Some in H1 as ->.
  apply bind_Some in H as (r2 & H2 & H). apply after_newline_Some in H2 as (nl & Hnl & ->).
  destruct (span_body r2) as [b' r3] eqn:E. apply span_body_app in E as [-> _].
  destruct b' as [|c b']; [done |]. apply bind_Some in H as (r4 & H4 & [= <- <-]). apply after_prefix_Some in H4 as ->.
  exists nl. split; [done |]. split; [done |]. unfold block_text. cbn [gap label body app]. rewrite <- !app_assoc.
  cbn [app]. by rewrite <- !app_assoc.
Qed.

Lemma pem_any_Some labels s l b r :
  pem_any labels s = Some (l, b, r) -> In l labels /\ pem_with l s = Some (b, r).
Proof.
  induction labels as [|k labels IH]; [done | cbn [pem_any]].
  destruct (pem_with k s) as [[b' r']|] eqn:E; [intros [= <- <- <-]; split; [by left | done] |].
  intros [? ?]%IH. split; [by right | done].
Qed.

Lemma pem_next_Some s m r :
  pem_next s = Some (m, r) ->
  In (label m) PEM_LABELS /\ exists nl, newline_ok nl /\ s = block_text m nl ++ r.
Proof.
  revert m r. induction s as [|c s IH]; intros m r; cbn [pem_next];
    (destruct (pem_any PEM_LABELS _) as [[[l b] t]|] eqn:E;
     [intros [= <- <-]; apply pem_any_Some in E as [Hl E]; apply pem_with_Some in E as (nl & ? & _ & E); eauto |]); [done |].
  intros ([m' r'] & Hn & [= <- <-])%bind_Some. apply IH in Hn as (Hl & nl & Hnl & ->). split; [done |].
  exists nl. split; [done |]. done.
Qed.

Lemma pem_matches_app fuel s ms rest :
  pem_matches fuel s = (ms, rest) ->
  exists texts, s = concat texts ++ rest /\
    Forall2 (fun m t => In (label m) PEM_LABELS /\ exists nl, newline_ok nl /\ t = block_text m nl) ms texts.
Proof.
  revert s ms rest. induction fuel as [|fuel IH]; intros s ms rest; cbn [pem_matches].
  - intros [= <- <-]. exists []. split; [done | constructor].
  - destruct (pem_next s) as [[m r]|] eqn:E; [|intros [= <- <-]; exists []; split; [done | constructor]].
    apply pem_next_Some in E as (Hl & nl & Hnl & ->). destruct (pem_matches fuel r) as [ms' rest'] eqn:Em.
    intros [= <- <-]. apply IH in Em as (texts & -> & H). exists (block_text m nl :: texts).
    cbn [concat]. rewrite <- app_assoc. split; [done |]. constructor; [|done]. eauto.
Qed.

Lemma pem_fold_inv ms s certs keys :
  for_fold pem_step s ms = Ok (certs, keys) ->
  Forall (fun m => blank (gap m) = true) ms /\
  (exists new, certs = s.1 ++ new /\
     Forall2 (fun m c => b64decode_strict (without_newlines (body m)) = Ok c) (List.filter is_certificate ms) new) /\
  keys = (s.2 + zlen (List.filter (fun m => negb (is_certificate m)) ms))%Z.
Proof.
  revert s. induction ms as [|m ms IH]; intros [cs ks]; cbn [for_fold].
  - intros [= <- <-]. split; [constructor |]. split; [exists []; split; [by rewrite app_nil_r | constructor] |]. cbn [snd List.filter]. rewrite zlen_nil. lia.
  - intros (s' & Hs & H)%bind_Ok. apply IH in H as (Hb & (new & -> & Hnew) & ->).
    unfold pem_step in Hs. apply seq_Ok in Hs as [Hg%require_Ok Hs]. apply bind_Ok in Hs as (p & Hp & Hs).
    apply seq_Ok in Hs as [_ Hs]. split; [by constructor |]. cbn [List.filter].
    destruct (is_certificate m) eqn:E; cbn [negb].
    + injection Hs as <-. cbn [fst snd]. split; [|done]. exists (p :: new). rewrite <- app_assoc. split; [done |]. by constructor.
    + apply bind_Ok in Hs as (x & _ & [= <-]). cbn [fst snd]. split; [eauto |]. rewrite zlen_cons. lia.
Qed.

(** The credential bundle is nothing but its blocks.  When a leaf is read from a bundle, the
    whole text is a run of PEM blocks separated by blanks, one to eight of them certificates
    and exactly one a key, and the leaf is what the first certificate decodes to. *)
Theorem bundle_is_blocks raw leaf :
  credential_leaf raw = Ok leaf ->
  exists ms texts rest, raw = concat texts ++ rest /\ blank rest = true /\
    Forall2 (fun m t => In (label m) PEM_LABELS /\ exists nl, newline_ok nl /\ t = block_text m nl) ms texts /\
    Forall (fun m => blank (gap m) = true) ms /\
    length (List.filter (fun m => negb (is_certificate m)) ms) = 1%nat /\
    exists first others, List.filter is_certificate ms = first :: others /\ (length others <= 7)%nat /\
      b64decode_strict (without_newlines (body first)) = Ok leaf.
Proof.
  unfold credential_leaf. intros [_ H]%seq_Ok. destruct (pem_matches _ raw) as [ms rest] eqn:Em.
  apply bind_Ok in H as ([certs keys] & Hf & H). apply seq_Ok in H as [Hn%require_Ok H].
  rewrite !andb_true_iff, !Z.leb_le, Z.eqb_eq in Hn. destruct Hn as [[[Hb _] H8] Hk].
  apply pem_matches_app in Em as (texts & -> & Ht). apply pem_fold_inv in Hf as (Hg & (new & -> & Hnew) & ->).
  cbn [fst snd app] in *. exists ms, texts, rest. repeat (split; [done |]). split; [unfold zlen in Hk; lia |].
  destruct new as [|c new]; [done |]. injection H as <-. inversion Hnew as [|m c' ms' new' Hm Hrest Em En]; subst.
  exists m, ms'. split; [done |]. apply Forall2_length in Hrest. unfold zlen in H8. cbn [length] in H8. split; [lia | done].
Qed.

(** C33: A client certificate is the enrolled one.  When the client check passes, the octets are
    those of an X.509 version 3 certificate, laid out whole, without a repeated extension, whose
    digest is the one enrolled for the endpoint, as is the digest of its SubjectPublicKeyInfo; its
    basic constraints are those of a leaf, its extended key usage is client authentication alone,
    its subject alternative name the URN of the run alone; and it is valid throughout the
    profile's window. *)
Theorem client_certificate_pinned der profile endpoint id :
  Forall octet der -> _check_certificate der profile endpoint true = Ok id ->
  exists row binding purpose urn c start stop,
    enrolled profile endpoint = Ok [row] /\ fld profile "binding" = Ok binding /\ fld row "purpose" = Ok purpose /\
    client_urn purpose binding endpoint = Ok urn /\
    der = x509_octets c /\ NoDup (map (fun e => e.1.1) (x_extensions c)) /\
    fld_eq row "certificateDigest" (VStr (byte_digest (x509_octets c))) = Ok true /\
    fld_eq row "clientSpkiDigest" (VStr (byte_digest (der_encode 0x30 (x_key c)))) = Ok true /\
    has_extension c [0x55; 0x1d; 0x13] (der_encode 0x30 []) /\
    has_extension c [0x55; 0x1d; 0x25] (der_encode 0x30 (der_encode 6 [0x2b; 6; 1; 5; 5; 7; 3; 2])) /\
    has_extension c [0x55; 0x1d; 0x11] (der_encode 0x30 (der_encode 0x86 urn)) /\
    identity_of c id /\ eku id = [client_auth] /\ sans id = [(0x86, urn)] /\
    proxy_time binding "validFrom" = Ok start /\ proxy_time binding "expiresAt" = Ok stop /\
    time_leb (notBefore id) start = Ok true /\ time_leb stop (notAfter id) = Ok true.
Proof.
  intros Ho. unfold _check_certificate. intros (identity & Hid & H)%bind_Ok.
  apply bind_Ok in H as (binding & Hbind & H). apply bind_Ok in H as (start & Hs & H).
  apply bind_Ok in H as (stop & He & H). apply seq_Ok in H as [Hw H]. apply seq_Ok in H as [Hk%require_Ok H].
  apply bind_Ok in H as (rows & Hrows & H). destruct rows as [|row [|]]; try done.
  apply bind_Ok in H as (purpose & Hp & H). apply bind_Ok in H as (san & Hsan & H).
  apply bind_Ok in Hsan as (urn & Hurn & Hsan). cbn in Hsan. destruct (is_ascii urn); [|done]. injection Hsan as <-.
  apply seq_Ok in H as [Hpin [= <-]]. rewrite require_m_Ok, !and_m_true in Hpin, Hw.
  destruct Hpin as [[Hc Hsp] Hn], Hw as [[Hw1 _] Hw2].
  destruct (certificate_identity_inv _ _ Ho Hid) as (c & Ed & Hi). pose proof Hi as (E3 & E4 & Hnd & Hb & (items & Ei & Hit & Hek) & Hsn & _).
  rewrite E3 in Hc. rewrite E4 in Hsp.
  assert (eku identity = [client_auth]) as Eeku.
  { destruct (eku identity) as [|x [|]]; try done. by apply str_eqb_eq in Hk as ->. }
  assert (sans identity = [(0x86, urn)]) as Esan.
  { injection Hn as Hn. destruct (sans identity) as [|[t x] [|[] ?]]; cbn in Hn; try done.
    2: { by rewrite !andb_false_r in Hn. }
    rewrite andb_true_r, andb_true_iff, N.eqb_eq, str_eqb_eq in Hn. by destruct Hn as [-> ->]. }
  rewrite Esan in Hsn. rewrite Eeku in Ei. destruct items as [|r [|]]; try done. injection Ei as Ei. apply Forall_cons in Hit as [Hr _].
  cbn [map concat fst snd] in Hsn, Hek. rewrite app_nil_r in Hsn, Hek. rewrite Hr, <- Ei in Hek.
  exists row, binding, purpose, urn, c, start, stop. repeat (split; [done |]). done.
Qed.
