(* ===== verification/Http.v ===== *)
(** live_proxy_client.py: the HTTP messages of the protected transport, their header block, and
    the reader over a TLS stream.  The stream is an interface: what it carries arrives in parts
    of any size. *)

From S2P Require Import Prelude Effects PyVal Utf8 Json Sha2 Canonical Regex Text.
From S2P Require Import SchemaBase LinuxShape LinuxVerify.

#[local] Open Scope string_scope.
#[local] Open Scope list_scope.
#[local] Open Scope Z_scope.

Definition CRLF : bytes := [13; 10]%N.
Definition END_OF_HEAD : bytes := CRLF ++ CRLF.

(** ** Messages *)

Definition host_re : regex := between_ 1 253 (cls "A-Za-z0-9.:-").

(* @src src/src/harness_conformance/live_proxy_client.py:289-296 http_message *)
Definition http_message (first : str) (body : bytes) (host : option str) : res bytes :=
  require (negb (existsb (N.eqb 13) first || existsb (N.eqb 10) first)) "HTTP_MESSAGE_INVALID" ;;
  let headers := [first; u "Content-Type: application/json"; u "Content-Length: " ++ dec_N (N.of_nat (length body));
                  u "Connection: close"] in
  headers ← (match host with
             | None => Ok headers
             | Some h => require (fullmatch host_re h) "HTTP_HOST_INVALID" ;; Ok (headers ++ [u "Host: " ++ h])
             end);
  let text := join CRLF headers ++ END_OF_HEAD in
  if is_ascii text then Ok (text ++ body) else Raise ValueError.

(** [b.split(b"\r\n")]. *)
Fixpoint split_crlf (s : bytes) : list bytes :=
  match s with
  | [] => [[]]
  | c :: s' =>
      match c, s' with
      | 13%N, 10%N :: s'' => [] :: split_crlf s''
      | _, _ => match split_crlf s' with w :: ws => (c :: w) :: ws | [] => [[c]] end
      end
  end.

Definition length_re : regex := RAlt (lit "0") (seq_ (cls "1-9") (upto 6 (cls "0-9"))).

(** One header line of the loop. *)
(* @src src/src/harness_conformance/live_proxy_client.py:304-310 parse_headers *)
Definition add_header (fields : list (bytes * bytes)) (line : bytes) : res (list (bytes * bytes)) :=
  match partition (u ": ") line with
  | None => conf "HTTP_HEADERS_INVALID"
  | Some (name, value) =>
      require (negb (startswith [32%N] line || startswith [9%N] line)) "HTTP_HEADERS_INVALID" ;;
      let name := map lower_ascii name in
      require (str_in name [u "host"; u "content-type"; u "content-length"; u "connection"] && negb (dhas name fields) &&
               negb (str_eqb value []) && forallb (fun n => (32 <=? n) && (n <=? 126))%N value) "HTTP_HEADER_FORBIDDEN" ;;
      Ok (fields ++ [(name, value)])
  end.

Definition field_is (fields : list (bytes * bytes)) (name : string) (test : bytes -> bool) : bool :=
  match dget (u name) fields with Some x => test x | None => false end.

(** The request lines of the fixed cases. *)
Definition request_lines : list bytes := map (fun c => u "POST " ++ probe_path (u c) ++ u " HTTP/1.1") CASES.

(* @src src/src/harness_conformance/live_proxy_client.py:299-322 parse_headers *)
Definition parse_headers (raw : bytes) (response : bool) (host : option str) : res (bytes * Z) :=
  require ((zlen raw <=? 16384) && endswith END_OF_HEAD raw) "HTTP_HEADERS_INVALID" ;;
  let lines := split_crlf (take (length raw - 4) raw) in
  require (zlen lines <=? 32) "HTTP_HEADERS_INVALID" ;;
  fields ← for_fold add_header [] (tail lines);
  let expected := [u "content-type"; u "content-length"; u "connection"] ++ (if response then [] else [u "host"]) in
  require (forallb (fun k => dhas k fields) expected && forallb (fun k => str_in k expected) (dkeys fields) &&
           field_is fields "content-type" (str_eqb (u "application/json")) &&
           field_is fields "connection" (str_eqb (u "close")) && field_is fields "content-length" (fullmatch length_re))
    "HTTP_HEADERS_INVALID" ;;
  let length := match dget (u "content-length") fields with Some x => Z.of_N (dec_value x) | None => 0 end in
  require ((0 <? length) && (length <=? (if response then 4194304 else 16384))) "HTTP_BODY_SIZE" ;;
  let first := match lines with l :: _ => l | [] => [] end in
  (if response then require (str_eqb first (u "HTTP/1.1 200 OK")) "HTTP_STATUS_INVALID"
   else require (str_in first request_lines) "HTTP_REQUEST_TARGET" ;;
        match host with
        | None => Raise AttributeError
        | Some h => if is_ascii h then require (field_is fields "host" (str_eqb h)) "HTTP_REQUEST_TARGET"
                    else Raise ValueError
        end) ;;
  Ok (first, length).

(** ** Reading from a stream *)

(** Clock readings are in nanoseconds. *)
Definition SECOND : Z := 1000000000.

(** A TLS stream: a read of at most so many octets until a deadline, the clock, the stream's own
    deadline, the decrypted octets not yet read, and the octets received but not decrypted. *)
Class Tls (S : Type) := {
  tls_read : Z -> option Z -> io S bytes;
  monotonic : io S Z;
  tls_deadline : S -> Z;
  ssl_pending : S -> Z;
  incoming_pending : S -> Z
}.

(** What a stream is to carry: a read takes some of it, at most what was asked for, and nothing
    but the end when all of it was taken; then nothing is pending. *)
Class TlsOk {S : Type} (T : Tls S) := {
  carries : S -> bytes -> Prop;
  read_some s b n d : carries s b -> 0 < n -> b <> [] ->
    exists p rest s', tls_read n d s = (Ok p, s') /\ p <> [] /\ zlen p <= n /\ b = p ++ rest /\ carries s' rest;
  read_end s n d : carries s [] -> exists s', tls_read n d s = (Ok [], s') /\ carries s' [];
  drained s : carries s [] -> ssl_pending s = 0 /\ incoming_pending s = 0;
  carries_on s b : carries s b -> exists t s', monotonic s = (Ok t, s') /\ carries s' b
}.

Section reader.
Context {S : Type} {T : Tls S}.

(** The header loop; each pass adds an octet at least, and stops at 16384. *)
Fixpoint read_head (fuel : nat) (data : bytes) (deadline : Z) : io S bytes :=
  if substr_in END_OF_HEAD data then mret data
  else match fuel with
  | O => throw RecursionError
  | Datatypes.S fuel =>
      check (zlen data <? 16384) "HTTP_HEADERS_SIZE" ;;
      part ← tls_read (Z.min 4096 (16384 - zlen data)) (Some deadline);
      check (negb (str_eqb part [])) "HTTP_TRUNCATED_HEADERS" ;;
      read_head fuel (data ++ part) deadline
  end.

Fixpoint read_body (fuel : nat) (body : bytes) (size : Z) : io S bytes :=
  if zlen body <? size then
    match fuel with
    | O => throw RecursionError
    | Datatypes.S fuel =>
        part ← tls_read (Z.min 65536 (size + 1 - zlen body)) None;
        check (negb (str_eqb part [])) "HTTP_TRUNCATED_BODY" ;;
        check (zlen (body ++ part) <=? size) "HTTP_SURPLUS" ;;
        read_body fuel (body ++ part) size
    end
  else mret body.

(* @src src/src/harness_conformance/live_proxy_client.py:325-349 read_http *)
Definition read_http (response : bool) (host : option str) : io S (bytes * bytes) :=
  now ← monotonic;
  limit ← reads (fun s => Ok (tls_deadline s));
  data ← read_head (Z.to_nat 16385) [] (Z.min limit (now + 10 * SECOND));
  let '(headers, body) := match partition END_OF_HEAD data with Some p => p | None => (data, []) end in
  '(first, size) ← lift (parse_headers (headers ++ END_OF_HEAD) response host);
  check (zlen body <=? size) "HTTP_SURPLUS" ;;
  body ← read_body (Z.to_nat (size - zlen body)) body size;
  none ← reads (fun s => Ok (ssl_pending s =? 0));
  check none "HTTP_PIPELINING" ;;
  (if response then mret tt
   else none ← reads (fun s => Ok (incoming_pending s =? 0)); check none "HTTP_BUFFERED_RECORD_SURPLUS") ;;
  (if response then last ← tls_read 1 None; check (str_eqb last []) "HTTP_SURPLUS" else mret tt) ;;
  mret (first, body).
End reader.

(** ** The reader over any stream *)

(** A first match stays the first one when the text grows. *)
Lemma find_app p s t n : find p s = Some n -> find p (s ++ t) = Some n.
Proof.
  revert n. induction s as [|c s IH]; intros n; cbn [find].
  - destruct (startswith p []) eqn:E; [|done]. intros [= <-]. destruct p; [|done]. by destruct t.
  - destruct (startswith p (c :: s)) eqn:E.
    + intros [= <-]. apply startswith_app in E as [r E]. change ((c :: s) ++ t) with (c :: (s ++ t)). cbn [find].
      replace (startswith p (c :: s ++ t)) with true; [done |]. symmetry. apply startswith_app.
      exists (r ++ t). change (c :: s ++ t) with ((c :: s) ++ t). by rewrite E, <- app_assoc.
    + destruct (find p s) as [m|] eqn:Em; [|done]. intros [= <-]. change ((c :: s) ++ t) with (c :: (s ++ t)).
      cbn [find]. rewrite (IH m eq_refl). destruct (startswith p (c :: s ++ t)) eqn:E'; [|done].
      apply find_take in Em. apply startswith_app in E' as [r E']. exfalso.
      assert (startswith p (c :: s) = true) as Hs; [|congruence]. apply startswith_app.
      assert (length p <= length (c :: s))%nat as Hl.
      { cbn [length]. rewrite Em at 1. rewrite !length_app. lia. }
      exists (drop (length p) (c :: s)). rewrite <- (take_drop (length p) (c :: s)) at 1. f_equal.
      assert (take (length p) ((c :: s) ++ t) = p) as Ht by (cbn [app]; rewrite E'; apply take_app_length).
      rewrite take_app_le in Ht by done. done.
Qed.

Lemma substr_find p s : substr_in p s = true <-> is_Some (find p s).
Proof.
  induction s as [|c s IH]; cbn [substr_in find].
  - rewrite orb_false_r. destruct (startswith p []); split; eauto; [done | by intros []].
  - destruct (startswith p (c :: s)); cbn [orb]; [split; eauto |]. rewrite IH.
    destruct (find p s); cbn; split; intros [? ?]; eauto; done.
Qed.

Lemma partition_grow p s t a b : partition p s = Some (a, b) -> partition p (s ++ t) = Some (a, b ++ t).
Proof.
  unfold partition. destruct (find p s) as [n|] eqn:E; [|done]. cbn [mbind option_bind]. rewrite (find_app _ _ t _ E).
  intros [= <- <-]. apply find_bound in E.
  cbn. rewrite take_app_le, drop_app_le by lia. done.
Qed.

Lemma partition_Some p s : is_Some (find p s) -> exists a b, partition p s = Some (a, b).
Proof. unfold partition. intros [n ->]. by eexists _, _. Qed.

Lemma substr_mid p a b : substr_in p (a ++ p ++ b) = true.
Proof.
  induction a as [|c a IH]; cbn [app].
  - destruct (p ++ b) as [|x r] eqn:E; cbn [substr_in].
    + apply app_eq_nil in E as [-> _]. done.
    + rewrite <- E. rewrite (proj2 (startswith_app p (p ++ b))) by eauto. done.
  - cbn [substr_in]. by rewrite IH, orb_true_r.
Qed.

Lemma nonempty_neq (p : bytes) : negb (str_eqb p []) = true <-> p <> [].
Proof. rewrite negb_true_iff. apply str_eqb_neq. Qed.

Section runs.
Context {S : Type} {T : Tls S} {TOk : TlsOk T}.

(** A read of a stream that carries [b]: a part of it, none only at the end. *)
Lemma read_step s b n d : carries s b -> 0 < n ->
  exists p rest s', tls_read n d s = (Ok p, s') /\ zlen p <= n /\ b = p ++ rest /\ carries s' rest /\ (p = [] <-> b = []).
Proof.
  intros Hc Hn. destruct b as [|x b].
  - destruct (read_end s n d Hc) as (s' & E & Hc'). exists [], [], s'. rewrite zlen_nil. repeat split; try done. lia.
  - destruct (read_some s (x :: b) n d Hc Hn) as (p & rest & s' & E & Hp & Hl & Eb & Hc'); [done |].
    exists p, rest, s'. repeat split; try done.
Qed.

Lemma read_head_sound fuel data d s rest data' s' :
  carries s rest -> zlen data <= 16384 -> read_head fuel data d s = (Ok data', s') ->
  exists rest', carries s' rest' /\ data' ++ rest' = data ++ rest /\ substr_in END_OF_HEAD data' = true /\
    zlen data' <= 16384.
Proof.
  revert data s rest. induction fuel as [|fuel IH]; intros data s rest Hc Hl; cbn [read_head];
    (destruct (substr_in END_OF_HEAD data) eqn:E; [intros [= <- <-]; by exists rest |]); [done |].
  rewrite io_bind_Ok. intros ([] & s1 & [Hlt ->]%check_Ok & H). apply Z.ltb_lt in Hlt.
  apply io_bind_Ok in H as (part & s2 & Hr & H).
  destruct (read_step s rest (Z.min 4096 (16384 - zlen data)) (Some d) Hc) as (p & r & s3 & Er & Hp & -> & Hc3 & _); [lia |].
  rewrite Er in Hr. injection Hr as <- <-. apply io_bind_Ok in H as ([] & s4 & [_ ->]%check_Ok & H).
  destruct (IH (data ++ p) s3 r Hc3) as (rest' & ? & E' & ? & ?); [rewrite zlen_app; lia | done |].
  exists rest'. rewrite E', <- app_assoc. done.
Qed.

Lemma read_head_complete fuel data d s rest h body :
  carries s rest -> data ++ rest = h ++ END_OF_HEAD ++ body -> zlen h + 4 <= 16384 -> zlen data <= 16384 ->
  (Z.to_nat (16384 - zlen data) < fuel)%nat ->
  exists data' s', read_head fuel data d s = (Ok data', s').
Proof.
  revert data s rest. induction fuel as [|fuel IH]; intros data s rest Hc E Hh Hl Hf; [lia |]. cbn [read_head].
  destruct (substr_in END_OF_HEAD data) eqn:Es; [by eexists _, _ |].
  assert (zlen data < zlen h + 4) as Hlt.
  { destruct (Z.lt_ge_cases (zlen data) (zlen h + 4)) as [|Hge]; [done | exfalso].
    assert (data = h ++ END_OF_HEAD ++ drop (length h + 4) data) as Ed.
    { rewrite <- (take_drop (length h + 4) data) at 1. rewrite app_assoc. f_equal.
      assert (take (length h + 4) (data ++ rest) = h ++ END_OF_HEAD) as Et.
      { rewrite E, app_assoc. rewrite take_app_le by (rewrite length_app; cbn; lia). apply take_ge. rewrite length_app. cbn. lia. }
      rewrite take_app_le in Et by (unfold zlen in *; lia). done. }
    rewrite Ed, substr_mid in Es. done. }
  assert (rest <> []) as Hrest.
  { intros ->. rewrite app_nil_r in E. rewrite E, substr_mid in Es. done. }
  unfold mbind at 1, io_bind at 1, check at 1, lift at 1. rewrite (proj2 (Z.ltb_lt _ _)) by lia. cbn [require].
  destruct (read_step s rest (Z.min 4096 (16384 - zlen data)) (Some d) Hc) as (p & r & s3 & Er & Hp & -> & Hc3 & Hnil); [lia |].
  unfold mbind at 1, io_bind at 1. rewrite Er. unfold mbind, io_bind, check, lift.
  assert (p <> []) as Hpn by tauto. rewrite (proj2 (nonempty_neq p) Hpn). cbn [require].
  destruct p as [|x p]; [done |].
  apply (IH (data ++ x :: p) s3 r); [done | by rewrite <- app_assoc | done | rewrite zlen_app; lia |].
  rewrite zlen_app, zlen_cons. pose proof (zlen_nonneg p). lia.
Qed.

Lemma read_body_sound fuel body size s rest body' s' :
  carries s rest -> zlen body <= size -> read_body fuel body size s = (Ok body', s') ->
  exists rest', carries s' rest' /\ body' ++ rest' = body ++ rest /\ zlen body' = size.
Proof.
  revert body s rest. induction fuel as [|fuel IH]; intros body s rest Hc Hl; cbn [read_body].
  - destruct (zlen body <? size) eqn:E; [done |]. apply Z.ltb_ge in E. intros [= <- <-]. exists rest. repeat split; [done | lia].
  - destruct (zlen body <? size) eqn:E.
    2: { apply Z.ltb_ge in E. intros [= <- <-]. exists rest. repeat split; [done | lia]. }
    apply Z.ltb_lt in E. intros (part & s2 & Hr & H)%io_bind_Ok.
    destruct (read_step s rest (Z.min 65536 (size + 1 - zlen body)) None Hc) as (p & r & s3 & Er & Hp & -> & Hc3 & _); [lia |].
    rewrite Er in Hr. injection Hr as <- <-. apply io_bind_Ok in H as ([] & s4 & [_ ->]%check_Ok & H).
    apply io_bind_Ok in H as ([] & s5 & [Hs%Z.leb_le ->]%check_Ok & H).
    destruct (IH (body ++ p) s3 r Hc3 Hs H) as (rest' & ? & E' & ?). exists rest'. by rewrite E', <- app_assoc.
Qed.

Lemma read_body_complete fuel body size s rest :
  carries s rest -> zlen (body ++ rest) = size -> (Z.to_nat (size - zlen body) <= fuel)%nat ->
  exists s', read_body fuel body size s = (Ok (body ++ rest), s') /\ carries s' [].
Proof.
  revert body s rest. induction fuel as [|fuel IH]; intros body s rest Hc E Hf; cbn [read_body]; rewrite zlen_app in E;
    (destruct (Z.ltb_spec (zlen body) size) as [Hlt|Hge];
     [|destruct rest as [|x rest]; [rewrite app_nil_r; by eexists | rewrite zlen_cons in E; pose proof (zlen_nonneg rest); lia]]);
    [lia |].
  destruct (read_step s rest (Z.min 65536 (size + 1 - zlen body)) None Hc) as (p & r & s3 & Er & Hp & -> & Hc3 & Hnil); [lia |].
  rewrite zlen_app in E. pose proof (zlen_nonneg r).
  destruct p as [|x p].
  { destruct Hnil as [Hnil _]. cbn [app] in Hnil. rewrite (Hnil eq_refl) in E. unfold zlen in *. simpl in E. lia. }
  unfold mbind at 1, io_bind at 1. rewrite Er. unfold mbind, io_bind, check, lift. cbn [str_eqb negb require].
  rewrite (proj2 (Z.leb_le _ _)) by (rewrite zlen_app; lia). cbn [require].
  destruct (IH (body ++ x :: p) s3 r Hc3) as (s' & H' & Hc').
  - rewrite !zlen_app. lia.
  - rewrite zlen_app, zlen_cons. pose proof (zlen_nonneg p). lia.
  - exists s'. split; [|done]. rewrite H'. by rewrite <- app_assoc.
Qed.

Lemma parse_headers_size raw response host r : parse_headers raw response host = Ok r -> zlen raw <= 16384 /\ 0 < r.2.
Proof.
  unfold parse_headers. rewrite seq_Ok, require_Ok, andb_true_iff, Z.leb_le. intros [[Hl _] H]. split; [done |].
  apply seq_Ok in H as [_ H]. apply bind_Ok in H as (fields & _ & H). apply seq_Ok in H as [_ H].
  apply seq_Ok in H as [Hp%require_Ok H]. apply andb_true_iff in Hp as [Hp%Z.ltb_lt _].
  apply seq_Ok in H as [_ [= <-]]. done.
Qed.

(** The head of what a stream carries is found, however it arrives. *)
Lemma read_head_run s b h body d :
  carries s b -> partition END_OF_HEAD b = Some (h, body) -> zlen h + 4 <= 16384 ->
  exists data part rest s', read_head (Z.to_nat 16385) [] d s = (Ok data, s') /\ carries s' rest /\
    partition END_OF_HEAD data = Some (h, part) /\ body = part ++ rest.
Proof.
  intros Hc Hp Hl. pose proof (partition_app _ _ _ _ Hp) as E.
  destruct (read_head_complete (Z.to_nat 16385) [] d s b h body Hc E Hl) as (data & s' & Hr);
    [rewrite zlen_nil; lia | rewrite zlen_nil; lia |].
  destruct (read_head_sound _ _ _ _ _ _ _ Hc ltac:(rewrite zlen_nil; lia) Hr) as (rest & Hc' & E' & Hs & _).
  apply substr_find, partition_Some in Hs as (h' & part & Hpd). cbn [app] in E'.
  pose proof (partition_grow _ _ rest _ _ Hpd) as Hg. rewrite E', Hp in Hg. injection Hg as <- ->.
  by exists data, part, rest, s'.
Qed.

Lemma read_http_complete s b response host h first body :
  carries s b -> partition END_OF_HEAD b = Some (h, body) ->
  parse_headers (h ++ END_OF_HEAD) response host = Ok (first, zlen body) ->
  exists s', read_http response host s = (Ok (first, body), s').
Proof.
  intros Hc Hp Hh. pose proof (parse_headers_size _ _ _ _ Hh) as [Hl _]. rewrite zlen_app in Hl. change (zlen END_OF_HEAD) with 4 in Hl.
  unfold read_http. destruct (carries_on s b Hc) as (t & s1 & Et & Hc1).
  unfold mbind at 1, io_bind at 1. rewrite Et. unfold mbind at 1, io_bind at 1, reads at 1.
  destruct (read_head_run s1 b h body (Z.min (tls_deadline s1) (t + 10 * SECOND)) Hc1 Hp Hl)
    as (data & part & rest & s2 & Er & Hc2 & Hpd & ->).
  unfold mbind at 1, io_bind at 1. rewrite Er, Hpd. unfold mbind at 1, io_bind at 1, lift at 1. rewrite Hh.
  unfold mbind at 1, io_bind at 1, check at 1, lift at 1.
  rewrite (proj2 (Z.leb_le _ _)) by (rewrite zlen_app; pose proof (zlen_nonneg rest); lia). cbn [require].
  destruct (read_body_complete (Z.to_nat (zlen (part ++ rest) - zlen part)) part (zlen (part ++ rest)) s2 rest Hc2 eq_refl)
    as (s3 & Eb & Hc3); [done |].
  unfold mbind at 1, io_bind at 1. rewrite Eb. destruct (drained s3 Hc3) as [H1 H2].
  unfold mbind at 1, io_bind at 1, reads at 1. rewrite H1. cbn [Z.eqb].
  unfold mbind at 1, io_bind at 1, check at 1, lift at 1. cbn [require].
  destruct response.
  - unfold mbind at 1, io_bind at 1, mret at 1, io_ret at 1. destruct (read_end s3 1 None Hc3) as (s4 & E4 & _).
    unfold mbind, io_bind. rewrite E4. by eexists.
  - unfold mbind, io_bind, reads. rewrite H2. by eexists.
Qed.

Lemma read_http_sound s b host first body s' :
  carries s b -> read_http true host s = (Ok (first, body), s') ->
  exists h, partition END_OF_HEAD b = Some (h, body) /\ parse_headers (h ++ END_OF_HEAD) true host = Ok (first, zlen body).
Proof.
  intros Hc. unfold read_http. intros (t & s1 & Et & H)%io_bind_Ok.
  destruct (carries_on s b Hc) as (t' & s1' & Et' & Hc1). rewrite Et in Et'. injection Et' as <- <-.
  apply io_bind_Ok in H as (limit & s2 & Hl & H). injection Hl as _ <-.
  apply io_bind_Ok in H as (data & s2 & Hr & H).
  destruct (read_head_sound _ _ _ _ _ _ _ Hc1 ltac:(rewrite zlen_nil; lia) Hr) as (rest & Hc2 & E & Hs & _). cbn [app] in E.
  apply substr_find, partition_Some in Hs as (h & part & Hpd). rewrite Hpd in H.
  apply io_bind_Ok in H as ([f size] & s3 & [Hh ->]%lift_Ok & H).
  apply io_bind_Ok in H as ([] & s3' & [Hle%Z.leb_le ->]%check_Ok & H).
  apply io_bind_Ok in H as (body' & s3 & Hb & H).
  destruct (read_body_sound _ _ _ _ _ _ _ Hc2 Hle Hb) as (rest' & Hc3 & E' & Hsize).
  apply io_bind_Ok in H as (z & s4 & Hz & H). injection Hz as _ <-.
  apply io_bind_Ok in H as ([] & s4 & [_ ->]%check_Ok & H). apply io_bind_Ok in H as ([] & s4 & [= <-] & H).
  apply io_bind_Ok in H as ([] & s5 & (last & s6 & Hlast & Hn)%io_bind_Ok & [= <- <- <-]).
  apply check_Ok in Hn as [Hn%str_eqb_eq ->]. subst last.
  destruct (read_step s3 rest' 1 None Hc3) as (p & r & s7 & E7 & _ & Er & _ & Hnil); [lia |].
  rewrite Hlast in E7. injection E7 as <- _. assert (rest' = []) as -> by tauto. rewrite app_nil_r in E'. subst body'.
  exists h. rewrite Hsize. split; [|done]. rewrite <- E. by apply partition_grow.
Qed.

(** C34: A response is what the stream carries, all of it and nothing else.  Over every stream, in
    whatever parts its octets arrive, [read_http] returns a first line and a body exactly when
    the octets carried up to the end of the stream are an accepted header block, at most 16384
    octets with its final blank line, and then the body, whose length is the declared one. *)
Theorem http_response_exact s b host first body :
  carries s b ->
  (exists s', read_http true host s = (Ok (first, body), s')) <->
  exists h, partition END_OF_HEAD b = Some (h, body) /\ parse_headers (h ++ END_OF_HEAD) true host = Ok (first, zlen body).
Proof.
  intros Hc. split.
  - intros [s' H]. by eapply read_http_sound.
  - intros (h & Hp & Hh). by eapply read_http_complete.
Qed.
End runs.

(** ** A message is read back *)

Definition no_cr (s : bytes) : Prop := Forall (fun c => c <> 13%N) s.

Lemma startswith_end_skip c s : c <> 13%N -> startswith END_OF_HEAD (c :: s) = false.
Proof.
  intros H. change (startswith END_OF_HEAD (c :: s)) with ((13 =? c)%N && startswith [10; 13; 10]%N s).
  by rewrite (proj2 (N.eqb_neq 13 c)).
Qed.

Lemma find_line w s n : no_cr w -> find END_OF_HEAD s = Some n -> find END_OF_HEAD (w ++ s) = Some (length w + n)%nat.
Proof.
  intros Hw Hs. induction Hw as [|c w Hc Hw IH]; [done |]. cbn [app find]. by rewrite startswith_end_skip, IH by done.
Qed.

Lemma find_break c s n : c <> 13%N -> find END_OF_HEAD (c :: s) = Some n ->
  find END_OF_HEAD (CRLF ++ c :: s) = Some (2 + n)%nat.
Proof.
  intros Hc Hs. unfold CRLF. cbn [app]. remember (c :: s) as t. cbn [find].
  assert (startswith END_OF_HEAD (13 :: 10 :: t)%N = false) as ->.
  { subst t. change (startswith END_OF_HEAD (13 :: 10 :: c :: s)%N) with ((13 =? c)%N && startswith [10%N] s).
    by rewrite (proj2 (N.eqb_neq 13 c)). }
  rewrite startswith_end_skip by done. by rewrite Hs.
Qed.

Lemma find_head lines b : Forall (fun l => l <> [] /\ no_cr l) lines -> lines <> [] ->
  find END_OF_HEAD (join CRLF lines ++ END_OF_HEAD ++ b) = Some (length (join CRLF lines)).
Proof.
  intros H. induction H as [|l lines [Hl Hc] H IH]; [done | intros _].
  assert (find END_OF_HEAD (END_OF_HEAD ++ b) = Some 0%nat) as H0.
  { unfold END_OF_HEAD, CRLF. cbn [app find]. by destruct b. }
  destruct lines as [|l2 lines].
  - cbn [join]. rewrite (find_line l _ 0 Hc H0). f_equal. lia.
  - change (join CRLF (l :: l2 :: lines)) with (l ++ CRLF ++ join CRLF (l2 :: lines)).
    rewrite <- !app_assoc. apply Forall_cons in H as [[Hl2 Hc2] _].
    assert (exists c t, join CRLF (l2 :: lines) ++ END_OF_HEAD ++ b = c :: t /\ c <> 13%N) as (c & t & E & Hc13).
    { destruct l2 as [|c l2]; [done |]. apply Forall_cons in Hc2 as [? _]. exists c. destruct lines; by eexists. }
    rewrite E in *. rewrite (find_line l _ _ Hc (find_break c t _ Hc13 (IH ltac:(done)))).
    rewrite !length_app. done.
Qed.

Lemma partition_head lines b : Forall (fun l => l <> [] /\ no_cr l) lines -> lines <> [] ->
  partition END_OF_HEAD (join CRLF lines ++ END_OF_HEAD ++ b) = Some (join CRLF lines, b).
Proof.
  intros H Hn. unfold partition. rewrite find_head by done. cbn [mbind option_bind]. rewrite take_app_length.
  by rewrite app_assoc, <- length_app, drop_app_length.
Qed.

Lemma split_crlf_cons c s : c <> 13%N ->
  split_crlf (c :: s) = match split_crlf s with w :: ws => (c :: w) :: ws | [] => [[c]] end.
Proof. intros H. cbn [split_crlf]. destruct c as [|p]; [done |]. repeat (destruct p; try done). Qed.

Lemma split_line w s : no_cr w -> split_crlf (w ++ CRLF ++ s) = w :: split_crlf s.
Proof.
  intros Hw. induction Hw as [|c w Hc Hw IH]; [done |]. change ((c :: w) ++ CRLF ++ s) with (c :: (w ++ CRLF ++ s)).
  by rewrite split_crlf_cons, IH.
Qed.

Lemma split_last w : no_cr w -> split_crlf w = [w].
Proof. intros Hw. induction Hw as [|c w Hc Hw IH]; [done |]. by rewrite split_crlf_cons, IH. Qed.

Lemma split_join lines : Forall no_cr lines -> lines <> [] -> split_crlf (join CRLF lines) = lines.
Proof.
  intros H. induction H as [|l lines Hl H IH]; [done | intros _]. destruct lines as [|l2 lines]; [by apply split_last |].
  change (join CRLF (l :: l2 :: lines)) with (l ++ CRLF ++ join CRLF (l2 :: lines)).
  by rewrite split_line, IH.
Qed.

(** *** Each header *)

Lemma add_header_ok fields (name : string) value :
  In name ["Host"; "Content-Type"; "Content-Length"; "Connection"] ->
  dhas (map lower_ascii (u name)) fields = false -> value <> [] ->
  Forall (fun n => (32 <= n)%N /\ (n <= 126)%N) value ->
  add_header fields (u name ++ u ": " ++ value) = Ok (fields ++ [(map lower_ascii (u name), value)]).
Proof.
  intros Hin Hf Hv Hp. unfold add_header.
  assert (partition (u ": ") (u name ++ u ": ") = Some (u name, [])) as E
    by (destruct Hin as [<- | [<- | [<- | [<- | []]]]]; by vm_compute).
  apply (partition_grow _ _ value) in E. rewrite <- app_assoc in E. rewrite E. cbn [app].
  assert (startswith [32%N] (u name ++ u ": " ++ value) || startswith [9%N] (u name ++ u ": " ++ value) = false) as ->
    by (destruct Hin as [<- | [<- | [<- | [<- | []]]]]; reflexivity).
  assert (str_in (map lower_ascii (u name)) [u "host"; u "content-type"; u "content-length"; u "connection"] = true) as ->
    by (destruct Hin as [<- | [<- | [<- | [<- | []]]]]; by vm_compute).
  rewrite Hf, (proj2 (nonempty_neq value) Hv). cbn [negb require andb mbind res_bind].
  replace (forallb _ value) with true; [done |]. symmetry. apply forallb_forall. rewrite List.Forall_forall in Hp.
  intros n Hn. apply andb_true_iff. rewrite !N.leb_le. by apply Hp.
Qed.

Lemma is_digit_bounds c : is_digit c = true <-> (48 <= c <= 57)%N.
Proof. unfold is_digit. rewrite andb_true_iff, !N.leb_le. done. Qed.

Lemma dec_N_length_re n : (0 < n)%N -> (n < 10000000)%N -> fullmatch length_re (dec_N n) = true.
Proof.
  intros H0 H. apply fullmatch_spec. unfold length_re. rewrite lang_alt_inv. right. rewrite seq_lang, lang_seq_inv.
  pose proof (dec_N_digits n) as Hd. pose proof (dec_N_value n) as Hv.
  assert (length (dec_N n) <= 7)%nat as Hl by (apply dec_N_length; [exact H | lia]).
  destruct (dec_N_shape n) as [E | (c & ds & E & Hc & Hc0)].
  { rewrite E in Hv. cbn in Hv. lia. }
  rewrite E in *. apply Forall_cons in Hd as [_ Hd]. cbn [length] in Hl.
  exists [c], ds. split; [done |]. apply is_digit_bounds in Hc. split.
  - constructor. change (in_class (class_ranges (u "1-9")) c) with ((49 <=? c)%N && (c <=? 57)%N || false). rewrite orb_false_r, andb_true_iff, !N.leb_le. lia.
  - apply lang_upto_class. split; [lia |]. revert Hd. apply List.Forall_impl. intros a Ha%is_digit_bounds.
    change (in_class (class_ranges (u "0-9")) a) with ((48 <=? a)%N && (a <=? 57)%N || false). rewrite orb_false_r, andb_true_iff, !N.leb_le. lia.
Qed.

(** *** The block of a message *)

Definition header_lines (first : str) (body : bytes) (host : option str) : list bytes :=
  [first; u "Content-Type" ++ u ": " ++ u "application/json";
   u "Content-Length" ++ u ": " ++ dec_N (N.of_nat (length body)); u "Connection" ++ u ": " ++ u "close"] ++
  match host with None => [] | Some h => [u "Host" ++ u ": " ++ h] end.

Definition visible (s : bytes) : Prop := Forall (fun n => (32 <= n)%N /\ (n <= 126)%N) s.

Lemma visible_forallb s : forallb (fun n => (32 <=? n) && (n <=? 126))%N s = true -> visible s.
Proof.
  rewrite forallb_forall. intros H. apply List.Forall_forall. intros n Hn. specialize (H n Hn).
  by rewrite andb_true_iff, !N.leb_le in H.
Qed.

Lemma visible_no_cr s : visible s -> no_cr s.
Proof. apply List.Forall_impl. lia. Qed.

Lemma visible_ascii s : visible s -> is_ascii s = true.
Proof.
  intros H. apply forallb_forall. unfold visible in H. rewrite List.Forall_forall in H. intros n Hn. apply N.ltb_lt. specialize (H n Hn). lia.
Qed.

Lemma dec_N_visible n : visible (dec_N n).
Proof. eapply List.Forall_impl; [|apply dec_N_digits]. intros a Ha%is_digit_bounds. lia. Qed.

Lemma host_visible h : fullmatch host_re h = true -> visible h /\ h <> [].
Proof.
  intros H%fullmatch_spec. unfold host_re, between_ in H. rewrite seq_lang, lang_seq_inv in H.
  destruct H as (y & z & -> & Hy & Hz). unfold cls in *. rewrite lang_rep_class in Hy. rewrite lang_upto_class in Hz.
  destruct Hy as [Hl Hy], Hz as [_ Hz]. split; [|destruct y; [done |]; done].
  assert (forall c, in_class (class_ranges (u "A-Za-z0-9.:-")) c = true -> (32 <= c)%N /\ (c <= 126)%N) as Hc.
  { intros c Hin. apply existsb_exists in Hin as ([lo hi] & Hin & Hb). rewrite andb_true_iff, !N.leb_le in Hb.
    vm_compute in Hin. intuition simplify_eq; lia. }
  apply Forall_app. split; eapply List.Forall_impl; [|exact Hy| |exact Hz]; intros; by apply Hc.
Qed.

Lemma lines_visible first body host :
  visible first -> first <> [] -> (forall h, host = Some h -> visible h) ->
  Forall (fun l => l <> [] /\ visible l) (header_lines first body host).
Proof.
  intros Hf Hn Hh. unfold header_lines. apply Forall_app. split.
  - repeat apply Forall_cons_2; try apply Forall_nil_2; (split; [done |]); [done | by apply visible_forallb | |
      by apply visible_forallb].
    repeat (apply Forall_app; split); [by apply visible_forallb | by apply visible_forallb | apply dec_N_visible].
  - destruct host as [h|]; [|constructor]. constructor; [|constructor]. split; [done |].
    repeat (apply Forall_app; split); [by apply visible_forallb | by apply visible_forallb | by apply Hh].
Qed.

Lemma join_ascii lines : Forall (fun l => is_ascii l = true) lines -> is_ascii (join CRLF lines ++ END_OF_HEAD) = true.
Proof.
  assert (forall a b, is_ascii (a ++ b) = is_ascii a && is_ascii b) as Happ by (intros; apply forallb_app).
  intros H. rewrite Happ. cbn [is_ascii END_OF_HEAD CRLF app forallb]. rewrite andb_true_r.
  induction H as [|l lines Hl H IH]; [done |]. destruct lines as [|l2 lines]; [done |].
  change (join CRLF (l :: l2 :: lines)) with (l ++ CRLF ++ join CRLF (l2 :: lines)). by rewrite !Happ, Hl, IH.
Qed.

Lemma http_message_text first body host :
  visible first -> first <> [] -> (forall h, host = Some h -> fullmatch host_re h = true) ->
  http_message first body host = Ok ((join CRLF (header_lines first body host) ++ END_OF_HEAD) ++ body).
Proof.
  intros Hf Hn Hh. unfold http_message. apply seq_Ok. split.
  { apply require_Ok, negb_true_iff, orb_false_iff.
    split; apply not_true_is_false; intros (c & Hin & <-%N.eqb_eq)%existsb_exists;
      unfold visible in Hf; rewrite List.Forall_forall in Hf; specialize (Hf _ Hin); lia. }
  apply bind_Ok. exists (header_lines first body host). split.
  { destruct host as [h|]; [rewrite (Hh h eq_refl) |]; reflexivity. }
  rewrite join_ascii; [done |].
  eapply List.Forall_impl; [|apply lines_visible; [exact Hf | exact Hn |]].
  - intros l [_ Hl]. by apply visible_ascii.
  - intros h ->. by apply host_visible, Hh.
Qed.

Definition fields_of (body : bytes) (host : option str) : list (bytes * bytes) :=
  [(u "content-type", u "application/json"); (u "content-length", dec_N (N.of_nat (length body))); (u "connection", u "close")] ++
  match host with None => [] | Some h => [(u "host", h)] end.

Lemma dec_N_nonempty n : dec_N n <> [].
Proof. destruct (dec_N_shape n) as [-> | (c & ds & -> & _)]; done. Qed.

Lemma header_fields first body host :
  (forall h, host = Some h -> fullmatch host_re h = true) ->
  for_fold add_header [] (tail (header_lines first body host)) = Ok (fields_of body host).
Proof.
  intros Hh. unfold header_lines. cbn [app tail for_fold].
  rewrite add_header_ok; [|naive_solver|done|done|by apply visible_forallb]. cbn [mbind res_bind].
  rewrite add_header_ok; [|naive_solver|by vm_compute|apply dec_N_nonempty|apply dec_N_visible]. cbn [mbind res_bind].
  rewrite add_header_ok; [|naive_solver|by vm_compute|done|by apply visible_forallb]. cbn [mbind res_bind].
  destruct host as [h|]; [|done]. cbn [for_fold]. destruct (host_visible h (Hh h eq_refl)) as [? ?].
  rewrite add_header_ok; [done|naive_solver|by vm_compute|done|done].
Qed.

Definition body_limit (response : bool) : Z := if response then 4194304 else 16384.

Lemma header_lines_length first body host :
  zlen first <= 1024 -> zlen body <= 4194304 -> (forall h, host = Some h -> fullmatch host_re h = true) ->
  zlen (join CRLF (header_lines first body host) ++ END_OF_HEAD) <= 16384.
Proof.
  intros Hf Hb Hh. assert (zlen (dec_N (N.of_nat (length body))) <= 7) as Hd.
  { assert (length (dec_N (N.of_nat (length body))) <= 7)%nat; [|unfold zlen; lia].
    apply dec_N_length; [|lia]. change (10 ^ N.of_nat 7)%N with 10000000%N. unfold zlen in Hb. lia. }
  assert (zlen match host with None => [] | Some h => CRLF ++ (u "Host" ++ u ": " ++ h) end <= 261) as Hhost.
  { destruct host as [h|]; [|done]. specialize (Hh h eq_refl). apply fullmatch_spec in Hh.
    unfold host_re, between_ in Hh. rewrite seq_lang, lang_seq_inv in Hh. destruct Hh as (y & z & -> & Hy & Hz).
    unfold cls in Hy, Hz. rewrite lang_rep_class in Hy. rewrite lang_upto_class in Hz. rewrite !zlen_app.
    change (zlen CRLF) with 2. change (zlen (u "Host")) with 4. change (zlen (u ": ")) with 2. unfold zlen. lia. }
  assert (join CRLF (header_lines first body host) =
    first ++ CRLF ++ (u "Content-Type" ++ u ": " ++ u "application/json") ++ CRLF ++
    (u "Content-Length" ++ u ": " ++ dec_N (N.of_nat (length body))) ++ CRLF ++ (u "Connection" ++ u ": " ++ u "close") ++
    match host with None => [] | Some h => CRLF ++ (u "Host" ++ u ": " ++ h) end) as ->.
  { destruct host; reflexivity. }
  rewrite !zlen_app. change (zlen CRLF) with 2. change (zlen END_OF_HEAD) with 4.
  change (zlen (u "Content-Type")) with 12. change (zlen (u ": ")) with 2. change (zlen (u "application/json")) with 16.
  change (zlen (u "Content-Length")) with 14. change (zlen (u "Connection")) with 10. change (zlen (u "close")) with 5. lia.
Qed.

Lemma endswith_self s p : endswith p (s ++ p) = true.
Proof. apply endswith_app. by exists s. Qed.

Lemma parse_message first body response host :
  visible first -> first <> [] -> zlen first <= 1024 -> 0 < zlen body <= body_limit response ->
  (forall h, host = Some h -> fullmatch host_re h = true) ->
  (if response then host = None /\ first = u "HTTP/1.1 200 OK" else is_Some host /\ In first request_lines) ->
  parse_headers (join CRLF (header_lines first body host) ++ END_OF_HEAD) response host = Ok (first, zlen body).
Proof.
  intros Hv Hn Hl Hb Hh Hr. unfold body_limit in Hb.
  pose proof (lines_visible first body host Hv Hn (fun h E => proj1 (host_visible h (Hh h E)))) as Hlines.
  assert (zlen (join CRLF (header_lines first body host) ++ END_OF_HEAD) <=? 16384 = true) as Hsize.
  { apply Z.leb_le, header_lines_length; [done | destruct response; lia | done]. }
  unfold parse_headers. rewrite endswith_self, Hsize.
  cbn [andb require mbind res_bind]. rewrite length_app, Nat.add_sub, take_app_length, split_join;
    [|by eapply List.Forall_impl; [|exact Hlines]; intros l [_ ?]; apply visible_no_cr | done].
  assert (zlen (header_lines first body host) <=? 32 = true) as -> by (destruct host; reflexivity).
  cbn [require mbind res_bind]. rewrite header_fields by done. cbn [mbind res_bind].
  assert (dget (u "content-length") (fields_of body host) = Some (dec_N (N.of_nat (length body)))) as Hcl by (destruct host; reflexivity).
  assert (field_is (fields_of body host) "content-length" (fullmatch length_re) = true) as Hre.
  { unfold field_is. rewrite Hcl. unfold zlen in Hb. apply dec_N_length_re; destruct response; lia. }
  rewrite Hre. apply seq_Ok. split; [destruct response, host; try reflexivity; naive_solver |]. cbv zeta.
  set (declared := match dget _ _ with Some x => _ | None => _ end).
  assert (declared = zlen body) as ->.
  { transitivity (Z.of_N (dec_value (dec_N (N.of_nat (length body))))); [by destruct host |].
    rewrite dec_N_value. apply nat_N_Z. }
  apply seq_Ok. split; [apply require_Ok; rewrite andb_true_iff, Z.ltb_lt, Z.leb_le; destruct response; lia |].
  apply seq_Ok. split; [|done]. cbn [header_lines app]. destruct response.
  - by destruct Hr as [-> ->].
  - destruct Hr as [[h ->] Hin]. destruct (host_visible h (Hh h eq_refl)) as [Hvh _].
    apply str_in_In in Hin. rewrite Hin, (visible_ascii h Hvh).
    assert (field_is (fields_of body (Some h)) "host" (str_eqb h) = true) as ->
      by (change (str_eqb h h = true); apply str_eqb_refl).
    reflexivity.
Qed.

(** What is sent is what is read.  The response line with any body of at most 4194304 octets,
    and each of the fixed request lines with any host name and any body of at most 16384,
    is a message that [http_message] builds and that [read_http] gives back as the same line and
    body, over every stream that carries it and in whatever parts it arrives. *)
Theorem http_message_read {S : Type} {T : Tls S} {TOk : TlsOk T} response host first body :
  0 < zlen body <= body_limit response ->
  (forall h, host = Some h -> fullmatch host_re h = true) ->
  (if response then host = None /\ first = u "HTTP/1.1 200 OK" else is_Some host /\ In first request_lines) ->
  exists msg, http_message first body host = Ok msg /\
    forall s, carries s msg -> exists s', read_http response host s = (Ok (first, body), s').
Proof.
  intros Hb Hh Hr.
  assert (visible first /\ first <> [] /\ zlen first <= 1024) as (Hv & Hn & Hl).
  { destruct response; [destruct Hr as [_ ->]; split; [by apply visible_forallb | split; done] |]. destruct Hr as [_ Hin].
    assert (forallb (fun l => forallb (fun n => (32 <=? n) && (n <=? 126))%N l && negb (str_eqb l []) && (zlen l <=? 1024))
      request_lines = true) as Hall by (by vm_compute).
    rewrite forallb_forall in Hall. specialize (Hall _ Hin). rewrite !andb_true_iff, nonempty_neq, Z.leb_le in Hall.
    destruct Hall as [[Hv ?] ?]. split; [by apply visible_forallb | done]. }
  rewrite (http_message_text first body host Hv Hn Hh). eexists. split; [done |]. intros s Hs. rewrite <- app_assoc in Hs.
  eapply read_http_complete; [exact Hs | apply partition_head | by apply parse_message].
  - eapply List.Forall_impl; [|apply (lines_visible first body host Hv Hn)]; [intros l [? ?]; split; [done | by apply visible_no_cr] |].
    intros h ->. by apply host_visible, Hh.
  - done.
Qed.
