(* ===== verification/KernelData.v ===== *)
(** live_proxy_server.py: what the native inspector decodes from the kernel, the SELinux status
    page, the verity measurement, the auxiliary vector, the code of an ELF file, the memory map
    and the status of a process. *)

From S2P Require Import Prelude PyVal Utf8 Json Sha2 Canonical Regex Text.
From S2P Require Import Boundary.

#[local] Open Scope string_scope.
#[local] Open Scope list_scope.
#[local] Open Scope Z_scope.

(** ** Little-endian fields *)

Definition le_value (b : bytes) : Z := foldr (fun x acc => Z.of_N x + 256 * acc) 0 b.

(** [size] octets at an offset, [struct.unpack_from]. *)
Definition field (raw : bytes) (offset : Z) (size : nat) : Z := le_value (take size (drop (Z.to_nat offset) raw)).

Definition page_sizes : list Z := [4096; 16384; 65536].
Definition is_page_size (z : Z) : bool := existsb (Z.eqb z) page_sizes.

Record selinux_status := { version : Z; sequence : Z; enforcing : Z; policyload : Z; denyUnknown : Z }.

(* @src src/src/harness_conformance/live_proxy_server.py:59-66 _selinux_status_fields *)
Definition _selinux_status_fields (raw : bytes) : res selinux_status :=
  require (zlen raw =? 20) "KERNEL_STATUS_LAYOUT" ;;
  let s := {| version := field raw 0 4; sequence := field raw 4 4; enforcing := field raw 8 4;
              policyload := field raw 12 4; denyUnknown := field raw 16 4 |} in
  require ((version s =? 1) && (sequence s mod 2 =? 0) && (enforcing s =? denyUnknown s) && (denyUnknown s =? 1) &&
           (0 <? policyload s)) "KERNEL_STATUS_INVALID" ;;
  Ok s.

(* @src src/src/harness_conformance/live_proxy_server.py:69-74 _verity_measurement *)
Definition _verity_measurement (raw : bytes) : res str :=
  require (zlen raw =? 36) "KERNEL_VERITY_LAYOUT" ;;
  require ((field raw 0 2 =? 1) && (field raw 2 2 =? 32)) "KERNEL_VERITY_ALGORITHM" ;;
  Ok (u "sha256:" ++ hexdigest (drop 4 raw)).

(** [d[k]] *)
Definition answer_key {A} (o : option A) : res A := match o with Some x => Ok x | None => Raise KeyError end.

(** ** The auxiliary vector *)

Fixpoint zget {A} (k : Z) (d : list (Z * A)) : option A :=
  match d with [] => None | (j, x) :: d' => if k =? j then Some x else zget k d' end.

(** The loop over the pairs, with what remains; its [else] clause is the end of the list. *)
Fixpoint auxv_pairs (result : list (Z * Z)) (pairs : list bytes) : res (list (Z * Z)) :=
  match pairs with
  | [] => conf "KERNEL_AUXV_TERMINATOR"
  | p :: rest =>
      let key := field p 0 8 in
      let value := field p 8 8 in
      if key =? 0 then
        require ((value =? 0) && match rest with [] => true | _ => false end) "KERNEL_AUXV_TERMINATOR" ;; Ok result
      else
        require (match zget key result with None => true | Some _ => false end) "KERNEL_AUXV_DUPLICATE" ;;
        auxv_pairs (result ++ [(key, value)]) rest
  end.

(* @src src/src/harness_conformance/live_proxy_server.py:77-93 _native_auxv *)
Definition _native_auxv (raw : bytes) : res (list (Z * Z)) :=
  require ((16 <=? zlen raw) && (zlen raw <=? 65536) && (zlen raw mod 16 =? 0)) "KERNEL_AUXV_LAYOUT" ;;
  result ← auxv_pairs [] (groups (length raw) 16 raw);
  require (match zget 6 result, zget 33 result with
           | Some page, Some vdso => is_page_size page && (0 <? vdso) && (vdso mod page =? 0)
           | _, _ => false
           end) "KERNEL_AUXV_REQUIRED" ;;
  Ok result.

(** ** The code of an ELF file *)

Record program_header := {
  tag : Z;
  perms : Z;
  offset : Z;
  address : Z;
  size : Z;
  memory : Z;
  alignment : Z
}.

Definition header_at (raw : bytes) (at_ : Z) : program_header :=
  {| tag := field raw at_ 4; perms := field raw (at_ + 4) 4; offset := field raw (at_ + 8) 8;
     address := field raw (at_ + 16) 8; size := field raw (at_ + 32) 8; memory := field raw (at_ + 40) 8;
     alignment := field raw (at_ + 48) 8 |}.

Record segment := { seg_offset : Z; seg_length : Z; permissions : str; virtualAddress : Z }.

Record layout := { kind : Z; interpreter : option str; segments : list segment }.

(** What the loop carries. *)
Record elf_scan := { found : list segment; loader : option str; last_load_end : Z }.

Definition path_re : regex := seq_ (lit "/") (plus (cls "A-Za-z0-9_./+-")).

Definition clean_path (path : bytes) : bool :=
  forallb (fun part => negb (str_in part [[]; u "."; u ".."])) (split_on 47 (tail path)).

Definition power_of_two_or_zero (z : Z) : bool := Z.land z (z - 1) =? 0.

(** [perms & 1] and the like. *)
Definition flag (z bit : Z) : bool := negb (Z.land z bit =? 0).

Definition round_up (z page : Z) : Z := (z + page - 1) / page * page.

(* @src src/src/harness_conformance/live_proxy_server.py:134-141 _elf_code_layout *)
Definition segment_of (page : Z) (h : program_header) : segment :=
  let start := offset h - offset h mod page in
  let file_end := round_up (offset h + size h) page in
  {| seg_offset := start; seg_length := file_end - start;
     permissions := (if flag (perms h) 4 then u "r" else u "-") ++ u "-xp";
     virtualAddress := address h - address h mod page |}.

Definition interpreter_of (raw : bytes) (h : program_header) (s : elf_scan) : res str :=
  require (match loader s with None => true | Some _ => false end && (2 <=? size h) && (size h <=? 4096))
    "KERNEL_ELF_INTERPRETER" ;;
  let data := take (Z.to_nat (size h)) (drop (Z.to_nat (offset h)) raw) in
  require (endswith [0%N] data && negb (existsb (N.eqb 0) (removelast data))) "KERNEL_ELF_INTERPRETER" ;;
  require (fullmatch path_re (removelast data)) "KERNEL_ELF_INTERPRETER" ;;
  require (clean_path (removelast data)) "KERNEL_ELF_INTERPRETER" ;;
  Ok (removelast data).

(** One pass of the loop. *)
(* @src src/src/harness_conformance/live_proxy_server.py:115-141 _elf_code_layout *)
Definition elf_step (raw : bytes) (page : Z) (s : elf_scan) (h : program_header) : res elf_scan :=
  require ((offset h + size h <=? zlen raw) && (address h + memory h <=? 2 ^ 64)) "KERNEL_ELF_BOUNDS" ;;
  (if tag h =? 0x6474e551 then require (negb (flag (perms h) 1)) "KERNEL_ELF_EXECUTABLE_STACK" else Ok tt) ;;
  loader ← (if tag h =? 3 then Some <$> interpreter_of raw h s else Ok (loader s));
  if negb (tag h =? 1) then Ok {| found := found s; loader := loader; last_load_end := last_load_end s |}
  else
    require ((perms h <=? 7) && (size h <=? memory h) && (0 <? memory h) && (last_load_end s <=? address h) &&
             ((alignment h =? 0) || (alignment h =? 1) || power_of_two_or_zero (alignment h)) &&
             ((alignment h <=? 1) || (address h mod alignment h =? offset h mod alignment h)) &&
             (address h mod page =? offset h mod page)) "KERNEL_ELF_LOAD_LAYOUT" ;;
    let ends := address h + memory h in
    if negb (flag (perms h) 1) then Ok {| found := found s; loader := loader; last_load_end := ends |}
    else
      require (negb (flag (perms h) 2) && (0 <? size h) && (zlen (found s) <? 16)) "KERNEL_ELF_EXECUTABLE_LOAD" ;;
      let seg := segment_of page h in
      require ((round_up (offset h + memory h) page =? round_up (offset h + size h) page) &&
               (seg_length seg <=? 67108864)) "KERNEL_ELF_ANONYMOUS_CODE" ;;
      Ok {| found := found s ++ [seg]; loader := loader; last_load_end := ends |}.

(** [len(l) == len(set(l))] on the pairs. *)
Fixpoint distinct_pairs (l : list (Z * Z)) : bool :=
  match l with
  | [] => true
  | (a, b) :: l' => negb (existsb (fun p => (p.1 =? a) && (p.2 =? b)) l') && distinct_pairs l'
  end.

Definition machine_code (machine : str) : option Z :=
  if str_eqb machine (u "x86_64") then Some 62 else if str_eqb machine (u "aarch64") then Some 183 else None.

(** [range(count)] *)
Definition header_list (raw : bytes) (phoff count : Z) : list program_header :=
  map (fun i => header_at raw (phoff + Z.of_nat i * 56)) (seq 0 (Z.to_nat count)).

Definition elf_magic : bytes := [127; 69; 76; 70; 2; 1; 1]%N.

(* @src src/src/harness_conformance/live_proxy_server.py:96-145 _elf_code_layout *)
Definition _elf_code_layout (raw : bytes) (machine : str) (page : Z) : res layout :=
  require ((64 <=? zlen raw) && (zlen raw <=? 67108864)) "KERNEL_ELF_SIZE" ;;
  match machine_code machine with
  | None => conf "KERNEL_ELF_ABI"
  | Some code =>
      require (is_page_size page) "KERNEL_ELF_ABI" ;;
      let kind := field raw 16 2 in
      let phoff := field raw 32 8 in
      let count := field raw 56 2 in
      require (str_eqb (take 7 raw) elf_magic && existsb (N.eqb (nth 7 raw 0%N)) [0; 3]%N &&
               str_eqb (take 8 (drop 8 raw)) (repeat 0%N 8) && ((kind =? 2) || (kind =? 3)) && (field raw 20 4 =? 1) &&
               (field raw 48 4 =? 0) && (field raw 18 2 =? code) && (field raw 52 2 =? 64) && (field raw 54 2 =? 56) &&
               (1 <=? count) && (count <=? 128) && (64 <=? phoff) && (phoff mod 8 =? 0) &&
               (phoff + count * 56 <=? zlen raw)) "KERNEL_ELF_LAYOUT" ;;
      s ← for_fold (elf_step raw page) {| found := []; loader := None; last_load_end := 0 |} (header_list raw phoff count);
      require (negb (zlen (found s) =? 0)) "KERNEL_ELF_CODE_MISSING" ;;
      require (distinct_pairs (map (fun x => (seg_offset x, seg_length x)) (found s))) "KERNEL_ELF_DUPLICATE_CODE" ;;
      Ok {| kind := kind; interpreter := loader s; segments := found s |}
  end.

(** ** The memory map *)

(** The pieces of a map line, by the one way its pattern can match: a run of characters of a
    class, as long as it goes. *)
Fixpoint span (f : N -> bool) (s : bytes) : bytes * bytes :=
  match s with
  | c :: s' => if f c then let '(a, r) := span f s' in (c :: a, r) else ([], s)
  | [] => ([], [])
  end.

Definition is_hex (c : N) : bool := (is_digit c || ((97 <=? c) && (c <=? 102)))%N.

(** A run of between [lo] and [hi] characters. *)
Definition run (f : N -> bool) (lo hi : nat) (s : bytes) : option (bytes * bytes) :=
  let '(a, r) := span f s in if Nat.leb lo (length a) && Nat.leb (length a) hi then Some (a, r) else None.

Definition char (c : N) (s : bytes) : option bytes :=
  match s with d :: r => if (d =? c)%N then Some r else None | [] => None end.

Definition one_of (cs : list N) (s : bytes) : option (N * bytes) :=
  match s with d :: r => if existsb (N.eqb d) cs then Some (d, r) else None | [] => None end.

Record map_line := {
  begin : bytes; end_ : bytes; rights : bytes; file_offset : bytes; major : bytes; minor : bytes; inode : bytes;
  path : option bytes
}.

(** [re.fullmatch(pattern, line).groups()] *)
Definition match_line (s : bytes) : option map_line :=
  '(begin, s) ← run is_hex 1 16 s; s ← char 45 s;
  '(stop, s) ← run is_hex 1 16 s; s ← char 32 s;
  '(r, s) ← one_of [114; 45]%N s; '(w, s) ← one_of [119; 45]%N s; '(x, s) ← one_of [120; 45]%N s;
  '(p, s) ← one_of [112; 115]%N s; s ← char 32 s;
  '(offset, s) ← run is_hex 1 16 s; s ← char 32 s;
  '(major, s) ← run is_hex 2 8 s; s ← char 58 s;
  '(minor, s) ← run is_hex 2 8 s;
  '(_, s) ← run (N.eqb 32) 1 (length s) s;
  '(inode, s) ← run is_digit 1 20 s;
  path ← (match s with
          | [] => Some None
          | _ => '(_, s) ← run (N.eqb 32) 1 (length s) s;
                 if existsb (N.eqb 10) s then None else Some (Some s)
          end);
  Some {| begin := begin; end_ := stop; rights := [r; w; x; p]; file_offset := offset; major := major; minor := minor;
          inode := inode; path := path |}.

Record file_map := {
  map_path : str; map_start : Z; map_end : Z; map_permissions : str; map_offset : Z;
  deviceMajor : Z; deviceMinor : Z; map_inode : Z
}.

Record special_map := { special_start : Z; special_end : Z; special_permissions : str }.

Record code_maps := { files : list file_map; kernel : list (str * special_map); pageSize : Z }.

(** What the loop carries. *)
Record map_scan := { maps : list file_map; special : list (str * special_map); previous_end : Z }.

Definition VSYSCALL : Z := 0xffffffffff600000.

(** One line of the loop. *)
(* @src src/src/harness_conformance/live_proxy_server.py:165-191 _proc_code_maps *)
Definition map_step (machine : str) (page vdso : Z) (s : map_scan) (line : bytes) : res map_scan :=
  require (zlen line <=? 8192) "KERNEL_MAPS_LINE_SIZE" ;;
  match match_line line with
  | None => conf "KERNEL_MAPS_LAYOUT"
  | Some m =>
      start ← int_text 16 (begin m);
      stop ← int_text 16 (end_ m);
      offset ← int_text 16 (file_offset m);
      major ← int_text 16 (major m);
      minor ← int_text 16 (minor m);
      inode ← int_text 10 (inode m);
      let writable := existsb (N.eqb 119) (rights m) in
      let executable := existsb (N.eqb 120) (rights m) in
      require ((previous_end s <=? start) && (start <? stop) && (start mod page =? stop mod page) &&
               (stop mod page =? offset mod page) && (offset mod page =? 0) && (inode <? 2 ^ 64) &&
               negb (writable && executable)) "KERNEL_MAPS_RANGE" ;;
      if negb executable then Ok {| maps := maps s; special := special s; previous_end := stop |}
      else
        require (zlen (maps s) + zlen (special s) <? 256) "KERNEL_MAPS_ANONYMOUS_CODE" ;;
        match path m with
        | None => conf "KERNEL_MAPS_ANONYMOUS_CODE"
        | Some path =>
            if str_in path [u "[vdso]"; u "[vsyscall]"] then
              require (negb (dhas path (special s)) &&
                       ((offset =? 0) && (major =? 0) && (minor =? 0) && (inode =? 0))) "KERNEL_MAPS_SPECIAL" ;;
              (if str_eqb path (u "[vdso]") then
                 require ((start =? vdso) && str_eqb (rights m) (u "r-xp") && (stop - start <=? 1048576)) "KERNEL_MAPS_VDSO"
               else
                 require (str_eqb machine (u "x86_64") && (start =? VSYSCALL) && (stop - start =? 4096) &&
                          str_eqb (rights m) (u "--xp")) "KERNEL_MAPS_VSYSCALL") ;;
              Ok {| maps := maps s;
                    special := special s ++ [(path, {| special_start := start; special_end := stop;
                                                       special_permissions := rights m |})];
                    previous_end := stop |}
            else
              require (fullmatch path_re path && (0 <? inode)) "KERNEL_MAPS_FILE_PATH" ;;
              require (clean_path path) "KERNEL_MAPS_FILE_PATH" ;;
              Ok {| maps := maps s ++ [{| map_path := path; map_start := start; map_end := stop;
                                          map_permissions := rights m; map_offset := offset; deviceMajor := major;
                                          deviceMinor := minor; map_inode := inode |}];
                    special := special s; previous_end := stop |}
        end
  end.

(* @src src/src/harness_conformance/live_proxy_server.py:148-193 _proc_code_maps *)
Definition _proc_code_maps (raw : bytes) (machine : str) (auxv : bytes) : res code_maps :=
  require ((0 <? zlen raw) && (zlen raw <=? 1048576) && endswith [10%N] raw && negb (existsb (N.eqb 0) raw) &&
           negb (existsb (N.eqb 13) raw)) "KERNEL_MAPS_SIZE" ;;
  require (match machine_code machine with Some _ => true | None => false end) "KERNEL_MAPS_ABI" ;;
  auxiliary ← _native_auxv auxv;
  page ← answer_key (zget 6 auxiliary);
  vdso ← answer_key (zget 33 auxiliary);
  let lines := splitlines octet_line_end raw in
  require ((0 <? zlen lines) && (zlen lines <=? 16384)) "KERNEL_MAPS_COUNT" ;;
  s ← for_fold (map_step machine page vdso) {| maps := []; special := []; previous_end := 0 |} lines;
  require (negb (zlen (maps s) =? 0) && dhas (u "[vdso]") (special s)) "KERNEL_MAPS_CODE_MISSING" ;;
  Ok {| files := maps s; kernel := special s; pageSize := page |}.

(** ** The status of a process *)

Record process_fields := {
  pid : Z; parent : Z; startTicks : Z; threads : Z; uid : list Z; gid : list Z; namespacePids : list Z;
  groups : list Z; capabilities : list Z; seccompMode : Z; noNewPrivs : Z
}.

Definition pid_re : regex := seq_ (cls "1-9") (upto 9 (cls "0-9")).
Definition number_re : regex := seq_ (opt (lit "-")) (RAlt (lit "0") (seq_ (cls "1-9") (upto 19 (cls "0-9")))).
Definition count_re : regex := RAlt (lit "0") (seq_ (cls "1-9") (upto 15 (cls "0-9"))).
Definition key_re : regex := seq_ (cls "A-Za-z_") (upto 63 (cls "A-Za-z0-9_")).
Definition capability_re : regex := rep 16 (cls "0-9a-f").

(** The [key: value...] rows of the status text. *)
(* @src src/src/harness_conformance/live_proxy_server.py:217-220 _proc_process_fields *)
Definition status_step (rows : list (bytes * list bytes)) (line : bytes) : res (list (bytes * list bytes)) :=
  match partition (u ":") line with
  | None => conf "KERNEL_PROCESS_STATUS_LAYOUT"
  | Some (key, value) =>
      require (fullmatch key_re key && negb (dhas key rows)) "KERNEL_PROCESS_STATUS_LAYOUT" ;;
      Ok (rows ++ [(key, words octet_space value)])
  end.

Definition row_words (rows : list (bytes * list bytes)) (key : string) : list bytes :=
  match dget (u key) rows with Some l => l | None => [] end.

(* @src src/src/harness_conformance/live_proxy_server.py:221-227 _proc_process_fields *)
Definition integers (rows : list (bytes * list bytes)) (key : string) (minimum maximum count : Z) : res (list Z) :=
  let values := row_words rows key in
  require ((zlen values =? count) && forallb (fullmatch count_re) values) "KERNEL_PROCESS_STATUS_FIELD" ;;
  values ← map_m (int_text 10) values;
  require (forallb (fun v => (minimum <=? v) && (v <=? maximum)) values) "KERNEL_PROCESS_STATUS_RANGE" ;;
  Ok values.

Fixpoint distinct_ints (l : list Z) : bool :=
  match l with [] => true | x :: l' => negb (existsb (Z.eqb x) l') && distinct_ints l' end.

(** The fixed fields of the stat line. *)
(* @src src/src/harness_conformance/live_proxy_server.py:198-212 _proc_process_fields *)
Definition stat_fields (raw : bytes) : res (Z * Z * Z * Z) :=
  require ((0 <? zlen raw) && (zlen raw <=? 8192) && endswith [10%N] raw && negb (existsb (N.eqb 0) raw))
    "KERNEL_PROCESS_STAT_LAYOUT" ;;
  let '(prefix, rest, separated) := match partition (u " (") raw with
                                    | Some (a, b) => (a, b, true)
                                    | None => (raw, [], false)
                                    end in
  let end_ := place (rfind (u ") ") rest) in
  require (separated && fullmatch pid_re prefix && (0 <? end_) && (end_ <=? 256)) "KERNEL_PROCESS_STAT_LAYOUT" ;;
  let fields := split_on 32 (removelast (drop (Z.to_nat (end_ + 2)) rest)) in
  require ((zlen fields =? 50) && str_in (hd [] fields) [u "R"; u "S"; u "D"; u "T"; u "t"; u "I"] &&
           forallb (fullmatch number_re) (tail fields)) "KERNEL_PROCESS_STAT_LAYOUT" ;;
  numbers ← map_m (int_text 10) (tail fields);
  require (forallb (fun v => (- 2 ^ 63 <=? v) && (v <? 2 ^ 64)) numbers) "KERNEL_PROCESS_STAT_RANGE" ;;
  pid ← int_text 10 prefix;
  parent ← item_at numbers 0;
  threads ← item_at numbers 16;
  start ← item_at numbers 18;
  require ((1 <? pid) && (pid <? 2 ^ 31) && (0 <? parent) && (parent <? 2 ^ 31) && (1 <=? threads) && (threads <=? 4096) &&
           (0 <? start) && (start <=? 9007199254740991)) "KERNEL_PROCESS_STAT_RANGE" ;;
  Ok (pid, parent, threads, start).

(** [a == b == (x,)] on the answers of [integers]. *)
Definition is_single (l : list Z) (x : Z) : bool := match l with [y] => y =? x | _ => false end.

(* @src src/src/harness_conformance/live_proxy_server.py:213-249 _proc_process_fields *)
Definition status_fields (status : bytes) (pid parent threads start : Z) : res process_fields :=
  require ((0 <? zlen status) && (zlen status <=? 65536) && endswith [10%N] status && negb (existsb (N.eqb 0) status) &&
           (zlen (splitlines octet_line_end status) <=? 512)) "KERNEL_PROCESS_STATUS_LAYOUT" ;;
  rows ← for_fold status_step [] (splitlines octet_line_end status);
  require_m ((a ← integers rows "Pid" 2 2147483647 1; b ← integers rows "Tgid" 2 2147483647 1;
              Ok (ints_eqb a b && is_single b pid)) <&&>
             (a ← integers rows "PPid" 1 2147483647 1; Ok (is_single a parent)) <&&>
             (a ← integers rows "Threads" 1 4096 1; Ok (is_single a threads)) <&&>
             (a ← integers rows "TracerPid" 0 0 1; Ok (is_single a 0))) "KERNEL_PROCESS_STATUS_MISMATCH" ;;
  let chain_size := zlen (row_words rows "NSpid") in
  require ((1 <=? chain_size) && (chain_size <=? 32)) "KERNEL_PROCESS_PID_NAMESPACE" ;;
  chain ← integers rows "NSpid" 1 2147483647 chain_size;
  first ← item_at chain 0;
  require_m (Ok (first =? pid) <&&> (a ← integers rows "NStgid" 1 2147483647 chain_size; Ok (ints_eqb a chain)))
    "KERNEL_PROCESS_PID_NAMESPACE" ;;
  groups ← integers rows "Groups" 0 2147483647 (zlen (row_words rows "Groups"));
  require (dhas (u "Groups") rows && (zlen groups <=? 256) && distinct_ints groups) "KERNEL_PROCESS_GROUPS" ;;
  capabilities ← map_m (fun key =>
    match row_words rows key with
    | [v] => require (fullmatch capability_re v) "KERNEL_PROCESS_CAPABILITIES" ;; int_text 16 v
    | _ => conf "KERNEL_PROCESS_CAPABILITIES"
    end) ["CapInh"; "CapPrm"; "CapEff"; "CapBnd"; "CapAmb"];
  uid ← integers rows "Uid" 0 2147483647 4;
  gid ← integers rows "Gid" 0 2147483647 4;
  seccomp ← (l ← integers rows "Seccomp" 2 2 1; item_at l 0);
  privs ← (l ← integers rows "NoNewPrivs" 0 1 1; item_at l 0);
  Ok {| pid := pid; parent := parent; startTicks := start; threads := threads; uid := uid; gid := gid;
        namespacePids := chain; groups := groups; capabilities := capabilities; seccompMode := seccomp;
        noNewPrivs := privs |}.

(* @src src/src/harness_conformance/live_proxy_server.py:196-249 _proc_process_fields *)
Definition _proc_process_fields (raw status : bytes) : res process_fields :=
  '(pid, parent, threads, start) ← stat_fields raw;
  status_fields status pid parent threads start.

(** ** Properties *)

(** *** The code of a file *)

Definition is_load (h : program_header) : bool := tag h =? 1.
Definition is_code (h : program_header) : bool := is_load h && flag (perms h) 1.

(** What is required of a header that maps code. *)
Definition code_ok (raw : bytes) (page : Z) (h : program_header) : Prop :=
  flag (perms h) 2 = false /\ 0 < size h /\ size h <= memory h /\ offset h + size h <= zlen raw /\
  address h mod page = offset h mod page /\ round_up (offset h + memory h) page = round_up (offset h + size h) page.

(** Ranges in increasing order without a common point. *)
Definition ordered {A} (start stop : A -> Z) (l : list A) : Prop := ForallOrdPairs (fun a b => stop a <= start b) l.

Lemma ordered_snoc {A} (start stop : A -> Z) l x top :
  ordered start stop l -> Forall (fun a => stop a <= top) l -> top <= start x -> ordered start stop (l ++ [x]).
Proof.
  intros H. induction H as [|a l Ha Hl IH]; intros Hf Ht; cbn [app]; [repeat constructor |].
  apply Forall_cons in Hf as [? Hf]. constructor; [|by apply IH]. apply Forall_app. split; [done |]. constructor; [lia | done].
Qed.

Lemma elf_step_inv raw page s h s' :
  elf_step raw page s h = Ok s' ->
  found s' = found s ++ (if is_code h then [segment_of page h] else []) /\
  (is_code h = true -> code_ok raw page h) /\
  (if is_load h then last_load_end s <= address h /\ 0 < memory h /\ last_load_end s' = address h + memory h
   else last_load_end s' = last_load_end s).
Proof.
  unfold elf_step, is_code, is_load. intros [Hb%require_Ok H]%seq_Ok. rewrite andb_true_iff, !Z.leb_le in Hb.
  apply seq_Ok in H as [_ H]. apply bind_Ok in H as (ld & _ & H).
  destruct (tag h =? 1); cbn [negb andb] in *.
  2: { injection H as <-. cbn. rewrite app_nil_r. done. }
  apply seq_Ok in H as [Hl%require_Ok H]. rewrite !andb_true_iff, !Z.leb_le, Z.ltb_lt, Z.eqb_eq in Hl.
  destruct (flag (perms h) 1); cbn [negb] in H.
  2: { injection H as <-. cbn. rewrite app_nil_r. repeat split; try done; tauto. }
  apply seq_Ok in H as [Hx%require_Ok H]. rewrite !andb_true_iff, !Z.ltb_lt, negb_true_iff in Hx.
  apply seq_Ok in H as [Ha%require_Ok [= <-]]. rewrite andb_true_iff, Z.eqb_eq in Ha. cbn [found last_load_end].
  unfold code_ok. repeat split; try done; tauto.
Qed.

Lemma round_up_bounds z page : 0 < page -> z <= round_up z page < z + page /\ round_up z page mod page = 0.
Proof.
  intros Hp. unfold round_up. split; [|apply Z.mod_mul; lia].
  pose proof (Z.div_mod (z + page - 1) page ltac:(lia)). pose proof (Z.mod_pos_bound (z + page - 1) page Hp). lia.
Qed.

(** A segment lies on pages and within the file's last page. *)
Lemma segment_pages raw page h :
  0 < page -> 0 <= offset h -> code_ok raw page h ->
  let s := segment_of page h in
  seg_offset s mod page = 0 /\ seg_length s mod page = 0 /\ virtualAddress s mod page = 0 /\ 0 <= seg_offset s /\
  0 < seg_length s /\ seg_offset s <= offset h /\ offset h + size h <= seg_offset s + seg_length s < zlen raw + page.
Proof.
  intros Hp Ho (_ & Hs & _ & Hf & _). cbn [segment_of seg_offset seg_length virtualAddress].
  destruct (round_up_bounds (offset h + size h) page Hp) as [Hr Hm]. pose proof (Z.mod_pos_bound (offset h) page Hp).
  pose proof (Z.mod_le (offset h) page Ho Hp).
  assert (forall z, (z - z mod page) mod page = 0) as Hmod.
  { intros z. rewrite Zminus_mod_idemp_r, Z.sub_diag. apply Z.mod_0_l. lia. }
  repeat split; try apply Hmod; try lia.
  rewrite Zminus_mod, Hm, Hmod, Z.sub_0_r. apply Z.mod_0_l. lia.
Qed.

Lemma le_value_nonneg b : 0 <= le_value b.
Proof. induction b as [|x b IH]; cbn [le_value foldr]; [lia |]. unfold le_value in IH. lia. Qed.

Lemma field_nonneg raw o n : 0 <= field raw o n.
Proof. apply le_value_nonneg. Qed.

Lemma elf_loop_inv raw page hs s :
  for_fold (elf_step raw page) {| found := []; loader := None; last_load_end := 0 |} hs = Ok s ->
  found s = map (segment_of page) (List.filter is_code hs) /\
  Forall (code_ok raw page) (List.filter is_code hs) /\
  ordered address (fun h => address h + memory h) (List.filter is_load hs) /\
  Forall (fun h => address h + memory h <= last_load_end s) (List.filter is_load hs).
Proof.
  apply (for_fold_taken _ (fun s hs => found s = map (segment_of page) (List.filter is_code hs) /\
    Forall (code_ok raw page) (List.filter is_code hs) /\
    ordered address (fun h => address h + memory h) (List.filter is_load hs) /\
    Forall (fun h => address h + memory h <= last_load_end s) (List.filter is_load hs))).
  - repeat split; constructor.
  - intros t taken h t' (H1 & H2 & H3 & H4) Hs. apply elf_step_inv in Hs as (E & Hc & Hl).
    rewrite !List.filter_app, E, H1. cbn [List.filter].
    assert (is_code h = true -> is_load h = true) as Hcl by (unfold is_code; rewrite andb_true_iff; tauto).
    destruct (is_load h).
    + destruct Hl as (Hl1 & Hl2 & Hl3). rewrite Hl3. split; [|split; [|split]].
      * rewrite map_app. by destruct (is_code h).
      * apply Forall_app. split; [done |]. destruct (is_code h); [constructor; [by apply Hc | done] | done].
      * by eapply ordered_snoc.
      * apply Forall_app. split; [|constructor; [lia | done]]. eapply List.Forall_impl; [|exact H4]. cbn. lia.
    + destruct (is_code h); [by specialize (Hcl eq_refl) |]. rewrite Hl, !app_nil_r. done.
Qed.

Lemma is_page_size_pos page : is_page_size page = true -> 0 < page.
Proof. unfold is_page_size. rewrite existsb_exists. intros (x & Hx & ->%Z.eqb_eq). cbn in Hx. intuition lia. Qed.

Lemma header_offset raw phoff count h : In h (header_list raw phoff count) -> 0 <= offset h.
Proof. unfold header_list. intros (i & <- & _)%in_map_iff. apply field_nonneg. Qed.

Lemma elf_layout_facts raw machine page l :
  _elf_code_layout raw machine page = Ok l ->
  let headers := header_list raw (field raw 32 8) (field raw 56 2) in
  segments l = map (segment_of page) (List.filter is_code headers) /\ segments l <> [] /\
  Forall (code_ok raw page) (List.filter is_code headers) /\
  ordered address (fun h => address h + memory h) (List.filter is_load headers) /\
  Forall (fun s => seg_offset s mod page = 0 /\ seg_length s mod page = 0 /\ virtualAddress s mod page = 0 /\
                   0 <= seg_offset s /\ 0 < seg_length s /\ seg_offset s + seg_length s < zlen raw + page /\
                   (permissions s = u "r-xp" \/ permissions s = u "--xp")) (segments l).
Proof.
  unfold _elf_code_layout. intros [_ H]%seq_Ok. destruct (machine_code machine) as [code|]; [|done].
  apply seq_Ok in H as [Hp%require_Ok H]. apply is_page_size_pos in Hp. cbv zeta in H. apply seq_Ok in H as [_ H].
  apply bind_Ok in H as (s & Hs & H). apply seq_Ok in H as [Hn%require_Ok H]. apply seq_Ok in H as [_ [= <-]].
  apply elf_loop_inv in Hs as (E & Hc & Ho & _). cbn [segments]. repeat split; try done.
  - intros E0. rewrite E0 in Hn. done.
  - rewrite E. apply List.Forall_forall. intros x (h & <- & Hin)%in_map_iff.
    rewrite List.Forall_forall in Hc. specialize (Hc h Hin). apply filter_In in Hin as [Hin _].
    destruct (segment_pages raw page h Hp (header_offset _ _ _ _ Hin) Hc) as (? & ? & ? & ? & ? & ? & ? & ?).
    repeat split; try done. cbn [segment_of permissions]. destruct (flag (perms h) 4); [by left | by right].
Qed.

Lemma elf_layout_page raw machine page l : _elf_code_layout raw machine page = Ok l -> 0 < page.
Proof.
  unfold _elf_code_layout. intros [_ H]%seq_Ok. destruct (machine_code machine) as [code|]; [|done].
  apply seq_Ok in H as [Hp%require_Ok _]. by apply is_page_size_pos.
Qed.

(** The span of a header: whole pages, from the page of its first octet in the file to the page of
    its last one, which also holds all of its memory; the address of the span is as far below the
    header's as its offset is; it is readable when the header is, executable and never writable. *)
Definition spans (page : Z) (h : program_header) (s : segment) : Prop :=
  seg_offset s mod page = 0 /\ seg_length s mod page = 0 /\ virtualAddress s mod page = 0 /\
  seg_offset s <= offset h < seg_offset s + page /\
  offset h + size h <= seg_offset s + seg_length s < offset h + size h + page /\
  offset h + memory h <= seg_offset s + seg_length s /\
  address h - virtualAddress s = offset h - seg_offset s /\
  permissions s = (if Z.testbit (perms h) 2 then u "r-xp" else u "--xp").

Lemma flag_4 z : flag z 4 = Z.testbit z 2.
Proof.
  unfold flag. destruct (Z.testbit z 2) eqn:E.
  - apply negb_true_iff, Z.eqb_neq. intros H. apply (f_equal (fun z => Z.testbit z 2)) in H. by rewrite Z.land_spec, E in H.
  - apply negb_false_iff, Z.eqb_eq. apply Z.bits_inj. intros i. rewrite Z.land_spec, Z.bits_0.
    change 4 with (2 ^ 2). destruct (Z.eqb_spec i 2) as [->|]; [by rewrite E |]. rewrite Z.pow2_bits_false by lia. apply andb_false_r.
Qed.

Lemma segment_spans raw page h : 0 < page -> 0 <= offset h -> code_ok raw page h -> spans page h (segment_of page h).
Proof.
  intros Hp Ho Hc. destruct (segment_pages raw page h Hp Ho Hc) as (? & ? & ? & ? & ? & ? & Hend & _).
  destruct Hc as (_ & Hs & Hm & _ & Ha & Hr). unfold spans. do 3 (split; [done |]). cbn [segment_of seg_offset seg_length virtualAddress permissions] in *.
  destruct (round_up_bounds (offset h + size h) page Hp) as [Hb _]. destruct (round_up_bounds (offset h + memory h) page Hp) as [Hb' _].
  pose proof (Z.mod_pos_bound (offset h) page Hp). rewrite flag_4. repeat split; try lia. by destruct (Z.testbit _ _).
Qed.

(** C30: The code layout is exactly the executable load headers of the file.  When the decoder
    answers, its segments are, in the order of the program headers, the spans of every load header
    that is executable, and of nothing else: none of them is writable, every span is made of whole
    pages, begins with the page of the header's first octet, ends with the page of its last one,
    contains its memory and ends within the file's last page, and the load headers lie in
    increasing, disjoint ranges of addresses. *)
Theorem elf_layout_exact raw machine page l :
  _elf_code_layout raw machine page = Ok l ->
  let headers := header_list raw (field raw 32 8) (field raw 56 2) in
  Forall2 (spans page) (List.filter is_code headers) (segments l) /\ segments l <> [] /\
  Forall (code_ok raw page) (List.filter is_code headers) /\
  ordered address (fun h => address h + memory h) (List.filter is_load headers) /\
  Forall (fun s => 0 <= seg_offset s /\ 0 < seg_length s /\ seg_offset s + seg_length s < zlen raw + page) (segments l).
Proof.
  intros H headers. pose proof (elf_layout_page _ _ _ _ H) as Hp. destruct (elf_layout_facts raw machine page l H) as (E & Hn & Hc & Ho & Hf).
  fold headers in E, Hc, Ho. split; [|split; [done | split; [done | split; [done |]]]].
  - rewrite E. apply Forall2_fmap_r, Forall_Forall2_diag. rewrite Forall_forall in Hc |- *. intros h Hh.
    apply (segment_spans raw); [done | | by apply Hc]. apply list_elem_of_In, filter_In in Hh as [Hh _]. by apply header_offset in Hh.
  - eapply Forall_impl; [exact Hf |]. cbn. tauto.
Qed.

(** *** The map of a process *)

(** A range of the map, as the loop reads it from a line. *)
Definition line_range (line : bytes) : option (Z * Z * bool) :=
  m ← match_line line;
  match int_text 16 (begin m), int_text 16 (end_ m) with
  | Ok a, Ok b => Some (a, b, existsb (N.eqb 120) (rights m))
  | _, _ => None
  end.

Definition file_ok (page : Z) (f : file_map) : Prop :=
  map_start f mod page = 0 /\ map_end f mod page = 0 /\ map_offset f mod page = 0 /\ map_start f < map_end f /\
  existsb (N.eqb 119) (map_permissions f) = false /\ existsb (N.eqb 120) (map_permissions f) = true /\
  fullmatch path_re (map_path f) = true /\ clean_path (map_path f) = true /\ 0 < map_inode f < 2 ^ 64.

(** The executable ranges found so far: of files and of the kernel. *)
Definition executable_ranges (s : map_scan) : list (Z * Z) :=
  map (fun f => (map_start f, map_end f)) (maps s) ++
  map (fun k => (special_start k.2, special_end k.2)) (special s).

Definition special_ok (machine : str) (vdso : Z) (k : str * special_map) : Prop :=
  (k.1 = u "[vdso]" /\ special_start k.2 = vdso /\ special_permissions k.2 = u "r-xp" /\
   special_end k.2 - special_start k.2 <= 1048576) \/
  (k.1 = u "[vsyscall]" /\ machine = u "x86_64" /\ special_start k.2 = VSYSCALL /\ special_permissions k.2 = u "--xp" /\
   special_end k.2 = VSYSCALL + 4096).

(** One line: its range, and where it goes. *)
Lemma map_step_inv machine page vdso s line s' :
  map_step machine page vdso s line = Ok s' ->
  exists a b executable, line_range line = Some (a, b, executable) /\ previous_end s <= a /\ a < b /\ previous_end s' = b /\
    if executable
    then (exists f, maps s' = maps s ++ [f] /\ special s' = special s /\ file_ok page f /\ map_start f = a /\ map_end f = b) \/
         (exists k, special s' = special s ++ [k] /\ maps s' = maps s /\ special_ok machine vdso k /\
            ~ In k.1 (dkeys (special s)) /\ special_start k.2 = a /\ special_end k.2 = b)
    else maps s' = maps s /\ special s' = special s.
Proof.
  unfold map_step, line_range. intros [_ H]%seq_Ok. destruct (match_line line) as [m|]; [|done]. cbn [mbind option_bind].
  apply bind_Ok in H as (a & Ha & H). apply bind_Ok in H as (b & Hb & H). apply bind_Ok in H as (o & _ & H).
  apply bind_Ok in H as (maj & _ & H). apply bind_Ok in H as (min & _ & H). apply bind_Ok in H as (ino & _ & H).
  rewrite Ha, Hb. apply seq_Ok in H as [Hr%require_Ok H].
  rewrite !andb_true_iff, !Z.leb_le, !Z.ltb_lt, !Z.eqb_eq, negb_true_iff in Hr.
  destruct Hr as ((((((Hp & Hlt) & Hm1) & Hm2) & Hm3) & Hi) & Hw). exists a, b, (existsb (N.eqb 120) (rights m)).
  split; [done |]. split; [done |]. split; [done |].
  destruct (existsb (N.eqb 120) (rights m)) eqn:Ex; cbn [negb] in H; [|by injection H as <-].
  rewrite andb_true_r in Hw. apply seq_Ok in H as [_ H]. destruct (path m) as [p|]; [|done].
  destruct (str_in p _) eqn:Ep.
  - apply seq_Ok in H as [Hk%require_Ok H]. apply seq_Ok in H as [Hs [= <-]]. split; [done |]. right.
    rewrite andb_true_iff, negb_true_iff in Hk. destruct Hk as [Hk _].
    eexists. split; [reflexivity |]. split; [done |]. cbn [fst snd special_start special_end]. split; [|split; [|done]].
    + unfold special_ok. cbn [fst snd special_start special_end special_permissions].
      destruct (str_eqb p (u "[vdso]")) eqn:Ev.
      * apply str_eqb_eq in Ev. apply require_Ok in Hs. rewrite !andb_true_iff, Z.eqb_eq, Z.leb_le, str_eqb_eq in Hs.
        left. naive_solver.
      * apply require_Ok in Hs. rewrite !andb_true_iff, !Z.eqb_eq, !str_eqb_eq in Hs. right.
        apply str_in_In in Ep. destruct Ep as [<- | [<- | []]]; [by rewrite str_eqb_refl in Ev |].
        destruct Hs as [[[? ?] ?] ?]. repeat split; try done. lia.
    + intros Hin. apply dhas_In in Hin. congruence.
  - apply seq_Ok in H as [Hf%require_Ok H]. apply seq_Ok in H as [Hc%require_Ok [= <-]]. split; [done |]. left.
    rewrite andb_true_iff, Z.ltb_lt in Hf. eexists. split; [reflexivity |]. split; [done |].
    unfold file_ok. cbn [map_start map_end map_offset map_permissions map_path map_inode]. repeat split; try tauto; lia.
Qed.

Definition executable_lines (lines : list bytes) : list (Z * Z) :=
  flat_map (fun l => match line_range l with Some (a, b, true) => [(a, b)] | _ => [] end) lines.

Definition line_spans (lines : list bytes) : list (Z * Z) :=
  flat_map (fun l => match line_range l with Some (a, b, _) => [(a, b)] | _ => [] end) lines.

Lemma map_loop_inv machine page vdso lines s :
  for_fold (map_step machine page vdso) {| maps := []; special := []; previous_end := 0 |} lines = Ok s ->
  executable_ranges s ≡ₚ executable_lines lines /\ Forall (file_ok page) (maps s) /\
  Forall (special_ok machine vdso) (special s) /\ NoDup (dkeys (special s)) /\
  length (line_spans lines) = length lines /\ ordered fst snd (line_spans lines) /\
  Forall (fun r => 0 <= r.1 < r.2 /\ r.2 <= previous_end s) (line_spans lines) /\ 0 <= previous_end s.
Proof.
  apply (for_fold_taken _ (fun s lines => executable_ranges s ≡ₚ executable_lines lines /\ Forall (file_ok page) (maps s) /\
    Forall (special_ok machine vdso) (special s) /\ NoDup (dkeys (special s)) /\
    length (line_spans lines) = length lines /\ ordered fst snd (line_spans lines) /\
    Forall (fun r => 0 <= r.1 < r.2 /\ r.2 <= previous_end s) (line_spans lines) /\ 0 <= previous_end s)).
  - repeat split; try constructor. cbn. lia.
  - intros t taken line t' (H1 & H2 & H3 & H4 & H5 & H6 & H7 & H8) Hs.
    apply map_step_inv in Hs as (a & b & x & Er & Hp & Hlt & He & Hx).
    unfold executable_lines, line_spans in *. rewrite !flat_map_app, !length_app. cbn [flat_map].
    rewrite Er, !app_nil_r. cbn [length app].
    assert (ordered fst snd (flat_map (fun l => match line_range l with Some (a, b, _) => [(a, b)] | _ => [] end) taken ++ [(a, b)]) /\
      Forall (fun r => 0 <= r.1 < r.2 /\ r.2 <= previous_end t')
        (flat_map (fun l => match line_range l with Some (a, b, _) => [(a, b)] | _ => [] end) taken ++ [(a, b)])) as [Ho Hf].
    { split.
      - eapply ordered_snoc; [exact H6 | | exact Hp]. eapply List.Forall_impl; [|exact H7]. cbn. lia.
      - apply Forall_app. split; [|constructor; [cbn; lia | done]]. eapply List.Forall_impl; [|exact H7]. cbn. lia. }
    destruct x.
    + destruct Hx as [(f & Em & Es & Hf1 & <- & <-) | (k & Es & Em & Hk & Hnew & <- & <-)]; unfold executable_ranges;
        rewrite Em, Es, map_app; cbn [map]; unfold executable_ranges in H1.
      * split; [rewrite <- H1, <- !app_assoc; apply Permutation_app_head, Permutation_cons_append |].
        split; [apply Forall_app; split; [done | by apply Forall_singleton] |]. repeat (split; [done |]). split; [lia |]. split; [done |]. split; [done | lia].
      * split; [rewrite <- H1; by rewrite app_assoc |].
        split; [done |]. split; [apply Forall_app; split; [done | by apply Forall_singleton] |].
        split; [|split; [lia |]; split; [done |]; split; [done | lia]].
        unfold dkeys. rewrite map_app. apply NoDup_app. split; [done |]. split.
        -- intros y Hy Hy'. apply list_elem_of_singleton in Hy'. subst y. apply list_elem_of_In in Hy. by apply Hnew.
        -- cbn. apply NoDup_singleton.
    + destruct Hx as [Em Es]. unfold executable_ranges. rewrite Em, Es, app_nil_r. repeat (split; [done |]).
      split; [lia |]. split; [done |]. split; [done | lia].
Qed.

Definition code_ranges (c : code_maps) : list (Z * Z) :=
  map (fun f => (map_start f, map_end f)) (files c) ++ map (fun k => (special_start k.2, special_end k.2)) (kernel c).

Lemma zget_In {A} k (x : A) d : zget k d = Some x -> In (k, x) d.
Proof.
  induction d as [|[j y] d IH]; [done |]. cbn. destruct (Z.eqb_spec k j) as [->|]; [intros [= ->]; by left | auto].
Qed.

Lemma native_auxv_pages raw auxiliary :
  _native_auxv raw = Ok auxiliary -> exists page vdso, zget 6 auxiliary = Some page /\ zget 33 auxiliary = Some vdso /\
    is_page_size page = true /\ 0 < vdso /\ vdso mod page = 0.
Proof.
  unfold _native_auxv. intros [_ H]%seq_Ok. apply bind_Ok in H as (l & _ & H). apply seq_Ok in H as [Hr%require_Ok [= <-]].
  destruct (zget 6 l) as [page|], (zget 33 l) as [vdso|]; try done. exists page, vdso.
  rewrite !andb_true_iff, Z.ltb_lt, Z.eqb_eq in Hr. tauto.
Qed.

Lemma map_code_facts raw machine auxv c :
  _proc_code_maps raw machine auxv = Ok c ->
  let lines := splitlines octet_line_end raw in
  code_ranges c ≡ₚ executable_lines lines /\ length (line_spans lines) = length lines /\
  ordered fst snd (line_spans lines) /\ Forall (fun r => 0 <= r.1 < r.2) (line_spans lines) /\
  Forall (file_ok (pageSize c)) (files c) /\ files c <> [] /\
  exists auxiliary vdso, _native_auxv auxv = Ok auxiliary /\ zget 6 auxiliary = Some (pageSize c) /\
    zget 33 auxiliary = Some vdso /\ Forall (special_ok machine vdso) (kernel c) /\ NoDup (dkeys (kernel c)) /\
    In (u "[vdso]") (dkeys (kernel c)).
Proof.
  unfold _proc_code_maps. intros [_ H]%seq_Ok. apply seq_Ok in H as [_ H].
  apply bind_Ok in H as (auxiliary & Ha & H). destruct (native_auxv_pages _ _ Ha) as (page & vdso & E6 & E33 & _).
  rewrite E6, E33 in H. cbn [answer_key mbind res_bind] in H. apply seq_Ok in H as [_ H].
  apply bind_Ok in H as (s & Hs & H). apply seq_Ok in H as [Hn%require_Ok [= <-]]. rewrite andb_true_iff in Hn.
  apply map_loop_inv in Hs as (H1 & H2 & H3 & H4 & H5 & H6 & H7 & _). cbv zeta. cbn [files kernel pageSize].
  split; [exact H1 |]. split; [done |]. split; [done |]. split; [eapply List.Forall_impl; [|exact H7]; cbn; lia |].
  split; [done |]. split; [intros E; rewrite E in Hn; by destruct Hn |].
  exists auxiliary, vdso. repeat (split; [done |]). apply dhas_In. tauto.
Qed.

(** No executable range of a process is left out or writable.  When the map is accepted, each of
    its lines is a range, all in increasing order without overlap; the executable ranges are
    exactly those listed, as code of a file or of the kernel; file code is executable, not
    writable, on pages, and comes from an absolute path without dot components and a real inode;
    kernel code is the vdso where the auxiliary vector says it is, and on x86_64 the fixed
    vsyscall page, each at most once. *)
Theorem map_code_complete raw machine auxv c :
  _proc_code_maps raw machine auxv = Ok c ->
  let lines := splitlines octet_line_end raw in
  code_ranges c ≡ₚ executable_lines lines /\ length (line_spans lines) = length lines /\
  ordered fst snd (line_spans lines) /\ Forall (fun r => 0 <= r.1 < r.2) (line_spans lines) /\
  Forall (file_ok (pageSize c)) (files c) /\ files c <> [] /\
  exists auxiliary vdso, _native_auxv auxv = Ok auxiliary /\ zget 6 auxiliary = Some (pageSize c) /\
    zget 33 auxiliary = Some vdso /\ Forall (special_ok machine vdso) (kernel c) /\ NoDup (dkeys (kernel c)) /\
    In (u "[vdso]") (dkeys (kernel c)).
Proof. exact (map_code_facts raw machine auxv c). Qed.

(** *** The status of a process *)

Lemma map_m_ints_bounds rows key minimum maximum count l :
  integers rows key minimum maximum count = Ok l ->
  zlen l = count /\ Forall (fun v => minimum <= v <= maximum) l.
Proof.
  unfold integers. intros [Hl%require_Ok H]%seq_Ok. apply bind_Ok in H as (values & Hv & H).
  apply seq_Ok in H as [Hb%require_Ok [= <-]]. rewrite andb_true_iff, Z.eqb_eq in Hl. apply map_m_Ok, Forall2_length in Hv.
  split; [destruct Hl as [<- _]; unfold zlen; f_equal; symmetry; exact Hv |]. apply List.Forall_forall. intros x Hx. rewrite forallb_forall in Hb.
  specialize (Hb x Hx). rewrite andb_true_iff, !Z.leb_le in Hb. done.
Qed.

Lemma is_single_eq l x : is_single l x = true -> l = [x].
Proof. destruct l as [|y [|]]; cbn; try done. by intros ->%Z.eqb_eq. Qed.

(** The two views of a process agree.  An accepted status describes the very process of the stat
    line: both name the same process, parent and number of threads, the process leads its thread
    group and is not traced, its chain of namespace pids starts with its pid, it runs filtered,
    and every number is in its range: four user and four group ids, five capability sets, at most
    256 distinct groups. *)
Theorem process_views_agree raw status p :
  _proc_process_fields raw status = Ok p ->
  stat_fields raw = Ok (pid p, parent p, threads p, startTicks p) /\
  (exists rows, for_fold status_step [] (splitlines octet_line_end status) = Ok rows /\
     integers rows "Pid" 2 2147483647 1 = Ok [pid p] /\ integers rows "Tgid" 2 2147483647 1 = Ok [pid p] /\
     integers rows "PPid" 1 2147483647 1 = Ok [parent p] /\ integers rows "Threads" 1 4096 1 = Ok [threads p] /\
     integers rows "TracerPid" 0 0 1 = Ok [0]) /\
  1 < pid p < 2 ^ 31 /\ 0 < parent p < 2 ^ 31 /\ 1 <= threads p <= 4096 /\ 0 < startTicks p <= 2 ^ 53 - 1 /\
  length (uid p) = 4%nat /\ length (gid p) = 4%nat /\ length (capabilities p) = 5%nat /\ seccompMode p = 2 /\
  hd_error (namespacePids p) = Some (pid p) /\ zlen (namespacePids p) <= 32 /\ zlen (groups p) <= 256.
Proof.
  unfold _proc_process_fields. intros ([[[i par] th] st] & Hst & H)%bind_Ok.
  assert (1 < i < 2 ^ 31 /\ 0 < par < 2 ^ 31 /\ 1 <= th <= 4096 /\ 0 < st <= 2 ^ 53 - 1) as Hr.
  { unfold stat_fields in Hst. apply seq_Ok in Hst as [_ Hs]. destruct (match partition _ raw with Some (a, b) => (a, b, true) | None => _ end) as [[prefix rest] sep].
    apply seq_Ok in Hs as [_ Hs]. apply seq_Ok in Hs as [_ Hs]. apply bind_Ok in Hs as (nums & _ & Hs).
    apply seq_Ok in Hs as [_ Hs]. apply bind_Ok in Hs as (a & _ & Hs). apply bind_Ok in Hs as (b & _ & Hs).
    apply bind_Ok in Hs as (c & _ & Hs). apply bind_Ok in Hs as (d & _ & Hs).
    apply seq_Ok in Hs as [Hb%require_Ok [= -> -> -> ->]]. rewrite !andb_true_iff, !Z.ltb_lt, !Z.leb_le in Hb. lia. }
  unfold status_fields in H. apply seq_Ok in H as [_ H]. apply bind_Ok in H as (rows & Hrows & H).
  apply seq_Ok in H as [Hm%require_m_Ok H]. rewrite !and_m_true in Hm. destruct Hm as [[[H1 H2] H3] H4].
  apply bind_Ok in H1 as (a & Ha & H1). apply bind_Ok in H1 as (b & Hb & [= H1]). apply andb_true_iff in H1 as [->%ints_eqb_eq ->%is_single_eq].
  apply bind_Ok in H2 as (c & Hc & [= ->%is_single_eq]). apply bind_Ok in H3 as (d & Hd & [= ->%is_single_eq]).
  apply bind_Ok in H4 as (e & He & [= ->%is_single_eq]).
  apply seq_Ok in H as [Hn%require_Ok H]. rewrite andb_true_iff, !Z.leb_le in Hn.
  apply bind_Ok in H as (chain & Hchain & H). apply bind_Ok in H as (first & Hfirst & H).
  apply seq_Ok in H as [Hf%require_m_Ok H]. apply and_m_true in Hf as [[= ->%Z.eqb_eq] _].
  apply bind_Ok in H as (grp & Hgrp & H). apply seq_Ok in H as [Hg%require_Ok H]. rewrite !andb_true_iff, Z.leb_le in Hg.
  apply bind_Ok in H as (caps & Hcaps & H). apply bind_Ok in H as (us & Hu & H). apply bind_Ok in H as (gs & Hgs & H).
  apply bind_Ok in H as (sec & Hsec & H). apply bind_Ok in H as (priv & _ & [= <-]).
  cbn [pid parent threads startTicks uid gid capabilities seccompMode namespacePids groups].
  apply map_m_Ok, Forall2_length in Hcaps. apply map_m_ints_bounds in Hu as [Hu _]. apply map_m_ints_bounds in Hgs as [Hgs _].
  apply map_m_ints_bounds in Hchain as [Hchain _].
  apply bind_Ok in Hsec as (l & Hl & Hsec). apply map_m_ints_bounds in Hl as [Hl1 Hl2].
  destruct l as [|z [|z' l]]; [done | | unfold zlen in Hl1; simpl in Hl1; lia]. injection Hsec as ->. apply Forall_cons in Hl2 as [Hz _].
  unfold zlen in *. destruct chain as [|x chain]; [done |]. injection Hfirst as ->.
  split; [done |]. split; [exists rows; repeat (split; [done |]); done |].
  repeat (split; [first [lia | done] |]). repeat split; try done; try lia; cbn in Hcaps; lia.
Qed.
