(* ===== verification/Supervisor.v ===== *)
(** live_supervisor.py: the early check of the two envelope signatures, and the session lifecycle
    that native and unit supervisors share.  The journal, the boundary around the child and the
    clocks are an interface; a run of the lifecycle keeps what it did when it raises. *)

From S2P Require Import Prelude Effects PyVal Utf8 Json Sha2 Canonical Base64 Ed25519 IsoTime Regex.
From S2P Require Import SchemaBase Lifecycle LinuxShape Live LinuxVerify Session BackendAuthority.

#[local] Open Scope string_scope.
#[local] Open Scope list_scope.
#[local] Open Scope Z_scope.

(** ** The early check of an envelope *)

Section reference_authority.
Context {U : Unicode} {S : SigScheme}.

(** One of the two signers: the key and its owner. *)
(* @src src/src/harness_conformance/live_supervisor.py:51-61 _verify_reference_authority *)
Definition reference_signer (envelope : value) (payload : bytes) (instant : datetime)
    (raw : bytes) (role field signature : string) (tenant environment : value) : res (bytes * value) :=
  trust ← require_canonical_document raw;
  key_id ← fld envelope field;
  key ← _trust_key trust key_id role tenant environment instant;
  keys ← fld trust "keys";
  ks ← py_iter keys;
  record ← next_key key_id ks;
  require_m (b ← linux_time record "validUntil"; time_ltb instant b) "REFERENCE_TRUST_EXPIRED" ;;
  x ← fld envelope signature;
  sig ← b64url_decode x 64;
  require_m (sig_verify key payload sig) "REFERENCE_SIGNATURE_INVALID" ;;
  owner ← fld record "owner";
  Ok (key, owner).

(* @src src/src/harness_conformance/live_supervisor.py:36-62 _verify_reference_authority *)
Definition _verify_reference_authority (envelope : value) (release_raw tenant_raw : bytes) (now : value) : res unit :=
  instant ← LinuxShape.require_time now;
  require_m (fld_lit envelope "packetId" PACKET_ID <&&> fld_lit envelope "packetDigest" PACKET_DIGEST <&&>
             fld_lit envelope "campaignId" "linux-baseline" <&&>
             fld_eq envelope "commands" (VList (map str_list COMMANDS)) <&&>
             (b ← linux_time envelope "expiresAt"; time_ltb instant b)) "REFERENCE_AUTHORITY_SCOPE_INVALID" ;;
  require_m (fld_eq envelope "releaseTrustStoreDigest" (VStr (byte_digest release_raw)) <&&>
             fld_eq envelope "tenantTrustStoreDigest" (VStr (byte_digest tenant_raw))) "REFERENCE_TRUST_DIGEST_MISMATCH" ;;
  payload ← signature_payload ENVELOPE_DOMAIN envelope ["platformSignature"; "tenantSignature"];
  tenant ← fld envelope "tenantId";
  environment ← fld envelope "environmentId";
  platform ← reference_signer envelope payload instant release_raw "PLATFORM_RELEASE" "platformSignerKeyId"
    "platformSignature" VNone VNone;
  customer ← reference_signer envelope payload instant tenant_raw "TENANT_LIVE_EXECUTION" "tenantSignerKeyId"
    "tenantSignature" tenant environment;
  require (negb (str_eqb platform.1 customer.1) && negb (py_eq platform.2 customer.2)) "SIGNER_ROLES_NOT_INDEPENDENT".
End reference_authority.

(** ** What a lifecycle works with *)

(** The journal of sessions, the boundary around the child, the wall clock and the monotonic
    clock, over a state of their own. *)
Class Outside (W M : Type) := {
  wall : io W value;
  ticks : io W M;
  reserve_nonce : value -> value -> io W str;
  running : value -> value -> io W str;
  terminal : value -> str -> value -> str -> io W str;
  establish : value -> value -> M -> io W unit;
  check_peer : io W unit;
  request : str -> io W value;
  execute : value -> M -> io W data;
  cleanup : io W unit;
  interrupt : io W unit
}.

(** Readings of the monotonic clock: [int] or finite [float], comparison, and the reading that
    is [min(duration, 900)] seconds later, the duration in microseconds. *)
Class Monotonic (M : Type) := {
  is_number : M -> bool;
  tick_leb : M -> M -> bool;
  tick_ltb : M -> M -> bool;
  after : M -> Z -> M
}.

(** The dict of the active session. *)
Record active_session (M : Type) := {
  binding : value;
  session : value;
  plan : value;
  finished : list (str * str);
  handle : option Z;
  deadline : M;
  lastWall : datetime;
  lastMonotonic : M;
  reserved : bool
}.
Arguments binding {M}. Arguments session {M}. Arguments plan {M}. Arguments finished {M}. Arguments handle {M}.
Arguments deadline {M}. Arguments lastWall {M}. Arguments lastMonotonic {M}. Arguments reserved {M}.

(** A supervisor: its fields, whether the mutex is held, and the state outside. *)
Record supervisor (W M : Type) := {
  active : option (active_session M);
  serial : Z;
  opened : bool;
  locked : bool;
  outside : W
}.
Arguments active {W M}. Arguments serial {W M}. Arguments opened {W M}. Arguments locked {W M}. Arguments outside {W M}.

Section lifecycle.
Context {U : Unicode} {W M : Type} {O : Outside W M} {Mo : Monotonic M}.

Definition run (A : Type) : Type := io (supervisor W M) A.

Definition on_outside {A} (m : io W A) : run A :=
  zoom outside (fun w s => {| active := active s; serial := serial s; opened := opened s; locked := locked s; outside := w |}) m.

Definition set_active (a : option (active_session M)) : run unit :=
  update (fun s => {| active := a; serial := serial s; opened := opened s; locked := locked s; outside := outside s |}).
Definition set_opened : run unit :=
  update (fun s => {| active := active s; serial := serial s; opened := true; locked := locked s; outside := outside s |}).
Definition set_serial (n : Z) : run unit :=
  update (fun s => {| active := active s; serial := n; opened := opened s; locked := locked s; outside := outside s |}).
Definition set_locked (b : bool) : run unit :=
  update (fun s => {| active := active s; serial := serial s; opened := opened s; locked := b; outside := outside s |}).

(** The dict every method holds while it is [self._active]. *)
Definition the_active : run (active_session M) :=
  reads (fun s => match active s with Some a => Ok a | None => Raise TypeError end).
Definition is_active : run bool := reads (fun s => Ok (match active s with Some _ => true | None => false end)).

Definition seen (a : active_session M) (instant : datetime) (m : M) : active_session M :=
  {| binding := binding a; session := session a; plan := plan a; finished := finished a; handle := handle a;
     deadline := deadline a; lastWall := instant; lastMonotonic := m; reserved := reserved a |}.
Definition with_finished (a : active_session M) (d : list (str * str)) : active_session M :=
  {| binding := binding a; session := session a; plan := plan a; finished := d; handle := handle a;
     deadline := deadline a; lastWall := lastWall a; lastMonotonic := lastMonotonic a; reserved := reserved a |}.
Definition started (a : active_session M) (running_session : value) (h : Z) : active_session M :=
  {| binding := binding a; session := running_session; plan := plan a; finished := finished a; handle := Some h;
     deadline := deadline a; lastWall := lastWall a; lastMonotonic := lastMonotonic a; reserved := reserved a |}.

(* @src src/src/harness_conformance/live_supervisor.py:87-101 _Lifecycle._now *)
Definition _now : run value :=
  now ← on_outside wall;
  instant ← lift (LinuxShape.require_time now);
  m ← on_outside ticks;
  a ← the_active;
  check (is_number m && tick_leb (lastMonotonic a) m) "SUPERVISOR_MONOTONIC_ROLLBACK" ;;
  lift (require_m (time_leb (lastWall a) instant) "SUPERVISOR_CLOCK_ROLLBACK") ;;
  set_active (Some (seen a instant m)) ;;
  lift (require_m ((b ← linux_time (binding a) "notAfter"; time_ltb instant b) <&&> Ok (tick_ltb m (deadline a)))
          "SUPERVISOR_EXPIRED") ;;
  mret now.

(** The time of an end: the state it is recorded under. *)
(* @src src/src/harness_conformance/live_supervisor.py:190-200 _Lifecycle._terminate *)
Definition end_state (a : active_session M) (state : string) : run (string * value) :=
  now ← on_outside wall;
  instant ← lift (LinuxShape.require_time now);
  m ← on_outside ticks;
  lift (require_m (time_leb (lastWall a) instant) "SUPERVISOR_CLOCK_ROLLBACK") ;;
  check (is_number m && tick_leb (lastMonotonic a) m) "SUPERVISOR_MONOTONIC_ROLLBACK" ;;
  late ← lift (b ← linux_time (binding a) "notAfter"; time_leb b instant);
  mret (if (late : bool) then "EXPIRED" else if tick_leb (deadline a) m then "FAILED" else state, now).

Definition summary (state : string) (receipts : list (str * str)) : value :=
  VDict [(u "state", VStr (u state)); (u "receipts", VDict (map (fun r => (r.1, VStr r.2)) receipts));
         (u "nativeAcceptance", VBool false)].

(** [handling] is the exception being handled where [_terminate] is called. *)
(* @src src/src/harness_conformance/live_supervisor.py:181-212 _Lifecycle._terminate *)
Definition _terminate (state : string) (handling : option exn) : run unit :=
  o ← reads (fun s => Ok (active s));
  match o with
  | None => mret tt
  | Some a =>
      set_active None ;;
      time ← attempt (end_state a state);
      clean ← attempt (on_outside cleanup);
      let raised e := throw (match handling with Some original => original | None => e end) in
      match time, clean with
      | Raise e, _ => raised e
      | _, Raise e => raised e
      | Ok (state, now), Ok _ =>
          digest ← lift (canonical_digest (summary state (finished a)) None);
          _ ← on_outside (terminal (binding a) (u state) now digest);
          mret tt
      end
  end.

(** [if self._active is not None: self._terminate(state)] where [e] is handled. *)
Definition terminate_if_active (state : string) (handling : option exn) : run unit :=
  live ← is_active; if (live : bool) then _terminate state handling else mret tt.

(** The session of a binding. *)
Definition session_of (b : value) (state : string) : res value :=
  d ← items b;
  notBefore ← fld b "notBefore";
  notAfter ← fld b "notAfter";
  Ok (VDict (dset (u "state") (VStr (u state)) (dset (u "expiresAt") notAfter (dset (u "issuedAt") notBefore
        (dset (u "schemaVersion") (VStr (u SCHEMA)) (dwithout [u "notBefore"; u "notAfter"] d)))))).

(** [state["state"] = "RUNNING"] *)
Definition now_running (s : value) : value :=
  match s with VDict d => VDict (dset (u "state") (VStr (u "RUNNING")) d) | _ => s end.

Definition architecture_of (p : value) : res value := t ← fld p "target"; fld t "architecture".

(** The rest of [_open], once the instance is spent. *)
(* @src src/src/harness_conformance/live_supervisor.py:125-143 _Lifecycle._open *)
Definition establish_session (a : active_session M) (now : value) : run Z :=
  on_exception
    (_ ← on_outside (reserve_nonce (binding a) now);
     set_active (Some {| binding := binding a; session := session a; plan := plan a; finished := finished a;
                         handle := handle a; deadline := deadline a; lastWall := lastWall a;
                         lastMonotonic := lastMonotonic a; reserved := true |}) ;;
     _ ← _now;
     on_outside (establish (binding a) (plan a) (deadline a)) ;;
     on_outside check_peer ;;
     now ← _now;
     _ ← on_outside (running (binding a) now);
     n ← reads (fun s => Ok (serial s + 1));
     set_serial n ;;
     current ← the_active;
     set_active (Some (started current (now_running (session current)) n)) ;;
     mret n)
    (fun e => terminate_if_active "FAILED" (Some e)).

(* @src src/src/harness_conformance/live_supervisor.py:103-143 _Lifecycle._open *)
Definition _open (x : data) (p : value) : run Z :=
  b ← lift (validate_binding x);
  idle ← reads (fun s => Ok (match active s with None => negb (opened s) | Some _ => false end));
  check idle "SUPERVISOR_BUSY" ;;
  now ← on_outside wall;
  state ← lift (session_of b "RESERVED");
  _ ← lift (validate_session (Value state) (Value b) now);
  lift (require_m (a ← architecture_of p; Ok (in_lits a ARCHITECTURES)) "SUPERVISOR_ARCHITECTURE_INVALID") ;;
  duration ← lift (stop ← linux_time b "notAfter"; instant ← LinuxShape.require_time now; time_sub stop instant);
  m ← on_outside ticks;
  check (is_number m) "SUPERVISOR_MONOTONIC_INVALID" ;;
  instant ← lift (LinuxShape.require_time now);
  set_opened ;;
  establish_session {| binding := b; session := state; plan := p; finished := []; handle := None;
                       deadline := after m duration; lastWall := instant; lastMonotonic := m; reserved := false |} now.

(** A handle of this supervisor, by its serial; [None] is any other object. *)
(* @src src/src/harness_conformance/live_supervisor.py:145-149 _Lifecycle._get *)
Definition _get (h : option Z) : run (active_session M) :=
  o ← reads (fun s => Ok (active s));
  match o, h with
  | Some a, Some n =>
      check (match handle a with Some m => m =? n | None => false end) "SUPERVISOR_HANDLE_INVALID" ;; mret a
  | _, _ => throw (ConformanceError "SUPERVISOR_HANDLE_INVALID")
  end.

Definition regressions_of (p case : value) : res value :=
  if eq_lit case "FULL_PREDECESSOR_REGRESSION" then fld p "regressions" else Ok (VDict []).

(** One operation of a session; [handling] as for [_terminate]. *)
(* @src src/src/harness_conformance/live_supervisor.py:155-173 _Lifecycle.execute_fixed *)
Definition operation (case architecture : value) (handling : option exn) : run value :=
  a ← the_active;
  check (in_lits case CASES && negb (match case with VStr c => dhas c (finished a) | _ => false end))
    "SUPERVISOR_OPERATION_INVALID" ;;
  lift (require_m (x ← architecture_of (plan a); Ok (py_eq architecture x)) "SUPERVISOR_ARCHITECTURE_MISMATCH") ;;
  c ← lift (as_text case);
  _ ← _now;
  on_outside check_peer ;;
  request ← on_outside (request c);
  raw ← on_outside (execute request (deadline a));
  now ← _now;
  on_outside check_peer ;;
  expected ← lift (regressions_of (plan a) case);
  receipt ← lift (validate_receipt raw (Value (session a)) (Value (binding a)) (Value request) (Value expected) now);
  digest ← lift (canonical_digest receipt None);
  current ← the_active;
  let finished := dset c digest (finished current) in
  set_active (Some (with_finished current finished)) ;;
  status ← lift (fld receipt "status");
  (if negb (eq_lit status "PASS") then _terminate "FAILED" handling
   else if zlen finished =? zlen CASES then _terminate "COMPLETED" handling
   else mret tt) ;;
  mret (VDict [(u "receipt", receipt); (u "evidenceClass", VStr (u "UNIT_VERIFICATION_ONLY"));
               (u "nativeAcceptance", VBool false)]).

(** The mutex of a method: taken without waiting, or waited for; released at the end. *)
Definition try_lock {A} (m : run A) : run A :=
  free ← reads (fun s => Ok (negb (locked s)));
  check free "SUPERVISOR_BUSY" ;;
  set_locked true ;;
  finally m (set_locked false).

Definition with_lock {A} (m : run A) : run A := set_locked true ;; finally m (set_locked false).

(* @src src/src/harness_conformance/live_supervisor.py:151-179 _Lifecycle.execute_fixed *)
Definition execute_fixed (h : option Z) (case architecture : value) (handling : option exn) : run value :=
  try_lock
    (_ ← _get h;
     on_exception (operation case architecture handling) (fun e => terminate_if_active "FAILED" (Some e))).

(* @src src/src/harness_conformance/live_supervisor.py:214-221 _Lifecycle.cancel *)
Definition cancel (h : option Z) (handling : option exn) : run unit :=
  _ ← _get h;
  on_outside interrupt ;;
  with_lock (terminate_if_active "CANCELLED" handling).

(* @src src/src/harness_conformance/live_supervisor.py:223-225 _Lifecycle.close *)
Definition close (handling : option exn) : run unit := with_lock (_terminate "FAILED" handling).

(* @src src/src/harness_conformance/live_supervisor.py:230-233 UnitSupervisor.open_session *)
Definition open_session (x : data) (p : value) : run Z := with_lock (_open x p).

(* @src src/src/harness_conformance/live_supervisor.py:79-85 _Lifecycle.__init__ *)
Definition fresh (w : W) : supervisor W M := {| active := None; serial := 0; opened := false; locked := false; outside := w |}.
End lifecycle.

