(* ===== verification/SupervisorRuns.v ===== *)
(** Runs of the session lifecycle of Supervisor.v: the log of what a supervisor does outside, the
    protocol of that log, and the invariant that every run keeps it, however its calls end. *)

From S2P Require Import Prelude Effects PyVal Utf8 Json Sha2 Canonical Base64 Ed25519 IsoTime Regex.
From S2P Require Import SchemaBase Lifecycle LinuxShape Live LinuxVerify Session BackendAuthority Supervisor.

#[local] Open Scope string_scope.
#[local] Open Scope list_scope.
#[local] Open Scope Z_scope.

(** ** What a lifecycle does outside *)

(** The calls that returned, and the terminal records that were attempted. *)
Inductive event :=
| Reserved (b : value)
| Established
| Peer
| Running (b : value)
| Asked (case : str) (request : value)
| Executed (request : value) (raw : data)
| Cleaned
| Ended (state : str).

(** An outside that notes the calls of another one. *)
Section logged.
Context {W M : Type} {O : Outside W M}.

Definition quietly {A} (m : io W A) : io (W * list event) A := zoom fst (fun w s => (w, s.2)) m.
Definition note (e : event) : io (W * list event) unit := update (fun s => (s.1, s.2 ++ [e])).

#[export] Instance logged : Outside (W * list event) M := {|
  wall := quietly wall;
  ticks := quietly ticks;
  reserve_nonce b now := r ← quietly (reserve_nonce b now); note (Reserved b) ;; mret r;
  running b now := r ← quietly (running b now); note (Running b) ;; mret r;
  terminal b state now digest := note (Ended state) ;; quietly (terminal b state now digest);
  establish b p d := quietly (establish b p d) ;; note Established;
  check_peer := quietly check_peer ;; note Peer;
  request c := r ← quietly (request c); note (Asked c r) ;; mret r;
  execute r d := raw ← quietly (execute r d); note (Executed r raw) ;; mret raw;
  cleanup := quietly cleanup ;; note Cleaned;
  interrupt := quietly interrupt
|}.
End logged.

(** *** The protocol *)

(** Where a session stands: nothing held, the nonce held, the child confined, its peer checked,
    running, ready for one execution, with the request of a case, executed, cleaned up, recorded. *)
Inductive phase := Idle | Held | Confined | Checked | Live | Armed | Aimed (request : value) | Spent | Clean | Over.

(** The phases cleanup is due in. *)
Definition begun (p : phase) : Prop := match p with Idle | Clean | Over => False | _ => True end.

Inductive protocol : phase -> event -> phase -> Prop :=
| p_reserve b : protocol Idle (Reserved b) Held
| p_establish : protocol Held Established Confined
| p_check : protocol Confined Peer Checked
| p_running b : protocol Checked (Running b) Live
| p_before : protocol Live Peer Armed
| p_ask c r : protocol Armed (Asked c r) (Aimed r)
| p_execute r raw : protocol (Aimed r) (Executed r raw) Spent
| p_after : protocol Spent Peer Live
| p_clean p : begun p -> protocol p Cleaned Clean
| p_end state : protocol Clean (Ended state) Over.

Inductive follows_protocol : list event -> phase -> Prop :=
| follows_nil : follows_protocol [] Idle
| follows_snoc log p e q : follows_protocol log p -> protocol p e q -> follows_protocol (log ++ [e]) q.

Definition executions (log : list event) : list (value * data) :=
  flat_map (fun e => match e with Executed r raw => [(r, raw)] | _ => [] end) log.

(** The cases whose requests were asked for, with the requests that were given. *)
Definition asked (log : list event) : list (str * value) :=
  flat_map (fun e => match e with Asked c r => [(c, r)] | _ => [] end) log.

Definition trace (log : list event) : list (str * value) * list (value * data) := (asked log, executions log).

Definition extend (e : event) (xs : list (str * value) * list (value * data)) : list (str * value) * list (value * data) :=
  match e with Asked c r => (xs.1 ++ [(c, r)], xs.2) | Executed r raw => (xs.1, xs.2 ++ [(r, raw)]) | _ => xs end.

Lemma trace_snoc log e : trace (log ++ [e]) = extend e (trace log).
Proof. unfold trace, executions, asked. rewrite !flat_map_app. destruct e; cbn; by rewrite ?app_nil_r. Qed.

(** ** The invariant *)

Section invariant.
Context {U : Unicode} {W M : Type} {O : Outside W M} {Mo : Monotonic M}.

Notation sup := (supervisor (W * list event) M).
Definition log_of (s : sup) : list event := (outside s).2.

(** A case counts as passed when what the boundary executed was validated as a passing receipt for it,
    whose digest is what is kept. *)
Definition passed (b sess p : value) (done : str * str) (ex : value * data) : Prop :=
  In done.1 (map u CASES) /\ exists now expected receipt,
    regressions_of p (VStr done.1) = Ok expected /\
    validate_receipt ex.2 (Value sess) (Value b) (Value ex.1) (Value expected) now = Ok receipt /\
    fld_lit receipt "status" "PASS" = Ok true /\ canonical_digest receipt None = Ok done.2.

(** What was asked for and executed is, in order, the request of each case that passed, and nothing else. *)
Definition accounts (b sess p : value) (done : list (str * str)) (xs : list (str * value) * list (value * data)) : Prop :=
  Forall2 (passed b sess p) done xs.2 /\ Forall2 (fun d a => a.1 = d.1) done xs.1 /\ map snd xs.1 = map fst xs.2.

(** All the cases passed, each once. *)
Definition earned (log : list event) : Prop := exists b sess p done,
  NoDup (dkeys done) /\ length done = length CASES /\ accounts b sess p done (trace log).

Definition completed : event := Ended (u "COMPLETED").

(** A supervisor without an active session. *)
Definition quiet (s : sup) : Prop :=
  active s = None /\ (opened s = false -> log_of s = []) /\
  (exists p, follows_protocol (log_of s) p) /\
  (In completed (log_of s) -> earned (log_of s)).

(** One that has a session which may be ended. *)
Definition endable (s : sup) (a : active_session M) : Prop :=
  active s = Some a /\ opened s = true /\ ~ In completed (log_of s) /\
  exists p, follows_protocol (log_of s) p /\ begun p.

(** The part of the active session the clocks do not touch. *)
Definition agree (a a' : active_session M) : Prop :=
  binding a' = binding a /\ session a' = session a /\ plan a' = plan a /\ finished a' = finished a /\
  handle a' = handle a /\ deadline a' = deadline a.

Definition unlike_clocks (s s' : sup) : Prop :=
  opened s' = opened s /\ serial s' = serial s /\ locked s' = locked s /\ log_of s' = log_of s /\
  match active s, active s' with Some a, Some a' => agree a a' | None, None => True | _, _ => False end.

#[export] Instance agree_preorder : PreOrder agree.
Proof. split; [done |]. intros a b c. unfold agree. intuition congruence. Qed.

#[export] Instance unlike_clocks_preorder : PreOrder unlike_clocks.
Proof.
  split.
  - intros s. unfold unlike_clocks. repeat split. destruct (active s); [reflexivity | done].
  - intros s1 s2 s3 (? & ? & ? & ? & Hx) (? & ? & ? & ? & Hy). repeat split; try congruence.
    destruct (active s1), (active s2), (active s3); try done. by etransitivity.
Qed.

(** *** Calls outside *)

Lemma wp_outside {A} (m : io (W * list event) A) Q E (s : sup) :
  wp m (fun a w => Q a {| active := active s; serial := serial s; opened := opened s; locked := locked s; outside := w |})
       (fun e w => E e {| active := active s; serial := serial s; opened := opened s; locked := locked s; outside := w |})
       (outside s) ->
  wp (on_outside m) Q E s.
Proof. intros H. unfold on_outside. by apply wp_zoom. Qed.

(** A call that notes nothing, and one that notes an event when it returns. *)
Lemma wp_quiet {A} (m : io W A) (Q : A -> sup -> Prop) E (s : sup) :
  (forall a s', unlike_clocks s s' -> active s' = active s -> Q a s') ->
  (forall e s', unlike_clocks s s' -> active s' = active s -> E e s') ->
  wp (on_outside (quietly m)) Q E s.
Proof.
  intros HQ HE. apply wp_outside. unfold quietly. apply wp_zoom. unfold wp. destruct (m (outside s).1) as [[a|e] w].
  - apply HQ; [|done]. unfold unlike_clocks. repeat split. cbn. destruct (active s); [reflexivity | done].
  - apply HE; [|done]. unfold unlike_clocks. repeat split. cbn. destruct (active s); [reflexivity | done].
Qed.

Definition noted_state (s s' : sup) (e : event) : Prop :=
  active s' = active s /\ opened s' = opened s /\ serial s' = serial s /\ locked s' = locked s /\
  log_of s' = log_of s ++ [e].

Lemma wp_noted {A} (m : io W A) (ev : A -> event) (Q : A -> sup -> Prop) E (s : sup) :
  (forall a s', noted_state s s' (ev a) -> Q a s') ->
  (forall e s', unlike_clocks s s' -> active s' = active s -> E e s') ->
  wp (on_outside (r ← quietly m; note (ev r) ;; mret r)) Q E s.
Proof.
  intros HQ HE. apply wp_outside, wp_bind. unfold quietly. apply wp_zoom. unfold wp at 1.
  destruct (m (outside s).1) as [[a|e] w].
  - apply wp_bind, wp_update, wp_ret. by apply HQ.
  - apply HE; [|done]. unfold unlike_clocks. repeat split. cbn. destruct (active s); [reflexivity | done].
Qed.

Lemma wp_noted_unit (m : io W unit) (ev : event) (Q : unit -> sup -> Prop) E (s : sup) :
  (forall s', noted_state s s' ev -> Q tt s') ->
  (forall e s', unlike_clocks s s' -> active s' = active s -> E e s') ->
  wp (on_outside (quietly m ;; note ev)) Q E s.
Proof.
  intros HQ HE. apply wp_outside, wp_bind. unfold quietly. apply wp_zoom. unfold wp at 1.
  destruct (m (outside s).1) as [[[]|e] w].
  - apply wp_update. by apply HQ.
  - apply HE; [|done]. unfold unlike_clocks. repeat split. cbn. destruct (active s); [reflexivity | done].
Qed.

(** *** Reading the time *)

Lemma now_wp (s : sup) a :
  active s = Some a ->
  wp _now (fun _ s' => unlike_clocks s s') (fun _ s' => unlike_clocks s s') s.
Proof.
  intros Ha. unfold _now. apply wp_bind, wp_quiet; [intros now s1 H1 A1 | by intros].
  apply wp_bind, wp_lift; [intros instant _ | by intros]. apply wp_bind, wp_quiet; [intros m s2 H2 A2 | intros; by etransitivity].
  assert (unlike_clocks s s2) as H by (by etransitivity).
  assert (active s2 = Some a) as Ea by congruence.
  apply wp_bind, wp_reads; rewrite Ea; [intros a' [= <-] | done].
  apply wp_bind, wp_check; [intros _ | done]. apply wp_bind, wp_lift; [intros _ _ | done].
  apply wp_bind, wp_update. assert (unlike_clocks s {| active := Some (seen a instant m); serial := serial s2; opened := opened s2; locked := locked s2; outside := outside s2 |}) as H'.
  { etransitivity; [exact H |]. unfold unlike_clocks. cbn. rewrite Ea. repeat split. }
  apply wp_bind, wp_lift; [intros _ _ | done]. by apply wp_ret.
Qed.

Lemma end_state_wp a state (s : sup) :
  wp (end_state a state)
    (fun r s' => unlike_clocks s s' /\ active s' = active s /\ In r.1 [state; "FAILED"; "EXPIRED"])
    (fun _ s' => unlike_clocks s s' /\ active s' = active s) s.
Proof.
  unfold end_state. apply wp_bind, wp_quiet; [intros now s1 H1 A1 | done].
  apply wp_bind, wp_lift; [intros instant _ | done].
  apply wp_bind, wp_quiet; [intros m s2 H2 A2 | intros; split; [by etransitivity | congruence]].
  assert (unlike_clocks s s2 /\ active s2 = active s) as H by (split; [by etransitivity | congruence]).
  apply wp_bind, wp_lift; [intros _ _ | done]. apply wp_bind, wp_check; [intros _ | done].
  apply wp_bind, wp_lift; [intros late _ | done]. apply wp_ret. split; [tauto |]. split; [tauto |].
  cbn. destruct late; [by right; right; left |]. destruct (tick_leb _ _); [by right; left | by left].
Qed.

(** *** Ending a session *)

Definition closed_after (s s' : sup) : Prop :=
  quiet s' /\ opened s' = true /\ serial s' = serial s /\ locked s' = locked s.

(** The events that are neither a request nor an execution. *)
Definition plain (e : event) : Prop := match e with Asked _ _ | Executed _ _ => False | _ => True end.

Lemma trace_plain log e : plain e -> trace (log ++ [e]) = trace log.
Proof. intros H. rewrite trace_snoc. by destruct e. Qed.

Lemma earned_snoc log e : plain e -> earned log -> earned (log ++ [e]).
Proof. intros He (b & sess & p & done & ? & ? & H). exists b, sess, p, done. by rewrite trace_plain. Qed.

Lemma completed_snoc log e : e <> completed -> ~ In completed log -> ~ In completed (log ++ [e]).
Proof. intros He Hl [H | [H | []]]%in_app_iff; by apply Hl || apply He. Qed.

Lemma terminate_wp state handling (s : sup) a :
  endable s a -> (state = "COMPLETED" -> earned (log_of s)) ->
  wp (_terminate state handling) (fun _ s' => closed_after s s') (fun _ s' => closed_after s s') s.
Proof.
  intros (Ha & Ho & Hn & p & Hp & Hlive) Hearned. unfold _terminate.
  apply wp_bind, wp_reads; [intros o [= <-] | done]. rewrite Ha. apply wp_bind, wp_update.
  set (s1 := {| active := None; serial := serial s; opened := opened s; locked := locked s; outside := outside s |}).
  assert (forall s2, unlike_clocks s1 s2 -> active s2 = None -> closed_after s s2) as Hclosed.
  { intros s2 (E1 & E2 & E3 & E4 & _) E5. cbn in E1, E2, E3. unfold closed_after, quiet. change (log_of s1) with (log_of s) in E4.
    rewrite E4, E1, Ho, E5. repeat split; try done; eauto. }
  apply wp_bind, wp_attempt. eapply wp_mono; [apply end_state_wp | intros [st now] s2 (H2 & A2 & Hst) | intros e s2 (H2 & A2)];
    change (active s1) with (@None (active_session M)) in A2.
  - apply wp_bind, wp_attempt, wp_noted_unit.
    + intros s3 (E1 & E2 & E3 & E4 & E5). destruct H2 as (F1 & F2 & F3 & F4 & _). cbn in F1, F2, F3.
      change (log_of s1) with (log_of s) in F4. rewrite F4 in E5.
      assert (follows_protocol (log_of s3) Clean) as Hclean by (rewrite E5; econstructor; [exact Hp | by constructor]).
      assert (~ In completed (log_of s3)) as Hnc by (rewrite E5; by apply completed_snoc).
      assert (closed_after s s3) as Hc3.
      { unfold closed_after, quiet. rewrite E1, A2, E2, F1, Ho, E3, F2, E4, F3. repeat split; try done; eauto. }
      apply wp_bind, wp_lift; [intros digest _ | done]. apply wp_bind, wp_outside, wp_bind, wp_update.
      assert (forall w, closed_after s {| active := active s3; serial := serial s3; opened := opened s3; locked := locked s3;
        outside := (w, (outside s3).2 ++ [Ended (u st)]) |}) as Hend.
      { intros w. unfold closed_after, quiet, log_of. cbn [active serial opened locked outside snd].
        rewrite E1, A2, E2, F1, Ho, E3, F2, E4, F3. split; [|done]. split; [done |]. split; [done |]. split.
        - exists Over. econstructor; [exact Hclean | constructor].
        - intros [H | [H | []]]%in_app_iff; [by destruct Hnc |]. unfold completed in H. injection H as H. apply u_inj in H.
          apply earned_snoc; [done |]. change ((outside s3).2) with (log_of s3). rewrite E5. apply earned_snoc; [done |].
          apply Hearned. cbn in Hst. subst st. destruct Hst as [<- | [Hst | [Hst | []]]]; done. }
      unfold quietly. apply wp_zoom. unfold wp. destruct (terminal _ _ _ _ _) as [[|] w]; [apply Hend | apply Hend].
    + intros e s3 H3 A3. apply wp_throw. apply Hclosed; [by etransitivity | congruence].
  - apply wp_bind, wp_attempt, wp_noted_unit.
    + intros s3 (E1 & E2 & E3 & E4 & E5). destruct H2 as (F1 & F2 & F3 & F4 & _). cbn in F1, F2, F3.
      change (log_of s1) with (log_of s) in F4. rewrite F4 in E5. apply wp_throw.
      unfold closed_after, quiet. rewrite E1, A2, E2, F1, Ho, E3, F2, E4, F3, E5. repeat split; try done.
      * exists Clean. econstructor; [exact Hp | by constructor].
      * intros H. exfalso. by eapply completed_snoc; [| exact Hn | exact H].
    + intros e' s3 H3 A3. apply wp_throw. apply Hclosed; [by etransitivity | congruence].
Qed.

Lemma terminate_if_active_wp state handling (s : sup) a :
  endable s a -> (state = "COMPLETED" -> earned (log_of s)) ->
  wp (terminate_if_active state handling) (fun _ s' => closed_after s s') (fun _ s' => closed_after s s') s.
Proof.
  intros He H. unfold terminate_if_active, is_active. apply wp_bind, wp_reads; [intros o [= <-] | done].
  destruct He as (Ha & He). rewrite Ha. eapply terminate_wp; [|done]. by split.
Qed.

(** *** Opening a session *)

(** A session in progress. *)
Definition going (s : sup) : Prop := exists a n,
  active s = Some a /\ opened s = true /\ handle a = Some n /\ follows_protocol (log_of s) Live /\
  ~ In completed (log_of s) /\ NoDup (dkeys (finished a)) /\ (length (finished a) < length CASES)%nat /\
  accounts (binding a) (session a) (plan a) (finished a) (trace (log_of s)).

(** A session that stands at a phase before it runs. *)
Definition pending (s : sup) (a : active_session M) (l : bool) (p : phase) : Prop :=
  (exists a', active s = Some a' /\ agree a a') /\ opened s = true /\ locked s = l /\ follows_protocol (log_of s) p /\
  begun p /\ trace (log_of s) = ([], []) /\ ~ In completed (log_of s).

Lemma pending_clocks s s' a l p : unlike_clocks s s' -> pending s a l p -> pending s' a l p.
Proof.
  intros (E1 & E2 & E3 & E4 & Ea) ((a' & Ha & Hagree) & Ho & Hl & H). unfold pending. rewrite E1, E3, E4.
  split; [|done]. rewrite Ha in Ea. destruct (active s') as [a2|]; [|done]. exists a2. split; [done | by etransitivity].
Qed.

Lemma pending_noted s s' a l p e q :
  noted_state s s' e -> plain e -> e <> completed -> protocol p e q ->
  begun q -> pending s a l p -> pending s' a l q.
Proof.
  intros (E1 & E2 & E3 & E4 & E5) He Hc Hp Hq (Ha & Ho & Hl & Hf & _ & Hx & Hn). unfold pending.
  rewrite E1, E2, E4, E5, trace_plain, Hx by done. repeat (split; [done |]). split; [by econstructor |]. split; [done |].
  split; [done | by apply completed_snoc].
Qed.

Lemma pending_endable s a l p : pending s a l p -> exists a', endable s a'.
Proof. intros ((a' & Ha & _) & Ho & _ & Hf & Hp & _ & Hn). exists a'. unfold endable. eauto 6. Qed.

Definition spent (l : bool) (s : sup) : Prop := quiet s /\ opened s = true /\ locked s = l.

Lemma pending_handler s a l p e : pending s a l p ->
  wp (terminate_if_active "FAILED" (Some e)) (fun _ => spent l) (fun _ => spent l) s.
Proof.
  intros H. destruct (pending_endable _ _ _ _ H) as [a' He]. destruct H as (_ & _ & Hl & _).
  assert ("FAILED" = "COMPLETED" -> earned (log_of s)) as Hf by done.
  eapply wp_mono; [exact (terminate_if_active_wp "FAILED" (Some e) s a' He Hf) | |];
    intros ? s' (? & ? & _ & ?); unfold spent; (split; [done | split; [done | congruence]]).
Qed.

Lemma establish_session_wp a now l (s : sup) :
  active s = None -> opened s = true -> locked s = l -> log_of s = [] -> finished a = [] ->
  wp (establish_session a now) (fun n s' => going s' /\ locked s' = l) (fun _ s' => spent l s') s.
Proof.
  intros Ha Ho Hl Hlog Hf. unfold establish_session. apply wp_on_exception.
  assert (forall (s' : sup) e p, pending s' a l p ->
    wp (terminate_if_active "FAILED" (Some e)) (fun _ => spent l) (fun _ => spent l) s') as Hend by (intros; by eapply pending_handler).
  apply wp_bind. change (reserve_nonce (binding a) now) with
    (r ← quietly (reserve_nonce (W := W) (M := M) (binding a) now); note (Reserved (binding a)) ;; mret r).
  apply (wp_noted _ (fun _ => Reserved (binding a))).
  2: { intros e s' (E1 & E2 & E3 & E4 & _) A1. unfold terminate_if_active, is_active.
       apply wp_bind, wp_reads; [intros o [= <-] | done]. rewrite A1, Ha. apply wp_ret.
       unfold spent, quiet. rewrite A1, Ha, E1, Ho, E3, E4, Hlog. repeat split; try done. exists Idle. constructor. }
  intros r s1 (E1 & E2 & E3 & E4 & E5). apply wp_bind, wp_update.
  set (s2 := {| active := _ |}). assert (pending s2 a l Held) as H2.
  { unfold pending, s2, log_of. cbn [active opened locked outside]. split; [eexists; split; [done |]; by unfold agree |].
    split; [congruence |]. split; [congruence |]. unfold log_of in E5, Hlog. rewrite E5, Hlog. split; [econstructor; constructor |].
    repeat (split; [done |]). by intros [H | []]. }
  clearbody s2. destruct (proj1 H2) as (a2 & Ha2 & _).
  apply wp_bind. eapply wp_mono; [by eapply now_wp | intros n1 s3 H3 | intros e s3 H3; eapply Hend, pending_clocks; [exact H3 | exact H2]].
  apply (pending_clocks _ _ _ _ _ H3) in H2. apply wp_bind.
  apply wp_noted_unit; [intros s4 H4 | intros e s4 H4 _; eapply Hend, pending_clocks; [exact H4 | exact H2]].
  apply (pending_noted _ _ _ _ _ _ Confined H4) in H2; [|done|done|constructor|done].
  apply wp_bind, wp_noted_unit; [intros s5 H5 | intros e s5 H5 _; eapply Hend, pending_clocks; [exact H5 | exact H2]].
  apply (pending_noted _ _ _ _ _ _ Checked H5) in H2; [|done|done|constructor|done].
  destruct (proj1 H2) as (a5 & Ha5 & _).
  apply wp_bind. eapply wp_mono; [by eapply now_wp | intros n2 s6 H6 | intros e s6 H6; eapply Hend, pending_clocks; [exact H6 | exact H2]].
  apply (pending_clocks _ _ _ _ _ H6) in H2. apply wp_bind.
  apply (wp_noted _ (fun _ => Running (binding a))); [intros r7 s7 H7 | intros e s7 H7 _; eapply Hend, pending_clocks; [exact H7 | exact H2]].
  apply (pending_noted _ _ _ _ _ _ Live H7) in H2; [|done|done|constructor|done].
  apply wp_bind, wp_reads; [intros n [= <-] | done]. apply wp_bind, wp_update.
  destruct H2 as ((a7 & Ha7 & Hag) & Ho7 & Hl7 & Hf7 & _ & Hx7 & Hn7).
  apply wp_bind, wp_reads; cbn [active]; rewrite Ha7; [intros current [= <-] | done]. apply wp_bind, wp_update, wp_ret.
  cbn [active serial opened locked outside]. split; [|done]. eexists _, _. cbn [active opened]. split; [done |].
  split; [done |]. split; [done |]. unfold log_of in *. cbn [outside]. split; [done |]. split; [done |].
  destruct Hag as (_ & _ & _ & Hfin & _). cbn [started finished]. rewrite Hfin, Hf, Hx7. split; [constructor |].
  split; [cbn; lia | by repeat constructor].
Qed.

Lemma quiet_clocks s s' : unlike_clocks s s' -> quiet s -> quiet s'.
Proof.
  intros (E1 & _ & _ & E4 & Ea) (Ha & H). unfold quiet. rewrite E1, E4. split; [|done].
  rewrite Ha in Ea. by destruct (active s').
Qed.

Lemma open_wp x p (s : sup) :
  quiet s -> wp (_open x p) (fun n s' => going s' /\ locked s' = locked s) (fun _ s' => quiet s' /\ locked s' = locked s) s.
Proof.
  intros Hq. unfold _open. apply wp_bind, wp_lift; [intros b _ | done].
  apply wp_bind, wp_reads; [intros idle [= <-] | done]. destruct (proj1 Hq). apply wp_bind, wp_check; [intros Ho | done].
  rewrite (proj1 Hq) in Ho. apply negb_true_iff in Ho. assert (log_of s = []) as Hlog by (by apply Hq).
  assert (forall s', unlike_clocks s s' -> quiet s' /\ locked s' = locked s) as Hkeep.
  { intros s' H. split; [by eapply quiet_clocks | apply H]. }
  apply wp_bind, wp_quiet; [intros now s1 H1 A1 | by intros; apply Hkeep].
  apply wp_bind, wp_lift; [intros state _ | by intros; apply Hkeep].
  apply wp_bind, wp_lift; [intros _ _ | by intros; apply Hkeep]. apply wp_bind, wp_lift; [intros _ _ | by intros; apply Hkeep].
  apply wp_bind, wp_lift; [intros duration _ | by intros; apply Hkeep].
  apply wp_bind, wp_quiet; [intros m s2 H2 A2 | intros; apply Hkeep; by etransitivity].
  assert (unlike_clocks s s2) as H by (by etransitivity). specialize (Hkeep s2 H).
  apply wp_bind, wp_check; [intros _ | done]. apply wp_bind, wp_lift; [intros instant _ | done].
  apply wp_bind, wp_update. destruct H as (_ & _ & El & E4 & _).
  eapply wp_mono; [apply (establish_session_wp _ _ (locked s)) | |].
  - cbn. rewrite A2, A1. apply Hq.
  - done.
  - cbn. congruence.
  - unfold log_of in *. cbn. congruence.
  - done.
  - done.
  - by intros e s' (? & _ & ?).
Qed.

(** *** Operations *)

(** A session in the middle of an operation: what has passed, and what was executed. *)
Definition executing (s : sup) (b sess p : value) (done : list (str * str)) (xs : list (str * value) * list (value * data)) (l : bool) (ph : phase) : Prop :=
  exists a n, active s = Some a /\ binding a = b /\ session a = sess /\ plan a = p /\ finished a = done /\ handle a = Some n /\
  opened s = true /\ locked s = l /\ follows_protocol (log_of s) ph /\ ~ In completed (log_of s) /\ trace (log_of s) = xs.

Lemma executing_clocks s s' b sess p d xs l ph :
  unlike_clocks s s' -> executing s b sess p d xs l ph -> executing s' b sess p d xs l ph.
Proof.
  intros (E1 & E2 & E3 & E4 & Ea) (a & n & Ha & H). rewrite Ha in Ea. destruct (active s') as [a'|] eqn:E; [|done].
  destruct Ea as (F1 & F2 & F3 & F4 & F5 & F6). exists a', n. rewrite E, E1, E3, E4, F1, F2, F3, F4, F5. done.
Qed.

(** An event of the operation takes it to the next phase. *)
Lemma executing_noted s s' e b sess p d xs l ph ph' :
  noted_state s s' e -> e <> completed -> protocol ph e ph' -> executing s b sess p d xs l ph ->
  executing s' b sess p d (extend e xs) l ph'.
Proof.
  intros (E1 & E2 & E3 & E4 & E5) He Hp (a & n & Ha & H1 & H2 & H3 & H4 & H5 & H6 & H7 & H8 & H9 & H10). exists a, n.
  rewrite E1, E2, E4, E5, trace_snoc, H10. repeat (split; [done |]).
  split; [econstructor; [done | exact Hp] |]. split; [by apply completed_snoc | done].
Qed.

Definition halting (l : bool) (s : sup) : Prop := (exists a, endable s a) /\ locked s = l.

Lemma executing_halting s b sess p d xs l ph : begun ph -> executing s b sess p d xs l ph -> halting l s.
Proof.
  intros Hph (a & n & ? & _ & _ & _ & _ & _ & ? & ? & ? & ? & _). split; [|done]. exists a. unfold endable. eauto 6.
Qed.

Lemma dset_fresh (c d : str) (l : list (str * str)) : dhas c l = false -> dset c d l = l ++ [(c, d)].
Proof. intros H. apply dset_absent. intros Hin%dhas_In. congruence. Qed.

Lemma in_lits_u c l : in_lits (VStr c) l = true <-> In c (map u l).
Proof.
  unfold in_lits. rewrite existsb_exists, in_map_iff. split; intros (x & H1 & H2).
  - exists x. apply str_eqb_eq in H2. by subst.
  - exists x. subst. split; [done | apply str_eqb_refl].
Qed.

(** The end of an operation whose receipt was validated. *)
Lemma settle_wp (s : sup) b sess p d xs request raw l c digest receipt status handling now expected :
  executing s b sess p (dset c digest d) (extend (Executed request raw) (extend (Asked c request) xs)) l Live -> dhas c d = false -> In c (map u CASES) ->
  NoDup (dkeys d) -> (length d < length CASES)%nat -> accounts b sess p d xs ->
  regressions_of p (VStr c) = Ok expected ->
  validate_receipt raw (Value sess) (Value b) (Value request) (Value expected) now = Ok receipt ->
  canonical_digest receipt None = Ok digest -> fld receipt "status" = Ok status ->
  wp (if negb (eq_lit status "PASS") then _terminate "FAILED" handling
      else if zlen (dset c digest d) =? zlen CASES then _terminate "COMPLETED" handling else mret tt)
    (fun _ s' => (going s' \/ quiet s') /\ locked s' = l) (fun _ s' => quiet s' /\ locked s' = l) s.
Proof.
  intros Hx Hc Hcase Hnd Hlen Hall Hexp Hval Hdig Hst. destruct (executing_halting _ _ _ _ _ _ _ Live Logic.I Hx) as [[a He] Hl].
  rewrite (dset_fresh _ _ _ Hc) in *.
  assert (forall st, (st = "COMPLETED" -> earned (log_of s)) ->
    wp (_terminate st handling) (fun _ s' => (going s' \/ quiet s') /\ locked s' = l) (fun _ s' => quiet s' /\ locked s' = l) s) as Hend.
  { intros st Hst'. eapply wp_mono; [exact (terminate_wp st handling s a He Hst') | |].
    - intros _ s' (? & _ & _ & ?). split; [by right | congruence].
    - intros _ s' (? & _ & _ & ?). split; [done | congruence]. }
  destruct (eq_lit status "PASS") eqn:Ep; cbn [negb]; [|by apply Hend].
  assert (accounts b sess p (d ++ [(c, digest)]) (extend (Executed request raw) (extend (Asked c request) xs))) as Hall'.
  { destruct Hall as (A1 & A2 & A3). unfold accounts. cbn [extend fst snd]. rewrite !map_app, A3. split; [|split; [|done]].
    - apply Forall2_app; [done |]. constructor; [|constructor]. split; [done |]. exists now, expected, receipt.
      repeat (split; [done |]). split; [unfold fld_lit; by rewrite Hst; cbn; rewrite Ep | done].
    - apply Forall2_app; [done |]. by repeat constructor. }
  assert (NoDup (dkeys (d ++ [(c, digest)]))) as Hnd'.
  { unfold dkeys. rewrite map_app. apply NoDup_app. split; [done |]. split; [|apply NoDup_singleton].
    intros y Hy Hy'. apply list_elem_of_singleton in Hy'. subst y. apply list_elem_of_In, dhas_In in Hy. cbn in Hy. congruence. }
  destruct Hx as (a' & n & H1 & H2 & H3 & H4 & H5 & H6 & H7 & H8 & H9 & H10 & H11).
  destruct (Z.eqb_spec (zlen (d ++ [(c, digest)])) (zlen CASES)) as [Heq|Hne].
  - apply Hend. intros _. exists b, sess, p, (d ++ [(c, digest)]). rewrite H11. split; [done |]. split; [unfold zlen in Heq; lia | done].
  - apply wp_ret. split; [|done]. left. exists a', n. rewrite H5, H2, H3, H4, H11. repeat (split; [done |]).
    split; [|done]. rewrite length_app in *. unfold zlen in Hne. rewrite length_app in Hne. cbn [length] in *. lia.
Qed.

Definition settled (l : bool) (s : sup) : Prop := (going s \/ quiet s) /\ locked s = l.

Lemma halting_clocks l s s' : unlike_clocks s s' -> halting l s -> halting l s'.
Proof.
  intros (E1 & E2 & E3 & E4 & Ea) ((a & Ha & Ho & H) & Hl). unfold halting. rewrite E3. split; [|done].
  rewrite Ha in Ea. destruct (active s') as [a'|] eqn:E; [|done]. exists a'. unfold endable. by rewrite E, E1, E4.
Qed.

(** The handler of an operation: it ends a session that has not ended yet. *)
Lemma handler_wp state handling l (s : sup) :
  state <> "COMPLETED" -> halting l s \/ quiet s /\ locked s = l ->
  wp (terminate_if_active state handling) (fun _ s' => quiet s' /\ locked s' = l) (fun _ s' => quiet s' /\ locked s' = l) s.
Proof.
  intros Hst [[[a He] Hl] | [Hq Hl]].
  - eapply wp_mono; [eapply terminate_if_active_wp; [exact He | done] | |]; intros ? s' (? & _ & _ & ?); (split; [done | congruence]).
  - unfold terminate_if_active, is_active. apply wp_bind, wp_reads; [intros o [= <-] | done].
    rewrite (proj1 Hq). by apply wp_ret.
Qed.

Lemma going_halting s : going s -> halting (locked s) s.
Proof.
  intros (a & n & Ha & Ho & _ & Hf & Hn & _). split; [|done]. exists a. repeat (split; [done |]). by exists Live.
Qed.

Lemma operation_wp case architecture handling (s : sup) :
  going s -> wp (operation case architecture handling)
    (fun _ => settled (locked s)) (fun _ s' => halting (locked s) s' \/ quiet s' /\ locked s' = locked s) s.
Proof.
  intros Hg. pose proof (going_halting s Hg) as Hh. destruct Hg as (a & n & Ha & Ho & Hn & Hf & Hc & Hnd & Hlen & Hall).
  unfold operation. apply wp_bind, wp_reads; rewrite Ha; [intros a' [= <-] | done].
  apply wp_bind, wp_check; [intros [Hcase Hfresh]%andb_true_iff | by left].
  apply wp_bind, wp_lift; [intros _ _ | by left].
  apply wp_bind, wp_lift; [intros c Hct | by left].
  destruct case as [| | |cs| |]; try done. injection Hct as ->. apply negb_true_iff in Hfresh. apply in_lits_u in Hcase.
  assert (executing s (binding a) (session a) (plan a) (finished a) (trace (log_of s)) (locked s) Live) as Hx.
  { exists a, n. repeat (split; [done |]). done. }
  assert (forall s' xs ph, begun ph -> executing s' (binding a) (session a) (plan a) (finished a) xs (locked s) ph ->
    halting (locked s) s' \/ quiet s' /\ locked s' = locked s) as Herr by (intros; left; by eapply executing_halting).
  apply wp_bind. eapply wp_mono; [by eapply now_wp | intros t1 s1 H1 | intros e s1 HH; eapply Herr, executing_clocks; [| exact HH | exact Hx]; done].
  eapply executing_clocks in Hx; [|exact H1].
  apply wp_bind, wp_noted_unit; [intros s2 H2 | intros e s2 HH _; eapply Herr, executing_clocks; [| exact HH | exact Hx]; done].
  eapply executing_noted in Hx; [|exact H2|done|apply p_before].
  apply wp_bind. apply (wp_noted _ (fun r => Asked c r)); [intros request s3 H3 | intros e s3 HH _; eapply Herr, executing_clocks; [| exact HH | exact Hx]; done].
  eapply executing_noted in Hx; [|exact H3|done|apply p_ask].
  apply wp_bind. apply (wp_noted _ (fun raw => Executed request raw)); [intros raw s4 H4 | intros e s4 HH _; eapply Herr, executing_clocks; [| exact HH | exact Hx]; done].
  eapply executing_noted in Hx; [|exact H4|done|apply p_execute]. cbn [extend] in Hx.
  pose proof Hx as Hx4. destruct Hx as (a4 & n4 & Ha4 & Hx).
  apply wp_bind. eapply wp_mono; [by eapply now_wp | intros now s5 H5 | intros e s5 HH; eapply Herr, executing_clocks; [| exact HH | exact Hx4]; done].
  eapply executing_clocks in Hx4; [|exact H5].
  apply wp_bind, wp_noted_unit; [intros s6 H6 | intros e s6 HH _; eapply Herr, executing_clocks; [| exact HH | exact Hx4]; done].
  eapply executing_noted in Hx4; [|exact H6|done|apply p_after]. clear Hx.
  apply wp_bind, wp_lift; [intros expected Hexp | intros; by eapply (Herr _ _ Live)].
  apply wp_bind, wp_lift; [intros receipt Hval | intros; by eapply (Herr _ _ Live)].
  apply wp_bind, wp_lift; [intros digest Hdig | intros; by eapply (Herr _ _ Live)].
  destruct Hx4 as (a6 & n6 & Ha6 & Hx6). apply wp_bind, wp_reads; rewrite Ha6; [intros current [= <-] | done].
  apply wp_bind, wp_update. set (s7 := {| active := _ |}).
  assert (executing s7 (binding a) (session a) (plan a) (dset c digest (finished a)) (extend (Executed request raw) (extend (Asked c request) (trace (log_of s)))) (locked s) Live) as Hx7.
  { exists (with_finished a6 (dset c digest (finished a6))), n6. cbn. destruct Hx6 as (E1 & E2 & E3 & E4 & E5). rewrite E4.
    repeat (split; [done |]). done. }
  replace (finished a6) with (finished a) by (symmetry; apply Hx6). clearbody s7.
  apply wp_bind, wp_lift; [intros status Hst | intros; left; by eapply (executing_halting _ _ _ _ _ _ _ Live)].
  apply wp_bind. eapply wp_mono; [eapply settle_wp; eauto | intros t8 s8 H8; by apply wp_ret | intros e s8 H8; by right].
Qed.

(** *** The methods *)

(** Between calls: the mutex is free and the session is over, not begun or running. *)
Definition at_rest (s : sup) : Prop := settled false s.

Lemma settled_locked l (s : sup) :
  settled l s -> settled false {| active := active s; serial := serial s; opened := opened s; locked := false; outside := outside s |}.
Proof. intros [[(a & n & Hg) | Hq] _]; (split; [|done]); [left; by exists a, n | by right]. Qed.

Lemma try_lock_wp {A} (m : run A) (s : sup) :
  at_rest s ->
  (forall s', settled true s' -> wp m (fun _ => settled true) (fun _ => settled true) s') ->
  wp (try_lock m) (fun _ => at_rest) (fun _ => at_rest) s.
Proof.
  intros Hs Hm. unfold try_lock. apply wp_bind, wp_reads; [intros free _ | done].
  apply wp_bind, wp_check; [intros _ | done]. apply wp_bind, wp_update, wp_finally.
  eapply wp_mono; [apply Hm | intros ? s' H | intros ? s' H]; [|by apply wp_update, (settled_locked true) ..].
  destruct Hs as [[(a & n & Hg) | Hq] _]; (split; [|done]); [left; by exists a, n | by right].
Qed.

Lemma with_lock_wp {A} (m : run A) (s : sup) :
  at_rest s ->
  (forall s', settled true s' -> wp m (fun _ => settled true) (fun _ => settled true) s') ->
  wp (with_lock m) (fun _ => at_rest) (fun _ => at_rest) s.
Proof.
  intros Hs Hm. unfold with_lock. apply wp_bind, wp_update, wp_finally.
  eapply wp_mono; [apply Hm | intros ? s' H | intros ? s' H]; [|by apply wp_update, (settled_locked true) ..].
  destruct Hs as [[(a & n & Hg) | Hq] _]; (split; [|done]); [left; by exists a, n | by right].
Qed.

(** A method that ends the session whatever happens. *)
Lemma ending_wp state handling l (s : sup) :
  state <> "COMPLETED" -> settled l s ->
  wp (terminate_if_active state handling) (fun _ => settled l) (fun _ => settled l) s.
Proof.
  intros Hst [Hs <-]. eapply wp_mono; [apply (handler_wp _ _ (locked s)); [done |] | |].
  - destruct Hs as [Hg | Hq]; [left; by apply going_halting | by right].
  - intros ? s' []. split; [by right | done].
  - intros ? s' []. split; [by right | done].
Qed.

Lemma get_wp h (s : sup) :
  wp (_get h) (fun a s' => s' = s /\ active s = Some a /\ exists n, h = Some n /\ handle a = Some n)
    (fun e s' => s' = s /\ e = ConformanceError "SUPERVISOR_HANDLE_INVALID") s.
Proof.
  unfold _get. apply wp_bind, wp_reads; [intros o [= <-] | done]. destruct (active s) as [a|]; [|done].
  destruct h as [n|]; [|done]. apply wp_bind, wp_check; [|done]. intros Hh.
  destruct (handle a) as [m|] eqn:E; [|done]. apply Z.eqb_eq in Hh as ->. apply wp_ret. eauto 6.
Qed.

Lemma execute_fixed_wp h case architecture handling (s : sup) :
  at_rest s -> wp (execute_fixed h case architecture handling) (fun _ => at_rest) (fun _ => at_rest) s.
Proof.
  intros Hs. apply try_lock_wp; [done |]. intros s1 H1. apply wp_bind.
  eapply wp_mono; [apply get_wp | intros a s2 (-> & Ha & n & _ & _) | intros e s2 [-> _]; exact H1].
  destruct H1 as [[Hg | Hq] Hl]; [|by rewrite (proj1 Hq) in Ha]. 
  apply (wp_mono _ (fun _ => settled (locked s1)) _ (fun _ => settled (locked s1))); [|by rewrite Hl ..]. apply wp_on_exception.
  eapply wp_mono; [exact (operation_wp case architecture handling s1 Hg) | done | intros e s3 H3].
  eapply wp_mono; [exact (handler_wp "FAILED" (Some e) (locked s1) s3 ltac:(done) H3) | |]; intros ? s4 []; (split; [by right | done]).
Qed.

Lemma cancel_wp h handling (s : sup) :
  at_rest s -> wp (cancel h handling) (fun _ => at_rest) (fun _ => at_rest) s.
Proof.
  intros Hs. apply wp_bind. eapply wp_mono; [apply get_wp | intros a s1 (-> & _) | intros e s1 [-> _]; exact Hs].
  assert (forall s', unlike_clocks s s' -> active s' = active s -> at_rest s') as Hkeep.
  { intros s' (E1 & E2 & E3 & E4 & _) E5. destruct Hs as [[(b & m & Hg) | Hq] Hl]; (split; [|congruence]).
    - left. exists b, m. rewrite E1, E4, E5. exact Hg.
    - right. unfold quiet. rewrite E1, E4, E5. exact Hq. }
  apply wp_bind, wp_quiet; [intros [] s2 H2 A2 | intros; by apply Hkeep].
  apply with_lock_wp; [by apply Hkeep |]. intros s3 H3. by apply ending_wp.
Qed.

Lemma supervisor_close_wp handling (s : sup) : at_rest s -> wp (close handling) (fun _ => at_rest) (fun _ => at_rest) s.
Proof.
  intros Hs. apply with_lock_wp; [done |]. intros s1 [[Hg | Hq] Hl].
  - destruct (going_halting s1 Hg) as [[a He] _].
    eapply wp_mono; [by apply (terminate_wp "FAILED" handling s1 a He) | |]; intros ? s2 (? & _ & _ & ?);
      (split; [by right | congruence]).
  - unfold _terminate. apply wp_bind, wp_reads; [intros o [= <-] | done]. rewrite (proj1 Hq). apply wp_ret. by split; [right |].
Qed.

Lemma open_session_wp x p (s : sup) :
  at_rest s -> wp (open_session x p) (fun _ => at_rest) (fun _ => at_rest) s.
Proof.
  intros [[Hg | Hq] Hl]; unfold open_session, with_lock; apply wp_bind, wp_update, wp_finally.
  - destruct Hg as (a & n & Ha & Hg). unfold _open. apply wp_bind, wp_lift;
      [intros b _; apply wp_bind, wp_reads; [|done]; intros idle [= <-]; cbn [active]; rewrite Ha; apply wp_bind, wp_check; [done |]
      | intros e _]; intros; apply wp_update; (split; [left; by exists a, n | done]).
  - eapply wp_mono; [by apply open_wp | intros n s' [H _] | intros e s' [H _]]; apply wp_update; (split; [|done]).
    + destruct H as (a & m & H). left. by exists a, m.
    + by right.
Qed.

(** *** Runs of a supervisor *)

(** A call of a method, with the exception being handled where it is made. *)
Inductive command :=
| Open (x : data) (p : value)
| Execute (h : option Z) (case architecture : value) (handling : option exn)
| Cancel (h : option Z) (handling : option exn)
| Close (handling : option exn).

Definition perform (c : command) (s : sup) : sup :=
  match c with
  | Open x p => (open_session x p s).2
  | Execute h case architecture handling => (execute_fixed h case architecture handling s).2
  | Cancel h handling => (cancel h handling s).2
  | Close handling => (close handling s).2
  end.

Definition perform_all (cs : list command) (s : sup) : sup := fold_left (fun s c => perform c s) cs s.

Lemma perform_rest c s : at_rest s -> at_rest (perform c s).
Proof.
  intros H. destruct c; cbn [perform]; apply wp_final;
    [by apply open_session_wp | by apply execute_fixed_wp | by apply cancel_wp | by apply supervisor_close_wp].
Qed.

Definition starting (w : W) : sup := fresh (w, []).

Lemma fresh_rest w : at_rest (starting w).

Proof. split; [right | done]. repeat split; [by exists Idle; constructor | done]. Qed.

Lemma perform_all_rest cs w : at_rest (perform_all cs (starting w)).
Proof.
  unfold perform_all. generalize (fresh_rest w). generalize (starting w). induction cs as [|c cs IH]; intros s H; [done |].
  by apply IH, perform_rest.
Qed.

Definition occurrences (p : event -> bool) (log : list event) : nat := length (List.filter p log).
Definition reservation (e : event) : bool := match e with Reserved _ => true | _ => false end.
Definition ending (e : event) : bool := match e with Ended _ => true | _ => false end.

Lemma occurrences_snoc p log e : occurrences p (log ++ [e]) = (occurrences p log + if p e then 1 else 0)%nat.
Proof. unfold occurrences. rewrite List.filter_app, length_app. cbn. by destruct (p e). Qed.

Lemma protocol_counts log p : follows_protocol log p ->
  occurrences reservation log = (match p with Idle => 0 | _ => 1 end)%nat /\
  occurrences ending log = (match p with Over => 1 | _ => 0 end)%nat.
Proof.
  induction 1 as [|log p e q H [IH1 IH2] Hp]; [done |]. rewrite !occurrences_snoc, IH1, IH2.
  destruct Hp as [| | | | | | | | p Hb |]; try done. by destruct p.
Qed.

(** C19: Every run of a supervisor follows the protocol.  Whatever methods are called, with whatever
    arguments, and however the journal, the boundary and the clocks answer or raise, the log of
    effects is a path of the protocol: the nonce is reserved once and first, the child is
    confined and its peer checked before the session runs, every execution is of the request that
    was asked for just before it and stands between two peer checks, the cleanup comes before the terminal record, there is at most one such record,
    and nothing follows it.  A session is recorded as COMPLETED only when each of the ten cases
    was asked for exactly once, and what was executed is the requests that were given for them, in
    order and nothing else, each with an output that is a valid receipt that passes; and the mutex
    is free after every call. *)
Theorem session_protocol cs w : let s := perform_all cs (starting w) in
  locked s = false /\
  (exists p, follows_protocol (log_of s) p /\ (active s = None \/ p = Live)) /\
  (occurrences reservation (log_of s) <= 1)%nat /\ (occurrences ending (log_of s) <= 1)%nat /\
  (In completed (log_of s) -> active s = None /\ earned (log_of s)).
Proof.
  intros s. pose proof (perform_all_rest cs w) as [Hs Hl]. fold s in Hs, Hl. split; [done |].
  assert (exists p, follows_protocol (log_of s) p /\ (active s = None \/ p = Live)) as (p & Hp & Hend).
  { destruct Hs as [(a & n & H) | (H1 & _ & [p Hp] & _)]; [exists Live; tauto | exists p; tauto]. }
  destruct (protocol_counts _ _ Hp) as [E1 E2]. split; [by exists p |]. split; [rewrite E1; by destruct p; lia |].
  split; [rewrite E2; by destruct p; lia |]. intros Hc.
  destruct Hs as [(a & n & _ & _ & _ & _ & Hn & _) | (H1 & _ & _ & H2)]; [done | by split; [|apply H2]].
Qed.

(** C20: A failed operation is the last one.  At any point of any run, an operation either returns,
    or is refused for its handle without any change, or raises and leaves no active session,
    whatever raised; closing a supervisor leaves none either, even when its cleanup raises; and
    no call returns or raises with the mutex held. *)
Theorem failed_operation_ends cs w h case architecture handling :
  let s := perform_all cs (starting w) in
  wp (execute_fixed h case architecture handling) (fun _ s' => s'.(locked) = false)
    (fun e s' => (e = ConformanceError "SUPERVISOR_HANDLE_INVALID" /\ s' = s) \/ active s' = None /\ s'.(locked) = false) s /\
  active (perform (Close handling) s) = None.
Proof.
  intros s. pose proof (perform_all_rest cs w) as [Hs Hl]. fold s in Hs, Hl. split.
  - unfold execute_fixed, try_lock. apply wp_bind, wp_reads; [intros free [= <-] | done].
    rewrite Hl. apply wp_bind, wp_check; [intros _ | done]. apply wp_bind, wp_update, wp_finally, wp_bind.
    set (s1 := {| active := active s; serial := _; opened := _; locked := true; outside := _ |}).
    eapply wp_mono; [apply get_wp | intros a s2 (-> & Ha & _) | intros e s2 (-> & ->)].
    2: { apply wp_update. left. split; [done |]. unfold s1. cbn. destruct s; cbn in *. by subst. }
    destruct Hs as [(a' & n & Hg) | Hq]; [|change (active s1) with (active s) in Ha; by rewrite (proj1 Hq) in Ha].
    assert (going s1) as Hg1 by (by exists a', n). apply wp_on_exception.
    eapply wp_mono; [exact (operation_wp case architecture handling s1 Hg1) | intros r s3 H3; by apply wp_update | intros e s3 H3].
    eapply wp_mono; [exact (handler_wp "FAILED" (Some e) true s3 ltac:(done) H3) | |]; intros ? s4 [H4 _]; apply wp_update; right; by split; [apply H4 |].
  - cbn [perform]. unfold close, with_lock. apply wp_final, wp_bind, wp_update, wp_finally.
    set (s1 := {| active := active s; serial := _; opened := _; locked := true; outside := _ |}).
    destruct Hs as [Hg | Hq].
    + assert (going s1) as Hg1 by exact Hg. destruct (going_halting s1 Hg1) as [[a He] _].
      eapply wp_mono; [by apply (terminate_wp "FAILED" handling s1 a He) | |]; intros ? s2 (H & _); apply wp_update; apply H.
    + unfold _terminate. apply wp_bind, wp_reads; [intros o [= <-] | done]. change (active s1) with (active s). rewrite (proj1 Hq).
      apply wp_ret, wp_update. apply Hq.
Qed.
End invariant.
