(* ===== verification/Custody.v ===== *)
(** live_linux_boundary.py: the retained custody of files read once before a native session.  The
    operating system is an interface whose answers are arbitrary; a custody keeps the descriptors
    it opened, the identities they had, and the octets it read. *)

From S2P Require Import Prelude Effects PyVal Utf8 Json Sha2 Canonical Text Posix SchemaBase Live Boundary.

#[local] Open Scope string_scope.
#[local] Open Scope list_scope.
#[local] Open Scope Z_scope.

(** ** What it works with *)

(** The fields of [os.stat_result] that identify an object. *)
Record full_stat := {
  st_dev : Z; st_ino : Z; st_uid : Z; st_gid : Z; st_mode : Z; st_nlink : Z; st_size : Z; st_mtime_ns : Z; st_ctime_ns : Z
}.

(** Whether the owner is a native supervisor in its own process and thread; opening a name in a
    directory, or the root; the status of a descriptor and of a name; reading, listing, closing;
    and closing the late resources. *)
Class Custodian (W : Type) := {
  owner_alive : W -> bool;
  os_open : option Z -> str -> bool -> io W Z;
  os_fstat : Z -> io W full_stat;
  os_stat : option Z -> str -> io W full_stat;
  os_read : Z -> Z -> io W bytes;
  os_listdir : Z -> io W (list str);
  os_close : Z -> io W unit;
  late_close : io W unit
}.

(* @src src/src/harness_conformance/live_linux_boundary.py:535-537 _custody_identity *)
Definition _custody_identity (info : full_stat) : list Z :=
  [st_dev info; st_ino info; st_uid info; st_gid info; st_mode info; st_nlink info; st_size info; st_mtime_ns info;
   st_ctime_ns info].

Definition mode_of (identity : list Z) : Z := nth 4 identity 0.
Definition size_of (identity : list Z) : Z := nth 6 identity 0.
Definition device_of (identity : list Z) : Z := nth 0 identity 0.

(** [stat.S_IFMT]. *)
Definition S_IFMT (mode : Z) : Z := Z.land mode 61440.

(** A descriptor that was acquired, the place it was opened at, and what it was. *)
Record handle_row := { fd : Z; parent : option Z; name : str; identity : option (list Z) }.

(* @src src/src/harness_conformance/live_linux_boundary.py:546-558 _RetainedCustody.__init__ *)
Record custody (W : Type) := {
  handles : list (str * handle_row);
  files : list (str * bytes);
  total : Z;
  manifest_digest : option str;
  kit_root : option str;
  kit_digest : option str;
  kit_sources : list (str * bytes);
  closed : bool;
  sealed : bool;
  registered : bool;
  late_resources : bool;
  outside : W
}.
Arguments handles {W}. Arguments files {W}. Arguments total {W}. Arguments manifest_digest {W}. Arguments kit_root {W}.
Arguments kit_digest {W}. Arguments kit_sources {W}. Arguments closed {W}. Arguments sealed {W}. Arguments registered {W}.
Arguments late_resources {W}. Arguments outside {W}.

Section custody.
Context {U : Unicode} {W : Type} {K : Custodian W}.

Definition run (A : Type) : Type := io (custody W) A.

Definition kernel {A} (m : io W A) : run A :=
  zoom outside (fun w s => {| handles := handles s; files := files s; total := total s; manifest_digest := manifest_digest s;
    kit_root := kit_root s; kit_digest := kit_digest s; kit_sources := kit_sources s; closed := closed s; sealed := sealed s;
    registered := registered s; late_resources := late_resources s; outside := w |}) m.

Definition with_handles (f : list (str * handle_row) -> list (str * handle_row)) (s : custody W) : custody W :=
  {| handles := f (handles s); files := files s; total := total s; manifest_digest := manifest_digest s; kit_root := kit_root s;
     kit_digest := kit_digest s; kit_sources := kit_sources s; closed := closed s; sealed := sealed s; registered := registered s;
     late_resources := late_resources s; outside := outside s |}.
Definition with_file (path : str) (raw : bytes) (size : Z) (s : custody W) : custody W :=
  {| handles := handles s; files := files s ++ [(path, raw)]; total := total s + size; manifest_digest := manifest_digest s;
     kit_root := kit_root s; kit_digest := kit_digest s; kit_sources := kit_sources s; closed := closed s; sealed := sealed s;
     registered := registered s; late_resources := late_resources s; outside := outside s |}.
Definition with_kit (root digest : str) (sources : list (str * bytes)) (s : custody W) : custody W :=
  {| handles := handles s; files := files s; total := total s; manifest_digest := manifest_digest s; kit_root := Some root;
     kit_digest := Some digest; kit_sources := sources; closed := closed s; sealed := sealed s; registered := registered s;
     late_resources := late_resources s; outside := outside s |}.
Definition with_seal (s : custody W) : custody W :=
  {| handles := handles s; files := files s; total := total s; manifest_digest := manifest_digest s; kit_root := kit_root s;
     kit_digest := kit_digest s; kit_sources := kit_sources s; closed := closed s; sealed := true; registered := registered s;
     late_resources := late_resources s; outside := outside s |}.

(** [custody.manifest_digest = digest] and [custody.late_resources = resource]. *)
(* @src src/src/harness_conformance/live_linux_boundary.py:105-105 _installed_manifest_digest *)
Definition with_manifest (digest : str) (s : custody W) : custody W :=
  {| handles := handles s; files := files s; total := total s; manifest_digest := Some digest; kit_root := kit_root s;
     kit_digest := kit_digest s; kit_sources := kit_sources s; closed := closed s; sealed := sealed s; registered := registered s;
     late_resources := late_resources s; outside := outside s |}.
(* @src src/src/harness_conformance/live_supervisor.py:652-652 _late_resources *)
Definition with_late (s : custody W) : custody W :=
  {| handles := handles s; files := files s; total := total s; manifest_digest := manifest_digest s; kit_root := kit_root s;
     kit_digest := kit_digest s; kit_sources := kit_sources s; closed := closed s; sealed := sealed s; registered := registered s;
     late_resources := true; outside := outside s |}.

(* @src src/src/harness_conformance/live_linux_boundary.py:563-568 _RetainedCustody.owner_check *)
Definition owner_check : run unit :=
  ok ← reads (fun s => Ok (negb (closed s) && owner_alive (outside s) && registered s));
  check ok "CUSTODY_OWNER_INVALID".

(** [path[1:].split("/")] *)
Definition parts_of (path : str) : list str := split_on 47 (tail path).

(* @src src/src/harness_conformance/live_linux_boundary.py:570-575 _RetainedCustody.path *)
Definition path_parts (path : str) : res (list str) :=
  require_m (Ok (startswith (u "/") path && negb (existsb (N.eqb 92) path)) <&&>
             (b ← utf8_encode path; Ok (zlen b <=? 4096)) <&&>
             Ok (forallb (fun p => negb (str_in p [[]; u "."; u ".."])) (parts_of path) && (zlen (parts_of path) <=? 64)))
    "CUSTODY_PATH_INVALID" ;;
  Ok (parts_of path).

Definition handle_at (path : str) : run handle_row :=
  reads (fun s => match dget path (handles s) with Some row => Ok row | None => Raise KeyError end).
Definition known_identity (row : handle_row) : run (list Z) :=
  lift (match identity row with Some id => Ok id | None => Raise TypeError end).

(** A descriptor is kept as soon as it is open. *)
Definition open_row (path : str) (parent : option Z) (name : str) (directory : bool) : run Z :=
  fd ← kernel (os_open parent name directory);
  update (with_handles (fun h => h ++ [(path, {| fd := fd; parent := parent; name := name; identity := None |})])) ;;
  mret fd.

(** [row["identity"] = identity] *)
Definition identify (path : str) (id : list Z) : run unit :=
  update (with_handles (map (fun kv => if str_eqb kv.1 path
    then (kv.1, {| fd := fd kv.2; parent := parent kv.2; name := name kv.2; identity := Some id |}) else kv))).

(* @src src/src/harness_conformance/live_linux_boundary.py:617-622 _RetainedCustody.check_row *)
Definition check_row (row : handle_row) : run unit :=
  match identity row with
  | None => throw (ConformanceError "CUSTODY_FILE_CHANGED")
  | Some expected =>
      info ← kernel (os_fstat (fd row));
      check (ints_eqb (_custody_identity info) expected) "CUSTODY_FILE_CHANGED" ;;
      info ← kernel (os_stat (parent row) (name row));
      check (ints_eqb (_custody_identity info) expected) "CUSTODY_FILE_CHANGED"
  end.

(** The modes [0o222] and [0o022]. *)
Definition ANY_WRITE : Z := 146.
Definition OTHERS_WRITE : Z := 18.

(** The object may be held: its kind, owner, links and mode. *)
Definition acceptable (info : full_stat) (directory strict : bool) : bool :=
  (if directory then S_ISDIR (st_mode info) else S_ISREG (st_mode info)) && (st_uid info =? 0) && (st_gid info =? 0) &&
  (directory || (st_nlink info =? 1)) && (Z.land (S_IMODE (st_mode info)) (if strict || negb directory then ANY_WRITE else OTHERS_WRITE) =? 0).

(* @src src/src/harness_conformance/live_linux_boundary.py:577-597 _RetainedCustody.acquire *)
Definition acquire (path : str) (parent : option Z) (name : str) (directory strict : bool) : run Z :=
  owner_check ;;
  room ← reads (fun s => Ok (negb (sealed s) && negb (dhas path (handles s)) && (zlen (handles s) <? 8448)));
  check room "CUSTODY_DESCRIPTOR_LIMIT" ;;
  fd ← open_row path parent name directory;
  check ((2 <? fd) && (fd <? 1048576)) "CUSTODY_DESCRIPTOR_RANGE" ;;
  info ← kernel (os_fstat fd);
  identify path (_custody_identity info) ;;
  check (acceptable info directory strict) "CUSTODY_FILE_INVALID" ;;
  check_row {| fd := fd; parent := parent; name := name; identity := Some (_custody_identity info) |} ;;
  mret fd.

(** The descriptor of the root, which is acquired on the first use. *)
Definition root_fd : run Z :=
  known ← reads (fun s => Ok (dhas (u "/") (handles s)));
  (if (known : bool) then mret tt else _ ← acquire (u "/") None (u "/") true false; mret tt) ;;
  row ← handle_at (u "/");
  mret (fd row).

(** The loop: the parent's descriptor and path so far. *)
Fixpoint descend (path : str) (strict : bool) (parent : Z) (current : str) (parts : list str) : run Z :=
  match parts with
  | [] => mret parent
  | part :: rest =>
      let current := current ++ u "/" ++ part in
      known ← reads (fun s => Ok (dhas current (handles s)));
      (if (known : bool) then mret tt
       else _ ← acquire current (Some parent) part true (strict && str_eqb current path); mret tt) ;;
      row ← handle_at current;
      check_row row ;;
      id ← known_identity row;
      check (S_ISDIR (mode_of id)) "CUSTODY_DIRECTORY_REQUIRED" ;;
      descend path strict (fd row) current rest
  end.

(* @src src/src/harness_conformance/live_linux_boundary.py:599-615 _RetainedCustody.directory *)
Definition directory (path : str) (strict : bool) : run Z :=
  owner_check ;;
  parts ← lift (path_parts path);
  root ← root_fd;
  parent ← descend path strict root [] parts;
  (if strict then
     row ← handle_at path;
     id ← known_identity row;
     check (Z.land (S_IMODE (mode_of id)) ANY_WRITE =? 0) "KIT_CUSTODY_INVALID"
   else mret tt) ;;
  mret parent.

Definition each {A} (f : A -> run unit) (l : list A) : run unit := io_fold (fun _ x => f x) tt l.

(* @src src/src/harness_conformance/live_linux_boundary.py:624-627 _RetainedCustody.check *)
Definition check_all : run unit :=
  owner_check ;;
  rows ← reads (fun s => Ok (map snd (handles s)));
  each check_row rows.

(** ** Closing *)

(** One row of the closing loop. *)
Definition close_row (row : handle_row) : run unit :=
  (match identity row with
   | None => mret tt
   | Some expected =>
       info ← kernel (os_fstat (fd row));
       check (ints_eqb [st_dev info; st_ino info; S_IFMT (st_mode info)]
                [device_of expected; nth 1 expected 0; S_IFMT (mode_of expected)]) "CUSTODY_DESCRIPTOR_REUSED"
   end) ;;
  kernel (os_close (fd row)).

(** [failure = failure or exc]. *)
Definition first_failure (failure : option exn) (r : res unit) : option exn :=
  match failure, r with
  | None, Raise e => Some e
  | _, _ => failure
  end.

(** The custody as closing leaves it, before any descriptor is closed. *)
Definition invalidated (s : custody W) : custody W :=
  {| handles := []; files := []; total := total s; manifest_digest := manifest_digest s; kit_root := kit_root s;
     kit_digest := kit_digest s; kit_sources := []; closed := true; sealed := sealed s; registered := false;
     late_resources := false; outside := outside s |}.

Definition close_rows (failure : option exn) (rows : list handle_row) : run (option exn) :=
  io_fold (fun failure row => r ← attempt (close_row row); mret (first_failure failure r)) failure rows.

(* @src src/src/harness_conformance/live_linux_boundary.py:795-824 _RetainedCustody.close *)
Definition close : run unit :=
  done ← reads (fun s => Ok (closed s));
  if (done : bool) then mret tt
  else
    rows ← reads (fun s => Ok (map snd (handles s)));
    late ← reads (fun s => Ok (late_resources s));
    update invalidated ;;
    r ← (if (late : bool) then attempt (kernel late_close) else mret (Ok tt));
    failure ← close_rows (first_failure None r) (rev rows);
    match failure with Some e => throw e | None => mret tt end.

(** ** Reading *)

(** The octets up to one more than the size, the custody checked after every part. *)
Fixpoint read_parts (fuel : nat) (fd size : Z) (data : bytes) : run bytes :=
  if size <? zlen data then mret data
  else match fuel with
  | O => throw RecursionError
  | S fuel =>
      chunk ← kernel (os_read fd (Z.min 65536 (size + 1 - zlen data)));
      check_all ;;
      match chunk with
      | [] => mret data
      | _ => read_parts fuel fd size (data ++ chunk)
      end
  end.

(** [path.rsplit("/", 1)] *)
Definition rsplit_slash (path : str) : str * str :=
  match rfind (u "/") path with Some n => (take n path, drop (S n) path) | None => ([], path) end.

(** The first read of a file. *)
(* @src src/src/harness_conformance/live_linux_boundary.py:698-719 _RetainedCustody.read *)
Definition read_first (path : str) (maximum : Z) : run unit :=
  room ← reads (fun s => Ok (negb (sealed s) && (zlen (files s) <? 4112)));
  check room "CUSTODY_FILE_LIMIT" ;;
  let '(parent_path, name) := rsplit_slash path in
  parent ← (match parent_path with [] => root_fd | _ => directory parent_path false end);
  fd ← acquire path (Some parent) name false false;
  row ← handle_at path;
  id ← known_identity row;
  let size := size_of id in
  fits ← reads (fun s => Ok ((0 <=? size) && (size <=? maximum) && (total s + size <=? 100663296)));
  check fits "CUSTODY_READ_LIMIT" ;;
  data ← read_parts (S (S (Z.to_nat size))) fd size [];
  check (zlen data =? size) "CUSTODY_FILE_CHANGED" ;;
  update (with_file path data size).

(** [expected is None or f(expected)] *)
Definition unless_given {A} (f : A -> bool) (expected : option A) : bool :=
  match expected with None => true | Some x => f x end.

(* @src src/src/harness_conformance/live_linux_boundary.py:692-727 _RetainedCustody.read *)
Definition read (path : str) (maximum : Z) (expected_digest : option str) (expected_mode : option Z) : run bytes :=
  on_exception
    (check_all ;;
     _ ← lift (path_parts path);
     check ((0 <? maximum) && (maximum <=? 4194304)) "CUSTODY_READ_LIMIT" ;;
     known ← reads (fun s => Ok (dhas path (files s)));
     (if (known : bool) then mret tt else read_first path maximum) ;;
     raw ← reads (fun s => match dget path (files s) with Some raw => Ok raw | None => Raise KeyError end);
     check (zlen raw <=? maximum) "CUSTODY_READ_LIMIT" ;;
     (match expected_mode with
      | None => mret tt
      | Some m => row ← handle_at path; id ← known_identity row; check (S_IMODE (mode_of id) =? m) "CUSTODY_MODE_INVALID"
      end) ;;
     check (unless_given (str_eqb (byte_digest raw)) expected_digest) "CUSTODY_DIGEST_MISMATCH" ;;
     mret raw)
    (fun _ => close).

(** ** The kit *)

Record kit_walk := { entries : Z; size : Z; kit_rows : list (str * value); sources : list (str * bytes) }.

(** One file of the tree. *)
(* @src src/src/harness_conformance/live_linux_boundary.py:757-767 _RetainedCustody.read_kit *)
Definition kit_file (child relative : str) (info : full_stat) (k : kit_walk) : run kit_walk :=
  check (S_ISREG (st_mode info) && (st_nlink info =? 1) && (0 <=? st_size info) && (st_size info <=? 4194304))
    "KIT_FILE_INVALID" ;;
  check ((zlen (kit_rows k) <? 4096) && (size k + st_size info <=? 67108864)) "KIT_INVENTORY_FULL" ;;
  raw ← read child 4194304 None None;
  row ← handle_at child;
  check (match identity row with Some id => ints_eqb id (_custody_identity info) | None => false end) "KIT_CHANGED" ;;
  mret {| entries := entries k; size := size k + zlen raw;
          kit_rows := kit_rows k ++ [(relative, file_entry relative (S_IMODE (st_mode info)) raw)];
          sources := dset relative raw (sources k) |}.

(** The walk; [fuel] is [33 - depth]. *)
(* @src src/src/harness_conformance/live_linux_boundary.py:737-768 _RetainedCustody.read_kit *)
Fixpoint kit_directory (fuel : nat) (device : Z) (path prefix : str) (k : kit_walk) : run kit_walk :=
  match fuel with
  | O => throw (ConformanceError "KIT_DEPTH_EXCEEDED")
  | S fuel =>
      fd ← directory path true;
      row ← handle_at path;
      id ← known_identity row;
      check (device_of id =? device) "KIT_MOUNT_OR_CUSTODY_INVALID" ;;
      listed ← kernel (os_listdir fd);
      names ← lift (sort_utf8 (map (fun n => (n, tt)) listed));
      check_all ;;
      check (zlen names <=? 4096) "KIT_INVENTORY_FULL" ;;
      let k := {| entries := entries k + zlen names; size := size k; kit_rows := kit_rows k; sources := sources k |} in
      check (entries k <=? 8192) "KIT_INVENTORY_FULL" ;;
      k ← io_fold (fun k name =>
        check (negb (str_in name [[]; u "."; u ".."]) && negb (existsb (N.eqb 47) name) && negb (existsb (N.eqb 92) name))
          "KIT_PATH_INVALID" ;;
        info ← kernel (os_stat (Some fd) name);
        check ((st_dev info =? device) && (st_uid info =? 0) && (st_gid info =? 0) && (Z.land (S_IMODE (st_mode info)) ANY_WRITE =? 0))
          "KIT_CUSTODY_INVALID" ;;
        let child := path ++ u "/" ++ name in
        let relative := prefix ++ name in
        if S_ISDIR (st_mode info) then kit_directory fuel device child (relative ++ u "/") k
        else kit_file child relative info k) k (map fst names);
      check_all ;;
      mret k
  end.

Definition no_kit : kit_walk := {| entries := 0; size := 0; kit_rows := []; sources := [] |}.

(* @src src/src/harness_conformance/live_linux_boundary.py:729-777 _RetainedCustody.read_kit *)
Definition read_kit (root expected_digest : str) : run (list (str * bytes)) :=
  on_exception
    (check_all ;;
     new ← reads (fun s => Ok (negb (sealed s) && match kit_root s with None => true | Some _ => false end));
     check new "KIT_ALREADY_READ" ;;
     _ ← directory root true;
     row ← handle_at root;
     id ← known_identity row;
     k ← kit_directory 33 (device_of id) root [] no_kit;
     sorted ← lift (sort_utf8 (kit_rows k));
     digest ← lift (canonical_digest (VList (map snd sorted)) (Some TREE_DOMAIN));
     check (str_eqb digest expected_digest) "KIT_DIGEST_MISMATCH" ;;
     rootfs ← reads (fun s => match dget (root ++ u "/rootfs") (handles s) with
                              | None => Ok false
                              | Some row => match identity row with
                                            | Some id => Ok (S_ISDIR (mode_of id))
                                            | None => Raise TypeError
                                            end
                              end);
     check rootfs "KIT_ROOTFS_REQUIRED" ;;
     update (with_kit root expected_digest (sources k)) ;;
     mret (sources k))
    (fun _ => close).

(** [files.get(path) == raw] for each expected file. *)
Definition holds (files expected : list (str * bytes)) : bool :=
  forallb (fun kv => match dget kv.1 files with Some raw => str_eqb raw kv.2 | None => false end) expected.

(** [==] on two dicts of octets. *)
Definition sources_eqb (a b : list (str * bytes)) : bool := Nat.eqb (length a) (length b) && holds b a.

(* @src src/src/harness_conformance/live_linux_boundary.py:779-782 _RetainedCustody.require_bytes *)
Definition require_bytes (expected : list (str * bytes)) : run unit :=
  check_all ;;
  ok ← reads (fun s => Ok (holds (files s) expected));
  check ok "CUSTODY_INCOMPLETE".

Definition same_text (o : option str) (x : str) : bool := match o with Some y => str_eqb y x | None => false end.

(* @src src/src/harness_conformance/live_linux_boundary.py:784-793 _RetainedCustody.seal *)
Definition seal (expected : list (str * bytes)) (root digest : str) (sources : list (str * bytes)) : run Z :=
  require_bytes expected ;;
  ok ← reads (fun s => Ok (match manifest_digest s with Some _ => true | None => false end && negb (sealed s) &&
                           same_text (kit_root s) root && same_text (kit_digest s) digest &&
                           sources_eqb (kit_sources s) sources && negb (zlen (kit_sources s) =? 0)));
  check ok "CUSTODY_INCOMPLETE" ;;
  update with_seal ;;
  row ← handle_at (root ++ u "/rootfs");
  mret (fd row).

(** A custody that was just begun. *)
Definition begun (w : W) : custody W :=
  {| handles := []; files := []; total := 0; manifest_digest := None; kit_root := None; kit_digest := None; kit_sources := [];
     closed := false; sealed := false; registered := true; late_resources := false; outside := w |}.
End custody.
