(* ===== verification/Installed.v ===== *)
(** live_linux_boundary.py: the installed manifest, read through the custody and verified against
    the pinned root key, and the descriptors a process may have when a session begins. *)

From S2P Require Import Prelude Effects PyVal Utf8 Json Sha2 Canonical Base64 Ed25519 IsoTime Regex Text.
From S2P Require Import SchemaBase Lifecycle LinuxShape Live Posix Launcher Boundary Custody.

#[local] Open Scope string_scope.
#[local] Open Scope list_scope.
#[local] Open Scope Z_scope.

Section installed.
Context {U : Unicode} {Sg : SigScheme} {W : Type} {K : Custodian W}.

(** With a custody, the branch of the retained reads. *)
(* @src src/src/harness_conformance/live_linux_boundary.py:129-133 read_owned *)
Definition read_owned (path : string) (digest : option str) (mode : option Z) : run (W := W) bytes :=
  owner_check ;; read (u path) 4194304 digest mode.

(** The root key that the pinned digest names. *)
Definition root_key (public_raw : bytes) : res value :=
  public_record ← load_json_bytes public_raw;
  SchemaBase.closed public_record ["algorithm"; "publicKey"] [] ;;
  require_m (fld_lit public_record "algorithm" "ED25519") "ROOT_KEY_ALGORITHM" ;;
  Ok public_record.

(** The signature of the manifest under the root key. *)
(* @src src/src/harness_conformance/live_linux_boundary.py:83-88 _installed_manifest_digest *)
Definition signed_manifest (public_record : value) (raw signature_raw : bytes) : res value :=
  text ← decode_ascii signature_raw;
  signature ← b64url_decode (VStr (Launcher.strip text)) 64;
  key ← fld public_record "publicKey";
  public ← b64url_decode key 32;
  require_m (sig_verify public raw signature) "ROOT_MANIFEST_SIGNATURE_INVALID" ;;
  manifest ← load_json_bytes raw;
  SchemaBase.closed manifest ["schemaVersion"; "launcher"; "fixedTrustMounts"; "isolation"; "preflightEvidenceDigest"] [] ;;
  require_m (fld_lit manifest "schemaVersion" "harness.planeon.ai/live-runner-manifest/v1alpha1") "ROOT_MANIFEST_SCHEMA" ;;
  Ok manifest.

(** What the manifest must say of the launcher, the mounts and the isolation. *)
Definition manifest_matches (manifest : value) (digest : str) : res unit :=
  require_m (fld_eq manifest "launcher" (expected_launcher digest)) "LAUNCHER_CUSTODY_INVALID" ;;
  require_m (fld_eq manifest "fixedTrustMounts" (str_list [FIXED_RELEASE_TRUST; FIXED_TENANT_TRUST])) "TRUST_MOUNTS_INVALID" ;;
  require_m (fld_eq manifest "isolation" expected_isolation) "ISOLATION_MANIFEST_INVALID".

(* @src src/src/harness_conformance/live_linux_boundary.py:63-106 _installed_manifest_digest *)
Definition _installed_manifest_digest : run (W := W) str :=
  owner_check ;;
  known ← reads (fun s => Ok (manifest_digest s));
  match known with
  | Some digest => check_all ;; mret digest
  | None =>
      public_raw ← read_owned FIXED_MANIFEST_PUBLIC (Some (u PINNED_ROOT_PUBLIC_KEY_SHA256)) None;
      public_record ← lift (root_key public_raw);
      raw ← read_owned FIXED_MANIFEST None None;
      signature_raw ← read_owned FIXED_MANIFEST_SIGNATURE None None;
      manifest ← lift (signed_manifest public_record raw signature_raw);
      launcher_raw ← read_owned EXPECTED_LAUNCHER None (Some 365);
      lift (manifest_matches manifest (byte_digest launcher_raw)) ;;
      require_bytes [(u FIXED_MANIFEST_PUBLIC, public_raw); (u FIXED_MANIFEST, raw); (u EXPECTED_LAUNCHER, launcher_raw)] ;;
      kept ← reads (fun s => Ok (dhas (u FIXED_MANIFEST_SIGNATURE) (files s)));
      check kept "CUSTODY_INCOMPLETE" ;;
      update (with_manifest (byte_digest launcher_raw)) ;;
      mret (byte_digest launcher_raw)
  end.
End installed.
