(* ===== verification/CustodyRuns.v ===== *)
(** Runs of the custody of Custody.v: what its operations keep, the descriptors they open and
    close, and what a successful read and a successful walk of the kit establish. *)

From S2P Require Import Prelude Effects PyVal Utf8 Json Sha2 Canonical Base64 Ed25519 IsoTime Regex Text.
From S2P Require Import SchemaBase Lifecycle LinuxShape Posix Live Launcher Boundary Custody Installed.

#[local] Open Scope string_scope.
#[local] Open Scope list_scope.
#[local] Open Scope Z_scope.

(** ** The descriptors of a run *)

Inductive descriptor_event := Opened (fd : Z) | Closed (fd : Z).

(** A kernel that notes the descriptors it hands out and those it is asked to close. *)
Section audited.
Context {W : Type} {K : Custodian W}.

Definition unseen {A} (m : io W A) : io (W * list descriptor_event) A := zoom fst (fun w s => (w, s.2)) m.
Definition noted (e : descriptor_event) : io (W * list descriptor_event) unit := update (fun s => (s.1, s.2 ++ [e])).

#[export] Instance audited : Custodian (W * list descriptor_event) := {|
  owner_alive w := owner_alive w.1;
  os_open p n d := fd ← unseen (os_open p n d); noted (Opened fd) ;; mret fd;
  os_fstat fd := unseen (os_fstat fd);
  os_stat p n := unseen (os_stat p n);
  os_read fd n := unseen (os_read fd n);
  os_listdir fd := unseen (os_listdir fd);
  os_close fd := noted (Closed fd) ;; unseen (os_close fd);
  late_close := unseen late_close
|}.
End audited.

Definition opens (log : list descriptor_event) : list Z := flat_map (fun e => match e with Opened fd => [fd] | _ => [] end) log.
Definition closes (log : list descriptor_event) : list Z := flat_map (fun e => match e with Closed fd => [fd] | _ => [] end) log.

Lemma opens_app l k : opens (l ++ k) = opens l ++ opens k.
Proof. apply flat_map_app. Qed.
Lemma closes_app l k : closes (l ++ k) = closes l ++ closes k.
Proof. apply flat_map_app. Qed.

Section runs.
Context {U : Unicode} {Sg : SigScheme} {W : Type} {K : Custodian W}.

Notation cust := (custody (W * list descriptor_event)).
Definition log_of (s : cust) : list descriptor_event := (outside s).2.
Definition fds (rows : list (str * handle_row)) : list Z := map (fun kv => fd kv.2) rows.

(** ** What the operations keep *)

(** Nothing changed but the world outside. *)
Definition untouched (s s' : cust) : Prop :=
  handles s' = handles s /\ files s' = files s /\ total s' = total s /\ manifest_digest s' = manifest_digest s /\
  kit_root s' = kit_root s /\ kit_digest s' = kit_digest s /\ kit_sources s' = kit_sources s /\ closed s' = closed s /\
  sealed s' = sealed s /\ registered s' = registered s /\ late_resources s' = late_resources s /\ log_of s' = log_of s.

#[export] Instance untouched_preorder : PreOrder untouched.
Proof. split; [intros s; by repeat split | intros s1 s2 s3 H1 H2; unfold untouched in *; intuition congruence]. Qed.

Lemma unseen_untouched {A} (m : io W A) : keeps untouched (kernel (unseen m)).
Proof.
  intros s. unfold kernel, zoom, unseen, zoom. destruct (m (outside s).1) as [r w]. by repeat split.
Qed.

Ltac quiet := repeat (keeps_step || apply unseen_untouched).

Lemma owner_check_untouched : keeps untouched (owner_check (W := W * list descriptor_event)).
Proof. unfold owner_check. quiet. Qed.

Lemma check_row_untouched row : keeps untouched (check_row (W := W * list descriptor_event) row).
Proof. unfold check_row. quiet. Qed.

Lemma check_all_untouched : keeps untouched (check_all (W := W * list descriptor_event)).
Proof.
  unfold check_all, each. quiet; [apply owner_check_untouched |]. apply keeps_fold; [typeclasses eauto |].
  intros; apply check_row_untouched.
Qed.

Lemma handle_at_untouched path : keeps untouched (handle_at (W := W * list descriptor_event) path).
Proof. unfold handle_at. quiet. Qed.

Lemma known_identity_untouched row : keeps untouched (known_identity (W := W * list descriptor_event) row).
Proof. unfold known_identity. quiet. Qed.

Lemma read_parts_untouched fuel fd size data : keeps untouched (read_parts (W := W * list descriptor_event) fuel fd size data).
Proof.
  revert data. induction fuel as [|fuel IH]; intros data; cbn [read_parts]; quiet.
  - apply check_all_untouched.
  - apply IH.
Qed.

(** New descriptors are held at the end of the table, as long as the custody is not sealed. *)
Definition extends (s s' : cust) : Prop := exists new,
  handles s' = handles s ++ new /\ log_of s' = log_of s ++ map Opened (fds new) /\
  (new = [] \/ sealed s = false /\ closed s = false) /\
  (NoDup (dkeys (handles s)) -> NoDup (dkeys (handles s'))) /\ (zlen (handles s) <= 8448 -> zlen (handles s') <= 8448) /\
  files s' = files s /\ total s' = total s /\ manifest_digest s' = manifest_digest s /\ kit_root s' = kit_root s /\
  kit_digest s' = kit_digest s /\ kit_sources s' = kit_sources s /\ closed s' = closed s /\ sealed s' = sealed s /\
  registered s' = registered s /\ late_resources s' = late_resources s.

Lemma untouched_extends s s' : untouched s s' -> extends s s'.
Proof.
  intros (E1 & E2 & E3 & E4 & E5 & E6 & E7 & E8 & E9 & E10 & E11 & E12). exists [].
  rewrite !app_nil_r, E1. repeat split; try done. by left.
Qed.

#[export] Instance extends_preorder : PreOrder extends.
Proof.
  split; [intros s; apply untouched_extends; reflexivity |].
  intros s1 s2 s3 (n1 & A1 & A2 & A3 & A4 & A5 & A6) (n2 & B1 & B2 & B3 & B4 & B5 & B6). exists (n1 ++ n2).
  rewrite B1, A1, <- app_assoc. split; [done |]. split.
  { rewrite B2, A2, <- app_assoc. unfold fds. by rewrite !map_app. }
  split.
  { destruct A3 as [-> | A3]; [|by right]. destruct B3 as [-> | [B31 B32]]; [by left | right].
    destruct A6 as (_ & _ & _ & _ & _ & _ & E1 & E2 & _). by rewrite <- E1, <- E2. }
  rewrite app_assoc, <- A1, <- B1. split; [tauto |]. split; [tauto |]. intuition congruence.
Qed.

Lemma extends_untouched {A} (m : run (W := W * list descriptor_event) A) : keeps untouched m -> keeps extends m.
Proof. apply keeps_weaken, untouched_extends. Qed.

Create HintDb custody discriminated.
#[local] Hint Resolve owner_check_untouched check_row_untouched check_all_untouched handle_at_untouched
  known_identity_untouched read_parts_untouched : custody.
#[local] Hint Extern 2 (keeps extends _) => apply extends_untouched : custody.

Lemma wp_untouched {A} (m : run (W := W * list descriptor_event) A) (Q : A -> cust -> Prop) E s :
  keeps untouched m -> (forall a s', untouched s s' -> Q a s') -> (forall e s', untouched s s' -> E e s') -> wp m Q E s.
Proof. intros Hm HQ HE. eapply wp_mono; [by apply wp_keeps | |]; eauto. Qed.

(** ** Acquiring *)

(** The state after a descriptor was acquired. *)
Definition held (path : str) (f : Z) (s s' : cust) : Prop :=
  extends s s' /\ closed s' = false /\ sealed s' = false /\ dhas path (handles s) = false /\
  exists row id, dget path (handles s') = Some row /\ fd row = f /\ identity row = Some id.

Lemma dget_last {A} k (x : A) l : dhas k l = false -> dget k (l ++ [(k, x)]) = Some x.
Proof.
  intros H. rewrite dget_app. unfold dhas in H. destruct (dget k l); [done |]. cbn. by rewrite str_eqb_refl.
Qed.

Lemma identify_last path r id (l : list (str * handle_row)) :
  dhas path l = false -> map (fun kv => if str_eqb kv.1 path
    then (kv.1, {| fd := fd kv.2; parent := parent kv.2; name := name kv.2; identity := Some id |}) else kv) (l ++ [(path, r)]) =
  l ++ [(path, {| fd := fd r; parent := parent r; name := name r; identity := Some id |})].
Proof.
  intros H. rewrite map_app. cbn [map fst snd]. rewrite str_eqb_refl. f_equal.
  induction l as [|[k x] l IH]; [done |]. cbn [map fst]. unfold dhas in *. cbn [dget] in H. rewrite str_eqb_sym.
  destruct (str_eqb path k) eqn:E; [done |]. by rewrite IH.
Qed.

Lemma opened_extends (s s' : cust) path row :
  handles s' = handles s ++ [(path, row)] -> log_of s' = log_of s ++ [Opened (fd row)] -> sealed s = false -> closed s = false ->
  dhas path (handles s) = false -> zlen (handles s) < 8448 ->
  files s' = files s /\ total s' = total s /\ manifest_digest s' = manifest_digest s /\ kit_root s' = kit_root s /\
  kit_digest s' = kit_digest s /\ kit_sources s' = kit_sources s /\ closed s' = closed s /\ sealed s' = sealed s /\
  registered s' = registered s /\ late_resources s' = late_resources s -> extends s s'.
Proof.
  intros Hh Hl Hs Hc Hk Hz H. exists [(path, row)]. split; [done |]. split; [done |]. split; [by right |].
  rewrite Hh. split; [|split; [|done]].
  - intros Hn. unfold dkeys. rewrite map_app. apply NoDup_app. split; [done |]. split; [|apply NoDup_singleton].
    intros x Hx Hx'. apply list_elem_of_singleton in Hx'. cbn in Hx'. subst x. apply list_elem_of_In, dhas_In in Hx. congruence.
  - rewrite zlen_app. change (zlen [(path, row)]) with 1. lia.
Qed.

Lemma acquire_wp path parent name directory strict (s : cust) :
  wp (acquire path parent name directory strict) (fun f s' => held path f s s') (fun _ s' => extends s s') s.
Proof.
  unfold acquire. apply wp_bind. unfold owner_check. apply wp_bind, wp_reads; [intros ok [= <-] | done].
  apply wp_check; [intros [[Hc _]%andb_true_iff _]%andb_true_iff | reflexivity]. apply negb_true_iff in Hc.
  apply wp_bind, wp_reads; [intros room [= <-] | done].
  apply wp_bind, wp_check; [intros [[Hs Hk]%andb_true_iff Hz%Z.ltb_lt]%andb_true_iff | reflexivity].
  apply negb_true_iff in Hs, Hk. apply wp_bind. unfold open_row. apply wp_bind.
  unfold kernel at 1. apply wp_zoom. cbn [os_open audited]. apply wp_bind. unfold unseen. apply wp_zoom.
  unfold wp at 1. destruct (os_open parent name directory (outside s).1) as [[f|e] w]; cbn [fst snd].
  2: { apply untouched_extends. by repeat split. }
  apply wp_bind, wp_update, wp_ret. cbn [fst snd]. apply wp_bind, wp_update, wp_ret.
  set (row0 := {| fd := f; parent := parent; name := name; identity := None |}).
  match goal with |- wp _ _ _ ?x => set (s1 := x) end.
  assert (extends s s1) as H1 by (eapply (opened_extends s s1 path row0); try done; by repeat split).
  assert (handles s1 = handles s ++ [(path, row0)]) as Hh1 by done.
  assert (log_of s1 = log_of s ++ [Opened f]) as Hl1 by done.
  assert (closed s1 = false /\ sealed s1 = false) as [Hc1 Hs1] by done.
  assert (forall s2, untouched s1 s2 -> extends s s2) as Hkeep1 by (intros s2 H2; etransitivity; [exact H1 | by apply untouched_extends]).
  clearbody s1. apply wp_bind, wp_check; [intros _ | done].
  apply wp_bind, wp_untouched; [apply unseen_untouched | intros info s2 H2 | intros e s2 H2; by apply Hkeep1].
  apply wp_bind, wp_update.
  set (row1 := {| fd := f; parent := parent; name := name; identity := Some (_custody_identity info) |}).
  match goal with |- wp _ _ _ ?x => set (s3 := x) end.
  destruct H2 as (E1 & E2 & E3 & E4 & E5 & E6 & E7 & E8 & E9 & E10 & E11 & E12).
  assert (handles s3 = handles s ++ [(path, row1)]) as Hh3.
  { unfold s3, with_handles. cbn [handles]. rewrite E1, Hh1. by apply identify_last. }
  assert (extends s s3) as H3.
  { apply (opened_extends s s3 path row1); try done.
    - change (log_of s3) with (log_of s2). by rewrite E12, Hl1.
    - destruct H1 as (new & _ & _ & _ & _ & _ & F). unfold s3, with_handles. cbn. rewrite E2, E3, E4, E5, E6, E7, E8, E9, E10, E11. done. }
  assert (closed s3 = false /\ sealed s3 = false) as [Hc3 Hs3].
  { unfold s3, with_handles. cbn. by rewrite E8, E9. }
  clearbody s3. apply wp_bind, wp_check; [intros _ | done].
  apply wp_bind, wp_untouched; [apply check_row_untouched | intros [] s4 H4 | intros e s4 H4; etransitivity; [exact H3 | by apply untouched_extends]].
  apply wp_ret. split; [etransitivity; [exact H3 | by apply untouched_extends] |].
  destruct H4 as (F1 & _ & _ & _ & _ & _ & _ & F8 & F9 & _). rewrite F8, F9. repeat (split; [done |]).
  exists row1, (_custody_identity info). rewrite F1, Hh3. split; [by apply dget_last | done].
Qed.

Lemma acquire_extends path parent name directory strict :
  keeps extends (acquire (W := W * list descriptor_event) path parent name directory strict).
Proof.
  apply keeps_wp. intros s. eapply wp_mono; [apply acquire_wp | | done]. intros f s' [H _]. exact H.
Qed.
#[local] Hint Resolve acquire_extends : custody.

Ltac held_step := keeps_step || solve [auto with custody].

Lemma root_fd_extends : keeps extends (root_fd (W := W * list descriptor_event)).
Proof. unfold root_fd. repeat held_step. Qed.

Lemma descend_extends path strict parent current parts :
  keeps extends (descend (W := W * list descriptor_event) path strict parent current parts).
Proof.
  revert parent current. induction parts as [|part rest IH]; intros parent current; cbn [descend]; [repeat held_step |].
  repeat (apply IH || held_step).
Qed.
#[local] Hint Resolve root_fd_extends descend_extends : custody.

Lemma directory_extends path strict : keeps extends (directory (W := W * list descriptor_event) path strict).
Proof. unfold directory. repeat held_step. Qed.
#[local] Hint Resolve directory_extends : custody.

(** ** The invariant *)

(** The octets of all files together. *)
Definition octets (l : list (str * bytes)) : Z := foldr (fun f n => zlen f.2 + n) 0 l.

Lemma octets_app l k : octets (l ++ k) = octets l + octets k.
Proof. unfold octets. induction l as [|f l IH]; simpl; [done | lia]. Qed.

(** A file that was read is held open, with the identity and the size it was read with. *)
Definition file_held (rows : list (str * handle_row)) (f : str * bytes) : Prop :=
  exists row id, dget f.1 rows = Some row /\ identity row = Some id /\ size_of id = zlen f.2.

Definition sound (s : cust) : Prop :=
  NoDup (dkeys (handles s)) /\ zlen (handles s) <= 8448 /\ NoDup (dkeys (files s)) /\ zlen (files s) <= 4112 /\
  total s <= 100663296 /\
  if closed s
  then handles s = [] /\ files s = [] /\ kit_sources s = [] /\ registered s = false /\
       sublist (closes (log_of s)) (rev (opens (log_of s)))
  else closes (log_of s) = [] /\ opens (log_of s) = fds (handles s) /\ total s = octets (files s) /\
       Forall (file_held (handles s)) (files s).

(** What a verified installation is: the octets of the key, the manifest, its signature and the
    launcher, as the custody holds them. *)
Definition rooted (digest : str) (held : list (str * bytes)) : Prop :=
  exists public_raw public_record public raw signature_raw signature manifest launcher_raw,
    dget (u FIXED_MANIFEST_PUBLIC) held = Some public_raw /\ dget (u FIXED_MANIFEST) held = Some raw /\
    dget (u FIXED_MANIFEST_SIGNATURE) held = Some signature_raw /\ dget (u EXPECTED_LAUNCHER) held = Some launcher_raw /\
    byte_digest public_raw = u PINNED_ROOT_PUBLIC_KEY_SHA256 /\ load_json_bytes public_raw = Ok public_record /\
    fld_lit public_record "algorithm" "ED25519" = Ok true /\ (key ← fld public_record "publicKey"; b64url_decode key 32) = Ok public /\
    (text ← decode_ascii signature_raw; b64url_decode (VStr (Launcher.strip text)) 64) = Ok signature /\
    sig_verify public raw signature = Ok true /\ load_json_bytes raw = Ok manifest /\
    fld_lit manifest "schemaVersion" "harness.planeon.ai/live-runner-manifest/v1alpha1" = Ok true /\
    digest = byte_digest launcher_raw /\ fld_eq manifest "launcher" (expected_launcher digest) = Ok true /\
    fld_eq manifest "fixedTrustMounts" (str_list [FIXED_RELEASE_TRUST; FIXED_TENANT_TRUST]) = Ok true /\
    fld_eq manifest "isolation" expected_isolation = Ok true.

Lemma rooted_app digest held f : rooted digest held -> rooted digest (held ++ f).
Proof.
  intros (a & b & c & d & e & g & h & l & H1 & H2 & H3 & H4 & H). exists a, b, c, d, e, g, h, l.
  by rewrite !dget_app, H1, H2, H3, H4.
Qed.

(** The checks of the installed manifest, one by one. *)
Lemma checked_rooted public_raw public_record raw signature_raw manifest launcher_raw held :
  dget (u FIXED_MANIFEST_PUBLIC) held = Some public_raw -> dget (u FIXED_MANIFEST) held = Some raw ->
  dget (u FIXED_MANIFEST_SIGNATURE) held = Some signature_raw -> dget (u EXPECTED_LAUNCHER) held = Some launcher_raw ->
  byte_digest public_raw = u PINNED_ROOT_PUBLIC_KEY_SHA256 -> root_key public_raw = Ok public_record ->
  signed_manifest public_record raw signature_raw = Ok manifest -> manifest_matches manifest (byte_digest launcher_raw) = Ok tt ->
  rooted (byte_digest launcher_raw) held.
Proof.
  intros H1 H2 H3 H4 H5 (k & Hk & Hr)%bind_Ok (text & Ht & Hs)%bind_Ok Hm.
  apply seq_Ok in Hr as [_ [Ha%require_m_Ok [= <-]]%seq_Ok].
  apply bind_Ok in Hs as (signature & Hsig & Hs). apply bind_Ok in Hs as (key & Hkey & Hs). apply bind_Ok in Hs as (public & Hpub & Hs).
  apply seq_Ok in Hs as [Hv%require_m_Ok Hs]. apply bind_Ok in Hs as (m & Hl & Hs).
  apply seq_Ok in Hs as [_ [Hsv%require_m_Ok [= <-]]%seq_Ok].
  apply seq_Ok in Hm as [Hm1%require_m_Ok [Hm2%require_m_Ok Hm3%require_m_Ok]%seq_Ok].
  exists public_raw, k, public, raw, signature_raw, signature, m, launcher_raw.
  rewrite Hkey, Ht. cbn [mbind res_bind]. by repeat split.
Qed.

(** What is held and what was read stays, unless the custody closes; a sealed one takes no more; a
    digest of the manifest that appears is rooted. *)
Definition grows (s s' : cust) : Prop := closed s' = true \/
  closed s = false /\ closed s' = false /\ (exists h, handles s' = handles s ++ h) /\ (exists f, files s' = files s ++ f) /\
  (sealed s = true -> sealed s' = true /\ handles s' = handles s /\ files s' = files s) /\
  (forall d, manifest_digest s' = Some d -> manifest_digest s = Some d \/ rooted d (files s')).

Lemma grows_refl s : grows s s.
Proof.
  unfold grows. destruct (closed s); [by left | right]. repeat split; try done; [exists []; by rewrite app_nil_r .. | by left].
Qed.

Lemma grows_trans s1 s2 s3 : grows s1 s2 -> grows s2 s3 -> grows s1 s3.
Proof.
  intros [C1 | G1] [C2 | G2]; [by left | destruct G2; congruence | by left | right].
  destruct G1 as (C1 & _ & (h1 & Eh1) & (f1 & Ef1) & S1 & M1). destruct G2 as (_ & C3 & (h2 & Eh2) & (f2 & Ef2) & S2 & M2).
  repeat (split; [done |]). split; [exists (h1 ++ h2); by rewrite Eh2, Eh1, app_assoc |].
  split; [exists (f1 ++ f2); by rewrite Ef2, Ef1, app_assoc |]. split.
  - intros HS. destruct (S1 HS) as (A1 & A2 & A3). destruct (S2 A1) as (B1 & B2 & B3). repeat split; congruence.
  - intros d Hd. destruct (M2 d Hd) as [H | H]; [|by right]. destruct (M1 d H) as [H' | H']; [by left | right].
    rewrite Ef2. by apply rooted_app.
Qed.

Definition evolves (s s' : cust) : Prop := sound s -> sound s' /\ grows s s'.

#[export] Instance evolves_preorder : PreOrder evolves.
Proof.
  split; [intros s H; split; [done | apply grows_refl] |].
  intros s1 s2 s3 H1 H2 Hs. apply H1 in Hs as [Hs G1]. apply H2 in Hs as [Hs G2]. split; [done | by eapply grows_trans].
Qed.

Lemma opens_map l : opens (map Opened l) = l.
Proof. induction l as [|x l IH]; [done |]. change (x :: opens (map Opened l) = x :: l). by rewrite IH. Qed.
Lemma closes_opened l : closes (map Opened l) = [].
Proof. by induction l. Qed.
Lemma opens_closed l : opens (map Closed l) = [].
Proof. by induction l. Qed.
Lemma closes_map l : closes (map Closed l) = l.
Proof. induction l as [|x l IH]; [done |]. change (x :: closes (map Closed l) = x :: l). by rewrite IH. Qed.

Lemma file_held_app rows h f : file_held rows f -> file_held (rows ++ h) f.
Proof. intros (row & id & H & ? & ?). exists row, id. by rewrite dget_app, H. Qed.

Lemma extends_evolves s s' : extends s s' -> evolves s s'.
Proof.
  intros (new & Hh & Hl & Hnew & Hnd & Hz & Ef & Et & Em & _ & _ & Ek & Ec & Es & Er & _) (S1 & S2 & S3 & S4 & S5 & S6).
  split.
  - unfold sound. rewrite Ef, Et, Ec, Ek, Er. split; [tauto |]. split; [tauto |]. repeat (split; [done |]).
    rewrite Hl, opens_app, closes_app, opens_map, closes_opened, app_nil_r.
    destruct (closed s) eqn:E.
    + destruct Hnew as [-> | [_ ?]]; [|done]. cbn [fds map]. by rewrite Hh, !app_nil_r.
    + destruct S6 as (F1 & F2 & F3 & F4). rewrite Hh, F1, F2. unfold fds. rewrite map_app. repeat (split; [done |]).
      eapply Forall_impl; [exact F4 | intros f; apply file_held_app].
  - unfold grows. rewrite Ec. destruct (closed s) eqn:E; [by left | right]. repeat (split; [done |]).
    split; [by exists new |]. split; [exists []; by rewrite app_nil_r |].
    split; [|rewrite Em; by left].
    intros HS. rewrite Es, Ef, Hh. destruct Hnew as [-> | [? _]]; [by rewrite app_nil_r | congruence].
Qed.

Lemma evolves_extends {A} (m : run (W := W * list descriptor_event) A) : keeps extends m -> keeps evolves m.
Proof. apply keeps_weaken, extends_evolves. Qed.
#[local] Hint Extern 3 (keeps evolves _) => apply evolves_extends : custody.

(** ** Closing *)

(** Only descriptors were closed. *)
Definition closing (l : list Z) (s s' : cust) : Prop := exists w, untouched s w /\
  handles s' = handles w /\ files s' = files w /\ total s' = total w /\ kit_sources s' = kit_sources w /\ closed s' = closed w /\
  sealed s' = sealed w /\ registered s' = registered w /\ log_of s' = log_of w ++ map Closed l.

Lemma closing_fields l s s' : closing l s s' <->
  handles s' = handles s /\ files s' = files s /\ total s' = total s /\ kit_sources s' = kit_sources s /\ closed s' = closed s /\
  sealed s' = sealed s /\ registered s' = registered s /\ log_of s' = log_of s ++ map Closed l.
Proof.
  split.
  - intros (w & (E1 & E2 & E3 & _ & _ & _ & E7 & E8 & E9 & E10 & _ & E12) & H). rewrite E1, E2, E3, E7, E8, E9, E10, E12 in H. exact H.
  - intros H. exists s. split; [reflexivity | exact H].
Qed.

Lemma closing_trans l1 l2 s1 s2 s3 : closing l1 s1 s2 -> closing l2 s2 s3 -> closing (l1 ++ l2) s1 s3.
Proof.
  rewrite !closing_fields, map_app. intros (A1 & A2 & A3 & A4 & A5 & A6 & A7 & A8) (B1 & B2 & B3 & B4 & B5 & B6 & B7 & B8).
  rewrite B8, A8, <- app_assoc. repeat split; congruence.
Qed.

Lemma untouched_closing s s' : untouched s s' -> closing [] s s'.
Proof.
  intros (E1 & E2 & E3 & _ & _ & _ & E7 & E8 & E9 & E10 & _ & E12). apply closing_fields. by rewrite app_nil_r.
Qed.

Lemma close_row_wp row (s : cust) :
  wp (close_row row) (fun _ => closing [fd row] s) (fun _ s' => exists l, sublist l [fd row] /\ closing l s s') s.
Proof.
  unfold close_row. apply wp_bind.
  assert (forall s1, untouched s s1 ->
    wp (kernel (os_close (fd row))) (fun _ => closing [fd row] s) (fun _ s' => exists l, sublist l [fd row] /\ closing l s s') s1) as Hend.
  { intros s1 H1. unfold kernel. apply wp_zoom. cbn [os_close audited]. apply wp_bind, wp_update. unfold unseen. apply wp_zoom.
    apply untouched_closing in H1. unfold wp. cbn [fst snd].
    destruct (os_close (fd row) (outside s1).1) as [[|e] w]; [|exists [fd row]; split; [done |]];
      change [fd row] with ([] ++ [fd row]); (eapply closing_trans; [exact H1 | by apply closing_fields]). }
  destruct (identity row) as [expected|]; [|by apply wp_ret, Hend].
  assert (forall (e : exn) s1, untouched s s1 -> exists l, sublist l [fd row] /\ closing l s s1) as Herr.
  { intros _ s1 H1. exists []. split; [apply sublist_nil_l | by apply untouched_closing]. }
  apply wp_bind, wp_untouched; [apply unseen_untouched | intros info s1 H1 | exact Herr].
  apply wp_check; intros _; [by apply Hend | by apply (Herr TypeError)].
Qed.

Lemma close_rows_wp failure rows (s : cust) :
  wp (close_rows failure rows)
    (fun r s' => exists l, sublist l (map fd rows) /\ closing l s s' /\ (r = None -> failure = None /\ l = map fd rows))
    (fun _ _ => False) s.
Proof.
  revert failure s. induction rows as [|row rows IH]; intros failure s; unfold close_rows; cbn [io_fold map].
  - apply wp_ret. exists []. split; [done |]. split; [by apply closing_fields; rewrite app_nil_r | done].
  - apply wp_bind, wp_bind, wp_attempt.
    eapply wp_mono; [apply close_row_wp | intros [] s1 H1 | intros e s1 (l1 & Hl1 & H1)]; apply wp_ret;
      (eapply wp_mono; [apply IH | intros r s2 (l & Hl & H2 & Hr) | done]).
    + exists ([fd row] ++ l). split; [by apply sublist_skip |]. split; [by eapply closing_trans |].
      intros Hn. destruct (Hr Hn) as [Hf ->]. by destruct failure.
    + exists (l1 ++ l). split; [apply (sublist_app l1 [fd row] l (map fd rows)); done |]. split; [by eapply closing_trans |].
      intros Hn. destruct (Hr Hn) as [Hf _]. by destruct failure.
Qed.

Definition released (s' : cust) : Prop := closes (log_of s') = rev (opens (log_of s')).

Lemma close_wp (s : cust) : sound s ->
  wp close (fun _ s' => sound s' /\ closed s' = true /\ (closed s = false -> released s')) (fun _ s' => sound s' /\ closed s' = true) s.
Proof.
  intros (S1 & S2 & S3 & S4 & S5 & S6). unfold close. apply wp_bind, wp_reads; [intros d [= <-] | done].
  destruct (closed s) eqn:Ec; [apply wp_ret; split; [unfold sound; by rewrite Ec | done] |].
  apply wp_bind, wp_reads; [intros rows [= <-] | done]. apply wp_bind, wp_reads; [intros late [= <-] | done].
  apply wp_bind, wp_update, wp_bind. set (s1 := invalidated s). destruct S6 as (F1 & F2 & _ & _).
  assert (forall r s2, untouched s1 s2 -> wp (failure ← close_rows (first_failure None r) (rev (map snd (handles s)));
      match failure with Some e => throw e | None => mret tt end)
    (fun _ s' => sound s' /\ closed s' = true /\ (false = false -> released s')) (fun _ s' => sound s' /\ closed s' = true) s2) as Hend.
  { intros r s2 H2. apply wp_bind. eapply wp_mono; [apply close_rows_wp | intros failure s3 (l & Hl & H3 & Hf) | done].
    apply untouched_closing in H2. apply (closing_trans _ _ _ _ _ H2), closing_fields in H3.
    destruct H3 as (E1 & E2 & E3 & E4 & E5 & E6 & E7 & E8). cbn [app] in E8.
    assert (map fd (rev (map snd (handles s))) = rev (opens (log_of s3))) as Hfds.
    { rewrite E8, opens_app, opens_closed, app_nil_r. change (log_of s1) with (log_of s). rewrite F2, map_rev, map_map. done. }
    assert (closes (log_of s3) = l) as Hcl.
    { rewrite E8, closes_app, closes_map. change (log_of s1) with (log_of s). by rewrite F1. }
    assert (sound s3 /\ closed s3 = true) as Hs3.
    { unfold sound. rewrite E1, E2, E3, E4, E5, E7, Hcl, <- Hfds. repeat split; try done; try constructor. }
    destruct failure as [e|]; [by apply wp_throw |]. apply wp_ret. split; [apply Hs3 |]. split; [apply Hs3 |]. intros _.
    unfold released. rewrite Hcl, <- Hfds. by apply Hf. }
  destruct (late_resources s).
  - apply wp_attempt, wp_untouched; [apply unseen_untouched | intros r s2 H2; by apply Hend | intros e s2 H2; by apply Hend].
  - apply wp_ret, Hend. reflexivity.
Qed.

(** Fuel of two more than the size is enough: every part that is not the last has an octet. *)
Lemma read_parts_enough f g fd size data (s : cust) :
  size + 1 - zlen data <= Z.of_nat f -> size + 1 - zlen data <= Z.of_nat g -> read_parts f fd size data s = read_parts g fd size data s.
Proof.
  revert g data s. induction f as [|f IH]; intros g data s Hf Hg; destruct g as [|g]; cbn [read_parts];
    try done; (destruct (Z.ltb_spec size (zlen data)); [done | try lia]).
  apply io_bind_ext. intros chunk s1 _. apply io_bind_ext. intros _ s2 _.
  destruct chunk as [|c chunk]; [done |]. pose proof (zlen_nonneg chunk). apply IH; rewrite zlen_app, zlen_cons; lia.
Qed.

(** ** Reading *)

Definition live (s : cust) : Prop := sound s /\ closed s = false.

(** A step of a live custody: it stays live, or it is sound after it raised. *)
Definition goes_on (s s' : cust) : Prop := live s' /\ grows s s'.
Definition stops (s s' : cust) : Prop := sound s' /\ grows s s'.

Lemma goes_on_stops s s' : goes_on s s' -> stops s s'.
Proof. by intros [[? _] ?]. Qed.
Lemma goes_on_trans s1 s2 s3 : goes_on s1 s2 -> goes_on s2 s3 -> goes_on s1 s3.
Proof. intros [_ G1] [L2 G2]. split; [done | by eapply grows_trans]. Qed.
Lemma goes_on_then_stops s1 s2 s3 : goes_on s1 s2 -> stops s2 s3 -> stops s1 s3.
Proof. intros [_ G1] [L2 G2]. split; [done | by eapply grows_trans]. Qed.

Lemma extends_goes_on s s' : live s -> extends s s' -> goes_on s s'.
Proof.
  intros [Hs Hc] H. pose proof (extends_evolves _ _ H Hs) as [Hs' G]. split; [|done]. split; [done |].
  destruct H as (new & _ & _ & _ & _ & _ & _ & _ & _ & _ & _ & _ & Ec & _). congruence.
Qed.

(** A run that extends the custody, at a live one. *)
Lemma wp_extends {A} (m : run (W := W * list descriptor_event) A) (Q : A -> cust -> Prop) E s :
  live s -> keeps extends m -> (forall a s', extends s s' -> goes_on s s' -> Q a s') -> (forall e s', goes_on s s' -> E e s') -> wp m Q E s.
Proof.
  intros Hl Hm HQ HE. eapply wp_mono; [by apply wp_keeps | |].
  - intros a s' H. apply HQ; [done | by apply extends_goes_on].
  - intros e s' H. by apply HE, extends_goes_on.
Qed.

Lemma check_all_open s : wp check_all (fun _ s' => untouched s s' /\ closed s = false) (fun _ s' => untouched s s') s.
Proof.
  unfold wp. pose proof (check_all_untouched s) as H. destruct (check_all s) as [[[]|e] s'] eqn:E; [|done]. split; [done |].
  unfold check_all, owner_check in E. apply io_bind_Ok in E as ([] & s1 & E & _). apply io_bind_Ok in E as (ok & s2 & E & E2).
  apply check_Ok in E2 as [-> _]. injection E as E _. apply andb_true_iff in E as [E _]. apply andb_true_iff in E as [E _].
  by apply negb_true_iff.
Qed.

Lemma file_goes_on (s : cust) path data size row id :
  live s -> sealed s = false -> dhas path (files s) = false -> zlen (files s) < 4112 -> total s + size <= 100663296 ->
  zlen data = size -> dget path (handles s) = Some row -> identity row = Some id -> size_of id = size ->
  goes_on s (with_file path data size s).
Proof.
  intros [(S1 & S2 & S3 & S4 & S5 & S6) Hc] Hs Hp Hf Ht Hd Hr Hid Hsz. rewrite Hc in S6. destruct S6 as (F1 & F2 & F3 & F4).
  unfold goes_on, live, sound, grows, with_file, log_of. cbn [handles files total closed sealed kit_sources registered outside].
  rewrite Hc, Hs. split; [split; [|done] |].
  - repeat (split; [done |]). split.
    { unfold dkeys. rewrite map_app. apply NoDup_app. split; [done |]. split; [|apply NoDup_singleton].
      intros x Hx Hx'. apply list_elem_of_singleton in Hx'. cbn in Hx'. subst x. apply list_elem_of_In, dhas_In in Hx. congruence. }
    rewrite zlen_app. change (zlen [(path, data)]) with 1. split; [lia |]. split; [done |]. repeat (split; [done |]). split.
    { rewrite octets_app, F3. cbn. lia. }
    apply Forall_app. split; [done |]. constructor; [|constructor]. exists row, id. cbn. by rewrite Hd.
  - right. repeat (split; [done |]). split; [exists []; by rewrite app_nil_r |]. split; [by exists [(path, data)] |]. split; [done | by left].
Qed.

Lemma read_first_wp path maximum (s : cust) :
  live s -> dhas path (files s) = false ->
  wp (read_first path maximum) (fun _ s' => goes_on s s') (fun _ s' => goes_on s s') s.
Proof.
  intros Hl Hp. unfold read_first. apply wp_bind, wp_reads; [intros room [= <-] | done].
  assert (goes_on s s) as Hrefl by (split; [done | apply grows_refl]).
  apply wp_bind, wp_check; [intros [Hs Hn%Z.ltb_lt]%andb_true_iff | done]. apply negb_true_iff in Hs.
  destruct (rsplit_slash path) as [parent_path name]. apply wp_bind, (wp_extends _ _ _ _ Hl).
  { destruct parent_path; auto with custody. }
  2: done. intros parent s1 X1 H1. apply wp_bind.
  eapply wp_mono; [apply acquire_wp | intros f s2 (X2 & Hc2 & Hs2 & _ & row & id & Hr & Hf & Hid) | intros e s2 X2].
  2: { eapply goes_on_trans; [exact H1 | apply extends_goes_on; [apply H1 | done]]. }
  assert (goes_on s s2) as H2 by (eapply goes_on_trans; [exact H1 | apply extends_goes_on; [apply H1 | done]]).
  apply wp_bind, wp_reads; rewrite Hr; [intros row' [= <-] | done]. apply wp_bind. unfold known_identity. rewrite Hid.
  apply wp_lift; [intros id' [= <-] | done]. apply wp_bind, wp_reads; [intros fits [= <-] | done].
  apply wp_bind, wp_check; [intros [_ Ht%Z.leb_le]%andb_true_iff | done].
  apply wp_bind, (wp_extends _ _ _ _ (proj1 H2)); [auto with custody | intros data s3 X3 H3 | intros e s3 H3; by eapply goes_on_trans].
  apply wp_bind, wp_check; [intros Hd%Z.eqb_eq | intros _; by eapply goes_on_trans]. apply wp_update.
  eapply goes_on_trans; [exact H2 |]. eapply goes_on_trans; [exact H3 |].
  destruct X1 as (n1 & _ & _ & _ & _ & _ & Ef1 & Et1 & _). destruct X2 as (n2 & _ & _ & _ & _ & _ & Ef2 & Et2 & _).
  pose proof X3 as (n3 & Eh3 & _ & _ & _ & _ & Ef3 & Et3 & _ & _ & _ & _ & _ & Es3 & _).
  eapply (file_goes_on s3 path data (size_of id) row id); [apply H3 | congruence | congruence | | | done | | done | done].
  - by rewrite Ef3, Ef2, Ef1.
  - by rewrite Et3.
  - by rewrite Eh3, dget_app, Hr.
Qed.

(** What a successful read has established. *)
Definition pinned (path : str) (maximum : Z) (digest : option str) (mode : option Z) (raw : bytes) (s' : cust) : Prop :=
  dget path (files s') = Some raw /\ 0 < maximum <= 4194304 /\ zlen raw <= maximum /\
  (forall d, digest = Some d -> byte_digest raw = d) /\
  (forall m, mode = Some m -> exists row id, dget path (handles s') = Some row /\ identity row = Some id /\ S_IMODE (mode_of id) = m).

Lemma read_wp path maximum digest mode (s : cust) :
  sound s ->
  wp (read path maximum digest mode)
    (fun raw s' => live s /\ goes_on s s' /\ pinned path maximum digest mode raw s')
    (fun _ s' => stops s s' /\ closed s' = true) s.
Proof.
  intros Hs. unfold read. apply wp_on_exception.
  assert (forall s', stops s s' -> wp close (fun _ s2 => stops s s2 /\ closed s2 = true) (fun _ s2 => stops s s2 /\ closed s2 = true) s') as Hend.
  { intros s' [Hs' G]. eapply wp_mono; [by apply close_wp | intros [] s2 (? & Hc & _) | intros e s2 (? & Hc)];
      (split; [split; [done | by left] | done]). }
  apply wp_bind. eapply wp_mono; [apply check_all_open | intros [] s1 [X1 Hc] | intros e s1 X1].
  2: { apply Hend. destruct (extends_evolves _ _ (untouched_extends _ _ X1) Hs). by split. }
  assert (live s) as Hl by done. pose proof (extends_goes_on _ _ Hl (untouched_extends _ _ X1)) as H1.
  assert (forall s', goes_on s s' -> wp close (fun _ s2 => stops s s2 /\ closed s2 = true) (fun _ s2 => stops s s2 /\ closed s2 = true) s') as Hstop
    by (intros; by apply Hend, goes_on_stops).
  apply wp_bind, wp_lift; [intros parts _ | by intros; apply Hstop].
  apply wp_bind, wp_check; [intros [Hm1%Z.ltb_lt Hm2%Z.leb_le]%andb_true_iff | by intros; apply Hstop].
  apply wp_bind, wp_reads; [intros known [= <-] | done]. apply wp_bind.
  assert (wp (if dhas path (files s1) then mret tt else read_first path maximum) (fun _ s' => goes_on s s') (fun _ s' => goes_on s s') s1) as H2.
  { destruct (dhas path (files s1)) eqn:E; [by apply wp_ret |].
    eapply wp_mono; [apply read_first_wp; [apply H1 | done] | |]; intros; by eapply goes_on_trans. }
  eapply wp_mono; [exact H2 | intros [] s2 H | intros e s2 H; by apply Hstop]. clear H2.
  apply wp_bind, wp_reads; (destruct (dget path (files s2)) as [raw|] eqn:Eraw; [|done || (intros; by apply Hstop)]);
    [intros raw' [= <-] | done].
  apply wp_bind, wp_check; [intros Hz%Z.leb_le | by intros; apply Hstop]. apply wp_bind.
  assert (wp (match mode with
      | None => mret tt
      | Some m => row ← handle_at path; id ← known_identity row; check (S_IMODE (mode_of id) =? m) "CUSTODY_MODE_INVALID"
      end) (fun _ s' => s' = s2 /\ forall m, mode = Some m -> exists row id, dget path (handles s2) = Some row /\
        identity row = Some id /\ S_IMODE (mode_of id) = m) (fun _ s' => s' = s2) s2) as H3.
  { destruct mode as [m|]; [|by apply wp_ret]. apply wp_bind, wp_reads; (destruct (dget path (handles s2)) as [row|] eqn:Er; [|done]);
      [intros row' [= <-] | done].
    apply wp_bind, wp_lift; (destruct (identity row) as [id|] eqn:Eid; [|done]); [intros id' [= <-] | done].
    apply wp_check; [intros Hm%Z.eqb_eq | done]. split; [done |]. intros m' [= <-]. eauto. }
  eapply wp_mono; [exact H3 | intros [] s3 [-> Hmode] | intros e s3 ->; by apply Hstop].
  apply wp_bind, wp_check; [intros Hd | by intros; apply Hstop]. apply wp_ret. split; [done |]. split; [done |].
  split; [done |]. split; [lia |]. split; [done |]. split; [|done]. intros d ->. by apply str_eqb_eq in Hd.
Qed.

(** ** The kit *)

(** A file of the walk: its place, mode and octets; and what the walk keeps of the files. *)
Definition kit_item : Type := str * (Z * bytes).
Definition item_row (e : kit_item) : str * value := (e.1, file_entry e.1 e.2.1 e.2.2).
Definition item_sources (es : list kit_item) : list (str * bytes) := fold_left (fun d e => dset e.1 e.2.2 d) es [].

Definition walked (es : list kit_item) (k : kit_walk) : Prop :=
  kit_rows k = map item_row es /\ sources k = item_sources es /\ size k = foldr (fun e n => zlen e.2.2 + n) 0 es.

(** Every file of the walk is a file of the custody below the root. *)
Definition stored (root : str) (s : cust) (es : list kit_item) : Prop :=
  Forall (fun e => dget (root ++ u "/" ++ e.1) (files s) = Some e.2.2) es.

Lemma stored_grows root s s' es : live s' -> grows s s' -> stored root s es -> stored root s' es.
Proof.
  intros [_ Hc] [? | (_ & _ & _ & (f & Ef) & _)]; [congruence |]. intros H. eapply Forall_impl; [exact H |]. intros e He. cbn in *. by rewrite Ef, dget_app, He.
Qed.

Lemma walked_snoc es k relative mode raw n :
  walked es k -> walked (es ++ [(relative, (mode, raw))])
    {| entries := n; size := size k + zlen raw; kit_rows := kit_rows k ++ [(relative, file_entry relative mode raw)];
       sources := dset relative raw (sources k) |}.
Proof.
  intros (E1 & E2 & E3). split; [cbn; rewrite E1, map_app; done |]. split; [cbn [sources]; unfold item_sources; rewrite fold_left_app, E2; done |].
  cbn [size]. rewrite E3, foldr_app. cbn [foldr snd]. clear. induction es as [|e es IH]; cbn [foldr]; lia.
Qed.

Lemma wp_fold {V A S} (I : S -> V -> Prop) (body : S -> A -> io V S) (E : exn -> V -> Prop) l s w :
  I s w -> (forall s x w, In x l -> I s w -> wp (body s x) (fun s' w' => I s' w') E w) -> wp (io_fold body s l) (fun s' w' => I s' w') E w.
Proof.
  revert s w. induction l as [|x l IH]; intros s w Hs Hb; cbn [io_fold]; [by apply wp_ret |].
  apply wp_bind. eapply wp_mono; [apply Hb; [by left | done] | | done]. intros s' w' H. apply IH; [done |].
  intros s2 y w2 Hy. apply Hb. by right.
Qed.

Section walk.
Context (root : str).

(** The walk so far, from the state [s0]: its files are [es]. *)
Definition progress (s0 : cust) (es : list kit_item) (k : kit_walk) (s : cust) : Prop :=
  goes_on s0 s /\ walked es k /\ stored root s es.

Lemma kit_file_wp s0 es k (s : cust) relative info :
  progress s0 es k s ->
  wp (kit_file (root ++ u "/" ++ relative) relative info k)
    (fun k' s' => exists es', progress s0 (es ++ es') k' s') (fun _ s' => stops s0 s') s.
Proof.
  intros (H & Hw & Hst). unfold kit_file. apply wp_bind, wp_check; [intros _ | by intros; apply goes_on_stops].
  apply wp_bind, wp_check; [intros _ | by intros; apply goes_on_stops]. apply wp_bind.
  eapply wp_mono; [apply read_wp, H | intros raw s1 (_ & H1 & Hraw & _) | intros e s1 [H1 _]; by eapply goes_on_then_stops].
  assert (goes_on s0 s1) as H01 by (by eapply goes_on_trans).
  apply wp_bind, wp_reads; [intros row _ | by intros; apply goes_on_stops].
  apply wp_bind, wp_check; [intros _ | by intros; apply goes_on_stops]. apply wp_ret.
  exists [(relative, (S_IMODE (st_mode info), raw))]. split; [done |]. split; [by apply walked_snoc |].
  apply Forall_app. split; [by eapply stored_grows; [apply H1 | apply H1 |] |]. constructor; [done | constructor].
Qed.

Lemma kit_directory_wp fuel device path prefix s0 es k (s : cust) :
  path ++ u "/" = root ++ u "/" ++ prefix -> progress s0 es k s ->
  wp (kit_directory fuel device path prefix k)
    (fun k' s' => exists es', progress s0 (es ++ es') k' s') (fun _ s' => stops s0 s') s.
Proof.
  revert path prefix es k s. induction fuel as [|fuel IH]; intros path prefix es k s Hpath Hp; cbn [kit_directory].
  { apply wp_throw, goes_on_stops, Hp. }
  assert (forall s', goes_on s0 s' -> stops s0 s') as Hstop by (intros; by apply goes_on_stops).
  assert (forall s1, goes_on s s1 -> progress s0 es k s1) as Hgo.
  { intros s1 H1. destruct Hp as (H & Hw & Hst). split; [by eapply goes_on_trans |]. split; [done |].
    by eapply stored_grows; [apply H1 | apply H1 |]. }
  apply wp_bind, (wp_extends _ _ _ _ (proj1 (proj1 Hp))); [auto with custody | intros f s1 _ H1%Hgo | intros e s1 H1; by apply Hstop, Hgo].
  apply wp_bind, wp_reads; [intros row _ | intros; by apply Hstop, H1].
  apply wp_bind, wp_lift; [intros id _ | intros; by apply Hstop, H1].
  apply wp_bind, wp_check; [intros _ | intros; by apply Hstop, H1].
  clear Hgo. assert (forall s2 n, goes_on s1 s2 -> progress s0 es {| entries := n; size := size k; kit_rows := kit_rows k; sources := sources k |} s2) as Hgo.
  { intros s2 n H2. destruct H1 as (H & Hw & Hst). split; [by eapply goes_on_trans |]. split; [done |].
    by eapply stored_grows; [apply H2 | apply H2 |]. }
  apply wp_bind, (wp_extends _ _ _ _ (proj1 (proj1 H1)));
    [apply extends_untouched, unseen_untouched | intros listed s2 _ H2 | intros e s2 H2; apply Hstop; by eapply goes_on_trans; [apply H1 |]].
  apply wp_bind, wp_lift; [intros names _ | intros; apply Hstop; by eapply goes_on_trans; [apply H1 |]].
  apply wp_bind, (wp_extends _ _ _ _ (proj1 H2));
    [auto with custody | intros [] s3 _ H3 | intros e s3 H3; apply Hstop; eapply goes_on_trans; [apply H1 | by eapply goes_on_trans]].
  assert (goes_on s1 s3) as H13 by (by eapply goes_on_trans). specialize (Hgo s3 (entries k + zlen names) H13). clear H2 H3 H13.
  apply wp_bind, wp_check; [intros _ | intros; apply Hstop, Hgo]. cbv zeta. apply wp_bind, wp_check; [intros _ | intros; apply Hstop, Hgo].
  apply wp_bind. eapply wp_mono.
  - apply (wp_fold (fun k' s' => exists es', progress s0 (es ++ es') k' s') _ (fun _ => stops s0)).
    { exists []. by rewrite app_nil_r. }
    intros k1 nm s4 _ (es1 & H4). apply wp_bind, wp_check; [intros _ | intros; apply Hstop, H4].
    assert (forall s5, goes_on s4 s5 -> progress s0 (es ++ es1) k1 s5) as Hgo4.
    { intros s5 H5. destruct H4 as (H & Hw & Hst). split; [by eapply goes_on_trans |]. split; [done |].
      by eapply stored_grows; [apply H5 | apply H5 |]. }
    apply wp_bind, (wp_extends _ _ _ _ (proj1 (proj1 H4)));
      [apply extends_untouched, unseen_untouched | intros info s5 _ H5%Hgo4 | intros e s5 H5; by apply Hstop, Hgo4].
    apply wp_bind, wp_check; [intros _ | intros; apply Hstop, H5].
    assert (path ++ u "/" ++ nm = root ++ u "/" ++ prefix ++ nm) as Hchild.
    { rewrite !app_assoc. rewrite Hpath. by rewrite <- !app_assoc. }
    destruct (S_ISDIR (st_mode info)).
    + eapply wp_mono; [apply (IH (path ++ u "/" ++ nm) ((prefix ++ nm) ++ u "/")); [| exact H5] | | done].
      * rewrite <- !app_assoc. rewrite !(app_assoc path). rewrite Hpath. by rewrite <- !app_assoc.
      * intros k2 s6 (es2 & H6). exists (es1 ++ es2). by rewrite app_assoc.
    + rewrite Hchild. eapply wp_mono; [by apply kit_file_wp | | done].
      intros k2 s6 (es2 & H6). exists (es1 ++ es2). by rewrite app_assoc.
  - intros k' s4 (es' & H4). apply wp_bind, (wp_extends _ _ _ _ (proj1 (proj1 H4)));
      [auto with custody | intros [] s5 _ H5 | intros e s5 H5; apply Hstop; by eapply goes_on_trans; [apply H4 |]].
    apply wp_ret. exists es'. destruct H4 as (H & Hw & Hst). split; [by eapply goes_on_trans |]. split; [done |].
    by eapply stored_grows; [apply H5 | apply H5 |].
  - done.
Qed.
End walk.

(** What a successful walk has established. *)
Definition kit_pinned (root digest : str) (srcs : list (str * bytes)) (s' : cust) : Prop :=
  kit_root s' = Some root /\ kit_digest s' = Some digest /\ kit_sources s' = srcs /\
  exists es sorted, srcs = item_sources es /\ stored root s' es /\ sort_utf8 (map item_row es) = Ok sorted /\
    canonical_digest (VList (map snd sorted)) (Some TREE_DOMAIN) = Ok digest.

Lemma with_kit_goes_on root digest srcs (s : cust) : live s -> goes_on s (with_kit root digest srcs s).
Proof.
  intros [(S1 & S2 & S3 & S4 & S5 & S6) Hc]. rewrite Hc in S6. split; [split; [|done] |].
  - unfold sound, with_kit, log_of. cbn [handles files total closed kit_sources registered outside]. by rewrite Hc.
  - right. cbn. repeat (split; [done |]). split; [exists []; by rewrite app_nil_r |]. split; [exists []; by rewrite app_nil_r |]. split; [done | by left].
Qed.

Lemma read_kit_wp root digest (s : cust) :
  sound s ->
  wp (read_kit root digest)
    (fun srcs s' => live s /\ goes_on s s' /\ kit_root s = None /\ kit_pinned root digest srcs s')
    (fun _ s' => stops s s' /\ closed s' = true) s.
Proof.
  intros Hs. unfold read_kit. apply wp_on_exception.
  assert (forall s', stops s s' -> wp close (fun _ s2 => stops s s2 /\ closed s2 = true) (fun _ s2 => stops s s2 /\ closed s2 = true) s') as Hend.
  { intros s' [Hs' G]. eapply wp_mono; [by apply close_wp | intros [] s2 (? & Hc & _) | intros e s2 (? & Hc)];
      (split; [split; [done | by left] | done]). }
  apply wp_bind. eapply wp_mono; [apply check_all_open | intros [] s1 [X1 Hc] | intros e s1 X1].
  2: { apply Hend. destruct (extends_evolves _ _ (untouched_extends _ _ X1) Hs). by split. }
  assert (live s) as Hl by done. pose proof (extends_goes_on _ _ Hl (untouched_extends _ _ X1)) as H1.
  assert (forall s', goes_on s s' -> wp close (fun _ s2 => stops s s2 /\ closed s2 = true) (fun _ s2 => stops s s2 /\ closed s2 = true) s') as Hstop
    by (intros; by apply Hend, goes_on_stops).
  apply wp_bind, wp_reads; [intros new [= <-] | done]. apply wp_bind, wp_check; [intros Hnew | by intros; apply Hstop].
  apply andb_true_iff in Hnew as [_ Hnew]. assert (kit_root s = None) as Hnone.
  { destruct X1 as (_ & _ & _ & _ & E & _). rewrite <- E. by destruct (kit_root s1). }
  apply wp_bind, (wp_extends _ _ _ _ (proj1 H1)); [auto with custody | intros f s2 _ H2 | intros e s2 H2; apply Hstop; by eapply goes_on_trans].
  assert (goes_on s s2) as H02 by (by eapply goes_on_trans). clear H1 H2 X1.
  apply wp_bind, wp_reads; [intros row _ | by intros; apply Hstop].
  apply wp_bind, wp_lift; [intros id _ | by intros; apply Hstop]. apply wp_bind.
  eapply wp_mono; [apply (kit_directory_wp root 33 (device_of id) root [] s [] no_kit s2) | intros k s3 (es & H3 & Hw & Hst) | intros e s3 H3; by apply Hend].
  { done. } { split; [done |]. split; [done | constructor]. }
  cbn [app] in Hw, Hst. apply wp_bind, wp_lift; [intros sorted Hsort | by intros; apply Hstop].
  apply wp_bind, wp_lift; [intros d Hd | by intros; apply Hstop].
  apply wp_bind, wp_check; [intros ->%str_eqb_eq | by intros; apply Hstop].
  apply wp_bind, wp_reads; [intros rootfs _ | by intros; apply Hstop].
  apply wp_bind, wp_check; [intros _ | by intros; apply Hstop]. apply wp_bind, wp_update, wp_ret.
  split; [done |]. split; [eapply goes_on_trans; [exact H3 | apply with_kit_goes_on, H3] |]. split; [done |].
  repeat (split; [done |]). destruct Hw as (Hr & Hsrc & _). rewrite Hr in Hsort. by exists es, sorted.
Qed.

(** ** Every operation *)

Lemma with_seal_goes_on (s : cust) : live s -> sealed s = false -> goes_on s (with_seal s).
Proof.
  intros [(S1 & S2 & S3 & S4 & S5 & S6) Hc] Hs. rewrite Hc in S6. split; [split; [|done] |].
  - unfold sound, with_seal, log_of. cbn [handles files total closed kit_sources registered outside]. by rewrite Hc.
  - right. cbn. repeat (split; [done |]). split; [exists []; by rewrite app_nil_r |].
    split; [exists []; by rewrite app_nil_r |]. split; [by rewrite Hs | by left].
Qed.

Lemma require_bytes_untouched expected : keeps untouched (require_bytes (W := W * list descriptor_event) expected).
Proof. unfold require_bytes. quiet. apply check_all_untouched. Qed.

Lemma require_bytes_open expected s :
  wp (require_bytes expected) (fun _ s' => untouched s s' /\ closed s = false) (fun _ s' => untouched s s') s.
Proof.
  unfold require_bytes. apply wp_bind. eapply wp_mono; [apply check_all_open | intros [] s1 [H1 Hc] | done].
  apply wp_bind, wp_reads; [intros ok _ | done]. by apply wp_check.
Qed.

Lemma seal_wp expected root digest srcs (s : cust) :
  sound s ->
  wp (seal expected root digest srcs) (fun _ s' => stops s s') (fun _ s' => stops s s') s.
Proof.
  intros Hs. unfold seal. apply wp_bind.
  eapply wp_mono; [apply require_bytes_open | intros [] s1 [X1 Hc] | intros e s1 X1].
  2: { destruct (extends_evolves _ _ (untouched_extends _ _ X1) Hs). by split. }
  assert (live s) as Hl by done. pose proof (extends_goes_on _ _ Hl (untouched_extends _ _ X1)) as H1.
  apply wp_bind, wp_reads; [intros ok [= <-] | done].
  apply wp_bind, wp_check; [intros Hok | intros _; by apply goes_on_stops]. apply wp_bind, wp_update.
  assert (sealed s1 = false) as Hs1 by (destruct (sealed s1); [|done]; rewrite andb_false_r in Hok; done).
  assert (goes_on s (with_seal s1)) as H2 by (eapply goes_on_trans; [exact H1 | by apply with_seal_goes_on; [apply H1 |]]).
  apply wp_bind, wp_reads; [intros row _; apply wp_ret | intros]; by apply goes_on_stops.
Qed.

(** An assignment of a field the invariant does not read. *)
Lemma assigned_stops (s s' : cust) :
  handles s' = handles s -> files s' = files s -> total s' = total s -> kit_sources s' = kit_sources s -> closed s' = closed s ->
  sealed s' = sealed s -> registered s' = registered s -> log_of s' = log_of s ->
  (forall d, manifest_digest s' = Some d -> manifest_digest s = Some d \/ rooted d (files s)) -> sound s -> stops s s'.
Proof.
  intros E1 E2 E3 E4 E5 E6 E7 E8 Hm H. unfold stops, sound, grows. rewrite E1, E2, E3, E4, E5, E6, E7, E8. split; [exact H |].
  destruct (closed s); [by left | right]. repeat split; try done; exists []; by rewrite app_nil_r.
Qed.

Lemma wp_untouched_goes_on {A} (m : run (W := W * list descriptor_event) A) (Q : A -> cust -> Prop) E s0 s :
  goes_on s0 s -> keeps untouched m -> (forall a s', goes_on s0 s' -> files s' = files s -> Q a s') ->
  (forall e s', goes_on s0 s' -> E e s') -> wp m Q E s.
Proof.
  intros H Hm HQ HE.
  assert (forall s', untouched s s' -> goes_on s0 s') as Hgo.
  { intros s' X. eapply goes_on_trans; [exact H | apply extends_goes_on; [apply H | by apply untouched_extends]]. }
  apply wp_untouched; [done | intros a s' X; apply HQ; [by apply Hgo | apply X] | intros e s' X; by apply HE, Hgo].
Qed.

Lemma read_owned_wp path digest mode s0 (s : cust) :
  goes_on s0 s ->
  wp (read_owned path digest mode) (fun raw s' => goes_on s0 s' /\ grows s s' /\ pinned (u path) 4194304 digest mode raw s')
    (fun _ s' => stops s0 s') s.
Proof.
  intros H. unfold read_owned. apply wp_bind.
  apply (wp_untouched_goes_on _ _ _ s); [split; [apply H | apply grows_refl] | apply owner_check_untouched | |].
  2: { intros e s1 H1. by eapply goes_on_stops, goes_on_trans. }
  intros [] s1 H1 _. eapply wp_mono; [apply read_wp, H1 | |].
  - intros raw s' (_ & H2 & Hp). split; [eapply goes_on_trans; [exact H | by eapply goes_on_trans] |].
    split; [eapply grows_trans; [apply H1 | apply H2] | done].
  - intros e s' [H2 _]. eapply goes_on_then_stops; [exact H | by eapply goes_on_then_stops].
Qed.

Lemma pinned_files path raw (s s' : cust) :
  live s' -> grows s s' -> dget path (files s) = Some raw -> dget path (files s') = Some raw.
Proof.
  intros [_ Hc] [? | (_ & _ & _ & (f & Ef) & _)]; [congruence |]. intros H. by rewrite Ef, dget_app, H.
Qed.

Lemma installed_wp (s : cust) :
  sound s ->
  wp _installed_manifest_digest
    (fun digest s' => goes_on s s' /\ manifest_digest s' = Some digest /\ (manifest_digest s = Some digest \/ rooted digest (files s')))
    (fun _ s' => stops s s') s.
Proof.
  intros Hs. unfold _installed_manifest_digest. apply wp_bind. unfold owner_check at 1. apply wp_bind, wp_reads; [intros ok [= <-] | done].
  assert (stops s s) as Hrefl by (split; [done | apply grows_refl]).
  apply wp_check; [intros [[Hc _]%andb_true_iff _]%andb_true_iff | done]. apply negb_true_iff in Hc.
  assert (goes_on s s) as Hg by (split; [done | apply grows_refl]).
  apply wp_bind, wp_reads; [intros known [= <-] | done]. destruct (manifest_digest s) as [digest|] eqn:Em.
  { apply wp_bind, wp_untouched; [apply check_all_untouched | intros [] s1 X | intros e s1 X].
    - apply wp_ret. split; [by apply extends_goes_on, untouched_extends |]. destruct X as (_ & _ & _ & E & _). split; [by rewrite E | by left].
    - by apply goes_on_stops, extends_goes_on, untouched_extends. }
  apply wp_bind. eapply wp_mono; [by apply read_owned_wp | intros public_raw s1 (H1 & _ & Hf1 & _ & _ & Hd1 & _) | done].
  apply wp_bind, wp_lift; [intros public_record Hk | intros; by apply goes_on_stops].
  apply wp_bind. eapply wp_mono; [by apply read_owned_wp | intros raw s2 (H2 & G2 & Hf2 & _) | done].
  apply wp_bind. eapply wp_mono; [by apply read_owned_wp | intros signature_raw s3 (H3 & G3 & Hf3 & _) | done].
  apply wp_bind, wp_lift; [intros manifest Hm | intros; by apply goes_on_stops].
  apply wp_bind. eapply wp_mono; [by apply read_owned_wp | intros launcher_raw s4 (H4 & G4 & Hf4 & _) | done].
  apply wp_bind, wp_lift; [intros [] Hmatch | intros; by apply goes_on_stops].
  apply wp_bind, (wp_untouched_goes_on _ _ _ s); [done | apply require_bytes_untouched | intros [] s5 H5 Ef5 | intros; by apply goes_on_stops].
  apply wp_bind, wp_reads; [intros kept _ | intros; by apply goes_on_stops].
  apply wp_bind, wp_check; [intros _ | intros _; by apply goes_on_stops]. apply wp_bind, wp_update, wp_ret.
  assert (rooted (byte_digest launcher_raw) (files s5)) as Hroot.
  { rewrite Ef5. pose proof (proj1 H4) as L4.
    pose proof (pinned_files _ _ _ _ (proj1 H2) G2 Hf1) as A1. pose proof (pinned_files _ _ _ _ (proj1 H3) G3 A1) as A2.
    pose proof (pinned_files _ _ _ _ L4 G4 A2) as A3. pose proof (pinned_files _ _ _ _ (proj1 H3) G3 Hf2) as B2.
    pose proof (pinned_files _ _ _ _ L4 G4 B2) as B3. pose proof (pinned_files _ _ _ _ L4 G4 Hf3) as C3.
    eapply checked_rooted; try done. by apply Hd1. }
  destruct (assigned_stops s5 (with_manifest (byte_digest launcher_raw) s5) eq_refl eq_refl eq_refl eq_refl eq_refl eq_refl
    eq_refl eq_refl) as [Hs6 G6]; [intros d [= <-]; by right | apply H5 |].
  split; [split; [split; [done | apply H5] | eapply grows_trans; [apply H5 | exact G6]] |]. split; [done | by right].
Qed.

(** A call of an operation. *)
Inductive command :=
| Directory (path : str) (strict : bool)
| Read (path : str) (maximum : Z) (digest : option str) (mode : option Z)
| Read_kit (root digest : str)
| Require_bytes (expected : list (str * bytes))
| Seal (expected : list (str * bytes)) (root digest : str) (sources : list (str * bytes))
| Installed
| Late
| Close.

Definition perform (c : command) (s : cust) : cust :=
  match c with
  | Directory path strict => (directory path strict s).2
  | Read path maximum digest mode => (read path maximum digest mode s).2
  | Read_kit root digest => (read_kit root digest s).2
  | Require_bytes expected => (require_bytes expected s).2
  | Seal expected root digest srcs => (seal expected root digest srcs s).2
  | Installed => (_installed_manifest_digest s).2
  | Late => with_late s
  | Close => (close s).2
  end.

Definition perform_all (cs : list command) (s : cust) : cust := fold_left (fun s c => perform c s) cs s.

Lemma perform_stops c s : sound s -> stops s (perform c s).
Proof.
  intros H. destruct c; cbn [perform]; [apply wp_final .. | apply assigned_stops; by try left | apply wp_final].
  - eapply wp_mono; [apply (wp_keeps evolves); auto with custody | |]; intros ? s' Hs; by apply Hs.
  - eapply wp_mono; [by apply read_wp | intros ? s' (_ & Hs & _); by apply goes_on_stops | by intros ? s' [Hs _]].
  - eapply wp_mono; [by apply read_kit_wp | intros ? s' (_ & Hs & _); by apply goes_on_stops | by intros ? s' [Hs _]].
  - eapply wp_mono; [apply (wp_keeps untouched), require_bytes_untouched | |]; intros ? s' Hs;
      by apply (extends_evolves _ _ (untouched_extends _ _ Hs)).
  - by apply seal_wp.
  - eapply wp_mono; [by apply installed_wp | intros ? s' (Hg & _); by apply goes_on_stops | done].
  - eapply wp_mono; [by apply close_wp | |]; [intros ? s' (? & ? & _) | intros ? s' (? & ?)]; (split; [done | by left]).
Qed.

Lemma perform_all_stops cs s : sound s -> stops s (perform_all cs s).
Proof.
  unfold perform_all. revert s. induction cs as [|c cs IH]; intros s H; cbn [fold_left]; [split; [done | apply grows_refl] |].
  destruct (perform_stops c s H) as [H1 G1]. destruct (IH _ H1) as [H2 G2]. split; [done | by eapply grows_trans].
Qed.

Definition starting (w : W) : cust := begun (w, []).

Lemma starting_sound w : sound (starting w).
Proof. unfold sound, starting, begun, log_of. cbn. repeat split; try done; try constructor. Qed.
End runs.

(** ** Properties *)

Section properties.
Context {U : Unicode} {Sg : SigScheme} {W : Type} {K : Custodian W}.

(** C23: Every descriptor is accounted for.  After any calls, however the kernel answers: while the
    custody is open nothing it opened was closed, and what it holds is exactly what it opened;
    once it is closed it holds no descriptor and no octets, and what was closed is a part of what
    was opened, in reverse order, each at most once.  A closing that returns has closed all of
    them.  At most 8448 descriptors and 4112 files of 100663296 octets together are ever held. *)
Theorem descriptors_released cs (w : W) : let s := perform_all cs (starting w) in
  zlen (handles s) <= 8448 /\ zlen (files s) <= 4112 /\ octets (files s) <= 100663296 /\
  (closed s = false -> closes (log_of s) = [] /\ opens (log_of s) = fds (handles s)) /\
  (closed s = true -> handles s = [] /\ files s = [] /\ kit_sources s = [] /\
     sublist (closes (log_of s)) (rev (opens (log_of s)))) /\
  wp close (fun _ s' => closed s' = true /\ (closed s = false -> closes (log_of s') = rev (opens (log_of s'))))
    (fun _ s' => closed s' = true) s.
Proof.
  intros s. destruct (perform_all_stops cs (starting w) (starting_sound w)) as [Hs _]. fold s in Hs.
  pose proof (close_wp s Hs) as Hclose. destruct Hs as (_ & H2 & _ & H4 & H5 & H6). do 2 (split; [done |]). split.
  { destruct (closed s); [destruct H6 as (_ & -> & _); cbn; lia | destruct H6 as (_ & _ & <- & _); done]. }
  split; [intros E; rewrite E in H6; tauto |]. split; [intros E; rewrite E in H6; tauto |].
  eapply wp_mono; [exact Hclose | intros [] s' (_ & Hc & Hr); split; [done | exact Hr] | by intros e s' [_ Hc]].
Qed.

(** A file is read once.  Whatever was called before, a read that returns gives octets of the
    expected digest, mode and size, whose file is held open at the size it was read with; a read
    that raises leaves the custody closed.  Every later read of the same path that returns gives
    the same octets, whatever is called in between and whatever the disk holds by then. *)
Theorem read_is_pinned cs (w : W) path maximum digest mode :
  wp (read path maximum digest mode)
    (fun raw s' => 0 < maximum <= 4194304 /\ zlen raw <= maximum /\
       (forall d, digest = Some d -> byte_digest raw = d) /\
       (exists row id, dget path (handles s') = Some row /\ identity row = Some id /\ size_of id = zlen raw /\
          forall m, mode = Some m -> S_IMODE (mode_of id) = m) /\
       forall cs' maximum' digest' mode',
         wp (read path maximum' digest' mode') (fun raw' _ => raw' = raw) (fun _ s2 => closed s2 = true) (perform_all cs' s'))
    (fun _ s' => closed s' = true) (perform_all cs (starting w)).
Proof.
  destruct (perform_all_stops cs (starting w) (starting_sound w)) as [Hs _].
  eapply wp_mono; [by apply read_wp | intros raw s' (_ & [[Hs' Hc'] _] & Hf & Hm & Hz & Hd & Hmode) | by intros e s' [_ H]].
  split; [done |]. split; [done |]. split; [done |]. split.
  - pose proof Hs' as (_ & _ & _ & _ & _ & H6). rewrite Hc' in H6. destruct H6 as (_ & _ & _ & H6).
    rewrite List.Forall_forall in H6. destruct (H6 (path, raw)) as (row & id & Hr & Hid & Hsz); [by apply dget_In |].
    exists row, id. repeat (split; [done |]). intros m E. destruct (Hmode m E) as (row' & id' & Hr' & Hid' & Hm'). cbn in Hr. congruence.
  - intros cs' maximum' digest' mode'. destruct (perform_all_stops cs' s' Hs') as [Hs2 G2].
    eapply wp_mono; [by apply read_wp | intros raw' s2 (_ & [[_ Hc2] G3] & Hf2 & _) | by intros e s2 [_ H]].
    destruct (grows_trans _ _ _ G2 G3) as [? | (_ & _ & _ & (f & Ef) & _ & _)]; [congruence |].
    rewrite Ef, dget_app, Hf in Hf2. by injection Hf2.
Qed.

(** The kit is the enrolled tree.  A walk that returns has read every file of the kit as a file
    of the custody below the root, its rows of mode, place, digest and size, sorted by place,
    have the enrolled digest, and what is kept as the kit are these octets; it succeeds once. *)
Theorem kit_is_enrolled cs (w : W) root digest :
  let s := perform_all cs (starting w) in
  wp (read_kit root digest)
    (fun srcs s' => kit_root s = None /\ kit_root s' = Some root /\ kit_digest s' = Some digest /\ kit_sources s' = srcs /\
       exists es sorted,
         srcs = fold_left (fun d (e : str * (Z * bytes)) => dset e.1 e.2.2 d) es [] /\
         Forall (fun e => dget (root ++ u "/" ++ e.1) (files s') = Some e.2.2) es /\
         sort_utf8 (map (fun e => (e.1, file_entry e.1 e.2.1 e.2.2)) es) = Ok sorted /\
         canonical_digest (VList (map snd sorted)) (Some TREE_DOMAIN) = Ok digest)
    (fun _ s' => closed s' = true) s.
Proof.
  intros s. destruct (perform_all_stops cs (starting w) (starting_sound w)) as [Hs _]. fold s in Hs.
  eapply wp_mono; [by apply read_kit_wp | intros srcs s' (_ & _ & Hn & H1 & H2 & H3 & es & sorted & H) | by intros e s' [_ H]].
  repeat (split; [done |]). by exists es, sorted.
Qed.

(** C22: A launcher is verified from the pinned root.  Whenever, after any calls, the digest of the
    installed launcher is asked for and returned, the custody holds the octets it was verified
    with: a root key of the pinned digest, a manifest that this key signed and whose schema,
    launcher, mounts and isolation are the expected ones, and a launcher of that digest. *)
Theorem launcher_is_rooted cs (w : W) :
  wp _installed_manifest_digest (fun digest s' => manifest_digest s' = Some digest /\ rooted digest (files s')) (fun _ _ => True)
    (perform_all cs (starting w)).
Proof.
  destruct (perform_all_stops cs (starting w) (starting_sound w)) as [Hs G].
  eapply wp_mono; [by apply installed_wp | intros digest s' ([[_ Hc] G'] & Hm & _) | done]. split; [done |].
  destruct (grows_trans _ _ _ G G') as [? | (_ & _ & _ & _ & _ & M)]; [congruence |]. by destruct (M digest Hm).
Qed.
End properties.
