(* ===== verification/Late.v ===== *)
(** live_linux_boundary.py: the late resources of a native session, [_LateResources].  The client
    credential is read once, inside an operation of the session, below directories that are held;
    a socket and a sealed memory file are lent to the fixed proxy; everything is given up when
    anything fails. *)

From S2P Require Import Prelude Effects PyVal Utf8 Json Sha2 Canonical IsoTime Regex Text.
From S2P Require Import SchemaBase Lifecycle LinuxShape Ipaddr Live LinuxVerify Posix Boundary Custody.

#[local] Open Scope string_scope.
#[local] Open Scope list_scope.
#[local] Open Scope Z_scope.

(** ** What it works with *)

(** What is seen of the session that owns the resources: whether the objects, the process and the
    thread are still those of the construction; whether its boundary is the native channel; the
    active session; and the deadline of the context. *)
Record active_view (M : Type) := { nonce_reserved : bool; session_state : value; active_deadline : M; done : list str }.
Record owner_view (M : Type) := {
  intact : bool; native_boundary : bool; active_session : option (active_view M); context_deadline : option M
}.
Arguments nonce_reserved {M}. Arguments session_state {M}. Arguments active_deadline {M}. Arguments done {M}.
Arguments intact {M}. Arguments native_boundary {M}. Arguments active_session {M}. Arguments context_deadline {M}.

(** A socket object, and the descriptor it was made with. *)
Record socket := { object : Z; number : Z }.

(** The owner, the wall clock, the check of the peer and the one of the proxy's call stack and
    policy; what the custody holds; the descriptor flags, sockets, memory files and seals.
    [memfd_create] is [None] when the kernel knows no such flags. *)
Class Native (W M : Type) := {
  owner : W -> owner_view M;
  custody_handles : W -> list (str * handle_row);
  wall_clock : io W value;
  check_peer : io W unit;
  proxy_access : io W unit;
  get_inheritable : Z -> io W bool;
  new_socket : bool -> io W socket;
  not_inheritable : socket -> io W unit;
  fileno : socket -> io W Z;
  socket_close : socket -> io W unit;
  detach : socket -> io W unit;
  memfd_create : io W (option Z);
  get_seals : Z -> io W Z;
  add_seals : Z -> Z -> io W unit;
  os_write : Z -> bytes -> io W Z
}.

(** [stat.S_ISSOCK]. *)
Definition S_ISSOCK (mode : Z) : bool := Z.land mode 61440 =? 49152.

(** [F_SEAL_SEAL | F_SEAL_SHRINK | F_SEAL_GROW | F_SEAL_WRITE] and [F_SEAL_EXEC]. *)
Definition SEALS : Z := 15.
Definition F_SEAL_EXEC : Z := 32.

Inductive late_state := ABSENT | ACQUIRING | IO_ACTIVE | RETAINED | CLOSED | FAILED.
Inductive io_kind := Transport | Memfd.
#[export] Instance late_state_eq_dec : EqDecision late_state.
Proof. solve_decision. Defined.
#[export] Instance io_kind_eq_dec : EqDecision io_kind.
Proof. solve_decision. Defined.

(** A lent descriptor; the socket of a transport; the seals a memory file has once it is ready. *)
Record io_row := { io_fd : Z; io_identity : option (list Z); io_socket : option socket; seals : Z; ready : bool }.

(* @src src/src/harness_conformance/live_supervisor.py:644-651 _new_late_resources *)
Record late (W M : Type) := {
  state : late_state;
  operation : option str;
  deadline : option M;
  handles : list handle_row;
  lent : list (io_kind * io_row);
  raw : option bytes;
  endpoint : option value;
  credential_path : option value;
  cleanup_failure : option exn;
  outside : W
}.
Arguments state {W M}. Arguments operation {W M}. Arguments deadline {W M}. Arguments handles {W M}. Arguments lent {W M}.
Arguments raw {W M}. Arguments endpoint {W M}. Arguments credential_path {W M}. Arguments cleanup_failure {W M}. Arguments outside {W M}.

Section late.
Context {U : Unicode} {W M : Type} {EqM : EqDecision M} {K : Custodian W} {N : Native W M}.

(** The context of the session: the files of the kit, the documents that were verified, and the
    root of the kit. *)
Context (kit : list (str * bytes)) (envelope capacity plan binding : value) (kit_root : str).
(** Whether the constants of the seals are known to the interpreter as the code expects them. *)
Context (known_seals : bool).

Definition run (A : Type) : Type := io (late W M) A.

Definition beyond {A} (m : io W A) : run A :=
  zoom outside (fun w s => {| state := state s; operation := operation s; deadline := deadline s; handles := handles s; lent := lent s;
    raw := raw s; endpoint := endpoint s; credential_path := credential_path s; cleanup_failure := cleanup_failure s; outside := w |}) m.

Definition with_state (x : late_state) (s : late W M) : late W M :=
  {| state := x; operation := operation s; deadline := deadline s; handles := handles s; lent := lent s; raw := raw s;
     endpoint := endpoint s; credential_path := credential_path s; cleanup_failure := cleanup_failure s; outside := outside s |}.
Definition with_operation (o : option str) (d : option M) (s : late W M) : late W M :=
  {| state := state s; operation := o; deadline := d; handles := handles s; lent := lent s; raw := raw s;
     endpoint := endpoint s; credential_path := credential_path s; cleanup_failure := cleanup_failure s; outside := outside s |}.
Definition with_handles (h : list handle_row) (s : late W M) : late W M :=
  {| state := state s; operation := operation s; deadline := deadline s; handles := h; lent := lent s; raw := raw s;
     endpoint := endpoint s; credential_path := credential_path s; cleanup_failure := cleanup_failure s; outside := outside s |}.
Definition with_lent (l : list (io_kind * io_row)) (s : late W M) : late W M :=
  {| state := state s; operation := operation s; deadline := deadline s; handles := handles s; lent := l; raw := raw s;
     endpoint := endpoint s; credential_path := credential_path s; cleanup_failure := cleanup_failure s; outside := outside s |}.
Definition with_raw (b : option bytes) (s : late W M) : late W M :=
  {| state := state s; operation := operation s; deadline := deadline s; handles := handles s; lent := lent s; raw := b;
     endpoint := endpoint s; credential_path := credential_path s; cleanup_failure := cleanup_failure s; outside := outside s |}.
Definition with_endpoint (path e : value) (s : late W M) : late W M :=
  {| state := state s; operation := operation s; deadline := deadline s; handles := handles s; lent := lent s; raw := raw s;
     endpoint := Some e; credential_path := Some path; cleanup_failure := cleanup_failure s; outside := outside s |}.
Definition with_failure (o : option exn) (s : late W M) : late W M :=
  {| state := state s; operation := operation s; deadline := deadline s; handles := handles s; lent := lent s; raw := raw s;
     endpoint := endpoint s; credential_path := credential_path s; cleanup_failure := o; outside := outside s |}.

(** ** Which credential *)

Definition PROFILE : string := "campaigns/platform/linux-baseline/proxy-profile.json".

(** [[e for e in rows if test(e)]]. *)
Definition select (test : value -> res bool) (rows : list value) : res (list value) :=
  flags ← map_m test rows; Ok (map fst (List.filter snd (combine rows flags))).

(** The retained profile is within the verified documents: the binding and the one endpoint. *)
(* @src src/src/harness_conformance/live_supervisor.py:739-763 _credential_spec *)
Definition profile_scope : res (value * value) :=
  document ← match dget (u PROFILE) kit with
             | Some b => require ((0 <? zlen b) && (zlen b <=? 262144)) "CREDENTIAL_PROFILE_UNAVAILABLE" ;; Ok b
             | None => conf "CREDENTIAL_PROFILE_UNAVAILABLE"
             end;
  profile ← require_canonical_document document;
  require_m (x ← py_get profile "profileId"; Ok (eq_lit (default VNone x) "CAMPAIGN_PROXY_MTLS_ZERO_COST_V1"))
    "CREDENTIAL_PROFILE_UNAVAILABLE" ;;
  bound ← fld profile "binding";
  tenant ← fld envelope "tenantId";
  environment ← fld envelope "environmentId";
  nonce ← fld envelope "nonce";
  capacity_nonce ← fld capacity "nonce";
  namespace ← fld plan "namespace";
  for_each (fun '(field, expected) => require_m (fld_eq bound field expected) "CREDENTIAL_PROFILE_SCOPE")
    [("tenantId", tenant); ("environmentId", environment); ("runNonce", nonce); ("capacityNonce", capacity_nonce);
     ("namespace", namespace)] ;;
  entries ← fld profile "capacityEntries";
  require_m (match entries with
             | VDict ((_ :: _) as d) => all_m (fun kv => c ← items capacity; Ok (py_eq (default VNone (dget kv.1 c)) kv.2)) d
             | _ => Ok false
             end) "CREDENTIAL_CAPACITY_CHANGED" ;;
  rows ← (x ← fld envelope "endpoints"; py_iter x);
  chosen ← select (fun e => fld_lit e "kind" "CAMPAIGN_PROXY" <&&> fld2_eq e "endpointId" bound "endpointId") rows;
  match chosen with
  | [e] =>
      require_m (fld2_eq binding "endpointId" e "endpointId" <&&> fld2_eq e "endpointId" plan "endpointId")
        "CREDENTIAL_ENDPOINT_CHANGED" ;;
      rows ← (x ← fld capacity "credentialIdentities"; py_iter x);
      identities ← select (fun i => fld2_eq i "endpointId" e "endpointId") rows;
      match identities with
      | [i] =>
          require_m (fld_lit i "purpose" "CAMPAIGN_PROXY_CLIENT_MTLS" <&&> fld2_eq i "subject" bound "serviceAccountSubject" <&&>
                     fld2_eq i "expiresAt" bound "expiresAt") "CREDENTIAL_IDENTITY_INVALID" ;;
          Ok (bound, e)
      | _ => conf "CREDENTIAL_IDENTITY_INVALID"
      end
  | _ => conf "CREDENTIAL_ENDPOINT_INVALID"
  end.

(** The binding is in force. *)
Definition in_force (bound now : value) : res unit :=
  instant ← LinuxShape.require_time now;
  require_m (from ← linux_time bound "validFrom"; time_leb from instant <&&> (to ← linux_time bound "expiresAt"; time_ltb instant to))
    "CREDENTIAL_EXPIRED".

(** [str(ipaddress.ip_address(v)) == v]; another value than a text is never its own text. *)
Definition is_address_text (v : value) : res bool :=
  match v with
  | VStr s => text ← canonical_address s; Ok (str_eqb text s)
  | _ => _ ← ip_address v; Ok false
  end.

(* @src src/src/harness_conformance/live_supervisor.py:728-770 _credential_spec *)
Definition _credential_spec : run (value * value) :=
  '(bound, e) ← lift profile_scope;
  now ← beyond wall_clock;
  lift (in_force bound now) ;;
  address ← lift (fld e "ipAddress");
  same ← lift (is_address_text address);
  check same "CREDENTIAL_ENDPOINT_INVALID" ;;
  port ← lift (fld e "port");
  check (match port with VInt p => (0 <? p) && (p <? 65536) | _ => false end) "CREDENTIAL_ENDPOINT_INVALID" ;;
  path ← lift (fld e "credentialFileReference");
  mret (path, e).

(** ** The checks *)

Definition the (f : late W M -> bool) : run bool := reads (fun s => Ok (f s)).

(** The session is the one the operation was begun in. *)
Definition operation_current (o : owner_view M) (d : option M) (op : str) : bool :=
  native_boundary o &&
  match active_session o with
  | Some a => nonce_reserved a && eq_lit (session_state a) "RUNNING" && bool_decide (Some (active_deadline a) = d) &&
              bool_decide (d = context_deadline o) && negb (str_in op (done a))
  | None => false
  end.

Definition check_handle (row : handle_row) : run unit :=
  match identity row with
  | None => throw (ConformanceError "CREDENTIAL_CUSTODY_CHANGED")
  | Some expected =>
      info ← beyond (os_fstat (fd row));
      check (ints_eqb (_custody_identity info) expected) "CREDENTIAL_CUSTODY_CHANGED" ;;
      info ← beyond (os_stat (parent row) (name row));
      check (ints_eqb (_custody_identity info) expected) "CREDENTIAL_CUSTODY_CHANGED" ;;
      inherited ← beyond (get_inheritable (fd row));
      check (negb inherited) "CREDENTIAL_CUSTODY_CHANGED"
  end.

(** The length of the credential. *)
Definition raw_length : run Z := reads (fun s => match raw s with Some b => Ok (zlen b) | None => Raise TypeError end).

Definition check_lent (entry : io_kind * io_row) : run unit :=
  let row := entry.2 in
  info ← beyond (os_fstat (io_fd row));
  expected ← lift (match io_identity row with Some id => Ok id | None => Raise TypeError end);
  check (ints_eqb (take 6 (_custody_identity info)) (take 6 expected)) "CREDENTIAL_IO_CHANGED" ;;
  inherited ← beyond (get_inheritable (io_fd row));
  check (negb inherited) "CREDENTIAL_IO_CHANGED" ;;
  match entry.1 with
  | Transport =>
      sock ← lift (match io_socket row with Some k => Ok k | None => Raise KeyError end);
      n ← beyond (fileno sock);
      check ((n =? io_fd row) && S_ISSOCK (st_mode info)) "CREDENTIAL_TRANSPORT_CHANGED"
  | Memfd =>
      check (S_ISREG (st_mode info) && (0 <=? st_size info)) "CREDENTIAL_MEMFD_CHANGED" ;;
      len ← raw_length;
      check (st_size info <=? len) "CREDENTIAL_MEMFD_CHANGED" ;;
      if ready row then
        check (st_size info =? len) "CREDENTIAL_MEMFD_CHANGED" ;;
        now ← beyond (get_seals (io_fd row));
        check (Z.land now (seals row) =? seals row) "CREDENTIAL_MEMFD_CHANGED"
      else mret tt
  end.

Definition each {A} (f : A -> run unit) (l : list A) : run unit := io_fold (fun _ x => f x) tt l.

Definition is_over (x : late_state) : bool := match x with CLOSED | FAILED => true | _ => false end.

(* @src src/src/harness_conformance/live_linux_boundary.py:840-882 _LateResources.check *)
Definition check_late : run unit :=
  ok ← the (fun s => intact (owner (M := M) (outside s)) && negb (is_over (state s)));
  check ok "CREDENTIAL_OWNER_INVALID" ;;
  named ← the (fun s => match endpoint s with Some _ => true | None => false end);
  (if (named : bool) then
     profile ← lift (match dget (u PROFILE) kit with Some b => require_canonical_document b | None => Raise KeyError end);
     now ← beyond wall_clock;
     lift (_ ← LinuxShape.require_time now; bound ← fld profile "binding"; in_force bound now)
   else mret tt) ;;
  ok ← the (fun s => match operation s with Some op => operation_current (owner (outside s)) (deadline s) op | None => true end);
  check ok "CREDENTIAL_OPERATION_INVALID" ;;
  rows ← reads (fun s => Ok (handles s));
  each check_handle rows ;;
  rows ← reads (fun s => Ok (lent s));
  each check_lent rows.

(* @src src/src/harness_conformance/live_linux_boundary.py:884-889 _LateResources.checked_fds *)
Definition checked_fds : run (list Z) :=
  check_late ;;
  fds ← reads (fun s => Ok (map fd (handles s) ++ map (fun e => io_fd e.2) (lent s)));
  ok ← the (fun s => (zlen (handles s) <=? 66) && (zlen (lent s) <=? 2));
  check (ok && bool_decide (NoDup fds)) "CREDENTIAL_DESCRIPTOR_LIMIT" ;;
  mret fds.

(* @src src/src/harness_conformance/live_linux_boundary.py:891-898 _LateResources._guard *)
Definition _guard : run unit :=
  check_late ;;
  ok ← the (fun s => bool_decide (state s = IO_ACTIVE) && match operation s with Some _ => true | None => false end);
  check ok "CREDENTIAL_HOOK_REQUIRED" ;;
  beyond proxy_access ;;
  named ← the (fun s => match endpoint s with Some _ => true | None => false end);
  if (named : bool) then
    '(path, e) ← _credential_spec;
    same ← the (fun s => match credential_path s, endpoint s with Some p, Some e' => py_eq path p && py_eq e e' | _, _ => false end);
    check same "CREDENTIAL_ENDPOINT_CHANGED"
  else mret tt.

(** ** Giving up *)

Definition is_kind (k : io_kind) (e : io_kind * io_row) : bool := bool_decide (e.1 = k).
Definition lent_row (k : io_kind) (l : list (io_kind * io_row)) : option io_row :=
  match List.filter (is_kind k) l with e :: _ => Some e.2 | [] => None end.

(** The object is the one of its row, by device, inode and kind. *)
Definition check_object (fd : Z) (expected : option (list Z)) : run unit :=
  match expected with
  | None => mret tt
  | Some expected =>
      info ← beyond (os_fstat fd);
      check (ints_eqb [st_dev info; st_ino info; S_IFMT (st_mode info)]
                      [nth 0 expected 0; nth 1 expected 0; S_IFMT (mode_of expected)]) "CREDENTIAL_DESCRIPTOR_REUSED"
  end.

Definition row_socket (row : io_row) : run socket :=
  lift (match io_socket row with Some k => Ok k | None => Raise KeyError end).

(* @src src/src/harness_conformance/live_linux_boundary.py:1021-1041 _LateResources._close_io *)
Definition _close_io (kind : io_kind) : run unit :=
  found ← reads (fun s => Ok (lent_row kind (lent s)));
  match found with
  | None => mret tt
  | Some row =>
      update (fun s => with_lent (List.filter (fun e => negb (is_kind kind e)) (lent s)) s) ;;
      on_exception (check_object (io_fd row) (io_identity row))
        (fun _ => match kind with
                  | Transport => sock ← row_socket row; n ← beyond (fileno sock);
                                 if n =? io_fd row then beyond (detach sock) else mret tt
                  | Memfd => mret tt
                  end) ;;
      match kind with
      | Transport =>
          sock ← row_socket row;
          n ← beyond (fileno sock);
          check (n =? io_fd row) "CREDENTIAL_TRANSPORT_CHANGED" ;;
          beyond (socket_close sock)
      | Memfd => beyond (os_close (io_fd row))
      end
  end.

Definition lent_kinds : run (list io_kind) := reads (fun s => Ok (map fst (lent s))).

(** Every one of a list, the first failure kept. *)
Definition close_each {A} (f : A -> run unit) (failure : option exn) (l : list A) : run (option exn) :=
  io_fold (fun failure x => r ← attempt (f x); mret (first_failure failure r)) failure l.

Definition close_handle (row : handle_row) : run unit := check_object (fd row) (identity row) ;; beyond (os_close (fd row)).

(* @src src/src/harness_conformance/live_linux_boundary.py:1071-1099 _LateResources.close *)
Definition close : run unit :=
  over ← the (fun s => is_over (state s));
  if (over : bool) then
    failure ← reads (fun s => Ok (cleanup_failure s));
    match failure with Some e => throw e | None => mret tt end
  else
    update (fun s => with_raw None (with_operation None (deadline s) (with_state CLOSED s))) ;;
    failure ← reads (fun s => Ok (cleanup_failure s));
    kinds ← lent_kinds;
    failure ← close_each _close_io failure kinds;
    rows ← reads (fun s => Ok (handles s));
    update (with_handles []) ;;
    failure ← close_each close_handle failure (rev rows);
    match failure with
    | Some e => update (fun s => with_failure (Some e) (with_state FAILED s)) ;; throw e
    | None => mret tt
    end.

(* @src src/src/harness_conformance/live_linux_boundary.py:1063-1069 _LateResources._fail *)
Definition _fail : run unit := _ ← attempt close; update (with_state FAILED).

(** [try: m except BaseException: self._fail(); raise]. *)
Definition or_fail {A} (m : run A) : run A := on_exception m (fun _ => _fail).

(** ** The operation and its resources *)

(* @src src/src/harness_conformance/live_supervisor.py:663-672 _begin_fixed_resources *)
Definition begin (request : value) (d : M) : run unit :=
  idle ← the (fun s => bool_decide (state s = ABSENT \/ state s = RETAINED) &&
                       match operation s with None => true | Some _ => false end && match lent s with [] => true | _ => false end);
  check idle "CREDENTIAL_OPERATION_INVALID" ;;
  case ← lift (fld request "operation");
  expected ← lift (build_probe_request envelope capacity plan case);
  check (py_eq request expected) "CREDENTIAL_OPERATION_INVALID" ;;
  op ← lift (as_text case);
  fresh ← reads (fun s => match active_session (owner (outside s)) with
                          | Some a => Ok (negb (str_in op (done a)) && bool_decide (Some d = context_deadline (owner (outside s))))
                          | None => Raise TypeError
                          end);
  check fresh "CREDENTIAL_OPERATION_INVALID" ;;
  update (fun s => with_state IO_ACTIVE (with_operation (Some op) (Some d) s)) ;;
  check_late.

(* @src src/src/harness_conformance/live_linux_boundary.py:1043-1061 _LateResources.finish *)
Definition finish : run unit :=
  ok ← the (fun s => match operation s with Some _ => true | None => false end && bool_decide (state s = IO_ACTIVE));
  check ok "CREDENTIAL_HOOK_REQUIRED" ;;
  kinds ← lent_kinds;
  failure ← close_each _close_io None kinds;
  match failure with
  | Some e => update (with_failure (Some e)) ;; _ ← attempt close; throw e
  | None =>
      check_late ;;
      update (fun s => with_state (match raw s with Some _ => RETAINED | None => ABSENT end) (with_operation None (deadline s) s))
  end.

(** The row that was appended last gets its identity. *)
Fixpoint identify_last (id : list Z) (l : list handle_row) : list handle_row :=
  match l with
  | [] => []
  | [r] => [{| fd := fd r; parent := parent r; name := name r; identity := Some id |}]
  | r :: l => r :: identify_last id l
  end.

(** A descriptor is held as soon as it is open. *)
Definition open_handle (parent : option Z) (name : str) (directory : bool) : run Z :=
  fd ← beyond (os_open parent name directory);
  update (fun s => with_handles (handles s ++ [{| fd := fd; parent := parent; name := name; identity := None |}]) s) ;;
  mret fd.

Definition credential_object (info : full_stat) (directory : bool) : bool :=
  (st_uid info =? 0) && (st_gid info =? 0) &&
  (if directory then S_ISDIR (st_mode info) && (Z.land (S_IMODE (st_mode info)) OTHERS_WRITE =? 0)
   else S_ISREG (st_mode info) && (st_nlink info =? 1) && (S_IMODE (st_mode info) =? 256) &&
        (0 <? st_size info) && (st_size info <=? 262144)).

(** The root, the directories and the file, each below the one before. *)
Fixpoint acquire_late (parent : option Z) (names : list str) : run (Z * list Z) :=
  match names with
  | [] => throw TypeError
  | name :: rest =>
      let directory := match rest with [] => false | _ => true end in
      room ← the (fun s => zlen (handles s) <? 66);
      check room "CREDENTIAL_DESCRIPTOR_LIMIT" ;;
      fd ← open_handle parent name directory;
      check ((2 <? fd) && (fd <? 1048576)) "CREDENTIAL_DESCRIPTOR_RANGE" ;;
      info ← beyond (os_fstat fd);
      update (fun s => with_handles (identify_last (_custody_identity info) (handles s)) s) ;;
      check (credential_object info directory) "CREDENTIAL_CUSTODY_INVALID" ;;
      check_late ;;
      beyond check_peer ;;
      match rest with
      | [] => mret (fd, _custody_identity info)
      | _ => acquire_late (Some fd) rest
      end
  end.

(** The octets up to one more than the size, the peer checked after every part. *)
Fixpoint late_parts (fuel : nat) (fd size : Z) (data : bytes) : run bytes :=
  if size <? zlen data then mret data
  else match fuel with
  | O => throw RecursionError
  | S fuel =>
      chunk ← beyond (os_read fd (Z.min 65536 (size + 1 - zlen data)));
      beyond check_peer ;;
      match chunk with
      | [] => mret data
      | _ => late_parts fuel fd size (data ++ chunk)
      end
  end.

(** The same object is held by the custody. *)
Definition held_early (rows : list (str * handle_row)) (id : list Z) : res bool :=
  any_m (fun kv => match identity kv.2 with
                   | Some other => Ok ((nth 0 id 0 =? nth 0 other 0) && (nth 1 id 0 =? nth 1 other 0))
                   | None => Raise TypeError
                   end) rows.

(* @src src/src/harness_conformance/live_linux_boundary.py:900-950 _LateResources.credential_bytes *)
Definition credential_bytes : run bytes :=
  or_fail
    (_guard ;;
     known ← reads (fun s => Ok (raw s));
     match known with
     | Some b => mret b
     | None =>
         '(path, e) ← _credential_spec;
         update (with_endpoint path e) ;;
         path ← lift (match path with VStr p => Ok p | _ => conf "CUSTODY_PATH_INVALID" end);
         parts ← lift (path_parts path);
         free ← the (fun s => negb (dhas path (custody_handles (M := M) (outside s))) && negb (startswith (kit_root ++ u "/") path));
         check free "CREDENTIAL_EARLY_CAPTURE" ;;
         update (with_state ACQUIRING) ;;
         '(fd, id) ← acquire_late None (u "/" :: parts);
         early ← reads (fun s => held_early (custody_handles (M := M) (outside s)) id);
         check (negb early) "CREDENTIAL_EARLY_CAPTURE" ;;
         data ← late_parts (S (S (Z.to_nat (size_of id)))) fd (size_of id) [];
         check (zlen data =? size_of id) "CREDENTIAL_READ_CHANGED" ;;
         update (fun s => with_state IO_ACTIVE (with_raw (Some data) s)) ;;
         _guard ;;
         mret data
     end).

(** ** What is lent *)

Definition set_lent (k : io_kind) (f : io_row -> io_row) : run unit :=
  update (fun s => with_lent (map (fun e => if is_kind k e then (e.1, f e.2) else e) (lent s)) s).
Definition known_as (id : list Z) (r : io_row) : io_row :=
  {| io_fd := io_fd r; io_identity := Some id; io_socket := io_socket r; seals := seals r; ready := ready r |}.
Definition made_ready (n : Z) (r : io_row) : io_row :=
  {| io_fd := io_fd r; io_identity := io_identity r; io_socket := io_socket r; seals := n; ready := true |}.

Definition may_lend (k : io_kind) : run bool :=
  the (fun s => match raw s with Some _ => true | None => false end && match lent_row k (lent s) with None => true | Some _ => false end).

Definition lend_socket (six : bool) : run socket :=
  sock ← beyond (new_socket six);
  update (fun s => with_lent (lent s ++ [(Transport, {| io_fd := number sock; io_identity := None; io_socket := Some sock;
                                                        seals := 0; ready := false |})]) s) ;;
  mret sock.

(* @src src/src/harness_conformance/live_linux_boundary.py:952-970 _LateResources.transport *)
Definition transport : run socket :=
  or_fail
    (_guard ;;
     ok ← may_lend Transport;
     check ok "CREDENTIAL_TRANSPORT_LIMIT" ;;
     address ← reads (fun s => match endpoint s with Some e => (x ← fld e "ipAddress"; ip_address x) | None => Raise TypeError end);
     sock ← lend_socket (match address with V4 _ => false | V6 _ => true end);
     beyond (not_inheritable sock) ;;
     info ← beyond (os_fstat (number sock));
     set_lent Transport (known_as (_custody_identity info)) ;;
     check ((2 <? number sock) && (number sock <? 1048576)) "CREDENTIAL_DESCRIPTOR_RANGE" ;;
     _guard ;;
     mret sock).

Definition lend_memfd : run Z :=
  made ← beyond memfd_create;
  match made with
  | None => throw (ConformanceError "CREDENTIAL_MEMFD_NOEXEC_UNSUPPORTED")
  | Some fd =>
      update (fun s => with_lent (lent s ++ [(Memfd, {| io_fd := fd; io_identity := None; io_socket := None; seals := 0;
                                                        ready := false |})]) s) ;;
      mret fd
  end.

(** What is left of the credential is written until nothing is. *)
Fixpoint write_all (fuel : nat) (fd : Z) (left : bytes) : run unit :=
  match left, fuel with
  | [], _ => mret tt
  | _, O => throw RecursionError
  | _, S fuel =>
      count ← beyond (os_write fd left);
      check ((0 <? count) && (count <=? zlen left)) "CREDENTIAL_MEMFD_WRITE" ;;
      _guard ;;
      write_all fuel fd (drop (Z.to_nat count) left)
  end.

(* @src src/src/harness_conformance/live_linux_boundary.py:972-1009 _LateResources.tls_memfd *)
Definition tls_memfd : run Z :=
  or_fail
    (_guard ;;
     ok ← may_lend Memfd;
     check ok "CREDENTIAL_MEMFD_LIMIT" ;;
     check known_seals "CREDENTIAL_MEMFD_NOEXEC_UNSUPPORTED" ;;
     fd ← lend_memfd;
     check ((2 <? fd) && (fd <? 1048576)) "CREDENTIAL_DESCRIPTOR_RANGE" ;;
     now ← beyond (get_seals fd);
     check (Z.land now F_SEAL_EXEC =? F_SEAL_EXEC) "CREDENTIAL_MEMFD_NOEXEC_UNSUPPORTED" ;;
     info ← beyond (os_fstat fd);
     set_lent Memfd (known_as (_custody_identity info)) ;;
     _guard ;;
     b ← reads (fun s => match raw s with Some b => Ok b | None => Raise TypeError end);
     write_all (length b) fd b ;;
     beyond (add_seals fd SEALS) ;;
     set_lent Memfd (made_ready (Z.lor F_SEAL_EXEC SEALS)) ;;
     info ← beyond (os_fstat fd);
     set_lent Memfd (known_as (_custody_identity info)) ;;
     _guard ;;
     mret fd).

(* @src src/src/harness_conformance/live_linux_boundary.py:1011-1019 _LateResources.close_memfd *)
Definition close_memfd : run unit :=
  or_fail
    (_guard ;;
     ok ← the (fun s => match lent_row Memfd (lent s) with Some _ => true | None => false end);
     check ok "CREDENTIAL_MEMFD_MISSING" ;;
     _close_io Memfd ;;
     _guard).

(** The resources of a new session. *)
Definition absent (w : W) : late W M :=
  {| state := ABSENT; operation := None; deadline := None; handles := []; lent := []; raw := None; endpoint := None;
     credential_path := None; cleanup_failure := None; outside := w |}.
End late.
