(* ===== verification/LateRuns.v ===== *)
(** Runs of the late resources of Late.v: the descriptors they open and close, how long the
    credential lives, and what a memory file holds when it is lent. *)

From S2P Require Import Prelude Effects PyVal Utf8 Json Sha2 Canonical IsoTime Regex Text.
From S2P Require Import SchemaBase Lifecycle LinuxShape Ipaddr Live LinuxVerify Posix Boundary Custody Late.

#[local] Open Scope string_scope.
#[local] Open Scope list_scope.
#[local] Open Scope Z_scope.

(** ** A kernel that notes *)

(** The descriptors handed out and asked to be closed, what was written and the seals added. *)
Inductive late_event := Made (fd : Z) | Gone (fd : Z) | Wrote (fd : Z) (b : bytes) | Sealed (fd n : Z).

Section noting.
Context {W M : Type} {K : Custodian W} {N : Native W M}.

Definition hidden {A} (m : io W A) : io (W * list late_event) A := zoom fst (fun w s => (w, s.2)) m.
Definition note (e : late_event) : io (W * list late_event) unit := update (fun s => (s.1, s.2 ++ [e])).

#[export] Instance noting_custodian : Custodian (W * list late_event) := {|
  owner_alive w := owner_alive w.1;
  os_open p n d := fd ← hidden (os_open p n d); note (Made fd) ;; mret fd;
  os_fstat fd := hidden (os_fstat fd);
  os_stat p n := hidden (os_stat p n);
  os_read fd n := hidden (os_read fd n);
  os_listdir fd := hidden (os_listdir fd);
  os_close fd := note (Gone fd) ;; hidden (os_close fd);
  late_close := hidden late_close
|}.

#[export] Instance noting_native : Native (W * list late_event) M := {|
  owner w := owner w.1;
  custody_handles w := custody_handles (M := M) w.1;
  wall_clock := hidden wall_clock;
  check_peer := hidden check_peer;
  proxy_access := hidden proxy_access;
  get_inheritable fd := hidden (get_inheritable fd);
  new_socket six := sock ← hidden (new_socket six); note (Made (number sock)) ;; mret sock;
  not_inheritable sock := hidden (not_inheritable sock);
  fileno sock := hidden (fileno sock);
  socket_close sock := note (Gone (number sock)) ;; hidden (socket_close sock);
  detach sock := hidden (detach sock);
  memfd_create := made ← hidden memfd_create;
    match made with Some fd => note (Made fd) ;; mret (Some fd) | None => mret None end;
  get_seals fd := hidden (get_seals fd);
  add_seals fd n := hidden (add_seals fd n) ;; note (Sealed fd n);
  os_write fd b := count ← hidden (os_write fd b); note (Wrote fd (take (Z.to_nat count) b)) ;; mret count
|}.
End noting.

Definition made (log : list late_event) : list Z := flat_map (fun e => match e with Made fd => [fd] | _ => [] end) log.
Definition gone (log : list late_event) : list Z := flat_map (fun e => match e with Gone fd => [fd] | _ => [] end) log.

Section runs.
Context {U : Unicode} {W M : Type} {EqM : EqDecision M} {K : Custodian W} {N : Native W M}.
Context (kit : list (str * bytes)) (envelope capacity plan binding : value) (kit_root : str) (known_seals : bool).

Notation resources := (late (W * list late_event) M).
Notation lrun := (Late.run (W := W * list late_event) (M := M)).
Definition log_of (s : resources) : list late_event := (outside s).2.

(** ** What checks keep *)

(** Everything but the world is the same, and nothing was noted. *)
Definition frozen (s s' : resources) : Prop :=
  state s' = state s /\ operation s' = operation s /\ deadline s' = deadline s /\ handles s' = handles s /\ lent s' = lent s /\
  raw s' = raw s /\ endpoint s' = endpoint s /\ credential_path s' = credential_path s /\
  cleanup_failure s' = cleanup_failure s /\ log_of s' = log_of s.

#[export] Instance frozen_preorder : PreOrder frozen.
Proof. split; [intros s; by repeat split | intros s1 s2 s3 H1 H2; unfold frozen in *; intuition congruence]. Qed.

Definition silent {A} (m : io (W * list late_event) A) : Prop := keeps (fun w w' => w'.2 = w.2) m.

Lemma hidden_silent {A} (m : io W A) : silent (hidden m).
Proof. intros w. unfold hidden, zoom. by destruct (m w.1). Qed.

Lemma beyond_still {A} (m : io (W * list late_event) A) : silent m -> keeps frozen (beyond (M := M) m).
Proof. intros H s. specialize (H (outside s)). unfold beyond, zoom. destruct (m (outside s)) as [r w]. by repeat split. Qed.

Create HintDb late discriminated.
#[local] Hint Resolve beyond_still : late.
#[local] Hint Extern 1 (silent (os_fstat _)) => apply hidden_silent : late.
#[local] Hint Extern 1 (silent (os_stat _ _)) => apply hidden_silent : late.
#[local] Hint Extern 1 (silent (os_read _ _)) => apply hidden_silent : late.
#[local] Hint Extern 1 (silent (get_inheritable (M := M) _)) => apply hidden_silent : late.
#[local] Hint Extern 1 (silent (fileno (M := M) _)) => apply hidden_silent : late.
#[local] Hint Extern 1 (silent (detach (M := M) _)) => apply hidden_silent : late.
#[local] Hint Extern 1 (silent (get_seals (M := M) _)) => apply hidden_silent : late.
#[local] Hint Extern 1 (silent (not_inheritable (M := M) _)) => apply hidden_silent : late.
#[local] Hint Extern 1 (silent (wall_clock (M := M))) => apply hidden_silent : late.
#[local] Hint Extern 1 (silent (check_peer (M := M))) => apply hidden_silent : late.
#[local] Hint Extern 1 (silent (proxy_access (M := M))) => apply hidden_silent : late.

Ltac still := unfold the, raw_length; repeat (keeps_step || solve [auto with late]).

Lemma spec_frozen : keeps frozen (Late._credential_spec kit envelope capacity plan binding : lrun (value * value)).
Proof. unfold Late._credential_spec. still. Qed.

Lemma check_frozen : keeps frozen (Late.check_late kit : lrun unit).
Proof.
  unfold Late.check_late, Late.each. still; apply keeps_fold; try typeclasses eauto; intros _ x _.
  - unfold check_handle. still.
  - unfold check_lent. still.
Qed.
#[local] Hint Resolve spec_frozen check_frozen : late.

Notation guard := (Late._guard kit envelope capacity plan binding : lrun unit).

Lemma guard_frozen : keeps frozen guard.
Proof. unfold Late._guard. still. Qed.

Lemma parts_frozen fuel fd size data : keeps frozen (Late.late_parts fuel fd size data : lrun bytes).
Proof. revert data. induction fuel as [|fuel IH]; intros data; cbn [Late.late_parts]; still; apply IH. Qed.

Lemma object_frozen fd expected : keeps frozen (Late.check_object fd expected : lrun unit).
Proof. unfold Late.check_object. still. Qed.
#[local] Hint Resolve guard_frozen parts_frozen object_frozen : late.

Lemma wp_still {A} (m : lrun A) (Q : A -> resources -> Prop) E s :
  keeps frozen m -> (forall a s', frozen s s' -> Q a s') -> (forall e s', frozen s s' -> E e s') -> wp m Q E s.
Proof. intros Hm HQ HE. eapply wp_mono; [by apply wp_keeps | |]; eauto. Qed.

(** ** The descriptors *)

(** What was made is gone, held, lent or among [lost], each once. *)
Definition accounted (lost : list Z) (s : resources) : Prop :=
  made (log_of s) ≡ₚ gone (log_of s) ++ map fd (handles s) ++ map (fun e => io_fd e.2) (lent s) ++ lost.

(** A kind is lent once, and a socket is of the descriptor it was made with. *)
Definition lent_ok (l : list (io_kind * io_row)) : Prop :=
  NoDup (map fst l) /\ Forall (fun e => forall k, io_socket e.2 = Some k -> number k = io_fd e.2) l.

(** All but the world, the log, the handles and what is lent. *)
Definition steady (s s' : resources) : Prop :=
  state s' = state s /\ operation s' = operation s /\ deadline s' = deadline s /\ raw s' = raw s /\ endpoint s' = endpoint s /\
  credential_path s' = credential_path s /\ cleanup_failure s' = cleanup_failure s.

#[export] Instance steady_preorder : PreOrder steady.
Proof. split; [intros s; by repeat split | intros s1 s2 s3 H1 H2; unfold steady in *; intuition congruence]. Qed.

Lemma frozen_steady s s' : frozen s s' -> steady s s'.
Proof. unfold frozen, steady. tauto. Qed.
Lemma frozen_accounted lost s s' : frozen s s' -> accounted lost s -> accounted lost s'.
Proof. intros (_ & _ & _ & E4 & E5 & _ & _ & _ & _ & E10). unfold accounted. by rewrite E4, E5, E10. Qed.

Lemma made_app l k : made (l ++ k) = made l ++ made k.
Proof. apply flat_map_app. Qed.
Lemma gone_app l k : gone (l ++ k) = gone l ++ gone k.
Proof. apply flat_map_app. Qed.

(** Closing a descriptor that is among the lost. *)
Definition shut (n : Z) (lost : list Z) (s s' : resources) : Prop :=
  accounted lost s' /\ steady s s' /\ handles s' = handles s /\ lent s' = lent s.

Lemma gone_wp (n : Z) lost (m : io W unit) (s : resources) : accounted (n :: lost) s ->
  wp (beyond (M := M) (note (Gone n) ;; hidden m)) (fun _ => shut n lost s) (fun _ => shut n lost s) s.
Proof.
  intros H. unfold beyond. apply wp_zoom, wp_bind. unfold note. apply wp_update. unfold hidden. apply wp_zoom.
  assert (forall w, shut n lost s {| state := state s; operation := operation s; deadline := deadline s; handles := handles s; lent := lent s;
    raw := raw s; endpoint := endpoint s; credential_path := credential_path s; cleanup_failure := cleanup_failure s;
    outside := (w, (outside s).2 ++ [Gone n]) |}) as Hs.
  { intros w. split; [|by repeat split]. unfold accounted, log_of in *. cbn [outside handles lent snd].
    rewrite made_app, gone_app. cbn [made gone flat_map]. rewrite app_nil_r, H. solve_Permutation. }
  unfold wp. cbn [fst snd]. destruct (m (outside s).1) as [[] w]; apply Hs.
Qed.

Lemma shut_from n lost s0 s s' : frozen s0 s -> shut n lost s s' -> shut n lost s0 s'.
Proof.
  intros F (A & S & H & L). pose proof (frozen_steady _ _ F) as S0. destruct F as (_ & _ & _ & E4 & E5 & _).
  split; [done |]. split; [by etransitivity |]. split; congruence.
Qed.

(** How a closing may end: the descriptor is gone, or it is one of the lost. *)
Definition shut_or_lost (n : Z) (lost : list Z) (s s' : resources) : Prop :=
  (exists extra, accounted (extra ++ lost) s') /\ steady s s' /\ handles s' = handles s /\ lent s' = lent s.

Lemma frozen_lost n lost s s' : accounted (n :: lost) s -> frozen s s' -> shut_or_lost n lost s s'.
Proof.
  intros A F. split; [exists [n]; by eapply frozen_accounted |]. split; [by apply frozen_steady |]. split; apply F.
Qed.

Lemma shut_lost n lost s s' : shut n lost s s' -> shut_or_lost n lost s s'.
Proof. intros (A & S). split; [by exists [] | done]. Qed.

Lemma close_handle_wp row lost (s : resources) : accounted (fd row :: lost) s ->
  wp (close_handle row) (fun _ => shut (fd row) lost s) (fun _ => shut_or_lost (fd row) lost s) s.
Proof.
  intros A. unfold close_handle. apply wp_bind, wp_still; [auto with late | intros [] s1 F | intros e s1 F; by apply frozen_lost].
  eapply wp_mono; [apply gone_wp; by eapply frozen_accounted | |].
  - intros [] s2 S. by eapply shut_from.
  - intros e s2 S. by eapply shut_lost, shut_from.
Qed.

Lemma accounted_perm l k s : l ≡ₚ k -> accounted l s -> accounted k s.
Proof. unfold accounted. by intros ->. Qed.

(** A loop that closes a list. *)
Lemma close_each_wp {A} (f : A -> lrun unit) (n : A -> Z) l failure lost (s : resources) :
  (forall x lost s, In x l -> accounted (n x :: lost) s -> wp (f x) (fun _ => shut (n x) lost s) (fun _ => shut_or_lost (n x) lost s) s) ->
  accounted (map n l ++ lost) s ->
  wp (Late.close_each f failure l)
    (fun o s' => steady s s' /\ handles s' = handles s /\ lent s' = lent s /\
       exists extra, accounted (extra ++ lost) s' /\ (o = None -> failure = None /\ extra = [])) (fun _ _ => False) s.
Proof.
  intros Hf. revert failure lost s. induction l as [|x l IH]; intros failure lost s A0; unfold Late.close_each; cbn [io_fold].
  - apply wp_ret. split; [reflexivity |]. split; [done |]. split; [done |]. by exists [].
  - cbn [map app] in A0. specialize (IH ltac:(intros; apply Hf; [by right | done])).
    assert (forall extra o1 s1, accounted (extra ++ map n l ++ lost) s1 -> steady s s1 -> handles s1 = handles s -> lent s1 = lent s ->
      (o1 = None -> failure = None /\ extra = []) ->
      wp (Late.close_each f o1 l) (fun o s' => steady s s' /\ handles s' = handles s /\ lent s' = lent s /\
        exists extra, accounted (extra ++ lost) s' /\ (o = None -> failure = None /\ extra = [])) (fun _ _ => False) s1) as Hrest.
    { intros extra o1 s1 A1 S1 H1 L1 O1. eapply wp_mono; [apply (IH o1 (extra ++ lost)); eapply accounted_perm, A1; solve_Permutation | | done].
      intros o s2 (S2 & H2 & L2 & extra2 & A2 & O2). split; [by etransitivity |]. split; [congruence |]. split; [congruence |].
      exists (extra2 ++ extra). rewrite <- app_assoc. split; [done |]. intros Ho. destruct (O2 Ho) as [Hn ->]. by destruct (O1 Hn) as [-> ->]. }
    apply wp_bind, wp_bind, wp_attempt.
    eapply wp_mono; [apply (Hf x (map n l ++ lost)); [by left | exact A0] | intros [] s1 (A1 & S1 & H1 & L1) | intros e s1 ((extra & A1) & S1 & H1 & L1)]; apply wp_ret.
    + eapply (Hrest []); try done. by destruct failure.
    + eapply Hrest; try done. by destruct failure.
Qed.

(** ** Giving up what is lent *)

Definition others (k : io_kind) (l : list (io_kind * io_row)) : list (io_kind * io_row) := List.filter (fun e => negb (is_kind k e)) l.

Lemma lent_row_split k row l : lent_ok l -> lent_row k l = Some row ->
  l ≡ₚ (k, row) :: others k l /\ lent_ok (others k l) /\ (forall sock, io_socket row = Some sock -> number sock = io_fd row).
Proof.
  unfold lent_ok, lent_row, others. intros [Hn Hf]. induction l as [|[k' r] l IH]; [done |]. cbn [List.filter].
  apply Forall_cons in Hf as [Hr Hf]. cbn in Hn. apply NoDup_cons in Hn as [Hk Hn].
  change (is_kind k (k', r)) with (bool_decide (k' = k)).
  destruct (decide (k' = k)) as [->|Hne].
  - rewrite bool_decide_eq_true_2 by done. cbn [negb]. intros [= <-].
    assert (List.filter (fun e => negb (is_kind k e)) l = l) as ->.
    { clear -Hk. induction l as [|[k' r'] l IH]; [done |]. cbn in Hk |- *. apply not_elem_of_cons in Hk as [Hk Hk'].
      unfold is_kind at 1. cbn. rewrite bool_decide_eq_false_2 by congruence. cbn. by rewrite IH. }
    by split.
  - rewrite bool_decide_eq_false_2 by done. cbn [negb]. intros H. destruct (IH Hn Hf H) as (P & [Hn' Hf'] & Hs).
    split; [rewrite P at 1; constructor |]. split; [|done]. split; [|by constructor]. cbn. apply NoDup_cons. split; [|done].
    intros Hin. apply Hk. apply list_elem_of_In in Hin. apply list_elem_of_In. apply in_map_iff in Hin as (e & <- & He). apply filter_In in He as [He _]. by apply in_map.
Qed.

Lemma others_absent k l : lent_row k l = None -> others k l = l.
Proof.
  unfold lent_row, others. induction l as [|e l IH]; [done |]. cbn [List.filter]. destruct (is_kind k e); [done |].
  cbn [negb]. intros H. by rewrite IH.
Qed.

Lemma others_In k l e : In e (others k l) -> In e l /\ e.1 <> k.
Proof.
  unfold others. rewrite filter_In. intros [H Hk]. split; [done |]. apply negb_true_iff, bool_decide_eq_false_1 in Hk. done.
Qed.

(** A lent row was given up, or its descriptor may be lost. *)
Definition unlent (k : io_kind) (lost : list Z) (s s' : resources) : Prop :=
  accounted lost s' /\ steady s s' /\ handles s' = handles s /\ lent s' = others k (lent s).

Lemma close_io_wp k lost (s : resources) : accounted lost s -> lent_ok (lent s) ->
  wp (Late._close_io k) (fun _ => unlent k lost s) (fun _ s' => exists extra, unlent k (extra ++ lost) s s') s.
Proof.
  intros A L. unfold Late._close_io. apply wp_bind, wp_reads; [intros found [= <-] | done].
  destruct (lent_row k (lent s)) as [row|] eqn:Er; [|apply wp_ret; split; [done |]; split; [reflexivity |]; split; [done | by rewrite others_absent]].
  destruct (lent_row_split _ _ _ L Er) as (P & _ & Hsock). apply wp_bind, wp_update.
  set (s1 := with_lent (others k (lent s)) s).
  change (with_lent (List.filter (fun e => negb (is_kind k e)) (lent s)) s) with s1.
  assert (accounted (io_fd row :: lost) s1) as A1.
  { unfold accounted in *. cbn [s1 with_lent handles lent]. change (log_of s1) with (log_of s). rewrite A.
    rewrite (fmap_Permutation _ _ _ P). cbn [fmap list_fmap]. solve_Permutation. }
  assert (forall s' extra, shut (io_fd row) (extra ++ lost) s1 s' -> unlent k (extra ++ lost) s s') as Hdone.
  { intros s' extra (A' & S' & H' & L'). split; [done |]. by split. }
  assert (forall (e : exn) s', frozen s1 s' -> exists extra, unlent k (extra ++ lost) s s') as Herr.
  { intros _ s' F. exists [io_fd row]. apply Hdone. split; [by eapply frozen_accounted |]. split; [by apply frozen_steady | split; apply F]. }
  assert (forall s2, frozen s1 s2 -> accounted (io_fd row :: lost) s2) as Hacc by (intros s2 F; by eapply frozen_accounted).
  clearbody s1. apply wp_bind, wp_on_exception, wp_still; [auto with late | intros [] s2 F2 | intros e s2 F2].
  2: { destruct k; [|by apply wp_ret, (Herr e)]. unfold row_socket.
       apply wp_still; [still | |]; intros ? s3 F3; apply (Herr e); by transitivity s2. }
  assert (forall n (m : io W unit), n = io_fd row -> wp (beyond (M := M) (note (Gone n) ;; hidden m)) (fun _ => unlent k lost s)
    (fun _ s' => exists extra, unlent k (extra ++ lost) s s') s2) as Hgone.
  { intros n m ->. eapply wp_mono; [apply gone_wp, Hacc, F2 | |].
    - intros [] s3 S3. eapply (Hdone s3 []), shut_from; [exact F2 | exact S3].
    - intros e s3 S3. exists []. eapply Hdone, shut_from; [exact F2 | exact S3]. }
  destruct k; [|by apply Hgone]. apply wp_bind. unfold row_socket.
  apply wp_lift; [intros sock Hs | intros e _; by apply (Herr e)]. destruct (io_socket row) as [k|] eqn:Ek; [|done]. injection Hs as <-.
  apply wp_bind, wp_still; [auto with late | intros n s3 F3 | intros e s3 F3; apply (Herr e); by transitivity s2].
  apply wp_bind, wp_check; [intros _ | intros _; apply (Herr TypeError); by transitivity s2].
  eapply wp_mono; [apply (gone_wp _ lost); rewrite (Hsock k eq_refl); eapply frozen_accounted; [exact F3 | by apply Hacc] | |];
    rewrite (Hsock k eq_refl).
  - intros [] s4 S4. eapply (Hdone s4 []), shut_from; [etransitivity; [exact F2 | exact F3] | exact S4].
  - intros e s4 S4. exists []. eapply Hdone, shut_from; [etransitivity; [exact F2 | exact F3] | exact S4].
Qed.

Lemma others_ok k l : lent_ok l -> lent_ok (others k l).
Proof.
  intros H. destruct (lent_row k l) as [row|] eqn:E; [|by rewrite others_absent]. by destruct (lent_row_split _ _ _ H E) as (_ & ? & _).
Qed.

Lemma close_kinds_wp ks failure lost (s : resources) : accounted lost s -> lent_ok (lent s) ->
  wp (Late.close_each Late._close_io failure ks)
    (fun o s' => steady s s' /\ handles s' = handles s /\ lent_ok (lent s') /\
       (forall e, In e (lent s') -> In e (lent s) /\ ~ In e.1 ks) /\
       exists extra, accounted (extra ++ lost) s' /\ (o = None -> failure = None /\ extra = [])) (fun _ _ => False) s.
Proof.
  revert failure lost s. induction ks as [|k ks IH]; intros failure lost s A L; unfold Late.close_each; cbn [io_fold].
  - apply wp_ret. split; [reflexivity |]. split; [done |]. split; [done |]. split; [intros e He; split; [done | by intros []] | by exists []].
  - assert (forall o1 s1 extra, unlent k (extra ++ lost) s s1 -> (o1 = None -> failure = None /\ extra = []) ->
      wp (Late.close_each Late._close_io o1 ks) (fun o s' => steady s s' /\ handles s' = handles s /\ lent_ok (lent s') /\
       (forall e, In e (lent s') -> In e (lent s) /\ ~ In e.1 (k :: ks)) /\
       exists extra, accounted (extra ++ lost) s' /\ (o = None -> failure = None /\ extra = [])) (fun _ _ => False) s1) as Hrest.
    { intros o1 s1 extra (A1 & S1 & H1 & L1) O1.
      eapply wp_mono; [apply (IH o1 _ s1 A1); rewrite L1; by apply others_ok | | done].
      intros o s2 (S2 & H2 & K2 & L2 & extra2 & A2 & O2). split; [by etransitivity |]. split; [congruence |]. split; [done |]. split.
      - intros e He. apply L2 in He as [He Hn]. rewrite L1 in He. apply others_In in He as [He Hk]. split; [done |]. cbn. intros [?|?]; [congruence | done].
      - exists (extra2 ++ extra). rewrite <- app_assoc. split; [done |]. intros Ho. destruct (O2 Ho) as [Hn ->]. by destruct (O1 Hn) as [-> ->]. }
    apply wp_bind, wp_bind, wp_attempt.
    eapply wp_mono; [by apply close_io_wp | intros [] s1 H1 | intros e s1 [extra H1]]; apply wp_ret.
    + apply (Hrest _ _ [] H1). by destruct failure.
    + apply (Hrest _ _ extra H1). by destruct failure.
Qed.

Lemma nothing_left (l l' : list (io_kind * io_row)) : (forall e, In e l' -> In e l /\ ~ In e.1 (map fst l)) -> l' = [].
Proof. destruct l' as [|e l']; [done |]. intros H. destruct (H e ltac:(by left)) as [Hin Hn]. destruct Hn. by apply in_map. Qed.

(** ** The invariant *)

(** What resources that are over hold. *)
Definition tidy (s : resources) : Prop := raw s = None /\ operation s = None /\ handles s = [] /\ lent s = [].

(** The credential is the content of the file that was opened last. *)
Definition credential_held (rows : list handle_row) (b : bytes) : Prop := exists row id,
  last rows = Some row /\ identity row = Some id /\ size_of id = zlen b /\ S_IMODE (mode_of id) = 256 /\ 0 < zlen b <= 262144.

Definition phase_ok (s : resources) : Prop :=
  match state s with
  | ABSENT => raw s = None /\ operation s = None
  | RETAINED => raw s <> None /\ operation s = None /\ lent s = []
  | IO_ACTIVE => operation s <> None
  | ACQUIRING => False
  | CLOSED | FAILED => tidy s
  end.

(** Between two calls. *)
Definition settled (s : resources) : Prop :=
  lent_ok (lent s) /\ zlen (handles s) <= 66 /\ (exists lost, accounted lost s /\ (state s <> FAILED -> lost = [])) /\
  (raw s = None -> handles s = [] /\ lent s = []) /\ (forall b, raw s = Some b -> credential_held (handles s) b) /\ phase_ok s.

(** Inside a call that will give up when it fails. *)
Definition loose (s : resources) : Prop :=
  lent_ok (lent s) /\ (exists lost, accounted lost s) /\ (is_over (state s) = true -> tidy s).

Lemma settled_loose s : settled s -> loose s.
Proof.
  intros (L & _ & (lost & A & _) & _ & _ & P). split; [done |]. split; [by exists lost |]. unfold phase_ok in P. by destruct (state s).
Qed.

Lemma tidy_settled s : tidy s -> is_over (state s) = true -> (exists lost, accounted lost s /\ (state s <> FAILED -> lost = [])) -> settled s.
Proof.
  intros (T1 & T2 & T3 & T4) Ho A. unfold settled, lent_ok, phase_ok. rewrite T1, T3, T4. split; [split; constructor |].
  split; [done |]. split; [done |]. split; [done |]. split; [done |]. by destruct (state s).
Qed.

(** The same but for the log. *)
Definition same (s s' : resources) : Prop := steady s s' /\ handles s' = handles s /\ lent s' = lent s.

Lemma frozen_same s s' : frozen s s' -> same s s'.
Proof. intros F. split; [by apply frozen_steady | split; apply F]. Qed.

Lemma same_settled s s' : same s s' -> made (log_of s') = made (log_of s) -> gone (log_of s') = gone (log_of s) -> settled s -> settled s'.
Proof.
  intros ((E1 & E2 & _ & E4 & _) & E5 & E6) Em Eg. unfold settled, accounted, phase_ok, tidy. by rewrite E1, E2, E4, E5, E6, Em, Eg.
Qed.

Lemma same_loose s s' : same s s' -> made (log_of s') = made (log_of s) -> gone (log_of s') = gone (log_of s) -> loose s -> loose s'.
Proof.
  intros ((E1 & E2 & _ & E4 & _) & E5 & E6) Em Eg. unfold loose, accounted, tidy. by rewrite E1, E2, E4, E5, E6, Em, Eg.
Qed.

Lemma frozen_settled s s' : frozen s s' -> settled s -> settled s'.
Proof. intros F. apply same_settled; [by apply frozen_same | |]; destruct F as (_ & _ & _ & _ & _ & _ & _ & _ & _ & ->); done. Qed.
Lemma frozen_loose s s' : frozen s s' -> loose s -> loose s'.
Proof. intros F. apply same_loose; [by apply frozen_same | |]; destruct F as (_ & _ & _ & _ & _ & _ & _ & _ & _ & ->); done. Qed.

(** ** Closing *)

Lemma close_live_wp lost (s : resources) : accounted lost s -> lent_ok (lent s) -> is_over (state s) = false ->
  wp Late.close (fun _ s' => state s' = CLOSED /\ tidy s' /\ accounted lost s' /\ cleanup_failure s = None)
    (fun _ s' => state s' = FAILED /\ tidy s' /\ exists lost', accounted lost' s') s.
Proof.
  intros A L Ho. unfold Late.close. apply wp_bind, wp_reads; [intros over [= <-] | done]. rewrite Ho.
  apply wp_bind, wp_update, wp_bind, wp_reads; [intros failure [= <-] | done]. apply wp_bind, wp_reads; [intros kinds [= <-] | done].
  match goal with |- context [wp _ _ _ ?x] => set (s1 := x) end.
  assert (accounted lost s1) as A1 by exact A.
  apply wp_bind. eapply wp_mono; [by apply close_kinds_wp | | done].
  intros o s2 (S2 & H2 & _ & L2 & extra & A2 & O2). apply nothing_left in L2. cbn [s1 with_raw with_operation with_state handles] in H2.
  apply wp_bind, wp_reads; [intros rows [= <-] | done]. apply wp_bind, wp_update.
  set (s3 := with_handles [] s2).
  assert (accounted (map fd (rev (handles s2)) ++ extra ++ lost) s3) as A3.
  { unfold accounted in *. cbn [s3 with_handles handles lent]. change (log_of s3) with (log_of s2). rewrite A2, L2, map_rev, <- Permutation_rev. done. }
  apply wp_bind. eapply wp_mono; [apply (close_each_wp _ fd); [intros; by apply close_handle_wp | exact A3] | | done].
  intros o2 s4 (S4 & H4 & L4 & extra2 & A4 & O4).
  assert (tidy s4 /\ state s4 = CLOSED) as [T4 C4].
  { destruct S2 as (B1 & B2 & _ & B4 & _). destruct S4 as (D1 & D2 & _ & D4 & _). unfold tidy.
    rewrite D1, D2, D4, H4, L4. cbn [s3 with_handles state operation raw handles lent]. rewrite B1, B2, B4, L2. done. }
  destruct o2 as [e|].
  - apply wp_bind, wp_update, wp_throw. split; [done |]. split; [exact T4 |]. by eexists.
  - apply wp_ret. split; [done |]. split; [done |]. destruct (O4 eq_refl) as [Ho2 ->]. by destruct (O2 Ho2) as [Hf ->].
Qed.

Lemma close_over (s : resources) : is_over (state s) = true -> wp Late.close (fun _ s' => s' = s) (fun _ s' => s' = s) s.
Proof.
  intros Ho. unfold Late.close. apply wp_bind, wp_reads; [intros over [= <-] | done]. rewrite Ho.
  apply wp_bind, wp_reads; [intros failure [= <-] | done]. by destruct (cleanup_failure s).
Qed.

Lemma fail_wp (s : resources) : loose s ->
  wp Late._fail (fun _ s' => settled s' /\ state s' = FAILED) (fun _ _ => False) s.
Proof.
  intros (L & (lost & A) & O). unfold Late._fail. apply wp_bind, wp_attempt.
  assert (forall s1, tidy s1 -> (exists lost, accounted lost s1) ->
    settled (with_state FAILED s1) /\ state (with_state FAILED s1) = FAILED) as Hend.
  { intros s1 T [l A1]. split; [|done]. apply tidy_settled; [exact T | done |]. by exists l. }
  destruct (is_over (state s)) eqn:E.
  - eapply wp_mono; [by apply close_over | |]; intros ? s1 ->; apply wp_update, Hend; try done; [by apply O | by exists lost | by apply O | by exists lost].
  - eapply wp_mono; [by eapply close_live_wp | intros ? s1 (_ & T & A1 & _) | intros ? s1 (_ & T & A1)]; apply wp_update, Hend; try done. by exists lost.
Qed.

Lemma or_fail_wp {A} (m : lrun A) (Q : A -> resources -> Prop) s :
  wp m Q (fun _ => loose) s -> wp (or_fail m) Q (fun _ s' => settled s' /\ state s' = FAILED) s.
Proof.
  intros H. unfold or_fail. apply wp_on_exception. eapply wp_mono; [exact H | done | intros e s' L].
  eapply wp_mono; [by apply fail_wp | done | done].
Qed.

Lemma settled_close_wp (s : resources) : settled s ->
  wp Late.close (fun _ s' => settled s' /\ is_over (state s') = true /\ (is_over (state s) = false -> made (log_of s') ≡ₚ gone (log_of s')))
    (fun _ s' => settled s' /\ is_over (state s') = true) s.
Proof.
  intros H. pose proof H as (L & _ & (lost & A & Hlost) & _). destruct (is_over (state s)) eqn:E.
  { eapply wp_mono; [by apply close_over | by intros ? s' -> | by intros ? s' ->]. }
  assert (lost = []) as -> by (apply Hlost; intros E1; by rewrite E1 in E).
  eapply wp_mono; [apply (close_live_wp _ _ A L E) | intros [] s' (C & T & A' & _) | intros e s' (C & T & l & A')].
  - split; [apply tidy_settled; [done | by rewrite C | exists []; by split] |]. split; [by rewrite C |]. intros _.
    destruct T as (_ & _ & T3 & T4). unfold accounted in A'. by rewrite T3, T4, !app_nil_r in A'.
  - split; [apply tidy_settled; [done | by rewrite C | exists l; split; [done | congruence]] | by rewrite C].
Qed.

(** What was read stays, until the resources are over for good. *)
Definition kept (s s' : resources) : Prop :=
  is_over (state s') = true \/ (is_over (state s) = false /\ forall b, raw s = Some b -> raw s' = Some b).

Lemma kept_refl s : kept s s.
Proof. unfold kept. destruct (is_over (state s)); [by left | by right]. Qed.
Lemma kept_onward s1 s2 s3 : kept s1 s2 -> kept s2 s3 -> kept s1 s3.
Proof. unfold kept. intros [H1 | [H1 R1]] [H2 | [H2 R2]]; try (by left); [congruence | right; eauto]. Qed.
Lemma steady_kept s s' : steady s s' -> kept s s'.
Proof. intros (E1 & _ & _ & E4 & _). unfold kept. rewrite E1, E4. apply kept_refl. Qed.
Lemma over_kept s s' : is_over (state s') = true -> kept s s'.
Proof. by left. Qed.

(** ** The operations *)

Lemma guard_wp (s : resources) :
  wp guard (fun _ s' => frozen s s' /\ state s = IO_ACTIVE /\ operation s <> None) (fun _ => frozen s) s.
Proof.
  unfold Late._guard. apply wp_bind, wp_still; [auto with late | intros [] s1 F1 | done].
  apply wp_bind, wp_reads; [intros ok [= <-] | done]. apply wp_bind, wp_check; [intros [Hs Ho]%andb_true_iff | done].
  apply bool_decide_eq_true_1 in Hs. destruct F1 as (E1 & E2 & F1).
  assert (state s = IO_ACTIVE /\ operation s <> None) as [Hs' Ho'].
  { split; [congruence |]. intros Hn. rewrite E2, Hn in Ho. done. }
  assert (frozen s s1) as F by (by split; [|split]).
  match goal with |- wp ?m _ _ _ => assert (keeps frozen m) as Hk by still end.
  apply wp_still; [exact Hk | |]; intros ? s2 F2; [split; [|done] |]; by transitivity s1.
Qed.

(** A guard of settled resources: they can be lent from. *)
Lemma settled_guard_wp (Q : unit -> resources -> Prop) (s : resources) : settled s ->
  (forall s', frozen s s' -> settled s' -> state s' = IO_ACTIVE -> operation s' <> None -> Q tt s') ->
  wp guard Q (fun _ => loose) s.
Proof.
  intros H HQ. eapply wp_mono; [apply guard_wp | intros [] s' (F & E & O) | intros e s' F].
  - apply HQ; [done | by eapply frozen_settled | |]; destruct F as (E1 & E2 & _); congruence.
  - eapply frozen_loose, settled_loose, H. exact F.
Qed.

Lemma wp_settled {A} (m : lrun A) (Q : A -> resources -> Prop) (s : resources) : settled s -> keeps frozen m ->
  (forall a s', frozen s s' -> settled s' -> Q a s') -> wp m Q (fun _ => loose) s.
Proof.
  intros H Hm HQ. apply wp_still; [done | intros a s' F; apply HQ; [done | by eapply frozen_settled] | intros e s' F].
  eapply frozen_loose, settled_loose, H. exact F.
Qed.

Lemma lent_row_absent k l : lent_row k l = None -> k ∉ map fst l.
Proof.
  intros H Hin%list_elem_of_In. apply in_map_iff in Hin as (e & <- & He). apply others_absent in H. rewrite <- H in He.
  by apply others_In in He as [_ He].
Qed.

(** A new descriptor is lent. *)
Lemma lent_settled k row (s s' : resources) :
  settled s -> state s = IO_ACTIVE -> raw s <> None -> lent_row k (lent s) = None ->
  (forall sock, io_socket row = Some sock -> number sock = io_fd row) ->
  steady s s' -> handles s' = handles s -> lent s' = lent s ++ [(k, row)] -> log_of s' = log_of s ++ [Made (io_fd row)] -> settled s'.
Proof.
  intros ([L1 L2] & Hz & (lost & A & Hlost) & Hr & Hc & P) Hs Hraw Hk Hsock (E1 & E2 & _ & E4 & _) E5 E6 E7.
  unfold settled, phase_ok, accounted, lent_ok in *. rewrite E1, E2, E4, E5, E6, E7, Hs. rewrite Hs in P, Hlost. split.
  { split; [|apply Forall_app; split; [done | by repeat constructor]]. rewrite map_app. apply NoDup_app. split; [done |].
    split; [|apply NoDup_singleton]. intros x Hx Hx'. apply list_elem_of_singleton in Hx'. cbn in Hx'. subst x. by eapply lent_row_absent in Hk. }
  split; [done |]. split; [|by split].
  exists lost. split; [|done]. rewrite made_app, gone_app, map_app, A. cbn [made gone flat_map map snd app]. rewrite app_nil_r.
  cbn. solve_Permutation.
Qed.

(** A lent row that keeps its descriptor. *)
Lemma set_lent_settled k f (s : resources) : (forall r, io_fd (f r) = io_fd r /\ io_socket (f r) = io_socket r) ->
  settled s -> state s = IO_ACTIVE ->
  settled (with_lent (map (fun e => if is_kind k e then (e.1, f e.2) else e) (lent s)) s).
Proof.
  intros Hf ([L1 L2] & Hz & (lost & A & Hlost) & Hr & Hc & P) Hs. set (g := fun e => if is_kind k e then (e.1, f e.2) else e).
  assert (forall e, (g e).1 = e.1 /\ io_fd (g e).2 = io_fd e.2 /\ io_socket (g e).2 = io_socket e.2) as Hg.
  { intros e. unfold g. destruct (is_kind k e); [|done]. cbn. split; [done |]. apply Hf. }
  unfold settled, phase_ok, accounted, lent_ok in *. cbn [with_lent state operation handles lent raw]. change (log_of (with_lent _ s)) with (log_of s).
  rewrite Hs. rewrite Hs in P, Hlost. split.
  { split; [rewrite map_map; erewrite map_ext; [exact L1 | intros e; apply Hg] |]. apply List.Forall_forall. intros e He.
    apply in_map_iff in He as (e' & <- & He). rewrite List.Forall_forall in L2. destruct (Hg e') as (_ & -> & ->). by apply L2. }
  split; [done |]. split; [exists lost; split; [|done]; rewrite map_map; erewrite (map_ext (fun x => io_fd (g x).2)); [exact A | intros e; apply Hg] |].
  split; [|done]. intros Hn. destruct (Hr Hn) as [? ->]. done.
Qed.

Lemma begin_wp request d (s : resources) : settled s ->
  wp (Late.begin kit envelope capacity plan request d) (fun _ s' => settled s' /\ kept s s') (fun _ s' => settled s' /\ kept s s') s.
Proof.
  intros H. assert (settled s /\ kept s s) as Hrefl by (split; [done | apply kept_refl]). unfold Late.begin. apply wp_bind, wp_reads; [intros idle [= <-] | done]. apply wp_bind, wp_check; [intros Hidle | done].
  rewrite !andb_true_iff in Hidle. destruct Hidle as [[Hs%bool_decide_eq_true_1 _] Hl].
  apply wp_bind, wp_lift; [intros case _ | done]. apply wp_bind, wp_lift; [intros expected _ | done].
  apply wp_bind, wp_check; [intros _ | done]. apply wp_bind, wp_lift; [intros op _ | done].
  apply wp_bind, wp_reads; [intros fresh _ | done]. apply wp_bind, wp_check; [intros _ | done]. apply wp_bind, wp_update.
  match goal with |- wp _ _ _ ?x => assert (settled x /\ kept s x) as [H1 K1] end.
  { split; [|right; split; [by destruct Hs as [-> | ->] | done]]. destruct H as (L & Hz & (lost & A & Hlost) & Hr & Hc & P). split; [done |]. split; [done |]. split; [|by split; [|split]].
    exists lost. split; [exact A |]. intros _. apply Hlost. by destruct Hs as [-> | ->]. }
  apply wp_still; [auto with late | |]; intros ? s' F; (split; [by eapply frozen_settled | eapply kept_onward; [exact K1 | by apply steady_kept, frozen_steady]]).
Qed.

Lemma finish_wp (s : resources) : settled s ->
  wp (Late.finish kit) (fun _ s' => settled s' /\ kept s s' /\ operation s' = None /\ lent s' = []) (fun _ s' => settled s' /\ kept s s') s.
Proof.
  intros H. assert (settled s /\ kept s s) as Hrefl by (split; [done | apply kept_refl]). unfold Late.finish. apply wp_bind, wp_reads; [intros ok [= <-] | done].
  apply wp_bind, wp_check; [intros [Ho Hs%bool_decide_eq_true_1]%andb_true_iff | done].
  apply wp_bind, wp_reads; [intros kinds [= <-] | done].
  pose proof H as (L & Hz & (lost & A & Hlost) & Hr & Hc & P). assert (lost = []) as -> by (apply Hlost; congruence).
  apply wp_bind. eapply wp_mono; [by apply close_kinds_wp | | done].
  intros o s1 (S1 & H1 & L1 & Hleft & extra & A1 & O1). apply nothing_left in Hleft. rewrite app_nil_r in A1.
  destruct o as [e|].
  - apply wp_bind, wp_update, wp_bind, wp_attempt. set (s2 := with_failure (Some e) s1).
    assert (is_over (state s2) = false) as Hover by (destruct S1 as (E1 & _); cbn; by rewrite E1, Hs).
    eapply wp_mono; [apply (close_live_wp extra s2); [exact A1 | exact L1 | done] | by intros [] s3 (_ & _ & _ & ?) | intros e' s3 (C & T & l & A3)].
    apply wp_throw. split; [apply tidy_settled; [done | by rewrite C | exists l; split; [done | congruence]] | left; by rewrite C].
  - destruct (O1 eq_refl) as [_ ->].
    assert (settled s1) as K1.
    { destruct S1 as (E1 & E2 & _ & E4 & _). unfold settled, phase_ok. unfold phase_ok in P. rewrite E1, E2, E4, H1, Hleft, Hs. rewrite Hs in P.
      split; [split; constructor |]. split; [done |]. split; [by exists [] |]. split; [|done]. intros Hn. by destruct (Hr Hn). }
    assert (kept s s1) as Kp by (by apply steady_kept).
    apply wp_bind, wp_still; [auto with late | intros [] s2 F2 | intros e s2 F2; split; [by eapply frozen_settled | eapply kept_onward; [exact Kp | by apply steady_kept, frozen_steady]]].
    apply wp_update. split; [|split; [|split; [done |]]].
    2: { eapply kept_onward; [exact Kp |]. right. destruct F2 as (E1 & _ & _ & _ & _ & E6 & _). cbn. rewrite E6. split; [|done]. destruct S1 as (-> & _). by rewrite Hs. }
    2: { cbn. destruct F2 as (_ & _ & _ & _ & -> & _). done. }
    destruct (frozen_settled _ _ F2 K1) as (B1 & B2 & (l & B3 & B4) & B5 & B6 & _). unfold settled, phase_ok, accounted. cbn [with_state with_operation state operation handles lent raw].
    change (log_of (with_state _ _)) with (log_of s2).
    destruct F2 as (F2 & _ & _ & _ & F5 & _). assert (l = []) as -> by (apply B4; rewrite F2; destruct S1 as (-> & _); congruence).
    split; [done |]. split; [done |]. split; [by exists [] |]. split; [done |]. split; [done |].
    destruct (raw s2); [|done]. split; [done |]. split; [done |]. by rewrite F5.
Qed.

(** What is lent, while the operation goes on: the row of a kind, its descriptor, and what was
    noted since. *)
Definition lending (k : io_kind) (n : Z) (b : bytes) (events : list late_event) (s0 s : resources) : Prop :=
  settled s /\ state s = IO_ACTIVE /\ operation s <> None /\ raw s = Some b /\ raw s0 = Some b /\
  log_of s = log_of s0 ++ events /\ exists row, lent_row k (lent s) = Some row /\ io_fd row = n.

Lemma lending_frozen k n b events s0 s s' : frozen s s' -> lending k n b events s0 s -> lending k n b events s0 s'.
Proof.
  intros F (H & H1 & H2 & H3 & H4 & H5 & H6). pose proof (frozen_settled _ _ F H) as H'.
  destruct F as (E1 & E2 & _ & _ & E5 & E6 & _ & _ & _ & E10). unfold lending. by rewrite E1, E2, E5, E6, E10.
Qed.

Lemma lending_kept k n b events s s1 s' : frozen s s1 -> state s1 = IO_ACTIVE -> lending k n b events s1 s' -> kept s s'.
Proof.
  intros (E1 & _ & _ & _ & _ & E6 & _) Hs (_ & _ & _ & H3 & H4 & _). right. rewrite E1 in Hs. rewrite Hs. split; [done |].
  intros b' Hb. rewrite H3, <- H4, E6. done.
Qed.

Lemma lending_loose k n b events s0 s : lending k n b events s0 s -> loose s.
Proof. intros [H _]. by apply settled_loose. Qed.

Lemma set_lent_row k f l : (forall r : io_row, io_fd (f r) = io_fd r) -> forall row, lent_row k l = Some row ->
  exists row', lent_row k (map (fun e => if is_kind k e then (e.1, f e.2) else e) l) = Some row' /\ io_fd row' = io_fd row.
Proof.
  intros Hf row. unfold lent_row. induction l as [|e l IH]; [done |]. cbn [List.filter map]. destruct (is_kind k e) eqn:E.
  - intros [= <-]. assert (is_kind k (e.1, f e.2) = true) as -> by exact E. by exists (f e.2).
  - rewrite E. exact IH.
Qed.

Lemma wp_set_lent k f n b events s0 (s : resources) (Q : unit -> resources -> Prop) E :
  lending k n b events s0 s -> (forall r, io_fd (f r) = io_fd r /\ io_socket (f r) = io_socket r) ->
  (forall s', lending k n b events s0 s' -> Q tt s') -> wp (Late.set_lent k f) Q E s.
Proof.
  intros (H & H1 & H2 & H3 & H4 & H5 & (row & Hrow & Hn)) Hf HQ. unfold Late.set_lent. apply wp_update, HQ.
  split; [by apply set_lent_settled |]. repeat (split; [done |]).
  destruct (set_lent_row k f _ (fun r => proj1 (Hf r)) _ Hrow) as (row' & ? & ?). exists row'. split; [done | congruence].
Qed.

Lemma wp_lending {A} (m : lrun A) (Q : A -> resources -> Prop) k n b events s0 (s : resources) :
  lending k n b events s0 s -> keeps frozen m -> (forall a s', lending k n b events s0 s' -> Q a s') -> wp m Q (fun _ => loose) s.
Proof.
  intros H Hm HQ. apply wp_still; [done | intros a s' F; apply HQ; by eapply lending_frozen | intros e s' F].
  eapply lending_loose, lending_frozen; [exact F | exact H].
Qed.

(** Lending a descriptor that a call of the kernel made. *)
Lemma lent_lending k row b w (s s1 : resources) :
  settled s -> state s = IO_ACTIVE -> operation s <> None -> raw s = Some b -> lent_row k (lent s) = None ->
  (forall sock, io_socket row = Some sock -> number sock = io_fd row) ->
  s1 = {| state := state s; operation := operation s; deadline := deadline s; handles := handles s; lent := lent s ++ [(k, row)];
          raw := raw s; endpoint := endpoint s; credential_path := credential_path s; cleanup_failure := cleanup_failure s;
          outside := (w, (outside s).2 ++ [Made (io_fd row)]) |} ->
  lending k (io_fd row) b [Made (io_fd row)] s s1.
Proof.
  intros H Hs Ho Hr Hk Hsock ->. assert (raw s <> None) as Hraw by congruence.
  split; [by eapply (lent_settled k row s) |]. repeat (split; [done |]). exists row. split; [|done].
  cbn [lent]. unfold lent_row in *. rewrite List.filter_app. destruct (List.filter (is_kind k) (lent s)); [|done].
  unfold is_kind. cbn. rewrite bool_decide_eq_true_2; done.
Qed.

Lemma may_lend_wp k (Q : bool -> resources -> Prop) E (s : resources) :
  (forall b, raw s = Some b -> lent_row k (lent s) = None -> Q true s) -> Q false s -> wp (Late.may_lend k) Q E s.
Proof.
  intros H1 H2. unfold Late.may_lend. apply wp_reads; [intros ok [= <-] | done].
  destruct (raw s) as [b|]; [|done]. destruct (lent_row k (lent s)); [done |]. by apply (H1 b).
Qed.

Lemma transport_wp (s : resources) : settled s ->
  wp (Late.transport kit envelope capacity plan binding) (fun _ s' => settled s' /\ kept s s') (fun _ s' => settled s' /\ state s' = FAILED) s.
Proof.
  intros H. unfold Late.transport. apply or_fail_wp, wp_bind, settled_guard_wp; [done | intros s1 F1 H1 Hs1 Ho1].
  apply wp_bind, may_lend_wp; [intros b Hb Hk | apply wp_bind, wp_check; [done | intros _; by apply settled_loose]].
  apply wp_bind, wp_check; [intros _ | done].
  apply wp_bind, wp_reads; [intros address _ | intros; by apply settled_loose]. generalize (match address with V4 _ => false | V6 _ => true end). intros six.
  apply wp_bind. unfold Late.lend_socket. apply wp_bind. unfold beyond at 1. apply wp_zoom. cbn [new_socket noting_native]. apply wp_bind.
  unfold hidden at 1. apply wp_zoom. unfold wp at 1. destruct (new_socket six (outside s1).1) as [[sock|e] w]; cbn [fst snd].
  2: { eapply same_loose; [| | | apply settled_loose, H1]; [by repeat split | done | done]. }
  apply wp_bind. unfold note. apply wp_update, wp_ret. cbn [fst snd]. apply wp_bind, wp_update, wp_ret.
  match goal with |- wp _ _ _ ?x => assert (lending Transport (number sock) b [Made (number sock)] s1 x) as L end.
  { eapply (lent_lending Transport {| io_fd := number sock; io_identity := None; io_socket := Some sock; seals := 0; ready := false |} b w);
      try done. by intros ? [= <-]. }
  match goal with |- wp _ _ _ ?x => generalize dependent x end. intros s2 L2.
  apply wp_bind, (wp_lending _ _ _ _ _ _ _ _ L2); [auto with late | clear s2 L2; intros [] s2 L2].
  apply wp_bind, (wp_lending _ _ _ _ _ _ _ _ L2); [auto with late | clear s2 L2; intros info s2 L2].
  apply wp_bind, (wp_set_lent _ _ _ _ _ _ _ _ _ L2); [by intros | clear s2 L2; intros s2 L2].
  apply wp_bind, wp_check; [intros _ | intros _; by eapply lending_loose].
  apply wp_bind, (wp_lending _ _ _ _ _ _ _ _ L2); [apply guard_frozen | intros [] s3 L3]. apply wp_ret. split; [apply L3 | by eapply lending_kept].
Qed.

(** An event that makes and closes nothing. *)
Definition idle_event (e : late_event) : Prop := made [e] = [] /\ gone [e] = [].

Lemma noted_fields e (s s' : resources) : idle_event e -> same s s' -> log_of s' = log_of s ++ [e] ->
  made (log_of s') = made (log_of s) /\ gone (log_of s') = gone (log_of s).
Proof. intros [Em Eg] _ ->. by rewrite made_app, gone_app, Em, Eg, !app_nil_r. Qed.

Lemma lending_noted k n b events e s0 (s s' : resources) : idle_event e -> same s s' -> log_of s' = log_of s ++ [e] ->
  lending k n b events s0 s -> lending k n b (events ++ [e]) s0 s'.
Proof.
  intros He Hs El (H & H1 & H2 & H3 & H4 & H5 & H6). destruct (noted_fields e s s' He Hs El) as [Em Eg].
  split; [by eapply same_settled |]. destruct Hs as ((E1 & E2 & _ & E4 & _) & _ & E6). rewrite E1, E2, E4, E6, El, H5, app_assoc. done.
Qed.

Lemma write_all_wp fuel n left b events s0 (s : resources) : lending Memfd n b events s0 s ->
  wp (Late.write_all kit envelope capacity plan binding fuel n left)
    (fun _ s' => exists parts, concat parts = left /\ lending Memfd n b (events ++ map (Wrote n) parts) s0 s') (fun _ => loose) s.
Proof.
  revert left events s. induction fuel as [|fuel IH]; intros [|x left] events s L; cbn [Late.write_all];
    try (apply wp_ret; exists []; by rewrite app_nil_r); [by eapply lending_loose |].
  apply wp_bind. unfold beyond at 1. apply wp_zoom. cbn [os_write noting_native]. apply wp_bind. unfold hidden at 1. apply wp_zoom.
  unfold wp at 1. destruct (os_write n (x :: left) (outside s).1) as [[count|e] w]; cbn [fst snd].
  2: { eapply same_loose; [| | | by eapply lending_loose]; [by repeat split | done | done]. }
  apply wp_bind. unfold note. apply wp_update, wp_ret. cbn [fst snd].
  match goal with |- wp _ _ _ ?s1 => assert (lending Memfd n b (events ++ [Wrote n (take (Z.to_nat count) (x :: left))]) s0 s1) as L1 end.
  { eapply lending_noted; [| | | exact L]; [done | by repeat split | done]. }
  match goal with |- wp _ _ _ ?s1 => generalize dependent s1 end. intros s1 L1.
  apply wp_bind, wp_check; [intros [Hc _]%andb_true_iff | intros _; by eapply lending_loose].
  apply wp_bind, (wp_lending _ _ _ _ _ _ _ _ L1); [apply guard_frozen | intros [] s2 L2].
  eapply wp_mono; [apply IH, L2 | | done]. intros [] s3 (parts & Hp & L3).
  exists (take (Z.to_nat count) (x :: left) :: parts). cbn [concat map]. rewrite Hp, take_drop. split; [done |]. by rewrite <- app_assoc in L3.
Qed.

(** The memory file holds the whole credential, and was sealed after it was written. *)
Definition sealed_copy (n : Z) (s0 s : resources) : Prop := exists b parts row,
  raw s = Some b /\ concat parts = b /\ log_of s = log_of s0 ++ Made n :: map (Wrote n) parts ++ [Sealed n SEALS] /\
  lent_row Memfd (lent s) = Some row /\ io_fd row = n.

Lemma tls_memfd_wp (s : resources) : settled s ->
  wp (Late.tls_memfd kit envelope capacity plan binding known_seals) (fun n s' => settled s' /\ kept s s' /\ sealed_copy n s s')
    (fun _ s' => settled s' /\ state s' = FAILED) s.
Proof.
  intros H. unfold Late.tls_memfd. apply or_fail_wp, wp_bind, settled_guard_wp; [done | intros s1 F1 H1 Hs1 Ho1].
  apply wp_bind, may_lend_wp; [intros b Hb Hk | apply wp_bind, wp_check; [done | intros _; by apply settled_loose]].
  apply wp_bind, wp_check; [intros _ | done]. apply wp_bind, wp_check; [intros _ | intros _; by apply settled_loose].
  apply wp_bind. unfold Late.lend_memfd. apply wp_bind. unfold beyond at 1. apply wp_zoom. cbn [memfd_create noting_native]. apply wp_bind.
  unfold hidden at 1. apply wp_zoom. unfold wp at 1. destruct (memfd_create (outside s1).1) as [[[n|]|e] w]; cbn [fst snd].
  2,3: eapply same_loose; [| | | apply settled_loose, H1]; [by repeat split | done | done].
  apply wp_bind. unfold note at 1. apply wp_update, wp_ret. cbn [fst snd]. apply wp_bind, wp_update, wp_ret.
  match goal with |- wp _ _ _ ?x => assert (lending Memfd n b [Made n] s1 x) as L end.
  { by eapply (lent_lending Memfd {| io_fd := n; io_identity := None; io_socket := None; seals := 0; ready := false |} b w). }
  match goal with |- wp _ _ _ ?x => generalize dependent x end. intros s2 L2.
  apply wp_bind, wp_check; [intros _ | intros _; by eapply lending_loose].
  apply wp_bind, (wp_lending _ _ _ _ _ _ _ _ L2); [auto with late | clear s2 L2; intros now s2 L2].
  apply wp_bind, wp_check; [intros _ | intros _; by eapply lending_loose].
  apply wp_bind, (wp_lending _ _ _ _ _ _ _ _ L2); [auto with late | clear s2 L2; intros info s2 L2].
  apply wp_bind, (wp_set_lent _ _ _ _ _ _ _ _ _ L2); [by intros | clear s2 L2; intros s2 L2].
  apply wp_bind, (wp_lending _ _ _ _ _ _ _ _ L2); [apply guard_frozen | clear s2 L2; intros [] s2 L2].
  apply wp_bind, wp_reads; (destruct (raw s2) as [b'|] eqn:Er; [|by destruct L2 as (_ & _ & _ & E & _); congruence]); [intros b0 [= <-] | done].
  assert (b' = b) as -> by (destruct L2 as (_ & _ & _ & E & _); congruence).
  apply wp_bind. eapply wp_mono; [apply write_all_wp, L2 | clear s2 L2 Er; intros [] s2 (parts & Hp & L2) | done].
  apply wp_bind. unfold beyond at 1. apply wp_zoom. cbn [add_seals noting_native]. apply wp_bind. unfold hidden at 1. apply wp_zoom.
  unfold wp at 1. destruct (add_seals n SEALS (outside s2).1) as [[[]|e] w2]; cbn [fst snd].
  2: { eapply same_loose; [| | | by eapply lending_loose]; [by repeat split | done | done]. }
  unfold note. apply wp_update. cbn [fst snd].
  match goal with |- wp _ _ _ ?s3 => assert (lending Memfd n b (([Made n] ++ map (Wrote n) parts) ++ [Sealed n SEALS]) s1 s3) as L3 end.
  { eapply lending_noted; [| | | exact L2]; [done | by repeat split | done]. }
  match goal with |- wp _ _ _ ?x => generalize dependent x end. intros s3 L3.
  apply wp_bind, (wp_set_lent _ _ _ _ _ _ _ _ _ L3); [by intros | clear s3 L3; intros s3 L3].
  apply wp_bind, (wp_lending _ _ _ _ _ _ _ _ L3); [auto with late | clear s3 L3; intros info2 s3 L3].
  apply wp_bind, (wp_set_lent _ _ _ _ _ _ _ _ _ L3); [by intros | clear s3 L3; intros s3 L3].
  apply wp_bind, (wp_lending _ _ _ _ _ _ _ _ L3); [apply guard_frozen | clear s3 L3; intros [] s3 L3].
  apply wp_ret. split; [apply L3 |]. split; [by eapply lending_kept |]. destruct L3 as (_ & _ & _ & K3 & _ & K4 & (row & K5 & K6)). exists b, parts, row. split; [done |]. split; [done |]. split; [|done].
  destruct F1 as (_ & _ & _ & _ & _ & _ & _ & _ & _ & <-). rewrite K4. by rewrite <- app_assoc.
Qed.

Lemma close_memfd_wp (s : resources) : settled s ->
  wp (Late.close_memfd kit envelope capacity plan binding) (fun _ s' => settled s' /\ kept s s') (fun _ s' => settled s' /\ state s' = FAILED) s.
Proof.
  intros H. unfold Late.close_memfd. apply or_fail_wp, wp_bind, settled_guard_wp; [done | intros s1 F1 H1 Hs1 Ho1].
  apply wp_bind, wp_reads; [intros ok [= <-] | done]. apply wp_bind, wp_check; [intros _ | intros _; by apply settled_loose].
  pose proof H1 as (L & Hz & (lost & A & Hlost) & Hr & Hc & P). assert (lost = []) as -> by (apply Hlost; congruence).
  apply wp_bind. eapply wp_mono; [by apply close_io_wp | intros [] s2 (A2 & S2 & H2 & L2) | intros e s2 (extra & A2 & S2 & H2 & L2)].
  - apply settled_guard_wp; [|intros s3 F3 H3 _ _; split; [exact H3 |]].
    2: { eapply kept_onward; [by apply steady_kept, frozen_steady |]. eapply kept_onward; [by apply steady_kept | by apply steady_kept, frozen_steady]. }
    destruct S2 as (E1 & E2 & _ & E4 & _). unfold settled, phase_ok in *. rewrite E1, E2, E4, H2, L2, Hs1. rewrite Hs1 in P.
    split; [by apply others_ok |]. split; [done |]. split; [by exists [] |]. split; [|done]. intros Hn. destruct (Hr Hn) as [? ->]. done.
  - split; [rewrite L2; by apply others_ok |]. split; [by eexists |]. destruct S2 as (-> & _). by rewrite Hs1.
Qed.

(** ** Reading the credential *)

(** While the ancestry is acquired. *)
Definition acquiring (s : resources) : Prop :=
  state s = ACQUIRING /\ operation s <> None /\ raw s = None /\ lent s = [] /\ accounted [] s /\ zlen (handles s) <= 66.

Lemma acquiring_loose s : acquiring s -> loose s.
Proof.
  intros (E & _ & _ & L & A & _). unfold loose, lent_ok. rewrite L, E. split; [split; constructor |]. split; [by exists [] | done].
Qed.

Lemma frozen_acquiring s s' : frozen s s' -> acquiring s -> acquiring s'.
Proof.
  intros (E1 & E2 & _ & E4 & E5 & E6 & _ & _ & _ & E10). unfold acquiring, accounted. by rewrite E1, E2, E4, E5, E6, E10.
Qed.

Lemma wp_acquiring {A} (m : lrun A) (Q : A -> resources -> Prop) (s : resources) :
  acquiring s -> keeps frozen m -> (forall a s', frozen s s' -> acquiring s' -> Q a s') -> wp m Q (fun _ => loose) s.
Proof.
  intros H Hm HQ. apply wp_still; [done | intros a s' F; apply HQ; [done | by eapply frozen_acquiring] | intros e s' F].
  eapply acquiring_loose, frozen_acquiring; [exact F | exact H].
Qed.

Lemma identify_last_app id l r :
  identify_last id (l ++ [r]) = l ++ [{| fd := fd r; parent := parent r; name := name r; identity := Some id |}].
Proof. induction l as [|x l IH]; [done |]. cbn [app identify_last]. rewrite IH. by destruct l. Qed.

(** The last handle is of a file that may hold the credential. *)
Definition read_from (id : list Z) (s : resources) : Prop := exists row,
  last (handles s) = Some row /\ identity row = Some id /\ S_IMODE (mode_of id) = 256 /\ 0 < size_of id <= 262144.

Lemma acquire_late_wp parent names (s : resources) : acquiring s ->
  wp (Late.acquire_late kit parent names) (fun r s' => acquiring s' /\ read_from r.2 s') (fun _ => loose) s.
Proof.
  revert parent s. induction names as [|nm rest IH]; intros parent s H; cbn [Late.acquire_late]; [by apply wp_throw, acquiring_loose |].
  apply wp_bind, wp_reads; [intros room [= <-] | done]. apply wp_bind, wp_check; [intros Hroom%Z.ltb_lt | intros _; by apply acquiring_loose].
  set (directory := match rest with [] => false | _ => true end).
  apply wp_bind. unfold Late.open_handle. apply wp_bind. unfold beyond at 1. apply wp_zoom. cbn [os_open noting_custodian]. apply wp_bind.
  unfold hidden at 1. apply wp_zoom. unfold wp at 1. destruct (os_open parent nm directory (outside s).1) as [[n|e] w]; cbn [fst snd].
  2: { eapply same_loose; [| | | by apply acquiring_loose]; [by repeat split | done | done]. }
  apply wp_bind. unfold note. apply wp_update, wp_ret. cbn [fst snd]. apply wp_bind, wp_update, wp_ret.
  match goal with |- wp _ _ _ ?x => set (s1 := x) end.
  destruct H as (E1 & E2 & E3 & E4 & A & Hz).
  set (row0 := {| fd := n; Custody.parent := parent; name := nm; identity := None |}).
  assert (forall row s2, fd row = n -> state s2 = state s -> operation s2 = operation s -> raw s2 = raw s -> lent s2 = lent s ->
    handles s2 = handles s ++ [row] -> log_of s2 = log_of s ++ [Made n] -> acquiring s2) as Hacq.
  { intros row s2 Hrow F1 F2 F3 F4 F5 F6. unfold acquiring, accounted in *. rewrite F1, F2, F3, F4, F5, F6. repeat (split; [done |]).
    rewrite E4 in *. cbn [map app] in *. rewrite !app_nil_r in *. rewrite made_app, gone_app, map_app, A. cbn [made gone flat_map app map].
    rewrite Hrow. split; [solve_Permutation |]. rewrite zlen_app. change (zlen [row]) with 1. lia. }
  assert (acquiring s1) as H1 by (by apply (Hacq row0)).
  assert (handles s1 = handles s ++ [row0]) as Hh1 by done.
  assert (state s1 = state s /\ operation s1 = operation s /\ raw s1 = raw s /\ lent s1 = lent s /\ log_of s1 = log_of s ++ [Made n]) as Hf1 by done.
  clearbody s1. apply wp_bind, wp_check; [intros _ | intros _; by apply acquiring_loose].
  apply wp_bind, (wp_acquiring _ _ _ H1); [auto with late | intros info s2 F2 H2]. apply wp_bind, wp_update.
  match goal with |- wp _ _ _ ?x => set (s3 := x) end.
  set (row1 := {| fd := n; Custody.parent := parent; name := nm; identity := Some (_custody_identity info) |}).
  destruct F2 as (G1 & G2 & _ & G4 & G5 & G6 & _ & _ & _ & G10). destruct Hf1 as (J1 & J2 & J3 & J4 & J5).
  assert (handles s3 = handles s ++ [row1]) as Hh3.
  { unfold s3. cbn [with_handles handles]. rewrite G4, Hh1. apply identify_last_app. }
  assert (acquiring s3) as H3.
  { apply (Hacq row1); try done; unfold s3; cbn [with_handles state operation raw lent]; try congruence.
    change (log_of (with_handles _ s2)) with (log_of s2). congruence. }
  clearbody s3. apply wp_bind, wp_check; [intros Hobj | intros _; by apply acquiring_loose].
  apply wp_bind, (wp_acquiring _ _ _ H3); [auto with late | intros [] s4 F4 H4].
  apply wp_bind, (wp_acquiring _ _ _ H4); [auto with late | intros [] s5 F5 H5].
  destruct rest as [|nm2 rest]; [|by apply IH]. apply wp_ret. split; [done |]. exists row1. cbn [snd].
  assert (handles s5 = handles s ++ [row1]) as -> by (destruct F5 as (_ & _ & _ & -> & _), F4 as (_ & _ & _ & -> & _); done).
  split; [by rewrite last_snoc |]. split; [done |]. unfold directory, credential_object in Hobj.
  rewrite !andb_true_iff, !Z.eqb_eq, Z.ltb_lt, Z.leb_le in Hobj. change (mode_of (_custody_identity info)) with (st_mode info).
  change (size_of (_custody_identity info)) with (st_size info). tauto.
Qed.

Lemma credential_bytes_wp (s : resources) : settled s ->
  wp (Late.credential_bytes kit envelope capacity plan binding kit_root)
    (fun b s' => settled s' /\ kept s s' /\ state s' = IO_ACTIVE /\ operation s' <> None /\ raw s' = Some b /\ (forall b', raw s = Some b' -> b = b'))
    (fun _ s' => settled s' /\ state s' = FAILED) s.
Proof.
  intros H. unfold Late.credential_bytes. apply or_fail_wp, wp_bind, settled_guard_wp; [done | intros s1 F1 H1 Hs1 Ho1].
  pose proof F1 as (E1 & _ & _ & _ & _ & E6 & _).
  apply wp_bind, wp_reads; [intros known [= <-] | done]. destruct (raw s1) as [b|] eqn:Er.
  { apply wp_ret. split; [done |]. split; [by apply steady_kept, frozen_steady |]. repeat (split; [done |]). intros b' Hb. congruence. }
  pose proof H1 as (_ & Hz & (lost & A & Hlost) & Hr & _ & _). destruct (Hr Er) as [Hh Hl]. assert (lost = []) as -> by (apply Hlost; congruence).
  apply wp_bind, (wp_settled _ _ _ H1); [auto with late | intros [path e] s2 F2 H2]. apply wp_bind, wp_update.
  set (s3 := with_endpoint path e s2).
  assert (settled s3) as H3 by exact H2. assert (state s3 = IO_ACTIVE /\ operation s3 <> None /\ raw s3 = None /\ handles s3 = [] /\ lent s3 = []) as (K1 & K2 & K3 & K4 & K5).
  { destruct F2 as (G1 & G2 & _ & G4 & G5 & G6 & _). cbn. by rewrite G1, G2, G4, G5, G6. }
  clearbody s3. apply wp_bind, wp_lift; [intros p _ | intros; by apply settled_loose].
  apply wp_bind, wp_lift; [intros parts _ | intros; by apply settled_loose].
  apply wp_bind, wp_reads; [intros free [= <-] | done]. apply wp_bind, wp_check; [intros _ | intros _; by apply settled_loose].
  apply wp_bind, wp_update. set (s4 := with_state ACQUIRING s3).
  assert (acquiring s4) as H4.
  { split; [done |]. split; [done |]. split; [done |]. split; [done |]. destruct H3 as (_ & _ & (l & A3 & Hl3) & _).
    assert (l = []) as -> by (apply Hl3; congruence). split; [exact A3 |]. cbn. by rewrite K4. }
  clearbody s4. apply wp_bind. eapply wp_mono; [by apply acquire_late_wp | intros [n id] s5 [H5 R5] | done]. cbn [snd] in R5.
  apply wp_bind, wp_reads; [intros early _ | intros; by apply acquiring_loose].
  apply wp_bind, wp_check; [intros _ | intros _; by apply acquiring_loose].
  apply wp_bind, (wp_acquiring _ _ _ H5); [auto with late | intros data s6 F6 H6].
  apply wp_bind, wp_check; [intros Hd%Z.eqb_eq | intros _; by apply acquiring_loose]. apply wp_bind, wp_update.
  match goal with |- wp _ _ _ ?x => set (s7 := x) end.
  assert (settled s7) as H7.
  { destruct H6 as (G1 & G2 & G3 & G4 & G5 & G6). destruct R5 as (row & R1 & R2 & R3 & R4). destruct F6 as (_ & _ & _ & F6 & _).
    unfold settled, phase_ok, lent_ok. cbn [s7 with_state with_raw state operation handles lent raw]. rewrite G4. split; [split; constructor |].
    split; [done |]. split; [exists []; split; [exact G5 | done] |]. split; [done |]. split; [|done].
    intros b [= <-]. exists row, id. rewrite F6, Hd. done. }
  assert (raw s7 = Some data) as R7 by done. clearbody s7.
  apply wp_bind, settled_guard_wp; [done | intros s8 F8 H8 Hs8 Ho8]. apply wp_ret. split; [done |].
  assert (raw s8 = Some data) as R8 by (destruct F8 as (_ & _ & _ & _ & _ & -> & _); done).
  split; [right; rewrite <- E1, Hs1; split; [done | intros b' Hb; congruence] |]. repeat (split; [done |]). intros b' Hb. congruence.
Qed.

(** ** Calls *)

Inductive command :=
| Begin (request : value) (d : M)
| Credential
| Open_transport
| Open_memfd
| Close_memfd
| Finish
| Close.

Definition perform (c : command) (s : resources) : resources :=
  match c with
  | Begin request d => (Late.begin kit envelope capacity plan request d s).2
  | Credential => (Late.credential_bytes kit envelope capacity plan binding kit_root s).2
  | Open_transport => (Late.transport kit envelope capacity plan binding s).2
  | Open_memfd => (Late.tls_memfd kit envelope capacity plan binding known_seals s).2
  | Close_memfd => (Late.close_memfd kit envelope capacity plan binding s).2
  | Finish => (Late.finish kit s).2
  | Close => (Late.close s).2
  end.

Definition perform_all (cs : list command) (s : resources) : resources := fold_left (fun s c => perform c s) cs s.

Definition starting (w : W) : resources := absent (w, []).

Lemma failed_kept (s s' : resources) : settled s' /\ state s' = FAILED -> settled s' /\ kept s s'.
Proof. intros [H E]. split; [done | left; by rewrite E]. Qed.

Lemma perform_settled c s : settled s -> settled (perform c s) /\ kept s (perform c s).
Proof.
  intros H. destruct c; cbn [perform]; apply (wp_final _ (fun s' => settled s' /\ kept s s')).
  - by apply begin_wp.
  - eapply wp_mono; [by apply credential_bytes_wp | by intros b s' (? & ? & _) | intros e s'; apply failed_kept].
  - eapply wp_mono; [by apply transport_wp | done | intros e s'; apply failed_kept].
  - eapply wp_mono; [by apply tls_memfd_wp | by intros n s' (? & ? & _) | intros e s'; apply failed_kept].
  - eapply wp_mono; [by apply close_memfd_wp | done | intros e s'; apply failed_kept].
  - eapply wp_mono; [by apply finish_wp | by intros ? s' (? & ? & _) | done].
  - eapply wp_mono; [by apply settled_close_wp | intros ? s' (? & ? & _) | intros e s' (? & ?)]; (split; [done | by left]).
Qed.

Lemma perform_all_settled cs s : settled s -> settled (perform_all cs s) /\ kept s (perform_all cs s).
Proof.
  unfold perform_all. revert s. induction cs as [|c cs IH]; intros s H; [split; [done | apply kept_refl] |].
  destruct (perform_settled c s H) as [H1 K1]. destruct (IH _ H1) as [H2 K2]. split; [done | by eapply kept_onward].
Qed.

Lemma starting_settled w : settled (starting w).
Proof.
  unfold settled, lent_ok, phase_ok, starting, absent. cbn. split; [split; constructor |]. split; [done |].
  split; [exists []; split; [by unfold accounted | done] |]. by repeat split.
Qed.

Lemma settled_over s : settled s -> is_over (state s) = true -> tidy s.
Proof. intros (_ & _ & _ & _ & _ & P). unfold phase_ok in P. by destruct (state s). Qed.

Lemma two_kinds (l : list io_kind) : NoDup l -> zlen l <= 2.
Proof.
  intros H. destruct l as [|a [|b [|c l]]]; unfold zlen; cbn [length]; try lia. exfalso.
  apply NoDup_cons in H as [Ha H]. apply NoDup_cons in H as [Hb _]. apply not_elem_of_cons in Ha as [Hab Ha]. apply not_elem_of_cons in Ha as [Hac _].
  apply not_elem_of_cons in Hb as [Hbc _]. destruct a, b, c; congruence.
Qed.
End runs.

(** ** Properties *)

Section properties.
Context {U : Unicode} {W M : Type} {EqM : EqDecision M} {K : Custodian W} {N : Native W M}.
Context (kit : list (str * bytes)) (envelope capacity plan binding : value) (kit_root : str) (known_seals : bool).

Notation after cs w := (perform_all kit envelope capacity plan binding kit_root known_seals cs (starting w)).

(** C29: The credential lives no longer than its session, and no descriptor outlives it.  After any
    calls, however the kernel, the peer and the policy answer: the credential is there only
    while an operation is active or it is retained between two of them; nothing is lent outside
    an operation; at most 66 descriptors are held and two are lent; resources that are closed or
    have failed keep no credential, no operation and no descriptor.  Every descriptor that was
    made is gone, held or lent, unless the resources have failed; and a closing that returns has
    closed them all. *)
Theorem credential_lifetime cs (w : W) : let s := after cs w in
  (is_over (state s) = true -> raw s = None /\ operation s = None /\ handles s = [] /\ lent s = []) /\
  (raw s <> None -> state s = IO_ACTIVE \/ state s = RETAINED) /\ (operation s = None -> lent s = []) /\
  zlen (handles s) <= 66 /\ zlen (lent s) <= 2 /\
  (exists lost, made (log_of s) ≡ₚ gone (log_of s) ++ map fd (handles s) ++ map (fun e => io_fd e.2) (lent s) ++ lost /\
     (state s <> FAILED -> lost = [])) /\
  wp close (fun _ s' => raw s' = None /\ (is_over (state s) = false -> made (log_of s') ≡ₚ gone (log_of s')))
    (fun _ s' => raw s' = None) s.
Proof.
  intros s. destruct (perform_all_settled kit envelope capacity plan binding kit_root known_seals cs (starting w)
    (starting_settled w)) as [H _]. fold s in H.
  pose proof (settled_close_wp s H) as Hclose. pose proof (settled_over s H) as Hover. pose proof H as ([L1 L2] & Hz & A & Hr & _ & P).
  split; [exact Hover |]. split.
  { intros Hn. unfold phase_ok in P. destruct (state s); try (by left); try (by right); try done; destruct P as (? & _); congruence. }
  split.
  { intros Hn. destruct (raw s) eqn:E; [|by apply Hr]. unfold phase_ok in P.
    destruct (state s); try done; [destruct P; congruence | by destruct P as (_ & _ & ?) | apply P ..]. }
  split; [done |]. split; [|split; [done |]].
  { apply two_kinds in L1. unfold zlen in *. by rewrite length_map in L1. }
  eapply wp_mono; [exact Hclose | intros [] s' (H' & Ho & Hm) | intros e s' (H' & Ho)]; [split; [|done] |]; by apply settled_over.
Qed.

(** The credential is read once.  A read that returns gives the octets of the file that is held
    open last, which only its owner may read and which has their size, between one octet and
    262144; it returns only in an active operation; and every later read that returns gives the
    same octets, whatever was called in between and whatever the file holds by then.  A read
    that raises leaves nothing. *)
Theorem credential_read_once cs (w : W) :
  wp (credential_bytes kit envelope capacity plan binding kit_root)
    (fun b s' => state s' = IO_ACTIVE /\ operation s' <> None /\ credential_held (handles s') b /\
       forall cs', wp (credential_bytes kit envelope capacity plan binding kit_root) (fun b' _ => b' = b)
         (fun _ s2 => state s2 = FAILED /\ tidy s2)
         (perform_all kit envelope capacity plan binding kit_root known_seals cs' s'))
    (fun _ s' => state s' = FAILED /\ tidy s') (after cs w).
Proof.
  destruct (perform_all_settled kit envelope capacity plan binding kit_root known_seals cs (starting w) (starting_settled w)) as [H _].
  assert (forall s : late (W * list late_event) M, settled s /\ state s = FAILED -> state s = FAILED /\ tidy s) as Hfail.
  { intros s' [H' E]. split; [done | apply settled_over; [done | by rewrite E]]. }
  eapply wp_mono; [by apply credential_bytes_wp | intros b s' (H' & _ & Hs & Ho & Hr & _) | intros e s'; apply Hfail].
  split; [done |]. split; [done |]. split; [by apply H' |]. intros cs'.
  destruct (perform_all_settled kit envelope capacity plan binding kit_root known_seals cs' s' H') as [H2 K2].
  set (s2 := perform_all kit envelope capacity plan binding kit_root known_seals cs' s') in *.
  eapply wp_mono; [by apply credential_bytes_wp | intros b' s3 (_ & K3 & Hs3 & _ & _ & Hsame) | intros e s3; apply Hfail].
  destruct K2 as [Hover | [_ Hkeep]]; [|by apply Hsame, Hkeep].
  destruct K3 as [? | [? _]]; [by rewrite Hs3 in * | congruence].
Qed.

(** A memory file is lent whole and sealed.  When a memory file is given out, exactly the
    credential was written to it, in parts that follow each other, and then it was sealed
    against writing, growing, shrinking and further seals, with nothing else made, written or
    closed in between; it is the one that is lent.  When anything fails, nothing is left. *)
Theorem memfd_is_sealed_copy cs (w : W) : let s := after cs w in
  wp (tls_memfd kit envelope capacity plan binding known_seals)
    (fun n s' => exists b parts row, raw s' = Some b /\ concat parts = b /\
       log_of s' = log_of s ++ Made n :: map (Wrote n) parts ++ [Sealed n SEALS] /\
       lent_row Memfd (lent s') = Some row /\ io_fd row = n)
    (fun _ s' => state s' = FAILED /\ tidy s') s.
Proof.
  intros s. destruct (perform_all_settled kit envelope capacity plan binding kit_root known_seals cs (starting w)
    (starting_settled w)) as [H _]. fold s in H.
  eapply wp_mono; [by apply tls_memfd_wp | by intros n s' (_ & _ & Hc) | intros e s' [H' E]].
  split; [done | apply settled_over; [done | by rewrite E]].
Qed.
End properties.
