(* ===== verification/Process.v ===== *)
(** Processes as programs.  A program makes calls, one by one, and goes on with whatever is
    answered; processes that run side by side share nothing but what the calls do.  A monitor
    follows the calls of one program; what it accepts of every run is proved program by program. *)

From S2P Require Import Prelude.

#[local] Open Scope list_scope.

(** ** Programs *)

(** [Do a k] makes the call [a] and goes on with its answer, which may be an exception; [Get] and
    [Put] read and replace the memory of the process. *)
Inductive prog {action : Type} (answer : action -> Type) (Mem A : Type) : Type :=
| Return (x : A)
| Throw (e : exn)
| Do (a : action) (k : res (answer a) -> prog answer Mem A)
| Get (k : Mem -> prog answer Mem A)
| Put (m : Mem) (k : prog answer Mem A).
Arguments Return {action answer Mem A}. Arguments Throw {action answer Mem A}. Arguments Do {action answer Mem A}.
Arguments Get {action answer Mem A}. Arguments Put {action answer Mem A}.

Section programs.
Context {action : Type} {answer : action -> Type} {Mem : Type}.
#[local] Notation program := (prog answer Mem).

#[export] Instance prog_ret : MRet (prog answer Mem) := fun A x => Return x.

#[export] Instance prog_bind : MBind (prog answer Mem) := fun A B f =>
  fix go (p : prog answer Mem A) : prog answer Mem B :=
    match p with
    | Return x => f x
    | Throw e => Throw e
    | Do a k => Do a (fun r => go (k r))
    | Get k => Get (fun m => go (k m))
    | Put m k => Put m (go k)
    end.

(** A result, a call whose exception is raised, the memory, and [require]. *)
Definition pure {A} (r : res A) : program A := match r with Ok x => Return x | Raise e => Throw e end.
Definition call (a : action) : program (answer a) := Do a pure.
Definition self : program Mem := Get Return.
Definition assign (f : Mem -> Mem) : program unit := Get (fun m => Put (f m) (Return tt)).
Definition need (b : bool) (code : string) : program unit := pure (require b code).

(** The outcome as a value: [try: r = m except BaseException as exc: r = exc]. *)
Fixpoint outcome {A} (m : program A) : program (res A) :=
  match m with
  | Return x => Return (Ok x)
  | Throw e => Return (Raise e)
  | Do a k => Do a (fun r => outcome (k r))
  | Get k => Get (fun s => outcome (k s))
  | Put s k => Put s (outcome k)
  end.

(** [try: m except BaseException as e: h e], [try: m finally: f], and a handler that raises again. *)
Definition handle {A} (m : program A) (h : exn -> program A) : program A :=
  r ← outcome m; match r with Ok x => Return x | Raise e => h e end.
Definition ensure {A} (m : program A) (f : program unit) : program A := r ← outcome m; f ;; pure r.
Definition on_failure {A} (m : program A) (h : program unit) : program A := handle m (fun e => h ;; Throw e).

Fixpoint for_all {A} (f : A -> program unit) (l : list A) : program unit :=
  match l with [] => Return tt | x :: l => f x ;; for_all f l end.

(** ** Monitors *)

(** A monitor says what must hold of the rest of a run when a call is answered, which is [K] at
    the monitor's next state; [False] when the call must not be made. *)
Context {Mo : Type} (watch : forall a : action, res (answer a) -> Mo -> (Mo -> Prop) -> Prop).
Hypothesis watch_mono : forall a r m (K K' : Mo -> Prop), (forall m', K m' -> K' m') -> watch a r m K -> watch a r m K'.

(** Every run of a program is accepted, and ends as [Q] and [E] say. *)
Fixpoint obeys {A} (p : program A) (Q : A -> Mem -> Mo -> Prop) (E : exn -> Mem -> Mo -> Prop) (s : Mem) (m : Mo) : Prop :=
  match p with
  | Return x => Q x s m
  | Throw e => E e s m
  | Do a k => forall r, watch a r m (fun m' => obeys (k r) Q E s m')
  | Get k => obeys (k s) Q E s m
  | Put s' k => obeys k Q E s' m
  end.

Lemma obeys_mono {A} (p : program A) (Q Q' : A -> Mem -> Mo -> Prop) (E E' : exn -> Mem -> Mo -> Prop) s m :
  obeys p Q E s m -> (forall x s m, Q x s m -> Q' x s m) -> (forall e s m, E e s m -> E' e s m) -> obeys p Q' E' s m.
Proof.
  intros H HQ HE. revert s m H. induction p as [x|e|a k IH|k IH|s' k IH]; intros s m H; cbn [obeys] in *; auto.
  intros r. eapply watch_mono; [|apply H]. auto.
Qed.

Lemma obeys_bind {A B} (p : program A) (f : A -> program B) Q E s m :
  obeys p (fun x s m => obeys (f x) Q E s m) E s m -> obeys (p ≫= f) Q E s m.
Proof.
  revert s m. induction p as [x|e|a k IH|k IH|s' k IH]; intros s m H; cbn [obeys mbind prog_bind] in *; auto.
  intros r. eapply watch_mono; [|apply H]. auto.
Qed.

Lemma obeys_outcome {A} (p : program A) Q E s m :
  obeys p (fun x => Q (Ok x)) (fun e => Q (Raise e)) s m -> obeys (outcome p) Q E s m.
Proof.
  revert s m. induction p as [x|e|a k IH|k IH|s' k IH]; intros s m H; cbn [obeys outcome] in *; auto.
  intros r. eapply watch_mono; [|apply H]. auto.
Qed.

Lemma obeys_pure {A} (r : res A) (Q : A -> Mem -> Mo -> Prop) (E : exn -> Mem -> Mo -> Prop) s m :
  (forall x, r = Ok x -> Q x s m) -> (forall e, r = Raise e -> E e s m) -> obeys (pure r) Q E s m.
Proof. destruct r; cbn; auto. Qed.

Lemma obeys_call (a : action) Q E s m :
  (forall r, watch a r m (fun m' => match r with Ok x => Q x s m' | Raise e => E e s m' end)) -> obeys (call a) Q E s m.
Proof. intros H r. eapply watch_mono; [|apply H]. by destruct r. Qed.

Lemma obeys_need b c (Q : unit -> Mem -> Mo -> Prop) (E : exn -> Mem -> Mo -> Prop) s m :
  (b = true -> Q tt s m) -> (b = false -> E (ConformanceError c) s m) -> obeys (need b c) Q E s m.
Proof. unfold need. destruct b; cbn; auto. Qed.

Lemma obeys_handle {A} (p : program A) h Q E s m :
  obeys p Q (fun e s m => obeys (h e) Q E s m) s m -> obeys (handle p h) Q E s m.
Proof. intros H. unfold handle. apply obeys_bind, obeys_outcome. exact H. Qed.

Lemma obeys_ensure {A} (p : program A) f Q E s m :
  obeys p (fun x => obeys f (fun _ => Q x) E) (fun e => obeys f (fun _ => E e) E) s m -> obeys (ensure p f) Q E s m.
Proof.
  intros H. unfold ensure. apply obeys_bind, obeys_outcome. eapply obeys_mono; [exact H | |]; intros ? s' m' H'; by apply obeys_bind.
Qed.

Lemma obeys_on_failure {A} (p : program A) h Q E s m :
  obeys p Q (fun e => obeys h (fun _ => E e) E) s m -> obeys (on_failure p h) Q E s m.
Proof.
  intros H. unfold on_failure. apply obeys_handle. eapply obeys_mono; [exact H | done |]. intros e s' m' H'. by apply obeys_bind.
Qed.

(** A loop over a list keeps an invariant. *)
Lemma obeys_for_all {A} (f : A -> program unit) l (I : Mem -> Mo -> Prop) (E : exn -> Mem -> Mo -> Prop) s m :
  I s m -> (forall x s m, In x l -> I s m -> obeys (f x) (fun _ => I) E s m) -> obeys (for_all f l) (fun _ => I) E s m.
Proof.
  revert s m. induction l as [|x l IH]; intros s m Hi H; cbn [for_all]; [exact Hi |]. apply obeys_bind.
  eapply obeys_mono; [apply H; [by left | done] | | auto]. intros [] s' m' Hi'. apply IH; [done |]. intros; apply H; [by right | done].
Qed.
End programs.

(** ** Traces *)

(** A call and its answer; the calls of a run, in order.  A call that cannot answer so does not. *)
Inductive event {action : Type} (answer : action -> Type) : Type := Event (a : action) (r : res (answer a)).
Arguments Event {action answer}.

Section traces.
Context {action : Type} {answer : action -> Type} {Mem : Type} (possible : forall a : action, res (answer a) -> bool).

Definition noting (a : action) (r : res (answer a)) (t : list (event answer)) (K : list (event answer) -> Prop) : Prop :=
  possible a r = true -> K (t ++ [Event a r]).

Lemma noting_mono a r t (K K' : list (event answer) -> Prop) : (forall t', K t' -> K' t') -> noting a r t K -> noting a r t K'.
Proof. unfold noting. auto. Qed.

(** The runs of a program from a memory: how they end, and the calls they made. *)
Definition runs {A} (p : prog answer Mem A) (Q : A -> Mem -> list (event answer) -> Prop) (E : exn -> Mem -> list (event answer) -> Prop)
    (m : Mem) (t : list (event answer)) : Prop := obeys noting p Q E m t.
End traces.
