(* ===== verification/Channel.v ===== *)
(** live_supervisor.py and live_linux_boundary.py: the native channel, [_NativeChannel], with the
    system calls and the cgroup lease it works with.  A method is a program ([Process]); [establish]
    forks, so one program is what the supervisor, the child and the init of its namespaces run. *)

From S2P Require Import Prelude Effects PyVal Utf8 Json Sha2 Canonical Text SchemaBase Lifecycle LinuxShape Live.
From S2P Require Import LinuxVerify Session Posix Custody Supervisor Boundary Process.

#[local] Open Scope string_scope.
#[local] Open Scope list_scope.
#[local] Open Scope Z_scope.

(** ** Calls *)

(** A file by the name it is opened under: a field of the cgroup, or a file of a process. *)
Inductive place := Field (name : string) | Proc (pid : Z) (name : string).

(** A descriptor, known by what made it: the two ends of the socket pair and of the pipe, an
    opened file, or any other number. *)
Inductive desc := ParentEnd | ChildEnd | GateRead | GateWrite | File (p : place) (n : Z) | Plain (n : Z).

(** What the code asks of the kernel, of the clock, of the object's flag that another thread may
    set, and of the objects around it.  The length of a timeout is not modelled. *)
Inductive sys (M : Type) :=
| Socketpair | Pass_credentials (d : desc) | Pipe2 | Fork | Exit (code : Z) | Getpid | Getppid
| Clear_environment | Close (d : desc) | Closerange (from to : Z) | Fileno (d : desc) | Fstat (d : desc)
| Open (dir : option Z) (p : place) | Read (d : desc) (n : Z) | Write (d : desc) (b : bytes)
| Send (d : desc) (b : bytes) | Recv (d : desc) (n : Z) | Recvmsg (d : desc) (n : Z) | Settimeout (d : desc)
| Prctl (option value : Z) | Drop_bounding (capability : Z) | Capset (data : list Z) | Filter (rules : list insn)
| Unshare (flags : Z) | Mount (source : option bytes) (target : bytes) (flags : Z) | Mount_setattr (path : bytes) (flags : Z) (attr : list Z)
| Chroot (path : bytes) | Chdir (path : bytes) | Fchdir (n : Z)
| Setgroups (l : list Z) | Setresgid (r e s : Z) | Setresuid (r e s : Z)
| Waitpid (pid : Z) | Wait_any | Pidfd_open (pid : Z) | Readable (n : Z)
| Open_directory (path : string) | Statfs (n : Z) | Uname | Installed_process
| Monotonic_clock | Sleep | Cancelled | Set_cancelled | Procfs_now | Own_namespace (name : string)
| Owner_kinds | Owner_now | Check_ambient | Is_context | Custody_close
| Deadline_unchanged (d : M) | Begin_resources (request : value) (d : M) | Execute_protected (request : value) (d : M)
| Holds_credential | Require_policy | Finish_resources | Fail_resources.
Arguments Socketpair {M}. Arguments Pass_credentials {M}. Arguments Pipe2 {M}. Arguments Fork {M}. Arguments Exit {M}.
Arguments Getpid {M}. Arguments Getppid {M}. Arguments Clear_environment {M}. Arguments Close {M}. Arguments Closerange {M}.
Arguments Fileno {M}. Arguments Fstat {M}. Arguments Open {M}. Arguments Read {M}. Arguments Write {M}. Arguments Send {M}.
Arguments Recv {M}. Arguments Recvmsg {M}. Arguments Settimeout {M}. Arguments Prctl {M}. Arguments Drop_bounding {M}.
Arguments Capset {M}. Arguments Filter {M}. Arguments Unshare {M}. Arguments Mount {M}. Arguments Mount_setattr {M}.
Arguments Chroot {M}. Arguments Chdir {M}. Arguments Fchdir {M}. Arguments Setgroups {M}. Arguments Setresgid {M}.
Arguments Setresuid {M}. Arguments Waitpid {M}. Arguments Wait_any {M}. Arguments Pidfd_open {M}. Arguments Readable {M}.
Arguments Open_directory {M}. Arguments Statfs {M}. Arguments Uname {M}. Arguments Installed_process {M}.
Arguments Monotonic_clock {M}. Arguments Sleep {M}. Arguments Cancelled {M}. Arguments Set_cancelled {M}.
Arguments Procfs_now {M}. Arguments Own_namespace {M}. Arguments Owner_kinds {M}. Arguments Owner_now {M}.
Arguments Check_ambient {M}. Arguments Is_context {M}. Arguments Custody_close {M}. Arguments Deadline_unchanged {M}.
Arguments Begin_resources {M}. Arguments Execute_protected {M}. Arguments Holds_credential {M}. Arguments Require_policy {M}.
Arguments Finish_resources {M}. Arguments Fail_resources {M}.

(** What a call answers.  [Recv] and [Recvmsg] answer [None] when the timeout is reached,
    [Wait_any] when there is no child, [Drop_bounding] [false] when there is no such capability
    (EINVAL); [Procfs_now] is what /proc shows. *)
Definition answer {M : Type} (a : sys M) : Type :=
  match a with
  | Fork | Getpid | Getppid | Fileno _ | Open _ _ | Write _ _ | Pidfd_open _ | Open_directory _ | Statfs _ | Own_namespace _ => Z
  | Exit _ => Empty_set
  | Fstat _ => full_stat
  | Read _ _ => bytes
  | Recv _ _ => option bytes
  | Recvmsg _ _ => option (bytes * list message * Z)
  | Wait_any => option Z
  | Uname => str
  | Monotonic_clock => M
  | Procfs_now => Procfs
  | Execute_protected _ _ => data
  | Drop_bounding _ | Readable _ | Cancelled | Owner_kinds | Is_context | Deadline_unchanged _ | Holds_credential => bool
  | _ => unit
  end.

(** The fields of the channel, and of the lease it holds. *)
Record native (M : Type) := {
  deadline : option M; socket : bool; child_pid : option Z; pidfd : option Z; peer : option identity; channel_identity : option Z;
  root_fd : option Z; parent_namespaces : list (str * Z); lease_fd : Z; lease_closed : bool; owned : bool
}.
Arguments deadline {M}. Arguments socket {M}. Arguments child_pid {M}. Arguments pidfd {M}. Arguments peer {M}.
Arguments channel_identity {M}. Arguments root_fd {M}. Arguments parent_namespaces {M}. Arguments lease_fd {M}.
Arguments lease_closed {M}. Arguments owned {M}.

(** ** The reference order *)

(** [UnitBoundary]: the steps of a boundary, in order, over any system calls; it never claims a
    native acceptance. *)
(* @src src/src/harness_conformance/live_linux_boundary.py:502-503 UnitBoundary.establish *)
Definition UNIT_STEPS : list string :=
  ["parent_death"; "cgroup_attach"; "user_mount_pid_network_namespaces"; "uid_gid_maps"; "readonly_root"; "close_ambient_fds";
   "drop_capabilities"; "no_new_privs"; "seccomp"; "peer_check"].

(* @src src/src/harness_conformance/live_linux_boundary.py:494-505 UnitBoundary *)
Definition unit_establish {W} (step : string -> io W unit) : io W value :=
  io_fold (fun _ s => step s) tt UNIT_STEPS ;;
  mret (VDict [(u "evidenceClass", VStr (u "UNIT_VERIFICATION_ONLY")); (u "nativeAcceptance", VBool false)]).

Section channel.
Context {U : Unicode} {M : Type} {Mo : Monotonic M}.

#[local] Notation program := (prog (@answer M) (native M)).

Definition call (a : sys M) : program (answer a) := Process.call a.

Definition set_deadline (d : M) (s : native M) : native M :=
  {| deadline := Some d; socket := socket s; child_pid := child_pid s; pidfd := pidfd s; peer := peer s;
     channel_identity := channel_identity s; root_fd := root_fd s; parent_namespaces := parent_namespaces s; lease_fd := lease_fd s;
     lease_closed := lease_closed s; owned := owned s |}.
Definition set_socket (b : bool) (s : native M) : native M :=
  {| deadline := deadline s; socket := b; child_pid := child_pid s; pidfd := pidfd s; peer := peer s;
     channel_identity := channel_identity s; root_fd := root_fd s; parent_namespaces := parent_namespaces s; lease_fd := lease_fd s;
     lease_closed := lease_closed s; owned := owned s |}.
Definition set_child (p : Z) (s : native M) : native M :=
  {| deadline := deadline s; socket := socket s; child_pid := Some p; pidfd := pidfd s; peer := peer s;
     channel_identity := channel_identity s; root_fd := root_fd s; parent_namespaces := parent_namespaces s; lease_fd := lease_fd s;
     lease_closed := lease_closed s; owned := owned s |}.
Definition set_pidfd (o : option Z) (s : native M) : native M :=
  {| deadline := deadline s; socket := socket s; child_pid := child_pid s; pidfd := o; peer := peer s;
     channel_identity := channel_identity s; root_fd := root_fd s; parent_namespaces := parent_namespaces s; lease_fd := lease_fd s;
     lease_closed := lease_closed s; owned := owned s |}.
Definition set_peer (id : identity) (s : native M) : native M :=
  {| deadline := deadline s; socket := socket s; child_pid := child_pid s; pidfd := pidfd s; peer := Some id;
     channel_identity := channel_identity s; root_fd := root_fd s; parent_namespaces := parent_namespaces s; lease_fd := lease_fd s;
     lease_closed := lease_closed s; owned := owned s |}.
Definition set_identity (n : Z) (s : native M) : native M :=
  {| deadline := deadline s; socket := socket s; child_pid := child_pid s; pidfd := pidfd s; peer := peer s;
     channel_identity := Some n; root_fd := root_fd s; parent_namespaces := parent_namespaces s; lease_fd := lease_fd s;
     lease_closed := lease_closed s; owned := owned s |}.
Definition set_root (o : option Z) (s : native M) : native M :=
  {| deadline := deadline s; socket := socket s; child_pid := child_pid s; pidfd := pidfd s; peer := peer s;
     channel_identity := channel_identity s; root_fd := o; parent_namespaces := parent_namespaces s; lease_fd := lease_fd s;
     lease_closed := lease_closed s; owned := owned s |}.
Definition set_lease (n : Z) (closed owns : bool) (s : native M) : native M :=
  {| deadline := deadline s; socket := socket s; child_pid := child_pid s; pidfd := pidfd s; peer := peer s;
     channel_identity := channel_identity s; root_fd := root_fd s; parent_namespaces := parent_namespaces s; lease_fd := n;
     lease_closed := closed; owned := owns |}.

(** ** The system calls *)

Definition PR_SET_PDEATHSIG : Z := 1.
Definition PR_SET_DUMPABLE : Z := 4.
Definition PR_SET_NO_NEW_PRIVS : Z := 38.
Definition PR_SET_CHILD_SUBREAPER : Z := 36.
Definition SIGKILL : Z := 9.
Definition MS_PRIVATE : Z := 2 ^ 18.
Definition MS_REC : Z := 16384.
Definition MS_BIND : Z := 4096.
Definition CGROUP2_MAGIC : Z := 0x63677270.

(* @src src/src/harness_conformance/live_linux_boundary.py:292-295 LinuxSyscalls.__init__ *)
Definition linux_syscalls : program str :=
  call Installed_process ;;
  machine ← call Uname;
  need (match dget machine ARCHES with Some _ => true | None => false end) "LINUX_ARCHITECTURE_UNAVAILABLE" ;;
  mret machine.

(* @src src/src/harness_conformance/live_linux_boundary.py:317-319 LinuxSyscalls.protect_parent *)
Definition protect_parent (parent_pid : Z) : program unit :=
  call (Prctl PR_SET_PDEATHSIG SIGKILL) ;;
  now ← call Getppid;
  need (now =? parent_pid) "SUPERVISOR_PARENT_DIED".

(* @src src/src/harness_conformance/live_linux_boundary.py:321-322 LinuxSyscalls.namespaces *)
Definition namespaces : program unit :=
  call (Unshare (Z.lor (Z.lor (Z.lor CLONE_NEWUSER CLONE_NEWNS) CLONE_NEWPID) CLONE_NEWNET)).

(* @src src/src/harness_conformance/live_linux_boundary.py:324-327 LinuxSyscalls.require_cgroup2 *)
Definition require_cgroup2 (n : Z) : program unit :=
  type ← call (Statfs n);
  need (type =? CGROUP2_MAGIC) "CGROUP_FILESYSTEM_REQUIRED".

(* @src src/src/harness_conformance/live_linux_boundary.py:329-337 LinuxSyscalls.readonly_root *)
Definition readonly_root (root : option Z) : program unit :=
  call (Mount None (u "/") (Z.lor MS_REC MS_PRIVATE)) ;;
  n ← pure (match root with Some n => Ok n | None => Raise TypeError end);
  call (Fchdir n) ;;
  call (Mount (Some (u ".")) (u ".") (Z.lor MS_BIND MS_REC)) ;;
  call (Mount_setattr (u ".") 0x8000 [Z.lor (Z.lor 1 2) 4; 0; 0; 0]) ;;
  call (Chroot (u ".")) ;;
  call (Chdir (u "/")).

(* @src src/src/harness_conformance/live_linux_boundary.py:339-348 LinuxSyscalls.drop_privileges *)
Definition drop_privileges : program unit :=
  call (Prctl PR_SET_NO_NEW_PRIVS 1) ;;
  call (Prctl PR_SET_DUMPABLE 0) ;;
  for_all (fun capability => call (Drop_bounding capability) ;; mret tt) (map Z.of_nat (seq 0 64)) ;;
  call (Capset (repeat 0 6)).

(* @src src/src/harness_conformance/live_linux_boundary.py:351-355 LinuxSyscalls.seccomp *)
Definition install_filter (machine : str) : program unit :=
  rules ← pure (seccomp_program machine);
  call (Filter rules).

(** ** The cgroup lease *)

(* @src src/src/harness_conformance/live_linux_boundary.py:453-457 CgroupLease._field_custody *)
Definition _field_custody (d : desc) : program unit :=
  info ← call (Fstat d);
  (if S_ISREG (st_mode info) && (st_uid info =? 0) && (st_gid info =? 0) then
     o ← self;
     own ← call (Fstat (Plain (lease_fd o)));
     need ((st_dev info =? st_dev own) && (Z.land (S_IMODE (st_mode info)) OTHERS_WRITE =? 0)) "CGROUP_FIELD_CUSTODY_INVALID"
   else need false "CGROUP_FIELD_CUSTODY_INVALID").

(** A field is opened, its custody checked, used and closed. *)
Definition with_field {A} (name : string) (use : desc -> program A) : program A :=
  o ← self;
  n ← call (Open (Some (lease_fd o)) (Field name));
  ensure (_field_custody (File (Field name) n) ;; use (File (Field name) n)) (call (Close (File (Field name) n))).

Definition named (name : string) (l : list string) : bool := existsb (String.eqb name) l.

(* @src src/src/harness_conformance/live_linux_boundary.py:435-442 CgroupLease.read *)
Definition read_field (name : string) : program bytes :=
  need (named name ["cgroup.type"; "cgroup.events"; "memory.max"; "pids.max"; "cpu.max"]) "CGROUP_FIELD_INVALID" ;;
  with_field name (fun d => call (Read d 4096)).

(* @src src/src/harness_conformance/live_linux_boundary.py:444-451 CgroupLease.write *)
Definition write_field (name : string) (b : bytes) : program unit :=
  need (named name ["cgroup.procs"; "cgroup.kill"]) "CGROUP_FIELD_INVALID" ;;
  with_field name (fun d => count ← call (Write d b); need (count =? zlen b) "CGROUP_WRITE_FAILED").

(* @src src/src/harness_conformance/live_linux_boundary.py:488-491 CgroupLease.close *)
Definition close_lease : program unit :=
  o ← self;
  if lease_closed o then mret tt
  else call (Close (Plain (lease_fd o))) ;; assign (fun s => set_lease (lease_fd s) true (owned s) s).

(** [raw.isdigit() and int(raw) > 0]. *)
Definition positive (raw : bytes) : res bool :=
  match raw with
  | [] => Ok false
  | _ => if forallb (fun c => (48 <=? c)%N && (c <=? 57)%N) raw then n ← int_text 10 raw; Ok (0 <? n) else Ok false
  end.

Definition CGROUP : string := "/sys/fs/cgroup/planeon-live/session".
Definition POPULATED_0 : bytes := u "populated 0".

(* @src src/src/harness_conformance/live_linux_boundary.py:426-428 CgroupLease.__init__ *)
Definition limited (name : string) : program unit :=
  raw ← read_field name;
  pure (require_m (positive (strip octet_space raw)) "CGROUP_LIMIT_REQUIRED").

(* @src src/src/harness_conformance/live_linux_boundary.py:417-433 CgroupLease.__init__ *)
Definition take_lease : program unit :=
  _ ← linux_syscalls;
  fd ← call (Open_directory CGROUP);
  assign (set_lease fd false false) ;;
  on_failure
    (require_cgroup2 fd ;;
     type ← read_field "cgroup.type";
     need (str_eqb type (u "domain" ++ [10%N])) "CGROUP_TYPE_INVALID" ;;
     events ← read_field "cgroup.events";
     need (zlen (List.filter (str_eqb POPULATED_0) (splitlines octet_line_end events)) =? 1) "CGROUP_NOT_EMPTY" ;;
     for_all limited ["memory.max"; "pids.max"] ;;
     raw ← read_field "cpu.max";
     let cpu := words octet_space raw in
     pure (require_m (Ok (zlen cpu =? 2) <&&> all_m positive cpu) "CGROUP_LIMIT_REQUIRED"))
    (call (Close (Plain fd))).

(* @src src/src/harness_conformance/live_linux_boundary.py:459-464 CgroupLease.attach *)
Definition attach (pid : Z) : program unit :=
  o ← self;
  need ((1 <? pid) && negb (owned o)) "CGROUP_ATTACH_INVALID" ;;
  assign (fun s => set_lease (lease_fd s) (lease_closed s) true s) ;;
  write_field "cgroup.procs" (dec_Z pid).

(** The children that have ended are waited for; whether none is left. *)
(* @src src/src/harness_conformance/live_linux_boundary.py:473-481 CgroupLease.kill_and_reap *)
Fixpoint drain (fuel : nat) : program bool :=
  match fuel with
  | O => Throw RecursionError
  | S fuel =>
      waited ← call Wait_any;
      match waited with
      | None => mret true
      | Some 0 => mret false
      | Some _ => drain fuel
      end
  end.

(* @src src/src/harness_conformance/live_linux_boundary.py:469-486 CgroupLease.kill_and_reap *)
Fixpoint reap (fuel : nat) (until : M) : program unit :=
  match fuel with
  | O => Throw RecursionError
  | S rest =>
      now ← call Monotonic_clock;
      if tick_ltb now until then
        no_children ← drain fuel;
        events ← read_field "cgroup.events";
        if existsb (str_eqb POPULATED_0) (splitlines octet_line_end events) && no_children then close_lease
        else call Sleep ;; reap rest until
      else need false "DESCENDANTS_NOT_REAPED"
  end.

(* @src src/src/harness_conformance/live_linux_boundary.py:466-486 CgroupLease.kill_and_reap *)
Definition kill_and_reap (fuel : nat) (until : M) : program unit :=
  o ← self;
  need (owned o && negb (lease_closed o)) "CGROUP_NOT_OWNED" ;;
  write_field "cgroup.kill" (u "1") ;;
  reap fuel until.

(** ** Receiving *)

(** The descriptors of a message are closed whatever else it holds; an [OSError] of a closing
    makes the message no more unexpected than it is. *)
(* @src src/src/harness_conformance/live_supervisor.py:354-355 _NativeChannel._receive *)
Definition peer_credentials (ancillary : list message) (flags : Z) : program (list Z) :=
  let (r, received) := credentials ancillary flags [] in
  for_all (fun n => handle (call (Close (Plain n))) (fun e => match e with OSError => mret tt | _ => Throw e end)) received ;;
  pure r.

Definition the_deadline : program M :=
  o ← self; pure (match deadline o with Some d => Ok d | None => Raise AttributeError end).

(** The socket, which is [None] before [establish] and after [cleanup]. *)
Definition the_socket : program desc :=
  o ← self; pure (if socket o then Ok ParentEnd else Raise AttributeError).

(* @src src/src/harness_conformance/live_supervisor.py:352-360 _NativeChannel._receive *)
Fixpoint receive_until (fuel : nat) (size : Z) : program (bytes * list Z) :=
  match fuel with
  | O => Throw RecursionError
  | S fuel =>
      now ← call Monotonic_clock;
      d ← the_deadline;
      going ← (if tick_ltb now d then cancelled ← call Cancelled; mret (negb cancelled) else mret false);
      if (going : bool) then
        sock ← the_socket;
        got ← call (Recvmsg sock size);
        match got with
        | None => receive_until fuel size
        | Some (raw, ancillary, flags) =>
            cred ← peer_credentials ancillary flags;
            need (match raw with [] => false | _ => true end) "CHILD_CHANNEL_EOF" ;;
            mret (raw, cred)
        end
      else need false "SUPERVISOR_EXPIRED" ;; Throw ValueError
  end.

(* @src src/src/harness_conformance/live_supervisor.py:348-360 _NativeChannel._receive *)
Definition _receive (fuel : nat) (size : Z) : program (bytes * list Z) :=
  d ← the_deadline;
  now ← call Monotonic_clock;
  (if tick_ltb now d then cancelled ← call Cancelled; need (negb cancelled) "SUPERVISOR_EXPIRED" else need false "SUPERVISOR_EXPIRED") ;;
  sock ← the_socket;
  call (Settimeout sock) ;;
  receive_until fuel size.

(** ** The channel *)

Definition channel_kinds : list string := ["user"; "mnt"; "pid"; "net"].

(* @src src/src/harness_conformance/live_supervisor.py:246-250 _NativeChannel.__init__ *)
Definition new_channel (root : option Z) (lease : native M) : program (native M) :=
  let fix inodes (l : list string) : program (list (str * Z)) :=
    match l with
    | [] => mret []
    | name :: l => i ← call (Own_namespace name); rest ← inodes l; mret ((u name, i) :: rest)
    end in
  parents ← inodes channel_kinds;
  mret {| deadline := None; socket := false; child_pid := None; pidfd := None; peer := None; channel_identity := None;
          root_fd := root; parent_namespaces := parents; lease_fd := lease_fd lease; lease_closed := lease_closed lease;
          owned := owned lease |}.

Definition identify (pid : Z) : program identity :=
  proc ← call Procfs_now; pure (process_identity (P := proc) (VInt pid)).

Definition channel_inode : program Z :=
  sock ← the_socket;
  n ← call (Fileno sock);
  info ← call (Fstat (Plain n));
  mret (st_ino info).

(* @src src/src/harness_conformance/live_supervisor.py:362-370 _NativeChannel.check_peer *)
Definition check_peer : program unit :=
  kinds ← call Owner_kinds;
  need kinds "CUSTODY_CONTEXT_INVALID" ;;
  call Owner_now ;;
  o ← self;
  match peer o with
  | None => need false "PEER_CHANNEL_CHANGED"
  | Some expected =>
      cancelled ← call Cancelled;
      need (negb cancelled) "PEER_CHANNEL_CHANGED" ;;
      inode ← channel_inode;
      need (bool_decide (Some inode = channel_identity o)) "PEER_CHANNEL_CHANGED" ;;
      fd ← pure (match pidfd o with Some n => Ok n | None => Raise TypeError end);
      ended ← call (Readable fd);
      need (negb ended) "PEER_DIED" ;;
      observed ← identify (pid expected);
      pure (validate_peer observed expected (parent_namespaces o)) ;;
      call Check_ambient
  end.

(** [os._exit(code)], which does not return. *)
Definition _exit {A} (code : Z) : program A := never ← call (Exit code); match (never : Empty_set) with end.

(** The custodian holds the channel until the deadline, the end of the channel or an octet other
    than [P]. *)
(* @src src/src/harness_conformance/live_supervisor.py:313-317 _NativeChannel.establish *)
Fixpoint serve (fuel : nat) (until : M) : program unit :=
  match fuel with
  | O => Throw RecursionError
  | S fuel =>
      now ← call Monotonic_clock;
      if tick_ltb now until then
        _ ← call Monotonic_clock;
        call (Settimeout ChildEnd) ;;
        raw ← call (Recv ChildEnd 1);
        raw ← pure (match raw with Some b => Ok b | None => Raise OSError end);
        if str_eqb raw (u "P") then call (Send ChildEnd (u "P")) ;; serve fuel until else mret tt
      else mret tt
  end.

(** The init of the namespaces. *)
(* @src src/src/harness_conformance/live_supervisor.py:294-318 _NativeChannel.establish *)
Definition init (fuel : nat) (machine : str) (until : M) (parent_identity_fd : Z) : program unit :=
  call (Prctl PR_SET_PDEATHSIG SIGKILL) ;;
  ended ← call (Readable parent_identity_fd);
  need (negb ended) "SUPERVISOR_PARENT_DIED" ;;
  call (Close (Plain parent_identity_fd)) ;;
  o ← self;
  readonly_root (root_fd o) ;;
  channel_fd ← call (Fileno ChildEnd);
  call (Closerange 0 channel_fd) ;;
  call (Closerange (channel_fd + 1) 1048576) ;;
  drop_privileges ;;
  install_filter machine ;;
  call (Send ChildEnd (u "READY")) ;;
  serve fuel until ;;
  _exit 0.

(** The child: gated until it is in the cgroup, then until its ids are mapped. *)
(* @src src/src/harness_conformance/live_supervisor.py:271-320 _NativeChannel.establish *)
Definition child (fuel : nat) (machine : str) (until : M) (supervisor_pid : Z) : program unit :=
  handle
    (call Clear_environment ;;
     call (Close ParentEnd) ;;
     call (Close GateWrite) ;;
     protect_parent supervisor_pid ;;
     gate ← call (Read GateRead 1);
     need (str_eqb gate (u "G")) "CHILD_GATE_CLOSED" ;;
     call (Close GateRead) ;;
     call (Setgroups []) ;;
     namespaces ;;
     call (Send ChildEnd (u "MAP")) ;;
     raw ← call (Recv ChildEnd 1);
     raw ← pure (match raw with Some b => Ok b | None => Raise OSError end);
     need (str_eqb raw (u "M")) "CHILD_MAP_GATE_CLOSED" ;;
     call (Setresgid 0 0 0) ;;
     call (Setresuid 0 0 0) ;;
     protect_parent supervisor_pid ;;
     me ← call Getpid;
     parent_identity_fd ← call (Pidfd_open me);
     forked ← call Fork;
     if negb (forked =? 0) then
       call (Close (Plain parent_identity_fd)) ;;
       call (Close ChildEnd) ;;
       call (Waitpid forked) ;;
       _exit 0
     else init fuel machine until parent_identity_fd)
    (fun _ => _exit 125).

(** A file of the owned child that maps its ids. *)
(* @src src/src/harness_conformance/live_supervisor.py:334-338 _NativeChannel.establish *)
Definition write_map (pid : Z) (entry : string * bytes) : program unit :=
  fd ← call (Open None (Proc pid entry.1));
  ensure (count ← call (Write (File (Proc pid entry.1) fd) entry.2); need (count =? zlen entry.2) "CHILD_MAP_WRITE_FAILED")
    (call (Close (File (Proc pid entry.1) fd))).

(* @src src/src/harness_conformance/live_supervisor.py:331-332 _NativeChannel.establish *)
Definition id_maps : list (string * bytes) :=
  [("setgroups", u "deny"); ("uid_map", u "0 65532 1"); ("gid_map", u "0 65532 1")].

(* @src src/src/harness_conformance/live_supervisor.py:321-346 _NativeChannel.establish *)
Definition supervise (fuel : nat) (pid : Z) : program unit :=
  assign (set_child pid) ;;
  call (Close ChildEnd) ;;
  call (Close GateRead) ;;
  ensure (attach pid ;; _ ← call (Write GateWrite (u "G")); mret tt) (call (Close GateWrite)) ;;
  '(raw, cred) ← _receive fuel 8;
  need (str_eqb raw (u "MAP") && ints_eqb cred [pid; 0; 0]) "CHILD_MAP_PEER_INVALID" ;;
  for_all (write_map pid) id_maps ;;
  call (Send ParentEnd (u "M")) ;;
  '(raw, cred) ← _receive fuel 8;
  need (str_eqb raw (u "READY") && ints_eqb (drop 1 cred) [CHILD_UID; CHILD_GID]) "CHILD_PEER_INVALID" ;;
  sender ← pure (item_at cred 0);
  fd ← call (Pidfd_open sender);
  assign (set_pidfd (Some fd)) ;;
  id ← identify sender;
  assign (set_peer id) ;;
  need (parent id =? pid) "CHILD_PARENT_MISMATCH" ;;
  inode ← channel_inode;
  assign (set_identity inode) ;;
  check_peer.

(** What was made before the fork is closed when it fails. *)
(* @src src/src/harness_conformance/live_supervisor.py:263-269 _NativeChannel.establish *)
Definition abandon (piped : bool) : program unit :=
  call (Close ChildEnd) ;;
  call (Close ParentEnd) ;;
  if piped then call (Close GateRead) ;; call (Close GateWrite) else mret tt.

(** The socket pair, the pipe and the fork: the pid of the supervisor and what [fork] answers. *)
(* @src src/src/harness_conformance/live_supervisor.py:254-269 _NativeChannel.establish *)
Definition begin_child : program (Z * Z) :=
  call Socketpair ;;
  assign (set_socket true) ;;
  on_failure (call (Pass_credentials ParentEnd) ;; call Pipe2) (abandon false) ;;
  on_failure (call (Prctl PR_SET_CHILD_SUBREAPER 1) ;; supervisor_pid ← call Getpid; pid ← call Fork; mret (supervisor_pid, pid))
    (abandon true).

(* @src src/src/harness_conformance/live_supervisor.py:252-346 _NativeChannel.establish *)
Definition establish (fuel : nat) (machine : str) (until : M) : program unit :=
  assign (set_deadline until) ;;
  '(supervisor_pid, pid) ← begin_child;
  if pid =? 0 then child fuel machine until supervisor_pid else supervise fuel pid.

(** ** Operations *)

Section operations.
(** The documents of the context. *)
Context (envelope capacity plan : value).

(* @src src/src/harness_conformance/live_supervisor.py:372-374 _NativeChannel.request *)
Definition request_case (case : value) : program value :=
  check_peer ;; pure (build_probe_request envelope capacity plan case).

Definition same_credentials (cred : list Z) (id : identity) : bool := ints_eqb cred [pid id; CHILD_UID; CHILD_GID].

(* @src src/src/harness_conformance/live_supervisor.py:376-404 _NativeChannel.execute *)
Definition execute_native (fuel : nat) (request : value) (until : M) : program data :=
  check_peer ;;
  operation ← pure (match request with VDict d => Ok (default VNone (dget (u "operation") d)) | _ => conf "SUPERVISOR_OPERATION_INVALID" end);
  need (in_lits operation CASES) "SUPERVISOR_OPERATION_INVALID" ;;
  expected ← request_case operation;
  need (py_eq request expected) "SUPERVISOR_OPERATION_INVALID" ;;
  sock ← the_socket;
  call (Send sock (u "P")) ;;
  '(raw, cred) ← _receive fuel 1;
  o ← self;
  need (str_eqb raw (u "P") && match peer o with Some id => same_credentials cred id | None => false end) "PEER_CHANNEL_CHANGED" ;;
  check_peer ;;
  same ← call (Deadline_unchanged until);
  need same "SUPERVISOR_DEADLINE_CHANGED" ;;
  call (Begin_resources request until) ;;
  on_failure
    (result ← call (Execute_protected request until);
     check_peer ;;
     holds ← call Holds_credential;
     (if (holds : bool) then call Require_policy else mret tt) ;;
     call Finish_resources ;;
     check_peer ;;
     mret result)
    (call Fail_resources).
End operations.

(* @src src/src/harness_conformance/live_supervisor.py:406-409 _NativeChannel.interrupt *)
Definition interrupt_native : program unit :=
  call Set_cancelled ;;
  o ← self;
  if owned o && negb (lease_closed o) then write_field "cgroup.kill" (u "1") else mret tt.

(** The operations of [cleanup], every one of which is tried. *)
(* @src src/src/harness_conformance/live_supervisor.py:432-437 _NativeChannel.cleanup *)
Fixpoint try_each (failure : option exn) (l : list (program unit)) : program (option exn) :=
  match l with
  | [] => mret failure
  | m :: l => r ← outcome m; try_each (first_failure failure r) l
  end.

(* @src src/src/harness_conformance/live_supervisor.py:411-439 _NativeChannel.cleanup *)
Definition cleanup_native (fuel : nat) : program unit :=
  call Set_cancelled ;;
  o ← self;
  failure ← try_each None [if match child_pid o with Some _ => owned o && negb (lease_closed o) | None => false end then
                             now ← call Monotonic_clock; kill_and_reap fuel (after now 10000000)
                           else mret tt];
  o ← self;
  assign (fun s => set_pidfd None (set_socket false s)) ;;
  context ← call Is_context;
  (if (context : bool) then assign (set_root None) else mret tt) ;;
  failure ← try_each failure
    ((if socket o then [call (Close ParentEnd) : program unit] else []) ++
     (match pidfd o with Some fd => [call (Close (Plain fd)) : program unit] | None => [] end) ++
     (if (context : bool) then [call Custody_close : program unit] else []));
  match failure with Some e => Throw e | None => mret tt end.
End channel.
