(* ===== verification/ChannelRuns.v ===== *)
(** The native channel as running processes.  [establish] starts as the supervisor and forks; the
    processes run in any order, over a kernel that answers at will but keeps the gate, the channel
    and its own books: which process took which step of the confinement.  Every run is described
    by one invariant; what the processes may assume of each other passes through their messages. *)

From S2P Require Import Prelude Effects PyVal Utf8 Json Sha2 Canonical Text SchemaBase Lifecycle LinuxShape Live.
From S2P Require Import LinuxVerify Session Posix Custody Supervisor Boundary Process Channel.

#[local] Open Scope string_scope.
#[local] Open Scope list_scope.
#[local] Open Scope Z_scope.

#[export] Instance insn_eq_dec : EqDecision insn.
Proof. solve_decision. Defined.

(** ** The steps of the confinement *)

Inductive step := Joined | Namespaced | Setgroups_denied | Uid_mapped | Gid_mapped | Mounts_private | Root_bound | Root_readonly
| Root_entered | Ambient_closed | No_new_privs | Capabilities_dropped | Filtered.
#[export] Instance step_eq_dec : EqDecision step.
Proof. solve_decision. Defined.

(** The order in which a process is confined. *)
Definition ORDER : list step := [Joined; Namespaced; Setgroups_denied; Uid_mapped; Gid_mapped; Mounts_private; Root_bound; Root_readonly;
  Root_entered; Ambient_closed; No_new_privs; Capabilities_dropped; Filtered].

(** Whom a call confines: the caller, the process with a number, or the one whose number is
    printed so. *)
Inductive target := Own | Numbered (pid : Z) | Printed (b : bytes).

Definition ALL_NAMESPACES : Z := Z.lor (Z.lor (Z.lor CLONE_NEWUSER CLONE_NEWNS) CLONE_NEWPID) CLONE_NEWNET.

Section runs.
Context {U : Unicode} {M : Type} {Mo : Monotonic M}.
(** The machine, the deadline and the bound on every loop; and the number of every descriptor. *)
Context (machine : str) (until : M) (fuel : nat) (numbers : desc -> Z).

#[local] Notation program := (prog (@answer M) (native M)).

(** The step a call is, for a caller that has closed the descriptors below [below].  The ambient ones
    are closed when all are but the one of the child's end of the channel. *)
Definition achieves (below : option Z) (a : sys M) : option (target * step) :=
  match a with
  | Write (File (Field name) _) b => if String.eqb name "cgroup.procs" then Some (Printed b, Joined) else None
  | Unshare flags => if flags =? ALL_NAMESPACES then Some (Own, Namespaced) else None
  | Write (File (Proc pid name) _) b =>
      if String.eqb name "setgroups" && str_eqb b (u "deny") then Some (Numbered pid, Setgroups_denied)
      else if String.eqb name "uid_map" && str_eqb b (u "0 65532 1") then Some (Numbered pid, Uid_mapped)
      else if String.eqb name "gid_map" && str_eqb b (u "0 65532 1") then Some (Numbered pid, Gid_mapped)
      else None
  | Mount None target flags => if str_eqb target (u "/") && (flags =? Z.lor MS_REC MS_PRIVATE) then Some (Own, Mounts_private) else None
  | Mount (Some source) target flags =>
      if str_eqb source (u ".") && str_eqb target (u ".") && (flags =? Z.lor MS_BIND MS_REC) then Some (Own, Root_bound) else None
  | Mount_setattr path flags attr =>
      if str_eqb path (u ".") && (flags =? 0x8000) && ints_eqb attr [7; 0; 0; 0] then Some (Own, Root_readonly) else None
  | Chroot path => if str_eqb path (u ".") then Some (Own, Root_entered) else None
  | Closerange from to =>
      match below with
      | Some n =>
          if negb (from =? 0) && (n =? numbers ChildEnd) && (from =? n + 1) && (to =? 1048576) then Some (Own, Ambient_closed) else None
      | None => None
      end
  | Prctl option value => if (option =? PR_SET_NO_NEW_PRIVS) && (value =? 1) then Some (Own, No_new_privs) else None
  | Capset data => if ints_eqb data (repeat 0 6) then Some (Own, Capabilities_dropped) else None
  | Filter rules => if bool_decide (seccomp_program machine = Ok rules) then Some (Own, Filtered) else None
  | _ => None
  end.

(** A call that did what it says: a write that is whole, another call that returns. *)
Definition succeeds (a : sys M) : res (answer a) -> bool :=
  match a as a return res (answer a) -> bool with
  | Write _ b => fun r => match r with Ok n => n =? zlen b | Raise _ => false end
  | _ => is_ok
  end.

(** Whether a process still dies with its parent: the signal is set by a call and forgotten when
    the credentials change. *)
Definition clears (a : sys M) : bool :=
  match a with Unshare _ | Setgroups _ | Setresgid _ _ _ | Setresuid _ _ _ => true | _ => false end.
Definition dying (a : sys M) (done dies : bool) : bool :=
  match a with
  | Prctl option value => if (option =? PR_SET_PDEATHSIG) && (value =? SIGKILL) then done || dies else dies
  | _ => if clears a then false else dies
  end.
Definition closed_below (a : sys M) (done : bool) (below : option Z) : option Z :=
  match a with Closerange from to => if (from =? 0) && done then Some to else below | _ => below end.

(** ** The world *)

(** A process: what it has still to do, nothing after [_exit]; its memory; its number; whether it
    dies with its parent; what it closed; the steps of its confinement, in order; and for each
    step which process took it, by its place in the world. *)
Record process := {
  code : option (program unit); memory : native M; number : Z; dies : bool; below : option Z; steps : list step; takers : list nat
}.

(** The processes; the messages on their way to either end; the octets in the pipe. *)
Record world := { procs : list process; to_parent : list bytes; to_child : list bytes; gate : bytes }.

(** The kernel's choice at a step: the answer to any call, and whether a failing call takes
    effect all the same. *)
Definition oracle : Type := (forall a : sys M, res (answer a)) * bool.

Definition with_gate (g : bytes) (w : world) : world :=
  {| procs := procs w; to_parent := to_parent w; to_child := to_child w; gate := g |}.
Definition with_to_child (l : list bytes) (w : world) : world :=
  {| procs := procs w; to_parent := to_parent w; to_child := l; gate := gate w |}.
Definition with_to_parent (l : list bytes) (w : world) : world :=
  {| procs := procs w; to_parent := l; to_child := to_child w; gate := gate w |}.
Definition with_procs (l : list process) (w : world) : world :=
  {| procs := l; to_parent := to_parent w; to_child := to_child w; gate := gate w |}.

(** The pipe and the channel keep what is sent: octets are read as they were written, messages
    are received as they were sent, cut to the size asked for; nothing is there before it was
    sent, an empty answer is the end.  A socket that is open has its number, and a new process a
    number of its own. *)
Definition settle (w : world) (a : sys M) : res (answer a) -> res (answer a) * world :=
  match a as a return res (answer a) -> res (answer a) * world with
  | Write GateWrite b => fun r =>
      match r with Ok n => (Ok (Z.min n (zlen b)), with_gate (gate w ++ take (Z.to_nat n) b) w) | Raise e => (Raise e, w) end
  | Read GateRead n => fun r =>
      match r with
      | Ok (_ :: _) => (Ok (take (Z.to_nat n) (gate w)), with_gate (drop (Z.to_nat n) (gate w)) w)
      | _ => (r, w)
      end
  | Send ParentEnd b => fun r => match r with Ok tt => (Ok tt, with_to_child (to_child w ++ [b]) w) | Raise e => (Raise e, w) end
  | Send ChildEnd b => fun r => match r with Ok tt => (Ok tt, with_to_parent (to_parent w ++ [b]) w) | Raise e => (Raise e, w) end
  | Recv ChildEnd n => fun r =>
      match r, to_child w with
      | Ok (Some (_ :: _)), m :: l => (Ok (Some (take (Z.to_nat n) m)), with_to_child l w)
      | Ok (Some (_ :: _)), [] => (Ok None, w)
      | _, _ => (r, w)
      end
  | Recvmsg ParentEnd n => fun r =>
      match r, to_parent w with
      | Ok (Some (_ :: _, ancillary, flags)), m :: l => (Ok (Some (take (Z.to_nat n) m, ancillary, flags)), with_to_parent l w)
      | Ok (Some (_ :: _, _, _)), [] => (Ok None, w)
      | _, _ => (r, w)
      end
  | Fileno d => fun r => match r with Ok _ => (if 0 <=? numbers d then Ok (numbers d) else Raise OSError, w) | Raise e => (Raise e, w) end
  | Fork => fun r =>
      match r with
      | Ok n => (if (1 <? n) && forallb (fun p => negb (number p =? n)) (procs w) then Ok n else Raise OSError, w)
      | Raise e => (Raise e, w)
      end
  | _ => fun r => (r, w)
  end.

(** What the caller goes on with, and the process a fork makes, which sees the answer 0. *)
Definition resume (a : sys M) (r : res (answer a)) (k : res (answer a) -> program unit) : option (program unit) :=
  match a with Exit _ => None | _ => Some (k r) end.
Definition spawned (a : sys M) : res (answer a) -> (res (answer a) -> program unit) -> option (Z * program unit) :=
  match a as a return res (answer a) -> (res (answer a) -> program unit) -> option (Z * program unit) with
  | Fork => fun r k => match r with Ok n => Some (n, k (Ok 0)) | Raise _ => None end
  | _ => fun _ _ => None
  end.

Definition hits (t : target) (i j : nat) (p : process) : bool :=
  match t with Own => bool_decide (i = j) | Numbered n => number p =? n | Printed b => str_eqb (dec_Z (number p)) b end.
Definition add_step (i : nat) (s : step) (p : process) : process :=
  {| code := code p; memory := memory p; number := number p; dies := dies p; below := below p; steps := steps p ++ [s];
     takers := takers p ++ [i] |}.
Definition confine (i : nat) (t : target) (s : step) (l : list process) : list process :=
  imap (fun j p => if hits t i j p then add_step i s p else p) l.

Definition goes_on (c : option (program unit)) (m : native M) (p : process) : process :=
  {| code := c; memory := m; number := number p; dies := dies p; below := below p; steps := steps p; takers := takers p |}.

(** A call of the process [i]. *)
Definition perform_call (i : nat) (o : oracle) (p : process) (a : sys M) (k : res (answer a) -> program unit) (w : world) : world :=
  let (r, w) := settle w a (o.1 a) in
  let done := succeeds a r in
  let p' := {| code := resume a r k; memory := memory p; number := number p; dies := dying a done (dies p);
               below := closed_below a done (below p); steps := steps p; takers := takers p |} in
  let l := <[i := p']> (procs w) in
  let l := match achieves (below p) a with Some (t, s) => if done || o.2 then confine i t s l else l | None => l end in
  let l := match spawned a r k with
           | Some (n, c) => l ++ [{| code := Some c; memory := memory p; number := n; dies := false; below := below p; steps := steps p;
                                    takers := takers p |}]
           | None => l
           end in
  with_procs l w.

(** The process [i] makes its next move. *)
Definition advance (i : nat) (o : oracle) (w : world) : world :=
  match procs w !! i with
  | Some p =>
      match code p with
      | Some (Do a k) => perform_call i o p a k w
      | Some (Get k) => with_procs (<[i := goes_on (Some (k (memory p))) (memory p) p]> (procs w)) w
      | Some (Put m k) => with_procs (<[i := goes_on (Some k) m p]> (procs w)) w
      | _ => w
      end
  | None => w
  end.

(** The supervisor [m] about to establish its channel, as the process [pid]; any schedule. *)
Definition starting (m : native M) (pid : Z) : world :=
  {| procs := [{| code := Some (establish fuel machine until); memory := m; number := pid; dies := false; below := None; steps := []; takers := [] |}];
     to_parent := []; to_child := []; gate := [] |}.
Fixpoint run_all (schedule : list (nat * oracle)) (w : world) : world :=
  match schedule with [] => w | (i, o) :: rest => run_all rest (advance i o w) end.
Definition after (schedule : list (nat * oracle)) (m : native M) (pid : Z) : world := run_all schedule (starting m pid).

(** ** What a process knows *)

Inductive role := Starting | Supervisor | Child | Forked | Init.
#[local] Instance role_eq_dec : EqDecision role.
Proof using. solve_decision. Defined.

(** How far the confinement is, as far as the process knows ([None] when a call of its own has
    failed, so that it cannot know); the number of its child; and what is its own. *)
Record view := { part : role; kid : Z; stage : option nat; v_dies : bool; v_below : option Z }.

Definition MAP : bytes := u "MAP".
Definition READY : bytes := u "READY".

Definition index (s : step) : nat :=
  match s with
  | Joined => 0 | Namespaced => 1 | Setgroups_denied => 2 | Uid_mapped => 3 | Gid_mapped => 4 | Mounts_private => 5 | Root_bound => 6
  | Root_readonly => 7 | Root_entered => 8 | Ambient_closed => 9 | No_new_privs => 10 | Capabilities_dropped => 11 | Filtered => 12
  end%nat.

(** Whose turn a step is. *)
Definition owner (n : nat) : role :=
  match n with 0 => Supervisor | 1 => Child | 2 | 3 | 4 => Supervisor | 5 | 6 | 7 | 8 | 9 | 10 | 11 | 12 => Init | _ => Starting end%nat.

(** The next turn of a role, 13 when there is none. *)
Definition next_turn (x : role) (k : nat) : nat :=
  match List.find (fun j => (k <=? j)%nat && bool_decide (owner j = x)) (seq 0 13) with Some j => j | None => 13 end.

Definition at_least (j : nat) (v : view) : Prop := match stage v with Some k => (j <= k)%nat | None => False end.
Definition with_stage (o : option nat) (v : view) : view :=
  {| part := part v; kid := kid v; stage := o; v_dies := v_dies v; v_below := v_below v |}.
Definition learned (j : nat) (v : view) : view := with_stage (option_map (Nat.max j) (stage v)) v.
Definition local (a : sys M) (done : bool) (v : view) : view :=
  {| part := part v; kid := kid v; stage := stage v; v_dies := dying a done (v_dies v); v_below := closed_below a done (v_below v) |}.

Definition may_take (v : view) (t : target) (s : step) : Prop :=
  stage v = Some (index s) /\ owner (index s) = part v /\ ((5 <= index s)%nat -> v_dies v = true) /\
  match t with
  | Own => part v <> Supervisor
  | Numbered n => part v = Supervisor /\ n = kid v
  | Printed b => part v = Supervisor /\ b = dec_Z (kid v)
  end.

(** A step is taken in its turn; its failure leaves the process without knowledge. *)
Definition plain (a : sys M) (done : bool) (v : view) (K : view -> Prop) : Prop :=
  (clears a = true -> part v = Child) /\
  match achieves (v_below v) a with
  | Some (t, s) => may_take v t s /\ K (with_stage (if done then Some (S (index s)) else None) (local a done v))
  | None => K (local a done v)
  end.

(** The monitor of a process: who may fork, exit, open the gate and send what, and what is learned
    from what is received. *)
Definition watch (a : sys M) (r : res (answer a)) (v : view) (K : view -> Prop) : Prop :=
  match a as a return res (answer a) -> Prop with
  | Fork => fun r =>
      match part v with
      | Starting =>
          match r with
          | Ok n => if n =? 0 then K {| part := Child; kid := 0; stage := Some 0%nat; v_dies := false; v_below := v_below v |}
                    else K {| part := Supervisor; kid := n; stage := Some 0%nat; v_dies := v_dies v; v_below := v_below v |}
          | Raise _ => K v
          end
      | Child =>
          stage v = Some 5%nat /\
          match r with
          | Ok n => if n =? 0 then K {| part := Init; kid := 0; stage := Some 5%nat; v_dies := false; v_below := v_below v |}
                    else K {| part := Forked; kid := n; stage := Some 5%nat; v_dies := v_dies v; v_below := v_below v |}
          | Raise _ => K v
          end
      | _ => False
      end
  | Exit _ => fun _ => part v <> Starting /\ part v <> Supervisor
  | Write GateWrite _ => fun _ => at_least 1 v /\ K v
  | Read GateRead _ => fun r => K (match r with Ok (_ :: _) => learned 1 v | _ => v end)
  | Send ParentEnd _ => fun _ => at_least 5 v /\ K v
  | Send ChildEnd b => fun _ => (b = MAP -> at_least 2 v) /\ (b = READY -> at_least 13 v) /\ K v
  | Recv ChildEnd _ => fun r => K (match r with Ok (Some (_ :: _)) => learned 5 v | _ => v end)
  | Recvmsg ParentEnd n => fun r =>
      n = 8 /\ K (match r with
                  | Ok (Some (raw, _, _)) => if str_eqb raw MAP then learned 2 v else if str_eqb raw READY then learned 13 v else v
                  | _ => v
                  end)
  | Fileno d => fun r => match r with Ok n => n = numbers d -> 0 <= n -> K v | Raise _ => K v end
  | a => fun r => plain a (succeeds a r) v K
  end r.

Lemma watch_mono a r v (K K' : view -> Prop) : (forall v', K v' -> K' v') -> watch a r v K -> watch a r v K'.
Proof.
  intros H.
  assert (forall a r, plain a (succeeds a r) v K -> plain a (succeeds a r) v K') as Hp.
  { intros a' r' [H1 H2]. split; [done |]. destruct (achieves (v_below v) a') as [[t s]|]; [|by apply H].
    destruct H2 as [H2 H3]. split; [done | by apply H]. }
  destruct a; try apply Hp; try destruct d; try apply Hp; cbn [watch]; try naive_solver.
  - destruct (part v); try done; destruct r as [n|]; try destruct (n =? 0); naive_solver.
  all: destruct r; naive_solver.
Qed.

(** The identity the supervisor settled on. *)
Definition confined_identity (id : identity) : Prop :=
  uid id = repeat CHILD_UID 4 /\ gid id = repeat CHILD_GID 4 /\ capabilities id = repeat 0 5 /\ seccomp id = 2 /\ noNewPrivs id = 1 /\
  cgroup id = u "0::/planeon-live/session" ++ [10%N].
Definition knows_peer (m : native M) : Prop :=
  exists id pid, peer m = Some id /\ child_pid m = Some pid /\ parent id = pid /\ confined_identity id.

(** How a program of a channel may end. *)
Definition returned (_ : unit) (m : native M) (v : view) : Prop := part v = Supervisor /\ at_least 13 v /\ knows_peer m.
Definition raised (_ : exn) (m : native M) (v : view) : Prop := part v = Starting \/ part v = Supervisor.

Notation obeys := (Process.obeys watch).

(** A program that asks for nothing that matters. *)
Definition still {A} (p : program A) : Prop := forall m v, obeys p (fun _ m' v' => m' = m /\ v' = v) (fun _ m' v' => m' = m /\ v' = v) m v.

Lemma obeys_still {A} (p : program A) Q E m v : still p -> (forall x, Q x m v) -> (forall e, E e m v) -> obeys p Q E m v.
Proof.
  intros H HQ HE. eapply obeys_mono; [exact watch_mono | apply H | |]; intros ? ? ? [-> ->]; auto.
Qed.

Lemma still_bind {A B} (p : program A) (f : A -> program B) : still p -> (forall x, still (f x)) -> still (p ≫= f).
Proof. intros Hp Hf m v. apply obeys_bind; [exact watch_mono |]. apply obeys_still; [done | intros x; apply Hf | done]. Qed.

Lemma still_ret {A} (x : A) : still (mret x).
Proof. by intros m v. Qed.
Lemma still_return {A} (x : A) : still (Return x : program A).
Proof. by intros m v. Qed.
Lemma still_throw {A} e : still (Throw e : program A).
Proof. by intros m v. Qed.
Lemma still_pure {A} (r : res A) : still (pure r : program A).
Proof. intros m v. by destruct r. Qed.
Lemma still_need b c : still (need b c : program unit).
Proof. intros m v. by destruct b. Qed.
Lemma still_self : still (self : program (native M)).
Proof. by intros m v. Qed.
Lemma still_outcome {A} (p : program A) : still p -> still (outcome p).
Proof. intros Hp m v. apply obeys_outcome; [exact watch_mono |]. by apply obeys_still. Qed.
Lemma still_ensure {A} (p : program A) f : still p -> still f -> still (ensure p f).
Proof.
  intros Hp Hf. unfold ensure. apply still_bind; [by apply still_outcome |]. intros r. apply still_bind; [done |]. intros _. apply still_pure.
Qed.
Lemma still_handle {A} (p : program A) h : still p -> (forall e, still (h e)) -> still (handle p h).
Proof. intros Hp Hh. unfold handle. apply still_bind; [by apply still_outcome |]. intros [x|e]; [apply still_ret | apply Hh]. Qed.
Lemma still_for_all {A} (f : A -> program unit) l : (forall x, still (f x)) -> still (for_all f l).
Proof. intros H. induction l as [|x l IH]; cbn [for_all]; [apply still_return | by apply still_bind]. Qed.

(** A call no one has to know of. *)
Definition unseen (a : sys M) : bool :=
  match a with
  | Close _ | Fstat _ | Open _ _ | Getpid | Getppid | Clear_environment | Pass_credentials _ | Pipe2 | Socketpair | Settimeout _
  | Drop_bounding _ | Chdir _ | Fchdir _ | Waitpid _ | Wait_any | Pidfd_open _ | Readable _ | Open_directory _ | Statfs _ | Uname
  | Installed_process | Monotonic_clock | Sleep | Cancelled | Set_cancelled | Procfs_now | Own_namespace _ | Owner_kinds | Owner_now
  | Check_ambient | Is_context | Custody_close | Fileno _ => true
  | Prctl option _ => (option =? PR_SET_DUMPABLE) || (option =? PR_SET_CHILD_SUBREAPER)
  | _ => false
  end.

Lemma local_same (a : sys M) done v : clears a = false -> (forall o x, a = Prctl o x -> o <> PR_SET_PDEATHSIG) ->
  (forall x y, a <> Closerange x y) -> local a done v = v.
Proof.
  intros H1 H2 H3. unfold local, dying, closed_below. destruct v as [p c st d b]. cbn.
  destruct a; try done; cbn in H1; try done; [exfalso; by eapply H3 |].
  destruct (Z.eqb_spec option PR_SET_PDEATHSIG) as [->|]; [|done]. by exfalso; eapply H2.
Qed.

Lemma plain_unseen a done v K : achieves (v_below v) a = None -> clears a = false -> (forall o x, a = Prctl o x -> o <> PR_SET_PDEATHSIG) ->
  (forall x y, a <> Closerange x y) -> K v -> plain a done v K.
Proof. intros H1 H2 H3 H4 H. unfold plain. rewrite H1, local_same by done. split; [by rewrite H2 | done]. Qed.

Lemma still_call a : unseen a = true -> still (call a).
Proof.
  intros H m v. apply obeys_call; [exact watch_mono |]. intros r. destruct a; try discriminate H; cbn [watch].
  all: try (apply plain_unseen; [done | done | intros ? ? [=] | intros ? ? [=] | by destruct r]; fail).
  - by destruct r.
  - apply plain_unseen; [| done | | intros ? ? [=] | by destruct r].
    + cbn in H |- *. destruct (Z.eqb_spec option PR_SET_NO_NEW_PRIVS) as [->|]; [done | by destruct (value =? 1)].
    + intros o x [= <- <-] ->. done.
Qed.

#[local] Hint Resolve still_ret still_return still_throw still_pure still_need still_self : still.

(** Walks a program of unseen calls. *)
Ltac still_step :=
  lazymatch goal with
  | |- still (_ ≫= _) => apply still_bind; [|intros ?]
  | |- still (call _) => apply still_call; reflexivity
  | |- still (ensure _ _) => apply still_ensure
  | |- still (handle _ _) => apply still_handle; [|intros ?]
  | |- still (on_failure _ _) => apply still_handle; [|intros ?]
  | |- still (for_all _ _) => apply still_for_all; intros ?
  | |- still (outcome _) => apply still_outcome
  | |- still (if ?b then _ else _) => destruct b
  | |- still (match ?x with _ => _ end) => destruct x
  | |- still _ => auto with still; fail
  end.
Ltac still := repeat still_step; auto with still.

(** The next call of a program: one that is unseen, or one that is watched. *)
Ltac next := apply obeys_bind; [exact watch_mono|].
(** The answer of a call that is watched. *)
Tactic Notation "answered" ident(r) :=
  lazymatch goal with |- Process.obeys _ (call ?a) _ _ _ _ => apply (obeys_call watch watch_mono a) end; intros r; cbn [watch].
Ltac unseen := apply obeys_still; [still | intros ? | intros ?].

(** A step that is not a write. *)
Lemma obeys_step a t s Q (E : exn -> native M -> view -> Prop) m v :
  (forall r K, plain a (is_ok r) v K -> watch a r v K) -> achieves (v_below v) a = Some (t, s) -> (clears a = true -> part v = Child) ->
  may_take v t s -> (forall x, Q x m (with_stage (Some (S (index s))) (local a true v))) ->
  (forall e, E e m (with_stage None (local a false v))) -> obeys (call a) Q E m v.
Proof.
  intros Hw Ha Hc Ht HQ HE. apply obeys_call; [exact watch_mono |]. intros r. apply Hw. unfold plain. rewrite Ha.
  split; [done |]. split; [done |]. by destruct r; cbn.
Qed.

(** A write that is a step: only when it is whole is the step known to be taken. *)
Lemma obeys_write p n b t s (Q : Z -> native M -> view -> Prop) (E : exn -> native M -> view -> Prop) m v :
  achieves (v_below v) (Write (File p n) b) = Some (t, s) -> may_take v t s ->
  (Q (zlen b) m (with_stage (Some (S (index s))) v)) -> (forall c, c <> zlen b -> Q c m (with_stage None v)) ->
  (forall e, E e m (with_stage None v)) -> obeys (call (Write (File p n) b)) Q E m v.
Proof.
  intros Ha Ht HQ Hs HE. answered r. unfold plain. rewrite Ha.
  assert (forall done, local (Write (File p n) b) done v = v) as Hl by (intros done; by destruct v).
  rewrite Hl. split; [done |]. split; [done |]. destruct r as [c|e]; cbn [succeeds].
  - destruct (Z.eqb_spec c (zlen b)) as [->|]; auto.
  - auto.
Qed.

(** ** The init of the namespaces *)

Definition init_view (stage : option nat) (dies : bool) (below : option Z) : view :=
  {| part := Init; kid := 0; stage := stage; v_dies := dies; v_below := below |}.
Definition in_init (_ : exn) (_ : native M) (v : view) : Prop := part v = Init.

Lemma init_step a s Q m k b : index s = k -> owner k = Init -> (forall r K v, plain a (is_ok r) v K -> watch a r v K) ->
  achieves b a = Some (Own, s) -> clears a = false -> (forall x, Q x m (with_stage (Some (S k)) (local a true (init_view (Some k) true b)))) ->
  obeys (call a) Q in_init m (init_view (Some k) true b).
Proof.
  intros <- Ho Hw Ha Hc HQ. eapply obeys_step; [by intros; apply Hw | exact Ha | by rewrite Hc | | exact HQ | done].
  by repeat split.
Qed.

Lemma readonly_root_obeys root m Q : Q tt m (init_view (Some 9%nat) true None) ->
  obeys (readonly_root root) Q in_init m (init_view (Some 5%nat) true None).
Proof.
  intros HQ. unfold readonly_root.
  next. apply (init_step _ Mounts_private); try done. intros [].
  next. unseen; [|done]. next. unseen; [|done].
  next. apply (init_step _ Root_bound); try done. intros [].
  next. apply (init_step _ Root_readonly); try done. intros [].
  next. apply (init_step _ Root_entered); try done. intros [].
  unseen; [by destruct x1 | done].
Qed.

Lemma drop_privileges_obeys m b Q : Q tt m (init_view (Some 12%nat) true b) ->
  obeys drop_privileges Q in_init m (init_view (Some 10%nat) true b).
Proof.
  intros HQ. unfold drop_privileges.
  next. apply (init_step _ No_new_privs); try done. intros [].
  next. unseen; [|done]. next. unseen; [|done].
  apply (init_step _ Capabilities_dropped); try done. by intros [].
Qed.

Lemma install_filter_obeys m b Q : Q tt m (init_view (Some 13%nat) true b) ->
  obeys (install_filter machine) Q in_init m (init_view (Some 12%nat) true b).
Proof.
  intros HQ. unfold install_filter. next. apply obeys_pure; [|done]. intros rules Hr.
  apply (init_step (Filter rules) Filtered); try done; [by cbn; rewrite bool_decide_true | by intros []].
Qed.

Lemma learned_more j v : at_least 13 v -> exists v', learned j v = v' /\ at_least 13 v' /\ part v' = part v.
Proof.
  intros H. eexists. split; [reflexivity |]. unfold learned, at_least in *. destruct v as [p c [k|] d b]; cbn in *; [|done]. split; [lia | done].
Qed.

Lemma serve_obeys n m v : part v = Init -> at_least 13 v -> obeys (serve n until) (fun _ _ v' => part v' = Init) in_init m v.
Proof.
  revert v. induction n as [|n IH]; intros v Hp Hs; cbn [serve]; [done |].
  next. unseen; [|done]. destruct (tick_ltb x until); [|done].
  next. unseen; [|done]. next. unseen; [|done].
  next. answered r.
  set (v1 := match r with Ok (Some (_ :: _)) => learned 5 v | _ => v end).
  assert (part v1 = Init /\ at_least 13 v1) as [Hp1 Hs1].
  { subst v1. destruct (learned_more 5 v Hs) as (v2 & -> & ? & ?). destruct r as [[[|? ?]|]|]; (split; [congruence | done]). }
  destruct r as [raw|e]; [|done]. next. unseen; [|done].
  destruct (str_eqb x2 (u "P")); [|done]. next. answered r.
  split; [done |]. split; [done |]. destruct r as [[]|]; [by apply IH | done].
Qed.

Lemma init_obeys m n fd : obeys (init n machine until fd) (fun _ _ _ => False) in_init m (init_view (Some 5%nat) false None).
Proof.
  unfold init. next. answered r. split; [done |].
  change (local (Prctl PR_SET_PDEATHSIG SIGKILL) (succeeds _ r) (init_view (Some 5%nat) false None))
    with (init_view (Some 5%nat) (is_ok r || false) None).
  destruct r as [[]|e]; [|done]. cbn [is_ok orb].
  next. unseen; [|done]. next. unseen; [|done]. next. unseen; [|done]. next. unseen; [|done].
  next. apply readonly_root_obeys.
  next. answered r. destruct r as [c|e]; [|done]. intros Ec Hc.
  next. answered r. split; [done |]. cbn [achieves v_below init_view].
  destruct r as [[]|e]; [|done].
  change (local (Closerange 0 c) true (init_view (Some 9%nat) true None)) with (init_view (Some 9%nat) true (Some c)).
  next. apply (init_step _ Ambient_closed); try done.
  { cbn. destruct (Z.eqb_spec (c + 1) 0); [lia |]. by rewrite Ec, !Z.eqb_refl. }
  intros [].
  match goal with |- Process.obeys _ _ _ _ _ ?v => assert (exists b, v = init_view (Some 10%nat) true b) as [b ->] by (eexists; reflexivity) end.
  next. apply drop_privileges_obeys. next. apply install_filter_obeys.
  next. answered r. split; [intros _; cbn; lia |]. split; [intros _; cbn; lia |].
  destruct r as [[]|]; [|done]. next. eapply obeys_mono; [exact watch_mono | apply serve_obeys; cbn; [done | lia] | |]; [|done].
  intros [] m' v' Hv. intros r. cbn [watch _exit]. by rewrite Hv.
Qed.

(** ** The child *)

Definition child_view (stage : nat) (dies : bool) : view :=
  {| part := Child; kid := 0; stage := Some stage; v_dies := dies; v_below := None |}.
Definition apart (v : view) : Prop := part v <> Starting /\ part v <> Supervisor.
Definition in_child (_ : exn) (_ : native M) (v : view) : Prop := apart v.
Definition never {A} (_ : A) (_ : native M) (_ : view) : Prop := False.

Lemma exit_obeys {A} c (Q : A -> native M -> view -> Prop) E m v : apart v -> obeys (_exit c) Q E m v.
Proof. intros H r. exact H. Qed.

Lemma protect_parent_obeys pid m k d Q : Q tt m (child_view k true) -> obeys (protect_parent pid) Q in_child m (child_view k d).
Proof.
  intros HQ. unfold protect_parent. next. answered r. split; [done |].
  destruct r as [[]|e]; [|done].
  change (local (Prctl PR_SET_PDEATHSIG SIGKILL) true (child_view k d)) with (child_view k true).
  next. unseen; [|done]. unseen; [by destruct x0 | done].
Qed.

(** A call that clears the signal and does nothing else here. *)
Lemma clearing_obeys a Q m k d : (forall r K v, plain a (is_ok r) v K -> watch a r v K) -> achieves None a = None -> clears a = true ->
  (forall done, local a done (child_view k d) = child_view k false) -> (forall x, Q x m (child_view k false)) ->
  obeys (call a) Q in_child m (child_view k d).
Proof.
  intros Hw Ha Hc Hl HQ. apply (obeys_call watch watch_mono a). intros r. apply Hw. unfold plain. cbn [v_below child_view]. rewrite Ha, Hl.
  split; [done |]. by destruct r.
Qed.

Lemma child_obeys n supervisor m : obeys (child n machine until supervisor) never never m (child_view 0 false).
Proof.
  unfold child. apply obeys_handle; [exact watch_mono |].
  eapply obeys_mono with (Q := never) (E := in_child); [exact watch_mono | | done | intros e m' v Hv; by apply exit_obeys].
  next. unseen; [|done]. next. unseen; [|done]. next. unseen; [|done].
  next. apply protect_parent_obeys.
  next. answered r. destruct r as [[|c l]|e]; [by next; apply obeys_need | | done].
  change (learned 1 (child_view 0 true)) with (child_view 1 true).
  next. unseen; [|done]. next. unseen; [|done].
  next. apply clearing_obeys; try done. intros [].
  next. unfold namespaces. eapply obeys_step; [by intros | reflexivity | done | by split_and!; cbn; try lia | | done].
  intros []. change (with_stage _ _) with (child_view 2 false).
  next. answered r. split; [intros _; cbn; lia |]. split; [done |]. destruct r as [[]|]; [|done].
  next. answered r.
  destruct r as [[[|d l']|]|e]; [by next; apply obeys_pure; intros ? [= <-]; next; apply obeys_need | | by next; apply obeys_pure | done].
  change (learned 5 (child_view 2 false)) with (child_view 5 false).
  next. unseen; [|done]. next. unseen; [|done].
  next. apply clearing_obeys; try done. intros []. next. apply clearing_obeys; try done. intros [].
  next. apply protect_parent_obeys.
  next. unseen; [|done]. next. unseen; [|done].
  next. answered r. split; [done |]. destruct r as [f|e]; [|done]. destruct (Z.eqb_spec f 0) as [->|Hf]; cbn [negb].
  - eapply obeys_mono; [exact watch_mono | apply init_obeys | done |]. intros e m' v Hv. by split; rewrite Hv.
  - next. unseen; [|done]. next. unseen; [|done]. next. unseen; [|done]. by apply exit_obeys.
Qed.

(** ** The supervisor *)

Definition parent_view (pid : Z) (stage : nat) : view :=
  {| part := Supervisor; kid := pid; stage := Some stage; v_dies := false; v_below := None |}.
Definition in_supervisor (_ : exn) (_ : native M) (v : view) : Prop := part v = Supervisor.

(** What a message tells. *)
Definition told (raw : bytes) (v : view) : view :=
  if str_eqb raw MAP then learned 2 v else if str_eqb raw READY then learned 13 v else v.

Lemma told_part raw v : part (told raw v) = part v.
Proof. unfold told. by repeat destruct (str_eqb _ _). Qed.

Lemma still_credentials ancillary flags : still (peer_credentials ancillary flags).
Proof. unfold peer_credentials. destruct (credentials _ _ _) as [r l]. still. Qed.
Lemma still_deadline : still the_deadline.
Proof. unfold the_deadline. still. Qed.
Lemma still_socket : still the_socket.
Proof. unfold the_socket. still. Qed.
#[local] Hint Resolve still_credentials still_deadline still_socket : still.

Lemma socket_obeys (Q : desc -> native M -> view -> Prop) E m v : Q ParentEnd m v -> (forall e, E e m v) -> obeys the_socket Q E m v.
Proof. intros HQ HE. unfold the_socket. cbn. destruct (socket m); cbn; auto. Qed.

Lemma receive_obeys n Q m v : part v = Supervisor -> (forall raw cred, Q (raw, cred) m (told raw v)) ->
  obeys (_receive n 8) Q in_supervisor m v.
Proof.
  intros Hp HQ. unfold _receive.
  assert (forall A (p : program A) Q', still p -> (forall x, Q' x m v) -> obeys p Q' in_supervisor m v) as Hs.
  { intros A p Q' H H'. by apply obeys_still. }
  next. apply Hs; [still | intros d]. next. apply Hs; [still | intros now]. next. apply Hs; [still | intros _].
  next. apply Hs; [still | intros sock]. next. apply Hs; [still | intros _]. clear d now sock.
  induction n as [|n IH]; cbn [receive_until]; [done |].
  next. apply Hs; [still | intros now]. next. apply Hs; [still | intros d]. next. apply Hs; [still | intros going].
  destruct going; [|by next; apply obeys_need].
  next. apply socket_obeys; [|done]. next. answered r. split; [done |].
  destruct r as [[[[raw anc] flags]|]|e]; [| exact IH | done].
  change (if str_eqb raw MAP then _ else _) with (told raw v).
  assert (part (told raw v) = Supervisor) as Ht by by rewrite told_part.
  next. apply obeys_still; [still | intros cred | done]. next. apply obeys_still; [still | intros _ | done]. apply HQ.
Qed.

(** A field of the cgroup is opened, checked and closed around its use. *)
Lemma field_obeys {A} name (use : desc -> program A) (Q : A -> native M -> view -> Prop) m v : part v = Supervisor ->
  (forall n, obeys (use (File (Field name) n)) (fun x m' v' => part v' = Supervisor /\ Q x m' v') in_supervisor m v) ->
  obeys (with_field name use) Q in_supervisor m v.
Proof.
  intros Hp Hu. unfold with_field. next. apply obeys_still; [still | intros o | done]. next. apply obeys_still; [still | intros n | done].
  apply obeys_ensure; [exact watch_mono |]. next.
  assert (forall (E : exn -> native M -> view -> Prop) e m' v', part v' = Supervisor -> E e m' v' -> (forall e, part v' = Supervisor -> E e m' v') ->
    obeys (call (Close (File (Field name) n))) (fun _ => E e) E m' v') as Hclose.
  { intros E e m' v' Hv He HE. apply obeys_still; [still | done | auto]. }
  apply obeys_still; [unfold _field_custody; still | intros _ | intros e; by apply (Hclose in_supervisor)].
  eapply obeys_mono; [exact watch_mono | apply Hu | |].
  - intros x m' v' [Hv HQ]. apply obeys_still; [still | done | done].
  - intros e m' v' Hv. by apply (Hclose in_supervisor).
Qed.

Lemma attach_obeys pid Q m : Q tt (set_lease (lease_fd m) (lease_closed m) true m) (parent_view pid 1) ->
  obeys (attach pid) Q in_supervisor m (parent_view pid 0).
Proof.
  intros HQ. unfold attach. next. cbn [obeys self]. next. apply obeys_need; [intros _ | done]. next. cbn [obeys assign].
  unfold write_field. next. apply obeys_need; [intros _ | done]. apply field_obeys; [done |]. intros n.
  next. eapply obeys_write; [reflexivity | by split_and!; cbn; try lia | | |].
  - apply obeys_need; [done |]. by rewrite Z.eqb_refl.
  - intros c Hc. apply obeys_need; [|done]. intros H. by apply Z.eqb_eq in H.
  - done.
Qed.

Lemma map_obeys pid name b s k Q m : (forall n, achieves None (Write (File (Proc pid name) n) b) = Some (Numbered pid, s)) ->
  index s = k -> owner k = Supervisor -> (k < 5)%nat -> Q tt m (parent_view pid (S k)) ->
  obeys (write_map pid (name, b)) Q in_supervisor m (parent_view pid k).
Proof.
  intros Ha <- Ho Hk HQ. unfold write_map. cbn [fst snd]. next. apply obeys_still; [still | intros n | done].
  apply obeys_ensure; [exact watch_mono |]. next.
  eapply obeys_write; [apply Ha | split_and!; cbn; try done; lia | | |].
  - apply obeys_need; [intros _ | by rewrite Z.eqb_refl]. by apply obeys_still; [still | |].
  - intros c Hc. apply obeys_need; [intros H; by apply Z.eqb_eq in H | intros _]. by apply obeys_still; [still | |].
  - intros e. by apply obeys_still; [still | |].
Qed.

Lemma accepted_identity observed expected parents : validate_peer observed expected parents = Ok tt -> confined_identity expected.
Proof.
  unfold validate_peer, identity_eqb. rewrite !seq_Ok, !require_Ok, !andb_true_iff, !Z.eqb_eq, !ints_eqb_eq, !str_eqb_eq.
  intros (H1 & H2 & H3 & _). unfold confined_identity. destruct observed, expected; cbn in *. naive_solver.
Qed.

Lemma check_peer_obeys m v : part v = Supervisor ->
  obeys check_peer (fun _ m' v' => m' = m /\ v' = v /\ exists id, peer m = Some id /\ confined_identity id) in_supervisor m v.
Proof.
  intros Hp. assert (forall A (p : program A) Q', still p -> (forall x, Q' x m v) -> obeys p Q' in_supervisor m v) as Hs.
  { intros A p Q' H H'. by apply obeys_still. }
  unfold check_peer. next. apply Hs; [still | intros kinds]. next. apply Hs; [still | intros _]. next. apply Hs; [still | intros _].
  next. cbn [obeys self]. destruct (peer m) as [id|]; [|by apply obeys_need].
  next. apply Hs; [still | intros c]. next. apply Hs; [still | intros _].
  next. apply Hs; [unfold channel_inode; still | intros i]. next. apply Hs; [still | intros _].
  next. apply Hs; [still | intros fd]. next. apply Hs; [still | intros ended]. next. apply Hs; [still | intros _].
  next. apply Hs; [unfold identify; still | intros observed]. next. apply obeys_pure; [|done]. intros [] Hv.
  apply Hs; [still | intros _]. split; [done |]. split; [done |]. exists id. split; [done |]. by eapply accepted_identity.
Qed.

Lemma supervise_obeys n pid m : obeys (supervise n pid) returned in_supervisor m (parent_view pid 0).
Proof.
  assert (forall A (p : program A) Q' m v, part v = Supervisor -> still p -> (forall x, Q' x m v) -> obeys p Q' in_supervisor m v) as Hs.
  { intros A p Q' m' v Hp H H'. by apply obeys_still. }
  unfold supervise. next. cbn [obeys assign]. next. apply Hs; [done | still | intros _]. next. apply Hs; [done | still | intros _].
  next. apply obeys_ensure; [exact watch_mono |]. next.
  assert (forall (E : exn -> native M -> view -> Prop) e m v, part v = Supervisor -> (forall e, part v = Supervisor -> E e m v) ->
    obeys (call (Close GateWrite)) (fun _ => E e) E m v) as Hclose.
  { intros E e m' v Hv HE. apply obeys_still; [still | auto | auto]. }
  eapply obeys_mono; [exact watch_mono | by apply attach_obeys with (Q := fun _ m' v => v = parent_view pid 1 /\ child_pid m' = Some pid) | |].
  2: { intros e m' v Hv. by apply (Hclose in_supervisor). }
  intros [] m1 v [-> Hc1]. next. answered r. split; [cbn; lia |].
  destruct r as [c|e]; [|by apply (Hclose in_supervisor)]. cbn [obeys mret prog_ret].
  apply Hs; [done | still | intros _].
  next. apply receive_obeys; [done |]. intros raw cred. next. apply obeys_need; [|intros _; red; by rewrite told_part]. intros H.
  apply andb_true_iff in H as [->%str_eqb_eq _]. change (told (u "MAP") (parent_view pid 1)) with (parent_view pid 2).
  next. cbn [for_all id_maps]. next. apply (map_obeys pid _ _ Setgroups_denied); [done | done | done | lia |].
  next. apply (map_obeys pid _ _ Uid_mapped); [done | done | done | lia |].
  next. apply (map_obeys pid _ _ Gid_mapped); [done | done | done | lia |]. cbn [obeys].
  next. answered r. split; [cbn; lia |]. destruct r as [[]|]; [|done].
  next. apply receive_obeys; [done |]. clear cred. intros raw cred. next. apply obeys_need; [|intros _; red; by rewrite told_part]. intros H.
  apply andb_true_iff in H as [->%str_eqb_eq _]. change (told (u "READY") (parent_view pid 5)) with (parent_view pid 13).
  next. apply Hs; [done | still | intros sender]. next. apply Hs; [done | still | intros fd]. next. cbn [obeys assign].
  next. apply Hs; [done | unfold identify; still | intros id]. next. cbn [obeys assign].
  next. apply obeys_need; [intros Hid%Z.eqb_eq | done]. next. apply Hs; [done | unfold channel_inode; still | intros i].
  next. cbn [obeys assign]. eapply obeys_mono; [exact watch_mono | by apply check_peer_obeys | | done].
  intros [] m' v (-> & -> & id' & [= <-] & Hid'). split; [done |]. split; [cbn; lia |]. by exists id, pid.
Qed.

Definition first_view : view := {| part := Starting; kid := 0; stage := Some 0%nat; v_dies := false; v_below := None |}.

Lemma establish_obeys m : obeys (establish fuel machine until) returned raised m first_view.
Proof.
  unfold establish. next. cbn [obeys assign].
  assert (forall A (p : program A) Q' m, still p -> (forall x, Q' x m first_view) -> obeys p Q' raised m first_view) as Hs.
  { intros A p Q' m' H H'. apply obeys_still; [done | done | by left]. }
  next. unfold begin_child. next. apply Hs; [still | intros _]. next. cbn [obeys assign].
  next. apply Hs; [unfold abandon; still | intros _]. apply obeys_on_failure; [exact watch_mono |].
  assert (forall m e, obeys (abandon true) (fun _ m' v' => raised e m' v') raised m first_view) as Hab.
  { intros m' e. apply Hs; [unfold abandon; still | by left]. }
  next. apply obeys_still; [still | intros _ | intros e; apply Hab]. next. apply obeys_still; [still | intros supervisor | intros e; apply Hab].
  next. answered r. destruct r as [pid|e]; [|apply Hab]. cbn [obeys mret prog_ret].
  destruct (Z.eqb_spec pid 0) as [->|Hpid].
  - cbn [Z.eqb]. eapply obeys_mono; [exact watch_mono | apply child_obeys | done | done].
  - eapply obeys_mono; [exact watch_mono | apply supervise_obeys | done |]. by right.
Qed.

(** ** The invariant of every run *)

(** Who the processes are, when the confinement has [n] steps, and which steps each has. *)
Definition arranged (n : nat) (ps : list (Z * list step)) (vs : list (role * Z)) : Prop :=
  match ps, vs with
  | [(x0, l0)], [(Starting, _)] => n = 0%nat /\ l0 = []
  | [(x0, l0); (x1, l1)], [(Supervisor, k); (Child, _)] => (n <= 5)%nat /\ l0 = [] /\ l1 = take n ORDER /\ k = x1 /\ x0 <> x1
  | [(x0, l0); (x1, l1); (x2, l2)], [(Supervisor, k); (Forked, _); (Init, _)] =>
      (5 <= n <= 13)%nat /\ l0 = [] /\ l1 = take 5 ORDER /\ l2 = take n ORDER /\ k = x1 /\ x0 <> x1 /\ x0 <> x2 /\ x1 <> x2
  | _, _ => False
  end.

Definition ident (p : process) : Z * list step := (number p, steps p).
Definition cast (v : view) : role * Z := (part v, kid v).

(** What is on its way was sent: the gate opens once the child has joined, the child is answered
    once its ids are mapped, and it reports what it has done. *)
Definition carried (n : nat) (w : world) : Prop :=
  (gate w <> [] -> (1 <= n)%nat) /\ (to_child w <> [] -> (5 <= n)%nat) /\
  Forall (fun b => (b = MAP -> (2 <= n)%nat) /\ (b = READY -> (13 <= n)%nat)) (to_parent w).

Definition knowing (n : nat) (v : view) : Prop :=
  match stage v with Some k => (k <= n <= next_turn (part v) k)%nat | None => True end.

Definition follows (n : nat) (p : process) (v : view) : Prop :=
  match code p with Some c => obeys c returned raised (memory p) v | None => True end /\
  dies p = v_dies v /\ below p = v_below v /\ knowing n v /\ ((5 < length (steps p))%nat -> dies p = true).

Definition sound (w : world) (n : nat) (vs : list view) : Prop :=
  arranged n (map ident (procs w)) (map cast vs) /\ Forall2 (follows n) (procs w) vs /\ carried n w.

(** The turns. *)
Lemma next_turn_ge x k : (k <= 13)%nat -> (k <= next_turn x k)%nat.
Proof. intros H. do 14 (destruct k as [|k]; [destruct x; vm_compute; lia |]). lia. Qed.

Lemma next_turn_mono x j k : (j <= k)%nat -> (next_turn x j <= next_turn x k)%nat \/ (13 < k)%nat.
Proof.
  intros H. destruct (decide (k < 14)%nat) as [Hk|]; [left | right; lia].
  assert (forallb (fun k => forallb (fun j => negb (j <=? k)%nat || forallb (fun x => (next_turn x j <=? next_turn x k)%nat)
    [Starting; Supervisor; Child; Forked; Init]) (seq 0 14)) (seq 0 14) = true) as E by (vm_compute; reflexivity).
  rewrite forallb_forall in E. specialize (E k). rewrite in_seq, forallb_forall in E. specialize (E ltac:(lia) j).
  rewrite in_seq, orb_true_iff, negb_true_iff, Nat.leb_gt, forallb_forall in E. destruct (E ltac:(lia)) as [|E']; [lia |].
  apply Nat.leb_le, E'. destruct x; cbn; tauto.
Qed.

Lemma next_turn_own x k : (k < 13)%nat -> owner k = x -> next_turn x k = k.
Proof. intros H <-. do 13 (destruct k as [|k]; [reflexivity |]). lia. Qed.

Lemma next_turn_other x k n : (k <= n)%nat -> (n < 13)%nat -> owner n <> x -> (n <= next_turn x k)%nat -> (S n <= next_turn x k)%nat.
Proof.
  intros H1 H2 Ho H. destruct (decide (n = next_turn x k)) as [E|]; [|lia]. exfalso. apply Ho. clear Ho H. subst n. revert H1 H2.
  assert (k < 13 \/ 13 <= k)%nat as [Hk | Hk] by lia; [|intros; lia].
  do 13 (destruct k as [|k]; [destruct x; vm_compute; intros; (done || lia) |]). lia.
Qed.

Lemma index_lt s : (index s < 13)%nat.
Proof. destruct s; cbn; lia. Qed.
Lemma take_index s : take (index s) ORDER ++ [s] = take (S (index s)) ORDER.
Proof. by destruct s. Qed.

Lemma knowing_learned n j v : knowing n v -> (j <= n)%nat -> (n <= 13)%nat -> knowing n (learned j v).
Proof.
  unfold knowing, learned. destruct v as [x c [k|] d b]; cbn; [|done]. intros [H1 H2] Hj Hn. split; [lia |].
  destruct (next_turn_mono x k (Nat.max j k)); lia.
Qed.

Lemma knowing_next n v : knowing n v -> (n < 13)%nat -> owner n <> part v -> knowing (S n) v.
Proof.
  unfold knowing. destruct (stage v) as [k|]; [|done]. intros [H1 H2] Hn Ho. split; [lia |]. by apply next_turn_other.
Qed.

Lemma at_least_knowing n j v : knowing n v -> at_least j v -> (j <= n)%nat.
Proof. unfold knowing, at_least. destruct (stage v); [lia | done]. Qed.

(** Numbers print in one way. *)
Lemma dec_Z_inj x y : dec_Z x = dec_Z y -> x = y.
Proof.
  unfold dec_Z. intros H.
  assert (forall n l, dec_N n <> 45%N :: l) as Hn.
  { intros n l. destruct (dec_N_shape n) as [-> | (c & ds & -> & Hc & _)]; [done |]. intros [= -> _]. done. }
  assert (forall a b, dec_N a = dec_N b -> a = b) as Hi by (intros a b E; apply (f_equal dec_value) in E; by rewrite !dec_N_value in E).
  destruct (Z.ltb_spec x 0), (Z.ltb_spec y 0).
  - injection H as H%Hi. lia.
  - symmetry in H. by apply Hn in H.
  - by apply Hn in H.
  - apply Hi in H. lia.
Qed.

Lemma sound_update w n vs i p v p' v' w' : sound w n vs -> procs w !! i = Some p -> vs !! i = Some v -> ident p' = ident p ->
  cast v' = cast v -> procs w' = <[i := p']> (procs w) -> follows n p' v' -> carried n w' -> sound w' n (<[i := v']> vs).
Proof.
  intros (Ha & Hf & _) Hp Hv Ei Ec Ep Hf' Hc. unfold sound. rewrite Ep. split; [|split; [by apply Forall2_insert | done]].
  assert (map ident (<[i := p']> (procs w)) = map ident (procs w)) as ->.
  { change (ident <$> <[i := p']> (procs w) = ident <$> procs w). rewrite list_fmap_insert. apply list_insert_id. by rewrite list_lookup_fmap, Hp, Ei. }
  assert (map cast (<[i := v']> vs) = map cast vs) as ->; [|done].
  change (cast <$> <[i := v']> vs = cast <$> vs). rewrite list_fmap_insert. apply list_insert_id. by rewrite list_lookup_fmap, Hv, Ec.
Qed.

(** The calls the kernel or the other processes take part in. *)
Definition talks (a : sys M) : bool :=
  match a with
  | Fork | Exit _ | Write GateWrite _ | Read GateRead _ | Send ParentEnd _ | Send ChildEnd _ | Recv ChildEnd _ | Recvmsg ParentEnd _
  | Fileno _ => true
  | _ => false
  end.

Lemma talks_not a : talks a = false ->
  (forall w r, settle w a r = (r, w)) /\ (forall r v K, watch a r v K -> plain a (succeeds a r) v K) /\
  (forall r k, spawned a r k = None) /\ (forall r k, resume a r k = Some (k r)).
Proof. destruct a; try done; destruct d; done. Qed.

Lemma sound_bound w n vs : sound w n vs -> (n <= 13)%nat.
Proof.
  intros (Ha & _). unfold arranged in Ha. destruct (procs w) as [|p0 [|p1 [|p2 [|]]]]; cbn in Ha; try done; destruct vs as [|[[] ?] [|[[] ?] [|[[] ?] [|]]]];
    cbn in Ha; try done; lia.
Qed.

(** A step is taken when it is its turn, by the process that knows. *)
Lemma may_take_now n p v t s : follows n p v -> may_take v t s -> n = index s.
Proof.
  intros (_ & _ & _ & Hk & _) (Hs & Ho & _). unfold knowing in Hk. rewrite Hs in Hk.
  rewrite next_turn_own in Hk by (try apply index_lt; done). lia.
Qed.

(** The others see the confinement go on. *)
Lemma follows_next n p v : follows n p v -> (n < 13)%nat -> owner n <> part v -> follows (S n) p v.
Proof. intros (H1 & H2 & H3 & H4 & H5) Hn Ho. repeat split; try done. by apply knowing_next. Qed.

Lemma follows_next_step n p v i s : follows n p v -> (n < 13)%nat -> owner n <> part v -> (length (steps p) < 5)%nat ->
  follows (S n) (add_step i s p) v.
Proof.
  intros (H1 & H2 & H3 & H4 & H5) Hn Ho Hl. repeat split; try done; [by apply knowing_next |]. cbn. rewrite length_app. cbn. lia.
Qed.

(** What is on its way stays true as the confinement goes on. *)
Lemma carried_next n w l : carried n w -> carried (S n) (with_procs l w).
Proof.
  intros (H1 & H2 & H3). repeat split; cbn; intros; [specialize (H1 ltac:(done)); lia | specialize (H2 ltac:(done)); lia |].
  eapply Forall_impl; [exact H3 |]. cbn. intros b [A B]. split; intros E; [specialize (A E) | specialize (B E)]; lia.
Qed.

Lemma dying_step b a t s done d : achieves b a = Some (t, s) -> (5 <= index s)%nat -> dying a done d = d.
Proof.
  intros H Hs. destruct a; try done; cbn in H.
  - cbn. destruct (Z.eqb_spec option PR_SET_NO_NEW_PRIVS) as [->|]; [done | discriminate H].
  - destruct (flags =? ALL_NAMESPACES); [|discriminate H]. injection H as <- <-. cbn in Hs. lia.
Qed.

Lemma steps_length k : (k <= 13)%nat -> length (take k ORDER) = k.
Proof. intros H. rewrite length_take. cbn. lia. Qed.

(** The three casts. *)
Lemma arranged_cases n ps vs : arranged n (map ident ps) (map cast vs) <->
  (exists p0 v0, ps = [p0] /\ vs = [v0] /\ part v0 = Starting /\ n = 0%nat /\ steps p0 = []) \/
  (exists p0 p1 v0 v1, ps = [p0; p1] /\ vs = [v0; v1] /\ part v0 = Supervisor /\ part v1 = Child /\ (n <= 5)%nat /\ steps p0 = [] /\
     steps p1 = take n ORDER /\ kid v0 = number p1 /\ number p0 <> number p1) \/
  (exists p0 p1 p2 v0 v1 v2, ps = [p0; p1; p2] /\ vs = [v0; v1; v2] /\ part v0 = Supervisor /\ part v1 = Forked /\ part v2 = Init /\
     (5 <= n <= 13)%nat /\ steps p0 = [] /\ steps p1 = take 5 ORDER /\ steps p2 = take n ORDER /\ kid v0 = number p1 /\
     number p0 <> number p1 /\ number p0 <> number p2 /\ number p1 <> number p2).
Proof.
  split.
  - intros H. unfold arranged in H.
    destruct ps as [|p0 [|p1 [|p2 [|p3 ps]]]], vs as [|v0 [|v1 [|v2 [|v3 vs]]]]; try done; cbn [map cast ident] in H;
      repeat match type of H with match ?x with _ => _ end => destruct x eqn:?; try done end; try done.
    + left. exists p0, v0. tauto.
    + right. left. exists p0, p1, v0, v1. tauto.
    + right. right. exists p0, p1, p2, v0, v1, v2. tauto.
  - intros [(p0 & v0 & -> & -> & Hx & -> & Hl) | [(p0 & p1 & v0 & v1 & -> & -> & Hx0 & Hx1 & H) |
      (p0 & p1 & p2 & v0 & v1 & v2 & -> & -> & Hx0 & Hx1 & Hx2 & H)]]; cbn; rewrite ?Hx, ?Hx0, ?Hx1, ?Hx2; tauto.
Qed.

(** Whom a call of a list of processes confines. *)
Definition aims (t : target) (x : Z) : Prop := match t with Own => False | Numbered n => n = x | Printed b => b = dec_Z x end.
Lemma hits_aimed t i j p q : aims t (number q) -> hits t i j p = bool_decide (number p = number q).
Proof.
  destruct t as [|n|b]; cbn; [done | intros -> | intros ->].
  - by destruct (Z.eqb_spec (number p) (number q)); case_bool_decide.
  - destruct (str_eqb (dec_Z (number p)) (dec_Z (number q))) eqn:E; case_bool_decide as D; try done.
    + apply str_eqb_eq, dec_Z_inj in E. done.
    + by rewrite D, str_eqb_refl in E.
Qed.

(** The process confined: the child for the supervisor's writes, the caller otherwise. *)
Lemma sound_step w n vs i p v t s p' v' : sound w n vs -> procs w !! i = Some p -> vs !! i = Some v -> may_take v t s ->
  ident p' = ident p -> cast v' = cast v -> ((5 <= index s)%nat -> dies p' = true) -> (stage v' = None \/ stage v' = Some (S n)) ->
  match code p' with Some c => obeys c returned raised (memory p') v' | None => True end -> dies p' = v_dies v' -> below p' = v_below v' ->
  sound (with_procs (confine i t s (<[i := p']> (procs w))) w) (S n) (<[i := v']> vs).
Proof.
  intros Hs Hp Hv Ht Ei Ec Hd Hst Hcode Hdies Hbelow. pose proof Hs as (Ha & Hf & Hc).
  assert (follows n p v) as Hfp by (eapply Forall2_lookup_lr; eauto).
  pose proof (may_take_now _ _ _ _ _ Hfp Ht) as ->. pose proof (index_lt s) as Hlt. destruct Ht as (_ & Ho & _ & Ht).
  assert (forall q, code q = code p' -> memory q = memory p' -> dies q = dies p' -> below q = below p' -> part v = part v' ->
    ((5 < length (steps q))%nat -> dies q = true) -> follows (S (index s)) q v') as Hmine.
  { intros q E2 E3 E4 E5 Ev E6. repeat split; [by rewrite E2, E3 | congruence | congruence | | done].
    unfold knowing. destruct Hst as [-> | ->]; [done |]. split; [done |]. apply next_turn_ge. lia. }
  assert (forall n, (n < 13)%nat -> owner n <> Starting /\ owner n <> Forked /\ (owner n = Supervisor -> (n < 5)%nat) /\ (owner n = Child -> n = 1%nat) /\
    (owner n = Init -> (5 <= n)%nat)) as Hown.
  { intros n Hn. do 13 (destruct n as [|n]; [split_and!; try done; lia |]). lia. }
  destruct (Hown _ Hlt) as (Hn1 & Hn2 & Hn3 & Hn4 & Hn5). clear Hown. pose proof (take_index s) as Htake.
  injection Ei as En Es. injection Ec as Ex Ek.
  assert (forall q w0, follows (index s) q w0 -> part w0 <> part v -> follows (S (index s)) q w0) as Hother.
  { intros q w0 Hq Hne. apply follows_next; [done | done |]. congruence. }
  set (ps := confine i t s (<[i := p']> (procs w))).
  enough (arranged (S (index s)) (map ident ps) (map cast (<[i := v']> vs)) /\ Forall2 (follows (S (index s))) ps (<[i := v']> vs)) as [E1 E2].
  { split; [exact E1 |]. split; [exact E2 | by apply carried_next]. }
  rewrite arranged_cases. subst ps.
  apply arranged_cases in Ha as [(p0 & v0 & Ep & Ev & Hx & Hn & Hl) | [(p0 & p1 & v0 & v1 & Ep & Ev & Hx0 & Hx1 & Hn & Hl0 & Hl1 & Hk & Hne) |
    (p0 & p1 & p2 & v0 & v1 & v2 & Ep & Ev & Hx0 & Hx1 & Hx2 & Hn & Hl0 & Hl1 & Hl2 & Hk & Hne1 & Hne2 & Hne3)]]; rewrite Ep, Ev in *.
  - destruct i as [|[|]]; try discriminate. injection Hv as ->. congruence.
  - apply Forall2_cons in Hf as [Hf0 Hf]. apply Forall2_cons in Hf as [Hf1 _].
    destruct i as [|[|]]; try discriminate; injection Hp as ->; injection Hv as ->.
    + assert (aims t (number p1)) as Haim by (rewrite <- Hk; destruct t; cbn; tauto).
      assert (confine 0 t s (<[0%nat := p']> [p; p1]) = [p'; add_step 0 s p1]) as ->.
      { cbn. rewrite !(hits_aimed t _ _ _ p1) by done. by rewrite En, bool_decide_false, bool_decide_true. }
      assert (index s < 5)%nat as H5 by (apply Hn3; congruence). cbn [list_insert insert]. split.
      * right. left. exists p', (add_step 0 s p1), v', v1. split_and!; cbn [number steps add_step]; try done; try congruence; try lia.
      * apply Forall2_cons. split; [apply Hmine; try done; rewrite Es, Hl0; cbn; lia |]. apply Forall2_cons. split; [|done].
        apply follows_next_step; [done | done | congruence |]. rewrite Hl1, steps_length by lia. lia.
    + destruct t; [|naive_solver congruence..].
      assert (confine 1 Own s (<[1%nat := p']> [p0; p]) = [p0; add_step 1 s p']) as -> by done. cbn [list_insert insert].
      assert (index s = 1%nat) as H1 by (apply Hn4; congruence). split.
      * right. left. exists p0, (add_step 1 s p'), v0, v'. split_and!; cbn [number steps add_step]; try done; try congruence; try lia.
      * apply Forall2_cons. split; [apply Hother; congruence |]. apply Forall2_cons. split; [|done].
        apply Hmine; try done. cbn. rewrite Es, Hl1, length_app, steps_length by lia. cbn. lia.
  - apply Forall2_cons in Hf as [Hf0 Hf]. apply Forall2_cons in Hf as [Hf1 Hf]. apply Forall2_cons in Hf as [Hf2 _].
    destruct i as [|[|[|]]]; try discriminate; injection Hp as ->; injection Hv as ->.
    + exfalso. assert (index s < 5)%nat by (apply Hn3; congruence). lia.
    + congruence.
    + destruct t; [|naive_solver congruence..].
      assert (confine 2 Own s (<[2%nat := p']> [p0; p1; p]) = [p0; p1; add_step 2 s p']) as -> by done. cbn [list_insert insert]. split.
      * right. right. exists p0, p1, (add_step 2 s p'), v0, v1, v'. split_and!; cbn [number steps add_step]; try done; try congruence; try lia.
      * apply Forall2_cons. split; [apply Hother; congruence |]. apply Forall2_cons. split; [apply Hother; congruence |].
        apply Forall2_cons. split; [|done]. apply Hmine; try done. cbn. intros _. apply Hd. lia.
Qed.

Lemma child_steps w n vs i p v : sound w n vs -> procs w !! i = Some p -> vs !! i = Some v -> part v = Child -> (length (steps p) <= 5)%nat.
Proof.
  intros (Ha & _) Hp Hv Hx.
  apply arranged_cases in Ha as [(p0 & v0 & Ep & Ev & Hx0 & _) | [(p0 & p1 & v0 & v1 & Ep & Ev & Hx0 & Hx1 & Hn & _ & Hl & _) |
    (p0 & p1 & p2 & v0 & v1 & v2 & Ep & Ev & Hx0 & Hx1 & Hx2 & _)]]; rewrite Ep in Hp; rewrite Ev in Hv.
  - destruct i as [|[|]]; try discriminate. injection Hv as ->. congruence.
  - destruct i as [|[|]]; try discriminate; injection Hv as ->; injection Hp as ->; [congruence |]. rewrite Hl, length_take. lia.
  - destruct i as [|[|[|]]]; try discriminate; injection Hv as ->; congruence.
Qed.

Lemma dying_kept a done d : clears a = false -> d = true -> dying a done d = true.
Proof. intros H ->. destruct a; try done; cbn in *; try done. rewrite orb_true_r. by destruct (_ && _). Qed.

(** A call that concerns no other process. *)
Lemma sound_plain w n vs i o p v a k : sound w n vs -> procs w !! i = Some p -> vs !! i = Some v -> talks a = false ->
  (forall r, watch a r v (fun v' => obeys (k r) returned raised (memory p) v')) -> exists n' vs', sound (perform_call i o p a k w) n' vs'.
Proof.
  intros Hs Hp Hv Ht Hob. destruct (talks_not a Ht) as (Hset & Hw & Hsp & Hre).
  assert (follows n p v) as (Hcode & Hdies & Hbelow & Hk & Hlen) by (destruct Hs as (_ & Hf & _); eapply Forall2_lookup_lr; eauto).
  unfold perform_call. rewrite Hset, Hsp, Hre. set (r := o.1 a). set (done := succeeds a r).
  destruct (Hw _ _ _ (Hob r)) as [Hcl Hob']. fold done in Hob'. rewrite <- Hbelow in Hob'.
  set (p' := {| code := Some (k r); memory := memory p; number := number p; dies := dying a done (dies p);
                below := closed_below a done (below p); steps := steps p; takers := takers p |}).
  assert ((5 < length (steps p))%nat -> dies p' = true) as Hlen'.
  { intros H. cbn. destruct (clears a) eqn:Ec; [|by apply dying_kept, Hlen].
    pose proof (child_steps _ _ _ _ _ _ Hs Hp Hv (Hcl eq_refl)). lia. }
  assert (forall v' : view, part v' = part v -> kid v' = kid v -> v_dies v' = dying a done (v_dies v) -> v_below v' = closed_below a done (v_below v) ->
    knowing n v' -> obeys (k r) returned raised (memory p) v' -> sound (with_procs (<[i := p']> (procs w)) w) n (<[i := v']> vs)) as Hup.
  { intros v' H1 H2 H3 H4 H5 H6. apply (sound_update w n vs i p v p'); try done; [by unfold cast; rewrite H1, H2 | | apply Hs].
    split_and!; try done; cbn; congruence. }
  destruct (achieves (below p) a) as [[t s]|] eqn:Ha; [|by exists n, (<[i := local a done v]> vs); apply Hup].
  destruct Hob' as [Hmay Hob']. set (v' := with_stage _ _) in Hob'.
  destruct (done || o.2) eqn:E.
  - exists (S n), (<[i := v']> vs).
    assert (follows n p v) as Hfp by (split_and!; done). pose proof (may_take_now _ _ _ _ _ Hfp Hmay) as Hn.
    apply (sound_step w n vs i p v t s p' v'); try done; try (cbn; congruence).
    + intros H5. cbn. erewrite dying_step by eauto. rewrite Hdies. apply Hmay, H5.
    + cbn. destruct done; [right; by rewrite Hn | by left].
  - apply orb_false_iff in E as [E _]. exists n, (<[i := v']> vs). apply Hup; try done. unfold v'. by rewrite E.
Qed.

(** A call that goes through the pipe or the channel. *)
Lemma sound_queue w n vs i p v c v' w' : sound w n vs -> procs w !! i = Some p -> vs !! i = Some v -> procs w' = procs w -> carried n w' ->
  part v' = part v -> kid v' = kid v -> v_dies v' = v_dies v -> v_below v' = v_below v -> knowing n v' ->
  match c with Some c => obeys c returned raised (memory p) v' | None => True end ->
  sound (with_procs (<[i := goes_on c (memory p) p]> (procs w')) w') n (<[i := v']> vs).
Proof.
  intros Hs Hp Hv Ep Hc H1 H2 H3 H4 H5 H6.
  assert (follows n p v) as (Hcode & Hdies & Hbelow & Hk & Hlen) by (destruct Hs as (_ & Hf & _); eapply Forall2_lookup_lr; eauto).
  apply (sound_update w n vs i p v (goes_on c (memory p) p)); try done; [by unfold cast; rewrite H1, H2 | cbn; by rewrite Ep |].
  split_and!; try done; cbn; congruence.
Qed.

Lemma knowing_of w n vs i p v : sound w n vs -> procs w !! i = Some p -> vs !! i = Some v -> knowing n v.
Proof. intros (_ & Hf & _) Hp Hv. by destruct (Forall2_lookup_lr _ _ _ _ _ _ Hf Hp Hv) as (_ & _ & _ & ? & _). Qed.

Lemma take_eq_MAP m : take 8 m = MAP -> m = MAP.
Proof. intros H. rewrite <- H. symmetry. apply take_ge. apply (f_equal length) in H. rewrite length_take in H. match type of H with _ = ?x => let y := eval compute in x in change x with y in H end. lia. Qed.
Lemma take_eq_READY m : take 8 m = READY -> m = READY.
Proof. intros H. rewrite <- H. symmetry. apply take_ge. apply (f_equal length) in H. rewrite length_take in H. match type of H with _ = ?x => let y := eval compute in x in change x with y in H end. lia. Qed.

Lemma sound_talk w n vs i o p v a k : sound w n vs -> procs w !! i = Some p -> vs !! i = Some v -> talks a = true -> a <> Fork ->
  (forall r, watch a r v (fun v' => obeys (k r) returned raised (memory p) v')) -> exists n' vs', sound (perform_call i o p a k w) n' vs'.
Proof.
  intros Hs Hp Hv Ht Hnf Hob. pose proof (knowing_of _ _ _ _ _ _ Hs Hp Hv) as Hk. pose proof (sound_bound _ _ _ Hs) as Hn.
  pose proof Hs as (_ & _ & Hg & Hd & Hu).
  assert (forall c v' w', procs w' = procs w -> carried n w' -> part v' = part v -> kid v' = kid v -> v_dies v' = v_dies v -> v_below v' = v_below v ->
    knowing n v' -> match c with Some c => obeys c returned raised (memory p) v' | None => True end ->
    exists n' vs', sound (with_procs (<[i := goes_on c (memory p) p]> (procs w')) w') n' vs') as Hq.
  { intros c v' w' H1 H2 H3 H4 H5 H6 H7 H8. exists n, (<[i := v']> vs). by apply (sound_queue w n vs i p v). }
  assert (carried n w) as Hc by apply Hs.
  assert (forall d (E : a = Fileno d), exists n' vs', sound (perform_call i o p a k w) n' vs') as Hfile.
  { intros d ->. unfold perform_call. cbn [settle]. destruct (o.1 _) as [x|e]; [destruct (0 <=? numbers d) eqn:E|].
    - apply (Hq (Some (k (Ok (numbers d)))) v w); try done. apply Z.leb_le in E. by apply (Hob (Ok (numbers d))).
    - apply (Hq (Some (k (Raise OSError))) v w); try done. apply (Hob (Raise OSError)).
    - apply (Hq (Some (k (Raise e))) v w); try done. apply (Hob (Raise e)). }
  destruct a; try discriminate Ht; try done; try (by eapply Hfile); clear Hfile; try destruct d; try discriminate Ht; unfold perform_call; cbn [settle].
  - by apply (Hq None v w).
  - destruct (o.1 _) as [[|c l]|e]; [by apply (Hq (Some (k (Ok []))) v w); auto; apply (Hob (Ok [])) | |
      by apply (Hq (Some (k (Raise e))) v w); auto; apply (Hob (Raise e))].
    set (x := take (Z.to_nat n0) (gate w)). set (v' := match x with [] => v | _ => learned 1 v end).
    apply (Hq (Some (k (Ok x))) v' (with_gate (drop (Z.to_nat n0) (gate w)) w)); try done; try (subst v'; by destruct x).
    + split; [|by split]. cbn. intros H. apply Hg. intros E. rewrite E, drop_nil in H. done.
    + subst v'. destruct x eqn:E; [done |]. apply knowing_learned; [done | | done]. apply Hg. intros E'. subst x. by rewrite E', take_nil in E.
    + subst v'. specialize (Hob (Ok x)). cbn [watch] in Hob. by destruct x.
  - destruct (o.1 _) as [x|e].
    + destruct (Hob (Ok (Z.min x (zlen b)))) as [Hl H]. apply (Hq (Some (k (Ok (Z.min x (zlen b))))) v (with_gate (gate w ++ take (Z.to_nat x) b) w)); try done.
      split; [|by split]. intros _. by eapply at_least_knowing.
    + apply (Hq (Some (k (Raise e))) v w); try done. apply (Hob (Raise e)).
  - destruct (o.1 _) as [[]|e].
    + destruct (Hob (Ok tt)) as [Hl H]. apply (Hq (Some (k (Ok tt))) v (with_to_child (to_child w ++ [b]) w)); try done.
      split; [done |]. split; [|done]. intros _. by eapply at_least_knowing.
    + apply (Hq (Some (k (Raise e))) v w); try done. apply (Hob (Raise e)).
  - destruct (o.1 _) as [[]|e].
    + destruct (Hob (Ok tt)) as (Hl1 & Hl2 & H). apply (Hq (Some (k (Ok tt))) v (with_to_parent (to_parent w ++ [b]) w)); try done.
      split; [done |]. split; [done |]. apply Forall_app. split; [done |]. apply Forall_singleton.
      split; intros E; eapply at_least_knowing; eauto.
    + apply (Hq (Some (k (Raise e))) v w); try done. apply (Hob (Raise e)).
  - destruct (o.1 _) as [[[|c l]|]|e]; [by apply (Hq (Some (k (Ok (Some [])))) v w); auto; apply (Hob (Ok (Some []))) | |
      by apply (Hq (Some (k (Ok None))) v w); auto; apply (Hob (Ok None)) | by apply (Hq (Some (k (Raise e))) v w); auto; apply (Hob (Raise e))].
    destruct (to_child w) as [|m rest] eqn:Ec; [by apply (Hq (Some (k (Ok None))) v w); auto; apply (Hob (Ok None)) |].
    assert (5 <= n)%nat as H5 by by apply Hd.
    set (x := take (Z.to_nat n0) m). set (v' := match x with [] => v | _ => learned 5 v end).
    apply (Hq (Some (k (Ok (Some x)))) v' (with_to_child rest w)); try done; try (subst v'; by destruct x).
    + subst v'. destruct x; [done |]. by apply knowing_learned.
    + subst v'. specialize (Hob (Ok (Some x))). cbn [watch] in Hob. by destruct x.
  - pose proof (Hob (Raise OSError)) as [-> _]. assert (forall r, watch (Recvmsg ParentEnd 8) r v (fun v' => obeys (k r) returned raised (memory p) v')) as Hob' by done.
    destruct (o.1 _) as [[[[[|c l] anc] flags]|]|e]; [by apply (Hq (Some (k (Ok (Some ([], anc, flags))))) v w); auto; apply (Hob (Ok (Some ([], anc, flags)))) | |
      by apply (Hq (Some (k (Ok None))) v w); auto; apply (Hob (Ok None)) | by apply (Hq (Some (k (Raise e))) v w); auto; apply (Hob (Raise e))].
    destruct (to_parent w) as [|m rest] eqn:Ec; [by apply (Hq (Some (k (Ok None))) v w); auto; apply (Hob (Ok None)) |].
    apply Forall_cons in Hu as [[Hm1 Hm2] Hu].
    apply (Hq (Some (k (Ok (Some (take 8 m, anc, flags))))) (told (take 8 m) v) (with_to_parent rest w)); try done.
    + by rewrite told_part.
    + unfold told. by repeat destruct (str_eqb _ _).
    + unfold told. by repeat destruct (str_eqb _ _).
    + unfold told. by repeat destruct (str_eqb _ _).
    + unfold told. destruct (str_eqb (take 8 m) MAP) eqn:E1; [apply str_eqb_eq, take_eq_MAP in E1; by apply knowing_learned; auto |].
      destruct (str_eqb (take 8 m) READY) eqn:E2; [apply str_eqb_eq, take_eq_READY in E2; by apply knowing_learned; auto | done].
    + apply (Hob (Ok (Some (take 8 m, anc, flags)))).
Qed.

(** A fork makes the child, and the child's the init. *)
Lemma sound_fork w n vs i o p v k : sound w n vs -> procs w !! i = Some p -> vs !! i = Some v ->
  (forall r, watch Fork r v (fun v' => obeys (k r) returned raised (memory p) v')) -> exists n' vs', sound (perform_call i o p Fork k w) n' vs'.
Proof.
  intros Hs Hp Hv Hob. unfold perform_call. cbn [settle].
  assert (forall e, obeys (k (Raise e)) returned raised (memory p) v -> exists n' vs',
    sound (with_procs (<[i := goes_on (Some (k (Raise e))) (memory p) p]> (procs w)) w) n' vs') as Hfail.
  { intros e H. exists n, (<[i := v]> vs). apply (sound_queue w n vs i p v (Some (k (Raise e))) v w); try done; [apply Hs | by eapply knowing_of]. }
  assert (forall e, obeys (k (Raise e)) returned raised (memory p) v) as Hraise.
  { intros e. specialize (Hob (Raise e)). cbn [watch] in Hob. destruct (part v); tauto. }
  destruct (o.1 Fork) as [x|e]; [|apply Hfail, Hraise].
  destruct (_ && _) eqn:E; [|apply Hfail, Hraise]. apply andb_true_iff in E as [Hx Hfresh]. apply Z.ltb_lt in Hx.
  rewrite forallb_forall in Hfresh. cbn [spawned resume achieves].
  pose proof (Hob (Ok x)) as H1. pose proof (Hob (Ok 0)) as H0. cbn [watch] in H1, H0. cbn [Z.eqb] in H0.
  destruct (Z.eqb_spec x 0); [lia |]. clear Hob Hfail Hraise. pose proof Hs as (Ha & Hf & Hc).
  apply arranged_cases in Ha as [(p0 & v0 & Ep & Ev & Hx0 & Hn & Hl) | [(p0 & p1 & v0 & v1 & Ep & Ev & Hx0 & Hx1 & Hn & Hl0 & Hl1 & Hk & Hne) |
    (p0 & p1 & p2 & v0 & v1 & v2 & Ep & Ev & Hx0 & Hx1 & Hx2 & _)]]; rewrite Ep in Hp, Hf, Hfresh |- *; rewrite Ev in Hv, Hf.
  - destruct i as [|[|]]; try discriminate. injection Hp as ->. injection Hv as ->. rewrite Hx0 in H1, H0. subst n.
    apply Forall2_cons in Hf as [(_ & Hd & Hb & _) _].
    match type of H1 with obeys _ _ _ _ ?v1 => match type of H0 with obeys _ _ _ _ ?v0 => exists 0%nat, [v1; v0] end end.
    split; [|split; [|exact Hc]].
    + apply arranged_cases. right. left. do 4 eexists. split; [reflexivity |]. split; [reflexivity |]. split_and!; try done; [lia |].
      specialize (Hfresh p (or_introl eq_refl)). apply negb_true_iff, Z.eqb_neq in Hfresh. done.
    + apply Forall2_cons. split; [|apply Forall2_cons; split; [|done]]; split_and!; try done; cbn; rewrite ?Hl; cbn; try lia; vm_compute; lia.
  - apply Forall2_cons in Hf as [Hf0 Hf]. apply Forall2_cons in Hf as [(_ & Hd & Hb & Hkn & _) _].
    destruct i as [|[|]]; try discriminate; injection Hp as ->; injection Hv as ->; [by rewrite Hx0 in H1 |].
    rewrite Hx1 in H1, H0. destruct H1 as [Hst H1], H0 as [_ H0].
    assert (n = 5%nat) as -> by (unfold knowing in Hkn; rewrite Hst in Hkn; lia).
    match type of H1 with obeys _ _ _ _ ?v1 => match type of H0 with obeys _ _ _ _ ?v2 => exists 5%nat, [v0; v1; v2] end end.
    split; [|split; [|exact Hc]].
    + apply arranged_cases. right. right. do 6 eexists. split; [reflexivity |]. split; [reflexivity |].
      assert (forall q, In q [p0; p] -> number q <> x) as Hq.
      { intros q Hin. specialize (Hfresh q Hin). by apply negb_true_iff, Z.eqb_neq in Hfresh. }
      split_and!; try done; try lia; cbn [number]; apply Hq; ((by left) || (by right; left)).
    + apply Forall2_cons. split; [done |]. apply Forall2_cons. split; [|apply Forall2_cons; split; [|done]];
        split_and!; try done; cbn [dies below steps code memory v_dies v_below]; try congruence; try (rewrite Hl1; cbn; lia); vm_compute; lia.
  - exfalso. destruct i as [|[|[|]]]; try discriminate; injection Hv as ->; by rewrite ?Hx0, ?Hx1, ?Hx2 in H1.
Qed.

(** *** Who takes a step *)

(** The supervisor takes the steps that are its turn, and no other process does. *)
Definition taken_by (s : step) (i : nat) : Prop := i = 0%nat <-> owner (index s) = Supervisor.
Definition credited (w : world) : Prop := Forall (fun p => Forall2 taken_by (steps p) (takers p)) (procs w).

Lemma credited_procs w l : Forall (fun p => Forall2 taken_by (steps p) (takers p)) l -> credited (with_procs l w).
Proof. done. Qed.

Lemma confine_credited i t s l :
  taken_by s i -> Forall (fun p => Forall2 taken_by (steps p) (takers p)) l ->
  Forall (fun p => Forall2 taken_by (steps p) (takers p)) (confine i t s l).
Proof.
  intros Hs Hl. unfold confine. apply Forall_lookup. intros j p Hp. rewrite list_lookup_imap in Hp.
  destruct (l !! j) as [q|] eqn:E; [|done]. injection Hp as <-. pose proof (Forall_lookup_1 _ _ _ _ Hl E) as Hq.
  destruct (hits t i j q); [|done]. cbn. apply Forall2_app; [done |]. by constructor.
Qed.

Lemma settle_procs w a r : procs (settle w a r).2 = procs w.
Proof.
  destruct a; try done; try destruct d; try done; cbn [settle];
    repeat match goal with |- context [match ?x with _ => _ end] => destruct x; cbn end; done.
Qed.

(** Where a process stands is what it is. *)
Lemma sound_place w n vs i p v : sound w n vs -> procs w !! i = Some p -> vs !! i = Some v -> part v <> Starting ->
  i = 0%nat <-> part v = Supervisor.
Proof.
  intros (Ha & _) Hp Hv Hn. apply arranged_cases in Ha as [(p0 & v0 & _ & Ev & Hx0 & _) | [(p0 & p1 & v0 & v1 & _ & Ev & Hx0 & Hx1 & _) |
    (p0 & p1 & p2 & v0 & v1 & v2 & _ & Ev & Hx0 & Hx1 & Hx2 & _)]]; rewrite Ev in Hv.
  - destruct i; [|done]. injection Hv as ->. congruence.
  - destruct i as [|[|]]; try discriminate; injection Hv as ->; split; congruence.
  - destruct i as [|[|[|]]]; try discriminate; injection Hv as ->; split; congruence.
Qed.

Lemma advance_credited w n vs i o : sound w n vs -> credited w -> credited (advance i o w).
Proof.
  intros Hs Hw. unfold advance. destruct (procs w !! i) as [p|] eqn:Hp; [|done].
  pose proof Hs as (_ & Hf & _). destruct (Forall2_lookup_l _ _ _ _ _ Hf Hp) as (v & Hv & Hcode & _ & Hbelow & _).
  pose proof (Forall_lookup_1 _ _ _ _ Hw Hp) as Hmine.
  assert (forall q, steps q = steps p -> takers q = takers p ->
    Forall (fun p => Forall2 taken_by (steps p) (takers p)) (<[i := q]> (procs w))) as Hup.
  { intros q E1 E2. apply Forall_insert; [done | by rewrite E1, E2]. }
  destruct (code p) as [[x|e|a k|k|m k]|] eqn:E; try done; try by apply credited_procs, Hup.
  unfold perform_call. pose proof (settle_procs w a (o.1 a)) as Eprocs. destruct (settle w a (o.1 a)) as [r w'] eqn:Eset. cbn [snd] in Eprocs.
  rewrite Eprocs. apply credited_procs.
  set (p' := {| code := resume a r k; memory := memory p; number := number p; dies := _; below := _; steps := steps p; takers := takers p |}).
  assert (Forall (fun p => Forall2 taken_by (steps p) (takers p))
    (match achieves (below p) a with Some (t, s) => if succeeds a r || o.2 then confine i t s (<[i := p']> (procs w)) else <[i := p']> (procs w)
     | None => <[i := p']> (procs w) end)) as Hl.
  { destruct (achieves (below p) a) as [[t s]|] eqn:Ha; [|by apply Hup]. destruct (succeeds a r || o.2); [|by apply Hup].
    apply confine_credited; [|by apply Hup].
    assert (talks a = false) as Ht by (destruct a; try done; destruct d; done).
    destruct (talks_not a Ht) as (_ & Hwatch & _). cbn in Hcode. destruct (Hwatch _ _ _ (Hcode r)) as [_ Hplain].
    rewrite <- Hbelow, Ha in Hplain. destruct Hplain as [(_ & Hown & _) _]. unfold taken_by. rewrite Hown.
    apply (sound_place w n vs i p v); try done. intros Hst. rewrite Hst in Hown. pose proof (index_lt s) as Hlt.
    revert Hown Hlt. generalize (index s). intros j. do 13 (destruct j as [|j]; [done |]). lia. }
  destruct (spawned a r k) as [[m c]|]; [|exact Hl]. apply Forall_app. split; [exact Hl |]. by apply Forall_singleton.
Qed.

Lemma sound_advance w n vs i o : sound w n vs -> exists n' vs', sound (advance i o w) n' vs'.
Proof.
  intros Hs. unfold advance. destruct (procs w !! i) as [p|] eqn:Hp; [|by exists n, vs].
  pose proof Hs as (_ & Hf & Hc). destruct (Forall2_lookup_l _ _ _ _ _ Hf Hp) as (v & Hv & Hcode & _).
  assert (forall c m, obeys c returned raised m v -> sound (with_procs (<[i := goes_on (Some c) m p]> (procs w)) w) n (<[i := v]> vs)) as Hmove.
  { intros c m H. apply (sound_update w n vs i p v (goes_on (Some c) m p)); try done.
    destruct (Forall2_lookup_lr _ _ _ _ _ _ Hf Hp Hv) as (_ & H2 & H3 & H4 & H5). by split_and!. }
  destruct (code p) as [[x|e|a k|k|m k]|] eqn:E; try by exists n, vs.
  - destruct (talks a) eqn:Ht; [|by eapply sound_plain].
    assert (a = Fork \/ a <> Fork) as [-> | Hnf] by (destruct a; first [left; reflexivity | right; discriminate]); [by eapply sound_fork | by eapply sound_talk].
  - exists n, (<[i := v]> vs). by apply Hmove.
  - exists n, (<[i := v]> vs). by apply Hmove.
Qed.

Lemma starting_channel_sound m pid : sound (starting m pid) 0 [first_view].
Proof.
  split; [done |]. split; [|split; [done |]; split; [done | by apply Forall_nil]].
  apply Forall2_cons. split; [|done]. split_and!; try done; [apply establish_obeys | |]; vm_compute; try lia; done.
Qed.

Lemma run_all_sound schedule w n vs : sound w n vs -> credited w ->
  credited (run_all schedule w) /\ exists n' vs', sound (run_all schedule w) n' vs'.
Proof.
  revert w n vs. induction schedule as [|[i o] rest IH]; intros w n vs H Hc; cbn [run_all]; [split; [done |]; by exists n, vs |].
  destruct (sound_advance w n vs i o H) as (n' & vs' & H'). eapply IH; [exact H' | by eapply advance_credited].
Qed.

Lemma after_sound schedule m pid : credited (after schedule m pid) /\ exists n vs, sound (after schedule m pid) n vs.
Proof. apply (run_all_sound _ _ _ _ (starting_channel_sound m pid)). by repeat constructor. Qed.

Lemma sound_prefix w n vs p : sound w n vs -> In p (procs w) -> exists k, (k <= 13)%nat /\ steps p = take k ORDER /\ ((5 < k)%nat -> dies p = true).
Proof.
  intros Hs Hin. apply list_elem_of_In, list_elem_of_lookup in Hin as [i Hp]. pose proof (sound_bound _ _ _ Hs) as Hn. destruct Hs as (Ha & Hf & _).
  destruct (Forall2_lookup_l _ _ _ _ _ Hf Hp) as (v & Hv & _ & _ & _ & _ & Hd).
  assert (exists k, (k <= 13)%nat /\ steps p = take k ORDER) as (k & Hk & E).
  { apply arranged_cases in Ha as [(p0 & v0 & Ep & Ev & Hx0 & _ & Hl) | [(p0 & p1 & v0 & v1 & Ep & Ev & Hx0 & Hx1 & _ & Hl0 & Hl1 & _) |
      (p0 & p1 & p2 & v0 & v1 & v2 & Ep & Ev & Hx0 & Hx1 & Hx2 & _ & Hl0 & Hl1 & Hl2 & _)]]; rewrite Ep in Hp.
    - destruct i as [|[|]]; try discriminate; injection Hp as <-. exists 0%nat. split; [lia | done].
    - destruct i as [|[|]]; try discriminate; injection Hp as <-; [exists 0%nat | exists n]; (split; [lia | done]).
    - destruct i as [|[|[|]]]; try discriminate; injection Hp as <-; [exists 0%nat | exists 5%nat | exists n]; (split; [lia | done]). }
  exists k. split; [done |]. split; [done |]. intros H. apply Hd. by rewrite E, steps_length.
Qed.

(** The part of a process that is not the first. *)
Lemma sound_forked w n vs i p : sound w n vs -> procs w !! S i = Some p -> forall x e, code p <> Some (Return x) /\ code p <> Some (Throw e).
Proof.
  intros (Ha & Hf & _) Hp x e. destruct (Forall2_lookup_l _ _ _ _ _ Hf Hp) as (v & Hv & Hc & _).
  assert (part v <> Starting /\ part v <> Supervisor) as [H1 H2].
  { apply arranged_cases in Ha as [(p0 & v0 & Ep & Ev & _) | [(p0 & p1 & v0 & v1 & Ep & Ev & Hx0 & Hx1 & _) |
      (p0 & p1 & p2 & v0 & v1 & v2 & Ep & Ev & Hx0 & Hx1 & Hx2 & _)]]; rewrite Ev in Hv; destruct i as [|[|]]; try discriminate Hv; injection Hv as <-;
      by rewrite ?Hx1, ?Hx2. }
  split; intros E; rewrite E in Hc; cbn in Hc; [by destruct Hc | by destruct Hc].
Qed.

(** [establish] returned in the first process. *)
Lemma sound_returned w n vs p : sound w n vs -> procs w !! 0%nat = Some p -> code p = Some (Return tt) ->
  knows_peer (memory p) /\ exists q, In q (procs w) /\ steps q = ORDER /\ dies q = true.
Proof.
  intros Hs Hp E. pose proof (sound_bound _ _ _ Hs) as Hn. pose proof Hs as (Ha & Hf & _).
  destruct (Forall2_lookup_l _ _ _ _ _ Hf Hp) as (v & Hv & Hc & _ & _ & Hk & _). rewrite E in Hc. destruct Hc as (Hx & Hl & Hpeer).
  split; [done |]. pose proof (at_least_knowing _ _ _ Hk Hl) as H13.
  apply arranged_cases in Ha as [(p0 & v0 & Ep & Ev & Hx0 & H0 & _) | [(p0 & p1 & v0 & v1 & Ep & Ev & Hx0 & Hx1 & H5 & _) |
    (p0 & p1 & p2 & v0 & v1 & v2 & Ep & Ev & Hx0 & Hx1 & Hx2 & _ & Hl0 & Hl1 & Hl2 & _)]]; [lia | lia |].
  assert (n = 13%nat) as -> by lia. rewrite Ep. exists p2. split; [cbn; tauto |]. split; [done |].
  assert (procs w !! 2%nat = Some p2) as H2 by by rewrite Ep. destruct (Forall2_lookup_l _ _ _ _ _ Hf H2) as (w2 & _ & _ & _ & _ & _ & Hd).
  apply Hd. rewrite Hl2. cbn. lia.
Qed.

(** C25: The confinement has one order, whatever the processes do.  In every interleaving of the
    supervisor, the child and the init of its namespaces, with every answer of the kernel, the
    steps of each process are a prefix of [ORDER]: joined to the cgroup before anything else, then
    in its namespaces, its ids mapped, then its root made private, bound, read only and entered, all
    descriptors closed but the one that is the channel's, no new privileges, no capabilities, and
    the filter last; the supervisor, and it alone, takes the step into the cgroup and those that map
    the ids; a process that touches its root dies with its parent.  The supervisor itself is never
    confined, and a forked process never comes back from [establish].  When [establish] returns to
    the supervisor, some process has taken every step, and the peer it settled on has the ids, the
    empty capabilities, the filter and the cgroup it must have. *)
Theorem confinement_in_order schedule m pid : let w := after schedule m pid in
  (forall p, In p (procs w) -> steps p `prefix_of` ORDER /\ (In Mounts_private (steps p) -> dies p = true) /\
     Forall2 (fun s i => i = 0%nat <-> In s [Joined; Setgroups_denied; Uid_mapped; Gid_mapped]) (steps p) (takers p)) /\
  (forall p, procs w !! 0%nat = Some p -> steps p = []) /\
  (forall i p x e, procs w !! S i = Some p -> code p <> Some (Return x) /\ code p <> Some (Throw e)) /\
  (forall p, procs w !! 0%nat = Some p -> code p = Some (Return tt) ->
     knows_peer (memory p) /\ exists q, In q (procs w) /\ steps q = ORDER /\ dies q = true).
Proof.
  destruct (after_sound schedule m pid) as (Hcr & n & vs & Hs). set (w := after schedule m pid) in *. cbv zeta. split_and!.
  - intros p Hp. destruct (sound_prefix _ _ _ _ Hs Hp) as (k & Hk & E & Hd). rewrite E. split; [apply prefix_take |]. split.
    + intros Hin. apply Hd. destruct (decide (5 < k)%nat) as [|Hk5]; [done | exfalso]. revert Hin.
      assert (k <= 5)%nat as Hk' by lia. clear -Hk'. do 6 (destruct k as [|k]; [cbn; intuition discriminate |]). lia.
    + rewrite <- E. apply list_elem_of_In in Hp. eapply Forall2_impl; [exact (proj1 (Forall_forall _ _) Hcr p Hp) |].
      intros s i H. unfold taken_by in H. rewrite H. destruct s; cbn; intuition discriminate.
  - intros p Hp. destruct Hs as (Ha & _). apply arranged_cases in Ha as [(p0 & v0 & Ep & _ & _ & _ & Hl) |
      [(p0 & p1 & v0 & v1 & Ep & _ & _ & _ & _ & Hl & _) | (p0 & p1 & p2 & v0 & v1 & v2 & Ep & _ & _ & _ & _ & _ & Hl & _)]];
      rewrite Ep in Hp; by injection Hp as <-.
  - intros i p x e Hp. by eapply sound_forked.
  - intros p Hp E. by eapply sound_returned.
Qed.

(** ** The reference order *)

(** What a step of the confinement completes of the reference's steps. *)
Definition unit_steps (s : step) : list string :=
  match s with
  | Joined => ["cgroup_attach"]
  | Namespaced => ["user_mount_pid_network_namespaces"]
  | Gid_mapped => ["uid_gid_maps"]
  | Root_entered => ["readonly_root"]
  | Ambient_closed => ["close_ambient_fds"]
  | No_new_privs => ["no_new_privs"]
  | Capabilities_dropped => ["drop_capabilities"]
  | Filtered => ["seccomp"]
  | _ => []
  end.

(** The steps of a run of the reference, noted in order. *)
Definition unit_run : list string := (unit_establish (fun s => update (fun l => l ++ [s])) []).2.

Definition exchange (a b s : string) : string := if String.eqb s a then b else if String.eqb s b then a else s.

(** C26: The native channel keeps the order of [UnitBoundary], but for the two steps that drop
    privileges, which it takes the other way round.  At any moment of any run, what a process has
    completed is the beginning of what the reference does between the death signal and the check
    of the peer; when [establish] returns, one process has completed all of it. *)
Theorem native_refines_unit schedule m pid : let w := after schedule m pid in
  let reference := map (exchange "drop_capabilities" "no_new_privs") unit_run in
  (forall p, In p (procs w) -> exists later, reference = "parent_death" :: flat_map unit_steps (steps p) ++ later ++ ["peer_check"]) /\
  (forall p, procs w !! 0%nat = Some p -> code p = Some (Return tt) ->
     exists q, In q (procs w) /\ reference = "parent_death" :: flat_map unit_steps (steps q) ++ ["peer_check"]).
Proof.
  destruct (after_sound schedule m pid) as (_ & n & vs & Hs). set (w := after schedule m pid) in *. cbv zeta. split.
  - intros p Hp. destruct (sound_prefix _ _ _ _ Hs Hp) as (k & Hk & -> & _). exists (flat_map unit_steps (drop k ORDER)).
    rewrite app_assoc, <- flat_map_app, take_drop. reflexivity.
  - intros p Hp E. destruct (sound_returned _ _ _ _ Hs Hp E) as (_ & q & Hq & Eq & _). exists q. split; [done |]. rewrite Eq. reflexivity.
Qed.
End runs.
