(* ===== verification/ChannelEnds.v ===== *)
(** The native channel, operation by operation: what a run of a method has done when it ends, by
    the calls it made and their answers. *)

From S2P Require Import Prelude Effects PyVal Utf8 Json Sha2 Canonical Text SchemaBase Lifecycle LinuxShape Live.
From S2P Require Import LinuxVerify Session Posix Custody Supervisor Boundary Process Channel.

#[local] Open Scope string_scope.
#[local] Open Scope list_scope.
#[local] Open Scope Z_scope.

Section ends.
Context {U : Unicode} {M : Type} {Mo : Monotonic M}.
Context (fuel : nat).

#[local] Notation program := (prog (@answer M) (native M)).
#[local] Notation trace := (list (event (@answer M))).

(** Setting and testing attributes of Python objects does not fail. *)
Definition possible (a : sys M) (r : res (answer a)) : bool :=
  match a with Set_cancelled | Cancelled | Is_context | Fail_resources => is_ok r | _ => true end.

#[local] Notation runs := (Process.runs possible).

Lemma runs_mono {A} (p : program A) (Q Q' : A -> native M -> trace -> Prop) (E E' : exn -> native M -> trace -> Prop) m t :
  runs p Q E m t -> (forall x m t, Q x m t -> Q' x m t) -> (forall e m t, E e m t -> E' e m t) -> runs p Q' E' m t.
Proof. apply obeys_mono. exact (noting_mono possible). Qed.

Lemma runs_and {A} (p : program A) (Q Q' : A -> native M -> trace -> Prop) (E E' : exn -> native M -> trace -> Prop) m t :
  runs p Q E m t -> runs p Q' E' m t -> runs p (fun x m t => Q x m t /\ Q' x m t) (fun e m t => E e m t /\ E' e m t) m t.
Proof.
  unfold Process.runs. revert m t. induction p as [x|e|a k IH|k IH|s k IH]; intros m t; cbn [obeys]; auto.
  intros H H' r Hp. apply IH; [by apply H | by apply H'].
Qed.

Lemma runs_bind {A B} (p : program A) (f : A -> program B) Q E m t :
  runs p (fun x => runs (f x) Q E) E m t -> runs (p ≫= f) Q E m t.
Proof. apply obeys_bind. exact (noting_mono possible). Qed.

Lemma runs_call (a : sys M) (Q : answer a -> native M -> trace -> Prop) (E : exn -> native M -> trace -> Prop) m t :
  (forall x, possible a (Ok x) = true -> Q x m (t ++ [Event a (Ok x)])) ->
  (forall e, possible a (Raise e) = true -> E e m (t ++ [Event a (Raise e)])) -> runs (call a) Q E m t.
Proof. intros H1 H2. apply obeys_call; [exact (noting_mono possible) |]. intros [x|e] Hp; auto. Qed.

Lemma runs_self (Q : native M -> native M -> trace -> Prop) E m t : Q m m t -> runs self Q E m t.
Proof. done. Qed.

Lemma runs_assign f (Q : unit -> native M -> trace -> Prop) E m t : Q tt (f m) t -> runs (assign f) Q E m t.
Proof. done. Qed.

Lemma runs_ensure {A} (p : program A) f Q E m t :
  runs p (fun x => runs f (fun _ => Q x) E) (fun e => runs f (fun _ => E e) E) m t -> runs (ensure p f) Q E m t.
Proof. apply obeys_ensure. exact (noting_mono possible). Qed.

Lemma runs_on_failure {A} (p : program A) h Q E m t :
  runs p Q (fun e => runs h (fun _ => E e) E) m t -> runs (on_failure p h) Q E m t.
Proof. apply obeys_on_failure. exact (noting_mono possible). Qed.

Lemma runs_outcome {A} (p : program A) Q E m t : runs p (fun x => Q (Ok x)) (fun e => Q (Raise e)) m t -> runs (outcome p) Q E m t.
Proof. apply obeys_outcome. exact (noting_mono possible). Qed.

(** ** Programs that leave the memory alone *)

(** The trace has grown, by calls that do not begin an operation. *)
Definition begins (e : event (@answer M)) : bool := match e with Event (Begin_resources _ _) _ => true | _ => false end.
Definition later (t t' : trace) : Prop := exists x, t' = t ++ x /\ Forall (fun e => begins e = false) x.

#[export] Instance later_preorder : PreOrder later.
Proof.
  split; [intros t; exists []; by rewrite app_nil_r |]. intros t1 t2 t3 (x & -> & Hx) (y & -> & Hy). exists (x ++ y).
  split; [by rewrite app_assoc | by apply Forall_app].
Qed.
Lemma later_prefix t t' : later t t' -> t `prefix_of` t'.
Proof. intros (x & -> & _). by exists x. Qed.
Lemma later_event t e : begins e = false -> later t (t ++ [e]).
Proof. intros H. exists [e]. split; [done | by constructor]. Qed.

(** However it ends, the memory is the same and the trace is a later one. *)
Definition quiet {A} (p : program A) : Prop :=
  forall m t, runs p (fun _ m' t' => m' = m /\ later t t') (fun _ m' t' => m' = m /\ later t t') m t.

Lemma runs_later {A} (p : program A) Q E m t : quiet p -> (forall x t', later t t' -> Q x m t') ->
  (forall e t', later t t' -> E e m t') -> runs p Q E m t.
Proof. intros H HQ HE. eapply runs_mono; [apply H | |]; intros ? ? ? [-> ?]; auto. Qed.

Lemma runs_quiet {A} (p : program A) Q E m t : quiet p -> (forall x t', t `prefix_of` t' -> Q x m t') ->
  (forall e t', t `prefix_of` t' -> E e m t') -> runs p Q E m t.
Proof. intros H HQ HE. apply runs_later; [done | |]; intros; [apply HQ | apply HE]; by apply later_prefix. Qed.

Lemma quiet_ret {A} (x : A) : quiet (mret x).
Proof. by intros m t. Qed.
Lemma quiet_return {A} (x : A) : quiet (Return x).
Proof. by intros m t. Qed.
Lemma quiet_throw {A} e : quiet (Throw e : program A).
Proof. by intros m t. Qed.
Lemma quiet_pure {A} (r : res A) : quiet (pure r).
Proof. intros m t. by destruct r. Qed.
Lemma quiet_need b c : quiet (need b c).
Proof. intros m t. by destruct b. Qed.
Lemma quiet_self : quiet self.
Proof. by intros m t. Qed.
Definition beginning (a : sys M) : bool := match a with Begin_resources _ _ => true | _ => false end.
Lemma quiet_call a : beginning a = false -> quiet (call a).
Proof. intros H m t. apply runs_call; intros; (split; [done | apply later_event; by destruct a]). Qed.
Lemma quiet_bind {A B} (p : program A) (f : A -> program B) : quiet p -> (forall x, quiet (f x)) -> quiet (p ≫= f).
Proof.
  intros Hp Hf m t. apply runs_bind, runs_later; [done | | done]. intros x t' Ht. eapply runs_mono; [apply Hf | |];
    intros ? ? ? [-> ?]; (split; [done | by etransitivity]).
Qed.
Lemma quiet_outcome {A} (p : program A) : quiet p -> quiet (outcome p).
Proof. intros Hp m t. by apply runs_outcome, runs_later. Qed.
Lemma quiet_ensure {A} (p : program A) f : quiet p -> quiet f -> quiet (ensure p f).
Proof. intros Hp Hf. apply quiet_bind; [by apply quiet_outcome |]. intros r. apply quiet_bind; [done |]. intros _. apply quiet_pure. Qed.
Lemma quiet_handle {A} (p : program A) h : quiet p -> (forall e, quiet (h e)) -> quiet (handle p h).
Proof. intros Hp Hh. apply quiet_bind; [by apply quiet_outcome |]. intros [x|e]; [apply quiet_ret | apply Hh]. Qed.
Lemma quiet_for_all {A} (f : A -> program unit) l : (forall x, quiet (f x)) -> quiet (for_all f l).
Proof. intros H. induction l as [|x l IH]; cbn [for_all]; [apply quiet_return | by apply quiet_bind]. Qed.

#[local] Hint Resolve quiet_ret quiet_return quiet_throw quiet_pure quiet_need quiet_self : quiet.

Ltac quiet_step :=
  lazymatch goal with
  | |- quiet (_ ≫= _) => apply quiet_bind; [|intros ?]
  | |- quiet (call ?a) => exact (quiet_call a eq_refl)
  | |- quiet (ensure _ _) => apply quiet_ensure
  | |- quiet (handle _ _) => apply quiet_handle; [|intros ?]
  | |- quiet (for_all _ _) => apply quiet_for_all; intros ?
  | |- quiet (outcome _) => apply quiet_outcome
  | |- quiet (if ?b then _ else _) => destruct b
  | |- quiet (match ?x with _ => _ end) => destruct x
  | |- quiet _ => auto with quiet; fail
  end.
Ltac quiet := repeat quiet_step; auto with quiet.

Lemma quiet_with_field {A} name (use : desc -> program A) : (forall d, quiet (use d)) -> quiet (with_field name use).
Proof. intros H. unfold with_field, _field_custody. quiet. Qed.
Lemma quiet_write_field name b : quiet (write_field name b).
Proof. unfold write_field. quiet. apply quiet_with_field. intros d. quiet. Qed.
Lemma quiet_read_field name : quiet (read_field name).
Proof. unfold read_field. quiet. apply quiet_with_field. intros d. quiet. Qed.
Lemma quiet_drain n : quiet (drain n).
Proof. induction n as [|n IH]; cbn [drain]; quiet. Qed.
Lemma quiet_receive n size : quiet (_receive n size).
Proof.
  unfold _receive, the_deadline, the_socket. quiet. induction n as [|n IH]; cbn [receive_until]; quiet; unfold the_deadline, the_socket, peer_credentials; quiet.
Qed.
Lemma quiet_check_peer : quiet check_peer.
Proof. unfold check_peer, channel_inode, the_socket, identify. quiet. Qed.
#[local] Hint Resolve quiet_write_field quiet_read_field quiet_drain quiet_receive quiet_check_peer : quiet.

(** A step of a run whose calls do not matter. *)
Ltac skip := apply runs_bind; apply runs_quiet; [quiet | intros ? ? ? | intros ? ? ?].

(** ** Giving the lease back *)

(** What the checked field of a lease is: a regular file of root, on the device of the lease's
    directory, which neither its group nor others may write. *)
Definition field_safe (info own : full_stat) : Prop :=
  Z.land (st_mode info) 61440 = 32768 /\ st_uid info = 0 /\ st_gid info = 0 /\ Z.land (st_mode info) 18 = 0 /\ st_dev info = st_dev own.

(** A field of the lease is opened below the lease's directory, checked, used by one call and
    closed: the five calls. *)
Definition field_used (lease : Z) (name : string) (use : Z -> event (@answer M)) (seg : trace) : Prop :=
  exists n info own, field_safe info own /\
    seg = [Event (Open (Some lease) (Field name)) (Ok n); Event (Fstat (File (Field name) n)) (Ok info);
           Event (Fstat (Plain lease)) (Ok own); use n; Event (Close (File (Field name) n)) (Ok tt)].

Definition events_read (lease : Z) (raw : bytes) : trace -> Prop :=
  field_used lease "cgroup.events" (fun n => Event (Read (File (Field "cgroup.events") n) 4096) (Ok raw)).
Definition kill_written (lease : Z) : trace -> Prop :=
  field_used lease "cgroup.kill" (fun n => Event (Write (File (Field "cgroup.kill") n) (u "1")) (Ok 1)).

(** The check passes only over such a file. *)
Lemma custody_runs d (Q : unit -> native M -> trace -> Prop) (E : exn -> native M -> trace -> Prop) m t :
  (forall info own, field_safe info own ->
     Q tt m (t ++ [Event (Fstat d) (Ok info); Event (Fstat (Plain (lease_fd m))) (Ok own)])) ->
  (forall e t', t `prefix_of` t' -> E e m t') -> runs (_field_custody d) Q E m t.
Proof.
  intros HQ HE. unfold _field_custody.
  apply runs_bind, runs_call; [intros info _ | intros e _; apply HE; by apply prefix_app_r].
  destruct (S_ISREG _ && _ && _) eqn:E1; [|apply HE; by apply prefix_app_r].
  apply runs_bind, runs_self. apply runs_bind, runs_call; [intros own _ | intros e _; apply HE; by do 2 apply prefix_app_r].
  apply obeys_need; [intros E2 | intros _; apply HE; by do 2 apply prefix_app_r]. rewrite <- app_assoc. apply HQ.
  rewrite !andb_true_iff, !Z.eqb_eq in E1. rewrite andb_true_iff, !Z.eqb_eq in E2. unfold S_ISREG, S_IMODE, OTHERS_WRITE in *.
  rewrite <- Z.land_assoc in E2. change (Z.land 4095 18) with 18 in E2. rewrite Z.eqb_eq in E1. unfold field_safe. tauto.
Qed.

Lemma with_field_runs {A} name (use : desc -> program A) (Q : A -> native M -> trace -> Prop) (E : exn -> native M -> trace -> Prop) m t :
  (forall n info own, field_safe info own ->
     runs (use (File (Field name) n)) (fun x => runs (call (Close (File (Field name) n))) (fun _ => Q x) E)
       (fun e m' t' => m' = m /\ t `prefix_of` t') m
       (t ++ [Event (Open (Some (lease_fd m)) (Field name)) (Ok n); Event (Fstat (File (Field name) n)) (Ok info);
              Event (Fstat (Plain (lease_fd m))) (Ok own)])) ->
  (forall e t', t `prefix_of` t' -> E e m t') -> runs (with_field name use) Q E m t.
Proof.
  intros HQ HE. unfold with_field. apply runs_bind, runs_self.
  apply runs_bind, runs_call; [intros n _ | intros e _; apply HE; by apply prefix_app_r].
  assert (forall d e (t' : trace), t `prefix_of` t' -> runs (call (Close d)) (fun _ => E e) E m t') as Hclose.
  { intros d e t' Ht. apply runs_call; intros; apply HE; by apply prefix_app_r. }
  apply runs_ensure, runs_bind, custody_runs; [intros info own Hsafe | intros e t' Ht; apply Hclose; by eapply prefix_app_l].
  rewrite <- app_assoc. eapply runs_mono; [by apply HQ | done |]. intros e m' t' [-> Ht]. by apply Hclose.
Qed.

Lemma read_events_runs (Q : bytes -> native M -> trace -> Prop) (E : exn -> native M -> trace -> Prop) m t :
  (forall raw seg, events_read (lease_fd m) raw seg -> Q raw m (t ++ seg)) -> (forall e t', t `prefix_of` t' -> E e m t') ->
  runs (read_field "cgroup.events") Q E m t.
Proof.
  intros HQ HE. unfold read_field. apply runs_bind. cbn [need pure require]. apply with_field_runs; [|done]. intros n info own Hs.
  apply runs_call; [intros raw _ | intros e _; split; [done |]; by do 2 apply prefix_app_r].
  apply runs_call; [intros [] _ | intros e _; apply HE; by do 3 apply prefix_app_r].
  rewrite <- !app_assoc. apply HQ. by exists n, info, own.
Qed.

(** The last thing a drain that found no child did. *)
Lemma drain_runs n m t (Q : bool -> native M -> trace -> Prop) (E : exn -> native M -> trace -> Prop) :
  (forall t1, t `prefix_of` t1 -> Q true m (t1 ++ [Event Wait_any (Ok None)])) -> (forall t', t `prefix_of` t' -> Q false m t') ->
  (forall e t', t `prefix_of` t' -> E e m t') -> runs (drain n) Q E m t.
Proof.
  revert t. induction n as [|n IH]; intros t H1 H2 H3; cbn [drain]; [by apply H3 |].
  apply runs_bind, runs_call; [intros [[|p|p]|] _ | intros e _; apply H3; by apply prefix_app_r].
  - apply H2. by apply prefix_app_r.
  - apply IH; intros; [apply H1 | apply H2 | apply H3]; (etransitivity; [|done]); by apply prefix_app_r.
  - apply IH; intros; [apply H1 | apply H2 | apply H3]; (etransitivity; [|done]); by apply prefix_app_r.
  - by apply H1.
Qed.

(** The lease is closed when no child is left and the cgroup is empty. *)
Definition emptied (lease : Z) (t t' : trace) : Prop :=
  exists t1 raw seg, t `prefix_of` t1 /\ events_read lease raw seg /\ In POPULATED_0 (splitlines octet_line_end raw) /\
    t' = t1 ++ [Event Wait_any (Ok None)] ++ seg ++ [Event (Close (Plain lease)) (Ok tt)].

Lemma reap_runs n until m t : lease_closed m = false ->
  runs (reap n until) (fun _ m' t' => m' = set_lease (lease_fd m) true (owned m) m /\ emptied (lease_fd m) t t')
    (fun _ m' t' => m' = m /\ t `prefix_of` t') m t.
Proof.
  intros Hc. assert (forall t0, t `prefix_of` t0 -> runs (reap n until)
    (fun _ m' t' => m' = set_lease (lease_fd m) true (owned m) m /\ emptied (lease_fd m) t t')
    (fun _ m' t' => m' = m /\ t `prefix_of` t') m t0) as H; [|by apply H].
  induction n as [|n IH]; intros t0 Ht; cbn [reap]; [done |].
  skip; [|split; [done | by etransitivity]]. destruct (tick_ltb x until); [|split; [done | by etransitivity]].
  assert (t `prefix_of` t') as Ht' by (by etransitivity).
  apply runs_bind, drain_runs.
  - intros t1 Ht1. assert (t `prefix_of` t1) as Ht1' by (by transitivity t'). apply runs_bind, read_events_runs.
    + intros raw seg Hseg. rewrite andb_true_r. destruct (existsb _ _) eqn:Ee.
      * unfold close_lease. apply runs_bind, runs_self. rewrite Hc.
        apply runs_bind, runs_call; [intros [] _ | intros e _; split; [done |]; by do 3 apply prefix_app_r].
        cbn. split; [done |]. exists t1, raw, seg. split; [done |]. split; [done |]. split; [|by rewrite <- !app_assoc].
        apply existsb_exists in Ee as (l & Hl & El). by apply str_eqb_eq in El as ->.
      * assert (t `prefix_of` (t1 ++ [Event Wait_any (Ok None)]) ++ seg) as Hg by (by do 2 apply prefix_app_r).
        skip; [apply IH | split; [done |]]; by transitivity ((t1 ++ [Event Wait_any (Ok None)]) ++ seg).
    + intros e t2 Ht2. split; [done |]. transitivity (t1 ++ [Event Wait_any (Ok None)] : trace); [by apply prefix_app_r | done].
  - intros t1 Ht1. assert (t `prefix_of` t1) as Ht1' by (by transitivity t'). skip; [|split; [done |]; by transitivity t1].
    rewrite andb_false_r. skip; [apply IH | split; [done |]]; (transitivity t'0; [by transitivity t1 | done]).
  - intros e t1 Ht1. split; [done |]. by transitivity t'.
Qed.

Lemma write_kill_runs (Q : unit -> native M -> trace -> Prop) (E : exn -> native M -> trace -> Prop) m t :
  (forall seg, kill_written (lease_fd m) seg -> Q tt m (t ++ seg)) -> (forall e t', t `prefix_of` t' -> E e m t') ->
  runs (write_field "cgroup.kill" (u "1")) Q E m t.
Proof.
  intros HQ HE. unfold write_field. apply runs_bind. cbn [need pure require]. apply with_field_runs; [|done]. intros n info own Hs.
  apply runs_bind, runs_call; [intros c _ | intros e _; split; [done |]; by do 2 apply prefix_app_r].
  apply obeys_need; [intros ->%Z.eqb_eq | intros _; split; [done |]; by do 2 apply prefix_app_r].
  apply runs_call; [intros [] _ | intros e _; apply HE; by do 3 apply prefix_app_r].
  rewrite <- !app_assoc. apply HQ. by exists n, info, own.
Qed.

Lemma kill_and_reap_runs until m t :
  runs (kill_and_reap fuel until)
    (fun _ m' t' => m' = set_lease (lease_fd m) true (owned m) m /\ owned m = true /\ t `prefix_of` t' /\
       exists seg, kill_written (lease_fd m) seg /\ emptied (lease_fd m) (t ++ seg) t')
    (fun _ m' t' => m' = m /\ t `prefix_of` t') m t.
Proof.
  unfold kill_and_reap. apply runs_bind, runs_self. destruct (owned m) eqn:Eo, (lease_closed m) eqn:Ec; cbn [andb negb]; try done.
  apply runs_bind. cbn [need pure require]. apply runs_bind, write_kill_runs; [intros seg Hseg | done].
  eapply runs_mono; [by apply reap_runs | |].
  - intros [] m' t' [-> He]. rewrite Eo. split; [done |]. split; [done |]. split; [|by exists seg].
    destruct He as (t2 & raw & seg2 & H2 & _ & _ & ->). apply prefix_app_r. by eapply prefix_app_l.
  - intros e m' t' [-> Ht']. split; [done | by eapply prefix_app_l].
Qed.

(** C28: The lease is given back only over an empty cgroup.  When [kill_and_reap] returns, the kill
    was first written whole to a field opened below the lease and checked; after that a wait found no child
    left, then the events of the cgroup, opened below the lease and checked, said [populated 0],
    and then the lease was closed, with no other call in between.  A checked field is a regular
    file of root's, on the device of the lease's directory, that only its owner may write.  When
    it raises, the lease is still held. *)
Theorem lease_released_empty until m :
  runs (kill_and_reap fuel until)
    (fun _ m' t' => m' = set_lease (lease_fd m) true (owned m) m /\ owned m = true /\
       exists seg, kill_written (lease_fd m) seg /\ emptied (lease_fd m) seg t')
    (fun _ m' _ => m' = m) m [].
Proof. eapply runs_mono; [apply kill_and_reap_runs | |]; [intros [] m' t' (? & ? & _ & ?) | intros e m' t' [? _]]; done. Qed.

(** ** Cleaning up *)

(** A call was made, and returned when all is well. *)
Definition tried (a : sys M) (ok : bool) (t : trace) : Prop := exists r, In (Event a r) t /\ (ok = true -> is_ok r = true).

Definition cleaned (m m' : native M) (ok : bool) (t : trace) : Prop :=
  tried Set_cancelled true t /\ socket m' = false /\ pidfd m' = None /\
  (socket m = true -> tried (Close ParentEnd) ok t) /\
  (forall fd, pidfd m = Some fd -> tried (Close (Plain fd)) ok t) /\
  (exists context : bool, In (Event Is_context (Ok context)) t /\ (context = true -> root_fd m' = None /\ tried Custody_close ok t)) /\
  (child_pid m <> None -> owned m = true -> lease_closed m = false -> tried Monotonic_clock ok t /\ (ok = true -> lease_closed m' = true)).

Lemma try_each_cons f (p : program unit) l Q E m t :
  runs p (fun _ => runs (try_each f l) Q E) (fun e => runs (try_each (first_failure f (Raise e)) l) Q E) m t -> runs (try_each f (p :: l)) Q E m t.
Proof.
  intros H. cbn [try_each]. apply runs_bind, runs_outcome. eapply runs_mono; [exact H | |]; intros; [|done].
  destruct f; done.
Qed.

Lemma tried_weaken a ok t t' : tried a ok t -> t `prefix_of` t' -> tried a ok t'.
Proof. intros (r & Hin & H) [x ->]. exists r. split; [|done]. rewrite in_app_iff. by left. Qed.

(** The first part: the descendants, when there are any. *)
Definition killed (m m' : native M) (ok : bool) (t : trace) : Prop :=
  exists c, m' = set_lease (lease_fd m) c (owned m) m /\
    (child_pid m <> None -> owned m = true -> lease_closed m = false -> tried Monotonic_clock ok t /\ (ok = true -> c = true)).

Definition fine (o : option exn) : bool := match o with None => true | Some _ => false end.

Lemma kill_first_runs m t :
  runs (try_each None [if match child_pid m with Some _ => owned m && negb (lease_closed m) | None => false end then
                         now ← call Monotonic_clock; kill_and_reap fuel (after now 10000000)
                       else mret tt])
    (fun f m' t' => killed m m' (fine f) t' /\ t `prefix_of` t') (fun _ _ _ => False) m t.
Proof.
  apply try_each_cons. destruct (match child_pid m with Some _ => _ | None => _ end) eqn:E.
  2: { split; [|done]. exists (lease_closed m). split; [by destruct m |]. intros Hc Ho Hl. destruct (child_pid m); [|done]. by rewrite Ho, Hl in E. }
  apply runs_bind, runs_call; [intros now _ | intros e _].
  - eapply runs_mono; [apply kill_and_reap_runs | |].
    + intros [] m' t' (-> & _ & Ht & _). split; [|by eapply prefix_app_l]. exists true. split; [done |]. intros _ _ _. split; [|done].
      eapply tried_weaken; [|exact Ht]. exists (Ok now). rewrite in_app_iff. cbn. tauto.
    + intros e m' t' [-> Ht]. split; [|by eapply prefix_app_l]. exists (lease_closed m). split; [by destruct m |]. intros _ _ _. split; [|done].
      eapply tried_weaken; [|exact Ht]. exists (Ok now). rewrite in_app_iff. cbn. tauto.
  - split; [|by apply prefix_app_r]. exists (lease_closed m). split; [by destruct m |]. intros _ _ _. split; [|done].
    exists (Raise e). split; [rewrite in_app_iff; cbn; tauto | done].
Qed.

(** A call of the second part. *)
Lemma try_call_runs a f l (Q : option exn -> native M -> trace -> Prop) E m t (p : program unit) :
  runs p (fun _ m' t' => m' = m /\ t `prefix_of` t' /\ tried a true t') (fun _ m' t' => m' = m /\ t `prefix_of` t' /\ tried a false t') m t ->
  (forall f' t', t `prefix_of` t' -> tried a (fine f') t' -> (fine f' = true -> fine f = true) -> runs (try_each f' l) Q E m t') ->
  runs (try_each f (p :: l)) Q E m t.
Proof.
  intros Hp H. apply try_each_cons. eapply runs_mono; [exact Hp | |].
  - intros x m' t' (-> & Ht & r & Hin & Hr). apply H; [done | | done]. exists r. split; [done |]. intros _. by apply Hr.
  - intros e m' t' (-> & Ht & r & Hin & Hr). apply H; [done | | by destruct f]. exists r. split; [done |]. by destruct f.
Qed.

Lemma call_tried a m t : runs (call a) (fun _ m' t' => m' = m /\ t `prefix_of` t' /\ tried a true t')
  (fun _ m' t' => m' = m /\ t `prefix_of` t' /\ tried a false t') m t.
Proof.
  apply runs_call; intros x _; (split; [done |]; split; [by apply prefix_app_r |]); eexists; rewrite in_app_iff; cbn; (split; [right; by left | done]).
Qed.

(** The second part: the socket, the descriptor of the peer and the custody, as far as they are
    there, the first failure kept. *)
Lemma close_parts_runs (sock : bool) (fd : option Z) (context : bool) f m t :
  runs (try_each f ((if sock then [call (Close ParentEnd) : program unit] else []) ++
                    (match fd with Some n => [call (Close (Plain n)) : program unit] | None => [] end) ++
                    (if context then [call Custody_close : program unit] else [])))
    (fun f' m' t' => m' = m /\ t `prefix_of` t' /\ (fine f' = true -> fine f = true) /\ (sock = true -> tried (Close ParentEnd) (fine f') t') /\
       (forall n, fd = Some n -> tried (Close (Plain n)) (fine f') t') /\ (context = true -> tried Custody_close (fine f') t'))
    (fun _ _ _ => False) m t.
Proof.
  assert (forall a ok ok' t t', (ok' = true -> ok = true) -> t `prefix_of` t' -> tried a ok t -> tried a ok' t') as Hw.
  { intros a ok ok' t1 t2 Ho Ht (r & Hin & Hr). destruct Ht as [x ->]. exists r. split; [rewrite in_app_iff; by left | auto]. }
  assert (forall f1 t1, runs (try_each f1 (if context then [call Custody_close : program unit] else []))
    (fun f' m' t' => m' = m /\ t1 `prefix_of` t' /\ (fine f' = true -> fine f1 = true) /\ (context = true -> tried Custody_close (fine f') t'))
    (fun _ _ _ => False) m t1) as H3.
  { intros f1 t1. destruct context; [|done]. eapply try_call_runs; [apply (call_tried Custody_close) |]. intros f' t' Ht Hr Hf. by repeat split. }
  assert (forall f1 t1, runs (try_each f1 ((match fd with Some n => [call (Close (Plain n)) : program unit] | None => [] end) ++
                    (if context then [call Custody_close : program unit] else [])))
    (fun f' m' t' => m' = m /\ t1 `prefix_of` t' /\ (fine f' = true -> fine f1 = true) /\
       (forall n, fd = Some n -> tried (Close (Plain n)) (fine f') t') /\ (context = true -> tried Custody_close (fine f') t'))
    (fun _ _ _ => False) m t1) as H2.
  { intros f1 t1. destruct fd as [n|]; cbn [app].
    - eapply try_call_runs; [apply (call_tried (Close (Plain n))) |]. intros f2 t2 Ht Hr Hf.
      eapply runs_mono; [apply H3 | | done]. intros f' m' t' (-> & Ht' & Hf' & Hc). repeat split; [by etransitivity | auto | | done].
      intros n' [= <-]. by eapply Hw.
    - eapply runs_mono; [apply H3 | | done]. intros f' m' t' (-> & Ht' & Hf' & Hc). repeat split; done. }
  destruct sock; cbn [app].
  - eapply try_call_runs; [apply (call_tried (Close ParentEnd)) |]. intros f2 t2 Ht Hr Hf.
    eapply runs_mono; [apply H2 | | done]. intros f' m' t' (-> & Ht' & Hf' & Hn & Hc). repeat split; [by etransitivity | auto | | done | done].
    intros _. by eapply Hw.
  - eapply runs_mono; [apply H2 | | done]. intros f' m' t' (-> & Ht' & Hf' & Hn & Hc). repeat split; done.
Qed.

(** Cleaning up tries everything.  However the calls answer, [cleanup] stops the descendants when
    there are any, closes the socket, the descriptor of the peer and the custody that are there,
    and forgets the descriptors; an operation that fails keeps no other from being tried.  It
    returns only when every one of them did, the cgroup's lease given back. *)
Theorem cleanup_tries_everything m :
  runs (cleanup_native fuel) (fun _ m' t' => cleaned m m' true t') (fun _ m' t' => cleaned m m' false t') m [].
Proof.
  unfold cleanup_native. apply runs_bind, runs_call; [intros [] _ | intros e H; discriminate H]. apply runs_bind, runs_self.
  apply runs_bind. eapply runs_mono; [apply kill_first_runs | | done]. intros f m1 t1 [(c & -> & Hk) H1].
  apply runs_bind, runs_self, runs_bind, runs_assign, runs_bind, runs_call; [intros context _ | intros e H; discriminate H].
  set (m2 := set_pidfd None (set_socket false (set_lease (lease_fd m) c (owned m) m))). set (m3 := if context then set_root None m2 else m2).
  assert (forall Q E t, Q tt m3 t -> runs (if context then assign (set_root None) else mret tt) Q E m2 t) as Hroot by (by intros; destruct context).
  apply runs_bind, Hroot. clear Hroot. apply runs_bind. eapply runs_mono; [apply close_parts_runs | | done].
  intros f' m' t' (-> & Ht & Hf & Hs & Hp & Hc).
  assert (cleaned m m3 (fine f') t') as H.
  { assert (tried Set_cancelled true t') as Hset.
    { destruct H1 as [y ->]. destruct Ht as [z ->]. exists (Ok tt). split; [cbn; tauto | done]. }
    split; [done |]. split; [by destruct context |]. split; [by destruct context |]. split; [exact Hs |]. split; [exact Hp |]. split.
    - exists context. split; [destruct Ht as [z ->]; rewrite !in_app_iff; cbn; tauto |]. intros E. split; [|by apply Hc]. unfold m3. by rewrite E.
    - intros H2 H3 H4. destruct (Hk H2 H3 H4) as [(r & Hin & Hr) Hc']. split.
      + destruct Ht as [z ->]. exists r. rewrite !in_app_iff. split; [tauto | auto].
      + intros E. replace (lease_closed m3) with c by (by destruct context). auto. }
  destruct f'; exact H.
Qed.

(** ** An operation *)

Section execute.
Context (envelope capacity plan : value).

(** The request is the fixed probe of its case. *)
Definition is_probe (request : value) : Prop :=
  exists case expected, in_lits case CASES = true /\ build_probe_request envelope capacity plan case = Ok expected /\ py_eq request expected = true.

(** A process is the one recorded, as confined as a peer must be: the child's user and group in
    all four slots, no capability, a filter, no new privileges, the leased cgroup, and none of the
    namespaces recorded for the parent. *)
Definition confined (observed expected : identity) (parents : list (str * Z)) : Prop :=
  (pid observed = pid expected /\ start observed = start expected /\ parent observed = parent expected) /\
  uid observed = [65532; 65532; 65532; 65532] /\ gid observed = [65532; 65532; 65532; 65532] /\
  capabilities observed = [0; 0; 0; 0; 0] /\ seccomp observed = 2 /\ noNewPrivs observed = 1 /\
  cgroup observed = u "0::/planeon-live/session" ++ [10%N] /\
  forall name i, In (name, i) parents -> exists j, dget name (Boundary.namespaces observed) = Some j /\ j <> i.

(** One check of the peer, whole: the eight calls, what they answer, and what the answers are
    held against. *)
Definition peer_checked (m : native M) (seg : trace) : Prop :=
  exists expected fd n info proc observed,
    peer m = Some expected /\ pidfd m = Some fd /\ channel_identity m = Some (st_ino info) /\
    process_identity (P := proc) (VInt (pid expected)) = Ok observed /\ confined observed expected (parent_namespaces m) /\
    seg = [Event Owner_kinds (Ok true); Event Owner_now (Ok tt); Event Cancelled (Ok false); Event (Fileno ParentEnd) (Ok n);
           Event (Fstat (Plain n)) (Ok info); Event (Readable fd) (Ok false); Event Procfs_now (Ok proc); Event Check_ambient (Ok tt)].

(** While nothing is received. *)
Definition waiting (e : event (@answer M)) : Prop :=
  (exists r, e = Event Monotonic_clock r) \/ e = Event Cancelled (Ok false) \/ e = Event (Settimeout ParentEnd) (Ok tt) \/
  e = Event (Recvmsg ParentEnd 1) (Ok None).

Ltac wait_calls := repeat first [apply Forall_nil_2 | apply Forall_cons_2]; unfold waiting; eauto 6.

(** The peer answers the octet P: one message, untruncated, whose ancillary data is the kernel's
    credentials of the peer and nothing else. *)
Definition peer_answers (m : native M) (seg : trace) : Prop :=
  exists expected wait note flags, peer m = Some expected /\ Forall waiting wait /\
    passes_descriptors note = false /\ passes_credentials note = true /\ int32s (content note) = [pid expected; 65532; 65532] /\
    Z.land flags (Z.lor MSG_TRUNC MSG_CTRUNC) = 0 /\
    seg = Event (Send ParentEnd (u "P")) (Ok tt) :: wait ++ [Event (Recvmsg ParentEnd 1) (Ok (Some (u "P", [note], flags)))].

(** A whole operation: five checks of the peer, its answer between the second and the third, and
    the calls between them. *)
Definition probe_trace (m : native M) (request : value) (until : M) (result : data) (t : trace) : Prop :=
  exists c1 c2 talk c3 c4 policy c5,
    Forall (peer_checked m) [c1; c2; c3; c4; c5] /\ peer_answers m talk /\
    (policy = [Event Holds_credential (Ok false)] \/ policy = [Event Holds_credential (Ok true); Event Require_policy (Ok tt)]) /\
    t = c1 ++ c2 ++ talk ++ c3 ++
        [Event (Deadline_unchanged until) (Ok true); Event (Begin_resources request until) (Ok tt);
         Event (Execute_protected request until) (Ok result)] ++
        c4 ++ policy ++ [Event Finish_resources (Ok tt)] ++ c5.

Lemma check_peer_shape m t :
  runs check_peer (fun _ m' t' => m' = m /\ exists seg, peer_checked m seg /\ t' = t ++ seg) (fun _ _ _ => True) m t.
Proof.
  unfold check_peer. apply runs_bind, runs_call; [intros kinds _ | done]. apply runs_bind, obeys_need; [intros -> | done].
  apply runs_bind, runs_call; [intros [] _ | done]. apply runs_bind, runs_self. destruct (peer m) as [expected|] eqn:Ep; [|done].
  apply runs_bind, runs_call; [intros c _ | done]. apply runs_bind, obeys_need; [intros ->%negb_true_iff | done].
  apply runs_bind. unfold channel_inode, the_socket. apply runs_bind, runs_bind, runs_self. destruct (socket m); [|done].
  apply runs_bind, runs_call; [intros n _ | done]. apply runs_bind, runs_call; [intros info _ | done].
  apply runs_bind, obeys_need; [intros Hi%bool_decide_eq_true | done]. apply runs_bind, obeys_pure; [intros fd Hfd | done].
  apply runs_bind, runs_call; [intros ended _ | done]. apply runs_bind, obeys_need; [intros ->%negb_true_iff | done].
  apply runs_bind. unfold identify. apply runs_bind, runs_call; [intros proc _ | done]. apply obeys_pure; [intros observed Ho | done].
  apply runs_bind, obeys_pure; [intros [] Hv | done]. apply runs_call; [intros [] _ | done].
  split; [done |]. rewrite <- !app_assoc. eexists. split; [|done]. exists expected, fd, n, info, proc, observed.
  split; [done |]. split; [destruct (pidfd m) as [k|]; [by injection Hfd as -> | done] |]. do 2 (split; [done |]). split; [by apply peer_confined | done].
Qed.

Lemma check_peer_runs m t (Q : unit -> native M -> trace -> Prop) (E : exn -> native M -> trace -> Prop) :
  (forall seg, peer_checked m seg -> later t (t ++ seg) -> Q tt m (t ++ seg)) -> (forall e t', later t t' -> E e m t') ->
  runs check_peer Q E m t.
Proof.
  intros HQ HE. eapply runs_mono; [exact (runs_and _ _ _ _ _ m t (quiet_check_peer m t) (check_peer_shape m t)) | |].
  - intros [] m' t' [[-> Ht] (_ & seg & Hseg & ->)]. by apply HQ.
  - intros e m' t' [[-> Ht] _]. by apply HE.
Qed.

(** Before the operation begins. *)
Definition unbegun (t : trace) : Prop := forall q d, ~ In (Event (Begin_resources q d) (Ok tt)) t.

Lemma later_unbegun t t' : unbegun t -> later t t' -> unbegun t'.
Proof.
  intros H (x & -> & Hx) q d. rewrite in_app_iff. intros [Hin | Hin]; [exact (H _ _ Hin) |].
  rewrite List.Forall_forall in Hx. by specialize (Hx _ Hin).
Qed.

Lemma receive_until_shape n m t t0 : (exists wait, Forall waiting wait /\ t = t0 ++ wait) ->
  runs (receive_until n 1) (fun got m' t' => m' = m /\ exists wait note flags, Forall waiting wait /\
      passes_descriptors note = false /\ passes_credentials note = true /\ int32s (content note) = got.2 /\
      Z.land flags (Z.lor MSG_TRUNC MSG_CTRUNC) = 0 /\
      t' = t0 ++ wait ++ [Event (Recvmsg ParentEnd 1) (Ok (Some (got.1, [note], flags)))]) (fun _ _ _ => True) m t.
Proof.
  revert t. induction n as [|n IH]; intros t (wait & Hw & ->); cbn [receive_until]; [done |].
  apply runs_bind, runs_call; [intros now _ | done]. unfold the_deadline. apply runs_bind, runs_bind, runs_self.
  apply obeys_pure; [intros d _ | done]. apply runs_bind. destruct (tick_ltb _ d); [|exact I].
  apply runs_bind, (runs_call Cancelled); [intros c _ | done]. destruct c; cbn [negb]; [exact I |].
  unfold the_socket. apply runs_bind, runs_bind, runs_self. destruct (socket m); [|done]. cbn [pure].
  apply runs_bind, runs_call; [intros [[[raw ancillary] flags]|] _ | done].
  - unfold peer_credentials. apply runs_bind. destruct (credentials ancillary flags []) as [r received] eqn:Ec.
    apply credentials_close_all in Ec as [-> Hr]. apply runs_bind. destruct r as [cred|e].
    2: { eapply runs_mono with (Q := fun _ _ _ => True) (E := fun _ _ _ => True); [|intros ? ? ? _; exact I | done].
         apply (obeys_for_all _ (noting_mono possible) _ _ (fun _ _ => True)); [done |].
         intros. apply (obeys_handle _ (noting_mono possible)), runs_call; [intros; exact I |]. intros e1 _. destruct e1; exact I. }
    destruct (Hr cred eq_refl) as (note & -> & Hd & Hc & -> & _ & Hf). cbn [List.filter]. rewrite Hd. cbn [flat_map app for_all].
    cbn [pure]. apply runs_bind, obeys_need; [intros _ | done]. split; [done |].
    exists (wait ++ [Event Monotonic_clock (Ok now); Event Cancelled (Ok false)]), note, flags.
    split; [apply Forall_app; split; [done |]; wait_calls |]. do 4 (split; [done |]).
    by rewrite <- !app_assoc.
  - apply IH. exists (wait ++ [Event Monotonic_clock (Ok now); Event Cancelled (Ok false); Event (Recvmsg ParentEnd 1) (Ok None)]).
    split; [apply Forall_app; split; [done |]; wait_calls | by rewrite <- !app_assoc].
Qed.

Lemma receive_shape n m t :
  runs (_receive n 1) (fun got m' t' => m' = m /\ exists wait note flags, Forall waiting wait /\
      passes_descriptors note = false /\ passes_credentials note = true /\ int32s (content note) = got.2 /\
      Z.land flags (Z.lor MSG_TRUNC MSG_CTRUNC) = 0 /\
      t' = t ++ wait ++ [Event (Recvmsg ParentEnd 1) (Ok (Some (got.1, [note], flags)))]) (fun _ _ _ => True) m t.
Proof.
  unfold _receive, the_deadline. apply runs_bind, runs_bind, runs_self. apply obeys_pure; [intros d _ | done].
  apply runs_bind, runs_call; [intros now _ | done]. apply runs_bind. destruct (tick_ltb _ _); [|exact I].
  apply runs_bind, runs_call; [intros c _ | done]. apply obeys_need; [intros ->%negb_true_iff | done].
  unfold the_socket. apply runs_bind, runs_bind, runs_self. destruct (socket m); [|done].
  cbn [pure]. apply runs_bind, runs_call; [intros [] _ | done]. apply receive_until_shape.
  exists [Event Monotonic_clock (Ok now); Event Cancelled (Ok false); Event (Settimeout ParentEnd) (Ok tt)].
  split; [wait_calls | by rewrite <- !app_assoc].
Qed.

(** The exchange of the octet. *)
Lemma exchange_runs {A} n (p : program A) m t (Q : A -> native M -> trace -> Prop) (E : exn -> native M -> trace -> Prop) :
  (forall seg, peer_answers m seg -> later t (t ++ seg) -> runs p Q E m (t ++ seg)) -> (forall e t', later t t' -> E e m t') ->
  runs (sock ← the_socket; call (Send sock (u "P")) ;; '(raw, cred) ← _receive n 1; o ← self;
        need (str_eqb raw (u "P") && match peer o with Some id => same_credentials cred id | None => false end) "PEER_CHANNEL_CHANGED" ;; p)
    Q E m t.
Proof.
  intros HQ HE. apply runs_bind. unfold the_socket. apply runs_bind, runs_self. destruct (socket m); [|by apply HE].
  cbn [pure]. apply runs_bind, runs_call; [intros [] _ | intros e _; apply HE; by apply later_event].
  set (t1 := t ++ _). assert (later t t1) as H1 by (by apply later_event).
  apply runs_bind. eapply runs_mono; [exact (runs_and _ _ _ _ _ m t1 (quiet_receive n 1 m t1) (receive_shape n m t1)) | |].
  - intros [raw cred] m' t' [[-> H2] (_ & wait & note & flags & Hw & Hd & Hc & Hn & Hf & ->)]. cbn [fst snd] in *.
    assert (later t (t1 ++ wait ++ [Event (Recvmsg ParentEnd 1) (Ok (Some (raw, [note], flags)))])) as H3 by (by transitivity t1).
    apply runs_bind, runs_self, runs_bind, obeys_need; [intros [Hraw Hp]%andb_true_iff | intros _; by apply HE].
    apply str_eqb_eq in Hraw as ->. destruct (peer m) as [expected|] eqn:Ep; [|done]. apply ints_eqb_eq in Hp as ->.
    subst t1. rewrite <- app_assoc in *. apply HQ; [|done]. by exists expected, wait, note, flags.
  - intros e m' t' [[-> H2] _]. apply HE. by transitivity t1.
Qed.

(** What follows the beginning: on success the operation was finished and the peer checked last,
    on failure the resources were given up last. *)
Lemma begun_runs request until m t :
  runs (on_failure
    (result ← call (Execute_protected request until);
     check_peer ;;
     holds ← call Holds_credential;
     (if (holds : bool) then call Require_policy else mret tt) ;;
     call Finish_resources ;;
     check_peer ;;
     mret result)
    (call Fail_resources))
    (fun result m' t' => m' = m /\ exists c4 policy c5, peer_checked m c4 /\ peer_checked m c5 /\
       (policy = [Event Holds_credential (Ok false)] \/ policy = [Event Holds_credential (Ok true); Event Require_policy (Ok tt)]) /\
       t' = t ++ [Event (Execute_protected request until) (Ok result)] ++ c4 ++ policy ++ [Event Finish_resources (Ok tt)] ++ c5)
    (fun _ m' t' => m' = m /\ exists t1, t' = t1 ++ [Event Fail_resources (Ok tt)]) m t.
Proof.
  apply runs_on_failure.
  assert (forall t', runs (call Fail_resources)
    (fun _ m' t' => m' = m /\ exists t1, t' = t1 ++ [Event Fail_resources (Ok tt)])
    (fun _ m' t' => m' = m /\ exists t1, t' = t1 ++ [Event Fail_resources (Ok tt)]) m t') as Hfail.
  { intros t'. apply runs_call; [intros [] _; split; [done | by exists t'] | intros e' H; discriminate H]. }
  apply runs_bind, runs_call; [intros result _ | intros e _; apply Hfail].
  apply runs_bind, check_peer_runs; [intros c4 H4 _ | intros e t1 _; apply Hfail].
  apply runs_bind, runs_call; [intros holds _ | intros e _; apply Hfail].
  set (t2 := _ ++ [Event Holds_credential (Ok holds)]). apply runs_bind.
  assert (forall policy t3, t3 = t ++ [Event (Execute_protected request until) (Ok result)] ++ c4 ++ policy ->
    (policy = [Event Holds_credential (Ok false)] \/ policy = [Event Holds_credential (Ok true); Event Require_policy (Ok tt)]) ->
    runs (call Finish_resources ;; check_peer ;; mret result)
    (fun result m' t' => m' = m /\ exists c4 policy c5, peer_checked m c4 /\ peer_checked m c5 /\
       (policy = [Event Holds_credential (Ok false)] \/ policy = [Event Holds_credential (Ok true); Event Require_policy (Ok tt)]) /\
       t' = t ++ [Event (Execute_protected request until) (Ok result)] ++ c4 ++ policy ++ [Event Finish_resources (Ok tt)] ++ c5)
    (fun _ m' t' => runs (call Fail_resources)
      (fun _ m' t' => m' = m /\ exists t1, t' = t1 ++ [Event Fail_resources (Ok tt)])
      (fun _ m' t' => m' = m /\ exists t1, t' = t1 ++ [Event Fail_resources (Ok tt)]) m' t') m t3) as Hrest.
  { intros policy t3 -> Hpol. apply runs_bind, runs_call; [intros [] _ | intros e _; apply Hfail].
    apply runs_bind, check_peer_runs; [intros c5 H5 _ | intros e t1 _; apply Hfail].
    split; [done |]. exists c4, policy, c5. do 3 (split; [done |]). by rewrite <- !app_assoc. }
  destruct holds.
  - apply runs_call; [intros [] _ | intros e _; apply Hfail]. eapply Hrest; [|by right]. subst t2. by rewrite <- !app_assoc.
  - eapply Hrest; [|by left]. subst t2. by rewrite <- !app_assoc.
Qed.

End execute.
End ends.
