(* ===== verification/CodeView.v ===== *)
(** live_proxy_server.py: the retained code files of the native inspector.  Pins name every file a
    role may execute; the files are held open, read twice under a clock, and compared with the
    pins; the executable map of a process is matched with their code segments.  Every call outside
    is fenced by a tick of the clock; a phase checks the roots before and after; a failure is
    final; the descriptors of a comparison are temporary. *)

From S2P Require Import Prelude Effects PyVal Utf8 Json Sha2 Canonical Base64 Ed25519 IsoTime Regex Text.
From S2P Require Import SchemaBase Lifecycle LinuxShape Posix Live Session ProxyDocument Boundary Custody KernelData.

#[local] Open Scope string_scope.
#[local] Open Scope list_scope.
#[local] Open Scope Z_scope.

(** ** The pins *)

Record pinned_segment := { pin_offset : Z; pin_length : Z; pin_permissions : str }.
Record pin := {
  pin_path : str; pin_mode : Z; pin_size : Z; pin_digest : str; pin_verity : str; pin_label : str;
  pin_segments : list pinned_segment
}.

(** [type(v) is dict and set(v) == keys]. *)
Definition has_exactly (v : value) (keys : list string) : bool :=
  match v with
  | VDict d => forallb (fun k => dhas (u k) d) keys && forallb (fun k => str_in k (map u keys)) (dkeys d)
  | _ => false
  end.

Definition printable (s : str) : bool := forallb (fun c => (32 <=? c) && (c <=? 126))%N s.

Section pins.
Context {U : Unicode}.

(** [type(v[k]) is int] and [type(v[k]) is str], with the check's code. *)
Definition int_field (v : value) (k code : string) : res Z :=
  x ← fld v k; match x with VInt z => Ok z | _ => conf code end.
Definition str_field (v : value) (k code : string) : res str :=
  x ← fld v k; match x with VStr s => Ok s | _ => conf code end.

(* @src src/src/harness_conformance/live_proxy_server.py:1417-1422 _KernelCodeFiles.__init__ *)
Definition segment_pin (page size : Z) (v : value) : res pinned_segment :=
  require (has_exactly v ["offset"; "length"; "permissions"]) "KERNEL_CODE_SEGMENTS" ;;
  offset ← int_field v "offset" "KERNEL_CODE_SEGMENTS";
  require ((0 <=? offset) && (offset <? size)) "KERNEL_CODE_SEGMENTS" ;;
  length ← int_field v "length" "KERNEL_CODE_SEGMENTS";
  require ((0 <? length) && (length <=? 67108864) && (offset mod page =? length mod page) && (length mod page =? 0))
    "KERNEL_CODE_SEGMENTS" ;;
  permissions ← fld v "permissions";
  require (in_lits permissions ["r-xp"; "--xp"; "r-xs"; "--xs"]) "KERNEL_CODE_SEGMENTS" ;;
  permissions ← as_text permissions;
  Ok {| pin_offset := offset; pin_length := length; pin_permissions := permissions |}.

(** One entry of the inventory, added to those before it. *)
(* @src src/src/harness_conformance/live_proxy_server.py:1395-1423 _KernelCodeFiles.__init__ *)
Definition add_pin (page : Z) (pins : list (str * pin)) (v : value) : res (list (str * pin)) :=
  require (has_exactly v ["path"; "mode"; "size"; "sha256"; "verityDigest"; "selinuxLabel"; "executableSegments"])
    "KERNEL_CODE_PINS" ;;
  path ← str_field v "path" "KERNEL_CODE_PATH";
  require ((1 <? zlen path) && (zlen path <=? 4096) && fullmatch path_re path && (zlen (Custody.parts_of path) <=? 64) &&
           clean_path path && negb (dhas path pins)) "KERNEL_CODE_PATH" ;;
  mode ← fld v "mode";
  require (in_lits mode ["0444"; "0555"]) "KERNEL_CODE_SIZE_MODE" ;;
  size ← int_field v "size" "KERNEL_CODE_SIZE_MODE";
  require ((0 <? size) && (size <=? 67108864)) "KERNEL_CODE_SIZE_MODE" ;;
  each_field v ["sha256"; "verityDigest"] require_digest ;;
  sha ← (x ← fld v "sha256"; as_text x);
  verity ← (x ← fld v "verityDigest"; as_text x);
  require (negb (str_eqb sha verity)) "KERNEL_CODE_DISTINCT_DIGESTS" ;;
  label ← str_field v "selinuxLabel" "KERNEL_CODE_LABEL_PIN";
  require ((1 <=? zlen label) && (zlen label <=? 256) && printable label) "KERNEL_CODE_LABEL_PIN" ;;
  listed ← (x ← fld v "executableSegments"; match x with VList l => Ok l | _ => conf "KERNEL_CODE_SEGMENTS" end);
  require (zlen listed <=? 16) "KERNEL_CODE_SEGMENTS" ;;
  segments ← map_m (segment_pin page size) listed;
  Ok (pins ++ [(path, {| pin_path := path; pin_mode := if eq_lit mode "0444" then 292 else 365; pin_size := size;
                         pin_digest := sha; pin_verity := verity; pin_label := label; pin_segments := segments |})]).

(** [Path(path).parents] of an absolute path of clean parts. *)
Fixpoint parents_from (prefix : str) (parts : list str) : list str :=
  match parts with
  | [] | [_] => []
  | p :: rest => let here := prefix ++ u "/" ++ p in here :: parents_from here rest
  end.
Definition path_parents (path : str) : list str := u "/" :: parents_from [] (Custody.parts_of path).

(* @src src/src/harness_conformance/live_proxy_server.py:1389-1426 _KernelCodeFiles.__init__ *)
Definition code_pins (expected : data) (page : Z) : res (list (str * pin)) :=
  require (is_page_size page) "KERNEL_CODE_OWNER" ;;
  expected ← document expected 262144;
  match expected with
  | VList entries =>
      require ((1 <=? zlen entries) && (zlen entries <=? 128)) "KERNEL_CODE_INVENTORY" ;;
      pins ← for_fold (add_pin page) [] entries;
      require (foldr (fun p n => pin_size p.2 + n) 0 pins <=? 536870912) "KERNEL_CODE_TOTAL_SIZE" ;;
      require (negb (existsb (fun path => existsb (fun q => dhas q pins) (path_parents path)) (dkeys pins)))
        "KERNEL_CODE_PATH_OVERLAP" ;;
      Ok pins
  | _ => conf "KERNEL_CODE_INVENTORY"
  end.
End pins.

(** ** Matching a map *)

(** [os.major] and [os.minor] of glibc. *)
Definition os_major (dev : Z) : Z := Z.lor (Z.shiftr (Z.land dev 0xfff00) 8) (Z.shiftr (Z.land dev 0xfffff00000000000) 32).
Definition os_minor (dev : Z) : Z := Z.lor (Z.land dev 0xff) (Z.shiftr (Z.land dev 0xffffff00000) 12).

(** [remaining.remove(mapping)] of the only mapping at an offset. *)
Definition at_offset (cursor : Z) (m : file_map) : bool := map_offset m =? cursor.

(** The inner loop: a segment tiled from a cursor; each pass takes a mapping away. *)
Fixpoint tile (fuel : nat) (page : Z) (fixed : bool) (seg : segment) (cursor : Z) (bias : option Z)
    (remaining : list file_map) : res (option Z * list file_map) :=
  let stop := seg_offset seg + seg_length seg in
  if cursor <? stop then
    match fuel, List.filter (at_offset cursor) remaining with
    | S fuel, [m] =>
        let size := map_end m - map_start m in
        let observed := map_start m - virtualAddress seg - (cursor - seg_offset seg) in
        require (str_eqb (map_permissions m) (permissions seg) && (cursor + size <=? stop) && (0 <=? observed) &&
                 (observed mod page =? 0) && (negb fixed || (observed =? 0)) &&
                 match bias with None => true | Some b => observed =? b end) "KERNEL_CODE_MAP_LAYOUT" ;;
        tile fuel page fixed seg (cursor + size) (Some observed) (List.filter (fun n => negb (at_offset cursor n)) remaining)
    | _, _ => conf "KERNEL_CODE_MAP_SEGMENT_COVERAGE"
    end
  else Ok (bias, remaining).

(** One file of the map. *)
(* @src src/src/harness_conformance/live_proxy_server.py:1597-1620 _KernelCodeFiles.match_maps *)
Definition match_file (page : Z) (l : layout) (actual : list file_map) : res unit :=
  '(_, remaining) ← for_fold (fun '(bias, remaining) seg =>
      tile (length remaining) page (kind l =? 2) seg (seg_offset seg) bias remaining) (None, actual) (segments l);
  require (match remaining with [] => true | _ => false end) "KERNEL_CODE_MAP_EXTRA_SEGMENT".

(** The mappings by path, in the order of their first appearance. *)
Definition group (grouped : list (str * list file_map)) (m : file_map) : list (str * list file_map) :=
  dset (map_path m) (default [] (dget (map_path m) grouped) ++ [m]) grouped.

(** What is held of a file: its device and inode, and its layout when it is an ELF file. *)
Record enrolled_file := { file_device : Z; file_inode : Z; file_layout : option layout }.

Definition match_group (page : Z) (enrolled : list (str * enrolled_file)) (grouped : list (str * list file_map))
    (entry : str * list file_map) : res unit :=
  match dget entry.1 enrolled with
  | Some {| file_layout := Some l |} =>
      match_file page l entry.2 ;;
      require (match interpreter l with None => true | Some i => dhas i grouped end) "KERNEL_CODE_MAP_LOADER_MISSING"
  | _ => Raise KeyError
  end.

(* @src src/src/harness_conformance/live_proxy_server.py:1588-1596 _KernelCodeFiles.match_maps *)
Definition enroll_mapping (enrolled : list (str * enrolled_file)) (grouped : list (str * list file_map)) (m : file_map)
    : res (list (str * list file_map)) :=
  match dget (map_path m) enrolled with
  | Some {| file_device := dev; file_inode := inode; file_layout := Some _ |} =>
      require ((deviceMajor m =? os_major dev) && (deviceMinor m =? os_minor dev) && (map_inode m =? inode))
        "KERNEL_CODE_MAP_FILE_IDENTITY" ;;
      Ok (group grouped m)
  | _ => conf "KERNEL_CODE_MAP_UNENROLLED"
  end.

(** The match, between the two observations of the files. *)
(* @src src/src/harness_conformance/live_proxy_server.py:1585-1620 _KernelCodeFiles.match_maps *)
Definition matched (enrolled : list (str * enrolled_file)) (machine : str) (page : Z) (raw auxv : bytes) : res unit :=
  maps ← _proc_code_maps raw machine auxv;
  require (pageSize maps =? page) "KERNEL_CODE_MAP_PAGE_SIZE" ;;
  grouped ← for_fold (enroll_mapping enrolled) [] (files maps);
  for_each (match_group page enrolled grouped) grouped.

(** ** What a match establishes *)

(** The mappings of a segment from a cursor on: contiguous in the file and, at one bias, in memory. *)
Inductive tiling (seg : segment) (bias : Z) : Z -> list file_map -> Prop :=
| tiling_done : tiling seg bias (seg_offset seg + seg_length seg) []
| tiling_next cursor m ms :
    map_offset m = cursor -> map_permissions m = permissions seg ->
    map_start m = virtualAddress seg + bias + (cursor - seg_offset seg) ->
    tiling seg bias (cursor + (map_end m - map_start m)) ms -> tiling seg bias cursor (m :: ms).

(** A bias a loader may have chosen. *)
Definition bias_ok (page : Z) (fixed : bool) (b : Z) : Prop := 0 <= b /\ b mod page = 0 /\ (fixed = true -> b = 0).

Lemma filter_one {A} (f : A -> bool) l x :
  List.filter f l = [x] -> l ≡ₚ x :: List.filter (fun y => negb (f y)) l.
Proof.
  induction l as [|y l IH]; [done |]. cbn [List.filter]. destruct (f y) eqn:E; cbn [negb].
  - intros [= -> Hl]. constructor. clear -Hl. induction l as [|z l IH]; [done |]. cbn in *. destruct (f z); [done |]. cbn.
    constructor. by apply IH.
  - intros H. rewrite (IH H) at 1. constructor.
Qed.

Lemma tile_inv fuel page fixed seg cursor bias remaining bias' remaining' :
  cursor <= seg_offset seg + seg_length seg ->
  tile fuel page fixed seg cursor bias remaining = Ok (bias', remaining') ->
  exists ts, remaining ≡ₚ ts ++ remaining' /\ (forall b, bias' = Some b -> tiling seg b cursor ts) /\
    (forall b, bias = Some b -> bias' = Some b) /\
    (bias' = bias \/ exists b, bias' = Some b /\ bias_ok page fixed b) /\
    (bias' = None -> cursor = seg_offset seg + seg_length seg).
Proof.
  revert cursor bias remaining. induction fuel as [|fuel IH]; intros cursor bias remaining Hc; cbn [tile];
    (destruct (Z.ltb_spec cursor (seg_offset seg + seg_length seg)) as [Hlt|Hge];
     [|intros [= <- <-]; exists []; assert (cursor = seg_offset seg + seg_length seg) as -> by lia;
       split; [done |]; split; [intros; constructor |]; split; [done |]; split; [by left | done]]); [done |].
  destruct (List.filter (at_offset cursor) remaining) as [|m [|]] eqn:Ef; try done.
  intros [Hr%require_Ok H]%seq_Ok. rewrite !andb_true_iff, !Z.leb_le in Hr. destruct Hr as (((((Hp & Hs) & Hb0) & Hbp) & Hfix) & Hb).
  apply str_eqb_eq in Hp. apply Z.eqb_eq in Hbp. set (observed := map_start m - virtualAddress seg - (cursor - seg_offset seg)) in *.
  apply IH in H as (ts & Hperm & Ht & Hsome & Hor & Hnone); [|lia].
  assert (bias' = Some observed) as -> by (by apply Hsome).
  exists (m :: ts). split; [cbn; by rewrite (filter_one _ _ _ Ef), Hperm |]. split.
  { intros b [= <-]. assert (at_offset cursor m = true) as Hm%Z.eqb_eq.
    { assert (In m (List.filter (at_offset cursor) remaining)) as Hin by (rewrite Ef; by left). by apply filter_In in Hin as [_ ?]. }
    apply tiling_next; [done | done | unfold observed; lia | by apply Ht]. }
  split; [intros b ->; by apply Z.eqb_eq in Hb as -> |]. split; [|done].
  right. exists observed. split; [done |]. split; [done |]. split; [done |]. intros ->. cbn in Hfix. by apply Z.eqb_eq.
Qed.

(** What a match of one file establishes. *)
Definition tiled (page : Z) (l : layout) (actual : list file_map) : Prop := exists bias tss,
  actual ≡ₚ concat tss /\ Forall2 (fun seg ts => tiling seg bias (seg_offset seg) ts) (segments l) tss /\
  bias_ok page (kind l =? 2) bias.

Lemma match_loop page fixed segs bias actual bias' remaining :
  Forall (fun seg => 0 < seg_length seg) segs ->
  for_fold (fun '(bias, remaining) seg => tile (length remaining) page fixed seg (seg_offset seg) bias remaining)
    (bias, actual) segs = Ok (bias', remaining) ->
  exists tss, actual ≡ₚ concat tss ++ remaining /\
    (forall b, bias' = Some b -> Forall2 (fun seg ts => tiling seg b (seg_offset seg) ts) segs tss) /\
    (forall b, bias = Some b -> bias' = Some b) /\
    (bias' = bias \/ exists b, bias' = Some b /\ bias_ok page fixed b) /\ (bias' = None -> segs = []).
Proof.
  revert bias actual. induction segs as [|seg segs IH]; intros bias actual Hl; cbn [for_fold].
  - intros [= <- <-]. exists []. split; [done |]. split; [intros; constructor |]. split; [done |]. split; [by left | done].
  - apply Forall_cons in Hl as [Hpos Hl]. intros ([b1 r1] & Ht & H)%bind_Ok.
    apply tile_inv in Ht as (ts & P1 & T1 & S1 & O1 & N1); [|lia].
    apply IH in H as (tss & P2 & T2 & S2 & O2 & N2); [|done]. exists (ts :: tss). cbn [concat].
    split; [by rewrite P1, P2, app_assoc |]. split.
    { intros b Hb. constructor; [|by apply T2]. apply T1. destruct b1 as [b1|]; [pose proof (S2 b1 eq_refl); congruence |].
      specialize (N1 eq_refl). lia. }
    split; [intros b Hb; by apply S2, S1 |]. split.
    { destruct O2 as [-> | ?]; [|by right]. exact O1. }
    intros ->. destruct b1 as [b1|]; [pose proof (S2 b1 eq_refl); congruence | specialize (N1 eq_refl); lia].
Qed.

Lemma match_file_tiled page l actual :
  segments l <> [] -> Forall (fun seg => 0 < seg_length seg) (segments l) -> match_file page l actual = Ok tt -> tiled page l actual.
Proof.
  intros Hn Hl. unfold match_file. intros ([bias remaining] & H & Hr)%bind_Ok. apply require_Ok in Hr. destruct remaining; [|done].
  apply match_loop in H as (tss & P & T & _ & O & N); [|done]. destruct bias as [b|]; [|by destruct Hn, N].
  exists b, tss. rewrite app_nil_r in P. split; [done |]. split; [by apply T |]. destruct O as [? | (b' & [= <-] & ?)]; done.
Qed.

Lemma group_get ms grouped p :
  default [] (dget p (fold_left group ms grouped)) = default [] (dget p grouped) ++ List.filter (fun m => str_eqb p (map_path m)) ms.
Proof.
  revert grouped. induction ms as [|m ms IH]; intros grouped; cbn [fold_left List.filter]; [by rewrite app_nil_r |].
  rewrite IH. unfold group. rewrite dget_dset. destruct (str_eqb_spec p (map_path m)) as [->|]; [|done].
  cbn. by rewrite <- app_assoc.
Qed.

Definition of_path (p : str) (ms : list file_map) : list file_map := List.filter (fun m => str_eqb p (map_path m)) ms.

(** A mapping of an enrolled file. *)
Definition enrolled_mapping (enrolled : list (str * enrolled_file)) (m : file_map) : Prop :=
  exists f l, dget (map_path m) enrolled = Some f /\ file_layout f = Some l /\
    deviceMajor m = os_major (file_device f) /\ deviceMinor m = os_minor (file_device f) /\ map_inode m = file_inode f.

Lemma enroll_mapping_Ok enrolled grouped m grouped' :
  enroll_mapping enrolled grouped m = Ok grouped' -> grouped' = group grouped m /\ enrolled_mapping enrolled m.
Proof.
  unfold enroll_mapping. destruct (dget (map_path m) enrolled) as [[dev inode [l|]]|] eqn:E; try done.
  intros [Hr%require_Ok [= <-]]%seq_Ok. rewrite !andb_true_iff, !Z.eqb_eq in Hr. split; [done |].
  eexists _, l. split; [exact E |]. cbn. tauto.
Qed.

Lemma enroll_all enrolled ms grouped grouped' :
  for_fold (enroll_mapping enrolled) grouped ms = Ok grouped' ->
  grouped' = fold_left group ms grouped /\ Forall (enrolled_mapping enrolled) ms.
Proof.
  revert grouped. induction ms as [|m ms IH]; intros grouped; cbn [for_fold fold_left]; [by intros [= <-] |].
  intros (g & [-> Hm]%enroll_mapping_Ok & H)%bind_Ok. apply IH in H as [-> H]. split; [done | by constructor].
Qed.

Lemma grouped_In ms p m : In m ms -> map_path m = p -> In (p, of_path p ms) (fold_left group ms []).
Proof.
  intros Hin Hp. pose proof (group_get ms [] p) as H. cbn [dget default app] in H.
  assert (In m (of_path p ms)) as Hm by (apply filter_In; split; [done | subst; apply str_eqb_refl]).
  destruct (dget p (fold_left group ms [])) as [l|] eqn:E; cbn in H.
  - apply dget_In. by rewrite E, H.
  - unfold of_path in Hm. rewrite <- H in Hm. done.
Qed.

(** What the layouts of enrolled files are: those of ELF files. *)
Definition code_layouts (enrolled : list (str * enrolled_file)) : Prop :=
  forall p f l, dget p enrolled = Some f -> file_layout f = Some l ->
    segments l <> [] /\ Forall (fun seg => 0 < seg_length seg) (segments l).

Lemma grouped_nonempty ms p : dhas p (fold_left group ms []) = true -> of_path p ms <> [].
Proof.
  intros Hp Hn. pose proof (group_get ms [] p) as H. unfold of_path in Hn. rewrite Hn in H. cbn [dget default app] in H.
  assert (forall g, Forall (fun e => e.2 <> []) g -> Forall (fun e : str * list file_map => e.2 <> []) (fold_left group ms g)) as Hall.
  { clear. induction ms as [|m ms IH]; intros g Hg; [done |]. apply IH. unfold group.
    assert (default [] (dget (map_path m) g) ++ [m] <> []) as Hm by (by destruct (default _ _)).
    revert Hm. generalize (default [] (dget (map_path m) g) ++ [m]). intros l Hm. induction Hg as [|[k x] g Hx Hg IHg]; cbn [dset].
    - by constructor.
    - destruct (str_eqb (map_path m) k); constructor; done. }
  unfold dhas in Hp. destruct (dget p (fold_left group ms [])) as [l|] eqn:E; [|done]. cbn in H. subst l.
  apply dget_In in E. specialize (Hall [] ltac:(constructor)). rewrite List.Forall_forall in Hall. by apply (Hall _ E).
Qed.

Lemma matched_Ok enrolled machine page raw auxv :
  code_layouts enrolled -> matched enrolled machine page raw auxv = Ok tt ->
  exists c, _proc_code_maps raw machine auxv = Ok c /\ pageSize c = page /\ Forall (enrolled_mapping enrolled) (files c) /\
    forall p, of_path p (files c) <> [] -> exists f l, dget p enrolled = Some f /\ file_layout f = Some l /\
      tiled page l (of_path p (files c)) /\ (forall i, interpreter l = Some i -> of_path i (files c) <> []).
Proof.
  intros Hlay. unfold matched. intros (c & Hc & H)%bind_Ok. apply seq_Ok in H as [Hp%require_Ok%Z.eqb_eq H].
  apply bind_Ok in H as (grouped & [-> Hf]%enroll_all & H). exists c. repeat (split; [done |]).
  intros p Hne. destruct (of_path p (files c)) as [|m ms] eqn:E; [done |].
  assert (In m (files c) /\ map_path m = p) as [Hin Hm].
  { assert (In m (of_path p (files c))) as Hin by (rewrite E; by left). apply filter_In in Hin as [? Hs]. by apply str_eqb_eq in Hs. }
  pose proof (grouped_In _ _ _ Hin Hm) as Hg. rewrite E in Hg.
  apply for_each_Ok in H. rewrite List.Forall_forall in H. pose proof (H _ Hg) as Hall. unfold match_group in Hall. cbn [fst snd] in Hall.
  destruct (dget p enrolled) as [[dev inode [l|]]|] eqn:El; try done. apply seq_Ok in Hall as [Hmf Hi%require_Ok].
  eexists _, l. split; [done |]. split; [done |]. destruct (Hlay _ _ _ El eq_refl). split; [by apply match_file_tiled |].
  intros i Ei. rewrite Ei in Hi. by apply grouped_nonempty.
Qed.

(** ** What it works with *)

(** What the native reader reports of a file: inode, owner and mode, mount, and file system. *)
Record native_identity := { inode_identity : list Z; mount_id : Z; filesystem : list Z }.

(** The process and thread it belongs to; the tick of the installed owner; the clock, whose
    readings are compared and which has a reading two seconds later; the roots; the native reader;
    reading at an offset; the label of a file. *)
Class Inspector (W M : Type) := {
  same_process : W -> bool;
  inspection_tick : io W unit;
  now : io W M;
  tick_leb : M -> M -> bool;
  tick_ltb : M -> M -> bool;
  two_seconds_after : M -> M;
  check_roots : io W unit;
  root_descriptor : W -> Z;
  machine : str;
  directory_identity : Z -> io W native_identity;
  proc_file_identity : Z -> io W native_identity;
  measure_verity : Z -> io W str;
  os_pread : Z -> Z -> Z -> io W bytes;
  os_getxattr : Z -> io W bytes
}.

#[export] Instance native_identity_eq_dec : EqDecision native_identity.
Proof. solve_decision. Defined.
#[export] Instance segment_eq_dec : EqDecision segment.
Proof. solve_decision. Defined.
#[export] Instance layout_eq_dec : EqDecision layout.
Proof. solve_decision. Defined.

Definition fingerprint : Type := native_identity * option (list Z).

Record code_row := {
  row_fd : option Z; close_identity : option (list Z); row_identity : option fingerprint; row_directory : bool
}.

#[export] Instance code_row_eq_dec : EqDecision code_row.
Proof. solve_decision. Defined.

(** The rows kept, and those of the comparison in progress. *)
Inductive table := Kept | Temporary.

Record code_view (W M : Type) := {
  rows : list (str * code_row);
  temporary : list (str * code_row);
  layouts : list (str * option layout);
  closed : bool;
  failed : bool;
  busy : bool;
  cleanup_failure : option exn;
  last : M;
  limit : M;
  outside : W
}.
Arguments rows {W M}. Arguments temporary {W M}. Arguments layouts {W M}. Arguments closed {W M}. Arguments failed {W M}.
Arguments busy {W M}. Arguments cleanup_failure {W M}. Arguments last {W M}. Arguments limit {W M}. Arguments outside {W M}.

Section view.
Context {U : Unicode} {W M : Type} {K : Custodian W} {I : Inspector W M}.
Context (pins : list (str * pin)) (page : Z).

Definition run (A : Type) : Type := io (code_view W M) A.

Definition beyond {A} (m : io W A) : run A :=
  zoom outside (fun w s => {| rows := rows s; temporary := temporary s; layouts := layouts s; closed := closed s;
    failed := failed s; busy := busy s; cleanup_failure := cleanup_failure s; last := last s; limit := limit s; outside := w |}) m.

Definition table_of (t : table) (s : code_view W M) : list (str * code_row) :=
  match t with Kept => rows s | Temporary => temporary s end.
Definition with_table (t : table) (r : list (str * code_row)) (s : code_view W M) : code_view W M :=
  {| rows := match t with Kept => r | Temporary => rows s end;
     temporary := match t with Kept => temporary s | Temporary => r end;
     layouts := layouts s; closed := closed s; failed := failed s; busy := busy s; cleanup_failure := cleanup_failure s;
     last := last s; limit := limit s; outside := outside s |}.
Definition with_layouts (l : list (str * option layout)) (s : code_view W M) : code_view W M :=
  {| rows := rows s; temporary := temporary s; layouts := l; closed := closed s; failed := failed s; busy := busy s;
     cleanup_failure := cleanup_failure s; last := last s; limit := limit s; outside := outside s |}.
Definition with_flags (c f b : bool) (s : code_view W M) : code_view W M :=
  {| rows := rows s; temporary := temporary s; layouts := layouts s; closed := c; failed := f; busy := b;
     cleanup_failure := cleanup_failure s; last := last s; limit := limit s; outside := outside s |}.
Definition with_cleanup (o : option exn) (s : code_view W M) : code_view W M :=
  {| rows := rows s; temporary := temporary s; layouts := layouts s; closed := closed s; failed := failed s; busy := busy s;
     cleanup_failure := o; last := last s; limit := limit s; outside := outside s |}.
Definition with_times (l e : M) (s : code_view W M) : code_view W M :=
  {| rows := rows s; temporary := temporary s; layouts := layouts s; closed := closed s; failed := failed s; busy := busy s;
     cleanup_failure := cleanup_failure s; last := l; limit := e; outside := outside s |}.

(* @src src/src/harness_conformance/live_proxy_server.py:1440-1446 _KernelCodeFiles._tick *)
Definition _tick : run unit :=
  ok ← reads (fun s => Ok (negb (closed s) && negb (failed s) && busy s && same_process (M := M) (outside s)));
  check ok "KERNEL_CODE_CUSTODY" ;;
  beyond inspection_tick ;;
  t ← beyond now;
  ok ← reads (fun s => Ok (tick_leb (last s) t && tick_ltb t (limit s)));
  check ok "KERNEL_CODE_DEADLINE" ;;
  update (fun s => with_times t (limit s) s).

(* @src src/src/harness_conformance/live_proxy_server.py:1448-1453 _KernelCodeFiles._io *)
Definition _io {A} (m : io W A) : run A := _tick ;; finally (beyond m) _tick.

(* @src src/src/harness_conformance/live_proxy_server.py:1455-1468 _KernelCodeFiles._phase *)
Definition _phase {A} (body : run A) : run A :=
  free ← reads (fun s => Ok (negb (closed s) && negb (failed s) && negb (busy s)));
  check free "KERNEL_CODE_UNAVAILABLE" ;;
  update (fun s => with_flags (closed s) (failed s) true s) ;;
  t ← beyond now;
  update (fun s => with_times (last s) (two_seconds_after t) s) ;;
  finally
    (on_exception (_io check_roots ;; r ← body; _io check_roots ;; mret r)
       (fun _ => update (fun s => with_flags (closed s) true (busy s) s)))
    (update (fun s => with_flags (closed s) (failed s) false s)).

(* @src src/src/harness_conformance/live_proxy_server.py:881-884 _KernelProcessView._close_identity *)
Definition _close_identity (fd : Z) : io W (list Z) :=
  check ((2 <? fd) && (fd <? 1048576)) "KERNEL_PROCESS_FD" ;;
  info ← os_fstat fd;
  mret [st_dev info; st_ino info; S_IFMT (st_mode info)].

(* @src src/src/harness_conformance/live_proxy_server.py:1470-1478 _KernelCodeFiles._identity *)
Definition _identity (fd : Z) (directory : bool) : run fingerprint :=
  identity ← _io (if directory then directory_identity fd else proc_file_identity fd);
  info ← _io (os_fstat fd);
  check ((st_uid info =? 0) && (st_gid info =? 0) &&
         (Z.land (S_IMODE (st_mode info)) (if directory then OTHERS_WRITE else ANY_WRITE) =? 0)) "KERNEL_CODE_OWNER_MODE" ;;
  mret (identity, if directory then None else Some (_custody_identity info)).

(** ** Acquiring *)

(** [row[i] = x] of the row at a path. *)
Definition change_row (t : table) (path : str) (f : code_row -> code_row) : run unit :=
  update (fun s => with_table t (map (fun kv => if str_eqb kv.1 path then (kv.1, f kv.2) else kv) (table_of t s)) s).
Definition set_fd (fd : Z) (r : code_row) : code_row :=
  {| row_fd := Some fd; close_identity := close_identity r; row_identity := row_identity r; row_directory := row_directory r |}.
Definition set_close (id : list Z) (r : code_row) : code_row :=
  {| row_fd := row_fd r; close_identity := Some id; row_identity := row_identity r; row_directory := row_directory r |}.
Definition set_identity (id : fingerprint) (r : code_row) : code_row :=
  {| row_fd := row_fd r; close_identity := close_identity r; row_identity := Some id; row_directory := row_directory r |}.

Definition new_row (directory : bool) : code_row :=
  {| row_fd := None; close_identity := None; row_identity := None; row_directory := directory |}.

(** A descriptor is in its row as soon as it is open. *)
Definition open_into (t : table) (path : str) (parent : Z) (name : str) (directory : bool) : run Z :=
  fd ← beyond (os_open (Some parent) name directory); change_row t path (set_fd fd) ;; mret fd.

(** The recursion goes to the parent, whose path is shorter. *)
(* @src src/src/harness_conformance/live_proxy_server.py:1481-1504 _KernelCodeFiles._acquire *)
Fixpoint descend (fuel : nat) (t : table) (path : str) (directory : bool) : run Z :=
  if str_eqb path (u "/") then reads (fun s => Ok (root_descriptor (M := M) (outside s)))
  else
    known ← reads (fun s => Ok (dget path (table_of t s)));
    match known, fuel with
    | Some row, _ =>
        check (Bool.eqb (row_directory row) directory) "KERNEL_CODE_PATH_OVERLAP" ;;
        lift (match row_fd row with Some fd => Ok fd | None => Raise TypeError end)
    | None, O => throw RecursionError
    | None, S fuel =>
        let '(parent_path, name) := rsplit_slash path in
        parent ← descend fuel t (match parent_path with [] => u "/" | _ => parent_path end) true;
        room ← reads (fun s => Ok (zlen (table_of t s) <? 8192));
        check room "KERNEL_CODE_ANCESTRY_SIZE" ;;
        update (fun s => with_table t (table_of t s ++ [(path, new_row directory)]) s) ;;
        _tick ;;
        fd ← finally (open_into t path parent name directory) _tick;
        id ← _io (_close_identity fd);
        change_row t path (set_close id) ;;
        identity ← _identity fd directory;
        change_row t path (set_identity identity) ;;
        mret fd
    end.

(** The inodes of the pinned files, once all are acquired. *)
Definition pinned_inodes (t : list (str * code_row)) : res (list (Z * Z)) :=
  map_m (fun path => match dget path t with
                     | Some {| row_identity := Some (id, _) |} => Ok (nth 0 (inode_identity id) 0, nth 1 (inode_identity id) 0)
                     | Some _ => Raise TypeError
                     | None => Raise KeyError
                     end) (dkeys pins).

Definition each {A} (f : A -> run unit) (l : list A) : run unit := io_fold (fun _ x => f x) tt l.

(* @src src/src/harness_conformance/live_proxy_server.py:1480-1506 _KernelCodeFiles._acquire *)
Definition _acquire (t : table) : run unit :=
  each (fun path => _ ← descend (length path) t path false; mret tt) (dkeys pins) ;;
  inodes ← reads (fun s => pinned_inodes (table_of t s));
  check (distinct_pairs inodes) "KERNEL_CODE_FILE_ALIAS".

(* @src src/src/harness_conformance/live_proxy_server.py:1508-1510 _KernelCodeFiles._retained *)
Definition _retained : run unit :=
  held ← reads (fun s => Ok (map snd (rows s)));
  each (fun row =>
    match row_fd row with
    | None => throw TypeError
    | Some fd => id ← _identity fd (row_directory row);
                 check (bool_decide (Some id = row_identity row)) "KERNEL_CODE_RETAINED_CHANGED"
    end) held.

(** ** Closing *)

Definition close_one (r : code_row) : run unit :=
  match row_fd r with
  | None => mret tt
  | Some fd =>
      match close_identity r with
      | None => mret tt
      | Some expected => id ← beyond (_close_identity fd); check (ints_eqb id expected) "KERNEL_CODE_FD_REUSED"
      end ;;
      beyond (os_close fd)
  end.

(** Every row, the last one first; the table is empty afterwards whatever raised. *)
(* @src src/src/harness_conformance/live_proxy_server.py:1623-1637 _KernelCodeFiles._close_rows *)
Definition _close_rows (t : table) : run unit :=
  held ← reads (fun s => Ok (map snd (table_of t s)));
  update (with_table t []) ;;
  failure ← io_fold (fun failure r => o ← attempt (close_one r); mret (first_failure failure o)) None (rev held);
  match failure with
  | None => mret tt
  | Some e =>
      update (fun s => with_cleanup (match cleanup_failure s with Some e0 => Some e0 | None => Some e end) s) ;;
      throw e
  end.

(* @src src/src/harness_conformance/live_proxy_server.py:1639-1645 _KernelCodeFiles.close *)
Definition close : run unit :=
  done ← reads (fun s => Ok (closed s));
  (if (done : bool) then mret tt
   else update (fun s => with_layouts [] (with_flags true (failed s) (busy s) s)) ;; _close_rows Kept) ;;
  failure ← reads (fun s => Ok (cleanup_failure s));
  match failure with Some e => throw e | None => mret tt end.

(** ** Observing *)

(** [{p: r[2:]}]: what the comparison looks at, in any order. *)
Definition visible (t : list (str * code_row)) : list (str * (option fingerprint * bool)) :=
  map (fun kv => (kv.1, (row_identity kv.2, row_directory kv.2))) t.
Definition same_rows (a b : list (str * code_row)) : bool :=
  Nat.eqb (length a) (length b) &&
  forallb (fun kv => bool_decide (dget kv.1 (visible b) = Some kv.2)) (visible a).

(* @src src/src/harness_conformance/live_proxy_server.py:1512-1520 _KernelCodeFiles._paths *)
Definition _paths : run unit :=
  update (with_table Temporary []) ;;
  finally
    (_acquire Temporary ;;
     same ← reads (fun s => Ok (same_rows (temporary s) (rows s)));
     check same "KERNEL_CODE_PATH_CHANGED")
    (_close_rows Temporary ;; _tick).

Definition integrity (fd : Z) (identity : option fingerprint) (p : pin) : run unit :=
  id ← _identity fd false;
  check (bool_decide (Some id = identity)) "KERNEL_CODE_FILE_CHANGED" ;;
  label ← _io (os_getxattr fd);
  check (str_eqb label (pin_label p) || str_eqb label (pin_label p ++ [0%N])) "KERNEL_CODE_LABEL_CHANGED" ;;
  verity ← _io (measure_verity fd);
  check (str_eqb verity (pin_verity p)) "KERNEL_CODE_VERITY_CHANGED".

(** The octets up to one more than the pinned size. *)
Fixpoint pread_parts (fuel : nat) (fd : Z) (identity : option fingerprint) (size : Z) (data : bytes) : run bytes :=
  if size <? zlen data then mret data
  else match fuel with
  | O => throw RecursionError
  | S fuel =>
      let most := Z.min 65536 (size + 1 - zlen data) in
      chunk ← _io (os_pread fd most (zlen data));
      check (zlen chunk <=? most) "KERNEL_CODE_READ" ;;
      id ← _identity fd false;
      check (bool_decide (Some id = identity)) "KERNEL_CODE_FILE_CHANGED" ;;
      match chunk with
      | [] => mret data
      | _ => pread_parts fuel fd identity size (data ++ chunk)
      end
  end.

(** The segments of a layout are those pinned, up to the private or shared choice of a mapping. *)
Definition segments_match (l : option layout) (p : pin) : bool :=
  let found := match l with Some l => map (fun s => (seg_offset s, seg_length s, permissions s)) (segments l) | None => [] end in
  bool_decide (found = map (fun s => (pin_offset s, pin_length s, take 3 (pin_permissions s) ++ u "p")) (pin_segments p)).

(** The layout with the pinned permissions. *)
Definition with_permissions (l : layout) (p : pin) : layout :=
  {| kind := kind l; interpreter := interpreter l;
     segments := zip_with (fun s q => {| seg_offset := seg_offset s; seg_length := seg_length s;
       permissions := pin_permissions q; virtualAddress := virtualAddress s |}) (segments l) (pin_segments p) |}.

Definition elf_start : bytes := [127; 69; 76; 70]%N.

(* @src src/src/harness_conformance/live_proxy_server.py:1522-1560 _KernelCodeFiles._file *)
Definition _file (path : str) (p : pin) : run (option layout) :=
  row ← reads (fun s => match dget path (rows s) with Some row => Ok row | None => Raise KeyError end);
  fd ← lift (match row_fd row with Some fd => Ok fd | None => Raise TypeError end);
  info ← _io (os_fstat fd);
  check (S_ISREG (st_mode info) && (st_nlink info =? 1) && (st_size info =? pin_size p) && (S_IMODE (st_mode info) =? pin_mode p))
    "KERNEL_CODE_FILE_PIN" ;;
  integrity fd (row_identity row) p ;;
  raw ← pread_parts (S (S (Z.to_nat (pin_size p)))) fd (row_identity row) (pin_size p) [];
  check (zlen raw =? pin_size p) "KERNEL_CODE_READ_SIZE" ;;
  check (str_eqb (byte_digest raw) (pin_digest p)) "KERNEL_CODE_DIGEST_CHANGED" ;;
  l ← lift (if startswith elf_start raw then Some <$> _elf_code_layout raw (machine (M := M)) page else Ok None);
  check (segments_match l p) "KERNEL_CODE_ELF_PIN" ;;
  integrity fd (row_identity row) p ;;
  mret (match l with Some l => Some (with_permissions l p) | None => None end).

(** Every interpreter named is enrolled, and names none itself. *)
Definition loaders_enrolled (ls : list (str * option layout)) : bool :=
  forallb (fun kv => match kv.2 with
    | Some {| interpreter := Some i |} =>
        match dget i ls with Some (Some l) => match interpreter l with None => true | Some _ => false end | _ => false end
    | _ => true
    end) ls.

(* @src src/src/harness_conformance/live_proxy_server.py:1562-1574 _KernelCodeFiles._observe *)
Definition _observe : run unit :=
  _retained ;;
  _paths ;;
  ls ← io_fold (fun ls kv => l ← _file kv.1 kv.2; mret (ls ++ [(kv.1, l)])) [] pins;
  check (loaders_enrolled ls) "KERNEL_CODE_LOADER_NOT_ENROLLED" ;;
  same ← reads (fun s => Ok (match layouts s with [] => true | old => bool_decide (old = ls) end));
  check same "KERNEL_CODE_LAYOUT_CHANGED" ;;
  update (with_layouts ls) ;;
  _paths ;;
  _retained.

(* @src src/src/harness_conformance/live_proxy_server.py:1576-1578 _KernelCodeFiles.check *)
Definition check_code : run unit := _phase _observe.

(** What a match looks at: for every pinned file its device, inode and layout. *)
Definition enrolled_of (s : code_view W M) : list (str * enrolled_file) :=
  map (fun path => (path, {|
    file_device := match dget path (rows s) with Some {| row_identity := Some (id, _) |} => nth 0 (inode_identity id) 0 | _ => 0 end;
    file_inode := match dget path (rows s) with Some {| row_identity := Some (id, _) |} => nth 1 (inode_identity id) 0 | _ => 0 end;
    file_layout := default None (dget path (layouts s)) |})) (dkeys pins).

(* @src src/src/harness_conformance/live_proxy_server.py:1580-1621 _KernelCodeFiles.match_maps *)
Definition match_maps (raw auxv : bytes) : run unit :=
  _phase
    (_observe ;;
     enrolled ← reads (fun s => Ok (enrolled_of s));
     lift (matched enrolled (machine (M := M)) page raw auxv) ;;
     _observe).

(* @src src/src/harness_conformance/live_proxy_server.py:1427-1438 _KernelCodeFiles.__init__ *)
Definition construct : run unit :=
  t ← beyond now;
  update (fun s => with_times t (limit s) s) ;;
  on_exception (_phase (_acquire Kept ;; _observe)) (fun _ => _ ← attempt close; mret tt).

(** A view before its construction; its times are not read before they are set. *)
Definition blank (w : W) (t : M) : code_view W M :=
  {| rows := []; temporary := []; layouts := []; closed := false; failed := false; busy := false; cleanup_failure := None;
     last := t; limit := t; outside := w |}.
End view.
