(* ===== verification/CodeRuns.v ===== *)
(** Runs of the retained code files of CodeView.v: the descriptors they open and close, that a
    failure is final, and what a match of an executable map establishes. *)

From S2P Require Import Prelude Effects PyVal Utf8 Json Sha2 Canonical Base64 Ed25519 IsoTime Regex Text.
From S2P Require Import SchemaBase Lifecycle LinuxShape Posix Live Session ProxyDocument Boundary Custody CustodyRuns.
From S2P Require Import KernelData CodeView.

#[local] Open Scope string_scope.
#[local] Open Scope list_scope.
#[local] Open Scope Z_scope.

(** An inspector over a world whose kernel notes the descriptors. *)
#[export] Instance watched {W M : Type} {I : Inspector W M} : Inspector (W * list descriptor_event) M := {|
  same_process w := same_process (M := M) w.1;
  inspection_tick := unseen inspection_tick;
  now := unseen now;
  tick_leb := tick_leb (W := W);
  tick_ltb := tick_ltb (W := W);
  two_seconds_after := two_seconds_after (W := W);
  check_roots := unseen check_roots;
  root_descriptor w := root_descriptor (M := M) w.1;
  machine := machine (W := W) (M := M);
  directory_identity fd := unseen (directory_identity fd);
  proc_file_identity fd := unseen (proc_file_identity fd);
  measure_verity fd := unseen (measure_verity fd);
  os_pread fd n o := unseen (os_pread fd n o);
  os_getxattr fd := unseen (os_getxattr fd)
|}.

Section runs.
Context {U : Unicode} {W M : Type} {K : Custodian W} {I : Inspector W M}.
Context (pins : list (str * pin)) (page : Z).

Notation view := (code_view (W * list descriptor_event) M).
Notation vrun := (CodeView.run (W := W * list descriptor_event) (M := M)).
Definition view_log (s : view) : list descriptor_event := (outside s).2.
Definition table_fds (t : list (str * code_row)) : list Z := omap (fun kv => row_fd kv.2) t.

(** ** What ticks and reads keep *)

(** The tables, the layouts, the flags and the log are the same. *)
Definition frozen (s s' : view) : Prop :=
  rows s' = rows s /\ temporary s' = temporary s /\ layouts s' = layouts s /\ closed s' = closed s /\ failed s' = failed s /\
  busy s' = busy s /\ cleanup_failure s' = cleanup_failure s /\ view_log s' = view_log s.

#[export] Instance frozen_preorder : PreOrder frozen.
Proof. split; [intros s; by repeat split | intros s1 s2 s3 H1 H2; unfold frozen in *; intuition congruence]. Qed.

(** A call that opens and closes nothing. *)
Definition silent {A} (m : io (W * list descriptor_event) A) : Prop := keeps (fun w w' => w'.2 = w.2) m.

Lemma unseen_silent {A} (m : io W A) : silent (unseen m).
Proof. intros w. unfold unseen, zoom. by destruct (m w.1). Qed.

Lemma close_identity_silent fd : silent (CodeView._close_identity fd).
Proof.
  assert (PreOrder (fun w w' : W * list descriptor_event => w'.2 = w.2)) by (split; [done | intros a b c; congruence]).
  unfold silent, CodeView._close_identity. repeat (keeps_step || apply unseen_silent).
Qed.

Lemma beyond_frozen {A} (m : io (W * list descriptor_event) A) : silent m -> keeps frozen (beyond (M := M) m).
Proof. intros H s. specialize (H (outside s)). unfold beyond, zoom. destruct (m (outside s)) as [r w]. by repeat split. Qed.

Create HintDb code discriminated.
#[local] Hint Resolve unseen_silent close_identity_silent beyond_frozen : code.
#[local] Hint Extern 1 (silent (check_roots (M := M))) => apply unseen_silent : code.
#[local] Hint Extern 1 (silent (inspection_tick (M := M))) => apply unseen_silent : code.
#[local] Hint Extern 1 (silent (now (M := M))) => apply unseen_silent : code.
#[local] Hint Extern 1 (silent (os_fstat _)) => apply unseen_silent : code.
#[local] Hint Extern 1 (silent (os_getxattr (M := M) _)) => apply unseen_silent : code.
#[local] Hint Extern 1 (silent (os_pread (M := M) _ _ _)) => apply unseen_silent : code.
#[local] Hint Extern 1 (silent (measure_verity (M := M) _)) => apply unseen_silent : code.

Ltac still := repeat (keeps_step || solve [auto with code]).

Lemma tick_frozen : keeps frozen (CodeView._tick (M := M) (W := W * list descriptor_event)).
Proof.
  unfold CodeView._tick. still. intros s. by repeat split.
Qed.
#[local] Hint Resolve tick_frozen : code.

Lemma io_frozen {A} (m : io (W * list descriptor_event) A) : silent m -> keeps frozen (CodeView._io (M := M) m).
Proof. intros H. unfold CodeView._io. still. Qed.
#[local] Hint Resolve io_frozen : code.

Lemma identity_frozen fd d : keeps frozen (CodeView._identity (M := M) (W := W * list descriptor_event) fd d).
Proof. unfold CodeView._identity. still. destruct d; apply io_frozen, unseen_silent. Qed.
#[local] Hint Resolve identity_frozen : code.

Lemma each_frozen {A} (f : A -> vrun unit) l : (forall x, keeps frozen (f x)) -> keeps frozen (CodeView.each f l).
Proof. intros H. unfold CodeView.each. apply keeps_fold; [typeclasses eauto | auto]. Qed.

Lemma retained_frozen : keeps frozen (CodeView._retained (M := M) (W := W * list descriptor_event)).
Proof. unfold CodeView._retained. still. apply each_frozen. intros r. still. Qed.

Lemma integrity_frozen fd id p : keeps frozen (CodeView.integrity (M := M) (W := W * list descriptor_event) fd id p).
Proof. unfold CodeView.integrity. still. Qed.

Lemma pread_parts_frozen fuel fd id size data :
  keeps frozen (CodeView.pread_parts (M := M) (W := W * list descriptor_event) fuel fd id size data).
Proof. revert data. induction fuel as [|fuel IH]; intros data; cbn [CodeView.pread_parts]; still; apply IH. Qed.
#[local] Hint Resolve retained_frozen integrity_frozen pread_parts_frozen : code.

Lemma file_frozen path p : keeps frozen (CodeView._file (M := M) (W := W * list descriptor_event) page path p).
Proof. unfold CodeView._file. still. Qed.
#[local] Hint Resolve file_frozen : code.

Lemma wp_frozen {A} (m : vrun A) (Q : A -> view -> Prop) E s :
  keeps frozen m -> (forall a s', frozen s s' -> Q a s') -> (forall e s', frozen s s' -> E e s') -> wp m Q E s.
Proof. intros Hm HQ HE. eapply wp_mono; [by apply wp_keeps | |]; eauto. Qed.

(** ** Acquiring *)

(** What matters of a table for its descriptors. *)
Definition slots (t : list (str * code_row)) : list (str * option Z) := map (fun kv => (kv.1, row_fd kv.2)) t.
Definition other (t : table) : table := match t with Kept => Temporary | Temporary => Kept end.

Lemma table_fds_slots t : table_fds t = omap snd (slots t).
Proof.
  unfold table_fds, slots. induction t as [|[k r] t IH]; [done |]. cbn. cbn in IH. destruct (row_fd r); cbn; by rewrite IH.
Qed.

(** New rows, of paths no longer than [n], are at the end of the table with what was opened. *)
Definition acquires (n : nat) (t : table) (s s' : view) : Prop := exists new,
  slots (table_of t s') = slots (table_of t s) ++ new /\ Forall (fun e => length e.1 <= n)%nat new /\
  table_of (other t) s' = table_of (other t) s /\
  opens (view_log s') = opens (view_log s) ++ omap snd new /\ closes (view_log s') = closes (view_log s) /\
  layouts s' = layouts s /\ closed s' = closed s /\ failed s' = failed s /\ busy s' = busy s /\
  cleanup_failure s' = cleanup_failure s.

Lemma frozen_acquires n t s s' : frozen s s' -> acquires n t s s'.
Proof.
  intros (E1 & E2 & E3 & E4 & E5 & E6 & E7 & E8). exists [].
  assert (forall t, table_of t s' = table_of t s) as Ht by (by intros []). rewrite !Ht, E8, !app_nil_r.
  repeat split; try done; constructor.
Qed.

#[export] Instance acquires_preorder n t : PreOrder (acquires n t).
Proof.
  split; [intros s; apply frozen_acquires; reflexivity |].
  intros s1 s2 s3 (n1 & A1 & A2 & A3 & A4 & A5 & A6) (n2 & B1 & B2 & B3 & B4 & B5 & B6). exists (n1 ++ n2).
  rewrite B1, A1, B4, A4, omap_app, !app_assoc. split; [done |]. split; [by apply Forall_app |]. intuition congruence.
Qed.

Lemma acquires_weaken n m t s s' : (n <= m)%nat -> acquires n t s s' -> acquires m t s s'.
Proof.
  intros H (new & A1 & A2 & A3). exists new. split; [done |]. split; [|done]. eapply Forall_impl; [exact A2 | cbn; lia].
Qed.

Lemma acquires_frozen n t {A} (m : vrun A) : keeps frozen m -> keeps (acquires n t) m.
Proof. apply keeps_weaken, frozen_acquires. Qed.

(** A change of a row that leaves its descriptor. *)
Lemma change_acquires n t path f : (forall r, row_fd (f r) = row_fd r) -> keeps (acquires n t) (change_row t path f : vrun unit).
Proof.
  intros Hf s. exists []. rewrite !app_nil_r.
  assert (slots (table_of t (with_table t (map (fun kv => if str_eqb kv.1 path then (kv.1, f kv.2) else kv) (table_of t s)) s)) =
          slots (table_of t s)) as Hs.
  { destruct t; cbn [table_of with_table rows temporary]; unfold slots; rewrite map_map; apply map_ext;
      intros [k r]; cbn [fst snd]; destruct (str_eqb k path); cbn [fst snd]; by rewrite ?Hf. }
  split; [exact Hs |]. destruct t; repeat split; try done; constructor.
Qed.

Lemma slots_dhas path t : dhas path (slots t) = dhas path t.
Proof.
  unfold dhas. induction t as [|[k r] t IH]; [done |]. cbn. by destruct (str_eqb path k).
Qed.

Lemma slots_set_fd path f (t : list (str * code_row)) pre : slots t = pre ++ [(path, None)] -> dhas path pre = false ->
  slots (map (fun kv => if str_eqb kv.1 path then (kv.1, set_fd f kv.2) else kv) t) = pre ++ [(path, Some f)].
Proof.
  revert pre. induction t as [|[k r] t IH]; intros pre H Hp; [by destruct pre |].
  destruct pre as [|[k' o] pre]; cbn [slots map app fst snd] in *.
  - injection H as -> _ Ht. destruct t; [|done]. by rewrite str_eqb_refl.
  - injection H as <- <- Ht. unfold dhas in Hp. cbn [dget] in Hp. rewrite str_eqb_sym.
    destruct (str_eqb path k) eqn:E; [done |]. cbn [fst snd]. f_equal. by apply IH.
Qed.

Lemma acquires_fresh n t path s s' : (n < length path)%nat -> acquires n t s s' ->
  dhas path (table_of t s) = false -> dhas path (table_of t s') = false.
Proof.
  intros Hn (new & E & Hl & _) H. rewrite <- slots_dhas in H. rewrite <- slots_dhas, E.
  destruct (dhas path (slots (table_of t s) ++ new)) eqn:Hd; [|done]. apply dhas_In in Hd. unfold dkeys in Hd.
  rewrite map_app, in_app_iff in Hd. destruct Hd as [Hd | Hd]; [apply dhas_In in Hd; congruence |].
  apply in_map_iff in Hd as (e & <- & He). rewrite List.Forall_forall in Hl. specialize (Hl e He).
  destruct (Nat.lt_irrefl _ (Nat.lt_le_trans _ _ _ Hn Hl)).
Qed.

Lemma rsplit_shorter path parent_path name : rsplit_slash path = (parent_path, name) ->
  parent_path = [] \/ (length parent_path < length path)%nat.
Proof.
  unfold rsplit_slash. destruct (rfind (u "/") path) as [n|] eqn:E; intros [= <- _]; [right | by left].
  apply rfind_take in E. apply (f_equal length) in E. rewrite !length_app in E. change (length (u "/")) with 1%nat in E. lia.
Qed.

Lemma wp_acquires n t {A} (m : vrun A) (Q : A -> view -> Prop) E s0 s :
  acquires n t s0 s -> keeps (acquires n t) m -> (forall a s', acquires n t s0 s' -> Q a s') ->
  (forall e s', acquires n t s0 s' -> E e s') -> wp m Q E s.
Proof.
  intros H Hm HQ HE. eapply wp_mono; [by apply wp_keeps | intros a s' H'; apply HQ | intros e s' H'; apply HE]; by etransitivity.
Qed.

(** Opening the last row of the table. *)
Lemma opened_acquires n t path parent name directory (s0 s : view) pre :
  slots (table_of t s) = pre ++ [(path, None)] -> dhas path pre = false -> acquires n t s0 s ->
  (exists new, pre = slots (table_of t s0) ++ new) ->
  wp (open_into t path parent name directory) (fun _ s' => acquires n t s0 s') (fun _ s' => acquires n t s0 s') s.
Proof.
  intros Hs Hp (new & A1 & A2 & A3 & A4 & A5 & A6) [mid Hmid]. unfold open_into. apply wp_bind.
  unfold beyond. apply wp_zoom. cbn [os_open audited]. apply wp_bind. unfold unseen at 1. apply wp_zoom.
  unfold wp at 1. destruct (os_open (Some parent) name directory (outside s).1) as [[fd|e] w].
  2: { exists new. by destruct t. }
  apply wp_bind, wp_update, wp_ret. cbn [fst snd]. apply wp_bind. unfold change_row. apply wp_update, wp_ret.
  assert (new = mid ++ [(path, None)]) as ->.
  { rewrite A1, Hmid, <- app_assoc in Hs. by apply app_inv_head in Hs. }
  exists (mid ++ [(path, Some fd)]). pose proof (slots_set_fd path fd _ _ Hs Hp) as Hset. rewrite Hmid, <- app_assoc in Hset.
  rewrite omap_app, app_nil_r in A4. apply Forall_app in A2 as [A2 A2'].
  split; [destruct t; exact Hset |]. split; [apply Forall_app; split; [done | by inversion A2'; repeat constructor] |].
  split; [by destruct t |]. unfold view_log in *. cbn [outside with_table snd fst]. 
  rewrite opens_app, closes_app, A4, A5, app_nil_r, omap_app, <- app_assoc. by destruct t.
Qed.

Lemma descend_acquires fuel t path directory : keeps (acquires (length path) t) (descend (M := M) fuel t path directory : vrun Z).
Proof.
  revert path directory. induction fuel as [|fuel IH]; intros path directory; cbn [descend];
    (destruct (str_eqb path (u "/")) eqn:Er; [apply keeps_reads; typeclasses eauto |]); apply keeps_wp; intros s;
    (apply wp_bind, wp_reads; [intros known [= <-] | done]); destruct (dget path (table_of t s)) as [row|] eqn:Ek;
    try (apply wp_keeps; still; fail).
  destruct (rsplit_slash path) as [parent_path name] eqn:Ep. pose proof (rsplit_shorter _ _ _ Ep) as Hshort.
  apply wp_bind. set (parent_at := match parent_path with [] => u "/" | _ => parent_path end).
  assert (wp (descend (M := M) fuel t parent_at true : vrun Z)
    (fun _ s1 => acquires (length path) t s s1 /\ dhas path (table_of t s1) = false) (fun _ => acquires (length path) t s) s) as Hparent.
  { unfold parent_at. destruct parent_path as [|c pp]; [destruct fuel; cbn [descend]; apply wp_reads; try done; intros ? _;
      (split; [reflexivity | unfold dhas; by rewrite Ek]) |].
    destruct Hshort as [? | Hs]; [done |]. eapply wp_mono; [apply wp_keeps, IH | intros parent s1 H1 | intros e s1 H1].
    - split; [by eapply acquires_weaken, H1; lia |]. eapply acquires_fresh; [exact Hs | exact H1 | unfold dhas; by rewrite Ek].
    - by eapply acquires_weaken, H1; lia. }
  eapply wp_mono; [exact Hparent | intros parent s1 [H1 Hfresh] | done]. clear Hparent.
  apply wp_bind, wp_reads; [intros room [= <-] | done]. apply wp_bind, wp_check; [intros _ | intros _; exact H1].
  apply wp_bind, wp_update. match goal with |- wp _ _ _ ?x => set (s2 := x) end.
  assert (slots (table_of t s2) = slots (table_of t s1) ++ [(path, None)]) as Hslots.
  { destruct t; unfold s2, with_table, slots; cbn [table_of rows temporary]; by rewrite map_app. }
  assert (acquires (length path) t s s2) as H2.
  { etransitivity; [exact H1 |]. exists [(path, None)]. split; [done |]. split; [by repeat constructor |].
    cbn [omap list_omap snd]. rewrite !app_nil_r. by destruct t. }
  clearbody s2. apply wp_bind, wp_frozen; [apply tick_frozen | intros [] s3 X3 | intros e s3 X3; etransitivity; [exact H2 | by apply frozen_acquires]].
  assert (table_of t s3 = table_of t s2) as Ht3 by (destruct X3 as (? & ? & _); by destruct t).
  assert (acquires (length path) t s s3) as H3 by (etransitivity; [exact H2 | by apply frozen_acquires]).
  assert (forall s4 : view, acquires (length path) t s s4 ->
    wp (_tick (M := M)) (fun _ => acquires (length path) t s) (fun _ => acquires (length path) t s) s4) as Htick.
  { intros s4 H4. apply wp_frozen; [apply tick_frozen | |]; intros ? s5 X5; (etransitivity; [exact H4 | by apply frozen_acquires]). }
  destruct H1 as (new1 & E1 & _).
  apply wp_bind, wp_finally. eapply wp_mono;
    [eapply opened_acquires; [by rewrite Ht3 | by rewrite slots_dhas | exact H3 | by exists new1] | intros fd s4 H4 | intros e s4 H4; by apply Htick].
  eapply wp_mono; [by apply Htick | intros [] s5 H5 | done].
  apply (wp_acquires (length path) t) with (s0 := s); [exact H5 | | done | done].
  repeat (keeps_step || (apply change_acquires; done) || solve [apply acquires_frozen; auto with code]).
Qed.

(** Fuel of the length of the path is enough: each step goes to a shorter path. *)
Lemma descend_enough f g t path directory (s : view) : path <> [] -> (length path <= f)%nat -> (length path <= g)%nat ->
  descend (M := M) f t path directory s = descend (M := M) g t path directory s.
Proof.
  revert g path directory s. induction f as [|f IH]; intros g path directory s Hn Hf Hg; [by destruct path; [| inversion Hf] |].
  destruct g as [|g]; [by destruct path; [| inversion Hg] |]. cbn [descend]. destruct (str_eqb path (u "/")); [done |]. apply io_bind_ext.
  intros [row|] s1 _; [done |]. destruct (rsplit_slash path) as [parent_path name] eqn:E. pose proof (rsplit_shorter _ _ _ E) as Hs.
  assert (descend (M := M) f t (match parent_path with [] => u "/" | _ => parent_path end) true s1 =
          descend (M := M) g t (match parent_path with [] => u "/" | _ => parent_path end) true s1) as Hd.
  { destruct parent_path as [|c pp]; [by destruct f, g |]. destruct Hs as [? | Hs]; [done |]. apply IH; [done | lia | lia]. }
  unfold mbind, io_bind. by rewrite Hd.
Qed.

(** Fuel of two more than the size is enough: every part that is not the last has an octet. *)
Lemma pread_parts_enough f g fd id size data (s : view) :
  size + 1 - zlen data <= Z.of_nat f -> size + 1 - zlen data <= Z.of_nat g ->
  CodeView.pread_parts (M := M) f fd id size data s = CodeView.pread_parts (M := M) g fd id size data s.
Proof.
  revert g data s. induction f as [|f IH]; intros g data s Hf Hg; destruct g as [|g]; cbn [CodeView.pread_parts];
    try done; (destruct (Z.ltb_spec size (zlen data)); [done | try lia]).
  apply io_bind_ext. intros chunk s1 _. apply io_bind_ext. intros _ s2 _. apply io_bind_ext. intros id' s3 _. apply io_bind_ext. intros _ s4 _.
  destruct chunk as [|c chunk]; [done |]. pose proof (zlen_nonneg chunk). apply IH; rewrite zlen_app, zlen_cons; lia.
Qed.

(** ** Closing *)

(** The descriptors of a table were closed but for those that were lost. *)
Definition drops (t : table) (s s' : view) (all : bool) : Prop := exists cl lost,
  table_of t s' = [] /\ table_of (other t) s' = table_of (other t) s /\ table_fds (table_of t s) ≡ₚ cl ++ lost /\
  opens (view_log s') = opens (view_log s) /\ closes (view_log s') = closes (view_log s) ++ cl /\
  closed s' = closed s /\ layouts s' = layouts s /\ failed s' = failed s /\ busy s' = busy s /\
  if all then lost = [] /\ cleanup_failure s' = cleanup_failure s else cleanup_failure s' <> None.

(** The descriptors of a list were closed. *)
Definition shut (cl : list Z) (s s' : view) : Prop :=
  view_log s' = view_log s ++ map Closed cl /\
  rows s' = rows s /\ temporary s' = temporary s /\ layouts s' = layouts s /\ closed s' = closed s /\ failed s' = failed s /\
  busy s' = busy s /\ cleanup_failure s' = cleanup_failure s.

Lemma frozen_shut s s' : frozen s s' -> shut [] s s'.
Proof. intros (E1 & E2 & E3 & E4 & E5 & E6 & E7 & E8). unfold shut. by rewrite app_nil_r. Qed.

Lemma shut_trans l1 l2 s1 s2 s3 : shut l1 s1 s2 -> shut l2 s2 s3 -> shut (l1 ++ l2) s1 s3.
Proof.
  intros (A & A1) (B & B1). split; [by rewrite B, A, map_app, app_assoc | intuition congruence].
Qed.

Definition row_fds (r : code_row) : list Z := match row_fd r with Some fd => [fd] | None => [] end.

Lemma close_one_wp r (s : view) :
  wp (close_one r) (fun _ => shut (row_fds r) s) (fun _ s' => exists cl, sublist cl (row_fds r) /\ shut cl s s') s.
Proof.
  unfold close_one, row_fds. destruct (row_fd r) as [fd|]; [|by apply wp_ret, frozen_shut].
  assert (forall s1, frozen s s1 ->
    wp (beyond (os_close fd)) (fun _ => shut [fd] s) (fun _ s' => exists cl, sublist cl [fd] /\ shut cl s s') s1) as Hend.
  { intros s1 H1. apply frozen_shut in H1. unfold beyond. apply wp_zoom. cbn [os_close audited]. apply wp_bind, wp_update.
    unfold unseen. apply wp_zoom. unfold wp. cbn [fst snd].
    destruct (os_close fd (outside s1).1) as [[|e] w]; [|exists [fd]; split; [done |]];
      change [fd] with ([] ++ [fd]); (eapply shut_trans; [exact H1 | by repeat split]). }
  assert (forall s1, frozen s s1 -> exists cl, sublist cl [fd] /\ shut cl s s1) as Herr.
  { intros s1 H1. exists []. split; [apply sublist_nil_l | by apply frozen_shut]. }
  apply wp_bind. destruct (close_identity r) as [expected|]; [|by apply wp_ret, Hend].
  apply wp_bind, wp_frozen; [auto with code | intros id s1 H1 | intros e s1 H1; by apply Herr].
  apply wp_check; intros _; [by apply Hend | by apply Herr].
Qed.

Lemma close_loop_wp failure l (s : view) :
  wp (io_fold (fun failure r => o ← attempt (close_one r); mret (first_failure failure o)) failure l)
    (fun o s' => exists cl, sublist cl (flat_map row_fds l) /\ shut cl s s' /\ (o = None -> failure = None /\ cl = flat_map row_fds l))
    (fun _ _ => False) s.
Proof.
  revert failure s. induction l as [|r l IH]; intros failure s; cbn [io_fold flat_map].
  - apply wp_ret. exists []. split; [done |]. split; [by apply frozen_shut | done].
  - apply wp_bind, wp_bind, wp_attempt.
    eapply wp_mono; [apply close_one_wp | intros [] s1 H1 | intros e s1 (l1 & Hl1 & H1)]; apply wp_ret;
      (eapply wp_mono; [apply IH | intros o s2 (cl & Hl & H2 & Ho) | done]).
    + exists (row_fds r ++ cl). split; [by apply sublist_app |]. split; [by eapply shut_trans |].
      intros Hn. destruct (Ho Hn) as [Hf ->]. by destruct failure.
    + exists (l1 ++ cl). split; [by apply sublist_app |]. split; [by eapply shut_trans |].
      intros Hn. destruct (Ho Hn) as [Hf _]. by destruct failure.
Qed.

Lemma flat_row_fds t : flat_map row_fds (rev (map snd t)) ≡ₚ table_fds t.
Proof.
  rewrite (Permutation_flat_map row_fds (Permutation_sym (Permutation_rev (map snd t)))).
  unfold table_fds, row_fds. induction t as [|[k r] t IH]; [done |]. cbn. destruct (row_fd r); cbn; by rewrite IH.
Qed.

Lemma rows_closed_wp t (s : view) :
  wp (_close_rows t) (fun _ s' => drops t s s' true) (fun _ s' => drops t s s' false) s.
Proof.
  unfold _close_rows. apply wp_bind, wp_reads; [intros held [= <-] | done]. apply wp_bind, wp_update, wp_bind.
  eapply wp_mono; [apply close_loop_wp | intros failure s1 (cl & Hsub & (E0 & E1 & E2 & E3 & E4 & E5 & E6 & E7) & Ho) | done].
  assert (exists lost, table_fds (table_of t s) ≡ₚ cl ++ lost /\ (failure = None -> lost = [])) as (lost & Hp & Hlost).
  { destruct failure as [e|].
    - apply sublist_submseteq, submseteq_Permutation in Hsub as (lost & Hp). exists lost. split; [|done].
      by rewrite <- Hp, flat_row_fds.
    - exists []. split; [|done]. destruct (Ho eq_refl) as [_ ->]. by rewrite app_nil_r, flat_row_fds. }
  assert (forall b s2, view_log s2 = view_log s1 -> rows s2 = rows s1 -> temporary s2 = temporary s1 -> layouts s2 = layouts s1 ->
    closed s2 = closed s1 -> failed s2 = failed s1 -> busy s2 = busy s1 ->
    (if (b : bool) then lost = [] /\ cleanup_failure s2 = cleanup_failure s1 else cleanup_failure s2 <> None) -> drops t s s2 b) as Hend.
  { intros b s2 F0 F1 F2 F3 F4 F5 F6 F7. exists cl, lost. rewrite F0, F3, F4, F5, F6, E0, opens_app, closes_app, opens_closed, closes_map, app_nil_r.
    assert (forall t, table_of t s2 = table_of t s1) as -> by (by intros []).
    assert (forall t', table_of t' s2 = table_of t' s1) as -> by (by intros []).
    split; [by destruct t; cbn [table_of]; rewrite ?E1, ?E2 |]. split; [by destruct t; cbn [table_of other]; rewrite ?E1, ?E2 |].
    split; [done |]. split; [by destruct t |]. split; [by destruct t |]. rewrite E3, E4, E5, E6.
    repeat (split; [by destruct t |]). destruct b; [|done]. rewrite E7 in F7. by destruct t. }
  destruct failure as [e|].
  - apply wp_bind, wp_update, wp_throw. apply Hend; try done. cbn. by destruct (cleanup_failure s1).
  - apply wp_ret. apply Hend; try done. split; [by apply Hlost | done].
Qed.

(** ** The invariant *)

(** What was opened is closed, held, or lost by a closing that failed. *)
Definition balanced (s : view) : Prop := exists lost,
  opens (view_log s) ≡ₚ closes (view_log s) ++ table_fds (rows s) ++ table_fds (temporary s) ++ lost /\
  (cleanup_failure s = None -> lost = []).

(** The layout of octets that have the pinned size and digest, with the pinned segments. *)
Definition from_pin (p : pin) (o : option layout) : Prop := exists raw,
  zlen raw = pin_size p /\ byte_digest raw = pin_digest p /\
  match o with
  | Some l => exists l0, _elf_code_layout raw (machine (W := W) (M := M)) page = Ok l0 /\ segments_match (Some l0) p = true /\
                         l = with_permissions l0 p
  | None => startswith elf_start raw = false /\ pin_segments p = []
  end.

Definition layouts_pinned (s : view) : Prop :=
  layouts s = [] \/ Forall2 (fun kv e => e.1 = kv.1 /\ from_pin kv.2 e.2) pins (layouts s).

(** Every pinned file was looked at, in a row that has an identity. *)
Definition observed (s : view) : Prop :=
  Forall2 (fun kv e => e.1 = kv.1 /\ from_pin kv.2 e.2) pins (layouts s) /\
  Forall (fun kv => exists row fp, dget kv.1 (rows s) = Some row /\ row_identity row = Some fp) pins.

Definition lively (s : view) : Prop := balanced s /\ temporary s = [] /\ layouts_pinned s /\ closed s = false.
Definition sound (s : view) : Prop := balanced s /\ temporary s = [] /\ layouts_pinned s /\ (closed s = true -> rows s = []).
Definition spent (s : view) : bool := closed s || failed s || busy s.

Lemma lively_sound s : lively s -> sound s.
Proof. intros (H1 & H2 & H3 & H4). repeat (split; [done |]). congruence. Qed.

Lemma frozen_lively s s' : frozen s s' -> lively s -> lively s'.
Proof.
  intros (E1 & E2 & E3 & E4 & _ & _ & E7 & E8) (H1 & H2 & H3 & H4). unfold lively, balanced, layouts_pinned.
  by rewrite E1, E2, E3, E4, E7, E8.
Qed.

Lemma acquires_lively n s s' : acquires n Kept s s' -> lively s -> lively s'.
Proof.
  intros (new & A1 & _ & A3 & A4 & A5 & A6 & A7 & _ & _ & A8) ((lost & P & L) & H2 & H3 & H4). cbn [table_of other] in *.
  unfold lively, balanced, layouts_pinned. rewrite A3, A6, A7, A8. split; [|done]. exists lost. split; [|done].
  assert (table_fds (rows s') = table_fds (rows s) ++ omap snd new) as -> by (by rewrite !table_fds_slots, A1, omap_app).
  rewrite A4, A5, P, <- !app_assoc. do 2 f_equiv. rewrite !app_assoc, (Permutation_app_comm _ (omap snd new)). by rewrite !app_assoc.
Qed.

(** ** Observing *)

(** The same rows and layouts. *)
Definition kept (s s' : view) : Prop := lively s' /\ rows s' = rows s /\ layouts s' = layouts s.

Lemma frozen_kept s s' : lively s -> frozen s s' -> kept s s'.
Proof. intros H Hf. split; [by eapply frozen_lively | split; apply Hf]. Qed.
Lemma kept_trans s1 s2 s3 : kept s1 s2 -> kept s2 s3 -> kept s1 s3.
Proof. intros (_ & ? & ?) (? & ? & ?). split; [done | split; congruence]. Qed.

Definition grows (t : table) (s s' : view) : Prop := exists n, acquires n t s s'.

#[export] Instance grows_preorder t : PreOrder (grows t).
Proof.
  split; [intros s; exists O; reflexivity |]. intros s1 s2 s3 [n H1] [m H2]. exists (max n m).
  etransitivity; eapply acquires_weaken; [| exact H1 | | exact H2]; lia.
Qed.

Lemma acquire_grows t : keeps (grows t) (CodeView._acquire (M := M) pins t : vrun unit).
Proof.
  assert (forall {A} (m : vrun A), keeps frozen m -> keeps (grows t) m) as Hf.
  { intros A m. apply keeps_weaken. intros s s' H. exists O. by apply frozen_acquires. }
  unfold CodeView._acquire, CodeView.each. apply keeps_bind; [typeclasses eauto | | intros _].
  - apply keeps_fold; [typeclasses eauto |]. intros _ path _. apply keeps_bind; [typeclasses eauto | | intros fd; apply Hf; still].
    eapply keeps_weaken; [|apply descend_acquires]. intros s s' H. by eexists.
  - apply Hf. still.
Qed.

Lemma dropped_kept s s1 s2 b : lively s -> grows Temporary s s1 -> drops Temporary s1 s2 b -> kept s s2.
Proof.
  intros ((lost & P & L) & Ht & Hl & Hc) (n & new & A1 & _ & A3 & A4 & A5 & A6 & A7 & _ & _ & A8)
    (cl & lost' & D1 & D2 & D3 & D4 & D5 & D6 & D7 & _ & _ & D8). cbn [table_of other] in *. rewrite Ht in A1, P. cbn [slots map app] in A1, P.
  change (table_fds []) with (@nil Z) in P. cbn [app] in P.
  split; [|split; congruence]. unfold lively, layouts_pinned. rewrite D1, D6, D7, A6, A7. split; [|done].
  exists (lost' ++ lost). rewrite D1, D2, A3, D4, D5, A4, A5, P, <- A1, <- table_fds_slots, D3. split.
  - change (table_fds []) with (@nil Z). solve_Permutation.
  - destruct b; [|done]. destruct D8 as [-> E]. intros Hn. rewrite E, A8 in Hn. by rewrite L.
Qed.

Lemma paths_wp (s : view) : lively s -> wp (CodeView._paths (M := M) pins) (fun _ => kept s) (fun _ => kept s) s.
Proof.
  intros H. unfold CodeView._paths. apply wp_bind, wp_update.
  assert (with_table Temporary [] s = s) as ->. { destruct H as (_ & E & _). destruct s. cbn in *. by subst. }
  apply wp_finally.
  assert (forall s1, grows Temporary s s1 -> wp (_close_rows Temporary ;; CodeView._tick (M := M)) (fun _ => kept s) (fun _ => kept s) s1) as Hend.
  { intros s1 G. apply wp_bind. eapply wp_mono; [apply rows_closed_wp | intros [] s2 D | intros e s2 D; exact (dropped_kept _ _ _ _ H G D)].
    pose proof (dropped_kept _ _ _ _ H G D) as D'. apply wp_frozen; [apply tick_frozen | |]; intros ? s3 X;
      (eapply kept_trans; [exact D' | apply frozen_kept; [apply D' | done]]). }
  apply wp_bind. eapply wp_mono; [apply wp_keeps, acquire_grows | intros [] s1 G | intros e s1 G; by apply Hend].
  apply wp_bind, wp_reads; [intros same _ | done]. apply wp_check; intros _; by apply Hend.
Qed.

Lemma wp_frozen_from {A} (m : vrun A) (Q : A -> view -> Prop) (s0 s : view) :
  frozen s0 s -> keeps frozen m -> (forall a s', frozen s0 s' -> Q a s') -> wp m Q (fun _ => frozen s0) s.
Proof. intros H Hm HQ. apply wp_frozen; [done | intros a s' H'; apply HQ | intros e s' H']; by etransitivity. Qed.

Lemma integrity_wp fd id p (s0 s : view) : frozen s0 s ->
  wp (CodeView.integrity (M := M) fd id p) (fun _ s' => frozen s0 s' /\ exists fp, id = Some fp) (fun _ => frozen s0) s.
Proof.
  intros H. unfold CodeView.integrity. apply wp_bind, (wp_frozen_from _ _ _ _ H); [auto with code | intros fp s1 H1].
  apply wp_bind, wp_check; [intros E%bool_decide_eq_true_1 | done]. apply wp_bind, (wp_frozen_from _ _ _ _ H1); [auto with code | intros label s2 H2].
  apply wp_bind, wp_check; [intros _ | done]. apply wp_bind, (wp_frozen_from _ _ _ _ H2); [auto with code | intros verity s3 H3].
  apply wp_check; [intros _ | done]. split; [done |]. by exists fp.
Qed.

Lemma file_wp path p (s : view) :
  wp (CodeView._file (M := M) page path p)
    (fun o s' => frozen s s' /\ from_pin p o /\ exists row fp, dget path (rows s) = Some row /\ row_identity row = Some fp)
    (fun _ => frozen s) s.
Proof.
  unfold CodeView._file. apply wp_bind, wp_reads; destruct (dget path (rows s)) as [row|]; try done; [intros row' [= <-]].
  apply wp_bind, wp_lift; destruct (row_fd row) as [fd|]; try done; [intros fd' [= <-]].
  apply wp_bind, wp_frozen; [auto with code | intros info s1 H1 | done]. apply wp_bind, wp_check; [intros _ | done].
  apply wp_bind. eapply wp_mono; [by apply integrity_wp | intros [] s2 [H2 [fp Hfp]] | done].
  apply wp_bind, (wp_frozen_from _ _ _ _ H2); [auto with code | intros raw s3 H3].
  apply wp_bind, wp_check; [intros Hz%Z.eqb_eq | done]. apply wp_bind, wp_check; [intros Hd%str_eqb_eq | done].
  apply wp_bind, wp_lift; [intros l Hl | done]. apply wp_bind, wp_check; [intros Hseg | done].
  apply wp_bind. eapply wp_mono; [by apply integrity_wp | intros [] s4 [H4 _] | done]. apply wp_ret. split; [done |].
  split; [|by exists row, fp]. exists raw. split; [done |]. split; [done |].
  destruct (startswith elf_start raw) eqn:E.
  - destruct (_elf_code_layout raw machine page) as [l0|] eqn:El; [|done]. injection Hl as <-. by exists l0.
  - injection Hl as <-. split; [done |]. apply bool_decide_eq_true_1 in Hseg. symmetry in Hseg. by apply map_eq_nil in Hseg.
Qed.

Lemma files_wp ps pre ls (s : view) :
  Forall2 (fun kv (e : str * option layout) => e.1 = kv.1 /\ from_pin kv.2 e.2) pre ls ->
  wp (io_fold (fun ls (kv : str * pin) => l ← CodeView._file (M := M) page kv.1 kv.2; mret (ls ++ [(kv.1, l)])) ls ps)
    (fun ls' s' => frozen s s' /\ Forall2 (fun kv e => e.1 = kv.1 /\ from_pin kv.2 e.2) (pre ++ ps) ls' /\
       Forall (fun kv => exists row fp, dget kv.1 (rows s) = Some row /\ row_identity row = Some fp) ps)
    (fun _ => frozen s) s.
Proof.
  revert pre ls s. induction ps as [|kv ps IH]; intros pre ls s H; cbn [io_fold].
  - apply wp_ret. rewrite app_nil_r. split; [reflexivity | split; [done | constructor]].
  - apply wp_bind, wp_bind. eapply wp_mono; [apply file_wp | intros o s1 (H1 & Ho & Hr) | done]. apply wp_ret.
    eapply wp_mono; [apply (IH (pre ++ [kv])); apply Forall2_app; [exact H | by repeat constructor] | |].
    + intros ls' s2 (H2 & F & R). split; [by etransitivity |]. rewrite <- app_assoc in F. split; [exact F |].
      constructor; [done |]. destruct H1 as (E & _). by rewrite <- E.
    + intros e s2 H2. by etransitivity.
Qed.

Lemma observe_wp (s : view) : lively s ->
  wp (CodeView._observe (M := M) pins page)
    (fun _ s' => lively s' /\ rows s' = rows s /\ observed s' /\ (layouts s = [] \/ layouts s' = layouts s)) (fun _ => lively) s.
Proof.
  intros H. unfold CodeView._observe.
  assert (forall (e : exn) s', kept s s' -> lively s') as Herr by (by intros _ s' [? _]).
  apply wp_bind, wp_frozen; [auto with code | intros [] s1 X1%(frozen_kept _ _ H) | by intros ? s1 X%(frozen_kept _ _ H); apply Herr].
  apply wp_bind. eapply wp_mono; [apply paths_wp, X1 | intros [] s2 X2 | by intros e s2 [? _]].
  apply (kept_trans _ _ _ X1) in X2. clear X1.
  apply wp_bind. eapply wp_mono; [apply (files_wp pins [] []); constructor | intros ls s3 (X3 & F & R) | intros e s3 X3; eapply frozen_lively, X2; exact X3].
  assert (kept s s3) as K3 by (eapply kept_trans; [exact X2 | apply frozen_kept; [apply X2 | done]]).
  apply wp_bind, wp_check; [intros _ | intros _; apply K3]. apply wp_bind, wp_reads; [intros same [= <-] | done].
  apply wp_bind, wp_check; [intros Hsame | intros _; apply K3]. apply wp_bind, wp_update.
  assert (layouts s = [] \/ ls = layouts s) as Hls.
  { destruct K3 as (_ & _ & E3). rewrite E3 in Hsame. destruct (layouts s) as [|x old]; [by left | right]. symmetry. by apply bool_decide_eq_true_1 in Hsame. }
  set (s4 := with_layouts ls s3).
  assert (lively s4) as L4.
  { destruct K3 as ((B & T & _ & C) & _ & _). split; [exact B |]. split; [exact T |]. split; [by right | exact C]. }
  apply wp_bind. eapply wp_mono; [apply paths_wp, L4 | intros [] s5 K5 | by intros e s5 [? _]].
  apply wp_frozen; [auto with code | intros [] s6 X6 | intros e s6 X6; eapply frozen_lively; [exact X6 | apply K5]].
  assert (kept s4 s6) as (L6 & R6 & E6) by (eapply kept_trans; [exact K5 | apply frozen_kept; [apply K5 | done]]).
  cbn [s4 with_layouts rows layouts] in R6, E6. split; [done |]. split; [rewrite R6; apply K3 |]. split.
  - split; [by rewrite E6 |]. rewrite R6. destruct X3 as (-> & _). done.
  - by rewrite E6.
Qed.

(** ** The operations *)

(** A statement that depends on the rows and the layouts alone. *)
Definition of_contents (Q : view -> Prop) : Prop := forall s s', rows s' = rows s -> layouts s' = layouts s -> Q s -> Q s'.

Lemma phase_wp {A} (body : vrun A) (Q : view -> Prop) (s : view) :
  of_contents Q -> sound s ->
  (forall s1, lively s1 -> wp body (fun _ s2 => lively s2 /\ Q s2) (fun _ => lively) s1) ->
  wp (CodeView._phase (M := M) body) (fun _ s' => lively s' /\ Q s') (fun _ s' => sound s' /\ spent s' = true) s.
Proof.
  intros HQ Hs Hbody. unfold CodeView._phase. apply wp_bind, wp_reads; [intros free [= <-] | done].
  apply wp_bind, wp_check; intros Hfree.
  2: { split; [done |]. unfold spent. by destruct (closed s), (failed s), (busy s). }
  rewrite !andb_true_iff, !negb_true_iff in Hfree. destruct Hfree as [[Hc Hf] Hb]. apply wp_bind, wp_update.
  set (s1 := with_flags (closed s) (failed s) true s).
  assert (lively s1) as L1 by (destruct Hs as (B & T & P & _); done).
  assert (busy s1 = true) as B1 by done. clearbody s1. clear Hs Hc Hf Hb.
  apply wp_bind, wp_frozen; [auto with code | intros t s2 X2 | intros e s2 X2].
  2: { split; [by eapply lively_sound, frozen_lively |]. unfold spent. destruct X2 as (_ & _ & _ & _ & _ & -> & _). rewrite B1. apply orb_true_r. }
  apply (frozen_lively _ _ X2) in L1. clear X2 B1. apply wp_bind, wp_update.
  set (s3 := with_times (last s2) (two_seconds_after (W := W * list descriptor_event) t) s2).
  assert (lively s3) as L3 by exact L1. clearbody s3. clear L1 s2 s1. apply wp_finally, wp_on_exception.
  assert (forall s4, lively s4 ->
    sound (with_flags (closed s4) true false s4) /\ spent (with_flags (closed s4) true false s4) = true) as Hfail.
  { intros s4 L4. split; [by apply lively_sound |]. unfold spent. cbn. by rewrite orb_true_r. }
  apply wp_bind, wp_frozen; [auto with code | intros [] s4 X4 | intros e s4 X4; exact (Hfail _ (frozen_lively _ _ X4 L3))].
  apply (frozen_lively _ _ X4) in L3. apply wp_bind. eapply wp_mono; [by apply Hbody | intros a s5 [L5 Q5] | intros e s5 L5; by apply Hfail].
  apply wp_bind, wp_frozen; [auto with code | intros [] s6 X6 | intros e s6 X6; exact (Hfail _ (frozen_lively _ _ X6 L5))].
  apply wp_ret. split; [exact (frozen_lively _ _ X6 L5) |]. eapply HQ, Q5; cbn; apply X6.
Qed.

Lemma view_close_wp (s : view) : sound s ->
  wp CodeView.close (fun _ s' => sound s' /\ closed s' = true /\ opens (view_log s') ≡ₚ closes (view_log s'))
    (fun _ s' => sound s' /\ closed s' = true) s.
Proof.
  intros Hs. unfold CodeView.close. apply wp_bind, wp_reads; [intros d [= <-] | done].
  assert (forall s1, sound s1 -> closed s1 = true -> wp (failure ← reads (fun s : view => Ok (cleanup_failure s));
      match failure with Some e => throw e | None => mret tt end)
    (fun _ s' => sound s' /\ closed s' = true /\ opens (view_log s') ≡ₚ closes (view_log s')) (fun _ s' => sound s' /\ closed s' = true) s1) as Hend.
  { intros s1 H1 C1. apply wp_bind, wp_reads; [intros failure [= <-] | done]. destruct (cleanup_failure s1) as [e|] eqn:E; [by apply wp_throw |].
    apply wp_ret. split; [done |]. split; [done |]. destruct H1 as ((lost & P & L) & T & _ & R).
    rewrite (L E), T, (R C1) in P. by rewrite P, !app_nil_r. }
  apply wp_bind. destruct (closed s) eqn:Ec; [by apply wp_ret, Hend |].
  apply wp_bind, wp_update. destruct Hs as ((lost & P & L) & T & _ & _).
  set (s1 := with_layouts [] (with_flags true (failed s) (busy s) s)).
  assert (forall s2 b, drops Kept s1 s2 b -> sound s2 /\ closed s2 = true) as Hdrop.
  { intros s2 b (cl & lost' & D1 & D2 & D3 & D4 & D5 & D6 & D7 & _ & _ & D8). cbn [table_of other s1 with_layouts with_flags rows temporary] in *.
    split; [|by rewrite D6]. split; [|split; [by rewrite D2 | split; [left; by rewrite D7 | done]]].
    exists (lost' ++ lost). rewrite D1, D2, T, D4, D5. change (view_log s1) with (view_log s). rewrite P, T, D3. split.
    - change (table_fds []) with (@nil Z). solve_Permutation.
    - destruct b; [|done]. destruct D8 as [-> E]. cbn in E. intros Hn. rewrite E in Hn. by rewrite L. }
  eapply wp_mono; [apply rows_closed_wp | intros [] s2 [H2 C2]%Hdrop; by apply Hend | intros e s2 D; exact (Hdrop _ _ D)].
Qed.

Lemma check_wp (s : view) : sound s ->
  wp (CodeView.check_code (M := M) pins page) (fun _ s' => lively s' /\ observed s') (fun _ s' => sound s' /\ spent s' = true) s.
Proof.
  intros H. unfold CodeView.check_code. apply phase_wp; [|done |].
  - intros s1 s2 Er El [F R]. unfold observed. by rewrite El, Er.
  - intros s1 L. eapply wp_mono; [by apply observe_wp | by intros [] s2 (? & _ & ? & _) | done].
Qed.

Lemma construct_wp (s : view) : sound s -> closed s = false -> rows s = [] ->
  wp (CodeView.construct (M := M) pins page) (fun _ s' => lively s' /\ observed s') (fun _ s' => sound s' /\ rows s' = []) s.
Proof.
  intros H Hc Hr. unfold CodeView.construct.
  assert (lively s) as L by (destruct H as (? & ? & ? & _); done). clear H Hc.
  apply wp_bind, wp_frozen; [auto with code | intros t s1 X1 | intros e s1 X1].
  2: { split; [by eapply lively_sound, (frozen_lively _ _ X1) |]. destruct X1 as (-> & _). done. }
  apply (frozen_lively _ _ X1) in L. apply wp_bind, wp_update.
  match goal with |- wp _ _ _ ?x => set (s2 := x) end. assert (lively s2) as L2 by exact L. clearbody s2.
  apply wp_on_exception. eapply wp_mono; [apply (phase_wp _ observed); [| by apply lively_sound |] | done |].
  - intros s3 s4 Er El [F R]. unfold observed. by rewrite El, Er.
  - intros s3 L3. apply wp_bind. eapply wp_mono; [apply wp_keeps, acquire_grows | intros [] s4 [n G] | intros e s4 [n G]].
    + eapply wp_mono; [apply observe_wp; by eapply acquires_lively | by intros [] s5 (? & _ & ? & _) | done].
    + by eapply acquires_lively.
  - intros e s3 [H3 _]. apply wp_bind, wp_attempt.
    eapply wp_mono; [by apply view_close_wp | intros [] s4 (H4 & C4 & _) | intros e' s4 (H4 & C4)]; apply wp_ret;
      (split; [done | apply H4, C4]).
Qed.

(** ** Matching *)

Lemma dget_computed {A} (f : str -> A) ks k : dget k (map (fun k => (k, f k)) ks) = if str_in k ks then Some (f k) else None.
Proof.
  induction ks as [|k' ks IH]; [done |]. cbn. destruct (str_eqb_spec k k') as [->|]; [done | exact IH].
Qed.

Lemma pinned_layout (ps : list (str * pin)) ls path :
  Forall2 (fun kv (e : str * option layout) => e.1 = kv.1 /\ from_pin kv.2 e.2) ps ls -> str_in path (dkeys ps) = true ->
  exists p o, dget path ps = Some p /\ dget path ls = Some o /\ from_pin p o.
Proof.
  induction 1 as [|[k p] [k' o] ps ls [E H] F IH]; [done |]. cbn in E, H. subst k'. cbn. destruct (str_eqb path k); [by exists p, o | done].
Qed.

Lemma with_permissions_segments l p : segments_match (Some l) p = true ->
  length (segments (with_permissions l p)) = length (segments l) /\
  Forall (fun s => exists s0, In s0 (segments l) /\ seg_length s = seg_length s0) (segments (with_permissions l p)).
Proof.
  unfold segments_match, with_permissions. cbn [segments]. intros E%bool_decide_eq_true_1. apply (f_equal length) in E.
  rewrite !length_map in E. split; [rewrite length_zip_with; lia |]. clear E.
  generalize (pin_segments p). induction (segments l) as [|s ss IH]; intros [|q qs]; cbn; try constructor.
  - exists s. split; [by left | done].
  - eapply Forall_impl; [apply IH |]. intros x (s0 & ? & ?). exists s0. split; [by right | done].
Qed.

Lemma from_pin_layout p l : from_pin p (Some l) -> segments l <> [] /\ Forall (fun seg => 0 < seg_length seg) (segments l).
Proof.
  intros (raw & _ & _ & l0 & Hl & Hm & ->). apply elf_layout_facts in Hl as (_ & Hn & _ & _ & Hf).
  apply with_permissions_segments in Hm as [Hlen Hm]. split.
  - intros E. rewrite E in Hlen. by destruct (segments l0).
  - eapply Forall_impl; [exact Hm |]. intros s (s0 & Hin & ->). rewrite List.Forall_forall in Hf. by destruct (Hf _ Hin) as (_ & _ & _ & _ & ? & _).
Qed.

(** What a match of a map establishes: no executable range is left out, and each mapping of a file
    is one of a pinned file, whose octets had the pinned digest, at the device and inode held, and
    all mappings of that file tile its segments at one bias, its interpreter being mapped as well. *)
Definition executes (raw auxv : bytes) (s : view) : Prop := exists c,
  _proc_code_maps raw (machine (W := W) (M := M)) auxv = Ok c /\ pageSize c = page /\
  code_ranges c ≡ₚ executable_lines (splitlines octet_line_end raw) /\
  Forall (fun m => exists p l row id st,
    dget (map_path m) pins = Some p /\ from_pin p (Some l) /\ dget (map_path m) (rows s) = Some row /\ row_identity row = Some (id, st) /\
    deviceMajor m = os_major (nth 0 (inode_identity id) 0) /\ deviceMinor m = os_minor (nth 0 (inode_identity id) 0) /\
    map_inode m = nth 1 (inode_identity id) 0 /\ tiled page l (of_path (map_path m) (KernelData.files c)) /\
    (forall i, interpreter l = Some i -> of_path i (KernelData.files c) <> [])) (KernelData.files c).

Lemma enrolled_get (s : view) path f l : observed s -> dget path (enrolled_of pins s) = Some f -> file_layout f = Some l ->
  exists p row id st, dget path pins = Some p /\ from_pin p (Some l) /\ dget path (rows s) = Some row /\
    row_identity row = Some (id, st) /\ file_device f = nth 0 (inode_identity id) 0 /\ file_inode f = nth 1 (inode_identity id) 0.
Proof.
  intros [F R]. unfold enrolled_of. rewrite dget_computed. destruct (str_in path (dkeys pins)) eqn:E; [|done].
  destruct (pinned_layout _ _ _ F E) as (p & o & Hp & Ho & Hf). intros [= <-]. cbn [file_layout file_device file_inode]. rewrite Ho.
  intros [= ->]. apply dget_In in Hp as Hin. rewrite List.Forall_forall in R. destruct (R _ Hin) as (row & [id st] & Hr & Hid).
  cbn [fst] in Hr. rewrite Hr. destruct row as [fd ci ri d]. cbn in Hid. subst ri. by exists p, {| row_fd := fd; close_identity := ci; row_identity := Some (id, st); row_directory := d |}, id, st.
Qed.

Lemma matched_executes raw auxv (s : view) : observed s ->
  matched (enrolled_of pins s) (machine (W := W) (M := M)) page raw auxv = Ok tt -> executes raw auxv s.
Proof.
  intros Ho H. apply matched_Ok in H as (c & Hc & Hp & Hm & Ht).
  2: { intros p f l Hf Hl. destruct (enrolled_get _ _ _ _ Ho Hf Hl) as (p0 & _ & _ & _ & _ & Hpin & _). by eapply from_pin_layout. }
  exists c. split; [done |]. split; [done |]. split; [by apply (map_code_facts _ _ _ _ Hc) |].
  rewrite List.Forall_forall in Hm |- *. intros m Hin. destruct (Hm m Hin) as (f & l & Hf & Hl & M1 & M2 & M3).
  destruct (enrolled_get _ _ _ _ Ho Hf Hl) as (p & row & id & st & Hpin & Hfrom & Hr & Hid & E1 & E2).
  destruct (Ht (map_path m)) as (f' & l' & Hf' & Hl' & Htile & Hint).
  { intros E. assert (In m (of_path (map_path m) (KernelData.files c))) as Hm' by (apply filter_In; split; [done | apply str_eqb_refl]).
    by rewrite E in Hm'. }
  assert (l' = l) as -> by congruence. exists p, l, row, id, st. rewrite E1 in M1, M2. rewrite E2 in M3. done.
Qed.

Lemma match_wp raw auxv (s : view) : sound s ->
  wp (CodeView.match_maps (M := M) pins page raw auxv) (fun _ s' => lively s' /\ executes raw auxv s')
    (fun _ s' => sound s' /\ spent s' = true) s.
Proof.
  intros H. unfold CodeView.match_maps. apply phase_wp; [|done |].
  - intros s1 s2 Er El (c & Hc & H1 & H2 & H3). exists c. by rewrite Er.
  - intros s1 L1. apply wp_bind. eapply wp_mono; [by apply observe_wp | intros [] s2 (L2 & R2 & O2 & _) | done].
    apply wp_bind, wp_reads; [intros enrolled [= <-] | done]. apply wp_bind, wp_lift; [intros [] Hm | done].
    apply matched_executes in Hm as (c & Hc & H1 & H2 & H3); [|done].
    eapply wp_mono; [by apply observe_wp | intros [] s3 (L3 & R3 & _) | done]. split; [done |]. exists c. by rewrite R3.
Qed.

(** ** Calls *)

Inductive command := Check_code | Match_maps (raw auxv : bytes) | Close_code.

Definition perform (c : command) (s : view) : view :=
  match c with
  | Check_code => (CodeView.check_code (M := M) pins page s).2
  | Match_maps raw auxv => (CodeView.match_maps (M := M) pins page raw auxv s).2
  | Close_code => (CodeView.close s).2
  end.

Definition perform_all (cs : list command) (s : view) : view := fold_left (fun s c => perform c s) cs s.

(** A view after its construction, whether it raised or not. *)
Definition starting (w : W) (t : M) : view := (CodeView.construct (M := M) pins page (blank (w, []) t)).2.

Lemma perform_sound c s : sound s -> sound (perform c s).
Proof.
  intros H. destruct c; cbn [perform]; apply wp_final.
  - eapply wp_mono; [by apply check_wp | intros ? s' [? _]; by apply lively_sound | by intros ? s' [? _]].
  - eapply wp_mono; [by apply match_wp | intros ? s' [? _]; by apply lively_sound | by intros ? s' [? _]].
  - eapply wp_mono; [by apply view_close_wp | by intros ? s' [? _] | by intros ? s' [? _]].
Qed.

Lemma perform_all_sound cs s : sound s -> sound (perform_all cs s).
Proof. unfold perform_all. revert s. induction cs as [|c cs IH]; intros s H; [done |]. by apply IH, perform_sound. Qed.

Lemma starting_view_sound w t : sound (starting w t).
Proof.
  unfold starting. apply wp_final. eapply wp_mono; [apply construct_wp; [|done ..] | intros ? s' [? _]; by apply lively_sound | by intros ? s' [? _]].
  split; [|split; [done | split; [by left | done]]]. exists []. by split.
Qed.

(** A view that was used up stays so. *)
Lemma spent_phase {A} (body : vrun A) (s : view) : spent s = true ->
  CodeView._phase (M := M) body s = (conf "KERNEL_CODE_UNAVAILABLE", s).
Proof.
  intros H. assert (negb (closed s) && negb (failed s) && negb (busy s) = false) as E.
  { unfold spent in H. by destruct (closed s), (failed s), (busy s). }
  unfold CodeView._phase, reads, check, lift, mbind, io_bind. by rewrite E.
Qed.

Lemma spent_perform c s : sound s -> spent s = true -> spent (perform c s) = true.
Proof.
  intros H Hs. destruct c; cbn [perform]; [by unfold CodeView.check_code; rewrite spent_phase |
    by unfold CodeView.match_maps; rewrite spent_phase |].
  apply wp_final. eapply wp_mono; [by apply view_close_wp | |]; [intros ? s' (_ & C & _) | intros ? s' (_ & C)]; unfold spent; by rewrite C.
Qed.

Lemma spent_perform_all cs s : sound s -> spent s = true -> spent (perform_all cs s) = true.
Proof.
  unfold perform_all. revert s. induction cs as [|c cs IH]; intros s H Hs; [done |]. apply IH; [by apply perform_sound | by apply spent_perform].
Qed.
End runs.

(** ** Properties *)

Section properties.
Context {U : Unicode} {W M : Type} {K : Custodian W} {I : Inspector W M}.
Context (pins : list (str * pin)) (page : Z).

(** Every descriptor of the code files is accounted for.  After a construction and any calls,
    whatever the kernel and the clock answered and wherever they raised: what was opened is what
    was closed, what the rows hold, and what a closing that failed has lost; none is lost while no
    cleanup has failed; no descriptor of a comparison outlives its call; a closed view holds
    none, and a closing that returns has closed all that was ever opened. *)
Theorem code_descriptors_balanced cs (w : W) (t : M) :
  let s := perform_all (I := I) pins page cs (starting pins page w t) in
  (exists lost, opens (view_log s) ≡ₚ closes (view_log s) ++ table_fds (rows s) ++ lost /\ (cleanup_failure s = None -> lost = [])) /\
  temporary s = [] /\ (closed s = true -> rows s = []) /\
  wp CodeView.close (fun _ s' => closed s' = true /\ opens (view_log s') ≡ₚ closes (view_log s')) (fun _ s' => closed s' = true) s.
Proof.
  intros s. assert (sound pins page s) as H by (apply perform_all_sound, starting_view_sound).
  pose proof (view_close_wp pins page s H) as Hc. destruct H as ((lost & P & L) & T & _ & R). rewrite T in P.
  split; [by exists lost |]. split; [done |]. split; [done |].
  eapply wp_mono; [exact Hc | by intros [] s' [_ ?] | by intros e s' [_ ?]].
Qed.

(** C24: Only pinned code executes.  Whenever, after a construction and any calls, a match of an
    executable map returns: no executable range of the map is left out; every mapping of a file is
    one of a pinned path, at the device and inode of the row that is held; the layout is that of
    octets of the pinned size and digest, with the pinned segments and permissions; the mappings
    of the file tile its segments without gap or surplus at one page-aligned bias, none for a file
    that is not relocatable; and its interpreter is mapped too.  A match that raises leaves the
    view unusable. *)
Theorem executable_code_pinned cs (w : W) (t : M) raw auxv :
  wp (match_maps pins page raw auxv) (fun _ => executes pins page raw auxv) (fun _ s' => spent s' = true)
    (perform_all (I := I) pins page cs (starting pins page w t)).
Proof.
  eapply wp_mono; [apply match_wp, perform_all_sound, starting_view_sound | by intros [] s' [_ ?] | by intros e s' [_ ?]].
Qed.

(** A failure is final.  When a check or a match has raised, every later one raises
    KERNEL_CODE_UNAVAILABLE before it reads anything, whatever is called in between. *)
Theorem code_failure_is_final cs (w : W) (t : M) raw auxv cs' :
  let final s' := check_code pins page (perform_all (I := I) pins page cs' s') =
                    (conf "KERNEL_CODE_UNAVAILABLE", perform_all pins page cs' s') /\
                  match_maps pins page raw auxv (perform_all pins page cs' s') =
                    (conf "KERNEL_CODE_UNAVAILABLE", perform_all pins page cs' s') in
  let s := perform_all pins page cs (starting pins page w t) in
  wp (check_code pins page) (fun _ _ => True) (fun _ => final) s /\
  wp (match_maps pins page raw auxv) (fun _ _ => True) (fun _ => final) s.
Proof.
  intros final s. assert (sound pins page s) as H by (apply perform_all_sound, starting_view_sound).
  assert (forall s', sound pins page s' /\ spent s' = true -> final s') as Hf.
  { intros s' [H' Hs]. pose proof (spent_perform_all pins page cs' s' H' Hs) as Hp. split; by apply spent_phase. }
  split.
  - eapply wp_mono; [exact (check_wp pins page s H) | intros; exact Logic.I | intros e s'; apply Hf].
  - eapply wp_mono; [exact (match_wp pins page raw auxv s H) | intros; exact Logic.I | intros e s'; apply Hf].
Qed.
End properties.
