(* ===== verification/Files.v ===== *)
(** live_proxy_server.py, [_Files]: the files the server reads once and holds open with all their
    ancestors, each checked again, by descriptor and by name, before and after every use. *)

From S2P Require Import Prelude Effects PyVal Utf8 Json Sha2 Canonical Text Posix SchemaBase Live Boundary Custody.

#[local] Open Scope string_scope.
#[local] Open Scope list_scope.
#[local] Open Scope Z_scope.

(** ** What it works with *)

(** What a name is opened as. *)
Inductive opening := As_directory | For_reading | For_appending.

(** The owner's check; opening in a directory, or the root; the status of a descriptor and of a
    name; the inheritance flag; reading, listing, closing. *)
Class FileSite (W : Type) := {
  owner_check : io W unit;
  f_open : option Z -> str -> opening -> io W Z;
  f_fstat : Z -> io W full_stat;
  f_stat : option Z -> str -> io W full_stat;
  f_inheritable : Z -> io W bool;
  f_read : Z -> Z -> io W bytes;
  f_listdir : Z -> io W (list str);
  f_close : Z -> io W unit
}.

(** A row [[fd, parent, name, identity]]. *)
Record file_row := { fd : Z; parent : option Z; name : str; identity : option (list Z) }.

(* @src src/src/harness_conformance/live_proxy_server.py:2304-2307 _Files.__init__ *)
Record files := {
  rows : list (str * file_row);
  raw : list (str * bytes);
  sealed : bool;
  closed : bool;
  total : Z;
  cleanup_failure : option exn
}.

Definition no_files : files := {| rows := []; raw := []; sealed := false; closed := false; total := 0; cleanup_failure := None |}.

Section files.
Context {U : Unicode} {W : Type} {Si : FileSite W}.

(** The files next to what they work with. *)
Definition run (A : Type) : Type := io (files * W) A.
Definition beyond {A} (m : io W A) : run A := zoom snd (fun w s => (s.1, w)) m.
Definition change (f : files -> files) : run unit := update (fun s => (f s.1, s.2)).
Definition see {A} (f : files -> A) : run A := reads (fun s => Ok (f s.1)).

Definition with_rows (r : list (str * file_row)) (s : files) : files :=
  {| rows := r; raw := raw s; sealed := sealed s; closed := closed s; total := total s; cleanup_failure := cleanup_failure s |}.
Definition with_raw (path : str) (b : bytes) (size : Z) (s : files) : files :=
  {| rows := rows s; raw := raw s ++ [(path, b)]; sealed := sealed s; closed := closed s; total := total s + size;
     cleanup_failure := cleanup_failure s |}.
(** [files.sealed = True] *)
Definition with_seal (s : files) : files :=
  {| rows := rows s; raw := raw s; sealed := true; closed := closed s; total := total s; cleanup_failure := cleanup_failure s |}.
Definition emptied (s : files) : files :=
  {| rows := []; raw := []; sealed := sealed s; closed := true; total := total s; cleanup_failure := cleanup_failure s |}.
Definition with_failure (e : exn) (s : files) : files :=
  {| rows := rows s; raw := raw s; sealed := sealed s; closed := closed s; total := total s; cleanup_failure := Some e |}.

Definition each {A} (f : A -> run unit) (l : list A) : run unit := io_fold (fun _ x => f x) tt l.

(** One row of the loop: the conditions in order, each call only when those before it held. *)
Definition check_row (row : file_row) : run unit :=
  match identity row with
  | None => throw (ConformanceError "PROXY_FILE_CHANGED")
  | Some expected =>
      info ← beyond (f_fstat (fd row));
      check (ints_eqb (_custody_identity info) expected) "PROXY_FILE_CHANGED" ;;
      info ← beyond (f_stat (parent row) (name row));
      check (ints_eqb (_custody_identity info) expected) "PROXY_FILE_CHANGED" ;;
      inherited ← beyond (f_inheritable (fd row));
      check (negb inherited) "PROXY_FILE_CHANGED"
  end.

(* @src src/src/harness_conformance/live_proxy_server.py:2309-2315 _Files.check *)
Definition check_files : run unit :=
  beyond owner_check ;;
  open ← see (fun s => negb (closed s));
  check open "PROXY_FILES_CLOSED" ;;
  held ← see (fun s => map snd (rows s));
  each check_row held.

(** ** Opening *)

(** [path[1:].split("/")] has the parts; a path of at most 65 pieces, the root alone having none. *)
(* @src src/src/harness_conformance/live_proxy_server.py:2319-2322 _Files._open *)
Definition path_valid (path : str) : res unit :=
  require_m (Ok (startswith (u "/") path && negb (existsb (N.eqb 92) path)) <&&>
             (b ← utf8_encode path; Ok (zlen b <=? 4096)) <&&>
             Ok ((zlen (split_on 47 path) <=? 65) &&
                 (str_eqb path (u "/") || forallb (fun p => negb (str_in p [[]; u "."; u ".."])) (parts_of path))))
    "PROXY_PATH_INVALID".

Definition mode_is (mode : option Z) (info : full_stat) : bool := unless_given (Z.eqb (S_IMODE (st_mode info))) mode.

(** The file may be held: its owner, kind, links and mode. *)
Definition holdable (fd : Z) (info : full_stat) (directory writable : bool) (mode : option Z) : bool :=
  (2 <? fd) && (fd <? 1048576) && (st_uid info =? 0) && (st_gid info =? 0) &&
  (if directory then S_ISDIR (st_mode info) else S_ISREG (st_mode info) && (st_nlink info =? 1)) &&
  (Z.land (S_IMODE (st_mode info)) (if directory || writable then OTHERS_WRITE else ANY_WRITE) =? 0) && mode_is mode info.

Definition opening_of (directory writable : bool) : opening :=
  if directory then As_directory else if writable then For_appending else For_reading.

(** A descriptor is in its row as soon as it is open. *)
Definition open_row (path : str) (parent : option Z) (name : str) (o : opening) : run Z :=
  fd ← beyond (f_open parent name o);
  change (fun s => with_rows (rows s ++ [(path, {| fd := fd; parent := parent; name := name; identity := None |})]) s) ;;
  mret fd.

(** [self.rows[path][3] = identity] *)
Definition identify (path : str) (id : list Z) : run unit :=
  change (fun s => with_rows (map (fun kv => if str_eqb kv.1 path
    then (kv.1, {| fd := fd kv.2; parent := parent kv.2; name := name kv.2; identity := Some id |}) else kv) (rows s)) s).

(** [fuel] bounds the ancestors: a parent's path is shorter. *)
(* @src src/src/harness_conformance/live_proxy_server.py:2317-2343 _Files._open *)
Fixpoint open_within (fuel : nat) (path : str) (directory : bool) (mode : option Z) (writable : bool) : run Z :=
  check_files ;;
  lift (path_valid path) ;;
  known ← see (fun s => dget path (rows s));
  match known with
  | Some row =>
      info ← beyond (f_fstat (fd row));
      check (Bool.eqb (S_ISDIR (st_mode info)) directory && mode_is mode info) "PROXY_FILE_MODE" ;;
      mret (fd row)
  | None =>
      room ← see (fun s => negb (sealed s) && (zlen (rows s) <? 8448));
      check room "PROXY_FILES_SEALED" ;;
      let '(parent_path, name) := if str_eqb path (u "/") then ([], u "/") else rsplit_slash path in
      parent ← (if str_eqb path (u "/") then mret None
                else match fuel with
                     | O => throw RecursionError
                     | S fuel => p ← open_within fuel (match parent_path with [] => u "/" | _ => parent_path end) true None false;
                                 mret (Some p)
                     end);
      fd ← open_row path parent name (opening_of directory writable);
      info ← beyond (f_fstat fd);
      identify path (_custody_identity info) ;;
      check (holdable fd info directory writable mode) "PROXY_FILE_CUSTODY" ;;
      check_files ;;
      mret fd
  end.

Definition _open (path : str) (directory : bool) (mode : option Z) (writable : bool) : run Z :=
  open_within (length path) path directory mode writable.

(** ** Reading *)

(** The octets up to one more than the size, everything checked after every part. *)
Fixpoint read_parts (fuel : nat) (fd size : Z) (data : bytes) : run bytes :=
  if size <? zlen data then mret data
  else match fuel with
  | O => throw RecursionError
  | S fuel =>
      chunk ← beyond (f_read fd (Z.min 65536 (size + 1 - zlen data)));
      check_files ;;
      match chunk with
      | [] => mret data
      | _ => read_parts fuel fd size (data ++ chunk)
      end
  end.

Definition read_first (path : str) (mode : option Z) (maximum : Z) : run unit :=
  room ← see (fun s => negb (sealed s) && (zlen (raw s) <? 4112));
  check room "PROXY_FILES_SEALED" ;;
  fd ← _open path false mode false;
  info ← beyond (f_fstat fd);
  let size := st_size info in
  fits ← see (fun s => (0 <? size) && (size <=? maximum) && (total s + size <=? 100663296));
  check fits "PROXY_FILE_SIZE" ;;
  data ← read_parts (S (S (Z.to_nat size))) fd size [];
  check (zlen data =? size) "PROXY_FILE_CHANGED" ;;
  change (with_raw path data size).

(* @src src/src/harness_conformance/live_proxy_server.py:2345-2365 _Files.read *)
Definition read (path : str) (digest : option value) (mode : option Z) (maximum : Z) : run bytes :=
  check_files ;;
  known ← see (fun s => dhas path (raw s));
  (if (known : bool) then mret tt else read_first path mode maximum) ;;
  data ← reads (fun s => match dget path (raw s.1) with Some b => Ok b | None => Raise KeyError end);
  check ((zlen data <=? maximum) && unless_given (py_eq (VStr (byte_digest data))) digest) "PROXY_FILE_DIGEST" ;;
  mret data.

(** ** The kit *)

(** The number of entries, the octets by path, and the rows of the inventory. *)
Record kit_walk := { entries : Z; sources : list (str * bytes); actual : list (str * value) }.

(** One file of the tree. *)
(* @src src/src/harness_conformance/live_proxy_server.py:2388-2392 _Files.kit *)
Definition kit_file (absolute relative : str) (observed : full_stat) (k : kit_walk) : run kit_walk :=
  check (zlen (actual k) <? 4096) "PROXY_KIT_INVENTORY" ;;
  data ← read absolute None None 4194304;
  mret {| entries := entries k; sources := dset relative data (sources k);
          actual := actual k ++ [(relative, file_entry relative (S_IMODE (st_mode observed)) data)] |}.

(** The walk; [fuel] is [33 - depth]. *)
(* @src src/src/harness_conformance/live_proxy_server.py:2370-2392 _Files.kit *)
Fixpoint walk (fuel : nat) (path prefix : str) (k : kit_walk) : run kit_walk :=
  match fuel with
  | O => throw (ConformanceError "PROXY_KIT_DEPTH")
  | S fuel =>
      fd ← _open path true None false;
      info ← beyond (f_fstat fd);
      check (Z.land (S_IMODE (st_mode info)) ANY_WRITE =? 0) "PROXY_KIT_WRITABLE" ;;
      listed ← beyond (f_listdir fd);
      names ← lift (sort_utf8 (map (fun n => (n, tt)) listed));
      k ← io_fold (fun k name =>
        let k := {| entries := entries k + 1; sources := sources k; actual := actual k |} in
        check ((entries k <=? 8192) && negb (str_in name [[]; u "."; u ".."]) && negb (existsb (N.eqb 47) name) &&
               negb (existsb (N.eqb 92) name)) "PROXY_KIT_INVENTORY" ;;
        observed ← beyond (f_stat (Some fd) name);
        check (st_dev observed =? st_dev info) "PROXY_KIT_MOUNT_CHANGED" ;;
        let relative := prefix ++ name in
        let absolute := path ++ u "/" ++ name in
        if S_ISDIR (st_mode observed) then walk fuel absolute (relative ++ u "/") k
        else kit_file absolute relative observed k) k (map fst names);
      check_files ;;
      mret k
  end.

(* @src src/src/harness_conformance/live_proxy_server.py:2367-2394 _Files.kit *)
Definition kit (root : str) (expected_tree : value) : run (list (str * bytes)) :=
  check (match expected_tree with VList l => zlen l <=? 4096 | _ => false end) "PROXY_KIT_INVENTORY" ;;
  k ← walk 33 root [] {| entries := 0; sources := []; actual := [] |};
  sorted ← lift (sort_utf8 (actual k));
  check (py_eq (VList (map snd sorted)) expected_tree) "PROXY_KIT_INVENTORY" ;;
  mret (sources k).

(** ** Closing *)

Definition close_row (row : file_row) : run unit :=
  (match identity row with
   | None => mret tt
   | Some expected =>
       info ← beyond (f_fstat (fd row));
       check (ints_eqb [st_dev info; st_ino info; S_IFMT (st_mode info)]
                [device_of expected; nth 1 expected 0; S_IFMT (mode_of expected)]) "PROXY_FD_REUSED"
   end) ;;
  beyond (f_close (fd row)).

(* @src src/src/harness_conformance/live_proxy_server.py:2396-2416 _Files.close *)
Definition close : run unit :=
  done ← see closed;
  if (done : bool) then
    failure ← see cleanup_failure; match failure with Some e => throw e | None => mret tt end
  else
    held ← see (fun s => map snd (rows s));
    change emptied ;;
    failure ← io_fold (fun failure row => r ← attempt (close_row row); mret (first_failure failure r)) None (rev held);
    match failure with
    | Some e => change (with_failure e) ;; throw e
    | None => mret tt
    end.
End files.
