(* ===== verification/Store.v ===== *)
(** live_proxy_server.py, [_State]: the exclusive store of admissions.  Two files of one directory
    are opened and locked for the life of the server; what a read returned is a floor no later
    read may fall below.  It is a storage the admission log of AdmissionLedger.v works over. *)

From S2P Require Import Prelude Effects PyVal Utf8 Json Sha2 Canonical Regex Text Posix SchemaBase Live Boundary Custody.
From S2P Require Import Session ReplayStore.

#[local] Open Scope string_scope.
#[local] Open Scope list_scope.
#[local] Open Scope Z_scope.

(** ** What it works with *)

Inductive lock_operation := Exclusive | Unlock.

(** The owner's check and the check of its files; opening a directory through them; opening a name
    for appending; the status of a descriptor and of a name; the lock; size-bounded reading, a
    write, a sync and a close. *)
Class StoreSite (W : Type) := {
  owner_check : io W unit;
  files_check : io W unit;
  files_open : str -> option Z -> io W Z;
  s_open : str -> Z -> io W Z;
  s_fstat : Z -> io W full_stat;
  s_stat : str -> Z -> io W full_stat;
  s_flock : Z -> lock_operation -> io W unit;
  s_pread : Z -> Z -> io W bytes;
  s_write : Z -> bytes -> io W Z;
  s_fsync : Z -> io W unit;
  s_close : Z -> io W unit
}.

Inductive store_file := Lock_file | Journal_file.

(* @src src/src/harness_conformance/live_proxy_server.py:4772-4787 _State.__init__ *)
Record store := {
  lock_fd : option Z;
  journal_fd : option Z;
  lock_identity : option (list Z);
  journal_identity : option (list Z);
  directory : Z;
  floor : bytes
}.

Definition no_store : store :=
  {| lock_fd := None; journal_fd := None; lock_identity := None; journal_identity := None; directory := -1; floor := [] |}.

Section store.
Context {W : Type} {Si : StoreSite W}.

Definition run (A : Type) : Type := io (store * W) A.
Definition beyond {A} (m : io W A) : run A := zoom snd (fun w s => (s.1, w)) m.
Definition change (f : store -> store) : run unit := update (fun s => (f s.1, s.2)).
Definition see {A} (f : store -> A) : run A := reads (fun s => Ok (f s.1)).

Definition STATE : string := "/var/lib/planeon/live-proxy".
Definition name_of (f : store_file) : str := u match f with Lock_file => "admission.lock" | Journal_file => "reservations.jsonl" end.
Definition fd_of (f : store_file) (s : store) : option Z := match f with Lock_file => lock_fd s | Journal_file => journal_fd s end.
Definition identity_of (f : store_file) (s : store) : option (list Z) :=
  match f with Lock_file => lock_identity s | Journal_file => journal_identity s end.

Definition with_fd (f : store_file) (o : option Z) (s : store) : store :=
  {| lock_fd := match f with Lock_file => o | Journal_file => lock_fd s end;
     journal_fd := match f with Lock_file => journal_fd s | Journal_file => o end;
     lock_identity := lock_identity s; journal_identity := journal_identity s; directory := directory s; floor := floor s |}.
Definition with_identity (f : store_file) (i : list Z) (s : store) : store :=
  {| lock_fd := lock_fd s; journal_fd := journal_fd s;
     lock_identity := match f with Lock_file => Some i | Journal_file => lock_identity s end;
     journal_identity := match f with Lock_file => journal_identity s | Journal_file => Some i end;
     directory := directory s; floor := floor s |}.
Definition with_directory (d : Z) (s : store) : store :=
  {| lock_fd := lock_fd s; journal_fd := journal_fd s; lock_identity := lock_identity s; journal_identity := journal_identity s;
     directory := d; floor := floor s |}.
Definition with_floor (b : bytes) (s : store) : store :=
  {| lock_fd := lock_fd s; journal_fd := journal_fd s; lock_identity := lock_identity s; journal_identity := journal_identity s;
     directory := directory s; floor := b |}.

(** [_custody_identity(info)[:6]]: the identity without size and times. *)
Definition lasting (info : full_stat) : list Z := take 6 (_custody_identity info).

(** [getattr(self, attr)], which a call refuses when it is [None]. *)
Definition held_fd (f : store_file) : run Z :=
  reads (fun s => match fd_of f s.1 with Some fd => Ok fd | None => Raise TypeError end).

(* @src src/src/harness_conformance/live_proxy_server.py:4792-4796 _State.check *)
Definition check_file (f : store_file) : run unit :=
  expected ← reads (fun s => match identity_of f s.1 with Some i => Ok i | None => Raise KeyError end);
  fd ← held_fd f;
  info ← beyond (s_fstat fd);
  check (ints_eqb (lasting info) expected) "ADMISSION_STORE_CHANGED" ;;
  directory ← see directory;
  info ← beyond (s_stat (name_of f) directory);
  check (ints_eqb (lasting info) expected) "ADMISSION_STORE_CHANGED".

(* @src src/src/harness_conformance/live_proxy_server.py:4789-4796 _State.check *)
Definition check_store : run unit :=
  beyond owner_check ;; beyond files_check ;; check_file Lock_file ;; check_file Journal_file.

(* @src src/src/harness_conformance/live_proxy_server.py:4777-4783 _State.__init__ *)
Definition open_file (f : store_file) : run unit :=
  directory ← see directory;
  fd ← beyond (s_open (name_of f) directory);
  change (with_fd f (Some fd)) ;;
  info ← beyond (s_fstat fd);
  check (S_ISREG (st_mode info) && (st_uid info =? 0) && (st_gid info =? 0) && (st_nlink info =? 1) &&
         (S_IMODE (st_mode info) =? 384)) "ADMISSION_STORE_CUSTODY" ;;
  change (with_identity f (lasting info)).

(* @src src/src/harness_conformance/live_proxy_server.py:4772-4787 _State.__init__ *)
Definition open_store : run unit :=
  directory ← beyond (files_open (u STATE) (Some 448));
  change (with_directory directory) ;;
  open_file Lock_file ;; open_file Journal_file ;;
  fd ← held_fd Lock_file;
  beyond (s_flock fd Exclusive) ;;
  change (with_floor []) ;;
  check_store.

(** [transaction] up to its [yield], and its [finally] clause. *)
(* @src src/src/harness_conformance/live_proxy_server.py:4798-4807 _State.transaction *)
Definition enter_store : run unit := check_store ;; fd ← held_fd Journal_file; beyond (s_flock fd Exclusive).
Definition leave_store : run unit := fd ← held_fd Journal_file; beyond (s_flock fd Unlock).

(* @src src/src/harness_conformance/live_proxy_server.py:4809-4817 _State.read *)
Definition read_store : run bytes :=
  check_store ;;
  fd ← held_fd Journal_file;
  info ← beyond (s_fstat fd);
  let size := st_size info in
  check ((0 <=? size) && (size <=? 4194304)) "ADMISSION_STORE_FULL" ;;
  raw ← beyond (s_pread fd (size + 1));
  check_store ;;
  kept ← see (fun s => (zlen raw =? size) && startswith (floor s) raw);
  check kept "ADMISSION_STORE_ROLLBACK" ;;
  change (with_floor raw) ;;
  mret raw.

(* @src src/src/harness_conformance/live_proxy_server.py:4819-4822 _State.append *)
Definition append_store (raw : bytes) : run unit :=
  check_store ;;
  fd ← held_fd Journal_file;
  n ← beyond (s_write fd raw);
  check (n =? zlen raw) "ADMISSION_STORE_SHORT_WRITE" ;;
  check_store.

(* @src src/src/harness_conformance/live_proxy_server.py:4824-4828 _State.sync *)
Definition sync_store : run unit :=
  check_store ;;
  fd ← held_fd Journal_file;
  beyond (s_fsync fd) ;;
  directory ← see directory;
  beyond (s_fsync directory) ;;
  check_store.

#[export] Instance store_storage : Storage (store * W) := {
  enter := enter_store; leave := leave_store; read_all := read_store; append := append_store; sync := sync_store
}.

(** One file of the closing loop. *)
Definition close_file (f : store_file) : run unit :=
  fd ← see (fd_of f);
  change (with_fd f None) ;;
  match fd with
  | None => mret tt
  | Some fd =>
      expected ← see (identity_of f);
      (match expected with
       | None => mret tt
       | Some i => info ← beyond (s_fstat fd); check (ints_eqb (lasting info) i) "ADMISSION_FD_REUSED"
       end) ;;
      beyond (s_close fd)
  end.

(* @src src/src/harness_conformance/live_proxy_server.py:4830-4843 _State.close *)
Definition close_store : run unit :=
  failure ← io_fold (fun failure f => r ← attempt (close_file f); mret (first_failure failure r)) None [Journal_file; Lock_file];
  match failure with Some e => throw e | None => mret tt end.
End store.
