(* ===== verification/PeerLink.v ===== *)
(** live_proxy_server.py: what [_Observer] and [_Broker] share, the retained connection to an
    installed root service.  Every call outside is bracketed by a guard of the owner's authority and
    of the clocks; a phase lasts two seconds at most; a failure is final; the peer is the process
    it was at the start, by its socket, its credentials, its pidfd, its identity and its executable. *)

From S2P Require Import Prelude Effects PyVal Utf8 Json Sha2 Canonical IsoTime Regex Text Posix.
From S2P Require Import SchemaBase Lifecycle LinuxShape Live Boundary Custody Http.

#[local] Open Scope string_scope.
#[local] Open Scope list_scope.
#[local] Open Scope Z_scope.

(** ** What it works with *)

(** The two services. *)
Inductive service := Observer_service | Broker_service.

Definition prefix_of (k : service) : string := match k with Observer_service => "OBSERVER" | Broker_service => "BROKER" end.
(** A reason code of the service. *)
Definition code (k : service) (suffix : string) : string := String.append (prefix_of k) (String.append "_" suffix).

Definition OBSERVER : string := "/opt/planeon/bin/harness-policy-observer".
Definition BROKER : string := "/opt/planeon/bin/harness-capacity-broker".
Definition executable_of (k : service) : string := match k with Observer_service => OBSERVER | Broker_service => BROKER end.
Definition manifest_of (k : service) : string :=
  match k with
  | Observer_service => "/etc/planeon/harness-policy-observer-manifest.json"
  | Broker_service => "/etc/planeon/harness-capacity-broker-manifest.json"
  end.
Definition SOCKET_PARENT : string := "/run/planeon/live-proxy".
Definition socket_name (k : service) : string :=
  match k with Observer_service => "policy-observer.sock" | Broker_service => "capacity-broker.sock" end.

(** A wall clock interval is in microseconds. *)
Definition WALL_SECOND : Z := 1000000.

(** A received datagram: its octets, the ancillary messages, the flags. *)
Definition datagram : Type := bytes * list message * Z.

(** The owner: its base check and its deadline; its qualification binding, checked, as a document and
    as octets; the binding of the observations; the manifest of an installed program read and
    verified through its files; opening a directory through its files, and of a file it holds
    the identity and the octets.  The clocks; the descriptors; the socket; the peer process;
    the native inspection of the service, which is a component of its own. *)
Class LinkSite (W : Type) := {
  base_check : io W unit;
  owner_deadline : W -> Z;
  binding_check : io W unit;
  broker_binding : io W value;
  broker_octets : W -> bytes;
  observation_binding : W -> value;
  installed : string -> string -> io W (value * str * str);
  open_directory : str -> Z -> io W Z;
  held_identity : W -> str -> res (list Z);
  held_octets : W -> str -> res bytes;
  wall : io W value;
  ticks : io W Z;
  l_fstat : Z -> io W full_stat;
  l_stat : str -> Z -> io W full_stat;
  l_inheritable : Z -> io W bool;
  l_close : Z -> io W unit;
  sock_new : io W Z;
  sock_fileno : Z -> io W Z;
  sock_private : Z -> io W unit;
  sock_pass_credentials : Z -> io W unit;
  sock_timeout : Z -> Z -> io W unit;
  sock_connect : Z -> string -> io W unit;
  sock_peer : Z -> io W bytes;
  sock_send : Z -> bytes -> io W Z;
  sock_receive : Z -> io W datagram;
  sock_close : Z -> io W unit;
  sock_detach : Z -> io W unit;
  select_now : Z -> io W (bool * bool);
  select_for : Z -> Z -> io W (bool * bool);
  pidfd_open : Z -> io W Z;
  proc : io W Procfs;
  proc_exe : Z -> io W full_stat;
  random : Z -> io W bytes;
  inspect_open : service -> io W unit;
  inspect_check : service -> io W unit;
  inspect_close : service -> io W unit
}.

#[export] Hint Mode LinkSite ! : typeclass_instances.

(** A link.  A reference and the copy that was kept of it when it was made are one field here, since
    nothing assigns the one without the other. *)
(* @src src/src/harness_conformance/live_proxy_server.py:3274-3293 _Broker.__init__ *)
Record link := {
  closed : bool;
  failed : bool;
  busy : bool;
  cleanup_failure : option exn;
  sock : option Z;
  socket_fd : option Z;
  socket_pin : option (list Z);
  pidfd : option Z;
  pidfd_pin : option (list Z);
  parent : Z;
  socket_identity : list Z;
  peer : list Z;
  process : option Boundary.identity;
  binding_raw : option bytes;
  inspecting : bool;
  deadline : Z;
  finish : Z;
  last_mono : Z;
  last_wall : option datetime;
  phase_wall : option datetime
}.

Definition new_link (deadline mono : Z) : link :=
  {| closed := false; failed := false; busy := false; cleanup_failure := None; sock := None; socket_fd := None; socket_pin := None;
     pidfd := None; pidfd_pin := None; parent := -1; socket_identity := []; peer := []; process := None; inspecting := false;
     deadline := deadline; finish := deadline; last_mono := mono; last_wall := None; phase_wall := None;
     binding_raw := None |}.

(** ** Fields *)

Definition with_flags (c f b : bool) (l : link) : link :=
  {| closed := c; failed := f; busy := b; cleanup_failure := cleanup_failure l; sock := sock l; socket_fd := socket_fd l;
     socket_pin := socket_pin l; pidfd := pidfd l; pidfd_pin := pidfd_pin l; parent := parent l; socket_identity := socket_identity l;
     peer := peer l; process := process l; inspecting := inspecting l; deadline := deadline l; finish := finish l;
     last_mono := last_mono l; last_wall := last_wall l; phase_wall := phase_wall l;
     binding_raw := binding_raw l |}.
Definition set_failed (l : link) : link := with_flags (closed l) true (busy l) l.
Definition set_busy (b : bool) (l : link) : link := with_flags (closed l) (failed l) b l.
Definition set_closed (l : link) : link := with_flags true (failed l) (busy l) l.
Definition with_cleanup (o : option exn) (l : link) : link :=
  {| closed := closed l; failed := failed l; busy := busy l; cleanup_failure := o; sock := sock l; socket_fd := socket_fd l;
     socket_pin := socket_pin l; pidfd := pidfd l; pidfd_pin := pidfd_pin l; parent := parent l; socket_identity := socket_identity l;
     peer := peer l; process := process l; inspecting := inspecting l; deadline := deadline l; finish := finish l;
     last_mono := last_mono l; last_wall := last_wall l; phase_wall := phase_wall l;
     binding_raw := binding_raw l |}.
Definition with_socket (s fd : option Z) (pin : option (list Z)) (l : link) : link :=
  {| closed := closed l; failed := failed l; busy := busy l; cleanup_failure := cleanup_failure l; sock := s; socket_fd := fd;
     socket_pin := pin; pidfd := pidfd l; pidfd_pin := pidfd_pin l; parent := parent l; socket_identity := socket_identity l;
     peer := peer l; process := process l; inspecting := inspecting l; deadline := deadline l; finish := finish l;
     last_mono := last_mono l; last_wall := last_wall l; phase_wall := phase_wall l;
     binding_raw := binding_raw l |}.
Definition with_pidfd (fd : option Z) (pin : option (list Z)) (l : link) : link :=
  {| closed := closed l; failed := failed l; busy := busy l; cleanup_failure := cleanup_failure l; sock := sock l;
     socket_fd := socket_fd l; socket_pin := socket_pin l; pidfd := fd; pidfd_pin := pin; parent := parent l;
     socket_identity := socket_identity l; peer := peer l; process := process l; inspecting := inspecting l;
     deadline := deadline l; finish := finish l; last_mono := last_mono l; last_wall := last_wall l; phase_wall := phase_wall l;
     binding_raw := binding_raw l |}.
Definition with_peer (d : Z) (i p : list Z) (o : option Boundary.identity) (l : link) : link :=
  {| closed := closed l; failed := failed l; busy := busy l; cleanup_failure := cleanup_failure l; sock := sock l;
     socket_fd := socket_fd l; socket_pin := socket_pin l; pidfd := pidfd l; pidfd_pin := pidfd_pin l; parent := d;
     socket_identity := i; peer := p; process := o; inspecting := inspecting l; deadline := deadline l; finish := finish l;
     last_mono := last_mono l; last_wall := last_wall l; phase_wall := phase_wall l;
     binding_raw := binding_raw l |}.
Definition with_inspection (b : bool) (l : link) : link :=
  {| closed := closed l; failed := failed l; busy := busy l; cleanup_failure := cleanup_failure l; sock := sock l;
     socket_fd := socket_fd l; socket_pin := socket_pin l; pidfd := pidfd l; pidfd_pin := pidfd_pin l; parent := parent l;
     socket_identity := socket_identity l; peer := peer l; process := process l; inspecting := b; deadline := deadline l;
     finish := finish l; last_mono := last_mono l; last_wall := last_wall l; phase_wall := phase_wall l;
     binding_raw := binding_raw l |}.
Definition with_times (finish mono : Z) (wall phase : option datetime) (l : link) : link :=
  {| closed := closed l; failed := failed l; busy := busy l; cleanup_failure := cleanup_failure l; sock := sock l;
     socket_fd := socket_fd l; socket_pin := socket_pin l; pidfd := pidfd l; pidfd_pin := pidfd_pin l; parent := parent l;
     socket_identity := socket_identity l; peer := peer l; process := process l; inspecting := inspecting l; deadline := deadline l;
     finish := finish; last_mono := mono; last_wall := wall; phase_wall := phase;
     binding_raw := binding_raw l |}.

Definition with_binding (b : bytes) (l : link) : link :=
  {| closed := closed l; failed := failed l; busy := busy l; cleanup_failure := cleanup_failure l; sock := sock l;
     socket_fd := socket_fd l; socket_pin := socket_pin l; pidfd := pidfd l; pidfd_pin := pidfd_pin l; parent := parent l;
     socket_identity := socket_identity l; peer := peer l; process := process l; inspecting := inspecting l; deadline := deadline l;
     finish := finish l; last_mono := last_mono l; last_wall := last_wall l; phase_wall := phase_wall l;
     binding_raw := Some b |}.

Section link.
Context {U : Unicode} {W : Type} {Si : LinkSite W} (k : service).

Definition run (A : Type) : Type := io (link * W) A.
Definition beyond {A} (m : io W A) : run A := zoom snd (fun w s => (s.1, w)) m.
Definition change (f : link -> link) : run unit := update (fun s => (f s.1, s.2)).
Definition see {A} (f : link -> A) : run A := reads (fun s => Ok (f s.1)).
(** A field that a call refuses when it is [None]. *)
Definition given {A} (f : link -> option A) : run A :=
  reads (fun s => match f s.1 with Some x => Ok x | None => Raise TypeError end).

(** [require_time(utc_now(), "now")] *)
Definition utc_instant : run datetime := v ← beyond wall; lift (LinuxShape.require_time v).

(** [0 <= (wall - self.phase_wall).total_seconds() < 2] *)
Definition within_phase (phase now : datetime) : res bool := d ← time_sub now phase; Ok ((0 <=? d) && (d <? 2 * WALL_SECOND)).

(** The clock readings of a guard, accepted and kept. *)
(* @src src/src/harness_conformance/live_proxy_server.py:3369-3373 _Broker._guard *)
Definition guard_clocks : run unit :=
  now ← beyond ticks;
  at_wall ← utc_instant;
  l ← see id;
  phase ← given phase_wall;
  lift (require_m (Ok ((last_mono l <=? now) && (now <? finish l)) <&&>
                   match last_wall l with None => Ok true | Some w => time_leb w at_wall end <&&>
                   within_phase phase at_wall) (code k "CLOCK_OR_DEADLINE")) ;;
  change (fun l => with_times (finish l) now (Some at_wall) (phase_wall l) l).

(** The binding of the broker; the observer has none of its own. *)
(* @src src/src/harness_conformance/live_proxy_server.py:3366-3368 _Broker._guard *)
Definition guard_binding : run unit :=
  beyond binding_check ;;
  same ← reads (fun s => Ok (match binding_raw s.1 with None => true | Some b => str_eqb (broker_octets s.2) b end));
  check same "BROKER_BINDING_CHANGED".

(* @src src/src/harness_conformance/live_proxy_server.py:3358-3373 _Broker._guard *)
Definition _guard : run unit :=
  ok ← reads (fun s => Ok (negb (closed s.1) && negb (failed s.1) && busy s.1 && (owner_deadline s.2 =? deadline s.1)));
  check ok (code k "OWNER_CHANGED") ;;
  beyond base_check ;;
  match k with Observer_service => mret tt | Broker_service => guard_binding end ;;
  guard_clocks.

(* @src src/src/harness_conformance/live_proxy_server.py:3375-3389 _Broker._phase *)
Definition _phase {A} (body : run A) : run A :=
  free ← see (fun l => negb (closed l) && negb (failed l) && negb (busy l));
  check free (code k "UNAVAILABLE") ;;
  change (set_busy true) ;;
  now ← beyond ticks;
  change (fun l => with_times (Z.min (deadline l) (now + 2 * SECOND)) (last_mono l) (last_wall l) (phase_wall l) l) ;;
  started ← utc_instant;
  change (fun l => with_times (finish l) (last_mono l) (last_wall l) (Some started) l) ;;
  finally (on_exception (_guard ;; r ← body; _guard ;; mret r) (fun _ => change set_failed)) (change (set_busy false)).

(* @src src/src/harness_conformance/live_proxy_server.py:3391-3396 _Broker._io *)
Definition _io {A} (m : run A) : run A := _guard ;; finally m _guard.

(* @src src/src/harness_conformance/live_proxy_server.py:3398-3414 _Broker._prepare_wait *)
Definition _prepare_wait : run unit :=
  _guard ;;
  before ← beyond ticks;
  l ← see id;
  check ((last_mono l <=? before) && (before <? finish l)) (code k "CLOCK_OR_DEADLINE") ;;
  s ← given sock;
  on_exception (beyond (sock_timeout s (finish l - before))) (fun _ => _guard) ;;
  now ← beyond ticks;
  at_wall ← utc_instant;
  seen ← given last_wall;
  phase ← given phase_wall;
  lift (require_m (Ok ((before <=? now) && (now <? finish l)) <&&> time_leb seen at_wall <&&> within_phase phase at_wall)
          (code k "CLOCK_OR_DEADLINE")) ;;
  change (fun l => with_times (finish l) now (Some at_wall) (phase_wall l) l).

(* @src src/src/harness_conformance/live_proxy_server.py:3346-3350 _Broker._fd_pin *)
Definition _fd_pin (fd : Z) : run (list Z) :=
  check ((2 <? fd) && (fd <? 1048576)) (code k "DESCRIPTOR_INVALID") ;;
  info ← beyond (l_fstat fd);
  mret [st_dev info; st_ino info; S_IFMT (st_mode info)].

(** [struct.unpack("3i", raw)] *)
Definition unpack_3i (raw : bytes) : res (list Z) := if zlen raw =? 12 then Ok (int32s raw) else Raise ValueError.
Definition peer_of (s : Z) : run (list Z) := raw ← _io (beyond (sock_peer s)); lift (unpack_3i raw).
Definition identity_of (pid : Z) : run Boundary.identity := _io (p ← beyond proc; lift (@process_identity p (VInt pid))).

(** [process_identity] of the peer, [self.peer[0]]. *)
Definition peer_pid : run Z := p ← see peer; lift (item_at p 0).

(** The descriptors are those that were pinned. *)
(* @src src/src/harness_conformance/live_proxy_server.py:3420-3424 _Broker._check_peer *)
Definition check_descriptors : run unit :=
  s ← given sock;
  let bad := code k "DESCRIPTOR_CHANGED" in
  n ← _io (beyond (sock_fileno s));
  fd ← given socket_fd;
  check (n =? fd) bad ;;
  pin ← _io (_fd_pin fd);
  expected ← given socket_pin;
  check (ints_eqb pin expected) bad ;;
  pfd ← given pidfd;
  pin ← _io (_fd_pin pfd);
  expected ← given pidfd_pin;
  check (ints_eqb pin expected) bad ;;
  inherited ← _io (beyond (l_inheritable fd));
  check (negb inherited) bad ;;
  inherited ← _io (beyond (l_inheritable pfd));
  check (negb inherited) bad.

(** The peer is the one that was pinned. *)
(* @src src/src/harness_conformance/live_proxy_server.py:3425-3432 _Broker._check_peer *)
Definition check_process : run unit :=
  s ← given sock;
  let bad := code k "PEER_CHANGED" in
  p ← peer_of s;
  expected ← see peer;
  check (ints_eqb p expected) bad ;;
  l ← see id;
  info ← _io (beyond (l_stat (u (socket_name k)) (parent l)));
  check (ints_eqb (_custody_identity info) (socket_identity l)) bad ;;
  pfd ← given pidfd;
  ready ← _io (beyond (select_now pfd));
  check (negb ready.1 && negb ready.2) bad ;;
  pid ← peer_pid;
  i ← identity_of pid;
  expected ← given process;
  check (identity_eqb i expected) bad.

(** The comparisons of the retained fields with their own copies are left out. *)
(* @src src/src/harness_conformance/live_proxy_server.py:3416-3438 _Broker._check_peer *)
Definition _check_peer : run unit :=
  check_descriptors ;;
  check_process ;;
  pid ← peer_pid;
  actual ← _io (beyond (proc_exe pid));
  expected ← reads (fun s => held_identity s.2 (u (executable_of k)));
  check (ints_eqb [st_dev actual; st_ino actual] (take 2 expected)) (code k "EXECUTABLE_CHANGED") ;;
  inspected ← see inspecting;
  check inspected (code k "INSPECTION_CHANGED") ;;
  _io (beyond (inspect_check k)).

(** ** Connecting *)

Definition acquire_socket : run unit :=
  s ← beyond sock_new;
  change (with_socket (Some s) None None) ;;
  fd ← beyond (sock_fileno s);
  change (with_socket (Some s) (Some fd) None) ;;
  pin ← _fd_pin fd;
  change (with_socket (Some s) (Some fd) (Some pin)).

Definition acquire_pidfd (pid : Z) : run unit :=
  fd ← beyond (pidfd_open pid);
  change (with_pidfd (Some fd) None) ;;
  pin ← _fd_pin fd;
  change (with_pidfd (Some fd) (Some pin)).

Definition S_ISSOCK (m : Z) : bool := Z.land m 61440 =? 49152.
Definition ELF : bytes := [127; 69; 76; 70]%N.

(** The socket in its directory. *)
Definition socket_custody : run unit :=
  d ← _io (beyond (open_directory (u SOCKET_PARENT) 448));
  change (fun l => with_peer d (socket_identity l) (peer l) (process l) l) ;;
  info ← _io (beyond (l_stat (u (socket_name k)) d));
  change (fun l => with_peer d (_custody_identity info) (peer l) (process l) l) ;;
  check (S_ISSOCK (st_mode info) && (st_uid info =? 0) && (st_gid info =? 0) && (S_IMODE (st_mode info) =? 384))
    (code k "SOCKET_CUSTODY").

(** The installed program is the one that was enrolled. *)
(* @src src/src/harness_conformance/live_proxy_server.py:3306-3311 _Broker._connect *)
Definition check_enrolment : run unit :=
  '(_, manifest, executable) ← _io (beyond (installed (manifest_of k) (executable_of k)));
  match k with
  | Observer_service =>
      reads (fun s => require_m (fld_eq (observation_binding s.2) "observer"
        (VDict [(u "manifestDigest", VStr manifest); (u "executableDigest", VStr executable)])) "OBSERVER_ENROLLMENT_MISMATCH")
  | Broker_service =>
      b ← _io (beyond broker_binding);
      lift (require_m (fld_eq b "brokerManifestDigest" (VStr manifest) <&&> fld_eq b "brokerExecutableDigest" (VStr executable))
              "BROKER_ENROLLMENT_MISMATCH") ;;
      raw ← lift (canonical_bytes b);
      change (with_binding raw)
  end.

Definition socket_path : string := String.append SOCKET_PARENT (String.append "/" (socket_name k)).

(* @src src/src/harness_conformance/live_proxy_server.py:3304-3344 _Broker._connect *)
Definition _connect : run unit :=
  check_enrolment ;;
  socket_custody ;;
  finally acquire_socket _guard ;;
  s ← given sock;
  _io (beyond (sock_private s)) ;;
  _io (beyond (sock_pass_credentials s)) ;;
  _prepare_wait ;;
  finally (beyond (sock_connect s socket_path)) _guard ;;
  p ← peer_of s;
  change (fun l => with_peer (parent l) (socket_identity l) p (process l) l) ;;
  check (match p with [pid; uid; gid] => (1 <? pid) && (uid =? 0) && (gid =? 0) | _ => false end) (code k "PEER_INVALID") ;;
  pid ← peer_pid;
  i ← identity_of pid;
  change (fun l => with_peer (parent l) (socket_identity l) (peer l) (Some i) l) ;;
  finally (acquire_pidfd pid) _guard ;;
  octets ← reads (fun s => held_octets s.2 (u (executable_of k)));
  check (startswith ELF octets) (code k "NATIVE_ELF_REQUIRED") ;;
  change (with_inspection true) ;;
  beyond (inspect_open k) ;;
  _check_peer.

(** ** Closing *)

(** [self.cleanup_failure = self.cleanup_failure or exc] *)
Definition keep_failure (r : res unit) : run unit :=
  change (fun l => with_cleanup (first_failure (cleanup_failure l) r) l).

Definition same_pin (fd : option Z) (pin : option (list Z)) : run unit :=
  match pin with
  | None => mret tt
  | Some expected =>
      fd ← lift (match fd with Some fd => Ok fd | None => Raise TypeError end);
      now ← _fd_pin fd;
      check (ints_eqb now expected) (code k "CLOSE_FD_REUSED")
  end.

Definition close_pidfd (fd : Z) (pin : option (list Z)) : run unit :=
  r ← attempt (same_pin (Some fd) pin ;; beyond (l_close fd)); keep_failure r.

Definition close_socket (s : Z) (fd : option Z) (pin : option (list Z)) : run unit :=
  r ← attempt (same_pin fd pin ;;
               (match fd with
                | None => mret tt
                | Some fd => n ← beyond (sock_fileno s); check (n =? fd) (code k "CLOSE_SOCKET_CHANGED")
                end) ;;
               beyond (sock_close s));
  keep_failure r ;;
  match r with Ok _ => mret tt | Raise _ => _ ← attempt (beyond (sock_detach s)); mret tt end.

(** What [close] does after the flag; the broker has its [api] closed before. *)
(* @src src/src/harness_conformance/live_proxy_server.py:3626-3651 _Broker.close *)
Definition close_resources : run unit :=
  inspected ← see inspecting;
  change (with_inspection false) ;;
  (if (inspected : bool) then r ← attempt (beyond (inspect_close k)); keep_failure r else mret tt) ;;
  l ← see id;
  change (fun l => with_pidfd None (pidfd_pin l) (with_socket None (socket_fd l) (socket_pin l) l)) ;;
  match pidfd l with None => mret tt | Some fd => close_pidfd fd (pidfd_pin l) end ;;
  match sock l with None => mret tt | Some s => close_socket s (socket_fd l) (socket_pin l) end.

Definition raise_cleanup : run unit := o ← see cleanup_failure; match o with Some e => throw e | None => mret tt end.

(** A closed link stays closed; the first failure of closing is raised every time. *)
(* @src src/src/harness_conformance/live_proxy_server.py:3233-3263 _Observer.close *)
Definition close_link (before : run unit) : run unit :=
  done ← see closed;
  (if (done : bool) then mret tt else change set_closed ;; before ;; close_resources) ;;
  raise_cleanup.

(** [try: self.close() except BaseException: pass] *)
Definition close_quietly (before : run unit) : run unit := _ ← attempt (close_link before); mret tt.

(** The construction after the fields are set. *)
(* @src src/src/harness_conformance/live_proxy_server.py:3294-3302 _Broker.__init__ *)
Definition establish (before : run unit) : run unit :=
  on_exception (_phase _connect) (fun _ => change set_failed ;; close_quietly before).

(* @src src/src/harness_conformance/live_proxy_server.py:3440-3442 _Broker.check *)
Definition check_link : run unit := _phase _check_peer.

(** ** A datagram each way *)

(** Passed descriptors are closed before anything is refused. *)
Definition sender (ancillary : list message) (flags : Z) : run (list Z) :=
  let '(r, passed) := credentials ancillary flags [] in
  io_fold (fun _ fd => catch (fun e => match e with OSError => true | _ => false end) (beyond (l_close fd)) (fun _ => mret tt)) tt passed ;;
  lift r.

(** The octets of a message of the peer. *)
Definition receive_message : run bytes :=
  s ← given sock;
  '(raw, ancillary, flags) ← beyond (sock_receive s);
  who ← sender ancillary flags;
  expected ← see peer;
  check (ints_eqb who expected) (code k "MESSAGE_PEER") ;;
  mret raw.

(** A message sent whole, or not known to be. *)
Definition send_message (raw : bytes) (ambiguous : string) : run unit :=
  s ← given sock; n ← beyond (sock_send s raw); check (n =? zlen raw) ambiguous.
End link.

(** ** A state next to the one the link works with *)

Section beside.
Context {X W : Type} {Si : LinkSite W}.

Definition aside {A} (m : io W A) : io (X * W) A := zoom snd (fun w s => (s.1, w)) m.

#[export] Instance link_beside : LinkSite (X * W) := {
  base_check := aside base_check;
  owner_deadline s := owner_deadline s.2;
  binding_check := aside binding_check;
  broker_binding := aside broker_binding;
  broker_octets s := broker_octets s.2;
  observation_binding s := observation_binding s.2;
  installed m e := aside (installed m e);
  open_directory p m := aside (open_directory p m);
  held_identity s := held_identity s.2;
  held_octets s := held_octets s.2;
  wall := aside wall;
  ticks := aside ticks;
  l_fstat n := aside (l_fstat n);
  l_stat p d := aside (l_stat p d);
  l_inheritable n := aside (l_inheritable n);
  l_close n := aside (l_close n);
  sock_new := aside sock_new;
  sock_fileno n := aside (sock_fileno n);
  sock_private n := aside (sock_private n);
  sock_pass_credentials n := aside (sock_pass_credentials n);
  sock_timeout n d := aside (sock_timeout n d);
  sock_connect n p := aside (sock_connect n p);
  sock_peer n := aside (sock_peer n);
  sock_send n b := aside (sock_send n b);
  sock_receive n := aside (sock_receive n);
  sock_close n := aside (sock_close n);
  sock_detach n := aside (sock_detach n);
  select_now n := aside (select_now n);
  select_for n d := aside (select_for n d);
  pidfd_open n := aside (pidfd_open n);
  proc := aside proc;
  proc_exe n := aside (proc_exe n);
  random n := aside (random n);
  inspect_open k := aside (inspect_open k);
  inspect_check k := aside (inspect_check k);
  inspect_close k := aside (inspect_close k)
}.
End beside.
