(* ===== verification/Observer.v ===== *)
(** live_proxy_server.py, [_Observer]: the client of the installed policy observer.  Each
    observation is asked for once, over the retained link, and chained to the one before. *)

From S2P Require Import Prelude Effects PyVal Utf8 Json Sha2 Canonical IsoTime Regex Text Posix.
From S2P Require Import SchemaBase Lifecycle LinuxShape Live Boundary Custody Session ProxyDocument Observation PeerLink.

#[local] Open Scope string_scope.
#[local] Open Scope list_scope.
#[local] Open Scope Z_scope.

(** ** [strftime("%Y-%m-%dT%H:%M:%SZ")], from the year 1000 on *)

(** The month and day of a day of the year, from 0. *)
Fixpoint month_and_day (fuel : nat) (y m day : Z) : Z * Z :=
  match fuel with
  | O => (m, day + 1)
  | S fuel => if day <? month_days y m then (m, day + 1) else month_and_day fuel y (m + 1) (day - month_days y m)
  end.

(** The date of a proleptic Gregorian ordinal: by cycles of 400, 100, 4 and 1 years. *)
Definition ord_to_ymd (ordinal : Z) : Z * Z * Z :=
  let n := ordinal - 1 in
  let n400 := n / 146097 in let n := n mod 146097 in
  let n100 := n / 36524 in let n := n mod 36524 in
  let n4 := n / 1461 in let n := n mod 1461 in
  let n1 := n / 365 in let n := n mod 365 in
  let year := n400 * 400 + n100 * 100 + n4 * 4 + n1 + 1 in
  if (n1 =? 4) || (n100 =? 4) then (year - 1, 12, 31)
  else let '(m, d) := month_and_day 12 year 1 n in (year, m, d).

(** A number with so many digits. *)
Definition padded (k : nat) (z : Z) : str :=
  let s := dec_Z z in repeat 48%N (k - length s) ++ s.

Definition strftime_utc (d : datetime) : str :=
  let '(y, m, day) := ord_to_ymd (instant d / day_microseconds) in
  let seconds := (instant d mod day_microseconds) / 1000000 in
  padded 4 y ++ u "-" ++ padded 2 m ++ u "-" ++ padded 2 day ++ u "T" ++
  padded 2 (seconds / 3600) ++ u ":" ++ padded 2 (seconds / 60 mod 60) ++ u ":" ++ padded 2 (seconds mod 60) ++ u "Z".

(** ** The observer *)

(** What the owner's documents add to a link: the nonce of the run and the profile. *)
Class ObserverSite (W : Type) := {
  observer_link :: LinkSite W;
  run_nonce : W -> res value;
  profile : W -> value
}.

(** The last observation, as a document and as octets. *)
Record past := { previous : option value; previous_raw : option bytes }.

(** A link, what was observed last, and the state outside. *)
(* @src src/src/harness_conformance/live_proxy_server.py:3048-3057 _Observer.__init__ *)
Definition new_observer (deadline mono : Z) : link * past :=
  (new_link deadline mono, {| previous := None; previous_raw := None |}).

Section observer.
Context {U : Unicode} {W : Type} {Si : ObserverSite W}.

Definition watching (A : Type) : Type := PeerLink.run (W := past * W) A.

Definition recall {A} (f : past -> A) : watching A := reads (fun s => Ok (f s.2.1)).
Definition owned {A} (f : W -> res A) : watching A := reads (fun s => f s.2.2).
Definition remember (p : past) : watching unit := update (fun s => (s.1, (p, s.2.2))).

(* @src src/src/harness_conformance/live_proxy_server.py:3131-3145 _Observer._phase *)
Definition observer_phase {A} (body : watching A) : watching A := _phase Observer_service body.
(* @src src/src/harness_conformance/live_proxy_server.py:3147-3152 _Observer._io *)
Definition observer_io {A} (m : watching A) : watching A := _io Observer_service m.
(* @src src/src/harness_conformance/live_proxy_server.py:3120-3129 _Observer._guard *)
Definition observer_guard : watching unit := _guard Observer_service.
(* @src src/src/harness_conformance/live_proxy_server.py:3154-3170 _Observer._prepare_wait *)
Definition observer_wait : watching unit := _prepare_wait Observer_service.
(* @src src/src/harness_conformance/live_proxy_server.py:3172-3194 _Observer._check_peer *)
Definition observer_peer : watching unit := _check_peer Observer_service.
(* @src src/src/harness_conformance/live_proxy_server.py:3069-3106 _Observer._connect *)
Definition observer_connect : watching unit := _connect Observer_service.
(* @src src/src/harness_conformance/live_proxy_server.py:3058-3067 _Observer.__init__ *)
Definition observer_establish : watching unit :=
  on_exception (observer_phase observer_connect) (fun _ => change set_failed ;; close_quietly Observer_service (mret tt)).
(* @src src/src/harness_conformance/live_proxy_server.py:3196-3198 _Observer.check *)
Definition observer_check : watching unit := observer_phase observer_peer.
(* @src src/src/harness_conformance/live_proxy_server.py:3233-3263 _Observer.close *)
Definition observer_close : watching unit := close_link Observer_service (mret tt).

Definition document_of (raw : bytes) (maximum : Z) : watching value := lift (document (Raw raw) maximum).

(** The request: the next number and the digest of the observation before. *)
(* @src src/src/harness_conformance/live_proxy_server.py:3206-3209 _Observer.observe *)
Definition observation_request (before : option value) : watching value :=
  binding ← owned (fun w => Ok (observation_binding w));
  digest ← lift (canonical_digest binding None);
  nonce ← owned run_nonce;
  challenge ← observer_io (PeerLink.beyond (random 32));
  sequence ← lift (match before with None => Ok 1 | Some p => s ← int_of p "sequence"; Ok (s + 1) end);
  link ← lift (match before with None => Ok ZERO | Some p => canonical_digest p None end);
  mret (VDict [(u "schemaVersion", VStr (u "planeon.internal.policy-observation-request/v1"));
               (u "operation", VStr (u "OBSERVE_POLICY")); (u "bindingDigest", VStr digest); (u "runNonce", nonce);
               (u "challenge", VStr (hexdigest challenge)); (u "sequence", VInt sequence);
               (u "previousObservationDigest", VStr link)]).

(** The kept document is the one that was kept as octets. *)
(* @src src/src/harness_conformance/live_proxy_server.py:3203-3205 _Observer.observe *)
Definition last_observation : watching (option value) :=
  p ← recall id;
  same ← lift (match previous p, previous_raw p with
               | None, None => Ok true
               | Some v, Some raw => b ← canonical_bytes v; Ok (str_eqb b raw)
               | Some v, None => _ ← canonical_bytes v; Ok false
               | None, Some _ => Ok false
               end);
  check same "OBSERVER_HISTORY_CHANGED" ;;
  match previous_raw p with None => mret None | Some raw => v ← document_of raw 65536; mret (Some v) end.

(** One exchange: a request sent whole, and the message that came back. *)
(* @src src/src/harness_conformance/live_proxy_server.py:3211-3224 _Observer.observe *)
Definition exchange (encoded : bytes) : watching bytes :=
  observer_peer ;;
  observer_wait ;;
  finally (send_message encoded "OBSERVER_SEND_AMBIGUOUS") observer_peer ;;
  observer_peer ;;
  observer_wait ;;
  finally (receive_message Observer_service) observer_peer.

(* @src src/src/harness_conformance/live_proxy_server.py:3200-3231 _Observer.observe *)
Definition observe : watching value :=
  observer_phase (
    observer_peer ;;
    before ← last_observation;
    request ← observation_request before;
    encoded ← lift (canonical_bytes request);
    raw ← exchange encoded;
    binding ← owned (fun w => Ok (observation_binding w));
    profile ← owned (fun w => Ok (profile w));
    now ← utc_instant;
    observed ← lift (validate_messages (Value binding) (Value request) (Raw raw) (Value profile) (VStr (strftime_utc now))
                       (Value (default VNone before)));
    observer_guard ;;
    kept ← lift (canonical_bytes observed);
    p ← recall id;
    remember {| previous := previous p; previous_raw := Some kept |} ;;
    document ← document_of kept 65536;
    remember {| previous := Some document; previous_raw := Some kept |} ;;
    document_of kept 65536).
End observer.

Example strftime_of_a_time :
  match strptime_utc (u "2024-02-29T23:59:07Z") with Ok d => strftime_utc d = u "2024-02-29T23:59:07Z" | Raise _ => False end /\
  match strptime_utc (u "2000-12-31T00:00:00Z") with Ok d => strftime_utc d = u "2000-12-31T00:00:00Z" | Raise _ => False end /\
  match strptime_utc (u "2101-01-01T12:34:56Z") with Ok d => strftime_utc d = u "2101-01-01T12:34:56Z" | Raise _ => False end.
Proof. by vm_compute. Qed.
