(* ===== verification/TlsCodec.v ===== *)
(** live_proxy_client.py, [_TLS]: the codec between the raw socket of an owner and a TLS engine that
    works on memory.  The owner's transport is checked before and after every use of the socket,
    each wait is two seconds at most, and the whole stream has one deadline. *)

From S2P Require Import Prelude Effects PyVal Utf8 Json Sha2 Canonical Base64 IsoTime Regex Text.
From S2P Require Import SchemaBase LinuxShape LinuxVerify ProxyDocument Der Http.

#[local] Open Scope string_scope.
#[local] Open Scope list_scope.
#[local] Open Scope Z_scope.

(** ** What it works with *)

(** What the engine answers: a result, or that it wants octets sent or received first. *)
Inductive engine_answer (A : Type) := Done (x : A) | Wants_write | Wants_read.
Arguments Done {A} x. Arguments Wants_write {A}. Arguments Wants_read {A}.

(** The owner's check of its transport; the clock; the socket, whose receiving may time out; the
    engine and its two buffers. *)
Class TlsSite (W : Type) := {
  transport_check : io W unit;
  t_ticks : io W Z;
  t_timeout : Z -> Z -> io W unit;
  t_send : Z -> bytes -> io W Z;
  t_receive : Z -> io W (option bytes);
  e_wrap : Z -> bool -> option value -> io W Z;
  e_handshake : Z -> io W (engine_answer unit);
  e_write : Z -> bytes -> io W (engine_answer Z);
  e_read : Z -> Z -> io W (engine_answer bytes);
  e_unwrap : Z -> io W (engine_answer unit);
  e_tls13 : Z -> W -> bool;
  e_reused : Z -> W -> bool;
  e_http11 : Z -> W -> bool;
  e_peer_certificate : Z -> io W bytes;
  e_pending : Z -> W -> Z;
  outgoing_pending : Z -> W -> Z;
  outgoing_read : Z -> io W bytes;
  incoming_write : Z -> bytes -> io W unit;
  incoming_octets : Z -> W -> Z
}.

(** A stream: its socket and its engine, the deadline, the octets received, the last reading. *)
Record tls := { t_socket : Z; t_engine : Z; t_deadline : Z; network_bytes : Z; t_last : Z }.

Section codec.
Context {U : Unicode} {W : Type} {Si : TlsSite W}.

(** The passes allowed to a loop that the peer can keep going. *)
Context (fuel : nat).

Definition run (A : Type) : Type := io (tls * W) A.
Definition beyond {A} (m : io W A) : run A := zoom snd (fun w s => (s.1, w)) m.
Definition see {A} (f : tls -> A) : run A := reads (fun s => Ok (f s.1)).
Definition with_last (t : Z) (s : tls) : tls :=
  {| t_socket := t_socket s; t_engine := t_engine s; t_deadline := t_deadline s; network_bytes := network_bytes s; t_last := t |}.
Definition received (n : Z) (s : tls) : tls :=
  {| t_socket := t_socket s; t_engine := t_engine s; t_deadline := t_deadline s; network_bytes := network_bytes s + n; t_last := t_last s |}.
Definition change (f : tls -> tls) : run unit := update (fun s => (f s.1, s.2)).

(* @src src/src/harness_conformance/live_proxy_client.py:205-213 _TLS.check *)
Definition check_stream (deadline : Z) : run unit :=
  beyond transport_check ;;
  now ← beyond t_ticks;
  s ← see id;
  let limit := Z.min deadline (t_deadline s) in
  check ((t_last s <=? now) && (now <? limit)) "TLS_DEADLINE" ;;
  change (with_last now) ;;
  beyond (t_timeout (t_socket s) (Z.min (2 * SECOND) (limit - now))).

(* @src src/src/harness_conformance/live_proxy_client.py:215-222 _TLS.network_call *)
Definition network_call {A} (m : io W A) (deadline : Z) : run A :=
  check_stream deadline ;; finally (beyond m) (check_stream deadline).

(* @src src/src/harness_conformance/live_proxy_client.py:224-234 _TLS.receive *)
Definition receive (deadline : Z) : run (option bytes) :=
  s ← see t_socket; network_call (t_receive s) deadline.

(** The octets of one buffer, each send taking some. *)
Fixpoint send_all (n : nat) (data : bytes) (deadline : Z) : run unit :=
  match data, n with
  | [], _ => mret tt
  | _, O => throw RecursionError
  | _, S n =>
      s ← see t_socket;
      k ← network_call (t_send s data) deadline;
      check ((0 <? k) && (k <=? zlen data)) "TLS_SHORT_WRITE" ;;
      send_all n (drop (Z.to_nat k) data) deadline
  end.

(* @src src/src/harness_conformance/live_proxy_client.py:236-242 _TLS.flush *)
Fixpoint flush_within (n : nat) (deadline : Z) : run unit :=
  pending ← reads (fun s => Ok (negb (outgoing_pending (t_engine s.1) s.2 =? 0)));
  if (pending : bool) then
    match n with
    | O => throw RecursionError
    | S n =>
        e ← see t_engine;
        data ← beyond (outgoing_read e);
        send_all (length data) data deadline ;;
        flush_within n deadline
    end
  else mret tt.
Definition flush (deadline : Z) : run unit := flush_within fuel deadline.

(* @src src/src/harness_conformance/live_proxy_client.py:244-263 _TLS.call *)
Fixpoint call_within {A} (n : nat) (f : io W (engine_answer A)) (deadline : Z) : run A :=
  match n with
  | O => throw RecursionError
  | S n =>
      check_stream deadline ;;
      answer ← beyond f;
      match answer with
      | Done x => flush deadline ;; check_stream deadline ;; mret x
      | Wants_write => flush deadline ;; call_within n f deadline
      | Wants_read =>
          flush deadline ;;
          data ← receive deadline;
          match data with
          | None => call_within n f deadline
          | Some data =>
              fits ← see (fun s => negb (zlen data =? 0) && (network_bytes s + zlen data <=? 8388608));
              check fits "TLS_EOF_OR_SIZE" ;;
              change (received (zlen data)) ;;
              e ← see t_engine;
              beyond (incoming_write e data) ;;
              call_within n f deadline
          end
      end
  end.
Definition call {A} (f : io W (engine_answer A)) (deadline : Z) : run A := call_within fuel f deadline.

(* @src src/src/harness_conformance/live_proxy_client.py:265-269 _TLS.handshake *)
Definition handshake (profile endpoint : value) (server : bool) : run unit :=
  s ← see id;
  now ← beyond t_ticks;
  call (e_handshake (t_engine s)) (Z.min (t_deadline s) (now + 10 * SECOND)) ;;
  ok ← reads (fun s => Ok (e_tls13 (t_engine s.1) s.2 && negb (e_reused (t_engine s.1) s.2) && e_http11 (t_engine s.1) s.2));
  check ok "TLS_PROTOCOL_INVALID" ;;
  der ← beyond (e_peer_certificate (t_engine s));
  _ ← lift (_check_certificate der profile endpoint server);
  mret tt.

(* @src src/src/harness_conformance/live_proxy_client.py:271-275 _TLS.write *)
Fixpoint write_within (n : nat) (data : bytes) : run unit :=
  match data, n with
  | [], _ => mret tt
  | _, O => throw RecursionError
  | _, S n =>
      s ← see id;
      k ← call (e_write (t_engine s) data) (t_deadline s);
      check ((0 <? k) && (k <=? zlen data)) "TLS_SHORT_WRITE" ;;
      write_within n (drop (Z.to_nat k) data)
  end.
Definition write (data : bytes) : run unit := write_within (length data) data.

(* @src src/src/harness_conformance/live_proxy_client.py:277-278 _TLS.read *)
Definition read (maximum : Z) (deadline : option Z) : run bytes :=
  s ← see id; call (e_read (t_engine s) maximum) (default (t_deadline s) deadline).

(* @src src/src/harness_conformance/live_proxy_client.py:280-286 _TLS.notify_close *)
Definition notify_close : run unit :=
  s ← see id;
  check_stream (t_deadline s) ;;
  answer ← beyond (e_unwrap (t_engine s));
  match answer with
  | Done _ | Wants_read => flush (t_deadline s)
  | Wants_write => throw OSError
  end.

(** The stream that HTTP messages are read from. *)
Definition tls_stream : Tls (tls * W) := {|
  tls_read := read;
  monotonic := beyond t_ticks;
  tls_deadline s := t_deadline s.1;
  ssl_pending s := e_pending (t_engine s.1) s.2;
  incoming_pending s := incoming_octets (t_engine s.1) s.2
|}.
(** A new stream over a socket; the state is the one outside. *)
(* @src src/src/harness_conformance/live_proxy_client.py:197-203 _TLS.__init__ *)
Definition open_stream (socket context : Z) (server_name : value) (server : bool) (deadline : Z) : io W tls :=
  engine ← e_wrap context server (if server then None else Some server_name);
  now ← t_ticks;
  mret {| t_socket := socket; t_engine := engine; t_deadline := deadline; network_bytes := 0; t_last := now |}.
End codec.
