(* ===== verification/BrokerData.v ===== *)
(** live_proxy_server.py: what a broker connection keeps of the one resource creation it carries.
    Each step of the creation is an object made once; here it is a record, absent before its step. *)

From S2P Require Import Prelude PyVal Utf8 Json Sha2 Canonical IsoTime Regex SchemaBase Session Broker Http TlsCodec.

#[local] Open Scope string_scope.
#[local] Open Scope list_scope.
#[local] Open Scope Z_scope.

(** [_BrokerStart]: the dispatch of one operation and its controlled start.  [st_started] is set
    when the frame is published, after the phase that received it. *)
Record start := {
  st_failed : bool;
  st_started : bool;
  st_operation : value;
  st_reservation : bytes;
  st_request : bytes;
  st_binding : bytes;
  st_ledger : bytes;
  st_pin : option (value * value);
  st_dispatch : bytes;
  st_frame : option bytes
}.

(** [_BrokerEvents]: what was received after the start; the snapshot of the transcript. *)
Record events := { ev_failed : bool; ev_frame : bytes; ev_snapshot : bytes }.

(** [_BrokerIntent]: the row that announces the creation, and the history before and after it. *)
Record intent := {
  in_failed : bool;
  in_committed : bool;
  in_writing : bool;
  in_advanced : bool;
  in_before : bytes;
  in_action : bytes;
  in_profile : bytes;
  in_reservation : bytes;
  in_binding : bytes;
  in_operation : value;
  in_row : bytes;
  in_after : bytes;
  in_digest : str
}.

(** The name of an internet socket: the host, the port and, in version 6, the flow and the scope. *)
Definition inet_name : Type := str * Z * list Z.

(** [_BrokerApi]: the connection to the API of the cluster. *)
Record api := {
  ap_closed : bool;
  ap_failed : bool;
  ap_ready : bool;
  ap_checking : bool;
  ap_cleanup : option exn;
  ap_sock : option Z;
  ap_socket_fd : option Z;
  ap_socket_pin : option (list Z);
  ap_memfd : option Z;
  ap_memfd_pin : option (list Z);
  ap_tls : option tls;
  ap_connected : bool;
  ap_last : Z;
  ap_action : bytes;
  ap_endpoint : bytes;
  ap_ca : bytes;
  ap_target : inet_name
}.

(** [_BrokerCreateExchange]: the request that was sent and the response. *)
Record exchange := {
  ex_failed : bool;
  ex_complete : bool;
  ex_attempted : bool;
  ex_action : bytes;
  ex_request : bytes;
  ex_response : option bytes
}.

(** [_BrokerCreated]: the row that accounts for the created object. *)
Record created := {
  cr_failed : bool;
  cr_committed : bool;
  cr_writing : bool;
  cr_advanced : bool;
  cr_before : bytes;
  cr_response : bytes;
  cr_action : bytes;
  cr_row : bytes;
  cr_after : bytes;
  cr_digest : str
}.

(** [_BrokerCreateResult]: the frame that tells the broker, and the transcript before and after it. *)
Record result := {
  re_failed : bool;
  re_complete : bool;
  re_attempted : bool;
  re_before : bytes;
  re_response : bytes;
  re_record : bytes;
  re_action : bytes;
  re_ledger : bytes;
  re_frame : bytes;
  re_after : bytes
}.

(** The types whose values are compared exactly. *)
Inductive scalar := Octets (b : bytes) | Characters (s : str) | Number (z : Z) | Flag (b : bool) | Nothing.

(** [_BrokerCreateRetirement]: the retirement of the connection once the result was sent, with the
    socket and the engine it had, and the data that may not change. *)
Record retirement := {
  rt_failed : bool;
  rt_complete : bool;
  rt_retired : bool;
  rt_advanced : bool;
  rt_socket : option Z;
  rt_engine : option Z;
  rt_data : list scalar
}.

(** The steps of a broker connection; the transcript is one object, shared by the start and the events. *)
Record steps := {
  attempted_cases : list value;
  a_start : option start;
  a_transcript : option transcript;
  a_events : option events;
  an_intent : option intent;
  an_api : option api;
  an_exchange : option exchange;
  a_created : option created;
  a_result : option result;
  a_retirement : option retirement
}.

Definition no_steps : steps :=
  {| attempted_cases := []; a_start := None; a_transcript := None; a_events := None; an_intent := None; an_api := None;
     an_exchange := None; a_created := None; a_result := None; a_retirement := None |}.
