(* ===== verification/ServerBase.v ===== *)
(** live_proxy_server.py: the state of [NativeProxyServer], the authority it was started with, its
    qualification binding, and the check of all of it that brackets every effect.  The components
    of the server work on parts of this state. *)

From S2P Require Import Prelude Effects PyVal Utf8 Json Sha2 Canonical Base64 Ed25519 IsoTime Regex Text Posix.
From S2P Require Import SchemaBase Ipaddr Lifecycle LinuxShape Live LinuxVerify Session ReplayStore Supervisor BackendAuthority Launcher.
From S2P Require Import ProxySpecs ProxyDocument MutationAdmission Observation AdmissionLedger Broker Qualification Der Http.
From S2P Require Import Boundary Custody Files Store PeerLink Observer TlsCodec BrokerData.

#[local] Open Scope string_scope.
#[local] Open Scope list_scope.
#[local] Open Scope Z_scope.

(* @src src/src/harness_conformance/live_proxy_server.py:43-43 EXECUTABLE *)
Definition EXECUTABLE : string := "/opt/planeon/bin/harness-live-proxy-serve".
(* @src src/src/harness_conformance/live_proxy_server.py:44-44 MANIFEST *)
Definition MANIFEST : string := "/etc/planeon/harness-live-proxy-manifest.json".
(* @src src/src/harness_conformance/live_proxy_server.py:45-45 PUBLIC_KEY *)
Definition PUBLIC_KEY : string := "/etc/planeon/harness-live-runner-manifest.pub".
(* @src src/src/harness_conformance/live_proxy_server.py:46-46 IDENTITY *)
Definition IDENTITY : string := "/etc/planeon/live-proxy/server-identity.pem".
(* @src src/src/harness_conformance/live_proxy_server.py:54-54 WORKER *)
Definition WORKER : string := "/opt/planeon/bin/harness-live-probe-exec".
(* @src src/src/harness_conformance/live_proxy_server.py:55-55 WORKER_MANIFEST *)
Definition WORKER_MANIFEST : string := "/etc/planeon/harness-live-probe-manifest.json".

(** ** Outside *)

(** How a TLS context is set up. *)
Record tls_configuration := {
  server_side : bool; only_version : string; certificates_required : bool; checks_host_name : bool; common_name_checks : bool;
  tickets : bool; compression : bool; key_log : bool; strict_certificates : bool; protocols : list string
}.

(** The process: whether it is the one that made the server, its machine and environment; whether
    it is the installed program with nothing around it.  The clocks.  Files, locks and memory
    files.  Sockets, the peer process, TLS contexts and engines.  The native inspections of this
    process and of the two services, and the containment check of the fixed probes, which are not part of
    the repository. *)
Class Site (W : Type) := {
  same_process : W -> bool;
  machine : W -> str;
  envelope_variable : W -> option str;
  entry_check : io W unit;
  clock_wall : io W value;
  clock_ticks : io W Z;
  k_open : option Z -> str -> opening -> io W Z;
  k_open_rw : str -> Z -> io W Z;
  k_fstat : Z -> io W full_stat;
  k_stat : option Z -> str -> io W full_stat;
  k_inheritable : Z -> io W bool;
  k_read : Z -> Z -> io W bytes;
  k_pread : Z -> Z -> io W bytes;
  k_write : Z -> bytes -> io W Z;
  k_fsync : Z -> io W unit;
  k_flock : Z -> lock_operation -> io W unit;
  k_listdir : Z -> io W (list str);
  k_close : Z -> io W unit;
  k_memfd : string -> io W Z;
  k_add_seals : Z -> Z -> io W unit;
  k_get_seals : Z -> io W Z;
  k_rewind : Z -> io W unit;
  k_random : Z -> io W bytes;
  k_unix_socket : io W Z;
  k_inet_socket : bool -> io W Z;
  k_fileno : Z -> io W Z;
  k_private : Z -> io W unit;
  k_pass_credentials : Z -> io W unit;
  k_v6_only : Z -> io W unit;
  k_timeout : Z -> Z -> io W unit;
  k_unix_connect : Z -> string -> io W unit;
  k_connect : Z -> inet_name -> io W unit;
  k_bind : Z -> inet_name -> io W unit;
  k_listen : Z -> io W unit;
  k_accept : Z -> io W (option Z);
  k_socket_name : Z -> io W (inet_name);
  k_peer_name : Z -> io W (inet_name);
  k_peer_credentials : Z -> io W bytes;
  k_send : Z -> bytes -> io W Z;
  k_receive : Z -> io W (option bytes);
  k_receive_message : Z -> io W datagram;
  k_close_socket : Z -> io W unit;
  k_detach : Z -> io W unit;
  k_select : Z -> Z -> io W (bool * bool);
  k_pidfd : Z -> io W Z;
  k_proc : io W Procfs;
  k_proc_exe : Z -> io W full_stat;
  tls_new : tls_configuration -> str -> Z -> io W Z;
  tls_wrap : Z -> bool -> option value -> io W Z;
  tls_handshake : Z -> io W (engine_answer unit);
  tls_write : Z -> bytes -> io W (engine_answer Z);
  tls_read_some : Z -> Z -> io W (engine_answer bytes);
  tls_unwrap : Z -> io W (engine_answer unit);
  tls_is_13 : Z -> W -> bool;
  tls_reused : Z -> W -> bool;
  tls_http11 : Z -> W -> bool;
  tls_certificate : Z -> io W bytes;
  tls_pending : Z -> W -> Z;
  tls_outgoing : Z -> W -> Z;
  tls_take : Z -> io W bytes;
  tls_give : Z -> bytes -> io W unit;
  tls_incoming : Z -> W -> Z;
  inspect_self_open : io W unit;
  inspect_self_check : io W unit;
  inspect_self_close : io W unit;
  inspect_peer_open : service -> io W unit;
  inspect_peer_check : service -> io W unit;
  inspect_peer_close : service -> io W unit;
  require_containment : io W unit
}.
#[export] Hint Mode Site ! : typeclass_instances.

(** ** The state *)

(** The authority of a server: what its files said when it started. *)
Record authority := {
  envelope_path : str;
  sources : bytes * bytes * bytes * bytes;
  envelope : value;
  capacity : value;
  plan : value;
  binding : value;
  the_profile : value;
  observed_binding : value;
  endpoint : value;
  ca : bytes;
  the_manifest : value;
  artifact_digest : str;
  kit_octets : kit_files;
  snapshot : bytes
}.

(** [_ServerQualificationBinding] *)
Record qualification := {
  q_closed : bool;
  q_poisoned : bool;
  q_deadline : Z;
  q_last_wall : datetime;
  q_last_mono : Z;
  q_sources : bytes * bytes * bytes * bytes;
  q_original : bytes;
  q_digests : str * str;
  q_record : bytes;
  q_broker : bytes
}.

(** The clocks of the owner. *)
Record times := { srv_wall : datetime; srv_mono : Z; srv_deadline : Z }.

(** What it serves with. *)
Record serving := {
  reserved : bool;
  reservation : value;
  active_operation : option value;
  memfd : option Z;
  context : option Z;
  target : inet_name;
  listener : option Z;
  connection : option Z;
  log_poisoned : bool
}.

(** A server: whether it is [_ACTIVE], whether it was closed, its files and its parts. *)
Record server (W : Type) := {
  is_active : bool;
  srv_closed : bool;
  srv_files : files;
  srv_secrets : files;
  srv_times : times;
  srv_authority : option authority;
  srv_qualification : option qualification;
  srv_inspecting : bool;
  srv_store : option store;
  srv_observer : option (link * past);
  srv_broker : option (link * steps);
  srv_serving : serving;
  outside : W
}.
Arguments is_active {W}. Arguments srv_closed {W}. Arguments srv_files {W}. Arguments srv_secrets {W}. Arguments srv_times {W}.
Arguments srv_authority {W}. Arguments srv_qualification {W}. Arguments srv_inspecting {W}. Arguments srv_store {W}.
Arguments srv_observer {W}. Arguments srv_broker {W}. Arguments srv_serving {W}. Arguments outside {W}.

Section fields.
Context {W : Type}.
Implicit Types s : server W.

Definition set_state (a c : bool) s : server W :=
  {| is_active := a; srv_closed := c; srv_files := srv_files s; srv_secrets := srv_secrets s; srv_times := srv_times s;
     srv_authority := srv_authority s; srv_qualification := srv_qualification s; srv_inspecting := srv_inspecting s;
     srv_store := srv_store s; srv_observer := srv_observer s; srv_broker := srv_broker s; srv_serving := srv_serving s; outside := outside s |}.
Definition set_files (f : files) s : server W :=
  {| is_active := is_active s; srv_closed := srv_closed s; srv_files := f; srv_secrets := srv_secrets s; srv_times := srv_times s;
     srv_authority := srv_authority s; srv_qualification := srv_qualification s; srv_inspecting := srv_inspecting s;
     srv_store := srv_store s; srv_observer := srv_observer s; srv_broker := srv_broker s; srv_serving := srv_serving s; outside := outside s |}.
Definition set_secrets (f : files) s : server W :=
  {| is_active := is_active s; srv_closed := srv_closed s; srv_files := srv_files s; srv_secrets := f; srv_times := srv_times s;
     srv_authority := srv_authority s; srv_qualification := srv_qualification s; srv_inspecting := srv_inspecting s;
     srv_store := srv_store s; srv_observer := srv_observer s; srv_broker := srv_broker s; srv_serving := srv_serving s; outside := outside s |}.
Definition set_times (t : times) s : server W :=
  {| is_active := is_active s; srv_closed := srv_closed s; srv_files := srv_files s; srv_secrets := srv_secrets s; srv_times := t;
     srv_authority := srv_authority s; srv_qualification := srv_qualification s; srv_inspecting := srv_inspecting s;
     srv_store := srv_store s; srv_observer := srv_observer s; srv_broker := srv_broker s; srv_serving := srv_serving s; outside := outside s |}.
Definition set_authority (a : option authority) s : server W :=
  {| is_active := is_active s; srv_closed := srv_closed s; srv_files := srv_files s; srv_secrets := srv_secrets s; srv_times := srv_times s;
     srv_authority := a; srv_qualification := srv_qualification s; srv_inspecting := srv_inspecting s;
     srv_store := srv_store s; srv_observer := srv_observer s; srv_broker := srv_broker s; srv_serving := srv_serving s; outside := outside s |}.
Definition set_qualification (q : option qualification) s : server W :=
  {| is_active := is_active s; srv_closed := srv_closed s; srv_files := srv_files s; srv_secrets := srv_secrets s; srv_times := srv_times s;
     srv_authority := srv_authority s; srv_qualification := q; srv_inspecting := srv_inspecting s;
     srv_store := srv_store s; srv_observer := srv_observer s; srv_broker := srv_broker s; srv_serving := srv_serving s; outside := outside s |}.
Definition set_inspecting (b : bool) s : server W :=
  {| is_active := is_active s; srv_closed := srv_closed s; srv_files := srv_files s; srv_secrets := srv_secrets s; srv_times := srv_times s;
     srv_authority := srv_authority s; srv_qualification := srv_qualification s; srv_inspecting := b;
     srv_store := srv_store s; srv_observer := srv_observer s; srv_broker := srv_broker s; srv_serving := srv_serving s; outside := outside s |}.
Definition set_store (o : option store) s : server W :=
  {| is_active := is_active s; srv_closed := srv_closed s; srv_files := srv_files s; srv_secrets := srv_secrets s; srv_times := srv_times s;
     srv_authority := srv_authority s; srv_qualification := srv_qualification s; srv_inspecting := srv_inspecting s;
     srv_store := o; srv_observer := srv_observer s; srv_broker := srv_broker s; srv_serving := srv_serving s; outside := outside s |}.
Definition set_observer (o : option (link * past)) s : server W :=
  {| is_active := is_active s; srv_closed := srv_closed s; srv_files := srv_files s; srv_secrets := srv_secrets s; srv_times := srv_times s;
     srv_authority := srv_authority s; srv_qualification := srv_qualification s; srv_inspecting := srv_inspecting s;
     srv_store := srv_store s; srv_observer := o; srv_broker := srv_broker s; srv_serving := srv_serving s; outside := outside s |}.
Definition set_broker (o : option (link * steps)) s : server W :=
  {| is_active := is_active s; srv_closed := srv_closed s; srv_files := srv_files s; srv_secrets := srv_secrets s; srv_times := srv_times s;
     srv_authority := srv_authority s; srv_qualification := srv_qualification s; srv_inspecting := srv_inspecting s;
     srv_store := srv_store s; srv_observer := srv_observer s; srv_broker := o; srv_serving := srv_serving s; outside := outside s |}.
Definition set_serving (v : serving) s : server W :=
  {| is_active := is_active s; srv_closed := srv_closed s; srv_files := srv_files s; srv_secrets := srv_secrets s; srv_times := srv_times s;
     srv_authority := srv_authority s; srv_qualification := srv_qualification s; srv_inspecting := srv_inspecting s;
     srv_store := srv_store s; srv_observer := srv_observer s; srv_broker := srv_broker s; srv_serving := v; outside := outside s |}.
Definition set_outside (w : W) s : server W :=
  {| is_active := is_active s; srv_closed := srv_closed s; srv_files := srv_files s; srv_secrets := srv_secrets s; srv_times := srv_times s;
     srv_authority := srv_authority s; srv_qualification := srv_qualification s; srv_inspecting := srv_inspecting s;
     srv_store := srv_store s; srv_observer := srv_observer s; srv_broker := srv_broker s; srv_serving := srv_serving s; outside := w |}.
End fields.

Section base.
Context {U : Unicode} {Sg : SigScheme} {W : Type} {Si : Site W}.

Definition run (A : Type) : Type := io (server W) A.
Definition out {A} (m : io W A) : run A := zoom outside set_outside m.

(** A run of a part of the server, next to the server; an absent part has no attributes. *)
Definition on_part {T A} (get : server W -> option T) (set : T -> server W -> server W) (m : io (T * server W) A) : run A := fun s =>
  match get s with
  | Some t => let (r, p) := m (t, s) in (r, set p.1 p.2)
  | None => (Raise AttributeError, s)
  end.

Definition wall_instant : run datetime := v ← out clock_wall; lift (LinuxShape.require_time v).

(* @src src/src/harness_conformance/live_proxy_server.py:4952-4954 NativeProxyServer._owner_check *)
Definition _owner_check : run unit :=
  ok ← reads (fun s => Ok (is_active s && negb (srv_closed s) && same_process (outside s)));
  check ok "PROXY_OWNER_INVALID".

(** ** Files *)

#[export] Instance server_files : FileSite (server W) := {
  Files.owner_check := _owner_check;
  f_open d n o := out (k_open d n o);
  f_fstat n := out (k_fstat n);
  f_stat d n := out (k_stat d n);
  f_inheritable n := out (k_inheritable n);
  f_read n k := out (k_read n k);
  f_listdir n := out (k_listdir n);
  f_close n := out (k_close n)
}.

Definition on_files {A} (m : Files.run (W := server W) A) : run A := on_part (fun s => Some (srv_files s)) set_files m.
Definition on_secrets {A} (m : Files.run (W := server W) A) : run A := on_part (fun s => Some (srv_secrets s)) set_secrets m.

Definition read_file (path : str) (digest : option value) : run bytes := on_files (Files.read path digest None 4194304).

(** The key record that the pinned digest names, and the manifest it signs. *)
Definition signing_key (raw : bytes) : res value :=
  public ← require_canonical_document raw;
  SchemaBase.closed public ["algorithm"; "publicKey"] [] ;;
  require_m (fld_lit public "algorithm" "ED25519") "PROXY_ROOT_ALGORITHM" ;;
  Ok public.
Definition signed_by (public : value) (raw signature : bytes) : res value :=
  text ← decode_ascii signature;
  signature ← b64url_decode (VStr (Launcher.strip text)) 64;
  key ← (k ← fld public "publicKey"; b64url_decode k 32);
  require_m (sig_verify key raw signature) "PROXY_MANIFEST_SIGNATURE" ;;
  v ← require_canonical_document raw;
  SchemaBase.closed v ["schemaVersion"; "launcher"; "fixedTrustMounts"; "isolation"; "preflightEvidenceDigest"] [] ;;
  Ok v.
Definition manifest_for (executable : str) (raw : bytes) : value :=
  VDict [(u "path", VStr executable); (u "version", VStr (u "0.1.0")); (u "sha256", VStr (byte_digest raw));
         (u "ownerUid", VInt 0); (u "ownerGid", VInt 0); (u "mode", VStr (u "0555"))].

(* @src src/src/harness_conformance/live_proxy_server.py:2419-2438 _manifest *)
Definition _manifest (path executable : str) : run (value * str * str) :=
  key_raw ← read_file (u PUBLIC_KEY) (Some (VStr (u PINNED_ROOT_PUBLIC_KEY_SHA256)));
  public ← lift (signing_key key_raw);
  raw ← read_file path None;
  signature ← read_file (path ++ u ".sig") None;
  v ← lift (signed_by public raw signature);
  executable_raw ← on_files (Files.read executable None (Some 365) 4194304);
  lift (require_m (fld_lit v "schemaVersion" "harness.planeon.ai/live-runner-manifest/v1alpha1" <&&>
                   fld_eq v "launcher" (manifest_for executable executable_raw) <&&>
                   fld_eq v "fixedTrustMounts" (str_list [FIXED_RELEASE_TRUST; FIXED_TENANT_TRUST]) <&&>
                   fld_eq v "isolation" expected_isolation) "PROXY_MANIFEST_INVALID" ;;
        d ← fld v "preflightEvidenceDigest"; require_digest d) ;;
  mret (v, byte_digest raw, byte_digest executable_raw).

(** ** Reading the authority *)


(** The file that a document names, with the digest it names. *)
Definition read_named (v : value) (reference digest : string) : run bytes :=
  path ← lift (text_of v reference); d ← lift (fld v digest); read_file path (Some d).

(** The envelope, authenticated before the capacity it refers to is read. *)
(* @src src/src/harness_conformance/live_proxy_server.py:4868-4874 NativeProxyServer.__init__ *)
Definition read_envelope (path : str) : run (value * (bytes * bytes * bytes * bytes)) :=
  envelope_raw ← read_file path None;
  release_trust ← read_file (u FIXED_RELEASE_TRUST) None;
  tenant_trust ← read_file (u FIXED_TENANT_TRUST) None;
  envelope ← lift (require_canonical_document envelope_raw);
  now ← out clock_wall;
  lift (_verify_reference_authority envelope release_trust tenant_trust now) ;;
  capacity_raw ← read_named envelope "capacityAuthorizationFileReference" "capacityAuthorizationDigest";
  mret (envelope, (envelope_raw, capacity_raw, release_trust, tenant_trust)).

(** The envelope and the capacity, as the backend authority verifies them. *)
Definition verified (from : bytes * bytes * bytes * bytes) (now : datetime) : res (value * value) :=
  let '(envelope_raw, capacity_raw, release_trust, tenant_trust) := from in
  '(envelope, capacity, _, _) ← verify_backend_authority envelope_raw capacity_raw release_trust tenant_trust now;
  Ok (envelope, capacity).

(** The release and its kit. *)
Definition read_release (envelope : value) : run (bytes * value * kit_files) :=
  release_raw ← read_named envelope "campaignReleaseFileReference" "campaignReleaseDigest";
  release ← lift (require_canonical_document release_raw);
  root ← lift (text_of envelope "conformanceKitRoot");
  tree ← lift (fld release "tree");
  kit ← on_files (Files.kit root tree);
  mret (release_raw, release, kit).

(** [{"x86_64": "amd64", "aarch64": "arm64"}.get(os.uname().machine)] *)
Definition architecture_of (m : str) : option str :=
  if str_eqb m (u "x86_64") then Some (u "amd64") else if str_eqb m (u "aarch64") then Some (u "arm64") else None.

Definition plan_path (architecture : str) : str := u "campaigns/platform/linux-baseline/inputs/" ++ architecture ++ u ".json".

(** The plan of this machine, and the binding of the run. *)
(* @src src/src/harness_conformance/live_proxy_server.py:4880-4886 NativeProxyServer.__init__ *)
Definition plan_and_binding (unavailable : string) (envelope : value) (from : bytes * bytes * bytes * bytes) (release_raw : bytes)
    (kit : kit_files) : run (value * value) :=
  m ← reads (fun s => Ok (machine (outside s)));
  architecture ← lift (match architecture_of m with Some a => Ok a | None => conf unavailable end);
  plan_raw ← lift (match dget (plan_path architecture) kit with Some raw => Ok raw | None => Raise KeyError end);
  plan ← lift (require_canonical_document plan_raw);
  nonce ← lift (fld envelope "nonce");
  tenant ← lift (fld envelope "tenantId");
  environment ← lift (fld envelope "environmentId");
  digest ← lift (fld envelope "campaignReleaseDigest");
  now ← out clock_wall;
  let '(envelope_raw, capacity_raw, release_trust, tenant_trust) := from in
  binding ← lift (binding_from_authority envelope_raw capacity_raw release_trust tenant_trust release_raw plan_raw
                    (VStr architecture) nonce tenant environment digest now);
  mret (plan, binding).

Definition snapshot_of (envelope capacity plan binding profile observed endpoint : value) : res bytes :=
  canonical_bytes (VList [envelope; capacity; plan; binding; profile; observed; endpoint]).
Definition own_snapshot (a : authority) : res bytes :=
  snapshot_of (envelope a) (capacity a) (plan a) (binding a) (the_profile a) (observed_binding a) (endpoint a).

Definition the_authority : run authority :=
  reads (fun s => match srv_authority s with Some a => Ok a | None => Raise AttributeError end).

(** ** The qualification binding *)

Definition digests_of (kit : kit_files) : value := VDict (map (fun kv => (kv.1, VStr (byte_digest kv.2))) kit).

(* @src src/src/harness_conformance/live_proxy_server.py:2470-2476 _ServerQualificationBinding._inputs *)
Definition _inputs (a : authority) : res bytes :=
  let '(e, c, r, t) := sources a in
  canonical_bytes (VList [VStr (envelope_path a); VList (map (fun raw => VStr (byte_digest raw)) [e; c; r; t]);
    envelope a; capacity a; plan a; binding a; the_profile a; observed_binding a; endpoint a; VStr (byte_digest (ca a));
    the_manifest a; VStr (artifact_digest a); VStr (byte_digest (snapshot a)); digests_of (kit_octets a)]).

Definition same_sources (a b : bytes * bytes * bytes * bytes) : bool :=
  let '(a1, a2, a3, a4) := a in let '(b1, b2, b3, b4) := b in
  str_eqb a1 b1 && str_eqb a2 b2 && str_eqb a3 b3 && str_eqb a4 b4.

(** The endpoints as the qualification record lists them. *)
(* @src src/src/harness_conformance/live_proxy_server.py:2505-2507 _ServerQualificationBinding._load *)
Definition endpoint_rows (envelope : value) : res value :=
  es ← (x ← fld envelope "endpoints"; py_iter x);
  rows ← map_m (fun e =>
    id ← fld e "endpointId";
    kind ← fld e "kind";
    address ← (x ← fld e "ipAddress"; ip_address x);
    ip ← fld e "ipAddress";
    port ← fld e "port";
    Ok (VDict [(u "endpointId", id); (u "kind", kind);
               (u "addressFamily", VStr (u match address with V4 _ => "IPV4" | V6 _ => "IPV6" end));
               (u "ipAddress", ip); (u "port", port)])) es;
  Ok (VList rows).

Definition installed_roles : list (string * string * string) :=
  [("SERVER", MANIFEST, EXECUTABLE); ("OBSERVER", manifest_of Observer_service, OBSERVER);
   ("BROKER", manifest_of Broker_service, BROKER); ("WORKER", WORKER_MANIFEST, WORKER)].

(** One installed program against the record: its two digests. *)
(* @src src/src/harness_conformance/live_proxy_server.py:2513-2524 _ServerQualificationBinding._load *)
Definition check_role (a : authority) (record : value) (preflight : str) (row : string * string * string) : run (string * (str * str)) :=
  let '(role, path, executable) := row in
  '(v, manifest_digest, digest) ← _manifest (u path) (u executable);
  lift (require_m (fld_eq v "preflightEvidenceDigest" (VStr preflight) <&&>
                   (r ← (rs ← fld record "roles"; fld rs role);
                    fld_eq r "executable" (VStr (u executable)) <&&> fld_eq r "artifactDigest" (VStr digest)))
          "QUALIFICATION_INSTALLED_ROLE_MISMATCH") ;;
  (if String.eqb role "SERVER" then
     check (py_eq v (the_manifest a) && str_eqb digest (artifact_digest a)) "QUALIFICATION_SERVER_SUBSTITUTION"
   else mret tt) ;;
  mret (role, (manifest_digest, digest)).

Definition role_digests (installed : list (string * (str * str))) (role : string) : str * str :=
  match List.find (fun r => String.eqb role r.1) installed with Some r => r.2 | None => ([], []) end.

(** The peers that the observations and the broker binding name are the installed ones. *)
(* @src src/src/harness_conformance/live_proxy_server.py:2525-2530 _ServerQualificationBinding._load *)
Definition peers_enrolled (observed broker : value) (installed : list (string * (str * str))) : res unit :=
  let at_role r := role_digests installed r in
  require_m (fld_eq observed "observer" (VDict [(u "manifestDigest", VStr (at_role "OBSERVER").1);
                                                (u "executableDigest", VStr (at_role "OBSERVER").2)]) <&&>
             fld_eq broker "brokerManifestDigest" (VStr (at_role "BROKER").1) <&&>
             fld_eq broker "brokerExecutableDigest" (VStr (at_role "BROKER").2) <&&>
             fld_eq broker "workerManifestDigest" (VStr (at_role "WORKER").1) <&&>
             fld_eq broker "workerArtifactDigest" (VStr (at_role "WORKER").2)) "QUALIFICATION_PEER_ENROLLMENT_MISMATCH".

(** The authority is read again, and must be the owner's. *)
(* @src src/src/harness_conformance/live_proxy_server.py:2478-2531 _ServerQualificationBinding._load *)
Definition _load (started : datetime) : run ((bytes * bytes * bytes * bytes) * bytes * bytes) :=
  a ← the_authority;
  '(first, from) ← read_envelope (envelope_path a);
  '(envelope, capacity) ← lift (verified from started);
  '(release_raw, release, kit) ← read_release envelope;
  '(plan, binding) ← plan_and_binding "QUALIFICATION_ARCHITECTURE_UNAVAILABLE" envelope from release_raw kit;
  '(profile, observed, endpoint, ca') ← lift (retained_profile envelope capacity plan release kit);
  lift (require_m (Ok (same_sources from (sources a) && sources_eqb kit (kit_octets a) && str_eqb ca' (ca a)) <&&>
                   (s ← snapshot_of envelope capacity plan binding profile observed endpoint;
                    Ok (str_eqb (snapshot a) s) <&&> (o ← own_snapshot a; Ok (str_eqb s o))))
          "QUALIFICATION_INPUT_SUBSTITUTION") ;;
  endpoints ← lift (endpoint_rows envelope);
  record ← lift (retained_qualification_record (Value profile) endpoints observed release kit);
  m ← reads (fun s => Ok (machine (outside s)));
  lift (require_m (h ← fld record "host"; fld_eq h "machine" (VStr m)) "QUALIFICATION_HOST_MISMATCH") ;;
  broker ← lift (retained_broker_binding profile observed release kit);
  preflight ← lift (match dget (u QUALIFICATION_PATH) kit with Some raw => Ok (byte_digest raw) | None => Raise KeyError end);
  installed ← io_fold (fun l row => r ← check_role a record preflight row; mret (l ++ [r])) [] installed_roles;
  lift (peers_enrolled observed broker installed) ;;
  record_raw ← lift (canonical_bytes record);
  broker_raw ← lift (canonical_bytes broker);
  mret (from, record_raw, broker_raw).

Definition the_qualification : run qualification :=
  reads (fun s => match srv_qualification s with Some q => Ok q | None => Raise AttributeError end).
Definition change_qualification (f : qualification -> qualification) : run unit :=
  update (fun s => set_qualification (f <$> srv_qualification s) s).

Definition poisoned_qualification (q : qualification) : qualification :=
  {| q_closed := q_closed q; q_poisoned := true; q_deadline := q_deadline q; q_last_wall := q_last_wall q; q_last_mono := q_last_mono q;
     q_sources := q_sources q; q_original := q_original q; q_digests := q_digests q; q_record := q_record q; q_broker := q_broker q |}.
Definition closed_qualification (q : qualification) : qualification :=
  {| q_closed := true; q_poisoned := q_poisoned q; q_deadline := q_deadline q; q_last_wall := q_last_wall q; q_last_mono := q_last_mono q;
     q_sources := q_sources q; q_original := q_original q; q_digests := q_digests q; q_record := q_record q; q_broker := q_broker q |}.
Definition timed_qualification (w : datetime) (m : Z) (q : qualification) : qualification :=
  {| q_closed := q_closed q; q_poisoned := q_poisoned q; q_deadline := q_deadline q; q_last_wall := w; q_last_mono := m;
     q_sources := q_sources q; q_original := q_original q; q_digests := q_digests q; q_record := q_record q; q_broker := q_broker q |}.

(** The validity that the qualification record states. *)
Definition record_scope (q : qualification) : res value := v ← document (Raw (q_record q)) 262144; fld v "scope".

(** The second readings: the record is still valid, and not two seconds went by. *)
(* @src src/src/harness_conformance/live_proxy_server.py:2551-2556 _ServerQualificationBinding.check *)
Definition qualification_after (q : qualification) (scope : value) (now : datetime) (before : Z) : run unit :=
  after_wall ← wall_instant;
  after ← out clock_ticks;
  lift (require_m (time_leb now after_wall <&&> (e ← proxy_time scope "expiresAt"; time_ltb after_wall e) <&&>
                   Ok ((before <=? after) && (after <? Z.min (before + 2 * SECOND) (q_deadline q))) <&&>
                   (d ← time_sub after_wall now; Ok (d <? 2 * WALL_SECOND))) "QUALIFICATION_CLOCK_OR_EXPIRY") ;;
  change_qualification (timed_qualification after_wall after).

(* @src src/src/harness_conformance/live_proxy_server.py:2533-2559 _ServerQualificationBinding.check *)
Definition qualification_check : run unit :=
  on_exception
    (q ← the_qualification;
     check (negb (q_closed q) && negb (q_poisoned q)) "QUALIFICATION_BINDING_CLOSED" ;;
     _owner_check ;;
     same ← reads (fun s => Ok (srv_deadline (srv_times s) =? q_deadline q));
     check same "QUALIFICATION_OWNER_CHANGED" ;;
     on_files check_files ;;
     now ← wall_instant;
     before ← out clock_ticks;
     lift (require_m (time_leb (q_last_wall q) now <&&> Ok ((q_last_mono q <=? before) && (before <? q_deadline q)))
             "QUALIFICATION_CLOCK_OR_EXPIRY") ;;
     _ ← lift (verified (q_sources q) now);
     a ← the_authority;
     lift (require_m (i ← _inputs a; Ok (str_eqb i (q_original q) && str_eqb q.(q_digests).1 (byte_digest (q_record q)) &&
                                         str_eqb q.(q_digests).2 (byte_digest (q_broker q)))) "QUALIFICATION_INPUT_SUBSTITUTION") ;;
     scope ← lift (record_scope q);
     lift (require_m ((b ← proxy_time scope "validFrom"; time_leb b now) <&&> (e ← proxy_time scope "expiresAt"; time_ltb now e))
             "QUALIFICATION_CLOCK_OR_EXPIRY") ;;
     on_files check_files ;;
     qualification_after q scope now before)
    (fun _ => change_qualification poisoned_qualification).

(* @src src/src/harness_conformance/live_proxy_server.py:2561-2564 _ServerQualificationBinding.record *)
Definition qualification_record : run value := qualification_check ;; q ← the_qualification; lift (document (Raw (q_record q)) 262144).
(* @src src/src/harness_conformance/live_proxy_server.py:2566-2569 _ServerQualificationBinding.broker_binding *)
Definition qualification_broker : run value := qualification_check ;; q ← the_qualification; lift (document (Raw (q_broker q)) 65536).
(* @src src/src/harness_conformance/live_proxy_server.py:2571-2572 _ServerQualificationBinding.close *)
Definition qualification_close : run unit := change_qualification closed_qualification.

(** The construction; the times of the loading are bounded before the first check. *)
(* @src src/src/harness_conformance/live_proxy_server.py:2449-2468 _ServerQualificationBinding.__init__ *)
Definition open_qualification : run unit :=
  _owner_check ;;
  unsealed ← reads (fun s => Ok (negb (Files.sealed (srv_files s))));
  check unsealed "QUALIFICATION_OWNER_INVALID" ;;
  deadline ← reads (fun s => Ok (srv_deadline (srv_times s)));
  started ← wall_instant;
  before ← out clock_ticks;
  on_exception
    ('(from, record_raw, broker_raw) ← _load started;
     now ← out clock_ticks;
     lift (require ((before <=? now) && (now <? Z.min (before + 2 * SECOND) deadline)) "QUALIFICATION_LOAD_DEADLINE") ;;
     at_wall ← wall_instant;
     lift (require_m (d ← time_sub at_wall started; Ok ((0 <=? d) && (d <? 2 * WALL_SECOND))) "QUALIFICATION_LOAD_DEADLINE") ;;
     a ← the_authority;
     original ← lift (_inputs a);
     update (set_qualification (Some
       {| q_closed := false; q_poisoned := false; q_deadline := deadline; q_last_wall := started; q_last_mono := before; q_sources := from;
          q_original := original; q_digests := (byte_digest record_raw, byte_digest broker_raw); q_record := record_raw; q_broker := broker_raw |})) ;;
     qualification_check)
    (fun _ => change_qualification poisoned_qualification).

(** ** The base check *)

(* @src src/src/harness_conformance/live_proxy_server.py:4956-4972 NativeProxyServer._base_check *)
Definition _base_check : run unit :=
  _owner_check ;;
  on_files check_files ;;
  on_secrets check_files ;;
  now ← wall_instant;
  mono ← out clock_ticks;
  t ← reads (fun s => Ok (srv_times s));
  a ← the_authority;
  lift (require_m (time_leb (srv_wall t) now <&&> Ok ((srv_mono t <=? mono) && (mono <? srv_deadline t)) <&&>
                   (scope ← fld (the_profile a) "binding";
                    (b ← proxy_time scope "validFrom"; time_leb b now) <&&> (e ← proxy_time scope "expiresAt"; time_ltb now e)))
          "PROXY_CLOCK_OR_EXPIRY") ;;
  update (set_times {| srv_wall := now; srv_mono := mono; srv_deadline := srv_deadline t |}) ;;
  '(e, c) ← lift (verified (sources a) now);
  lift (require_m (Ok (py_eq e (envelope a) && py_eq c (capacity a)) <&&> (s ← own_snapshot a; Ok (str_eqb (snapshot a) s)))
          "PROXY_AUTHORITY_CHANGED") ;;
  qualification_check ;;
  out inspect_self_check ;;
  out require_containment.

(** ** TLS contexts *)

(* @src src/src/harness_conformance/live_proxy_client.py:177-187 tls_context *)
Definition configuration (server : bool) : tls_configuration :=
  {| server_side := server; only_version := "TLSv1.3"; certificates_required := true; checks_host_name := negb server;
     common_name_checks := false; tickets := false; compression := false; key_log := false; strict_certificates := true;
     protocols := ["http/1.1"] |}.

(** The certificates, which hold no key, as the text that is loaded; the key is in a memory file. *)
(* @src src/src/harness_conformance/live_proxy_client.py:188-190 tls_context *)
Definition context_text (ca : bytes) (memfd : Z) : res str :=
  require (negb (substr_in (u "PRIVATE KEY") ca) && (2 <? memfd)) "TLS_CUSTODY_REQUIRED" ;; decode_ascii ca.

(** The key is loaded from the memory file, without asking for a password. *)
(* @src src/src/harness_conformance/live_proxy_client.py:174-192 tls_context *)
Definition tls_context (ca : bytes) (memfd : Z) (server : bool) : run Z :=
  text ← lift (context_text ca memfd); out (tls_new (configuration server) text memfd).

(** A memory file takes the octets in parts. *)
Definition SEALS : Z := 15.

(** ** The parts *)

Definition held_row (s : server W) (path : str) : res (list Z) :=
  match dget path (Files.rows (srv_files s)) with
  | Some row => match Files.identity row with Some i => Ok i | None => Raise TypeError end
  | None => Raise KeyError
  end.

#[export] Instance server_store : StoreSite (server W) := {
  Store.owner_check := _owner_check;
  files_check := on_files check_files;
  files_open p m := on_files (Files._open p true m false);
  s_open n d := out (k_open_rw n d);
  s_fstat n := out (k_fstat n);
  s_stat n d := out (k_stat (Some d) n);
  s_flock n o := out (k_flock n o);
  s_pread n k := out (k_pread n k);
  s_write n b := out (k_write n b);
  s_fsync n := out (k_fsync n);
  s_close n := out (k_close n)
}.

#[export] Instance server_link : LinkSite (server W) := {
  base_check := _base_check;
  owner_deadline s := srv_deadline (srv_times s);
  binding_check := qualification_check;
  broker_binding := qualification_broker;
  broker_octets s := match srv_qualification s with Some q => q_broker q | None => [] end;
  observation_binding s := match srv_authority s with Some a => observed_binding a | None => VNone end;
  installed m e := _manifest (u m) (u e);
  open_directory p m := on_files (Files._open p true (Some m) false);
  held_identity := held_row;
  held_octets s p := match dget p (Files.raw (srv_files s)) with Some b => Ok b | None => Raise KeyError end;
  wall := out clock_wall;
  ticks := out clock_ticks;
  l_fstat n := out (k_fstat n);
  l_stat n d := out (k_stat (Some d) n);
  l_inheritable n := out (k_inheritable n);
  l_close n := out (k_close n);
  sock_new := out k_unix_socket;
  sock_fileno n := out (k_fileno n);
  sock_private n := out (k_private n);
  sock_pass_credentials n := out (k_pass_credentials n);
  sock_timeout n d := out (k_timeout n d);
  sock_connect n p := out (k_unix_connect n p);
  sock_peer n := out (k_peer_credentials n);
  sock_send n b := out (k_send n b);
  sock_receive n := out (k_receive_message n);
  sock_close n := out (k_close_socket n);
  sock_detach n := out (k_detach n);
  select_now n := out (k_select n 0);
  select_for n d := out (k_select n d);
  pidfd_open n := out (k_pidfd n);
  proc := out k_proc;
  proc_exe n := out (k_proc_exe n);
  random n := out (k_random n);
  inspect_open k := out (inspect_peer_open k);
  inspect_check k := out (inspect_peer_check k);
  inspect_close k := out (inspect_peer_close k)
}.

#[export] Instance server_observer : ObserverSite (server W) := {
  observer_link := server_link;
  run_nonce s := match srv_authority s with Some a => fld (envelope a) "nonce" | None => Raise AttributeError end;
  profile s := match srv_authority s with Some a => the_profile a | None => VNone end
}.

Definition on_store {A} (m : Store.run (W := server W) A) : run A := on_part srv_store (fun t => set_store (Some t)) m.

(** A run of the admission log over the store. *)
Definition on_log {A} (m : io (journal (store * server W)) A) : run A :=
  poisoned ← reads (fun s => Ok (log_poisoned (srv_serving s)));
  '(r, p) ← on_store (fun s => let (r, j) := m (Journal s poisoned) in (Ok (r, ReplayStore.poisoned j), storage j));
  update (fun s => let v := srv_serving s in
    set_serving {| reserved := reserved v; reservation := reservation v; active_operation := active_operation v; memfd := memfd v;
                   context := context v; target := target v; listener := listener v; connection := connection v;
                   log_poisoned := p |} s) ;;
  lift r.

(** A run of the observer; its past goes along. *)
Definition on_observer {A} (m : watching (W := server W) A) : run A := fun s =>
  match srv_observer s with
  | Some (l, p) => let '(r, (l', (p', s'))) := m (l, (p, s)) in (r, set_observer (Some (l', p')) s')
  | None => (Raise AttributeError, s)
  end.

(** A run of the broker; its steps go along. *)
Definition on_broker {A} (m : PeerLink.run (W := steps * server W) A) : run A := fun s =>
  match srv_broker s with
  | Some (l, p) => let '(r, (l', (p', s'))) := m (l, (p, s)) in (r, set_broker (Some (l', p')) s')
  | None => (Raise AttributeError, s)
  end.
End base.
