(* ===== verification/BrokerStart.v ===== *)
(** live_proxy_server.py, [_BrokerStart] and [_BrokerEvents]: the one dispatch of an operation that is
    recorded as running, its controlled start, and what the broker sends after it. *)

From S2P Require Import Prelude Effects PyVal Utf8 Json Sha2 Canonical Base64 Ed25519 IsoTime Regex Text Posix.
From S2P Require Import SchemaBase Ipaddr Lifecycle LinuxShape Live LinuxVerify Session ReplayStore Supervisor BackendAuthority Launcher.
From S2P Require Import ProxySpecs ProxyDocument MutationAdmission Observation AdmissionLedger Broker Qualification Der Http.
From S2P Require Import Boundary Custody Files Store PeerLink Observer TlsCodec BrokerData ServerBase.

#[local] Open Scope string_scope.
#[local] Open Scope list_scope.
#[local] Open Scope Z_scope.

(** ** Changes of the steps *)

Section changes.
Implicit Types p : steps.
Definition set_start (o : option start) p : steps :=
  {| attempted_cases := attempted_cases p; a_start := o; a_transcript := a_transcript p; a_events := a_events p; an_intent := an_intent p;
     an_api := an_api p; an_exchange := an_exchange p; a_created := a_created p; a_result := a_result p; a_retirement := a_retirement p |}.
Definition set_attempted (l : list value) p : steps :=
  {| attempted_cases := l; a_start := a_start p; a_transcript := a_transcript p; a_events := a_events p; an_intent := an_intent p;
     an_api := an_api p; an_exchange := an_exchange p; a_created := a_created p; a_result := a_result p; a_retirement := a_retirement p |}.
Definition set_transcript (o : option transcript) p : steps :=
  {| attempted_cases := attempted_cases p; a_start := a_start p; a_transcript := o; a_events := a_events p; an_intent := an_intent p;
     an_api := an_api p; an_exchange := an_exchange p; a_created := a_created p; a_result := a_result p; a_retirement := a_retirement p |}.
Definition set_events (o : option events) p : steps :=
  {| attempted_cases := attempted_cases p; a_start := a_start p; a_transcript := a_transcript p; a_events := o; an_intent := an_intent p;
     an_api := an_api p; an_exchange := an_exchange p; a_created := a_created p; a_result := a_result p; a_retirement := a_retirement p |}.
Definition set_intent (o : option intent) p : steps :=
  {| attempted_cases := attempted_cases p; a_start := a_start p; a_transcript := a_transcript p; a_events := a_events p; an_intent := o;
     an_api := an_api p; an_exchange := an_exchange p; a_created := a_created p; a_result := a_result p; a_retirement := a_retirement p |}.
Definition set_api (o : option api) p : steps :=
  {| attempted_cases := attempted_cases p; a_start := a_start p; a_transcript := a_transcript p; a_events := a_events p;
     an_intent := an_intent p; an_api := o; an_exchange := an_exchange p; a_created := a_created p; a_result := a_result p;
     a_retirement := a_retirement p |}.
Definition set_exchange (o : option exchange) p : steps :=
  {| attempted_cases := attempted_cases p; a_start := a_start p; a_transcript := a_transcript p; a_events := a_events p;
     an_intent := an_intent p; an_api := an_api p; an_exchange := o; a_created := a_created p; a_result := a_result p;
     a_retirement := a_retirement p |}.
Definition set_created (o : option created) p : steps :=
  {| attempted_cases := attempted_cases p; a_start := a_start p; a_transcript := a_transcript p; a_events := a_events p;
     an_intent := an_intent p; an_api := an_api p; an_exchange := an_exchange p; a_created := o; a_result := a_result p;
     a_retirement := a_retirement p |}.
Definition set_result (o : option result) p : steps :=
  {| attempted_cases := attempted_cases p; a_start := a_start p; a_transcript := a_transcript p; a_events := a_events p;
     an_intent := an_intent p; an_api := an_api p; an_exchange := an_exchange p; a_created := a_created p; a_result := o;
     a_retirement := a_retirement p |}.
Definition set_retirement (o : option retirement) p : steps :=
  {| attempted_cases := attempted_cases p; a_start := a_start p; a_transcript := a_transcript p; a_events := a_events p;
     an_intent := an_intent p; an_api := an_api p; an_exchange := an_exchange p; a_created := a_created p; a_result := a_result p;
     a_retirement := o |}.
End changes.

Definition change_start (f : start -> start) (p : steps) : steps := set_start (f <$> a_start p) p.
Definition change_events (f : events -> events) (p : steps) : steps := set_events (f <$> a_events p) p.

Definition blank_start : start :=
  {| st_failed := false; st_started := false; st_operation := VNone; st_reservation := []; st_request := []; st_binding := [];
     st_ledger := []; st_pin := None; st_dispatch := []; st_frame := None |}.
Definition bound_start (operation : value) (reservation request binding : bytes) (t : start) : start :=
  {| st_failed := st_failed t; st_started := st_started t; st_operation := operation; st_reservation := reservation; st_request := request;
     st_binding := binding; st_ledger := st_ledger t; st_pin := st_pin t; st_dispatch := st_dispatch t; st_frame := st_frame t |}.
Definition failed_start (t : start) : start :=
  {| st_failed := true; st_started := st_started t; st_operation := st_operation t; st_reservation := st_reservation t;
     st_request := st_request t; st_binding := st_binding t; st_ledger := st_ledger t; st_pin := st_pin t; st_dispatch := st_dispatch t;
     st_frame := st_frame t |}.
Definition published_start (t : start) : start :=
  {| st_failed := st_failed t; st_started := true; st_operation := st_operation t; st_reservation := st_reservation t;
     st_request := st_request t; st_binding := st_binding t; st_ledger := st_ledger t; st_pin := st_pin t; st_dispatch := st_dispatch t;
     st_frame := st_frame t |}.
Definition start_ledger (b : bytes) (t : start) : start :=
  {| st_failed := st_failed t; st_started := st_started t; st_operation := st_operation t; st_reservation := st_reservation t;
     st_request := st_request t; st_binding := st_binding t; st_ledger := b; st_pin := st_pin t; st_dispatch := st_dispatch t;
     st_frame := st_frame t |}.
Definition start_pin (o : option (value * value)) (t : start) : start :=
  {| st_failed := st_failed t; st_started := st_started t; st_operation := st_operation t; st_reservation := st_reservation t;
     st_request := st_request t; st_binding := st_binding t; st_ledger := st_ledger t; st_pin := o; st_dispatch := st_dispatch t;
     st_frame := st_frame t |}.
Definition start_dispatch (b : bytes) (t : start) : start :=
  {| st_failed := st_failed t; st_started := st_started t; st_operation := st_operation t; st_reservation := st_reservation t;
     st_request := st_request t; st_binding := st_binding t; st_ledger := st_ledger t; st_pin := st_pin t; st_dispatch := b;
     st_frame := st_frame t |}.
Definition start_frame (b : bytes) (t : start) : start :=
  {| st_failed := st_failed t; st_started := st_started t; st_operation := st_operation t; st_reservation := st_reservation t;
     st_request := st_request t; st_binding := st_binding t; st_ledger := st_ledger t; st_pin := st_pin t; st_dispatch := st_dispatch t;
     st_frame := Some b |}.

(** ** Snapshots *)

Fixpoint insert_int (z : Z) (l : list Z) : list Z :=
  match l with [] => [z] | y :: l' => if z <=? y then z :: l else y :: insert_int z l' end.
Definition sorted_ints (l : list Z) : list Z := foldr insert_int [] l.

Section broking.
Context {U : Unicode} {Sg : SigScheme} {W : Type} {Si : Site W}.

(** [_BrokerEvents._snapshot]: the whole transcript as canonical octets. *)
(* @src src/src/harness_conformance/live_proxy_server.py:3812-3823 _BrokerEvents._snapshot *)
Definition _snapshot (t : transcript) : res bytes :=
  let p := at_place t in
  let d := done_so_far t in
  numbers ← map_m (fun v => match v with VInt z => Ok z | _ => conf "BROKER_TRANSCRIPT_STATE" end) (actions d);
  let optional (o : option value) := default VNone o in
  canonical_bytes (VDict [(u "binding", Broker.binding t); (u "dispatch", Broker.dispatch t); (u "sequence", VInt (sequence p));
    (u "previous", VStr (Broker.previous p)); (u "execution", optional (execution p)); (u "pending", optional (pending d));
    (u "cleanup", optional (Broker.cleanup d)); (u "terminal", optional (Broker.terminal d));
    (u "actions", VList (map VInt (sorted_ints numbers)));
    (u "chunks", VList (map (fun c => VDict [(u "size", VInt (zlen c)); (u "sha256", VStr (byte_digest c))]) (chunks d)));
    (u "receipt_size", VInt (receipt_size d)); (u "failed_action", VBool (failed_action d)); (u "poisoned", VBool (Broker.poisoned t))]).

(** ** Runs of a broker *)

Definition broking (A : Type) : Type := PeerLink.run (W := steps * server W) A.

Definition owner {A} (m : ServerBase.run (W := W) A) : broking A := PeerLink.beyond (aside m).
Definition kept {A} (f : steps -> A) : broking A := reads (fun s => Ok (f s.2.1)).
Definition keep (f : steps -> steps) : broking unit := update (fun s => (s.1, (f s.2.1, s.2.2))).
(** A step, which has no attributes when it is absent. *)
Definition step {A} (f : steps -> option A) : broking A :=
  reads (fun s => match f s.2.1 with Some x => Ok x | None => Raise AttributeError end).
Definition bio {A} (m : broking A) : broking A := _io Broker_service m.
Definition broker_guard : broking unit := _guard Broker_service.
Definition broker_peer : broking unit := _check_peer Broker_service.
Definition broker_wait : broking unit := _prepare_wait Broker_service.
Definition broker_phase {A} (m : broking A) : broking A := _phase Broker_service m.
Definition now_instant : broking datetime := utc_instant.
Definition own_authority : broking authority := owner the_authority.
Definition read_history : broking bytes := bio (owner (on_store read_store)).
(** An argument that is computed first, and refuses with the code when it is [False]. *)
Definition demand (c : res bool) (code : string) : broking unit := lift (require_m c code).

(** ** The start *)

(* @src src/src/harness_conformance/live_proxy_server.py:3734-3741 _BrokerStart._owner_check *)
Definition start_owner_check : broking unit :=
  t ← step a_start;
  check (negb (st_failed t)) "BROKER_START_OWNER_CHANGED" ;;
  broker_guard.

(** What the dispatch was bound to is what the owner has now. *)
Definition start_bound (t : start) (s : server W) (binding : option bytes) : res bool :=
  match srv_store s, srv_observer s, srv_authority s with
  | Some _, Some _, Some a =>
      let v := srv_serving s in
      if negb (log_poisoned v) && reserved v && Files.sealed (srv_files s) && py_eq (default VNone (active_operation v)) (st_operation t) then
        (r ← canonical_bytes (reservation v); Ok (str_eqb r (st_reservation t))) <&&>
        (b ← admission_binding (envelope a) (capacity a) (the_profile a); r ← canonical_bytes b; Ok (str_eqb r (st_reservation t))) <&&>
        (q ← build_probe_request (envelope a) (capacity a) (plan a) (st_operation t); r ← canonical_bytes q; Ok (str_eqb r (st_request t))) <&&>
        Ok (match binding with Some b => str_eqb b (st_binding t) | None => false end)
      else Ok false
  | _, _, _ => Ok false
  end.

(* @src src/src/harness_conformance/live_proxy_server.py:3743-3755 _BrokerStart._state_check *)
Definition start_state_check : broking unit :=
  start_owner_check ;;
  t ← step a_start;
  reads (fun s => require_m (start_bound t s.2.2 (binding_raw s.1)) "BROKER_START_STATE_CHANGED") ;;
  history ← read_history;
  check (str_eqb history (st_ledger t)) "BROKER_RUNNING_CHANGED".

(** The observation is the one the observer keeps, of this run. *)
(* @src src/src/harness_conformance/live_proxy_server.py:3765-3768 _BrokerStart._check *)
Definition observation_bound (observed : value) (s : server W) : res bool :=
  match srv_observer s, srv_authority s with
  | Some (_, p), Some a =>
      if is_dict observed then
        (b ← canonical_bytes observed; Ok (match Observer.previous_raw p with Some raw => str_eqb raw b | None => false end)) <&&>
        (v ← canonical_bytes (default VNone (Observer.previous p));
         Ok (match Observer.previous_raw p with Some raw => str_eqb v raw | None => false end)) <&&>
        (d ← canonical_digest (observed_binding a) None; fld_eq observed "bindingDigest" (VStr d)) <&&>
        (n ← fld (envelope a) "nonce"; fld_eq observed "runNonce" n)
      else Ok false
  | _, _ => Raise AttributeError
  end.

(** It is current, for five seconds at most. *)
(* @src src/src/harness_conformance/live_proxy_server.py:3771-3772 _BrokerStart._check *)
Definition observation_fresh (observed : value) (now : datetime) : res bool :=
  start ← proxy_time observed "observedAt";
  stop ← proxy_time observed "expiresAt";
  time_leb start now <&&> time_ltb now stop <&&> (d ← time_sub stop start; Ok ((0 <? d) && (d <=? 5 * WALL_SECOND))).

Definition same_pin (a : value * value) (o : option (value * value)) : bool :=
  match o with None => true | Some b => py_eq b.1 a.1 && py_eq b.2 a.2 end.

(* @src src/src/harness_conformance/live_proxy_server.py:3757-3778 _BrokerStart._check *)
Definition start_check : broking value :=
  start_state_check ;;
  broker_peer ;;
  observed ← finally (owner (on_observer observe)) broker_peer;
  reads (fun s => require_m (observation_bound observed s.2.2) "BROKER_OBSERVATION_BINDING") ;;
  now ← now_instant;
  demand (observation_fresh observed now) "BROKER_OBSERVATION_EXPIRED" ;;
  boot ← lift (fld observed "observerBootId");
  generation ← lift (fld observed "generation");
  t ← step a_start;
  check (same_pin (boot, generation) (st_pin t)) "BROKER_GENERATION_CHANGED" ;;
  keep (change_start (start_pin (Some (boot, generation)))) ;;
  start_state_check ;;
  mret observed.

(** The run of the history, with the operation in progress. *)
(* @src src/src/harness_conformance/live_proxy_server.py:3686-3688 _BrokerStart.__init__ *)
Definition running_run (a : authority) (t : start) (history : bytes) : res AdmissionLedger.reservation :=
  states ← parse_reservations history;
  tenant ← text_of (envelope a) "tenantId";
  nonce ← text_of (envelope a) "nonce";
  match run_get (tenant, nonce) (runs states) with
  | None => conf "BROKER_RUNNING_REQUIRED"
  | Some r => require (py_eq (current r) (st_operation t) && held r) "BROKER_RUNNING_REQUIRED" ;; Ok r
  end.

(** Its last row says that the operation is running, and nothing else. *)
(* @src src/src/harness_conformance/live_proxy_server.py:3689-3694 _BrokerStart.__init__ *)
Definition running_row (t : start) (history : bytes) (r : AdmissionLedger.reservation) (now : datetime) : res unit :=
  require_m (time_leb (last_instant r) now <&&> (b ← canonical_bytes (r_binding r); Ok (str_eqb b (st_reservation t))))
    "BROKER_RUNNING_REQUIRED" ;;
  line ← match last (map strip_eol (splitlines history)) with Some l => Ok l | None => Raise IndexError end;
  row ← document (Raw line) 32768;
  require_m (fld_lit row "state" "RUNNING" <&&> fld_eq row "operation" (st_operation t) <&&>
             (c ← fld row "cleanup"; Ok (is_none c)) <&&>
             (b ← fld row "binding"; raw ← canonical_bytes b; Ok (str_eqb raw (st_reservation t)))) "BROKER_RUNNING_REQUIRED".

(* @src src/src/harness_conformance/live_proxy_server.py:3699-3705 _BrokerStart.__init__ *)
Definition dispatch_of (a : authority) (t : start) (observed : value) (challenge : bytes) : res bytes :=
  nonce ← fld (envelope a) "nonce";
  digest ← canonical_digest observed None;
  generation ← fld observed "generation";
  v ← broker_document (Value (VDict [(u "schemaVersion", VStr (u "planeon.internal.broker-dispatch/v1"));
    (u "operation", VStr (u "EXECUTE_FIXED_PROBE")); (u "bindingDigest", VStr (byte_digest (st_binding t)));
    (u "reservationDigest", VStr (byte_digest (st_reservation t))); (u "runNonce", nonce); (u "caseId", st_operation t);
    (u "requestDigest", VStr (byte_digest (st_request t))); (u "observationDigest", VStr digest); (u "generation", generation);
    (u "challenge", VStr (hexdigest challenge))])) "dispatch";
  canonical_bytes v.

(** The operation of the owner, not attempted before, with the documents it is bound to. *)
(* @src src/src/harness_conformance/live_proxy_server.py:3669-3683 _BrokerStart.__init__ *)
Definition bind_start : broking unit :=
  start_owner_check ;;
  present ← reads (fun s => Ok (match srv_store s.2.2, srv_observer s.2.2 with Some _, Some _ => true | _, _ => false end));
  check present "BROKER_START_PREREQUISITES" ;;
  operation ← reads (fun s => Ok (default VNone (active_operation (srv_serving s.2.2))));
  attempted ← kept attempted_cases;
  check (is_str operation && in_lits operation CASES && negb (in_values operation attempted)) "BROKER_DISPATCH_REPLAY" ;;
  a ← own_authority;
  reservation ← lift (b ← admission_binding (envelope a) (capacity a) (the_profile a); canonical_bytes b);
  request ← lift (q ← build_probe_request (envelope a) (capacity a) (plan a) operation; canonical_bytes q);
  binding ← PeerLink.see binding_raw;
  keep (change_start (bound_start operation reservation request (default [] binding))).

(** The dispatch is sent once; the case counts as attempted from before the sending. *)
(* @src src/src/harness_conformance/live_proxy_server.py:3707-3713 _BrokerStart.__init__ *)
Definition send_dispatch : broking unit :=
  t ← step a_start;
  broker_wait ;;
  keep (fun p => set_attempted (attempted_cases p ++ [st_operation t]) p) ;;
  finally (send_message (st_dispatch t) "BROKER_SEND_AMBIGUOUS") (_ ← start_check; mret tt).

(** The frame that answers it, which must start the execution. *)
(* @src src/src/harness_conformance/live_proxy_server.py:3714-3729 _BrokerStart.__init__ *)
Definition receive_start : broking unit :=
  _ ← start_check;
  broker_wait ;;
  raw ← finally (receive_message Broker_service) (_ ← start_check; mret tt);
  t ← step a_start;
  opened ← lift (open_transcript (Raw (st_binding t)) (Raw (st_dispatch t)));
  let '(r, transcript) := accept (Raw raw) "BROKER" opened in
  frame ← lift r;
  demand (fld_lit frame "kind" "STARTED") "BROKER_CONTROLLED_START_REQUIRED" ;;
  _ ← start_check;
  keep (set_transcript (Some transcript)) ;;
  octets ← lift (canonical_bytes frame);
  keep (change_start (start_frame octets)).

(* @src src/src/harness_conformance/live_proxy_server.py:3663-3732 _BrokerStart.__init__ *)
Definition new_start : broking unit :=
  on_exception
    (bind_start ;;
     broker_peer ;;
     history ← read_history;
     keep (change_start (start_ledger history)) ;;
     a ← own_authority;
     t ← step a_start;
     r ← lift (running_run a t history);
     now ← now_instant;
     lift (running_row t history r now) ;;
     observed ← start_check;
     challenge ← bio (PeerLink.beyond (random 32));
     check (zlen challenge =? 32) "BROKER_CHALLENGE_INVALID" ;;
     dispatch ← lift (dispatch_of a t observed challenge);
     keep (change_start (start_dispatch dispatch)) ;;
     _ ← start_check;
     send_dispatch ;;
     receive_start)
    (fun _ => keep (change_start failed_start)).

(** ** The events *)

Definition failed_events (e : events) : events := {| ev_failed := true; ev_frame := ev_frame e; ev_snapshot := ev_snapshot e |}.
Definition events_snapshot (b : bytes) (e : events) : events :=
  {| ev_failed := ev_failed e; ev_frame := ev_frame e; ev_snapshot := b |}.
Definition blank_events : events := {| ev_failed := false; ev_frame := []; ev_snapshot := [] |}.

(** The frame of a start that was published. *)
Definition started_frame (t : start) : res bytes :=
  match st_frame t with
  | Some raw => if st_started t then Ok raw else conf "BROKER_STARTED_REQUIRED"
  | None => conf "BROKER_STARTED_REQUIRED"
  end.

Definition snapshot_now : broking bytes := t ← step a_transcript; lift (_snapshot t).

(* @src src/src/harness_conformance/live_proxy_server.py:3825-3840 _BrokerEvents._state_check *)
Definition events_state_check : broking unit :=
  e ← step a_events;
  t ← step a_start;
  same ← reads (fun s => Ok (negb (ev_failed e) && negb (st_failed t) && st_started t &&
                             match st_frame t with Some raw => str_eqb raw (ev_frame e) | None => false end &&
                             (PeerLink.deadline s.1 =? srv_deadline (srv_times s.2.2)) &&
                             match a_transcript s.2.1 with Some _ => true | None => false end));
  check same "BROKER_EVENTS_OWNER_CHANGED" ;;
  broker_guard ;;
  now ← snapshot_now;
  tr ← step a_transcript;
  check (str_eqb now (ev_snapshot e) && negb (Broker.poisoned tr)) "BROKER_TRANSCRIPT_CHANGED".

(* @src src/src/harness_conformance/live_proxy_server.py:3842-3845 _BrokerEvents._check *)
Definition events_check : broking unit := events_state_check ;; _ ← start_check; events_state_check.

(** Only the started frame was received: the transcript is the one it opens. *)
(* @src src/src/harness_conformance/live_proxy_server.py:3788-3810 _BrokerEvents.__init__ *)
Definition new_events : broking unit :=
  on_exception
    (t ← reads (fun s => match a_start s.2.1 with Some t => Ok t | None => conf "BROKER_STARTED_REQUIRED" end);
     frame ← lift (started_frame t);
     _ ← reads (fun s => match a_transcript s.2.1 with Some t => Ok t | None => conf "BROKER_TRANSCRIPT_OWNER" end);
     opened ← lift (open_transcript (Raw (st_binding t)) (Raw (st_dispatch t)));
     let '(r, expected) := accept (Raw frame) "BROKER" opened in
     _ ← lift r;
     snapshot ← lift (_snapshot expected);
     keep (set_events (Some {| ev_failed := false; ev_frame := frame; ev_snapshot := snapshot |})) ;;
     events_check)
    (fun _ => keep (change_events failed_events)).

(** A frame is accepted into the transcript that the steps share. *)
Definition accept_into (raw : bytes) (sender : string) : broking value :=
  t ← step a_transcript;
  let '(r, t') := accept (Raw raw) sender t in
  keep (set_transcript (Some t')) ;;
  lift r.

(** The frames that may come. *)
(* @src src/src/harness_conformance/live_proxy_server.py:3878-3883 _BrokerEvents.receive *)
Definition check_frame (raw : bytes) (t : transcript) : res value :=
  frame ← broker_document (Raw raw) "frame";
  kind ← fld frame "kind";
  require (in_lits kind ["RESOURCE_ACTION"; "RECEIPT_CHUNK"]) "BROKER_INBOUND_KIND_UNAVAILABLE" ;;
  (if eq_lit kind "RESOURCE_ACTION" then require (zlen raw <=? 16384) "BROKER_ACTION_SIZE"
   else require (zlen (chunks (done_so_far t)) <? 171) "BROKER_RECEIPT_CHUNK_LIMIT") ;;
  Ok frame.

(** Nothing is pending, and the execution goes on. *)
(* @src src/src/harness_conformance/live_proxy_server.py:3851-3855 _BrokerEvents.receive *)
Definition inbound_open : broking unit :=
  retired ← kept a_retirement;
  check (match retired with None => true | Some _ => false end) "BROKER_ACTION_HANDOFF_REQUIRED" ;;
  t ← step a_transcript;
  check (match pending (done_so_far t) with None => true | Some _ => false end) "BROKER_RESOURCE_RESULT_REQUIRED" ;;
  check (match Broker.cleanup (done_so_far t), Broker.terminal (done_so_far t) with None, None => true | _, _ => false end)
    "BROKER_INBOUND_PHASE_CLOSED".

(** Half the time of the phase is left for the checks after the wait. *)
(* @src src/src/harness_conformance/live_proxy_server.py:3856-3867 _BrokerEvents.receive *)
Definition wait_for_frame : broking bool :=
  before ← PeerLink.beyond ticks;
  l ← PeerLink.see id;
  check ((last_mono l <=? before) && (before <? finish l) && (finish l <=? PeerLink.deadline l)) "BROKER_CLOCK_OR_DEADLINE" ;;
  let wait := Z.min (SECOND / 4) ((finish l - before) / 2) in
  s ← given sock;
  ready ← finally (PeerLink.beyond (select_for s wait)) events_check;
  check (negb (ready : bool * bool).2) "BROKER_READINESS_INVALID" ;;
  mret ready.1.

(* @src src/src/harness_conformance/live_proxy_server.py:3847-3890 _BrokerEvents.receive *)
Definition receive_event : broking (option bytes) :=
  on_exception
    (events_check ;;
     inbound_open ;;
     ready ← wait_for_frame;
     if (ready : bool) then
       events_check ;;
       broker_wait ;;
       raw ← finally (receive_message Broker_service) events_check;
       t ← step a_transcript;
       frame ← lift (check_frame raw t);
       _ ← accept_into raw "BROKER";
       snapshot ← snapshot_now;
       keep (change_events (events_snapshot snapshot)) ;;
       events_check ;;
       octets ← lift (canonical_bytes frame);
       mret (Some octets)
     else mret None)
    (fun _ => keep (change_events failed_events)).
End broking.
