(* ===== verification/BrokerClose.v ===== *)
(** live_proxy_server.py: how a broker connection ends.  Closing tries the connection to the API, the
    inspection and both descriptors, each once, and keeps the first failure; a step that failed is
    marked, and the admission log with it once it may have been written to. *)

From S2P Require Import Prelude Effects PyVal Utf8 Json Sha2 Canonical Base64 Ed25519 IsoTime Regex Text Posix.
From S2P Require Import SchemaBase Ipaddr Lifecycle LinuxShape Live LinuxVerify Session ReplayStore Supervisor BackendAuthority Launcher.
From S2P Require Import ProxySpecs ProxyDocument MutationAdmission Observation AdmissionLedger Broker Qualification Der Http.
From S2P Require Import Boundary Custody Files Store PeerLink Observer TlsCodec BrokerData ServerBase BrokerStart.

#[local] Open Scope string_scope.
#[local] Open Scope list_scope.
#[local] Open Scope Z_scope.

(** ** Changes *)

Definition change_intent (f : intent -> intent) (p : steps) : steps := set_intent (f <$> an_intent p) p.
Definition change_api (f : api -> api) (p : steps) : steps := set_api (f <$> an_api p) p.
Definition change_exchange (f : exchange -> exchange) (p : steps) : steps := set_exchange (f <$> an_exchange p) p.
Definition change_created (f : created -> created) (p : steps) : steps := set_created (f <$> a_created p) p.
Definition change_result (f : result -> result) (p : steps) : steps := set_result (f <$> a_result p) p.
Definition change_retirement (f : retirement -> retirement) (p : steps) : steps := set_retirement (f <$> a_retirement p) p.

(** The flags of an intent, of an exchange, of a creation, of a result and of a retirement. *)
Definition intent_flags (failed committed writing advanced : bool) (x : intent) : intent :=
  {| in_failed := failed; in_committed := committed; in_writing := writing; in_advanced := advanced; in_before := in_before x;
     in_action := in_action x; in_profile := in_profile x; in_reservation := in_reservation x; in_binding := in_binding x;
     in_operation := in_operation x; in_row := in_row x; in_after := in_after x; in_digest := in_digest x |}.
Definition intent_failed (x : intent) : intent := intent_flags true (in_committed x) (in_writing x) (in_advanced x) x.
Definition intent_committed (x : intent) : intent := intent_flags (in_failed x) true (in_writing x) (in_advanced x) x.
Definition intent_writing (x : intent) : intent := intent_flags (in_failed x) (in_committed x) true (in_advanced x) x.
Definition intent_advanced (x : intent) : intent := intent_flags (in_failed x) (in_committed x) (in_writing x) true x.

Definition exchange_flags (failed complete attempted : bool) (response : option bytes) (x : exchange) : exchange :=
  {| ex_failed := failed; ex_complete := complete; ex_attempted := attempted; ex_action := ex_action x; ex_request := ex_request x;
     ex_response := response |}.
Definition exchange_failed (x : exchange) : exchange := exchange_flags true (ex_complete x) (ex_attempted x) (ex_response x) x.
Definition exchange_complete (x : exchange) : exchange := exchange_flags (ex_failed x) true (ex_attempted x) (ex_response x) x.
Definition exchange_attempted (x : exchange) : exchange := exchange_flags (ex_failed x) (ex_complete x) true (ex_response x) x.
Definition exchange_response (b : bytes) (x : exchange) : exchange := exchange_flags (ex_failed x) (ex_complete x) (ex_attempted x) (Some b) x.

Definition created_flags (failed committed writing advanced : bool) (x : created) : created :=
  {| cr_failed := failed; cr_committed := committed; cr_writing := writing; cr_advanced := advanced; cr_before := cr_before x;
     cr_response := cr_response x; cr_action := cr_action x; cr_row := cr_row x; cr_after := cr_after x; cr_digest := cr_digest x |}.
Definition created_failed (x : created) : created := created_flags true (cr_committed x) (cr_writing x) (cr_advanced x) x.
Definition created_committed (x : created) : created := created_flags (cr_failed x) true (cr_writing x) (cr_advanced x) x.
Definition created_writing (x : created) : created := created_flags (cr_failed x) (cr_committed x) true (cr_advanced x) x.
Definition created_advanced (x : created) : created := created_flags (cr_failed x) (cr_committed x) (cr_writing x) true x.

Definition result_flags (failed complete attempted : bool) (x : result) : result :=
  {| re_failed := failed; re_complete := complete; re_attempted := attempted; re_before := re_before x; re_response := re_response x;
     re_record := re_record x; re_action := re_action x; re_ledger := re_ledger x; re_frame := re_frame x; re_after := re_after x |}.
Definition result_failed (x : result) : result := result_flags true (re_complete x) (re_attempted x) x.
Definition result_complete (x : result) : result := result_flags (re_failed x) true (re_attempted x) x.
Definition result_attempted (x : result) : result := result_flags (re_failed x) (re_complete x) true x.

Definition retirement_flags (failed complete retired advanced : bool) (x : retirement) : retirement :=
  {| rt_failed := failed; rt_complete := complete; rt_retired := retired; rt_advanced := advanced; rt_socket := rt_socket x;
     rt_engine := rt_engine x; rt_data := rt_data x |}.
Definition retirement_failed (x : retirement) : retirement := retirement_flags true (rt_complete x) (rt_retired x) (rt_advanced x) x.
Definition retirement_complete (x : retirement) : retirement := retirement_flags (rt_failed x) true (rt_retired x) (rt_advanced x) x.
Definition retirement_retired (x : retirement) : retirement := retirement_flags (rt_failed x) (rt_complete x) true (rt_advanced x) x.
Definition retirement_advanced (x : retirement) : retirement := retirement_flags (rt_failed x) (rt_complete x) (rt_retired x) true x.

Definition api_flags (closed failed ready checking : bool) (x : api) : api :=
  {| ap_closed := closed; ap_failed := failed; ap_ready := ready; ap_checking := checking; ap_cleanup := ap_cleanup x; ap_sock := ap_sock x;
     ap_socket_fd := ap_socket_fd x; ap_socket_pin := ap_socket_pin x; ap_memfd := ap_memfd x; ap_memfd_pin := ap_memfd_pin x;
     ap_tls := ap_tls x; ap_connected := ap_connected x; ap_last := ap_last x; ap_action := ap_action x; ap_endpoint := ap_endpoint x;
     ap_ca := ap_ca x; ap_target := ap_target x |}.
Definition api_failed (x : api) : api := api_flags (ap_closed x) true (ap_ready x) (ap_checking x) x.
Definition api_ready (x : api) : api := api_flags (ap_closed x) (ap_failed x) true (ap_checking x) x.
Definition api_checking (b : bool) (x : api) : api := api_flags (ap_closed x) (ap_failed x) (ap_ready x) b x.
Definition api_cleanup (o : option exn) (x : api) : api :=
  {| ap_closed := ap_closed x; ap_failed := ap_failed x; ap_ready := ap_ready x; ap_checking := ap_checking x; ap_cleanup := o;
     ap_sock := ap_sock x; ap_socket_fd := ap_socket_fd x; ap_socket_pin := ap_socket_pin x; ap_memfd := ap_memfd x;
     ap_memfd_pin := ap_memfd_pin x; ap_tls := ap_tls x; ap_connected := ap_connected x; ap_last := ap_last x; ap_action := ap_action x;
     ap_endpoint := ap_endpoint x; ap_ca := ap_ca x; ap_target := ap_target x |}.
Definition api_socket (s fd : option Z) (pin : option (list Z)) (connected : bool) (x : api) : api :=
  {| ap_closed := ap_closed x; ap_failed := ap_failed x; ap_ready := ap_ready x; ap_checking := ap_checking x; ap_cleanup := ap_cleanup x;
     ap_sock := s; ap_socket_fd := fd; ap_socket_pin := pin; ap_memfd := ap_memfd x; ap_memfd_pin := ap_memfd_pin x; ap_tls := ap_tls x;
     ap_connected := connected; ap_last := ap_last x; ap_action := ap_action x; ap_endpoint := ap_endpoint x; ap_ca := ap_ca x;
     ap_target := ap_target x |}.
Definition api_memfd (fd : option Z) (pin : option (list Z)) (x : api) : api :=
  {| ap_closed := ap_closed x; ap_failed := ap_failed x; ap_ready := ap_ready x; ap_checking := ap_checking x; ap_cleanup := ap_cleanup x;
     ap_sock := ap_sock x; ap_socket_fd := ap_socket_fd x; ap_socket_pin := ap_socket_pin x; ap_memfd := fd; ap_memfd_pin := pin;
     ap_tls := ap_tls x; ap_connected := ap_connected x; ap_last := ap_last x; ap_action := ap_action x; ap_endpoint := ap_endpoint x;
     ap_ca := ap_ca x; ap_target := ap_target x |}.
Definition api_tls (o : option tls) (x : api) : api :=
  {| ap_closed := ap_closed x; ap_failed := ap_failed x; ap_ready := ap_ready x; ap_checking := ap_checking x; ap_cleanup := ap_cleanup x;
     ap_sock := ap_sock x; ap_socket_fd := ap_socket_fd x; ap_socket_pin := ap_socket_pin x; ap_memfd := ap_memfd x;
     ap_memfd_pin := ap_memfd_pin x; ap_tls := o; ap_connected := ap_connected x; ap_last := ap_last x; ap_action := ap_action x;
     ap_endpoint := ap_endpoint x; ap_ca := ap_ca x; ap_target := ap_target x |}.
Definition api_last (t : Z) (x : api) : api :=
  {| ap_closed := ap_closed x; ap_failed := ap_failed x; ap_ready := ap_ready x; ap_checking := ap_checking x; ap_cleanup := ap_cleanup x;
     ap_sock := ap_sock x; ap_socket_fd := ap_socket_fd x; ap_socket_pin := ap_socket_pin x; ap_memfd := ap_memfd x;
     ap_memfd_pin := ap_memfd_pin x; ap_tls := ap_tls x; ap_connected := ap_connected x; ap_last := t; ap_action := ap_action x;
     ap_endpoint := ap_endpoint x; ap_ca := ap_ca x; ap_target := ap_target x |}.

Section closing.
Context {U : Unicode} {Sg : SigScheme} {W : Type} {Si : Site W}.
#[local] Notation broking := (broking (W := W)).

(** ** The connection to the API *)

(** [self.cleanup_failure = self.cleanup_failure or exc] *)
Definition keep_api_failure (r : res unit) : broking unit :=
  keep (change_api (fun x => api_cleanup (first_failure (ap_cleanup x) r) x)).

(** A descriptor is the one that was pinned. *)
Definition api_pin (fd : Z) (pin : option (list Z)) (code : string) : broking unit :=
  now ← _fd_pin Broker_service fd;
  check (match pin with Some expected => ints_eqb now expected | None => false end) code.

(* @src src/src/harness_conformance/live_proxy_server.py:4212-4220 _BrokerApi._close_memfd *)
Definition _close_memfd : broking unit :=
  x ← step an_api;
  keep (change_api (api_memfd None (ap_memfd_pin x))) ;;
  match ap_memfd x with
  | None => mret tt
  | Some fd =>
      r ← attempt (api_pin fd (ap_memfd_pin x) "API_CLOSE_FD_REUSED" ;; owner (out (k_close fd)));
      keep_api_failure r ;;
      lift r
  end.

Definition close_api_socket (x : api) : broking unit :=
  match ap_sock x with
  | None => mret tt
  | Some s =>
      r ← attempt (n ← owner (out (k_fileno s));
                   check (match ap_socket_fd x with Some fd => n =? fd | None => false end) "API_CLOSE_FD_REUSED" ;;
                   api_pin n (ap_socket_pin x) "API_CLOSE_FD_REUSED" ;;
                   owner (out (k_close_socket s)));
      keep_api_failure r ;;
      match r with Ok _ => mret tt | Raise _ => _ ← attempt (owner (out (k_detach s))); mret tt end
  end.

(* @src src/src/harness_conformance/live_proxy_server.py:4222-4243 _BrokerApi.close *)
Definition api_close : broking unit :=
  x ← step an_api;
  (if ap_closed x then mret tt
   else
     keep (change_api (fun x => api_tls None (api_flags true (ap_failed x) false (ap_checking x) x))) ;;
     _ ← attempt _close_memfd;
     keep (change_api (fun x => api_socket None (ap_socket_fd x) (ap_socket_pin x) (ap_connected x) x)) ;;
     close_api_socket x) ;;
  x ← step an_api;
  match ap_cleanup x with Some e => throw e | None => mret tt end.

(** ** The broker *)

(** The connection to the API is retired first, and forgotten. *)
(* @src src/src/harness_conformance/live_proxy_server.py:3619-3625 _Broker.close *)
Definition close_api_first : broking unit :=
  o ← kept an_api;
  match o with
  | None => mret tt
  | Some _ => r ← attempt api_close; keep (set_api None) ;; keep_failure r
  end.

(* @src src/src/harness_conformance/live_proxy_server.py:3616-3653 _Broker.close *)
Definition broker_close : broking unit := close_link Broker_service close_api_first.

(** [try: broker.close() except BaseException: pass] *)
Definition broker_abandon : broking unit := _ ← attempt broker_close; mret tt.
Definition broker_failed : broking unit := PeerLink.change PeerLink.set_failed.

(* @src src/src/harness_conformance/live_proxy_server.py:3273-3302 _Broker.__init__ *)
Definition broker_establish : broking unit :=
  on_exception (broker_phase (_connect Broker_service)) (fun _ => broker_failed ;; broker_abandon).
Definition broker_check : broking unit := broker_phase broker_peer.

(** ** Poison *)

(** [log.poisoned = True] *)
Definition poison_log : broking unit :=
  owner (update (fun s => let v := srv_serving s in
    set_serving {| reserved := reserved v; reservation := reservation v; active_operation := active_operation v; memfd := memfd v;
                   context := context v; target := target v; listener := listener v; connection := connection v;
                   log_poisoned := true |} s)).

(* @src src/src/harness_conformance/live_proxy_server.py:3999-4002 _BrokerIntent._poison *)
Definition poison_intent : broking unit :=
  o ← kept an_intent;
  match o with
  | None => mret tt
  | Some x => keep (change_intent intent_failed) ;; if in_writing x then poison_log else mret tt
  end.

(* @src src/src/harness_conformance/live_proxy_server.py:4462-4465 _BrokerCreated._poison *)
Definition poison_created : broking unit :=
  o ← kept a_created;
  match o with
  | None => mret tt
  | Some x => keep (change_created created_failed) ;; if cr_writing x then poison_log else mret tt
  end.

(* @src src/src/harness_conformance/live_proxy_server.py:4583-4586 _BrokerCreateResult._poison *)
Definition poison_result : broking unit := keep (change_result result_failed) ;; poison_created.

(* @src src/src/harness_conformance/live_proxy_server.py:4764-4767 _BrokerCreateRetirement._poison *)
Definition poison_retirement : broking unit :=
  keep (change_retirement retirement_failed) ;;
  o ← kept a_result;
  match o with None => mret tt | Some _ => poison_result end.
End closing.
