(* ===== verification/BrokerIntent.v ===== *)
(** live_proxy_server.py, [_BrokerIntent]: the row that announces a pending creation, recorded in the
    admission log before anything is sent.  The row and the history with it are computed first;
    only that history, read back, replaces the one the dispatch is pinned to. *)

From S2P Require Import Prelude Effects PyVal Utf8 Json Sha2 Canonical Base64 Ed25519 IsoTime Regex Text Posix.
From S2P Require Import SchemaBase Ipaddr Lifecycle LinuxShape Live LinuxVerify Session ReplayStore Supervisor BackendAuthority Launcher.
From S2P Require Import ProxySpecs ProxyDocument MutationAdmission Observation AdmissionLedger Broker Qualification Der Http.
From S2P Require Import Boundary Custody Files Store PeerLink Observer TlsCodec BrokerData ServerBase BrokerStart BrokerClose.

#[local] Open Scope string_scope.
#[local] Open Scope list_scope.
#[local] Open Scope Z_scope.

Section intent.
Context {U : Unicode} {Sg : SigScheme} {W : Type} {Si : Site W}.
#[local] Notation broking := (broking (W := W)).

(** The octets of the pending action; [null] when there is none. *)
Definition pending_octets (p : steps) : res bytes :=
  match a_transcript p with
  | Some t => canonical_bytes (default VNone (pending (done_so_far t)))
  | None => Raise AttributeError
  end.

(** The history a row belongs to. *)
Definition expected_history (advanced : bool) (before after : bytes) : bytes := if advanced then after else before.

Definition poisoned_log (s : server W) : bool := log_poisoned (srv_serving s).
Definition same_deadline (s : link * (steps * server W)) : bool := PeerLink.deadline s.1 =? srv_deadline (srv_times s.2.2).

(** ** The creation that was recorded, as its checks see it *)

(** The steps it stands on are as they were when it was made. *)
(* @src src/src/harness_conformance/live_proxy_server.py:4401-4422 _BrokerCreated._state_check *)
Definition created_on (c : created) (p : steps) (poisoned : bool) : bool :=
  match an_intent p, an_exchange p, an_api p, a_events p, a_start p with
  | Some i, Some e, Some a, Some _, Some _ =>
      negb (cr_failed c) && in_committed i && in_advanced i && negb (in_failed i) && ex_complete e && ex_attempted e &&
      negb (ex_failed e) && ap_ready a && negb (ap_closed a) && negb (ap_failed a) && negb poisoned
  | _, _, _, _, _ => false
  end.

(** The response and the action are the ones of the steps before. *)
(* @src src/src/harness_conformance/live_proxy_server.py:4423-4428 _BrokerCreated._state_check *)
Definition created_inputs (c : created) (p : steps) (deadline : bool) : res bool :=
  match an_intent p, an_exchange p, an_api p with
  | Some i, Some e, Some a =>
      if (0 <? zlen (cr_response c)) && (zlen (cr_response c) <=? 16384) &&
         match ex_response e with Some r => str_eqb (cr_response c) r | None => false end &&
         str_eqb (cr_action c) (ex_action e) && str_eqb (ex_action e) (in_action i) && str_eqb (in_action i) (ap_action a) then
        b ← pending_octets p; Ok (str_eqb b (cr_action c) && deadline)
      else Ok false
  | _, _, _ => Raise AttributeError
  end.

(** The history is the one before its row, or the one with it. *)
(* @src src/src/harness_conformance/live_proxy_server.py:4429-4436 _BrokerCreated._state_check *)
Definition created_history (c : created) (p : steps) : bool :=
  match an_intent p, a_start p with
  | Some i, Some t =>
      str_eqb (cr_before c) (in_after i) && str_eqb (cr_digest c) (byte_digest (cr_row c)) &&
      str_eqb (cr_after c) (cr_before c ++ cr_row c ++ [10%N]) && (negb (cr_advanced c) || cr_writing c) &&
      str_eqb (st_ledger t) (expected_history (cr_advanced c) (cr_before c) (cr_after c))
  | _, _ => false
  end.

(* @src src/src/harness_conformance/live_proxy_server.py:4399-4436 _BrokerCreated._state_check *)
Definition created_state_check : broking unit :=
  c ← step a_created;
  ok ← reads (fun s => Ok (created_on c s.2.1 (poisoned_log s.2.2)));
  check ok "BROKER_CREATED_OWNER_CHANGED" ;;
  reads (fun s => require_m (created_inputs c s.2.1 (same_deadline s)) "BROKER_CREATED_INPUT_CHANGED") ;;
  ok ← kept (created_history c);
  check ok "BROKER_CREATED_HISTORY_CHANGED".

(** ** The intent *)

(** Only the recorded creation may advance the history of the intent. *)
(* @src src/src/harness_conformance/live_proxy_server.py:3972-3983 _BrokerIntent._history_check *)
Definition intent_history_check : broking unit :=
  x ← step an_intent;
  o ← kept a_created;
  match o with
  | Some _ =>
      check (in_advanced x && in_committed x) "BROKER_CREATED_OWNER_CHANGED" ;;
      created_state_check
  | None =>
      t ← step a_start;
      check (str_eqb (st_ledger t) (expected_history (in_advanced x) (in_before x) (in_after x))) "BROKER_INTENT_HISTORY_CHANGED"
  end.

(* @src src/src/harness_conformance/live_proxy_server.py:3949-3964 _BrokerIntent._pending_check *)
Definition intent_pending_check : broking unit :=
  x ← step an_intent;
  t ← step a_start;
  ok ← reads (fun s => Ok (negb (in_failed x) && match a_events s.2.1 with Some _ => true | None => false end &&
                           match srv_store s.2.2 with Some _ => true | None => false end && negb (poisoned_log s.2.2) &&
                           py_eq (st_operation t) (in_operation x) && str_eqb (st_reservation t) (in_reservation x) &&
                           str_eqb (st_binding t) (in_binding x)));
  check ok "BROKER_INTENT_OWNER_CHANGED" ;;
  reads (fun s => require_m (match srv_authority s.2.2 with
                             | Some a => b ← canonical_bytes (the_profile a); Ok (str_eqb b (in_profile x) && same_deadline s)
                             | None => Raise AttributeError
                             end) "BROKER_INTENT_OWNER_CHANGED") ;;
  events_state_check ;;
  reads (fun s => require_m (b ← pending_octets s.2.1; Ok (str_eqb b (in_action x))) "BROKER_INTENT_ACTION_CHANGED").

(* @src src/src/harness_conformance/live_proxy_server.py:3966-3970 _BrokerIntent._check *)
Definition intent_check : broking unit :=
  intent_pending_check ;; intent_history_check ;; events_check ;; intent_pending_check.

(** A row of the admission log about an object, and the history with it. *)
Definition resource_row (state : string) (reservation : bytes) (operation now resource : value) (before : bytes)
    : res (bytes * bytes) :=
  l ← parse_reservations before;
  binding ← document (Raw reservation) 262144;
  row ← canonical_bytes (VDict [(u "sequence", VInt (count l + 1)); (u "previousDigest", VStr (AdmissionLedger.previous l));
          (u "binding", binding); (u "state", VStr (u state)); (u "operation", operation); (u "observedAt", now);
          (u "cleanup", VNone); (u "resource", resource)]);
  let after := before ++ row ++ [10%N] in
  _ ← parse_reservations after;
  Ok (row, after).

(** The object the action creates, with the response when there is one. *)
Definition resource_of (x : intent) (observed : data) : res value :=
  reservation ← document (Raw (in_reservation x)) 262144;
  action ← document (Raw (in_action x)) 16384;
  _create_record (Value reservation) (in_operation x) (Raw (in_profile x)) (Raw (in_binding x)) (Value action) observed.

(** The row is recorded through the log, against the history it was computed for. *)
Definition record_row (state : string) (x : intent) (now : value) (before : bytes) (observed : data) : broking str :=
  reservation ← lift (document (Raw (in_reservation x)) 262144);
  action ← lift (document (Raw (in_action x)) 16384);
  bio (owner (on_log (record_resource (Value reservation) (VStr (u state)) (in_operation x) now (Raw (in_profile x))
                        (Raw (in_binding x)) (Value action) before observed))).

Definition blank_intent : intent :=
  {| in_failed := false; in_committed := false; in_writing := false; in_advanced := false; in_before := []; in_action := [];
     in_profile := []; in_reservation := []; in_binding := []; in_operation := VNone; in_row := []; in_after := []; in_digest := [] |}.
Definition intent_row (row after : bytes) (x : intent) : intent :=
  {| in_failed := in_failed x; in_committed := in_committed x; in_writing := in_writing x; in_advanced := in_advanced x;
     in_before := in_before x; in_action := in_action x; in_profile := in_profile x; in_reservation := in_reservation x;
     in_binding := in_binding x; in_operation := in_operation x; in_row := row; in_after := after; in_digest := byte_digest row |}.

(** What the intent is about. *)
(* @src src/src/harness_conformance/live_proxy_server.py:3904-3917 _BrokerIntent.__init__ *)
Definition bind_intent : broking unit :=
  present ← reads (fun s => Ok (match a_events s.2.1 with Some _ => true | None => false end));
  check present "BROKER_INTENT_EVENTS_REQUIRED" ;;
  events_check ;;
  t ← step a_start;
  action ← reads (fun s => pending_octets s.2.1);
  a ← own_authority;
  profile ← lift (canonical_bytes (the_profile a));
  keep (set_intent (Some
    {| in_failed := false; in_committed := false; in_writing := false; in_advanced := false; in_before := st_ledger t;
       in_action := action; in_profile := profile; in_reservation := st_reservation t; in_binding := st_binding t;
       in_operation := st_operation t; in_row := []; in_after := []; in_digest := [] |})).

(** The row and the history with it, before anything is written. *)
(* @src src/src/harness_conformance/live_proxy_server.py:3919-3930 _BrokerIntent.__init__ *)
Definition plan_intent : broking value :=
  x ← step an_intent;
  action ← lift (document (Raw (in_action x)) 16384);
  demand (match action with VDict _ => v ← py_get action "verb"; Ok (py_eq (default VNone v) (VStr (u "CREATE"))) | _ => Ok false end)
    "BROKER_CREATE_INTENT_REQUIRED" ;;
  now ← PeerLink.beyond wall;
  resource ← lift (resource_of x (Value VNone));
  '(row, after) ← lift (resource_row "CREATE_INTENT" (in_reservation x) (in_operation x) now resource (in_before x));
  keep (change_intent (intent_row row after)) ;;
  mret now.

(** The row is written once; the dispatch is pinned to the history only when it was read back. *)
(* @src src/src/harness_conformance/live_proxy_server.py:3932-3943 _BrokerIntent.__init__ *)
Definition write_intent (now : value) : broking unit :=
  keep (change_intent intent_writing) ;;
  x ← step an_intent;
  digest ← record_row "CREATE_INTENT" x now (in_before x) (Value VNone);
  check (str_eqb digest (in_digest x)) "BROKER_INTENT_COMMIT_MISMATCH" ;;
  history ← read_history;
  check (str_eqb history (in_after x)) "BROKER_INTENT_READBACK_MISMATCH" ;;
  intent_pending_check ;;
  t ← step a_start;
  check (str_eqb (st_ledger t) (in_before x)) "BROKER_INTENT_HISTORY_CHANGED" ;;
  keep (change_start (start_ledger (in_after x))) ;;
  keep (change_intent intent_advanced).

(* @src src/src/harness_conformance/live_proxy_server.py:3900-3947 _BrokerIntent.__init__ *)
Definition new_intent : broking unit :=
  on_exception
    (bind_intent ;;
     intent_check ;;
     now ← plan_intent;
     intent_check ;;
     write_intent now ;;
     intent_check)
    (fun _ => poison_intent).

(* @src src/src/harness_conformance/live_proxy_server.py:3985-3997 _BrokerIntent.check *)
Definition check_intent : broking unit :=
  on_exception
    (x ← step an_intent;
     check (in_committed x) "BROKER_INTENT_NOT_COMMITTED" ;;
     broker_phase intent_check)
    (fun _ => poison_intent ;; broker_failed ;; broker_abandon).
End intent.
