(* ===== verification/BrokerApi.v ===== *)
(** live_proxy_server.py, [_BrokerApi] and [_BrokerCreateExchange]: the authenticated connection to the
    API of the cluster, made for one pending action, and the one request that creates an object. *)

From S2P Require Import Prelude Effects PyVal Utf8 Json Sha2 Canonical Base64 Ed25519 IsoTime Regex Text Posix.
From S2P Require Import SchemaBase Ipaddr Lifecycle LinuxShape Live LinuxVerify Session ReplayStore Supervisor BackendAuthority Launcher.
From S2P Require Import ProxySpecs ProxyDocument MutationAdmission Observation AdmissionLedger Broker Qualification Der Http.
From S2P Require Import Boundary Custody Files Store PeerLink Observer TlsCodec BrokerData ServerBase BrokerStart BrokerClose BrokerIntent.

#[local] Open Scope string_scope.
#[local] Open Scope list_scope.
#[local] Open Scope Z_scope.

(** ** What the action may use *)

Definition IDENTITY_FILE : str := u IDENTITY.

(** [{"Pod": "pods", "ConfigMap": "configmaps", "Service": "services"}[kind]] *)
Definition plural_of (kind : value) : res str :=
  if eq_lit kind "Pod" then Ok (u "pods") else if eq_lit kind "ConfigMap" then Ok (u "configmaps")
  else if eq_lit kind "Service" then Ok (u "services") else Raise KeyError.

Section inputs.
Context {U : Unicode}.

(** [type(v) is dict and set(v) == keys] *)
Definition has_only (v : value) (keys : list string) : bool :=
  match v with
  | VDict d => forallb (fun k => dhas (u k) d) keys && forallb (fun k => str_in k (map u keys)) (dkeys d)
  | _ => false
  end.

(** The one element of a list. *)
Definition only (l : list value) (code : string) : res value := match l with [x] => Ok x | _ => conf code end.

(** The manifest the action names. *)
Definition manifest_of_action (profile action : value) (code : string) : res value :=
  digest ← fld action "manifestDigest";
  rows ← (rs ← elements profile "resources"; select "manifestDigest" digest rs);
  r ← only rows code;
  fld r "manifest".

(** The action is one of the case. *)
(* @src src/src/harness_conformance/live_proxy_server.py:4120-4126 _BrokerApi._inputs *)
Definition action_manifest (a : authority) (t : start) (action_raw : bytes) : res (value * value) :=
  action ← document (Raw action_raw) 16384;
  require_m (if has_only action ["actionId"; "verb"; "manifestDigest"] then
               v ← fld action "verb";
               if in_lits v ["CREATE"; "GET"; "DELETE"] then r ← fld (the_profile a) "resources"; Ok (truthy r) else Ok false
             else Ok false) "API_ACTION_REQUIRED" ;;
  binding ← broker_document (Raw (st_binding t)) "binding";
  digest ← fld action "manifestDigest";
  require_m (cases ← fld binding "caseResourceDigests"; l ← index cases (st_operation t); py_in digest l) "API_ACTION_CASE" ;;
  manifest ← manifest_of_action (the_profile a) action "API_ACTION_MANIFEST";
  Ok (action, manifest).

(** The one endpoint of the API, whose credential no other endpoint uses. *)
(* @src src/src/harness_conformance/live_proxy_server.py:4127-4137 _BrokerApi._inputs *)
Definition api_endpoint (a : authority) : res (value * value) :=
  scope ← fld (the_profile a) "binding";
  id ← fld scope "apiEndpointId";
  all ← elements (envelope a) "endpoints";
  rows ← select "endpointId" id all;
  e ← only rows "API_ENDPOINT_REQUIRED";
  require_m (fld_lit e "kind" "KUBERNETES_API_PROXY" <&&> (same ← fld2_eq e "endpointId" scope "endpointId"; Ok (negb same)))
    "API_ENDPOINT_REQUIRED" ;;
  require_m ((same ← fld_eq e "credentialFileReference" (VStr IDENTITY_FILE); Ok (negb same)) <&&>
             all_m (fun o => same ← fld2_eq o "endpointId" e "endpointId";
                             if (same : bool) then Ok true
                             else shared ← fld2_eq e "credentialFileReference" o "credentialFileReference"; Ok (negb shared)) all)
    "API_CREDENTIAL_REUSE" ;;
  identities ← (c ← fld (the_profile a) "capacityEntries"; elements c "credentialIdentities");
  mine ← select "endpointId" id identities;
  purposes ← map_m (fun r => fld_lit r "purpose" "KUBERNETES_PROXY_SERVER_MTLS") mine;
  _ ← only (map fst (List.filter snd (combine mine purposes))) "API_CREDENTIAL_ENROLLMENT";
  Ok (scope, e).

(** The grant of the profile for exactly this request. *)
(* @src src/src/harness_conformance/live_proxy_server.py:4138-4144 _BrokerApi._inputs *)
Definition check_grant (a : authority) (action manifest scope endpoint : value) : res unit :=
  kind ← fld manifest "kind";
  plural ← plural_of kind;
  id ← fld endpoint "endpointId";
  verb ← text_of action "verb";
  namespace ← fld scope "namespace";
  name ← (m ← fld manifest "metadata"; fld m "name");
  rules ← (c ← fld (the_profile a) "capacityEntries"; fld c "kubernetesApiRules");
  require_m (py_in (VDict [(u "endpointId", id); (u "verb", VStr (map lower_ascii verb)); (u "resource", VStr plural);
                           (u "namespace", namespace); (u "name", name); (u "apiGroup", VStr []); (u "apiVersion", VStr (u "v1"));
                           (u "subresource", VStr []); (u "requestMediaType", VStr (u "application/json"));
                           (u "responseMediaType", VStr (u "application/json")); (u "requestMaxBytes", VInt 16384);
                           (u "responseMaxBytes", VInt 4194304)]) rules) "API_EXACT_GRANT_REQUIRED".

(** The authority of the API's certificates, a file of the released kit. *)
(* @src src/src/harness_conformance/live_proxy_server.py:4145-4158 _BrokerApi._inputs *)
Definition released_ca (a : authority) (release_raw : str -> res bytes) (endpoint : value) : res bytes :=
  prefix ← (r ← text_of (envelope a) "conformanceKitRoot"; Ok (r ++ u "/"));
  path ← (t ← fld endpoint "tls"; text_of t "caCertificateFileReference");
  let relative := drop (length prefix) path in
  require (startswith prefix path && forallb (fun p => negb (str_in p [[]; u "."; u ".."])) (split_on 47 relative)) "API_CA_NOT_RELEASED" ;;
  raw ← (reference ← text_of (envelope a) "campaignReleaseFileReference"; release_raw reference);
  require_m (fld_eq (envelope a) "campaignReleaseDigest" (VStr (byte_digest raw))) "API_RELEASE_CHANGED" ;;
  release ← require_canonical_document raw;
  rows ← (t ← elements release "tree"; select "path" (VStr relative) t);
  match dget relative (kit_octets a) with
  | Some ca =>
      require ((0 <? zlen ca) && (zlen ca <=? 262144) && startswith (u "-----BEGIN CERTIFICATE-----") ca &&
               negb (substr_in (u "PRIVATE KEY") ca) && py_eq (VList rows) (VList [Observation.file_row relative ca])) "API_CA_CHANGED" ;;
      Ok ca
  | None => conf "API_CA_CHANGED"
  end.

(** The endpoint as octets, and the certificates it is authenticated with. *)
(* @src src/src/harness_conformance/live_proxy_server.py:4118-4158 _BrokerApi._inputs *)
Definition _inputs (a : authority) (release_raw : str -> res bytes) (t : start) (action_raw : bytes) : res (bytes * bytes) :=
  '(action, manifest) ← action_manifest a t action_raw;
  '(scope, endpoint) ← api_endpoint a;
  check_grant a action manifest scope endpoint ;;
  ca ← released_ca a release_raw endpoint;
  raw ← canonical_bytes endpoint;
  Ok (raw, ca).

(** [address.ipv4_mapped is not None or address.scope_id is not None] *)
Definition mapped_or_scoped (n : N) (ip : value) : bool :=
  (N.shiftr n 32 =? 65535)%N || match ip with VStr s => existsb (N.eqb 37) s | _ => false end.

(** The name of a socket at an address. *)
(* @src src/src/harness_conformance/live_proxy_server.py:4038-4038 _BrokerApi.__init__ *)
Definition name_at (address : address) (text : str) (port : Z) : inet_name :=
  (text, port, match address with V4 _ => [] | V6 _ => [0; 0] end).

(** The address of the endpoint, in its canonical text, that a connection may have. *)
(* @src src/src/harness_conformance/live_proxy_server.py:4031-4038 _BrokerApi.__init__ *)
Definition target_of (endpoint : value) : res inet_name :=
  ip ← fld endpoint "ipAddress";
  address ← ip_address ip;
  let v6 := match address with V4 _ => false | V6 _ => true end in
  text ← match ip with VStr s => canonical_address s | _ => Ok [] end;
  require_m (Ok (py_eq (VStr text) ip && negb (is_unspecified address) && negb (is_multicast address) &&
                 match address with V4 _ => true | V6 n => negb (mapped_or_scoped n ip) end) <&&>
             fld_lit endpoint "addressFamily" (if v6 then "IPV6" else "IPV4")) "API_ENDPOINT_ADDRESS" ;;
  port ← int_of endpoint "port";
  Ok (name_at address text port).

(** ** The request *)

Definition namespace_re : regex := RSeq (cls "a-z0-9") (upto 62 (cls "a-z0-9.-")).

(* @src src/src/harness_conformance/live_proxy_server.py:4284-4298 _BrokerCreateExchange._request *)
Definition _request (x : intent) (endpoint : value) : res bytes :=
  action ← document (Raw (in_action x)) 16384;
  require_m (v ← py_get action "verb"; Ok (py_eq (default VNone v) (VStr (u "CREATE")))) "API_EXCHANGE_CREATE_REQUIRED" ;;
  profile ← document (Raw (in_profile x)) 262144;
  manifest ← manifest_of_action profile action "API_EXCHANGE_MANIFEST_REQUIRED";
  kind ← fld manifest "kind";
  plural ← plural_of kind;
  namespace ← (m ← fld manifest "metadata"; fld m "namespace");
  require_m (fld_lit manifest "apiVersion" "v1" <&&> (s ← fld profile "binding"; fld_eq s "namespace" namespace) <&&>
             (n ← as_text namespace; Ok (fullmatch namespace_re n))) "API_EXCHANGE_PATH_SCOPE" ;;
  namespace ← as_text namespace;
  body ← canonical_bytes manifest;
  require_m (Ok ((0 <? zlen body) && (zlen body <=? 16384)) <&&> fld_eq action "manifestDigest" (VStr (byte_digest body)))
    "API_EXCHANGE_BODY_SCOPE" ;;
  host ← (t ← fld endpoint "tls"; text_of t "serverName");
  http_message (u "POST /api/v1/namespaces/" ++ namespace ++ u "/" ++ plural ++ u " HTTP/1.1") body (Some host).
End inputs.

Section api.
Context {U : Unicode} {Sg : SigScheme} {W : Type} {Si : Site W}.
#[local] Notation broking := (broking (W := W)).

(** The passes of a TLS loop that the peer can keep going. *)
Context (fuel : nat).

Definition release_octets (s : server W) (path : str) : res bytes :=
  match dget path (Files.raw (srv_files s)) with Some b => Ok b | None => Raise KeyError end.

(** [self._inputs()] of the retained state. *)
Definition inputs_now (action_raw : bytes) (s : link * (steps * server W)) : res (bytes * bytes) :=
  match srv_authority s.2.2, a_start s.2.1 with
  | Some a, Some t => _inputs a (release_octets s.2.2) t action_raw
  | _, _ => Raise AttributeError
  end.

Definition endpoint_of (x : api) : res value := document (Raw (ap_endpoint x)) 262144.

(** ** The exchange, as its checks see it *)

(* @src src/src/harness_conformance/live_proxy_server.py:4300-4318 _BrokerCreateExchange._state_check *)
Definition exchange_state_check : broking unit :=
  e ← step an_exchange;
  ok ← reads (fun s => match an_api s.2.1, an_intent s.2.1, a_events s.2.1 with
                       | Some a, Some i, Some _ =>
                           if negb (ex_failed e) && ap_ready a && in_committed i && negb (in_failed i) && negb (poisoned_log s.2.2) &&
                              str_eqb (ex_action e) (in_action i) && str_eqb (in_action i) (ap_action a) then
                             b ← pending_octets s.2.1; Ok (str_eqb b (ex_action e) && same_deadline s)
                           else Ok false
                       | _, _, _ => Ok false
                       end);
  check ok "API_EXCHANGE_STATE_CHANGED" ;;
  intent_history_check ;;
  x ← step an_api;
  i ← step an_intent;
  request ← lift (endpoint ← endpoint_of x; _request i endpoint);
  check (str_eqb (ex_request e) request) "API_EXCHANGE_REQUEST_CHANGED".

(** ** The check of the connection *)

Definition exchange_if_any : broking unit :=
  o ← kept an_exchange; match o with Some _ => exchange_state_check | None => mret tt end.

(** The steps behind the connection, in a phase of the broker. *)
(* @src src/src/harness_conformance/live_proxy_server.py:4171-4177 _BrokerApi._transport_check *)
Definition api_phase : broking unit :=
  broker_phase
    (events_check ;;
     o ← kept an_exchange;
     match o with Some _ => exchange_state_check ;; intent_check | None => mret tt end).

(** A descriptor that is held is the one that was pinned, and private. *)
Definition held_descriptor (fd : option Z) (pin : option (list Z)) : broking unit :=
  match fd with
  | None => mret tt
  | Some fd =>
      api_pin fd pin "API_DESCRIPTOR_CHANGED" ;;
      inherited ← owner (out (k_inheritable fd));
      check (negb inherited) "API_DESCRIPTOR_CHANGED"
  end.

Definition same_target (a b : inet_name) : bool :=
  let '(h, p, v) := a in let '(h', p', v') := b in str_eqb h h' && (p =? p') && ints_eqb v v'.

(* @src src/src/harness_conformance/live_proxy_server.py:4183-4194 _BrokerApi._transport_check *)
Definition check_transport (x : api) : broking unit :=
  held_descriptor (ap_memfd x) (ap_memfd_pin x) ;;
  held_descriptor (ap_socket_fd x) (ap_socket_pin x) ;;
  match ap_sock x with
  | None => mret tt
  | Some s =>
      n ← owner (out (k_fileno s));
      check (match ap_socket_fd x with Some fd => n =? fd | None => false end) "API_DESCRIPTOR_CHANGED" ;;
      (if ap_connected x then name ← owner (out (k_peer_name s)); check (same_target name (ap_target x)) "API_PEER_CHANGED"
       else mret tt)
  end ;;
  match ap_tls x with
  | None => mret tt
  | Some t =>
      deadline ← PeerLink.see PeerLink.deadline;
      check (match ap_sock x with Some s => t_socket t =? s | None => false end && (t_deadline t =? deadline)) "API_TLS_OWNER_CHANGED"
  end.

(** The inputs are the retained ones. *)
(* @src src/src/harness_conformance/live_proxy_server.py:4179-4182 _BrokerApi._transport_check *)
Definition check_inputs (x : api) : broking unit :=
  reads (fun s => require_m ((b ← pending_octets s.2.1; Ok (str_eqb b (ap_action x))) <&&>
                             (i ← inputs_now (ap_action x) s; Ok (str_eqb i.1 (ap_endpoint x) && str_eqb i.2 (ap_ca x))))
                    "API_INPUTS_CHANGED").

(* @src src/src/harness_conformance/live_proxy_server.py:4160-4203 _BrokerApi._transport_check *)
Definition api_transport_check : broking unit :=
  x ← step an_api;
  check (negb (ap_checking x)) "API_REENTRANT_CHECK" ;;
  keep (change_api (api_checking true)) ;;
  finally
    (ok ← reads (fun s => Ok (negb (ap_closed x) && negb (ap_failed x) && match a_events s.2.1 with Some _ => true | None => false end &&
                              same_deadline s));
     check ok "API_OWNER_CHANGED" ;;
     api_phase ;;
     owner (on_secrets check_files) ;;
     check_inputs x ;;
     check_transport x ;;
     now ← owner (out clock_ticks);
     ok ← reads (fun s => Ok ((ap_last x <=? now) && (now <? PeerLink.deadline s.1)));
     check ok "API_CLOCK_OR_DEADLINE" ;;
     keep (change_api (api_last now)) ;;
     exchange_if_any)
    (keep (change_api (api_checking false))).

(* @src src/src/harness_conformance/live_proxy_server.py:4205-4210 _BrokerApi._io *)
Definition api_io {A} (m : broking A) : broking A := api_transport_check ;; finally m api_transport_check.

(** The TLS stream over the connection, checked by its owner. *)
#[export] Instance api_site : TlsSite (link * (steps * server W)) := {
  transport_check := api_transport_check;
  t_ticks := owner (out clock_ticks);
  t_timeout s d := owner (out (k_timeout s d));
  t_send s b := owner (out (k_send s b));
  t_receive s := owner (out (k_receive s));
  e_wrap c v n := owner (out (tls_wrap c v n));
  e_handshake e := owner (out (tls_handshake e));
  e_write e b := owner (out (tls_write e b));
  e_read e n := owner (out (tls_read_some e n));
  e_unwrap e := owner (out (tls_unwrap e));
  e_tls13 e s := tls_is_13 e (outside s.2.2);
  e_reused e s := tls_reused e (outside s.2.2);
  e_http11 e s := tls_http11 e (outside s.2.2);
  e_peer_certificate e := owner (out (tls_certificate e));
  e_pending e s := tls_pending e (outside s.2.2);
  outgoing_pending e s := tls_outgoing e (outside s.2.2);
  outgoing_read e := owner (out (tls_take e));
  incoming_write e b := owner (out (tls_give e b));
  incoming_octets e s := tls_incoming e (outside s.2.2)
}.

Definition on_api_tls {A} (m : TlsCodec.run (W := link * (steps * server W)) A) : broking A := fun s =>
  match an_api s.2.1 with
  | Some x => match ap_tls x with
              | Some t => let '(r, (t', s')) := m (t, s) in (r, (s'.1, (change_api (api_tls (Some t')) s'.2.1, s'.2.2)))
              | None => (Raise AttributeError, s)
              end
  | None => (Raise AttributeError, s)
  end.

(** ** Connecting *)

Definition MFD_NAME : string := "planeon-api-identity".

(** The octets in parts, each write taking some. *)
Fixpoint write_memfd (n : nat) (fd : Z) (raw : bytes) : broking unit :=
  match raw, n with
  | [], _ => mret tt
  | _, O => throw RecursionError
  | _, S n =>
      k ← api_io (owner (out (k_write fd raw)));
      check ((0 <? k) && (k <=? zlen raw)) "API_CREDENTIAL_SHORT_WRITE" ;;
      write_memfd n fd (drop (Z.to_nat k) raw)
  end.

(** The memory file is in the object as soon as it is made. *)
Definition acquire_memfd : broking unit :=
  fd ← owner (out (k_memfd MFD_NAME));
  keep (change_api (api_memfd (Some fd) None)) ;;
  pin ← _fd_pin Broker_service fd;
  keep (change_api (api_memfd (Some fd) (Some pin))) ;;
  check (nth 2 pin 0 =? 32768) "API_MEMFD_TYPE".

(** The credential, sealed in a memory file and read back, becomes the key of a TLS context. *)
(* @src src/src/harness_conformance/live_proxy_server.py:4045-4063 _BrokerApi.__init__ *)
Definition sealed_context (raw ca : bytes) : broking Z :=
  finally acquire_memfd api_transport_check ;;
  x ← step an_api;
  fd ← lift (match ap_memfd x with Some fd => Ok fd | None => Raise TypeError end);
  write_memfd (length raw) fd raw ;;
  api_io (owner (out (k_add_seals fd SEALS))) ;;
  seals ← api_io (owner (out (k_get_seals fd)));
  check (Z.land seals SEALS =? SEALS) "API_CREDENTIAL_SEALS" ;;
  api_io (owner (out (k_rewind fd))) ;;
  again ← api_io (owner (out (k_read fd (zlen raw + 1))));
  check (str_eqb again raw) "API_CREDENTIAL_MEMFD_CHANGED" ;;
  context ← api_io (owner (tls_context ca fd false));
  _close_memfd ;;
  api_transport_check ;;
  mret context.

Definition acquire_api_socket (v6 : bool) : broking unit :=
  s ← owner (out (k_inet_socket v6));
  keep (change_api (api_socket (Some s) None None false)) ;;
  fd ← owner (out (k_fileno s));
  keep (change_api (api_socket (Some s) (Some fd) None false)) ;;
  pin ← _fd_pin Broker_service fd;
  keep (change_api (api_socket (Some s) (Some fd) (Some pin) false)) ;;
  check (nth 2 pin 0 =? 49152) "API_SOCKET_TYPE".

Definition api_sock : broking Z :=
  x ← step an_api; lift (match ap_sock x with Some s => Ok s | None => Raise AttributeError end).

(** A reading of the clock between the last check and an end. *)
Definition reading_before (end_ : Z) : broking Z :=
  before ← owner (out clock_ticks);
  x ← step an_api;
  check ((ap_last x <=? before) && (before <? end_)) "API_CONNECT_DEADLINE" ;;
  mret before.

(* @src src/src/harness_conformance/live_proxy_server.py:4064-4090 _BrokerApi.__init__ *)
Definition api_connect : broking unit :=
  x ← step an_api;
  let v6 := negb (ints_eqb (ap_target x).2 []) in
  finally (acquire_api_socket v6) api_transport_check ;;
  s ← api_sock;
  api_io (owner (out (k_private s))) ;;
  (if v6 : bool then api_io (owner (out (k_v6_only s))) else mret tt) ;;
  started ← owner (out clock_ticks);
  l ← PeerLink.see id;
  let end_ := Z.min (PeerLink.deadline l) (started + 10 * SECOND) in
  api_transport_check ;;
  before ← reading_before end_;
  api_io (owner (out (k_timeout s (Z.min (2 * SECOND) (end_ - before))))) ;;
  before ← reading_before end_;
  let in_time := now ← owner (out clock_ticks); check ((before <=? now) && (now <? end_)) "API_CONNECT_DEADLINE" in
  finally
    (owner (out (k_timeout s (Z.min (2 * SECOND) (end_ - before)))) ;;
     in_time ;;
     owner (out (k_connect s (ap_target x))) ;;
     keep (change_api (fun x => api_socket (ap_sock x) (ap_socket_fd x) (ap_socket_pin x) true x)))
    (api_transport_check ;; in_time).


(** ** The connection *)

Definition blank_api : api :=
  {| ap_closed := false; ap_failed := false; ap_ready := false; ap_checking := false; ap_cleanup := None; ap_sock := None;
     ap_socket_fd := None; ap_socket_pin := None; ap_memfd := None; ap_memfd_pin := None; ap_tls := None; ap_connected := false;
     ap_last := 0; ap_action := []; ap_endpoint := []; ap_ca := []; ap_target := ([], 0, []) |}.
Definition bound_api (last : Z) (action : bytes) (endpoint ca : bytes) (target : inet_name) (x : api) : api :=
  {| ap_closed := ap_closed x; ap_failed := ap_failed x; ap_ready := ap_ready x; ap_checking := ap_checking x; ap_cleanup := ap_cleanup x;
     ap_sock := ap_sock x; ap_socket_fd := ap_socket_fd x; ap_socket_pin := ap_socket_pin x; ap_memfd := ap_memfd x;
     ap_memfd_pin := ap_memfd_pin x; ap_tls := ap_tls x; ap_connected := ap_connected x; ap_last := last; ap_action := action;
     ap_endpoint := endpoint; ap_ca := ca; ap_target := target |}.

(** What the connection is for, of the pending action and of the retained inputs. *)
(* @src src/src/harness_conformance/live_proxy_server.py:4018-4039 _BrokerApi.__init__ *)
Definition bind_api : broking unit :=
  present ← kept (fun p => match a_events p with Some _ => true | None => false end);
  check present "API_BROKER_EVENTS_REQUIRED" ;;
  last ← owner (out clock_ticks);
  action ← reads (fun s => pending_octets s.2.1);
  '(endpoint_raw, ca) ← reads (inputs_now action);
  endpoint ← lift (document (Raw endpoint_raw) 262144);
  target ← lift (target_of endpoint);
  keep (change_api (bound_api last action endpoint_raw ca target)).

(** The credential of the endpoint, read once, of the enrolled client. *)
(* @src src/src/harness_conformance/live_proxy_server.py:4041-4044 _BrokerApi.__init__ *)
Definition api_credential (endpoint : value) : broking bytes :=
  path ← lift (text_of endpoint "credentialFileReference");
  known ← reads (fun s => Ok (dhas path (Files.raw (srv_secrets s.2.2))));
  check (negb known) "API_CREDENTIAL_ALREADY_READ" ;;
  raw ← api_io (owner (on_secrets (Files.read path None (Some 256) 262144)));
  leaf ← lift (credential_leaf raw);
  a ← own_authority;
  _ ← api_io (lift (_check_certificate leaf (the_profile a) endpoint true));
  mret raw.

(* @src src/src/harness_conformance/live_proxy_server.py:4091-4094 _BrokerApi.__init__ *)
Definition api_handshake (context : Z) (endpoint : value) : broking unit :=
  s ← api_sock;
  name ← lift (t ← fld endpoint "tls"; fld t "serverName");
  deadline ← PeerLink.see PeerLink.deadline;
  t ← open_stream s context name false deadline;
  keep (change_api (api_tls (Some t))) ;;
  api_transport_check ;;
  a ← own_authority;
  on_api_tls (handshake fuel (the_profile a) endpoint false) ;;
  api_transport_check.

(* @src src/src/harness_conformance/live_proxy_server.py:4011-4102 _BrokerApi.__init__ *)
Definition new_api : broking unit :=
  on_exception
    (bind_api ;;
     x ← step an_api;
     endpoint ← lift (endpoint_of x);
     api_transport_check ;;
     raw ← api_credential endpoint;
     context ← sealed_context raw (ap_ca x);
     api_connect ;;
     api_handshake context endpoint ;;
     keep (change_api api_ready))
    (fun _ => keep (change_api api_failed) ;; _ ← attempt api_close; mret tt).

(* @src src/src/harness_conformance/live_proxy_server.py:4104-4116 _BrokerApi.check *)
Definition api_check : broking unit :=
  on_exception
    (x ← step an_api;
     check (ap_ready x) "API_NOT_READY" ;;
     api_transport_check)
    (fun _ => keep (change_api api_failed) ;; broker_failed ;; broker_abandon).

(** ** The exchange *)

Definition blank_exchange : exchange :=
  {| ex_failed := false; ex_complete := false; ex_attempted := false; ex_action := []; ex_request := []; ex_response := None |}.
Definition bound_exchange (action request : bytes) (x : exchange) : exchange :=
  {| ex_failed := ex_failed x; ex_complete := ex_complete x; ex_attempted := ex_attempted x; ex_action := action; ex_request := request;
     ex_response := ex_response x |}.

(** The request of the action that was announced, over the authenticated connection. *)
(* @src src/src/harness_conformance/live_proxy_server.py:4255-4265 _BrokerCreateExchange.__init__ *)
Definition bind_exchange : broking intent :=
  a ← kept an_api;
  check (match a with Some a => ap_ready a | None => false end) "API_EXCHANGE_AUTHENTICATION_REQUIRED" ;;
  o ← kept an_intent;
  check (match o with Some i => in_committed i && negb (in_failed i) | None => false end) "API_EXCHANGE_INTENT_REQUIRED" ;;
  x ← step an_api;
  i ← step an_intent;
  endpoint ← lift (endpoint_of x);
  request ← lift (_request i endpoint);
  keep (change_exchange (bound_exchange (in_action i) request)) ;;
  mret i.

(** Written once: the exchange counts as attempted from before the writing. *)
(* @src src/src/harness_conformance/live_proxy_server.py:4268-4272 _BrokerCreateExchange.__init__ *)
Definition exchange_octets : broking bytes :=
  keep (change_exchange exchange_attempted) ;;
  e ← step an_exchange;
  on_api_tls (write fuel (ex_request e)) ;;
  api_transport_check ;;
  '(_, raw) ← on_api_tls (@read_http _ (tls_stream fuel) true None);
  api_transport_check ;;
  mret raw.

(* @src src/src/harness_conformance/live_proxy_server.py:4252-4282 _BrokerCreateExchange.__init__ *)
Definition new_exchange : broking unit :=
  on_exception
    (i ← bind_exchange;
     exchange_state_check ;;
     api_transport_check ;;
     raw ← exchange_octets;
     check ((0 <? zlen raw) && (zlen raw <=? 16384)) "API_EXCHANGE_RESPONSE_SIZE" ;;
     _ ← lift (resource_of i (Raw raw));
     keep (change_exchange (exchange_response raw)) ;;
     api_transport_check)
    (fun _ => keep (change_exchange exchange_failed)).

(* @src src/src/harness_conformance/live_proxy_server.py:4320-4334 _BrokerCreateExchange.check *)
Definition exchange_check : broking unit :=
  on_exception
    (e ← step an_exchange;
     check (ex_complete e) "API_EXCHANGE_NOT_COMPLETE" ;;
     exchange_state_check ;;
     api_transport_check ;;
     exchange_state_check)
    (fun _ => keep (change_exchange exchange_failed) ;; broker_failed ;; poison_intent ;; broker_abandon).
End api.
