(* ===== verification/BrokerCreate.v ===== *)
(** live_proxy_server.py, [_BrokerCreated] and [_BrokerCreateResult]: the created object is
    accounted for in the admission log, and then the broker is told once. *)

From S2P Require Import Prelude Effects PyVal Utf8 Json Sha2 Canonical Base64 Ed25519 IsoTime Regex Text Posix.
From S2P Require Import SchemaBase Ipaddr Lifecycle LinuxShape Live LinuxVerify Session ReplayStore Supervisor BackendAuthority Launcher.
From S2P Require Import ProxySpecs ProxyDocument MutationAdmission Observation AdmissionLedger Broker Qualification Der Http.
From S2P Require Import Boundary Custody Files Store PeerLink Observer TlsCodec BrokerData ServerBase BrokerStart BrokerClose BrokerIntent BrokerApi.

#[local] Open Scope string_scope.
#[local] Open Scope list_scope.
#[local] Open Scope Z_scope.

(** ** The created object *)

Definition blank_created : created :=
  {| cr_failed := false; cr_committed := false; cr_writing := false; cr_advanced := false; cr_before := []; cr_response := [];
     cr_action := []; cr_row := []; cr_after := []; cr_digest := [] |}.
Definition bound_created (before response action row after : bytes) (x : created) : created :=
  {| cr_failed := cr_failed x; cr_committed := cr_committed x; cr_writing := cr_writing x; cr_advanced := cr_advanced x; cr_before := before;
     cr_response := response; cr_action := action; cr_row := row; cr_after := after; cr_digest := byte_digest row |}.

(** ** The result *)

Definition blank_result : result :=
  {| re_failed := false; re_complete := false; re_attempted := false; re_before := []; re_response := []; re_record := []; re_action := [];
     re_ledger := []; re_frame := []; re_after := [] |}.
Definition bound_result (before : bytes) (c : created) (frame after : bytes) (x : result) : result :=
  {| re_failed := re_failed x; re_complete := re_complete x; re_attempted := re_attempted x; re_before := before;
     re_response := cr_response c; re_record := cr_row c; re_action := cr_action c; re_ledger := cr_after c; re_frame := frame;
     re_after := after |}.

Section candidate.
Context {U : Unicode}.

Definition optional (v : value) : option value := match v with VNone => None | _ => Some v end.
Definition bool_of (v : value) : res bool := match v with VBool b => Ok b | _ => Raise TypeError end.

(** A transcript with the fields of a snapshot and no chunks.  A snapshot has them with the types
    they are taken at here. *)
(* @src src/src/harness_conformance/live_proxy_server.py:4521-4524 _BrokerCreateResult._candidate *)
Definition restored (opened : transcript) (before : value) : res transcript :=
  sequence ← int_of before "sequence";
  previous ← text_of before "previous";
  execution ← fld before "execution";
  pending ← fld before "pending";
  cleanup ← fld before "cleanup";
  terminal ← fld before "terminal";
  size ← int_of before "receipt_size";
  failed ← (v ← fld before "failed_action"; bool_of v);
  poisoned ← (v ← fld before "poisoned"; bool_of v);
  actions ← (l ← elements before "actions"; py_set l);
  Ok {| Broker.binding := Broker.binding opened; Broker.dispatch := Broker.dispatch opened;
        at_place := {| Broker.sequence := sequence; Broker.previous := previous; Broker.execution := optional execution |};
        done_so_far := {| Broker.pending := optional pending; Broker.cleanup := optional cleanup; Broker.terminal := optional terminal;
                          actions := actions; chunks := []; receipt_size := size; failed_action := failed |};
        Broker.poisoned := poisoned |}.

(** [{**started, ...}] *)
Definition overlay (v : value) (fields : dict) : res value :=
  match v with VDict d => Ok (VDict (foldl (fun d kv => dset kv.1 kv.2 d) d fields)) | _ => Raise TypeError end.

(** The frame that answers the action, and the snapshot of the transcript with it. *)
(* @src src/src/harness_conformance/live_proxy_server.py:4511-4533 _BrokerCreateResult._candidate *)
Definition _candidate (r : result) (t : start) (e : events) : res (bytes * bytes) :=
  before ← document (Raw (re_before r)) 262144;
  action ← document (Raw (re_action r)) 16384;
  require_m (fld_eq before "pending" action <&&> fld_lit action "verb" "CREATE" <&&>
             (v ← fld before "chunks"; Ok (negb (truthy v))) <&&> (v ← fld before "cleanup"; Ok (is_none v)) <&&>
             (v ← fld before "terminal"; Ok (is_none v))) "BROKER_RESULT_PHASE_INVALID" ;;
  opened ← open_transcript (Raw (st_binding t)) (Raw (st_dispatch t));
  candidate ← restored opened before;
  require_m (s ← _snapshot candidate; Ok (str_eqb s (re_before r))) "BROKER_RESULT_TRANSCRIPT_CHANGED" ;;
  started ← document (Raw (ev_frame e)) 16384;
  id ← fld action "actionId";
  frame ← overlay started
    [(u "sequence", VInt (sequence (at_place candidate) + 1)); (u "previousDigest", VStr (Broker.previous (at_place candidate)));
     (u "kind", VStr (u "RESOURCE_RESULT"));
     (u "payload", VDict [(u "actionId", id); (u "outcome", VStr (u "CREATED")); (u "objectBase64", VStr (b64encode (re_response r)))])];
  raw ← canonical_bytes frame;
  require ((0 <? zlen raw) && (zlen raw <=? 65536)) "BROKER_RESULT_FRAME_SIZE" ;;
  let '(answer, candidate') := accept (Raw raw) "SERVER" candidate in
  _ ← answer;
  after ← _snapshot candidate';
  Ok (raw, after).
End candidate.

Definition same_pair (a b : bytes * bytes) : bool := str_eqb a.1 b.1 && str_eqb a.2 b.2.

Section create.
Context {U : Unicode} {Sg : SigScheme} {W : Type} {Si : Site W}.
#[local] Notation broking := (broking (W := W)).
#[local] Notation state := (link * (steps * server W))%type.

(** The passes of a TLS loop that the peer can keep going. *)
Context (fuel : nat).

(** ** Accounting for the object *)

(* @src src/src/harness_conformance/live_proxy_server.py:4438-4441 _BrokerCreated._check *)
Definition created_bracket : broking unit := created_state_check ;; exchange_check ;; created_state_check.

(** The exchange is complete and its intent is durable. *)
(* @src src/src/harness_conformance/live_proxy_server.py:4352-4361 _BrokerCreated.__init__ *)
Definition created_from : broking (intent * exchange) :=
  o ← kept an_exchange;
  check (match o with Some e => ex_complete e && ex_attempted e && negb (ex_failed e) | None => false end)
    "BROKER_CREATED_EXCHANGE_REQUIRED" ;;
  o ← kept an_intent;
  check (match o with Some i => in_committed i && in_advanced i && negb (in_failed i) | None => false end)
    "BROKER_CREATED_INTENT_REQUIRED" ;;
  i ← step an_intent;
  e ← step an_exchange;
  mret (i, e).

(** The row and the history with it, before anything is written. *)
(* @src src/src/harness_conformance/live_proxy_server.py:4362-4376 _BrokerCreated.__init__ *)
Definition plan_created : broking (intent * value * bytes) :=
  '(i, e) ← created_from;
  response ← lift (match ex_response e with Some b => Ok b | None => Raise TypeError end);
  now ← PeerLink.beyond wall;
  resource ← lift (resource_of i (Raw response));
  '(row, after) ← lift (resource_row "CREATED" (in_reservation i) (in_operation i) now resource (in_after i));
  keep (change_created (bound_created (in_after i) response (in_action i) row after)) ;;
  mret (i, now, response).

(** The row is written once; the dispatch is pinned to the history only when it was read back. *)
(* @src src/src/harness_conformance/live_proxy_server.py:4378-4393 _BrokerCreated.__init__ *)
Definition write_created (i : intent) (now : value) (response : bytes) : broking unit :=
  broker_phase
    (events_check ;;
     created_state_check ;;
     keep (change_created created_writing) ;;
     c ← step a_created;
     digest ← record_row "CREATED" i now (cr_before c) (Raw response);
     check (str_eqb digest (cr_digest c)) "BROKER_CREATED_COMMIT_MISMATCH" ;;
     history ← read_history;
     check (str_eqb history (cr_after c)) "BROKER_CREATED_READBACK_MISMATCH" ;;
     intent_pending_check ;;
     created_state_check ;;
     keep (change_start (start_ledger (cr_after c))) ;;
     keep (change_created created_advanced) ;;
     events_check ;;
     created_state_check).

(* @src src/src/harness_conformance/live_proxy_server.py:4343-4397 _BrokerCreated.__init__ *)
Definition new_created : broking unit :=
  on_exception
    ('(i, now, response) ← plan_created;
     created_bracket ;;
     write_created i now response ;;
     created_bracket)
    (fun _ => poison_created).

(* @src src/src/harness_conformance/live_proxy_server.py:4443-4460 _BrokerCreated.check *)
Definition created_check : broking unit :=
  on_exception
    (c ← step a_created;
     check (cr_committed c && cr_advanced c) "BROKER_CREATED_NOT_COMMITTED" ;;
     created_bracket)
    (fun _ => poison_created ;; poison_intent ;; broker_failed ;; broker_abandon).

(** ** Telling the broker *)

Definition candidate_now (r : result) (p : steps) : res (bytes * bytes) :=
  match a_start p, a_events p with Some t, Some e => _candidate r t e | _, _ => Raise AttributeError end.

(** What the result was made from is as it was. *)
(* @src src/src/harness_conformance/live_proxy_server.py:4550-4554 _BrokerCreateResult._state_check *)
Definition result_inputs (r : result) (c : created) (s : state) : res bool :=
  match a_events s.2.1, a_start s.2.1, a_transcript s.2.1 with
  | Some e, Some t, Some tr =>
      now ← _snapshot tr;
      Ok (str_eqb (re_before r) (ev_snapshot e) && str_eqb (ev_snapshot e) now && str_eqb (re_action r) (cr_action c) &&
          str_eqb (re_response r) (cr_response c) && str_eqb (re_record r) (cr_row c) && str_eqb (re_ledger r) (cr_after c) &&
          str_eqb (cr_after c) (st_ledger t) && same_deadline s)
  | _, _, _ => Raise AttributeError
  end.

(* @src src/src/harness_conformance/live_proxy_server.py:4535-4555 _BrokerCreateResult._state_check *)
Definition result_state_check : broking unit :=
  r ← step a_result;
  ok ← kept (fun p => match a_created p with
                      | Some c => negb (re_failed r) && cr_committed c && cr_advanced c && negb (cr_failed c)
                      | None => false
                      end);
  check ok "BROKER_RESULT_OWNER_CHANGED" ;;
  created_state_check ;;
  c ← step a_created;
  reads (fun s => require_m (result_inputs r c s) "BROKER_RESULT_INPUT_CHANGED") ;;
  reads (fun s => require_m (n ← candidate_now r s.2.1; Ok (same_pair (re_frame r, re_after r) n)) "BROKER_RESULT_CANDIDATE_CHANGED").

(* @src src/src/harness_conformance/live_proxy_server.py:4557-4560 _BrokerCreateResult._guard *)
Definition result_guard : broking unit := result_state_check ;; events_check ;; result_state_check.
(* @src src/src/harness_conformance/live_proxy_server.py:4562-4565 _BrokerCreateResult._check *)
Definition result_bracket : broking unit := result_state_check ;; created_check ;; result_state_check.

(** The frame, of an object that is durably accounted for. *)
(* @src src/src/harness_conformance/live_proxy_server.py:4481-4494 _BrokerCreateResult.__init__ *)
Definition bind_result : broking unit :=
  o ← kept a_created;
  check (match o with Some c => cr_committed c && cr_advanced c && negb (cr_failed c) | None => false end)
    "BROKER_RESULT_CREATED_REQUIRED" ;;
  c ← step a_created;
  e ← step a_events;
  keep (change_result (bound_result (ev_snapshot e) c [] [])) ;;
  r ← step a_result;
  '(frame, after) ← reads (fun s => candidate_now r s.2.1);
  keep (change_result (bound_result (ev_snapshot e) c frame after)).

(** Sent once: the result counts as attempted from before the sending. *)
(* @src src/src/harness_conformance/live_proxy_server.py:4496-4505 _BrokerCreateResult.__init__ *)
Definition send_result : broking unit :=
  broker_phase
    (result_guard ;;
     r ← step a_result;
     broker_wait ;;
     keep (change_result result_attempted) ;;
     finally (send_message (re_frame r) "BROKER_RESULT_SEND_AMBIGUOUS") result_guard).

(* @src src/src/harness_conformance/live_proxy_server.py:4475-4509 _BrokerCreateResult.__init__ *)
Definition new_result : broking unit :=
  on_exception (bind_result ;; result_bracket ;; send_result ;; result_bracket) (fun _ => poison_result).

(* @src src/src/harness_conformance/live_proxy_server.py:4567-4581 _BrokerCreateResult.check *)
Definition result_check : broking unit :=
  on_exception
    (r ← step a_result;
     check (re_complete r && re_attempted r) "BROKER_RESULT_NOT_COMPLETE" ;;
     result_bracket)
    (fun _ => poison_result ;; broker_failed ;; broker_abandon).
End create.
