(* ===== verification/BrokerSteps.v ===== *)
(** live_proxy_server.py, [_BrokerCreateRetirement] and the methods of [_Broker].  The retirement closes
    the connection to the API and advances the transcript by the frame that was sent; what the earlier
    steps retained may not change, before or after.  Each method of the broker makes one step of the
    creation, at most once, and publishes it only after the last check; any failure closes the
    connection for good. *)

From S2P Require Import Prelude Effects PyVal Utf8 Json Sha2 Canonical Base64 Ed25519 IsoTime Regex Text Posix.
From S2P Require Import SchemaBase Ipaddr Lifecycle LinuxShape Live LinuxVerify Session ReplayStore Supervisor BackendAuthority Launcher.
From S2P Require Import ProxySpecs ProxyDocument MutationAdmission Observation AdmissionLedger Broker Qualification Der Http.
From S2P Require Import Boundary Custody Files Store PeerLink Observer TlsCodec BrokerData ServerBase BrokerStart BrokerClose BrokerIntent BrokerApi BrokerCreate.

#[local] Open Scope string_scope.
#[local] Open Scope list_scope.
#[local] Open Scope Z_scope.

(** ** The retained data *)

Definition scalar_of (v : value) : res scalar :=
  match v with
  | VNone => Ok Nothing
  | VBool b => Ok (Flag b)
  | VInt z => Ok (Number z)
  | VStr s => Ok (Characters s)
  | _ => conf "BROKER_RETIREMENT_DATA_TYPE"
  end.
Definition octets_or_nothing (o : option bytes) : scalar := match o with Some b => Octets b | None => Nothing end.
Definition scalar_eqb (a b : scalar) : bool :=
  match a, b with
  | Octets x, Octets y | Characters x, Characters y => str_eqb x y
  | Number x, Number y => x =? y
  | Flag x, Flag y => Bool.eqb x y
  | Nothing, Nothing => true
  | _, _ => false
  end.
Fixpoint scalars_eqb (a b : list scalar) : bool :=
  match a, b with
  | [], [] => true
  | x :: a, y :: b => scalar_eqb x y && scalars_eqb a b
  | _, _ => false
  end.

(** The three numbers of a pinned descriptor. *)
Definition pinned (o : option (list Z)) : res (list scalar) :=
  match o with
  | Some [a; b; c] => Ok [Number a; Number b; Number c]
  | _ => conf "BROKER_RETIREMENT_DESCRIPTOR_PIN"
  end.

Section data.
Context {U : Unicode}.

(** The deadline [d] is one number for the five owners that keep it. *)
(* @src src/src/harness_conformance/live_proxy_server.py:4649-4669 _BrokerCreateRetirement._retained_data *)
Definition _retained_data (r : result) (c : created) (i : intent) (e : exchange) (a : api) (d : Z) (profile : value) : res (list scalar) :=
  socket_pin ← pinned (ap_socket_pin a);
  memfd_pin ← pinned (ap_memfd_pin a);
  endpoint ← (v ← endpoint_of a; canonical_bytes v);
  profile ← canonical_bytes profile;
  operation ← scalar_of (in_operation i);
  Ok ([Octets (re_before r); Octets (re_after r); Octets (re_frame r); Octets (re_response r); Octets (re_record r); Octets (re_action r);
       Octets (re_ledger r); Number d; Flag (re_complete r); Flag (re_attempted r);
       Octets (cr_before c); Octets (cr_after c); Octets (cr_row c); Octets (cr_row c); Characters (cr_digest c); Octets (cr_response c);
       Octets (cr_action c); Number d; Flag (cr_committed c); Flag (cr_writing c); Flag (cr_advanced c);
       Octets (in_before i); Octets (in_after i); Octets (in_row i); Characters (in_digest i); Octets (in_action i); Octets (in_profile i);
       Octets (in_reservation i); Octets (in_binding i); operation; Number d; Flag (in_committed i); Flag (in_writing i);
       Flag (in_advanced i);
       Octets (ex_request e); octets_or_nothing (ex_response e); octets_or_nothing (ex_response e); Octets (ex_action e); Number d;
       Flag (ex_complete e); Flag (ex_attempted e);
       Octets (ap_action a); Octets (ap_endpoint a); Octets (ap_ca a); Number d;
       match ap_socket_fd a with Some fd => Number fd | None => Nothing end] ++ socket_pin ++ memfd_pin ++ [Octets endpoint; Octets profile]).
End data.

(** ** The retirement *)

Definition blank_retirement : retirement :=
  {| rt_failed := false; rt_complete := false; rt_retired := false; rt_advanced := false; rt_socket := None; rt_engine := None; rt_data := [] |}.
Definition bound_retirement (a : api) (d : list scalar) (x : retirement) : retirement :=
  {| rt_failed := rt_failed x; rt_complete := rt_complete x; rt_retired := rt_retired x; rt_advanced := rt_advanced x; rt_socket := ap_sock a;
     rt_engine := t_engine <$> ap_tls a; rt_data := d |}.

Section retire.
Context {U : Unicode} {Sg : SigScheme} {W : Type} {Si : Site W}.
#[local] Notation broking := (broking (W := W)).
#[local] Notation state := (link * (steps * server W))%type.

(** The passes of a TLS loop that the peer can keep going. *)
Context (fuel : nat).

Definition same_int (a b : option Z) : bool :=
  match a, b with Some x, Some y => x =? y | None, None => true | _, _ => false end.

(** The steps before, and what they retain now. *)
Definition data_now (s : state) : res (list scalar) :=
  match a_result s.2.1, a_created s.2.1, an_intent s.2.1, an_exchange s.2.1, an_api s.2.1, srv_authority s.2.2 with
  | Some r, Some c, Some i, Some e, Some a, Some o => _retained_data r c i e a (PeerLink.deadline s.1) (the_profile o)
  | _, _, _, _, _, _ => Raise AttributeError
  end.

(** No step failed, and every step is there. *)
(* @src src/src/harness_conformance/live_proxy_server.py:4671-4704 _BrokerCreateRetirement._owners_check *)
Definition owners_check : broking unit :=
  x ← step a_retirement;
  ok ← reads (fun s => Ok (negb (rt_failed x) && negb (PeerLink.closed s.1) && negb (PeerLink.failed s.1) &&
    match a_result s.2.1, a_created s.2.1, an_intent s.2.1, an_exchange s.2.1, an_api s.2.1, a_events s.2.1, a_start s.2.1 with
    | Some r, Some c, Some i, Some e, Some a, Some _, Some _ =>
        negb (re_failed r) && negb (cr_failed c) && negb (in_failed i) && negb (ex_failed e) && negb (ap_failed a) &&
        match srv_store s.2.2 with Some _ => true | None => false end && negb (poisoned_log s.2.2)
    | _, _, _, _, _, _, _ => false
    end));
  check ok "BROKER_RETIREMENT_OWNER_CHANGED".

(** The data is the retained data, and still makes the frame and the endpoint. *)
(* @src src/src/harness_conformance/live_proxy_server.py:4709-4716 _BrokerCreateRetirement._state_check *)
Definition retained_data_check (x : retirement) : broking unit :=
  r ← step a_result;
  a ← step an_api;
  t ← step a_start;
  reads (fun s => require_m
    ((d ← data_now s; Ok (scalars_eqb d (rt_data x) && str_eqb (st_ledger t) (re_ledger r) && same_deadline s)) <&&>
     (n ← candidate_now r s.2.1; Ok (same_pair n (re_frame r, re_after r))) <&&>
     (n ← inputs_now (ap_action a) s; Ok (same_pair n (ap_endpoint a, ap_ca a)))) "BROKER_RETIREMENT_DATA_CHANGED").

(** The transcript is the one before the frame, or the one after it. *)
(* @src src/src/harness_conformance/live_proxy_server.py:4717-4722 _BrokerCreateRetirement._state_check *)
Definition retired_transcript_check (x : retirement) : broking unit :=
  r ← step a_result;
  e ← step a_events;
  let expected := if rt_advanced x then re_after r else re_before r in
  check ((negb (rt_advanced x) || rt_retired x) && str_eqb (ev_snapshot e) expected) "BROKER_RETIREMENT_TRANSCRIPT_CHANGED" ;;
  now ← snapshot_now;
  check (str_eqb now expected) "BROKER_RETIREMENT_TRANSCRIPT_CHANGED".

Definition absent {A} (o : option A) : bool := match o with None => true | Some _ => false end.

(** The connection is closed for good, or is the one that was ready. *)
(* @src src/src/harness_conformance/live_proxy_server.py:4723-4734 _BrokerCreateRetirement._state_check *)
Definition retired_api_check (closing : bool) (x : retirement) : broking unit :=
  a ← step an_api;
  if closing || rt_retired x then
    check (ap_closed a && negb (ap_ready a) && negb (ap_checking a) && absent (ap_cleanup a) && absent (ap_sock a) && absent (ap_tls a) &&
           absent (ap_memfd a)) "BROKER_RETIREMENT_API_NOT_CLOSED"
  else
    check (negb (ap_closed a) && ap_ready a && absent (ap_cleanup a)) "BROKER_RETIREMENT_API_NOT_READY" ;;
    check (same_int (ap_sock a) (rt_socket x) && same_int (t_engine <$> ap_tls a) (rt_engine x) && absent (ap_memfd a))
      "BROKER_RETIREMENT_TRANSPORT_CHANGED".

(* @src src/src/harness_conformance/live_proxy_server.py:4706-4734 _BrokerCreateRetirement._state_check *)
Definition retirement_state_check (closing : bool) : broking unit :=
  owners_check ;;
  x ← step a_retirement;
  retained_data_check x ;;
  retired_transcript_check x ;;
  retired_api_check closing x.

(* @src src/src/harness_conformance/live_proxy_server.py:4736-4743 _BrokerCreateRetirement._check *)
Definition retirement_bracket (closing : bool) : broking unit :=
  owners_check ;; events_check ;; retirement_state_check closing ;; events_check ;; retirement_state_check closing.

(** The result that was sent, checked for the last time over the live connection. *)
(* @src src/src/harness_conformance/live_proxy_server.py:4601-4618 _BrokerCreateRetirement.__init__ *)
Definition bind_retirement : broking unit :=
  o ← kept a_result;
  check (match o with Some r => re_complete r && re_attempted r && negb (re_failed r) | None => false end)
    "BROKER_RETIREMENT_DELIVERY_REQUIRED" ;;
  result_check ;;
  a ← step an_api;
  d ← reads data_now;
  keep (change_retirement (bound_retirement a d)).

(** The connection is closed; a failure of closing is kept over those of the check after it. *)
(* @src src/src/harness_conformance/live_proxy_server.py:4621-4633 _BrokerCreateRetirement.__init__ *)
Definition close_for_good : broking unit :=
  on_exception api_close (fun _ => _ ← attempt (retirement_bracket true); mret tt) ;;
  retirement_bracket true ;;
  keep (change_retirement retirement_retired) ;;
  retirement_bracket false.

(** The frame that was sent enters the transcript. *)
(* @src src/src/harness_conformance/live_proxy_server.py:4634-4640 _BrokerCreateRetirement.__init__ *)
Definition advance_transcript : broking unit :=
  r ← step a_result;
  _ ← accept_into (re_frame r) "SERVER";
  now ← snapshot_now;
  check (str_eqb now (re_after r)) "BROKER_RETIREMENT_ADVANCE_MISMATCH" ;;
  keep (change_events (events_snapshot (re_after r))) ;;
  keep (change_retirement retirement_advanced).

(* @src src/src/harness_conformance/live_proxy_server.py:4596-4647 _BrokerCreateRetirement.__init__ *)
Definition new_retirement : broking unit :=
  on_exception
    (bind_retirement ;;
     broker_phase (retirement_bracket false ;; close_for_good ;; advance_transcript ;; retirement_bracket false) ;;
     broker_phase (retirement_bracket false))
    (fun _ => poison_retirement).

(* @src src/src/harness_conformance/live_proxy_server.py:4745-4762 _BrokerCreateRetirement.check *)
Definition retirement_check : broking unit :=
  on_exception
    (x ← step a_retirement;
     check (rt_complete x && rt_retired x && rt_advanced x) "BROKER_RETIREMENT_NOT_COMPLETE" ;;
     broker_phase (retirement_bracket false))
    (fun _ => poison_retirement ;; broker_failed ;; broker_abandon).
End retire.

Section steps.
Context {U : Unicode} {Sg : SigScheme} {W : Type} {Si : Site W}.
#[local] Notation broking := (broking (W := W)).

(** The passes of a TLS loop that the peer can keep going. *)
Context (fuel : nat).

(** The connection is usable and the step was not attempted. *)
Definition first_attempt {A} (f : steps -> option A) (code : string) : broking unit :=
  ok ← reads (fun s => Ok (negb (PeerLink.closed s.1) && negb (PeerLink.failed s.1) && negb (PeerLink.busy s.1) && absent (f s.2.1)));
  check ok code.

(* @src src/src/harness_conformance/live_proxy_server.py:3444-3461 _Broker.begin *)
Definition begin : broking unit :=
  on_exception
    (broker_phase
       (fresh ← kept (fun p => absent (a_start p));
        check fresh "BROKER_DISPATCH_ALREADY_OWNED" ;;
        keep (set_start (Some blank_start)) ;;
        new_start) ;;
     keep (change_start published_start))
    (fun _ => keep (change_start failed_start) ;; broker_abandon).

(* @src src/src/harness_conformance/live_proxy_server.py:3463-3481 _Broker.poll *)
Definition poll : broking (option bytes) :=
  on_exception
    (broker_phase
       (fresh ← kept (fun p => absent (a_events p));
        (if (fresh : bool) then keep (set_events (Some blank_events)) ;; new_events else mret tt) ;;
        receive_event))
    (fun _ => keep (change_events failed_events) ;; broker_abandon).

(* @src src/src/harness_conformance/live_proxy_server.py:3483-3496 _Broker.prepare_api *)
Definition prepare_api : broking unit :=
  on_exception
    (first_attempt an_api "BROKER_API_ALREADY_ATTEMPTED" ;;
     keep (set_api (Some blank_api)) ;;
     new_api fuel)
    (fun _ => broker_failed ;; broker_abandon).

(** The intent is committed only when its history is the one the dispatch is pinned to. *)
(* @src src/src/harness_conformance/live_proxy_server.py:3505-3509 _Broker.record_create_intent *)
Definition publish_intent : broking unit :=
  ok ← reads (fun s => match an_intent s.2.1, a_start s.2.1 with
                       | Some i, Some t => Ok (negb (in_failed i) && negb (poisoned_log s.2.2) && str_eqb (st_ledger t) (in_after i))
                       | _, _ => Ok false
                       end);
  check ok "BROKER_INTENT_PUBLICATION_CHANGED" ;;
  keep (change_intent intent_committed).

(* @src src/src/harness_conformance/live_proxy_server.py:3498-3518 _Broker.record_create_intent *)
Definition record_create_intent : broking unit :=
  on_exception
    (broker_phase
       (fresh ← kept (fun p => absent (an_intent p));
        check fresh "BROKER_INTENT_ALREADY_ATTEMPTED" ;;
        keep (set_intent (Some blank_intent)) ;;
        new_intent) ;;
     publish_intent)
    (fun _ => broker_failed ;; poison_intent ;; broker_abandon).

(* @src src/src/harness_conformance/live_proxy_server.py:3520-3542 _Broker.exchange_api_create *)
Definition exchange_api_create : broking unit :=
  on_exception
    (first_attempt an_exchange "BROKER_EXCHANGE_ALREADY_ATTEMPTED" ;;
     keep (set_exchange (Some blank_exchange)) ;;
     new_exchange fuel ;;
     e ← step an_exchange;
     check (negb (ex_failed e) && negb (absent (ex_response e))) "BROKER_EXCHANGE_PUBLICATION_CHANGED" ;;
     keep (change_exchange exchange_complete))
    (fun _ => broker_failed ;; keep (change_exchange exchange_failed) ;; poison_intent ;; broker_abandon).

(* @src src/src/harness_conformance/live_proxy_server.py:3544-3567 _Broker.record_api_created *)
Definition record_api_created : broking unit :=
  on_exception
    (first_attempt a_created "BROKER_CREATED_ALREADY_ATTEMPTED" ;;
     keep (set_created (Some blank_created)) ;;
     new_created ;;
     c ← step a_created;
     check (negb (cr_failed c) && cr_advanced c) "BROKER_CREATED_PUBLICATION_CHANGED" ;;
     created_state_check ;;
     keep (change_created created_committed))
    (fun _ => broker_failed ;; poison_created ;; poison_intent ;; broker_abandon).

(* @src src/src/harness_conformance/live_proxy_server.py:3569-3590 _Broker.send_create_result *)
Definition send_create_result : broking unit :=
  on_exception
    (first_attempt a_result "BROKER_RESULT_ALREADY_ATTEMPTED" ;;
     keep (set_result (Some blank_result)) ;;
     new_result ;;
     r ← step a_result;
     check (negb (re_failed r) && re_attempted r) "BROKER_RESULT_PUBLICATION_CHANGED" ;;
     result_state_check ;;
     keep (change_result result_complete))
    (fun _ => o ← kept a_result;
              match o with None => mret tt | Some _ => poison_result end ;; broker_failed ;; broker_abandon).

(* @src src/src/harness_conformance/live_proxy_server.py:3592-3614 _Broker.retire_create_result *)
Definition retire_create_result : broking unit :=
  on_exception
    (first_attempt a_retirement "BROKER_RETIREMENT_ALREADY_ATTEMPTED" ;;
     keep (set_retirement (Some blank_retirement)) ;;
     new_retirement ;;
     x ← step a_retirement;
     check (rt_retired x && rt_advanced x && negb (rt_failed x)) "BROKER_RETIREMENT_PUBLICATION_CHANGED" ;;
     retirement_state_check false ;;
     keep (change_retirement retirement_complete))
    (fun _ => o ← kept a_retirement;
              match o with None => mret tt | Some _ => poison_retirement end ;; broker_failed ;; broker_abandon).
End steps.
