(* ===== verification/Server.v ===== *)
(** live_proxy_server.py, [NativeProxyServer] and [main]: the construction from the installed
    authority, the check that brackets every effect of serving, the requests of the fixed cases, each
    admitted before its probe and recorded before its receipt, and the closing of everything held. *)

From S2P Require Import Prelude Effects PyVal Utf8 Json Sha2 Canonical Base64 Ed25519 IsoTime Regex Text Posix.
From S2P Require Import SchemaBase Ipaddr Lifecycle LinuxShape Live LinuxVerify Session ReplayStore Supervisor BackendAuthority Launcher.
From S2P Require Import ProxySpecs ProxyDocument MutationAdmission Observation AdmissionLedger Broker Qualification Der Http.
From S2P Require Import Boundary Custody Files Store PeerLink Observer TlsCodec BrokerData ServerBase BrokerStart BrokerClose BrokerIntent BrokerApi.

#[local] Open Scope string_scope.
#[local] Open Scope list_scope.
#[local] Open Scope Z_scope.

Section server.
Context {U : Unicode} {Sg : SigScheme} {W : Type} {Si : Site W}.
#[local] Notation run := (ServerBase.run (W := W)).

(** The passes of a loop that the peer can keep going. *)
Context (fuel : nat).

(** The installed probe, which is given the server and answers with the octets of a receipt and the
    objects that remain.  It is not part of the repository. *)
Context (execute_server_probe : value -> Z -> run (data * value)).

(** ** Serving fields *)

Definition serve_with (f : serving -> serving) : run unit := update (fun s => set_serving (f (srv_serving s)) s).
Definition with_reservation (b : bool) (r : value) (v : serving) : serving :=
  {| reserved := b; reservation := r; active_operation := active_operation v; memfd := memfd v; context := context v;
     target := target v; listener := listener v; connection := connection v; log_poisoned := log_poisoned v |}.
Definition with_operation (o : option value) (v : serving) : serving :=
  {| reserved := reserved v; reservation := reservation v; active_operation := o; memfd := memfd v; context := context v;
     target := target v; listener := listener v; connection := connection v; log_poisoned := log_poisoned v |}.
Definition with_memfd (o : option Z) (v : serving) : serving :=
  {| reserved := reserved v; reservation := reservation v; active_operation := active_operation v; memfd := o; context := context v;
     target := target v; listener := listener v; connection := connection v; log_poisoned := log_poisoned v |}.
Definition with_context (o : option Z) (v : serving) : serving :=
  {| reserved := reserved v; reservation := reservation v; active_operation := active_operation v; memfd := memfd v; context := o;
     target := target v; listener := listener v; connection := connection v; log_poisoned := log_poisoned v |}.
Definition with_listener (t : inet_name) (o : option Z) (v : serving) : serving :=
  {| reserved := reserved v; reservation := reservation v; active_operation := active_operation v; memfd := memfd v; context := context v;
     target := t; listener := o; connection := connection v; log_poisoned := log_poisoned v |}.
Definition with_connection (o : option Z) (v : serving) : serving :=
  {| reserved := reserved v; reservation := reservation v; active_operation := active_operation v; memfd := memfd v; context := context v;
     target := target v; listener := listener v; connection := o; log_poisoned := log_poisoned v |}.
Definition served {A} (f : serving -> A) : run A := reads (fun s => Ok (f (srv_serving s))).
(** A field that a call refuses when it is [None]. *)
Definition served_some {A} (f : serving -> option A) : run A :=
  reads (fun s => match f (srv_serving s) with Some x => Ok x | None => Raise AttributeError end).

(** ** The checks *)

(* @src src/src/harness_conformance/live_proxy_server.py:4974-4978 NativeProxyServer._broker_check *)
Definition _broker_check : run unit :=
  _owner_check ;;
  present ← reads (fun s => Ok (match srv_broker s with Some _ => true | None => false end));
  check present "PROXY_BROKER_REQUIRED" ;;
  on_broker broker_check.

(* @src src/src/harness_conformance/live_proxy_server.py:4980-4985 NativeProxyServer._transport_check *)
Definition _transport_check : run unit :=
  _base_check ;;
  _broker_check ;;
  ok ← served (fun v => reserved v && negb (log_poisoned v));
  check ok "PROXY_RESERVATION_REQUIRED" ;;
  on_store check_store ;;
  _ ← on_observer observe;
  mret tt.

(** ** Closing *)

Definition empty_serving : serving :=
  {| reserved := false; reservation := VNone; active_operation := None; memfd := None; context := None; target := ([], 0, []);
     listener := None; connection := None; log_poisoned := false |}.

(** Everything held, in the order it is closed: each is forgotten before the first is closed. *)
Definition given_up (s : server W) : server W :=
  let v := srv_serving s in
  set_state (is_active s) true (set_broker None (set_observer None (set_store None (set_inspecting false (set_qualification None
    (set_secrets no_files (set_files no_files (set_serving (with_memfd None (with_connection None (with_listener (target v) None v))) s)))))))).

(** A part that is held no more is closed. *)
Definition closing {T} (t : T) (m : io (T * server W) unit) : run unit := fun s => let '(r, p) := m (t, s) in (r, p.2).
Definition closing_link {T} (l : link) (t : T) (m : io (link * (T * server W)) unit) : run unit := fun s =>
  let '(r, p) := m (l, (t, s)) in (r, p.2.2).

Definition if_held {A} (o : option A) (f : A -> run unit) : list (run unit) := match o with Some x => [f x] | None => [] end.

(* @src src/src/harness_conformance/live_proxy_server.py:5056-5068 NativeProxyServer.close *)
Definition closings (s : server W) : list (run unit) :=
  if_held (srv_broker s) (fun b => closing_link b.1 b.2 broker_close) ++
  if_held (connection (srv_serving s)) (fun c => out (k_close_socket c)) ++
  if_held (listener (srv_serving s)) (fun c => out (k_close_socket c)) ++
  if_held (srv_observer s) (fun o => closing_link o.1 o.2 observer_close) ++
  if_held (srv_store s) (fun t => closing t close_store) ++
  (if srv_inspecting s then [out inspect_self_close] else []) ++
  if_held (srv_qualification s) (fun _ => mret tt) ++
  [closing (srv_secrets s) Files.close; closing (srv_files s) Files.close] ++
  if_held (memfd (srv_serving s)) (fun fd => out (k_close fd)).

(** Every one is tried, and the first failure raised. *)
(* @src src/src/harness_conformance/live_proxy_server.py:5051-5077 NativeProxyServer.close *)
Definition close_server : run unit :=
  done ← reads (fun s => Ok (srv_closed s));
  if (done : bool) then mret tt
  else
    held ← reads (fun s => Ok (closings s));
    update given_up ;;
    failure ← io_fold (fun failure m => r ← attempt m; mret (first_failure failure r)) None held;
    update (fun s => set_state false (srv_closed s) s) ;;
    match failure with Some e => throw e | None => mret tt end.

(** ** The authority *)

(** The files of the run that the envelope names. *)
(* @src src/src/harness_conformance/live_proxy_server.py:4887-4889 NativeProxyServer.__init__ *)
Definition read_members (envelope : value) : run unit :=
  io_fold (fun _ names => _ ← read_named envelope names.1 names.2; mret tt) tt
    [("packetFileReference", "packetDigest"); ("campaignDefinitionFileReference", "campaignDefinitionDigest");
     ("bundleFileReference", "bundleDigest")].

(** The time that is left of the run, in microseconds. *)
(* @src src/src/harness_conformance/live_proxy_server.py:4894-4896 NativeProxyServer.__init__ *)
Definition remaining_time (binding profile : value) (now : datetime) : res Z :=
  stop ← (v ← fld binding "notAfter"; LinuxShape.require_time v);
  expiry ← (scope ← fld profile "binding"; proxy_time scope "expiresAt");
  sooner ← time_ltb expiry stop;
  remaining ← time_sub (if (sooner : bool) then expiry else stop) now;
  require ((0 <? remaining) && (remaining <=? 900 * WALL_SECOND)) "PROXY_EXPIRED" ;;
  Ok remaining.

Definition envelope_path_of : run str :=
  reads (fun s => match envelope_variable (outside s) with Some p => Ok p | None => conf "PROXY_ENVELOPE_UNAVAILABLE" end).

(** The documents of the run, from the envelope on, and the deadline they leave. *)
(* @src src/src/harness_conformance/live_proxy_server.py:4864-4899 NativeProxyServer.__init__ *)
Definition load_authority : run unit :=
  '(manifest, _, artifact) ← _manifest (u MANIFEST) (u EXECUTABLE);
  path ← envelope_path_of;
  '(named, from) ← read_envelope path;
  now ← wall_instant;
  '(envelope, capacity) ← lift (verified from now);
  '(release_raw, release, kit) ← read_release named;
  lift (require_m (tree ← fld release "tree"; d ← canonical_digest tree (Some TREE_DOMAIN);
                   fld_eq named "conformanceKitDigest" (VStr d)) "PROXY_KIT_DIGEST") ;;
  '(plan, binding) ← plan_and_binding "PROXY_ARCHITECTURE_UNAVAILABLE" named from release_raw kit;
  read_members named ;;
  '(profile, observed, endpoint, ca) ← lift (retained_profile envelope capacity plan release kit);
  lift (require_m (pins ← fld observed "enforcementPins"; d ← fld pins "hostPreflightDigest"; fld_eq manifest "preflightEvidenceDigest" d)
          "PROXY_PREFLIGHT_BINDING") ;;
  now ← wall_instant;
  remaining ← lift (remaining_time binding profile now);
  mono ← out clock_ticks;
  snapshot ← lift (snapshot_of envelope capacity plan binding profile observed endpoint);
  update (fun s => let t := srv_times s in
    set_times {| srv_wall := srv_wall t; srv_mono := srv_mono t; srv_deadline := mono + remaining * 1000 |}
      (set_authority (Some {| envelope_path := path; sources := from; envelope := envelope; capacity := capacity; plan := plan;
         binding := binding; the_profile := profile; observed_binding := observed; ServerBase.endpoint := endpoint; ca := ca;
         the_manifest := manifest; artifact_digest := artifact; kit_octets := kit; snapshot := snapshot |}) s)).

(** ** The parts of a server *)

(* @src src/src/harness_conformance/live_proxy_server.py:4900-4904 NativeProxyServer.__init__ *)
Definition open_qualified : run unit :=
  open_qualification ;;
  update (set_inspecting true) ;;
  out inspect_self_open ;;
  out require_containment.

(** The store, and the two connections. *)
(* @src src/src/harness_conformance/live_proxy_server.py:4905-4913 NativeProxyServer.__init__ *)
Definition open_parts : run unit :=
  update (set_store (Some no_store)) ;;
  on_store open_store ;;
  mono ← out clock_ticks;
  update (fun s => set_observer (Some (new_observer (srv_deadline (srv_times s)) mono)) s) ;;
  on_observer observer_establish ;;
  mono ← out clock_ticks;
  update (fun s => set_broker (Some (new_link (srv_deadline (srv_times s)) mono, no_steps)) s) ;;
  on_broker broker_establish ;;
  on_files (Files.change with_seal) ;;
  _ ← on_observer observe;
  mret tt.

(** A row of the admission log, with the time of the wall clock. *)
Definition log_row (state : string) (operation now cleanup : value) : run unit :=
  r ← served reservation;
  _ ← on_log (AdmissionLedger.record r (VStr (u state)) operation now cleanup);
  mret tt.

(** The run is admitted before its credential is read. *)
(* @src src/src/harness_conformance/live_proxy_server.py:4914-4917 NativeProxyServer.__init__ *)
Definition reserve : run unit :=
  a ← the_authority;
  r ← lift (admission_binding (envelope a) (capacity a) (the_profile a));
  serve_with (with_reservation false r) ;;
  now ← out clock_wall;
  log_row "RESERVED" VNone now VNone ;;
  serve_with (with_reservation true r) ;;
  _transport_check.

(** ** The credential *)

(** The octets in parts, each write taking some. *)
Fixpoint write_identity (n : nat) (fd : Z) (raw : bytes) : run unit :=
  match raw, n with
  | [], _ => mret tt
  | _, O => throw RecursionError
  | _, S n =>
      k ← out (k_write fd raw);
      check (0 <? k) "PROXY_CREDENTIAL_SHORT_WRITE" ;;
      _transport_check ;;
      write_identity n fd (drop (Z.to_nat k) raw)
  end.

(** The credential, sealed in a memory file, becomes the key of the TLS context. *)
(* @src src/src/harness_conformance/live_proxy_server.py:4918-4935 NativeProxyServer.__init__ *)
Definition load_credential : run unit :=
  raw ← on_secrets (Files.read (u IDENTITY) None (Some 256) 262144);
  _transport_check ;;
  a ← the_authority;
  _ ← lift (leaf ← credential_leaf raw; _check_certificate leaf (the_profile a) (ServerBase.endpoint a) false);
  fd ← out (k_memfd "planeon-proxy-identity");
  serve_with (with_memfd (Some fd)) ;;
  write_identity (length raw) fd raw ;;
  out (k_add_seals fd SEALS) ;;
  seals ← out (k_get_seals fd);
  check (Z.land seals SEALS =? SEALS) "PROXY_CREDENTIAL_SEALS" ;;
  c ← tls_context (ca a) fd true;
  serve_with (with_context (Some c)) ;;
  serve_with (with_memfd None) ;;
  out (k_close fd) ;;
  _transport_check.

(** The listening socket of the endpoint. *)
(* @src src/src/harness_conformance/live_proxy_server.py:4936-4944 NativeProxyServer.__init__ *)
Definition listen_at_endpoint : run unit :=
  a ← the_authority;
  address ← lift (ip ← fld (ServerBase.endpoint a) "ipAddress"; ip_address ip);
  text ← lift (s ← text_of (ServerBase.endpoint a) "ipAddress"; canonical_address s);
  port ← lift (int_of (ServerBase.endpoint a) "port");
  let v6 := match address with V4 _ => false | V6 _ => true end in
  let t := name_at address text port in
  s ← out (k_inet_socket v6);
  serve_with (with_listener t (Some s)) ;;
  out (k_private s) ;;
  (if v6 : bool then out (k_v6_only s) else mret tt) ;;
  out (k_bind s t) ;;
  out (k_listen s) ;;
  _transport_check.

(** ** The construction *)

(** A server with nothing yet, which is the active one. *)
Definition blank_server (now : datetime) (mono : Z) (w : W) : server W :=
  {| is_active := true; srv_closed := false; srv_files := no_files; srv_secrets := no_files;
     srv_times := {| srv_wall := now; srv_mono := mono; srv_deadline := 0 |}; srv_authority := None; srv_qualification := None;
     srv_inspecting := false; srv_store := None; srv_observer := None; srv_broker := None; srv_serving := empty_serving; outside := w |}.

(** Only the installed program makes a server, and only one. *)
(* @src src/src/harness_conformance/live_proxy_server.py:4848-4862 NativeProxyServer.__init__ *)
Definition begin_server : run unit :=
  out entry_check ;;
  free ← reads (fun s => Ok (negb (is_active s)));
  check free "PROXY_ALREADY_ACTIVE" ;;
  update (fun s => set_state true (srv_closed s) s) ;;
  now ← wall_instant;
  mono ← out clock_ticks;
  update (fun s => blank_server now mono (outside s)).

(* @src src/src/harness_conformance/live_proxy_server.py:4848-4950 NativeProxyServer.__init__ *)
Definition new_server : run unit :=
  begin_server ;;
  on_exception
    (load_authority ;; open_qualified ;; open_parts ;; reserve ;; load_credential ;; listen_at_endpoint)
    (fun _ => _ ← attempt close_server; mret tt).

(** ** Accepting a connection *)

(** One pass: a connection is held before anything can fail; a time-out is no failure. *)
(* @src src/src/harness_conformance/live_proxy_server.py:4991-5004 NativeProxyServer._accept *)
Definition accept_once (deadline : Z) : run unit :=
  _transport_check ;;
  before ← out clock_ticks;
  check (before <? deadline) "PROXY_ACCEPT_DEADLINE" ;;
  l ← served_some listener;
  out (k_timeout l (Z.min (2 * SECOND) (deadline - before))) ;;
  finally
    (c ← out (k_accept l);
     match c with
     | None => mret tt
     | Some c => serve_with (with_connection (Some c)) ;; out (k_private c)
     end)
    (_transport_check ;;
     now ← out clock_ticks;
     check ((before <=? now) && (now <? deadline)) "PROXY_ACCEPT_DEADLINE").

Fixpoint accept_within (n : nat) (deadline : Z) : run unit :=
  c ← served connection;
  match c with
  | Some _ => mret tt
  | None => match n with O => throw RecursionError | S n => accept_once deadline ;; accept_within n deadline end
  end.

(* @src src/src/harness_conformance/live_proxy_server.py:4987-5005 NativeProxyServer._accept *)
Definition _accept : run unit :=
  c ← served connection;
  check (match c with None => true | Some _ => false end) "PROXY_CONNECTION_ALREADY_OWNED" ;;
  limit ← reads (fun s => Ok (srv_deadline (srv_times s)));
  now ← out clock_ticks;
  accept_within fuel (Z.min limit (now + 10 * SECOND)).

(** ** One request *)

(** The TLS stream of a connection, checked by the server. *)
#[export] Instance server_tls : TlsSite (server W) := {
  transport_check := _transport_check;
  t_ticks := out clock_ticks;
  t_timeout s d := out (k_timeout s d);
  t_send s b := out (k_send s b);
  t_receive s := out (k_receive s);
  e_wrap c v n := out (tls_wrap c v n);
  e_handshake e := out (tls_handshake e);
  e_write e b := out (tls_write e b);
  e_read e n := out (tls_read_some e n);
  e_unwrap e := out (tls_unwrap e);
  e_tls13 e s := tls_is_13 e (outside s);
  e_reused e s := tls_reused e (outside s);
  e_http11 e s := tls_http11 e (outside s);
  e_peer_certificate e := out (tls_certificate e);
  e_pending e s := tls_pending e (outside s);
  outgoing_pending e s := tls_outgoing e (outside s);
  outgoing_read e := out (tls_take e);
  incoming_write e b := out (tls_give e b);
  incoming_octets e s := tls_incoming e (outside s)
}.

(** A run of the server in the course of a stream. *)
#[local] Notation streaming := (TlsCodec.run (W := server W)).
Definition meanwhile {A} (m : run A) : streaming A := TlsCodec.beyond m.

(** The request is one of the cases, exactly as it is built here. *)
(* @src src/src/harness_conformance/live_proxy_server.py:5017-5021 NativeProxyServer.serve *)
Definition bound_request (a : authority) (first raw : bytes) : res (value * value) :=
  request ← document (Raw raw) 16384;
  operation ← (v ← py_get request "operation"; Ok (default VNone v));
  require_m (Ok (is_str operation && in_lits operation CASES) <&&>
             (expected ← build_probe_request (envelope a) (capacity a) (plan a) operation; Ok (py_eq request expected)) <&&>
             (path ← text_of request "path"; line ← utf8_encode (u "POST " ++ path ++ u " HTTP/1.1"); Ok (str_eqb first line)))
    "PROXY_REQUEST_BINDING" ;;
  Ok (request, operation).

(** What the cleanup of an operation is chained to: the reservation, and the cleanup before it. *)
(* @src src/src/harness_conformance/live_proxy_server.py:5031-5033 NativeProxyServer.serve *)
Definition cleanup_terms (a : authority) (r : value) (history : bytes) : res (value * value) :=
  states ← parse_reservations history;
  tenant ← text_of (envelope a) "tenantId";
  nonce ← text_of (envelope a) "nonce";
  prior ← match run_get (tenant, nonce) (runs states) with Some p => Ok p | None => Raise KeyError end;
  digest ← canonical_digest r None;
  Ok (VStr digest, VStr (cleanupDigest prior)).

(** The session of the server's binding, and the regressions that the plan expects of the operation. *)
(* @src src/src/harness_conformance/live_proxy_server.py:5034-5037 NativeProxyServer.serve *)
Definition receipt_terms (a : authority) (operation : value) : res (value * value) :=
  session ← session_of (binding a) "RUNNING";
  regressions ← (if eq_lit operation "FULL_PREDECESSOR_REGRESSION" then fld (plan a) "regressions" else Ok (VDict []));
  Ok (session, regressions).

(** The receipt of a result; what passed left nothing behind. *)
(* @src src/src/harness_conformance/live_proxy_server.py:5036-5038 NativeProxyServer.serve *)
Definition receipt_of (a : authority) (session regressions request : value) (raw : bytes) (remaining now : value) : res value :=
  receipt ← validate_receipt (Raw raw) (Value session) (Value (binding a)) (Value request) (Value regressions) now;
  require_m (pass ← fld_lit receipt "status" "PASS"; Ok (negb pass || negb (truthy remaining))) "PROXY_CLEANUP_NOT_PROVEN" ;;
  Ok receipt.

(** The result is recorded, with the cleanup of the operation, before it is told. *)
(* @src src/src/harness_conformance/live_proxy_server.py:5030-5040 NativeProxyServer.serve *)
Definition record_result (request operation : value) (raw : bytes) (remaining : value) : run value :=
  _transport_check ;;
  history ← on_store read_store;
  a ← the_authority;
  r ← served reservation;
  '(digest, before) ← lift (cleanup_terms a r history);
  now ← out clock_wall;
  cleanup ← lift (cleanup_receipt digest operation now remaining before);
  '(session, regressions) ← lift (receipt_terms a operation);
  now ← out clock_wall;
  receipt ← lift (receipt_of a session regressions request raw remaining now);
  at_ ← lift (fld cleanup "observedAt");
  log_row "RECORDED" operation at_ cleanup ;;
  serve_with (with_operation None) ;;
  mret receipt.

(** The operation is recorded as running before its probe. *)
(* @src src/src/harness_conformance/live_proxy_server.py:5022-5040 NativeProxyServer.serve *)
Definition run_operation (request operation : value) : run value :=
  _transport_check ;;
  now ← out clock_wall;
  log_row "RUNNING" operation now VNone ;;
  serve_with (with_operation (Some operation)) ;;
  deadline ← reads (fun s => Ok (srv_deadline (srv_times s)));
  result ← execute_server_probe request deadline;
  '(raw, remaining) ← lift (match result with
                            | (Raw raw, VList l) => Ok (raw, VList l)
                            | _ => conf "PROXY_PROBE_RESULT_INVALID"
                            end);
  record_result request operation raw remaining.

(** What is served over a connection: whether the run goes on. *)
(* @src src/src/harness_conformance/live_proxy_server.py:5014-5045 NativeProxyServer.serve *)
Definition serve_stream : streaming bool :=
  a ← meanwhile the_authority;
  handshake fuel (the_profile a) (ServerBase.endpoint a) true ;;
  host ← lift (t ← fld (ServerBase.endpoint a) "tls"; text_of t "serverName");
  '(first, raw) ← @read_http _ (tls_stream fuel) false (Some host);
  '(request, operation) ← lift (bound_request a first raw);
  receipt ← meanwhile (run_operation request operation);
  meanwhile _transport_check ;;
  octets ← lift (b ← canonical_bytes receipt; http_message (u "HTTP/1.1 200 OK") b None);
  write fuel octets ;;
  notify_close fuel ;;
  lift (fld_lit receipt "status" "PASS").

(** A stream lives as long as what is served over it. *)
Definition over_stream {A} (t : tls) (m : streaming A) : run A := fun s => let '(r, p) := m (t, s) in (r, p.2).

(** The connection is closed, whatever was served. *)
Definition drop_connection : run unit :=
  c ← served connection;
  serve_with (with_connection None) ;;
  match c with None => mret tt | Some c => out (k_close_socket c) end.

(* @src src/src/harness_conformance/live_proxy_server.py:5010-5049 NativeProxyServer.serve *)
Definition serve_one : run bool :=
  finally
    (_accept ;;
     _transport_check ;;
     l ← served_some listener;
     name ← out (k_socket_name l);
     expected ← served target;
     check (same_target name expected) "PROXY_LISTENER_CHANGED" ;;
     c ← served_some connection;
     context ← served_some context;
     deadline ← reads (fun s => Ok (srv_deadline (srv_times s)));
     t ← open_stream c context VNone true deadline;
     over_stream t serve_stream)
    drop_connection.

(** A case for each pass; a receipt that did not pass is the last. *)
Fixpoint serve_cases (cases : list string) : run unit :=
  match cases with
  | [] => mret tt
  | _ :: cases => go ← serve_one; if (go : bool) then serve_cases cases else mret tt
  end.
(* @src src/src/harness_conformance/live_proxy_server.py:5007-5049 NativeProxyServer.serve *)
Definition serve : run unit := serve_cases CASES.

(** The exceptions that [main] turns into an exit status. *)
Definition reported (e : exn) : bool :=
  match e with ConformanceError _ | OSError | ValueError | KeyError => true | _ => false end.

(** The exit status; a server that was made is closed at the end. *)
(* @src src/src/harness_conformance/live_proxy_server.py:5080-5092 main *)
Definition main : run Z :=
  made ← attempt new_server;
  match made with
  | Raise e => if reported e then mret 2 else throw e
  | Ok _ => finally (catch reported (serve ;; mret 0) (fun _ => mret 2)) close_server
  end.
End server.
