(* ===== verification/Client.v ===== *)
(** live_proxy_client.py, [_client_inputs] and [execute_protected]: the campaign's side of the
    protected transport.  It works inside the one active operation of a native session, on the late
    resources of Late.v, and every use of its socket checks that session again. *)

From S2P Require Import Prelude Effects PyVal Utf8 Json Sha2 Canonical Base64 IsoTime Regex Text Posix.
From S2P Require Import SchemaBase Ipaddr Lifecycle LinuxShape Live LinuxVerify ProxyDocument MutationAdmission Observation.
From S2P Require Import Der Http Boundary Custody Late TlsCodec BrokerData ServerBase BrokerApi.

#[local] Open Scope string_scope.
#[local] Open Scope list_scope.
#[local] Open Scope Z_scope.

(** What the client adds to the native session: whether its supervisor was closed, the clock, the
    name and the connection of the socket, and TLS. *)
Class ClientSite (W : Type) := {
  supervisor_closed : W -> bool;
  c_ticks : io W Z;
  c_timeout : Z -> Z -> io W unit;
  c_connect : Z -> inet_name -> io W unit;
  c_peer_name : Z -> io W inet_name;
  c_send : Z -> bytes -> io W Z;
  c_receive : Z -> io W (option bytes);
  c_new : tls_configuration -> str -> Z -> io W Z;
  c_wrap : Z -> bool -> option value -> io W Z;
  c_handshake : Z -> io W (engine_answer unit);
  c_write : Z -> bytes -> io W (engine_answer Z);
  c_read : Z -> Z -> io W (engine_answer bytes);
  c_unwrap : Z -> io W (engine_answer unit);
  c_tls13 : Z -> W -> bool;
  c_reused : Z -> W -> bool;
  c_http11 : Z -> W -> bool;
  c_certificate : Z -> io W bytes;
  c_pending : Z -> W -> Z;
  c_outgoing : Z -> W -> Z;
  c_take : Z -> io W bytes;
  c_give : Z -> bytes -> io W unit;
  c_incoming : Z -> W -> Z
}.
#[export] Hint Mode ClientSite ! : typeclass_instances.

Section client.
Context {U : Unicode} {W : Type} {Ku : Custodian W} {Na : Native W Z} {Si : ClientSite W}.

(** The context of the session: the octets that were read, the files of the kit and its root, the
    documents that were verified; whether the constants of the seals are known. *)
Context (octets : list (str * bytes)) (kit : list (str * bytes)) (envelope capacity plan binding : value) (kit_root : str).
Context (known_seals : bool).
(** The passes of a TLS loop that the peer can keep going. *)
Context (fuel : nat).

#[local] Notation run := (Late.run (W := W) (M := Z)).
#[local] Notation outer := (Late.beyond (W := W) (M := Z)).

(** The session is the active one of its supervisor, until the given deadline. *)
(* @src src/src/harness_conformance/live_proxy_client.py:26-30 _client_inputs *)
Definition session_active (deadline : Z) (s : late W Z) : bool :=
  let o := Late.owner (M := Z) (Late.outside s) in
  native_boundary o && negb (supervisor_closed (Late.outside s)) &&
  match active_session o, context_deadline o with
  | Some a, Some d => (deadline =? d) && (d =? active_deadline a)
  | _, _ => false
  end.

(** A fixed operation is in progress, and was not done before. *)
(* @src src/src/harness_conformance/live_proxy_client.py:33-36 _client_inputs *)
Definition operation_active (s : late W Z) : bool :=
  match Late.state s, Late.operation s, active_session (Late.owner (M := Z) (Late.outside s)) with
  | IO_ACTIVE, Some op, Some a =>
      in_lits (VStr op) CASES && Late.nonce_reserved a && eq_lit (Late.session_state a) "RUNNING" && negb (str_in op (done a))
  | _, _, _ => false
  end.

(** The profile is valid for no longer than the session is trusted, and now. *)
(* @src src/src/harness_conformance/live_proxy_client.py:39-42 _client_inputs *)
Definition profile_window (profile : value) : res (datetime * datetime) :=
  scope ← fld profile "binding";
  start ← proxy_time scope "validFrom";
  stop ← proxy_time scope "expiresAt";
  require_m ((v ← fld binding "notBefore"; from ← LinuxShape.require_time v; time_leb from start) <&&>
             (v ← fld binding "notAfter"; until ← LinuxShape.require_time v; time_leb stop until)) "CLIENT_PROFILE_TRUST_WINDOW" ;;
  Ok (start, stop).

(* @src src/src/harness_conformance/live_proxy_client.py:22-47 _client_inputs *)
Definition _client_inputs (deadline : Z) : run (value * value * value * bytes) :=
  ok ← the (fun s => intact (Late.owner (M := Z) (Late.outside s)));
  check ok "CLIENT_NATIVE_CONTEXT_REQUIRED" ;;
  ok ← the (session_active deadline);
  check ok "CLIENT_NATIVE_SESSION_REQUIRED" ;;
  outer Late.check_peer ;;
  check_late kit ;;
  ok ← the operation_active;
  check ok "CLIENT_FIXED_OPERATION_REQUIRED" ;;
  reference ← lift (text_of envelope "campaignReleaseFileReference");
  release ← lift (match dget reference octets with Some raw => require_canonical_document raw | None => Raise KeyError end);
  inputs ← lift (retained_profile envelope capacity plan release kit);
  let '(profile, _, _, _) := inputs in
  '(start, stop) ← lift (profile_window profile);
  now ← outer wall_clock;
  lift (now ← LinuxShape.require_time now; require_m (time_leb start now <&&> time_ltb now stop) "CLIENT_PROFILE_EXPIRED") ;;
  outer Late.check_peer ;;
  mret inputs.

(* @src src/src/harness_conformance/live_proxy_client.py:50-56 _require_current_credential_policy *)
Definition _require_current_credential_policy (deadline : Z) : run unit := _ ← _client_inputs deadline; mret tt.

(** The stream of an operation is checked by its session. *)
(* @src src/src/harness_conformance/live_proxy_client.py:352-357 _ClientOperation *)
Definition client_tls (deadline : Z) : TlsSite (late W Z) := {|
  transport_check := _require_current_credential_policy deadline;
  t_ticks := outer c_ticks;
  t_timeout s d := outer (c_timeout s d);
  t_send s b := outer (c_send s b);
  t_receive s := outer (c_receive s);
  e_wrap c v n := outer (c_wrap c v n);
  e_handshake e := outer (c_handshake e);
  e_write e b := outer (c_write e b);
  e_read e n := outer (c_read e n);
  e_unwrap e := outer (c_unwrap e);
  e_tls13 e s := c_tls13 e (Late.outside s);
  e_reused e s := c_reused e (Late.outside s);
  e_http11 e s := c_http11 e (Late.outside s);
  e_peer_certificate e := outer (c_certificate e);
  e_pending e s := c_pending e (Late.outside s);
  outgoing_pending e s := c_outgoing e (Late.outside s);
  outgoing_read e := outer (c_take e);
  incoming_write e b := outer (c_give e b);
  incoming_octets e s := c_incoming e (Late.outside s)
|}.

(** The key is lent in a memory file while the TLS context is made of it. *)
(* @src src/src/harness_conformance/live_proxy_client.py:369-373 execute_protected *)
Definition client_context (ca : bytes) : run Z :=
  fd ← tls_memfd kit envelope capacity plan binding known_seals;
  finally
    (text ← lift (context_text ca fd);
     outer (c_new (configuration false) text fd))
    (close_memfd kit envelope capacity plan binding).

(** Where the endpoint is. *)
(* @src src/src/harness_conformance/live_proxy_client.py:377-378 execute_protected *)
Definition client_target (endpoint : value) : res inet_name :=
  ip ← fld endpoint "ipAddress";
  address ← ip_address ip;
  text ← (s ← as_text ip; canonical_address s);
  port ← int_of endpoint "port";
  Ok (name_at address text port).

#[local] Notation streaming := (TlsCodec.run (W := late W Z)).

(** One request and its response over the stream. *)
(* @src src/src/harness_conformance/live_proxy_client.py:379-385 execute_protected *)
Definition exchange (deadline : Z) (socket : Z) (target : inet_name) (profile endpoint request : value) : streaming bytes :=
  let Si := client_tls deadline in
  now ← TlsCodec.beyond (outer c_ticks);
  let limit := Z.min deadline (now + 10 * SECOND) in
  network_call (Si := Si) (outer (c_connect socket target)) limit ;;
  now ← TlsCodec.beyond (outer c_ticks);
  check (now <? limit) "CLIENT_PEER_MISMATCH" ;;
  name ← TlsCodec.beyond (outer (c_peer_name socket));
  check (same_target name target) "CLIENT_PEER_MISMATCH" ;;
  handshake (Si := Si) fuel profile endpoint false ;;
  message ← lift (path ← text_of request "path"; body ← canonical_bytes request;
                  host ← (t ← fld endpoint "tls"; text_of t "serverName");
                  http_message (u "POST " ++ path ++ u " HTTP/1.1") body (Some host));
  write (Si := Si) fuel message ;;
  '(_, receipt) ← @read_http _ (tls_stream (Si := Si) fuel) true None;
  mret receipt.

Definition socket_number (x : Late.socket) : Z := Late.number x.

(* @src src/src/harness_conformance/live_proxy_client.py:360-389 execute_protected *)
Definition execute_protected (request : value) (deadline : Z) : run bytes :=
  '(profile, _, endpoint, ca) ← _client_inputs deadline;
  op ← reads (fun s => Ok (Late.operation s));
  lift (require_m (expected ← build_probe_request envelope capacity plan (match op with Some o => VStr o | None => VNone end);
                   Ok (is_dict request && py_eq request expected)) "CLIENT_REQUEST_INVALID") ;;
  raw ← credential_bytes kit envelope capacity plan binding kit_root;
  _ ← lift (leaf ← credential_leaf raw; _check_certificate leaf profile endpoint true);
  context ← client_context ca;
  socket ← transport kit envelope capacity plan binding;
  _require_current_credential_policy deadline ;;
  target ← lift (client_target endpoint);
  name ← lift (t ← fld endpoint "tls"; fld t "serverName");
  t ← open_stream (Si := client_tls deadline) (socket_number socket) context name false deadline;
  receipt ← (fun s => let '(r, p) := exchange deadline (socket_number socket) target profile endpoint request (t, s) in (r, p.2));
  _require_current_credential_policy deadline ;;
  mret receipt.
End client.
