(* ===== verification/TlsRuns.v ===== *)
(** Runs of the TLS codec of TlsCodec.v: when its socket is used, for how long, and how much is taken in. *)

From S2P Require Import Prelude Effects PyVal Utf8 Json Sha2 Canonical Base64 IsoTime Regex Text.
From S2P Require Import SchemaBase LinuxShape LinuxVerify ProxyDocument Der Http TlsCodec.

#[local] Open Scope string_scope.
#[local] Open Scope list_scope.
#[local] Open Scope Z_scope.

(** ** An outside that notes *)

(** A check of the transport and whether it passed; a reading of the clock; a time-out that is set; a use of the
    socket, to send or to receive; octets given to the engine. *)
Inductive tls_event := Fence (passed : bool) | Clock (t : Z) | Limit (d : Z) | Use (sends : bool) | Fed (n : Z).

Section noting.
Context {W : Type} {Si : TlsSite W}.

#[local] Notation world := (W * list tls_event)%type.
Definition hidden {A} (m : io W A) : io world A := zoom fst (fun w s => (w, s.2)) m.
Definition note (e : tls_event) : io world unit := update (fun s => (s.1, s.2 ++ [e])).

#[export] Instance noting_tls : TlsSite world := {|
  transport_check := r ← attempt (hidden transport_check); note (Fence (match r with Ok _ => true | Raise _ => false end)) ;; lift r;
  t_ticks := t ← hidden t_ticks; note (Clock t) ;; mret t;
  t_timeout s d := note (Limit d) ;; hidden (t_timeout s d);
  t_send s b := note (Use true) ;; hidden (t_send s b);
  t_receive s := note (Use false) ;; hidden (t_receive s);
  e_wrap c v n := hidden (e_wrap c v n);
  e_handshake e := hidden (e_handshake e);
  e_write e b := hidden (e_write e b);
  e_read e n := hidden (e_read e n);
  e_unwrap e := hidden (e_unwrap e);
  e_tls13 e s := e_tls13 e s.1;
  e_reused e s := e_reused e s.1;
  e_http11 e s := e_http11 e s.1;
  e_peer_certificate e := hidden (e_peer_certificate e);
  e_pending e s := e_pending e s.1;
  outgoing_pending e s := outgoing_pending e s.1;
  outgoing_read e := hidden (outgoing_read e);
  incoming_write e b := note (Fed (zlen b)) ;; hidden (incoming_write e b);
  incoming_octets e s := incoming_octets e s.1
|}.
End noting.

(** ** The order of a log *)

Definition fed (l : list tls_event) : Z := foldr (fun e n => match e with Fed k => k + n | _ => n end) 0 l.
Definition is_use (e : tls_event) : bool := match e with Use _ => true | _ => false end.

(** Every use of the socket comes right after a check that passed, a reading of the clock and a time-out of
    at most two seconds that ends before the deadline, and a check comes right after it. *)
Definition fenced (deadline : Z) (log : list tls_event) : Prop :=
  forall before e after, log = before ++ e :: after -> is_use e = true ->
    (exists l t d, before = l ++ [Fence true; Clock t; Limit d] /\ 0 < d <= 2 * SECOND /\ t + d <= deadline) /\
    (exists passed l, after = Fence passed :: l).

(** A log in pieces, each a use with all that belongs to it or something else. *)
Inductive pieces (deadline : Z) : list tls_event -> Prop :=
| no_piece : pieces deadline []
| other_piece e l : is_use e = false -> pieces deadline l -> pieces deadline (e :: l)
| use_piece t d e passed l : 0 < d <= 2 * SECOND -> t + d <= deadline -> is_use e = true -> pieces deadline l ->
    pieces deadline ([Fence true; Clock t; Limit d; e; Fence passed] ++ l).

Lemma pieces_app dl l1 l2 : pieces dl l1 -> pieces dl l2 -> pieces dl (l1 ++ l2).
Proof. intros H1 H2. induction H1; [done | by constructor | cbn; by apply use_piece]. Qed.

Lemma others_pieces dl l : Forall (fun e => is_use e = false) l -> pieces dl l.
Proof. induction 1; by constructor. Qed.

Lemma fenced_other dl e l : is_use e = false -> fenced dl l -> fenced dl (e :: l).
Proof.
  intros He H before x after E Hx. destruct before as [|y before]; [by injection E as -> _; congruence |].
  injection E as -> E. destruct (H _ _ _ E Hx) as [(l0 & t & d & -> & ?) ?]. split; [|done].
  by exists (y :: l0), t, d.
Qed.

Lemma pieces_fenced dl l : pieces dl l -> fenced dl l.
Proof.
  induction 1 as [|e l He _ IH|t d e passed l Hd Ht He _ IH]; [by intros [|] | by apply fenced_other |].
  intros before x after E Hx.
  destruct before as [|e1 [|e2 [|e3 [|e4 before]]]]; simplify_eq/=.
  - split; [by exists [], t, d | by eexists _, _].
  - assert (fenced dl (Fence passed :: l)) as Hf by by apply fenced_other.
    destruct (Hf before x after) as [(l0 & t0 & d0 & -> & ?) ?]; [done.. |]. split; [|done].
    by exists ([Fence true; Clock t; Limit d; e4] ++ l0), t0, d0.
Qed.

Lemma fed_app l1 l2 : fed (l1 ++ l2) = fed l1 + fed l2.
Proof. induction l1 as [|[]]; cbn [app fed foldr] in *; unfold fed in *; lia. Qed.

(** ** What every call keeps *)

Section runs.
Context {U : Unicode} {W : Type} {Si : TlsSite W} (fuel : nat).
#[local] Notation trun := (TlsCodec.run (W := W * list tls_event)).
#[local] Notation state := (tls * (W * list tls_event))%type.

Definition log_of (s : state) : list tls_event := s.2.2.
Definition TAKEN : Z := 8388608.

(** The log grows by pieces, the deadline is the same, and what was taken in is counted and bounded. *)
Definition carries_on (s s' : state) : Prop :=
  t_deadline s'.1 = t_deadline s.1 /\
  exists l, log_of s' = log_of s ++ l /\ pieces (t_deadline s.1) l /\ network_bytes s'.1 = network_bytes s.1 + fed l /\
            (network_bytes s.1 <= TAKEN -> network_bytes s'.1 <= TAKEN).

#[export] Instance carries_on_preorder : PreOrder carries_on.
Proof.
  split.
  - intros s. split; [done |]. exists []. rewrite app_nil_r. repeat split; [constructor | cbn; lia | done].
  - intros s1 s2 s3 [D1 (l1 & E1 & P1 & N1 & B1)] [D2 (l2 & E2 & P2 & N2 & B2)]. split; [congruence |].
    exists (l1 ++ l2). rewrite E2, E1, <- app_assoc, fed_app. repeat split; [| lia | auto].
    apply pieces_app; [done | by rewrite <- D1].
Qed.

(** ** Steps *)

(** The same stream; the log grows by events that are neither uses nor octets. *)
Definition quiet_event (e : tls_event) : bool := match e with Use _ | Fed _ => false | _ => true end.

Lemma quiet_carries (s s' : state) l :
  t_deadline s'.1 = t_deadline s.1 -> network_bytes s'.1 = network_bytes s.1 -> log_of s' = log_of s ++ l ->
  Forall (fun e => quiet_event e = true) l -> carries_on s s'.
Proof.
  intros D N E F. split; [done |]. exists l. repeat split; [done | | | lia].
  - apply others_pieces. eapply Forall_impl; [done |]. by intros [].
  - assert (fed l = 0) as ->; [|lia]. clear E. induction F as [|[] l ? _ IH]; try done.
Qed.

(** A run outside that adds only such events. *)
Definition mute {A} (m : io (W * list tls_event) A) : Prop :=
  forall w, exists l, (m w).2.2 = w.2 ++ l /\ Forall (fun e => quiet_event e = true) l.

Lemma hidden_mute {A} (m : io W A) : mute (hidden m).
Proof. intros w. exists []. rewrite app_nil_r. split; [|constructor]. unfold hidden, zoom. by destruct (m w.1). Qed.

Lemma mute_bind {A B} (m : io (W * list tls_event) A) (f : A -> io (W * list tls_event) B) :
  mute m -> (forall a, mute (f a)) -> mute (m ≫= f).
Proof.
  intros Hm Hf w. unfold mbind, io_bind. destruct (Hm w) as (l & E & F). destruct (m w) as [[a|e] w1]; cbn in *; [|by exists l].
  destruct (Hf a w1) as (l' & E' & F'). exists (l ++ l'). rewrite E', E, <- app_assoc. split; [done | by apply Forall_app].
Qed.

Lemma note_mute e : quiet_event e = true -> mute (note (W := W) e).
Proof. intros H w. exists [e]. by split; [|constructor]. Qed.

Lemma ret_mute {A} (a : A) : mute (mret a).
Proof. intros w. exists []. by rewrite app_nil_r. Qed.

Lemma ticks_mute : mute t_ticks.
Proof. apply mute_bind; [apply hidden_mute |]. intros t. apply mute_bind; [by apply note_mute |]. intros _. apply ret_mute. Qed.

Lemma check_mute : mute transport_check.
Proof.
  intros w. cbn. unfold attempt, mbind, io_bind, note, update, lift. unfold hidden, zoom.
  destruct (transport_check w.1) as [r w1]. cbn. eexists [_]. split; [done | by repeat constructor].
Qed.

Lemma timeout_mute s d : mute (t_timeout s d).
Proof. apply mute_bind; [by apply note_mute | intros; apply hidden_mute]. Qed.

Lemma beyond_carries {A} (m : io (W * list tls_event) A) : mute m -> keeps carries_on (beyond m : trun A).
Proof.
  intros H s. destruct (H s.2) as (l & E & F). unfold beyond, zoom.
  destruct (m s.2) as [r w]. by apply (quiet_carries _ _ l).
Qed.

Lemma last_carries t : keeps carries_on (change (with_last t) : trun unit).
Proof. intros s. apply (quiet_carries _ _ []); try done. by rewrite app_nil_r. Qed.

(** What one call notes. *)
Definition noted (s : state) (l : list tls_event) (s' : state) : Prop := s'.1 = s.1 /\ log_of s' = log_of s ++ l.

Lemma fence_runs (s : state) :
  wp (beyond transport_check : trun unit) (fun _ => noted s [Fence true]) (fun _ => noted s [Fence false]) s.
Proof.
  destruct s as [t [w l]]. unfold wp, beyond, zoom. cbn. unfold attempt, mbind, io_bind, hidden, zoom. cbn.
  by destruct (transport_check w) as [[[]|e] w1].
Qed.

Lemma clock_runs (s : state) :
  wp (beyond t_ticks : trun Z) (fun t => noted s [Clock t]) (fun _ => noted s []) s.
Proof.
  destruct s as [t [w l]]. unfold wp, beyond, zoom. cbn. unfold mbind, io_bind, hidden, zoom. cbn.
  destruct (t_ticks w) as [[now|e] w1]; [done |]. split; [done |]. cbn. by rewrite app_nil_r.
Qed.

Lemma limit_runs k d (s : state) :
  wp (beyond (t_timeout k d) : trun unit) (fun _ => noted s [Limit d]) (fun _ => noted s [Limit d]) s.
Proof.
  destruct s as [t [w l]]. unfold wp, beyond, zoom. cbn. unfold mbind, io_bind, hidden, zoom. cbn.
  by destruct (t_timeout k d w) as [[[]|e] w1].
Qed.

Lemma noted_quiet s l s' : noted s l s' -> Forall (fun e => quiet_event e = true) l -> carries_on s s'.
Proof. intros [E L] F. by apply (quiet_carries s s' l); [rewrite E.. | |]. Qed.

Lemma noted_app s l s' l' s'' : noted s l s' -> noted s' l' s'' -> noted s (l ++ l') s''.
Proof. intros [E L] [E' L']. split; [congruence |]. by rewrite L', L, app_assoc. Qed.

(** A check of the stream notes its fence first, and nothing but quiet events after it. *)
Definition checked (s s' : state) : Prop :=
  t_deadline s'.1 = t_deadline s.1 /\ network_bytes s'.1 = network_bytes s.1 /\
  exists p l, log_of s' = log_of s ++ Fence p :: l /\ Forall (fun e => quiet_event e = true) l.

Lemma noted_checked s p l s' : noted s (Fence p :: l) s' -> Forall (fun e => quiet_event e = true) l -> checked s s'.
Proof. intros [E L] F. unfold checked. rewrite E. eauto 8. Qed.

Lemma checked_carries s s' : checked s s' -> carries_on s s'.
Proof. intros (D & N & p & l & L & F). by apply (quiet_carries _ _ (Fence p :: l)); [..|constructor]. Qed.

#[local] Ltac quietly H := eapply noted_checked; [exact H | by repeat constructor].

(** A check of the stream that passes is what a use needs before it. *)
Lemma check_stream_runs deadline (s : state) :
  wp (check_stream deadline)
    (fun _ s' => exists t d, log_of s' = log_of s ++ [Fence true; Clock t; Limit d] /\ 0 < d <= 2 * SECOND /\ t + d <= t_deadline s.1 /\
                   t_deadline s'.1 = t_deadline s.1 /\ network_bytes s'.1 = network_bytes s.1)
    (fun _ => checked s) s.
Proof.
  unfold check_stream. apply wp_bind. eapply wp_mono; [apply fence_runs | | intros e s1 H; quietly H].
  intros [] s1 H1. apply wp_bind. eapply wp_mono; [apply clock_runs | |].
  2: { intros e s2 H2. pose proof (noted_app _ _ _ _ _ H1 H2) as H. quietly H. }
  intros now s2 H2. pose proof (noted_app _ _ _ _ _ H1 H2) as H. cbn [app] in H.
  apply wp_bind, wp_reads; [|done]. intros _ [= <-]. apply wp_bind, wp_check.
  2: { intros _. quietly H. }
  intros [_ Hlt%Z.ltb_lt]%andb_true_iff. apply wp_bind, wp_update. destruct H as [E L], s2 as [t2 w2]. cbn in E, Hlt. subst t2.
  eapply wp_mono; [apply limit_runs | |]; intros x s3 [E3 L3]; cbn in E3; unfold log_of in *; cbn in L, L3.
  - eexists now, _. rewrite L3, L, <- app_assoc, E3. split; [done |]. unfold SECOND in *. repeat split; lia.
  - unfold checked, log_of. rewrite E3. repeat split; [done.. |]. eexists true, [Clock now; Limit _].
    rewrite L3, L, <- app_assoc. by split; [|repeat constructor].
Qed.

Lemma check_stream_checked deadline : keeps checked (check_stream deadline : trun unit).
Proof.
  apply keeps_wp. intros s. eapply wp_mono; [apply check_stream_runs | | done].
  intros _ s' (t & d & E & Hd & Ht & D & N). repeat split; [done.. |]. eexists _, _. by split; [exact E | repeat constructor].
Qed.

Lemma check_stream_carries deadline : keeps carries_on (check_stream deadline : trun unit).
Proof. eapply keeps_weaken; [apply checked_carries | apply check_stream_checked]. Qed.

(** A use of the socket between two checks is a piece. *)
Lemma use_carries {A} b (m : io (W * list tls_event) A) deadline :
  (forall w, (m w).2.2 = w.2 ++ [Use b]) -> keeps carries_on (network_call m deadline : trun A).
Proof.
  intros Hm. apply keeps_wp. intros s. unfold network_call. apply wp_bind.
  eapply wp_mono; [apply check_stream_runs | | intros e s1; apply checked_carries].
  intros [] s1 (t & d & E & Hd & Ht & D & N).
  assert (forall s2, checked (s1.1, (m s1.2).2) s2 -> carries_on s s2) as H.
  { intros s2 (D2 & N2 & p & l & L2 & F). cbn in D2, N2. unfold log_of in L2. cbn in L2. split; [congruence |].
    exists ([Fence true; Clock t; Limit d; Use b; Fence p] ++ l). unfold log_of in *. rewrite L2, Hm, E, <- !app_assoc.
    assert (Forall (fun e => is_use e = false) l) as Fu by (eapply Forall_impl; [exact F | by intros []]).
    assert (fed l = 0) as Fl by (clear -F; induction F as [|[] l ? _ IH]; done).
    repeat split; [by apply use_piece, others_pieces | rewrite fed_app, Fl; cbn; lia | lia]. }
  apply wp_finally. unfold wp at 1, beyond, zoom. specialize (H (check_stream deadline (s1.1, (m s1.2).2)).2).
  pose proof (check_stream_checked deadline (s1.1, (m s1.2).2)) as Hc. destruct (m s1.2) as [[a|e] w2]; cbn in *;
    unfold wp; destruct (check_stream deadline (s1.1, w2)) as [[[]|e'] s3]; cbn in *; auto.
Qed.

Lemma feed_carries e (b : bytes) (s : state) :
  network_bytes s.1 + zlen b <= TAKEN ->
  let s1 := (received (zlen b) s.1, s.2) in
  wp (beyond (incoming_write e b) : trun unit) (fun _ => carries_on s) (fun _ => carries_on s) s1.
Proof.
  intros Hb. destruct s as [t [w l]]. unfold wp, beyond, zoom. cbn in *.
  unfold mbind, io_bind, hidden, zoom. cbn.
  assert (forall w', carries_on (t, (w, l)) (received (zlen b) t, (w', l ++ [Fed (zlen b)]))) as H.
  { intros w'. split; [done |]. exists [Fed (zlen b)]. cbn. repeat split; [by repeat constructor | lia | lia]. }
  by destruct (incoming_write e b w) as [[[]|x] w1].
Qed.

(** ** The calls *)

Lemma send_carries k b deadline : keeps carries_on (network_call (t_send k b) deadline : trun Z).
Proof.
  apply use_carries with true. intros w. cbn. unfold mbind, io_bind, hidden, zoom. cbn. by destruct (t_send k b w.1).
Qed.

Lemma receive_carries deadline : keeps carries_on (receive deadline : trun (option bytes)).
Proof.
  unfold receive. apply keeps_bind; [typeclasses eauto | by intros s |]. intros k. apply use_carries with false. intros w. cbn.
  unfold mbind, io_bind, hidden, zoom. cbn. by destruct (t_receive k w.1).
Qed.

Lemma see_carries {A} (f : tls -> A) : keeps carries_on (see f : trun A).
Proof. intros s. reflexivity. Qed.

Create HintDb tls discriminated.
#[local] Hint Resolve send_carries receive_carries check_stream_carries see_carries beyond_carries : tls.
#[local] Hint Resolve ticks_mute : tls.
#[local] Hint Extern 2 (mute _) => apply hidden_mute : tls.
#[local] Ltac onward := repeat (keeps_step || solve [auto with tls]).

Lemma send_all_carries n data deadline : keeps carries_on (send_all n data deadline : trun unit).
Proof. revert data. induction n as [|n IH]; intros [|c data]; cbn [send_all]; onward; apply IH. Qed.
#[local] Hint Resolve send_all_carries : tls.

Lemma flush_within_carries n deadline : keeps carries_on (flush_within n deadline : trun unit).
Proof. induction n as [|n IH]; cbn [flush_within]; onward; done. Qed.

Lemma flush_carries deadline : keeps carries_on (flush fuel deadline : trun unit).
Proof. apply flush_within_carries. Qed.
#[local] Hint Resolve flush_carries : tls.

(** What was received is taken in within the bound, and the engine is asked again. *)
Lemma take_carries {A} (data : bytes) (next : trun A) :
  keeps carries_on next ->
  keeps carries_on
    (fits ← see (fun s => negb (zlen data =? 0) && (network_bytes s + zlen data <=? TAKEN));
     check fits "TLS_EOF_OR_SIZE" ;;
     change (received (zlen data)) ;;
     e ← see t_engine;
     beyond (incoming_write e data) ;;
     next).
Proof.
  intros Hn. apply keeps_wp. intros s. apply wp_bind, wp_reads; [|done]. intros fits [= <-]. apply wp_bind, wp_check; [|done].
  intros [_ Hle%Z.leb_le]%andb_true_iff. apply wp_bind, wp_update. apply wp_bind, wp_reads; [|done]. intros e _.
  apply wp_bind. eapply wp_mono; [by apply feed_carries | | done].
  intros [] s1 H1. eapply wp_mono; [by apply wp_keeps | |]; intros x s2 H2; by etransitivity.
Qed.

Lemma call_within_carries {A} n (f : io (W * list tls_event) (engine_answer A)) deadline :
  mute f -> keeps carries_on (call_within fuel n f deadline : trun A).
Proof.
  intros Hf. induction n as [|n IH]; cbn [call_within]; [onward |].
  apply keeps_bind; [typeclasses eauto | auto with tls | intros _].
  apply keeps_bind; [typeclasses eauto | auto with tls | intros [x| |]]; [onward.. |].
  apply keeps_bind; [typeclasses eauto | auto with tls | intros _].
  apply keeps_bind; [typeclasses eauto | auto with tls | intros [data|]]; [by apply take_carries | done].
Qed.

Lemma call_carries {A} (f : io (W * list tls_event) (engine_answer A)) deadline :
  mute f -> keeps carries_on (call fuel f deadline : trun A).
Proof. apply call_within_carries. Qed.
#[local] Hint Resolve call_carries : tls.

Lemma handshake_carries profile endpoint server : keeps carries_on (handshake fuel profile endpoint server : trun unit).
Proof. unfold handshake. onward. Qed.

Lemma write_carries data : keeps carries_on (write fuel data : trun unit).
Proof.
  unfold write. generalize (length data) as n. intros n. revert data.
  induction n as [|n IH]; intros [|c data]; cbn [write_within]; onward.
Qed.

Lemma read_carries n d : keeps carries_on (read fuel n d : trun bytes).
Proof. unfold read. onward. Qed.

Lemma close_carries : keeps carries_on (notify_close fuel : trun unit).
Proof. unfold notify_close. onward. Qed.

(** ** Any calls *)

Inductive stream_call :=
| Handshake (profile endpoint : value) (server : bool)
| Write (data : bytes)
| Read (maximum : Z) (deadline : option Z)
| Notify_close.

Definition perform (c : stream_call) : trun unit :=
  match c with
  | Handshake profile endpoint server => handshake fuel profile endpoint server
  | Write data => write fuel data
  | Read maximum deadline => _ ← read fuel maximum deadline; mret tt
  | Notify_close => notify_close fuel
  end.

Definition perform_all (cs : list stream_call) : trun unit := io_fold (fun _ c => _ ← attempt (perform c); mret tt) tt cs.

Lemma perform_carries c : keeps carries_on (perform c).
Proof.
  destruct c; cbn [perform]; auto using handshake_carries, write_carries, close_carries.
  apply keeps_bind; [typeclasses eauto | apply read_carries | intros _; by intros s].
Qed.

Lemma perform_all_carries cs : keeps carries_on (perform_all cs).
Proof.
  apply keeps_fold; [typeclasses eauto |]. intros _ c _. apply keeps_bind; [typeclasses eauto | | by intros _ s].
  apply keeps_attempt, perform_carries.
Qed.

(** A stream as [open_stream] makes it. *)
Definition new_stream (socket engine deadline last : Z) : tls :=
  {| t_socket := socket; t_engine := engine; t_deadline := deadline; network_bytes := 0; t_last := last |}.

(** C39: The socket of a TLS stream is never used out of its fence.  Whatever calls are made of a stream, in
    whatever order and however the engine, the socket, the clock and the owner's check answer or raise,
    every send and every receive comes right after a check of the transport that passed, a reading of the
    clock and a time-out of at most two seconds that ends before the deadline of the stream, and a check of
    the transport comes right after it; and the stream gives its engine eight mebibytes at most, all of
    them counted. *)
Theorem socket_fenced cs (socket engine deadline last : Z) (w : W) :
  let s := (perform_all cs (new_stream socket engine deadline last, (w, []))).2 in
  fenced deadline (log_of s) /\ network_bytes s.1 = fed (log_of s) /\ network_bytes s.1 <= TAKEN.
Proof.
  intros s. destruct (perform_all_carries cs (new_stream socket engine deadline last, (w, [])) : carries_on _ s) as [_ (l & E & P & N & B)].
  change (log_of s = l) in E. change (network_bytes s.1 = 0 + fed l) in N. rewrite E. split; [by apply pieces_fenced |].
  split; [lia | by apply B].
Qed.
End runs.
