(* ===== verification/PartKeeps.v ===== *)
(** What the parts of the proxy server leave alone: a part that runs next to a state keeps every preorder of
    that state which the calls it makes keep. *)

From S2P Require Import Prelude Effects PyVal Utf8 Json Sha2 Canonical Base64 IsoTime Regex Text Posix.
From S2P Require Import SchemaBase Lifecycle LinuxShape Live LinuxVerify Session ReplayStore ProxyDocument Observation Der Http Boundary Custody.
From S2P Require Import AdmissionLedger Files Store PeerLink Observer TlsCodec.

#[local] Open Scope string_scope.
#[local] Open Scope list_scope.
#[local] Open Scope Z_scope.

(** ** Automation *)

(** The second component of a state is related. *)
Definition beside {T W} (R : relation W) : relation (T * W) := fun s s' => R s.2 s'.2.

#[export] Instance beside_preorder {T W} (R : relation W) `{!PreOrder R} : PreOrder (beside (T := T) R).
Proof. split; [intros s; unfold beside; reflexivity | intros s1 s2 s3 H1 H2; unfold beside in *; by etransitivity]. Qed.

Lemma keeps_update {W} (R : relation W) f : (forall w, R w (f w)) -> keeps R (update f).
Proof. intros H w. apply H. Qed.

Lemma keeps_zoom {W V A} (R : relation W) (Q : relation V) (get : W -> V) put (m : io V A) :
  (forall w v, Q (get w) v -> R w (put v w)) -> keeps Q m -> keeps R (zoom get put m).
Proof. intros H Hm w. specialize (Hm (get w)). unfold zoom. destruct (m (get w)) as [r v]. apply H, Hm. Qed.

Create HintDb kept discriminated.

(** The wrappers of the parts, each of which is added with its lemma. *)
Ltac walk_wrapper := fail.

(** Walks a run down to its calls. *)
Ltac walk_step :=
  lazymatch goal with
  | |- keeps _ (attempt _) => apply keeps_attempt
  | |- keeps _ (on_exception _ _) => apply keeps_on_exception; [typeclasses eauto | | intros ?]
  | |- keeps _ (io_fold _ _ _) => apply keeps_fold; [typeclasses eauto | intros ? ? _]
  | |- keeps _ (let '(_, _) := ?x in _) => destruct x
  | |- _ => first [walk_wrapper | keeps_step]
  end.
Ltac walk := repeat (solve [auto with kept] || walk_step).

(** ** Files *)

Class FilesKept {W} {Si : FileSite W} (R : relation W) : Prop := {
  fk_owner : keeps R Files.owner_check;
  fk_open p n o : keeps R (f_open p n o);
  fk_fstat fd : keeps R (f_fstat fd);
  fk_stat p n : keeps R (f_stat p n);
  fk_inheritable fd : keeps R (f_inheritable fd);
  fk_read fd n : keeps R (f_read fd n);
  fk_listdir fd : keeps R (f_listdir fd);
  fk_close fd : keeps R (f_close fd)
}.
#[export] Hint Resolve fk_owner fk_open fk_fstat fk_stat fk_inheritable fk_read fk_listdir fk_close : kept.

Section files.
Context {U : Unicode} {W : Type} {Si : FileSite W} (R : relation W) `{!PreOrder R} `{!FilesKept R}.
#[local] Notation run := (Files.run (W := W)).

Lemma files_beyond {A} (m : io W A) : keeps R m -> keeps (beside R) (Files.beyond m : run A).
Proof. apply keeps_zoom. by intros [f w] w'. Qed.
Lemma files_change f : keeps (beside R) (Files.change f : run unit).
Proof. apply keeps_update. intros s. unfold beside. cbn. reflexivity. Qed.
Lemma files_see {A} (f : files -> A) : keeps (beside R) (Files.see f : run A).
Proof. apply keeps_reads. typeclasses eauto. Qed.
#[local] Hint Resolve files_beyond files_change files_see : kept.

Lemma check_row_kept row : keeps (beside R) (Files.check_row row : run unit).
Proof. unfold Files.check_row. walk. Qed.
#[local] Hint Resolve check_row_kept : kept.

Lemma check_files_kept : keeps (beside R) (check_files : run unit).
Proof. unfold check_files, Files.each. walk. Qed.
#[local] Hint Resolve check_files_kept : kept.

Lemma open_within_kept fuel path directory mode writable : keeps (beside R) (open_within fuel path directory mode writable : run Z).
Proof.
  revert path directory mode writable. induction fuel as [|fuel IH]; intros path directory mode writable; cbn [open_within]; unfold open_row, identify; walk; apply IH.
Qed.

Lemma open_kept path directory mode writable : keeps (beside R) (Files._open path directory mode writable : run Z).
Proof. apply open_within_kept. Qed.
#[local] Hint Resolve open_kept : kept.

Lemma read_parts_kept fuel fd size data : keeps (beside R) (Files.read_parts fuel fd size data : run bytes).
Proof. revert data. induction fuel as [|fuel IH]; intros data; cbn [Files.read_parts]; walk; apply IH. Qed.
#[local] Hint Resolve read_parts_kept : kept.

Lemma read_kept path digest mode maximum : keeps (beside R) (Files.read path digest mode maximum : run bytes).
Proof. unfold Files.read, read_first. walk. Qed.
#[local] Hint Resolve read_kept : kept.

Lemma walk_kept fuel path prefix k : keeps (beside R) (Files.walk fuel path prefix k : run Files.kit_walk).
Proof.
  revert path prefix k. induction fuel as [|fuel IH]; intros path prefix k; cbn [Files.walk]; unfold kit_file; walk; apply IH.
Qed.
#[local] Hint Resolve walk_kept : kept.

Lemma kit_kept root tree : keeps (beside R) (Files.kit root tree : run (list (str * bytes))).
Proof. unfold Files.kit. walk. Qed.

Lemma files_close_kept : keeps (beside R) (Files.close : run unit).
Proof. unfold Files.close, Files.close_row. walk. Qed.
End files.
#[export] Hint Resolve check_files_kept open_kept read_kept kit_kept files_close_kept files_change : kept.

(** ** The store *)

Class StoreKept {W} {Si : StoreSite W} (R : relation W) : Prop := {
  sk_owner : keeps R Store.owner_check;
  sk_files : keeps R files_check;
  sk_fstat fd : keeps R (s_fstat fd);
  sk_stat n d : keeps R (s_stat n d);
  sk_flock fd o : keeps R (s_flock fd o);
  sk_pread fd n : keeps R (s_pread fd n);
  sk_write fd b : keeps R (s_write fd b);
  sk_fsync fd : keeps R (s_fsync fd);
  sk_close fd : keeps R (s_close fd)
}.
#[export] Hint Resolve sk_owner sk_files sk_fstat sk_stat sk_flock sk_pread sk_write sk_fsync sk_close : kept.

(** What was read is never taken back. *)
Definition floor_grows {W} (R : relation W) : relation (store * W) := fun s s' => prefix (floor s.1) (floor s'.1) /\ R s.2 s'.2.

#[export] Instance floor_grows_preorder {W} (R : relation W) `{!PreOrder R} : PreOrder (floor_grows R).
Proof.
  split; [intros s; by split | intros s1 s2 s3 [H1 H2] [H3 H4]; split; by etransitivity].
Qed.

Section store.
Context {W : Type} {Si : StoreSite W} (R : relation W) `{!PreOrder R} `{!StoreKept R}.
#[local] Notation run := (Store.run (W := W)).
#[local] Notation grows := (floor_grows R).

Lemma store_beyond {A} (m : io W A) : keeps R m -> keeps grows (Store.beyond m : run A).
Proof. apply keeps_zoom. by intros [f w] w'. Qed.
Lemma store_see {A} (f : store -> A) : keeps grows (Store.see f : run A).
Proof. apply keeps_reads. typeclasses eauto. Qed.
Lemma held_fd_kept f : keeps grows (held_fd f : run Z).
Proof. unfold held_fd. walk. Qed.
#[local] Hint Resolve store_beyond store_see held_fd_kept : kept.

Lemma with_fd_kept f o : keeps grows (Store.change (with_fd f o) : run unit).
Proof. apply keeps_update. intros s. by split. Qed.
#[local] Hint Resolve with_fd_kept : kept.

Lemma check_file_kept f : keeps grows (check_file f : run unit).
Proof. unfold check_file. walk. Qed.
#[local] Hint Resolve check_file_kept : kept.

Lemma check_store_kept : keeps grows (check_store : run unit).
Proof. unfold check_store. walk. Qed.
#[local] Hint Resolve check_store_kept : kept.

Lemma enter_store_kept : keeps grows (enter_store : run unit).
Proof. unfold enter_store. walk. Qed.

Lemma leave_store_kept : keeps grows (leave_store : run unit).
Proof. unfold leave_store. walk. Qed.

Lemma append_store_kept raw : keeps grows (append_store raw : run unit).
Proof. unfold append_store. walk. Qed.

Lemma sync_store_kept : keeps grows (sync_store : run unit).
Proof. unfold sync_store. walk. Qed.

Lemma close_store_kept : keeps grows (close_store : run unit).
Proof. unfold close_store, close_file. walk. Qed.

(** The floor is raised to what was read, which begins with it. *)
Lemma raise_floor_kept (raw : bytes) (size : Z) :
  keeps grows (kept ← Store.see (fun s => (zlen raw =? size) && startswith (floor s) raw);
               check kept "ADMISSION_STORE_ROLLBACK" ;; Store.change (with_floor raw) ;; mret raw : run bytes).
Proof.
  apply keeps_wp. intros s. apply wp_bind, wp_reads; [|done]. intros k [= <-]. apply wp_bind, wp_check; [|done].
  intros [_ [r E]%startswith_app]%andb_true_iff. apply wp_bind, wp_update, wp_ret. split; [by exists r | done].
Qed.
#[local] Hint Resolve raise_floor_kept : kept.

Lemma read_store_kept : keeps grows (read_store : run bytes).
Proof. unfold read_store. walk. Qed.

(** A read leaves the floor at what it returns. *)
Lemma read_store_floor (s : store * W) raw s' : read_store s = (Ok raw, s') -> floor s'.1 = raw.
Proof.
  unfold read_store. intros H. do 8 apply io_bind_Ok in H as (? & ? & _ & H).
  apply io_bind_Ok in H as ([] & s1 & Hc & H). injection H as <- <-. by injection Hc as <-.
Qed.
End store.
#[export] Hint Resolve check_store_kept enter_store_kept leave_store_kept append_store_kept sync_store_kept read_store_kept close_store_kept : kept.

(** ** The log *)

Class StorageKept {W} {St : Storage W} (R : relation W) : Prop := {
  st_enter : keeps R enter; st_leave : keeps R leave; st_read : keeps R read_all; st_append b : keeps R (append b); st_sync : keeps R sync
}.
#[export] Hint Resolve st_enter st_leave st_read st_append st_sync : kept.

#[export] Instance store_storage_kept {W} {Si : StoreSite W} (R : relation W) `{!PreOrder R} `{!StoreKept R} : StorageKept (floor_grows R).
Proof. split; intros; [apply enter_store_kept | apply leave_store_kept | apply read_store_kept | apply append_store_kept | apply sync_store_kept]; done. Qed.

(** The storage of a journal is related. *)
Definition stored {W} (R : relation W) : relation (journal W) := fun j j' => R (storage j) (storage j').
Definition stored_flagged {W} (R : relation W) : relation (journal W * bool) := fun j j' => R (storage j.1) (storage j'.1).

#[export] Instance stored_preorder {W} (R : relation W) `{!PreOrder R} : PreOrder (stored R).
Proof. split; [intros j; unfold stored; reflexivity | intros j1 j2 j3 H1 H2; unfold stored in *; by etransitivity]. Qed.
#[export] Instance stored_flagged_preorder {W} (R : relation W) `{!PreOrder R} : PreOrder (stored_flagged R).
Proof. split; [intros j; unfold stored_flagged; reflexivity | intros j1 j2 j3 H1 H2; unfold stored_flagged in *; by etransitivity]. Qed.

Section log.
Context {U : Unicode} {W : Type} {St : Storage W} (R : relation W) `{!PreOrder R} `{!StorageKept R}.

Lemma on_storage_kept {A} (m : io W A) : keeps R m -> keeps (stored R) (on_storage m).
Proof. apply keeps_zoom. by intros j w. Qed.
Lemma poison_kept : keeps (stored R) ReplayStore.poison.
Proof. apply keeps_update. intros j. unfold stored. cbn. reflexivity. Qed.
#[local] Hint Resolve on_storage_kept poison_kept : kept.

Lemma extend_kept before after : keeps (stored R) (extend before after).
Proof. unfold extend, append_checked. walk. Qed.
#[local] Hint Resolve extend_kept : kept.

Lemma record_kept binding state operation now cleanup : keeps (stored R) (AdmissionLedger.record binding state operation now cleanup).
Proof. unfold AdmissionLedger.record, in_transaction. walk. Qed.

Lemma zoom_journal_kept {A} (m : io (journal W) A) : keeps (stored R) m -> keeps (stored_flagged R) (zoom_journal m).
Proof. apply keeps_zoom. by intros j w. Qed.
#[local] Hint Resolve zoom_journal_kept : kept.

Lemma record_resource_kept binding state operation now profile broker_binding action expected observed :
  keeps (stored R) (record_resource binding state operation now profile broker_binding action expected observed).
Proof.
  unfold record_resource. walk. unfold with_flag.
  match goal with |- keeps _ (fun j => let (r, w) := ?m (j, false) in (r, w.1)) => assert (keeps (stored_flagged R) m) as H end.
  { unfold poison_if_writing. walk; apply keeps_update; intros w; unfold stored_flagged; [|destruct (w.2)]; cbn; reflexivity. }
  intros j. specialize (H (j, false)). by destruct (on_error _ _ (j, false)) as [r w].
Qed.

(** ** What a recorded row leaves *)

(** A storage that remembers what it read last, and keeps it on leaving. *)
Context (F : W -> bytes) (Hread : forall s raw s', read_all s = (Ok raw, s') -> F s' = raw) (Hleave : forall s, F (leave s).2 = F s).

Lemma extend_floor before after (j j' : journal W) :
  (length before <= length after)%nat -> take (length before) after = before ->
  extend before after j = (Ok tt, j') -> F (storage j') = after.
Proof.
  intros Hl Ht. unfold extend, append_checked. intros H. do 2 apply io_bind_Ok in H as (? & ? & _ & H).
  apply io_bind_Ok in H as (again & j1 & Hr & [Hc%str_eqb_eq ->]%check_Ok).
  unfold on_storage in Hr. apply zoom_Ok in Hr as (w & Hr & ->). cbn. rewrite (Hread _ _ _ Hr), Hc.
  rewrite <- (take_drop (length before) after) at 2. by rewrite Ht.
Qed.

Lemma planned_extends fields before row after :
  plan_row fields before = Ok (row, after) -> exists text, after = before ++ text /\ (exists c, canonical_bytes row = Ok c /\ text = c ++ [10%N]) /\
    exists s, parse_reservations after = Ok s.
Proof.
  unfold plan_row. intros (s & _ & H)%bind_Ok. cbv zeta in H. apply bind_Ok in H as (c & Hc & (s' & Hs' & [= <- <-])%bind_Ok). eauto 8.
Qed.

Lemma extend_planned fields before row after (j j' : journal W) :
  plan_row fields before = Ok (row, after) -> extend before after j = (Ok tt, j') -> F (storage j') = after.
Proof.
  intros (text & -> & _)%planned_extends. apply extend_floor; [rewrite length_app; lia | apply take_app_length].
Qed.

(** A row that is recorded is the last thing that was read. *)
Lemma record_floor binding state operation now cleanup (j j' : journal W) d :
  AdmissionLedger.record binding state operation now cleanup j = (Ok d, j') ->
  exists before row, plan_row [(u "binding", binding); (u "state", state); (u "operation", operation); (u "observedAt", now); (u "cleanup", cleanup)]
                       before = Ok (row, F (storage j')) /\ canonical_digest row None = Ok d.
Proof.
  unfold AdmissionLedger.record, in_transaction. intros (? & ? & _ & (? & ? & _ & (? & ? & _ & H)%io_bind_Ok)%io_bind_Ok)%io_bind_Ok.
  apply finally_Ok in H as (j1 & H & Hl). apply io_bind_Ok in H as (before & j2 & _ & H).
  apply io_bind_Ok in H as ([row after] & j3 & [Hp ->]%lift_Ok & H). apply io_bind_Ok in H as ([] & j4 & He & [Hd ->]%lift_Ok).
  apply on_error_Ok, (extend_planned _ _ _ _ _ _ Hp) in He. exists before, row.
  unfold on_storage in Hl. apply zoom_Ok in Hl as (w & Hl & ->). cbn. specialize (Hleave (storage j4)). rewrite Hl in Hleave. cbn in Hleave.
  by rewrite Hleave, He.
Qed.
End log.
#[export] Hint Resolve record_kept record_resource_kept : kept.

(** ** The link *)

Class LinkKept {W} {Si : LinkSite W} (R : relation W) : Prop := {
  lk_base : keeps R base_check;
  lk_binding : keeps R binding_check;
  lk_broker : keeps R broker_binding;
  lk_installed m e : keeps R (installed m e);
  lk_directory p m : keeps R (open_directory p m);
  lk_wall : keeps R wall;
  lk_ticks : keeps R ticks;
  lk_fstat fd : keeps R (l_fstat fd);
  lk_stat p d : keeps R (l_stat p d);
  lk_inheritable fd : keeps R (l_inheritable fd);
  lk_close fd : keeps R (l_close fd);
  lk_new : keeps R sock_new;
  lk_fileno s : keeps R (sock_fileno s);
  lk_private s : keeps R (sock_private s);
  lk_pass s : keeps R (sock_pass_credentials s);
  lk_timeout s d : keeps R (sock_timeout s d);
  lk_connect s p : keeps R (sock_connect s p);
  lk_peer s : keeps R (sock_peer s);
  lk_send s b : keeps R (sock_send s b);
  lk_receive s : keeps R (sock_receive s);
  lk_socket_close s : keeps R (sock_close s);
  lk_detach s : keeps R (sock_detach s);
  lk_select_now s : keeps R (select_now s);
  lk_select_for s d : keeps R (select_for s d);
  lk_pidfd p : keeps R (pidfd_open p);
  lk_proc : keeps R proc;
  lk_exe p : keeps R (proc_exe p);
  lk_random n : keeps R (random n);
  lk_inspect_open k : keeps R (inspect_open k);
  lk_inspect_check k : keeps R (inspect_check k);
  lk_inspect_close k : keeps R (inspect_close k)
}.
#[export] Hint Resolve lk_base lk_binding lk_broker lk_installed lk_directory lk_wall lk_ticks lk_fstat lk_stat lk_inheritable lk_close : kept.
#[export] Hint Resolve lk_new lk_fileno lk_private lk_pass lk_timeout lk_connect lk_peer lk_send lk_receive lk_socket_close lk_detach : kept.
#[export] Hint Resolve lk_select_now lk_select_for lk_pidfd lk_proc lk_exe lk_random lk_inspect_open lk_inspect_check lk_inspect_close : kept.

(** A link that is closed or failed stays so. *)
Definition rises (l l' : link) : Prop :=
  (PeerLink.closed l = true -> PeerLink.closed l' = true) /\ (failed l = true -> failed l' = true) /\ deadline l' = deadline l.
Definition along {W} (R : relation W) : relation (link * W) := fun s s' => rises s.1 s'.1 /\ R s.2 s'.2.

#[export] Instance along_preorder {W} (R : relation W) `{!PreOrder R} : PreOrder (along R).
Proof.
  split; [intros s; by repeat split | intros s1 s2 s3 [(A & B & C) H1] [(A' & B' & C') H2]].
  split; [split; [|split] | by etransitivity]; [auto | auto | congruence].
Qed.

Section link.
Context {U : Unicode} {W : Type} {Si : LinkSite W} (R : relation W) `{!PreOrder R} `{!LinkKept R}.
#[local] Notation run := (PeerLink.run (W := W)).

Lemma link_beyond {A} (m : io W A) : keeps R m -> keeps (along R) (PeerLink.beyond m : run A).
Proof. apply keeps_zoom. intros [l w] w' H. by repeat split. Qed.
Lemma link_see {A} (f : link -> A) : keeps (along R) (PeerLink.see f : run A).
Proof. apply keeps_reads. typeclasses eauto. Qed.
Lemma given_kept {A} (f : link -> option A) : keeps (along R) (given f : run A).
Proof. apply keeps_reads. typeclasses eauto. Qed.
Lemma link_change f : (forall l, rises l (f l)) -> keeps (along R) (PeerLink.change f : run unit).
Proof. intros H. apply keeps_update. intros s. split; [apply H | cbn; reflexivity]. Qed.
#[local] Hint Resolve link_beyond link_see given_kept : kept.
#[local] Hint Extern 1 (keeps _ (PeerLink.change _)) => apply link_change; intros ?; by repeat split : kept.

Lemma instant_kept : keeps (along R) (utc_instant : run datetime).
Proof. unfold utc_instant. walk. Qed.
#[local] Hint Resolve instant_kept : kept.

Lemma guard_clocks_kept k : keeps (along R) (guard_clocks k : run unit).
Proof. unfold guard_clocks. walk. Qed.
#[local] Hint Resolve guard_clocks_kept : kept.

Lemma guard_kept k : keeps (along R) (_guard k : run unit).
Proof. unfold _guard, guard_binding. walk. Qed.
#[local] Hint Resolve guard_kept : kept.

Lemma phase_kept k {A} (body : run A) : keeps (along R) body -> keeps (along R) (_phase k body).
Proof. intros H. unfold _phase. walk. Qed.

Lemma io_kept k {A} (m : run A) : keeps (along R) m -> keeps (along R) (_io k m).
Proof. intros H. unfold _io. walk. Qed.

#[local] Ltac walk_wrapper ::=
  lazymatch goal with |- keeps _ (_io _ _) => apply io_kept | |- keeps _ (_phase _ _) => apply phase_kept end.

Lemma prepare_wait_kept k : keeps (along R) (_prepare_wait k : run unit).
Proof. unfold _prepare_wait. walk. Qed.

Lemma fd_pin_kept k fd : keeps (along R) (_fd_pin k fd : run (list Z)).
Proof. unfold _fd_pin. walk. Qed.
#[local] Hint Resolve prepare_wait_kept fd_pin_kept : kept.

Lemma peer_of_kept k s : keeps (along R) (peer_of k s : run (list Z)).
Proof. unfold peer_of. walk. Qed.

Lemma peer_pid_kept : keeps (along R) (peer_pid : run Z).
Proof. unfold peer_pid. walk. Qed.

Lemma identity_of_kept k p : keeps (along R) (PeerLink.identity_of k p : run Boundary.identity).
Proof. unfold PeerLink.identity_of. walk. Qed.
#[local] Hint Resolve peer_of_kept peer_pid_kept identity_of_kept : kept.

Lemma descriptors_kept k : keeps (along R) (check_descriptors k : run unit).
Proof. unfold check_descriptors. walk. Qed.

Lemma process_kept k : keeps (along R) (check_process k : run unit).
Proof. unfold check_process. walk. Qed.
#[local] Hint Resolve descriptors_kept process_kept : kept.

Lemma check_peer_kept k : keeps (along R) (_check_peer k : run unit).
Proof. unfold _check_peer. walk. Qed.
#[local] Hint Resolve check_peer_kept : kept.

Lemma acquire_socket_kept k : keeps (along R) (acquire_socket k : run unit).
Proof. unfold acquire_socket. walk. Qed.

Lemma acquire_pidfd_kept k p : keeps (along R) (acquire_pidfd k p : run unit).
Proof. unfold acquire_pidfd. walk. Qed.

Lemma enrolment_kept k : keeps (along R) (check_enrolment k : run unit).
Proof. unfold check_enrolment. walk. Qed.

Lemma custody_kept k : keeps (along R) (socket_custody k : run unit).
Proof. unfold socket_custody. walk. Qed.
#[local] Hint Resolve acquire_socket_kept acquire_pidfd_kept enrolment_kept custody_kept : kept.

Lemma connect_kept k : keeps (along R) (_connect k : run unit).
Proof. unfold _connect. walk. Qed.

Lemma keep_failure_kept r : keeps (along R) (keep_failure r : run unit).
Proof. unfold keep_failure. walk. Qed.
#[local] Hint Resolve connect_kept keep_failure_kept : kept.

Lemma close_resources_kept k : keeps (along R) (close_resources k : run unit).
Proof. unfold close_resources, close_pidfd, close_socket, same_pin. walk. Qed.

Lemma close_link_kept k before : keeps (along R) before -> keeps (along R) (close_link k before : run unit).
Proof. intros H. unfold close_link, raise_cleanup. pose proof close_resources_kept. walk. Qed.
#[local] Hint Resolve close_link_kept : kept.

Lemma sender_kept ancillary flags : keeps (along R) (sender ancillary flags : run (list Z)).
Proof. unfold sender. walk. Qed.
#[local] Hint Resolve sender_kept : kept.

Lemma receive_message_kept k : keeps (along R) (receive_message k : run bytes).
Proof. unfold receive_message. walk. Qed.

Lemma send_message_kept raw ambiguous : keeps (along R) (send_message raw ambiguous : run unit).
Proof. unfold send_message. walk. Qed.
End link.
#[export] Hint Resolve link_beyond link_see given_kept instant_kept guard_kept prepare_wait_kept fd_pin_kept : kept.
#[export] Hint Resolve check_peer_kept connect_kept keep_failure_kept close_link_kept receive_message_kept send_message_kept : kept.
#[export] Hint Extern 1 (keeps _ (PeerLink.change _)) => apply link_change; [typeclasses eauto | intros ?; by repeat split] : kept.

Ltac walk_wrapper ::=
  lazymatch goal with
  | |- keeps _ (_io _ _) => apply io_kept; [typeclasses eauto.. |]
  | |- keeps _ (_phase _ _) => apply phase_kept; [typeclasses eauto.. |]
  | |- keeps _ (close_link _ _) => apply close_link_kept; [typeclasses eauto.. |]
  end.

(** ** A TLS stream *)

Class TlsKept {W} {Si : TlsSite W} (R : relation W) : Prop := {
  tk_check : keeps R transport_check;
  tk_ticks : keeps R t_ticks;
  tk_timeout s d : keeps R (t_timeout s d);
  tk_send s b : keeps R (t_send s b);
  tk_receive s : keeps R (t_receive s);
  tk_wrap c v n : keeps R (e_wrap c v n);
  tk_handshake e : keeps R (e_handshake e);
  tk_write e b : keeps R (e_write e b);
  tk_read e n : keeps R (e_read e n);
  tk_unwrap e : keeps R (e_unwrap e);
  tk_certificate e : keeps R (e_peer_certificate e);
  tk_outgoing e : keeps R (outgoing_read e);
  tk_incoming e b : keeps R (incoming_write e b)
}.
#[export] Hint Resolve tk_check tk_ticks tk_timeout tk_send tk_receive tk_wrap tk_handshake tk_write tk_read tk_unwrap : kept.
#[export] Hint Resolve tk_certificate tk_outgoing tk_incoming : kept.

Section tls.
Context {U : Unicode} {W : Type} {Si : TlsSite W} (R : relation W) `{!PreOrder R} `{!TlsKept R} (fuel : nat).
#[local] Notation run := (TlsCodec.run (W := W)).

Lemma tls_beyond {A} (m : io W A) : keeps R m -> keeps (beside R) (TlsCodec.beyond m : run A).
Proof. apply keeps_zoom. by intros [t w] w'. Qed.
Lemma tls_change f : keeps (beside R) (TlsCodec.change f : run unit).
Proof. apply keeps_update. intros s. unfold beside. cbn. reflexivity. Qed.
Lemma tls_see {A} (f : tls -> A) : keeps (beside R) (TlsCodec.see f : run A).
Proof. apply keeps_reads. typeclasses eauto. Qed.
#[local] Hint Resolve tls_beyond tls_change tls_see : kept.

Lemma check_stream_kept d : keeps (beside R) (check_stream d : run unit).
Proof. unfold check_stream. walk. Qed.
#[local] Hint Resolve check_stream_kept : kept.

Lemma network_call_kept {A} (m : io W A) d : keeps R m -> keeps (beside R) (network_call m d : run A).
Proof. intros H. unfold network_call. walk. Qed.
#[local] Hint Resolve network_call_kept : kept.

Lemma send_all_kept n data d : keeps (beside R) (send_all n data d : run unit).
Proof. revert data. induction n as [|n IH]; intros [|]; cbn [send_all]; walk; apply IH. Qed.
#[local] Hint Resolve send_all_kept : kept.

Lemma flush_kept d : keeps (beside R) (flush fuel d : run unit).
Proof. unfold flush. induction fuel as [|n IH]; cbn [flush_within]; walk; apply IH. Qed.
#[local] Hint Resolve flush_kept : kept.

Lemma call_kept {A} (f : io W (engine_answer A)) d : keeps R f -> keeps (beside R) (call fuel f d : run A).
Proof.
  intros H. unfold call. assert (forall n, keeps (beside R) (call_within fuel n f d : run A)) as G; [|apply G].
  induction n as [|n IH]; cbn [call_within]; unfold TlsCodec.receive; walk; apply IH.
Qed.
#[local] Hint Resolve call_kept : kept.

Lemma handshake_kept profile endpoint v : keeps (beside R) (handshake fuel profile endpoint v : run unit).
Proof. unfold handshake. walk. Qed.

Lemma tls_write_kept data : keeps (beside R) (TlsCodec.write fuel data : run unit).
Proof.
  unfold TlsCodec.write. generalize (length data) as n. intros n. revert data.
  induction n as [|n IH]; intros [|]; cbn [TlsCodec.write_within]; walk; apply IH.
Qed.

Lemma tls_read_kept n d : keeps (beside R) (TlsCodec.read fuel n d : run bytes).
Proof. unfold TlsCodec.read. walk. Qed.
#[local] Hint Resolve tls_read_kept : kept.

Lemma notify_close_kept : keeps (beside R) (notify_close fuel : run unit).
Proof. unfold notify_close. walk. Qed.

Lemma open_stream_kept s c n v d : keeps R (open_stream s c n v d).
Proof. unfold open_stream. walk. Qed.

Lemma read_http_kept response host : keeps (beside R) (@read_http _ (tls_stream fuel) response host : run (bytes * bytes)).
Proof.
  assert (forall n data d, keeps (beside R) (@read_head _ (tls_stream fuel) n data d)) as Hh.
  { induction n as [|n IH]; intros; cbn [read_head]; cbn [tls_read tls_stream]; walk; apply IH. }
  assert (forall n body size, keeps (beside R) (@read_body _ (tls_stream fuel) n body size)) as Hb.
  { induction n as [|n IH]; intros; cbn [read_body]; cbn [tls_read tls_stream]; walk; apply IH. }
  unfold read_http. cbn [tls_read tls_stream monotonic]. walk.
Qed.
End tls.
#[export] Hint Resolve handshake_kept tls_write_kept notify_close_kept open_stream_kept read_http_kept : kept.
