(* ===== verification/ServerKeeps.v ===== *)
(** What the server leaves alone: whatever it calls, the history that its store read last is never taken
    back, and a link works on through checks that leave the steps of the creation as they are.  The
    checks of a broker connection leave alone the milestones of the creation, and the history that was
    read; they may mark a step as failed, renew a pin or close the connection. *)

From S2P Require Import Prelude Effects PyVal Utf8 Json Sha2 Canonical Base64 Ed25519 IsoTime Regex Text Posix.
From S2P Require Import SchemaBase Ipaddr Lifecycle LinuxShape Live LinuxVerify Session ReplayStore Supervisor BackendAuthority Launcher.
From S2P Require Import ProxySpecs ProxyDocument MutationAdmission Observation AdmissionLedger Broker Qualification Der Http.
From S2P Require Import Boundary Custody Files Store PeerLink Observer TlsCodec BrokerData ServerBase BrokerStart BrokerClose BrokerIntent BrokerApi BrokerCreate BrokerSteps.
From S2P Require Import PartKeeps.

#[local] Open Scope string_scope.
#[local] Open Scope list_scope.
#[local] Open Scope Z_scope.

#[export] Hint Extern 0 (PreOrder _) => typeclasses eauto : kept.
#[export] Hint Extern 0 (FilesKept _) => typeclasses eauto : kept.
#[export] Hint Extern 0 (StoreKept _) => typeclasses eauto : kept.
#[export] Hint Extern 0 (StorageKept _) => typeclasses eauto : kept.
#[export] Hint Extern 0 (LinkKept _) => typeclasses eauto : kept.
#[export] Hint Extern 0 (TlsKept _) => typeclasses eauto : kept.

(** ** Two states side by side *)

Definition paired {X W} (Q : relation X) (R : relation W) : relation (X * W) := fun s s' => Q s.1 s'.1 /\ R s.2 s'.2.

#[export] Instance paired_preorder {X W} (Q : relation X) (R : relation W) `{!PreOrder Q} `{!PreOrder R} : PreOrder (paired Q R).
Proof. split; [intros s; by split | intros s1 s2 s3 [H1 H2] [H3 H4]; split; by etransitivity]. Qed.

(** Any change. *)
Definition anyhow {X} : relation X := fun _ _ => True.
#[export] Instance anyhow_preorder {X} : PreOrder (anyhow (X := X)).
Proof. by split. Qed.

Lemma aside_kept {X W A} (Q : relation X) (R : relation W) `{!PreOrder Q} (m : io W A) : keeps R m -> keeps (paired Q R) (aside m).
Proof. apply keeps_zoom. intros [x w] w' H. split; [cbn; reflexivity | done]. Qed.

#[export] Instance link_beside_kept {X W} {Si : LinkSite W} (Q : relation X) (R : relation W) `{!PreOrder Q} `{!LinkKept R} :
  LinkKept (paired Q R).
Proof. split; intros; cbn; apply aside_kept; auto with kept. Qed.

(** ** The server *)

(** The history of the admission log as the store read it last. *)
Definition history {W} (s : server W) : bytes := match srv_store s with Some t => floor t | None => [] end.

(** What a server holds, and what it was started with. *)
Definition parts {W} (s : server W) :=
  (srv_store s, srv_observer s, srv_broker s, srv_inspecting s, (is_active s, srv_closed s, srv_authority s),
   (reservation (srv_serving s), memfd (srv_serving s), listener (srv_serving s), connection (srv_serving s))).

(** A change of none of them, and the preorders that ignore such changes. *)
Definition aloof {W} (f : server W -> server W) : Prop := forall s, parts (f s) = parts s.
Class Aloof {W} (R : relation (server W)) : Prop := {
  aloof_preorder :: PreOrder R;
  aloof_kept f s : aloof f -> R s (f s)
}.
#[export] Hint Extern 0 (Aloof _) => typeclasses eauto : kept.

(** The history is never taken back, and the authority and the reservation stay what they are. *)
Definition retains {W} : relation (server W) := fun s s' =>
  prefix (history s) (history s') /\ srv_authority s' = srv_authority s /\ reservation (srv_serving s') = reservation (srv_serving s).

#[export] Instance retains_preorder {W} : PreOrder (retains (W := W)).
Proof.
  split; [intros s; by repeat split | intros s1 s2 s3 (A & B & C) (D & E & F)]. split; [by etransitivity | split; congruence].
Qed.

#[export] Instance retains_aloof {W} : Aloof (retains (W := W)).
Proof. split; [typeclasses eauto |]. intros f s H. injection (H s) as H1 _ _ _ _ _ H2 H3 _ _ _. unfold retains, history. by rewrite H1. Qed.

Section server.
Context {U : Unicode} {Sg : SigScheme} {W : Type} {Si : Site W} (R : relation (server W)) `{!Aloof R}.
#[local] Notation run := (ServerBase.run (W := W)).

Lemma server_update f : aloof f -> keeps R (update f : run unit).
Proof. intros H. apply keeps_update. intros s. by apply aloof_kept. Qed.
Lemma out_kept {A} (m : io W A) : keeps R (out m).
Proof. apply keeps_zoom with anyhow; [|by intros w]. intros s w _. by apply aloof_kept. Qed.
#[local] Hint Resolve out_kept : kept.
#[local] Hint Extern 1 (keeps _ (update _)) => apply server_update; by intros ? : kept.

Lemma wall_instant_kept : keeps R wall_instant.
Proof. unfold wall_instant. walk. Qed.
Lemma owner_check_kept : keeps R _owner_check.
Proof. unfold _owner_check. walk. Qed.
#[local] Hint Resolve wall_instant_kept owner_check_kept : kept.

#[export] Instance server_files_kept : FilesKept R.
Proof. split; intros; cbn; auto with kept. Qed.

(** A part whose replacement leaves the store alone. *)
Lemma on_part_kept {T A} get set (m : io (T * server W) A) :
  (forall t, aloof (set t)) -> keeps (beside R) m -> keeps R (on_part get set m).
Proof.
  intros H Hm s. unfold on_part. destruct (get s) as [t|]; [|cbn; reflexivity].
  specialize (Hm (t, s)). destruct (m (t, s)) as [r [t' s']]. unfold beside in Hm; cbn in *; transitivity s'; [exact Hm | by apply aloof_kept].
Qed.
Lemma on_files_kept {A} (m : Files.run (W := server W) A) : keeps (beside R) m -> keeps R (on_files m).
Proof. by apply on_part_kept. Qed.
Lemma on_secrets_kept {A} (m : Files.run (W := server W) A) : keeps (beside R) m -> keeps R (on_secrets m).
Proof. by apply on_part_kept. Qed.
End server.
#[export] Hint Resolve out_kept wall_instant_kept owner_check_kept : kept.
#[export] Hint Extern 1 (keeps _ (update _)) => apply server_update; [typeclasses eauto | by intros ?] : kept.

Ltac walk_wrapper ::=
  lazymatch goal with
  | |- keeps _ (_io _ _) => apply io_kept; [typeclasses eauto.. |]
  | |- keeps _ (_phase _ _) => apply phase_kept; [typeclasses eauto.. |]
  | |- keeps _ (close_link _ _) => apply close_link_kept; [typeclasses eauto.. |]
  | |- keeps _ (on_files _) => apply on_files_kept
  | |- keeps _ (on_secrets _) => apply on_secrets_kept
  end.

Section base.
Context {U : Unicode} {Sg : SigScheme} {W : Type} {Si : Site W} (R : relation (server W)) `{!Aloof R}.
#[local] Notation run := (ServerBase.run (W := W)).

Lemma read_file_kept path d : keeps R (read_file path d).
Proof. unfold read_file. walk. Qed.
#[local] Hint Resolve read_file_kept : kept.

Lemma manifest_kept p e : keeps R (_manifest p e).
Proof. unfold _manifest. walk. Qed.
#[local] Hint Resolve manifest_kept : kept.

Lemma qualification_change_kept f : keeps R (change_qualification f).
Proof. unfold change_qualification. walk. Qed.
#[local] Hint Resolve qualification_change_kept : kept.

Lemma qualification_check_kept : keeps R qualification_check.
Proof. unfold qualification_check, qualification_after, the_qualification, the_authority. walk. Qed.
#[local] Hint Resolve qualification_check_kept : kept.

Lemma qualification_broker_kept : keeps R qualification_broker.
Proof. unfold qualification_broker, the_qualification. walk. Qed.

Lemma base_check_kept : keeps R _base_check.
Proof. unfold _base_check, the_authority. walk. Qed.
#[local] Hint Resolve qualification_broker_kept base_check_kept : kept.

#[export] Instance server_store_kept : StoreKept R.
Proof. split; intros; cbn; [auto with kept | walk | auto with kept..]. Qed.

#[export] Instance server_link_kept : LinkKept (Si := server_link) R.
Proof. split; intros; cbn; auto with kept; walk. Qed.
End base.
#[export] Hint Resolve base_check_kept qualification_change_kept qualification_check_kept read_file_kept manifest_kept : kept.

Section parts.
Context {U : Unicode} {Sg : SigScheme} {W : Type} {Si : Site W}.
#[local] Notation run := (ServerBase.run (W := W)).
#[local] Notation grows := (retains (W := W)).

Lemma on_store_kept {A} (m : Store.run (W := server W) A) : keeps (floor_grows grows) m -> keeps grows (on_store m).
Proof.
  intros Hm s. unfold on_store, on_part. destruct (srv_store s) as [t|] eqn:E; [|cbn; reflexivity].
  specialize (Hm (t, s)). destruct (m (t, s)) as [r [t' s']]. destruct Hm as [Hf (_ & H1 & H2)]. unfold retains, history. cbn in *. by rewrite E.
Qed.

Lemma on_log_kept {A} (m : io (journal (store * server W)) A) : keeps (stored (floor_grows grows)) m -> keeps grows (on_log m).
Proof.
  intros Hm. unfold on_log. walk. apply on_store_kept. intros s. unfold keeps in Hm.
  match goal with |- context [m ?j] => specialize (Hm j); destruct (m j) as [r' j'] end. exact Hm.
Qed.

(** ** The observer *)

#[export] Instance observer_kept : LinkKept (Si := link_beside (X := past) (Si := observer_link)) (paired anyhow grows) := _.

Lemma on_observer_kept {A} (m : watching (W := server W) A) : keeps (along (paired anyhow grows)) m -> keeps grows (on_observer m).
Proof.
  intros Hm s. unfold on_observer. destruct (srv_observer s) as [[l p]|]; [|cbn; reflexivity].
  specialize (Hm (l, (p, s))). destruct (m (l, (p, s))) as [r [l' [p' s']]]. destruct Hm as [_ [_ Hs]]. exact Hs.
Qed.

Lemma remember_kept p : keeps (along (paired anyhow grows)) (remember (W := server W) p).
Proof. apply keeps_update. intros s. split; [by repeat split | split; [done | cbn; reflexivity]]. Qed.
#[local] Hint Resolve remember_kept : kept.

Lemma observe_kept : keeps (along (paired anyhow grows)) (observe (W := server W)).
Proof.
  unfold observe, last_observation, observation_request, Observer.exchange.
  unfold observer_phase, observer_peer, observer_guard, observer_wait, observer_io, owned, recall, document_of. walk.
Qed.

Lemma on_observe_kept : keeps grows (on_observer (W := W) observe).
Proof. apply on_observer_kept, observe_kept. Qed.
End parts.
#[export] Hint Resolve on_observe_kept : kept.

(** ** The milestones *)

(** What the steps say once the marks of failure are left out. *)
Record milestones := {
  m_intent : option intent;
  m_exchange : option exchange;
  m_created : option created;
  m_result : option result;
  m_retirement : option retirement
}.

Definition sound_intent (x : intent) : intent := intent_flags false (in_committed x) (in_writing x) (in_advanced x) x.
Definition sound_exchange (x : exchange) : exchange := exchange_flags false (ex_complete x) (ex_attempted x) (ex_response x) x.
Definition sound_created (x : created) : created := created_flags false (cr_committed x) (cr_writing x) (cr_advanced x) x.
Definition sound_result (x : result) : result := result_flags false (re_complete x) (re_attempted x) x.
Definition sound_retirement (x : retirement) : retirement := retirement_flags false (rt_complete x) (rt_retired x) (rt_advanced x) x.

Definition view (p : steps) : milestones :=
  {| m_intent := sound_intent <$> an_intent p; m_exchange := sound_exchange <$> an_exchange p; m_created := sound_created <$> a_created p;
     m_result := sound_result <$> a_result p; m_retirement := sound_retirement <$> a_retirement p |}.

Definition settled : relation steps := fun p p' => view p' = view p.
#[export] Instance settled_preorder : PreOrder settled.
Proof. split; [by intros p | intros p1 p2 p3 H1 H2; unfold settled in *; congruence]. Qed.

(** A change that moves no milestone. *)
Ltac same_view :=
  intros [? ? ? ? ? ? ? ? ? ?]; unfold settled, view; cbn;
  solve [reflexivity | by repeat match goal with |- context [_ <$> ?o] => is_var o; destruct o; cbn end].

Section base.
Context {U : Unicode} {Sg : SigScheme} {W : Type} {Si : Site W} (R : relation (server W)) `{!Aloof R}.
#[local] Notation broking := (broking (W := W)).
#[local] Notation still := (along (paired settled R)).

Lemma owner_kept {A} (m : ServerBase.run (W := W) A) : keeps R m -> keeps still (owner m).
Proof. intros H. apply link_beyond. by apply aside_kept; [typeclasses eauto |]. Qed.

Lemma keep_kept f : (forall p, settled p (f p)) -> keeps still (keep f : broking unit).
Proof. intros H. apply keeps_update. intros s. split; [by repeat split | split; [apply H | cbn; reflexivity]]. Qed.

Lemma kept_kept {A} (f : steps -> A) : keeps still (BrokerStart.kept f : broking A).
Proof. apply keeps_reads. typeclasses eauto. Qed.
Lemma step_kept {A} (f : steps -> option A) : keeps still (step f : broking A).
Proof. apply keeps_reads. typeclasses eauto. Qed.
End base.
#[export] Hint Resolve kept_kept step_kept : kept.
#[export] Hint Extern 1 (keeps _ (keep _)) => apply keep_kept; [typeclasses eauto | same_view] : kept.

Ltac walk_wrapper ::=
  lazymatch goal with
  | |- keeps _ (_io _ _) => apply io_kept; [typeclasses eauto.. |]
  | |- keeps _ (_phase _ _) => apply phase_kept; [typeclasses eauto.. |]
  | |- keeps _ (broker_phase _) => apply phase_kept; [typeclasses eauto.. |]
  | |- keeps _ (bio _) => apply io_kept; [typeclasses eauto.. |]
  | |- keeps _ (close_link _ _) => apply close_link_kept; [typeclasses eauto.. |]
  | |- keeps _ (on_files _) => apply on_files_kept
  | |- keeps _ (on_secrets _) => apply on_secrets_kept
  | |- keeps _ (on_store _) => apply on_store_kept
  | |- keeps _ (on_log _) => apply on_log_kept
  | |- keeps _ (owner _) => apply owner_kept
  end.

Section closing.
Context {U : Unicode} {Sg : SigScheme} {W : Type} {Si : Site W} (R : relation (server W)) `{!Aloof R}.
#[local] Notation broking := (broking (W := W)).
#[local] Notation still := (along (paired settled R)).

(** ** Closing *)

Lemma close_memfd_kept : keeps still (_close_memfd (W := W)).
Proof. unfold _close_memfd, api_pin, keep_api_failure. walk. Qed.
#[local] Hint Resolve close_memfd_kept : kept.

Lemma api_close_kept : keeps still (api_close (W := W)).
Proof. unfold api_close, close_api_socket, api_pin, keep_api_failure. walk. Qed.
#[local] Hint Resolve api_close_kept : kept.

Lemma close_api_first_kept : keeps still (close_api_first (W := W)).
Proof. unfold close_api_first. walk. Qed.
#[local] Hint Resolve close_api_first_kept : kept.

Lemma broker_close_kept : keeps still (broker_close (W := W)).
Proof. unfold broker_close. walk. Qed.
#[local] Hint Resolve broker_close_kept : kept.

Lemma broker_abandon_kept : keeps still (broker_abandon (W := W)).
Proof. unfold broker_abandon. walk. Qed.
Lemma broker_failed_kept : keeps still (broker_failed (W := W)).
Proof. unfold broker_failed. walk. Qed.
End closing.
#[export] Hint Resolve close_api_first_kept api_close_kept close_memfd_kept broker_close_kept broker_abandon_kept broker_failed_kept : kept.

Section checks.
Context {U : Unicode} {Sg : SigScheme} {W : Type} {Si : Site W} (fuel : nat).
#[local] Notation broking := (broking (W := W)).
#[local] Notation still := (along (paired settled (retains (W := W)))).

Lemma own_authority_kept : keeps still (own_authority (W := W)).
Proof. apply owner_kept, keeps_reads. typeclasses eauto. Qed.
Lemma read_history_kept : keeps still (read_history (W := W)).
Proof. unfold read_history. walk. Qed.
Lemma demand_kept c e : keeps still (demand (W := W) c e).
Proof. apply keeps_lift. typeclasses eauto. Qed.
#[local] Hint Resolve own_authority_kept read_history_kept demand_kept : kept.

(** ** The start and the events *)

Lemma start_owner_check_kept : keeps still (start_owner_check (W := W)).
Proof. unfold start_owner_check, broker_guard. walk. Qed.
#[local] Hint Resolve start_owner_check_kept : kept.

Lemma start_state_check_kept : keeps still (start_state_check (W := W)).
Proof. unfold start_state_check. walk. Qed.
#[local] Hint Resolve start_state_check_kept : kept.

Lemma start_check_kept : keeps still (start_check (W := W)).
Proof. unfold start_check, broker_peer, now_instant. walk. Qed.
#[local] Hint Resolve start_check_kept : kept.

Lemma new_start_kept : keeps still (new_start (W := W)).
Proof.
  unfold new_start, bind_start, send_dispatch, receive_start, broker_peer, broker_wait, bio, now_instant. walk.
Qed.

Lemma snapshot_now_kept : keeps still (snapshot_now (W := W)).
Proof. unfold snapshot_now. walk. Qed.
#[local] Hint Resolve snapshot_now_kept : kept.

Lemma events_state_check_kept : keeps still (events_state_check (W := W)).
Proof. unfold events_state_check, broker_guard. walk. Qed.
#[local] Hint Resolve events_state_check_kept : kept.

Lemma events_check_kept : keeps still (events_check (W := W)).
Proof. unfold events_check. walk. Qed.
#[local] Hint Resolve events_check_kept : kept.

Lemma new_events_kept : keeps still (new_events (W := W)).
Proof. unfold new_events. walk. Qed.

Lemma accept_into_kept raw who : keeps still (accept_into (W := W) raw who).
Proof. unfold accept_into. walk. Qed.
#[local] Hint Resolve accept_into_kept : kept.

Lemma receive_event_kept : keeps still (receive_event (W := W)).
Proof. unfold receive_event, inbound_open, wait_for_frame, broker_wait. walk. Qed.

(** ** Poison *)

Lemma broker_check_kept : keeps still (broker_check (W := W)).
Proof. unfold broker_check, broker_phase, broker_peer. walk. Qed.
#[local] Hint Resolve broker_abandon_kept broker_failed_kept : kept.

Lemma poison_log_kept : keeps still (poison_log (W := W)).
Proof. unfold poison_log. walk. Qed.
#[local] Hint Resolve poison_log_kept : kept.
Lemma poison_intent_kept : keeps still (poison_intent (W := W)).
Proof. unfold poison_intent. walk. Qed.
Lemma poison_created_kept : keeps still (poison_created (W := W)).
Proof. unfold poison_created. walk. Qed.
#[local] Hint Resolve poison_intent_kept poison_created_kept : kept.
Lemma poison_result_kept : keeps still (poison_result (W := W)).
Proof. unfold poison_result. walk. Qed.
#[local] Hint Resolve poison_result_kept : kept.
Lemma poison_retirement_kept : keeps still (poison_retirement (W := W)).
Proof. unfold poison_retirement. walk. Qed.
#[local] Hint Resolve poison_retirement_kept : kept.

(** ** The checks of the steps *)

Lemma created_state_check_kept : keeps still (created_state_check (W := W)).
Proof. unfold created_state_check. walk. Qed.
#[local] Hint Resolve created_state_check_kept : kept.

Lemma intent_history_check_kept : keeps still (intent_history_check (W := W)).
Proof. unfold intent_history_check. walk. Qed.
Lemma intent_pending_check_kept : keeps still (intent_pending_check (W := W)).
Proof. unfold intent_pending_check. walk. Qed.
#[local] Hint Resolve intent_history_check_kept intent_pending_check_kept : kept.
Lemma intent_check_kept : keeps still (intent_check (W := W)).
Proof. unfold intent_check. walk. Qed.
#[local] Hint Resolve intent_check_kept : kept.

Lemma exchange_state_check_kept : keeps still (exchange_state_check (W := W)).
Proof. unfold exchange_state_check. walk. Qed.
#[local] Hint Resolve exchange_state_check_kept : kept.

Lemma check_transport_kept x : keeps still (check_transport (W := W) x).
Proof. unfold check_transport, held_descriptor, api_pin. walk. Qed.
#[local] Hint Resolve check_transport_kept : kept.

Lemma api_transport_check_kept : keeps still (api_transport_check (W := W)).
Proof. unfold api_transport_check, api_phase, exchange_if_any, check_inputs. walk. Qed.
#[local] Hint Resolve api_transport_check_kept : kept.

Lemma api_io_kept {A} (m : broking A) : keeps still m -> keeps still (api_io m).
Proof. intros H. unfold api_io. walk. Qed.
#[local] Hint Resolve api_io_kept : kept.

(** ** The connection to the API *)

#[export] Instance api_kept : TlsKept (Si := api_site (W := W)) still.
Proof. split; intros; cbn; walk. Qed.

Lemma on_api_tls_kept {A} (m : TlsCodec.run (W := link * (steps * server W)) A) : keeps (beside still) m -> keeps still (on_api_tls m).
Proof.
  intros Hm s. unfold on_api_tls. destruct (an_api s.2.1) as [x|] eqn:E; [|cbn; reflexivity]. destruct (ap_tls x) as [t|]; [|cbn; reflexivity].
  specialize (Hm (t, s)). destruct (m (t, s)) as [r [t' s']]. destruct Hm as (Hl & Hp & Hs). split; [exact Hl | split; [|exact Hs]].
  unfold settled in *. cbn in *. rewrite <- Hp. by destruct s'.2.1.
Qed.

Lemma write_memfd_kept n fd raw : keeps still (write_memfd (W := W) n fd raw).
Proof. revert raw. induction n as [|n IH]; intros [|]; cbn [write_memfd]; walk; first [apply IH | apply api_io_kept; walk]. Qed.
#[local] Hint Resolve write_memfd_kept : kept.
End checks.
#[export] Hint Resolve own_authority_kept read_history_kept demand_kept start_check_kept new_start_kept events_check_kept new_events_kept : kept.
#[export] Hint Resolve receive_event_kept accept_into_kept snapshot_now_kept : kept.
#[export] Hint Resolve broker_check_kept poison_log_kept poison_intent_kept poison_created_kept poison_result_kept : kept.
#[export] Hint Resolve poison_retirement_kept created_state_check_kept intent_history_check_kept intent_pending_check_kept intent_check_kept : kept.
#[export] Hint Resolve exchange_state_check_kept api_transport_check_kept write_memfd_kept : kept.

Ltac walk_wrapper ::=
  lazymatch goal with
  | |- keeps _ (_io _ _) => apply io_kept; [typeclasses eauto.. |]
  | |- keeps _ (_phase _ _) => apply phase_kept; [typeclasses eauto.. |]
  | |- keeps _ (broker_phase _) => apply phase_kept; [typeclasses eauto.. |]
  | |- keeps _ (bio _) => apply io_kept; [typeclasses eauto.. |]
  | |- keeps _ (close_link _ _) => apply close_link_kept; [typeclasses eauto.. |]
  | |- keeps _ (on_files _) => apply on_files_kept
  | |- keeps _ (on_secrets _) => apply on_secrets_kept
  | |- keeps _ (on_store _) => apply on_store_kept
  | |- keeps _ (on_log _) => apply on_log_kept
  | |- keeps _ (owner _) => apply owner_kept
  | |- keeps _ (api_io _) => apply api_io_kept
  | |- keeps _ (on_api_tls _) => apply on_api_tls_kept
  end.

Section creation.
Context {U : Unicode} {Sg : SigScheme} {W : Type} {Si : Site W} (fuel : nat).
#[local] Notation broking := (broking (W := W)).
#[local] Notation still := (along (paired settled (retains (W := W)))).

Lemma tls_context_kept ca fd v : keeps retains (tls_context (W := W) ca fd v).
Proof. unfold tls_context. walk. Qed.
#[local] Hint Resolve tls_context_kept : kept.

Lemma sealed_context_kept raw ca : keeps still (sealed_context (W := W) raw ca).
Proof. unfold sealed_context, acquire_memfd. walk. Qed.

Lemma api_connect_kept : keeps still (api_connect (W := W)).
Proof. unfold api_connect, acquire_api_socket, BrokerApi.api_sock, reading_before. walk. Qed.
#[local] Hint Resolve sealed_context_kept api_connect_kept : kept.

Lemma new_api_kept : keeps still (new_api (W := W) fuel).
Proof. unfold new_api, bind_api, api_credential, api_handshake, BrokerApi.api_sock. walk. Qed.

Lemma exchange_check_kept : keeps still (exchange_check (W := W)).
Proof. unfold exchange_check. walk. Qed.
#[local] Hint Resolve exchange_check_kept : kept.

Lemma created_bracket_kept : keeps still (created_bracket (W := W)).
Proof. unfold created_bracket. walk. Qed.
#[local] Hint Resolve created_bracket_kept : kept.

Lemma created_check_kept : keeps still (created_check (W := W)).
Proof. unfold created_check. walk. Qed.
#[local] Hint Resolve created_check_kept : kept.

Lemma result_state_check_kept : keeps still (result_state_check (W := W)).
Proof. unfold result_state_check. walk. Qed.
#[local] Hint Resolve result_state_check_kept : kept.
Lemma result_guard_kept : keeps still (result_guard (W := W)).
Proof. unfold result_guard. walk. Qed.
Lemma result_bracket_kept : keeps still (result_bracket (W := W)).
Proof. unfold result_bracket. walk. Qed.
#[local] Hint Resolve result_guard_kept result_bracket_kept : kept.
Lemma result_check_kept : keeps still (result_check (W := W)).
Proof. unfold result_check. walk. Qed.

Lemma retirement_state_check_kept b : keeps still (retirement_state_check (W := W) b).
Proof. unfold retirement_state_check, owners_check, retained_data_check, retired_transcript_check, retired_api_check. walk. Qed.
#[local] Hint Resolve retirement_state_check_kept : kept.
Lemma retirement_bracket_kept b : keeps still (retirement_bracket (W := W) b).
Proof. unfold retirement_bracket, owners_check. walk. Qed.

Lemma broker_wait_kept : keeps still (broker_wait (W := W)).
Proof. unfold broker_wait. walk. Qed.

Lemma record_row_kept state x now before observed : keeps still (record_row (W := W) state x now before observed).
Proof. unfold record_row. walk. Qed.
End creation.
#[export] Hint Resolve new_api_kept exchange_check_kept created_bracket_kept created_check_kept result_state_check_kept result_guard_kept : kept.
#[export] Hint Resolve result_bracket_kept result_check_kept retirement_state_check_kept retirement_bracket_kept record_row_kept broker_wait_kept : kept.
