(* ===== verification/BrokerRuns.v ===== *)
(** The runs of a broker connection: whatever calls its owner makes, and however the kernel, the peers
    and the clocks answer them, the creation goes through its milestones in one order, and the rows of
    the admission log are durable before what depends on them is attempted; a failure is final. *)

From S2P Require Import Prelude Effects PyVal Utf8 Json Sha2 Canonical Base64 Ed25519 IsoTime Regex Text Posix.
From S2P Require Import SchemaBase Ipaddr Lifecycle LinuxShape Live LinuxVerify Session ReplayStore Supervisor BackendAuthority Launcher.
From S2P Require Import ProxySpecs ProxyDocument MutationAdmission Observation AdmissionLedger Broker Qualification Der Http.
From S2P Require Import Boundary Custody Files Store PeerLink Observer TlsCodec BrokerData ServerBase BrokerStart BrokerClose BrokerIntent BrokerApi BrokerCreate BrokerSteps.
From S2P Require Import PartKeeps ServerKeeps.

#[local] Open Scope string_scope.
#[local] Open Scope list_scope.
#[local] Open Scope Z_scope.

(** ** The order of the milestones *)

Section order.
Context {U : Unicode}.

(** The row and the history of an intent are those that announce its action, and of a creation those that
    account for what the response says. *)
Definition announced (i : intent) : Prop :=
  exists now resource, resource_of i (Value VNone) = Ok resource /\
    resource_row "CREATE_INTENT" (in_reservation i) (in_operation i) now resource (in_before i) = Ok (in_row i, in_after i).
Definition accounted (i : intent) (c : created) : Prop :=
  exists now resource, resource_of i (Raw (cr_response c)) = Ok resource /\
    resource_row "CREATED" (in_reservation i) (in_operation i) now resource (in_after i) = Ok (cr_row c, cr_after c).

(** What each step may say, over the steps before it and the history that was read. *)
Definition intent_ok (h : bytes) (i : intent) : Prop :=
  (in_committed i = true -> in_advanced i = true) /\ (in_advanced i = true -> announced i /\ prefix (in_after i) h).
Definition exchange_ok (mi : option intent) (e : exchange) : Prop :=
  (ex_attempted e = true -> exists i, mi = Some i /\ in_committed i = true /\ ex_action e = in_action i) /\
  (ex_complete e = true -> ex_attempted e = true /\ ex_response e <> None).
Definition created_ok (h : bytes) (mi : option intent) (me : option exchange) (c : created) : Prop :=
  (cr_writing c = true -> exists i e, mi = Some i /\ me = Some e /\ ex_complete e = true /\ ex_response e = Some (cr_response c) /\ accounted i c) /\
  (cr_advanced c = true -> cr_writing c = true /\ prefix (cr_after c) h) /\
  (cr_committed c = true -> cr_advanced c = true).
Definition result_ok (mc : option created) (r : result) : Prop :=
  (re_attempted r = true -> exists c, mc = Some c /\ cr_committed c = true /\ re_record r = cr_row c /\ re_ledger r = cr_after c /\
                                      re_response r = cr_response c) /\
  (re_complete r = true -> re_attempted r = true).
Definition retirement_ok (mr : option result) (x : retirement) : Prop :=
  (rt_retired x = true -> exists r, mr = Some r /\ re_complete r = true) /\
  (rt_advanced x = true -> rt_retired x = true) /\
  (rt_complete x = true -> rt_retired x = true /\ rt_advanced x = true).

Definition when {A} (o : option A) (P : A -> Prop) : Prop := forall a, o = Some a -> P a.

(** The milestones are in order, over the history [h]. *)
Definition ordered (m : milestones) (h : bytes) : Prop :=
  when (m_intent m) (intent_ok h) /\ when (m_exchange m) (exchange_ok (m_intent m)) /\
  when (m_created m) (created_ok h (m_intent m) (m_exchange m)) /\ when (m_result m) (result_ok (m_created m)) /\
  when (m_retirement m) (retirement_ok (m_result m)).

Definition with_intent (i : intent) (m : milestones) : milestones :=
  {| m_intent := Some i; m_exchange := m_exchange m; m_created := m_created m; m_result := m_result m; m_retirement := m_retirement m |}.
Definition with_exchange (e : exchange) (m : milestones) : milestones :=
  {| m_intent := m_intent m; m_exchange := Some e; m_created := m_created m; m_result := m_result m; m_retirement := m_retirement m |}.
Definition with_created (c : created) (m : milestones) : milestones :=
  {| m_intent := m_intent m; m_exchange := m_exchange m; m_created := Some c; m_result := m_result m; m_retirement := m_retirement m |}.
Definition with_result (r : result) (m : milestones) : milestones :=
  {| m_intent := m_intent m; m_exchange := m_exchange m; m_created := m_created m; m_result := Some r; m_retirement := m_retirement m |}.
Definition with_retirement (x : retirement) (m : milestones) : milestones :=
  {| m_intent := m_intent m; m_exchange := m_exchange m; m_created := m_created m; m_result := m_result m; m_retirement := Some x |}.

(** Nothing was attempted on a step yet. *)
Definition idle_exchange (m : milestones) : Prop := when (m_exchange m) (fun e => ex_attempted e = false).
Definition idle_created (m : milestones) : Prop := when (m_created m) (fun c => cr_writing c = false).
Definition idle_result (m : milestones) : Prop := when (m_result m) (fun r => re_attempted r = false).
Definition idle_retirement (m : milestones) : Prop := when (m_retirement m) (fun x => rt_retired x = false).

Lemma when_some {A} (a : A) (P : A -> Prop) : P a -> when (Some a) P.
Proof. by intros H b [= <-]. Qed.

Lemma ordered_mono m h h' : prefix h h' -> ordered m h -> ordered m h'.
Proof.
  intros Hp (Hi & He & Hc & Hr & Hx). split; [|split; [done | split; [|done]]].
  - intros i E. destruct (Hi i E) as [H1 H2]. split; [done |]. intros H. destruct (H2 H) as [H3 H4]. split; [done | by etransitivity].
  - intros c E. destruct (Hc c E) as (H1 & H2 & H3). split; [done | split; [|done]]. intros H. destruct (H2 H) as [H4 H5].
    split; [done | by etransitivity].
Qed.

(** A step that is absent leaves those after it unattempted. *)
Lemma no_intent_idle m h : ordered m h -> m_intent m = None -> idle_exchange m.
Proof.
  intros (_ & He & _) E e H. destruct (ex_attempted e) eqn:A; [|done]. destruct (He e H) as [H1 _].
  destruct (H1 A) as (i & H2 & _). congruence.
Qed.
Lemma idle_exchange_created m h : ordered m h -> idle_exchange m -> idle_created m.
Proof.
  intros (_ & He & Hc & _) E c H. destruct (cr_writing c) eqn:A; [|done]. destruct (Hc c H) as [H1 _].
  destruct (H1 A) as (i & e & _ & H2 & H3 & _). destruct (He e H2) as [_ H4]. destruct (H4 H3) as [H5 _].
  pose proof (E e H2). congruence.
Qed.
Lemma no_exchange_idle m h : ordered m h -> m_exchange m = None -> idle_created m.
Proof. intros H E. apply (idle_exchange_created m h H). intros e. by rewrite E. Qed.
Lemma no_created_idle m h : ordered m h -> m_created m = None -> idle_result m.
Proof.
  intros (_ & _ & _ & Hr & _) E r H. destruct (re_attempted r) eqn:A; [|done]. destruct (Hr r H) as [H1 _].
  destruct (H1 A) as (c & H2 & _). congruence.
Qed.
Lemma no_result_idle m h : ordered m h -> m_result m = None -> idle_retirement m.
Proof.
  intros (_ & _ & _ & _ & Hx) E x H. destruct (rt_retired x) eqn:A; [|done]. destruct (Hx x H) as [H1 _].
  destruct (H1 A) as (r & H2 & _). congruence.
Qed.

(** A step is replaced while those after it are unattempted. *)
Lemma ordered_intent m h i : ordered m h -> idle_exchange m -> intent_ok h i -> ordered (with_intent i m) h.
Proof.
  intros H Ie Hi. pose proof (idle_exchange_created m h H Ie) as Ic. destruct H as (_ & He & Hc & Hr & Hx).
  split; [by apply when_some |]. split; [|split; [|done]].
  - intros e E. destruct (He e E) as [_ H2]. split; [|done]. pose proof (Ie e E). congruence.
  - intros c E. destruct (Hc c E) as [_ H2]. split; [|done]. pose proof (Ic c E). congruence.
Qed.
Lemma ordered_exchange m h e : ordered m h -> idle_created m -> exchange_ok (m_intent m) e -> ordered (with_exchange e m) h.
Proof.
  intros (Hi & _ & Hc & Hr & Hx) Ic He. split; [done |]. split; [by apply when_some |]. split; [|done].
  intros c E. destruct (Hc c E) as [_ H2]. split; [|done]. pose proof (Ic c E). congruence.
Qed.
Lemma ordered_created m h c :
  ordered m h -> idle_result m -> created_ok h (m_intent m) (m_exchange m) c -> ordered (with_created c m) h.
Proof.
  intros (Hi & He & _ & Hr & Hx) Ir Hc. split; [done |]. split; [done |]. split; [by apply when_some |]. split; [|done].
  intros r E. destruct (Hr r E) as [_ H2]. split; [|done]. pose proof (Ir r E). congruence.
Qed.
Lemma ordered_result m h r : ordered m h -> idle_retirement m -> result_ok (m_created m) r -> ordered (with_result r m) h.
Proof.
  intros (Hi & He & Hc & _ & Hx) Ix Hr. split; [done |]. split; [done |]. split; [done |]. split; [by apply when_some |].
  intros x E. destruct (Hx x E) as [_ H2]. split; [|done]. pose proof (Ix x E). congruence.
Qed.
Lemma ordered_retirement m h x : ordered m h -> retirement_ok (m_result m) x -> ordered (with_retirement x m) h.
Proof. intros (Hi & He & Hc & Hr & _) Hx. do 4 (split; [done |]). by apply when_some. Qed.
End order.

(** ** Reasoning about a run *)

Section runs.
Context {U : Unicode} {Sg : SigScheme} {W : Type} {Si : Site W} (fuel : nat).
#[local] Notation broking := (broking (W := W)).
#[local] Notation state := (link * (steps * server W))%type.
#[local] Notation still := (along (paired settled (retains (W := W)))).

(** The milestones are these, and the history was read. *)
Definition at_ (m : milestones) (h : bytes) (s : state) : Prop := view s.2.1 = m /\ prefix h (history s.2.2).
Definition in_order (s : state) : Prop := ordered (view s.2.1) (history s.2.2).

Lemma at_in_order m h s : ordered m h -> at_ m h s -> in_order s.
Proof. intros H [E P]. unfold in_order. rewrite E. by apply (ordered_mono m h). Qed.

Lemma at_still m h s s' : at_ m h s -> still s s' -> at_ m h s'.
Proof. intros [E P] (_ & H1 & H2 & _). split; [by rewrite H1 | by etransitivity]. Qed.

Lemma in_order_still s s' : in_order s -> still s s' -> in_order s'.
Proof. intros H (_ & H1 & H2 & _). unfold in_order. rewrite H1. by eapply ordered_mono. Qed.

(** A call that moves no milestone. *)
Lemma wp_settling {A} (c : broking A) m h s : keeps still c -> at_ m h s -> wp c (fun _ => at_ m h) (fun _ => at_ m h) s.
Proof. intros K H. eapply wp_mono; [apply wp_keeps, K | intros a s' H' | intros e s' H']; by eapply at_still. Qed.
Lemma wp_ordered {A} (c : broking A) s : keeps still c -> in_order s -> wp c (fun _ => in_order) (fun _ => in_order) s.
Proof. intros K H. eapply wp_mono; [apply wp_keeps, K | intros a s' H' | intros e s' H']; by eapply in_order_still. Qed.

(** The outcomes that matter: the milestones are in order whatever happens. *)
Definition orderly {A} (c : broking A) (Q : A -> state -> Prop) (s : state) : Prop := wp c Q (fun _ => in_order) s.

Lemma orderly_bind {A B} (c : broking A) (f : A -> broking B) Q s : orderly c (fun a => orderly (f a) Q) s -> orderly (c ≫= f) Q s.
Proof. apply wp_bind. Qed.

Lemma orderly_still {A B} (c : broking A) (f : A -> broking B) Q m h s :
  at_ m h s -> ordered m h -> keeps still c -> (forall a s', at_ m h s' -> orderly (f a) Q s') -> orderly (c ≫= f) Q s.
Proof.
  intros Ha Ho K H. apply orderly_bind. eapply wp_mono; [by apply (wp_settling _ m h) | done |]. intros e s' H'. by eapply at_in_order.
Qed.

Lemma orderly_check {B} b code (f : unit -> broking B) Q m h s :
  at_ m h s -> ordered m h -> (b = true -> orderly (f tt) Q s) -> orderly (check b code ≫= f) Q s.
Proof. intros Ha Ho H. apply orderly_bind, wp_check; [done |]. intros _. by eapply at_in_order. Qed.

Lemma orderly_lift {A B} (r : res A) (f : A -> broking B) Q m h s :
  at_ m h s -> ordered m h -> (forall a, r = Ok a -> orderly (f a) Q s) -> orderly (lift r ≫= f) Q s.
Proof. intros Ha Ho H. apply orderly_bind, wp_lift; [done |]. intros e _. by eapply at_in_order. Qed.

Lemma orderly_reads {A B} (g : state -> res A) (f : A -> broking B) Q m h s :
  at_ m h s -> ordered m h -> (forall a, g s = Ok a -> orderly (f a) Q s) -> orderly (reads g ≫= f) Q s.
Proof. intros Ha Ho H. apply orderly_bind, wp_reads; [done |]. intros e _. by eapply at_in_order. Qed.

Lemma orderly_kept {A B} (g : steps -> A) (f : A -> broking B) Q s : orderly (f (g s.2.1)) Q s -> orderly (BrokerStart.kept g ≫= f) Q s.
Proof. intros H. apply orderly_bind, wp_reads; [by intros a [= <-] | done]. Qed.

Lemma orderly_step {A B} (g : steps -> option A) (f : A -> broking B) Q m h s :
  at_ m h s -> ordered m h -> (forall a, g s.2.1 = Some a -> orderly (f a) Q s) -> orderly (step g ≫= f) Q s.
Proof.
  intros Ha Ho H. unfold step. eapply orderly_reads; [done | done |]. intros a E. apply H. destruct (g s.2.1); by simplify_eq.
Qed.

Lemma orderly_keep {B} g (f : unit -> broking B) Q s : orderly (f tt) Q (s.1, (g s.2.1, s.2.2)) -> orderly (keep g ≫= f) Q s.
Proof. intros H. by apply orderly_bind, wp_update. Qed.

Lemma orderly_keep_last g (Q : unit -> state -> Prop) s : Q tt (s.1, (g s.2.1, s.2.2)) -> orderly (keep g) Q s.
Proof. intros H. by apply wp_update. Qed.
Lemma orderly_still_last {A} (c : broking A) (Q : A -> state -> Prop) m h s :
  at_ m h s -> ordered m h -> keeps still c -> (forall a s', at_ m h s' -> Q a s') -> orderly c Q s.
Proof. intros Ha Ho K H. eapply wp_mono; [by apply (wp_settling _ m h) | done |]. intros e s' H'. by eapply at_in_order. Qed.

(** A handler that moves no milestone keeps the order. *)
Lemma orderly_handled {A} (c : broking A) hd Q s : (forall e, keeps still (hd e)) -> orderly c Q s -> orderly (on_exception c hd) Q s.
Proof.
  intros K H. apply wp_on_exception. eapply wp_mono; [exact H | done |]. intros e s' H'. by apply wp_ordered.
Qed.

(** What follows an exception keeps the order. *)
Ltac tail := eapply wp_mono; [apply wp_ordered; [walk | eassumption] | intros | intros; try eassumption].

(** A phase checks around its body. *)
Lemma orderly_phase {A} (c : broking A) (Q : A -> state -> Prop) m h s :
  at_ m h s -> ordered m h -> (forall a s' s'', Q a s' -> still s' s'' -> Q a s'') ->
  (forall a s', Q a s' -> in_order s') -> (forall s', at_ m h s' -> orderly c Q s') -> orderly (broker_phase c) Q s.
Proof.
  intros Ha Ho HQ HI Hc. unfold broker_phase, _phase. do 7 (eapply orderly_still; [eassumption | done | solve [walk] |]; intros ? ? ?).
  apply wp_finally, wp_on_exception, wp_bind. eapply wp_mono; [apply (wp_settling _ m h); [walk | done] | intros [] t1 K1 | intros e t1 K1].
  - apply wp_bind. eapply wp_mono; [apply Hc, K1 | intros r t2 K2 | intros e t2 K2].
    + apply wp_bind. eapply wp_mono; [apply (wp_keeps still); walk | intros [] t3 K3 | intros e t3 K3].
      * apply wp_ret. eapply wp_mono; [apply (wp_keeps still); walk | intros [] t4 K4; eauto | intros e t4 K4].
        apply HI in K2. apply (in_order_still t3); [by apply (in_order_still t2) | done].
      * apply HI in K2. apply (in_order_still _ t3) in K2; [|done]. by do 2 tail.
    + by do 2 tail.
  - assert (in_order t1) by (by eapply at_in_order). by do 2 tail.
Qed.

(** One step of a run, over the milestones where it starts. *)
Tactic Notation "proceed" uconstr(lemma) := eapply lemma; [eassumption | eassumption |].
Ltac by_still := eapply orderly_still; [eassumption | eassumption | solve [walk] | intros ? ? ?].
Ltac pass :=
  lazymatch goal with
  | |- orderly (check _ _ ≫= _) _ _ => proceed orderly_check; intros ?
  | |- orderly (lift _ ≫= _) _ _ => proceed orderly_lift; intros ? ?
  | |- orderly (reads _ ≫= _) _ _ => proceed orderly_reads; intros ? ?
  | |- orderly (BrokerStart.kept _ ≫= _) _ _ => apply orderly_kept
  | |- orderly (step _ ≫= _) _ _ => proceed orderly_step; intros ? ?
  | |- orderly (demand _ _ ≫= _) _ _ => proceed orderly_lift; intros ? ?
  | |- orderly (let '(_, _) := ?x in _) _ _ => destruct x
  | |- _ => by_still
  end.

(** ** The changes of the milestones *)

Lemma at_intent g m h (s : state) i :
  at_ m h s -> m_intent m = Some i -> (forall x, sound_intent (g x) = g (sound_intent x)) ->
  at_ (with_intent (g i) m) h (s.1, (change_intent g s.2.1, s.2.2)).
Proof.
  destruct s as [l [p s]]. intros [<- P] E Hg. split; [|done]. cbn in *. destruct (an_intent p) as [x|] eqn:Ex; [|done].
  injection E as <-. unfold view, change_intent, with_intent. cbn. by rewrite Ex, <- Hg.
Qed.
Lemma at_exchange g m h (s : state) e :
  at_ m h s -> m_exchange m = Some e -> (forall x, sound_exchange (g x) = g (sound_exchange x)) ->
  at_ (with_exchange (g e) m) h (s.1, (change_exchange g s.2.1, s.2.2)).
Proof.
  destruct s as [l [p s]]. intros [<- P] E Hg. split; [|done]. cbn in *. destruct (an_exchange p) as [x|] eqn:Ex; [|done].
  injection E as <-. unfold view, change_exchange, with_exchange. cbn. by rewrite Ex, <- Hg.
Qed.
Lemma at_created g m h (s : state) c :
  at_ m h s -> m_created m = Some c -> (forall x, sound_created (g x) = g (sound_created x)) ->
  at_ (with_created (g c) m) h (s.1, (change_created g s.2.1, s.2.2)).
Proof.
  destruct s as [l [p s]]. intros [<- P] E Hg. split; [|done]. cbn in *. destruct (a_created p) as [x|] eqn:Ex; [|done].
  injection E as <-. unfold view, change_created, with_created. cbn. by rewrite Ex, <- Hg.
Qed.
Lemma at_result g m h (s : state) r :
  at_ m h s -> m_result m = Some r -> (forall x, sound_result (g x) = g (sound_result x)) ->
  at_ (with_result (g r) m) h (s.1, (change_result g s.2.1, s.2.2)).
Proof.
  destruct s as [l [p s]]. intros [<- P] E Hg. split; [|done]. cbn in *. destruct (a_result p) as [x|] eqn:Ex; [|done].
  injection E as <-. unfold view, change_result, with_result. cbn. by rewrite Ex, <- Hg.
Qed.
Lemma at_retirement g m h (s : state) r :
  at_ m h s -> m_retirement m = Some r -> (forall x, sound_retirement (g x) = g (sound_retirement x)) ->
  at_ (with_retirement (g r) m) h (s.1, (change_retirement g s.2.1, s.2.2)).
Proof.
  destruct s as [l [p s]]. intros [<- P] E Hg. split; [|done]. cbn in *. destruct (a_retirement p) as [x|] eqn:Ex; [|done].
  injection E as <-. unfold view, change_retirement, with_retirement. cbn. by rewrite Ex, <- Hg.
Qed.

(** What the store read is its history from then on. *)
Lemma read_is_history (s s' : server W) raw : on_store read_store s = (Ok raw, s') -> history s' = raw.
Proof.
  unfold on_store, on_part. destruct (srv_store s) as [t|]; [|done]. intros H.
  destruct (read_store (t, s)) as [r [t' s'']] eqn:E. injection H as -> <-. unfold history. cbn. by apply read_store_floor in E.
Qed.

Lemma owner_read_history (s s' : state) raw : owner (on_store read_store) s = (Ok raw, s') -> history s'.2.2 = raw.
Proof.
  unfold owner, PeerLink.beyond, aside. intros (v & (w & H & ->)%zoom_Ok & ->)%zoom_Ok. by apply read_is_history in H.
Qed.

Lemma orderly_read_history {B} (f : bytes -> broking B) Q m h s :
  at_ m h s -> ordered m h -> (forall raw s', at_ m raw s' -> prefix h raw -> orderly (f raw) Q s') -> orderly (read_history ≫= f) Q s.
Proof.
  intros Ha Ho H. apply orderly_bind. unfold read_history, bio, _io. by_still. apply wp_finally.
  destruct (owner (on_store read_store) s') as [r s1] eqn:E.
  assert (at_ m h s1) as H1.
  { eapply at_still; [done |]. assert (keeps still (owner (on_store (W := W) read_store))) as K by walk. specialize (K s'). by rewrite E in K. }
  unfold wp at 1. rewrite E. destruct r as [raw|e].
  - apply owner_read_history in E. eapply wp_mono; [apply (wp_settling _ m raw); [walk |] | intros [] t K | intros e t K].
    + split; [apply H1 | by rewrite E].
    + apply H; [done |]. rewrite <- E. apply H1.
    + apply (at_in_order m raw); [|done]. apply (ordered_mono m h); [|done]. rewrite <- E. apply H1.
  - eapply wp_mono; [apply (wp_settling _ m h); [walk | done] | |]; intros; by eapply at_in_order.
Qed.

(** ** The intent *)

Lemma sound_intent_of (s : state) m h x : at_ m h s -> an_intent s.2.1 = Some x -> m_intent m = Some (sound_intent x).
Proof. intros [<- _] E. cbn. by rewrite E. Qed.

(** The steps and the history after a call, in order, with a fact about them. *)
Definition reaches (P : milestones -> bytes -> Prop) (s : state) : Prop := exists m h, at_ m h s /\ ordered m h /\ P m h.
Lemma reaches_still P s s' : reaches P s -> still s s' -> reaches P s'.
Proof. intros (m & h & H1 & H2) H. exists m, h. split; [by eapply at_still | done]. Qed.
Lemma reaches_in_order P s : reaches P s -> in_order s.
Proof. intros (m & h & H1 & H2 & _). by eapply at_in_order. Qed.

(** An intent whose row is not written yet. *)
Definition unwritten (i : intent) : Prop := in_committed i = false /\ in_advanced i = false.
Lemma unwritten_ok h i : unwritten i -> intent_ok h i.
Proof. intros [H1 H2]. split; congruence. Qed.

Lemma ordered_unwritten m h i : ordered m h -> idle_exchange m -> unwritten i -> ordered (with_intent i m) h.
Proof. intros H I Hi. by apply ordered_intent, unwritten_ok. Qed.

Lemma at_set_intent m h (s : state) x : at_ m h s -> at_ (with_intent (sound_intent x) m) h (s.1, (set_intent (Some x) s.2.1, s.2.2)).
Proof. by intros [<- P]. Qed.

(** What the calls about the intent reach. *)
Definition intent_reached (m : milestones) : Prop := exists i, m_intent m = Some i /\ in_advanced i = true /\ idle_exchange m.

Lemma write_intent_ok now m h s i :
  at_ m h s -> ordered m h -> idle_exchange m -> m_intent m = Some i -> unwritten i -> announced i ->
  orderly (write_intent now) (fun _ => reaches (fun m' _ => intent_reached m')) s.
Proof.
  intros Ha Ho Ie Em Hu Hi. unfold write_intent. apply orderly_keep.
  apply (at_intent intent_writing _ _ _ i) in Ha; [|done|done].
  pose proof (ordered_unwritten _ _ (intent_writing i) Ho Ie Hu) as Ho1.
  proceed orderly_step. intros x Ex. pose proof (sound_intent_of _ _ _ _ Ha Ex) as Sx.
  assert (in_after i = in_after x) as Sa by (by injection Sx).
  pass. pass. eapply orderly_read_history; [done | done |]. intros raw t Ht Pt.
  assert (ordered (with_intent (intent_writing i) m) raw) as Ho2 by (by eapply ordered_mono).
  proceed orderly_check. intros ->%str_eqb_eq. do 4 pass. apply orderly_keep_last.
  eexists _, _. split; [by eapply (at_intent intent_advanced _ _ _ (intent_writing i)); [eassumption | |] |]. split.
  - apply (ordered_intent (with_intent (intent_writing i) m)); [done | done |]. split; [done |]. intros _. split; [exact Hi |]. cbn. by rewrite Sa.
  - by eexists.
Qed.

(** An intent that is bound to the run, and whose row is computed. *)
Lemma plan_intent_ok {B} (f : value -> broking B) Q m h s i :
  at_ m h s -> ordered m h -> idle_exchange m -> m_intent m = Some i -> unwritten i ->
  (forall now m' i' s', at_ m' h s' -> ordered m' h -> idle_exchange m' -> m_intent m' = Some i' -> unwritten i' -> announced i' -> orderly (f now) Q s') ->
  orderly (plan_intent ≫= f) Q s.
Proof.
  intros Ha Ho Ie Em Hu Hf. apply orderly_bind. unfold plan_intent.
  proceed orderly_step. intros x Ex. pose proof (sound_intent_of _ _ _ _ Ha Ex) as Sx. rewrite Em in Sx. injection Sx as ->.
  pass. pass. eapply orderly_still; [eassumption | eassumption | solve [walk] | intros now t Ht].
  proceed orderly_lift. intros resource Hres. proceed orderly_lift. intros [row after] Hrow.
  apply orderly_keep. eapply (at_intent (intent_row row after) _ _ _ (sound_intent x)) in Ht; [|done|done].
  apply wp_ret. eapply Hf; [exact Ht | by apply ordered_unwritten | done | done | done |]. by exists now, resource.
Qed.

Lemma new_intent_ok m h s :
  at_ m h s -> ordered m h -> idle_exchange m -> orderly (new_intent (W := W)) (fun _ => reaches (fun m' _ => intent_reached m')) s.
Proof.
  intros Ha Ho Ie. unfold new_intent. apply orderly_handled; [intros; walk |]. apply orderly_bind. unfold bind_intent.
  do 6 pass. proceed orderly_lift. intros profile Hp. apply orderly_keep_last.
  match goal with |- orderly _ _ (?t.1, (set_intent (Some ?i) _, _)) => set (x := i); assert (at_ m h t) as Ht by done end.
  apply (at_set_intent _ _ _ x) in Ht. change (sound_intent x) with x in Ht. assert (unwritten x) as Hu by done.
  pose proof (ordered_unwritten _ _ _ Ho Ie Hu) as Ho'. by_still. eapply plan_intent_ok; [eassumption | eassumption | done | done | done |].
  intros now m' i' t Ht' Ho'' Ie' Em' Hu' Hi'. by_still. apply orderly_bind.
  eapply wp_mono; [by eapply write_intent_ok | | done]. intros [] t' (m2 & h2 & R2 & R3 & R4).
  eapply orderly_still_last; [exact R2 | exact R3 | walk |]. intros [] t2 Ht2. by exists m2, h2.
Qed.

Lemma publish_intent_ok s : reaches (fun m' _ => intent_reached m') s -> orderly (publish_intent (W := W)) (fun _ => in_order) s.
Proof.
  intros (m & h & Ha & Ho & i & Em & Hi & Ie). unfold publish_intent. do 2 pass. apply orderly_keep_last.
  eapply (at_in_order (with_intent (intent_committed i) m) h); [|by eapply (at_intent intent_committed)].
  apply ordered_intent; [done | done |]. split; [done |]. destruct Ho as [Hx _]. by destruct (Hx i Em).
Qed.

Lemma record_create_intent_ok s : in_order s -> orderly (record_create_intent (W := W)) (fun _ => in_order) s.
Proof.
  intros Ho. unfold record_create_intent. apply orderly_handled; [intros; walk |]. apply orderly_bind.
  apply wp_mono with (fun _ => reaches (fun m' _ => intent_reached m')) (fun _ => in_order); [| intros [] t Ht; by apply publish_intent_ok | done].
  eapply (orderly_phase _ _ (view s.2.1) (history s.2.2)); [by split | done | intros []; apply reaches_still | intros []; apply reaches_in_order |].
  intros t Ht. pass. proceed orderly_check. intros Hf. apply orderly_keep.
  assert (idle_exchange (view s.2.1)) as Ie.
  { apply (no_intent_idle _ _ Ho). destruct Ht as [<- _]. cbn. by destruct (an_intent t.2.1). }
  apply (at_set_intent _ _ _ blank_intent) in Ht. eapply new_intent_ok; [exact Ht | by apply ordered_unwritten | done].
Qed.

(** ** The exchange *)

Lemma orderly_first {A B} (g : steps -> option A) code (f : unit -> broking B) Q m h s :
  at_ m h s -> ordered m h -> (g s.2.1 = None -> orderly (f tt) Q s) -> orderly (first_attempt g code ≫= f) Q s.
Proof.
  intros Ha Ho H. apply orderly_bind. unfold first_attempt. proceed orderly_reads. intros ok [= <-].
  apply wp_check; [|intros _; by eapply at_in_order]. intros E. apply H. apply andb_true_iff in E as [_ E]. by destruct (g s.2.1).
Qed.

Lemma sound_exchange_of (s : state) m h x : at_ m h s -> an_exchange s.2.1 = Some x -> m_exchange m = Some (sound_exchange x).
Proof. intros [<- _] E. cbn. by rewrite E. Qed.

Definition unsent (e : exchange) : Prop := ex_attempted e = false /\ ex_complete e = false.
Lemma ordered_unsent m h e : ordered m h -> idle_created m -> unsent e -> ordered (with_exchange e m) h.
Proof. intros H I [H1 H2]. apply ordered_exchange; [done | done |]. split; congruence. Qed.

Definition exchange_reached (m : milestones) : Prop :=
  exists e, m_exchange m = Some e /\ ex_attempted e = true /\ ex_response e <> None /\ idle_created m.

(** An exchange that is bound to a committed intent may be attempted, and keeps its response. *)
Definition bound_to (m : milestones) (e : exchange) : Prop :=
  exists i, m_intent m = Some i /\ in_committed i = true /\ ex_action e = in_action i.
Lemma ordered_sent m h e : ordered m h -> idle_created m -> bound_to m e -> ex_complete e = false -> ordered (with_exchange e m) h.
Proof. intros H I Hb Hc. apply ordered_exchange; [done | done |]. split; [done | congruence]. Qed.

Lemma exchange_octets_ok {B} (f : bytes -> broking B) Q m h s e :
  at_ m h s -> ordered m h -> idle_created m -> m_exchange m = Some e -> bound_to m e -> ex_complete e = false ->
  (forall raw s', at_ (with_exchange (exchange_attempted e) m) h s' -> orderly (f raw) Q s') -> orderly (exchange_octets fuel ≫= f) Q s.
Proof.
  intros Ha Ho Ic Em Hb Hc Hf. apply orderly_bind. unfold exchange_octets. apply orderly_keep.
  apply (at_exchange exchange_attempted _ _ _ e) in Ha; [|done|done].
  pose proof (ordered_sent _ _ (exchange_attempted e) Ho Ic Hb Hc) as Ho'. do 4 pass.
  match goal with a : (bytes * bytes)%type |- _ => destruct a as [first raw] end. pass. apply wp_ret, Hf. eassumption.
Qed.

Lemma new_exchange_ok m h s e :
  at_ m h s -> ordered m h -> idle_created m -> m_exchange m = Some e -> unsent e ->
  orderly (new_exchange (W := W) fuel) (fun _ => reaches (fun m' _ => exchange_reached m')) s.
Proof.
  intros Ha Ho Ic Em [_ Hc]. unfold new_exchange. apply orderly_handled; [intros; walk |]. apply orderly_bind. unfold bind_exchange.
  do 3 pass. proceed orderly_check. intros Hcom. pass. proceed orderly_step. intros i Ei. rewrite Ei in Hcom. do 2 pass.
  apply orderly_keep. pose proof (sound_intent_of _ _ _ _ Ha Ei) as Hsi.
  apply andb_true_iff in Hcom as [Hcom _].
  match goal with |- context [bound_exchange ?a ?r] => pose proof (at_exchange (bound_exchange a r) _ _ _ e Ha Em (fun _ => eq_refl)) as Hb; set (x := bound_exchange a r e) in Hb end.
  assert (bound_to m x) as Hx by (by exists (sound_intent i)).
  pose proof (ordered_sent _ _ x Ho Ic Hx Hc) as Ho'. apply wp_ret. do 2 pass.
  eapply exchange_octets_ok; [eassumption | eassumption | done | done | done | done |]. intros raw t Ht.
  pose proof (ordered_sent _ _ (exchange_attempted x) Ho Ic Hx Hc) as Hs. do 2 pass. apply orderly_keep.
  apply (at_exchange (exchange_response raw) _ _ _ (exchange_attempted x)) in Ht; [|done|done].
  eapply orderly_still_last; [exact Ht | by apply ordered_sent | walk |]. intros [] t' Ht'.
  eexists _, h. split; [exact Ht' |]. split; [by apply ordered_sent | by eexists].
Qed.

Lemma exchange_api_create_ok s : in_order s -> orderly (exchange_api_create (W := W) fuel) (fun _ => in_order) s.
Proof.
  intros Ho. assert (at_ (view s.2.1) (history s.2.2) s) as Ha by (by split). unfold exchange_api_create. apply orderly_handled; [intros; walk |].
  eapply orderly_first; [done | done |]. intros E. apply orderly_keep.
  assert (idle_created (view s.2.1)) as Ic by (apply (no_exchange_idle _ _ Ho); cbn; by rewrite E).
  apply orderly_bind. eapply wp_mono; [eapply (new_exchange_ok (with_exchange blank_exchange (view s.2.1)) (history s.2.2)) | | done].
  - split; [|done]. by destruct s as [l [p s]].
  - by apply ordered_unsent.
  - done.
  - done.
  - done.
  - clear. intros [] s (m & h & Ha & Ho & e & Em & H1 & H2 & Ic). do 2 pass. apply orderly_keep_last.
    eapply (at_in_order (with_exchange (exchange_complete e) m) h); [|by eapply (at_exchange exchange_complete)].
    apply ordered_exchange; [done | done |]. split; [|done]. destruct Ho as (_ & He & _). by destruct (He e Em).
Qed.

(** ** The created object *)

Lemma sound_created_of (s : state) m h x : at_ m h s -> a_created s.2.1 = Some x -> m_created m = Some (sound_created x).
Proof. intros [<- _] E. cbn. by rewrite E. Qed.

Definition unrecorded (c : created) : Prop := cr_advanced c = false /\ cr_committed c = false.

(** A creation that accounts for the response of a complete exchange may be written. *)
Definition accounts (m : milestones) (c : created) : Prop :=
  exists i e, m_intent m = Some i /\ m_exchange m = Some e /\ ex_complete e = true /\ ex_response e = Some (cr_response c) /\ accounted i c.
Lemma ordered_unrecorded m h c :
  ordered m h -> idle_result m -> unrecorded c -> (cr_writing c = true -> accounts m c) -> ordered (with_created c m) h.
Proof. intros H I [H1 H2] H3. apply ordered_created; [done | done |]. split; [exact H3 | split; congruence]. Qed.

Definition created_reached (m : milestones) : Prop := exists c, m_created m = Some c /\ cr_advanced c = true /\ idle_result m.

Lemma plan_created_ok {B} (f : intent * value * bytes -> broking B) Q m h s c :
  at_ m h s -> ordered m h -> idle_result m -> m_created m = Some c -> unrecorded c -> cr_writing c = false ->
  (forall x m' c' s', at_ m' h s' -> ordered m' h -> idle_result m' -> m_created m' = Some c' -> unrecorded c' -> accounts m' c' -> orderly (f x) Q s') ->
  orderly (plan_created ≫= f) Q s.
Proof.
  intros Ha Ho Ir Em Hu Hw Hf. apply orderly_bind. unfold plan_created. apply orderly_bind. unfold created_from.
  pass. proceed orderly_check. intros Hex. pass. proceed orderly_check. intros Hin.
  proceed orderly_step. intros i Ei. proceed orderly_step. intros e Ee. apply wp_ret. rewrite Ei in Hin. rewrite Ee in Hex.
  apply andb_true_iff in Hex as [[Hex _]%andb_true_iff _].
  pose proof (sound_intent_of _ _ _ _ Ha Ei) as Hsi. pose proof (sound_exchange_of _ _ _ _ Ha Ee) as Hse.
  proceed orderly_lift. intros response Hres. assert (ex_response e = Some response) as Hr by (by destruct (ex_response e); simplify_eq).
  eapply orderly_still; [eassumption | eassumption | solve [walk] | intros now t Ht].
  proceed orderly_lift. intros resource Hresource. proceed orderly_lift. intros [row after] Hrow. apply orderly_keep.
  eapply (at_created (bound_created (in_after i) response (in_action i) row after) _ _ _ c) in Ht; [|done|done].
  assert (accounts m (bound_created (in_after i) response (in_action i) row after c)) as Hacc.
  { exists (sound_intent i), (sound_exchange e). do 4 (split; [done |]). by exists now, resource. }
  apply wp_ret. eapply Hf; [exact Ht | by apply ordered_unrecorded | done | done | done | exact Hacc].
Qed.

Lemma write_created_ok i now response m h s c :
  at_ m h s -> ordered m h -> idle_result m -> m_created m = Some c -> unrecorded c -> accounts m c ->
  orderly (write_created i now response) (fun _ => reaches (fun m' _ => created_reached m')) s.
Proof.
  intros Ha Ho Ir Em Hu Hacc. unfold write_created.
  eapply orderly_phase; [exact Ha | exact Ho | intros []; apply reaches_still | intros []; apply reaches_in_order |].
  clear s Ha. intros s Ha. do 2 pass. apply orderly_keep.
  match goal with H : at_ m h ?t |- orderly _ _ (?t.1, _) => apply (at_created created_writing _ _ _ c) in H; [|done|done] end.
  pose proof (ordered_unrecorded _ _ (created_writing c) Ho Ir Hu (fun _ => Hacc)) as Ho1.
  proceed orderly_step. intros x Ex.
  assert (Some (created_writing c) = Some (sound_created x)) as Sx by (eapply (sound_created_of _ (with_created _ m)); eassumption).
  assert (cr_after c = cr_after x) as Sa by (by injection Sx).
  pass. pass. eapply orderly_read_history; [eassumption | done |]. intros raw t Ht Pt.
  assert (ordered (with_created (created_writing c) m) raw) as Ho2 by (by eapply ordered_mono).
  proceed orderly_check. intros ->%str_eqb_eq. do 3 pass. apply orderly_keep.
  match goal with H : at_ _ (cr_after x) ?t |- orderly _ _ (?t.1, _) => apply (at_created created_advanced _ _ _ (created_writing c)) in H as Ht'; [|done|done] end.
  assert (ordered (with_created (created_advanced (created_writing c)) m) (cr_after x)) as Ho3.
  { apply (ordered_created (with_created (created_writing c) m)); [done | done |]. split; [intros _; exact Hacc |].
    split; [|destruct Hu; cbn; congruence]. intros _. split; [done |]. cbn. by rewrite Sa. }
  eapply orderly_still; [exact Ht' | exact Ho3 | solve [walk] |]. intros [] t1 Ht1.
  eapply orderly_still_last; [exact Ht1 | exact Ho3 | walk |]. intros [] t2 Ht2. eexists _, _. split; [exact Ht2 |]. split; [done |]. by eexists.
Qed.

Lemma new_created_ok m h s c :
  at_ m h s -> ordered m h -> idle_result m -> m_created m = Some c -> unrecorded c -> cr_writing c = false ->
  orderly (new_created (W := W)) (fun _ => reaches (fun m' _ => created_reached m')) s.
Proof.
  intros Ha Ho Ir Em Hu Hw. unfold new_created. apply orderly_handled; [intros; walk |].
  eapply plan_created_ok; [done..|]. intros [[i now] response] m' c' t Ht Ho' Ir' Em' Hu' Hacc.
  eapply orderly_still; [exact Ht | exact Ho' | solve [walk] |]. intros [] t1 Ht1. apply orderly_bind.
  eapply wp_mono; [by eapply write_created_ok | | done]. intros [] t2 (m2 & h2 & R1 & R2 & R3).
  eapply orderly_still_last; [exact R1 | exact R2 | walk |]. intros [] t3 Ht3. by exists m2, h2.
Qed.

Lemma record_api_created_ok s : in_order s -> orderly (record_api_created (W := W)) (fun _ => in_order) s.
Proof.
  intros Ho. assert (at_ (view s.2.1) (history s.2.2) s) as Ha by (by split). unfold record_api_created. apply orderly_handled; [intros; walk |].
  eapply orderly_first; [done | done |]. intros E. apply orderly_keep.
  assert (idle_result (view s.2.1)) as Ir by (apply (no_created_idle _ _ Ho); cbn; by rewrite E).
  apply orderly_bind. eapply wp_mono; [eapply (new_created_ok (with_created blank_created (view s.2.1)) (history s.2.2)) | | done].
  - split; [|done]. by destruct s as [l [p s]].
  - by apply ordered_unrecorded.
  - done.
  - done.
  - done.
  - done.
  - clear. intros [] s (m & h & Ha & Ho & c & Em & H1 & Ir). do 3 pass. apply orderly_keep_last.
    eapply (at_in_order (with_created (created_committed c) m) h); [|by eapply (at_created created_committed)].
    apply ordered_created; [done | done |]. destruct Ho as (_ & _ & Hc & _). by destruct (Hc c Em) as (? & ? & _).
Qed.

(** ** The result *)

Lemma sound_result_of (s : state) m h x : at_ m h s -> a_result s.2.1 = Some x -> m_result m = Some (sound_result x).
Proof. intros [<- _] E. cbn. by rewrite E. Qed.

Definition untold (r : result) : Prop := re_attempted r = false /\ re_complete r = false.
Lemma ordered_untold m h r : ordered m h -> idle_retirement m -> untold r -> ordered (with_result r m) h.
Proof. intros H I [H1 H2]. apply ordered_result; [done | done |]. split; congruence. Qed.

(** A result of a committed creation may be sent. *)
Definition tells (m : milestones) (r : result) : Prop :=
  exists c, m_created m = Some c /\ cr_committed c = true /\ re_record r = cr_row c /\ re_ledger r = cr_after c /\ re_response r = cr_response c.
Lemma ordered_told m h r : ordered m h -> idle_retirement m -> tells m r -> re_complete r = false -> ordered (with_result r m) h.
Proof. intros H I H1 H2. apply ordered_result; [done | done |]. split; [done | congruence]. Qed.

Definition result_reached (m : milestones) : Prop := exists r, m_result m = Some r /\ re_attempted r = true /\ idle_retirement m.

Lemma bind_result_ok {B} (f : unit -> broking B) Q m h s r :
  at_ m h s -> ordered m h -> idle_retirement m -> m_result m = Some r -> untold r ->
  (forall m' r' s', at_ m' h s' -> ordered m' h -> idle_retirement m' -> m_result m' = Some r' -> untold r' -> tells m' r' -> orderly (f tt) Q s') ->
  orderly (bind_result ≫= f) Q s.
Proof.
  intros Ha Ho Ix Em Hu Hf. apply orderly_bind. unfold bind_result. pass. proceed orderly_check. intros Hc.
  proceed orderly_step. intros c Ec. rewrite Ec in Hc. apply andb_true_iff in Hc as [[Hc _]%andb_true_iff _].
  pose proof (sound_created_of _ _ _ _ Ha Ec) as Hsc. proceed orderly_step. intros e Ee. apply orderly_keep.
  apply (at_result (bound_result (ev_snapshot e) c [] []) _ _ _ r) in Ha; [|done|done].
  pose proof (ordered_untold _ _ (bound_result (ev_snapshot e) c [] [] r) Ho Ix Hu) as Ho1.
  proceed orderly_step. intros r1 Er1. proceed orderly_reads. intros [frame after] _. apply orderly_keep_last.
  apply (at_result (bound_result (ev_snapshot e) c frame after) _ _ _ _) with (2 := eq_refl) in Ha; [|done].
  eapply Hf; [exact Ha | by apply ordered_untold | done | done | done |]. by exists (sound_created c).
Qed.

Lemma send_result_ok m h s r :
  at_ m h s -> ordered m h -> idle_retirement m -> m_result m = Some r -> tells m r -> re_complete r = false ->
  orderly (send_result (W := W)) (fun _ => reaches (fun m' _ => result_reached m')) s.
Proof.
  intros Ha Ho Ix Em Ht Hc. unfold send_result.
  eapply orderly_phase; [exact Ha | exact Ho | intros []; apply reaches_still | intros []; apply reaches_in_order |].
  clear s Ha. intros s Ha. do 3 pass. apply orderly_keep.
  match goal with H : at_ m h ?t |- orderly _ _ (?t.1, _) => apply (at_result result_attempted _ _ _ r) in H as Ht'; [|done|done] end.
  pose proof (ordered_told _ _ (result_attempted r) Ho Ix Ht Hc) as Ho1.
  eapply orderly_still_last; [exact Ht' | exact Ho1 | walk |]. intros [] t1 Ht1. eexists _, _. split; [exact Ht1 |]. split; [done |]. by eexists.
Qed.

Lemma new_result_ok m h s r :
  at_ m h s -> ordered m h -> idle_retirement m -> m_result m = Some r -> untold r ->
  orderly (new_result (W := W)) (fun _ => reaches (fun m' _ => result_reached m')) s.
Proof.
  intros Ha Ho Ix Em Hu. unfold new_result. apply orderly_handled; [intros; walk |].
  eapply bind_result_ok; [done..|]. intros m' r' t Ht Ho' Ix' Em' Hu' Htell.
  eapply orderly_still; [exact Ht | exact Ho' | solve [walk] |]. intros [] t1 Ht1. apply orderly_bind.
  eapply wp_mono; [eapply send_result_ok; [exact Ht1 | done | done | done | done | apply Hu'] | | done].
  intros [] t2 (m2 & h2 & R1 & R2 & R3).
  eapply orderly_still_last; [exact R1 | exact R2 | walk |]. intros [] t3 Ht3. by exists m2, h2.
Qed.

Lemma send_create_result_ok s : in_order s -> orderly (send_create_result (W := W)) (fun _ => in_order) s.
Proof.
  intros Ho. assert (at_ (view s.2.1) (history s.2.2) s) as Ha by (by split). unfold send_create_result. apply orderly_handled; [intros; walk |].
  eapply orderly_first; [done | done |]. intros E. apply orderly_keep.
  assert (idle_retirement (view s.2.1)) as Ix by (apply (no_result_idle _ _ Ho); cbn; by rewrite E).
  apply orderly_bind. eapply wp_mono; [eapply (new_result_ok (with_result blank_result (view s.2.1)) (history s.2.2)) | | done].
  - split; [|done]. by destruct s as [l [p s]].
  - by apply ordered_untold.
  - done.
  - done.
  - done.
  - clear. intros [] s (m & h & Ha & Ho & r & Em & H1 & Ix). do 3 pass. apply orderly_keep_last.
    eapply (at_in_order (with_result (result_complete r) m) h); [|by eapply (at_result result_complete)].
    apply ordered_result; [done | done |]. destruct Ho as (_ & _ & _ & Hr & _). by destruct (Hr r Em) as (? & _).
Qed.

(** ** The retirement *)

Definition held_back (x : retirement) : Prop := rt_retired x = false /\ rt_advanced x = false /\ rt_complete x = false.
Lemma ordered_held_back m h x : ordered m h -> held_back x -> ordered (with_retirement x m) h.
Proof. intros H (H1 & H2 & H3). apply ordered_retirement; [done |]. split; [|split]; congruence. Qed.

Definition delivered (m : milestones) : Prop := exists r, m_result m = Some r /\ re_complete r = true.
Lemma ordered_retired m h x : ordered m h -> delivered m -> rt_retired x = true -> rt_complete x = false -> ordered (with_retirement x m) h.
Proof. intros H H1 H2 H3. apply ordered_retirement; [done |]. split; [|split]; [done | done | congruence]. Qed.

Definition retirement_reached (m : milestones) : Prop :=
  exists x, m_retirement m = Some x /\ rt_retired x = true /\ rt_advanced x = true /\ delivered m.

Lemma close_for_good_ok {B} (f : unit -> broking B) Q m h s x :
  at_ m h s -> ordered m h -> delivered m -> m_retirement m = Some x -> rt_complete x = false ->
  (forall s', at_ (with_retirement (retirement_retired x) m) h s' -> orderly (f tt) Q s') -> orderly (close_for_good ≫= f) Q s.
Proof.
  intros Ha Ho Hd Em Hc Hf. apply orderly_bind. unfold close_for_good. do 2 pass. apply orderly_keep.
  match goal with H : at_ m h ?t |- orderly _ _ (?t.1, _) => apply (at_retirement retirement_retired _ _ _ x) in H as Ht; [|done|done] end.
  eapply orderly_still_last; [exact Ht | by apply ordered_retired | walk |]. intros [] t1 Ht1. by apply Hf.
Qed.

Lemma advance_transcript_ok {B} (f : unit -> broking B) Q m h s x :
  at_ m h s -> ordered m h -> m_retirement m = Some x ->
  (forall s', at_ (with_retirement (retirement_advanced x) m) h s' -> orderly (f tt) Q s') -> orderly (advance_transcript ≫= f) Q s.
Proof.
  intros Ha Ho Em Hf. apply orderly_bind. unfold advance_transcript. do 5 pass. apply orderly_keep_last, Hf. by apply at_retirement.
Qed.

Lemma new_retirement_ok m h s x :
  at_ m h s -> ordered m h -> m_retirement m = Some x -> held_back x ->
  orderly (new_retirement (W := W)) (fun _ => reaches (fun m' _ => retirement_reached m')) s.
Proof.
  intros Ha Ho Em Hx. unfold new_retirement. apply orderly_handled; [intros; walk |]. apply orderly_bind. unfold bind_retirement.
  pass. proceed orderly_check. intros Hr.
  assert (delivered m) as Hd.
  { destruct (a_result s.2.1) as [r|] eqn:E; [|done]. exists (sound_result r). split; [by eapply sound_result_of |].
    by apply andb_true_iff in Hr as [[? _]%andb_true_iff _]. }
  do 3 pass. apply orderly_keep_last.
  match goal with H : at_ m h ?t |- context [bound_retirement ?a ?d] => apply (at_retirement (bound_retirement a d) _ _ _ x) in H as Ht; [|done|done] end.
  match type of Ht with at_ (with_retirement ?y _) _ _ => set (y' := y) in *; assert (held_back y') as Hy by done end.
  pose proof (ordered_held_back _ _ y' Ho Hy) as Ho1. apply orderly_bind.
  apply wp_mono with (fun _ => reaches (fun m' _ => retirement_reached m')) (fun _ => in_order);
    [eapply orderly_phase; [exact Ht | exact Ho1 | intros []; apply reaches_still | intros []; apply reaches_in_order |] | | done].
  - intros t Ha1. pass. eapply close_for_good_ok; [eassumption | done | done | done | apply Hy |]. intros t1 Ha2.
    assert (ordered (with_retirement (retirement_retired y') m) h) as Ho2 by (apply ordered_retired; [done | done | done | apply Hy]).
    eapply advance_transcript_ok; [exact Ha2 | done | done |]. intros t2 Ha3.
    assert (ordered (with_retirement (retirement_advanced (retirement_retired y')) m) h) as Ho3 by (apply ordered_retired; [done | done | done | apply Hy]).
    eapply orderly_still_last; [exact Ha3 | exact Ho3 | walk |]. intros [] t3 Ha4. eexists _, _. split; [exact Ha4 |]. split; [done |]. by eexists.
  - intros [] t1 (m2 & h2 & R1 & R2 & R3). eapply orderly_still_last; [exact R1 | exact R2 | walk |]. intros [] t2 Ht2. by exists m2, h2.
Qed.

Lemma retire_create_result_ok s : in_order s -> orderly (retire_create_result (W := W)) (fun _ => in_order) s.
Proof.
  intros Ho. assert (at_ (view s.2.1) (history s.2.2) s) as Ha by (by split). unfold retire_create_result. apply orderly_handled; [intros; walk |].
  eapply orderly_first; [done | done |]. intros E. apply orderly_keep.
  apply orderly_bind. eapply wp_mono; [eapply (new_retirement_ok (with_retirement blank_retirement (view s.2.1)) (history s.2.2)) | | done].
  - split; [|done]. by destruct s as [l [p s]].
  - by apply ordered_held_back.
  - done.
  - done.
  - clear. intros [] s (m & h & Ha & Ho & x & Em & H1 & H2 & Hd). do 3 pass. apply orderly_keep_last.
    eapply (at_in_order (with_retirement (retirement_complete x) m) h); [|by eapply (at_retirement retirement_complete)].
    by apply ordered_retirement.
Qed.

(** ** Every call *)

(** The calls of a broker connection and of its steps. *)
Inductive broker_call :=
  | Establish | Check_peer | Begin | Poll | Prepare_api | Check_api | Record_intent | Check_intent | Exchange | Check_exchange
  | Record_created | Check_created | Send_result | Check_result | Retire | Check_retirement | Close.

Definition perform (c : broker_call) : broking unit :=
  match c with
  | Establish => broker_establish
  | Check_peer => broker_check
  | Begin => begin
  | Poll => _ ← poll; mret tt
  | Prepare_api => prepare_api fuel
  | Check_api => api_check
  | Record_intent => record_create_intent
  | Check_intent => check_intent
  | Exchange => exchange_api_create fuel
  | Check_exchange => exchange_check
  | Record_created => record_api_created
  | Check_created => created_check
  | Send_result => send_create_result
  | Check_result => result_check
  | Retire => retire_create_result
  | Check_retirement => retirement_check
  | Close => broker_close
  end.

(** The calls that move no milestone. *)
Definition moves (c : broker_call) : bool :=
  match c with Record_intent | Exchange | Record_created | Send_result | Retire => true | _ => false end.

Lemma perform_still c : moves c = false -> keeps still (perform c).
Proof.
  destruct c; intros [=]; cbn [perform];
    unfold broker_establish, begin, poll, prepare_api, first_attempt, api_check, check_intent, retirement_check; walk.
Qed.

Lemma perform_in_order c s : in_order s -> in_order (perform c s).2.
Proof.
  intros H. apply wp_final. destruct (moves c) eqn:E; [|by apply wp_ordered; [apply perform_still |]].
  destruct c; try done; [by apply record_create_intent_ok | by apply exchange_api_create_ok | by apply record_api_created_ok |
    by apply send_create_result_ok | by apply retire_create_result_ok].
Qed.

(** The owner makes calls in any order, and works on its own in between; what it read of the admission
    log it does not forget. *)
Inductive broker_event := Call (c : broker_call) | Meanwhile (f : server W -> server W).

Definition next (s : state) (e : broker_event) : state :=
  match e with
  | Call c => (perform c s).2
  | Meanwhile f => if startswith (history s.2.2) (history (f s.2.2)) then (s.1, (s.2.1, f s.2.2)) else s
  end.

(** C12: The creation of an object goes through its milestones in one order, whatever calls are made of a
    broker connection and however they end.  A committed intent is the row that announces its action, and
    that row is in the admission log as it was read back; a request is attempted only for the action of a
    committed intent; a creation is written only for the response of a complete exchange, its row accounts
    for that response after the intent's, and once it advances the row is in the log as it was read back;
    a result is sent only for a committed creation, and the connection is retired only once the result was
    delivered. *)
Theorem creation_in_order (events : list broker_event) (l : link) (s : server W) :
  in_order (foldl next (l, (no_steps, s)) events).
Proof.
  assert (in_order (l, (no_steps, s))) as H by (by repeat split).
  revert H. generalize (l, (no_steps, s)) as t. induction events as [|e events IH]; intros t H; [done |]. apply IH.
  destruct e as [c|f]; cbn [next]; [by apply perform_in_order |].
  destruct (startswith _ _) eqn:E; [|done]. apply startswith_app in E as [r E].
  unfold in_order. cbn. eapply ordered_mono; [by exists r | exact H].
Qed.

(** ** Failures *)

(** A run that always returns. *)
Definition returns {A} (c : broking A) : Prop := forall s, wp c (fun _ _ => True) (fun _ _ => False) s.

Lemma returns_keep f : returns (keep f).
Proof. done. Qed.
Lemma returns_change f : returns (PeerLink.change f).
Proof. done. Qed.
Lemma returns_bind {A B} (c : broking A) (f : A -> broking B) : returns c -> (forall a, returns (f a)) -> returns (c ≫= f).
Proof. intros Hc Hf s. apply wp_bind. eapply wp_mono; [apply Hc | | done]. intros a t _. apply Hf. Qed.
Lemma returns_poison_intent : returns poison_intent.
Proof.
  apply returns_bind; [done |]. intros [x|]; [|done]. apply returns_bind; [apply returns_keep | intros _; by destruct (in_writing x)].
Qed.
Lemma returns_poison_created : returns poison_created.
Proof.
  apply returns_bind; [done |]. intros [x|]; [|done]. apply returns_bind; [apply returns_keep | intros _; by destruct (cr_writing x)].
Qed.
Lemma returns_poison_result : returns poison_result.
Proof. apply returns_bind; [apply returns_keep | intros _; apply returns_poison_created]. Qed.
Lemma returns_poison_retirement : returns poison_retirement.
Proof.
  apply returns_bind; [apply returns_keep | intros _]. apply returns_bind; [done |]. intros [r|]; [apply returns_poison_result | done].
Qed.
Lemma returns_poison_sent : returns (o ← BrokerStart.kept a_result; match o with None => mret tt | Some _ => poison_result end).
Proof. apply returns_bind; [done |]. intros [r|]; [apply returns_poison_result | done]. Qed.
Lemma returns_poison_retired : returns (o ← BrokerStart.kept a_retirement; match o with None => mret tt | Some _ => poison_retirement end).
Proof. apply returns_bind; [done |]. intros [r|]; [apply returns_poison_retirement | done]. Qed.

(** A run that leaves the connection closed, however it ends. *)
Definition closes {A} (c : broking A) : Prop := forall s, PeerLink.closed (c s).2.1 = true.

Lemma closes_close : closes broker_close.
Proof.
  intros s. apply wp_final with (P := fun s => PeerLink.closed s.1 = true). unfold broker_close, close_link. apply wp_bind, wp_reads; [|done].
  intros done_ [= <-].
  assert (forall (c : broking unit) t, keeps still c -> PeerLink.closed t.1 = true ->
    wp c (fun _ s => PeerLink.closed s.1 = true) (fun _ s => PeerLink.closed s.1 = true) t) as Hk.
  { intros c t K H. eapply wp_mono; [apply wp_keeps, K | intros a t' H' | intros e t' H']; by apply H'. }
  destruct (PeerLink.closed s.1) eqn:E; apply wp_bind.
  - by apply Hk; [unfold raise_cleanup; walk |].
  - apply wp_bind, wp_update. eapply wp_mono; [apply Hk | intros [] t H | by intros e t H].
    + walk. apply close_resources_kept; typeclasses eauto.
    + done.
    + by apply Hk; [unfold raise_cleanup; walk |].
Qed.

Lemma closes_abandon : closes broker_abandon.
Proof. intros s. unfold broker_abandon, attempt. unfold mbind, io_bind. pose proof (closes_close s) as H. by destruct (broker_close s). Qed.

Lemma closes_after {A B} (c : broking A) (f : A -> broking B) : returns c -> (forall a, closes (f a)) -> closes (c ≫= f).
Proof. intros Hc Hf s. specialize (Hc s). unfold wp in Hc. unfold mbind, io_bind. destruct (c s) as [[a|] t]; [apply Hf | done]. Qed.

Lemma raise_closes {A} (c : broking A) hd s e s' : (forall e, closes (hd e)) -> on_exception c hd s = (Raise e, s') -> PeerLink.closed s'.1 = true.
Proof.
  intros H. unfold on_exception. destruct (c s) as [[a|x] t]; [done |]. pose proof (H x t) as Hc. by destruct (hd x t) as [[|] t']; intros [= <- <-].
Qed.

#[local] Hint Resolve returns_keep returns_change returns_poison_intent returns_poison_created returns_poison_result returns_poison_retirement : core.
#[local] Hint Resolve returns_poison_sent returns_poison_retired closes_abandon closes_close : core.

(** Every call but the bare check of the peer closes the connection when it raises. *)
Lemma failure_closes c s e s' : perform c s = (Raise e, s') -> c <> Check_peer -> PeerLink.closed s'.1 = true.
Proof.
  assert (forall hd : broking unit, returns hd -> closes (hd ;; broker_abandon)) as H1 by (intros hd H; by apply closes_after).
  assert (forall hd hd' : broking unit, returns hd -> returns hd' -> closes (hd ;; hd' ;; broker_abandon)) as H2.
  { intros hd hd' H H'. apply closes_after; [done | intros _; by apply H1]. }
  intros H Hc.
  destruct c; try done; cbn [perform] in H; try (apply raise_closes in H; [done |]; intros _;
    first [by apply H1 | by apply H2 | by apply closes_after; [|intros _; apply H2]]).
  - apply io_bind_Raise in H as [H|(a & w & _ & [=])]. apply raise_closes in H; [done |]. intros _. by apply H1.
  - pose proof (closes_close s) as H0. by rewrite H in H0.
Qed.

(** ** A closed connection *)

(** The connection is closed, and nothing outside was touched since. *)
Definition shut (s s' : state) : Prop :=
  PeerLink.closed s.1 = true -> PeerLink.closed s'.1 = true /\ outside s'.2.2 = outside s.2.2 /\ srv_store s'.2.2 = srv_store s.2.2.
#[local] Instance shut_preorder : PreOrder shut.
Proof.
  split; [by intros s H | intros s1 s2 s3 H1 H2 H]. destruct (H1 H) as (A & B & C). destruct (H2 A) as (D & E & F). repeat split; [done | congruence..].
Qed.

Lemma shut_keep f : keeps shut (keep f : broking unit).
Proof. by intros s H. Qed.
Lemma shut_failed : keeps shut broker_failed.
Proof. by intros s H. Qed.
Lemma shut_poison_log : keeps shut poison_log.
Proof. by intros s H. Qed.
Lemma shut_kept {A} (f : steps -> A) : keeps shut (BrokerStart.kept f : broking A).
Proof. by intros s H. Qed.
Lemma shut_step {A} (f : steps -> option A) : keeps shut (step f : broking A).
Proof. by intros s H. Qed.
Lemma shut_close : keeps shut broker_close.
Proof.
  intros s H. unfold broker_close, close_link, PeerLink.see, reads, mbind, io_bind. rewrite H. cbn. unfold raise_cleanup. 
  unfold PeerLink.see, reads, mbind, io_bind. by destruct (PeerLink.cleanup_failure s.1).
Qed.
#[local] Hint Resolve shut_keep shut_failed shut_poison_log shut_kept shut_step shut_close : kept.
Lemma shut_abandon : keeps shut broker_abandon.
Proof. unfold broker_abandon. walk. Qed.
#[local] Hint Resolve shut_abandon : kept.
Lemma shut_poison_intent : keeps shut poison_intent.
Proof. unfold poison_intent. walk. Qed.
Lemma shut_poison_created : keeps shut poison_created.
Proof. unfold poison_created. walk. Qed.
#[local] Hint Resolve shut_poison_intent shut_poison_created : kept.
Lemma shut_poison_result : keeps shut poison_result.
Proof. unfold poison_result. walk. Qed.
#[local] Hint Resolve shut_poison_result : kept.
Lemma shut_poison_retirement : keeps shut poison_retirement.
Proof. unfold poison_retirement. walk. Qed.
#[local] Hint Resolve shut_poison_retirement : kept.
Lemma shut_created_state_check : keeps shut created_state_check.
Proof. unfold created_state_check. walk. Qed.
#[local] Hint Resolve shut_created_state_check : kept.
Lemma shut_exchange_state_check : keeps shut exchange_state_check.
Proof. unfold exchange_state_check, intent_history_check. walk. Qed.
Lemma shut_result_state_check : keeps shut result_state_check.
Proof. unfold result_state_check. walk. Qed.
#[local] Hint Resolve shut_exchange_state_check shut_result_state_check : kept.

(** On a closed connection the run raises, with nothing touched. *)
Definition refused {A} (c : broking A) : Prop :=
  forall s, PeerLink.closed s.1 = true -> wp c (fun _ _ => False) (fun _ => shut s) s.

Lemma refused_then {A B} (c : broking A) (f : A -> broking B) : refused c -> refused (c ≫= f).
Proof. intros H s E. apply wp_bind. eapply wp_mono; [by apply H | done | done]. Qed.
Lemma refused_after {A B} (c : broking A) (f : A -> broking B) : keeps shut c -> (forall a, refused (f a)) -> refused (c ≫= f).
Proof.
  intros K H s E. apply wp_bind. eapply wp_mono; [apply wp_keeps, K | intros a t Ht | done]. destruct (Ht E) as (E' & _).
  eapply wp_mono; [by apply H | done |]. intros e t' Ht'. by transitivity t.
Qed.
Lemma refused_handled {A} (c : broking A) hd : refused c -> (forall e, keeps shut (hd e)) -> refused (on_exception c hd).
Proof.
  intros H K s E. apply wp_on_exception. eapply wp_mono; [by apply H | done |]. intros e t Ht.
  eapply wp_mono; [apply wp_keeps, K | |]; intros a t' Ht'; by transitivity t.
Qed.
Lemma refused_finally {A} (c : broking A) f : refused c -> keeps shut f -> refused (finally c f).
Proof.
  intros H K s E. apply wp_finally. eapply wp_mono; [by apply H | done |]. intros e t Ht.
  eapply wp_mono; [apply wp_keeps, K | |]; intros a t' Ht'; by transitivity t.
Qed.
Lemma refused_phase {A} (c : broking A) : refused (broker_phase c).
Proof. intros s E. unfold broker_phase, _phase. apply wp_bind, wp_reads; [|done]. intros a [= <-]. rewrite E. cbn. by intros ?. Qed.
Lemma refused_first {A} (f : steps -> option A) code : refused (first_attempt f code).
Proof. intros s E. unfold first_attempt. apply wp_bind, wp_reads; [|done]. intros a [= <-]. rewrite E. cbn. by intros ?. Qed.

(** Finds what is refused in a run. *)
Ltac refuse :=
  lazymatch goal with
  | |- refused (broker_phase _) => apply refused_phase
  | |- refused (on_exception _ _) => apply refused_handled; [|intros ?; solve [walk]]
  | |- refused (finally _ _) => apply refused_finally; [|solve [walk]]
  | |- refused (first_attempt _ _ ≫= _) => apply refused_then, refused_first
  | |- refused (broker_phase _ ≫= _) => apply refused_then, refused_phase
  | |- refused (on_exception _ _ ≫= _) => apply refused_then
  | |- refused (_ ≫= _) => apply refused_after; [solve [walk] | intros ?]
  end.

Lemma refused_transport : refused api_transport_check.
Proof.
  unfold api_transport_check, api_phase. do 6 refuse. apply refused_then. refuse.
Qed.
Lemma refused_exchange_check : refused exchange_check.
Proof. unfold exchange_check. do 4 refuse. apply refused_then, refused_transport. Qed.
Lemma refused_created_check : refused created_check.
Proof. unfold created_check, created_bracket. do 4 refuse. apply refused_then, refused_exchange_check. Qed.
Lemma refused_result_check : refused result_check.
Proof. unfold result_check, result_bracket. do 4 refuse. apply refused_then, refused_created_check. Qed.

Lemma perform_refused c : c <> Close -> refused (perform c).
Proof.
  intros Hc. destruct c; try done; cbn [perform];
    [unfold broker_establish | unfold broker_check | unfold begin | unfold poll | unfold prepare_api | unfold api_check |
     unfold record_create_intent | unfold check_intent | unfold exchange_api_create | apply refused_exchange_check |
     unfold record_api_created | apply refused_created_check | unfold send_create_result | apply refused_result_check |
     unfold retire_create_result | unfold retirement_check].
  all: repeat (refuse || apply refused_transport).
Qed.

Lemma perform_shut c : c = Close \/ refused (perform c).
Proof. destruct c; try (right; by apply perform_refused); by left. Qed.

(** Calls made one after the other, with their outcomes. *)
Fixpoint follow (cs : list broker_call) (s : state) : list (res unit) * state :=
  match cs with
  | [] => ([], s)
  | c :: cs => let (r, s1) := perform c s in let (rs, s2) := follow cs s1 in (r :: rs, s2)
  end.

Lemma follow_shut cs s : PeerLink.closed s.1 = true ->
  let (rs, t) := follow cs s in Forall2 (fun c r => c = Close \/ exists e, r = Raise e) cs rs /\ PeerLink.closed t.1 = true /\ shut s t.
Proof.
  revert s. induction cs as [|c cs IH]; intros s E; cbn [follow]; [by repeat split |].
  assert (let (r, s1) := perform c s in (c = Close \/ exists e, r = Raise e) /\ shut s s1) as H.
  { destruct (perform_shut c) as [->|H].
    - pose proof (shut_close s) as K. cbn [perform]. destruct (broker_close s) as [r s1]. split; [by left | done].
    - specialize (H s E). unfold wp in H. destruct (perform c s) as [[|e] s1]; [done |]. split; [eauto | done]. }
  destruct (perform c s) as [r s1]. destruct H as [Hr Hs]. destruct (Hs E) as (E1 & _). specialize (IH s1 E1).
  destruct (follow cs s1) as [rs t]. destruct IH as (H1 & H2 & H3). split; [by constructor |]. split; [done |]. by transitivity s1.
Qed.

(** C13: A failure of a broker connection is final.  Once a call raised, other than the bare check of the
    peer, the connection is closed, and whatever is called after that, in any order: every call but closing
    again raises too, the connection stays closed, and none of them reaches the kernel, the peers, the API
    or the store. *)
Theorem failure_is_final (c : broker_call) (cs : list broker_call) (e : exn) (s s' : state) :
  perform c s = (Raise e, s') -> c <> Check_peer ->
  PeerLink.closed s'.1 = true /\
  let (rs, t) := follow cs s' in
  Forall2 (fun c r => c = Close \/ exists e, r = Raise e) cs rs /\ PeerLink.closed t.1 = true /\
  outside t.2.2 = outside s'.2.2 /\ srv_store t.2.2 = srv_store s'.2.2.
Proof.
  intros H Hc. pose proof (failure_closes c s e s' H Hc) as E. split; [done |]. pose proof (follow_shut cs s' E) as Hf.
  destruct (follow cs s') as [rs t]. destruct Hf as (H1 & H2 & H3). destruct (H3 E) as (_ & H4 & H5). done.
Qed.
End runs.
