(* ===== verification/ServerRuns.v ===== *)
(** The runs of the server: an operation is in the admission log before its probe is called and its
    result before it is told, and a server gives up everything it holds when it is closed. *)

From S2P Require Import Prelude Effects PyVal Utf8 Json Sha2 Canonical Base64 Ed25519 IsoTime Regex Text Posix.
From S2P Require Import SchemaBase Ipaddr Lifecycle LinuxShape Live LinuxVerify Session ReplayStore Supervisor BackendAuthority Launcher.
From S2P Require Import ProxySpecs ProxyDocument MutationAdmission Observation AdmissionLedger Broker Qualification Der Http.
From S2P Require Import Boundary Custody Files Store PeerLink Observer TlsCodec BrokerData ServerBase BrokerStart BrokerClose BrokerIntent BrokerApi BrokerCreate BrokerSteps Server.
From S2P Require Import PartKeeps ServerKeeps.

#[local] Open Scope string_scope.
#[local] Open Scope list_scope.
#[local] Open Scope Z_scope.

(** ** The checks of the server *)

Section checks.
Context {U : Unicode} {Sg : SigScheme} {W : Type} {Si : Site W}.

Lemma on_broker_kept {A} (m : PeerLink.run (W := steps * server W) A) :
  keeps (along (paired settled retains)) m -> keeps retains (on_broker m).
Proof.
  intros Hm s. unfold on_broker. destruct (srv_broker s) as [[l p]|]; [|cbn; reflexivity].
  specialize (Hm (l, (p, s))). destruct (m (l, (p, s))) as [r [l' [p' s']]]. destruct Hm as [_ [_ Hs]]. exact Hs.
Qed.

Lemma transport_check_kept : keeps retains (_transport_check (W := W)).
Proof.
  unfold _transport_check, _broker_check, served. walk. apply on_broker_kept. auto with kept.
Qed.
#[local] Hint Resolve transport_check_kept : kept.

Lemma log_row_kept state operation now cleanup : keeps retains (log_row (W := W) state operation now cleanup).
Proof. unfold log_row, served. walk. Qed.

(** ** A row of the log *)

(** Leaving the store does not touch what it read. *)
Lemma leave_store_floor (s : store * server W) : floor (leave_store s).2.1 = floor s.1.
Proof.
  unfold leave_store, held_fd, Store.beyond, zoom, mbind, io_bind, reads. destruct (fd_of Journal_file s.1); cbn; [|done].
  by match goal with |- context [let (_, _) := ?x in _] => destruct x end.
Qed.

Definition row_fields (r : value) (state : string) (operation now cleanup : value) : list (str * value) :=
  [(u "binding", r); (u "state", VStr (u state)); (u "operation", operation); (u "observedAt", now); (u "cleanup", cleanup)].

(** A row that is recorded is the last of the history that was read. *)
Lemma log_row_recorded state operation now cleanup (s s' : server W) :
  log_row state operation now cleanup s = (Ok tt, s') ->
  exists before row, plan_row (row_fields (reservation (srv_serving s)) state operation now cleanup) before = Ok (row, history s').
Proof.
  unfold log_row, served. intros (r & s1 & [= <- <-] & (d & s2 & H & [= <-])%io_bind_Ok)%io_bind_Ok.
  unfold on_log in H. apply io_bind_Ok in H as (p & s3 & [= <- <-] & H). apply io_bind_Ok in H as ([r' p'] & s4 & Hs & H).
  apply io_bind_Ok in H as ([] & s5 & Hu & [-> ->]%lift_Ok). unfold on_store, on_part in Hs.
  destruct (srv_store s) as [t|] eqn:E; [|done].
  match type of Hs with context [AdmissionLedger.record ?b ?st ?o ?n ?c ?j] => destruct (AdmissionLedger.record b st o n c j) as [r1 j1] eqn:Hr end.
  injection Hs as -> <- <-. injection Hu as <-.
  apply (record_floor (W := store * server W) (St := store_storage) (fun w => floor w.1)) in Hr as (before & row & H & _);
    [|intros t1 raw t2; apply read_store_floor | apply leave_store_floor].
  by exists before, row.
Qed.

(** A call that is kept, from its outcome. *)
Lemma kept_Ok {A} (m : ServerBase.run (W := W) A) s a s' : keeps retains m -> m s = (Ok a, s') -> retains s s'.
Proof. intros K H. specialize (K s). by rewrite H in K. Qed.

Lemma read_store_history (s s' : server W) raw : on_store read_store s = (Ok raw, s') -> history s' = raw.
Proof.
  unfold on_store, on_part. destruct (srv_store s) as [t|] eqn:E; [|done]. intros H.
  destruct (read_store (t, s)) as [r [t' s'']] eqn:Hr. injection H as -> <-. unfold history. cbn. by apply read_store_floor in Hr.
Qed.
End checks.
#[export] Hint Resolve transport_check_kept log_row_kept : kept.

(** ** An operation *)

Section operation.
Context {U : Unicode} {Sg : SigScheme} {W : Type} {Si : Site W} (probe : value -> Z -> ServerBase.run (W := W) (data * value)).

(** What passed left nothing behind. *)
Lemma receipt_of_clean a session regressions request raw remaining now receipt :
  receipt_of a session regressions request raw (VList remaining) now = Ok receipt -> fld_lit receipt "status" "PASS" = Ok true -> remaining = [].
Proof.
  unfold receipt_of. intros (x & _ & ([] & H & [= <-])%bind_Ok)%bind_Ok E.
  apply require_m_Ok in H. rewrite E in H. cbn in H. injection H as H. by destruct remaining.
Qed.

(** The result of a probe, as it is recorded over the history [past] that was read after it. *)
Definition recorded (a : authority) (r request operation : value) (raw : bytes) (remaining : value) (past : bytes) (receipt : value)
    (h : bytes) : Prop :=
  (exists digest before now cleanup at_ prior row, cleanup_terms a r past = Ok (digest, before) /\
     cleanup_receipt digest operation now remaining before = Ok cleanup /\ fld cleanup "observedAt" = Ok at_ /\
     plan_row (row_fields r "RECORDED" operation at_ cleanup) prior = Ok (row, h)) /\
  (exists session regressions now, receipt_terms a operation = Ok (session, regressions) /\
     receipt_of a session regressions request raw remaining now = Ok receipt).

Lemma record_result_recorded (request operation : value) raw remaining (s t s' : server W) receipt :
  retains s t -> record_result request operation raw remaining t = (Ok receipt, s') ->
  exists a past, srv_authority s = Some a /\ prefix (history t) past /\ prefix past (history s') /\
    recorded a (reservation (srv_serving s)) request operation raw remaining past receipt (history s').
Proof.
  intros Kt. unfold record_result. intros ([] & t1 & K1%kept_Ok & H)%io_bind_Ok; [|auto with kept].
  apply io_bind_Ok in H as (past & t2 & Hpast & H). pose proof (read_store_history _ _ _ Hpast) as Ep.
  apply kept_Ok in Hpast as K2; [|apply on_store_kept; auto with kept].
  assert (retains s t2) as K by (transitivity t; [done | by transitivity t1]). destruct K as (_ & Ea & Er).
  apply io_bind_Ok in H as (a & t3 & Ha & H). unfold the_authority, reads in Ha. destruct (srv_authority t2) as [a'|] eqn:Eat; [|done].
  injection Ha as -> <-. apply io_bind_Ok in H as (r & t3 & [= <- <-] & H). rewrite Er in H.
  apply io_bind_Ok in H as ([digest before] & t3 & [Hterms ->]%lift_Ok & H). apply io_bind_Ok in H as (now & t3 & K3%kept_Ok & H); [|auto with kept].
  apply io_bind_Ok in H as (cleanup & t4 & [Hclean ->]%lift_Ok & H). apply io_bind_Ok in H as ([session regressions] & t4 & [Hreceipt ->]%lift_Ok & H).
  apply io_bind_Ok in H as (now' & t4 & K4%kept_Ok & H); [|auto with kept]. apply io_bind_Ok in H as (receipt' & t5 & [Hof ->]%lift_Ok & H).
  apply io_bind_Ok in H as (at_ & t5 & [Hat ->]%lift_Ok & H). apply io_bind_Ok in H as ([] & t5 & Hlog & H).
  apply log_row_recorded in Hlog as Hrow. apply kept_Ok in Hlog as K5; [|auto with kept].
  apply io_bind_Ok in H as ([] & t6 & [= <-] & [= <- <-]).
  assert (retains t2 t4) as K24 by (by transitivity t3). destruct K24 as (P24 & _ & R24). rewrite R24, Er in Hrow.
  exists a, past. split; [congruence |]. split; [rewrite <- Ep; etransitivity; [apply K1 | apply K2] |].
  split; [rewrite <- Ep; etransitivity; [exact P24 | apply K5] |]. split; [|by exists session, regressions, now'].
  destruct Hrow as (prior & row & Hrow). by exists digest, before, now, cleanup, at_, prior, row.
Qed.

(** C9: A receipt is told only of what is on record.  When the request for an operation is answered with a
    receipt, the operation was in the admission log as RUNNING, read back, when its probe was called, and
    the probe gave octets and a list of the objects that remain.  If the probe took nothing back of what the
    server holds, its history, its authority and its reservation, then the receipt is that of these octets,
    for a session of the server's own authority, and passes only when the list is empty; the cleanup of the
    operation, chained to the history that was read after the probe, is in the log as its last row,
    RECORDED and read back, under the same reservation; and what was recorded before was never taken back. *)
Theorem receipt_is_recorded (request operation : value) (s : server W) :
  match run_operation probe request operation s with
  | (Ok receipt, s') => exists t t1 deadline raw remaining,
      (exists now prior row, plan_row (row_fields (reservation (srv_serving s)) "RUNNING" operation now VNone) prior = Ok (row, history t)) /\
      probe request deadline t = (Ok (Raw raw, VList remaining), t1) /\ prefix (history s) (history t) /\
      (retains t t1 -> exists a past,
       srv_authority s = Some a /\ prefix (history t) past /\ prefix past (history s') /\
       recorded a (reservation (srv_serving s)) request operation raw (VList remaining) past receipt (history s') /\
       (fld_lit receipt "status" "PASS" = Ok true -> remaining = []))
  | (Raise _, _) => True
  end.
Proof.
  destruct (run_operation probe request operation s) as [[receipt|] s'] eqn:H; [|done].
  revert H. unfold run_operation. intros ([] & s1 & K1%kept_Ok & H)%io_bind_Ok; [|auto with kept].
  apply io_bind_Ok in H as (now & s2 & K2%kept_Ok & H); [|auto with kept]. apply io_bind_Ok in H as ([] & s3 & H3 & H).
  apply log_row_recorded in H3 as Hrow. apply kept_Ok in H3 as K3; [|auto with kept].
  assert (retains s s2) as K by (by transitivity s1). assert (reservation (srv_serving s2) = reservation (srv_serving s)) as R2 by apply K.
  apply io_bind_Ok in H as ([] & s4 & [= <-] & H). apply io_bind_Ok in H as (deadline & s5 & [= <- <-] & H).
  set (t := set_serving (with_operation (Some operation) (srv_serving s3)) s3) in *.
  assert (retains s t) as Kt by (transitivity s3; [by transitivity s2 | by repeat split]).
  apply io_bind_Ok in H as ([d rem] & t1 & Hprobe & H).
  apply io_bind_Ok in H as ([raw remaining] & s6 & [Hd ->]%lift_Ok & H).
  destruct d as [raw'|]; [|done]. destruct rem as [| | | |l|]; try done. injection Hd as -> <-. rewrite R2 in Hrow.
  exists t, t1, (srv_deadline (srv_times s3)), raw, l. split; [by exists now |]. split; [done |]. split; [apply Kt |]. intros K4.
  apply (record_result_recorded _ _ _ _ s) in H as (a & past & Ha & P1 & P2 & Hrec); [|by transitivity t].
  exists a, past. split; [done |]. split; [etransitivity; [apply K4 | exact P1] |]. split; [done |]. split; [done |].
  destruct Hrec as (_ & session & regressions & now' & _ & Hof). by apply (receipt_of_clean _ _ _ _ _ _ _ _ Hof).
Qed.
End operation.

(** ** Closing *)

Section closing.
Context {U : Unicode} {Sg : SigScheme} {W : Type} {Si : Site W}.
#[local] Notation run := (ServerBase.run (W := W)).

(** Nothing is held any more. *)
Definition empty_handed (s : server W) : Prop :=
  srv_broker s = None /\ srv_observer s = None /\ srv_store s = None /\ srv_inspecting s = false /\
  memfd (srv_serving s) = None /\ listener (srv_serving s) = None /\ connection (srv_serving s) = None /\ srv_closed s = true.
Definition stays_empty : relation (server W) := fun s s' => empty_handed s -> empty_handed s'.

#[local] Instance stays_empty_preorder : PreOrder stays_empty.
Proof. split; [intros s H; exact H | intros s1 s2 s3 H1 H2 H; by apply H2, H1]. Qed.
#[local] Instance stays_empty_aloof : Aloof stays_empty.
Proof.
  split; [typeclasses eauto |]. intros f s H (H1 & H2 & H3 & H4 & H5 & H6 & H7 & H8). pose proof (H s) as E. unfold parts in E.
  injection E as E1 E2 E3 E4 _ E6 _ _ E9 E10 E11. unfold empty_handed. repeat split; congruence.
Qed.

Lemma closing_kept {T} (t : T) (m : io (T * server W) unit) : keeps (beside stays_empty) m -> keeps stays_empty (closing t m).
Proof. intros H s. unfold closing. specialize (H (t, s)). by destruct (m (t, s)) as [r p]. Qed.
Lemma closing_link_kept {T} l (t : T) (m : io (link * (T * server W)) unit) Q :
  keeps (along (paired Q stays_empty)) m -> keeps stays_empty (closing_link l t m).
Proof. intros H s. unfold closing_link. specialize (H (l, (t, s))). destruct (m (l, (t, s))) as [r p]. by destruct H as (_ & _ & H). Qed.

Lemma if_held_kept {A} (o : option A) (f : A -> run unit) : (forall x, keeps stays_empty (f x)) -> Forall (keeps stays_empty) (if_held o f).
Proof. intros H. destruct o; cbn; auto. Qed.

(** None of the closings takes anything up again. *)
Lemma closings_kept s : Forall (keeps stays_empty) (closings s).
Proof.
  unfold closings. repeat (apply Forall_app; split); try (apply if_held_kept; intros x).
  - apply (closing_link_kept _ _ _ settled). auto with kept.
  - auto with kept.
  - auto with kept.
  - apply (closing_link_kept _ _ _ anyhow). unfold observer_close. apply close_link_kept; [typeclasses eauto.. |]. walk.
  - apply closing_kept. eapply keeps_weaken; [|apply (close_store_kept stays_empty)]. by intros w w' [_ H].
  - destruct (srv_inspecting s); [|by constructor]. apply Forall_singleton. auto with kept.
  - walk.
  - apply Forall_cons. split; [|apply Forall_singleton]; apply closing_kept; auto with kept.
  - auto with kept.
Qed.

(** The runs one after the other, each whatever became of those before it. *)
Fixpoint outcomes (ms : list (run unit)) (s : server W) : list (res unit) * server W :=
  match ms with
  | [] => ([], s)
  | m :: ms => let (r, s1) := m s in let (rs, s2) := outcomes ms s1 in (r :: rs, s2)
  end.

Lemma tried_all ms failure s :
  io_fold (fun failure m => r ← attempt m; mret (first_failure failure r)) failure ms s =
  (Ok (foldl first_failure failure (outcomes ms s).1), (outcomes ms s).2).
Proof.
  set (body := fun failure m => r ← attempt m; mret (first_failure failure r)).
  assert (forall failure m s, body failure m s = (Ok (first_failure failure (m s).1), (m s).2)) as Hb.
  { intros f m t. unfold body, attempt, mbind, io_bind. by destruct (m t). }
  revert failure s. induction ms as [|m ms IH]; intros failure s; [done |]. cbn [io_fold outcomes].
  unfold mbind, io_bind. rewrite Hb, IH. destruct (m s) as [r s1]. cbn. by destruct (outcomes ms s1).
Qed.

Lemma outcomes_kept ms s : Forall (keeps stays_empty) ms -> stays_empty s (outcomes ms s).2.
Proof.
  revert s. induction ms as [|m ms IH]; intros s H; [by intros E |]. apply Forall_cons in H as [H1 H2]. cbn [outcomes].
  specialize (H1 s). destruct (m s) as [r s1]. specialize (IH s1 H2). destruct (outcomes ms s1) as [rs s2]. by transitivity s1.
Qed.

(** The closings are all run, and the first failure raised. *)
Lemma close_server_runs (s : server W) :
  if srv_closed s then close_server s = (Ok tt, s)
  else
    let (rs, t) := outcomes (closings s) (given_up s) in
    let (r, s') := close_server s in
    r = match foldl first_failure None rs with Some e => Raise e | None => Ok tt end /\ s' = set_state false true t /\ empty_handed s'.
Proof.
  assert (empty_handed (outcomes (closings s) (given_up s)).2) as H.
  { apply (outcomes_kept _ (given_up s)); [apply closings_kept |]. by repeat split. }
  pose proof (tried_all (closings s) None (given_up s)) as Ht. unfold close_server.
  set (body := fun failure m => r ← attempt m; mret (first_failure failure r)) in *.
  unfold mbind, io_bind, reads, update. destruct (srv_closed s) eqn:E; [done |]. rewrite Ht.
  destruct (outcomes (closings s) (given_up s)) as [rs t]. cbn in *.
  assert (srv_closed t = true) as Ec by apply H. rewrite Ec. destruct (foldl first_failure None rs); cbn; by repeat split; try apply H.
Qed.
End closing.

(** *** What is given back *)

(** A descriptor, a socket, the inspection of this process or of a service is given back. *)
Inductive release := Descriptor (fd : Z) | Socket (n : Z) | Own_inspection | Inspection (k : service).
#[local] Notation releases := (list (release * res unit)).

(** A site that notes what it is asked to close, with its answer. *)
Section audited.
Context {W : Type} {Si : Site W}.

Definition unseen {A} (m : io W A) : io (W * releases) A := zoom fst (fun w s => (w, s.2)) m.
Definition released_by (e : release) (m : io W unit) : io (W * releases) unit :=
  r ← attempt (unseen m); update (fun s => (s.1, s.2 ++ [(e, r)])) ;; lift r.

#[local] Instance audited : Site (W * releases) := {|
  same_process w := same_process w.1; machine w := machine w.1; envelope_variable w := envelope_variable w.1;
  entry_check := unseen entry_check; clock_wall := unseen clock_wall; clock_ticks := unseen clock_ticks;
  k_open a b c := unseen (k_open a b c); k_open_rw a b := unseen (k_open_rw a b); k_fstat a := unseen (k_fstat a);
  k_stat a b := unseen (k_stat a b); k_inheritable a := unseen (k_inheritable a); k_read a b := unseen (k_read a b);
  k_pread a b := unseen (k_pread a b); k_write a b := unseen (k_write a b); k_fsync a := unseen (k_fsync a);
  k_flock a b := unseen (k_flock a b); k_listdir a := unseen (k_listdir a); k_close a := released_by (Descriptor a) (k_close a);
  k_memfd a := unseen (k_memfd a); k_add_seals a b := unseen (k_add_seals a b); k_get_seals a := unseen (k_get_seals a);
  k_rewind a := unseen (k_rewind a); k_random a := unseen (k_random a); k_unix_socket := unseen k_unix_socket;
  k_inet_socket a := unseen (k_inet_socket a); k_fileno a := unseen (k_fileno a); k_private a := unseen (k_private a);
  k_pass_credentials a := unseen (k_pass_credentials a); k_v6_only a := unseen (k_v6_only a);
  k_timeout a b := unseen (k_timeout a b); k_unix_connect a b := unseen (k_unix_connect a b);
  k_connect a b := unseen (k_connect a b); k_bind a b := unseen (k_bind a b); k_listen a := unseen (k_listen a);
  k_accept a := unseen (k_accept a); k_socket_name a := unseen (k_socket_name a); k_peer_name a := unseen (k_peer_name a);
  k_peer_credentials a := unseen (k_peer_credentials a); k_send a b := unseen (k_send a b); k_receive a := unseen (k_receive a);
  k_receive_message a := unseen (k_receive_message a); k_close_socket a := released_by (Socket a) (k_close_socket a);
  k_detach a := unseen (k_detach a); k_select a b := unseen (k_select a b); k_pidfd a := unseen (k_pidfd a);
  k_proc := unseen k_proc; k_proc_exe a := unseen (k_proc_exe a); tls_new a b c := unseen (tls_new a b c);
  tls_wrap a b c := unseen (tls_wrap a b c); tls_handshake a := unseen (tls_handshake a); tls_write a b := unseen (tls_write a b);
  tls_read_some a b := unseen (tls_read_some a b); tls_unwrap a := unseen (tls_unwrap a); tls_is_13 a w := tls_is_13 a w.1;
  tls_reused a w := tls_reused a w.1; tls_http11 a w := tls_http11 a w.1; tls_certificate a := unseen (tls_certificate a);
  tls_pending a w := tls_pending a w.1; tls_outgoing a w := tls_outgoing a w.1; tls_take a := unseen (tls_take a);
  tls_give a b := unseen (tls_give a b); tls_incoming a w := tls_incoming a w.1; inspect_self_open := unseen inspect_self_open;
  inspect_self_check := unseen inspect_self_check; inspect_self_close := released_by Own_inspection inspect_self_close;
  inspect_peer_open a := unseen (inspect_peer_open a); inspect_peer_check a := unseen (inspect_peer_check a);
  inspect_peer_close a := released_by (Inspection a) (inspect_peer_close a); require_containment := unseen require_containment
|}.
End audited.

(** What was given back between two moments: nothing but [all], in order; at least [must]; and, when all
    was [fine], all of it, each without failure. *)
Definition gave (all must : list release) (fine : Prop) (t t' : releases) : Prop :=
  exists l, t' = t ++ l /\ sublist must (map fst l) /\ sublist (map fst l) all /\ (fine -> l = map (fun e => (e, Ok tt)) all).

Lemma gave_nil fine t : gave [] [] fine t t.
Proof. exists []. rewrite app_nil_r. repeat split; constructor. Qed.

Lemma gave_app a1 a2 m1 m2 (f1 f2 f : Prop) t t1 t2 :
  gave a1 m1 f1 t t1 -> gave a2 m2 f2 t1 t2 -> (f -> f1 /\ f2) -> gave (a1 ++ a2) (m1 ++ m2) f t t2.
Proof.
  intros (l1 & -> & M1 & A1 & F1) (l2 & -> & M2 & A2 & F2) H. exists (l1 ++ l2). rewrite !map_app, app_assoc. split; [done |].
  split; [by apply sublist_app |]. split; [by apply sublist_app |]. intros Hf. destruct (H Hf). by rewrite F1, F2.
Qed.

Lemma gave_weaken all must (f f' : Prop) t t' : gave all must f t t' -> (f' -> f) -> gave all must f' t t'.
Proof. intros (l & -> & M & A & F) H. exists l. do 3 (split; [done |]). auto. Qed.

Lemma gave_none all (fine : Prop) t : (fine -> False) -> gave all [] fine t t.
Proof. intros H. exists []. rewrite app_nil_r. split; [done |]. split; [constructor |]. split; [apply sublist_nil_l | by intros ?%H]. Qed.

Lemma gave_one e must r (fine : Prop) t : sublist must [e] -> (fine -> r = Ok tt) -> gave [e] must fine t (t ++ [(e, r)]).
Proof. intros Hm Hf. exists [(e, r)]. split; [done |]. split; [done |]. split; [done |]. intros H. by rewrite (Hf H). Qed.

Section releasing.
Context {U : Unicode} {Sg : SigScheme} {W : Type} {Si : Site W}.
#[local] Existing Instance audited.
#[local] Notation srv := (server (W * releases)).

Definition released (s : srv) : releases := (outside s).2.

(** *** What a server holds *)

Definition held {A} (e : A -> release) (o : option A) : list release := match o with Some x => [e x] | None => [] end.

Definition link_holds (k : service) (before : list release) (l : link) : list release :=
  if PeerLink.closed l then []
  else before ++ (if PeerLink.inspecting l then [Inspection k] else []) ++ held Descriptor (PeerLink.pidfd l) ++ held Socket (PeerLink.sock l).
Definition api_holds (p : steps) : list release :=
  match an_api p with
  | Some x => if ap_closed x then [] else held Descriptor (ap_memfd x) ++ held Socket (ap_sock x)
  | None => []
  end.
Definition store_holds (t : store) : list release := held Descriptor (journal_fd t) ++ held Descriptor (lock_fd t).
Definition files_hold (f : files) : list release :=
  if Files.closed f then [] else map (fun r => Descriptor (Files.fd r.2)) (rev (Files.rows f)).

(** Everything: the connection to the API and the link of the broker, the two sockets, the link of the observer,
    the two files of the store, the inspection, the descriptors of the files and the memory file. *)
Definition holdings (s : srv) : list release :=
  match srv_broker s with Some b => link_holds Broker_service (api_holds b.2) b.1 | None => [] end ++
  held Socket (connection (srv_serving s)) ++ held Socket (listener (srv_serving s)) ++
  match srv_observer s with Some o => link_holds Observer_service [] o.1 | None => [] end ++
  match srv_store s with Some t => store_holds t | None => [] end ++
  (if srv_inspecting s then [Own_inspection] else []) ++
  files_hold (srv_secrets s) ++ files_hold (srv_files s) ++
  held Descriptor (memfd (srv_serving s)).

(** What is given back without being looked at first. *)
Definition link_outright (k : service) (l : link) : list release :=
  if negb (PeerLink.closed l) && PeerLink.inspecting l then [Inspection k] else [].
Definition outright (s : srv) : list release :=
  match srv_broker s with Some b => link_outright Broker_service b.1 | None => [] end ++
  held Socket (connection (srv_serving s)) ++ held Socket (listener (srv_serving s)) ++
  match srv_observer s with Some o => link_outright Observer_service o.1 | None => [] end ++
  (if srv_inspecting s then [Own_inspection] else []) ++
  held Descriptor (memfd (srv_serving s)).

(** *** Looking first *)

(** The kernel still shows, whenever it is asked, what was pinned of a descriptor; the number of a socket is
    the one noted. *)
Definition pinned (fd : Z) (pin : list Z) : Prop :=
  2 < fd < 1048576 /\ forall w : W, exists info, (k_fstat fd w).1 = Ok info /\ [st_dev info; st_ino info; S_IFMT (st_mode info)] = pin.
Definition numbered (n fd : Z) : Prop := forall w : W, (k_fileno n w).1 = Ok fd.

Definition link_steady (l : link) : Prop :=
  (forall fd p, PeerLink.pidfd l = Some fd -> PeerLink.pidfd_pin l = Some p -> pinned fd p) /\
  (forall n, PeerLink.sock l = Some n ->
     (forall p, PeerLink.socket_pin l = Some p -> exists fd, PeerLink.socket_fd l = Some fd /\ pinned fd p) /\
     (forall fd, PeerLink.socket_fd l = Some fd -> numbered n fd)).
Definition api_steady (p : steps) : Prop :=
  forall x, an_api p = Some x ->
    (forall fd, ap_memfd x = Some fd -> exists pin, ap_memfd_pin x = Some pin /\ pinned fd pin) /\
    (forall n, ap_sock x = Some n -> exists fd pin, ap_socket_fd x = Some fd /\ ap_socket_pin x = Some pin /\ numbered n fd /\ pinned fd pin).
Definition store_steady (t : store) : Prop :=
  forall f fd i, fd_of f t = Some fd -> Store.identity_of f t = Some i ->
    forall w : W, exists info, (k_fstat fd w).1 = Ok info /\ lasting info = i.
Definition files_steady (f : files) : Prop :=
  forall path row i, In (path, row) (Files.rows f) -> Files.identity row = Some i ->
    forall w : W, exists info, (k_fstat (Files.fd row) w).1 = Ok info /\
      [st_dev info; st_ino info; S_IFMT (st_mode info)] = [device_of i; nth 1 i 0; S_IFMT (mode_of i)].

(** No descriptor the server pinned was replaced behind its back. *)
Definition undisturbed (s : srv) : Prop :=
  (forall b, srv_broker s = Some b -> link_steady b.1 /\ api_steady b.2) /\
  (forall o, srv_observer s = Some o -> link_steady o.1) /\ (forall t, srv_store s = Some t -> store_steady t) /\
  files_steady (srv_secrets s) /\ files_steady (srv_files s).

(** *** The calls *)

Lemma out_release e (m : io W unit) (s : srv) :
  wp (out (released_by e m)) (fun _ s' => released s' = released s ++ [(e, Ok tt)])
    (fun x s' => released s' = released s ++ [(e, Raise x)]) s.
Proof.
  unfold out, released_by. apply wp_zoom, wp_bind, wp_attempt. unfold unseen. apply wp_zoom. unfold wp at 1.
  destruct (m (outside s).1) as [[[]|x] w]; apply wp_bind, wp_update; done.
Qed.

Lemma out_unseen {A} (m : io W A) (s : srv) :
  wp (out (unseen m)) (fun x s' => released s' = released s /\ exists w, (m w).1 = Ok x)
    (fun e s' => released s' = released s /\ exists w, (m w).1 = Raise e) s.
Proof.
  unfold out, unseen. apply wp_zoom, wp_zoom. unfold wp. destruct (m (outside s).1) as [[x|e] w] eqn:E; cbn [fst snd];
    (split; [done |]; exists (outside s).1; by rewrite E).
Qed.

(** *** A link *)

(** What must be given back: when a descriptor that is looked at first is sure to be as it was, all of it. *)
Context (sure : bool).
Definition surely (l : list release) : list release := if sure then l else [].

Lemma surely_sub l : sublist (surely l) l.
Proof. unfold surely. destruct sure; [done | apply sublist_nil_l]. Qed.
Lemma surely_not l (P : Prop) : (sure = true -> P) -> ~ P -> surely l = [].
Proof. unfold surely. destruct sure; [intros H1 H2; by destruct H2; apply H1 | done]. Qed.

Section link_closing.
Context {X : Type} (k : service).
#[local] Notation state := (link * (X * srv))%type.

Definition rel (s : state) : releases := released s.2.2.
Definition stays (s s' : state) : Prop := s'.1 = s.1 /\ s'.2.1 = s.2.1 /\ rel s' = rel s.

Lemma stays_put (s s1 : state) (t : srv) : stays s s1 -> released t = released s1.2.2 -> stays s (s1.1, (s1.2.1, t)).
Proof. unfold stays, rel. cbn [fst snd]. intros (H1 & H2 & H3) H4. repeat split; congruence. Qed.

Lemma fd_pin_wp fd (s : state) :
  wp (_fd_pin k fd) (fun now s' => stays s s' /\ forall p, pinned fd p -> now = p) (fun _ s' => stays s s' /\ forall p, ~ pinned fd p) s.
Proof.
  unfold _fd_pin. apply wp_bind, wp_check; [intros _ | intros Hr].
  - apply wp_bind. cbn [l_fstat link_beside server_link k_fstat audited]. unfold PeerLink.beyond, aside. apply wp_zoom, wp_zoom.
    eapply wp_mono; [apply out_unseen | |].
    + intros info s1 [H1 (w & Hw)]. apply wp_ret. split; [by repeat split |]. intros p [_ Hp]. destruct (Hp w) as (info' & H & <-). congruence.
    + intros e s1 [H1 (w & Hw)]. split; [by repeat split |]. intros p [_ Hp]. destruct (Hp w) as (info' & H & _). congruence.
  - split; [by repeat split |]. intros p [Hb _]. apply andb_false_iff in Hr. rewrite !Z.ltb_ge in Hr. lia.
Qed.

Lemma same_pin_wp fd pin (s : state) :
  wp (PeerLink.same_pin k fd pin) (fun _ s' => stays s s')
    (fun _ s' => stays s s' /\ ~ forall p, pin = Some p -> exists d, fd = Some d /\ pinned d p) s.
Proof.
  unfold PeerLink.same_pin. destruct pin as [p|]; [|by apply wp_ret]. apply wp_bind, wp_lift.
  - intros d Hd. destruct fd as [d'|]; [injection Hd as -> | done]. apply wp_bind. eapply wp_mono; [apply fd_pin_wp | |].
    + intros now s1 [H1 Hp]. apply wp_check; [done |]. intros E. split; [done |]. intros H. destruct (H p eq_refl) as (d' & [= <-] & Hd').
      apply Hp in Hd' as ->. assert (ints_eqb p p = true) by (by apply ints_eqb_eq). congruence.
    + intros e s1 [H1 Hp]. split; [done |]. intros H. destruct (H p eq_refl) as (d' & [= <-] & Hd'). by eapply Hp.
  - intros e He. split; [by repeat split |]. intros H. destruct (H p eq_refl) as (d & -> & _). done.
Qed.

(** A link after some of its parts were closed: only the kept failure may differ. *)
Definition tidied (all must : list release) (s s' : state) : Prop :=
  exists c, s'.1 = with_cleanup c s.1 /\ (c = None -> PeerLink.cleanup_failure s.1 = None) /\ gave all must (c = None) (rel s) (rel s').

Lemma tidied_none s : tidied [] [] s s.
Proof. exists (PeerLink.cleanup_failure s.1). split; [by destruct s as [[] ?] |]. split; [done | apply gave_nil]. Qed.

Lemma keep_failure_wp all must r (s s1 : state) : stays s s1 \/ s1.1 = s.1 ->
  gave all must (r = Ok tt) (rel s) (rel s1) -> wp (keep_failure r) (fun _ => tidied all must s) (fun _ _ => False) s1.
Proof.
  intros Hs Hg. assert (s1.1 = s.1) as E by (by destruct Hs as [[? _] | ?]). unfold keep_failure. apply wp_update.
  exists (first_failure (PeerLink.cleanup_failure s.1) r). cbn [fst snd]. rewrite E. split; [done |].
  unfold first_failure. split; [by destruct (PeerLink.cleanup_failure s.1) |]. eapply gave_weaken; [exact Hg |].
  destruct (PeerLink.cleanup_failure s.1); [done |]. by destruct r as [[]|].
Qed.

(** A part is looked at, then closed: what was given back is it, or nothing. *)
Definition closes (e : release) (m : PeerLink.run (W := X * srv) unit) (s s0 : state) : Prop :=
  wp m (fun _ s' => (s'.1 = s.1 /\ s'.2.1 = s.2.1) /\ gave [e] (surely [e]) True (rel s) (rel s'))
    (fun _ s' => (s'.1 = s.1 /\ s'.2.1 = s.2.1) /\ gave [e] (surely [e]) False (rel s) (rel s')) s0.

Lemma closes_look e (look close : PeerLink.run (W := X * srv) unit) (P : Prop) (s s0 : state) : (sure = true -> P) ->
  wp look (fun _ s' => stays s s') (fun _ s' => stays s s' /\ ~ P) s0 ->
  (forall s1, stays s s1 -> closes e close s s1) -> closes e (look ;; close) s s0.
Proof.
  intros HP Hl Hc. apply wp_bind. eapply wp_mono; [exact Hl | intros []; apply Hc |]. intros x s1 [(E1 & E3 & E2) Hn].
  split; [done |]. rewrite E2, (surely_not _ _ HP Hn). by apply gave_none.
Qed.

Lemma closes_now e (m : io (W) unit) (s s1 : state) : stays s s1 ->
  closes e (PeerLink.beyond (aside (out (released_by e m)))) s s1.
Proof.
  intros (E1 & E4 & E2). unfold closes, PeerLink.beyond, aside. apply wp_zoom, wp_zoom. unfold rel in *.
  eapply wp_mono; [apply out_release | |]; intros ? s2 E3; cbn [fst snd]; (split; [done |]); rewrite E3, E2; apply gave_one;
    (apply surely_sub || done).
Qed.

Lemma closes_kept e m (s : state) : closes e m s s ->
  wp (r ← attempt m; keep_failure r) (fun _ => tidied [e] (surely [e]) s) (fun _ _ => False) s.
Proof.
  intros H. apply wp_bind, wp_attempt. eapply wp_mono; [exact H | |]; intros ? s1 [[E _] Hg]; (apply keep_failure_wp; [by right |]); by eapply gave_weaken.
Qed.

Lemma close_pidfd_wp fd pin (s : state) : (sure = true -> forall p, pin = Some p -> pinned fd p) ->
  wp (close_pidfd k fd pin) (fun _ => tidied [Descriptor fd] (surely [Descriptor fd]) s) (fun _ _ => False) s.
Proof.
  intros Hs. apply closes_kept. apply (closes_look _ _ _ (forall p, pin = Some p -> exists d, Some fd = Some d /\ pinned d p)).
  - intros H p Hp. exists fd. split; [done | by apply Hs].
  - apply same_pin_wp.
  - intros s1 H1. by apply (closes_now (Descriptor fd) (k_close fd)).
Qed.

Lemma detach_wp n all must (s s1 : state) : tidied all must s s1 ->
  wp (_ ← attempt (PeerLink.beyond (sock_detach n)); mret tt) (fun _ => tidied all must s) (fun _ _ => False) s1.
Proof.
  intros H. apply wp_bind, wp_attempt. cbn [sock_detach link_beside server_link k_detach audited]. unfold PeerLink.beyond, aside.
  apply wp_zoom, wp_zoom. eapply wp_mono; [apply out_unseen | |]; intros ? s3 [E3 _]; apply wp_ret; unfold tidied, rel in *; cbn [fst snd]; by rewrite E3.
Qed.

Definition socket_steady (n : Z) (fd : option Z) (pin : option (list Z)) : Prop :=
  (forall p, pin = Some p -> exists d, fd = Some d /\ pinned d p) /\ (forall d, fd = Some d -> numbered n d).

Lemma close_socket_wp n fd pin (s : state) : (sure = true -> socket_steady n fd pin) ->
  wp (close_socket k n fd pin) (fun _ => tidied [Socket n] (surely [Socket n]) s) (fun _ _ => False) s.
Proof.
  intros Hs. unfold close_socket. apply wp_bind, wp_attempt.
  match goal with |- wp ?m _ _ _ => assert (closes (Socket n) m s s) as H end.
  { apply (closes_look _ _ _ _ _ _ (fun H => proj1 (Hs H))); [apply same_pin_wp |]. intros s1 H1.
    apply (closes_look _ _ _ _ _ _ (fun H => proj2 (Hs H))); [|intros s2 H2; by apply (closes_now (Socket n) (k_close_socket n))].
    destruct fd as [fd|]; [|by apply wp_ret]. apply wp_bind. cbn [sock_fileno link_beside server_link k_fileno audited].
    unfold PeerLink.beyond, aside. apply wp_zoom, wp_zoom. eapply wp_mono; [apply out_unseen | |].
    - intros d s3 [E (w & Hw)]. apply wp_check; [intros _; by apply stays_put |]. intros Hn%Z.eqb_neq.
      split; [by apply stays_put |]. intros H. apply Hn. specialize (H fd eq_refl w). congruence.
    - intros e s3 [E (w & Hw)]. split; [by apply stays_put |]. intros H. specialize (H fd eq_refl w). congruence. }
  eapply wp_mono; [exact H | |]; intros ? s1 [[E _] Hg]; apply wp_bind;
    (eapply wp_mono; [apply (keep_failure_wp [Socket n] (surely [Socket n]) _ s); [by right | by eapply gave_weaken] | | done]); intros [] s2 H2.
  - by apply wp_ret.
  - by apply detach_wp.
Qed.

(** What is left of a link's state after its parts were closed. *)
Definition linked (all must : list release) (s s' : state) : Prop :=
  (PeerLink.cleanup_failure s'.1 = None -> PeerLink.cleanup_failure s.1 = None) /\
  gave all must (PeerLink.cleanup_failure s'.1 = None) (rel s) (rel s').

Lemma tidied_linked all must s s' : tidied all must s s' -> linked all must s s'.
Proof. intros (c & E & H1 & H2). unfold linked. rewrite E. by split. Qed.

Lemma linked_app a1 a2 m1 m2 s s1 s2 : linked a1 m1 s s1 -> linked a2 m2 s1 s2 -> linked (a1 ++ a2) (m1 ++ m2) s s2.
Proof. intros [H1 G1] [H2 G2]. split; [auto |]. eapply gave_app; [exact G1 | exact G2 |]. auto. Qed.

(** The state that a part begins with, when only fields that do not matter were set. *)
Lemma linked_from all must (s s0 s' : state) : PeerLink.cleanup_failure s0.1 = PeerLink.cleanup_failure s.1 -> rel s0 = rel s ->
  linked all must s0 s' -> linked all must s s'.
Proof. unfold linked. by intros -> ->. Qed.

Definition ends_must (l : link) : list release :=
  (if PeerLink.inspecting l then [Inspection k] else []) ++ surely (held Descriptor (PeerLink.pidfd l)) ++ surely (held Socket (PeerLink.sock l)).
Definition ends_held (l : link) : list release :=
  (if PeerLink.inspecting l then [Inspection k] else []) ++ held Descriptor (PeerLink.pidfd l) ++ held Socket (PeerLink.sock l).

Lemma surely_nil : surely [] = [].
Proof. unfold surely. by destruct sure. Qed.

Lemma close_resources_wp (s : state) : (sure = true -> link_steady s.1) ->
  wp (close_resources k) (fun _ => linked (ends_held s.1) (ends_must s.1) s) (fun _ _ => False) s.
Proof.
  intros Hs. unfold close_resources, PeerLink.see, PeerLink.change. apply wp_bind, wp_reads; [intros insp [= <-] | done].
  apply wp_bind, wp_update. set (s0 := (with_inspection false s.1, s.2)). apply wp_bind.
  assert (wp (if PeerLink.inspecting s.1 then r ← attempt (PeerLink.beyond (inspect_close k)); keep_failure r else mret tt)
    (fun _ => tidied (if PeerLink.inspecting s.1 then [Inspection k] else []) (if PeerLink.inspecting s.1 then [Inspection k] else []) s0)
    (fun _ _ => False) s0) as H1.
  { destruct (PeerLink.inspecting s.1); [|apply wp_ret, tidied_none]. apply wp_bind, wp_attempt.
    cbn [inspect_close link_beside server_link inspect_peer_close audited]. unfold PeerLink.beyond, aside. apply wp_zoom, wp_zoom.
    eapply wp_mono; [apply out_release | |]; intros ? s2 E; (apply (keep_failure_wp _ _ _ s0); [by right |]); unfold rel at 2; cbn [snd]; rewrite E;
      by apply gave_one. }
  eapply wp_mono; [exact H1 | | done]. intros [] s1 H2. apply wp_bind, wp_reads; [intros l [= <-] | done]. apply wp_bind, wp_update.
  pose proof H2 as (c & E1 & _). set (s3 := (_, s1.2)).
  assert (PeerLink.pidfd s1.1 = PeerLink.pidfd s.1 /\ PeerLink.pidfd_pin s1.1 = PeerLink.pidfd_pin s.1 /\ PeerLink.sock s1.1 = PeerLink.sock s.1 /\
    PeerLink.socket_fd s1.1 = PeerLink.socket_fd s.1 /\ PeerLink.socket_pin s1.1 = PeerLink.socket_pin s.1) as (-> & -> & -> & -> & ->) by (by rewrite E1).
  assert (linked (if PeerLink.inspecting s.1 then [Inspection k] else []) (if PeerLink.inspecting s.1 then [Inspection k] else []) s s3) as H3.
  { apply tidied_linked in H2. exact H2. }
  apply wp_bind. unfold ends_held, ends_must.
  assert (wp match PeerLink.pidfd s.1 with None => mret tt | Some fd => close_pidfd k fd (PeerLink.pidfd_pin s.1) end
    (fun _ => tidied (held Descriptor (PeerLink.pidfd s.1)) (surely (held Descriptor (PeerLink.pidfd s.1))) s3) (fun _ _ => False) s3) as H4.
  { destruct (PeerLink.pidfd s.1) as [fd|] eqn:E; cbn [held]; [|rewrite surely_nil; apply wp_ret, tidied_none].
    apply close_pidfd_wp. intros H p Hp. by apply (Hs H). }
  eapply wp_mono; [exact H4 | | done]. intros [] s4 H5%tidied_linked.
  assert (wp match PeerLink.sock s.1 with None => mret tt | Some n => close_socket k n (PeerLink.socket_fd s.1) (PeerLink.socket_pin s.1) end
    (fun _ => tidied (held Socket (PeerLink.sock s.1)) (surely (held Socket (PeerLink.sock s.1))) s4) (fun _ _ => False) s4) as H6.
  { destruct (PeerLink.sock s.1) as [n|] eqn:E; cbn [held]; [|rewrite surely_nil; apply wp_ret, tidied_none].
    apply close_socket_wp. intros H. by apply (Hs H). }
  eapply wp_mono; [exact H6 | | done]. intros [] s5 H7%tidied_linked. by do 2 (eapply linked_app; [eassumption |]).
Qed.

Definition link_must (before : list release) (l : link) : list release := if PeerLink.closed l then [] else before ++ ends_must l.

Lemma close_link_wp before (all must : list release) (s : state) : (sure = true -> link_steady s.1) ->
  (forall s0, s0.2 = s.2 -> wp before (fun _ => tidied all must s0) (fun _ _ => False) s0) ->
  wp (close_link k before) (fun _ s' => gave (link_holds k all s.1) (link_must must s.1) True (rel s) (rel s'))
    (fun _ s' => gave (link_holds k all s.1) (link_must must s.1) False (rel s) (rel s')) s.
Proof.
  intros Hs Hb. unfold close_link, PeerLink.see, PeerLink.change. apply wp_bind, wp_reads; [intros done [= <-] | done]. apply wp_bind.
  assert (forall s1 : state, linked (link_holds k all s.1) (link_must must s.1) s s1 ->
    wp raise_cleanup (fun _ s' => gave (link_holds k all s.1) (link_must must s.1) True (rel s) (rel s'))
      (fun _ s' => gave (link_holds k all s.1) (link_must must s.1) False (rel s) (rel s')) s1) as Hraise.
  { intros s1 [_ H]. unfold raise_cleanup, PeerLink.see. apply wp_bind, wp_reads; [intros o [= <-] | done].
    destruct (PeerLink.cleanup_failure s1.1) as [e|] eqn:E; [apply wp_throw | apply wp_ret]; by eapply gave_weaken. }
  unfold link_holds, link_must in *. destruct (PeerLink.closed s.1).
  - apply wp_ret, Hraise. apply tidied_linked, tidied_none.
  - apply wp_bind, wp_update. set (s0 := (set_closed s.1, s.2)). apply wp_bind. eapply wp_mono; [by apply Hb | | done].
    intros [] s1 H1. pose proof H1 as (c & E1 & _).
    assert (ends_held s1.1 = ends_held s.1 /\ ends_must s1.1 = ends_must s.1) as [Eh Em] by (by rewrite E1).
    eapply wp_mono; [apply close_resources_wp; intros H; rewrite E1; exact (Hs H) | | done].
    intros [] s2 H2. rewrite Eh, Em in H2. apply Hraise. eapply linked_app; [|exact H2]. apply tidied_linked in H1. exact H1.
Qed.
End link_closing.

(** *** The connection to the API *)

#[local] Notation bstate := (link * (steps * srv))%type.

(** The connection after some of its parts were closed: the kept failure may differ, and what was set. *)
Definition retired (x : api) (all must : list release) (s s' : bstate) : Prop :=
  s'.1 = s.1 /\ exists x', an_api s'.2.1 = Some x' /\ (ap_cleanup x' = None -> ap_cleanup x = None) /\
    gave all must (ap_cleanup x' = None) (rel s) (rel s').

Lemma retired_app x a1 a2 m1 m2 s s1 s2 : retired x a1 m1 s s1 ->
  (forall x1, an_api s1.2.1 = Some x1 -> retired x1 a2 m2 s1 s2) -> retired x (a1 ++ a2) (m1 ++ m2) s s2.
Proof.
  intros (E1 & x1 & H1 & C1 & G1) H. destruct (H x1 H1) as (E2 & x2 & H2 & C2 & G2). split; [congruence |]. exists x2.
  split; [done |]. split; [auto |]. eapply gave_app; [exact G1 | exact G2 |]. auto.
Qed.

Lemma keep_api_failure_wp x all must r (s s1 : bstate) : an_api s.2.1 = Some x -> s1.1 = s.1 -> s1.2.1 = s.2.1 ->
  gave all must (r = Ok tt) (rel s) (rel s1) -> wp (keep_api_failure r) (fun _ => retired x all must s) (fun _ _ => False) s1.
Proof.
  intros Hx E1 E2 Hg. unfold keep_api_failure, keep. apply wp_update. split; [done |].
  exists (api_cleanup (first_failure (ap_cleanup x) r) x). cbn [fst snd]. rewrite E2. cbn [an_api change_api set_api]. rewrite Hx. split; [done |].
  cbn [ap_cleanup api_cleanup]. unfold first_failure. split; [by destruct (ap_cleanup x) |].
  eapply gave_weaken; [exact Hg |]. destruct (ap_cleanup x); [done |]. by destruct r as [[]|].
Qed.

Lemma api_pin_wp fd pin c (s : bstate) :
  wp (api_pin fd pin c) (fun _ s' => stays s s') (fun _ s' => stays s s' /\ ~ exists p, pin = Some p /\ pinned fd p) s.
Proof.
  unfold api_pin. apply wp_bind. eapply wp_mono; [apply (fd_pin_wp Broker_service) | |].
  - intros now s1 [H1 Hp]. apply wp_check; [done |]. intros E. split; [done |]. intros (p & -> & Hd). apply Hp in Hd as ->.
    assert (ints_eqb p p = true) by (by apply ints_eqb_eq). congruence.
  - intros e s1 [H1 Hp]. split; [done |]. intros (p & -> & Hd). by eapply Hp.
Qed.

Lemma server_memfd_wp x (s : bstate) : an_api s.2.1 = Some x ->
  (sure = true -> forall fd, ap_memfd x = Some fd -> exists p, ap_memfd_pin x = Some p /\ pinned fd p) ->
  wp (attempt _close_memfd) (fun _ => retired x (held Descriptor (ap_memfd x)) (surely (held Descriptor (ap_memfd x))) s) (fun _ _ => False) s.
Proof.
  intros Hx Hs. apply wp_attempt. unfold _close_memfd, step, keep. apply wp_bind, wp_reads; [rewrite Hx; intros ? [= <-] | by rewrite Hx].
  apply wp_bind, wp_update. set (s0 := (s.1, (change_api _ s.2.1, s.2.2))). set (x0 := api_memfd None (ap_memfd_pin x) x).
  assert (an_api s0.2.1 = Some x0) as Hx0 by (cbn; by rewrite Hx).
  assert (forall all must s', retired x0 all must s0 s' -> retired x all must s s') as Hback by done.
  destruct (ap_memfd x) as [fd|] eqn:Em; cbn [held].
  2: { apply wp_ret, Hback. rewrite surely_nil. split; [done |]. exists x0. split; [done |]. split; [done | apply gave_nil]. }
  apply wp_bind, wp_attempt.
  match goal with |- wp ?m _ _ _ => assert (closes (Descriptor fd) m s0 s0) as H end.
  { apply (closes_look _ _ _ (exists p, ap_memfd_pin x = Some p /\ pinned fd p)); [intros H; by apply (Hs H) | apply api_pin_wp |].
    intros s1 H1. by apply (closes_now (Descriptor fd) (k_close fd)). }
  eapply wp_mono; [exact H | |]; intros ? s1 [[E1 E2] Hg]; apply wp_bind;
    (eapply wp_mono; [apply (keep_api_failure_wp x0 [Descriptor fd] (surely [Descriptor fd]) _ s0); [done.. | by eapply gave_weaken] | | done]);
    intros [] s2 H2; apply wp_lift; intros; by apply Hback.
Qed.

Lemma close_api_socket_wp x x1 (s : bstate) : an_api s.2.1 = Some x1 ->
  (sure = true -> forall n, ap_sock x = Some n ->
     exists fd pin, ap_socket_fd x = Some fd /\ ap_socket_pin x = Some pin /\ numbered n fd /\ pinned fd pin) ->
  wp (close_api_socket x) (fun _ => retired x1 (held Socket (ap_sock x)) (surely (held Socket (ap_sock x))) s) (fun _ _ => False) s.
Proof.
  intros Hx Hs. unfold close_api_socket. destruct (ap_sock x) as [n|]; cbn [held].
  2: { apply wp_ret. rewrite surely_nil. split; [done |]. exists x1. split; [done |]. split; [done | apply gave_nil]. }
  apply wp_bind, wp_attempt. set (P := exists fd pin, ap_socket_fd x = Some fd /\ ap_socket_pin x = Some pin /\ numbered n fd /\ pinned fd pin).
  assert (sure = true -> P) as HP by (intros H; by apply Hs).
  match goal with |- wp ?m _ _ _ => assert (closes (Socket n) m s s) as H end.
  { apply wp_bind. unfold owner. cbn [k_fileno audited]. unfold PeerLink.beyond at 1, aside at 1. apply wp_zoom, wp_zoom.
    assert (forall s1 : bstate, stays s s1 -> ~ P ->
      (s1.1 = s.1 /\ s1.2.1 = s.2.1) /\ gave [Socket n] (surely [Socket n]) False (rel s) (rel s1)) as Hnot.
    { intros s1 (E1 & E3 & E2) Hn. split; [done |]. rewrite E2, (surely_not _ _ HP Hn). by apply gave_none. }
    eapply wp_mono; [apply out_unseen | |].
    2: { intros e t [E (w & Hw)]. apply Hnot; [by apply stays_put |]. intros (fd & pin & _ & _ & Hn & _). specialize (Hn w). congruence. }
    intros d t [E (w & Hw)]. assert (stays s (s.1, (s.2.1, t))) as Ht by (by apply stays_put).
    apply wp_bind, wp_check.
    2: { intros En. apply Hnot; [done |]. intros (fd & pin & Efd & _ & Hn & _). rewrite Efd in En. apply Z.eqb_neq in En. specialize (Hn w). congruence. }
    intros En. destruct (ap_socket_fd x) as [fd|] eqn:Efd; [|done]. apply Z.eqb_eq in En as ->.
    apply wp_bind. eapply wp_mono; [apply api_pin_wp | |].
    - intros [] s2 H2. apply (closes_now (Socket n) (k_close_socket n) s).
      destruct Ht as (? & ? & ?), H2 as (? & ? & ?). unfold stays. cbn [fst snd] in *. repeat split; congruence.
    - intros e s2 [H2 Hn]. apply Hnot; [destruct Ht as (? & ? & ?), H2 as (? & ? & ?); unfold stays; cbn [fst snd] in *; repeat split; congruence |].
      intros (fd' & pin & [= <-] & Hp & _ & Hd). apply Hn. by exists pin. }
  eapply wp_mono; [exact H | |]; intros ? s1 [[E1 E2] Hg]; apply wp_bind;
    (eapply wp_mono; [apply (keep_api_failure_wp x1 [Socket n] (surely [Socket n]) _ s); [done.. | by eapply gave_weaken] | | done]); intros [] s2 H2.
  - by apply wp_ret.
  - apply wp_bind, wp_attempt. unfold owner. cbn [k_detach audited]. unfold PeerLink.beyond, aside. apply wp_zoom, wp_zoom.
    eapply wp_mono; [apply out_unseen | |]; intros ? s3 [E3 _]; apply wp_ret; unfold retired, rel in *; cbn [fst snd]; by rewrite E3.
Qed.

Lemma api_close_wp (s : bstate) x : an_api s.2.1 = Some x -> (sure = true -> api_steady s.2.1) ->
  wp api_close (fun _ s' => s'.1 = s.1 /\ gave (api_holds s.2.1) (surely (api_holds s.2.1)) True (rel s) (rel s'))
    (fun _ s' => s'.1 = s.1 /\ gave (api_holds s.2.1) (surely (api_holds s.2.1)) False (rel s) (rel s')) s.
Proof.
  intros Hx Hs. unfold api_close, step. apply wp_bind, wp_reads; [rewrite Hx; intros ? [= <-] | by rewrite Hx].
  assert (forall s1, retired x (api_holds s.2.1) (surely (api_holds s.2.1)) s s1 ->
    wp (x ← step an_api; match ap_cleanup x with Some e => throw e | None => mret tt end)
      (fun _ s' => s'.1 = s.1 /\ gave (api_holds s.2.1) (surely (api_holds s.2.1)) True (rel s) (rel s'))
      (fun _ s' => s'.1 = s.1 /\ gave (api_holds s.2.1) (surely (api_holds s.2.1)) False (rel s) (rel s')) s1) as Hend.
  { intros s1 (E & x1 & Hx1 & _ & Hg). apply wp_bind, wp_reads; [rewrite Hx1; intros ? [= <-] | by rewrite Hx1].
    destruct (ap_cleanup x1); [apply wp_throw | apply wp_ret]; (split; [done |]); by eapply gave_weaken. }
  apply wp_bind. unfold api_holds in *. rewrite Hx in Hend |- *. destruct (ap_closed x).
  { apply wp_ret, Hend. rewrite surely_nil. split; [done |]. exists x. split; [done |]. split; [done | apply gave_nil]. }
  unfold keep. apply wp_bind, wp_update. set (s0 := (s.1, (change_api _ s.2.1, s.2.2))).
  set (x0 := api_tls None (api_flags true (ap_failed x) false (ap_checking x) x)).
  assert (an_api s0.2.1 = Some x0) as Hx0 by (cbn; by rewrite Hx). apply wp_bind.
  eapply wp_mono; [apply (server_memfd_wp x0 s0 Hx0); intros H; exact (proj1 (Hs H x Hx)) | | done]. intros r s1 H1.
  apply wp_bind, wp_update. set (s2 := (s1.1, (change_api _ s1.2.1, s1.2.2))). pose proof H1 as (_ & x1 & Hx1 & _).
  set (x2 := api_socket None (ap_socket_fd x1) (ap_socket_pin x1) (ap_connected x1) x1).
  assert (an_api s2.2.1 = Some x2) as Hx2 by (cbn; by rewrite Hx1).
  eapply wp_mono; [apply (close_api_socket_wp x x2 s2 Hx2); intros H; exact (proj2 (Hs H x Hx)) | | done]. intros [] s3 H3. apply Hend.
  unfold surely in *. replace (if sure then _ else []) with
    ((if sure then held Descriptor (ap_memfd x) else []) ++ (if sure then held Socket (ap_sock x) else [])) by (by destruct sure).
  apply (retired_app x _ _ _ _ s s1); [exact H1 |]. intros x1' Hx1'. rewrite Hx1 in Hx1'. injection Hx1' as <-. exact H3.
Qed.

Lemma close_api_first_wp (s : bstate) : (sure = true -> api_steady s.2.1) ->
  wp close_api_first (fun _ => tidied (api_holds s.2.1) (surely (api_holds s.2.1)) s) (fun _ _ => False) s.
Proof.
  intros Hs. unfold close_api_first, kept. apply wp_bind, wp_reads; [intros o [= <-] | done].
  destruct (an_api s.2.1) as [x|] eqn:Hx.
  2: { apply wp_ret. unfold api_holds. rewrite Hx, surely_nil. apply tidied_none. }
  apply wp_bind, wp_attempt. eapply wp_mono; [by apply (api_close_wp s x) | |]; intros ? s1 [E Hg]; unfold keep; apply wp_bind, wp_update;
    (apply keep_failure_wp; [by right |]); by eapply gave_weaken.
Qed.

(** *** The server's own *)

(** A run of the server gives things back. *)
Definition gives (all must : list release) (m : ServerBase.run (W := W * releases) unit) : Prop :=
  forall s : srv, wp m (fun _ s' => gave all must True (released s) (released s')) (fun _ s' => gave all must False (released s) (released s')) s.

Lemma gives_now e (m : io W unit) : gives [e] [e] (out (released_by e m)).
Proof. intros s. eapply wp_mono; [apply out_release | |]; intros ? s1 E; rewrite E; by apply gave_one. Qed.

Lemma gives_nothing : gives [] [] (mret tt).
Proof. intros s. apply wp_ret, gave_nil. Qed.

Lemma broker_gives (b : link * steps) : (sure = true -> link_steady b.1 /\ api_steady b.2) ->
  gives (link_holds Broker_service (api_holds b.2) b.1) (link_must Broker_service (surely (api_holds b.2)) b.1) (closing_link b.1 b.2 broker_close).
Proof.
  intros Hs s. assert (wp broker_close
    (fun _ s' => gave (link_holds Broker_service (api_holds b.2) b.1) (link_must Broker_service (surely (api_holds b.2)) b.1) True (released s) (rel s'))
    (fun _ s' => gave (link_holds Broker_service (api_holds b.2) b.1) (link_must Broker_service (surely (api_holds b.2)) b.1) False (released s) (rel s'))
    (b.1, (b.2, s))) as H.
  { apply (close_link_wp Broker_service close_api_first _ _ (b.1, (b.2, s))); [intros H; by apply (Hs H) |].
    intros s0 E. replace b.2 with s0.2.1 by (by rewrite E). apply close_api_first_wp. intros H. rewrite E. by apply (Hs H). }
  revert H. unfold closing_link, wp. by destruct (broker_close (b.1, (b.2, s))) as [[|] ?].
Qed.

Lemma observer_gives (o : link * past) : (sure = true -> link_steady o.1) ->
  gives (link_holds Observer_service [] o.1) (link_must Observer_service [] o.1) (closing_link o.1 o.2 observer_close).
Proof.
  intros Hs s. assert (wp observer_close
    (fun _ s' => gave (link_holds Observer_service [] o.1) (link_must Observer_service [] o.1) True (released s) (rel s'))
    (fun _ s' => gave (link_holds Observer_service [] o.1) (link_must Observer_service [] o.1) False (released s) (rel s'))
    (o.1, (o.2, s))) as H.
  { apply (close_link_wp Observer_service (mret tt) [] [] (o.1, (o.2, s))); [done |]. intros s0 _. apply wp_ret, tidied_none. }
  revert H. unfold closing_link, wp. by destruct (observer_close (o.1, (o.2, s))) as [[|] ?].
Qed.

(** *** One after the other *)

Section folds.
Context {S B : Type} (view : S -> releases) (m : B -> io S unit).

Definition given (l : list B) (all must : list release) : Prop := forall failure s,
  wp (io_fold (fun failure x => r ← attempt (m x); mret (first_failure failure r)) failure l)
    (fun f s' => gave all must (f = None) (view s) (view s') /\ (f = None -> failure = None)) (fun _ _ => False) s.

Lemma given_nil : given [] [] [].
Proof. intros failure s. apply wp_ret. split; [apply gave_nil | done]. Qed.

Lemma given_cons x l a1 a2 m1 m2 :
  (forall s, wp (m x) (fun _ s' => gave a1 m1 True (view s) (view s')) (fun _ s' => gave a1 m1 False (view s) (view s')) s) ->
  given l a2 m2 -> given (x :: l) (a1 ++ a2) (m1 ++ m2).
Proof.
  intros Hx Hl failure s. cbn [io_fold]. apply wp_bind, wp_bind, wp_attempt.
  eapply wp_mono; [apply Hx | |]; intros ? s1 H1; apply wp_ret; (eapply wp_mono; [apply Hl | | done]); intros f s2 [H2 Hf].
  - split; [|intros H; by destruct failure; [specialize (Hf H) |]]. eapply gave_app; [exact H1 | exact H2 | done].
  - assert (f <> None) as Hn by (intros H; specialize (Hf H); by destruct failure). split; [|done].
    eapply gave_app; [exact H1 | exact H2 | done].
Qed.

Lemma given_app l k a1 a2 m1 m2 : given l a1 m1 -> given k a2 m2 -> given (l ++ k) (a1 ++ a2) (m1 ++ m2).
Proof.
  intros H1 H2 failure s. assert (forall failure s Q E, wp (io_fold (fun failure x => r ← attempt (m x); mret (first_failure failure r)) failure l)
    (fun f s' => wp (io_fold (fun failure x => r ← attempt (m x); mret (first_failure failure r)) f k) Q E s') E s ->
    wp (io_fold (fun failure x => r ← attempt (m x); mret (first_failure failure r)) failure (l ++ k)) Q E s) as Happ.
  { clear. induction l as [|x l IH]; intros f s Q E; cbn [io_fold app]; [done |]. unfold wp, mbind, io_bind, attempt.
    destruct (m x s) as [r s1]. cbn. apply (IH (first_failure f r) s1 Q E). }
  apply Happ. eapply wp_mono; [apply H1 | | done]. intros f s1 [G1 F1]. eapply wp_mono; [apply H2 | | done]. intros f' s2 [G2 F2].
  split; [|auto]. eapply gave_app; [exact G1 | exact G2 |]. auto.
Qed.
End folds.

(** *** The store and the files *)

Lemma close_file_wp f (s : store * srv) :
  (sure = true -> store_steady s.1) ->
  wp (close_file f)
    (fun _ s' => s'.1 = with_fd f None s.1 /\
       gave (held Descriptor (fd_of f s.1)) (surely (held Descriptor (fd_of f s.1))) True (released s.2) (released s'.2))
    (fun _ s' => s'.1 = with_fd f None s.1 /\
       gave (held Descriptor (fd_of f s.1)) (surely (held Descriptor (fd_of f s.1))) False (released s.2) (released s'.2)) s.
Proof.
  intros Hs. unfold close_file, Store.see, Store.change. apply wp_bind, wp_reads; [intros o [= <-] | done]. apply wp_bind, wp_update.
  destruct (fd_of f s.1) as [fd|] eqn:Ef; cbn [held].
  2: { apply wp_ret. split; [done |]. rewrite surely_nil. apply gave_nil. }
  apply wp_bind, wp_reads; [intros o [= <-] | done]. cbn [fst snd].
  assert (Store.identity_of f (with_fd f None s.1) = Store.identity_of f s.1) as -> by (by destruct f).
  assert (forall t : srv, released t = released s.2 ->
    wp (Store.beyond (s_close fd))
      (fun _ s' => s'.1 = with_fd f None s.1 /\ gave [Descriptor fd] (surely [Descriptor fd]) True (released s.2) (released s'.2))
      (fun _ s' => s'.1 = with_fd f None s.1 /\ gave [Descriptor fd] (surely [Descriptor fd]) False (released s.2) (released s'.2))
      (with_fd f None s.1, t)) as Hclose.
  { intros t E. cbn [s_close server_store k_close audited]. unfold Store.beyond. apply wp_zoom.
    eapply wp_mono; [apply out_release | |]; intros ? t' E'; cbn [fst snd] in *; (split; [done |]); rewrite E', E; apply gave_one;
      (apply surely_sub || done). }
  apply wp_bind. destruct (Store.identity_of f s.1) as [i|] eqn:Ei; [|by apply wp_ret, Hclose].
  apply wp_bind. cbn [s_fstat server_store k_fstat audited]. unfold Store.beyond at 1. apply wp_zoom.
  assert (forall t : srv, released t = released s.2 -> ~ (forall w : W, exists info, (k_fstat fd w).1 = Ok info /\ lasting info = i) ->
    with_fd f None s.1 = with_fd f None s.1 /\ gave [Descriptor fd] (surely [Descriptor fd]) False (released s.2) (released t)) as Hnot.
  { intros t E Hn. split; [done |]. rewrite E, (surely_not _ _ (fun H => Hs H f fd i Ef Ei) Hn). by apply gave_none. }
  eapply wp_mono; [apply out_unseen | |].
  - intros info t [E (w & Hw)]. apply wp_check; [intros _; by apply Hclose |]. intros Hi. apply Hnot; [done |].
    intros H. destruct (H w) as (info' & Hw' & <-). rewrite Hw in Hw'. injection Hw' as ->.
    assert (ints_eqb (lasting info') (lasting info') = true) by (by apply ints_eqb_eq). congruence.
  - intros e t [E (w & Hw)]. apply Hnot; [done |]. intros H. destruct (H w) as (info' & Hw' & _). congruence.
Qed.

Lemma store_gives (t : store) : (sure = true -> store_steady t) ->
  gives (store_holds t) (surely (held Descriptor (journal_fd t)) ++ surely (held Descriptor (lock_fd t))) (closing t close_store).
Proof.
  intros Hs s.
  assert (wp close_store
    (fun _ s' => gave (store_holds t) (surely (held Descriptor (journal_fd t)) ++ surely (held Descriptor (lock_fd t))) True (released s) (released s'.2))
    (fun _ s' => gave (store_holds t) (surely (held Descriptor (journal_fd t)) ++ surely (held Descriptor (lock_fd t))) False (released s) (released s'.2))
    (t, s)) as H; [|revert H; unfold closing, wp; by destruct (close_store (t, s)) as [[|] ?]].
  unfold close_store. apply wp_bind. cbn [io_fold].
  assert (forall s1 : store * srv, s1.1 = with_fd Journal_file None t -> wp (close_file Lock_file)
    (fun _ s' => gave (held Descriptor (lock_fd t)) (surely (held Descriptor (lock_fd t))) True (released s1.2) (released s'.2))
    (fun _ s' => gave (held Descriptor (lock_fd t)) (surely (held Descriptor (lock_fd t))) False (released s1.2) (released s'.2)) s1) as Hlock.
  { intros s1 E. eapply wp_mono; [apply (close_file_wp Lock_file s1) | |].
    - intros H. rewrite E. intros [] fd i Hf Hi; [by apply (Hs H Lock_file) | done].
    - intros _ s2 [_ H]. by rewrite E in H.
    - intros _ s2 [_ H]. by rewrite E in H. }
  apply wp_bind, wp_bind, wp_attempt. eapply wp_mono; [by apply (close_file_wp Journal_file (t, s)) | |]; intros ? s1 [E1 G1]; apply wp_ret;
    apply wp_bind, wp_bind, wp_attempt; (eapply wp_mono; [by apply Hlock | |]); intros ? s2 G2; apply wp_ret, wp_ret; cbn [first_failure];
    lazymatch goal with |- wp (throw _) _ _ _ => apply wp_throw | _ => apply wp_ret end; (eapply gave_app; [exact G1 | exact G2 | done]).
Qed.

Lemma files_give (f : files) : (sure = true -> files_steady f) -> gives (files_hold f) (surely (files_hold f)) (closing f Files.close).
Proof.
  intros Hs s.
  assert (wp Files.close (fun _ s' => gave (files_hold f) (surely (files_hold f)) True (released s) (released s'.2))
    (fun _ s' => gave (files_hold f) (surely (files_hold f)) False (released s) (released s'.2)) (f, s)) as H;
    [|revert H; unfold closing, wp; by destruct (Files.close (f, s)) as [[|] ?]].
  unfold Files.close, Files.see, Files.change, files_hold. apply wp_bind, wp_reads; [intros c [= <-] | done]. cbn [fst].
  destruct (Files.closed f).
  - apply wp_bind, wp_reads; [intros o [= <-] | done]. rewrite surely_nil. destruct (Files.cleanup_failure _); [apply wp_throw | apply wp_ret];
      apply gave_nil.
  - apply wp_bind, wp_reads; [intros o [= <-] | done]. apply wp_bind, wp_update. apply wp_bind. cbn [fst snd].
    assert (given (fun x : files * srv => released x.2) Files.close_row (rev (map snd (Files.rows f)))
      (map (fun r => Descriptor (Files.fd r.2)) (rev (Files.rows f))) (surely (map (fun r => Descriptor (Files.fd r.2)) (rev (Files.rows f))))) as H.
    2: { eapply wp_mono; [apply H | | done]. intros [e|] s1 [G _]; [apply wp_bind, wp_update, wp_throw | apply wp_ret]; by eapply gave_weaken. }
    rewrite <- map_rev. assert (forall r, In r (rev (Files.rows f)) -> In r (Files.rows f)) as Hin by (intros r; by rewrite <- in_rev).
    revert Hin. induction (rev (Files.rows f)) as [|r l IH]; intros Hin; [cbn [map]; rewrite surely_nil; apply given_nil |]. cbn [map].
    replace (surely (Descriptor (Files.fd r.2) :: map (fun r => Descriptor (Files.fd r.2)) l)) with
      (surely [Descriptor (Files.fd r.2)] ++ surely (map (fun r => Descriptor (Files.fd r.2)) l)) by (unfold surely; by destruct sure).
    apply (given_cons _ _ _ _ [Descriptor (Files.fd r.2)]); [|by apply IH; intros; apply Hin; right]. intros s1.
    assert (sure = true -> forall i, Files.identity r.2 = Some i -> forall w : W, exists info, (k_fstat (Files.fd r.2) w).1 = Ok info /\
      [st_dev info; st_ino info; S_IFMT (st_mode info)] = [device_of i; nth 1 i 0; S_IFMT (mode_of i)]) as Hrow.
    { intros H i Hi. apply (Hs H r.1 r.2 i); [|done]. rewrite <- surjective_pairing. apply Hin. by left. }
    unfold Files.close_row.
    assert (forall s2 : files * srv, released s2.2 = released s1.2 -> wp (Files.beyond (f_close (Files.fd r.2)))
      (fun _ s' => gave [Descriptor (Files.fd r.2)] (surely [Descriptor (Files.fd r.2)]) True (released s1.2) (released s'.2))
      (fun _ s' => gave [Descriptor (Files.fd r.2)] (surely [Descriptor (Files.fd r.2)]) False (released s1.2) (released s'.2)) s2) as Hclose.
    { intros s2 E. cbn [f_close server_files k_close audited]. unfold Files.beyond. apply wp_zoom.
      eapply wp_mono; [apply out_release | |]; intros ? t' E'; cbn [fst snd] in *; rewrite E', E; apply gave_one; (apply surely_sub || done). }
    apply wp_bind. destruct (Files.identity r.2) as [i|] eqn:Ei; [|by apply wp_ret, Hclose].
    apply wp_bind. cbn [f_fstat server_files k_fstat audited]. unfold Files.beyond at 1. apply wp_zoom.
    eapply wp_mono; [apply out_unseen | |].
    + intros info t [E (w & Hw)]. apply wp_check; [intros _; by apply Hclose |]. intros Hi. cbn [snd]. rewrite E.
      rewrite (surely_not _ _ (fun H => Hrow H i eq_refl)); [by apply gave_none |]. intros H. destruct (H w) as (info' & Hw' & Ep).
      rewrite Hw in Hw'. injection Hw' as ->. rewrite Ep in Hi. apply not_true_iff_false in Hi. apply Hi. by apply ints_eqb_eq.
    + intros e t [E (w & Hw)]. cbn [snd]. rewrite E. rewrite (surely_not _ _ (fun H => Hrow H i eq_refl)); [by apply gave_none |].
      intros H. destruct (H w) as (info' & Hw' & _). congruence.
Qed.

(** *** Everything *)

Definition must_give (s : srv) : list release :=
  match srv_broker s with Some b => link_must Broker_service (surely (api_holds b.2)) b.1 | None => [] end ++
  held Socket (connection (srv_serving s)) ++ held Socket (listener (srv_serving s)) ++
  match srv_observer s with Some o => link_must Observer_service [] o.1 | None => [] end ++
  match srv_store s with Some t => surely (held Descriptor (journal_fd t)) ++ surely (held Descriptor (lock_fd t)) | None => [] end ++
  (if srv_inspecting s then [Own_inspection] else []) ++
  surely (files_hold (srv_secrets s)) ++ surely (files_hold (srv_files s)) ++
  held Descriptor (memfd (srv_serving s)).

Definition runs_all (ms : list (ServerBase.run (W := W * releases) unit)) (all must : list release) : Prop :=
  given released (fun m => m) ms all must.

Lemma runs_one m all must : gives all must m -> runs_all [m] all must.
Proof. intros H. rewrite <- (app_nil_r all), <- (app_nil_r must). apply given_cons; [exact H | apply given_nil]. Qed.

Lemma runs_held {A} (o : option A) (f : A -> ServerBase.run unit) (all must : A -> list release) :
  (forall x, o = Some x -> gives (all x) (must x) (f x)) ->
  runs_all (if_held o f) (match o with Some x => all x | None => [] end) (match o with Some x => must x | None => [] end).
Proof. destruct o; cbn; intros H; [apply runs_one; by apply H | apply given_nil]. Qed.

Lemma closings_give (s : srv) : (sure = true -> undisturbed s) -> runs_all (closings s) (holdings s) (must_give s).
Proof.
  intros Hs. unfold closings, holdings, must_give.
  apply given_app; [apply runs_held; intros b Hb; apply broker_gives; intros H; by apply (Hs H) |].
  apply given_app; [apply (runs_held _ _ (fun c => [Socket c]) (fun c => [Socket c])); intros c _; apply gives_now |].
  apply given_app; [apply (runs_held _ _ (fun c => [Socket c]) (fun c => [Socket c])); intros c _; apply gives_now |].
  apply given_app; [apply runs_held; intros o Ho; apply observer_gives; intros H; by apply (Hs H) |].
  apply given_app; [apply runs_held; intros t Ht; apply store_gives; intros H; by apply (Hs H) |].
  apply given_app.
  { destruct (srv_inspecting s); [|apply given_nil]. apply runs_one. apply (gives_now Own_inspection inspect_self_close). }
  match goal with |- given _ _ _ ?a ?b => rewrite <- (app_nil_l a), <- (app_nil_l b) end.
  apply given_app.
  { replace [] with (match srv_qualification s with Some _ => [] | None => [] end : list release) by (by destruct (srv_qualification s)).
    apply (runs_held _ _ (fun _ => []) (fun _ => [])). intros q _. apply gives_nothing. }
  rewrite !(app_assoc (files_hold (srv_secrets s))), !(app_assoc (surely (files_hold (srv_secrets s)))).
  apply given_app; [|apply (runs_held _ _ (fun fd => [Descriptor fd]) (fun fd => [Descriptor fd])); intros fd _; apply gives_now].
  apply (given_cons _ _ (closing (srv_secrets s) Files.close) [closing (srv_files s) Files.close]).
  - apply files_give. intros H. by apply (Hs H).
  - apply runs_one, files_give. intros H. by apply (Hs H).
Qed.

Lemma close_gives (s : srv) : (sure = true -> undisturbed s) -> srv_closed s = false ->
  wp close_server (fun _ s' => gave (holdings s) (must_give s) True (released s) (released s'))
    (fun _ s' => gave (holdings s) (must_give s) False (released s) (released s')) s.
Proof.
  intros Hs Hc. unfold close_server. apply wp_bind, wp_reads; [rewrite Hc; intros ? [= <-] | done].
  apply wp_bind, wp_reads; [intros ms [= <-] | done]. apply wp_bind, wp_update, wp_bind.
  eapply wp_mono; [apply (closings_give s Hs) | | done]. intros f s1 [G _]. apply wp_bind, wp_update.
  destruct f; [apply wp_throw | apply wp_ret]; by eapply gave_weaken.
Qed.
End releasing.

Section all_closed.
Context {U : Unicode} {Sg : SigScheme} {W : Type} {Si : Site W}.
#[local] Existing Instance audited.
#[local] Notation srv := (server (W * releases)).

Lemma must_all (s : srv) : must_give true s = holdings s.
Proof.
  unfold must_give, holdings, link_must, link_holds, ends_must, store_holds, surely.
  by destruct (srv_broker s), (srv_observer s), (srv_store s).
Qed.

Lemma must_some (s : srv) : must_give false s = outright s.
Proof.
  unfold must_give, outright, link_must, link_outright, ends_must, surely.
  destruct (srv_broker s) as [b|], (srv_observer s) as [o|], (srv_store s); cbn [app];
    repeat match goal with |- context [PeerLink.closed ?l] => destruct (PeerLink.closed l) end; cbn [negb andb app]; rewrite ?app_nil_r; done.
Qed.

End all_closed.
