(* ===== verification/ObserverRuns.v ===== *)
(** The runs of the observer connection: whatever its owner calls and however the observer answers, the
    observations that are kept are one chain, each validated against the one before. *)

From stdpp Require Import relations.
From S2P Require Import Prelude Effects PyVal Utf8 Json Sha2 Canonical Base64 IsoTime Regex Text Posix.
From S2P Require Import SchemaBase Lifecycle LinuxShape Live LinuxVerify Session ProxyDocument MutationAdmission Observation Der Boundary Custody.
From S2P Require Import Files Store PeerLink Observer TlsCodec PartKeeps ServerKeeps.

#[local] Open Scope string_scope.
#[local] Open Scope list_scope.
#[local] Open Scope Z_scope.

Section runs.
Context {U : Unicode} {W : Type} {Si : ObserverSite W}.
#[local] Notation state := (link * (past * W))%type.
#[local] Notation watching := (watching (W := W)).

#[local] Instance anyhow_link : LinkKept (Si := observer_link) (anyhow (X := W)).
Proof. by split. Qed.

(** The octets [raw] are those of an observation in its place after the one that was kept. *)
Definition next_observation (kept : option bytes) (raw : bytes) : Prop :=
  exists prior obs, canonical_bytes obs = Ok raw /\ in_place (Value prior) obs /\
    match kept with None => prior = VNone | Some b => document (Raw b) 65536 = Ok prior end.
Definition chain_step (kept kept' : option bytes) : Prop := exists raw, kept' = Some raw /\ next_observation kept raw.
Definition chained : relation past := fun p p' => rtc chain_step (previous_raw p) (previous_raw p').

#[local] Instance chained_preorder : PreOrder chained.
Proof. split; [intros p; apply rtc_refl | intros p1 p2 p3; unfold chained; intros H1 H2; by etransitivity]. Qed.

#[local] Notation same := (along (paired (eq (A := past)) (anyhow (X := W)))).
#[local] Notation chains := (along (paired chained (anyhow (X := W)))).

Lemma same_chains s s' : same s s' -> chains s s'.
Proof. intros (H & E & _). split; [done |]. split; [|done]. unfold chained. by rewrite E. Qed.

(** What is read of the kept observation. *)
Lemma last_observation_of (s : state) before s' : last_observation s = (Ok before, s') ->
  s' = s /\ match previous_raw s.2.1 with None => before = None | Some b => exists v, before = Some v /\ document (Raw b) 65536 = Ok v end.
Proof.
  unfold last_observation, recall, document_of. intros (p & s1 & [= <- <-] & H)%io_bind_Ok. cbn [id] in H.
  apply io_bind_Ok in H as (b & s2 & [_ ->]%lift_Ok & H). apply io_bind_Ok in H as ([] & s3 & [_ ->]%check_Ok & H).
  destruct (previous_raw s.2.1) as [raw|].
  - apply io_bind_Ok in H as (v & s4 & [Hd ->]%lift_Ok & [= <- <-]). split; [done |]. by exists v.
  - by injection H as <- <-.
Qed.

(** Calls that leave the kept observation alone. *)
Lemma observer_peer_same : keeps same (observer_peer (W := W)).
Proof. unfold observer_peer. walk. Qed.
Lemma exchange_same encoded : keeps same (Observer.exchange (W := W) encoded).
Proof. unfold Observer.exchange, observer_wait, observer_peer. walk. Qed.
Lemma request_same before : keeps same (observation_request (W := W) before).
Proof. unfold observation_request, observer_io, owned. walk. Qed.

(** The kept observation is [p] until it is replaced by one that continues its chain. *)
Definition continues {A} (p : past) (m : watching A) (s : state) : Prop :=
  wp m (fun _ s' => chained p s'.2.1) (fun _ s' => chained p s'.2.1) s.

Lemma continues_same {A B} (m : watching A) (f : A -> watching B) p (s : state) :
  s.2.1 = p -> keeps same m -> (forall a s', s'.2.1 = p -> continues p (f a) s') -> continues p (m ≫= f) s.
Proof.
  intros E K H. apply wp_bind. eapply wp_mono; [apply wp_keeps, K | intros a s' (_ & E' & _) | intros e s' (_ & E' & _)]; cbn in *.
  - apply H. congruence.
  - rewrite <- E', E. reflexivity.
Qed.
Lemma continues_lift {A B} (r : res A) (f : A -> watching B) p (s : state) :
  s.2.1 = p -> (forall a, r = Ok a -> continues p (f a) s) -> continues p (lift r ≫= f) s.
Proof. intros E H. apply wp_bind, wp_lift; [done |]. intros e _. rewrite E. reflexivity. Qed.

#[local] Instance past_preorder : PreOrder (paired (eq (A := past)) (anyhow (X := W))) := _.

(** What [observe] does in its phase. *)
Lemma observed_body_continues (s : state) :
  let body :=
    observer_peer ;;
    before ← last_observation;
    request ← observation_request before;
    encoded ← lift (canonical_bytes request);
    raw ← Observer.exchange encoded;
    binding ← owned (fun w => Ok (observation_binding w));
    profile ← owned (fun w => Ok (profile w));
    now ← utc_instant;
    observed ← lift (validate_messages (Value binding) (Value request) (Raw raw) (Value profile) (VStr (strftime_utc now))
                       (Value (default VNone before)));
    observer_guard ;;
    kept ← lift (canonical_bytes observed);
    p ← recall id;
    remember {| previous := previous p; previous_raw := Some kept |} ;;
    document ← document_of kept 65536;
    remember {| previous := Some document; previous_raw := Some kept |} ;;
    document_of kept 65536 in
  continues s.2.1 body s.
Proof.
  intros body. unfold body. set (p := s.2.1). apply continues_same; [done | apply observer_peer_same | intros _ s1 E1].
  apply wp_bind. destruct (last_observation s1) as [[before|e] s2] eqn:Hl; unfold wp at 1; rewrite Hl.
  2: { assert (keeps eq (last_observation (W := W))) as K by (unfold last_observation, recall, document_of; walk).
       specialize (K s1). rewrite Hl in K. cbn in K. rewrite <- K, E1. reflexivity. }
  apply last_observation_of in Hl as [-> Hb]. rewrite E1 in Hb.
  apply continues_same; [done | apply request_same | intros request s3 E3]. apply continues_lift; [done | intros encoded _].
  apply continues_same; [done | apply exchange_same | intros raw s4 E4].
  do 3 (apply continues_same; [done | unfold owned; walk | intros ? ? ?]). apply continues_lift; [done | intros observed Hobs].
  apply continues_same; [done | unfold observer_guard; walk | intros [] s5 E5]. apply continues_lift; [done | intros octets Hoctets].
  apply validated_in_place in Hobs. assert (chain_step (previous_raw p) (Some octets)) as Hstep.
  { exists octets. split; [done |]. exists (default VNone before), observed. do 2 (split; [done |]).
    destruct (previous_raw p); [|by subst]. destruct Hb as (v & -> & Hv). done. }
  apply rtc_once in Hstep. apply wp_bind, wp_reads; [|done]. intros q [= <-]. apply wp_bind, wp_update.
  apply wp_bind, wp_lift; [intros v _ | by intros e _]. apply wp_bind, wp_update. by apply wp_lift.
Qed.

Lemma observe_chains : keeps chains (observe (W := W)).
Proof.
  unfold observe, observer_phase. apply phase_kept; [typeclasses eauto.. |]. apply keeps_wp. intros s.
  assert (forall p, keeps (along (paired anyhow anyhow)) (remember (W := W) p)) as Hr by (intros p; apply keeps_update; intros t; by repeat split).
  eapply wp_mono; [apply wp_and; [apply (wp_keeps (along (paired anyhow anyhow))) | apply observed_body_continues] | |].
  - unfold last_observation, observation_request, Observer.exchange.
    unfold observer_phase, observer_peer, observer_guard, observer_wait, observer_io, owned, recall, document_of. walk; auto.
  - intros v s' [(H1 & _) H2]. by repeat split; try apply H1.
  - intros v s' [(H1 & _) H2]. by repeat split; try apply H1.
Qed.

(** ** Every call *)

(** The calls of an observer connection; in between the owner works on its own. *)
Inductive observer_event := Connect | Check_observer | Observe | Close_observer | Elsewhere (f : W -> W).

Definition observer_next (s : state) (e : observer_event) : state :=
  match e with
  | Connect => (observer_establish s).2
  | Check_observer => (observer_check s).2
  | Observe => (observe s).2
  | Close_observer => (observer_close s).2
  | Elsewhere f => (s.1, (s.2.1, f s.2.2))
  end.

Lemma observer_next_chained s e : chained s.2.1 (observer_next s e).2.1.
Proof.
  assert (forall A (m : watching A), keeps chains m -> chained s.2.1 (m s).2.2.1) as H by (intros A m K; by destruct (K s) as (_ & H & _)).
  destruct e; cbn [observer_next]; [apply H | apply H | apply H, observe_chains | apply H | reflexivity];
    unfold observer_establish, observer_check, observer_close, observer_phase, observer_connect, observer_peer, close_quietly; walk.
Qed.

(** C15: The observations that a run keeps are one chain.  Whatever is called of an observer connection,
    in whatever order, and however the observer, the kernel and the clock answer, the observation that is
    kept is the end of a chain that begins with the first of its run: every next one was accepted against
    the octets kept before it, so it carries the next number and their digest, of the same generation and
    boot, and no earlier time; and what was kept is replaced in no other way. *)
Theorem observations_chained (events : list observer_event) (deadline mono : Z) (w : W) :
  let '(l, p) := new_observer deadline mono in
  rtc chain_step None (previous_raw (foldl observer_next (l, (p, w)) events).2.1).
Proof.
  cbn [new_observer]. set (s := (_, (_, w)) : state). change (chained s.2.1 (foldl observer_next s events).2.1).
  generalize s. induction events as [|e events IH]; intros t; [apply rtc_refl |]. cbn [foldl]. 
  transitivity (observer_next t e).2.1; [apply observer_next_chained | apply IH].
Qed.
End runs.
