(* ===== verification/Samples.v ===== *)
(** Concrete documents: a campaign run to its evidence and candidate, the Linux inventory, a
    Linux record, and the theorems of the campaign side applied to them. *)

From S2P Require Import Prelude PyVal Utf8 Json Sha2 Canonical Base64 Ed25519 IsoTime Regex.
From S2P Require Import SchemaBase Lifecycle LinuxShape Schema Campaign Evidence.

#[local] Open Scope string_scope.
#[local] Open Scope list_scope.
#[local] Open Scope Z_scope.

(** ** Concrete parameters *)

#[local] Existing Instance ascii_nfc.

(** [str(v)] on the values the runner formats, which are texts. *)
#[local] Instance text_format : PyFormat := fun v => match v with VStr s => s | _ => [] end.

(** A scheme that is correct by construction: the key is a hash of the seed, a signature the
    hash of key and message. *)
Definition mac (pk m : bytes) : bytes := sha512 (pk ++ m).
Definition mac_key (seed : bytes) : bytes := take 32 (sha512 seed).
#[local] Instance mac_scheme : SigScheme := {|
  sig_public_key seed := if Nat.eqb (length seed) 32 then Ok (mac_key seed) else conf "INVALID_PRIVATE_KEY";
  sig_sign seed m := if Nat.eqb (length seed) 32 then Ok (mac (mac_key seed) m) else conf "INVALID_PRIVATE_KEY";
  sig_verify pk m sg := Ok (str_eqb (mac pk m) sg)
|}.

Definition get_ok {A} (dflt : A) (m : res A) : A := match m with Ok a => a | Raise _ => dflt end.

Lemma get_ok_eq {A} (dflt : A) m : is_ok m = true -> m = Ok (get_ok dflt m).
Proof. by destruct m. Qed.

(** ** A campaign *)

Definition obj_of (fields : list (string * value)) : value := VDict (map (fun kv => (u kv.1, kv.2)) fields).
Definition s_ (x : string) : value := VStr (u x).

Definition a_control (id handler : string) (required : bool) (axis : string) (input : value) : value :=
  obj_of [("controlId", s_ id); ("handler", s_ handler); ("required", VBool required);
          ("axis", s_ axis); ("input", input)].

Definition a_campaign (id class : string) (controls : value) : value :=
  obj_of [("schemaVersion", s_ "harness.planeon.ai/conformance-campaign/v1alpha1");
          ("campaignId", s_ id); ("version", s_ "1.0.0"); ("description", s_ "sample");
          ("executionClass", s_ class); ("environmentFixture", s_ "fixtures/env.json");
          ("controls", controls)].

Definition environment : value :=
  obj_of [("schemaVersion", s_ "harness.planeon.ai/environment-intake/v1alpha1");
          ("environmentId", s_ "lab"); ("tenantId", s_ "tenant-a"); ("capturedAt", s_ "2024-05-01T00:00:00Z");
          ("capabilities", VDict [(u "seccomp", VBool true); (u "kvm", VNone)])].

Definition offline : value :=
  a_campaign "sample" "OFFLINE_TEST" (VList
    [a_control "lifecycle.ready" "LIFECYCLE_ASSERTION" true "UNIT"
       (obj_of [("entity", s_ "Operation"); ("fromState", s_ "RUNNING"); ("toState", s_ "SUCCEEDED")]);
     a_control "kvm" "ENVIRONMENT_CAPABILITY" false "UNIT"
       (obj_of [("capability", s_ "kvm"); ("expected", VBool true)])]).

Definition linux : value := a_campaign "linux-baseline" "LIVE_CAMPAIGN" expected_controls.

Definition run_at : str := u "2024-05-01T12:00:00Z".
Definition run (campaign : value) : value :=
  get_ok VNone (run_campaign campaign environment (u "run-1") run_at).

Lemma campaign_no_escalation_witness :
  exists cs ec, fld offline "controls" = Ok (VList cs) /\ 1 <= zlen cs <= 512 /\
    NoDup (map control_id_of cs) /\ fld offline "executionClass" = Ok (VStr (u ec)).
Proof.
  destruct (campaign_no_escalation (U := ascii_nfc) offline offline) as (_ & cs & ec & H1 & H2 & H3 & H4 & _);
    [by vm_compute | exists cs, ec; auto].
Defined.

Lemma offline_runs : run_campaign offline environment (u "run-1") run_at = Ok (run offline).
Proof. apply get_ok_eq. by vm_compute. Qed.

Lemma report_faithful_witness :
  exists rs, fld (run offline) "results" = Ok (VList (map as_dict rs)) /\
    fld (run offline) "status" = Ok (VStr (u (status_value (Campaign._overall rs)))).
Proof.
  destruct (report_faithful offline environment (u "run-1") run_at (run offline) offline_runs)
    as (cs & rs & fields & h & _ & _ & _ & H1 & _ & H2 & _).
  exists rs. auto.
Defined.

Lemma linux_campaign_never_passes_witness :
  fld (run linux) "status" = Ok (s_ "FAIL") \/
  fld (run linux) "status" = Ok (s_ "NOT_RUN_ENV_UNAVAILABLE").
Proof.
  eapply (linux_campaign_never_passes linux environment (u "run-1") run_at (run linux));
    [apply get_ok_eq; by vm_compute | reflexivity | by left | reflexivity].
Defined.

(** ** A Linux record *)

Definition d0 : value := VStr (u "sha256:" ++ repeat 48%N 64).
Definition all (fields : list string) (v : value) : value := VDict (map (fun k => (u k, v)) fields).

Definition probe_output (checks : list string) (status : string) : value :=
  obj_of [("checks", all checks (s_ status)); ("regressions", VDict [])].

(** A case of the inventory whose checks all have the same status. *)
Definition a_case (name : string) (checks : list string) (status : string) : value :=
  let output := probe_output checks status in
  obj_of [("caseId", s_ name); ("status", s_ status); ("observedAt", s_ "2024-05-01T11:00:00Z");
          ("runNonce", s_ "nonce-1"); ("probeDigest", d0); ("commandDigest", d0);
          ("outputDigest", VStr (get_ok [] (canonical_digest output (Some "planeon.linux-probe-output/v1alpha1"))));
          ("output", output)].

Definition regression_output : value :=
  obj_of [("checks", all (default [] (snd <$> CASE_CHECKS !! 2%nat)) (s_ "PASS"));
          ("regressions", all REPOSITORIES
             (obj_of [("inventoryDigest", d0); ("collected", VInt 90); ("executed", VInt 90);
                      ("skipped", VInt 0); ("failed", VInt 0)]))].

Definition regression_case : value :=
  obj_of [("caseId", s_ "FULL_PREDECESSOR_REGRESSION"); ("status", s_ "PASS");
          ("observedAt", s_ "2024-05-01T11:00:00Z"); ("runNonce", s_ "nonce-1");
          ("probeDigest", d0); ("commandDigest", d0);
          ("outputDigest", VStr (get_ok [] (canonical_digest regression_output (Some "planeon.linux-probe-output/v1alpha1"))));
          ("output", regression_output)].

Definition case_for (e : string * list string) : value :=
  if String.eqb e.1 "FULL_PREDECESSOR_REGRESSION" then regression_case
  else a_case e.1 e.2 (if String.eqb e.1 "KUBERNETES_SMOKE" then "NOT_RUN_ENV_UNAVAILABLE" else "PASS").

Definition signature_text : value := VStr (b64url_encode (repeat 0%N 64)).

Definition record : value :=
  obj_of [("schemaVersion", s_ LinuxShape.SCHEMA);
    ("authority", VDict (map (fun k => (u k, if endswith (u "Digest") (u k) then d0 else s_ "sample")) AUTHORITY_FIELDS));
    ("target", obj_of [("os", s_ "linux"); ("kernel", s_ "6.1"); ("architecture", s_ "amd64");
                       ("hostArchitecture", s_ "amd64"); ("execution", s_ "NATIVE"); ("libc", s_ "glibc-2.39")]);
    ("sources", all REPOSITORIES (obj_of [("commit", VStr (repeat 48%N 40)); ("treeDigest", d0)]));
    ("images", all IMAGES d0); ("build", all BUILD_FIELDS d0); ("preflightDigest", d0);
    ("observedAt", s_ "2024-05-01T12:00:00Z"); ("validUntil", s_ "2024-05-02T12:00:00Z");
    ("cases", VList (map case_for CASE_CHECKS));
    ("platformSignerKeyId", s_ "p"); ("tenantSignerKeyId", s_ "t"); ("capacitySignerKeyId", s_ "c");
    ("platformSignature", signature_text); ("tenantSignature", signature_text);
    ("capacitySignature", signature_text)].

Lemma linux_pass_is_earned_witness :
  exists case, fld case "status" = Ok (s_ "PASS") /\
    case_earned "FULL_PREDECESSOR_REGRESSION" (default [] (snd <$> CASE_CHECKS !! 2%nat)) case.
Proof.
  edestruct (linux_pass_is_earned record record 2%nat "FULL_PREDECESSOR_REGRESSION")
    as (_ & cl & case & H1 & H2 & _ & _ & H); [by vm_compute | reflexivity |].
  injection H1 as <-. injection H2 as <-. exists regression_case. split; [done | by apply H].
Defined.

(** ** Evidence, its signature and the candidate *)

Definition bundle_of : value := get_ok VNone (build_evidence (run offline)).

Definition seed32 : value := VStr (b64url_encode (repeat 7%N 32)).
Definition signing_key : value :=
  obj_of [("schemaVersion", s_ "harness.planeon.ai/test-signing-key/v1alpha1"); ("keyId", s_ "lab-key");
          ("purpose", s_ "TECHNICAL_EVIDENCE"); ("seed", seed32)].
Definition valid_from : value := s_ "2024-01-01T00:00:00Z".
Definition valid_until : value := s_ "2025-01-01T00:00:00Z".
Definition now : value := s_ "2024-06-01T00:00:00Z".
Definition signed_bundle : value := get_ok VNone (sign_evidence bundle_of signing_key).
Definition key_entry : value := get_ok VNone (public_entry signing_key (s_ "tenant-a") valid_from valid_until).
Definition trust : value :=
  VDict [(u "schemaVersion", s_ "harness.planeon.ai/conformance-trust-bundle/v1alpha1"); (u "keys", VList [key_entry])].

Lemma evidence_of_report_valid_witness :
  validate_evidence bundle_of (Some false) = Ok bundle_of /\
  exists axes, fld bundle_of "originatedAxes" = Ok (VList axes) /\ evidence_axes axes.
Proof.
  edestruct (evidence_of_report_valid offline environment (u "run-1") run_at (run offline) bundle_of)
    as (H1 & _ & _ & _ & axes & H2 & H3 & _); [apply offline_runs | by vm_compute | apply get_ok_eq; by vm_compute |].
  exact (conj H1 (ex_intro _ axes (conj H2 H3))).
Defined.

Lemma mac_scheme_ok : SigSchemeOk mac_scheme.
Proof.
  split; simpl.
  - intros seed pk. destruct (Nat.eqb _ _); [|done]. intros [= <-]. unfold mac_key.
    rewrite length_take, sha512_length. split; [done | apply Forall_take, sha512_octets].
  - intros seed m sg. destruct (Nat.eqb _ _); [|done]. intros [= <-].
    split; [apply sha512_length | apply sha512_octets].
  - by intros seed m ->.
  - by intros seed ->.
  - done.
Qed.

Lemma bundle_signed : sign_evidence bundle_of signing_key = Ok signed_bundle.
Proof. apply get_ok_eq. by vm_compute. Qed.

Lemma signed_evidence_verifies_witness :
  validate_evidence signed_bundle (Some true) = Ok signed_bundle /\
  exists seed pk payload sg valid, sig_public_key seed = Ok pk /\ sig_sign seed payload = Ok sg /\ sig_verify pk payload sg = Ok valid.
Proof.
  edestruct (signed_evidence_verifies bundle_of signing_key signed_bundle (u "tenant-a")
    valid_from valid_until now key_entry) as (H1 & kid & text & seed & pk & payload & sg & valid & _ & _ & _ & _ & H2 & H3 & H4 & _).
  - apply mac_scheme_ok.
  - apply bundle_signed.
  - by vm_compute.
  - apply get_ok_eq. by vm_compute.
  - by vm_compute.
  - by vm_compute.
  - by vm_compute.
  - by vm_compute.
  - by vm_compute.
  - exact (conj H1 (ex_intro _ seed (ex_intro _ pk (ex_intro _ payload (ex_intro _ sg (ex_intro _ valid (conj H2 (conj H3 H4)))))))).
Defined.

Lemma verified_evidence_trusted_witness :
  exists pk sg payload,
    signature_payload EVIDENCE_DOMAIN signed_bundle ["signature"] = Ok payload /\
    sig_verify pk payload sg = Ok true.
Proof.
  edestruct (verified_evidence_trusted signed_bundle trust now) as
    (_ & ks & signer & entry & t & pk & sg & payload & kid & _ & _ & _ & _ & _ & _ & _ & _ & _ & H5 & H6 & _).
  - apply (get_ok_eq VNone). by vm_compute.
  - exact (ex_intro _ pk (ex_intro _ sg (ex_intro _ payload (conj H5 H6)))).
Defined.

Definition candidate_of : value := get_ok VNone (build_candidate (run offline) bundle_of).

Lemma candidate_from_evidence_witness : validate_candidate candidate_of = Ok candidate_of.
Proof.
  edestruct (candidate_from_evidence (run offline) bundle_of candidate_of) as (H & _);
    [apply get_ok_eq; by vm_compute | exact H].
Defined.

Lemma evidence_digest_binds_witness :
  exists d e, VDict d = bundle_of /\ VDict e = signed_bundle /\
    (norm (VDict (dwithout (u <$> (signature_fields ++ ["bundleDigest"])) d)) =
     norm (VDict (dwithout (u <$> (signature_fields ++ ["bundleDigest"])) e)) \/
     exists m m', m <> m' /\ sha256 m = sha256 m').
Proof.
  exists (get_ok [] (items bundle_of)), (get_ok [] (items signed_bundle)).
  split; [by vm_compute |]. split; [by vm_compute |].
  eapply (evidence_digest_binds _ _ (Some false) (Some true)).
  - by vm_compute.
  - by vm_compute.
  - by vm_compute.
  - by vm_compute.
  - by vm_compute.
  - by vm_compute.
Defined.
