(* ===== verification/LiveSamples.v ===== *)
(** Concrete documents of the live side: a session with its request and receipt, the two
    journals on a storage that holds octets, an endpoint, a kernel with the two directories of
    the replay store; and the theorems of the live components applied to them. *)

From S2P Require Import Prelude Effects PyVal Utf8 Json Sha2 Canonical Base64 Ed25519 IsoTime Regex.
From S2P Require Import SchemaBase Lifecycle LinuxShape LinuxVerify Live Session ReplayStore.
From S2P Require Import Posix JournalFile ProxySpecs ProxyDocument MutationAdmission Observation AdmissionLedger Samples.

#[local] Open Scope string_scope.
#[local] Open Scope list_scope.
#[local] Open Scope Z_scope.

#[local] Existing Instance ascii_nfc.

(** ** A session *)

Definition h0 : value := d0.
Definition identities : list (string * value) :=
  [("nonce", s_ "n-1"); ("tenantId", s_ "tenant-a"); ("environmentId", s_ "lab"); ("endpointId", s_ "edge");
   ("namespace", s_ "ns"); ("packetDigest", h0); ("commandSetDigest", h0); ("releaseDigest", h0); ("capacityDigest", h0)].

Definition session_binding : value :=
  obj_of (identities ++ [("notBefore", s_ "2024-05-01T00:00:00Z"); ("notAfter", s_ "2024-05-02T00:00:00Z")]).

Definition session_in (state : string) : value :=
  obj_of ([("schemaVersion", s_ Session.SCHEMA)] ++ identities ++
          [("issuedAt", s_ "2024-05-01T00:00:00Z"); ("expiresAt", s_ "2024-05-02T00:00:00Z"); ("state", s_ state)]).

Definition at_noon : value := s_ "2024-05-01T12:00:00Z".

Definition smoke_case : string := "KUBERNETES_SMOKE".
Definition smoke_request : value :=
  obj_of [("schemaVersion", s_ "harness.planeon.ai/linux-probe-request/v1alpha1"); ("operation", s_ smoke_case);
          ("endpointId", s_ "edge"); ("namespace", s_ "ns"); ("method", s_ "POST"); ("path", VStr (probe_path (u smoke_case)));
          ("runNonce", s_ "n-1"); ("architecture", s_ "amd64"); ("probeDigest", h0); ("commandDigest", h0)].

Definition smoke_output : value := probe_output (checks_of (s_ smoke_case)) "PASS".
Definition smoke_receipt : value :=
  obj_of [("caseId", s_ smoke_case); ("status", s_ "PASS"); ("observedAt", s_ "2024-05-01T11:00:00Z"); ("runNonce", s_ "n-1");
          ("probeDigest", h0); ("commandDigest", h0);
          ("outputDigest", VStr (get_ok [] (canonical_digest smoke_output (Some "planeon.linux-probe-output/v1alpha1"))));
          ("output", smoke_output)].

Lemma receipt_earned_witness :
  exists current request, validate_session (Value (session_in "RUNNING")) (Value session_binding) at_noon = Ok current /\
    validate_request (Value smoke_request) (Value current) (Value session_binding) (Value smoke_request) at_noon = Ok request.
Proof.
  edestruct (receipt_earned (Value smoke_receipt) (Value (session_in "RUNNING")) (Value session_binding) (Value smoke_request)
    (Value (VDict [])) at_noon) as (current & request & ? & ? & ? & ? & ? & ? & H1 & _ & H2 & _).
  - by vm_compute.
  - apply (get_ok_eq VNone). by vm_compute.
  - exact (ex_intro _ current (ex_intro _ request (conj H1 H2))).
Defined.

Lemma one_move : moves "RESERVED" "RUNNING".
Proof.
  exists (Value (session_in "RESERVED")), (Value session_binding), at_noon.
  exists (get_ok VNone (transition_candidate (Value (session_in "RESERVED")) (VStr (u "RUNNING")) (Value session_binding) at_noon)).
  split; [apply get_ok_eq; by vm_compute | by vm_compute].
Qed.

Lemma session_one_shot_witness : ~ In "VALIDATED_DATA" ["RUNNING"].
Proof.
  destruct (session_one_shot "RESERVED" ["RUNNING"] "RUNNING") as (_ & H & _); [|exact H].
  eapply course_step; [exact one_move | apply course_stop].
Defined.

Lemma transition_candidate_bound_witness :
  exists session, _session (Value (session_in "RESERVED")) (Value session_binding) = Ok session.
Proof.
  edestruct (transition_candidate_bound (Value (session_in "RESERVED")) (VStr (u "RUNNING")) (Value session_binding) at_noon)
    as (session & ? & ? & ? & ? & H & _); [apply (get_ok_eq VNone); by vm_compute | exact (ex_intro _ session H)].
Defined.

Lemma data_document_bounded_witness : norm (norm smoke_request) = norm smoke_request.
Proof.
  edestruct (data_document_bounded (Value smoke_request) MAX_SESSION_BYTES (norm smoke_request)) as (_ & _ & H & _);
    [by vm_compute | by vm_compute | exact H].
Defined.

(** ** A storage that holds octets *)

#[local] Instance octets : Storage bytes := {|
  enter := mret tt;
  leave := mret tt;
  read_all := reads (fun w => Ok w);
  append b := update (fun w => w ++ b);
  sync := mret tt
|}.

#[local] Instance octets_ok : StorageOk bytes.
Proof.
  refine {| contents := fun w => w |}; try done.
  - by intros w raw w' [= -> _].
  - intros b w. exists b, []. rewrite app_nil_r. done.
  - by intros b w w' [= <-].
Defined.

Definition empty_journal : journal bytes := Journal [] false.

Definition reserving : io (journal bytes) str :=
  _record (Value session_binding) (VStr (u "RESERVED")) at_noon VNone.

Definition reserved_journal : journal bytes := (reserving empty_journal).2.

Lemma record_returns {W A} (dflt : A) (m : io W A) w : is_ok (m w).1 = true -> m w = (Ok (get_ok dflt (m w).1), (m w).2).
Proof. by destruct (m w) as [[a|e] w']. Qed.

Lemma record_refines_witness : poisoned empty_journal = false /\ poisoned reserved_journal = false.
Proof.
  edestruct (record_refines (Value session_binding) (VStr (u "RESERVED")) at_noon VNone empty_journal reserved_journal)
    as (H1 & H2 & _); [apply (record_returns [] reserving); by vm_compute | exact (conj H1 H2)].
Defined.

Lemma record_append_only_witness : exists ext, contents (storage reserved_journal) = contents (storage empty_journal) ++ ext.
Proof.
  edestruct (record_append_only (Value session_binding) (VStr (u "RESERVED")) at_noon VNone empty_journal reserved_journal)
    as (ext & H & _); [apply (record_returns [] reserving); by vm_compute | exact (ex_intro _ ext H)].
Defined.

(** A second reservation, of another nonce, by another journal over the same storage. *)
Definition other_binding : value :=
  obj_of ([("nonce", s_ "n-2")] ++ tail identities ++
          [("notBefore", s_ "2024-05-01T00:00:00Z"); ("notAfter", s_ "2024-05-02T00:00:00Z")]).

Definition first_call : call := {| c_binding := Value session_binding; c_state := s_ "RESERVED"; c_now := at_noon; c_receipt := VNone |}.
Definition second_call : call := {| c_binding := Value other_binding; c_state := s_ "RESERVED"; c_now := at_noon; c_receipt := VNone |}.
Definition run_of (c : call) : io (journal bytes) str := _record (c_binding c) (c_state c) (c_now c) (c_receipt c).

Definition first_done : journal bytes := (run_of first_call empty_journal).2.
Definition second_done : journal bytes := (run_of second_call (Journal (storage first_done) false)).2.

Lemma first_returns : run_of first_call empty_journal = (Ok (get_ok [] (run_of first_call empty_journal).1), first_done).
Proof. apply (record_returns [] (run_of first_call)). by vm_compute. Qed.

Lemma second_returns :
  run_of second_call (Journal (storage first_done) false) =
    (Ok (get_ok [] (run_of second_call (Journal (storage first_done) false)).1), second_done).
Proof. apply (record_returns [] (run_of second_call)). by vm_compute. Qed.

Lemma both_calls : exists d1 d2, calls [] [(first_call, Ok d1); (second_call, Ok d2)] (storage second_done).
Proof.
  eexists _, _. apply (calls_cons _ _ _ _ _ _ _ first_returns). apply (calls_cons _ _ _ _ _ _ _ second_returns). apply calls_nil.
Qed.

Lemma no_replay_witness : ~ fld (norm session_binding) "nonce" = fld (norm other_binding) "nonce".
Proof.
  destruct both_calls as (d1 & d2 & H).
  apply (no_replay [] [] first_call d1 [] second_call d2 [] (storage second_done) (norm session_binding) (norm other_binding) H);
    [reflexivity | reflexivity | by vm_compute | by vm_compute | by vm_compute | by vm_compute | by vm_compute].
Defined.

(** ** The admission ledger *)

Definition admitted : value :=
  obj_of [("tenantId", s_ "tenant-a"); ("environmentId", s_ "lab"); ("runNonce", s_ "n-1"); ("capacityNonce", s_ "c-1");
          ("endpointId", s_ "edge"); ("releaseDigest", h0); ("packetDigest", h0); ("commandSetDigest", h0); ("profileDigest", h0)].

Definition admitting : io (journal bytes) str :=
  AdmissionLedger.record admitted (VStr (u "RESERVED")) VNone at_noon VNone.
Definition held_journal : journal bytes := (admitting empty_journal).2.

Lemma ledger_append_only_witness : exists ext, contents (storage held_journal) = contents (storage empty_journal) ++ ext.
Proof.
  edestruct (ledger_append_only empty_journal held_journal) as (H & _); [|exact H].
  eapply logged_record. apply (record_returns [] admitting). by vm_compute.
Defined.

Lemma reservation_exclusive_witness : exists s', parse_reservations (contents (storage held_journal)) = Ok s'.
Proof.
  edestruct (reservation_exclusive admitted VNone at_noon VNone empty_journal held_journal) as (s & s' & key & r & _ & H & _).
  - by vm_compute.
  - apply (record_returns [] admitting). by vm_compute.
  - exact (ex_intro _ s' H).
Defined.

Definition held_ledger : ledger :=
  get_ok {| previous := []; runs := []; recorded := []; count := 0 |} (parse_reservations (contents (storage held_journal))).

Lemma ledger_exclusive_witness : NoDup (map fst (runs held_ledger)).
Proof.
  edestruct (ledger_exclusive (contents (storage held_journal)) held_ledger) as (_ & H & _); [|exact H].
  apply get_ok_eq. by vm_compute.
Defined.

(** ** A kernel *)

(** Every directory is inode 1, private to root; every file inode 2, a private regular file. *)
Definition private_directory : stat_info :=
  {| st_mode := 16384 + 448; st_uid := 0; st_gid := 0; st_nlink := 2; st_dev := 8; st_ino := 1 |}.
Definition private_file : stat_info :=
  {| st_mode := 32768 + 384; st_uid := 0; st_gid := 0; st_nlink := 1; st_dev := 8; st_ino := 2 |}.

#[local] Instance quiet_kernel : Kernel := {|
  dir_entry _ _ _ := Some 1;
  file_entry _ _ _ := Some 2;
  status _ i := Some (if i =? 1 then private_directory else private_file);
  status_of_name _ _ _ := Some private_file;
  lock_answers _ _ := Granted;
  read_limit _ _ := Some 100000%nat;
  write_limit _ _ := Some 100000%nat;
  sync_answers _ _ := true;
  close_answers _ _ := true;
  unlock_answers _ _ := true;
  getgid := 0
|}.

Definition booted : os := {| clock := 0; table := []; files := fun _ => []; locks := [] |}.
Definition store_handle : file_io := {| directory := 7; journal_fd := 8 |}.
Definition opened_store : res (file_io * bool) * os := replay_store 0 0 booted.
Definition opened_handle : file_io := (get_ok (store_handle, false) opened_store.1).1.

Lemma replay_store_custody_witness : exists d f, table opened_store.2 = [(f, 2); (d, 1)] /\ d <> f.
Proof.
  pose proof (replay_store_custody 0 0 booted (Ok (opened_handle, false)) opened_store.2) as H.
  destruct H as (_ & _ & _ & i & j & root & now & now' & now2 & info & info' & Ht & _ & Hn & _); [by vm_compute |].
  exists (directory opened_handle), (journal_fd opened_handle). split; [by vm_compute |].
  intros E. apply Hn. rewrite <- E. by left.
Defined.

Definition open_store : journal os := Journal opened_store.2 false.
Definition file_run : res str * journal os :=
  _record (St := file_storage opened_handle) (Value session_binding) (VStr (u "RESERVED")) at_noon VNone open_store.

Example file_run_recorded : is_ok file_run.1 = true.
Proof. by vm_compute. Qed.

Lemma record_unlocks_witness : locks (storage file_run.2) = locks (storage open_store).
Proof.
  destruct (record_unlocks opened_handle (Value session_binding) (VStr (u "RESERVED")) at_noon VNone 2 open_store file_run.2 file_run.1)
    as [[H | (_ & _ & now & [=])] _]; [by vm_compute | by vm_compute | unfold file_run; by destruct (_record _ _ _ _ _) | exact H].
Defined.

(** ** An endpoint *)

Definition a_endpoint : value :=
  obj_of [("endpointId", s_ "edge"); ("kind", s_ "CAMPAIGN_PROXY"); ("ipAddress", s_ "10.0.0.7"); ("port", VInt 8443);
          ("tls", obj_of [("serverName", s_ "edge.lab"); ("serverSpkiDigest", h0); ("caCertificateFileReference", s_ "/etc/ca.pem")]);
          ("credentialFileReference", s_ "/etc/key.pem"); ("authorizationPolicyDigest", h0);
          ("costDisposition", s_ "SELF_HOSTED_OPEN_SOURCE_NON_METERED"); ("accessMode", s_ "PREAUTHORIZED_PROXY"); ("discovery", VBool false)].

Lemma endpoint_private_witness : endpoint_ok a_endpoint.
Proof. destruct (endpoint_private a_endpoint a_endpoint) as [_ H]; [by vm_compute | exact H]. Defined.
