(* ===== verification/ProxySamples.v ===== *)
(** Concrete messages of the proxy: an execution profile with one config map, the observer's
    binding, request and observation for it, a broker's transcript from its start to its terminal
    frame; and the theorems about them applied. *)

From S2P Require Import Prelude Effects PyVal Utf8 Json Sha2 Canonical Base64 IsoTime Regex.
From S2P Require Import SchemaBase Lifecycle LinuxShape LinuxVerify Session.
From S2P Require Import ProxySpecs ProxyDocument MutationAdmission Observation AdmissionLedger Broker Samples.

#[local] Open Scope string_scope.
#[local] Open Scope list_scope.
#[local] Open Scope Z_scope.

#[local] Existing Instance ascii_nfc.

(** ** The profile *)

(** A digest from one digit, a text of 64 of it. *)
Definition hex (c : N) : str := repeat c 64.
Definition digest_of (c : N) : value := VStr (u "sha256:" ++ hex c).
Definition hash_of (v : value) : value := VStr (get_ok [] (canonical_digest v None)).
Definition arr (l : list value) : value := VList l.

Definition labels : value := obj_of [("planeon.ai/run-nonce", s_ "n-1"); ("planeon.ai/tenant-id", s_ "t")].
Definition config_map : value :=
  obj_of [("apiVersion", s_ "v1"); ("kind", s_ "ConfigMap");
          ("metadata", obj_of [("name", s_ "fixture"); ("namespace", s_ "ns"); ("labels", labels)]);
          ("immutable", VBool true); ("data", obj_of [("fixture.json", s_ "{}")])].

Definition scope_fields : list (string * value) :=
  [("tenantId", s_ "t"); ("environmentId", s_ "lab"); ("runNonce", s_ "n-1"); ("capacityNonce", s_ "c-1"); ("endpointId", s_ "edge");
   ("namespace", s_ "ns"); ("serviceAccountSubject", s_ "system:serviceaccount:ns:runner");
   ("validFrom", s_ "2024-05-01T12:00:00Z"); ("expiresAt", s_ "2024-05-01T12:10:00Z")].

Definition credential (endpoint purpose : string) (c d : N) : value :=
  obj_of [("endpointId", s_ endpoint); ("purpose", s_ purpose); ("subject", s_ "system:serviceaccount:ns:runner");
          ("expiresAt", s_ "2024-05-01T12:10:00Z"); ("certificateDigest", digest_of c); ("clientSpkiDigest", digest_of d)].

Definition api_rule (verb : string) : value :=
  obj_of [("endpointId", s_ "api"); ("verb", s_ verb); ("apiGroup", VStr []); ("apiVersion", s_ "v1"); ("resource", s_ "configmaps");
          ("namespace", s_ "ns"); ("name", s_ "fixture"); ("subresource", VStr []); ("requestMediaType", s_ "application/json");
          ("responseMediaType", s_ "application/json"); ("requestMaxBytes", VInt 16384); ("responseMaxBytes", VInt 4194304)].

Definition reference (kind name uid : string) (c : N) : value :=
  obj_of [("apiVersion", s_ "v1"); ("kind", s_ kind); ("namespace", s_ "ns"); ("name", s_ name); ("uid", s_ uid); ("observedDigest", digest_of c)].

Definition counts (n : Z) : value := obj_of (map (fun k => (k, VInt n)) UNITS).

Definition profile : value := norm (obj_of
  [("profileId", s_ "CAMPAIGN_PROXY_MTLS_ZERO_COST_V1"); ("binding", obj_of (scope_fields ++ [("apiEndpointId", s_ "api")]));
   ("capacityEntries", obj_of
     [("kubernetesApiRules", arr (map api_rule ["create"; "get"; "delete"]));
      ("campaignProxyRules", arr [obj_of
        [("endpointId", s_ "edge"); ("namespace", s_ "ns"); ("service", s_ "linux-baseline-probes"); ("port", VInt 8443);
         ("protocol", s_ "HTTPS"); ("methods", arr [s_ "POST"]); ("paths", PATHS); ("requestMediaType", s_ "application/json");
         ("responseMediaType", s_ "application/json"); ("requestMaxBytes", VInt 16384); ("responseMaxBytes", VInt 4194304);
         ("timeoutSeconds", VInt 900)]]);
      ("permittedGvksAndVerbs", arr [obj_of [("apiGroup", VStr []); ("apiVersion", s_ "v1"); ("kind", s_ "ConfigMap");
         ("verbs", arr [s_ "create"; s_ "get"; s_ "delete"]); ("names", arr [s_ "fixture"])]]);
      ("preexistingResourceRefs", arr [reference "ResourceQuota" "quota" "uid-q" 98; reference "LimitRange" "limits" "uid-l" 99;
         reference "ServiceAccount" "runner" "uid-s" 100]);
      ("preallocatedStorageRefs", arr []); ("preallocatedAcceleratorRefs", arr []);
      ("credentialIdentities", arr [credential "edge" "CAMPAIGN_PROXY_CLIENT_MTLS" 49 50; credential "api" "KUBERNETES_PROXY_SERVER_MTLS" 51 52])]);
   ("policy", obj_of [("admissionPolicyDigest", digest_of 97); ("resourceQuotaDigest", digest_of 98); ("limitRangeDigest", digest_of 99);
      ("serviceAccountDigest", digest_of 100); ("rbacDigest", digest_of 101); ("networkPolicyDigest", digest_of 102);
      ("mutationBrokerDigest", digest_of 53); ("namespaceUid", s_ "uid-n"); ("resourceQuotaUid", s_ "uid-q"); ("limitRangeUid", s_ "uid-l");
      ("serviceAccountUid", s_ "uid-s"); ("maxConcurrentOperations", VInt 1)]);
   ("quota", counts 2);
   ("resources", arr [obj_of [("manifest", config_map); ("manifestDigest", VStr (get_ok [] (b ← canonical_bytes config_map; Ok (byte_digest b))))]]);
   ("localImages", arr [])]).

Example profile_valid : validate_profile (Value profile) = Ok profile.
Proof. by vm_compute. Qed.

Lemma profile_within_quota_witness : exists us, resource_units profile = Ok us /\ dkeys us = map u UNITS.
Proof.
  edestruct (profile_within_quota (Value profile) profile) as (quota & us & _ & H1 & H2 & _); [apply profile_valid |].
  exact (ex_intro _ us (conj H1 H2)).
Defined.

Lemma shape_terminates_witness : _shape 41 VNone _PROFILE_SPEC (definitions_of _PROFILE_SPEC) <> Raise RecursionError.
Proof. apply shape_terminates; [by left | unfold LEVELS; lia]. Defined.

Lemma shape_typed_witness : conforms (definitions_of _PROFILE_SPEC) profile _PROFILE_SPEC.
Proof. apply (shape_typed LEVELS). by vm_compute. Defined.

(** ** An observation *)

Definition projection (api kind name uid : string) (c : N) : list (string * value) :=
  [("apiVersion", s_ api); ("kind", s_ kind); ("name", s_ name); ("namespace", s_ "ns"); ("uid", s_ uid); ("projectionDigest", digest_of c)].

Definition projected : list (string * list (string * value)) :=
  [("admissionPolicy", projection "v1" "Policy" "admission" "uid-a" 97); ("resourceQuota", projection "v1" "ResourceQuota" "quota" "uid-q" 98);
   ("limitRange", projection "v1" "LimitRange" "limits" "uid-l" 99); ("serviceAccount", projection "v1" "ServiceAccount" "runner" "uid-s" 100);
   ("rbac", projection "v1" "Role" "role" "uid-r" 101); ("networkPolicy", projection "v1" "NetworkPolicy" "deny" "uid-p" 102);
   ("mutationBroker", projection "v1" "Broker" "broker" "uid-b" 53)].

Definition pins : list (string * value) :=
  [("admissionFenceDigest", digest_of 49); ("rbacClosureDigest", digest_of 50); ("networkEnforcementDigest", digest_of 51);
   ("hostPreflightDigest", digest_of 52)].

Definition observer_binding : value :=
  obj_of [("schemaVersion", s_ "planeon.internal.policy-observation-binding/v1"); ("profileDigest", hash_of profile);
          ("scope", obj_of scope_fields); ("observer", obj_of [("executableDigest", digest_of 49); ("manifestDigest", digest_of 50)]);
          ("namespace", obj_of [("name", s_ "ns"); ("uid", s_ "uid-n")]);
          ("projections", obj_of (map (fun kp => (kp.1, obj_of kp.2)) projected)); ("enforcementPins", obj_of pins)].

Definition chain_fields : list (string * value) :=
  [("bindingDigest", hash_of observer_binding); ("runNonce", s_ "n-1"); ("challenge", VStr (hex 48)); ("sequence", VInt 1);
   ("previousObservationDigest", VStr ZERO)].

Definition observer_request : value :=
  obj_of ([("schemaVersion", s_ "planeon.internal.policy-observation-request/v1"); ("operation", s_ "OBSERVE_POLICY")] ++ chain_fields).

Definition observed : value :=
  obj_of ([("schemaVersion", s_ "planeon.internal.policy-observation/v1")] ++ chain_fields ++
   [("observerBootId", s_ "01234567-89ab-cdef-0123-456789abcdef"); ("generation", VStr (hex 49)); ("observedAt", s_ "2024-05-01T12:01:00Z");
    ("expiresAt", s_ "2024-05-01T12:01:05Z");
    ("namespace", obj_of [("name", s_ "ns"); ("uid", s_ "uid-n"); ("resourceVersion", s_ "1")]);
    ("projections", obj_of (map (fun kp => (kp.1, obj_of (kp.2 ++ [("resourceVersion", s_ "1")]))) projected));
    ("quota", obj_of [("hard", counts 4); ("used", counts 1)]);
    ("enforcement", obj_of (("policyGeneration", VStr (hex 49)) :: pins))]).

Lemma observation_admissible_witness :
  exists p us, validate_profile (Value profile) = Ok p /\ resource_units p = Ok us.
Proof.
  edestruct (observation_admissible (Value observer_binding) (Value observer_request) (Value observed) (Value profile)
    (s_ "2024-05-01T12:01:02Z") (Value VNone)) as (_ & _ & p & quota & us & H1 & _ & H2 & _).
  - apply (get_ok_eq VNone). by vm_compute.
  - exact (ex_intro _ p (ex_intro _ us (conj H1 H2))).
Defined.

(** ** A transcript *)

Definition cases_owned : value :=
  obj_of (map (fun c => (c, arr (if String.eqb c "KUBERNETES_SMOKE" then [digest_of 49] else []))) CASES).

Definition broker_binding : value := norm (obj_of
  [("schemaVersion", s_ "planeon.internal.broker-binding/v1"); ("profileDigest", digest_of 48); ("observationBindingDigest", digest_of 49);
   ("brokerManifestDigest", digest_of 50); ("brokerExecutableDigest", digest_of 51); ("workerManifestDigest", digest_of 52);
   ("workerArtifactDigest", digest_of 53); ("caseResourceDigests", cases_owned)]).

Definition common_fields : list (string * value) :=
  [("bindingDigest", hash_of broker_binding); ("reservationDigest", digest_of 49); ("runNonce", s_ "n-1"); ("caseId", s_ "KUBERNETES_SMOKE");
   ("requestDigest", digest_of 50); ("observationDigest", digest_of 51); ("generation", VStr (hex 49)); ("challenge", VStr (hex 48))].

Definition broker_dispatch : value := norm (obj_of
  ([("schemaVersion", s_ "planeon.internal.broker-dispatch/v1"); ("operation", s_ "EXECUTE_FIXED_PROBE")] ++ common_fields)).

Definition a_frame (n : Z) (before : value) (kind : string) (payload : value) : value := norm (obj_of
  ([("schemaVersion", s_ "planeon.internal.broker-frame/v1")] ++ common_fields ++
   [("executionId", VStr (hex 97)); ("sequence", VInt n); ("previousDigest", before); ("kind", s_ kind); ("payload", payload)])).

Definition receipt_text : str := u "receipt".
Definition cleaned : value := digest_of 102.
Definition frame1 : value := a_frame 1 (VStr ZERO) "STARTED" (obj_of [("workerPid", VInt 7); ("workerStartTicks", VInt 9)]).
Definition frame2 : value := a_frame 2 (hash_of frame1) "RECEIPT_CHUNK" (obj_of [("index", VInt 0); ("dataBase64", VStr (b64encode receipt_text))]).
Definition frame3 : value := a_frame 3 (hash_of frame2) "CLEANUP_RECORDED"
  (obj_of [("cleanupDigest", cleaned); ("state", s_ "CLEAN"); ("remainingResources", arr [])]).
Definition frame4 : value := a_frame 4 (hash_of frame3) "TERMINAL"
  (obj_of [("status", s_ "COMPLETED"); ("receiptSize", VInt (zlen receipt_text)); ("receiptDigest", VStr (byte_digest receipt_text));
           ("cleanupDigest", cleaned); ("workerReaped", VBool true)]).

Definition nothing_done : transcript :=
  {| binding := VNone; dispatch := VNone; at_place := {| sequence := 0; previous := []; execution := None |};
     done_so_far := {| pending := None; cleanup := None; terminal := None; actions := []; chunks := []; receipt_size := 0; failed_action := false |};
     poisoned := false |}.

Definition t0 : transcript := get_ok nothing_done (open_transcript (Value broker_binding) (Value broker_dispatch)).
Definition t1 : transcript := (accept (Value frame1) "BROKER" t0).2.
Definition t2 : transcript := (accept (Value frame2) "BROKER" t1).2.
Definition t3 : transcript := (accept (Value frame3) "SERVER" t2).2.
Definition t4 : transcript := (accept (Value frame4) "BROKER" t3).2.

Lemma a_transcript : transcript_of (Value broker_binding) (Value broker_dispatch) t4 [frame1; frame2; frame3; frame4].
Proof.
  apply (accepted _ _ t3 [frame1; frame2; frame3] (Value frame4) "BROKER"); [|by vm_compute].
  apply (accepted _ _ t2 [frame1; frame2] (Value frame3) "SERVER"); [|by vm_compute].
  apply (accepted _ _ t1 [frame1] (Value frame2) "BROKER"); [|by vm_compute].
  apply (accepted _ _ t0 [] (Value frame1) "BROKER"); [|by vm_compute].
  apply opened. apply get_ok_eq. by vm_compute.
Qed.

Lemma transcript_chain_witness : sequence (at_place t4) = 4.
Proof.
  destruct (transcript_chain (Value broker_binding) (Value broker_dispatch) t4 [frame1; frame2; frame3; frame4] a_transcript)
    as (_ & H & _). exact H.
Defined.

Lemma completed_is_clean_witness : exists b, receipt t4 = Ok b.
Proof.
  edestruct (completed_is_clean (Value broker_binding) (Value broker_dispatch) t4 [frame1; frame2; frame3; frame4])
    as (_ & _ & _ & parts & b & _ & _ & H & _).
  - exact a_transcript.
  - by vm_compute.
  - by vm_compute.
  - by vm_compute.
  - exact (ex_intro _ b H).
Defined.

Lemma transcript_closes_witness : accept (Value frame4) "BROKER" t4 = (conf "BROKER_TRANSCRIPT_CLOSED", t4).
Proof.
  destruct (transcript_closes (Value frame4) "BROKER" t3 (Ok frame4) t4) as (H & _).
  - by vm_compute.
  - by vm_compute.
  - exact (H (Value frame4) "BROKER").
Defined.
