(* ===== verification/AuthoritySamples.v ===== *)
(** Concrete authorities: trust bundles, a capacity authorization and an envelope signed by three
    keys, a release with its plan, a record of native evidence, and the theorems about
    authorities and verified evidence applied to them.  Signed documents are kept as values. *)

From S2P Require Import Prelude PyVal Utf8 Json Sha2 Canonical Base64 Ed25519 IsoTime Regex.
From S2P Require Import SchemaBase Lifecycle LinuxShape Evidence Ipaddr Live LinuxVerify Session BackendAuthority Samples.

#[local] Open Scope string_scope.
#[local] Open Scope list_scope.
#[local] Open Scope Z_scope.

#[local] Existing Instance ascii_nfc.

(** A scheme whose tags are checksums: the key is the seed, a signature the key and 32 octets that
    depend on the message. *)
Definition checksum (m : bytes) : N := fold_left (fun a b => (a * 31 + b) mod 256)%N m 7%N.
#[local] Instance checksum_scheme : SigScheme := {|
  sig_public_key seed := Ok seed;
  sig_sign seed m := Ok (seed ++ repeat (checksum m) 32);
  sig_verify pk m sg := Ok (str_eqb (pk ++ repeat (checksum m) 32) sg)
|}.

(** ** Keys *)

Definition seed_of (c : N) : bytes := repeat c 32.
Definition trust_entry (id purpose owner : string) (tenant environment : value) (c : N) : value :=
  obj_of [("keyId", s_ id); ("purpose", s_ purpose); ("publicKey", VStr (b64url_encode (seed_of c))); ("owner", s_ owner);
          ("tenantId", tenant); ("environmentId", environment); ("validFrom", s_ "2024-01-01T00:00:00Z");
          ("validUntil", s_ "2025-01-01T00:00:00Z"); ("revoked", VBool false)].

Definition trust_bundle (keys : list value) : value :=
  obj_of [("schemaVersion", s_ "harness.planeon.ai/live-trust-bundle/v1alpha1"); ("keys", VList keys); ("revocationsDigest", d0)].

Definition document_of (v : value) : bytes := get_ok [] (canonical_bytes v).
Definition digest_text (b : bytes) : value := VStr (byte_digest b).

Definition release_trust : bytes := Eval vm_compute in
  document_of (trust_bundle [trust_entry "platform-key" "PLATFORM_RELEASE" "platform" VNone VNone 1]).
Definition tenant_trust : bytes := Eval vm_compute in
  document_of (trust_bundle [trust_entry "tenant-key" "TENANT_LIVE_EXECUTION" "tenant" (s_ "tenant-a") (s_ "lab") 2;
                             trust_entry "capacity-key" "CAPACITY_OPERATOR" "operator" (s_ "tenant-a") (s_ "lab") 3]).

(** [v] with a field set, and with one role's signature added. *)
Definition set_field (k : string) (x v : value) : value :=
  match v with VDict d => VDict (dset (u k) x d) | _ => v end.
Definition signed_as (domain field : string) (others : list string) (c : N) (v : value) : value :=
  set_field field (VStr (b64url_encode (get_ok [] (payload ← signature_payload domain v others; sig_sign (seed_of c) payload)))) v.

(** ** The capacity authorization, the endpoint and the envelope *)

Definition rule : value := expected_rule (s_ "edge") (s_ "ns") (VInt 8443).

Definition capacity_document : value := Eval vm_compute in
  norm (signed_as CAPACITY_DOMAIN "signature" ["signature"] 3 (obj_of
    [("schemaVersion", s_ CAPACITY_SCHEMA); ("authorizationId", s_ "auth-1"); ("operatorId", s_ "op"); ("tenantId", s_ "tenant-a");
     ("environmentId", s_ "lab"); ("namespace", s_ "ns"); ("serviceAccountSubject", s_ "system:serviceaccount:ns:runner");
     ("permittedEndpointIds", VList [s_ "edge"]); ("kubernetesApiRules", VList []); ("campaignProxyRules", VList [rule]);
     ("permittedGvksAndVerbs", VList []); ("preexistingResourceRefs", VList []); ("resourceQuotaDigest", d0); ("limitRangeDigest", d0);
     ("preallocatedStorageRefs", VList []); ("preallocatedAcceleratorRefs", VList []); ("credentialIdentities", VList []);
     ("mutationProfile", s_ "ZERO_INCREMENTAL_COST_KUBERNETES_V1"); ("admissionPolicyDigest", d0);
     ("validFrom", s_ "2024-05-01T09:00:00Z"); ("expiresAt", s_ "2024-05-01T20:00:00Z"); ("nonce", s_ "c-1"); ("signerKeyId", s_ "capacity-key")])).
Definition capacity_document_bytes : bytes := Eval vm_compute in document_of capacity_document.

Definition proxy_endpoint : value := Eval vm_compute in
  obj_of [("endpointId", s_ "edge"); ("kind", s_ "CAMPAIGN_PROXY"); ("ipAddress", s_ "10.0.0.7"); ("port", VInt 8443);
          ("tls", obj_of [("serverName", s_ "edge.lab"); ("serverSpkiDigest", d0); ("caCertificateFileReference", s_ "/etc/ca.pem")]);
          ("credentialFileReference", s_ "/etc/key.pem");
          ("authorizationPolicyDigest", VStr (get_ok [] (canonical_digest rule (Some "planeon.linux-proxy-policy/v1alpha1"))));
          ("costDisposition", s_ "SELF_HOSTED_OPEN_SOURCE_NON_METERED"); ("accessMode", s_ "PREAUTHORIZED_PROXY"); ("discovery", VBool false)].

(** ** The plan and its release *)

Definition plan : value := Eval vm_compute in norm (obj_of
  [("schemaVersion", s_ PLAN_SCHEMA);
   ("target", obj_of [("os", s_ "linux"); ("kernel", s_ "6.1"); ("architecture", s_ "amd64");
                      ("hostArchitecture", s_ "amd64"); ("execution", s_ "NATIVE"); ("libc", s_ "glibc-2.39")]);
   ("sources", all REPOSITORIES (obj_of [("commit", VStr (repeat 48%N 40)); ("treeDigest", d0)]));
   ("images", all IMAGES d0); ("build", all BUILD_FIELDS d0); ("preflightDigest", d0); ("endpointId", s_ "edge"); ("namespace", s_ "ns");
   ("serviceAccountSubject", s_ "system:serviceaccount:ns:runner");
   ("regressions", all REPOSITORIES (obj_of [("inventoryDigest", d0); ("testCount", VInt 90)]));
   ("probes", all CASES (obj_of [("probeDigest", d0); ("commandDigest", d0)]))]).
Definition plan_document : bytes := Eval vm_compute in document_of plan.

Definition release_tree : value := Eval vm_compute in
  VList [obj_of [("path", s_ "campaigns/platform/linux-baseline/inputs/amd64.json"); ("mode", s_ "0444");
                 ("size", VInt (zlen plan_document)); ("sha256", digest_text plan_document)]].
Definition kit_digest : value := Eval vm_compute in
  VStr (get_ok [] (canonical_digest release_tree (Some "planeon.harness-live-tree/v1alpha1"))).
Definition release_document : bytes := Eval vm_compute in document_of (obj_of
  [("schemaVersion", s_ "harness.planeon.ai/campaign-release/v1alpha1"); ("campaignId", s_ "linux-baseline");
   ("campaignDefinitionDigest", d0); ("kitDigest", kit_digest); ("bundleDigest", d0);
   ("endpointPolicyDigests", VList [get_ok VNone (fld proxy_endpoint "authorizationPolicyDigest")]); ("tree", release_tree)]).

(** An envelope of a packet for a release, signed by the platform and the tenant. *)
Definition unsigned_envelope (packet packet_digest : string) (commands : value) : value := obj_of
  [("schemaVersion", s_ ENVELOPE_SCHEMA); ("packetId", s_ packet); ("packetFileReference", s_ "/p/packet.json");
   ("packetDigest", s_ packet_digest); ("commands", commands);
   ("commandSetDigest", VStr (get_ok [] (command_set_digest commands))); ("conformanceKitRoot", s_ "/kit");
   ("conformanceKitDigest", kit_digest); ("campaignId", s_ "linux-baseline"); ("campaignDefinitionFileReference", s_ "/p/campaign.json");
   ("campaignDefinitionDigest", d0); ("campaignReleaseFileReference", s_ "/p/release.json");
   ("campaignReleaseDigest", digest_text release_document); ("launcherDigest", d0); ("bundleFileReference", s_ "/p/bundle.json");
   ("bundleDigest", d0); ("allowedEvidenceAxes", str_list AXES); ("tenantId", s_ "tenant-a"); ("environmentId", s_ "lab");
   ("capacityAuthorizationId", s_ "auth-1"); ("capacityAuthorizationFileReference", s_ "/p/capacity.json");
   ("capacityAuthorizationDigest", digest_text capacity_document_bytes); ("mutationProfile", s_ "ZERO_INCREMENTAL_COST_KUBERNETES_V1");
   ("admissionPolicyDigest", d0); ("resourceQuotaDigest", d0); ("endpoints", VList [proxy_endpoint]);
   ("issuedAt", s_ "2024-05-01T08:00:00Z"); ("expiresAt", s_ "2024-05-01T21:00:00Z"); ("nonce", s_ "nonce-1");
   ("releaseTrustStoreDigest", digest_text release_trust); ("tenantTrustStoreDigest", digest_text tenant_trust);
   ("platformSignerKeyId", s_ "platform-key"); ("tenantSignerKeyId", s_ "tenant-key")].

Definition sign_envelope (v : value) : value :=
  let others := ["platformSignature"; "tenantSignature"] in
  norm (signed_as ENVELOPE_DOMAIN "tenantSignature" others 2 (signed_as ENVELOPE_DOMAIN "platformSignature" others 1 v)).

Definition linux_envelope : bytes := Eval vm_compute in
  document_of (sign_envelope (unsigned_envelope "CONF-LINUX-001" LinuxShape.PACKET_DIGEST (argv_list LinuxShape.COMMANDS))).
Definition backend_envelope : bytes := Eval vm_compute in
  document_of (sign_envelope (unsigned_envelope PACKET_ID BackendAuthority.PACKET_DIGEST (argv_list BackendAuthority.COMMANDS))).

Definition noon : value := s_ "2024-05-01T12:00:00Z".
Definition noon_instant : datetime := get_ok {| instant := 0; aware := false |} (LinuxShape.require_time noon).
Definition nothing : value * value * value * value := (VNone, VNone, VNone, VNone).

Definition linux_authority : value * value * value * value := Eval vm_compute in
  get_ok nothing (verify_linux_authority linux_envelope capacity_document_bytes release_trust tenant_trust noon_instant).
Definition backend_authority : value * value * value * value := Eval vm_compute in
  get_ok nothing (verify_backend_authority backend_envelope capacity_document_bytes release_trust tenant_trust noon_instant).

Lemma linux_authority_independent_witness : exists owners : list value, length owners = 3%nat /\ distinct owners.
Proof.
  destruct (linux_authority_independent linux_envelope capacity_document_bytes release_trust tenant_trust noon_instant
    linux_authority.1.1.1 linux_authority.1.1.2 linux_authority.1.2 linux_authority.2)
    as (_ & _ & _ & _ & _ & _ & owners & _ & H1 & H2); [by vm_compute | exact (ex_intro _ owners (conj H1 H2))].
Defined.

Lemma backend_authority_independent_witness : exists owners : list value, length owners = 3%nat /\ distinct owners.
Proof.
  destruct (backend_authority_independent backend_envelope capacity_document_bytes release_trust tenant_trust noon_instant
    backend_authority.1.1.1 backend_authority.1.1.2 backend_authority.1.2 backend_authority.2)
    as (_ & _ & _ & _ & _ & _ & _ & _ & owners & _ & _ & _ & H1 & H2); [by vm_compute | exact (ex_intro _ owners (conj H1 H2))].
Defined.

(** ** Verified native evidence *)

Definition linux_case (e : string * list string) : value := set_field "observedAt" (s_ "2024-05-01T11:00:00Z") (case_for e).

Definition unsigned_record : value :=
  set_field "authority" (obj_of
    [("packetDigest", s_ LinuxShape.PACKET_DIGEST); ("envelopeDigest", digest_text linux_envelope);
     ("capacityDigest", digest_text capacity_document_bytes); ("releaseDigest", digest_text release_document);
     ("planDigest", digest_text plan_document); ("tenantId", s_ "tenant-a"); ("environmentId", s_ "lab"); ("runNonce", s_ "nonce-1");
     ("endpointId", s_ "edge"); ("endpointDigest", VStr (get_ok [] (canonical_digest proxy_endpoint None))); ("namespace", s_ "ns");
     ("serviceAccountSubject", s_ "system:serviceaccount:ns:runner"); ("admissionPolicyDigest", d0); ("resourceQuotaDigest", d0)])
  (set_field "observedAt" (s_ "2024-05-01T10:00:00Z") (set_field "validUntil" (s_ "2024-05-01T18:00:00Z")
  (set_field "platformSignerKeyId" (s_ "platform-key") (set_field "tenantSignerKeyId" (s_ "tenant-key")
  (set_field "capacitySignerKeyId" (s_ "capacity-key") (set_field "cases" (VList (map linux_case CASE_CHECKS)) record)))))).

Definition linux_record : bytes := Eval vm_compute in
  document_of (signed_as DOMAIN "capacitySignature" SIGNATURES 3 (signed_as DOMAIN "tenantSignature" SIGNATURES 2
    (signed_as DOMAIN "platformSignature" SIGNATURES 1 unsigned_record))).

Definition expected : expectation := {|
  envelope_bytes := linux_envelope; capacity_bytes := capacity_document_bytes; release_bytes := release_document; plan_bytes := plan_document;
  release_trust_bytes := release_trust; tenant_trust_bytes := tenant_trust; LinuxVerify.now := noon; expected_nonce := s_ "nonce-1";
  expected_tenant := s_ "tenant-a"; expected_environment := s_ "lab"; expected_release := digest_text release_document;
  replayed_nonces := [u "nonce-0"] |}.

Definition linux_result : value := Eval vm_compute in get_ok VNone (verify_linux_evidence linux_record expected).

Lemma linux_evidence_verified_witness : exists record, require_canonical_document linux_record = Ok record.
Proof.
  destruct (linux_evidence_verified linux_record expected linux_result) as (record & _ & _ & _ & _ & _ & H & _);
    [by vm_compute | exact (ex_intro _ record H)].
Defined.

(** ** A preflight *)

(** A file of these octets, read in one call. *)
Definition file_of (b : bytes) : opened := {| regular := true; st_size := zlen b; os_read := fun _ n => take (Z.to_nat n) b |}.

Definition braces : bytes := u "{}".

Definition preflight_envelope : bytes := Eval vm_compute in
  document_of (sign_envelope (fold_right (fun k v => set_field k (digest_text braces) v)
    (set_field "conformanceKitDigest" (VStr (get_ok [] (canonical_digest (VList []) (Some TREE_DOMAIN))))
       (unsigned_envelope "CONF-LINUX-001" LinuxShape.PACKET_DIGEST (argv_list LinuxShape.COMMANDS)))
    ["packetDigest"; "campaignDefinitionDigest"; "campaignReleaseDigest"; "bundleDigest"; "launcherDigest"])).

Definition preflight_files (path : str) : option opened :=
  Some (file_of (if str_eqb path (u "/p/envelope.json") then preflight_envelope
                 else if str_eqb path (u "/p/capacity.json") then capacity_document_bytes
                 else if str_eqb path (u FIXED_RELEASE_TRUST) then release_trust
                 else if str_eqb path (u FIXED_TENANT_TRUST) then tenant_trust else braces)).

Definition empty_kit (path : str) : option node := if str_eqb path (u "/kit") then Some (Dir []) else None.

Definition preflight_report : value := Eval vm_compute in
  get_ok VNone (preflight preflight_files empty_kit (u "/p/envelope.json") (u "/p/launcher") (u FIXED_RELEASE_TRUST) (u FIXED_TENANT_TRUST) noon_instant).


(** ** The session binding derived from the authority *)

Definition derived_binding : value := Eval vm_compute in
  get_ok VNone (binding_from_authority backend_envelope capacity_document_bytes release_trust tenant_trust release_document plan_document
    (s_ "amd64") (s_ "nonce-1") (s_ "tenant-a") (s_ "lab") (digest_text release_document) noon).

Lemma binding_within_authority_witness : exists start end_ s t, LinuxShape.require_time start = Ok s /\ LinuxShape.require_time end_ = Ok t.
Proof.
  destruct (binding_within_authority backend_envelope capacity_document_bytes release_trust tenant_trust release_document plan_document
    (s_ "amd64") (s_ "nonce-1") (s_ "tenant-a") (s_ "lab") (digest_text release_document) noon derived_binding)
    as (_ & _ & _ & _ & _ & _ & _ & start & end_ & s & t & _ & _ & _ & _ & _ & _ & _ & H1 & H2 & _); [by vm_compute |].
  exact (ex_intro _ start (ex_intro _ end_ (ex_intro _ s (ex_intro _ t (conj H1 H2))))).
Defined.
