(* ===== verification/KernelSamples.v ===== *)
(** Concrete kernel data and transport data: a seccomp filter on a classic BPF machine, the
    identity and the credentials of a peer, a certificate with its enrolment, a credential
    bundle, a stream that delivers three octets at a time, an ELF file, a memory map and a
    process; and the theorems of the components that read them. *)

From S2P Require Import Prelude Effects PyVal Utf8 Json Sha2 Canonical IsoTime Regex Text.
From S2P Require Import SchemaBase LinuxShape LinuxVerify ProxyDocument Boundary Der Http KernelData Samples.

#[local] Open Scope string_scope.
#[local] Open Scope list_scope.
#[local] Open Scope Z_scope.

(** ** The filter and the peer *)

(** A clone that asks for a user namespace. *)
Definition unshared : call_data := {| nr := 56; arch := 0xC000003E; arg0 := CLONE_NEWUSER |}.
Definition x86_filter : list insn := Eval vm_compute in get_ok [] (seccomp_program (u "x86_64")).

Lemma seccomp_verdict_witness : run_filter (ClassicBpf := bpf_machine) x86_filter (word_at unshared) 0 = Some refuse.
Proof.
  rewrite (seccomp_verdict (B := bpf_machine) (u "x86_64") x86_filter unshared 0); by vm_compute.
Defined.

Definition a_peer : identity :=
  {| Boundary.pid := 40; start := 7; Boundary.parent := 39; Boundary.uid := repeat 65532 4; Boundary.gid := repeat 65532 4;
     Boundary.capabilities := repeat 0 5; seccomp := 2; Boundary.noNewPrivs := 1;
     cgroup := u "0::/planeon-live/session" ++ [10%N]; namespaces := [(u "user", 11); (u "mnt", 12); (u "pid", 13); (u "net", 14)] |}.
Definition parent_spaces : list (str * Z) := [(u "user", 1); (u "mnt", 2); (u "pid", 3); (u "net", 4)].

Lemma peer_confined_witness : Boundary.uid a_peer = [65532; 65532; 65532; 65532].
Proof.
  destruct (peer_confined a_peer a_peer parent_spaces) as (_ & H & _); [by vm_compute | exact H].
Defined.

Definition two_messages : list message :=
  [{| level := 1; Boundary.kind := 1; Boundary.content := [9; 0; 0; 0; 10; 0; 0; 0]%N |};
   {| level := 1; Boundary.kind := 2; Boundary.content := repeat 1%N 12 |}].

Lemma credentials_close_all_witness : (credentials two_messages 0 []).2 = [9; 10].
Proof.
  destruct (credentials_close_all two_messages 0 [] (credentials two_messages 0 []).1 (credentials two_messages 0 []).2) as [H _];
    [by apply surjective_pairing | rewrite H; by vm_compute].
Defined.

(** ** Certificates *)

Definition two_items : bytes := der_encode 2 [5%N] ++ der_encode 4 (repeat 7%N 200).

Lemma octets_forallb (l : bytes) : forallb (fun b => b <? 256)%N l = true -> Forall octet l.
Proof. rewrite forallb_forall, List.Forall_forall. intros H x Hx. by apply N.ltb_lt, H. Qed.

Lemma der_items_exact_witness : _der_items two_items = Ok (get_ok [] (_der_items two_items)).
Proof.
  apply (der_items_exact two_items); [apply octets_forallb; by vm_compute |].
  apply (der_items_exact two_items); [apply octets_forallb; by vm_compute | by vm_compute].
Defined.

Definition set_of (t : N) (items : list bytes) : bytes := der_encode t (concat items).
Definition seq_of (items : list bytes) : bytes := set_of 0x30 items.
Definition algorithm : bytes := seq_of [der_encode 6 [0x2b; 0x65; 0x70]%N].
Definition key_info : bytes := seq_of [algorithm; der_encode 3 (repeat 1%N 33)].
Definition extension (oid value : bytes) : bytes := seq_of [der_encode 6 oid; der_encode 4 value].
Definition urn : bytes := u "urn:planeon:campaign-proxy:tenant-a:lab:n-1:edge".

Definition leaf_der : bytes := Eval vm_compute in
  seq_of
    [seq_of [[0xa0; 3; 2; 1; 2]%N; der_encode 2 [1%N]; algorithm; seq_of []; 
             seq_of [der_encode 0x17 (u "240501000000Z"); der_encode 0x18 (u "20240601000000Z")]; seq_of []; key_info;
             set_of 0xa3 [seq_of [extension oid_basic (seq_of []);
                                  extension oid_eku (seq_of [der_encode 6 client_auth]);
                                  extension oid_san (seq_of [der_encode 0x86 urn])]]];
     algorithm; der_encode 3 (repeat 2%N 65)].

Definition mutual_endpoint : value := obj_of [("endpointId", s_ "edge")].
Definition enrolling_profile : value := Eval vm_compute in
  obj_of [("binding", obj_of [("tenantId", s_ "tenant-a"); ("environmentId", s_ "lab"); ("runNonce", s_ "n-1");
                              ("validFrom", s_ "2024-05-02T00:00:00Z"); ("expiresAt", s_ "2024-05-02T01:00:00Z")]);
          ("capacityEntries", obj_of [("credentialIdentities", VList
             [obj_of [("endpointId", s_ "edge"); ("purpose", s_ "CAMPAIGN_PROXY_CLIENT_MTLS");
                      ("certificateDigest", VStr (byte_digest leaf_der)); ("clientSpkiDigest", VStr (byte_digest key_info))]])])].

Definition no_certificate : certificate :=
  {| leaf := []; spki := []; notBefore := {| instant := 0; aware := true |}; notAfter := {| instant := 0; aware := true |};
     eku := []; sans := [] |}.

Lemma client_certificate_pinned_witness :
  sans (get_ok no_certificate (_check_certificate leaf_der enrolling_profile mutual_endpoint true)) = [(0x86%N, urn)].
Proof.
  edestruct (client_certificate_pinned leaf_der enrolling_profile mutual_endpoint
    (get_ok no_certificate (_check_certificate leaf_der enrolling_profile mutual_endpoint true)))
    as (row & binding & purpose & name & c & start & stop & H1 & H2 & H3 & H4 & _ & _ & _ & _ & _ & _ & _ & _ & _ & H5 & _).
  - apply octets_forallb; by vm_compute.
  - apply get_ok_eq; by vm_compute.
  - rewrite H5. vm_compute in H1. injection H1 as <-. vm_compute in H2, H3. injection H2 as <-. injection H3 as <-.
    vm_compute in H4. injection H4 as <-. reflexivity.
Defined.

Definition pem_block (l : string) (b : string) : bytes :=
  u "-----BEGIN " ++ u l ++ u "-----" ++ [10%N] ++ u b ++ [10%N] ++ u "-----END " ++ u l ++ u "-----" ++ [10%N].
Definition credential_bundle : bytes := Eval vm_compute in
  pem_block "CERTIFICATE" "AQID" ++ pem_block "PRIVATE KEY" "MAA=".

Lemma bundle_is_blocks_witness : exists texts rest, credential_bundle = concat texts ++ rest /\ blank rest = true.
Proof.
  edestruct (bundle_is_blocks credential_bundle (get_ok [] (credential_leaf credential_bundle))) as (ms & texts & rest & H1 & H2 & _).
  - apply get_ok_eq; by vm_compute.
  - exact (ex_intro _ texts (ex_intro _ rest (conj H1 H2))).
Defined.

(** ** A stream *)

(** What is left to read; a read takes three octets at most. *)
#[local] Instance trickle : Tls bytes := {|
  tls_read n _ s := (Ok (take (Nat.min 3 (Z.to_nat n)) s), drop (Nat.min 3 (Z.to_nat n)) s);
  monotonic := mret 0;
  tls_deadline _ := 60;
  ssl_pending _ := 0;
  incoming_pending _ := 0
|}.

#[local] Instance trickle_ok : TlsOk trickle.
Proof.
  refine {| carries := fun s b => s = b |}; try done.
  - intros s b n d -> Hn Hb. exists (take (Nat.min 3 (Z.to_nat n)) b), (drop (Nat.min 3 (Z.to_nat n)) b), (drop (Nat.min 3 (Z.to_nat n)) b).
    rewrite take_drop. repeat split; [|unfold zlen; rewrite length_take; lia].
    destruct b as [|x b]; [done |]. destruct (Nat.min 3 (Z.to_nat n)) eqn:E; [lia | done].
  - intros s n d ->. exists []. cbn. by rewrite take_nil, drop_nil.
  - intros s b ->. by exists 0, b.
Defined.

Lemma http_message_read_witness : exists msg, http_message (u "HTTP/1.1 200 OK") (u "{}") None = Ok msg /\
  exists s', read_http true None msg = (Ok (u "HTTP/1.1 200 OK", u "{}"), s').
Proof.
  edestruct (http_message_read (T := trickle) true None (u "HTTP/1.1 200 OK") (u "{}")) as (msg & H1 & H2).
  - by vm_compute.
  - done.
  - done.
  - exact (ex_intro _ msg (conj H1 (H2 msg eq_refl))).
Defined.

Definition ok_response : bytes := Eval vm_compute in get_ok [] (http_message (u "HTTP/1.1 200 OK") (u "{}") None).

Lemma http_response_exact_witness : exists s', read_http true None ok_response = (Ok (u "HTTP/1.1 200 OK", u "{}"), s').
Proof.
  assert (carries ok_response ok_response) as Hc by reflexivity.
  apply (http_response_exact (T := trickle) ok_response ok_response None (u "HTTP/1.1 200 OK") (u "{}") Hc).
  exists (take (length ok_response - 6) ok_response). split; by vm_compute.
Defined.

(** ** Kernel data *)

Fixpoint le_bytes (n : nat) (z : Z) : bytes :=
  match n with O => [] | Datatypes.S n => Z.to_N (z mod 256) :: le_bytes n (z / 256) end.

Definition elf_file : bytes := Eval vm_compute in
  elf_magic ++ [0%N] ++ repeat 0%N 8 ++ le_bytes 2 3 ++ le_bytes 2 62 ++ le_bytes 4 1 ++ le_bytes 8 0 ++ le_bytes 8 64 ++
  le_bytes 8 0 ++ le_bytes 4 0 ++ le_bytes 2 64 ++ le_bytes 2 56 ++ le_bytes 2 1 ++ repeat 0%N 6 ++
  le_bytes 4 1 ++ le_bytes 4 5 ++ le_bytes 8 0 ++ le_bytes 8 0 ++ le_bytes 8 0 ++ le_bytes 8 120 ++ le_bytes 8 120 ++ le_bytes 8 4096.

Definition no_layout : layout := {| KernelData.kind := 0; interpreter := None; segments := [] |}.

Lemma elf_layout_exact_witness : segments (get_ok no_layout (_elf_code_layout elf_file (u "x86_64") 4096)) <> [].
Proof.
  edestruct (elf_layout_exact elf_file (u "x86_64") 4096 (get_ok no_layout (_elf_code_layout elf_file (u "x86_64") 4096)))
    as (_ & H & _); [apply get_ok_eq; by vm_compute | exact H].
Defined.

Definition auxv_words (l : list (Z * Z)) : bytes := flat_map (fun p => le_bytes 8 p.1 ++ le_bytes 8 p.2) l.
Definition an_auxv : bytes := Eval vm_compute in auxv_words [(6, 4096); (33, 0x7f0000002000); (0, 0)].
Definition a_map : bytes := Eval vm_compute in
  u "00400000-00401000 r-xp 00000000 08:01 77                             /usr/bin/python3" ++ [10%N] ++
  u "00601000-00602000 rw-p 00001000 08:01 77                             /usr/bin/python3" ++ [10%N] ++
  u "7f0000002000-7f0000004000 r-xp 00000000 00:00 0                      [vdso]" ++ [10%N].

Definition no_code : code_maps := {| files := []; kernel := []; pageSize := 0 |}.

Lemma map_code_complete_witness :
  code_ranges (get_ok no_code (_proc_code_maps a_map (u "x86_64") an_auxv)) ≡ₚ executable_lines (splitlines octet_line_end a_map).
Proof.
  edestruct (map_code_complete a_map (u "x86_64") an_auxv (get_ok no_code (_proc_code_maps a_map (u "x86_64") an_auxv))) as [H _];
    [apply get_ok_eq; by vm_compute | exact H].
Defined.

Definition a_stat : bytes := Eval vm_compute in
  u "41 (python3) S 40 41 41 0 -1 4194560 9 0 0 0 1 1 0 0 20 0 1 0 777 9 9" ++ concat (repeat (u " 0") 28) ++ [10%N].
Definition a_status : bytes := Eval vm_compute in
  concat (map (fun l => u l ++ [10%N])
    ["Name:	python3"; "Tgid:	41"; "Pid:	41"; "PPid:	40"; "TracerPid:	0"; "Uid:	0 0 0 0"; "Gid:	0 0 0 0"; "Groups:	0"; "NStgid:	41 2";
     "NSpid:	41 2"; "Threads:	1"; "CapInh:	0000000000000000"; "CapPrm:	0000000000000000"; "CapEff:	0000000000000000";
     "CapBnd:	0000000000000000"; "CapAmb:	0000000000000000"; "NoNewPrivs:	1"; "Seccomp:	2"]).

Definition no_process : process_fields :=
  {| KernelData.pid := 0; KernelData.parent := 0; startTicks := 0; threads := 0; KernelData.uid := []; KernelData.gid := [];
     namespacePids := []; groups := []; KernelData.capabilities := []; seccompMode := 0; KernelData.noNewPrivs := 0 |}.

Lemma process_views_agree_witness : seccompMode (get_ok no_process (_proc_process_fields a_stat a_status)) = 2.
Proof.
  edestruct (process_views_agree a_stat a_status (get_ok no_process (_proc_process_fields a_stat a_status)))
    as (_ & _ & _ & _ & _ & _ & _ & _ & _ & H & _); [apply get_ok_eq; by vm_compute | exact H].
Defined.
