(* ===== verification/NativeSamples.v ===== *)
(** Small kernels and runs on which the native parts and the proxy server are tried: a supervisor's session,
    the retained code of a process, the late resources of an operation, a channel with its three
    processes, and a server whose kernel refuses everything. *)

From S2P Require Import Prelude Effects PyVal Utf8 Json Sha2 Canonical Base64 Ed25519 IsoTime Regex SchemaBase Lifecycle LinuxShape.
From S2P Require Import Live LinuxVerify Session ReplayStore Posix Text Boundary KernelData Supervisor SupervisorRuns Custody CustodyRuns Late LateRuns.
From S2P Require Import Process Channel ChannelRuns CodeView CodeRuns Files Store PeerLink Observer TlsCodec BrokerData ServerBase BrokerStart BrokerClose.
From S2P Require Import BrokerSteps Server BrokerRuns Samples LiveSamples AuthoritySamples KernelSamples.


(** A whole session of the supervisor: a boundary that answers every request with a receipt that
    passes, and clocks that tick; the run that completes, and runs that stop early. *)
Module SupervisorRun.
Import Prelude Effects PyVal Utf8 Json Sha2 Canonical Base64 Ed25519 IsoTime Regex SchemaBase Lifecycle LinuxShape LinuxVerify Live Session ReplayStore Supervisor SupervisorRuns Samples LiveSamples.

#[local] Open Scope string_scope.
#[local] Open Scope list_scope.
#[local] Open Scope Z_scope.

#[local] Existing Instance ascii_nfc.

(** A monotonic clock that counts microseconds. *)
#[local] Instance microseconds : Monotonic Z := {|
  is_number _ := true;
  tick_leb := Z.leb;
  tick_ltb := Z.ltb;
  after m d := m + Z.min d (900 * 1000000)
|}.

Definition full : string := "FULL_PREDECESSOR_REGRESSION".

Definition request_for (c : str) : value :=
  VDict [(u "schemaVersion", s_ "harness.planeon.ai/linux-probe-request/v1alpha1"); (u "operation", VStr c);
         (u "endpointId", s_ "edge"); (u "namespace", s_ "ns"); (u "method", s_ "POST"); (u "path", VStr (probe_path c));
         (u "runNonce", s_ "n-1"); (u "architecture", s_ "amd64"); (u "probeDigest", h0); (u "commandDigest", h0)].

(** What the boundary returns for a request: a receipt with every check at a status. *)
Definition output_of (case : value) (status : string) : value :=
  obj_of [("checks", obj_of (map (fun c => (c, s_ status)) (checks_of case)));
          ("regressions", if eq_lit case full
             then all REPOSITORIES (obj_of [("inventoryDigest", h0); ("collected", VInt 200); ("executed", VInt 200);
                                            ("skipped", VInt 0); ("failed", VInt 0)])
             else VDict [])].
Definition receipt_for (status : string) (r : value) : value :=
  let case := get_ok VNone (fld r "operation") in
  let output := output_of case status in
  obj_of [("caseId", case); ("status", s_ status); ("observedAt", s_ "2024-05-01T11:00:00Z"); ("runNonce", s_ "n-1");
          ("probeDigest", h0); ("commandDigest", h0);
          ("outputDigest", VStr (get_ok [] (canonical_digest output (Some "planeon.linux-probe-output/v1alpha1"))));
          ("output", output)].

(** The boundary: the state is the reading of the clock, [status] what its receipts claim. *)
Definition boundary (status : string) : Outside Z Z := {|
  wall := mret at_noon;
  ticks := fun m => (Ok m, m + 1);
  reserve_nonce _ _ := mret (u "reserved");
  running _ _ := mret (u "running");
  terminal _ _ _ _ := mret (u "terminal");
  establish _ _ _ := mret tt;
  check_peer := mret tt;
  request c := mret (request_for c);
  execute r _ := mret (Value (receipt_for status r));
  cleanup := mret tt;
  interrupt := mret tt
|}.

Definition session_plan : value :=
  obj_of [("target", obj_of [("architecture", s_ "amd64")]);
          ("regressions", all REPOSITORIES (obj_of [("inventoryDigest", h0); ("testCount", VInt 200)]))].

Definition run_case (c : string) : command := Execute (Some 1) (s_ c) (s_ "amd64") None.
Definition opening : command := Open (Value session_binding) session_plan.

Definition kinds (log : list event) : list string := map (fun e => match e with
  | Reserved _ => "reserved" | Established => "established" | Peer => "peer" | Running _ => "running"
  | Asked _ _ => "asked" | Executed _ _ => "executed" | Cleaned => "cleaned" | Ended s => if str_eqb s (u "COMPLETED") then "completed" else "ended" end) log.

(** The ten cases complete the session. *)
Example ten_cases_complete :
  kinds (log_of (perform_all (O := boundary "PASS") (opening :: map run_case CASES) (starting (M := Z) 0))) =
    ["reserved"; "established"; "peer"; "running"] ++
    concat (repeat ["peer"; "asked"; "executed"; "peer"] 10) ++ ["cleaned"; "completed"].
Proof. by vm_compute. Qed.

(** A case that does not pass is the last; a session that is closed is not opened again. *)
Example failed_case_ends :
  kinds (log_of (perform_all (O := boundary "FAIL")
    [opening; run_case "KUBERNETES_SMOKE"; run_case full; Close None; opening] (starting (M := Z) 0))) =
    ["reserved"; "established"; "peer"; "running"; "peer"; "asked"; "executed"; "peer"; "cleaned"; "ended"].
Proof. by vm_compute. Qed.

(** A foreign handle executes nothing; an operation out of the inventory ends the session. *)
Example foreign_handle_refused :
  kinds (log_of (perform_all (O := boundary "PASS")
    [opening; Execute (Some 2) (s_ full) (s_ "amd64") None; Execute None (s_ full) (s_ "amd64") None;
     Execute (Some 1) (s_ "OTHER") (s_ "amd64") None] (starting (M := Z) 0))) =
    ["reserved"; "established"; "peer"; "running"; "cleaned"; "ended"].
Proof. by vm_compute. Qed.
End SupervisorRun.

(** A view of one pinned file over a small kernel: its construction, a match of an executable map,
    the descriptors it used, and a map it refuses. *)
Module CodeRun.
Import Prelude Effects PyVal Utf8 Json Sha2 Canonical Regex Text SchemaBase Session Boundary Custody CustodyRuns KernelData CodeView CodeRuns Samples KernelSamples.

#[local] Open Scope string_scope.
#[local] Open Scope list_scope.
#[local] Open Scope Z_scope.

(** ** A kernel of one directory tree *)

(** The world counts the descriptors; the last two digits of one tell what it is open on. *)
Definition object (fd : Z) : Z := fd mod 100.
Definition object_of (name : str) : Z := if str_eqb name (u "python3") then 6 else if str_eqb name (u "bin") then 5 else 4.

#[local] Instance small_kernel : Custodian Z := {|
  owner_alive _ := true;
  os_open _ name _ w := (Ok (100 * w + object_of name), w + 1);
  os_fstat fd := mret {| st_dev := 2049; st_ino := object fd; Custody.st_uid := 0; Custody.st_gid := 0;
    Custody.st_mode := if object fd =? 6 then 33133 else 16877; Custody.st_nlink := 1; Custody.st_size := 120; st_mtime_ns := 0; st_ctime_ns := 0 |};
  os_stat _ _ := throw OSError;
  os_read _ _ := throw OSError;
  os_listdir _ := mret [];
  os_close _ := mret tt;
  late_close := mret tt
|}.

Definition an_identity (fd : Z) : native_identity :=
  {| inode_identity := [2049; if object fd =? 6 then 77 else object fd]; mount_id := 1; filesystem := [1; 2] |}.

#[local] Instance small_inspector : Inspector Z Z := {|
  same_process _ := true;
  inspection_tick := mret tt;
  CodeView.now := mret 0;
  tick_leb := Z.leb;
  tick_ltb := Z.ltb;
  two_seconds_after t := t + 2;
  check_roots := mret tt;
  root_descriptor _ := 3;
  machine := u "x86_64";
  directory_identity fd := mret (an_identity fd);
  proc_file_identity fd := mret (an_identity fd);
  measure_verity _ := mret (u "verity");
  os_pread _ n o := mret (take (Z.to_nat n) (drop (Z.to_nat o) elf_file));
  os_getxattr _ := mret (u "bin_t")
|}.

Definition one_pin : list (str * pin) := Eval vm_compute in
  [(u "/usr/bin/python3",
    {| pin_path := u "/usr/bin/python3"; pin_mode := 365; pin_size := zlen elf_file; pin_digest := byte_digest elf_file;
       pin_verity := u "verity"; pin_label := u "bin_t";
       pin_segments := [{| pin_offset := 0; pin_length := 4096; pin_permissions := u "r-xp" |}] |})].

Definition viewed : code_view (Z * list descriptor_event) Z := Eval vm_compute in starting one_pin 4096 1 0.

(** The construction holds three descriptors and has closed those of its two comparisons. *)
Example view_constructed : spent viewed = false /\ table_fds (rows viewed) = [104; 205; 306] /\
  length (opens (view_log viewed)) = 9%nat /\ length (closes (view_log viewed)) = 6%nat.
Proof. vm_compute. repeat split. Qed.

(** The map of KernelSamples is accepted, and the closing then closes everything. *)
Example view_matches : (match_maps one_pin 4096 a_map an_auxv viewed).1 = Ok tt /\
  let s := perform_all one_pin 4096 [Match_maps a_map an_auxv; Close_code] viewed in
  rows s = [] /\ length (opens (view_log s)) = length (closes (view_log s)).
Proof. vm_compute. repeat split. Qed.

Definition foreign_map : bytes := Eval vm_compute in
  u "00400000-00401000 r-xp 00000000 08:01 78                             /usr/bin/python4" ++ [10%N] ++
  u "7f0000002000-7f0000004000 r-xp 00000000 00:00 0                      [vdso]" ++ [10%N].

(** A file that is not pinned is refused, and the view is then of no more use. *)
Example foreign_code_refused :
  (match_maps one_pin 4096 foreign_map an_auxv viewed).1 = conf "KERNEL_CODE_MAP_UNENROLLED" /\
  spent (perform one_pin 4096 (Match_maps foreign_map an_auxv) viewed) = true.
Proof. vm_compute. by split. Qed.
End CodeRun.

(** The late resources of one operation over a small kernel: the credential is read, a socket and
    a sealed memory file are lent, the operation finishes; and an operation whose peer dies. *)
Module LateRun.
Import Prelude Effects PyVal Utf8 Json Sha2 Canonical IsoTime Regex SchemaBase Lifecycle LinuxShape LinuxVerify Live Posix Boundary Custody Late LateRuns Samples AuthoritySamples.

#[local] Open Scope string_scope.
#[local] Open Scope list_scope.
#[local] Open Scope Z_scope.

#[local] Existing Instance ascii_nfc.

(** ** The documents *)

Definition the_envelope : value := Eval vm_compute in
  obj_of [("tenantId", s_ "tenant-a"); ("environmentId", s_ "lab"); ("nonce", s_ "n-1"); ("endpoints", VList [proxy_endpoint])].
Definition the_capacity : value := Eval vm_compute in
  obj_of [("nonce", s_ "c-1"); ("namespace", s_ "ns"); ("permittedEndpointIds", VList [s_ "edge"]); ("campaignProxyRules", VList [rule]);
          ("credentialIdentities", VList [obj_of [("endpointId", s_ "edge"); ("purpose", s_ "CAMPAIGN_PROXY_CLIENT_MTLS");
             ("subject", s_ "runner"); ("expiresAt", s_ "2024-05-01T20:00:00Z")]])].
Definition the_profile : value := Eval vm_compute in
  obj_of [("profileId", s_ "CAMPAIGN_PROXY_MTLS_ZERO_COST_V1");
          ("binding", obj_of [("tenantId", s_ "tenant-a"); ("environmentId", s_ "lab"); ("runNonce", s_ "n-1"); ("capacityNonce", s_ "c-1");
             ("namespace", s_ "ns"); ("endpointId", s_ "edge"); ("serviceAccountSubject", s_ "runner");
             ("validFrom", s_ "2024-05-01T09:00:00Z"); ("expiresAt", s_ "2024-05-01T20:00:00Z")]);
          ("capacityEntries", obj_of [("nonce", s_ "c-1")])].
Definition the_kit : list (str * bytes) := Eval vm_compute in [(u PROFILE, get_ok [] (canonical_bytes the_profile))].
Definition the_binding : value := obj_of [("endpointId", s_ "edge")].

(** ** The kernel *)

Definition credential : bytes := u "creds".

(** The next descriptor, how much of the file was read, what the memory file holds, its seals, and
    whether the peer lives. *)
Record machine_state := { count : Z; offset : nat; memory : bytes; sealing : Z; alive : bool }.

Definition object (fd : Z) : Z := fd mod 100.
Definition object_of (name : str) : Z := if str_eqb name (u "key.pem") then 7 else if str_eqb name (u "etc") then 2 else 1.
Definition stat_of (o : Z) (w : machine_state) : full_stat :=
  {| st_dev := 1; st_ino := o; Custody.st_uid := 0; Custody.st_gid := 0;
     Custody.st_mode := if o =? 7 then 33024 else if o =? 8 then 33152 else if o =? 9 then 49663 else 16877;
     Custody.st_nlink := 1; Custody.st_size := if o =? 7 then zlen credential else if o =? 8 then zlen (memory w) else 0;
     st_mtime_ns := 0; st_ctime_ns := 0 |}.

Definition next (w : machine_state) : machine_state :=
  {| count := count w + 1; offset := offset w; memory := memory w; sealing := sealing w; alive := alive w |}.

#[local] Instance small_kernel : Custodian machine_state := {|
  owner_alive _ := true;
  os_open _ name _ w := (Ok (100 * count w + object_of name), next w);
  os_fstat fd w := (Ok (stat_of (object fd) w), w);
  os_stat _ name w := (Ok (stat_of (object_of name) w), w);
  os_read _ n w := (Ok (take (Z.to_nat n) (drop (offset w) credential)),
    {| count := count w; offset := 5; memory := memory w; sealing := sealing w; alive := alive w |});
  os_listdir _ := mret [];
  os_close _ := mret tt;
  late_close := mret tt
|}.

#[local] Instance small_session : Native machine_state Z := {|
  owner _ := {| intact := true; native_boundary := true; context_deadline := Some 9;
    active_session := Some {| nonce_reserved := true; session_state := s_ "RUNNING"; active_deadline := 9; done := [] |} |};
  custody_handles _ := [];
  wall_clock := mret (s_ "2024-05-01T12:00:00Z");
  check_peer w := (if alive w then Ok tt else conf "PEER_DIED", w);
  proxy_access w := (if alive w then Ok tt else conf "PEER_DIED", w);
  get_inheritable _ := mret false;
  new_socket _ w := (Ok {| Late.object := 1; number := 100 * count w + 9 |}, next w);
  not_inheritable _ := mret tt;
  fileno sock := mret (number sock);
  socket_close _ := mret tt;
  detach _ := mret tt;
  memfd_create w := (Ok (Some (100 * count w + 8)), next w);
  get_seals _ w := (Ok (Z.lor F_SEAL_EXEC (sealing w)), w);
  add_seals _ n w := (Ok tt, {| count := count w; offset := offset w; memory := memory w; sealing := n; alive := alive w |});
  os_write _ b w := (Ok (Z.min 3 (zlen b)),
    {| count := count w; offset := offset w; memory := memory w ++ take 3 b; sealing := sealing w; alive := alive w |})
|}.

(** ** Runs *)

Definition booted (alive : bool) : machine_state := {| count := 1; offset := 0; memory := []; sealing := 0; alive := alive |}.
Definition smoke : str := u "KUBERNETES_SMOKE".
Definition smoke_request : value := Eval vm_compute in get_ok VNone (build_probe_request the_envelope the_capacity plan (VStr smoke)).

Notation run_all cs live := (LateRuns.perform_all the_kit the_envelope the_capacity plan the_binding (u "/kit") true cs (LateRuns.starting (booted live))).

Definition lending_all : list (LateRuns.command (M := Z)) := [Begin smoke_request 9; Credential; Open_transport; Open_memfd].

(** The credential is written in two parts and sealed. *)
Example credential_is_lent : let s := run_all lending_all true in
  state s = IO_ACTIVE /\ raw s = Some credential /\ length (lent s) = 2%nat /\
  log_of s = [Made 101; Made 202; Made 307; Made 409; Made 508; Wrote 508 (u "cre"); Wrote 508 (u "ds"); Sealed 508 SEALS].
Proof. vm_compute. repeat split. Qed.

(** Finishing closes what was lent and keeps what was read; closing gives up the rest. *)
Example operation_finishes : state (run_all (lending_all ++ [Finish]) true) = RETAINED /\
  let s := run_all (lending_all ++ [Finish; Close]) true in state s = CLOSED /\ raw s = None /\ gone (log_of s) = [409; 508; 307; 202; 101].
Proof. vm_compute. repeat split. Qed.

(** Without its peer nothing is read. *)
Example dead_peer_gets_nothing : let s := run_all lending_all false in state s = FAILED /\ raw s = None /\ log_of s = [].
Proof. vm_compute. repeat split. Qed.
End LateRun.

(** A run of the native channel over a small kernel: the three processes confine the last of them,
    [establish] returns, and the checks of a channel answer; and a run whose init does not get its
    filter. *)
Module ChannelRun.
Import Prelude Effects PyVal Utf8 Json Text SchemaBase Lifecycle LinuxShape Live LinuxVerify Session Posix Custody Supervisor Boundary Process Channel ChannelRuns.

#[local] Open Scope string_scope.
#[local] Open Scope list_scope.
#[local] Open Scope Z_scope.

#[local] Instance ticks_of_Z : Monotonic Z := {|
  is_number _ := true;
  tick_leb := Z.leb;
  tick_ltb := Z.ltb;
  Supervisor.after m d := m + d
|}.

(** ** The kernel *)

(** What /proc shows of the init, 200, whose parent is 100. *)
Definition zeros (n : nat) : str := flat_map (fun _ => u "0 ") (seq 0 n).
Definition newline : str := [10%N].
Definition status_text : str :=
  flat_map (fun s => u s ++ newline)
    ["Uid: 65532 65532 65532 65532"; "Gid: 65532 65532 65532 65532"; "CapInh: 0"; "CapPrm: 0"; "CapEff: 0"; "CapBnd: 0"; "CapAmb: 0";
     "NoNewPrivs: 1"; "Seccomp: 2"].
#[local] Instance small_proc : Procfs := {|
  read_text _ name :=
    Ok (if String.eqb name "stat" then u "200 (planeon) S 100 " ++ zeros 17 ++ u "77 0" ++ newline
        else if String.eqb name "status" then status_text
        else u "0::/planeon-live/session" ++ newline);
  namespace_inode _ _ := Ok 9
|}.

Definition le32 (n : Z) : bytes := map (fun i => Z.to_N (n / 256 ^ i mod 256)) [0; 1; 2; 3].
Definition sender (pid uid gid : Z) : list message := [{| level := 1; kind := 2; content := le32 pid ++ le32 uid ++ le32 gid |}].

Definition any_file : full_stat :=
  {| st_dev := 1; st_ino := 7; Custody.st_uid := 0; Custody.st_gid := 0; Custody.st_mode := 33188; Custody.st_nlink := 1;
     Custody.st_size := 0; st_mtime_ns := 0; st_ctime_ns := 0 |}.

(** What the kernel answers the process [i], whose messages come from [cred]; [fails] is a call it
    refuses. *)
Definition answers (fails : sys Z -> bool) (i : nat) (cred : list message) (a : sys Z) : res (answer a) :=
  if fails a then Raise OSError else
  match a as a return res (answer a) with
  | Fork => Ok (100 * (Z.of_nat i + 1))
  | Getpid | Getppid => Ok 42
  | Fileno _ | Open _ _ | Pidfd_open _ | Open_directory _ => Ok 5
  | Own_namespace _ => Ok 3
  | Statfs _ => Ok CGROUP2_MAGIC
  | Write _ b => Ok (zlen b)
  | Exit _ => Raise OSError
  | Fstat _ => Ok any_file
  | Read _ _ => Ok [0%N]
  | Recv _ _ => Ok (Some [0%N])
  | Recvmsg _ _ => Ok (Some ([0%N], cred, 0))
  | Wait_any => Ok None
  | Uname => Ok (u "x86_64")
  | Monotonic_clock => Ok 0
  | Procfs_now => Ok small_proc
  | Execute_protected _ _ => Raise OSError
  | Readable _ | Cancelled => Ok false
  | Drop_bounding _ | Owner_kinds | Is_context | Deadline_unchanged _ | Holds_credential => Ok true
  | _ => Ok tt
  end.

(** ** The runs *)

Definition idle : native Z :=
  {| Channel.deadline := None; Channel.socket := false; child_pid := None; pidfd := None; Channel.peer := None; channel_identity := None;
     root_fd := Some 8; parent_namespaces := [(u "user", 3); (u "mnt", 3); (u "pid", 3); (u "net", 3)]; lease_fd := 9;
     lease_closed := false; owned := false |}.

(** A process waits when what it reads is not there yet; it is done when nothing follows. *)
Definition waits (w : world (M := Z)) (p : process (M := Z)) : bool :=
  match code p with
  | Some (Do (Read GateRead _) _) => match gate w with [] => true | _ => false end
  | Some (Do (Recv ChildEnd _) _) => match to_child w with [] => true | _ => false end
  | Some (Do (Recvmsg ParentEnd _) _) => match to_parent w with [] => true | _ => false end
  | Some (Do _ _) | Some (Get _) | Some (Put _ _) => false
  | _ => true
  end.

Fixpoint first_ready (w : world (M := Z)) (i : nat) (l : list (process (M := Z))) : option nat :=
  match l with [] => None | p :: l => if waits w p then first_ready w (S i) l else Some i end.

(** The messages to the supervisor: the first is the child's, the next the init's. *)
Definition cred_of (w : world (M := Z)) : list message :=
  match procs w with [_; _; _] => sender 200 65532 65532 | _ => sender 100 0 0 end.

(** The schedule that always runs the first process that can go on. *)
Fixpoint schedule_of (fails : sys Z -> bool) (n : nat) (w : world (M := Z)) : list (nat * oracle (M := Z)) :=
  match n with
  | O => []
  | S n => match first_ready w 0 (procs w) with
           | Some i => let o := (answers fails i (cred_of w), false) in (i, o) :: schedule_of fails n (advance (u "x86_64") (fun _ => 5) i o w)
           | None => []
           end
  end.

Definition begins : world (M := Z) := starting (M := Z) (u "x86_64") 1000 20 idle 42.
Definition run_of (fails : sys Z -> bool) : world (M := Z) := after (u "x86_64") 1000 20 (fun _ => 5) (schedule_of fails 400 begins) idle 42.

Definition summary_of (w : world (M := Z)) : list (bool * list step * bool * bool) :=
  map (fun p => (match code p with None => true | _ => false end, steps p, dies p,
                 match code p with Some (Return _) => true | _ => false end)) (procs w).

(** The supervisor returns; the child has waited for the init, which has taken every step. *)
Example channel_is_established : summary_of (run_of (fun _ => false)) =
  [(false, [], false, true); (true, take 5 ORDER, true, false); (false, ORDER, true, false)].
Proof. vm_compute. reflexivity. Qed.

(** Without its filter the init exits before it reports, and the supervisor does not return. *)
Example unfiltered_init_exits : summary_of (run_of (fun a => match a with Filter _ => true | _ => false end)) =
  [(false, [], false, false); (true, take 5 ORDER, true, false); (true, take 12 ORDER, true, false)].
Proof. vm_compute. reflexivity. Qed.

(** ** Single methods *)

(** A run of a program by itself, every call answered by [ans]. *)
Fixpoint play {A} (ans : forall a : sys Z, res (answer a)) (p : prog (@answer Z) (native Z) A) (m : native Z) : res A * native Z :=
  match p with
  | Return x => (Ok x, m)
  | Throw e => (Raise e, m)
  | Do a k => play ans (k (ans a)) m
  | Get k => play ans (k m) m
  | Put m k => play ans k m
  end.

(** A kernel whose cgroup says [events]. *)
Definition over_events (events : bytes) (a : sys Z) : res (answer a) :=
  match a as a return res (answer a) with Read _ _ => Ok events | a => answers (fun _ => false) 0 [] a end.

Definition attached : native Z := set_child 100 (set_socket true (set_lease 9 false true idle)).

Example lease_is_given_back :
  play (over_events (u "populated 0" ++ [10%N] ++ u "frozen 0" ++ [10%N])) (kill_and_reap 3 50) attached = (Ok tt, set_lease 9 true true attached).
Proof. vm_compute. reflexivity. Qed.

Example populated_cgroup_is_kept :
  play (over_events (u "populated 1" ++ [10%N])) (kill_and_reap 3 50) attached = (Raise RecursionError, attached).
Proof. vm_compute. reflexivity. Qed.

Example channel_cleans_up :
  play (over_events (u "populated 0" ++ [10%N])) (cleanup_native 3) attached =
  (Ok tt, set_root None (set_socket false (set_lease 9 true true attached))).
Proof. vm_compute. reflexivity. Qed.
End ChannelRun.

(** A site whose kernel refuses everything but the clocks and counts its calls, on which the theorem about
    the failures of a broker connection is applied. *)
Import Prelude Effects PyVal Utf8 Json Sha2 Canonical Ed25519 IsoTime Posix SchemaBase Boundary Files Store PeerLink Observer TlsCodec BrokerData ServerBase BrokerStart BrokerClose BrokerSteps Server BrokerRuns Samples AuthoritySamples.

#[local] Open Scope string_scope.
#[local] Open Scope list_scope.
#[local] Open Scope Z_scope.

#[local] Existing Instance ascii_nfc.
#[local] Existing Instance checksum_scheme.

(** A call that is counted and refused, and a reading of the clock, which advances with every call. *)
Definition refuse {A} : io Z A := fun n => (Raise OSError, n + 1).
Definition reading : io Z Z := fun n => (Ok (1000 * n), n + 1).

#[local] Instance refusing_site : Site Z := {|
  same_process _ := true; machine _ := u "x86_64"; envelope_variable _ := None; entry_check := refuse;
  clock_wall n := (Ok (s_ "2024-06-01T00:00:00Z"), n + 1); clock_ticks := reading;
  k_open _ _ _ := refuse; k_open_rw _ _ := refuse; k_fstat _ := refuse; k_stat _ _ := refuse; k_inheritable _ := refuse;
  k_read _ _ := refuse; k_pread _ _ := refuse; k_write _ _ := refuse; k_fsync _ := refuse; k_flock _ _ := refuse; k_listdir _ := refuse;
  k_close _ := refuse; k_memfd _ := refuse; k_add_seals _ _ := refuse; k_get_seals _ := refuse; k_rewind _ := refuse; k_random _ := refuse;
  k_unix_socket := refuse; k_inet_socket _ := refuse; k_fileno _ := refuse; k_private _ := refuse; k_pass_credentials _ := refuse;
  k_v6_only _ := refuse; k_timeout _ _ := refuse; k_unix_connect _ _ := refuse; k_connect _ _ := refuse; k_bind _ _ := refuse;
  k_listen _ := refuse; k_accept _ := refuse; k_socket_name _ := refuse; k_peer_name _ := refuse; k_peer_credentials _ := refuse;
  k_send _ _ := refuse; k_receive _ := refuse; k_receive_message _ := refuse; k_close_socket _ := refuse; k_detach _ := refuse;
  k_select _ _ := refuse; k_pidfd _ := refuse; k_proc := refuse; k_proc_exe _ := refuse;
  tls_new _ _ _ := refuse; tls_wrap _ _ _ := refuse; tls_handshake _ := refuse; tls_write _ _ := refuse; tls_read_some _ _ := refuse;
  tls_unwrap _ := refuse; tls_is_13 _ _ := false; tls_reused _ _ := false; tls_http11 _ _ := false; tls_certificate _ := refuse;
  tls_pending _ _ := 0; tls_outgoing _ _ := 0; tls_take _ := refuse; tls_give _ _ := refuse; tls_incoming _ _ := 0;
  inspect_self_open := refuse; inspect_self_check := refuse; inspect_self_close := refuse;
  inspect_peer_open _ := refuse; inspect_peer_check _ := refuse; inspect_peer_close _ := refuse;
  require_containment := refuse
|}.

(** A server with nothing but a broker connection that holds a socket and a process. *)
Definition a_time : datetime := {| instant := 0; aware := true |}.
Definition a_server : server Z := blank_server a_time 0 0.
Definition a_connection : link * (steps * server Z) :=
  (with_socket (Some 7) (Some 7) None (with_pidfd (Some 8) None (new_link 0 0)), (no_steps, a_server)).

Definition later_calls : list broker_call := [Poll; Close; Record_intent; Exchange; Check_api; Send_result; Retire].

(** The kernel was called for the clocks and for closing; after that nothing reaches it. *)
Example refused_once :
  (perform 4 Begin a_connection).1 = Raise AttributeError /\ outside (perform 4 Begin a_connection).2.2.2 = 7 /\
  outside (follow 4 later_calls (perform 4 Begin a_connection).2).2.2.2 = 7.
Proof. by vm_compute. Qed.

Lemma outcome_eq {A B} (p : A * B) (x : A) : p.1 = x -> p = (x, p.2).
Proof. by destruct p; intros <-. Qed.

(** The connection fails at its first call, [Begin], for want of an authority. *)
Lemma failure_is_final_witness :
  PeerLink.closed (perform 4 Begin a_connection).2.1 = true /\
  let (rs, t) := follow 4 later_calls (perform 4 Begin a_connection).2 in
  Forall2 (fun c r => c = Close \/ exists e, r = Raise e) later_calls rs /\ PeerLink.closed t.1 = true /\
  outside t.2.2 = outside (perform 4 Begin a_connection).2.2.2 /\ srv_store t.2.2 = srv_store (perform 4 Begin a_connection).2.2.2.
Proof.
  refine (failure_is_final 4 Begin later_calls AttributeError a_connection (perform 4 Begin a_connection).2 _ _).
  - apply outcome_eq. vm_compute. reflexivity.
  - discriminate.
Defined.
